(* ===== verification/_CoqProject ===== *)
-Q . S2P
Prelude.v
PyStr.v
Sha256.v
PyTime.v
PyFloat.v
Canonical.v
PyJson.v
PyText.v
JsonIndent.v
Policy.v
Assessments.v
AssessmentService.v
PyDict.v
Jobs.v
JsonText.v
PyIso.v
SqlJobs.v
Orchestrator.v
Pool.v
Net.v
NetFacts.v
AuditTrail.v
Outbox.v
Evidence.v
Gateway.v
Secrets.v
Keys.v
Updates.v
Scope.v
Grants.v
Enforcer.v
Contracts.v
Adapters.v
StepRunner.v
ToolText.v
ReconTools.v
WebTools.v
CloudTools.v
Tools.v
Intel.v
IntelStore.v
Verification.v
Findings.v
Oracle.v
OracleVerifiers.v
LoopModels.v
Loop.v
Permits.v
Gates.v
LoopBridge.v
Cases.v
Catalog.v
LlmPlanner.v
Prompt.v
Proposer.v
LoopStore.v
Health.v
AppModels.v
LogicTests.v
CaseEngine.v
Peers.v
Safety.v
NftScope.v
Execution.v
ExecutionFacts.v
Workspace.v
Assets.v
Reports.v
Preflight.v
Projects.v
McpTools.v
Mcp.v
McpFacts.v
Api.v
CaseApi.v
LogicStrategies.v
ModelSources.v
