(* ===== verification/Prelude.v ===== *)
(** * SecOpent: verification development (root file)

    SecOpent is a security assessment platform: a human declares a scope,
    plans are generated from a catalog of required test classes, approved,
    dispatched as jobs, and executed by adapters; observations become
    findings, an oracle confirms them, and every action is audited.  Agents
    and a reasoning loop may drive parts of this under grants, gates and
    permits.  This library models the decision-making core under
    src/src/secopent (domain/ and application/), the stores, parsers and gates
    of infrastructure/, and the interfaces that drive it, as executable
    functions, and proves what makes each part correct.  I/O is left to
    parameters.

    ** Conventions

    - A Python value is a Rocq value of the shape the code uses: [string] for
      [str] (bytes; the code's texts are compared, sliced and hashed as such),
      [Z] for [int], [PyFloat.pyfloat] for the floats the code compares,
      microseconds in [Z] for [datetime], [gmap] for repositories keyed by
      identifier, association lists ([PyDict]) for dicts whose order matters,
      [Canonical.json] for payloads.
    - A method that can raise returns [outcome A] ([Ret]/[Raise] with one
      constructor of [exn] per exception class).  A method that changes state
      is [M S A := S -> outcome A * S]: as in Python, a raise does not undo
      what was already written.
    - Identifiers, random tokens and the clock are arguments or monadic
      parameters: theorems hold for every value they may take.
    - Validation done by a dataclass's [__post_init__] is a [check_] or
      [make_] function, called where the code constructs the object.

    ** Files

    - Prelude: exceptions, the two monads, hints and generic lemmas.  PyStr,
      PyTime, PyFloat, PyDict, PyJson, PyText, JsonText, JsonIndent, PyIso,
      Sha256: the parts of Python and its standard library the code rests on
      (string methods, isoformat and fromisoformat, floats as written, ordered
      dicts, repr and truthiness of JSON values, json.dumps and json.loads with
      their round trip, the indented ASCII form, SHA-256).
    - Canonical: domain/common/canonical.py, with injectivity of the printer,
      so that equal digests mean equal content up to a hash collision.
    - Policy: domain/policy/models.py, the shared vocabulary.
    - Assessments, AssessmentService: plans, approvals, the transition table
      and application/assessments.py over its repositories.  The grant service
      is reached through a class of its own with one law; Grants discharges it.
    - Jobs, SqlJobs, Orchestrator, Pool: the job store with leases
      (application/jobs.py), the same store over database rows
      (infrastructure/repositories/sqlalchemy_jobs.py), and the execution of a
      plan in rounds (application/orchestrator.py), sequentially and by
      interleaved workers.
    - Net, NetFacts: urlsplit, ipaddress and the ASCII half of idna as the scope
      uses them.  Scope: domain/scope and application/scopes.py.  Grants:
      domain/grants and application/grants.py.  Enforcer: the policy engine
      (domain/policy/engine.py) and application/scope_enforcer.py.
    - AuditTrail: the hash chain, the signed chain and the audit service.
      Outbox: the transactional outbox in front of it and its worker
      (infrastructure/audit).  Secrets, Keys, Updates: the secret store over
      its two file backends, signing keys over the store, signed update
      bundles with their publisher, synchronisation and rollback.  Evidence:
      evidence layers over a content-addressed store, and redaction.  Gateway:
      what language models are given, and the guard on what comes back.
    - Contracts, Adapters, StepRunner: adapter contracts, the adapter runner
      with its scope gate, and the runner that turns plan steps into one
      container per target (infrastructure/adapters).
    - Verification, Findings, Oracle, OracleVerifiers: the verification
      vocabulary, correlation and attack chains, canary tokens and N-of-N
      reproduction with its batch service, and the verifiers it calls
      (infrastructure/oracle).
    - LoopModels, Loop, Permits, Gates: the reasoning loop, its permits and
      job scheduler, the schema and policy gates, and (Gates.WiredLoop) the
      orchestrator with the three real gates in place of its parameters.
      LoopBridge: the loop's oracle adapter, the bridge that turns open chain
      links into hypotheses, and the degradation table.  Prompt, Proposer:
      the context the loop shows its proposer, its serialisation, and the
      proposers.  LoopStore: loops and steps as database rows.
    - Cases: the case library (records, static risk, YAML mapping, lifecycle,
      fixtures).  Catalog: catalog, coverage gate and planner.  LlmPlanner:
      the planner that asks a language model.  Health: the health monitor and
      its coverage gate.  AppModels, LogicTests, CaseEngine: application models
      from draft to signed publication, the logic tests generated from them
      and the interpreter that runs a case.  LogicStrategies: the strategies
      that compute with numbers.  ModelSources: the importers of specifications
      and recorded traffic, and the routes of application models.  CaseApi:
      rows and routes of the case library.  Peers: external peer agents and
      re-plan proposals.
    - ToolText, ReconTools, WebTools, CloudTools, Tools: the manifests and
      parsers of the seventeen scan tools (integrations/adapters) and what the
      step runner gets from all of them.
    - Intel, IntelStore: vulnerability records, the four sources and their
      synchronisation (infrastructure/intel_sources), and their tables.
      Assets, Reports, Projects, Preflight: the asset graph, reports from data
      to release, projects, and the credential check before a scan.
    - McpTools, Mcp, McpFacts: the registry of the agent interface, every
      tool of interfaces/mcp/handlers.py over the services above with its
      transaction, and what an agent can do through them.  Api: the HTTP routes
      of assessments, plans, approvals, scopes, findings and loops over the
      same database.
    - Safety: the egress guard, the register of permits and the emergency stop.
      NftScope: the scope as packet filter sets.  Workspace: snapshots of the
      working directory around a phase, and deliverables.
      Execution, ExecutionFacts: application/execution.py, which composes the
      assessment service, permits, scope checks, orchestrator, correlation,
      oracle, coverage and audit; other callers may change the assessment
      repository before each of its accesses.

    Interfaces between files are classes with laws: the assessment service
    is proved against [LawfulAuthority] (Grants discharges it), the secret
    store against [SecretBackend] (both file backends discharge it), the
    oracle's batch against [LawfulFactory] (OracleVerifiers discharges it).
    That a plan drains assumes a runner that fails only by [StepFailure], as
    its protocol says; order, retries and the bound on containers do not, and
    Tools shows what escapes the runner of the program.

    ** What the theorems show

    - Authority: no assessment runs without an approval binding its stored plan;
      plans are frozen once approved; an approval by an agent needs a grant a
      human made that covers the stored scope and every step; revocation is
      final (AssessmentService, Grants).
    - Scope: a frozen scope is canonical and is what validation announced;
      exclusion wins; the enforcer and the policy engine allow exactly what
      their documented conditions say (Scope, Enforcer).
    - Execution: an executor runs only steps of the plan the stored approval
      signs, after the emergency stop, permit and scope checks, and always
      leaves its assessment completed or failed unless someone else moved it
      (ExecutionFacts); steps run after their dependencies, retries are bounded, every
      plan drains, leases exclude each other, the pool agrees with the
      sequential loop (Orchestrator, Jobs, Pool).
    - Loop: it always ends, an emergency stop and the human-only resume hold,
      a recorded step was cleared by every gate and by a permit for exactly
      that action (Loop, Permits, Gates); a candidate is resolved only with
      evidence and hypotheses keep their identity (LoopBridge).
    - Evidence: the audit chain in memory always verifies and fixes its
      history, and so do its stored rows unless one is committed after an event
      that was lost; tokens are single use; the oracle confirms only unanimous reproductions;
      correlation partitions the observations (AuditTrail, Oracle, Findings).
    - Content: parsing a case document gives drafts only and round-trips;
      published cases were vetted; plans cover the catalog and executing them
      opens the coverage gate; peer findings enter only through their gates
      (Cases, Catalog, Peers); signed application models were validated (an edit
      keeps the validation) and then signed by humans, generated tests stop before review, an assertion cannot escape its
      evaluator (AppModels, LogicTests, CaseEngine).
    - Storage: the database job store refines the one in memory; every audited
      event reaches the signed table exactly once whatever commits fail;
      secrets, keys and evidence survive what the code says they survive;
      bundles are stored and activated wholly or not at all; a failed phase
      is undone (SqlJobs, Outbox, Secrets, Keys, Evidence, Updates, Workspace).
    - Tools and models: no container starts before every target passed the
      gate, a plan starts boundedly many, only harmless addresses of the scope
      reach the packet filter, confirmations carry their tokens, no secret
      prompt reaches a model (Adapters, StepRunner, NftScope, OracleVerifiers,
      Gateway); whatever a tool prints, its parser answers typed observations
      or fails by a ValueError, a TypeError or an OverflowError (Tools); no text of the target can close a section
      of the proposer's prompt, and a step of the loop is what the model
      answered (Prompt, Proposer).
    - Interfaces: whatever tools an agent calls, in any order, grants and
      findings stay as they were and every new approval, queued assessment and
      started run is covered by a grant a human made, while a resumed run was
      stored queued or paused (McpFacts); a request
      that fails leaves no trace, decisions over HTTP are refused to any role
      but "human" and an approval carries the digests of what is stored (Api);
      published cases were vetted over any sequence of requests, and a reviewed
      one is not edited (CaseApi).

    ** Bounds and fuel

    The cycle search of Assessments takes fuel above the number of steps and is
    proved never to run out.  [run_to_completion] takes the code's own
    max_rounds; [every_plan_drains] shows that three rounds per step are
    enough, and that the default of 100 rounds may not be.  Printers and
    parsers of numbers and addresses recurse on the text.  The executor's drain takes the same 100
    rounds.  json.loads takes the length of the text, and reading back what
    json.dumps wrote is proved never to run out; the drain of the outbox takes
    one pass per row, which [drain_flushes_the_outbox] proves enough; the
    version search of AppModels takes one step per stored version.  Every other
    loop recurses on its list.

    ** Not modelled

    - Input and output: sandboxes, processes, namespaces, HTTP clients, the
      FastMCP transport, event streams, the command line and the web front end.
      They hand values to the operating system or to a library.
    - The composition root (interfaces/api/main.py) and the response schemas:
      wiring without decisions of its own.  What the root leaves unwired is an
      argument of [Mcp] and [Api].
    - The routers that only forward to a service modelled here (jobs, catalog,
      evidence, tools, signing keys, audit, updates, peer agents), and the
      repositories that are one merge and one read of a row.
    - The parsers of the free-form reports of peer agents: they are regular
      expressions over markdown with Unicode classes, whose findings enter
      [Peers] only through its gates, which hold for any report.
    - Parameters: signatures (Ed25519, HMAC keys), Fernet, name resolution,
      most regular expressions, Pydantic's validation, the non-ASCII half of
      IDNA, XML, full-text matching, float arithmetic, containers, language
      models and the peer harness.  A law assumed of one is a named hypothesis
      of the section that uses it.
    - Transactions are modelled where a component opens or ends them (Outbox,
      Mcp, Api, CaseApi, ModelSources); elsewhere a write is visible at once.
      Foreign keys, column widths and isolation levels are not modelled. *)
From stdpp Require Export prelude strings list gmap.
From Stdlib Require Export ZArith Lia.

Open Scope Z_scope.

(** ** Python exceptions

    One constructor per exception class the modelled code raises.  The
    message is the text the code passes; interpolated messages are built by
    concatenation as the f-strings do.  [OutOfFuel] is not an exception: it
    is what a loop answers when the bound given to it is too small, and the
    theorems show that the bounds chosen are enough. *)
Inductive exn : Type :=
| OutOfFuel
| DomainError (msg : string)
| DomainValidationError (msg : string)
| LookupError (msg : string)
| ValueError (msg : string)
| KeyError (msg : string)
| TypeError (msg : string)
| AssessmentPermissionError (msg : string)
| JobNotFoundError (msg : string)
| JobLeaseError (msg : string)
| StepPaused (msg : string)
| StepCancelled (msg : string)
| PermitSignatureInvalid (msg : string)
| PermitExpired (msg : string)
| PermitReplayed (msg : string)
| PermitWorkerMismatch (msg : string)
| RiskPublishDenied (msg : string)
| RiskUndeclared (msg : string)
| LoopNotFoundError (msg : string)
| LoopAlreadyTerminalError (msg : string)
| PauseBudgetExceeded (msg : string)
| ApprovalRejected (msg : string)
| ApprovalRequired (msg : string)
| CoverageGapError (msg : string)
| PeerAgentNotRegistered (msg : string)
| PeerAgentTrustDenied (msg : string)
| PeerRunScopeViolation (msg : string)
| PeerRunBudgetExceeded (msg : string)
| PeerAgentAlreadyRegistered (msg : string)
| TokenNotIssuedError (msg : string)
| TokenReuseError (msg : string)
| GrantNotFoundError (msg : string)
| GrantInactiveError (msg : string)
| GrantScopeMismatchError (msg : string)
| GrantRiskNotApprovedError (msg : string)
| RuntimeError (msg : string)
| CaseNotFoundError (msg : string)
| CasePermissionError (msg : string)
| CaseTransitionError (msg : string)
| CaseNotModelGeneratedError (msg : string)
| ExecutionStateError (msg : string)
| AppModelNotFoundError (msg : string)
| AppModelPermissionError (msg : string)
| AppModelTransitionError (msg : string)
| ModelPermissionError (msg : string)
| ModelNotFoundError (msg : string)
| ModelTransitionError (msg : string)
| ModelNotSignedError (msg : string)
| ExpressionError (msg : string)
| InterpreterError (msg : string)
| SecretNotFound (msg : string)
| SigningKeyNotFound (msg : string)
| SecretNeverSent (msg : string)
| RestrictedDenied (msg : string)
| PromptTooLarge (msg : string)
| InjectionBlocked (msg : string)
| PhaseFailedError (msg : string)
| DeliverableValidationError (msg : string)
| CapabilityNotGranted (msg : string)
| ScopeDeniedError (msg : string)
| ContainerExecError (msg : string)
| DnsRebindingError (msg : string)
| SnapshotMissing (msg : string)
| LLMBackendUnavailable (msg : string)
| LLMBackendProtocolError (msg : string)
| ToolNotFoundError (msg : string)
| ToolRegistrationError (msg : string)
| SandboxViolation (msg : string)
| HandbookSchemaError (msg : string)
| CaseParseError (msg : string)
| BundleFetchError (msg : string)
| BundleRevokedError (msg : string)
| ImageDigestMismatch (msg : string)
| StrixReportParseError (msg : string)
| LLMError (msg : string)
| OSError (msg : string)
| AttributeError (msg : string)
| ZeroDivisionError (msg : string)
| AssertionError (msg : string)
| OverflowError (msg : string)
| CsvError (msg : string)
| OperationalError (msg : string)
| HTTPException (status : Z) (msg : string).

(** [str(e)] of an exception with a message. *)
Definition message (e : exn) : string :=
  match e with
  | OutOfFuel => ""
  | DomainError msg | DomainValidationError msg | LookupError msg | ValueError msg | KeyError msg
  | TypeError msg | AssessmentPermissionError msg | JobNotFoundError msg | JobLeaseError msg
  | StepPaused msg | StepCancelled msg | PermitSignatureInvalid msg | PermitExpired msg
  | PermitReplayed msg | PermitWorkerMismatch msg | RiskPublishDenied msg | RiskUndeclared msg
  | LoopNotFoundError msg | LoopAlreadyTerminalError msg | PauseBudgetExceeded msg
  | ApprovalRejected msg | ApprovalRequired msg | CoverageGapError msg
  | PeerAgentNotRegistered msg | PeerAgentTrustDenied msg | PeerRunScopeViolation msg
  | PeerRunBudgetExceeded msg | PeerAgentAlreadyRegistered msg | TokenNotIssuedError msg
  | TokenReuseError msg | GrantNotFoundError msg | GrantInactiveError msg
  | GrantScopeMismatchError msg | GrantRiskNotApprovedError msg | CaseNotFoundError msg
  | CasePermissionError msg | CaseTransitionError msg | CaseNotModelGeneratedError msg | ExecutionStateError msg
  | AppModelNotFoundError msg | AppModelPermissionError msg | AppModelTransitionError msg | ModelPermissionError msg
  | ModelNotFoundError msg | ModelTransitionError msg | ModelNotSignedError msg | ExpressionError msg
  | InterpreterError msg | SecretNotFound msg | SigningKeyNotFound msg | SecretNeverSent msg
  | RestrictedDenied msg | PromptTooLarge msg | InjectionBlocked msg | PhaseFailedError msg
  | DeliverableValidationError msg | CapabilityNotGranted msg
  | ScopeDeniedError msg | ContainerExecError msg | DnsRebindingError msg | SnapshotMissing msg
  | LLMBackendUnavailable msg | LLMBackendProtocolError msg | ToolNotFoundError msg
  | ToolRegistrationError msg | SandboxViolation msg | HandbookSchemaError msg | CaseParseError msg
  | BundleFetchError msg | BundleRevokedError msg | ImageDigestMismatch msg | StrixReportParseError msg
  | LLMError msg | OSError msg
  | RuntimeError msg | AttributeError msg | ZeroDivisionError msg | AssertionError msg | OverflowError msg
  | CsvError msg | OperationalError msg
  | HTTPException _ msg => msg
  end.

(** [DomainValidationError] derives from both [DomainError] and [ValueError];
    every other class of the program derives from [DomainError] alone, except
    [LLMError] and the classes of the language. *)
Definition is_domain_error (e : exn) : bool :=
  match e with
  | LookupError _ | ValueError _ | KeyError _ | TypeError _ | RuntimeError _ | AttributeError _ | ZeroDivisionError _ | HTTPException _ _
  | LLMError _ | OSError _ | AssertionError _ | OverflowError _ | CsvError _ | OperationalError _ | OutOfFuel => false
  | _ => true
  end.

(** [except Exception]. *)
Definition is_exception (e : exn) : bool :=
  match e with OutOfFuel => false | _ => true end.

Definition is_value_error (e : exn) : bool :=
  match e with
  | DomainValidationError _ | ValueError _ => true
  | _ => false
  end.

(** ** Fallible computations *)
Inductive outcome (A : Type) : Type :=
| Ret (a : A)
| Raise (e : exn).
Arguments Ret {A} a.
Arguments Raise {A} e.

#[global] Instance outcome_ret : MRet outcome := fun A a => Ret a.
#[global] Instance outcome_bind : MBind outcome :=
  fun A B f m => match m with Ret a => f a | Raise e => Raise e end.
#[global] Instance outcome_fmap : FMap outcome :=
  fun A B f m => match m with Ret a => Ret (f a) | Raise e => Raise e end.

(** [if c: raise e] as a statement. *)
Definition raise_if (c : bool) (e : exn) : outcome unit :=
  if c then Raise e else Ret tt.

(** [if x is None: raise e] as a statement returning the value. *)
Definition unwrap {A} (o : option A) (e : exn) : outcome A :=
  match o with Some a => Ret a | None => Raise e end.

(** [try: m except <class>: h]. *)
Definition try_except {A} (m : outcome A) (catches : exn -> bool)
    (h : exn -> outcome A) : outcome A :=
  match m with
  | Ret a => Ret a
  | Raise e => if catches e then h e else Raise e
  end.

Definition is_Ret {A} (m : outcome A) : bool :=
  match m with Ret _ => true | Raise _ => false end.

(** A loop over a list whose body may raise. *)
Fixpoint mapM_outcome {A B} (f : A -> outcome B) (l : list A) : outcome (list B) :=
  match l with
  | [] => Ret []
  | x :: xs => y ← f x; ys ← mapM_outcome f xs; Ret (y :: ys)
  end.

Section outcome_lemmas.
Context {A B : Type}.

Lemma bind_Ret (m : outcome A) (f : A -> outcome B) b :
  (m ≫= f) = Ret b <-> exists a, m = Ret a /\ f a = Ret b.
Proof. destruct m; cbn; naive_solver. Qed.

Lemma bind_Raise (m : outcome A) (f : A -> outcome B) e :
  (m ≫= f) = Raise e <-> m = Raise e \/ exists a, m = Ret a /\ f a = Raise e.
Proof. destruct m; cbn; naive_solver. Qed.

Lemma unwrap_Ret (o : option A) e a : unwrap o e = Ret a <-> o = Some a.
Proof. destruct o; cbn; naive_solver. Qed.

Lemma is_Ret_true (m : outcome A) : is_Ret m = true <-> exists a, m = Ret a.
Proof. destruct m; cbn; naive_solver. Qed.

Lemma mapM_outcome_Ret (f : A -> outcome B) l ys :
  mapM_outcome f l = Ret ys <-> Forall2 (fun x y => f x = Ret y) l ys.
Proof.
  revert ys; induction l as [|x xs IH]; intros ys; cbn.
  - split; [intros [=<-]; constructor|]. inversion 1; reflexivity.
  - destruct (f x) as [y|e] eqn:Ex; cbn.
    + destruct (mapM_outcome f xs) as [zs|e] eqn:Exs; cbn.
      * split; [intros [=<-]; constructor; naive_solver|].
        inversion 1; subst; repeat f_equal; [congruence|].
        apply IH in H4. congruence.
      * split; [discriminate|]. inversion 1; subst. apply IH in H4. congruence.
    + split; [discriminate|]. inversion 1; congruence.
Qed.

End outcome_lemmas.

Lemma raise_if_Ret c e u : raise_if c e = Ret u <-> c = false.
Proof. destruct c, u; cbn; naive_solver. Qed.

Lemma raise_if_Raise c e e' : raise_if c e = Raise e' <-> c = true /\ e = e'.
Proof. destruct c; cbn; naive_solver. Qed.

(** Membership in a filter by a boolean test. *)
Lemma elem_filter {A} (P : A -> bool) (l : list A) x : x ∈ List.filter P l <-> x ∈ l /\ P x = true.
Proof. by rewrite !list_elem_of_In, List.filter_In. Qed.

(** A relation well founded at [a] has no cycle through [a]. *)
Lemma Acc_acyclic {A} (R : relation A) a : Acc (flip R) a -> ~ tc R a a.
Proof.
  induction 1 as [a _ IH]. intros Hc. inversion Hc as [x y Hxy|x b y Hab Hba]; subst.
  - by apply (IH a).
  - apply (IH b); [done|]. etrans; [exact Hba|by apply tc_once].
Qed.

(** ** Stateful computations

    A Python method that mutates [S]: an exception leaves the mutations made
    before it in place, so the state is returned in both cases. *)
Definition M (S A : Type) : Type := S -> outcome A * S.

#[global] Instance M_ret {S} : MRet (M S) := fun A a s => (Ret a, s).
#[global] Instance M_bind {S} : MBind (M S) :=
  fun A B f m s =>
    match m s with
    | (Ret a, s') => f a s'
    | (Raise e, s') => (Raise e, s')
    end.

Section state_monad.
Context {S : Type}.

Definition get : M S S := fun s => (Ret s, s).
Definition put (s' : S) : M S unit := fun _ => (Ret tt, s').
Definition modify (f : S -> S) : M S unit := fun s => (Ret tt, f s).
Definition gets {A} (f : S -> A) : M S A := fun s => (Ret (f s), s).
Definition raise {A} (e : exn) : M S A := fun s => (Raise e, s).
Definition lift {A} (m : outcome A) : M S A := fun s => (m, s).
Definition try_exceptM {A} (m : M S A) (catches : exn -> bool)
    (h : exn -> M S A) : M S A :=
  fun s => match m s with
           | (Raise e, s') => if catches e then h e s' else (Raise e, s')
           | r => r
           end.

Fixpoint mapM_state {A B} (f : A -> M S B) (l : list A) : M S (list B) :=
  match l with
  | [] => mret []
  | x :: xs => y ← f x; ys ← mapM_state f xs; mret (y :: ys)
  end.

(** [I] survives every run of [m], whether it returns or raises. *)
Definition preserves {A} (I : S -> Prop) (m : M S A) : Prop :=
  forall s, I s -> I (m s).2.

Lemma preserves_ret {A} (I : S -> Prop) (a : A) : preserves I (mret a).
Proof. intros s Hs; exact Hs. Qed.

Lemma preserves_bind {A B} (I : S -> Prop) (m : M S A) (f : A -> M S B) :
  preserves I m -> (forall a, preserves I (f a)) -> preserves I (m ≫= f).
Proof.
  intros Hm Hf s Hs. unfold mbind, M_bind.
  specialize (Hm s Hs). destruct (m s) as [[a|e] s']; cbn in *; [by apply Hf|done].
Qed.

Lemma preserves_get (I : S -> Prop) : preserves I get.
Proof. intros s Hs; exact Hs. Qed.

Lemma preserves_gets {A} (I : S -> Prop) (f : S -> A) : preserves I (gets f).
Proof. intros s Hs; exact Hs. Qed.

Lemma preserves_modify (I : S -> Prop) (f : S -> S) :
  (forall s, I s -> I (f s)) -> preserves I (modify f).
Proof. intros Hf s Hs; by apply Hf. Qed.

Lemma preserves_raise {A} (I : S -> Prop) e : preserves I (raise (A:=A) e).
Proof. intros s Hs; exact Hs. Qed.

Lemma preserves_lift {A} (I : S -> Prop) (m : outcome A) : preserves I (lift m).
Proof. intros s Hs; exact Hs. Qed.

Lemma preserves_try {A} (I : S -> Prop) (m : M S A) c (h : exn -> M S A) :
  preserves I m -> (forall e, preserves I (h e)) -> preserves I (try_exceptM m c h).
Proof.
  intros Hm Hh s Hs. unfold try_exceptM. specialize (Hm s Hs).
  destruct (m s) as [[a|e] s']; cbn in *; [done|].
  destruct (c e); [by apply Hh|done].
Qed.

Lemma preserves_mapM {A B} (I : S -> Prop) (f : A -> M S B) l :
  (forall a, preserves I (f a)) -> preserves I (mapM_state f l).
Proof.
  intros Hf. induction l as [|x xs IH]; cbn; [apply preserves_ret|].
  apply preserves_bind; [done|]. intros y.
  apply preserves_bind; [done|]. intros ys. apply preserves_ret.
Qed.

(** A loop whose body always returns, with a relation between each element
    and its result. *)
Lemma mapM_state_total {A B} (f : A -> M S B) (P : A -> B -> Prop) l :
  (forall x s, x ∈ l -> exists b s', f x s = (Ret b, s') /\ P x b) ->
  forall s, exists bs s', mapM_state f l s = (Ret bs, s') /\ Forall2 P l bs.
Proof.
  induction l as [|x xs IH]; intros H s; [by exists [], s|].
  destruct (H x s (list_elem_of_here _ _)) as (b & s1 & Hb & HP).
  destruct (IH (fun y t Hy => H y t (list_elem_of_further _ _ _ Hy)) s1) as (bs & s2 & Hbs & HF).
  exists (b :: bs), s2. split; [|by constructor].
  cbn [mapM_state]. unfold mbind, M_bind. by rewrite Hb, Hbs.
Qed.

(** [m], started in [s], ends in [Q] if it returns and in [E] if it raises. *)
Definition ends {A} (m : M S A) (Q : A -> S -> Prop) (E : S -> Prop) (s : S) : Prop :=
  match m s with
  | (Ret a, s') => Q a s'
  | (Raise _, s') => E s'
  end.

Lemma ends_ret {A} (a : A) (Q : A -> S -> Prop) E s : Q a s -> ends (mret a) Q E s.
Proof. done. Qed.

Lemma ends_bind {A B} (m : M S A) (f : A -> M S B) (Q : B -> S -> Prop) E s :
  ends m (fun a => ends (f a) Q E) E s -> ends (m ≫= f) Q E s.
Proof. unfold ends, mbind, M_bind. by destruct (m s) as [[a|e] s']. Qed.

Lemma ends_mono {A} (m : M S A) (Q Q' : A -> S -> Prop) (E E' : S -> Prop) s :
  ends m Q E s -> (forall a s', Q a s' -> Q' a s') -> (forall s', E s' -> E' s') -> ends m Q' E' s.
Proof. unfold ends. destruct (m s) as [[a|e] s']; auto. Qed.

Lemma ends_and {A} (m : M S A) (Q Q' : A -> S -> Prop) (E E' : S -> Prop) s :
  ends m Q E s -> ends m Q' E' s -> ends m (fun a s' => Q a s' /\ Q' a s') (fun s' => E s' /\ E' s') s.
Proof. unfold ends. destruct (m s) as [[a|e] s']; auto. Qed.

Lemma ends_lift {A} (o : outcome A) (Q : A -> S -> Prop) (E : S -> Prop) s :
  (forall a, o = Ret a -> Q a s) -> E s -> ends (lift o) Q E s.
Proof. unfold ends, lift. destruct o; auto. Qed.

Lemma ends_modify (f : S -> S) (Q : unit -> S -> Prop) E s : Q tt (f s) -> ends (modify f) Q E s.
Proof. done. Qed.

Lemma ends_try {A} (m : M S A) c (h : exn -> M S A) (Q : A -> S -> Prop) (E E' : S -> Prop) s :
  ends m Q E' s -> (forall e s', E' s' -> ends (h e) Q E s') -> (forall e, c e = true) -> ends (try_exceptM m c h) Q E s.
Proof.
  unfold ends, try_exceptM. destruct (m s) as [[a|e] s']; [done|]. intros H Hh Hc. rewrite Hc. by apply Hh.
Qed.

Lemma ends_state {A} (m : M S A) (P : S -> Prop) s : P (m s).2 <-> ends m (fun _ => P) P s.
Proof. unfold ends. by destruct (m s) as [[a|e] s']. Qed.

End state_monad.

Create HintDb py.
#[export] Hint Resolve preserves_ret preserves_bind preserves_get preserves_gets
  preserves_raise preserves_lift preserves_try preserves_mapM : py.
#[export] Hint Rewrite @bind_Ret @unwrap_Ret raise_if_Ret : py.

(** ** Tactics *)

(** Break the conditionals and matches of a hypothesis that a computation
    returned, keeping the equations. *)
Ltac break_match :=
  match goal with
  | |- context [match ?x with _ => _ end] =>
      lazymatch x with context [match _ with _ => _ end] => fail | _ => destruct x eqn:? end
  | H : context [match ?x with _ => _ end] |- _ =>
      lazymatch x with context [match _ with _ => _ end] => fail | _ => destruct x eqn:? end
  end.

(** Invert a pure computation known to have returned. *)
Ltac inv_ret :=
  repeat match goal with
  | H : mbind _ _ = Ret _ |- _ =>
      apply bind_Ret in H; destruct H as (? & ? & ?)
  | H : raise_if _ _ = Ret _ |- _ => apply raise_if_Ret in H
  | H : unwrap _ _ = Ret _ |- _ => apply unwrap_Ret in H
  | H : Ret _ = Ret _ |- _ => injection H as H; subst
  | H : mret _ = Ret _ |- _ => injection H as H; subst
  | H : Raise _ = Ret _ |- _ => discriminate H
  end.

(** Reflect boolean guards into propositions. *)
Ltac breflect :=
  repeat match goal with
  | H : (_ && _)%bool = true |- _ => apply andb_true_iff in H; destruct H
  | H : (_ || _)%bool = false |- _ => apply orb_false_iff in H; destruct H
  | H : negb _ = true |- _ => apply negb_true_iff in H
  | H : negb _ = false |- _ => apply negb_false_iff in H
  | H : bool_decide _ = true |- _ => apply bool_decide_eq_true in H
  | H : bool_decide _ = false |- _ => apply bool_decide_eq_false in H
  end.

(** Step through a state-passing computation in the goal or a hypothesis. *)
Ltac step_state :=
  cbn [fst snd] in *;
  unfold mbind, M_bind, mret, M_ret, gets, get, modify, put, lift, raise in *;
  cbn [fst snd] in *.

(** ** String enumerations (Python's [StrEnum])

    The interface every enumeration of the program implements: its string
    values, the list of its members, and the facts the clients use.  [parse]
    is the constructor call [Enum(value)], which raises on unknown text. *)
Class StrEnum (A : Type) `{EqDecision A} := {
  value : A -> string;
  members : list A;
  members_complete : forall a, a ∈ members;
  value_inj : forall a b, value a = value b -> a = b
}.

Definition of_value `{StrEnum A} (s : string) : option A :=
  snd <$> list_find (fun a => value a = s) members.

Lemma of_value_value `{StrEnum A} (a : A) : of_value (value a) = Some a.
Proof.
  unfold of_value.
  destruct (list_find (fun b => value b = value a) members) as [[i b]|] eqn:E; cbn.
  - apply list_find_Some in E as (_ & Hv & _). by rewrite (value_inj b a Hv).
  - apply list_find_None in E. rewrite Forall_forall in E.
    exfalso. exact (E a (members_complete a) eq_refl).
Qed.

Lemma of_value_Some `{StrEnum A} (s : string) (a : A) :
  of_value s = Some a <-> s = value a.
Proof.
  split; [|intros ->; apply of_value_value].
  unfold of_value. destruct list_find as [[i b]|] eqn:E; cbn; [|discriminate].
  intros [=<-]. apply list_find_Some in E as (_ & Hv & _). done.
Qed.

#[export] Instance StrEnum_countable `{StrEnum A} : Countable A :=
  inj_countable value of_value of_value_value.

Ltac solve_members := let a := fresh in intros a; destruct a; apply (bool_decide_unpack _); vm_compute; exact I.
Ltac solve_value_inj := let a := fresh in let b := fresh in
  intros a b; destruct a; destruct b; cbn; congruence.
