(* ===== verification/PyStr.v ===== *)
(** * Python strings

    The operations of Python's [str] the program uses, on byte strings.  A
    [string] is the UTF-8 encoding of a Python string; equality, prefixes,
    substrings, concatenation and the code-point order agree with Python's
    on every string, while [lower], [upper], [strip] and the character
    classes are those of the ASCII characters. *)
From S2P Require Import Prelude.
From stdpp Require Export pretty sorting.
From Stdlib Require Export Ascii.

#[local] Open Scope Z_scope.

Module PyStr.

(** [str.isspace] on an ASCII character: tab, LF, VT, FF, CR, FS, GS, RS, US
    and space. *)
Definition is_space (c : ascii) : bool :=
  let n := N_of_ascii c in
  ((9 <=? n) && (n <=? 13) || (28 <=? n) && (n <=? 32))%N.

Definition is_digit (c : ascii) : bool :=
  let n := N_of_ascii c in ((48 <=? n) && (n <=? 57))%N.
Definition is_upper (c : ascii) : bool :=
  let n := N_of_ascii c in ((65 <=? n) && (n <=? 90))%N.
Definition is_lower (c : ascii) : bool :=
  let n := N_of_ascii c in ((97 <=? n) && (n <=? 122))%N.
Definition is_alnum (c : ascii) : bool := is_digit c || is_upper c || is_lower c.

Definition to_lower (c : ascii) : ascii :=
  if is_upper c then ascii_of_N (N_of_ascii c + 32) else c.
Definition to_upper (c : ascii) : ascii :=
  if is_lower c then ascii_of_N (N_of_ascii c - 32) else c.

Fixpoint map (f : ascii -> ascii) (s : string) : string :=
  match s with
  | EmptyString => EmptyString
  | String c r => String (f c) (map f r)
  end.

Fixpoint forallb (p : ascii -> bool) (s : string) : bool :=
  match s with
  | EmptyString => true
  | String c r => p c && forallb p r
  end.

Fixpoint existsb (p : ascii -> bool) (s : string) : bool :=
  match s with
  | EmptyString => false
  | String c r => p c || existsb p r
  end.

Definition lower : string -> string := map to_lower.
Definition upper : string -> string := map to_upper.

(** [len(s)] in bytes. *)
Definition len (s : string) : Z := Z.of_nat (String.length s).

Definition is_empty (s : string) : bool :=
  match s with EmptyString => true | _ => false end.

(** Truthiness of a string: [bool(s)]. *)
Definition truthy (s : string) : bool := negb (is_empty s).

Definition isalnum (s : string) : bool := truthy s && forallb is_alnum s.

Fixpoint lstrip_by (p : ascii -> bool) (s : string) : string :=
  match s with
  | EmptyString => EmptyString
  | String c r => if p c then lstrip_by p r else s
  end.

Fixpoint rstrip_by (p : ascii -> bool) (s : string) : string :=
  match s with
  | EmptyString => EmptyString
  | String c r =>
      match rstrip_by p r with
      | EmptyString => if p c then EmptyString else String c EmptyString
      | r' => String c r'
      end
  end.

Definition strip (s : string) : string := rstrip_by is_space (lstrip_by is_space s).
Definition lstrip_char (c : ascii) : string -> string := lstrip_by (Ascii.eqb c).
Definition rstrip_char (c : ascii) : string -> string := rstrip_by (Ascii.eqb c).

Fixpoint startswith (s p : string) : bool :=
  match p, s with
  | EmptyString, _ => true
  | String c p', String d s' => Ascii.eqb c d && startswith s' p'
  | _, EmptyString => false
  end.

(** The suffix of [s] after dropping [n] characters. *)
Fixpoint drop (n : nat) (s : string) : string :=
  match n, s with
  | O, _ => s
  | S n', String _ s' => drop n' s'
  | S _, EmptyString => EmptyString
  end.

Fixpoint take (n : nat) (s : string) : string :=
  match n, s with
  | O, _ => EmptyString
  | S n', String c s' => String c (take n' s')
  | S _, EmptyString => EmptyString
  end.

Definition endswith (s p : string) : bool :=
  (String.length p <=? String.length s)%nat
  && String.eqb (drop (String.length s - String.length p) s) p.

Definition removeprefix (s p : string) : string :=
  if startswith s p then drop (String.length p) s else s.

(** [sub in s]. *)
Fixpoint contains (s sub : string) : bool :=
  startswith s sub ||
  match s with EmptyString => false | String _ r => contains r sub end.

(** [s.split(c)] for a one-character separator. *)
Fixpoint split (c : ascii) (s : string) : list string :=
  match s with
  | EmptyString => [EmptyString]
  | String d r =>
      if Ascii.eqb c d then EmptyString :: split c r
      else match split c r with
           | [] => [String d EmptyString]
           | h :: t => String d h :: t
           end
  end.

Fixpoint join (sep : string) (l : list string) : string :=
  match l with
  | [] => EmptyString
  | [x] => x
  | x :: xs => x +:+ sep +:+ join sep xs
  end.

(** [s.partition(c)]: head, whether the separator was found, tail. *)
Fixpoint partition (c : ascii) (s : string) : string * bool * string :=
  match s with
  | EmptyString => (EmptyString, false, EmptyString)
  | String d r =>
      if Ascii.eqb c d then (EmptyString, true, r)
      else let '(h, f, t) := partition c r in (String d h, f, t)
  end.

(** [s.rpartition(c)]: the split is at the last occurrence; without one the
    head is empty and the tail is [s]. *)
Fixpoint rpartition (c : ascii) (s : string) : string * bool * string :=
  match s with
  | EmptyString => (EmptyString, false, EmptyString)
  | String d r =>
      let '(h, f, t) := rpartition c r in
      if f then (String d h, true, t)
      else if Ascii.eqb c d then (EmptyString, true, r)
      else (EmptyString, false, s)
  end.

(** [c in s]. *)
Definition has_char (c : ascii) (s : string) : bool := existsb (Ascii.eqb c) s.

(** [sorted(l)] on strings. *)
Definition sorted (l : list string) : list string := merge_sort String.le l.

(** [str.isdecimal]/[int] on ASCII digits. *)
Definition digit_val (c : ascii) : Z := Z.of_N (N_of_ascii c) - 48.

Fixpoint digits_val (acc : Z) (s : string) : Z :=
  match s with
  | EmptyString => acc
  | String c r => digits_val (acc * 10 + digit_val c) r
  end.

(** [repr(s)]: single quotes unless only they occur in the text; backslash,
    the quote and control characters are escaped.  Bytes of multi-byte
    characters are kept (Python keeps every printable character). *)
Definition hex_digit (n : N) : ascii :=
  ascii_of_N (if (n <? 10)%N then (48 + n)%N else (87 + n)%N).
Definition repr_char (quote c : ascii) : string :=
  let n := N_of_ascii c in
  if Ascii.eqb c quote || Ascii.eqb c "\"%char then String "\" (String c "")
  else if (n =? 10)%N then "\n" else if (n =? 13)%N then "\r"
  else if (n =? 9)%N then "\t"
  else if ((n <? 32) || (n =? 127))%N
  then "\x" +:+ String (hex_digit (n / 16)) (String (hex_digit (n mod 16)) "")
  else String c "".
Fixpoint repr_body (quote : ascii) (s : string) : string :=
  match s with
  | "" => ""
  | String c s' => repr_char quote c +:+ repr_body quote s'
  end.
Definition repr (s : string) : string :=
  let quote := if has_char "'" s && negb (has_char "034" s) then "034"%char else "'"%char in
  String quote (repr_body quote s) +:+ String quote "".

(** [s.replace(old, new)] for a non-empty [old]: left to right, without
    overlaps; [skip] counts the characters of a match still to drop. *)
Fixpoint replace_from (old new : string) (skip : nat) (s : string) : string :=
  match s with
  | EmptyString => EmptyString
  | String c r =>
      match skip with
      | S k => replace_from old new k r
      | O => if startswith s old then new +:+ replace_from old new (String.length old - 1) r
             else String c (replace_from old new 0 r)
      end
  end.
Definition replace (old new s : string) : string := replace_from old new 0 s.

(** ** Lemmas *)
(** [int(s)] of an ASCII text: surrounding white space, a sign, digits in
    groups joined by single underscores, at most 4300 digits. *)
Definition int_of_str (s : string) : outcome Z :=
  let bad := ValueError ("invalid literal for int() with base 10: " +:+ repr s) in
  let t := strip s in
  let '(neg, body) := match t with
                      | String "-" r => (true, r)
                      | String "+" r => (false, r)
                      | _ => (false, t)
                      end in
  let groups := split "_" body in
  let digits := join "" groups in
  raise_if (negb (List.forallb (fun g => truthy g && forallb is_digit g) groups)) bad;;
  raise_if (4300 <? len digits)
    (ValueError "Exceeds the limit (4300 digits) for integer string conversion");;
  Ret (if neg then - digits_val 0 digits else digits_val 0 digits).

Lemma truthy_true s : truthy s = true <-> s <> "".
Proof. destruct s; cbn; naive_solver. Qed.

Lemma truthy_false s : truthy s = false <-> s = "".
Proof. destruct s; cbn; naive_solver. Qed.

Lemma is_empty_true s : is_empty s = true <-> s = "".
Proof. destruct s; cbn; naive_solver. Qed.

Lemma is_empty_false s : is_empty s = false <-> s <> "".
Proof. destruct s; cbn; naive_solver. Qed.

Lemma app_cons c (a b : string) : String c a +:+ b = String c (a +:+ b).
Proof. reflexivity. Qed.

Lemma cons_inv c (a b : string) : String c a = String c b -> a = b.
Proof. by intros [=]. Qed.

Lemma app_nil_l (a : string) : "" +:+ a = a.
Proof. reflexivity. Qed.

Lemma app_assoc (a b c : string) : (a +:+ b) +:+ c = a +:+ (b +:+ c).
Proof. induction a as [|x a IH]; [done|]. by rewrite !app_cons, IH. Qed.

Lemma app_nil_r (a : string) : a +:+ "" = a.
Proof. induction a as [|x a IH]; [done|]. by rewrite app_cons, IH. Qed.

Lemma app_inv_head (p a b : string) : p +:+ a = p +:+ b -> a = b.
Proof. induction p as [|x p IH]; [done|]. rewrite !app_cons. intros [=]; auto. Qed.

Lemma length_app (a b : string) :
  String.length (a +:+ b) = (String.length a + String.length b)%nat.
Proof. induction a as [|x a IH]; [done|]. rewrite app_cons; cbn. by rewrite IH. Qed.

Lemma app_inj_length (a1 a2 b1 b2 : string) :
  String.length a1 = String.length a2 -> a1 +:+ b1 = a2 +:+ b2 -> a1 = a2 /\ b1 = b2.
Proof.
  revert a2; induction a1 as [|x a1 IH]; intros [|y a2]; cbn; try discriminate; [done|].
  rewrite !app_cons. intros [= Hl] [= -> Heq]. destruct (IH a2 Hl Heq) as [-> ->]. done.
Qed.

Lemma startswith_app p s : startswith (p +:+ s) p = true.
Proof.
  induction p as [|c p IH]; [by destruct s|]. rewrite app_cons; cbn. by rewrite Ascii.eqb_refl, IH.
Qed.

Lemma startswith_true s p : startswith s p = true <-> exists r, s = p +:+ r.
Proof.
  split; [|intros [r ->]; apply startswith_app].
  revert s; induction p as [|c p IH]; intros s; [by exists s|].
  destruct s as [|d s]; cbn; [discriminate|]. intros H; breflect.
  apply Ascii.eqb_eq in H as ->. destruct (IH s H0) as [r ->]. by exists r.
Qed.

Lemma drop_app p s : drop (String.length p) (p +:+ s) = s.
Proof. induction p as [|c p IH]; [by destruct s|done]. Qed.

Lemma endswith_true s p : endswith s p = true <-> exists r, s = r +:+ p.
Proof.
  unfold endswith. split.
  - intros H; breflect. apply Nat.leb_le in H. apply String.eqb_eq in H0.
    exists (take (String.length s - String.length p) s). rewrite <- H0 at 2.
    generalize (String.length s - String.length p)%nat. clear.
    induction s as [|c s IH]; intros [|n]; cbn; [done..|]. by rewrite app_cons, <- IH.
  - intros [r ->]. rewrite length_app.
    replace (String.length r + String.length p - String.length p)%nat
      with (String.length r) by lia.
    rewrite drop_app, String.eqb_refl, andb_true_r. apply Nat.leb_le. lia.
Qed.

Lemma removeprefix_app p s : removeprefix (p +:+ s) p = s.
Proof. unfold removeprefix. by rewrite startswith_app, drop_app. Qed.

Lemma sorted_Permutation l : sorted l ≡ₚ l.
Proof. apply merge_sort_Permutation. Qed.

Lemma sorted_Sorted l : Sorted String.le (sorted l).
Proof. apply Sorted_merge_sort, _. Qed.

Lemma sorted_unique l l' : l ≡ₚ l' -> sorted l = sorted l'.
Proof.
  intros HP. apply (Sorted_unique String.le).
  - apply sorted_Sorted.
  - apply sorted_Sorted.
  - by rewrite !sorted_Permutation.
Qed.

Lemma elem_of_sorted x l : x ∈ sorted l <-> x ∈ l.
Proof. by rewrite sorted_Permutation. Qed.

Lemma forallb_app p a b : forallb p (a +:+ b) = forallb p a && forallb p b.
Proof. induction a as [|c a IH]; [done|]. rewrite app_cons; cbn. by rewrite IH, andb_assoc. Qed.

End PyStr.

#[export] Hint Resolve PyStr.startswith_app : py.
#[export] Hint Rewrite PyStr.truthy_true PyStr.truthy_false PyStr.is_empty_true
  PyStr.is_empty_false : py.
