(* ===== verification/Sha256.v ===== *)
(** * SHA-256

    [hashlib.sha256(b).hexdigest()], the digest every content address of the
    program is built from: 32-bit words as [Z] with their wrap-around, on the
    byte string to hash.  No theorem of the development depends on how the
    digest is computed: the integrity theorems say "equal, or here is a
    collision". *)
From S2P Require Import Prelude PyStr.

#[local] Open Scope Z_scope.

Module Sha256.

Definition mask32 (x : Z) : Z := Z.land x 4294967295.
Definition add32 (x y : Z) : Z := mask32 (x + y).
Definition not32 (x : Z) : Z := Z.lxor x 4294967295.
Definition rotr (n x : Z) : Z :=
  Z.lor (Z.shiftr x n) (mask32 (Z.shiftl x (32 - n))).

Definition Ch (x y z : Z) : Z := Z.lxor (Z.land x y) (Z.land (not32 x) z).
Definition Maj (x y z : Z) : Z :=
  Z.lxor (Z.lxor (Z.land x y) (Z.land x z)) (Z.land y z).
Definition Sigma0 (x : Z) : Z := Z.lxor (Z.lxor (rotr 2 x) (rotr 13 x)) (rotr 22 x).
Definition Sigma1 (x : Z) : Z := Z.lxor (Z.lxor (rotr 6 x) (rotr 11 x)) (rotr 25 x).
Definition sigma0 (x : Z) : Z :=
  Z.lxor (Z.lxor (rotr 7 x) (rotr 18 x)) (Z.shiftr x 3).
Definition sigma1 (x : Z) : Z :=
  Z.lxor (Z.lxor (rotr 17 x) (rotr 19 x)) (Z.shiftr x 10).

(** The round constants and the initial state: the first 32 bits of the
    fractional parts of the cube (square) roots of the first primes. *)
Definition is_prime (n : Z) : bool :=
  forallb (fun d => negb (n mod d =? 0)) (seqZ 2 (Z.sqrt n - 1)).

Definition first_primes (n : nat) : list Z := take n (filter (fun p => is_prime p = true) (seqZ 2 310)).

(** Integer cube root, one bit at a time. *)
Definition cbrt (n : Z) : Z :=
  fold_left (fun r i => let r' := r + 2 ^ i in if r' ^ 3 <=? n then r' else r)
    (reverse (seqZ 0 40)) 0.

Definition K : list Z :=
  Eval vm_compute in (fun p => mask32 (cbrt (p * 2 ^ 96))) <$> first_primes 64.

Definition H0 : list Z :=
  Eval vm_compute in (fun p => mask32 (Z.sqrt (p * 2 ^ 64))) <$> first_primes 8.

Fixpoint bytes_of (s : string) : list Z :=
  match s with
  | EmptyString => []
  | String c r => Z.of_N (N_of_ascii c) :: bytes_of r
  end.

(** Big-endian bytes of a 64-bit length. *)
Definition be64 (n : Z) : list Z :=
  (fun i => Z.land (Z.shiftr n (8 * (7 - i))) 255) <$> [0;1;2;3;4;5;6;7].

Definition pad (b : list Z) : list Z :=
  let l := Z.of_nat (length b) in
  let zeros := (55 - l) mod 64 in
  b ++ [128] ++ replicate (Z.to_nat zeros) 0 ++ be64 (8 * l).

Fixpoint words_of (b : list Z) : list Z :=
  match b with
  | b0 :: b1 :: b2 :: b3 :: r =>
      (Z.shiftl b0 24 + Z.shiftl b1 16 + Z.shiftl b2 8 + b3) :: words_of r
  | _ => []
  end.

(** The message schedule, newest word first: [n] more words. *)
Fixpoint expand (n : nat) (w : list Z) : list Z :=
  match n with
  | O => w
  | S n' =>
      let at_ i := default 0 (w !! i) in
      expand n' (add32 (add32 (sigma1 (at_ 1%nat)) (at_ 6%nat))
                       (add32 (sigma0 (at_ 14%nat)) (at_ 15%nat)) :: w)
  end.

Definition round (st : list Z) (kw : Z * Z) : list Z :=
  match st with
  | [a; b; c; d; e; f; g; h] =>
      let t1 := add32 (add32 h (Sigma1 e))
                      (add32 (Ch e f g) (add32 (fst kw) (snd kw))) in
      let t2 := add32 (Sigma0 a) (Maj a b c) in
      [add32 t1 t2; a; b; c; add32 d t1; e; f; g]
  | _ => st
  end.

Definition compress (st block : list Z) : list Z :=
  let w := rev (expand 48 (rev block)) in
  zip_with add32 st (foldl round st (zip K w)).

Fixpoint blocks (fuel : nat) (st w : list Z) : list Z :=
  match fuel, w with
  | S n, _ :: _ => blocks n (compress st (firstn 16 w)) (skipn 16 w)
  | _, _ => st
  end.

Definition hex_digit (n : Z) : ascii :=
  ascii_of_N (Z.to_N (if n <? 10 then 48 + n else 87 + n)).

Definition hex32 (x : Z) : string :=
  foldr (fun i r => String (hex_digit (Z.land (Z.shiftr x (4 * i)) 15)) r)
    "" [7;6;5;4;3;2;1;0].

Definition hexdigest (s : string) : string :=
  let w := words_of (pad (bytes_of s)) in
  foldr (fun x r => hex32 x +:+ r) "" (blocks (length w) H0 w).

(** Test vectors of FIPS 180-4. *)
Example hexdigest_empty : hexdigest "" =
  "e3b0c44298fc1c149afbf4c8996fb92427ae41e4649b934ca495991b7852b855".
Proof. vm_compute. reflexivity. Qed.

Example hexdigest_abc : hexdigest "abc" =
  "ba7816bf8f01cfea414140de5dae2223b00361a396177a9cb410ff61f20015ad".
Proof. vm_compute. reflexivity. Qed.

Example hexdigest_two_blocks :
  hexdigest "abcdbcdecdefdefgefghfghighijhijkijkljklmklmnlmnomnopnopq" =
  "248d6a61d20638b8e5c026930c3e6039a33ce45964ff2167f6ecedd419db06c1".
Proof. vm_compute. reflexivity. Qed.

(** A digest is hexadecimal: it never looks like a tagged one. *)
Lemma hexdigest_not_tagged s : PyStr.startswith (hexdigest s) "sha256:" = false.
Proof.
  unfold hexdigest. destruct (blocks _ _ _) as [|x l]; [done|]. cbn [foldr].
  unfold hex32. cbn [foldr]. rewrite PyStr.app_cons. cbn [PyStr.startswith].
  set (n := Z.land (Z.shiftr x (4 * 7)) 15).
  assert (Hn : 0 <= n < 16).
  { unfold n. change 15 with (Z.ones 4). rewrite Z.land_ones by lia.
    apply Z.mod_pos_bound. lia. }
  replace (Ascii.eqb "s" (hex_digit n)) with false; [done|]. symmetry. clearbody n.
  assert (Hall : Forall (fun k => Ascii.eqb "s" (hex_digit k) = false) (seqZ 0 16)) by (vm_compute; repeat constructor).
  rewrite Forall_forall in Hall. apply Hall, elem_of_seqZ. lia.
Qed.

(** A digest consists of lower case hexadecimal digits. *)
Definition is_hex (c : ascii) : bool :=
  let n := Z.of_N (N_of_ascii c) in (48 <=? n) && (n <=? 57) || (97 <=? n) && (n <=? 102).

Lemma hex_digit_hex n : is_hex (hex_digit (Z.land n 15)) = true.
Proof.
  assert (Hall : List.forallb (fun k => is_hex (hex_digit k)) (seqZ 0 16) = true) by (vm_compute; reflexivity).
  rewrite List.forallb_forall in Hall. apply Hall, list_elem_of_In, elem_of_seqZ. change 15 with (Z.ones 4).
  rewrite Z.land_ones by lia. apply Z.mod_pos_bound. lia.
Qed.

Lemma hex32_hex x : PyStr.forallb is_hex (hex32 x) = true.
Proof.
  unfold hex32. induction [7; 6; 5; 4; 3; 2; 1; 0] as [|i k IHk]; [done|]. cbn [foldr PyStr.forallb]. by rewrite IHk, hex_digit_hex.
Qed.

Lemma hexdigest_hex s : PyStr.forallb is_hex (hexdigest s) = true.
Proof.
  unfold hexdigest. generalize (blocks (length (words_of (pad (bytes_of s)))) H0 (words_of (pad (bytes_of s)))). intros l.
  induction l as [|x l IH]; [done|]. cbn [foldr]. by rewrite PyStr.forallb_app, IH, hex32_hex.
Qed.

Lemma blocks_length fuel st w : length st = 8%nat -> length (blocks fuel st w) = 8%nat.
Proof.
  revert st w; induction fuel as [|n IH]; intros st [|x w] H; try done. cbn [blocks]. apply IH.
  unfold compress. rewrite length_zip_with, H.
  assert (Hr : forall l s, length s = 8%nat -> length (foldl round s l) = 8%nat).
  { induction l as [|kw l IHl]; intros s Hs; [done|]. cbn. apply IHl.
    do 8 (destruct s as [|? s]; [done|]). by destruct s. }
  by rewrite Hr.
Qed.

Lemma hexdigest_not_empty s : hexdigest s <> "".
Proof.
  unfold hexdigest. intros H.
  pose proof (blocks_length (length (words_of (pad (bytes_of s)))) H0 (words_of (pad (bytes_of s))) eq_refl) as Hl.
  destruct (blocks _ _ _) as [|x l]; [done|]. cbn [foldr] in H. unfold hex32 in H. cbn [foldr] in H.
  by rewrite PyStr.app_cons in H.
Qed.

(** Raw bytes of a digest written in hexadecimal. *)
Definition hex_val (c : ascii) : Z :=
  let n := Z.of_N (N_of_ascii c) in if n <? 58 then n - 48 else n - 87.

Fixpoint unhex (s : string) : string :=
  match s with
  | String a (String b r) => String (ascii_of_N (Z.to_N (16 * hex_val a + hex_val b))) (unhex r)
  | _ => ""
  end.

(** [hmac.new(key, message, sha256).hexdigest()]. *)
Definition xor_pad (b : Z) (key : string) : string :=
  let k := if (64 <? PyStr.len key) then unhex (hexdigest key) else key in
  foldr (fun v r => String (ascii_of_N (Z.to_N (Z.lxor v b))) r) ""
    (bytes_of k ++ replicate (64 - String.length k) 0).

Definition hmac (key message : string) : string :=
  hexdigest (xor_pad 92 key +:+ unhex (hexdigest (xor_pad 54 key +:+ message))).

(** The example of RFC 2104's companion vectors. *)
Example hmac_fox : hmac "key" "The quick brown fox jumps over the lazy dog" =
  "f7bc83f430538424b13298e6aa6fb143ef4d59a14946175997479dbc2d1a3cd8".
Proof. vm_compute. reflexivity. Qed.

#[global] Opaque hexdigest.

(** Two distinct inputs with the same digest. *)
Definition collision (x y : string) : Prop := x <> y /\ hexdigest x = hexdigest y.

End Sha256.
