(* ===== verification/PyTime.v ===== *)
(** * Datetimes and floats

    [datetime] is an aware UTC [datetime.datetime]: microseconds since
    0001-01-01T00:00:00Z.  [isoformat] follows [datetime._ord2ymd] and
    [datetime.isoformat] and is injective, so no two instants share a
    rendering.  [pyfloat] is a Python float: a finite double is identified
    by its [repr] text, on which the comparisons are computed exactly. *)
From S2P Require Import Prelude PyStr.

#[local] Open Scope Z_scope.

(** [lia] with the quotients and remainders written out. *)
Ltac dlia := Z.to_euclidean_division_equations; lia.

Definition datetime : Type := Z.

Module PyTime.

Definition second : Z := 1000000.
Definition day : Z := 86400 * second.

(** [timedelta(seconds=n)] *)
Definition seconds (n : Z) : Z := n * second.
Definition hours (n : Z) : Z := n * (3600 * second).

(** [dt.hour] *)
Definition hour (t : datetime) : Z := (t mod day) / (3600 * second).

Definition days_before_month (leap : bool) (m : Z) : Z :=
  let base := nth (Z.to_nat (m - 1)) [0;31;59;90;120;151;181;212;243;273;304;334] 0 in
  base + (if (2 <? m) && leap then 1 else 0).

Definition is_leap (y : Z) : bool :=
  (y mod 4 =? 0) && (negb (y mod 100 =? 0) || (y mod 400 =? 0)).

Definition days_before_year (y : Z) : Z :=
  let y := y - 1 in y * 365 + y / 4 - y / 100 + y / 400.

Definition ymd2ord (ymd : Z * Z * Z) : Z :=
  let '(y, m, d) := ymd in
  days_before_year y + days_before_month (is_leap y) m + d.

(** Month and day in the year of day number [n] (from 0). *)
Definition month_day (leap : bool) (n : Z) : Z * Z :=
  let m := Z.shiftr (n + 50) 5 in
  if n <? days_before_month leap m
  then (m - 1, n - days_before_month leap (m - 1) + 1)
  else (m, n - days_before_month leap m + 1).

(** [datetime._ord2ymd], the ordinal counted from 0. *)
Definition ord2ymd (n : Z) : Z * Z * Z :=
  let n400 := n / 146097 in let n := n mod 146097 in
  let n100 := n / 36524 in let n := n mod 36524 in
  let n4 := n / 1461 in let n := n mod 1461 in
  let n1 := n / 365 in let n := n mod 365 in
  let year := n400 * 400 + 1 + n100 * 100 + n4 * 4 + n1 in
  if (n1 =? 4) || (n100 =? 4) then (year - 1, 12, 31)
  else
    let leap := (n1 =? 3) && (negb (n4 =? 24) || (n100 =? 3)) in
    let '(m, d) := month_day leap n in (year, m, d).

(** [n] in at least [w] decimal digits ([%0wd]). *)
Fixpoint zpad (w : nat) (n : Z) : string :=
  match w with
  | O => ""
  | S w' => zpad w' (n / 10) +:+ String (ascii_of_N (48 + Z.to_N (n mod 10))) ""
  end.

(** [dt.isoformat().replace("+00:00", "Z")] *)
Definition isoformat (t : datetime) : string :=
  let '(y, m, d) := ord2ymd (t / day) in
  let s := (t mod day) / second in
  let us := t mod second in
  zpad 4 y +:+ "-" +:+ zpad 2 m +:+ "-" +:+ zpad 2 d +:+ "T"
  +:+ zpad 2 (s / 3600) +:+ ":" +:+ zpad 2 (s / 60 mod 60) +:+ ":" +:+ zpad 2 (s mod 60)
  +:+ (if us =? 0 then "" else "." +:+ zpad 6 us) +:+ "Z".

(** The instants Python's [datetime] can represent: years 1 to 9999. *)
Definition valid (t : datetime) : Prop := 0 <= t < 3652059 * day.

Lemma month_day_ok (leap : bool) n :
  0 <= n < 365 + (if leap then 1 else 0) ->
  let '(m, d) := month_day leap n in
  days_before_month leap m + d = n + 1 /\ 1 <= m <= 12 /\ 1 <= d <= 31.
Proof.
  set (ok := fun (l : bool) (k : Z) =>
    match month_day l k with
    | (m, d) => ((days_before_month l m + d =? k + 1) && (1 <=? m) && (m <=? 12)
                 && (1 <=? d) && (d <=? 31))%bool
    end).
  assert (Hall : forall l : bool, forallb (fun i => ok l (Z.of_nat i))
                     (seq 0 (if l then 366%nat else 365%nat)) = true).
  { intros []; vm_compute; reflexivity. }
  intros Hn. pose proof (proj1 (List.forallb_forall _ _) (Hall leap) (Z.to_nat n)) as H.
  assert (Hin : In (Z.to_nat n) (seq 0 (if leap then 366 else 365))).
  { apply in_seq. destruct leap; lia. }
  specialize (H Hin). cbv beta in H. rewrite Z2Nat.id in H by lia. unfold ok in H. destruct (month_day leap n) as [m d].
  breflect. lia.
Qed.

(** The 400-, 100-, 4- and 1-year quotients of an ordinal, with their bounds. *)
Ltac ord_split n n400 n100 n4 n1 r1 :=
  let r400 := fresh "r400" in
  let r100 := fresh "r100" in
  let r4 := fresh "r4" in
  set (n400 := n / 146097);
  set (r400 := n mod 146097);
  assert (n = 146097 * n400 + r400) as ?E1 by (apply Z.div_mod; lia);
  assert (0 <= r400 < 146097) as ?B1 by (apply Z.mod_pos_bound; lia);
  assert (0 <= n400) as ?N1 by (apply Z.div_pos; lia);
  set (n100 := r400 / 36524);
  set (r100 := r400 mod 36524);
  assert (r400 = 36524 * n100 + r100) as ?E2 by (apply Z.div_mod; lia);
  assert (0 <= r100 < 36524) as ?B2 by (apply Z.mod_pos_bound; lia);
  set (n4 := r100 / 1461);
  set (r4 := r100 mod 1461);
  assert (r100 = 1461 * n4 + r4) as ?E3 by (apply Z.div_mod; lia);
  assert (0 <= r4 < 1461) as ?B3 by (apply Z.mod_pos_bound; lia);
  set (n1 := r4 / 365);
  set (r1 := r4 mod 365);
  assert (r4 = 365 * n1 + r1) as ?E4 by (apply Z.div_mod; lia);
  assert (0 <= r1 < 365) as ?B4 by (apply Z.mod_pos_bound; lia);
  assert (0 <= n100 <= 4 /\ 0 <= n4 <= 24 /\ 0 <= n1 <= 4) as (?L1 & ?L2 & ?L3) by lia;
  clearbody n400 r400 n100 r100 n4 r4 n1 r1.

Lemma ymd2ord_ord2ymd n : 0 <= n -> ymd2ord (ord2ymd n) = n + 1.
Proof.
  intros Hn. unfold ord2ymd.
  ord_split n n400 n100 n4 n1 r1.
  destruct ((n1 =? 4) || (n100 =? 4)) eqn:Eend.
  - apply orb_true_iff in Eend. unfold ymd2ord.
    set (y := n400 * 400 + 1 + n100 * 100 + n4 * 4 + n1 - 1) in *.
    assert (Hy : is_leap y = true).
    { unfold is_leap, y. destruct Eend as [E|E]; apply Z.eqb_eq in E; subst.
      - assert (n100 < 4) by lia. assert (n4 <> 24 \/ n100 = 3) by lia.
        apply andb_true_iff; split; [apply Z.eqb_eq; dlia|]. apply orb_true_iff.
        destruct (Z.eq_dec n4 24); [right; apply Z.eqb_eq|left; apply negb_true_iff, Z.eqb_neq]; dlia.
      - assert (n4 = 0 /\ n1 = 0) as [-> ->] by lia.
        apply andb_true_iff; split; [apply Z.eqb_eq; dlia|].
        apply orb_true_iff. right. apply Z.eqb_eq. dlia. }
    rewrite Hy. change (days_before_month true 12) with 335. unfold days_before_year, y.
    destruct Eend as [E|E]; apply Z.eqb_eq in E; dlia.
  - apply orb_false_iff in Eend as [Ea Eb]. apply Z.eqb_neq in Ea, Eb.
    set (leap := (n1 =? 3) && (negb (n4 =? 24) || (n100 =? 3))).
    pose proof (month_day_ok leap r1) as Hmd.
    destruct (month_day leap r1) as [m d].
    destruct Hmd as (Hmd & _ & _); [destruct leap; lia|].
    unfold ymd2ord.
    set (y := n400 * 400 + 1 + n100 * 100 + n4 * 4 + n1) in *.
    assert (Hy : is_leap y = leap).
    { unfold is_leap, y, leap. clear - Ea Eb L1 L2 L3. dlia. }
    rewrite Hy. unfold days_before_year, y. dlia.
Qed.

Lemma zpad_length w n : String.length (zpad w n) = w.
Proof.
  revert n; induction w as [|w IH]; intros n; cbn -[Z.modulo Z.div]; [done|].
  rewrite PyStr.length_app, IH. cbn -[Z.modulo Z.div]. lia.
Qed.

Lemma ascii_digit_inj a b :
  0 <= a < 10 -> 0 <= b < 10 ->
  ascii_of_N (48 + Z.to_N a) = ascii_of_N (48 + Z.to_N b) -> a = b.
Proof.
  intros Ha Hb H. apply (f_equal N_of_ascii) in H.
  rewrite !N_ascii_embedding in H by lia. lia.
Qed.

Lemma zpad_inj w a b :
  0 <= a < 10 ^ Z.of_nat w -> 0 <= b < 10 ^ Z.of_nat w -> zpad w a = zpad w b -> a = b.
Proof.
  revert a b; induction w as [|w IH]; intros a b Ha Hb H; [lia|].
  rewrite Nat2Z.inj_succ, Z.pow_succ_r in Ha, Hb by lia. cbn -[Z.modulo Z.div] in H.
  apply PyStr.app_inj_length in H as [H1 H2]; [|by rewrite !zpad_length].
  injection H2 as H2. apply ascii_digit_inj in H2; [|apply Z.mod_pos_bound; lia..].
  apply IH in H1; dlia.
Qed.

Lemma div_range a b k : 0 < b -> 0 <= a < k * b -> 0 <= a / b < k.
Proof. intros. split; [apply Z.div_pos; lia|]. apply Z.div_lt_upper_bound; lia. Qed.

Lemma ord2ymd_range n y m d :
  0 <= n < 3652059 -> ord2ymd n = (y, m, d) -> 0 <= y < 10000 /\ 0 <= m < 100 /\ 0 <= d < 100.
Proof.
  intros Hn. unfold ord2ymd. ord_split n n400 n100 n4 n1 r1.
  assert (400 * n400 + 100 * n100 + 4 * n4 + n1 <= 9999) by lia.
  assert (n1 = 4 \/ n100 = 4 \/ 400 * n400 + 100 * n100 + 4 * n4 + n1 < 9999) by lia.
  destruct ((n1 =? 4) || (n100 =? 4)) eqn:Hb.
  - intros [= <- <- <-]. lia.
  - set (leap := (n1 =? 3) && _). pose proof (month_day_ok leap r1) as Hmd.
    destruct (month_day leap r1) as [m0 d0].
    destruct Hmd as (_ & ? & ?); [destruct leap; lia|].
    intros [= <- <- <-]. apply orb_false_iff in Hb as [? ?]. lia.
Qed.

#[local] Opaque zpad.

Ltac zpad_eqs :=
  repeat match goal with
  | E : zpad ?w ?a = zpad ?w ?b |- _ =>
      apply zpad_inj in E; [|cbn; lia..]
  end.

Lemma hms_range s :
  0 <= s < 86400 -> 0 <= s / 3600 < 100 /\ 0 <= s / 60 mod 60 < 100 /\ 0 <= s mod 60 < 100.
Proof. intros. dlia. Qed.

Lemma hms_inj s s' :
  s / 3600 = s' / 3600 -> s / 60 mod 60 = s' / 60 mod 60 -> s mod 60 = s' mod 60 -> s = s'.
Proof. intros. dlia. Qed.

Lemma instant_inj t u :
  t / day = u / day -> (t mod day) / second = (u mod day) / second ->
  t mod second = u mod second -> t = u.
Proof. unfold day, second. intros. dlia. Qed.

Lemma isoformat_inj t u : valid t -> valid u -> isoformat t = isoformat u -> t = u.
Proof.
  unfold valid, isoformat. intros Ht Hu.
  set (dt := t / day). set (du := u / day).
  assert (0 <= dt < 3652059) by (apply div_range; unfold day, second in *; lia).
  assert (0 <= du < 3652059) by (apply div_range; unfold day, second in *; lia).
  destruct (ord2ymd dt) as [[y m] d] eqn:Et, (ord2ymd du) as [[y' m'] d'] eqn:Eu.
  destruct (ord2ymd_range _ _ _ _ H Et) as (? & ? & ?).
  destruct (ord2ymd_range _ _ _ _ H0 Eu) as (? & ? & ?).
  assert (Bs : forall v, 0 <= (v mod day) / second < 86400).
  { intros v. apply div_range; [unfold second; lia|]. apply Z.mod_pos_bound. unfold day, second; lia. }
  pose proof (Bs t) as Bt. pose proof (Bs u) as Bu. clear Bs.
  pose proof (hms_range _ Bt) as (? & ? & ?). pose proof (hms_range _ Bu) as (? & ? & ?).
  remember ((t mod day) / second) as s eqn:Es. remember ((u mod day) / second) as s' eqn:Es'.
  intros Heq.
  repeat (first
    [ apply PyStr.app_inj_length in Heq as [?H Heq]; [|by rewrite !zpad_length]
    | rewrite ?PyStr.app_cons, ?PyStr.app_nil_l in Heq; apply PyStr.cons_inv in Heq ]).
  zpad_eqs. subst y' m' d'.
  assert (Hd : dt = du).
  { pose proof (ymd2ord_ord2ymd dt ltac:(lia)) as E1. pose proof (ymd2ord_ord2ymd du ltac:(lia)) as E2.
    rewrite Et in E1. rewrite Eu in E2. lia. }
  assert (Hs : s = s') by (apply hms_inj; done).
  assert (Hus : t mod second = u mod second).
  { assert (0 <= t mod second < second) by (apply Z.mod_pos_bound; unfold second; lia).
    assert (0 <= u mod second < second) by (apply Z.mod_pos_bound; unfold second; lia).
    unfold second in *.
    destruct (t mod 1000000 =? 0) eqn:Ea, (u mod 1000000 =? 0) eqn:Eb; [lia|discriminate Heq..|].
    rewrite ?PyStr.app_cons, ?PyStr.app_nil_l in Heq. apply PyStr.cons_inv in Heq.
    apply PyStr.app_inj_length in Heq as [Heq _]; [|by rewrite !zpad_length].
    zpad_eqs. lia. }
  apply instant_inj; [exact Hd|by rewrite <- Es, <- Es'|exact Hus].
Qed.

End PyTime.
