(* ===== verification/PyFloat.v ===== *)
(** * Python floats

    A finite double is identified by its [repr] text (CPython's [repr] is
    the shortest decimal that rounds to the double, so equal doubles have
    equal texts and the order of the doubles is the order of the decimals).
    Comparisons are exact comparisons of the decimals; every comparison with
    a NaN is false. *)
From S2P Require Import Prelude PyStr.

#[local] Open Scope Z_scope.

Module PyFloat.

Definition is_num_char (c : ascii) : bool :=
  PyStr.is_digit c || Ascii.eqb c "-" || Ascii.eqb c "+" || Ascii.eqb c "."
  || Ascii.eqb c "e".

Definition digits_opt (s : string) : option Z :=
  if PyStr.truthy s && PyStr.forallb PyStr.is_digit s
  then Some (PyStr.digits_val 0 s) else None.

Definition exponent_opt (s : string) : option Z :=
  match s with
  | String c r =>
      if Ascii.eqb c "-" then Z.opp <$> digits_opt r
      else if Ascii.eqb c "+" then digits_opt r else digits_opt s
  | EmptyString => None
  end.

(** Mantissa and decimal exponent of an unsigned float literal. *)
Definition parse_unsigned (s : string) : option (Z * Z) :=
  let '(mant, has_e, ex) := PyStr.partition "e" s in
  let '(ip, has_dot, fp) := PyStr.partition "." mant in
  if negb has_e && negb has_dot then None else
  e ← (if has_e then exponent_opt ex else Some 0);
  _ ← digits_opt ip;
  _ ← (if has_dot then digits_opt fp else Some 0);
  Some (PyStr.digits_val 0 (ip +:+ fp), e - PyStr.len fp).

Definition parse (s : string) : option (Z * Z) :=
  match s with
  | String c r =>
      if Ascii.eqb c "-"
      then (fun me => (- fst me, snd me)) <$> parse_unsigned r
      else parse_unsigned s
  | EmptyString => None
  end.

Definition lit_wf (s : string) : bool :=
  PyStr.forallb is_num_char s
  && (PyStr.has_char "." s || PyStr.has_char "e" s)
  && bool_decide (is_Some (parse s)).

Record lit : Type := mkLit { text : string; text_ok : lit_wf text = true }.

#[export] Instance lit_eq_dec : EqDecision lit.
Proof.
  intros [s Hs] [t Ht]. destruct (decide (s = t)) as [->|Hne].
  - left. f_equal. apply (proof_irrel Hs Ht).
  - right. congruence.
Defined.

Lemma text_inj (a b : lit) : text a = text b -> a = b.
Proof. destruct a as [s Hs], b as [t Ht]; cbn; intros ->. f_equal. apply proof_irrel. Qed.

Inductive t : Type :=
| Fin (l : lit)
| Inf (neg : bool)
| NaN.

#[export] Instance eq_dec : EqDecision t.
Proof. solve_decision. Defined.

Definition decimal (l : lit) : Z * Z := default (0, 0) (parse (text l)).

(** [m1 * 10^e1 <= m2 * 10^e2] and [<]. *)
Definition dec_leb (a b : Z * Z) : bool :=
  let e := Z.min (snd a) (snd b) in
  fst a * 10 ^ (snd a - e) <=? fst b * 10 ^ (snd b - e).

(** The literal reads as an infinity: it lies half a unit or more above the
    largest double.  (A document can hold such a literal; the [repr] of a
    double never is one.) *)
Definition overflows (l : lit) : bool :=
  let '(m, e) := decimal l in dec_leb (2 ^ 1024 - 2 ^ 970, 0) (Z.abs m, e).

Example literals_out_of_range :
  (overflows (mkLit "1e400" eq_refl), overflows (mkLit "-1.8e308" eq_refl), overflows (mkLit "1.7976931348623157e+308" eq_refl))
  = (true, true, false).
Proof. vm_compute. reflexivity. Qed.

Definition leb (x y : t) : bool :=
  match x, y with
  | NaN, _ | _, NaN => false
  | Inf true, _ | _, Inf false => true
  | Inf false, _ | _, Inf true => false
  | Fin a, Fin b => dec_leb (decimal a) (decimal b)
  end.

(** [x < y]; on numbers it is [not y <= x]. *)
Definition ltb (x y : t) : bool :=
  match x, y with
  | NaN, _ | _, NaN => false
  | _, _ => negb (leb y x)
  end.

Definition geb (x y : t) : bool := leb y x.
Definition gtb (x y : t) : bool := ltb y x.

Lemma leb_NaN_l x : leb NaN x = false.
Proof. by destruct x. Qed.

Lemma leb_NaN_r x : leb x NaN = false.
Proof. by destruct x as [|[]|]. Qed.

Lemma dec_leb_total a b : dec_leb a b = false -> dec_leb b a = true.
Proof.
  unfold dec_leb. rewrite (Z.min_comm (snd b)). intros H.
  apply Z.leb_gt in H. apply Z.leb_le. lia.
Qed.

Lemma ltb_leb x y : ltb x y = true -> leb x y = true.
Proof.
  destruct x as [a|[]|], y as [b|[]|]; cbn; try done.
  intros H%negb_true_iff. by apply dec_leb_total.
Qed.

End PyFloat.

Notation pyfloat := PyFloat.t.
Notation flt s := (PyFloat.Fin (PyFloat.mkLit s eq_refl)).
Export (hints) PyFloat.

Example flt_compare : PyFloat.ltb (flt "-0.5") (flt "1e+16") = true
  /\ PyFloat.leb (flt "1.0") (flt "1.0") = true
  /\ PyFloat.ltb (flt "10.0") (flt "9.75") = false.
Proof. vm_compute. auto. Qed.
