(* ===== verification/Canonical.v ===== *)
(** * Canonical JSON and content digests

    Models [src/secopent/domain/common/canonical.py].  [json] is what
    [json.dumps] can write (NaN and infinities are refused by
    [allow_nan=False]); an object keeps its insertion order and
    [canonical_json] sorts its keys.  [canonical_json] is shown injective up
    to the order of object keys, which is what the digests and signatures of
    the program rely on. *)
From S2P Require Import Prelude PyStr PyFloat PyTime Sha256.

#[local] Open Scope Z_scope.

#[local] Unset Elimination Schemes.
Inductive json : Type :=
| JNull
| JBool (b : bool)
| JInt (z : Z)
| JFloat (f : PyFloat.lit)
| JStr (s : string)
| JArr (l : list json)
| JObj (l : list (string * json)).
#[local] Set Elimination Schemes.

Section json_ind.
Variable P : json -> Prop.
Hypothesis HNull : P JNull.
Hypothesis HBool : forall b, P (JBool b).
Hypothesis HInt : forall z, P (JInt z).
Hypothesis HFloat : forall f, P (JFloat f).
Hypothesis HStr : forall s, P (JStr s).
Hypothesis HArr : forall l, Forall P l -> P (JArr l).
Hypothesis HObj : forall l, Forall (fun kv => P kv.2) l -> P (JObj l).

Fixpoint json_ind (v : json) : P v :=
  match v with
  | JNull => HNull
  | JBool b => HBool b
  | JInt z => HInt z
  | JFloat f => HFloat f
  | JStr s => HStr s
  | JArr l =>
      HArr l ((fix go l : Forall P l :=
                 match l with
                 | [] => List.Forall_nil _
                 | x :: xs => List.Forall_cons _ _ _ (json_ind x) (go xs)
                 end) l)
  | JObj l =>
      HObj l ((fix go l : Forall (fun kv => P kv.2) l :=
                 match l with
                 | [] => List.Forall_nil _
                 | kv :: xs => List.Forall_cons _ _ _ (json_ind kv.2) (go xs)
                 end) l)
  end.
End json_ind.

Module Canonical.

(** The JSON escape of one character ([ensure_ascii=False]). *)
Definition escape_char (c : ascii) : string :=
  let n := Z.of_N (N_of_ascii c) in
  if n =? 34 then "\" +:+ String c ""
  else if n =? 92 then "\\"
  else if n =? 10 then "\n"
  else if n =? 13 then "\r"
  else if n =? 9 then "\t"
  else if n =? 12 then "\f"
  else if n =? 8 then "\b"
  else if n <? 32 then "\u00" +:+ String (Sha256.hex_digit (n / 16))
                                      (String (Sha256.hex_digit (n mod 16)) "")
  else String c "".

Fixpoint escape (s : string) : string :=
  match s with
  | EmptyString => EmptyString
  | String c r => escape_char c +:+ escape r
  end.

Definition dq : string := String "034"%char "".

Definition quote (s : string) : string := dq +:+ escape s +:+ dq.

(** [json.dumps] with the compact separators. *)
Fixpoint dump (v : json) : string :=
  match v with
  | JNull => "null"
  | JBool true => "true"
  | JBool false => "false"
  | JInt z => pretty z
  | JFloat f => PyFloat.text f
  | JStr s => quote s
  | JArr [] => "[]"
  | JArr (x :: xs) =>
      "[" +:+ dump x +:+
      (fix go l := match l with
                   | [] => "]"
                   | y :: ys => "," +:+ dump y +:+ go ys
                   end) xs
  | JObj [] => "{}"
  | JObj ((k, x) :: xs) =>
      "{" +:+ quote k +:+ ":" +:+ dump x +:+
      (fix go l := match l with
                   | [] => "}"
                   | (k', y) :: ys => "," +:+ quote k' +:+ ":" +:+ dump y +:+ go ys
                   end) xs
  end.

Definition key_le (a b : string * json) : Prop := String.le a.1 b.1.
#[export] Instance key_le_dec : RelDecision key_le := fun a b => decide (String.le a.1 b.1).

(** [sort_keys=True]: objects with their entries in key order, recursively. *)
Fixpoint normalize (v : json) : json :=
  match v with
  | JArr l => JArr (normalize <$> l)
  | JObj l => JObj (merge_sort key_le (prod_map id normalize <$> l))
  | _ => v
  end.

Definition canonical_json (v : json) : string := dump (normalize v).

Definition canonical_digest (v : json) : string :=
  "sha256:" +:+ Sha256.hexdigest (canonical_json v).

(** A float as a JSON value: [allow_nan=False] refuses NaN and infinities. *)
Definition json_of_float (f : pyfloat) : outcome json :=
  match f with
  | PyFloat.Fin l => Ret (JFloat l)
  | _ => Raise (ValueError "Out of range float values are not JSON compliant")
  end.

(** Encoders for the values of the program: tuples and lists, sorted sets,
    enumerations, datetimes and optional values. *)
Definition jstrs (l : list string) : json := JArr (JStr <$> l).
Definition jset (l : list string) : json := JArr (JStr <$> PyStr.sorted l).
Definition jenum `{StrEnum A} (a : A) : json := JStr (value a).
Definition jtime (t : datetime) : json := JStr (PyTime.isoformat t).
Definition jopt {A} (f : A -> json) (o : option A) : json :=
  match o with Some a => f a | None => JNull end.

(** ** Injectivity of the rendering *)

(** What may follow a JSON value inside a document. *)
Definition term (s : string) : Prop :=
  match s with
  | EmptyString => True
  | String c _ => c = ","%char \/ c = "]"%char \/ c = "}"%char
  end.

Definition unescape (s : string) : option (ascii * string) :=
  match s with
  | String "\" (String c r) =>
      if Ascii.eqb c "n" then Some ("010"%char, r)
      else if Ascii.eqb c "r" then Some ("013"%char, r)
      else if Ascii.eqb c "t" then Some ("009"%char, r)
      else if Ascii.eqb c "f" then Some ("012"%char, r)
      else if Ascii.eqb c "b" then Some ("008"%char, r)
      else if Ascii.eqb c "u" then
        match r with
        | String _ (String _ (String h (String l r'))) =>
            let hv c := let n := N_of_ascii c in if (n <? 58)%N then (n - 48)%N else (n - 87)%N in
            Some (ascii_of_N (16 * hv h + hv l), r')
        | _ => None
        end
      else Some (c, r)
  | String c r => if Ascii.eqb c "034"%char then None else Some (c, r)
  | EmptyString => None
  end.

Lemma unescape_escape_char c r : unescape (escape_char c +:+ r) = Some (c, r).
Proof.
  destruct c as [b0 b1 b2 b3 b4 b5 b6 b7].
  destruct b0, b1, b2, b3, b4, b5, b6, b7; reflexivity.
Qed.

Lemma unescape_dq r : unescape (dq +:+ r) = None.
Proof. reflexivity. Qed.

Lemma escape_inj a b r s :
  escape a +:+ dq +:+ r = escape b +:+ dq +:+ s -> a = b /\ r = s.
Proof.
  revert b; induction a as [|c a IH]; intros [|d b]; cbn [escape]; intros H.
  - split; [done|]. rewrite !PyStr.app_nil_l in H. by apply PyStr.app_inv_head in H.
  - apply (f_equal unescape) in H. rewrite PyStr.app_assoc, unescape_escape_char in H.
    rewrite PyStr.app_nil_l, unescape_dq in H. discriminate.
  - apply (f_equal unescape) in H. rewrite PyStr.app_assoc, unescape_escape_char in H.
    rewrite PyStr.app_nil_l, unescape_dq in H. discriminate.
  - apply (f_equal unescape) in H. rewrite !PyStr.app_assoc, !unescape_escape_char in H.
    injection H as -> H. destruct (IH b H) as [-> ->]. done.
Qed.

Lemma quote_inj a b r s : quote a +:+ r = quote b +:+ s -> a = b /\ r = s.
Proof.
  unfold quote. rewrite !PyStr.app_assoc. intros H%PyStr.app_inv_head. by apply escape_inj.
Qed.

(** ** Numbers *)
Definition int_chars (s : string) : bool :=
  PyStr.forallb (fun c => PyStr.is_digit c || Ascii.eqb c "-") s.

Lemma forallb_weaken (p q : ascii -> bool) s :
  (forall c, p c = true -> q c = true) -> PyStr.forallb p s = true -> PyStr.forallb q s = true.
Proof.
  intros Hpq. induction s as [|c s IH]; cbn; [done|]. intros [? ?]%andb_true_iff.
  rewrite Hpq, IH; auto.
Qed.

Lemma forallb_existsb (p q : ascii -> bool) s :
  (forall c, p c = true -> q c = false) -> PyStr.forallb p s = true -> PyStr.existsb q s = false.
Proof.
  intros Hpq. induction s as [|c s IH]; cbn; [done|]. intros [? ?]%andb_true_iff.
  rewrite Hpq, IH; auto.
Qed.

Lemma existsb_or (p q : ascii -> bool) s :
  PyStr.existsb (fun c => p c || q c) s = PyStr.existsb p s || PyStr.existsb q s.
Proof.
  induction s as [|c s IH]; cbn; [done|]. rewrite IH.
  by destruct (p c), (q c), (PyStr.existsb p s).
Qed.

Lemma pretty_N_char_digit x : (x < 10)%N -> PyStr.is_digit (pretty_N_char x) = true.
Proof.
  intros Hx. destruct x as [|p]; [done|].
  do 4 (destruct p as [p|p|]; try reflexivity; try lia).
Qed.

Lemma pretty_N_go_digits x s :
  PyStr.forallb PyStr.is_digit s = true ->
  PyStr.forallb PyStr.is_digit (pretty_N_go x s) = true.
Proof.
  revert s. induction (N.lt_wf_0 x) as [x _ IH]; intros s Hs.
  destruct (decide (x = 0)%N) as [->|Hx]; [by rewrite pretty_N_go_0|].
  rewrite pretty_N_go_step by lia. apply IH.
  - apply N.div_lt; lia.
  - cbn. rewrite Hs, pretty_N_char_digit; [done|]. apply N.mod_lt. lia.
Qed.

Lemma pretty_N_digits (x : N) : PyStr.forallb PyStr.is_digit (pretty x) = true.
Proof.
  unfold pretty, pretty_N. case_decide; [done|]. by apply pretty_N_go_digits.
Qed.

Lemma pretty_N_not_empty (x : N) : pretty x <> "".
Proof.
  unfold pretty, pretty_N. case_decide as Hx; [done|].
  rewrite pretty_N_go_step by lia.
  enough (forall y s, s <> "" -> pretty_N_go y s <> "") by (apply H; done).
  clear. intros y. induction (N.lt_wf_0 y) as [y _ IH]; intros s Hs.
  destruct (decide (y = 0)%N) as [->|Hy]; [by rewrite pretty_N_go_0|].
  rewrite pretty_N_go_step by lia. apply IH; [apply N.div_lt; lia|done].
Qed.

Lemma pretty_Z_int_chars (z : Z) : int_chars (pretty z) = true.
Proof.
  assert (HN : forall x : N, int_chars (pretty x) = true).
  { intros x. eapply forallb_weaken, pretty_N_digits. intros c Hc; cbn. by rewrite Hc. }
  destruct z as [|p|p]; [done|apply HN|].
  change (pretty (Z.neg p)) with ("-" +:+ pretty (N.pos p)).
  unfold int_chars. rewrite PyStr.forallb_app. apply andb_true_iff. split; [done|].
  exact (HN (N.pos p)).
Qed.

Lemma pretty_Z_not_empty (z : Z) : pretty z <> "".
Proof.
  destruct z as [|p|p]; [done|exact (pretty_N_not_empty (N.pos p))|done].
Qed.

Definition num_tok (s : string) : Prop :=
  s <> "" /\ PyStr.forallb PyFloat.is_num_char s = true.

Lemma num_tok_int (z : Z) : num_tok (pretty z).
Proof.
  split; [apply pretty_Z_not_empty|].
  eapply forallb_weaken, (pretty_Z_int_chars z). intros c Hc.
  unfold PyFloat.is_num_char. apply orb_true_iff in Hc as [->| ->]; [done|].
  by rewrite orb_true_r.
Qed.

Lemma float_text_chars f :
  PyStr.forallb PyFloat.is_num_char (PyFloat.text f) = true
  /\ PyStr.existsb (fun c => Ascii.eqb "." c || Ascii.eqb "e" c) (PyFloat.text f) = true.
Proof.
  destruct f as [s Hs]; cbn. unfold PyFloat.lit_wf in Hs.
  apply andb_true_iff in Hs as [[H1 H2]%andb_true_iff _]. split; [done|].
  by rewrite existsb_or.
Qed.

Lemma num_tok_float f : num_tok (PyFloat.text f).
Proof. destruct (float_text_chars f) as [H1 H2]. split; [|done]. by intros Hs; rewrite Hs in H2. Qed.

Lemma int_float_differ (z : Z) f : pretty z <> PyFloat.text f.
Proof.
  intros H. destruct (float_text_chars f) as [_ He]. rewrite <- H in He.
  erewrite forallb_existsb in He; [discriminate| |apply (pretty_Z_int_chars z)].
  intros c Hc. destruct (Ascii.eqb "." c) eqn:E1; [apply Ascii.eqb_eq in E1; subst; discriminate|].
  destruct (Ascii.eqb "e" c) eqn:E2; [apply Ascii.eqb_eq in E2; subst; discriminate|done].
Qed.

Lemma num_tok_split a b r s :
  num_tok a -> num_tok b -> term r -> term s -> a +:+ r = b +:+ s -> a = b /\ r = s.
Proof.
  assert (Hterm : forall c r, PyFloat.is_num_char c = true -> ~ term (String c r)).
  { intros c r' Hc [-> | [-> | ->]]; discriminate. }
  intros [_ Ha] [_ Hb] Hr Hs. revert b Hb; induction a as [|c a IH]; intros [|d b] Hb H; cbn in *.
  - done.
  - rewrite PyStr.app_nil_l, PyStr.app_cons in H. subst r. breflect. by edestruct Hterm.
  - rewrite PyStr.app_nil_l, PyStr.app_cons in H. subst s. breflect. by edestruct Hterm.
  - rewrite !PyStr.app_cons in H. injection H as -> H. breflect.
    edestruct (fun Ha => IH Ha b) as [-> ->]; eauto.
Qed.

(** ** Documents *)
Fixpoint arr_tail (l : list json) : string :=
  match l with
  | [] => "]"
  | y :: ys => "," +:+ dump y +:+ arr_tail ys
  end.

Fixpoint obj_tail (l : list (string * json)) : string :=
  match l with
  | [] => "}"
  | (k, y) :: ys => "," +:+ quote k +:+ ":" +:+ dump y +:+ obj_tail ys
  end.

Lemma dump_arr x xs : dump (JArr (x :: xs)) = "[" +:+ dump x +:+ arr_tail xs.
Proof. reflexivity. Qed.

Lemma dump_obj k x xs :
  dump (JObj ((k, x) :: xs)) = "{" +:+ quote k +:+ ":" +:+ dump x +:+ obj_tail xs.
Proof. reflexivity. Qed.

(** The class of a document's first character. *)
Definition head_kind (s : string) : nat :=
  match s with
  | String c _ =>
      if Ascii.eqb c "n" then 0%nat
      else if Ascii.eqb c "t" then 1%nat
      else if Ascii.eqb c "f" then 2%nat
      else if Ascii.eqb c "034"%char then 3%nat
      else if Ascii.eqb c "[" then 4%nat
      else if Ascii.eqb c "{" then 5%nat
      else if PyFloat.is_num_char c then 6%nat
      else 7%nat
  | EmptyString => 7%nat
  end.

Definition json_kind (v : json) : nat :=
  match v with
  | JNull => 0 | JBool true => 1 | JBool false => 2 | JStr _ => 3
  | JArr _ => 4 | JObj _ => 5 | JInt _ | JFloat _ => 6
  end.

Lemma num_tok_kind s r : num_tok s -> head_kind (s +:+ r) = 6%nat.
Proof.
  intros [Hne Hc]. destruct s as [|c s]; [done|]. cbn in Hc. breflect. clear H0 Hne.
  destruct c as [b0 b1 b2 b3 b4 b5 b6 b7].
  destruct b0, b1, b2, b3, b4, b5, b6, b7; first [reflexivity|discriminate H].
Qed.

Lemma dump_kind v r : head_kind (dump v +:+ r) = json_kind v.
Proof.
  destruct v as [|[]|z|f|s|[|x xs]|[|[k x] xs]]; try reflexivity.
  - apply (num_tok_kind _ r (num_tok_int z)).
  - apply (num_tok_kind _ r (num_tok_float f)).
Qed.

Lemma term_arr_tail l r : term (arr_tail l +:+ r).
Proof. destruct l; hnf; auto. Qed.

Lemma term_obj_tail l r : term (obj_tail l +:+ r).
Proof. destruct l as [|[]]; hnf; auto. Qed.

Definition dump_inj_at (v : json) : Prop :=
  forall w r s, term r -> term s -> dump v +:+ r = dump w +:+ s -> v = w /\ r = s.

Lemma arr_tail_inj l :
  Forall dump_inj_at l ->
  forall m r s, term r -> term s -> arr_tail l +:+ r = arr_tail m +:+ s -> l = m /\ r = s.
Proof.
  induction 1 as [|x l Hx _ IH]; intros [|y m] r s Hr Hs H; cbn [arr_tail] in H.
  - split; [done|]. by apply PyStr.app_inv_head in H.
  - discriminate H.
  - discriminate H.
  - rewrite !PyStr.app_assoc in H. apply PyStr.app_inv_head in H.
    apply Hx in H as [-> H]; [|apply term_arr_tail..].
    apply IH in H as [-> ->]; done.
Qed.

Lemma obj_tail_inj l :
  Forall (fun kv => dump_inj_at kv.2) l ->
  forall m r s, term r -> term s -> obj_tail l +:+ r = obj_tail m +:+ s -> l = m /\ r = s.
Proof.
  induction 1 as [|[k x] l Hx _ IH]; intros [|[k' y] m] r s Hr Hs H; cbn [obj_tail] in H.
  - split; [done|]. by apply PyStr.app_inv_head in H.
  - discriminate H.
  - discriminate H.
  - rewrite !PyStr.app_assoc in H. apply PyStr.app_inv_head in H.
    apply quote_inj in H as [-> H]. apply PyStr.app_inv_head in H.
    cbn in Hx.
    apply Hx in H as [-> H]; [|apply term_obj_tail..].
    apply IH in H as [-> ->]; done.
Qed.

Lemma dump_inj_strong v : dump_inj_at v.
Proof.
  induction v as [|b|z|f|str|l IHl|l IHl] using json_ind; intros w r s Hr Hs H;
    pose proof (f_equal head_kind H) as Hk; rewrite !dump_kind in Hk.
  - destruct w as [|[]| | | | |]; try discriminate Hk. by apply PyStr.app_inv_head in H.
  - destruct w as [|b'| | | | |], b; try destruct b'; try discriminate Hk;
      by apply PyStr.app_inv_head in H.
  - destruct w as [|[]|z'|f'| | |]; try discriminate Hk; cbn [dump] in H.
    + apply num_tok_split in H as [E ->]; auto using num_tok_int.
      split; [|done]. f_equal. by apply (inj pretty).
    + apply num_tok_split in H as [E _]; auto using num_tok_int, num_tok_float.
      by apply int_float_differ in E.
  - destruct w as [|[]|z'|f'| | |]; try discriminate Hk; cbn [dump] in H.
    + apply num_tok_split in H as [E _]; auto using num_tok_int, num_tok_float.
      by symmetry in E; apply int_float_differ in E.
    + apply num_tok_split in H as [E ->]; auto using num_tok_float.
      split; [|done]. f_equal. by apply PyFloat.text_inj.
  - destruct w as [|[]|z'|f'|str'| |]; try discriminate Hk; cbn [dump] in H.
    apply quote_inj in H as [-> ->]. done.
  - destruct w as [|[]|z'|f'|str'|m|]; try discriminate Hk.
    destruct l as [|x l], m as [|y m].
    + by apply PyStr.app_inv_head in H.
    + rewrite dump_arr in H. apply (PyStr.app_inv_head "[" ("]" +:+ r)) in H.
      apply (f_equal head_kind) in H. rewrite PyStr.app_assoc, dump_kind in H.
      by destruct y as [|[]| | | | |].
    + rewrite dump_arr in H. symmetry in H.
      apply (PyStr.app_inv_head "[" ("]" +:+ s)) in H.
      apply (f_equal head_kind) in H. rewrite PyStr.app_assoc, dump_kind in H.
      by destruct x as [|[]| | | | |].
    + rewrite !dump_arr, !PyStr.app_assoc in H. apply PyStr.app_inv_head in H.
      apply Forall_cons in IHl as [Hx Hl].
      apply Hx in H as [-> H]; [|apply term_arr_tail..].
      apply arr_tail_inj in H as [-> ->]; done.
  - destruct w as [|[]|z'|f'|str'|m|m]; try discriminate Hk.
    destruct l as [|[k x] l], m as [|[k' y] m].
    + by apply PyStr.app_inv_head in H.
    + discriminate H.
    + discriminate H.
    + rewrite !dump_obj, !PyStr.app_assoc in H. apply PyStr.app_inv_head in H.
      apply quote_inj in H as [-> H]. apply PyStr.app_inv_head in H.
      apply Forall_cons in IHl as [Hx Hl].
      cbn in Hx.
    apply Hx in H as [-> H]; [|apply term_obj_tail..].
      apply obj_tail_inj in H as [-> ->]; done.
Qed.

Lemma dump_inj v w : dump v = dump w -> v = w.
Proof.
  intros H. apply (dump_inj_strong v w "" ""); [exact I..|]. by rewrite H.
Qed.

(** Equal canonical texts come from values equal up to the order of object
    keys. *)
Lemma canonical_json_inj v w : canonical_json v = canonical_json w -> normalize v = normalize w.
Proof. apply dump_inj. Qed.

(** Equal digests: equal values, or a SHA-256 collision. *)
Lemma canonical_digest_inj v w :
  canonical_digest v = canonical_digest w ->
  normalize v = normalize w
  \/ Sha256.collision (canonical_json v) (canonical_json w).
Proof.
  intros H. unfold canonical_digest in H. apply PyStr.app_inv_head in H.
  destruct (decide (canonical_json v = canonical_json w)) as [E|E].
  - left. by apply canonical_json_inj.
  - right. done.
Qed.

Lemma NoDup_keys_fun {A} (l : list (string * A)) k x y :
  NoDup l.*1 -> (k, x) ∈ l -> (k, y) ∈ l -> x = y.
Proof.
  induction l as [|[k' z] l IH]; cbn; intros Hn H1 H2; [by apply elem_of_nil in H1|].
  apply NoDup_cons in Hn as [Hk Hn].
  assert (Hin : forall w, (k', w) ∈ l -> k' ∈ l.*1).
  { intros w Hw. apply list_elem_of_fmap. by exists (k', w). }
  apply elem_of_cons in H1 as [[= -> ->]|H1], H2 as [E|H2]; try injection E as ->; subst;
    naive_solver.
Qed.

(** The canonical text does not depend on the order of the (distinct) keys of
    an object. *)
Lemma normalize_obj_perm l m :
  NoDup l.*1 -> l ≡ₚ m -> normalize (JObj l) = normalize (JObj m).
Proof.
  intros Hnd HP. cbn. f_equal.
  set (f := prod_map id normalize : string * json -> string * json).
  assert (Hkeys : forall k : list (string * json), (f <$> k).*1 = k.*1).
  { intros k. rewrite <- list_fmap_compose. by apply list_fmap_ext. }
  assert (Ht : Transitive key_le) by (intros a b c; unfold key_le; apply (transitivity (R:=String.le))).
  assert (Htot : Total key_le) by (intros a b; apply (total String.le)).
  apply (Sorted_unique_strong key_le).
  - intros [k1 x1] [k2 x2] H1 H2 Hle1 Hle2.
    rewrite merge_sort_Permutation in H1, H2.
    assert (k1 = k2) as -> by (apply (anti_symm String.le); done).
    f_equal. rewrite <- HP in H2.
    assert (NoDup (f <$> l).*1) as Hn by (by rewrite Hkeys).
    by apply (NoDup_keys_fun (f <$> l) k2).
  - apply Sorted_merge_sort, _.
  - apply Sorted_merge_sort, _.
  - rewrite !merge_sort_Permutation. by rewrite HP.
Qed.

Lemma keys_lookup_fun {A} (l m : list (string * A)) :
  NoDup l.*1 -> l.*1 = m.*1 -> l ≡ₚ m -> l = m.
Proof.
  intros Hnd Hk HP.
  assert (Hsub : forall x, x ∈ l -> x ∈ m) by (intros x; by rewrite HP).
  assert (Hndm : NoDup m.*1) by (by rewrite <- Hk).
  clear HP. apply list_eq. intros i.
  destruct (l !! i) as [[k x]|] eqn:El.
  - assert (Hm : (fst <$> m !! i) = Some k).
    { rewrite <- list_lookup_fmap, <- Hk, list_lookup_fmap, El. done. }
    destruct (m !! i) as [[k' y]|] eqn:Em; [|done]. injection Hm as ->. f_equal. f_equal.
    apply (NoDup_keys_fun m k); [done| |by eapply list_elem_of_lookup_2].
    apply Hsub. by eapply list_elem_of_lookup_2.
  - symmetry. apply lookup_ge_None. apply lookup_ge_None in El.
    rewrite <- (length_fmap fst m), <- Hk, length_fmap. done.
Qed.

(** Two objects with the same keys and the same canonical text have the same
    values, field by field. *)
Lemma normalize_obj_inj l m :
  NoDup l.*1 -> l.*1 = m.*1 -> normalize (JObj l) = normalize (JObj m) ->
  normalize <$> l.*2 = normalize <$> m.*2.
Proof.
  intros Hnd Hk H. cbn in H. injection H as H.
  set (f := prod_map id normalize : string * json -> string * json) in *.
  assert (Hkeys : forall k : list (string * json), (f <$> k).*1 = k.*1).
  { intros k. rewrite <- list_fmap_compose. by apply list_fmap_ext. }
  assert (HP : f <$> l ≡ₚ f <$> m).
  { by rewrite <- (merge_sort_Permutation key_le (f <$> l)), H, merge_sort_Permutation. }
  assert (HE : f <$> l = f <$> m).
  { apply keys_lookup_fun; rewrite ?Hkeys; done. }
  apply (f_equal (fmap snd)) in HE. rewrite <- !(list_fmap_compose f snd) in HE.
  rewrite <- !list_fmap_compose. exact HE.
Qed.

Lemma normalize_arr_inj l m :
  normalize (JArr l) = normalize (JArr m) -> normalize <$> l = normalize <$> m.
Proof. cbn. by intros [=]. Qed.

Lemma normalize_jstrs_inj l m : normalize (jstrs l) = normalize (jstrs m) -> l = m.
Proof.
  intros H%normalize_arr_inj. rewrite <- !list_fmap_compose in H.
  revert m H; induction l as [|x l IH]; intros [|y m] H; try discriminate H; [done|].
  injection H as -> H. by rewrite (IH m H).
Qed.

Lemma normalize_jenum_inj `{StrEnum A} (a b : A) :
  normalize (jenum a) = normalize (jenum b) -> a = b.
Proof. cbn. intros [= E]. by apply value_inj. Qed.

(** Read off the fields of two equal normalized records. *)
Lemma normalize_fields l m :
  normalize (JObj l) = normalize (JObj m) -> l.*1 = m.*1 ->
  bool_decide (NoDup l.*1) = true -> normalize <$> l.*2 = normalize <$> m.*2.
Proof. intros H Hk Hnd%bool_decide_eq_true. by apply normalize_obj_inj. Qed.

End Canonical.

#[export] Hint Resolve Canonical.canonical_json_inj : py.
