(* ===== verification/PyJson.v ===== *)
(** * JSON-like values as the program handles them

    [str], [repr], truth, [or] and the [dict] operations on the values of
    [Canonical.json]. *)
From S2P Require Import Prelude PyStr PyFloat Canonical.

#[local] Open Scope Z_scope.

(** [str(value)] and [repr(value)] of a JSON-like value. *)
Fixpoint py_repr (v : json) : string :=
  match v with
  | JNull => "None"
  | JBool true => "True"
  | JBool false => "False"
  | JInt z => pretty z
  | JFloat f => PyFloat.text f
  | JStr s => PyStr.repr s
  | JArr l => "[" +:+ PyStr.join ", " (py_repr <$> l) +:+ "]"
  | JObj l => "{" +:+ PyStr.join ", " ((fun kv => PyStr.repr kv.1 +:+ ": " +:+ py_repr kv.2) <$> l) +:+ "}"
  end.
Definition py_str (v : json) : string := match v with JStr s => s | _ => py_repr v end.

(** [payload.get(key)]: the last write of a key wins in a [dict]; the list
    holds one entry per key. *)
Definition field (k : string) (p : list (string * json)) : option json :=
  snd <$> List.find (fun kv => bool_decide (kv.1 = k)) p.

(** [body[key] = value] *)
Fixpoint set_field (k : string) (v : json) (p : list (string * json)) : list (string * json) :=
  match p with
  | [] => [(k, v)]
  | (k', v') :: r => if bool_decide (k' = k) then (k', v) :: r else (k', v') :: set_field k v r
  end.

(** [bool(value)] and [a or b]. *)
Definition truthy_json (v : json) : bool :=
  match v with
  | JNull => false | JBool b => b | JInt z => negb (z =? 0)
  | JFloat f => negb (PyFloat.leb (PyFloat.Fin f) (flt "0.0") && PyFloat.leb (flt "0.0") (PyFloat.Fin f))
  | JStr s => PyStr.truthy s
  | JArr l => match l with [] => false | _ => true end
  | JObj l => match l with [] => false | _ => true end
  end.
Definition json_or (a b : json) : json := if truthy_json a then a else b.

(** The keys of a [dict]. *)
Definition dict_keys (p : list (string * json)) : list string := p.*1.

(** [type(v).__name__] *)
Definition type_name (v : json) : string :=
  match v with
  | JNull => "NoneType" | JBool _ => "bool" | JInt _ => "int" | JFloat _ => "float" | JStr _ => "str"
  | JArr _ => "list" | JObj _ => "dict"
  end.

Definition no_attribute (v : json) (name : string) : string :=
  "'" +:+ type_name v +:+ "' object has no attribute '" +:+ name +:+ "'".

Lemma field_in k p v : field k p = Some v -> (k, v) ∈ p.
Proof.
  unfold field. intros ([k' v'] & Hf & [= ->])%fmap_Some_1. apply List.find_some in Hf as [Hin Hk].
  apply bool_decide_eq_true in Hk. cbn in Hk. subst k'. by apply list_elem_of_In.
Qed.
