(* ===== verification/PyText.v ===== *)
(** * Splitting, joining and decimal numbers

    Round trips of the string operations of [PyStr] the version numbers and
    document formats rely on: [split] against [join], and [int] against
    [str]. *)
From S2P Require Import Prelude PyStr Canonical.

#[local] Open Scope Z_scope.

Module PyText.
Import PyStr.

Definition no_char (c : ascii) (s : string) : Prop := has_char c s = false.

Lemma no_char_cons c d s : no_char c (String d s) <-> c <> d /\ no_char c s.
Proof.
  unfold no_char, has_char. cbn. rewrite orb_false_iff. destruct (Ascii.eqb_spec c d); naive_solver.
Qed.

(** No character in a concatenation of texts without it. *)
Lemma no_char_app c a b : no_char c a -> no_char c b -> no_char c (a +:+ b).
Proof.
  intros Ha Hb. induction a as [|d a IH]; [done|]. rewrite app_cons. apply no_char_cons in Ha as [? ?].
  apply no_char_cons. auto.
Qed.

Lemma split_not_nil c s : split c s <> [].
Proof. destruct s as [|d s]; cbn; [done|]. destruct (Ascii.eqb c d); [done|]. by destruct (split c s). Qed.

Lemma split_no_char c s : no_char c s -> split c s = [s].
Proof.
  induction s as [|d s IH]; [done|]. intros [Hd Hs]%no_char_cons. cbn.
  destruct (Ascii.eqb_spec c d); [done|]. by rewrite (IH Hs).
Qed.

Lemma split_parts c s : Forall (no_char c) (split c s).
Proof.
  induction s as [|d s IH]; cbn; [by repeat constructor|].
  destruct (Ascii.eqb_spec c d) as [->|Hd]; [by constructor|].
  destruct (split c s) as [|h t] eqn:E; [by destruct (split_not_nil c s)|].
  inversion IH; subst. constructor; [|done]. by apply no_char_cons.
Qed.

Lemma split_sep c s r : no_char c s -> split c (s +:+ String c r) = s :: split c r.
Proof.
  induction s as [|d s IH]; intros H; [rewrite app_nil_l; cbn [split]; by rewrite Ascii.eqb_refl|].
  apply no_char_cons in H as [Hd Hs]. rewrite app_cons. cbn.
  destruct (Ascii.eqb_spec c d); [done|]. by rewrite (IH Hs).
Qed.

Lemma split_join c l : l <> [] -> Forall (no_char c) l -> split c (join (String c "") l) = l.
Proof.
  intros Hl H. induction H as [|s l Hs Hl' IH]; [done|]. destruct l as [|t l]; [by apply split_no_char|].
  change (join (String c "") (s :: t :: l)) with (s +:+ String c (join (String c "") (t :: l))).
  rewrite split_sep by done. f_equal. by apply IH.
Qed.

Lemma join_split c s : join (String c "") (split c s) = s.
Proof.
  induction s as [|d s IH]; [done|]. cbn [split]. destruct (Ascii.eqb_spec c d) as [->|Hd].
  - destruct (split d s) as [|h t] eqn:E; [by destruct (split_not_nil d s)|]. rewrite <- IH. done.
  - destruct (split c s) as [|h t] eqn:E; [by destruct (split_not_nil c s)|]. rewrite <- IH. by destruct t.
Qed.

Lemma join_snoc sep l x : l <> [] -> join sep (l ++ [x]) = join sep l +:+ sep +:+ x.
Proof.
  induction l as [|y l IH]; intros H; [done|]. destruct l as [|z l]; [done|].
  change (join sep ((y :: z :: l) ++ [x])) with (y +:+ sep +:+ join sep ((z :: l) ++ [x])).
  rewrite IH by done. change (join sep (y :: z :: l)) with (y +:+ sep +:+ join sep (z :: l)). by rewrite !app_assoc.
Qed.

Lemma length_last_part c s : (String.length (List.last (split c s) "") <= String.length s)%nat.
Proof.
  destruct (exists_last (split_not_nil c s)) as (l & x & E). pose proof (join_split c s) as Hj. rewrite E in *. rewrite List.last_last.
  rewrite <- Hj. destruct l as [|y l]; [done|]. rewrite join_snoc, !length_app by done. lia.
Qed.

(** ** [int(str(n))] *)
Lemma digit_val_char x : (x < 10)%N -> digit_val (pretty_N_char x) = Z.of_N x.
Proof.
  intros Hx. destruct x as [|p]; [done|]. do 4 (destruct p as [p|p|]; try reflexivity; try lia).
Qed.

Lemma digits_val_go x s : exists k, forall acc, digits_val acc (pretty_N_go x s) = digits_val (acc * k + Z.of_N x) s.
Proof.
  revert s. induction (N.lt_wf_0 x) as [x _ IH]; intros s.
  destruct (decide (x = 0)%N) as [->|Hx].
  { exists 1. intros acc. rewrite pretty_N_go_0. f_equal. lia. }
  rewrite pretty_N_go_step by lia.
  destruct (IH (x `div` 10)%N ltac:(apply N.div_lt; lia) (String (pretty_N_char (x `mod` 10)) s)) as [k Hk].
  exists (k * 10). intros acc. rewrite Hk. cbn [digits_val]. rewrite digit_val_char by (apply N.mod_lt; lia).
  f_equal. pose proof (N.div_mod' x 10). lia.
Qed.

Lemma digits_val_pretty (x : N) : digits_val 0 (pretty x) = Z.of_N x.
Proof.
  unfold pretty, pretty_N. case_decide; [by subst|].
  destruct (digits_val_go x "") as [k Hk]. rewrite Hk. done.
Qed.

Lemma digit_facts c : is_digit c = true ->
  is_space c = false /\ Ascii.eqb "_" c = false /\ Ascii.eqb "-" c = false /\ Ascii.eqb "+" c = false /\ Ascii.eqb "." c = false.
Proof. destruct c as [[] [] [] [] [] [] [] []]; vm_compute; (discriminate || done). Qed.

Definition digits (s : string) : bool := truthy s && forallb is_digit s.

Lemma digits_cons c s : forallb is_digit (String c s) = true -> is_digit c = true /\ forallb is_digit s = true.
Proof. cbn. intros H. by breflect. Qed.

Lemma digits_no_char c s : is_digit c = false -> forallb is_digit s = true -> no_char c s.
Proof.
  intros Hc. induction s as [|d s IH]; [done|]. intros [Hd Hs]%digits_cons. apply no_char_cons.
  split; [intros ->; congruence|by apply IH].
Qed.

Lemma strip_digits s : forallb is_digit s = true -> strip s = s.
Proof.
  intros H. unfold strip.
  assert (lstrip_by is_space s = s) as ->.
  { destruct s as [|c s]; [done|]. apply digits_cons in H as [Hc _]. cbn. by rewrite (proj1 (digit_facts c Hc)). }
  revert H. induction s as [|c s IH]; [done|]. intros [Hc Hs]%digits_cons. cbn [rstrip_by]. rewrite (IH Hs).
  destruct s; [|done]. by rewrite (proj1 (digit_facts c Hc)).
Qed.

Lemma int_of_digits s : digits s = true -> len s <= 4300 -> int_of_str s = Ret (digits_val 0 s).
Proof.
  unfold digits. intros [Ht Hd]%andb_true_iff Hl. unfold int_of_str. rewrite strip_digits by done.
  destruct s as [|c s]; [done|]. destruct (digits_cons c s Hd) as [Hc Hs].
  destruct (digit_facts c Hc) as (_ & _ & Hm & Hp & _).
  assert (match String c s with String "-" r => (true, r) | String "+" r => (false, r) | _ => (false, String c s) end
          = (false, String c s)) as ->.
  { destruct (Ascii.eqb_spec "-" c), (Ascii.eqb_spec "+" c); try discriminate.
    destruct c as [[] [] [] [] [] [] [] []]; (reflexivity || congruence). }
  rewrite split_no_char by (by apply digits_no_char). cbn [join List.forallb]. rewrite Hd.
  replace (4300 <? len (String c s)) with false by (symmetry; apply Z.ltb_ge; lia). done.
Qed.

Lemma pretty_nonneg (z : Z) : 0 <= z -> pretty z = pretty (Z.to_N z) /\ digits (pretty z) = true.
Proof.
  intros Hz. assert (pretty z = pretty (Z.to_N z)) as E by (destruct z; done || lia).
  split; [done|]. rewrite E. unfold digits. rewrite Canonical.pretty_N_digits, andb_true_r.
  apply truthy_true, Canonical.pretty_N_not_empty.
Qed.

Lemma int_of_pretty (z : Z) : 0 <= z -> len (pretty z) <= 4300 -> int_of_str (pretty z) = Ret z.
Proof.
  intros Hz Hl. destruct (pretty_nonneg z Hz) as [E Hd]. rewrite int_of_digits by done.
  rewrite E, digits_val_pretty. f_equal. lia.
Qed.

Lemma digits_nonneg s acc : forallb is_digit s = true -> 0 <= acc -> 0 <= digits_val acc s.
Proof.
  revert acc. induction s as [|c s IH]; intros acc H Ha; [done|]. apply digits_cons in H as [Hc Hs]. cbn [digits_val].
  apply IH; [done|]. unfold is_digit in Hc. breflect. unfold digit_val. apply N.leb_le in H. lia.
Qed.

(** [len] of a text counts its characters, not the bytes of its UTF-8 form. *)
Fixpoint characters (s : string) : Z :=
  match s with
  | EmptyString => 0
  | String c r => (let n := Z.of_N (N_of_ascii c) in if (128 <=? n) && (n <? 192) then 0 else 1) + characters r
  end.

(** [str(n)] of an integer has at most 4300 digits. *)
Definition str_of_int (z : Z) : outcome string :=
  raise_if (4300 <? len (pretty (Z.abs z))) (ValueError "Exceeds the limit (4300 digits) for integer string conversion");;
  Ret (pretty z).

End PyText.
