(* ===== verification/JsonIndent.v ===== *)
(** * Indented JSON text in ASCII

    [json.dumps(value, indent=2)] with the default [ensure_ascii=True], which
    the program uses for prompts and reports: every character outside the
    printable ASCII range is escaped, so a text cannot break the line it is
    printed on ([quiet_print]).  The strings of the model are the UTF-8 bytes
    of the texts; [code_points] reads them back. *)
From S2P Require Import Prelude PyStr PyFloat Sha256 Canonical PyText.

#[local] Open Scope Z_scope.

Module Utf8.

Definition code (c : ascii) : Z := Z.of_N (N_of_ascii c).
Definition tail (c : ascii) : Z := code c mod 64.

(** The code points of a UTF-8 text (a stray byte stands for itself). *)
Fixpoint code_points (s : string) : list Z :=
  match s with
  | EmptyString => []
  | String a r =>
      let n := code a in
      match r with
      | String b r1 =>
          if (192 <=? n) && (n <? 224) then (n mod 32) * 64 + tail b :: code_points r1
          else
            match r1 with
            | String c r2 =>
                if (224 <=? n) && (n <? 240) then (n mod 16) * 4096 + tail b * 64 + tail c :: code_points r2
                else
                  match r2 with
                  | String d r3 =>
                      if 240 <=? n then (n mod 8) * 262144 + tail b * 4096 + tail c * 64 + tail d :: code_points r3
                      else n :: code_points r
                  | EmptyString => n :: code_points r
                  end
            | EmptyString => n :: code_points r
            end
      | EmptyString => n :: code_points r
      end
  end.

(** [iter(s)]: the characters of a text. *)
Definition goes_on (s : string) : bool :=
  match s with String c _ => (128 <=? code c) && (code c <? 192) | EmptyString => false end.
Fixpoint chars (s : string) : list string :=
  match s with
  | EmptyString => []
  | String c r =>
      match chars r with
      | x :: l => if goes_on r then String c x :: l else String c "" :: x :: l
      | [] => [String c ""]
      end
  end.

End Utf8.

Module JsonIndent.
Import Utf8.

Definition nl : string := String "010" "".
Definition newline : ascii := "010".

Definition hex (n : Z) : ascii := Sha256.hex_digit (n mod 16).
(** [\uXXXX] *)
Definition u4 (n : Z) : string :=
  "\u" +:+ String (hex (n / 4096)) (String (hex (n / 256)) (String (hex (n / 16)) (String (hex n) ""))).

(** [py_encode_basestring_ascii] of one character. *)
Definition escape_point (n : Z) : string :=
  if n =? 34 then "\" +:+ String "034" ""
  else if n =? 92 then "\\"
  else if n =? 10 then "\n"
  else if n =? 13 then "\r"
  else if n =? 9 then "\t"
  else if n =? 12 then "\f"
  else if n =? 8 then "\b"
  else if (32 <=? n) && (n <=? 126) then String (ascii_of_N (Z.to_N n)) ""
  else if n <? 65536 then u4 n
  else u4 (55296 + (n - 65536) / 1024) +:+ u4 (56320 + (n - 65536) mod 1024).

Definition quote (s : string) : string :=
  Canonical.dq +:+ PyStr.join "" (escape_point <$> code_points s) +:+ Canonical.dq.

Fixpoint spaces (n : nat) : string := match n with O => "" | S m => "  " +:+ spaces m end.
(** A new line at nesting [level]. *)
Definition indent (level : nat) : string := nl +:+ spaces level.

Fixpoint print (level : nat) (v : json) : string :=
  match v with
  | JNull => "null"
  | JBool true => "true"
  | JBool false => "false"
  | JInt z => pretty z
  | JFloat f => PyFloat.text f
  | JStr s => quote s
  | JArr [] => "[]"
  | JArr l => "[" +:+ indent (S level) +:+ PyStr.join ("," +:+ indent (S level)) (print (S level) <$> l) +:+ indent level +:+ "]"
  | JObj [] => "{}"
  | JObj l =>
      "{" +:+ indent (S level)
      +:+ PyStr.join ("," +:+ indent (S level)) ((fun kv => quote kv.1 +:+ ": " +:+ print (S level) kv.2) <$> l)
      +:+ indent level +:+ "}"
  end.

(** [json.dumps(v, indent=2)] *)
Definition dumps (v : json) : string := print 0 v.

(** ** A printed value never starts a line with an opening bracket *)

(** Every new line of [s] goes on, and not with [\[]. *)
Fixpoint quiet (s : string) : bool :=
  match s with
  | EmptyString => true
  | String c r =>
      (if Ascii.eqb c newline then match r with String d _ => negb (Ascii.eqb d "[") | EmptyString => false end else true)
      && quiet r
  end.

Lemma startswith_bracket s : PyStr.startswith s "[" = match s with String c _ => Ascii.eqb c "[" | EmptyString => false end.
Proof. destruct s as [|c s]; [done|]. cbn. rewrite Ascii.eqb_sym. destruct s; cbn; apply andb_true_r. Qed.

Lemma quiet_app a b : quiet a = true -> quiet b = true -> quiet (a +:+ b) = true.
Proof.
  intros Ha Hb. induction a as [|c a IH]; [done|]. rewrite PyStr.app_cons. cbn [quiet] in *.
  apply andb_true_iff in Ha as [Hc Ha]. apply andb_true_iff. split; [|by apply IH].
  destruct (Ascii.eqb c newline); [|done]. by destruct a.
Qed.

Lemma no_char_quiet s : PyText.no_char newline s -> quiet s = true.
Proof.
  induction s as [|c s IH]; [done|]. intros [Hc Hs]%PyText.no_char_cons. cbn. rewrite IH by done.
  apply not_eq_sym in Hc. apply Ascii.eqb_neq in Hc. by rewrite Hc.
Qed.

Lemma no_char_join c sep l : PyText.no_char c sep -> Forall (PyText.no_char c) l -> PyText.no_char c (PyStr.join sep l).
Proof.
  intros Hs. induction 1 as [|x l Hx Hl IH]; [done|]. destruct l; cbn [PyStr.join]; [done|]. by repeat apply PyText.no_char_app.
Qed.

Lemma quiet_join sep l : quiet sep = true -> Forall (fun s => quiet s = true) l -> quiet (PyStr.join sep l) = true.
Proof.
  intros Hs. induction 1 as [|x l Hx Hl IH]; [done|]. destruct l; cbn [PyStr.join]; [done|]. by repeat apply quiet_app.
Qed.

Lemma hex_no_newline n : hex n <> newline.
Proof.
  unfold hex, Sha256.hex_digit. intros E%(f_equal N_of_ascii). revert E. pose proof (Z.mod_pos_bound n 16 ltac:(lia)) as H.
  assert (n mod 16 ∈ seqZ 0 16) as Hin by (apply elem_of_seqZ; lia). revert Hin. generalize (n mod 16). intros m Hm.
  repeat (apply elem_of_cons in Hm as [->|Hm]; [vm_compute; discriminate|]). by apply elem_of_nil in Hm.
Qed.

Lemma u4_no_newline n : PyText.no_char newline (u4 n).
Proof.
  unfold u4. apply PyText.no_char_app; [done|].
  repeat (apply PyText.no_char_cons; split; [apply not_eq_sym, hex_no_newline|]). done.
Qed.

Lemma escape_point_no_newline n : PyText.no_char newline (escape_point n).
Proof.
  unfold escape_point. repeat match goal with |- context [if ?b then _ else _] => destruct b eqn:? end; try done.
  - apply PyText.no_char_cons. split; [|done]. intros E%(f_equal N_of_ascii).
    apply andb_true_iff in Heqb6 as [? ?]. rewrite N_ascii_embedding in E by lia. change (N_of_ascii newline) with 10%N in E. lia.
  - apply u4_no_newline.
  - apply PyText.no_char_app; apply u4_no_newline.
Qed.

Lemma quote_quiet s : quiet (quote s) = true.
Proof.
  apply no_char_quiet. unfold quote. apply PyText.no_char_app; [done|]. apply PyText.no_char_app; [|done]. apply no_char_join; [done|].
  apply Forall_forall. intros x (n & -> & _)%list_elem_of_fmap. apply escape_point_no_newline.
Qed.

Lemma spaces_no_newline n : PyText.no_char newline (spaces n).
Proof. induction n as [|n IH]; [done|]. cbn [spaces]. by apply PyText.no_char_app. Qed.

Lemma indent_quiet n x : quiet x = true -> PyStr.startswith x "[" = false -> x <> "" -> quiet (indent n +:+ x) = true.
Proof.
  intros Hx Hb Hne. change (indent n +:+ x) with (String newline (spaces n +:+ x)). cbn [quiet].
  change (Ascii.eqb newline newline) with true. cbn iota. apply andb_true_iff. split.
  - destruct n as [|n]; cbn [spaces]; [|done]. rewrite PyStr.app_nil_l. destruct x as [|c x]; [done|].
    rewrite startswith_bracket in Hb. cbn. by rewrite Hb.
  - apply quiet_app; [|done]. apply no_char_quiet, spaces_no_newline.
Qed.

Lemma indent_S_quiet n : quiet (indent (S n)) = true.
Proof.
  change (indent (S n)) with (String newline "  " +:+ spaces n). apply quiet_app; [done|]. apply no_char_quiet, spaces_no_newline.
Qed.

Lemma number_quiet s : PyStr.forallb PyFloat.is_num_char s = true -> quiet s = true.
Proof.
  intros H. apply no_char_quiet. induction s as [|c s IH]; [done|]. cbn in H. apply andb_true_iff in H as [Hc Hs].
  apply PyText.no_char_cons. split; [|by apply IH]. intros <-. by vm_compute in Hc.
Qed.

Lemma print_quiet v level : quiet (print level v) = true.
Proof.
  revert level. induction v as [|b|z|f|s|l IH|l IH] using json_ind; intros level.
  - done.
  - by destruct b.
  - apply number_quiet, Canonical.num_tok_int.
  - apply number_quiet, Canonical.float_text_chars.
  - apply quote_quiet.
  - destruct l as [|x l]; [done|]. cbn [print]. apply quiet_app; [done|]. apply quiet_app; [apply indent_S_quiet|].
    apply quiet_app; [|by apply indent_quiet]. apply quiet_join; [apply quiet_app; [done|apply indent_S_quiet]|].
    apply Forall_fmap. eapply Forall_impl; [exact IH|]. intros y Hy. apply Hy.
  - destruct l as [|x l]; [done|]. cbn [print]. apply quiet_app; [done|]. apply quiet_app; [apply indent_S_quiet|].
    apply quiet_app; [|by apply indent_quiet]. apply quiet_join; [apply quiet_app; [done|apply indent_S_quiet]|].
    apply Forall_fmap. eapply Forall_impl; [exact IH|]. intros y Hy. cbn.
    apply quiet_app; [apply quote_quiet|]. apply quiet_app; [done|apply Hy].
Qed.

(** The lines of a text that open a bracket. *)
Definition bracket_lines (s : string) : list string :=
  List.filter (fun l => PyStr.startswith l "[") (PyStr.split newline s).

Lemma bracket_lines_line s r :
  PyText.no_char newline s ->
  bracket_lines (s +:+ String newline r) = (if PyStr.startswith s "[" then [s] else []) ++ bracket_lines r.
Proof. intros H. unfold bracket_lines. rewrite PyText.split_sep by done. cbn. by destruct (PyStr.startswith s "["). Qed.

(** A quiet text that does not start with a bracket adds no such line. *)
Lemma bracket_lines_quiet s r :
  quiet s = true -> PyStr.startswith s "[" = false -> bracket_lines (s +:+ String newline r) = bracket_lines r.
Proof.
  unfold bracket_lines. intros Hs Hb.
  assert (Hgen : forall s cur, quiet s = true -> PyText.no_char newline cur -> PyStr.startswith (cur +:+ s) "[" = false ->
    List.filter (fun l => PyStr.startswith l "[") (PyStr.split newline (cur +:+ s +:+ String newline r))
    = List.filter (fun l => PyStr.startswith l "[") (PyStr.split newline r)).
  2: { apply (Hgen s "" Hs); done. }
  clear s Hs Hb. intros s. induction s as [|c s IH]; intros cur Hs Hcur Hb.
  - rewrite PyStr.app_nil_l, PyText.split_sep by done. cbn. rewrite PyStr.app_nil_r in Hb. by rewrite Hb.
  - rewrite PyStr.app_cons. cbn [quiet] in Hs. apply andb_true_iff in Hs as [Hc Hs].
    destruct (Ascii.eqb_spec c newline) as [->|Hne].
    + rewrite PyText.split_sep by done. cbn [List.filter].
      assert (PyStr.startswith cur "[" = false) as ->.
      { rewrite startswith_bracket in Hb |- *. by destruct cur. }
      apply (IH "" Hs); [done|]. rewrite PyStr.app_nil_l, startswith_bracket. change (Ascii.eqb newline newline) with true in Hc. cbn in Hc.
      destruct s as [|d s]; [done|]. by apply negb_true_iff in Hc.
    + replace (cur +:+ String c (s +:+ String newline r)) with ((cur +:+ String c "") +:+ s +:+ String newline r)
        by (rewrite PyStr.app_assoc; by rewrite PyStr.app_cons, PyStr.app_nil_l).
      apply IH; [done| |].
      * apply PyText.no_char_app; [done|]. apply PyText.no_char_cons. split; [by apply not_eq_sym|done].
      * rewrite PyStr.app_assoc, PyStr.app_cons, PyStr.app_nil_l. done.
Qed.

End JsonIndent.
