(* ===== verification/Policy.v ===== *)
(** * Policy vocabulary: risk classes, execution modes, decisions

    Models [src/secopent/domain/policy/models.py]; the evaluation engine of
    [domain/policy/engine.py] is in [PolicyEngine]. *)
From S2P Require Import Prelude.

#[local] Open Scope Z_scope.

Module RiskClass.
Inductive t : Type := PASSIVE | LOW | ACTIVE | INTRUSIVE | DESTRUCTIVE.
#[export] Instance eq_dec : EqDecision t.
Proof. solve_decision. Defined.
Definition to_string (r : t) : string :=
  match r with
  | PASSIVE => "passive" | LOW => "low" | ACTIVE => "active"
  | INTRUSIVE => "intrusive" | DESTRUCTIVE => "destructive"
  end.
#[export] Program Instance strenum : StrEnum t :=
  { value := to_string;
    members := [PASSIVE; LOW; ACTIVE; INTRUSIVE; DESTRUCTIVE] }.
Next Obligation. solve_members. Qed.
Next Obligation. solve_value_inj. Qed.
End RiskClass.
Notation RiskClass := RiskClass.t.

Module ExecutionMode.
Inductive t : Type := APPROVAL | SCOPE_AUTOPILOT.
#[export] Instance eq_dec : EqDecision t.
Proof. solve_decision. Defined.
Definition to_string (m : t) : string :=
  match m with APPROVAL => "approval" | SCOPE_AUTOPILOT => "scope_autopilot" end.
#[export] Program Instance strenum : StrEnum t :=
  { value := to_string; members := [APPROVAL; SCOPE_AUTOPILOT] }.
Next Obligation. solve_members. Qed.
Next Obligation. solve_value_inj. Qed.
End ExecutionMode.
Notation ExecutionMode := ExecutionMode.t.

Export (hints) RiskClass ExecutionMode.

Record PolicyDecision : Type := mkPolicyDecision {
  allowed : bool;
  reason : string
}.

Record ActionRequest : Type := mkActionRequest {
  ar_target : string;
  ar_port : Z;
  ar_risk : RiskClass;
  ar_capability : string
}.
