(* ===== verification/Assessments.v ===== *)
(** * Assessments, execution plans and approvals

    Models [src/secopent/domain/assessments/models.py] and
    [transitions.py]: the assessment life cycle as a transition table, the
    plan constructor with its depth-first cycle check, and the approval that
    binds a plan digest and a scope digest. *)
From S2P Require Import Prelude PyStr PyTime Sha256 Canonical Policy.

#[local] Open Scope Z_scope.

Module AssessmentStatus.
Inductive t : Type :=
| DRAFT | PLANNED | AWAITING_APPROVAL | APPROVED | REJECTED | QUEUED | RUNNING
| PAUSED | COMPLETED | PARTIAL | FAILED | CANCELLED.
#[export] Instance eq_dec : EqDecision t.
Proof. solve_decision. Defined.
Definition to_string (s : t) : string :=
  match s with
  | DRAFT => "draft" | PLANNED => "planned" | AWAITING_APPROVAL => "awaiting_approval"
  | APPROVED => "approved" | REJECTED => "rejected" | QUEUED => "queued"
  | RUNNING => "running" | PAUSED => "paused" | COMPLETED => "completed"
  | PARTIAL => "partial" | FAILED => "failed" | CANCELLED => "cancelled"
  end.
#[export] Program Instance strenum : StrEnum t :=
  { value := to_string;
    members := [DRAFT; PLANNED; AWAITING_APPROVAL; APPROVED; REJECTED; QUEUED;
                RUNNING; PAUSED; COMPLETED; PARTIAL; FAILED; CANCELLED] }.
Next Obligation. solve_members. Qed.
Next Obligation. solve_value_inj. Qed.
End AssessmentStatus.
Notation AssessmentStatus := AssessmentStatus.t.

Module ControlState.
Inductive t : Type := NONE | PAUSE_REQUESTED | RESUME_REQUESTED | CANCEL_REQUESTED.
#[export] Instance eq_dec : EqDecision t.
Proof. solve_decision. Defined.
Definition to_string (c : t) : string :=
  match c with
  | NONE => "none" | PAUSE_REQUESTED => "pause_requested"
  | RESUME_REQUESTED => "resume_requested" | CANCEL_REQUESTED => "cancel_requested"
  end.
#[export] Program Instance strenum : StrEnum t :=
  { value := to_string;
    members := [NONE; PAUSE_REQUESTED; RESUME_REQUESTED; CANCEL_REQUESTED] }.
Next Obligation. solve_members. Qed.
Next Obligation. solve_value_inj. Qed.
End ControlState.
Notation ControlState := ControlState.t.
Export (hints) AssessmentStatus ControlState.

(** ** Transition table *)
Module Transitions.
Import AssessmentStatus.

Definition ALLOWED_TRANSITIONS (s : AssessmentStatus) : list AssessmentStatus :=
  match s with
  | DRAFT => [AWAITING_APPROVAL]
  | PLANNED => []
  | AWAITING_APPROVAL => [APPROVED; REJECTED; AWAITING_APPROVAL]
  | APPROVED => [QUEUED]
  | REJECTED => []
  | QUEUED => [RUNNING; CANCELLED]
  | RUNNING => [COMPLETED; PARTIAL; FAILED; PAUSED; CANCELLED]
  | PAUSED => [RUNNING; CANCELLED]
  | COMPLETED | PARTIAL | FAILED | CANCELLED => []
  end.

Definition assert_transition (current target : AssessmentStatus) : outcome unit :=
  raise_if (negb (bool_decide (target ∈ ALLOWED_TRANSITIONS current)))
    (DomainValidationError
       ("illegal assessment transition: " +:+ value current +:+ " -> " +:+ value target)).

Definition terminal (s : AssessmentStatus) : bool :=
  bool_decide (ALLOWED_TRANSITIONS s = []).

Lemma assert_transition_Ret c t u :
  assert_transition c t = Ret u <-> t ∈ ALLOWED_TRANSITIONS c.
Proof.
  unfold assert_transition. rewrite raise_if_Ret, negb_false_iff, bool_decide_eq_true. done.
Qed.

Lemma assert_transition_Raise c t e :
  assert_transition c t = Raise e -> t ∉ ALLOWED_TRANSITIONS c /\ is_domain_error e = true.
Proof.
  unfold assert_transition. rewrite raise_if_Raise, negb_true_iff, bool_decide_eq_false.
  by intros [? <-].
Qed.

End Transitions.

#[export] Hint Rewrite Transitions.assert_transition_Ret : py.

(** ** Plans *)
Record PlanStep : Type := mkPlanStep {
  step_key : string;
  runner : string;
  risk : RiskClass;
  parameters : list (string * json);
  dependencies : list string
}.

(** [asdict(step)] *)
Definition step_json (s : PlanStep) : json :=
  JObj [("key", JStr (step_key s)); ("runner", JStr (runner s));
        ("risk", Canonical.jenum (risk s)); ("parameters", JObj (parameters s));
        ("dependencies", Canonical.jstrs (dependencies s))].

(** [set(s.dependencies) - known] is empty for every step. *)
Definition deps_known (steps : list PlanStep) : bool :=
  forallb (fun s => forallb (fun d => bool_decide (d ∈ step_key <$> steps)) (dependencies s)) steps.

(** [graph = {s.key: s.dependencies for s in steps}] *)
Definition plan_graph (steps : list PlanStep) : gmap string (list string) :=
  list_to_map ((fun s => (step_key s, dependencies s)) <$> steps).

Module Visit.

(** The sets [visiting] and [visited]. *)
Record state : Type := mk { visiting : gset string; visited : gset string }.

(** [for k in keys: f(k)]. *)
Fixpoint for_each (f : string -> state -> option (outcome state)) (keys : list string)
    (st : state) : option (outcome state) :=
  match keys with
  | [] => Some (Ret st)
  | k :: ks =>
      match f k st with
      | Some (Ret st') => for_each f ks st'
      | r => r
      end
  end.

(** The recursive closure [visit]; [None] when the fuel runs out, which
    [visit_total] excludes for the fuel [create] gives. *)
Fixpoint visit (fuel : nat) (graph : gmap string (list string)) (key : string)
    (st : state) : option (outcome state) :=
  match fuel with
  | O => None
  | S fuel' =>
      if bool_decide (key ∈ visiting st)
      then Some (Raise (DomainValidationError "plan dependency cycle"))
      else if bool_decide (key ∈ visited st) then Some (Ret st)
      else
        match graph !! key with
        | None => Some (Raise (KeyError key))
        | Some deps =>
            match for_each (visit fuel' graph) deps
                    (mk ({[key]} ∪ visiting st) (visited st)) with
            | Some (Ret st') =>
                Some (Ret (mk (visiting st' ∖ {[key]}) ({[key]} ∪ visited st')))
            | r => r
            end
        end
  end.

Section correctness.
Context (graph : gmap string (list string)).
(** Every dependency of a step is a step ([plan dependency does not exist]
    is checked before the search). *)
Hypothesis deps_closed : forall k ds d, graph !! k = Some ds -> d ∈ ds -> d ∈ dom graph.

Definition edge (a b : string) : Prop := exists ds, graph !! a = Some ds /\ b ∈ ds.

Definition inv (st : state) : Prop :=
  (forall a, a ∈ visited st -> Acc (flip edge) a) /\ visiting st ## visited st.

(** The keys being visited form a chain of dependencies down to [k]. *)
Definition chain (st : state) (k : string) : Prop :=
  forall v, v ∈ visiting st -> tc edge v k.

Definition visit_post (k : string) (st : state) (r : option (outcome state)) : Prop :=
  match r with
  | None => False
  | Some (Raise e) =>
      e = DomainValidationError "plan dependency cycle" /\ exists c, tc edge c c
  | Some (Ret st') =>
      visiting st' = visiting st /\ visited st ⊆ visited st' /\ k ∈ visited st' /\ inv st'
  end.

(** The result of a run over several keys. *)
Definition loop_post (keys : list string) (st : state) (r : option (outcome state)) : Prop :=
  match r with
  | None => False
  | Some (Raise e) =>
      e = DomainValidationError "plan dependency cycle" /\ exists c, tc edge c c
  | Some (Ret st') =>
      visiting st' = visiting st /\ visited st ⊆ visited st'
      /\ (forall k, k ∈ keys -> k ∈ visited st') /\ inv st'
  end.

Lemma for_each_spec f keys st :
  (forall k st', k ∈ keys -> visiting st' = visiting st -> inv st' ->
     visit_post k st' (f k st')) ->
  inv st -> loop_post keys st (for_each f keys st).
Proof.
  revert st; induction keys as [|k ks IH]; intros st Hf Hi; cbn.
  { split_and!; [done..| |done]. by intros k ?%elem_of_nil. }
  pose proof (Hf k st ltac:(left) eq_refl Hi) as Hk.
  destruct (f k st) as [[st1|e]|]; cbn in Hk; [|done..].
  destruct Hk as (Hv & Hsub & Hin & Hi1).
  assert (Hl : loop_post ks st1 (for_each f ks st1)).
  { apply IH; [|done]. intros k' st' Hk' Hv' Hi'. apply Hf; [by right|congruence|done]. }
  destruct (for_each f ks st1) as [[st2|e]|]; cbn in *; [|done..].
  destruct Hl as (Hv2 & Hsub2 & Hin2 & Hi2). split_and!; [congruence|set_solver| |done].
  intros k' [->|Hk']%elem_of_cons; [set_solver|by apply Hin2].
Qed.

Lemma visit_spec fuel k st :
  k ∈ dom graph -> inv st -> chain st k ->
  (size (dom graph ∖ visiting st) < fuel)%nat ->
  visit_post k st (visit fuel graph k st).
Proof.
  revert k st; induction fuel as [|fuel IH]; intros k st Hk Hi Hc Hfuel; [lia|].
  cbn. case_bool_decide as Hving; [split; [done|]; exists k; exact (Hc k Hving)|].
  case_bool_decide as Hved; [split_and!; done|].
  apply elem_of_dom in Hk as Hk'. destruct Hk' as [deps Hdeps]. rewrite Hdeps.
  destruct Hi as [Hacc Hdisj].
  set (st1 := mk ({[k]} ∪ visiting st) (visited st)).
  assert (Hi1 : inv st1) by (split; [done|]; set_solver).
  assert (Hl : loop_post deps st1 (for_each (visit fuel graph) deps st1)).
  { apply for_each_spec; [|done]. intros d st' Hd Hv Hi'. apply IH; [|done|..].
    - by eapply deps_closed.
    - assert (Hkd : tc edge k d) by (apply tc_once; by exists deps).
      intros v. rewrite Hv. intros [->%elem_of_singleton|Hvv]%elem_of_union; [done|].
      etrans; [by apply Hc|done].
    - rewrite Hv. enough (size (dom graph ∖ visiting st1) < size (dom graph ∖ visiting st))%nat by lia.
      apply subset_size. set_solver. }
  destruct (for_each _ deps st1) as [[st2|e]|]; cbn in *; [|done..].
  destruct Hl as (Hv & Hsub & Hin & [Hacc2 Hdisj2]). rewrite Hv.
  split_and!; [set_solver..|].
  split; cbn; [|rewrite Hv in Hdisj2; set_solver].
  intros a [->%elem_of_singleton|Ha]%elem_of_union; [|by apply Hacc2].
  constructor. intros b (ds & Hds & Hb). apply Hacc2, Hin. congruence.
Qed.

(** From the initial state, the search over every key of the graph ends; it
    succeeds exactly when the dependencies are well founded. *)
Lemma search_spec keys :
  (forall k, k ∈ keys <-> k ∈ dom graph) ->
  match for_each (visit (S (size (dom graph))) graph) keys (mk ∅ ∅) with
  | None => False
  | Some (Raise e) =>
      e = DomainValidationError "plan dependency cycle" /\ exists c, tc edge c c
  | Some (Ret _) => forall c, Acc (flip edge) c
  end.
Proof.
  intros Hkeys.
  assert (Hl : loop_post keys (mk ∅ ∅) (for_each (visit (S (size (dom graph))) graph) keys (mk ∅ ∅))).
  { apply for_each_spec; [|by split; [intros a ?%elem_of_empty|]].
    intros k st' Hk Hv Hi. apply visit_spec; [by apply Hkeys|done|..]; rewrite ?Hv.
    - intros v. rewrite Hv. by intros ?%elem_of_empty.
    - cbn. rewrite difference_empty_L. lia. }
  destruct (for_each _ keys _) as [[st|e]|]; cbn in Hl; [|done..].
  destruct Hl as (_ & _ & Hin & [Hacc _]). intros c.
  destruct (decide (c ∈ dom graph)) as [Hc|Hc]; [by apply Hacc, Hin, Hkeys|].
  constructor. intros b (ds & Hds & _). apply elem_of_dom_2 in Hds. done.
Qed.

End correctness.
End Visit.

Record ExecutionPlan : Type := mkExecutionPlan {
  plan_id : string;
  plan_assessment_id : string;
  version : Z;
  steps : list PlanStep;
  plan_digest : string
}.

Module Plan.

Definition keys (steps : list PlanStep) : list string := step_key <$> steps.

(** The content the digest covers. *)
Definition payload (assessment_id : string) (version : Z) (steps : list PlanStep) : json :=
  JObj [("assessment_id", JStr assessment_id); ("version", JInt version);
        ("steps", JArr (step_json <$> steps))].

(** The cycle check: [visit] over every key. *)
Definition check_acyclic (steps : list PlanStep) : outcome unit :=
  let graph := plan_graph steps in
  match Visit.for_each (Visit.visit (S (size (dom graph))) graph) (keys steps)
          (Visit.mk ∅ ∅) with
  | Some (Ret _) => Ret tt
  | Some (Raise e) => Raise e
  | None => Raise (DomainError "search out of fuel")
  end.

Definition create (plan_id assessment_id : string) (version : Z) (steps : list PlanStep)
  : outcome ExecutionPlan :=
  raise_if (version <? 1) (DomainValidationError "plan version must be positive");;
  raise_if (negb (bool_decide (NoDup (keys steps))))
    (DomainValidationError "plan step keys must be unique");;
  raise_if (negb (deps_known steps))
    (DomainValidationError "plan dependency does not exist");;
  check_acyclic steps;;
  Ret (mkExecutionPlan plan_id assessment_id version steps
         (Canonical.canonical_digest (payload assessment_id version steps))).

(** ** Specification *)

(** Step [a] waits for step [b]. *)
Definition depends (steps : list PlanStep) (a b : string) : Prop :=
  exists s, s ∈ steps /\ step_key s = a /\ b ∈ dependencies s.

Record plan_wf (steps : list PlanStep) : Prop := {
  wf_unique : NoDup (keys steps);
  wf_known : forall a b, depends steps a b -> b ∈ keys steps;
  wf_acyclic : forall a, ~ tc (depends steps) a a
}.

Lemma deps_known_spec steps :
  deps_known steps = true <-> forall a b, depends steps a b -> b ∈ keys steps.
Proof.
  unfold deps_known. rewrite List.forallb_forall. split.
  - intros H a b (s & Hs & _ & Hb). specialize (H s (proj1 (list_elem_of_In _ _) Hs)).
    rewrite List.forallb_forall in H. specialize (H b (proj1 (list_elem_of_In _ _) Hb)).
    by apply bool_decide_eq_true in H.
  - intros H s Hs%list_elem_of_In. apply List.forallb_forall. intros d Hd%list_elem_of_In.
    apply bool_decide_eq_true, (H (step_key s)). by exists s.
Qed.

Lemma graph_lookup steps k ds :
  NoDup (keys steps) ->
  plan_graph steps !! k = Some ds <-> exists s, s ∈ steps /\ step_key s = k /\ dependencies s = ds.
Proof.
  intros Hnd. unfold plan_graph. rewrite <- elem_of_list_to_map.
  - rewrite list_elem_of_fmap. naive_solver.
  - rewrite <- list_fmap_compose. exact Hnd.
Qed.

Lemma graph_dom steps k : k ∈ dom (plan_graph steps) <-> k ∈ keys steps.
Proof.
  unfold plan_graph. rewrite dom_list_to_map_L, elem_of_list_to_set.
  rewrite <- list_fmap_compose. done.
Qed.

Lemma edge_depends steps a b :
  NoDup (keys steps) -> Visit.edge (plan_graph steps) a b <-> depends steps a b.
Proof.
  intros Hnd. unfold Visit.edge, depends. setoid_rewrite graph_lookup; [|done]. naive_solver.
Qed.

Lemma tc_edge_depends steps a b :
  NoDup (keys steps) -> tc (Visit.edge (plan_graph steps)) a b <-> tc (depends steps) a b.
Proof.
  intros Hnd. split; induction 1 as [x y H|x y z H _ IH];
    [apply tc_once|eapply tc_l; [|exact IH]|apply tc_once|eapply tc_l; [|exact IH]];
    by apply (edge_depends steps).
Qed.

Lemma check_acyclic_spec steps :
  NoDup (keys steps) -> (forall a b, depends steps a b -> b ∈ keys steps) ->
  match check_acyclic steps with
  | Ret _ => forall a, Acc (flip (depends steps)) a
  | Raise e => e = DomainValidationError "plan dependency cycle"
               /\ exists a, tc (depends steps) a a
  end.
Proof.
  intros Hnd Hknown. unfold check_acyclic.
  pose proof (Visit.search_spec (plan_graph steps)) as Hs.
  specialize (Hs ltac:(intros k ds d Hk Hd; apply graph_dom, (Hknown k);
                       apply graph_lookup in Hk as (s & ? & ? & <-); [by exists s|done])
                 (keys steps) ltac:(intros k; by rewrite graph_dom)).
  destruct (Visit.for_each _ (keys steps) _) as [[st|e]|]; [|destruct Hs as [-> [c Hc]]|done].
  - intros a. induction (Hs a) as [a _ IH]. constructor. intros b Hb.
    apply IH. by apply (edge_depends steps).
  - split; [done|]. exists c. by apply tc_edge_depends.
Qed.

Lemma create_spec pid aid v steps p :
  create pid aid v steps = Ret p <->
  1 <= v /\ plan_wf steps
  /\ p = mkExecutionPlan pid aid v steps (Canonical.canonical_digest (payload aid v steps)).
Proof.
  unfold create. split.
  - intros (? & Hv & (? & Hu & (? & Hk & (? & Ha & [= <-])%bind_Ret)%bind_Ret)%bind_Ret)%bind_Ret.
    apply raise_if_Ret in Hv, Hu, Hk. breflect. pose proof (proj1 (deps_known_spec _) Hk) as Hk'. clear Hk.
    pose proof (check_acyclic_spec _ Hu Hk') as Hc. rewrite Ha in Hc.
    split_and!; [lia|split; [done..|intros a; by apply Acc_acyclic]|done].
  - intros (Hv & [Hu Hk Ha] & ->). apply Z.ltb_ge in Hv. rewrite Hv. cbn.
    rewrite bool_decide_true by done. cbn. apply deps_known_spec in Hk as Hk'. rewrite Hk'. cbn.
    pose proof (check_acyclic_spec steps Hu Hk) as Hc.
    destruct (check_acyclic steps) as [[]|e]; [done|]. destruct Hc as [_ [c Hc]]. by edestruct Ha.
Qed.

(** In a well-formed plan dependencies are well founded. *)
Lemma plan_wf_Acc steps a : plan_wf steps -> Acc (flip (depends steps)) a.
Proof.
  intros [Hu Hk Ha]. pose proof (check_acyclic_spec steps Hu Hk) as Hc.
  destruct (check_acyclic steps) as [[]|e]; [done|]. destruct Hc as [_ [c Hc]]. by edestruct Ha.
Qed.

(** [ExecutionPlan.create] accepts exactly the well-formed plans (version
    at least 1, unique step keys, known dependencies, no dependency cycle),
    whatever their size, and the plan it returns carries the given steps and
    the digest of their content. *)
Theorem create_accepts_exactly_wf pid aid v steps p :
  create pid aid v steps = Ret p <->
  1 <= v /\ plan_wf steps
  /\ p = mkExecutionPlan pid aid v steps (Canonical.canonical_digest (payload aid v steps)).
Proof. apply create_spec. Qed.

Lemma plan_create_Ret pid aid v steps p :
  create pid aid v steps = Ret p ->
  1 <= v /\ plan_wf steps
  /\ p = mkExecutionPlan pid aid v steps (Canonical.canonical_digest (payload aid v steps)).
Proof. apply create_spec. Qed.

(** Every refusal of [ExecutionPlan.create] is one of the four validation
    errors of the code; the search never misses a key nor runs out. *)
Theorem create_raises_only_validation pid aid v steps e :
  create pid aid v steps = Raise e ->
  exists msg, e = DomainValidationError msg /\
    msg ∈ ["plan version must be positive"; "plan step keys must be unique";
           "plan dependency does not exist"; "plan dependency cycle"].
Proof.
  unfold create. intros H.
  destruct (v <? 1); cbn in H; [injection H as <-; eexists; split; [done|set_solver]|].
  destruct (bool_decide _) eqn:Hu; cbn in H; [|injection H as <-; eexists; split; [done|set_solver]].
  destruct (deps_known steps) eqn:Hk; cbn in H; [|injection H as <-; eexists; split; [done|set_solver]].
  apply bool_decide_eq_true in Hu. rewrite deps_known_spec in Hk.
  pose proof (check_acyclic_spec steps Hu Hk) as Hc.
  destruct (check_acyclic steps) as [[]|e']; cbn in H; [discriminate|].
  injection H as <-. destruct Hc as [-> _]. eexists; split; [done|set_solver].
Qed.

Lemma create_raises_only_validation_witness :
  exists msg, create "p" "a" 0 [] = Raise (DomainValidationError msg) /\
    msg ∈ ["plan version must be positive"; "plan step keys must be unique";
           "plan dependency does not exist"; "plan dependency cycle"].
Proof.
  destruct (create_raises_only_validation "p" "a" 0 [] _ eq_refl) as (msg & H & Hin).
  exists msg. split; [rewrite <- H; reflexivity|exact Hin].
Defined.

(** Steps that the digest cannot tell apart: equal up to the order of the
    keys inside [parameters]. *)
Definition step_equiv (s t : PlanStep) : Prop :=
  step_key s = step_key t /\ runner s = runner t /\ risk s = risk t
  /\ dependencies s = dependencies t
  /\ Canonical.normalize (JObj (parameters s)) = Canonical.normalize (JObj (parameters t)).

Lemma step_json_inj s t :
  Canonical.normalize (step_json s) = Canonical.normalize (step_json t) -> step_equiv s t.
Proof.
  intros H. apply Canonical.normalize_fields in H; [|done|by vm_compute].
  cbn -[Canonical.normalize] in H.
  injection H as Hk Hr Hi Hp Hd. unfold step_equiv.
  split_and!; [done|done|exact (value_inj (risk s) (risk t) Hi)| |exact (f_equal JObj Hp)].
  exact (Canonical.normalize_jstrs_inj _ _ (f_equal JArr Hd)).
Qed.

Lemma steps_json_inj l m :
  Canonical.normalize (JArr (step_json <$> l)) = Canonical.normalize (JArr (step_json <$> m)) ->
  Forall2 step_equiv l m.
Proof.
  intros H%Canonical.normalize_arr_inj. rewrite <- !list_fmap_compose in H.
  revert m H; induction l as [|x l IH]; intros [|y m] H; try discriminate H; constructor.
  - apply step_json_inj. exact (f_equal (default JNull ∘ head) H).
  - apply IH. exact (f_equal tail H).
Qed.

(** a plan digest pins the plan: two accepted plans with the same digest
    are for the same assessment and version and have the same steps in the
    same order (up to key order inside [parameters]), or their canonical
    texts are an explicit SHA-256 collision. *)
Theorem digest_binds_plan pid aid v steps pid' aid' v' steps' p p' :
  create pid aid v steps = Ret p -> create pid' aid' v' steps' = Ret p' ->
  plan_digest p = plan_digest p' ->
  (aid = aid' /\ v = v' /\ Forall2 step_equiv steps steps')
  \/ Sha256.collision (Canonical.canonical_json (payload aid v steps))
                      (Canonical.canonical_json (payload aid' v' steps')).
Proof.
  intros Hc Hc' Hd.
  apply bind_Ret in Hc as (? & _ & (? & _ & (? & _ & (? & _ & [= <-])%bind_Ret)%bind_Ret)%bind_Ret).
  apply bind_Ret in Hc' as (? & _ & (? & _ & (? & _ & (? & _ & [= <-])%bind_Ret)%bind_Ret)%bind_Ret).
  cbn [plan_digest] in Hd. apply Canonical.canonical_digest_inj in Hd as [Hn|Hcol]; [left|by right].
  apply Canonical.normalize_fields in Hn; [|done|by vm_compute].
  cbn -[Canonical.normalize fmap] in Hn. injection Hn as Ha Hv Hs.
  split_and!; [done..|]. exact (steps_json_inj _ _ (f_equal JArr Hs)).
Qed.

(** A two-step plan [recon -> exploit], used by the witnesses. *)
Definition demo_steps : list PlanStep :=
  [mkPlanStep "recon" "nmap" RiskClass.LOW [] [];
   mkPlanStep "exploit" "nuclei" RiskClass.ACTIVE [("cwe", JStr "CWE-89")] ["recon"]].

Lemma digest_binds_plan_witness :
  exists p, create "p" "a" 1 demo_steps = Ret p /\ plan_digest p = plan_digest p /\
  (("a" = "a" /\ 1 = 1 /\ Forall2 step_equiv demo_steps demo_steps)
   \/ Sha256.collision (Canonical.canonical_json (payload "a" 1 demo_steps))
                       (Canonical.canonical_json (payload "a" 1 demo_steps))).
Proof.
  assert (Hc : create "p" "a" 1 demo_steps
    = Ret (mkExecutionPlan "p" "a" 1 demo_steps
             (Canonical.canonical_digest (payload "a" 1 demo_steps)))).
  { vm_compute. reflexivity. }
  eexists. split; [exact Hc|]. split; [reflexivity|].
  exact (digest_binds_plan _ _ _ _ _ _ _ _ _ _ Hc Hc eq_refl).
Defined.

Example create_cycle :
  create "p" "a" 1 [mkPlanStep "x" "r" RiskClass.LOW [] ["y"];
                    mkPlanStep "y" "r" RiskClass.LOW [] ["x"]]
  = Raise (DomainValidationError "plan dependency cycle").
Proof. vm_compute. reflexivity. Qed.

End Plan.

(** ** Approvals *)
Record Approval : Type := mkApproval {
  approval_id_of : string;
  approval_assessment_id : string;
  approval_plan_digest : string;
  approval_scope_digest : string;
  approval_mode : ExecutionMode;
  approved_risks : gset RiskClass;
  approved_capabilities : gset string;
  approved_by : string;
  approval_digest : string
}.

Module Approval.

Definition payload (assessment_id plan_digest scope_digest : string) (mode : ExecutionMode)
    (risks : gset RiskClass) (caps : gset string) (approved_by : string) : json :=
  JObj [("assessment_id", JStr assessment_id); ("plan_digest", JStr plan_digest);
        ("scope_digest", JStr scope_digest); ("mode", Canonical.jenum mode);
        ("approved_risks", Canonical.jset (value <$> elements risks));
        ("approved_capabilities", Canonical.jset (elements caps));
        ("approved_by", JStr approved_by)].

Definition create (approval_id assessment_id plan_digest scope_digest : string)
    (mode : ExecutionMode) (risks : gset RiskClass) (caps : gset string)
    (approved_by : string) : outcome Approval :=
  raise_if (negb (PyStr.truthy plan_digest) || negb (PyStr.truthy scope_digest))
    (DomainValidationError "approval requires plan and scope digest");;
  Ret (mkApproval approval_id assessment_id plan_digest scope_digest mode risks caps
         approved_by
         (Canonical.canonical_digest
            (payload assessment_id plan_digest scope_digest mode risks caps approved_by))).

Lemma approval_create_Ret id aid pd sd mode risks caps who a :
  create id aid pd sd mode risks caps who = Ret a ->
  pd <> "" /\ sd <> "" /\ approval_assessment_id a = aid /\ approval_plan_digest a = pd
  /\ approval_scope_digest a = sd /\ approval_mode a = mode /\ approved_risks a = risks
  /\ approved_capabilities a = caps /\ approved_by a = who /\ approval_id_of a = id.
Proof.
  intros (? & H & [= <-])%bind_Ret. apply raise_if_Ret in H. breflect. cbn.
  rewrite PyStr.truthy_true in *. split_and!; done.
Qed.

(** an approval digest pins everything the approver signed off: two
    approvals with the same digest agree on the assessment, the plan digest,
    the scope digest, the mode, the approved risks and capabilities and the
    approver, or exhibit a SHA-256 collision. *)
Theorem digest_binds_approval a b id aid pd sd mode risks caps who id' aid' pd' sd' mode' risks' caps' who' :
  create id aid pd sd mode risks caps who = Ret a ->
  create id' aid' pd' sd' mode' risks' caps' who' = Ret b ->
  approval_digest a = approval_digest b ->
  (aid = aid' /\ pd = pd' /\ sd = sd' /\ mode = mode' /\ risks = risks' /\ caps = caps'
   /\ who = who')
  \/ Sha256.collision (Canonical.canonical_json (payload aid pd sd mode risks caps who))
                      (Canonical.canonical_json (payload aid' pd' sd' mode' risks' caps' who')).
Proof.
  intros (? & _ & [= <-])%bind_Ret (? & _ & [= <-])%bind_Ret. cbn [approval_digest].
  intros [Hn|Hcol]%Canonical.canonical_digest_inj; [left|by right].
  apply Canonical.normalize_fields in Hn; [|done|by vm_compute].
  cbn -[Canonical.normalize Canonical.jset] in Hn. injection Hn as Ha Hp Hs Hm Hr Hc Hw.
  apply (f_equal JArr), Canonical.normalize_jstrs_inj in Hr, Hc.
  split_and!; [congruence..|exact (value_inj mode mode' Hm)| | |congruence].
  - apply set_eq. intros r.
    assert (Hin : forall s : gset RiskClass, r ∈ s <-> value r ∈ PyStr.sorted (value <$> elements s)).
    { intros s. rewrite PyStr.elem_of_sorted, list_elem_of_fmap. split.
      - intros Hr'. exists r. by rewrite elem_of_elements.
      - intros (r' & E & Hr'). apply value_inj in E as ->. by apply elem_of_elements in Hr'. }
    rewrite (Hin risks), (Hin risks'). change value with RiskClass.to_string. by rewrite Hr.
  - apply set_eq. intros c.
    rewrite <- (elem_of_elements caps), <- (elem_of_elements caps').
    by rewrite <- (PyStr.elem_of_sorted c (elements caps)), Hc, PyStr.elem_of_sorted.
Qed.

Lemma digest_binds_approval_witness :
  exists a, create "apr" "asm" "pd" "sd" ExecutionMode.APPROVAL {[RiskClass.LOW]} {["nmap"]} "ana"
            = Ret a /\
  (("asm" = "asm" /\ "pd" = "pd" /\ "sd" = "sd" /\ ExecutionMode.APPROVAL = ExecutionMode.APPROVAL
    /\ ({[RiskClass.LOW]} : gset RiskClass) = {[RiskClass.LOW]}
    /\ ({["nmap"]} : gset string) = {["nmap"]} /\ "ana" = "ana")
   \/ Sha256.collision
        (Canonical.canonical_json (payload "asm" "pd" "sd" ExecutionMode.APPROVAL {[RiskClass.LOW]} {["nmap"]} "ana"))
        (Canonical.canonical_json (payload "asm" "pd" "sd" ExecutionMode.APPROVAL {[RiskClass.LOW]} {["nmap"]} "ana"))).
Proof.
  eexists. split; [reflexivity|].
  eapply (digest_binds_approval _ _ "apr" "asm" "pd" "sd" _ _ _ "ana" "apr"); reflexivity.
Defined.

End Approval.

(** ** Assessments *)
Record Assessment : Type := mkAssessment {
  id : string;
  project_id : string;
  scope_snapshot_id : string;
  mode : ExecutionMode;
  status : AssessmentStatus;
  active_plan_id : option string;
  approval_id : option string;
  control : ControlState
}.

Module Assessment.
Import AssessmentStatus.

Definition create (assessment_id project_id scope_snapshot_id : string)
    (mode : ExecutionMode) : outcome Assessment :=
  raise_if (negb (PyStr.truthy assessment_id && PyStr.truthy project_id
                  && PyStr.truthy scope_snapshot_id))
    (DomainValidationError "assessment identifiers are required");;
  Ret (mkAssessment assessment_id project_id scope_snapshot_id mode DRAFT None None
         ControlState.NONE).

(** [replace(self, ...)] for the fields the services change. *)
Definition set_status (a : Assessment) (st : AssessmentStatus) : Assessment :=
  mkAssessment (id a) (project_id a) (scope_snapshot_id a) (mode a) st
    (active_plan_id a) (approval_id a) (control a).

Definition truthy_opt (o : option string) : bool :=
  match o with Some s => PyStr.truthy s | None => false end.

Definition start (a : Assessment) (plan_id : string) (approval : option string)
  : outcome Assessment :=
  raise_if (negb (truthy_opt approval)) (DomainValidationError "assessment requires approval");;
  raise_if (negb (bool_decide (status a ∈ [DRAFT; APPROVED])))
    (DomainValidationError "assessment cannot start from current status");;
  Ret (mkAssessment (id a) (project_id a) (scope_snapshot_id a) (mode a) QUEUED
         (Some plan_id) approval (control a)).

End Assessment.
