(* ===== verification/AssessmentService.v ===== *)
(** * The assessment service

    Models [src/secopent/application/assessments.py] over the repository of
    [application/ports/repositories.py].  The repository is explicit state,
    every handler is a state-passing computation in the order of the code,
    and the service as a whole is a transition system whose reachable states
    satisfy [wf].  Fresh identifiers ([uuid4]) and the clock are arguments.
    The scope repository and the grant service are reached through the
    interface [Authority]; [Grants] implements it. *)
From S2P Require Import Prelude PyStr PyTime Sha256 Canonical Policy Assessments.

#[local] Open Scope Z_scope.

(** ** The interface of the grant path *)

(** What the service is constructed with besides its repository: both parts
    may be absent ([None] in the constructor). *)
Record Authority (Scope : Type) : Type := mkAuthority {
  get_snapshot : option (string -> option Scope);
  authorize : option (string -> Scope -> list PlanStep -> datetime -> outcome PolicyDecision)
}.
Arguments mkAuthority {Scope}.
Arguments get_snapshot {Scope}.
Arguments authorize {Scope}.

(** What a grant service promises: it never authorizes a plan that has a
    destructive step. *)
Class LawfulAuthority {Scope} (A : Authority Scope) : Prop :=
  authorize_not_destructive : forall svc g scope steps now d,
    authorize A = Some svc -> svc g scope steps now = Ret d -> allowed d = true ->
    Forall (fun s => risk s <> RiskClass.DESTRUCTIVE) steps.

(** ** The repository *)
Record Repo : Type := mkRepo {
  assessments : gmap string Assessment;
  plans : gmap string ExecutionPlan;
  approvals : gmap string Approval
}.

Definition empty_repo : Repo := mkRepo ∅ ∅ ∅.

(** [AssessmentRepository.add] is an upsert on the identifier. *)
Definition repo_add (a : Assessment) (r : Repo) : Repo :=
  mkRepo (<[id a := a]> (assessments r)) (plans r) (approvals r).
Definition save_plan (p : ExecutionPlan) (r : Repo) : Repo :=
  mkRepo (assessments r) (<[plan_id p := p]> (plans r)) (approvals r).
Definition save_approval (a : Approval) (r : Repo) : Repo :=
  mkRepo (assessments r) (plans r) (<[approval_id_of a := a]> (approvals r)).

Module AssessmentService.
Import AssessmentStatus.

Section service.
Context {Scope : Type}.

(** [repo.get] followed by the [LookupError] every handler raises. *)
Definition require (assessment_id : string) : M Repo Assessment :=
  fun r => (unwrap (assessments r !! assessment_id)
              (LookupError ("assessment " +:+ assessment_id +:+ " not found")), r).

Definition create (hex project_id scope_snapshot_id : string) (mode : ExecutionMode)
  : M Repo Assessment :=
  a ← lift (Assessment.create ("asm-" +:+ hex) project_id scope_snapshot_id mode);
  modify (repo_add a);;
  mret a.

Definition attach_plan (hex assessment_id : string) (steps : list PlanStep)
  : M Repo Assessment :=
  a ← require assessment_id;
  lift (Transitions.assert_transition (status a) AWAITING_APPROVAL);;
  plan ← lift (Plan.create ("plan-" +:+ hex) assessment_id 1 steps);
  modify (save_plan plan);;
  let updated := mkAssessment (id a) (project_id a) (scope_snapshot_id a) (mode a)
                   AWAITING_APPROVAL (Some (plan_id plan)) (approval_id a) (control a) in
  modify (repo_add updated);;
  mret updated.

Definition require_human (actor_role : string) : outcome unit :=
  raise_if (bool_decide (actor_role = "agent"))
    (AssessmentPermissionError
       "agents cannot approve or reject assessments (human-only action)");;
  raise_if (negb (bool_decide (actor_role = "human")))
    (AssessmentPermissionError ("unknown actor role: " +:+ PyStr.repr actor_role)).

(** [self._repo.get_plan(assessment.active_plan_id) if assessment.active_plan_id else None] *)
Definition active_plan (r : Repo) (a : Assessment) : option ExecutionPlan :=
  if Assessment.truthy_opt (active_plan_id a)
  then active_plan_id a ≫= (fun pid => plans r !! pid) else None.

Definition authorize_via_grant (A : Authority Scope) (now : datetime)
    (grant_id assessment_id : string) : M Repo unit :=
  svc ← lift (unwrap (authorize A) (AssessmentPermissionError "grant service not configured"));
  snap ← lift (unwrap (get_snapshot A)
    (AssessmentPermissionError "scope repository not configured for grant approval"));
  a ← require assessment_id;
  scope ← lift (unwrap (snap (scope_snapshot_id a))
    (DomainValidationError "assessment scope not found"));
  r ← get;
  let steps := match active_plan r a with Some p => steps p | None => [] end in
  decision ← lift (svc grant_id scope steps now);
  lift (raise_if (negb (allowed decision))
    (AssessmentPermissionError ("grant denied: " +:+ reason decision))).

Definition approve (A : Authority Scope) (now : datetime) (hex assessment_id approved_by : string)
    (approved_risks : gset RiskClass) (approved_capabilities : gset string)
    (scope_digest actor_role : string) (grant_id : option string) : M Repo Approval :=
  who ← (match grant_id with
         | Some g => authorize_via_grant A now g assessment_id;; mret ("grant:" +:+ g)
         | None => lift (require_human actor_role);; mret approved_by
         end : M Repo string);
  a ← require assessment_id;
  active ← lift (unwrap (active_plan_id a)
                   (DomainValidationError "assessment has no plan to approve"));
  lift (Transitions.assert_transition (status a) APPROVED);;
  plan ← (fun r => (unwrap (plans r !! active) (LookupError "active plan not found"), r));
  approval ← lift (Approval.create ("apr-" +:+ hex) assessment_id (plan_digest plan)
                     scope_digest (mode a) approved_risks approved_capabilities who);
  modify (save_approval approval);;
  modify (repo_add (mkAssessment (id a) (project_id a) (scope_snapshot_id a) (mode a)
                      APPROVED (active_plan_id a) (Some (approval_id_of approval)) (control a)));;
  mret approval.

Definition reject (assessment_id rejected_by reason actor_role : string) : M Repo Assessment :=
  lift (require_human actor_role);;
  a ← require assessment_id;
  lift (Transitions.assert_transition (status a) REJECTED);;
  lift (raise_if (negb (PyStr.truthy (PyStr.strip reason)))
          (DomainValidationError "rejection reason must be non-empty"));;
  let updated := Assessment.set_status a REJECTED in
  modify (repo_add updated);;
  mret updated.

Definition start (A : Authority Scope) (now : datetime) (assessment_id actor_role : string)
    (grant_id : option string) : M Repo Assessment :=
  (match grant_id with
   | Some g => authorize_via_grant A now g assessment_id
   | None => lift (require_human actor_role)
   end : M Repo unit);;
  a ← require assessment_id;
  lift (Transitions.assert_transition (status a) QUEUED);;
  lift (raise_if (negb (Assessment.truthy_opt (active_plan_id a)))
          (DomainValidationError "assessment has no plan to execute"));;
  lift (raise_if (negb (Assessment.truthy_opt (approval_id a)))
          (DomainValidationError "assessment has no approval"));;
  updated ← lift (Assessment.start a (default "" (active_plan_id a)) (approval_id a));
  modify (repo_add updated);;
  mret updated.

(** [mark_running], [complete] and [fail] share their body: the guard, the
    new status, the write. *)
Definition move (target : AssessmentStatus) (assessment_id : string) : M Repo Assessment :=
  a ← require assessment_id;
  lift (Transitions.assert_transition (status a) target);;
  let updated := Assessment.set_status a target in
  modify (repo_add updated);;
  mret updated.

Definition mark_running : string -> M Repo Assessment := move RUNNING.
Definition complete : string -> M Repo Assessment := move COMPLETED.
Definition fail (assessment_id reason : string) : M Repo Assessment := move FAILED assessment_id.

Definition status_of (assessment_id : string) : M Repo Assessment := require assessment_id.

Definition set_control (a : Assessment) (target : AssessmentStatus) (signal : ControlState)
  : outcome Assessment :=
  Transitions.assert_transition (status a) target;;
  Ret (mkAssessment (id a) (project_id a) (scope_snapshot_id a) (mode a) target
         (active_plan_id a) (approval_id a) signal).

Definition control_move (target : AssessmentStatus) (signal : ControlState)
    (assessment_id : string) : M Repo Assessment :=
  a ← require assessment_id;
  updated ← lift (set_control a target signal);
  modify (repo_add updated);;
  mret updated.

Definition pause : string -> M Repo Assessment := control_move PAUSED ControlState.PAUSE_REQUESTED.
Definition resume : string -> M Repo Assessment := control_move RUNNING ControlState.RESUME_REQUESTED.
Definition cancel : string -> M Repo Assessment := control_move CANCELLED ControlState.CANCEL_REQUESTED.

(** ** The service as a transition system *)
Inductive op : Type :=
| Create (hex project_id scope_id : string) (mode : ExecutionMode)
| AttachPlan (hex assessment_id : string) (steps : list PlanStep)
| Approve (A : Authority Scope) (now : datetime) (hex assessment_id approved_by : string)
    (risks : gset RiskClass) (caps : gset string) (scope_digest role : string)
    (grant_id : option string)
| Reject (assessment_id rejected_by reason role : string)
| Start (A : Authority Scope) (now : datetime) (assessment_id role : string)
    (grant_id : option string)
| MarkRunning (assessment_id : string)
| Complete (assessment_id : string)
| FailRun (assessment_id reason : string)
| Pause (assessment_id : string)
| Resume (assessment_id : string)
| Cancel (assessment_id : string).

Definition forget {A} (m : M Repo A) : M Repo unit := m;; mret tt.

Definition run (o : op) : M Repo unit :=
  match o with
  | Create h p s m => forget (create h p s m)
  | AttachPlan h a st => forget (attach_plan h a st)
  | Approve A n h a w r c s role g => forget (approve A n h a w r c s role g)
  | Reject a w r role => forget (reject a w r role)
  | Start A n a role g => forget (start A n a role g)
  | MarkRunning a => forget (mark_running a)
  | Complete a => forget (complete a)
  | FailRun a r => forget (fail a r)
  | Pause a => forget (pause a)
  | Resume a => forget (resume a)
  | Cancel a => forget (cancel a)
  end.

(** [uuid4] gives an identifier that is not in use. *)
Definition fresh (o : op) (r : Repo) : Prop :=
  match o with
  | Create h _ _ _ => assessments r !! ("asm-" +:+ h) = None
  | AttachPlan h _ _ => plans r !! ("plan-" +:+ h) = None
  | Approve _ _ h _ _ _ _ _ _ _ => approvals r !! ("apr-" +:+ h) = None
  | _ => True
  end.

(** A call that returns or raises, from the state the previous one left. *)
Inductive step (r : Repo) : Repo -> Prop :=
| step_op o : fresh o r -> step r (run o r).2.

Definition reachable : Repo -> Prop := rtc step empty_repo.

(** ** Abstract specification

    What a call may do to the repository, without the handlers: nothing, or
    one of four effects.  [run_refines] shows that every handler does exactly
    one of them. *)

(** The control signal that comes with a status change. *)
Definition control_after (a : Assessment) (target : AssessmentStatus) (ctl : ControlState) : Prop :=
  (target ∈ [REJECTED; QUEUED; RUNNING; COMPLETED; FAILED] /\ ctl = control a)
  \/ (target = PAUSED /\ ctl = ControlState.PAUSE_REQUESTED)
  \/ (target = RUNNING /\ ctl = ControlState.RESUME_REQUESTED)
  \/ (target = CANCELLED /\ ctl = ControlState.CANCEL_REQUESTED).

Inductive effect (r : Repo) : Repo -> Prop :=
| eff_none : effect r r
| eff_draft a :
    assessments r !! id a = None -> status a = DRAFT -> active_plan_id a = None ->
    approval_id a = None -> control a = ControlState.NONE ->
    effect r (repo_add a r)
| eff_plan k a p pid sts :
    assessments r !! k = Some a -> AWAITING_APPROVAL ∈ Transitions.ALLOWED_TRANSITIONS (status a) ->
    Plan.create pid k 1 sts = Ret p -> pid <> "" -> plans r !! plan_id p = None ->
    effect r (repo_add (mkAssessment (id a) (project_id a) (scope_snapshot_id a) (mode a)
                          AWAITING_APPROVAL (Some (plan_id p)) (approval_id a) (control a))
                (save_plan p r))
| eff_approve k a pid p ap :
    assessments r !! k = Some a -> APPROVED ∈ Transitions.ALLOWED_TRANSITIONS (status a) ->
    active_plan_id a = Some pid -> plans r !! pid = Some p ->
    approvals r !! approval_id_of ap = None -> approval_assessment_id ap = k ->
    approval_plan_digest ap = plan_digest p -> approval_mode ap = mode a ->
    approval_scope_digest ap <> "" ->
    effect r (repo_add (mkAssessment (id a) (project_id a) (scope_snapshot_id a) (mode a)
                          APPROVED (active_plan_id a) (Some (approval_id_of ap)) (control a))
                (save_approval ap r))
| eff_move k a target ctl :
    assessments r !! k = Some a -> target ∈ Transitions.ALLOWED_TRANSITIONS (status a) ->
    control_after a target ctl ->
    effect r (repo_add (mkAssessment (id a) (project_id a) (scope_snapshot_id a) (mode a)
                          target (active_plan_id a) (approval_id a) ctl) r).

(** [m] reads: whatever it answers, it leaves the state alone. *)
Definition reads {A} (m : M Repo A) : Prop := forall r, (m r).2 = r.

Lemma reads_bind {A B} (m : M Repo A) (f : A -> M Repo B) :
  reads m -> (forall a, reads (f a)) -> reads (m ≫= f).
Proof.
  intros Hm Hf r. unfold mbind, M_bind. specialize (Hm r).
  destruct (m r) as [[a|e] r']; cbn in *; subst; [apply Hf|done].
Qed.
Lemma reads_lift {A} (m : outcome A) : reads (lift m). Proof. done. Qed.
Lemma reads_ret {A} (a : A) : reads (mret a). Proof. done. Qed.
Lemma reads_get : reads get. Proof. done. Qed.
Lemma reads_require k : reads (require k). Proof. done. Qed.

Lemma reads_authorize A now g k : reads (authorize_via_grant A now g k).
Proof.
  unfold authorize_via_grant.
  repeat first [apply reads_bind; [first [apply reads_lift|apply reads_require|apply reads_get]|intros ?]
               |apply reads_lift].
Qed.

(** A read-only prefix: only the state where it returned matters. *)
Lemma effect_read {A B} (m : M Repo A) (f : A -> M Repo B) r :
  reads m -> (forall a, m r = (Ret a, r) -> effect r (f a r).2) -> effect r ((m ≫= f) r).2.
Proof.
  intros Hm Hf. unfold mbind, M_bind. specialize (Hm r).
  destruct (m r) as [[a|e] r']; cbn in *; subst; [by apply Hf|constructor].
Qed.

Lemma effect_lift {A B} (m : outcome A) (f : A -> M Repo B) r :
  (forall a, m = Ret a -> effect r (f a r).2) -> effect r ((lift m ≫= f) r).2.
Proof. intros Hf. apply effect_read; [done|]. intros a [=Ha]. by apply Hf. Qed.

Lemma effect_require {B} k (f : Assessment -> M Repo B) r :
  (forall a, assessments r !! k = Some a -> effect r (f a r).2) ->
  effect r ((require k ≫= f) r).2.
Proof.
  intros Hf. apply effect_read; [done|]. unfold require. intros a H.
  apply Hf. by destruct (assessments r !! k); cbn in H; simplify_eq.
Qed.

Lemma assert_allowed c t u :
  Transitions.assert_transition c t = Ret u -> t ∈ Transitions.ALLOWED_TRANSITIONS c.
Proof. apply Transitions.assert_transition_Ret. Qed.

Ltac walk :=
  repeat match goal with
  | |- effect _ ((lift _ ≫= _) _).2 => apply effect_lift; intros ? ?
  | |- effect _ ((require _ ≫= _) _).2 => apply effect_require; intros ? ?
  | H : Transitions.assert_transition _ _ = Ret _ |- _ => apply assert_allowed in H
  end.

Lemma create_refines h p sc m :
  (forall r, assessments r !! ("asm-" +:+ h) = None -> effect r (create h p sc m r).2).
Proof.
  intros r Hf. unfold create. walk. cbn.
  unfold Assessment.create in *. inv_ret. by apply eff_draft.
Qed.

Lemma attach_plan_refines h k sts r :
  plans r !! ("plan-" +:+ h) = None -> effect r (attach_plan h k sts r).2.
Proof.
  intros Hf. unfold attach_plan. walk. cbn.
  match goal with H : Plan.create _ _ _ _ = Ret _ |- _ => rename H into Hc end.
  eapply eff_plan; [done..|exact Hc|by intros [=]%(f_equal String.length)|].
  by apply Plan.plan_create_Ret in Hc as (_ & _ & ->).
Qed.

Lemma approve_refines A now h k by_ rs cs sd role g r :
  approvals r !! ("apr-" +:+ h) = None ->
  effect r (approve A now h k by_ rs cs sd role g r).2.
Proof.
  intros Hf. unfold approve. apply effect_read.
  { destruct g; apply reads_bind; [apply reads_authorize|done|done|done]. }
  intros who _. walk.
  apply effect_read; [done|]. intros plan Hp.
  assert (Hp' : plans r !! a0 = Some plan) by (destruct (plans r !! a0); cbn in Hp; congruence).
  walk. cbn.
  match goal with H : Approval.create _ _ _ _ _ _ _ _ = Ret ?ap |- _ =>
    pose proof H as Hc; apply Approval.approval_create_Ret in Hc
  end.
  destruct Hc as (_ & Hsd & Hk & Hpd & Hsd' & Hm & _ & _ & _ & Hid).
  match goal with H : unwrap (active_plan_id _) _ = Ret _ |- _ => apply unwrap_Ret in H end.
  eapply eff_approve; try done; congruence.
Qed.

Lemma reject_refines k by_ why role r : effect r (reject k by_ why role r).2.
Proof. unfold reject. walk. cbn. eapply eff_move; [done..|left; set_solver]. Qed.

Lemma start_refines A now k role g r : effect r (start A now k role g r).2.
Proof.
  unfold start. apply effect_read; [destruct g; [apply reads_authorize|done]|].
  intros [] _. walk. cbn.
  unfold Assessment.start in *. inv_ret. breflect.
  match goal with H : Assessment.truthy_opt (active_plan_id ?a) = true |- _ =>
    destruct (active_plan_id a) eqn:Ea; [|discriminate H] end.
  cbn. rewrite <- Ea. eapply eff_move; [done..|left; set_solver].
Qed.

Lemma move_refines t k r : t ∈ [RUNNING; COMPLETED; FAILED] -> effect r (move t k r).2.
Proof. intros Ht. unfold move. walk. cbn. eapply eff_move; [done..|left; set_solver]. Qed.

Lemma control_move_refines t c k r :
  (t, c) ∈ [(PAUSED, ControlState.PAUSE_REQUESTED); (RUNNING, ControlState.RESUME_REQUESTED);
            (CANCELLED, ControlState.CANCEL_REQUESTED)] ->
  effect r (control_move t c k r).2.
Proof.
  intros Ht. unfold control_move, set_control. walk. inv_ret. cbn.
  match goal with H : Transitions.assert_transition _ _ = Ret _ |- _ => apply assert_allowed in H end.
  eapply eff_move; [done..|right; set_solver].
Qed.

Lemma run_refines o r : fresh o r -> effect r (run o r).2.
Proof.
  assert (Hforget : forall A (m : M Repo A) r, effect r (m r).2 -> effect r (forget m r).2).
  { intros A m r0 H. unfold forget, mbind, M_bind. destruct (m r0) as [[a|e] r']; exact H. }
  destruct o; cbn [run fresh]; intros Hf; apply Hforget;
    eauto using create_refines, attach_plan_refines, approve_refines, reject_refines,
      start_refines.
  all: first [apply move_refines; set_solver|apply control_move_refines; set_solver].
Qed.

(** ** The invariant *)

(** The statuses an assessment can only have with an approved plan. *)
Definition past_approval (s : AssessmentStatus) : bool :=
  bool_decide (s ∈ [APPROVED; QUEUED; RUNNING; PAUSED; COMPLETED; PARTIAL; FAILED; CANCELLED]).

(** The approval the assessment points at is stored and signs the digest of
    the stored plan the assessment points at, for this assessment and mode. *)
Definition bound_approval (r : Repo) (k : string) (a : Assessment) : Prop :=
  exists pid p qid ap,
    active_plan_id a = Some pid /\ plans r !! pid = Some p
    /\ approval_id a = Some qid /\ approvals r !! qid = Some ap
    /\ approval_assessment_id ap = k /\ approval_plan_digest ap = plan_digest p
    /\ approval_mode ap = mode a /\ approval_scope_digest ap <> "".

Record wf (r : Repo) : Prop := {
  wf_id : forall k a, assessments r !! k = Some a -> id a = k;
  wf_plan : forall pid p, plans r !! pid = Some p ->
    pid <> "" /\ plan_id p = pid /\ Plan.plan_wf (steps p) /\
    plan_digest p = Canonical.canonical_digest (Plan.payload (plan_assessment_id p) 1 (steps p));
  wf_draft : forall k a, assessments r !! k = Some a -> status a = DRAFT ->
    active_plan_id a = None /\ approval_id a = None;
  wf_active : forall k a, assessments r !! k = Some a -> status a <> DRAFT ->
    exists pid p, active_plan_id a = Some pid /\ plans r !! pid = Some p /\ plan_assessment_id p = k;
  wf_bound : forall k a, assessments r !! k = Some a -> past_approval (status a) = true ->
    bound_approval r k a
}.

(** Plans and approvals are only ever added. *)
Lemma effect_mono r r' :
  effect r r' -> plans r ⊆ plans r' /\ approvals r ⊆ approvals r'.
Proof. destruct 1; cbn; split; try done; by apply insert_subseteq. Qed.

Lemma bound_mono r r' k a :
  plans r ⊆ plans r' -> approvals r ⊆ approvals r' -> bound_approval r k a -> bound_approval r' k a.
Proof.
  intros Hp Ha (pid & p & qid & ap & ? & ? & ? & ? & ?). exists pid, p, qid, ap.
  split_and!; try tauto; eapply lookup_weaken; eauto.
Qed.

(** What an effect does to each assessment: it is the stored one, or the one
    the effect wrote. *)
Lemma effect_lookup r r' k a' :
  wf r -> effect r r' -> assessments r' !! k = Some a' ->
  assessments r !! k = Some a'
  \/ (assessments r !! k = None /\ id a' = k /\ status a' = DRAFT
      /\ active_plan_id a' = None /\ approval_id a' = None /\ control a' = ControlState.NONE)
  \/ exists a, assessments r !! k = Some a /\ id a' = k /\ mode a' = mode a
      /\ scope_snapshot_id a' = scope_snapshot_id a
      /\ status a' ∈ Transitions.ALLOWED_TRANSITIONS (status a)
      /\ ((status a' = AWAITING_APPROVAL /\ control a' = control a
            /\ exists p, active_plan_id a' = Some (plan_id p) /\ plans r' !! plan_id p = Some p
                       /\ plan_assessment_id p = k)
          \/ (status a' = APPROVED /\ control a' = control a
            /\ active_plan_id a' = active_plan_id a /\ bound_approval r' k a')
          \/ (control_after a (status a') (control a')
            /\ active_plan_id a' = active_plan_id a /\ approval_id a' = approval_id a)).
Proof.
  intros Hwf He H.
  destruct He as [|a Hn|k0 a p pid sts Hl Ht Hc Hne Hf|k0 a pid p ap Hl Ht Hpid Hp Hf Hk Hd Hm Hsd|k0 a t c Hl Ht Hc];
    cbn in H; [by left|..];
    apply lookup_insert_Some in H as [[<- <-]|[_ H]]; try (by left); right;
    try (pose proof (wf_id r Hwf _ _ Hl) as Hid; rewrite <- Hid in Hl; try rewrite <- Hid in Hk;
         try rewrite <- Hid in Hc).
  - left. done.
  - right. exists a. cbn. split_and!; [done..|]. left. split_and!; [done..|].
    exists p. split_and!; [done|by rewrite lookup_insert_eq|].
    by apply Plan.plan_create_Ret in Hc as (_ & _ & ->).
  - right. exists a. cbn. split_and!; [done..|]. right. left. split_and!; [done..|].
    exists pid, p, (approval_id_of ap), ap. cbn. rewrite lookup_insert_eq.
    split_and!; congruence.
  - right. exists a. cbn. split_and!; [done..|]. right. right. done.
Qed.

Lemma effect_plans r r' pid p :
  wf r -> effect r r' -> plans r' !! pid = Some p ->
  plans r !! pid = Some p
  \/ (pid <> "" /\ plan_id p = pid /\ Plan.plan_wf (steps p) /\
      plan_digest p = Canonical.canonical_digest (Plan.payload (plan_assessment_id p) 1 (steps p))).
Proof.
  intros Hwf He H. destruct He; cbn in H; try by left.
  apply lookup_insert_Some in H as [[<- <-]|[_ H]]; [right|by left].
  match goal with Hc : Plan.create _ _ _ _ = Ret _ |- _ =>
    apply Plan.plan_create_Ret in Hc as (_ & Hw & ->) end.
  done.
Qed.

Lemma allowed_control a t c : control_after a t c ->
  (t = PAUSED -> c = ControlState.PAUSE_REQUESTED)
  /\ (t = CANCELLED -> c = ControlState.CANCEL_REQUESTED)
  /\ t <> DRAFT /\ t <> AWAITING_APPROVAL.
Proof.
  intros [[Ht ->]|[[-> ->]|[[-> ->]|[-> ->]]]]; [|split_and!; done..].
  split_and!; intros ->; set_solver.
Qed.

(** [control_after] only leaves [past_approval] statuses reachable from
    themselves or from APPROVED. *)
Lemma past_approval_step s t :
  t ∈ Transitions.ALLOWED_TRANSITIONS s -> past_approval t = true -> t <> APPROVED ->
  past_approval s = true.
Proof. destruct s, t; cbn; try done; set_solver. Qed.

Lemma allowed_not_draft s t : t ∈ Transitions.ALLOWED_TRANSITIONS s -> t <> DRAFT.
Proof. intros H ->. destruct s; cbn in H; set_solver. Qed.

Lemma allowed_from_draft t : t ∈ Transitions.ALLOWED_TRANSITIONS DRAFT -> t = AWAITING_APPROVAL.
Proof. cbn. set_solver. Qed.

Lemma effect_wf r r' : wf r -> effect r r' -> wf r'.
Proof.
  intros Hwf He. destruct (effect_mono _ _ He) as [Hpl Hap]. split.
  - intros k a' H. destruct (effect_lookup _ _ _ _ Hwf He H) as [?|[(?&?&_)|(?&?&?&_)]]; [|done..].
    by eapply wf_id.
  - intros pid p H. destruct (effect_plans _ _ _ _ Hwf He H) as [?|?]; [|done]. by eapply wf_plan.
  - intros k a' H Hs.
    destruct (effect_lookup _ _ _ _ Hwf He H) as [?|[(?&?&?&?&?&?)|(a&?&?&?&?&Ht&_)]];
      [by eapply wf_draft|done|].
    by apply allowed_not_draft in Ht.
  - intros k a' H Hs.
    destruct (effect_lookup _ _ _ _ Hwf He H) as [H0|[(?&?&?&?&?&?)|(a&H0&?&?&?&Ht&[(?&_&p&?&?&?)|Hc])]];
      [|done|by exists (plan_id p), p|].
    { destruct (wf_active _ Hwf k a' H0 Hs) as (pid & p & ? & ? & ?). exists pid, p.
      split_and!; [done| |done]. by eapply lookup_weaken. }
    destruct (decide (status a = DRAFT)) as [Hd|Hd].
    + rewrite Hd in Ht. apply allowed_from_draft in Ht. rewrite Ht in Hc.
      destruct Hc as [(?&_)|(Hc&_)]; [done|]. by apply allowed_control in Hc as (_ & _ & _ & ?).
    + destruct (wf_active _ Hwf k a H0 Hd) as (pid & p & ? & ? & ?). exists pid, p.
      split_and!; [destruct Hc as [(_&_&->&_)|(_&->&_)]; done|by eapply lookup_weaken|done].
  - intros k a' H Hs.
    destruct (effect_lookup _ _ _ _ Hwf He H)
      as [H0|[(?&?&E&_)|(a&H0&?&Em&?&Ht&[(E&_)|[(_&_&_&Hb)|(Hc&Ea&Eq)]])]]; [|by rewrite E in Hs|by rewrite E in Hs|done|].
    { eapply bound_mono; [done..|]. by eapply wf_bound. }
    assert (Hs' : past_approval (status a) = true).
    { eapply past_approval_step; [done..|]. intros E. rewrite E in Hc.
      destruct Hc as [[? _]|[[? _]|[[? _]|[? _]]]]; [set_solver|done..]. }
    eapply bound_mono in Hpl as Hb; [|done|by eapply wf_bound].
    unfold bound_approval in *. rewrite Ea, Eq, Em. done.
Qed.

Lemma wf_empty : wf empty_repo.
Proof. split; cbn; intros ? ? H; by rewrite lookup_empty in H. Qed.

Lemma step_effect r r' : step r r' -> effect r r'.
Proof. destruct 1. by apply run_refines. Qed.

Lemma steps_wf r r' : rtc step r r' -> wf r -> wf r'.
Proof. induction 1; [done|]. intros Hw. apply IHrtc. eapply effect_wf, step_effect; done. Qed.

Lemma reachable_wf r : reachable r -> wf r.
Proof. intros H. eapply steps_wf; [exact H|apply wf_empty]. Qed.

(** ** Life cycle over whole runs *)

Lemma effect_evolves r r' k a :
  wf r -> effect r r' -> assessments r !! k = Some a ->
  exists a', assessments r' !! k = Some a' /\
    (a' = a \/ (status a' ∈ Transitions.ALLOWED_TRANSITIONS (status a)
       /\ (past_approval (status a) = true ->
           active_plan_id a' = active_plan_id a /\ approval_id a' = approval_id a))).
Proof.
  intros Hwf He H.
  assert (Hin : exists a', assessments r' !! k = Some a').
  { destruct He; cbn; try by eexists. all: destruct (decide (k = id a0)) as [->|Hne];
      [rewrite lookup_insert_eq; by eexists|rewrite lookup_insert_ne by done; by eexists]. }
  destruct Hin as [a' H']. exists a'. split; [done|].
  destruct (effect_lookup _ _ _ _ Hwf He H') as [H0|[(H0&_)|(a0&H0&?&?&?&Ht&Hcase)]]; simplify_eq; [by left|].
  right. split; [done|]. intros Hp.
  destruct Hcase as [(E&_)|[(E&_)|(_&?&?)]]; [| |done]; exfalso; rewrite E in Ht;
    destruct (status a); cbn in *; set_solver.
Qed.

(** An assessment is never lost; its status moves along the table; past
    approval its plan and approval are fixed; at the end it is fixed. *)
Lemma run_evolves r r' k a :
  rtc step r r' -> wf r -> assessments r !! k = Some a ->
  exists a', assessments r' !! k = Some a'
    /\ rtc (fun s t => t ∈ Transitions.ALLOWED_TRANSITIONS s) (status a) (status a')
    /\ (past_approval (status a) = true -> past_approval (status a') = true /\
        active_plan_id a' = active_plan_id a /\ approval_id a' = approval_id a)
    /\ (Transitions.terminal (status a) = true -> a' = a).
Proof.
  intros Hs. revert a. induction Hs as [r|r r1 r' Hst Hs IH]; intros a Hwf H.
  { exists a. split_and!; [done|reflexivity|done|done]. }
  apply step_effect in Hst.
  destruct (effect_evolves _ _ _ _ Hwf Hst H) as (a1 & H1 & Hcase).
  destruct (IH a1 (effect_wf _ _ Hwf Hst) H1) as (a' & H' & Hr & Hp & Ht).
  exists a'. split; [done|]. destruct Hcase as [->|[Hall Hfix]]; [done|]. split_and!.
  - eapply rtc_l; [exact Hall|done].
  - intros Hpa. destruct (Hfix Hpa) as [Ea Eq]. rewrite <- Ea, <- Eq. apply Hp.
    revert Hall Hpa. destruct (status a), (status a1); cbn; try done; set_solver.
  - intros Hterm. apply bool_decide_eq_true in Hterm. rewrite Hterm in Hall. by apply elem_of_nil in Hall.
Qed.

(** C2: nothing runs without an approval. In every reachable state of the
    service, an assessment that is approved, queued, running, paused or
    finished points at a stored plan and at a stored approval, the approval
    names this assessment and its mode and signs exactly the digest of that
    plan, and that plan is well formed (unique keys, known dependencies, no
    cycle). *)
Theorem no_run_without_bound_approval r k a :
  reachable r -> assessments r !! k = Some a -> past_approval (status a) = true ->
  exists pid p qid ap,
    active_plan_id a = Some pid /\ plans r !! pid = Some p /\ plan_assessment_id p = k
    /\ approval_id a = Some qid /\ approvals r !! qid = Some ap
    /\ approval_assessment_id ap = k /\ approval_mode ap = mode a
    /\ approval_plan_digest ap = Canonical.canonical_digest (Plan.payload k 1 (steps p))
    /\ Plan.plan_wf (steps p).
Proof.
  intros Hr%reachable_wf H Hp.
  destruct (wf_bound _ Hr _ _ H Hp) as (pid & p & qid & ap & Ea & Hpl & Eq & Hap & Hk & Hd & Hm & _).
  destruct (wf_active _ Hr _ _ H) as (pid' & p' & Ea' & Hpl' & Hk').
  { intros E. by rewrite E in Hp. }
  simplify_eq. destruct (wf_plan _ Hr _ _ Hpl) as (_ & _ & Hw & Hdig).
  exists pid, p, qid, ap. split_and!; try congruence; done.
Qed.

(** C16: an approval is final. Once an assessment is past approval, however
    long the service runs, whoever calls it and whatever calls fail, the
    assessment keeps the plan and the approval it had, and the stored plan
    and approval records themselves are never replaced. *)
Theorem approved_plan_is_frozen r r' k a pid qid p ap :
  reachable r -> rtc step r r' -> assessments r !! k = Some a ->
  past_approval (status a) = true ->
  active_plan_id a = Some pid -> plans r !! pid = Some p ->
  approval_id a = Some qid -> approvals r !! qid = Some ap ->
  exists a', assessments r' !! k = Some a' /\ past_approval (status a') = true
    /\ active_plan_id a' = Some pid /\ plans r' !! pid = Some p
    /\ approval_id a' = Some qid /\ approvals r' !! qid = Some ap.
Proof.
  intros Hr%reachable_wf Hs H Hp Ea Hpl Eq Hap.
  destruct (run_evolves _ _ _ _ Hs Hr H) as (a' & H' & _ & Hf & _).
  destruct (Hf Hp) as (Hp' & Ea' & Eq'). exists a'.
  assert (Hmono : plans r ⊆ plans r' /\ approvals r ⊆ approvals r').
  { clear - Hs. induction Hs as [|r r1 r' Hst _ [IH1 IH2]]; [done|].
    destruct (effect_mono _ _ (step_effect _ _ Hst)). split; etrans; done. }
  destruct Hmono as [Hm1 Hm2].
  split_and!; [done..|congruence|by eapply lookup_weaken|congruence|by eapply lookup_weaken].
Qed.

(** the status of an assessment only ever moves along the transition
    table, over any number of calls; an assessment in a terminal status
    (rejected, completed, partial, failed, cancelled, planned) is never
    changed again, and no assessment disappears. *)
Theorem lifecycle_follows_table r r' k a :
  reachable r -> rtc step r r' -> assessments r !! k = Some a ->
  exists a', assessments r' !! k = Some a'
    /\ rtc (fun s t => t ∈ Transitions.ALLOWED_TRANSITIONS s) (status a) (status a')
    /\ (Transitions.terminal (status a) = true -> a' = a).
Proof.
  intros Hr%reachable_wf Hs H.
  destruct (run_evolves _ _ _ _ Hs Hr H) as (a' & ? & ? & _ & ?). by exists a'.
Qed.

(** ** Errors and authority *)

(** [m] writes only when it returns. *)
Definition atomic {A} (m : M Repo A) : Prop := forall r e, (m r).1 = Raise e -> (m r).2 = r.

Lemma atomic_reads {A} (m : M Repo A) : reads m -> atomic m.
Proof. intros H r e _. apply H. Qed.

Lemma atomic_bind {A B} (m : M Repo A) (f : A -> M Repo B) :
  reads m -> (forall a, atomic (f a)) -> atomic (m ≫= f).
Proof.
  intros Hm Hf r e. unfold mbind, M_bind. specialize (Hm r).
  destruct (m r) as [[a|e'] r']; cbn in *; subst; [apply Hf|done].
Qed.

(** The writes at the end of a handler cannot fail. *)
Lemma atomic_write {A} (f : Repo -> Repo) (a : A) : atomic (modify f;; mret a).
Proof. intros r e. discriminate 1. Qed.

Lemma atomic_forget {A} (m : M Repo A) : atomic m -> atomic (forget m).
Proof.
  intros H r e. specialize (H r). unfold forget, mbind, M_bind, mret, M_ret.
  destruct (m r) as [[a|e'] r']; cbn in *; [done|]. intros [= <-]. by eapply H.
Qed.

#[local] Hint Resolve atomic_reads reads_lift reads_require reads_get reads_ret
  reads_authorize atomic_write atomic_forget : atomic.
#[local] Hint Resolve reads_bind : atomic.

Lemma run_atomic o : atomic (run o).
Proof.
  destruct o; cbn [run]; apply atomic_forget;
    unfold create, attach_plan, reject, mark_running, complete, fail, move, pause, resume,
      cancel, control_move, start, approve;
    repeat (apply atomic_bind; [by (repeat case_match; eauto 6 with atomic)|intros ?]);
    try apply atomic_write; by intros r e.
Qed.

(** every call is all or nothing: a handler that raises (a missing
    assessment, an illegal transition, a denied grant, an invalid plan, ...)
    leaves the repository exactly as it found it. *)
Theorem failed_call_changes_nothing o r e r' :
  run o r = (Raise e, r') -> r' = r.
Proof. intros H. pose proof (run_atomic o r e) as Ha. rewrite H in Ha. by apply Ha. Qed.

Lemma require_human_Ret role u : require_human role = Ret u <-> role = "human".
Proof.
  unfold require_human. destruct u. split.
  - intros (? & H1 & H2)%bind_Ret. apply raise_if_Ret in H2. by breflect.
  - intros ->. done.
Qed.

(** When [authorize_via_grant] passes, the grant service has allowed the
    stored scope and the steps of the stored active plan at this time. *)
Definition grant_allows (A : Authority Scope) (now : datetime) (g k : string) (r : Repo) : Prop :=
  exists svc snap a scope d,
    authorize A = Some svc /\ get_snapshot A = Some snap
    /\ assessments r !! k = Some a /\ snap (scope_snapshot_id a) = Some scope
    /\ svc g scope (match active_plan r a with Some p => steps p | None => [] end) now = Ret d
    /\ allowed d = true.

Lemma bind_read_inv {A B} (m : M Repo A) (f : A -> M Repo B) r b r' :
  reads m -> (m ≫= f) r = (Ret b, r') -> exists a, m r = (Ret a, r) /\ f a r = (Ret b, r').
Proof.
  intros Hm. unfold mbind, M_bind. specialize (Hm r).
  destruct (m r) as [[a|e] r1]; cbn in *; subst; [|done]. by exists a.
Qed.

Lemma lift_inv {A} (m : outcome A) (r r' : Repo) a : lift m r = (Ret a, r') -> m = Ret a.
Proof. by intros [= ->]. Qed.

Lemma require_inv k r a r' : require k r = (Ret a, r') -> assessments r !! k = Some a.
Proof. unfold require. destruct (assessments r !! k); by intros [= ->]. Qed.

Ltac inv_reads :=
  repeat match goal with
  | H : (_ ≫= _) _ = (Ret _, _) |- _ =>
      apply bind_read_inv in H;
        [destruct H as (? & ? & ?)
        |first [apply reads_lift|apply reads_require|apply reads_get|apply reads_authorize|done]]
  | H : lift _ _ = (Ret _, _) |- _ => apply lift_inv in H
  | H : require _ _ = (Ret _, _) |- _ => apply require_inv in H
  | H : unwrap _ _ = Ret _ |- _ => apply unwrap_Ret in H
  | H : raise_if _ _ = Ret _ |- _ => apply raise_if_Ret in H
  | H : get _ = (Ret _, _) |- _ => injection H as <-
  | H : Transitions.assert_transition _ _ = Ret _ |- _ => apply assert_allowed in H
  end.

Lemma authorize_inv A now g k r u r' :
  authorize_via_grant A now g k r = (Ret u, r') -> grant_allows A now g k r.
Proof.
  unfold authorize_via_grant. intros H. inv_reads. breflect.
  by repeat eexists.
Qed.

(** an agent (or any caller that is not a human) without a grant can
    neither approve, nor reject, nor start: each call raises the permission
    error, whatever the state, and changes nothing. *)
Theorem agent_needs_a_grant A now h k by_ risks caps sd why role r :
  role <> "human" ->
  exists msg,
    approve A now h k by_ risks caps sd role None r = (Raise (AssessmentPermissionError msg), r)
    /\ start A now k role None r = (Raise (AssessmentPermissionError msg), r)
    /\ reject k by_ why role r = (Raise (AssessmentPermissionError msg), r).
Proof.
  intros Hrole.
  assert (Hh : exists msg, require_human role = Raise (AssessmentPermissionError msg)).
  { unfold require_human. case_bool_decide; [done|]. case_bool_decide; by eexists. }
  destruct Hh as [msg Hh]. exists msg.
  unfold approve, start, reject, mbind, M_bind, lift. rewrite Hh. done.
Qed.

Lemma active_plan_lookup r a pid p :
  wf r -> active_plan_id a = Some pid -> plans r !! pid = Some p -> active_plan r a = Some p.
Proof.
  intros Hwf Ea Hp. unfold active_plan. rewrite Ea. cbn.
  destruct (wf_plan _ Hwf _ _ Hp) as (Hne & _). apply PyStr.truthy_true in Hne.
  by rewrite Hne.
Qed.

(** An approval through a grant: what the service was asked, and what the
    approval records. *)
Lemma approve_grant_inv A now h k by_ risks caps sd role g r ap r' :
  wf r -> approve A now h k by_ risks caps sd role (Some g) r = (Ret ap, r') ->
  approved_by ap = "grant:" +:+ g /\ grant_allows A now g k r
  /\ exists a p, assessments r !! k = Some a /\ active_plan r a = Some p /\ approval_plan_digest ap = plan_digest p.
Proof.
  intros Hwf. unfold approve. intros H.
  apply bind_read_inv in H as (who & Hg & H); [|apply reads_bind; [apply reads_authorize|done]].
  apply bind_read_inv in Hg as (u & Hg & [= <-]); [|apply reads_authorize].
  apply authorize_inv in Hg. inv_reads.
  match goal with H : (unwrap (plans r !! _) _, _) = _ |- _ => injection H as Hp; apply unwrap_Ret in Hp end.
  match goal with H : (_ ≫= _) _ = _ |- _ => unfold mbind, M_bind, modify, mret, M_ret in H; injection H as -> _ end.
  match goal with H : Approval.create _ _ _ _ _ _ _ _ = Ret _ |- _ =>
    apply Approval.approval_create_Ret in H as (_ & _ & _ & Hd & _ & _ & _ & _ & Hw & _) end.
  split_and!; [done..|]. eapply active_plan_lookup in Hp as Hact; [|done..]. by do 2 eexists.
Qed.

(** the grant path. When an approval or a start through a grant
    succeeds, the grant service has allowed, at the time of that very call,
    the scope of the assessment and the steps of its stored plan; the
    recorded approver is the grant, not the caller; and with a lawful grant
    service the plan that is approved or started has no destructive step. *)
Theorem grant_path_is_checked A now h k by_ risks caps sd role g r
    `{!LawfulAuthority A} :
  wf r ->
  (forall ap r', approve A now h k by_ risks caps sd role (Some g) r = (Ret ap, r') ->
     approved_by ap = "grant:" +:+ g /\ grant_allows A now g k r
     /\ exists a p, assessments r !! k = Some a /\ active_plan r a = Some p
        /\ approval_plan_digest ap = plan_digest p
        /\ Forall (fun s => risk s <> RiskClass.DESTRUCTIVE) (steps p))
  /\ (forall a' r', start A now k role (Some g) r = (Ret a', r') ->
     grant_allows A now g k r
     /\ exists a p, assessments r !! k = Some a /\ active_plan r a = Some p
        /\ Forall (fun s => risk s <> RiskClass.DESTRUCTIVE) (steps p)).
Proof.
  intros Hwf. split.
  - intros ap r' H. apply approve_grant_inv in H as (Hw & Hg & a & p & Ha & Hact & Hd); [|done].
    split_and!; [done..|]. exists a, p. split_and!; [done..|].
    destruct Hg as (svc & snap & a0 & scope & d & HA & _ & Ha0 & _ & Hsvc & Hal). simplify_eq.
    rewrite Hact in Hsvc. by eapply authorize_not_destructive.
  - intros a' r'. unfold start. intros H.
    apply bind_read_inv in H as (u & Hg & H); [|apply reads_authorize].
    apply authorize_inv in Hg. inv_reads. breflect. split; [done|].
    destruct Hg as (svc & snap & a & scope & d & HA & _ & Ha & _ & Hsvc & Hal). simplify_eq.
    match goal with H : QUEUED ∈ _ |- _ => rename H into Hq end.
    destruct (wf_active _ Hwf _ _ Ha) as (pid & p & Ea & Hp & _).
    { intros E. rewrite E in Hq. cbn in Hq. set_solver. }
    eapply active_plan_lookup in Hp as Hact; [|done..].
    rewrite Hact in Hsvc. do 2 eexists. split_and!; [done..|]. by eapply authorize_not_destructive.
Qed.

(** ** Control moves and the complete run *)

Lemma control_move_spec t c k r :
  control_move t c k r =
  match assessments r !! k with
  | None => (Raise (LookupError ("assessment " +:+ k +:+ " not found")), r)
  | Some a =>
      match set_control a t c with
      | Ret a' => (Ret a', repo_add a' r)
      | Raise e => (Raise e, r)
      end
  end.
Proof.
  unfold control_move, require, mbind, M_bind, lift, modify, mret, M_ret.
  destruct (assessments r !! k) as [a|]; cbn; [|done]. by destruct (set_control a t c).
Qed.

Lemma control_move_returns t c k r :
  is_Ret (control_move t c k r).1 = true <->
  exists a, assessments r !! k = Some a /\ t ∈ Transitions.ALLOWED_TRANSITIONS (status a).
Proof.
  rewrite control_move_spec. destruct (assessments r !! k) as [a|]; [|cbn; naive_solver].
  unfold set_control. destruct (Transitions.assert_transition (status a) t) as [[]|e] eqn:E; cbn.
  - apply assert_allowed in E. naive_solver.
  - apply Transitions.assert_transition_Raise in E as [? _]. naive_solver.
Qed.

(** the control plane. [pause] is accepted exactly for a running
    assessment and [cancel] exactly for a queued, running or paused one;
    [resume] is accepted for a paused assessment and also for a queued one,
    and after such a resume the executor's [mark_running] is refused. *)
Theorem control_plane_acceptance k r :
  (is_Ret (pause k r).1 = true <->
     exists a, assessments r !! k = Some a /\ status a = RUNNING)
  /\ (is_Ret (cancel k r).1 = true <->
     exists a, assessments r !! k = Some a /\ status a ∈ [QUEUED; RUNNING; PAUSED])
  /\ (is_Ret (resume k r).1 = true <->
     exists a, assessments r !! k = Some a /\ status a ∈ [QUEUED; PAUSED])
  /\ (wf r -> is_Ret (resume k r).1 = true -> is_Ret (mark_running k (resume k r).2).1 = false).
Proof.
  unfold pause, cancel, resume. rewrite !control_move_returns.
  assert (Hst : forall (t : AssessmentStatus) (P : AssessmentStatus -> Prop),
    (forall s, t ∈ Transitions.ALLOWED_TRANSITIONS s <-> P s) ->
    (exists a, assessments r !! k = Some a /\ t ∈ Transitions.ALLOWED_TRANSITIONS (status a))
    <-> (exists a, assessments r !! k = Some a /\ P (status a))).
  { intros t P HP. by setoid_rewrite HP. }
  split_and!.
  - apply (Hst PAUSED (fun s => s = RUNNING)). intros []; cbn; set_solver.
  - apply (Hst CANCELLED (fun s => s ∈ [QUEUED; RUNNING; PAUSED])). intros []; cbn; set_solver.
  - apply (Hst RUNNING (fun s => s ∈ [QUEUED; PAUSED])). intros []; cbn; set_solver.
  - intros Hwf (a & Ha & Hq). rewrite control_move_spec, Ha. unfold set_control.
    apply Transitions.assert_transition_Ret with (u := tt) in Hq. rewrite Hq. cbn.
    pose proof (wf_id _ Hwf _ _ Ha) as Hid.
    unfold mark_running, move, require, mbind, M_bind, lift. cbn.
    rewrite Hid, lookup_insert_eq. done.
Qed.

(** What each handler returns on its success branch. *)
Lemma truthy_app p s : String.length p <> 0%nat -> PyStr.truthy (p +:+ s) = true.
Proof.
  intros Hl. apply PyStr.truthy_true. intros E%(f_equal String.length).
  rewrite PyStr.length_app in E. cbn in E. lia.
Qed.

Lemma assert_transition_ok c t :
  t ∈ Transitions.ALLOWED_TRANSITIONS c -> Transitions.assert_transition c t = Ret tt.
Proof. apply Transitions.assert_transition_Ret. Qed.

Lemma require_bind {B} k a (f : Assessment -> M Repo B) r :
  assessments r !! k = Some a -> (require k ≫= f) r = f a r.
Proof. intros H. unfold require, mbind, M_bind. by rewrite H. Qed.

Lemma lift_bind {A B} (m : outcome A) a (f : A -> M Repo B) r :
  m = Ret a -> (lift m ≫= f) r = f a r.
Proof. by intros ->. Qed.

Lemma bind_run {A B} (m : M Repo A) a (f : A -> M Repo B) r r' :
  m r = (Ret a, r') -> (m ≫= f) r = f a r'.
Proof. unfold mbind, M_bind. by intros ->. Qed.

Lemma create_run h project scope_id m r :
  project <> "" -> scope_id <> "" ->
  let a := mkAssessment ("asm-" +:+ h) project scope_id m DRAFT None None ControlState.NONE in
  create h project scope_id m r = (Ret a, repo_add a r).
Proof.
  intros Hp%PyStr.truthy_true Hs%PyStr.truthy_true a. unfold create.
  rewrite (lift_bind _ a); [done|]. unfold Assessment.create.
  by rewrite Hp, Hs, truthy_app.
Qed.

Lemma attach_plan_run h k sts a r :
  assessments r !! k = Some a -> AWAITING_APPROVAL ∈ Transitions.ALLOWED_TRANSITIONS (status a) ->
  Plan.plan_wf sts ->
  let p := mkExecutionPlan ("plan-" +:+ h) k 1 sts
             (Canonical.canonical_digest (Plan.payload k 1 sts)) in
  let a' := mkAssessment (id a) (project_id a) (scope_snapshot_id a) (mode a) AWAITING_APPROVAL
              (Some ("plan-" +:+ h)) (approval_id a) (control a) in
  attach_plan h k sts r = (Ret a', repo_add a' (save_plan p r)).
Proof.
  intros Ha Ht Hw p a'. unfold attach_plan.
  rewrite (require_bind k a), (lift_bind _ tt) by first [done|by apply assert_transition_ok].
  rewrite (lift_bind _ p); [done|]. by apply Plan.create_spec.
Qed.

Lemma approve_run A now h k who risks caps sd a pid p r :
  assessments r !! k = Some a -> APPROVED ∈ Transitions.ALLOWED_TRANSITIONS (status a) ->
  active_plan_id a = Some pid -> plans r !! pid = Some p -> plan_digest p <> "" -> sd <> "" ->
  exists ap, approval_id_of ap = "apr-" +:+ h /\
  approve A now h k who risks caps sd "human" None r
  = (Ret ap, repo_add (mkAssessment (id a) (project_id a) (scope_snapshot_id a) (mode a) APPROVED
                         (active_plan_id a) (Some ("apr-" +:+ h)) (control a))
               (save_approval ap r)).
Proof.
  intros Ha Ht Ea Hp Hd%PyStr.truthy_true Hsd%PyStr.truthy_true.
  eexists. split; cycle 1.
  - unfold approve. rewrite (bind_run _ who _ _ r) by done.
    rewrite (require_bind k a), (lift_bind _ pid), (lift_bind _ tt)
      by first [done|by rewrite Ea|by apply assert_transition_ok].
    rewrite (bind_run _ p _ _ r) by (by rewrite Hp).
    unfold Approval.create. rewrite Hd, Hsd. rewrite (lift_bind _ _) by reflexivity. reflexivity.
  - done.
Qed.

Lemma start_run A now k a r :
  assessments r !! k = Some a -> status a = APPROVED ->
  Assessment.truthy_opt (active_plan_id a) = true ->
  Assessment.truthy_opt (approval_id a) = true ->
  let a' := Assessment.set_status a QUEUED in
  start A now k "human" None r = (Ret a', repo_add a' r).
Proof.
  intros Ha Hs Hp Hq a'. unfold start. rewrite (bind_run _ tt _ _ r) by done.
  rewrite (require_bind k a), !(lift_bind _ tt)
    by first [done|by rewrite Hp|by rewrite Hq|by rewrite Hs; apply assert_transition_ok; cbn; set_solver].
  rewrite (lift_bind _ a'); [done|]. unfold Assessment.start. rewrite Hq, Hs. cbn.
  unfold a', Assessment.set_status. by destruct (active_plan_id a).
Qed.

Lemma move_run t k a r :
  assessments r !! k = Some a -> t ∈ Transitions.ALLOWED_TRANSITIONS (status a) ->
  move t k r = (Ret (Assessment.set_status a t), repo_add (Assessment.set_status a t) r).
Proof.
  intros Ha Ht. unfold move.
  by rewrite (require_bind k a), (lift_bind _ tt) by first [done|by apply assert_transition_ok].
Qed.

(** The calls of an ordinary run, in the order the API makes them. *)
Definition human_run (A : Authority Scope) (now : datetime) (h1 h2 h3 project scope_id : string)
    (m : ExecutionMode) (sts : list PlanStep) (who : string) (risks : gset RiskClass)
    (caps : gset string) (scope_digest : string) : M Repo Assessment :=
  a ← create h1 project scope_id m;
  attach_plan h2 (id a) sts;;
  approve A now h3 (id a) who risks caps scope_digest "human" None;;
  start A now (id a) "human" None;;
  mark_running (id a);;
  complete (id a).

Lemma repo_add_eq a r k : k = id a -> assessments (repo_add a r) !! k = Some a.
Proof. intros ->. cbn. by rewrite lookup_insert_eq. Qed.

(** the ordinary run goes through. From any state of the repository,
    with non-empty project, scope and scope digest, and a well-formed plan,
    a human can take a new assessment from creation to completion, and it
    ends COMPLETED with that plan and an approval attached. *)
Theorem human_run_completes A now h1 h2 h3 project scope_id m sts who risks caps sd r :
  project <> "" -> scope_id <> "" -> sd <> "" -> Plan.plan_wf sts ->
  exists r' a, human_run A now h1 h2 h3 project scope_id m sts who risks caps sd r = (Ret a, r')
    /\ assessments r' !! ("asm-" +:+ h1) = Some a /\ status a = COMPLETED
    /\ active_plan_id a = Some ("plan-" +:+ h2) /\ approval_id a = Some ("apr-" +:+ h3)
    /\ (steps <$> plans r' !! ("plan-" +:+ h2)) = Some sts.
Proof.
  intros Hp Hsc Hsd Hw. unfold human_run.
  rewrite (bind_run _ _ _ _ _ (create_run _ _ _ _ _ Hp Hsc)). cbn [id].
  erewrite bind_run; [|apply attach_plan_run; [by apply repo_add_eq|cbn; set_solver|done]].
  match goal with |- context [repo_add ?a1 (save_plan ?p ?r1)] =>
    destruct (approve_run A now h3 ("asm-" +:+ h1) who risks caps sd a1 ("plan-" +:+ h2) p
                (repo_add a1 (save_plan p r1))) as (ap & Hap & E)
  end; [by apply repo_add_eq|cbn; set_solver|done|cbn; by rewrite lookup_insert_eq
       |by intros [=]%(f_equal String.length)|done|].
  erewrite bind_run; [|exact E].
  erewrite bind_run; [|apply start_run; [by apply repo_add_eq|done|by apply truthy_app..]].
  unfold mark_running, complete.
  erewrite bind_run; [|apply move_run; [by apply repo_add_eq|cbn; set_solver]].
  erewrite move_run; [|by apply repo_add_eq|cbn; set_solver].
  do 2 eexists. split; [reflexivity|]. cbn. by rewrite !lookup_insert_eq.
Qed.

Fixpoint run_all (ops : list op) (r : Repo) : Repo :=
  match ops with
  | [] => r
  | o :: os => run_all os (run o r).2
  end.

Fixpoint all_fresh (ops : list op) (r : Repo) : Prop :=
  match ops with
  | [] => True
  | o :: os => fresh o r /\ all_fresh os (run o r).2
  end.

Lemma run_all_steps ops r : all_fresh ops r -> rtc step r (run_all ops r).
Proof.
  revert r; induction ops as [|o os IH]; intros r; cbn; [reflexivity|].
  intros [Hf Hr]. eapply rtc_l; [by constructor|by apply IH].
Qed.

End service.
Arguments op : clear implicits.

(** ** A concrete run, for the witnesses *)

(** A grant service that allows everything without destructive steps. *)
Definition demo_authority : Authority unit :=
  mkAuthority (Some (fun _ => Some tt))
    (Some (fun g _ sts _ =>
       if forallb (fun s => negb (bool_decide (risk s = RiskClass.DESTRUCTIVE))) sts
       then Ret (mkPolicyDecision true "ALLOWED")
       else Ret (mkPolicyDecision false "GRANT_RISK_NOT_APPROVED"))).

#[export] Instance demo_lawful : LawfulAuthority demo_authority.
Proof.
  intros svc g scope sts now d [= <-]. destruct (forallb _ sts) eqn:E; intros [= <-]; [intros _|done].
  apply Forall_forall. intros s Hs. rewrite List.forallb_forall in E.
  apply list_elem_of_In, E in Hs. by breflect.
Qed.

Definition demo_prefix_of (Scope : Type) : list (op Scope) :=
  [Create "1" "proj" "scope-1" ExecutionMode.APPROVAL; AttachPlan "1" "asm-1" Plan.demo_steps].
Definition demo_prefix : list (op unit) := demo_prefix_of unit.
Definition demo_approved : list (op unit) :=
  demo_prefix ++
  [Approve demo_authority 0 "1" "asm-1" "ana" {[RiskClass.LOW]} {["nmap"]} "sd" "human" None].
Definition demo_run : list (op unit) :=
  [Start demo_authority 0 "asm-1" "human" None; MarkRunning "asm-1"; Pause "asm-1";
   Resume "asm-1"; Complete "asm-1"].

Definition demo_state : Repo := run_all demo_approved empty_repo.
Definition demo_final : Repo := run_all demo_run demo_state.

(** The run goes as expected: status after the approval and at the end. *)
Example demo_statuses :
  (status <$> assessments demo_state !! "asm-1") = Some APPROVED
  /\ (status <$> assessments demo_final !! "asm-1") = Some COMPLETED.
Proof. vm_compute. split; reflexivity. Qed.

Lemma demo_reachable : reachable (Scope:=unit) demo_state.
Proof. apply run_all_steps. vm_compute. tauto. Qed.

Lemma demo_continues : rtc (step (Scope:=unit)) demo_state demo_final.
Proof. apply run_all_steps. vm_compute. tauto. Qed.

Lemma demo_parts :
  exists a pid p qid ap, assessments demo_state !! "asm-1" = Some a /\ status a = APPROVED
    /\ active_plan_id a = Some pid /\ plans demo_state !! pid = Some p
    /\ approval_id a = Some qid /\ approvals demo_state !! qid = Some ap.
Proof.
  destruct (assessments demo_state !! "asm-1") as [a|] eqn:Ha; [|vm_compute in Ha; discriminate Ha].
  assert (Hs : status a = APPROVED).
  { pose proof (proj1 demo_statuses) as E. rewrite Ha in E. by injection E. }
  destruct (wf_bound _ (reachable_wf _ demo_reachable) _ _ Ha) as (pid & p & qid & ap & ? & ? & ? & ? & _);
    [rewrite Hs; reflexivity|].
  exists a, pid, p, qid, ap. repeat split; assumption.
Qed.

Lemma no_run_without_bound_approval_witness :
  exists a, assessments demo_state !! "asm-1" = Some a /\
  exists pid p qid ap,
    active_plan_id a = Some pid /\ plans demo_state !! pid = Some p /\ plan_assessment_id p = "asm-1"
    /\ approval_id a = Some qid /\ approvals demo_state !! qid = Some ap
    /\ approval_assessment_id ap = "asm-1" /\ approval_mode ap = mode a
    /\ approval_plan_digest ap = Canonical.canonical_digest (Plan.payload "asm-1" 1 (steps p))
    /\ Plan.plan_wf (steps p).
Proof.
  destruct demo_parts as (a & pid & p & qid & ap & Ha & Hs & _). exists a. split; [exact Ha|].
  apply (no_run_without_bound_approval _ _ _ demo_reachable Ha). rewrite Hs; reflexivity.
Defined.

Lemma approved_plan_is_frozen_witness :
  exists a', assessments demo_final !! "asm-1" = Some a' /\ past_approval (status a') = true.
Proof.
  destruct demo_parts as (a & pid & p & qid & ap & Ha & Hs & Hp & Hpl & Hq & Hap).
  destruct (approved_plan_is_frozen demo_state demo_final "asm-1" a pid qid p ap demo_reachable
              demo_continues Ha ltac:(rewrite Hs; reflexivity) Hp Hpl Hq Hap) as (a' & H & H' & _).
  exists a'. split; assumption.
Defined.

Lemma lifecycle_follows_table_witness :
  exists a', assessments demo_final !! "asm-1" = Some a'
    /\ rtc (fun s t => t ∈ Transitions.ALLOWED_TRANSITIONS s) APPROVED (status a').
Proof.
  destruct demo_parts as (a & pid & p & qid & ap & Ha & Hs & _).
  destruct (lifecycle_follows_table demo_state demo_final "asm-1" a demo_reachable demo_continues Ha)
    as (a' & H & Hr & _).
  rewrite Hs in Hr. exists a'. split; assumption.
Defined.

Lemma failed_call_changes_nothing_witness :
  exists e, run (Scope:=unit) (Pause "asm-1") demo_state = (Raise e, demo_state) /\ demo_state = demo_state.
Proof.
  destruct (run (Scope:=unit) (Pause "asm-1") demo_state) as [[u|e] r'] eqn:E.
  - exfalso. apply (f_equal (fun x => is_Ret x.1)) in E. vm_compute in E. discriminate E.
  - exists e. pose proof (failed_call_changes_nothing (Scope:=unit) _ _ _ _ E) as Hr. subst r'. split; reflexivity.
Defined.

Lemma agent_needs_a_grant_witness :
  "agent" <> "human" /\
  exists msg,
    approve demo_authority 0 "1" "asm-1" "bot" ∅ ∅ "sd" "agent" None demo_state
      = (Raise (AssessmentPermissionError msg), demo_state)
    /\ start demo_authority 0 "asm-1" "agent" None demo_state
      = (Raise (AssessmentPermissionError msg), demo_state)
    /\ reject "asm-1" "bot" "no" "agent" demo_state
      = (Raise (AssessmentPermissionError msg), demo_state).
Proof.
  assert (H : "agent" <> "human") by discriminate. split; [exact H|].
  exact (agent_needs_a_grant demo_authority 0 "1" "asm-1" "bot" ∅ ∅ "sd" "no" "agent" demo_state H).
Defined.

Lemma grant_path_is_checked_witness :
  let r := run_all demo_prefix empty_repo in
  exists ap r', approve demo_authority 0 "9" "asm-1" "bot" ∅ ∅ "sd" "agent" (Some "g1") r = (Ret ap, r')
  /\ approved_by ap = "grant:g1" /\ grant_allows demo_authority 0 "g1" "asm-1" r.
Proof.
  intros r. assert (Hr : reachable (Scope:=unit) r) by (apply run_all_steps; vm_compute; tauto).
  destruct (grant_path_is_checked demo_authority 0 "9" "asm-1" "bot" ∅ ∅ "sd" "agent" "g1" r
              (reachable_wf _ Hr)) as [Ha _].
  destruct (approve demo_authority 0 "9" "asm-1" "bot" ∅ ∅ "sd" "agent" (Some "g1") r)
    as [[ap|e] r'] eqn:E.
  - exists ap, r'. destruct (Ha ap r' eq_refl) as (H1 & H2 & _). split; [reflexivity|]. split; assumption.
  - exfalso. apply (f_equal (fun x => is_Ret x.1)) in E. vm_compute in E. discriminate E.
Defined.

Lemma control_plane_acceptance_witness :
  is_Ret (resume "asm-1" (run_all [Start demo_authority 0 "asm-1" "human" None] demo_state)).1 = true
  /\ is_Ret (mark_running "asm-1"
        (resume "asm-1" (run_all [Start demo_authority 0 "asm-1" "human" None] demo_state)).2).1 = false.
Proof.
  set (r := run_all [Start demo_authority 0 "asm-1" "human" None] demo_state).
  assert (Hr : wf r).
  { eapply steps_wf; [|exact (reachable_wf _ demo_reachable)]. apply run_all_steps. vm_compute. tauto. }
  assert (H : is_Ret (resume "asm-1" r).1 = true) by (vm_compute; reflexivity).
  split; [exact H|].
  destruct (control_plane_acceptance "asm-1" r) as (_ & _ & _ & Hm). exact (Hm Hr H).
Defined.

Lemma human_run_completes_witness :
  Plan.plan_wf Plan.demo_steps /\
  exists r' a, human_run demo_authority 0 "1" "2" "3" "proj" "scope-1" ExecutionMode.APPROVAL Plan.demo_steps
                 "ana" ∅ ∅ "sd" empty_repo = (Ret a, r') /\ status a = COMPLETED.
Proof.
  assert (Hw : Plan.plan_wf Plan.demo_steps).
  { destruct (Plan.create "p" "a" 1 Plan.demo_steps) as [p|e] eqn:E; [|vm_compute in E; discriminate E].
    by apply Plan.plan_create_Ret in E as (_ & Hw & _). }
  split; [exact Hw|].
  destruct (human_run_completes demo_authority 0 "1" "2" "3" "proj" "scope-1" ExecutionMode.APPROVAL
    Plan.demo_steps "ana" ∅ ∅ "sd" empty_repo ltac:(discriminate) ltac:(discriminate) ltac:(discriminate) Hw)
    as (r' & a & H & _ & Hs & _).
  exists r', a. split; assumption.
Defined.

End AssessmentService.
