(* ===== verification/PyDict.v ===== *)
(** * Python dictionaries with string keys

    An insertion-ordered [dict[str, A]] as the list of its items: writing an
    existing key keeps its position, a new key goes to the end.  Used where
    the program depends on iteration order. *)
From S2P Require Import Prelude.

#[local] Open Scope Z_scope.

Definition dict (A : Type) : Type := list (string * A).

Module PyDict.
Section dict.
Context {A : Type}.
Implicit Types (d : dict A) (k : string) (v : A).

(** [d.get(k)] *)
Fixpoint get k d : option A :=
  match d with
  | [] => None
  | (k', v) :: d' => if bool_decide (k' = k) then Some v else get k d'
  end.

(** [d[k] = v] *)
Fixpoint set k v d : dict A :=
  match d with
  | [] => [(k, v)]
  | (k', v') :: d' => if bool_decide (k' = k) then (k', v) :: d' else (k', v') :: set k v d'
  end.

Definition keys d : list string := d.*1.
Definition values d : list A := d.*2.

(** [d.pop(k, None)] *)
Definition remove k d : dict A := List.filter (fun kv => negb (bool_decide (kv.1 = k))) d.

Definition wf d : Prop := NoDup (keys d).

Lemma get_set_eq k v d : get k (set k v d) = Some v.
Proof.
  induction d as [|[k' v'] d IH]; cbn; [by rewrite bool_decide_true|].
  case_bool_decide as E; cbn; [by rewrite bool_decide_true|].
  by rewrite bool_decide_false.
Qed.

Lemma get_set_ne k k' v d : k <> k' -> get k' (set k v d) = get k' d.
Proof.
  intros Hne. induction d as [|[k1 v1] d IH]; cbn; [by rewrite bool_decide_false|].
  case_bool_decide as E; cbn; subst; [by rewrite !bool_decide_false|].
  by rewrite IH.
Qed.

Lemma keys_set_in k v d : k ∈ keys d -> keys (set k v d) = keys d.
Proof.
  induction d as [|[k' v'] d IH]; cbn; [by intros ?%elem_of_nil|].
  intros Hk. case_bool_decide as E; cbn; [done|]. f_equal. apply IH.
  apply elem_of_cons in Hk as [->|Hk]; done.
Qed.

Lemma keys_set_notin k v d : k ∉ keys d -> set k v d = d ++ [(k, v)].
Proof.
  induction d as [|[k' v'] d IH]; cbn; [done|]. intros Hk.
  apply not_elem_of_cons in Hk as [Hne Hk]. rewrite bool_decide_false by congruence.
  by rewrite IH.
Qed.

Lemma get_Some_keys k v d : get k d = Some v -> k ∈ keys d.
Proof.
  induction d as [|[k' v'] d IH]; cbn; [done|]. case_bool_decide as E; [subst; intros _; left|].
  intros H. right. by apply IH.
Qed.

Lemma get_None_keys k d : get k d = None <-> k ∉ keys d.
Proof.
  induction d as [|[k' v'] d IH]; cbn; [split; [intros _ ?%elem_of_nil; done|done]|].
  rewrite not_elem_of_cons. case_bool_decide as E; [naive_solver|]. rewrite IH. naive_solver.
Qed.

Lemma set_wf k v d : wf d -> wf (set k v d).
Proof.
  intros Hd. destruct (decide (k ∈ keys d)) as [Hk|Hk].
  - unfold wf. by rewrite keys_set_in.
  - rewrite keys_set_notin by done. unfold wf, keys. rewrite fmap_app. cbn.
    apply NoDup_app. split; [exact Hd|]. split; [|apply NoDup_singleton].
    by intros x Hx ->%list_elem_of_singleton.
Qed.

Lemma get_In k v d : wf d -> get k d = Some v <-> (k, v) ∈ d.
Proof.
  intros Hd. induction d as [|[k' v'] d IH]; cbn; [split; [done|by intros ?%elem_of_nil]|].
  apply NoDup_cons in Hd as [Hni Hd]. rewrite elem_of_cons. case_bool_decide as E.
  - subst. split; [intros [= ->]; by left|]. intros [[= ->]|Hin]; [done|].
    exfalso. apply Hni. apply list_elem_of_fmap. by exists (k, v).
  - rewrite IH by done. split; [by right|]. intros [[= -> ->]|Hin]; done.
Qed.

Lemma values_In v d : wf d -> v ∈ values d <-> exists k, get k d = Some v.
Proof.
  intros Hd. unfold values. rewrite list_elem_of_fmap. split.
  - intros ([k v'] & -> & Hin). exists k. by apply get_In.
  - intros [k H]. exists (k, v). split; [done|]. by apply get_In.
Qed.

(** Two dictionaries with the same keys in the same order and the same
    lookups are equal. *)
Lemma dict_eq d d' : wf d -> keys d = keys d' -> (forall k, get k d = get k d') -> d = d'.
Proof.
  revert d'; induction d as [|[k v] d IH]; intros [|[k' v'] d'] Hd Hk Hg; try discriminate Hk; [done|].
  cbn in Hk. injection Hk as -> Hk. apply NoDup_cons in Hd as [Hni Hd].
  pose proof (Hg k') as H. cbn in H. rewrite !bool_decide_true in H by done. injection H as ->.
  f_equal. apply IH; [done..|]. intros k. specialize (Hg k). cbn in Hg.
  case_bool_decide as E; [|done]. subst.
  transitivity (@None A); [by apply get_None_keys|symmetry]. apply get_None_keys.
  unfold keys in *. by rewrite <- Hk.
Qed.

Lemma set_same k v d : get k d = Some v -> set k v d = d.
Proof.
  induction d as [|[k' v'] d IH]; cbn; [done|]. case_bool_decide; [by intros [= ->]|].
  intros Hg. by rewrite IH.
Qed.

Lemma set_set k v v' d : set k v (set k v' d) = set k v d.
Proof.
  induction d as [|[k1 v1] d IH]; cbn; [by rewrite bool_decide_true|].
  case_bool_decide as E; cbn; [subst; by rewrite bool_decide_true|].
  by rewrite bool_decide_false, IH.
Qed.

(** Membership, for dictionaries that need not be well formed. *)
Lemma get_mem k v d : get k d = Some v -> (k, v) ∈ d.
Proof.
  induction d as [|[k' v'] d IH]; cbn; [done|]. case_bool_decide as E; [subst; intros [= ->]; left|].
  intros H. right. by apply IH.
Qed.

Lemma set_mem k v k' v' d : (k, v) ∈ set k' v' d -> v = v' \/ (k, v) ∈ d.
Proof.
  induction d as [|[k0 v0] d IH]; cbn.
  - intros [= -> ->]%list_elem_of_singleton. by left.
  - case_bool_decide as E; intros [[= -> ->]|H]%elem_of_cons; [by left|right; by right|right; left|].
    destruct (IH H) as [?|?]; [by left|right; by right].
Qed.

Lemma get_set k v d k' :
  get k' (set k v d) = if decide (k = k') then Some v else get k' d.
Proof. case_decide; [subst; apply get_set_eq|by apply get_set_ne]. Qed.

End dict.
End PyDict.
