(* ===== verification/Jobs.v ===== *)
(** * Jobs and leases

    Models [src/secopent/domain/jobs/models.py] and
    [src/secopent/application/jobs.py]: the job record, the in-memory job
    store with its lease protocol, and the [JobService] facade, whose methods
    delegate to the store and are the same definitions here.  Every public
    method holds the store's lock for its whole body, so a method call is one
    step of the state. *)
From S2P Require Import Prelude PyStr PyTime PyFloat Sha256 Canonical PyDict.

#[local] Open Scope Z_scope.

Module JobStatus.
Inductive t : Type :=
| PENDING | BLOCKED | READY | LEASED | RUNNING | SUCCEEDED | FAILED | SKIPPED | POLICY_DENIED.
#[export] Instance eq_dec : EqDecision t.
Proof. solve_decision. Defined.
Definition to_string (s : t) : string :=
  match s with
  | PENDING => "pending" | BLOCKED => "blocked" | READY => "ready" | LEASED => "leased"
  | RUNNING => "running" | SUCCEEDED => "succeeded" | FAILED => "failed"
  | SKIPPED => "skipped" | POLICY_DENIED => "policy_denied"
  end.
#[export] Program Instance strenum : StrEnum t :=
  { value := to_string;
    members := [PENDING; BLOCKED; READY; LEASED; RUNNING; SUCCEEDED; FAILED; SKIPPED; POLICY_DENIED] }.
Next Obligation. solve_members. Qed.
Next Obligation. solve_value_inj. Qed.
End JobStatus.
Notation JobStatus := JobStatus.t.

Module FailureClass.
Inductive t : Type :=
| INPUT_INVALID | OUT_OF_SCOPE | NOT_APPROVED | WORKER_UNAVAILABLE | TIMEOUT | PARSE_FAILED.
#[export] Instance eq_dec : EqDecision t.
Proof. solve_decision. Defined.
Definition to_string (s : t) : string :=
  match s with
  | INPUT_INVALID => "input_invalid" | OUT_OF_SCOPE => "out_of_scope"
  | NOT_APPROVED => "not_approved" | WORKER_UNAVAILABLE => "worker_unavailable"
  | TIMEOUT => "timeout" | PARSE_FAILED => "parse_failed"
  end.
#[export] Program Instance strenum : StrEnum t :=
  { value := to_string;
    members := [INPUT_INVALID; OUT_OF_SCOPE; NOT_APPROVED; WORKER_UNAVAILABLE; TIMEOUT; PARSE_FAILED] }.
Next Obligation. solve_members. Qed.
Next Obligation. solve_value_inj. Qed.
End FailureClass.
Notation FailureClass := FailureClass.t.
Export (hints) JobStatus FailureClass.

Definition RETRYABLE_FAILURES : list FailureClass :=
  [FailureClass.WORKER_UNAVAILABLE; FailureClass.TIMEOUT].
Definition POLICY_FAILURES : list FailureClass :=
  [FailureClass.OUT_OF_SCOPE; FailureClass.NOT_APPROVED].

Record Job : Type := mkJob {
  job_id : string;
  plan_step_key : string;
  idempotency_key : string;
  job_status : JobStatus;
  attempt : Z;
  max_attempts : Z;
  lease_owner : option string;
  lease_expires_at : option datetime;
  result_digest : string;
  failure_class : string;
  job_dependencies : list string;
  job_parameters : list (string * json)
}.

Module Jobs.
Import JobStatus.

(** [replace(job, ...)] for the field groups the store changes. *)
Definition with_status (st : JobStatus) (j : Job) : Job :=
  mkJob (job_id j) (plan_step_key j) (idempotency_key j) st (attempt j) (max_attempts j)
    (lease_owner j) (lease_expires_at j) (result_digest j) (failure_class j)
    (job_dependencies j) (job_parameters j).
Definition with_lease (owner : option string) (exp : option datetime) (j : Job) : Job :=
  mkJob (job_id j) (plan_step_key j) (idempotency_key j) (job_status j) (attempt j)
    (max_attempts j) owner exp (result_digest j) (failure_class j) (job_dependencies j)
    (job_parameters j).
Definition with_attempt (n : Z) (j : Job) : Job :=
  mkJob (job_id j) (plan_step_key j) (idempotency_key j) (job_status j) n
    (max_attempts j) (lease_owner j) (lease_expires_at j) (result_digest j) (failure_class j)
    (job_dependencies j) (job_parameters j).
Definition with_digest (d : string) (j : Job) : Job :=
  mkJob (job_id j) (plan_step_key j) (idempotency_key j) (job_status j) (attempt j)
    (max_attempts j) (lease_owner j) (lease_expires_at j) d (failure_class j)
    (job_dependencies j) (job_parameters j).
Definition with_failure (f : string) (j : Job) : Job :=
  mkJob (job_id j) (plan_step_key j) (idempotency_key j) (job_status j) (attempt j)
    (max_attempts j) (lease_owner j) (lease_expires_at j) (result_digest j) f
    (job_dependencies j) (job_parameters j).

(** [MemoryJobStore]: the dictionary [_jobs]; the time to live is fixed at
    construction. *)
Definition Store : Type := dict Job.

Section store.
Context (ttl : Z).

Definition get (k : string) : M Store (option Job) := gets (PyDict.get k).
Definition all : M Store (list Job) := gets PyDict.values.

Definition require (k : string) : M Store Job :=
  o ← get k; lift (unwrap o (JobNotFoundError ("job not found: " +:+ k))).

(** [_set(job_id, **changes)] *)
Definition set_job (k : string) (changes : Job -> Job) : M Store Job :=
  j ← require k;
  modify (PyDict.set k (changes j));;
  mret (changes j).

Definition add (j : Job) : M Store Job :=
  fun s => match List.find (fun e => bool_decide (idempotency_key e = idempotency_key j))
                   (PyDict.values s) with
           | Some existing => (Ret existing, s)
           | None => (Ret j, PyDict.set (job_id j) j s)
           end.

Definition mark_ready (k : string) : M Store Job := set_job k (with_status READY).

(** [status is LEASED and lease_expires_at is not None and lease_expires_at <= now] *)
Definition stale (now : datetime) (j : Job) : bool :=
  bool_decide (job_status j = LEASED)
  && match lease_expires_at j with Some e => e <=? now | None => false end.

Definition can_lease (now : datetime) (j : Job) : bool :=
  bool_decide (job_status j = READY) || stale now j.

Definition leased (owner : string) (now : datetime) (j : Job) : Job :=
  with_attempt (attempt j + 1)
    (with_lease (Some owner) (Some (now + PyTime.seconds ttl)) (with_status LEASED j)).

Definition lease (k owner : string) (now : datetime) : M Store Job :=
  j ← require k;
  lift (raise_if (negb (bool_decide (job_status j = READY)) && negb (stale now j))
          (JobLeaseError ("cannot lease job in status " +:+ value (job_status j))));;
  set_job k (leased owner now).

Definition renew (k owner : string) (now : datetime) : M Store Job :=
  j ← require k;
  lift (raise_if (negb (bool_decide (lease_owner j = Some owner)))
          (JobLeaseError "only the lease owner may renew"));;
  set_job k (fun j => with_lease (lease_owner j) (Some (now + PyTime.seconds ttl)) j).

Definition complete (k digest : string) : M Store Job :=
  set_job k (fun j => with_digest digest (with_status SUCCEEDED j)).

Definition fail (k : string) (fc : FailureClass) : M Store Job :=
  set_job k (fun j => with_failure (value fc)
    (with_status (if bool_decide (fc ∈ POLICY_FAILURES) then POLICY_DENIED else FAILED) j)).

Definition requeue (k : string) : M Store Job :=
  set_job k (fun j => with_failure "" (with_lease None None (with_status READY j))).

Definition skip (k : string) : M Store Job :=
  set_job k (fun j => with_lease None None (with_status SKIPPED j)).

Definition is_loop (j : Job) : bool := PyStr.startswith (plan_step_key j) "loop:".

(** The loop appends each leaseable job to one of two lists. *)
Fixpoint leaseable_loop (now : datetime) (l : list Job) (loop_jobs ordinary : list Job)
  : list Job :=
  match l with
  | [] => loop_jobs ++ ordinary
  | j :: js =>
      if can_lease now j
      then if is_loop j then leaseable_loop now js (loop_jobs ++ [j]) ordinary
           else leaseable_loop now js loop_jobs (ordinary ++ [j])
      else leaseable_loop now js loop_jobs ordinary
  end.

Definition leaseable (now : datetime) : M Store (list Job) :=
  gets (fun s => leaseable_loop now (PyDict.values s) [] []).

(** ** What each call does *)

Lemma require_spec k s :
  require k s = (unwrap (PyDict.get k s) (JobNotFoundError ("job not found: " +:+ k)), s).
Proof. reflexivity. Qed.

Lemma set_job_spec k f s :
  set_job k f s =
  match PyDict.get k s with
  | Some j => (Ret (f j), PyDict.set k (f j) s)
  | None => (Raise (JobNotFoundError ("job not found: " +:+ k)), s)
  end.
Proof.
  unfold set_job, require, get, gets, mbind, M_bind, lift, modify, mret, M_ret. cbn.
  by destruct (PyDict.get k s).
Qed.

Lemma lease_spec k owner now s :
  lease k owner now s =
  match PyDict.get k s with
  | Some j => if can_lease now j then (Ret (leased owner now j), PyDict.set k (leased owner now j) s)
              else (Raise (JobLeaseError ("cannot lease job in status " +:+ value (job_status j))), s)
  | None => (Raise (JobNotFoundError ("job not found: " +:+ k)), s)
  end.
Proof.
  unfold lease, mbind, M_bind. rewrite require_spec.
  destruct (PyDict.get k s) as [j|] eqn:E; cbn; [|done].
  unfold can_lease, lift. rewrite <- negb_orb.
  destruct (bool_decide (job_status j = READY) || stale now j); cbn; [|done].
  by rewrite set_job_spec, E.
Qed.

Lemma renew_spec k owner now s :
  renew k owner now s =
  match PyDict.get k s with
  | Some j =>
      if bool_decide (lease_owner j = Some owner)
      then let j' := with_lease (lease_owner j) (Some (now + PyTime.seconds ttl)) j in
           (Ret j', PyDict.set k j' s)
      else (Raise (JobLeaseError "only the lease owner may renew"), s)
  | None => (Raise (JobNotFoundError ("job not found: " +:+ k)), s)
  end.
Proof.
  unfold renew, mbind, M_bind. rewrite require_spec.
  destruct (PyDict.get k s) as [j|] eqn:E; cbn; [|done].
  unfold lift. case_bool_decide; cbn; [|done]. by rewrite set_job_spec, E.
Qed.

(** [leaseable] is the stable partition of the leaseable jobs. *)
Lemma leaseable_loop_spec now l a b :
  leaseable_loop now l a b
  = a ++ List.filter (fun j => can_lease now j && is_loop j) l
      ++ b ++ List.filter (fun j => can_lease now j && negb (is_loop j)) l.
Proof.
  revert a b; induction l as [|j l IH]; intros a b; cbn; [by rewrite !app_nil_r|].
  destruct (can_lease now j), (is_loop j); cbn; rewrite IH, <- ?(assoc_L (++)); done.
Qed.

(** ** The store as a transition system *)
Inductive op : Type :=
| Add (j : Job)
| MarkReady (k : string)
| Lease (k owner : string) (now : datetime)
| Renew (k owner : string) (now : datetime)
| Complete (k digest : string)
| Fail (k : string) (fc : FailureClass)
| Requeue (k : string)
| Skip (k : string).

Definition run (o : op) : M Store Job :=
  match o with
  | Add j => add j
  | MarkReady k => mark_ready k
  | Lease k w n => lease k w n
  | Renew k w n => renew k w n
  | Complete k d => complete k d
  | Fail k c => fail k c
  | Requeue k => requeue k
  | Skip k => skip k
  end.

Fixpoint run_all (ops : list op) (s : Store) : Store :=
  match ops with
  | [] => s
  | o :: os => run_all os (run o s).2
  end.

(** Any call leaves the store alone, rewrites one job in place, or adds the
    job it was given. *)
Lemma run_cases o s :
  (run o s).2 = s
  \/ (exists k j j', PyDict.get k s = Some j /\ (run o s) = (Ret j', PyDict.set k j' s)
        /\ idempotency_key j' = idempotency_key j /\ job_id j' = job_id j
        /\ plan_step_key j' = plan_step_key j /\ job_dependencies j' = job_dependencies j)
  \/ exists j, o = Add j /\ run o s = (Ret j, PyDict.set (job_id j) j s)
        /\ Forall (fun e => idempotency_key e <> idempotency_key j) (PyDict.values s).
Proof.
  assert (Hset : forall k f, (forall j, idempotency_key (f j) = idempotency_key j
      /\ job_id (f j) = job_id j /\ plan_step_key (f j) = plan_step_key j
      /\ job_dependencies (f j) = job_dependencies j) ->
    (set_job k f s).2 = s \/ exists k0 j j', PyDict.get k0 s = Some j
      /\ set_job k f s = (Ret j', PyDict.set k0 j' s)
      /\ idempotency_key j' = idempotency_key j /\ job_id j' = job_id j
      /\ plan_step_key j' = plan_step_key j /\ job_dependencies j' = job_dependencies j).
  { intros k f Hf. rewrite set_job_spec. destruct (PyDict.get k s) as [j|] eqn:E; [right|by left].
    exists k, j, (f j). split_and!; try done; apply Hf. }
  assert (Hset3 : forall (P Q R : Prop), P \/ Q -> P \/ Q \/ R) by tauto.
  destruct o; cbn [run]; try (apply Hset3, Hset; intros ?; done).
  - unfold add. destruct (List.find _ _) as [e|] eqn:E; [by left|]. right; right.
    exists j. split; [done|]. split; [done|]. apply Forall_forall. intros e He.
    apply list_elem_of_In in He. eapply List.find_none in E; [|exact He]. by breflect.
  - rewrite lease_spec. destruct (PyDict.get k s) as [j|] eqn:E; [|by left].
    destruct (can_lease now j); [|by left]. right; left. by exists k, j, (leased owner now j).
  - rewrite renew_spec. destruct (PyDict.get k s) as [j|] eqn:E; [|by left].
    case_bool_decide; [|by left]. right; left. do 3 eexists. split; [exact E|]. by split.
Qed.

(** ** Invariant: the store is indexed by job id, and no two jobs share an
    idempotency key. *)
Record wf (s : Store) : Prop := {
  wf_dict : PyDict.wf s;
  wf_ids : forall k j, PyDict.get k s = Some j -> job_id j = k;
  wf_idem : forall k k' j j', PyDict.get k s = Some j -> PyDict.get k' s = Some j' ->
    idempotency_key j = idempotency_key j' -> k = k'
}.

Lemma run_wf o s : wf s -> wf (run o s).2.
Proof.
  intros [Hd Hi Hu]. destruct (run_cases o s) as [->|[(k&j&j'&Hg&->&Hk&Hid&_)|(j&->&->&Hall)]]; [done|..]; cbn.
  - split; [by apply PyDict.set_wf|..].
    + intros k0 j0. rewrite PyDict.get_set. case_decide as E; [|by apply Hi].
      intros [= <-]. subst. rewrite Hid. by apply Hi.
    + intros k1 k2 j1 j2. rewrite !PyDict.get_set.
      do 2 case_decide; intros ? ? E; simplify_eq; eauto; [|];
        [rewrite Hk in E|rewrite Hk in E]; eauto.
  - rewrite Forall_forall in Hall. setoid_rewrite PyDict.values_In in Hall; [|done].
    split; [by apply PyDict.set_wf|..].
    + intros k0 j0. rewrite PyDict.get_set. case_decide; [naive_solver|apply Hi].
    + intros k1 k2 j1 j2. rewrite !PyDict.get_set.
      do 2 case_decide; intros ? ? E; simplify_eq; eauto;
        exfalso; eapply Hall; eauto.
Qed.

Lemma run_all_wf ops s : wf s -> wf (run_all ops s).
Proof. revert s; induction ops as [|o os IH]; intros s Hs; cbn; [done|]. by apply IH, run_wf. Qed.

Lemma jobs_wf_empty : wf [].
Proof. split; [apply NoDup_nil_2|done..]. Qed.

(** ** Lease exclusivity *)

(** The calls that give job [k] back: they make it READY, or put another job
    under its key. *)
Definition gives_back (k : string) (o : op) : bool :=
  match o with
  | MarkReady k' | Requeue k' => bool_decide (k' = k)
  | Add j => bool_decide (job_id j = k)
  | _ => false
  end.

(** The time a call carries. *)
Definition op_time (o : op) : option datetime :=
  match o with
  | Lease _ _ n | Renew _ _ n => Some n
  | _ => None
  end.

(** Job [k] cannot be leased before time [T]. *)
Definition held (k : string) (T : datetime) (s : Store) : Prop :=
  exists j, PyDict.get k s = Some j /\ job_status j <> READY
    /\ (job_status j = LEASED -> exists e, lease_expires_at j = Some e /\ T <= e).

Lemma held_set k T k' j' s :
  held k T s ->
  (k' = k -> job_status j' <> READY
     /\ (job_status j' = LEASED -> exists e, lease_expires_at j' = Some e /\ T <= e)) ->
  held k T (PyDict.set k' j' s).
Proof.
  intros (j & Hg & Hr & Hl) H. unfold held. rewrite PyDict.get_set. case_decide as E.
  - exists j'. split; [done|]. by apply H.
  - by exists j.
Qed.

Lemma held_run k T t0 o s :
  0 <= ttl -> T = t0 + PyTime.seconds ttl -> gives_back k o = false ->
  (forall n, op_time o = Some n -> t0 <= n) ->
  held k T s -> held k T (run o s).2.
Proof.
  intros Httl -> Hgb Htime Hh.
  assert (Hset : forall k' f, (k' = k -> forall j, job_status (f j) <> READY
      /\ (job_status j <> READY -> job_status (f j) = LEASED -> job_status j = LEASED
           /\ lease_expires_at (f j) = lease_expires_at j)) ->
      held k (t0 + PyTime.seconds ttl) (set_job k' f s).2).
  { intros k' f Hf. rewrite set_job_spec. destruct (PyDict.get k' s) as [j|] eqn:E; [|exact Hh].
    apply held_set; [exact Hh|]. intros ->. destruct (Hf eq_refl j) as [H1 H2]. split; [exact H1|].
    destruct Hh as (j0 & Hg & Hr & Hl). simplify_eq. intros Hs.
    destruct (H2 Hr Hs) as [Hj ->]. by apply Hl. }
  destruct o as [j|k'|k' w n|k' w n|k' d|k' fc|k'|k']; cbn [run gives_back op_time] in *.
  - unfold add. destruct (List.find _ _); [exact Hh|]. apply held_set; [exact Hh|].
    intros E. by rewrite bool_decide_true in Hgb.
  - apply Hset. intros E. by rewrite bool_decide_true in Hgb.
  - rewrite lease_spec. destruct (PyDict.get k' s) as [j|]; [|exact Hh].
    destruct (can_lease n j); [|exact Hh]. apply held_set; [exact Hh|]. intros _.
    split; [done|]. intros _. exists (n + PyTime.seconds ttl). split; [done|].
    specialize (Htime n eq_refl). lia.
  - rewrite renew_spec. destruct (PyDict.get k' s) as [j|] eqn:E; [|exact Hh].
    case_bool_decide; [|exact Hh]. apply held_set; [exact Hh|]. intros ->.
    destruct Hh as (j0 & Hg & Hr & Hl). simplify_eq. split; [done|]. cbn. intros _.
    eexists. split; [done|]. specialize (Htime n eq_refl). lia.
  - apply Hset. by intros.
  - apply Hset. intros _ j. case_bool_decide; done.
  - apply Hset. intros E. by rewrite bool_decide_true in Hgb.
  - apply Hset. by intros.
Qed.

Lemma held_not_leaseable k T owner now s j s' :
  held k T s -> lease k owner now s = (Ret j, s') -> T <= now.
Proof.
  intros (j0 & Hg & Hr & Hl). rewrite lease_spec, Hg.
  unfold can_lease, stale. rewrite bool_decide_false by done. cbn.
  case_bool_decide as E; cbn; [|done]. destruct (Hl E) as (e & -> & He).
  destruct (e <=? now) eqn:En; [|done]. intros _. lia.
Qed.

(** no double lease. Once [k] is leased at [t1], then whatever calls
    other workers make (at times not before [t1], in any order, on any jobs),
    as long as nobody gives the job back (requeue, mark ready, re-add), a
    second lease of [k] can only succeed when the first one has expired:
    not before [t1 + ttl]. *)
Theorem lease_is_exclusive k w1 t1 j1 s s1 ops w2 t2 j2 s2 :
  0 <= ttl ->
  lease k w1 t1 s = (Ret j1, s1) ->
  Forall (fun o => gives_back k o = false /\ forall n, op_time o = Some n -> t1 <= n) ops ->
  lease k w2 t2 (run_all ops s1) = (Ret j2, s2) ->
  t1 + PyTime.seconds ttl <= t2.
Proof.
  intros Httl H1 Hops H2.
  assert (Hh : held k (t1 + PyTime.seconds ttl) s1).
  { revert H1. rewrite lease_spec. destruct (PyDict.get k s) as [j|]; [|done].
    destruct (can_lease t1 j); intros [= <- <-]. exists (leased w1 t1 j).
    rewrite PyDict.get_set_eq. split_and!; [done..|]. intros _. by eexists. }
  clear H1. revert s1 Hh H2. induction Hops as [|o ops [Hg Ht] _ IH]; intros s1 Hh H2; cbn in H2.
  - by eapply held_not_leaseable.
  - eapply IH; [|exact H2]. by eapply held_run.
Qed.

(** The lease table. [lease] succeeds exactly on a stored job that is
    READY or whose lease has expired; it then stamps the owner and the expiry
    and counts the attempt, changing nothing else and no other job; on any
    other job it raises the lease error, on a missing one the not-found
    error, and the store is unchanged. [renew] succeeds exactly for the
    current owner. *)
Theorem lease_and_renew_table k w now s :
  (PyDict.get k s = None -> exists msg, lease k w now s = (Raise (JobNotFoundError msg), s))
  /\ (forall j, PyDict.get k s = Some j ->
       let free := job_status j = READY
           \/ (job_status j = LEASED /\ exists e, lease_expires_at j = Some e /\ e <= now) in
       let j' := mkJob (job_id j) (plan_step_key j) (idempotency_key j) LEASED (attempt j + 1)
                   (max_attempts j) (Some w) (Some (now + PyTime.seconds ttl))
                   (result_digest j) (failure_class j) (job_dependencies j) (job_parameters j) in
       (free -> lease k w now s = (Ret j', PyDict.set k j' s))
       /\ (~ free -> exists msg, lease k w now s = (Raise (JobLeaseError msg), s)))
  /\ (is_Ret (renew k w now s).1 = true
       <-> exists j, PyDict.get k s = Some j /\ lease_owner j = Some w)
  /\ (is_Ret (renew k w now s).1 = false -> (renew k w now s).2 = s).
Proof.
  split_and!.
  - intros E. rewrite lease_spec, E. by eexists.
  - intros j E free j'. rewrite lease_spec, E.
    assert (Hf : can_lease now j = true <-> free).
    { unfold can_lease, stale, free. rewrite orb_true_iff, andb_true_iff, !bool_decide_eq_true.
      destruct (lease_expires_at j); [rewrite Z.leb_le|]; naive_solver. }
    rewrite <- Hf. destruct (can_lease now j); split; intros H; try done. by eexists.
  - rewrite renew_spec. destruct (PyDict.get k s) as [j|]; cbn; [|naive_solver].
    case_bool_decide; cbn; naive_solver.
  - rewrite renew_spec. destruct (PyDict.get k s) as [j|]; cbn; [|done].
    case_bool_decide; done.
Qed.

Lemma store_ids s : wf s -> PyDict.keys s = job_id <$> PyDict.values s.
Proof.
  intros Hwf. unfold PyDict.keys, PyDict.values. rewrite <- list_fmap_compose.
  apply list_fmap_ext. intros i [k j] Hi. cbn. symmetry.
  apply (wf_ids _ Hwf). apply PyDict.get_In; [apply Hwf|]. by apply list_elem_of_lookup_2 in Hi.
Qed.

Lemma values_ids_nodup s : wf s -> NoDup (job_id <$> PyDict.values s).
Proof. intros Hwf. rewrite <- store_ids by done. apply Hwf. Qed.

Lemma filter_sublist (R : Job -> bool) l : List.filter R l `sublist_of` l.
Proof. induction l as [|x xs IH]; cbn; [constructor|]. destruct (R x); by constructor. Qed.

Lemma elem_of_filter_bool (R : Job -> bool) l j : j ∈ List.filter R l <-> j ∈ l /\ R j = true.
Proof. by rewrite !list_elem_of_In, List.filter_In. Qed.

Lemma leaseable_elem now s j :
  j ∈ leaseable_loop now (PyDict.values s) [] [] <-> j ∈ PyDict.values s /\ can_lease now j = true.
Proof.
  rewrite leaseable_loop_spec. cbn. rewrite elem_of_app, !elem_of_filter_bool, !andb_true_iff.
  destruct (is_loop j); cbn; naive_solver.
Qed.

Lemma leaseable_nodup now s :
  wf s -> NoDup (job_id <$> leaseable_loop now (PyDict.values s) [] []).
Proof.
  intros Hwf. rewrite leaseable_loop_spec. cbn.
  assert (Hsub : forall R : Job -> bool, NoDup (job_id <$> List.filter R (PyDict.values s))).
  { intros R. eapply sublist_NoDup; [by apply values_ids_nodup|]. apply fmap_sublist, filter_sublist. }
  rewrite fmap_app. apply NoDup_app. split_and!; [apply Hsub| |apply Hsub].
  intros k (j & -> & [Hj1 Hj2]%elem_of_filter_bool)%list_elem_of_fmap
    (j' & E & [Hj1' Hj2']%elem_of_filter_bool)%list_elem_of_fmap.
  assert (j = j') as ->.
  { apply PyDict.values_In in Hj1 as [k1 H1], Hj1' as [k2 H2]; [|apply Hwf..].
    rewrite <- (wf_ids _ Hwf _ _ H1), E, (wf_ids _ Hwf _ _ H2) in H1. congruence. }
  apply andb_true_iff in Hj2 as [_ Hj2], Hj2' as [_ Hj2']. by rewrite Hj2 in Hj2'.
Qed.

(** The scan for work is exact. In a well-formed store [leaseable] lists
    exactly the jobs a lease would be granted for at that time, each once;
    the reasoning-loop jobs come first and within each group the store's
    order is kept. *)
Theorem leaseable_is_exact now s l w :
  wf s -> (leaseable now s).1 = Ret l ->
  NoDup l
  /\ (forall j, j ∈ l <-> PyDict.get (job_id j) s = Some j
                        /\ is_Ret (lease (job_id j) w now s).1 = true)
  /\ exists loop_jobs ordinary, l = loop_jobs ++ ordinary
     /\ Forall (fun j => is_loop j = true) loop_jobs /\ Forall (fun j => is_loop j = false) ordinary
     /\ loop_jobs `sublist_of` PyDict.values s /\ ordinary `sublist_of` PyDict.values s.
Proof.
  intros Hwf [= <-]. split_and!.
  - apply (NoDup_fmap_1 job_id). by apply leaseable_nodup.
  - intros j. rewrite leaseable_elem, PyDict.values_In by apply Hwf. rewrite lease_spec. split.
    + intros [[k Hk] Hc]. rewrite (wf_ids _ Hwf _ _ Hk), Hk, Hc. done.
    + intros [Hg Hl]. rewrite Hg in Hl. destruct (can_lease now j); [|done]. split; [by eexists|done].
  - rewrite leaseable_loop_spec. cbn. eexists _, _. split; [reflexivity|].
    split_and!; try apply filter_sublist; apply Forall_forall;
      intros j [_ [_ H]%andb_true_iff]%elem_of_filter_bool; [done|by apply negb_true_iff].
Qed.

(** Adding is idempotent. Adding a job whose idempotency key is already
    stored returns the stored job and changes nothing, whatever calls were
    made in between (short of giving the job back or adding over its id), and
    over any calls the store stays indexed by id with one job per idempotency
    key. *)
Theorem add_is_idempotent j s s1 j1 ops :
  wf s -> add j s = (Ret j1, s1) -> Forall (fun o => gives_back (job_id j1) o = false) ops ->
  wf (run_all ops s1)
  /\ exists j2, add j (run_all ops s1) = (Ret j2, run_all ops s1)
       /\ job_id j2 = job_id j1 /\ idempotency_key j2 = idempotency_key j.
Proof.
  intros Hwf Ha Hops.
  assert (Hwf1 : wf s1) by (pose proof (run_wf (Add j) s Hwf) as H; cbn in H; by rewrite Ha in H).
  split; [by apply run_all_wf|].
  assert (H1 : exists j', PyDict.get (job_id j1) s1 = Some j' /\ idempotency_key j' = idempotency_key j).
  { unfold add in Ha. destruct (List.find _ _) as [e|] eqn:E; injection Ha as <- <-.
    - apply List.find_some in E as [Hin Hk]. breflect.
      apply list_elem_of_In, PyDict.values_In in Hin as [k Hk']; [|apply Hwf].
      rewrite (wf_ids _ Hwf _ _ Hk'). by eexists.
    - rewrite PyDict.get_set_eq. by eexists. }
  clear Ha. revert s1 Hwf1 H1. induction Hops as [|o ops Ho _ IH]; intros s1 Hwf1 (j' & Hg & Hk); cbn.
  - unfold add. destruct (List.find _ _) as [e|] eqn:E.
    + exists e. apply List.find_some in E as [Hin Hke]. breflect. split_and!; [done| |done].
      apply list_elem_of_In, PyDict.values_In in Hin as [k Hk']; [|apply Hwf1].
      rewrite (wf_ids _ Hwf1 _ _ Hk'). apply (wf_idem _ Hwf1 _ _ _ _ Hk' Hg). congruence.
    + exfalso. eapply List.find_none in E; [|apply list_elem_of_In, PyDict.values_In; [apply Hwf1|by eexists]].
      by breflect.
  - apply IH; [by apply run_wf|].
    destruct (run_cases o s1) as [->|[(k&j0&j0'&Hg0&->&Hk0&_)|(j0&->&->&Hall)]]; cbn; [by eexists|..].
    + rewrite PyDict.get_set. case_decide; [|by eexists]. subst. eexists. split; [done|]. congruence.
    + cbn in Ho. breflect. rewrite PyDict.get_set_ne by done. by eexists.
Qed.

End store.

(** ** Concrete runs *)
Definition demo_job (k : string) (st : JobStatus) : Job :=
  mkJob ("job:" +:+ k) k ("d:" +:+ k) st 0 3 None None "" "" [] [].

Definition demo_store : Store :=
  run_all 300 [Add (demo_job "recon" READY); Add (demo_job "loop:1" READY); Add (demo_job "x" BLOCKED)] [].

Lemma demo_store_wf : wf demo_store.
Proof. apply run_all_wf, jobs_wf_empty. Qed.

Lemma lease_is_exclusive_witness :
  exists j1 s1 j2 s2, lease 300 "job:recon" "a" 0 demo_store = (Ret j1, s1)
    /\ lease 300 "job:recon" "b" 300000000 (run_all 300 [Lease "job:loop:1" "b" 5] s1) = (Ret j2, s2)
    /\ 0 + PyTime.seconds 300 <= 300000000.
Proof.
  do 4 eexists. split; [vm_compute; reflexivity|]. split; [vm_compute; reflexivity|].
  eapply (lease_is_exclusive 300 "job:recon" "a" 0 _ demo_store _ [Lease "job:loop:1" "b" 5] "b" 300000000).
  - discriminate.
  - vm_compute; reflexivity.
  - repeat constructor. intros n [= <-]. discriminate.
  - vm_compute; reflexivity.
Defined.

Lemma lease_and_renew_table_witness :
  exists msg, lease 300 "job:x" "a" 0 demo_store = (Raise (JobLeaseError msg), demo_store).
Proof.
  destruct (lease_and_renew_table 300 "job:x" "a" 0 demo_store) as (_ & H & _).
  apply (H (demo_job "x" BLOCKED)); [reflexivity|]. intros [E|[E _]]; discriminate E.
Defined.

Lemma leaseable_is_exact_witness :
  exists l, (leaseable 0 demo_store).1 = Ret l /\ NoDup l /\ l = [demo_job "loop:1" READY; demo_job "recon" READY].
Proof.
  eexists. split; [reflexivity|]. split; [|vm_compute; reflexivity].
  refine (proj1 (leaseable_is_exact 300 0 demo_store _ "a" demo_store_wf _)). reflexivity.
Defined.

Lemma add_is_idempotent_witness :
  exists j2, add (demo_job "recon" READY) (run_all 300 [Lease "job:recon" "a" 0; Complete "job:recon" "r"] demo_store)
    = (Ret j2, run_all 300 [Lease "job:recon" "a" 0; Complete "job:recon" "r"] demo_store)
    /\ job_id j2 = "job:recon".
Proof.
  destruct (add_is_idempotent 300 (demo_job "recon" READY) demo_store demo_store (demo_job "recon" READY)
              [Lease "job:recon" "a" 0; Complete "job:recon" "r"] demo_store_wf ltac:(vm_compute; reflexivity)
              ltac:(repeat constructor)) as (_ & j2 & H & Hid & _).
  exists j2. split; [exact H|exact Hid].
Defined.

End Jobs.

(** ** The facade

    [JobService] over the in-memory store it builds by default: every method
    delegates; [get] raises on a missing job. *)
Module JobService.
Definition add : Job -> M Jobs.Store Job := Jobs.add.
Definition get (k : string) : M Jobs.Store Job :=
  o ← Jobs.get k; lift (unwrap o (JobNotFoundError ("job not found: " +:+ k))).
Definition all : M Jobs.Store (list Job) := Jobs.all.
Definition mark_ready : string -> M Jobs.Store Job := Jobs.mark_ready.
Definition lease (ttl : Z) : string -> string -> datetime -> M Jobs.Store Job := Jobs.lease ttl.
Definition renew (ttl : Z) : string -> string -> datetime -> M Jobs.Store Job := Jobs.renew ttl.
Definition complete : string -> string -> M Jobs.Store Job := Jobs.complete.
Definition fail : string -> FailureClass -> M Jobs.Store Job := Jobs.fail.
Definition requeue : string -> M Jobs.Store Job := Jobs.requeue.
Definition skip : string -> M Jobs.Store Job := Jobs.skip.
Definition leaseable : datetime -> M Jobs.Store (list Job) := Jobs.leaseable.
End JobService.
