(* ===== verification/JsonText.v ===== *)
(** * JSON text

    [json.dumps] with its default separators ([ensure_ascii=False]) and
    [json.loads], which the program uses to keep records in files and secret
    backends and to read what other systems send.  [loads] answers [None]
    where Python raises [JSONDecodeError]; a float is kept as written (a
    literal that is not the shortest text of its double would be re-rendered
    by Python, and one that [PyFloat.overflows] be an infinity: its users ask
    where that matters), and NaN and the infinities, which have no value in [json], are
    refused.  [loads_dumps] is the round trip. *)
From S2P Require Import Prelude PyStr PyTime PyFloat Sha256 Canonical PyJson PyText PyDict.

#[local] Open Scope Z_scope.

Module JsonText.

(** ** Printing *)

Fixpoint dumps (v : json) : string :=
  match v with
  | JNull => "null"
  | JBool true => "true"
  | JBool false => "false"
  | JInt z => pretty z
  | JFloat f => PyFloat.text f
  | JStr s => Canonical.quote s
  | JArr [] => "[]"
  | JArr (x :: xs) =>
      "[" +:+ dumps x +:+
      (fix go l := match l with
                   | [] => "]"
                   | y :: ys => ", " +:+ dumps y +:+ go ys
                   end) xs
  | JObj [] => "{}"
  | JObj ((k, x) :: xs) =>
      "{" +:+ Canonical.quote k +:+ ": " +:+ dumps x +:+
      (fix go l := match l with
                   | [] => "}"
                   | (k', y) :: ys => ", " +:+ Canonical.quote k' +:+ ": " +:+ dumps y +:+ go ys
                   end) xs
  end.

(** ** Reading *)

Definition is_ws (c : ascii) : bool :=
  Ascii.eqb c " " || Ascii.eqb c "010" || Ascii.eqb c "009" || Ascii.eqb c "013".

Definition skip_ws : string -> string := PyStr.lstrip_by is_ws.

Definition hex_digit_val (c : ascii) : option Z :=
  let n := Z.of_N (N_of_ascii c) in
  if (48 <=? n) && (n <=? 57) then Some (n - 48)
  else if (97 <=? n) && (n <=? 102) then Some (n - 87)
  else if (65 <=? n) && (n <=? 70) then Some (n - 55)
  else None.

Definition hex4 (a b c d : ascii) : option Z :=
  a ← hex_digit_val a; b ← hex_digit_val b; c ← hex_digit_val c; d ← hex_digit_val d;
  Some (a * 4096 + b * 256 + c * 16 + d).

Definition byte (n : Z) : ascii := ascii_of_N (Z.to_N n).

(** The UTF-8 bytes of a code point. *)
Definition utf8 (n : Z) : string :=
  if n <? 128 then String (byte n) ""
  else if n <? 2048 then String (byte (192 + n / 64)) (String (byte (128 + n mod 64)) "")
  else if n <? 65536
  then String (byte (224 + n / 4096))
         (String (byte (128 + n / 64 mod 64)) (String (byte (128 + n mod 64)) ""))
  else String (byte (240 + n / 262144))
         (String (byte (128 + n / 4096 mod 64))
            (String (byte (128 + n / 64 mod 64)) (String (byte (128 + n mod 64)) ""))).

(** The one-letter escapes. *)
Definition escaped (c : ascii) : option ascii :=
  if Ascii.eqb c "034" then Some c
  else if Ascii.eqb c "\" then Some c
  else if Ascii.eqb c "/" then Some c
  else if Ascii.eqb c "b" then Some "008"%char
  else if Ascii.eqb c "f" then Some "012"%char
  else if Ascii.eqb c "n" then Some "010"%char
  else if Ascii.eqb c "r" then Some "013"%char
  else if Ascii.eqb c "t" then Some "009"%char
  else None.

Definition prepend (p : string) (x : option (string * string)) : option (string * string) :=
  '(t, r) ← x; Some (p +:+ t, r).

(** A string after its opening quote: its text, and what follows the closing
    quote.  A high surrogate joins the low one that follows it. *)
Fixpoint string_body (s : string) : option (string * string) :=
  match s with
  | EmptyString => None
  | String c r =>
      if Ascii.eqb c "034" then Some ("", r)
      else if Ascii.eqb c "\" then
        match r with
        | EmptyString => None
        | String e r' =>
            if Ascii.eqb e "u" then
              match r' with
              | String h1 (String h2 (String h3 (String h4 r2))) =>
                  match hex4 h1 h2 h3 h4 with
                  | None => None
                  | Some u =>
                      let alone := prepend (utf8 u) (string_body r2) in
                      if (55296 <=? u) && (u <=? 56319) then
                        match r2 with
                        | String "\" (String "u" (String g1 (String g2 (String g3 (String g4 r3))))) =>
                            match hex4 g1 g2 g3 g4 with
                            | None => None
                            | Some w =>
                                if (56320 <=? w) && (w <=? 57343)
                                then prepend (utf8 (65536 + (u - 55296) * 1024 + (w - 56320)))
                                       (string_body r3)
                                else alone
                            end
                        | _ => alone
                        end
                      else alone
                  end
              | _ => None
              end
            else match escaped e with
                 | Some x => prepend (String x "") (string_body r')
                 | None => None
                 end
        end
      else if Z.of_N (N_of_ascii c) <? 32 then None
      else prepend (String c "") (string_body r)
  end.

(** The longest prefix of characters numbers are made of. *)
Definition is_num_char (c : ascii) : bool := PyFloat.is_num_char c || Ascii.eqb c "E".

Fixpoint num_token (s : string) : string * string :=
  match s with
  | String c r => if is_num_char c then let '(t, r') := num_token r in (String c t, r') else ("", s)
  | EmptyString => ("", "")
  end.

(** A zero, or digits that do not start with one. *)
Definition unsigned_int (s : string) : bool :=
  PyText.digits s && (negb (PyStr.startswith s "0") || bool_decide (s = "0")).

Definition int_text (s : string) : option Z :=
  match s with
  | String c r =>
      if Ascii.eqb c "-" then if unsigned_int r then Some (- PyStr.digits_val 0 r) else None
      else if unsigned_int s then Some (PyStr.digits_val 0 s) else None
  | EmptyString => None
  end.

(** The integer part of a float: what precedes the point or the exponent. *)
Definition int_part (s : string) : string :=
  fst (fst (PyStr.partition "." (fst (fst (PyStr.partition "e" s))))).

Definition number (t : string) : option json :=
  match int_text t with
  | Some z => Some (JInt z)
  | None =>
      let t := PyStr.lower t in
      match decide (PyFloat.lit_wf t = true) with
      | left H => if bool_decide (is_Some (int_text (int_part t)))
                  then Some (JFloat (PyFloat.mkLit t H)) else None
      | right _ => None
      end
  end.

Definition word (w : string) (v : json) (s : string) : option (json * string) :=
  if PyStr.startswith s w then Some (v, PyStr.drop (String.length w) s) else None.

(** [dict(pairs)]: a repeated key keeps its place and takes the last value. *)
Definition dict_of (l : list (string * json)) : list (string * json) :=
  foldl (fun d kv => PyDict.set kv.1 kv.2 d) [] l.

Fixpoint parse (fuel : nat) (s : string) {struct fuel} : option (json * string) :=
  match fuel with
  | O => None
  | S n =>
      match s with
      | EmptyString => None
      | String c r =>
          if Ascii.eqb c "034" then '(t, r') ← string_body r; Some (JStr t, r')
          else if Ascii.eqb c "[" then
            let r := skip_ws r in
            match r with
            | String "]" r' => Some (JArr [], r')
            | _ => '(l, r') ← elements n r; Some (JArr l, r')
            end
          else if Ascii.eqb c "{" then
            let r := skip_ws r in
            match r with
            | String "}" r' => Some (JObj [], r')
            | _ => '(l, r') ← pairs n r; Some (JObj (dict_of l), r')
            end
          else if Ascii.eqb c "n" then word "null" JNull s
          else if Ascii.eqb c "t" then word "true" (JBool true) s
          else if Ascii.eqb c "f" then word "false" (JBool false) s
          else let '(t, r') := num_token s in v ← number t; Some (v, r')
      end
  end
with elements (fuel : nat) (s : string) {struct fuel} : option (list json * string) :=
  match fuel with
  | O => None
  | S n =>
      '(v, r) ← parse n s;
      match skip_ws r with
      | String "," r' => '(l, r2) ← elements n (skip_ws r'); Some (v :: l, r2)
      | String "]" r' => Some ([v], r')
      | _ => None
      end
  end
with pairs (fuel : nat) (s : string) {struct fuel} : option (list (string * json) * string) :=
  match fuel with
  | O => None
  | S n =>
      match s with
      | String "034" r =>
          '(k, r1) ← string_body r;
          match skip_ws r1 with
          | String ":" r2 =>
              '(v, r3) ← parse n (skip_ws r2);
              match skip_ws r3 with
              | String "," r4 => '(l, r5) ← pairs n (skip_ws r4); Some ((k, v) :: l, r5)
              | String "}" r4 => Some ([(k, v)], r4)
              | _ => None
              end
          | _ => None
          end
      | _ => None
      end
  end.

(** [json.loads(text)] *)
Definition loads (s : string) : option json :=
  '(v, r) ← parse (S (String.length s)) (skip_ws s);
  if PyStr.is_empty (skip_ws r) then Some v else None.

(** [doc[key]] where the program expects a text.  (Python would go on with a
    value of another type; here it is a type error.) *)
Definition text_field (k : string) (d : json) : outcome string :=
  match d with
  | JObj l =>
      v ← unwrap (field k l) (KeyError k);
      match v with JStr s => Ret s | _ => Raise (TypeError (k +:+ " is not a text")) end
  | v => Raise (TypeError ("'" +:+ type_name v +:+ "' object is not subscriptable by text"))
  end.

(** [v == w]: numbers by value ([True == 1 == 1.0]), dicts whatever their
    order. *)
Definition num_of (v : json) : option (Z * Z) :=
  match v with
  | JBool b => Some (if b then 1 else 0, 0)
  | JInt z => Some (z, 0)
  | JFloat f => Some (PyFloat.decimal f)
  | _ => None
  end.

Definition num_eq (v w : json) : bool :=
  match num_of v, num_of w with
  | Some a, Some b => PyFloat.dec_leb a b && PyFloat.dec_leb b a
  | _, _ => false
  end.

Fixpoint py_eq (v w : json) : bool :=
  match v, w with
  | JNull, JNull => true
  | JStr s, JStr t => String.eqb s t
  | JArr l, JArr m =>
      (fix go l m := match l, m with
                     | [], [] => true
                     | x :: l, y :: m => py_eq x y && go l m
                     | _, _ => false
                     end) l m
  | JObj l, JObj m =>
      Nat.eqb (length l) (length m)
      && (fix go l := match l with
                      | [] => true
                      | (k, x) :: l =>
                          match field k m with Some y => py_eq x y | None => false end && go l
                      end) l
  | _, _ => num_eq v w
  end.

(** ** The round trip *)

Fixpoint arr_tail (l : list json) : string :=
  match l with
  | [] => "]"
  | y :: ys => ", " +:+ dumps y +:+ arr_tail ys
  end.

Fixpoint obj_tail (l : list (string * json)) : string :=
  match l with
  | [] => "}"
  | (k, y) :: ys => ", " +:+ Canonical.quote k +:+ ": " +:+ dumps y +:+ obj_tail ys
  end.

Lemma dumps_arr x xs : dumps (JArr (x :: xs)) = "[" +:+ dumps x +:+ arr_tail xs.
Proof. reflexivity. Qed.

Lemma dumps_obj k x xs :
  dumps (JObj ((k, x) :: xs)) = "{" +:+ Canonical.quote k +:+ ": " +:+ dumps x +:+ obj_tail xs.
Proof. reflexivity. Qed.

(** The documents a dict and float values can be: keys are distinct, and a
    float's text is one JSON can read. *)
Fixpoint jwf (v : json) : Prop :=
  match v with
  | JFloat f => number (PyFloat.text f) = Some (JFloat f)
  | JArr l => (fix go l := match l with [] => True | x :: xs => jwf x /\ go xs end) l
  | JObj l => NoDup l.*1
      /\ (fix go l := match l with [] => True | kv :: xs => jwf kv.2 /\ go xs end) l
  | _ => True
  end.

Lemma jwf_arr l : jwf (JArr l) -> Forall jwf l.
Proof. induction l as [|x l IH]; cbn; [by constructor|]. intros [? ?]. constructor; [done|]. by apply IH. Qed.

Lemma jwf_obj l : jwf (JObj l) -> NoDup l.*1 /\ Forall (fun kv => jwf kv.2) l.
Proof.
  cbn. intros [Hn H]. split; [done|]. clear Hn. revert H.
  induction l as [|x l IH]; [by constructor|]. intros [? ?]. constructor; [done|]. by apply IH.
Qed.

Lemma dict_of_nodup l : NoDup l.*1 -> dict_of l = l.
Proof.
  intros Hn. unfold dict_of.
  enough (forall d, NoDup (d ++ l).*1 -> foldl (fun d kv => PyDict.set kv.1 kv.2 d) d l = d ++ l) as H
    by exact (H [] Hn).
  clear Hn. induction l as [|[k v] l IH]; intros d Hd; cbn; [by rewrite app_nil_r|].
  rewrite fmap_app in Hd. cbn in Hd. rewrite PyDict.keys_set_notin.
  - rewrite IH; [by rewrite <- (assoc_L (++))|]. rewrite !fmap_app. cbn. by rewrite <- (assoc_L (++)).
  - apply NoDup_app in Hd as (_ & Hd & _). intros Hk. apply (Hd k Hk). constructor.
Qed.

Lemma string_body_escape_char c r :
  string_body (Canonical.escape_char c +:+ r) = prepend (String c "") (string_body r).
Proof.
  destruct c as [b0 b1 b2 b3 b4 b5 b6 b7].
  destruct b0, b1, b2, b3, b4, b5, b6, b7; reflexivity.
Qed.

Lemma string_body_escape s r :
  string_body (Canonical.escape s +:+ Canonical.dq +:+ r) = Some (s, r).
Proof.
  induction s as [|c s IH]; [reflexivity|]. cbn [Canonical.escape].
  rewrite PyStr.app_assoc, string_body_escape_char, IH. reflexivity.
Qed.

Lemma num_token_app t r :
  PyStr.forallb is_num_char t = true -> Canonical.term r -> num_token (t +:+ r) = (t, r).
Proof.
  intros Ht Hr. induction t as [|c t IH].
  - rewrite PyStr.app_nil_l. destruct r as [|c r]; [done|]. by destruct Hr as [-> | [-> | ->]].
  - cbn in Ht. apply andb_true_iff in Ht as [Hc Ht]. rewrite PyStr.app_cons. cbn.
    by rewrite Hc, (IH Ht).
Qed.

Lemma num_tok_num t : Canonical.num_tok t -> PyStr.forallb is_num_char t = true.
Proof.
  intros [_ H]. eapply Canonical.forallb_weaken, H. intros c Hc. unfold is_num_char. by rewrite Hc.
Qed.

(** A number goes to the number branch of the reader. *)
Lemma parse_num n t r :
  Canonical.num_tok t -> Canonical.term r ->
  parse (S n) (t +:+ r) = (v ← number t; Some (v, r)).
Proof.
  intros Ht Hr. destruct t as [|c t]; [by destruct Ht|].
  pose proof (num_token_app _ _ (num_tok_num _ Ht) Hr) as E.
  destruct Ht as [_ Ht]. cbn in Ht. apply andb_true_iff in Ht as [Hc _].
  rewrite PyStr.app_cons in *. cbn [parse]. rewrite E.
  destruct c as [b0 b1 b2 b3 b4 b5 b6 b7].
  destruct b0, b1, b2, b3, b4, b5, b6, b7; first [reflexivity|discriminate Hc].
Qed.

Lemma pretty_go_head x s :
  (0 < x)%N -> exists c r, pretty_N_go x s = String c r /\ c <> "0"%char.
Proof.
  revert s. induction (N.lt_wf_0 x) as [x _ IH]; intros s Hx.
  rewrite pretty_N_go_step by lia. destruct (decide (x `div` 10 = 0)%N) as [E|E].
  - rewrite E, pretty_N_go_0. eexists _, _. split; [done|].
    pose proof (N.div_mod' x 10) as Hd. rewrite E in Hd.
    assert (x `mod` 10 < 10)%N as Hm by (apply N.mod_lt; lia).
    intros Hc. apply (f_equal PyStr.digit_val) in Hc. rewrite PyText.digit_val_char in Hc by done.
    change (PyStr.digit_val "0") with 0 in Hc. lia.
  - apply IH; [apply N.div_lt; lia|by apply N.neq_0_lt_0].
Qed.

Lemma pretty_pos_unsigned p : unsigned_int (pretty (N.pos p)) = true.
Proof.
  unfold unsigned_int, PyText.digits. rewrite Canonical.pretty_N_digits, andb_true_r.
  apply andb_true_iff. split; [apply PyStr.truthy_true, Canonical.pretty_N_not_empty|].
  unfold pretty, pretty_N. case_decide; [done|].
  destruct (pretty_go_head (N.pos p) "" ltac:(lia)) as (c & r & -> & Hc).
  cbn [PyStr.startswith]. by destruct (Ascii.eqb_spec "0" c) as [<-|].
Qed.

Lemma number_int z : number (pretty z) = Some (JInt z).
Proof.
  unfold number. enough (int_text (pretty z) = Some z) as -> by done.
  destruct z as [|p|p]; [done| |].
  - change (pretty (Z.pos p)) with (pretty (N.pos p)).
    pose proof (pretty_pos_unsigned p) as Hu.
    pose proof (PyText.digits_val_pretty (N.pos p)) as Hv.
    pose proof (Canonical.pretty_N_digits (N.pos p)) as Hd.
    unfold int_text. destruct (pretty (N.pos p)) as [|c s]; [done|].
    apply PyText.digits_cons in Hd as [Hc _].
    destruct (Ascii.eqb_spec c "-") as [->|_]; [discriminate Hc|]. rewrite Hu. by rewrite Hv.
  - change (pretty (Z.neg p)) with (String "-" (pretty (N.pos p))). cbn [int_text].
    rewrite (pretty_pos_unsigned p), PyText.digits_val_pretty. reflexivity.
Qed.

(** What the reader does on the rendering of [v], whatever follows it. *)
Definition reads_back (v : json) : Prop :=
  jwf v -> forall n r, Canonical.term r -> (String.length (dumps v) < n)%nat ->
  parse n (dumps v +:+ r) = Some (v, r).

Lemma dumps_head v : exists c t, dumps v = String c t /\ is_ws c = false /\ c <> "]"%char /\ c <> "}"%char.
Proof.
  assert (Hnum : forall s, Canonical.num_tok s ->
    exists c t, s = String c t /\ is_ws c = false /\ c <> "]"%char /\ c <> "}"%char).
  { intros [|c t] [Hne Hc]; [done|]. exists c, t. split; [done|]. cbn in Hc.
    apply andb_true_iff in Hc as [Hc _].
    destruct c as [[] [] [] [] [] [] [] []]; first [discriminate Hc | by split_and!]. }
  destruct v as [|[]|z|f|s|[|x xs]|[|[k x] xs]]; try (by do 2 eexists; split_and!).
  - apply Hnum, Canonical.num_tok_int.
  - apply Hnum, Canonical.num_tok_float.
Qed.

Lemma skip_ws_dumps v r : skip_ws (dumps v +:+ r) = dumps v +:+ r.
Proof.
  destruct (dumps_head v) as (c & t & -> & Hc & _). rewrite PyStr.app_cons. cbn. by rewrite Hc.
Qed.

Lemma arr_tail_ends l r : Canonical.term (arr_tail l +:+ r).
Proof. destruct l; hnf; auto. Qed.

Lemma obj_tail_ends l r : Canonical.term (obj_tail l +:+ r).
Proof. destruct l as [|[]]; hnf; auto. Qed.

Lemma arr_tail_length y l :
  String.length (arr_tail (y :: l)) = (2 + (String.length (dumps y) + String.length (arr_tail l)))%nat.
Proof. cbn [arr_tail]. by rewrite !PyStr.length_app. Qed.

Lemma obj_tail_length k y l :
  String.length (obj_tail ((k, y) :: l)) =
  (4 + (String.length (Canonical.quote k) + String.length (dumps y) + String.length (obj_tail l)))%nat.
Proof. cbn [obj_tail]. rewrite !PyStr.length_app. cbn. lia. Qed.

Lemma arr_tail_pos l : (0 < String.length (arr_tail l))%nat.
Proof. destruct l; [cbn; lia|]. rewrite arr_tail_length. lia. Qed.

Lemma obj_tail_pos l : (0 < String.length (obj_tail l))%nat.
Proof. destruct l as [|[]]; [cbn; lia|]. rewrite obj_tail_length. lia. Qed.

(** After a value of an array, or of an object. *)
Lemma skip_ws_comma v r : skip_ws (", " +:+ dumps v +:+ r) = String "," (" " +:+ dumps v +:+ r).
Proof. reflexivity. Qed.

Lemma skip_ws_space v r : skip_ws (" " +:+ dumps v +:+ r) = dumps v +:+ r.
Proof. exact (skip_ws_dumps v r). Qed.

Lemma elements_back l :
  Forall reads_back l -> Forall jwf l ->
  forall x n r, reads_back x -> jwf x ->
  (String.length (dumps x) + String.length (arr_tail l) < n)%nat ->
  elements n (dumps x +:+ arr_tail l +:+ r) = Some (x :: l, r).
Proof.
  intros Hl. induction Hl as [|y l Hy Hl IH]; intros Hj x n r Hx Hwx Hn;
    (destruct n as [|n]; [lia|]); cbn [elements];
    (rewrite Hx; [|done|apply arr_tail_ends|]); cbn [mbind option_bind].
  - reflexivity.
  - cbn in Hn. lia.
  - inversion Hj; subst. cbn [arr_tail]. rewrite !PyStr.app_assoc, skip_ws_comma, skip_ws_space, IH; [done..|].
    rewrite arr_tail_length in Hn. lia.
  - rewrite arr_tail_length in Hn. lia.
Qed.

Lemma string_body_quote k r : exists t, Canonical.quote k +:+ r = String "034" t /\ string_body t = Some (k, r).
Proof.
  unfold Canonical.quote. rewrite !PyStr.app_assoc. eexists. split; [reflexivity|]. apply string_body_escape.
Qed.

Lemma pairs_step k v n r :
  reads_back v -> jwf v -> Canonical.term r -> (String.length (dumps v) < n)%nat ->
  pairs (S n) (Canonical.quote k +:+ ": " +:+ dumps v +:+ r) =
  match skip_ws r with
  | String "," r4 => '(l, r5) ← pairs n (skip_ws r4); Some ((k, v) :: l, r5)
  | String "}" r4 => Some ([(k, v)], r4)
  | _ => None
  end.
Proof.
  intros Hv Hw Hr Hn. destruct (string_body_quote k (": " +:+ dumps v +:+ r)) as (t & -> & Ht).
  cbn [pairs]. rewrite Ht. cbn [mbind option_bind].
  change (skip_ws (": " +:+ dumps v +:+ r)) with (String ":" (" " +:+ dumps v +:+ r)). cbv beta iota.
  rewrite skip_ws_space, Hv by done. reflexivity.
Qed.

Lemma skip_ws_quote k r : skip_ws (" " +:+ Canonical.quote k +:+ r) = Canonical.quote k +:+ r.
Proof. reflexivity. Qed.

Lemma pairs_back l :
  Forall (fun kv => reads_back kv.2) l -> Forall (fun kv => jwf kv.2) l ->
  forall k x n r, reads_back x -> jwf x ->
  (String.length (dumps x) + String.length (obj_tail l) < n)%nat ->
  pairs n (Canonical.quote k +:+ ": " +:+ dumps x +:+ obj_tail l +:+ r) = Some ((k, x) :: l, r).
Proof.
  intros Hl. induction Hl as [|[k' y] l Hy Hl IH]; intros Hj k x n r Hx Hwx Hn;
    (destruct n as [|n]; [lia|]);
    (rewrite pairs_step; [|done|done|apply obj_tail_ends|]).
  - reflexivity.
  - cbn in Hn. lia.
  - inversion Hj; subst. cbn [obj_tail]. rewrite !PyStr.app_assoc.
    change (skip_ws (", " +:+ Canonical.quote k' +:+ ?r)) with (String "," (" " +:+ Canonical.quote k' +:+ r)).
    cbv beta iota. rewrite skip_ws_quote, IH; [done..|].
    rewrite obj_tail_length in Hn. lia.
  - rewrite obj_tail_length in Hn. lia.
Qed.

Lemma word_app w v r : word w v (w +:+ r) = Some (v, r).
Proof. unfold word. by rewrite PyStr.startswith_app, PyStr.drop_app. Qed.

Lemma parse_dumps v : reads_back v.
Proof.
  induction v as [|b|z|f|str|l IHl|l IHl] using json_ind; intros Hw n r Hr Hn;
    (destruct n as [|n]; [lia|]).
  - apply (word_app "null").
  - destruct b; [apply (word_app "true")|apply (word_app "false")].
  - change (dumps (JInt z)) with (pretty z). rewrite parse_num by auto using Canonical.num_tok_int.
    by rewrite number_int.
  - change (dumps (JFloat f)) with (PyFloat.text f).
    rewrite parse_num by auto using Canonical.num_tok_float. by rewrite Hw.
  - change (dumps (JStr str)) with (Canonical.quote str).
    destruct (string_body_quote str r) as (t & -> & Ht). cbn [parse Ascii.eqb]. by rewrite Ht.
  - destruct l as [|x l]; [reflexivity|]. rewrite dumps_arr in *. apply jwf_arr in Hw.
    inversion Hw; inversion IHl; subst. rewrite !PyStr.length_app in Hn.
    rewrite !PyStr.app_assoc. change ("[" +:+ ?s) with (String "[" s). cbn [parse Ascii.eqb Bool.eqb].
    rewrite skip_ws_dumps. cbn in Hn.
    rewrite elements_back; [|done..|lia]. cbn [mbind option_bind].
    destruct (dumps_head x) as (c & t & -> & _ & Hc & _). rewrite PyStr.app_cons.
    destruct c as [[] [] [] [] [] [] [] []]; (reflexivity || done).
  - destruct l as [|[k x] l]; [reflexivity|]. rewrite dumps_obj in *.
    apply jwf_obj in Hw as [Hnd Hw]. inversion Hw; inversion IHl; subst. cbn [snd] in *.
    rewrite !PyStr.length_app in Hn. rewrite !PyStr.app_assoc.
    change ("{" +:+ ?s) with (String "{" s). cbn [parse Ascii.eqb Bool.eqb].
    change (skip_ws (Canonical.quote k +:+ ?s)) with (Canonical.quote k +:+ s).
    cbn in Hn. rewrite pairs_back; [|done..|lia]. cbn [mbind option_bind].
    rewrite dict_of_nodup by done. reflexivity.
Qed.

(** [json.loads(json.dumps(v)) == v] *)
Lemma loads_dumps v : jwf v -> loads (dumps v) = Some v.
Proof.
  intros Hw. unfold loads.
  pose proof (skip_ws_dumps v "") as Hs. rewrite PyStr.app_nil_r in Hs. rewrite Hs.
  pose proof (parse_dumps v Hw (S (String.length (dumps v))) "" I ltac:(lia)) as Hp.
  rewrite PyStr.app_nil_r in Hp. by rewrite Hp.
Qed.

Example loads_reads :
  let q := Canonical.quote in
  loads ("{" +:+ q "a" +:+ ": [1, -2, true, null], " +:+ q "b" +:+ " : {" +:+ q "x" +:+ ":" +:+ q "y"
         +:+ " }," +:+ q "a" +:+ ": 3.5}")
  = Some (JObj [("a", JFloat (PyFloat.mkLit "3.5" eq_refl)); ("b", JObj [("x", JStr "y")])])
  /\ loads "[1,]" = None /\ loads "01" = None /\ loads "[1] 2" = None /\ loads "" = None.
Proof. cbv zeta. split_and!; vm_compute; reflexivity. Qed.

End JsonText.
