(* ===== verification/PyIso.v ===== *)
(** * ISO 8601 text

    [datetime.isoformat()] of an aware UTC datetime and
    [datetime.fromisoformat] on the extended format with an offset, which is
    the form the program writes to its files and reads back.  (Python also
    reads other forms, and texts without an offset as naive datetimes; they
    have no value here and are refused.) *)
From S2P Require Import Prelude PyStr PyTime PyText.

#[local] Open Scope Z_scope.

Module PyIso.

(** Date and time of day, without the zone. *)
Definition naive (t : datetime) : string :=
  let '(y, m, d) := PyTime.ord2ymd (t / PyTime.day) in
  let s := (t mod PyTime.day) / PyTime.second in
  let us := t mod PyTime.second in
  PyTime.zpad 4 y +:+ "-" +:+ PyTime.zpad 2 m +:+ "-" +:+ PyTime.zpad 2 d +:+ "T"
  +:+ PyTime.zpad 2 (s / 3600) +:+ ":" +:+ PyTime.zpad 2 (s / 60 mod 60) +:+ ":"
  +:+ PyTime.zpad 2 (s mod 60)
  +:+ (if us =? 0 then "" else "." +:+ PyTime.zpad 6 us).

(** [t.isoformat()] *)
Definition isoformat (t : datetime) : string := naive t +:+ "+00:00".

(** [w] digits, then what follows. *)
Definition num (w : nat) (s : string) : option (Z * string) :=
  let t := PyStr.take w s in
  if PyStr.forallb PyStr.is_digit t && (Nat.eqb (String.length t) w)
  then Some (PyStr.digits_val 0 t, PyStr.drop w s) else None.

Definition sep (c : string) (s : string) : option string :=
  if PyStr.startswith s c then Some (PyStr.drop (String.length c) s) else None.

(** The UTC offset in microseconds. *)
Definition offset (s : string) : option Z :=
  if bool_decide (s = "Z") then Some 0
  else
    match s with
    | String c r =>
        sign ← (if Ascii.eqb c "+" then Some 1 else if Ascii.eqb c "-" then Some (-1) else None);
        '(h, r) ← num 2 r; r ← sep ":" r; '(m, r) ← num 2 r;
        if PyStr.is_empty r && (h <? 24) && (m <? 60)
        then Some (sign * (h * 3600 + m * 60) * PyTime.second) else None
    | EmptyString => None
    end.

Definition fraction (s : string) : option (Z * string) :=
  match sep "." s with
  | Some r => num 6 r
  | None => Some (0, s)
  end.

(** A date exists when its ordinal names it. *)
Definition date_ok (y m d : Z) : bool :=
  (1 <=? y) && bool_decide (PyTime.ord2ymd (PyTime.ymd2ord (y, m, d) - 1) = (y, m, d)).

Definition fromisoformat (s : string) : option datetime :=
  '(y, r) ← num 4 s; r ← sep "-" r; '(m, r) ← num 2 r; r ← sep "-" r; '(d, r) ← num 2 r;
  r ← sep "T" r;
  '(h, r) ← num 2 r; r ← sep ":" r; '(mi, r) ← num 2 r; r ← sep ":" r; '(sec, r) ← num 2 r;
  '(us, r) ← fraction r;
  off ← offset r;
  if date_ok y m d && (h <? 24) && (mi <? 60) && (sec <? 60)
  then Some ((PyTime.ymd2ord (y, m, d) - 1) * PyTime.day
             + (h * 3600 + mi * 60 + sec) * PyTime.second + us - off)
  else None.

Lemma digit_char n : 0 <= n < 10 ->
  PyStr.is_digit (ascii_of_N (48 + Z.to_N n)) = true
  /\ PyStr.digit_val (ascii_of_N (48 + Z.to_N n)) = n.
Proof.
  intros Hn.
  assert (Hall : forallb (fun k => PyStr.is_digit (ascii_of_N (48 + Z.to_N k))
                                   && (PyStr.digit_val (ascii_of_N (48 + Z.to_N k)) =? k)) (seqZ 0 10) = true)
    by reflexivity.
  assert (Hin : n ∈ seqZ 0 10) by (apply elem_of_seqZ; lia).
  rewrite List.forallb_forall in Hall. apply list_elem_of_In, Hall, andb_true_iff in Hin as [H1 H2].
  by apply Z.eqb_eq in H2.
Qed.

Lemma digits_val_app a b acc :
  PyStr.digits_val acc (a +:+ b) = PyStr.digits_val (PyStr.digits_val acc a) b.
Proof. revert acc. induction a as [|c a IH]; intros acc; [done|]. apply IH. Qed.

Lemma zpad_digits w n :
  0 <= n < 10 ^ Z.of_nat w ->
  PyStr.forallb PyStr.is_digit (PyTime.zpad w n) = true
  /\ PyStr.digits_val 0 (PyTime.zpad w n) = n.
Proof.
  revert n. induction w as [|w IH]; intros n Hn; [cbn in *; lia|].
  rewrite Nat2Z.inj_succ, Z.pow_succ_r in Hn by lia.
  destruct (IH (n / 10) ltac:(dlia)) as [IH1 IH2].
  destruct (digit_char (n mod 10) ltac:(apply Z.mod_pos_bound; lia)) as [H1 H2].
  cbn [PyTime.zpad]. rewrite PyStr.forallb_app, digits_val_app, IH1, IH2.
  cbn [PyStr.forallb PyStr.digits_val]. rewrite H1, H2. split; [done|]. dlia.
Qed.

Lemma take_app p s : PyStr.take (String.length p) (p +:+ s) = p.
Proof. induction p as [|c p IH]; [by destruct s|]. cbn. by f_equal. Qed.

Lemma num_zpad w n r : 0 <= n < 10 ^ Z.of_nat w -> num w (PyTime.zpad w n +:+ r) = Some (n, r).
Proof.
  intros Hn. destruct (zpad_digits w n Hn) as [H1 H2]. unfold num.
  pose proof (take_app (PyTime.zpad w n) r) as Ht. pose proof (PyStr.drop_app (PyTime.zpad w n) r) as Hd.
  rewrite PyTime.zpad_length in Ht, Hd.
  rewrite Ht, Hd, H1, H2, PyTime.zpad_length, Nat.eqb_refl. done.
Qed.

Lemma sep_app c s : sep c (c +:+ s) = Some s.
Proof. unfold sep. by rewrite PyStr.startswith_app, PyStr.drop_app. Qed.

#[local] Opaque PyTime.zpad num sep PyTime.ord2ymd PyTime.ymd2ord offset.

Lemma fraction_back us r :
  0 <= us < 1000000 ->
  fraction ((if us =? 0 then "" else "." +:+ PyTime.zpad 6 us) +:+ String "+" r) = Some (us, String "+" r).
Proof.
  intros Hu. unfold fraction. destruct (us =? 0) eqn:E.
  - rewrite PyStr.app_nil_l. apply Z.eqb_eq in E as ->. reflexivity.
  - rewrite PyStr.app_assoc, sep_app. by apply num_zpad.
Qed.

Lemma ord2ymd_year n y m d : 0 <= n -> PyTime.ord2ymd n = (y, m, d) -> 1 <= y.
Proof.
  intros Hn. Transparent PyTime.ord2ymd. unfold PyTime.ord2ymd. Opaque PyTime.ord2ymd.
  PyTime.ord_split n n400 n100 n4 n1 r1.
  destruct ((n1 =? 4) || (n100 =? 4)) eqn:Hb.
  - intros [= <- <- <-]. apply orb_true_iff in Hb as [Hb|Hb]; apply Z.eqb_eq in Hb; lia.
  - destruct (PyTime.month_day _ r1). intros [= <- <- <-]. lia.
Qed.

(** What is written is read back. *)
Lemma fromisoformat_isoformat t : PyTime.valid t -> fromisoformat (isoformat t) = Some t.
Proof.
  intros Ht. unfold PyTime.valid in Ht. unfold isoformat, naive.
  assert (Hd : 0 <= t / PyTime.day < 3652059).
  { apply PyTime.div_range; unfold PyTime.day, PyTime.second in *; lia. }
  destruct (PyTime.ord2ymd (t / PyTime.day)) as [[y m] d] eqn:E.
  pose proof (PyTime.ord2ymd_range _ _ _ _ Hd E) as (Hy & Hm & Hdd).
  pose proof (ord2ymd_year _ _ _ _ (proj1 Hd) E) as Hy1.
  pose proof (PyTime.ymd2ord_ord2ymd (t / PyTime.day) ltac:(lia)) as Hord. rewrite E in Hord.
  assert (Hs : 0 <= (t mod PyTime.day) / PyTime.second < 86400).
  { apply PyTime.div_range; [unfold PyTime.second; lia|]. apply Z.mod_pos_bound. unfold PyTime.day, PyTime.second; lia. }
  assert (Hu : 0 <= t mod PyTime.second < 1000000) by (apply Z.mod_pos_bound; unfold PyTime.second; lia).
  remember ((t mod PyTime.day) / PyTime.second) as s eqn:Es.
  pose proof (PyTime.hms_range _ Hs) as (? & ? & ?).
  unfold fromisoformat. rewrite !PyStr.app_assoc.
  rewrite num_zpad by (cbn; lia). cbn [mbind option_bind]. rewrite sep_app. cbn [mbind option_bind].
  rewrite num_zpad by (cbn; lia). cbn [mbind option_bind]. rewrite sep_app. cbn [mbind option_bind].
  rewrite num_zpad by (cbn; lia). cbn [mbind option_bind]. rewrite sep_app. cbn [mbind option_bind].
  rewrite num_zpad by (cbn; lia). cbn [mbind option_bind]. rewrite sep_app. cbn [mbind option_bind].
  rewrite num_zpad by (cbn; lia). cbn [mbind option_bind]. rewrite sep_app. cbn [mbind option_bind].
  rewrite num_zpad by (cbn; lia). cbn [mbind option_bind].
  rewrite fraction_back by done. cbn [mbind option_bind].
  replace (offset (String "+" "00:00")) with (Some 0) by reflexivity. cbn [mbind option_bind].
  unfold date_ok. rewrite Hord, Z.add_simpl_r, E, bool_decide_true by done.
  assert (1 <=? y = true) as -> by (apply Z.leb_le; lia).
  assert (s / 3600 <? 24 = true) as -> by (apply Z.ltb_lt; dlia).
  assert (s / 60 mod 60 <? 60 = true) as -> by (apply Z.ltb_lt; dlia).
  assert (s mod 60 <? 60 = true) as -> by (apply Z.ltb_lt; dlia).
  cbn [andb]. f_equal. subst s. unfold PyTime.day, PyTime.second in *. dlia.
Qed.

End PyIso.
