(* ===== verification/SqlJobs.v ===== *)
(** * The durable job store

    Models [src/secopent/infrastructure/repositories/sqlalchemy_jobs.py]: the
    job store over the [core_jobs] table, whose check-and-set of [lease] and
    [renew] is one conditional UPDATE.  A table is a dictionary of rows by
    primary key; the order in which an unordered query returns the rows is a
    parameter ([scan]), of which only the completeness is assumed.  Times are
    stored as naive UTC, which is the same count of microseconds.

    The theorems relate the store to the in-memory one ([Jobs]), which the
    repository calls its behavioural equivalent. *)
From S2P Require Import Prelude PyStr PyTime PyFloat Sha256 Canonical PyDict Jobs.

#[local] Open Scope Z_scope.

(** [CoreJob]: the columns of a row.  The status is text, and there is no
    column for a job's parameters. *)
Record CoreJob : Type := mkCoreJob {
  row_id : string;
  row_plan_step_key : string;
  row_idempotency_key : string;
  row_status : string;
  row_attempt : Z;
  row_max_attempts : Z;
  row_lease_owner : option string;
  row_lease_expires_at : option datetime;
  row_result_digest : string;
  row_failure_class : string;
  row_dependencies : list string
}.

Module SqlJobs.
Import JobStatus.

Definition Table : Type := dict CoreJob.

Definition to_job (r : CoreJob) : outcome Job :=
  st ← unwrap (of_value (row_status r))
         (ValueError ("'" +:+ row_status r +:+ "' is not a valid JobStatus"));
  Ret (mkJob (row_id r) (row_plan_step_key r) (row_idempotency_key r) st (row_attempt r)
         (row_max_attempts r) (row_lease_owner r) (row_lease_expires_at r)
         (row_result_digest r) (row_failure_class r) (row_dependencies r) []).

Definition from_job (j : Job) : CoreJob :=
  mkCoreJob (job_id j) (plan_step_key j) (idempotency_key j) (value (job_status j)) (attempt j)
    (max_attempts j) (lease_owner j) (lease_expires_at j) (result_digest j) (failure_class j)
    (job_dependencies j).

(** The columns an UPDATE of this store sets. *)
Definition set_status (st : JobStatus) (r : CoreJob) : CoreJob :=
  mkCoreJob (row_id r) (row_plan_step_key r) (row_idempotency_key r) (value st) (row_attempt r)
    (row_max_attempts r) (row_lease_owner r) (row_lease_expires_at r) (row_result_digest r)
    (row_failure_class r) (row_dependencies r).
Definition set_lease (owner : option string) (exp : option datetime) (r : CoreJob) : CoreJob :=
  mkCoreJob (row_id r) (row_plan_step_key r) (row_idempotency_key r) (row_status r) (row_attempt r)
    (row_max_attempts r) owner exp (row_result_digest r) (row_failure_class r) (row_dependencies r).
Definition set_attempt (n : Z) (r : CoreJob) : CoreJob :=
  mkCoreJob (row_id r) (row_plan_step_key r) (row_idempotency_key r) (row_status r) n
    (row_max_attempts r) (row_lease_owner r) (row_lease_expires_at r) (row_result_digest r)
    (row_failure_class r) (row_dependencies r).
Definition set_digest (d : string) (r : CoreJob) : CoreJob :=
  mkCoreJob (row_id r) (row_plan_step_key r) (row_idempotency_key r) (row_status r) (row_attempt r)
    (row_max_attempts r) (row_lease_owner r) (row_lease_expires_at r) d
    (row_failure_class r) (row_dependencies r).
Definition set_failure (f : string) (r : CoreJob) : CoreJob :=
  mkCoreJob (row_id r) (row_plan_step_key r) (row_idempotency_key r) (row_status r) (row_attempt r)
    (row_max_attempts r) (row_lease_owner r) (row_lease_expires_at r) (row_result_digest r) f
    (row_dependencies r).

(** [UPDATE core_jobs SET .. WHERE id = k AND ..]: one atomic step, which
    answers the number of rows it changed. *)
Definition exec_update (k : string) (cond : CoreJob -> bool) (sets : CoreJob -> CoreJob)
  : M Table Z :=
  fun t => match PyDict.get k t with
           | Some r => if cond r then (Ret 1, PyDict.set k (sets r) t) else (Ret 0, t)
           | None => (Ret 0, t)
           end.

Section store.
(** The rows in the order an unordered query returns them. *)
Context (scan : Table -> list CoreJob).
Context (ttl : Z).

Definition get (k : string) : M Table (option Job) :=
  o ← gets (PyDict.get k);
  match o with
  | Some r => j ← lift (to_job r); mret (Some j)
  | None => mret None
  end.

Definition all : M Table (list Job) :=
  rows ← gets scan; lift (mapM_outcome to_job rows).

Definition leaseable (now : datetime) : M Table (list Job) :=
  jobs ← all; mret (Jobs.leaseable_loop now jobs [] []).

Definition add (j : Job) : M Table Job :=
  rows ← gets scan;
  match List.find (fun r => bool_decide (row_idempotency_key r = idempotency_key j)) rows with
  | Some existing => lift (to_job existing)
  | None => modify (PyDict.set (job_id j) (from_job j));; mret j
  end.

Definition require (k : string) : M Table Job :=
  o ← get k; lift (unwrap o (JobNotFoundError ("job not found: " +:+ k))).

Definition update (k : string) (sets : CoreJob -> CoreJob) : M Table unit :=
  n ← exec_update k (fun _ => true) sets;
  lift (raise_if (negb (n =? 1)) (JobNotFoundError ("job not found: " +:+ k))).

Definition mark_ready (k : string) : M Table Job :=
  update k (fun r => set_lease None None (set_status READY r));; require k.

(** [WHERE status = 'ready' OR (status = 'leased' AND expires IS NOT NULL AND
    expires <= now)] *)
Definition free_row (now : datetime) (r : CoreJob) : bool :=
  bool_decide (row_status r = value READY)
  || (bool_decide (row_status r = value LEASED)
      && match row_lease_expires_at r with Some e => e <=? now | None => false end).

Definition lease (k owner : string) (now : datetime) : M Table Job :=
  n ← exec_update k (free_row now)
        (fun r => set_attempt (row_attempt r + 1)
           (set_lease (Some owner) (Some (now + PyTime.seconds ttl)) (set_status LEASED r)));
  if n =? 1 then require k
  else
    current ← get k;
    match current with
    | None => raise (JobNotFoundError ("job not found: " +:+ k))
    | Some j => raise (JobLeaseError ("cannot lease job in status " +:+ value (job_status j)))
    end.

Definition renew (k owner : string) (now : datetime) : M Table Job :=
  n ← exec_update k (fun r => bool_decide (row_lease_owner r = Some owner))
        (fun r => set_lease (row_lease_owner r) (Some (now + PyTime.seconds ttl)) r);
  lift (raise_if (negb (n =? 1)) (JobLeaseError "only the lease owner may renew"));;
  require k.

Definition complete (k digest : string) : M Table Job :=
  update k (fun r => set_digest digest (set_status SUCCEEDED r));; require k.

Definition fail (k : string) (fc : FailureClass) : M Table Job :=
  let st := if bool_decide (fc ∈ POLICY_FAILURES) then POLICY_DENIED else FAILED in
  update k (fun r => set_failure (value fc) (set_status st r));; require k.

Definition requeue (k : string) : M Table Job :=
  update k (fun r => set_failure "" (set_lease None None (set_status READY r)));; require k.

Definition skip (k : string) : M Table Job :=
  update k (fun r => set_lease None None (set_status SKIPPED r));; require k.

(** The calls of the protocol, named as the in-memory store's. *)
Definition run (o : Jobs.op) : M Table Job :=
  match o with
  | Jobs.Add j => add j
  | Jobs.MarkReady k => mark_ready k
  | Jobs.Lease k w n => lease k w n
  | Jobs.Renew k w n => renew k w n
  | Jobs.Complete k d => complete k d
  | Jobs.Fail k c => fail k c
  | Jobs.Requeue k => requeue k
  | Jobs.Skip k => skip k
  end.

Fixpoint run_all (ops : list Jobs.op) (t : Table) : Table :=
  match ops with
  | [] => t
  | o :: os => run_all os (run o t).2
  end.

(** ** The table of a store *)

(** What the table keeps of a job: all but its parameters. *)
Definition strip (j : Job) : Job :=
  mkJob (job_id j) (plan_step_key j) (idempotency_key j) (job_status j) (attempt j)
    (max_attempts j) (lease_owner j) (lease_expires_at j) (result_digest j) (failure_class j)
    (job_dependencies j) [].

Definition rows_of (s : Jobs.Store) : Table := (fun kv => (kv.1, from_job kv.2)) <$> s.

Lemma to_from_job j : to_job (from_job j) = Ret (strip j).
Proof.
  unfold to_job. change (row_status (from_job j)) with (value (job_status j)).
  by rewrite of_value_value.
Qed.

Lemma get_rows k s : PyDict.get k (rows_of s) = from_job <$> PyDict.get k s.
Proof.
  induction s as [|[k' j] s IH]; cbn; [done|].
  case_decide; cbn; [done|]. exact IH.
Qed.

Lemma set_rows k j s : PyDict.set k (from_job j) (rows_of s) = rows_of (PyDict.set k j s).
Proof.
  induction s as [|[k' j'] s IH]; cbn; [done|]. case_decide; cbn; [done|]. by f_equal.
Qed.

Lemma values_rows s : PyDict.values (rows_of s) = from_job <$> PyDict.values s.
Proof. unfold PyDict.values, rows_of. rewrite <- !list_fmap_compose. by apply list_fmap_ext. Qed.

Lemma to_jobs l : mapM_outcome to_job (from_job <$> l) = Ret (strip <$> l).
Proof.
  induction l as [|j l IH]; cbn [fmap list_fmap mapM_outcome]; [done|].
  rewrite to_from_job. cbn. by rewrite IH.
Qed.

Lemma get_job_rows k s : get k (rows_of s) = (Ret (strip <$> PyDict.get k s), rows_of s).
Proof.
  unfold get, gets, mbind, M_bind. rewrite get_rows.
  destruct (PyDict.get k s) as [j|]; cbn; [|done]. unfold lift. by rewrite to_from_job.
Qed.

Lemma require_rows k s :
  require k (rows_of s) =
  (unwrap (strip <$> PyDict.get k s) (JobNotFoundError ("job not found: " +:+ k)), rows_of s).
Proof.
  unfold require, mbind, M_bind. by rewrite get_job_rows.
Qed.

Lemma exec_update_rows k cond sets f s :
  (forall j, sets (from_job j) = from_job (f j)) ->
  exec_update k cond sets (rows_of s) =
  match PyDict.get k s with
  | Some j => if cond (from_job j) then (Ret 1, rows_of (PyDict.set k (f j) s))
              else (Ret 0, rows_of s)
  | None => (Ret 0, rows_of s)
  end.
Proof.
  intros Hf. unfold exec_update. rewrite get_rows.
  destruct (PyDict.get k s) as [j|]; cbn; [|done].
  destruct (cond (from_job j)); [|done]. by rewrite Hf, set_rows.
Qed.

(** An unconditional UPDATE and the read-back are the in-memory [_set]. *)
Lemma update_rows k sets f s :
  (forall j, sets (from_job j) = from_job (f j)) ->
  (update k sets;; require k) (rows_of s) =
  match PyDict.get k s with
  | Some j => (Ret (strip (f j)), rows_of (PyDict.set k (f j) s))
  | None => (Raise (JobNotFoundError ("job not found: " +:+ k)), rows_of s)
  end.
Proof.
  intros Hf. unfold update, mbind, M_bind. rewrite (exec_update_rows _ _ _ f) by done.
  destruct (PyDict.get k s) as [j|] eqn:E; cbn; [|done].
  by rewrite require_rows, PyDict.get_set_eq.
Qed.

Lemma free_row_spec now j : free_row now (from_job j) = Jobs.can_lease now j.
Proof.
  unfold free_row, Jobs.can_lease, Jobs.stale. cbn.
  assert (H : forall a b : JobStatus, bool_decide (value a = value b) = bool_decide (a = b)).
  { intros a b. apply bool_decide_ext. split; [apply value_inj|by intros ->]. }
  rewrite <- (H (job_status j) READY), <- (H (job_status j) LEASED). reflexivity.
Qed.

(** ** Refinement of the in-memory store *)

(** The two stores treat one call differently in a way callers can see: the
    table drops the lease of a job that is made ready.  A history is
    comparable when [mark_ready] is only applied to jobs that hold none. *)
Definition comparable (s : Jobs.Store) (o : Jobs.op) : Prop :=
  match o with
  | Jobs.MarkReady k => forall j, PyDict.get k s = Some j ->
      lease_owner j = None /\ lease_expires_at j = None
  | _ => True
  end.

Fixpoint comparable_run (ops : list Jobs.op) (s : Jobs.Store) : Prop :=
  match ops with
  | [] => True
  | o :: os => comparable s o /\ comparable_run os (Jobs.run ttl o s).2
  end.

(** The same job up to its parameters, or the same error; renewing a job that
    does not exist is a lease error here and a not-found error in memory. *)
Definition same_answer (o : Jobs.op) (a b : outcome Job) : Prop :=
  match a, b with
  | Ret j, Ret j' => strip j = strip j'
  | Raise e, Raise e' =>
      e = e' \/ exists k w n, o = Jobs.Renew k w n
        /\ e = JobLeaseError "only the lease owner may renew"
        /\ e' = JobNotFoundError ("job not found: " +:+ k)
  | _, _ => False
  end.

Definition scan_complete : Prop := forall t, scan t ≡ₚ PyDict.values t.

Lemma find_key_perm (P : CoreJob -> bool) l l' :
  l ≡ₚ l' -> (forall r r', r ∈ l -> r' ∈ l -> P r = true -> P r' = true -> r = r') ->
  List.find P l = List.find P l'.
Proof.
  intros Hp Hu. destruct (List.find P l) as [r|] eqn:E.
  - apply List.find_some in E as [Hin HP]. apply list_elem_of_In in Hin.
    destruct (List.find P l') as [r'|] eqn:E'.
    + apply List.find_some in E' as [Hin' HP']. apply list_elem_of_In in Hin'.
      f_equal. apply Hu; [done|by rewrite Hp|done..].
    + eapply List.find_none in E'; [|apply list_elem_of_In; by rewrite <- Hp]. congruence.
  - destruct (List.find P l') as [r'|] eqn:E'; [|done].
    apply List.find_some in E' as [Hin' HP']. apply list_elem_of_In in Hin'.
    eapply List.find_none in E; [|apply list_elem_of_In; by rewrite Hp]. congruence.
Qed.

Lemma find_rows key l :
  List.find (fun r => bool_decide (row_idempotency_key r = key)) (from_job <$> l)
  = from_job <$> List.find (fun e => bool_decide (idempotency_key e = key)) l.
Proof.
  induction l as [|j l IH]; cbn; [done|]. case_bool_decide; [done|]. exact IH.
Qed.

Lemma add_rows j s :
  scan_complete -> Jobs.wf s ->
  add j (rows_of s) =
  match List.find (fun e => bool_decide (idempotency_key e = idempotency_key j))
          (PyDict.values s) with
  | Some e => (Ret (strip e), rows_of s)
  | None => (Ret j, rows_of (PyDict.set (job_id j) j s))
  end.
Proof.
  intros Hscan Hwf. unfold add, gets, mbind, M_bind.
  rewrite (find_key_perm _ _ (PyDict.values (rows_of s))), values_rows, find_rows; [| |].
  - destruct (List.find _ _) as [e|]; cbn; [|by rewrite set_rows]. unfold lift. by rewrite to_from_job.
  - apply Hscan.
  - intros r r' Hr Hr' H H'. breflect. pose proof (Hscan (rows_of s)) as Hp.
    rewrite Hp, values_rows in Hr. rewrite Hp, values_rows in Hr'.
    apply list_elem_of_fmap in Hr as (e & -> & He), Hr' as (e' & -> & He'). f_equal.
    apply PyDict.values_In in He as [k Hk], He' as [k' Hk']; [|apply Hwf..].
    assert (k = k') as -> by (eapply Jobs.wf_idem; [exact Hwf|done..|]; cbn in *; congruence).
    congruence.
Qed.

(** One call of the protocol, on the table and on the store it represents. *)
Lemma run_rows o s :
  scan_complete -> Jobs.wf s -> comparable s o ->
  (run o (rows_of s)).2 = rows_of (Jobs.run ttl o s).2
  /\ same_answer o (run o (rows_of s)).1 (Jobs.run ttl o s).1.
Proof.
  intros Hscan Hwf Hc.
  assert (Hset : forall k sets f, (forall j, sets (from_job j) = from_job (f j)) ->
    ((update k sets;; require k) (rows_of s)).2 = rows_of (Jobs.set_job k f s).2
    /\ same_answer o ((update k sets;; require k) (rows_of s)).1 (Jobs.set_job k f s).1).
  { intros k sets f Hf. rewrite (update_rows _ _ f), Jobs.set_job_spec by done.
    destruct (PyDict.get k s); cbn; auto. }
  destruct o as [j|k|k w n|k w n|k d|k fc|k|k]; cbn [run Jobs.run]; try by apply Hset.
  - rewrite add_rows by done. unfold Jobs.add. destruct (List.find _ _); done.
  - unfold mark_ready, Jobs.mark_ready. rewrite Jobs.set_job_spec.
    rewrite (update_rows _ _ (fun j => Jobs.with_lease None None (Jobs.with_status READY j))) by done.
    destruct (PyDict.get k s) as [j|] eqn:E; cbn; [|auto].
    destruct (Hc j E) as [Ho He]. unfold Jobs.with_lease, Jobs.with_status. cbn.
    rewrite Ho, He. done.
  - rewrite Jobs.lease_spec. unfold lease, mbind, M_bind.
    rewrite (exec_update_rows _ _ _ (Jobs.leased ttl w n)) by done.
    destruct (PyDict.get k s) as [j|] eqn:E; cbn [Z.eqb];
      [|rewrite get_job_rows, E; cbn; auto].
    rewrite free_row_spec. destruct (Jobs.can_lease n j); cbn [Z.eqb Pos.eqb].
    + rewrite require_rows, PyDict.get_set_eq. done.
    + rewrite get_job_rows, E. cbn. auto.
  - rewrite Jobs.renew_spec. unfold renew, mbind, M_bind.
    rewrite (exec_update_rows _ _ _
      (fun j => Jobs.with_lease (lease_owner j) (Some (n + PyTime.seconds ttl)) j)) by done.
    destruct (PyDict.get k s) as [j|] eqn:E; cbn; [|naive_solver].
    case_bool_decide; cbn; [|auto]. by rewrite require_rows, PyDict.get_set_eq.
Qed.

Lemma run_all_rows ops s :
  scan_complete -> Jobs.wf s -> comparable_run ops s ->
  run_all ops (rows_of s) = rows_of (Jobs.run_all ttl ops s).
Proof.
  intros Hscan. revert s. induction ops as [|o os IH]; intros s Hwf; cbn; [done|].
  intros [Hc Hr]. destruct (run_rows o s) as [-> _]; [done..|].
  apply IH; [by apply Jobs.run_wf|done].
Qed.

Lemma comparable_run_app ops o s :
  comparable_run (ops ++ [o]) s <-> comparable_run ops s /\ comparable (Jobs.run_all ttl ops s) o.
Proof. revert s; induction ops as [|o' os IH]; intros s; cbn; [tauto|]. rewrite IH. tauto. Qed.

(** C29: The durable store refines the in-memory one. After any comparable history
    the table holds exactly the jobs of the in-memory store (without their
    parameters), in the same order; every call answers the same job or the
    same error, renewing a missing job apart; and a scan for work lists the
    same jobs, the reasoning-loop jobs first, whatever order the database
    returns the rows in. *)
Theorem sql_store_refines_memory_store ops o now s jobs :
  scan_complete -> Jobs.wf s -> comparable_run (ops ++ [o]) s ->
  (Jobs.leaseable now (Jobs.run_all ttl ops s)).1 = Ret jobs ->
  let s' := Jobs.run_all ttl ops s in
  let t' := run_all ops (rows_of s) in
  t' = rows_of s'
  /\ (run o t').2 = rows_of (Jobs.run ttl o s').2
  /\ same_answer o (run o t').1 (Jobs.run ttl o s').1
  /\ exists loop_jobs ordinary, leaseable now t' = (Ret (loop_jobs ++ ordinary), t')
       /\ loop_jobs ++ ordinary ≡ₚ strip <$> jobs
       /\ Forall (fun j => Jobs.is_loop j = true) loop_jobs
       /\ Forall (fun j => Jobs.is_loop j = false) ordinary.
Proof.
  intros Hscan Hwf [Hc Ho]%comparable_run_app [= <-] s' t'.
  assert (Ht : t' = rows_of s') by by apply run_all_rows.
  assert (Hwf' : Jobs.wf s') by by apply Jobs.run_all_wf.
  rewrite Ht. split; [done|]. destruct (run_rows o s' Hscan Hwf' Ho) as [H1 H2].
  split; [done|]. split; [done|].
  pose proof (Hscan (rows_of s')) as Hp. rewrite values_rows in Hp.
  apply Permutation_map_inv in Hp as (js & Hrows & Hjs).
  change (map from_job js) with (from_job <$> js) in Hrows.
  unfold leaseable, all, gets, mbind, M_bind. cbn. rewrite Hrows. unfold lift.
  rewrite to_jobs. cbn. rewrite !Jobs.leaseable_loop_spec. cbn.
  eexists _, _. split; [reflexivity|]. split; [|split].
  - fold s'. rewrite fmap_app.
    assert (Hf : forall P : Job -> bool, (forall j, P (strip j) = P j) -> forall l,
      List.filter P (strip <$> l) = strip <$> List.filter P l).
    { intros P HP l. induction l as [|j l IH]; cbn; [done|]. rewrite HP, IH. by destruct (P j). }
    rewrite !Hf by done.
    assert (Hpf : forall P : Job -> bool, forall l l', l ≡ₚ l' -> List.filter P l ≡ₚ List.filter P l').
    { intros P l l' H. induction H; cbn; repeat case_match; eauto using Permutation. }
    by rewrite !(Hpf _ _ _ Hjs).
  - apply Forall_forall. intros j [_ [_ H]%andb_true_iff]%Jobs.elem_of_filter_bool. done.
  - apply Forall_forall. intros j [_ [_ H]%andb_true_iff]%Jobs.elem_of_filter_bool.
    by apply negb_true_iff.
Qed.

(** ** Lease exclusivity, on the table alone *)

(** A row nobody can lease before time [T]. *)
Definition held_row (T : datetime) (r : CoreJob) : Prop :=
  row_status r <> value READY
  /\ (row_status r = value LEASED -> exists e, row_lease_expires_at r = Some e /\ T <= e).

Definition held (k : string) (T : datetime) (t : Table) : Prop :=
  exists r, PyDict.get k t = Some r /\ held_row T r.

Lemma held_update k T k' cond sets t :
  held k T t ->
  (k' = k -> forall r, cond r = true -> held_row T r -> held_row T (sets r)) ->
  held k T (exec_update k' cond sets t).2.
Proof.
  intros (r & Hg & Hh) H. unfold exec_update.
  destruct (PyDict.get k' t) as [r'|] eqn:E; [|by exists r].
  destruct (cond r') eqn:Ec; cbn; [|by exists r].
  unfold held. rewrite PyDict.get_set. case_decide as Ek; [|by exists r].
  subst. simplify_eq. eexists. split; [done|]. by apply H.
Qed.

Lemma require_state k t : (require k t).2 = t.
Proof.
  unfold require, get, gets, mbind, M_bind, lift. cbn.
  destruct (PyDict.get k t) as [r|]; cbn; [|done]. by destruct (to_job r).
Qed.

(** Every write of the protocol is one UPDATE followed by reads. *)
Lemma update_state k sets t :
  ((update k sets;; require k) t).2 = (exec_update k (fun _ => true) sets t).2.
Proof.
  unfold update, mbind, M_bind. destruct (exec_update k _ sets t) as [o t']. cbn.
  destruct o; cbn; [|done]. destruct (a =? 1); cbn; [apply require_state|done].
Qed.

Lemma lease_state k owner now t :
  (lease k owner now t).2 =
  (exec_update k (free_row now) (fun r => set_attempt (row_attempt r + 1)
     (set_lease (Some owner) (Some (now + PyTime.seconds ttl)) (set_status LEASED r))) t).2.
Proof.
  unfold lease, mbind, M_bind. destruct (exec_update k _ _ t) as [o t']. cbn.
  destruct o; cbn; [|done]. destruct (a =? 1); [apply require_state|].
  unfold get, gets, mbind, M_bind, lift. cbn.
  destruct (PyDict.get k t') as [r|]; cbn; [|done]. by destruct (to_job r).
Qed.

Lemma renew_state k owner now t :
  (renew k owner now t).2 =
  (exec_update k (fun r => bool_decide (row_lease_owner r = Some owner))
     (fun r => set_lease (row_lease_owner r) (Some (now + PyTime.seconds ttl)) r) t).2.
Proof.
  unfold renew, mbind, M_bind. destruct (exec_update k _ _ t) as [o t']. cbn.
  destruct o; cbn; [|done]. destruct (a =? 1); cbn; [apply require_state|done].
Qed.

Lemma sql_held_run k T t0 o t :
  0 <= ttl -> T = t0 + PyTime.seconds ttl -> Jobs.gives_back k o = false ->
  (forall n, Jobs.op_time o = Some n -> t0 <= n) ->
  held k T t -> held k T (run o t).2.
Proof.
  intros Httl -> Hgb Htime Hh.
  destruct o as [j|k'|k' w n|k' w n|k' d|k' fc|k'|k'];
    cbn [run Jobs.gives_back Jobs.op_time] in *.
  - unfold add, gets, mbind, M_bind. destruct (List.find _ _) as [r|]; cbn; [exact Hh|].
    breflect. destruct Hh as (r & Hg & Hr). exists r. by rewrite PyDict.get_set_ne.
  - unfold mark_ready. rewrite update_state. apply held_update; [done|]. breflect. by intros ->.
  - rewrite lease_state. apply held_update; [done|]. intros _ r _ _. split; [done|].
    intros _. eexists. split; [done|]. specialize (Htime n eq_refl). lia.
  - rewrite renew_state. apply held_update; [done|]. intros _ r _ [Hr _]. split; [done|].
    intros _. eexists. split; [done|]. specialize (Htime n eq_refl). lia.
  - unfold complete. rewrite update_state. apply held_update; [done|]. by intros _ r _ _.
  - unfold fail. rewrite update_state. apply held_update; [done|]. intros _ r _ _.
    by case_bool_decide.
  - unfold requeue. rewrite update_state. apply held_update; [done|]. breflect. by intros ->.
  - unfold skip. rewrite update_state. apply held_update; [done|]. by intros _ r _ _.
Qed.

Lemma held_run_all k t0 ops t :
  0 <= ttl ->
  Forall (fun o => Jobs.gives_back k o = false /\ forall n, Jobs.op_time o = Some n -> t0 <= n) ops ->
  held k (t0 + PyTime.seconds ttl) t -> held k (t0 + PyTime.seconds ttl) (run_all ops t).
Proof.
  intros Httl Hops. revert t. induction Hops as [|o os [Hg Ht] _ IH]; intros t Hh; cbn; [done|].
  apply IH. by eapply sql_held_run.
Qed.

(** The UPDATE of a second lease changes no row before the first expires. *)
Lemma held_no_update k T now sets t :
  held k T t -> now < T -> exec_update k (free_row now) sets t = (Ret 0, t).
Proof.
  intros (r & Hg & Hr & Hl) Hlt. unfold exec_update. rewrite Hg. unfold free_row.
  rewrite bool_decide_false by done. cbn [orb].
  case_bool_decide as E; cbn [andb]; [|done].
  destruct (Hl E) as (e & -> & He). destruct (Z.leb_spec e now); [lia|done].
Qed.

(** No two workers hold one job. Once [k] is leased at [t1], then whatever
    calls other workers make, in any order and on any jobs, at times not
    before [t1], as long as nobody gives the job back, no lease of [k] before
    [t1 + ttl] succeeds: its UPDATE changes no row, the caller gets an error,
    and the table is what it was. The table is arbitrary: its rows need not
    come from this store, and their statuses need not be valid. *)
Theorem sql_lease_is_exclusive k w1 t1 j1 t t' ops w2 t2 :
  0 <= ttl ->
  lease k w1 t1 t = (Ret j1, t') ->
  Forall (fun o => Jobs.gives_back k o = false /\ forall n, Jobs.op_time o = Some n -> t1 <= n) ops ->
  t2 < t1 + PyTime.seconds ttl ->
  exists e, lease k w2 t2 (run_all ops t') = (Raise e, run_all ops t').
Proof.
  intros Httl H1 Hops Hlt.
  assert (Hh : held k (t1 + PyTime.seconds ttl) t').
  { pose proof (lease_state k w1 t1 t) as Hs. rewrite H1 in Hs. cbn [snd] in Hs. subst t'.
    revert H1. unfold lease, mbind, M_bind, exec_update.
    destruct (PyDict.get k t) as [r|] eqn:E.
    - destruct (free_row t1 r) eqn:Ef; cbn [fst snd].
      + intros _. eexists. rewrite PyDict.get_set_eq. split; [done|]. split; [done|].
        intros _. eexists. split; [done|]. lia.
      + cbn. unfold get, gets, mbind, M_bind, lift. cbn. rewrite E. by destruct (to_job r).
    - cbn. unfold get, gets, mbind, M_bind. cbn. by rewrite E. }
  apply (held_run_all _ _ ops) in Hh; [|done..].
  unfold lease, mbind, M_bind. rewrite (held_no_update _ _ _ _ _ Hh Hlt). cbn.
  destruct Hh as (r & Hg & _). unfold get, gets, mbind, M_bind, lift. cbn. rewrite Hg.
  destruct (to_job r); cbn; by eexists.
Qed.

End store.

(** ** Concrete runs *)

Lemma values_scan : scan_complete PyDict.values.
Proof. intros t. done. Qed.

Lemma sql_store_refines_memory_store_witness :
  let t := rows_of Jobs.demo_store in
  let ops := [Jobs.Lease "job:recon" "a" 0; Jobs.MarkReady "job:x"; Jobs.Lease "job:recon" "b" 5] in
  run_all PyDict.values 300 ops t = rows_of (Jobs.run_all 300 ops Jobs.demo_store)
  /\ is_Ret (run PyDict.values 300 (Jobs.Renew "job:recon" "a" 7) (run_all PyDict.values 300 ops t)).1 = true.
Proof.
  intros t ops. split; [|vm_compute; reflexivity].
  refine (proj1 (sql_store_refines_memory_store PyDict.values 300 ops (Jobs.Renew "job:recon" "a" 7) 5
    Jobs.demo_store _ values_scan Jobs.demo_store_wf _ _)); [|reflexivity].
  cbn [comparable_run app ops]. split; [exact I|]. split.
  - intros j. vm_compute. intros [= <-]. split; reflexivity.
  - split; [exact I|]. split; exact I.
Defined.

Lemma sql_lease_is_exclusive_witness :
  exists j t' e, lease 300 "job:recon" "a" 0 (rows_of Jobs.demo_store) = (Ret j, t')
    /\ (lease 300 "job:recon" "b" 299999999 (run_all PyDict.values 300 [Jobs.Renew "job:recon" "a" 5] t')).1
       = Raise e.
Proof.
  eexists _, _.
  destruct (sql_lease_is_exclusive PyDict.values 300 "job:recon" "a" 0 _ (rows_of Jobs.demo_store) _
    [Jobs.Renew "job:recon" "a" 5] "b" 299999999 ltac:(discriminate) ltac:(vm_compute; reflexivity)) as [e He].
  - repeat constructor. intros n [= <-]. discriminate.
  - reflexivity.
  - exists e. split; [vm_compute; reflexivity|]. rewrite He. reflexivity.
Defined.

(** The stores differ on a job made ready while it holds a lease: the table
    drops the lease, so its former owner can no longer renew; in memory the
    owner keeps the lease and renews it. *)
Example mark_ready_drops_the_lease :
  let ops := [Jobs.Lease "job:recon" "a" 0; Jobs.MarkReady "job:recon"] in
  is_Ret (Jobs.run 300 (Jobs.Renew "job:recon" "a" 1) (Jobs.run_all 300 ops Jobs.demo_store)).1 = true
  /\ (run PyDict.values 300 (Jobs.Renew "job:recon" "a" 1)
        (run_all PyDict.values 300 ops (rows_of Jobs.demo_store))).1
     = Raise (JobLeaseError "only the lease owner may renew").
Proof. split; vm_compute; reflexivity. Qed.

(** A job's parameters do not survive the table, and renewing a missing job
    is a different error in the two stores. *)
Example parameters_are_not_stored :
  let j := mkJob "job:p" "p" "d:p" READY 0 3 None None "" "" [] [("target", JStr "https://a")] in
  let t := run_all PyDict.values 300 [Jobs.Add j] [] in
  (option_map job_parameters <$> (get "job:p" t).1) = Ret (Some [])
  /\ (run PyDict.values 300 (Jobs.Renew "gone" "a" 1) t).1
     = Raise (JobLeaseError "only the lease owner may renew")
  /\ (Jobs.run 300 (Jobs.Renew "gone" "a" 1) (Jobs.run_all 300 [Jobs.Add j] [])).1
     = Raise (JobNotFoundError "job not found: gone").
Proof. split_and!; vm_compute; reflexivity. Qed.

End SqlJobs.
