(* ===== verification/Orchestrator.v ===== *)
(** * Plan execution

    Models [src/secopent/application/orchestrator.py] over the job store of
    [Jobs] and the plans of [Assessments].  The injected step runner and the
    step-boundary gate are code outside the source: the runner is an
    arbitrary function of the calls made so far, the gate of how often it was
    asked.  The state records the runner calls, newest first, so that the
    theorems can speak about what was executed and in which order. *)
From S2P Require Import Prelude PyStr PyTime Sha256 Canonical Policy PyDict Assessments Jobs.

#[local] Open Scope Z_scope.

(** What [runner.run(step)] does: a result digest, a [StepFailure], or any
    other exception. *)
Inductive run_result : Type :=
| RunOk (digest : string)
| RunFailure (fc : FailureClass)
| RunError (e : exn).

Record Orch : Type := mkOrch {
  store : Jobs.Store;
  step_map : dict PlanStep;
  calls : list PlanStep;
  gate_calls : nat
}.

Module Orchestrator.
Import JobStatus.

(** The job [dispatch] makes for a step. *)
Definition job_of (digest : string) (s : PlanStep) : Job :=
  mkJob ("job:" +:+ step_key s) (step_key s) (digest +:+ ":" +:+ step_key s)
    (if bool_decide (dependencies s = []) then READY else BLOCKED)
    0 3 None None "" "" (dependencies s) [].

Definition on_store {A} (m : M Jobs.Store A) : M Orch A :=
  fun s => match m (store s) with
           | (r, st) => (r, mkOrch st (step_map s) (calls s) (gate_calls s))
           end.

(** [self._steps[step.key] = step] *)
Definition register (st : PlanStep) : M Orch unit :=
  modify (fun s => mkOrch (store s) (PyDict.set (step_key st) st (step_map s)) (calls s) (gate_calls s)).

Definition dispatch (plan : ExecutionPlan) : M Orch (list Job) :=
  mapM_state (fun st =>
    j ← on_store (JobService.add (job_of (plan_digest plan) st));
    register st;;
    mret j) (steps plan).

Section run.
Context (ttl : Z) (runner : list PlanStep -> PlanStep -> run_result)
        (step_gate : option (nat -> option string)) (owner : string) (now : datetime).

Definition check_gate : M Orch unit :=
  match step_gate with
  | None => mret tt
  | Some gate => fun s =>
      let decision := gate (gate_calls s) in
      (if bool_decide (decision = Some "paused")
       then Raise (StepPaused "step boundary pause requested")
       else if bool_decide (decision = Some "cancelled")
       then Raise (StepCancelled "step boundary cancel requested")
       else Ret tt,
       mkOrch (store s) (step_map s) (calls s) (S (gate_calls s)))
  end.

(** [self._runner.run(step)] *)
Definition call_runner (st : PlanStep) : M Orch run_result :=
  fun s => (Ret (runner (calls s) st),
            mkOrch (store s) (step_map s) (st :: calls s) (gate_calls s)).

Definition handle_failure (j : Job) (fc : FailureClass) : M Jobs.Store Job :=
  if bool_decide (fc ∈ POLICY_FAILURES) then JobService.fail (job_id j) fc
  else if bool_decide (fc ∈ RETRYABLE_FAILURES) && (attempt j <? max_attempts j)
  then JobService.requeue (job_id j)
  else JobService.fail (job_id j) fc.

(** The part of [_execute] after the runner call. *)
Definition finish (j leased : Job) (r : run_result) : M Jobs.Store Job :=
  match r with
  | RunOk digest => JobService.complete (job_id j) digest
  | RunFailure fc => handle_failure leased fc
  | RunError e => raise e
  end.

Definition execute (j : Job) (st : PlanStep) : M Orch Job :=
  leased ← on_store (JobService.lease ttl (job_id j) owner now);
  r ← call_runner st;
  on_store (finish j leased r).

(** [step = self._steps.get(job.plan_step_key)]; jobs of no known step are
    left out. *)
Definition targets_of (smap : dict PlanStep) (l : list Job) : list (Job * PlanStep) :=
  omap (fun j => (fun st => (j, st)) <$> PyDict.get (plan_step_key j) smap) l.

Fixpoint run_targets (ts : list (Job * PlanStep)) : M Orch (list Job) :=
  match ts with
  | [] => mret []
  | (j, st) :: ts' =>
      check_gate;;
      r ← execute j st;
      rs ← run_targets ts';
      mret (r :: rs)
  end.

Definition succeeded_keys (l : list Job) : list string :=
  plan_step_key <$> List.filter (fun j => bool_decide (job_status j = SUCCEEDED)) l.

Definition deps_met (succeeded : list string) (j : Job) : bool :=
  bool_decide (job_status j = BLOCKED)
  && forallb (fun d => bool_decide (d ∈ succeeded)) (job_dependencies j).

Fixpoint mark_all (succeeded : list string) (l : list Job) : M Jobs.Store unit :=
  match l with
  | [] => mret tt
  | j :: js =>
      (if deps_met succeeded j then JobService.mark_ready (job_id j);; mret tt else mret tt);;
      mark_all succeeded js
  end.

Definition resolve_dependencies : M Jobs.Store unit :=
  l ← JobService.all;
  l' ← JobService.all;
  mark_all (succeeded_keys l) l'.

(** [execute_ready] with [max_workers = 1]; the pool is [Pool] below. *)
Definition execute_ready : M Orch (list Job) :=
  l ← on_store (JobService.leaseable now);
  s ← get;
  results ← run_targets (targets_of (step_map s) l);
  on_store resolve_dependencies;;
  mret results.

Fixpoint run_to_completion (max_rounds : nat) : M Orch string :=
  match max_rounds with
  | O => mret "completed"
  | S n => fun s =>
      match execute_ready s with
      | (Ret [], s') => (Ret "completed", s')
      | (Ret _, s') => run_to_completion n s'
      | (Raise (StepPaused _), s') => (Ret "paused", s')
      | (Raise (StepCancelled _), s') => (Ret "cancelled", s')
      | (Raise e, s') => (Raise e, s')
      end
  end.

(** ** What one execution does to the store *)

(** The job after one execution with result [r]. *)
Definition after (j : Job) (r : run_result) : Job :=
  let l := Jobs.leased ttl owner now j in
  match r with
  | RunOk d => Jobs.with_digest d (Jobs.with_status SUCCEEDED l)
  | RunFailure fc =>
      if bool_decide (fc ∈ POLICY_FAILURES)
      then Jobs.with_failure (value fc) (Jobs.with_status POLICY_DENIED l)
      else if bool_decide (fc ∈ RETRYABLE_FAILURES) && (attempt j + 1 <? max_attempts j)
      then Jobs.with_failure "" (Jobs.with_lease None None (Jobs.with_status READY l))
      else Jobs.with_failure (value fc) (Jobs.with_status FAILED l)
  | RunError _ => l
  end.

Definition is_error (r : run_result) : bool := match r with RunError _ => true | _ => false end.

(** A result after which the step is not run again: success, and every
    failure that is not transient. *)
Definition final_result (r : run_result) : bool :=
  match r with
  | RunOk _ => true
  | RunFailure fc => negb (bool_decide (fc ∈ RETRYABLE_FAILURES))
  | RunError _ => false
  end.

Lemma execute_spec j st o jc :
  PyDict.get (job_id j) (store o) = Some jc -> job_id jc = job_id j -> Jobs.can_lease now jc = true ->
  let r := runner (calls o) st in
  execute j st o
  = (match r with RunError e => Raise e | _ => Ret (after jc r) end,
     mkOrch (PyDict.set (job_id j) (after jc r) (store o)) (step_map o) (st :: calls o) (gate_calls o)).
Proof.
  intros Hg Hid Hc r. unfold execute, on_store, call_runner, mbind, M_bind, JobService.lease.
  rewrite Jobs.lease_spec, Hg, Hc. cbn. fold r.
  assert (Hset : forall f, Jobs.set_job (job_id j) f
      (PyDict.set (job_id j) (Jobs.leased ttl owner now jc) (store o))
    = (Ret (f (Jobs.leased ttl owner now jc)),
       PyDict.set (job_id j) (f (Jobs.leased ttl owner now jc)) (store o))).
  { intros f. by rewrite Jobs.set_job_spec, PyDict.get_set_eq, PyDict.set_set. }
  destruct r as [d|fc|e]; cbn.
  - unfold JobService.complete, Jobs.complete. by rewrite Hset.
  - unfold handle_failure. cbn [job_id Jobs.leased Jobs.with_attempt Jobs.with_lease Jobs.with_status
      attempt max_attempts]. rewrite Hid.
    unfold JobService.fail, Jobs.fail, JobService.requeue, Jobs.requeue.
    repeat case_bool_decide; cbn; try (by rewrite Hset);
      destruct (attempt jc + 1 <? max_attempts jc); by rewrite Hset.
  - done.
Qed.

(** What execution never changes. *)
Definition same_identity (a b : Job) : Prop :=
  job_id a = job_id b /\ plan_step_key a = plan_step_key b
  /\ idempotency_key a = idempotency_key b /\ job_dependencies a = job_dependencies b
  /\ max_attempts a = max_attempts b.

Lemma after_identity j r : same_identity (after j r) j /\ attempt (after j r) = attempt j + 1.
Proof. unfold after. destruct r; cbn; repeat case_match; done. Qed.

Lemma after_status j r :
  job_status (after j r) <> BLOCKED
  /\ (job_status (after j r) = READY -> attempt j + 1 < max_attempts j)
  /\ (is_error r = false -> job_status (after j r) <> LEASED)
  /\ job_status (after j r) ∈ [READY; LEASED; SUCCEEDED; FAILED; POLICY_DENIED]
  /\ (final_result r = true -> job_status (after j r) ∈ [SUCCEEDED; FAILED; POLICY_DENIED]).
Proof.
  unfold after. destruct r as [d|fc|e]; cbn.
  - split_and!; try done; set_solver.
  - repeat case_match; cbn; split_and!; try done; try set_solver; breflect; try done.
    + intros _. lia.
    + intros Hn. by breflect.
  - split_and!; try done. set_solver.
Qed.

(** ** Dependency resolution *)

Definition resolved (succ : list string) (j : Job) : Job :=
  if deps_met succ j then Jobs.with_status READY j else j.

Lemma mark_all_spec succ l s :
  Jobs.wf s -> NoDup (job_id <$> l) ->
  (forall j, j ∈ l -> PyDict.get (job_id j) s = Some j) ->
  exists s', mark_all succ l s = (Ret tt, s') /\ Jobs.wf s' /\ PyDict.keys s' = PyDict.keys s
    /\ forall k, PyDict.get k s'
        = (if bool_decide (k ∈ job_id <$> l) then resolved succ else fun j => j) <$> PyDict.get k s.
Proof.
  revert s; induction l as [|j l IH]; intros s Hwf Hnd Hl.
  { exists s. cbn. split_and!; [done..|]. intros k. by destruct (PyDict.get k s). }
  rewrite fmap_cons in Hnd. apply NoDup_cons in Hnd as [Hni Hnd].
  assert (Hg : PyDict.get (job_id j) s = Some j) by (apply Hl; left).
  set (s1 := PyDict.set (job_id j) (resolved succ j) s).
  assert (Hstep : mark_all succ (j :: l) s = mark_all succ l s1).
  { cbn. unfold s1, resolved, JobService.mark_ready, Jobs.mark_ready. destruct (deps_met succ j).
    - unfold mbind, M_bind, mret, M_ret. by rewrite Jobs.set_job_spec, Hg.
    - by rewrite PyDict.set_same. }
  assert (Hwf1 : Jobs.wf s1).
  { unfold s1, resolved. destruct (deps_met succ j); [|by rewrite PyDict.set_same].
    pose proof (Jobs.run_wf 0 (Jobs.MarkReady (job_id j)) s Hwf) as H. cbn in H.
    unfold Jobs.mark_ready in H. by rewrite Jobs.set_job_spec, Hg in H. }
  rewrite Hstep. destruct (IH s1 Hwf1 Hnd) as (s' & E & Hw & Hk & Hget).
  { intros j' Hj'. unfold s1. rewrite PyDict.get_set_ne; [apply Hl; by right|].
    intros E. apply Hni. rewrite E. apply list_elem_of_fmap. by exists j'. }
  exists s'. split_and!; [done..| |].
  - rewrite Hk. unfold s1. rewrite PyDict.keys_set_in; [done|]. by eapply PyDict.get_Some_keys.
  - intros k. rewrite Hget. unfold s1. rewrite PyDict.get_set. case_decide as E'.
    + subst. rewrite Hg, (bool_decide_true (job_id j ∈ job_id <$> j :: l)) by (cbn; left).
      by rewrite (bool_decide_false (job_id j ∈ job_id <$> l) Hni).
    + rewrite (bool_decide_ext (k ∈ job_id <$> j :: l) (k ∈ job_id <$> l)); [done|].
      cbn. rewrite elem_of_cons. naive_solver.
Qed.

Lemma values_get (s : Jobs.Store) j :
  Jobs.wf s -> j ∈ PyDict.values s <-> PyDict.get (job_id j) s = Some j.
Proof.
  intros Hwf. rewrite PyDict.values_In by apply Hwf. split; [|by eexists].
  intros [k Hk]. by rewrite (Jobs.wf_ids _ Hwf _ _ Hk).
Qed.

Lemma resolve_spec s :
  Jobs.wf s ->
  exists s', resolve_dependencies s = (Ret tt, s') /\ Jobs.wf s' /\ PyDict.keys s' = PyDict.keys s
    /\ forall k, PyDict.get k s' = resolved (succeeded_keys (PyDict.values s)) <$> PyDict.get k s.
Proof.
  intros Hwf. unfold resolve_dependencies, JobService.all, Jobs.all, gets, mbind, M_bind.
  destruct (mark_all_spec (succeeded_keys (PyDict.values s)) (PyDict.values s) s) as (s' & E & Hw & Hk & Hg);
    [done|by apply Jobs.values_ids_nodup|intros j; by apply values_get|].
  exists s'. split_and!; [done..|]. intros k. rewrite Hg.
  destruct (PyDict.get k s) as [j|] eqn:Ej; [|done]. cbn.
  rewrite bool_decide_true; [done|]. apply list_elem_of_fmap. exists j.
  split; [symmetry; exact (Jobs.wf_ids _ Hwf _ _ Ej)|]. apply PyDict.values_In; [apply Hwf|by eexists].
Qed.

Lemma elem_of_succeeded k s :
  Jobs.wf s -> k ∈ succeeded_keys (PyDict.values s) <->
  exists jid j, PyDict.get jid s = Some j /\ job_status j = SUCCEEDED /\ plan_step_key j = k.
Proof.
  intros Hwf. unfold succeeded_keys. rewrite list_elem_of_fmap. split.
  - intros (j & -> & [Hin Hs]%list_elem_of_In%List.filter_In). breflect.
    apply list_elem_of_In, PyDict.values_In in Hin as [jid Hj]; [|apply Hwf]. by exists jid, j.
  - intros (jid & j & Hj & Hs & <-). exists j. split; [done|]. apply list_elem_of_In, List.filter_In.
    split; [|by apply bool_decide_eq_true]. apply list_elem_of_In, PyDict.values_In; [apply Hwf|by eexists].
Qed.

(** ** The invariant of a dispatched plan *)
Section plan.
Context (P : list PlanStep) (dg : string).
Hypothesis P_wf : Plan.plan_wf P.

Definition jid (k : string) : string := "job:" +:+ k.

(** How often a step was run. *)
Definition runs (k : string) (h : list PlanStep) : Z :=
  Z.of_nat (length (List.filter (fun s => bool_decide (step_key s = k)) h)).

(** Every call's dependencies were called before it ([h] is newest first). *)
Definition dependency_order (h : list PlanStep) : Prop :=
  forall l1 s l2, h = l1 ++ s :: l2 -> forall d, d ∈ dependencies s -> d ∈ step_key <$> l2.

Record inv (o : Orch) : Prop := {
  inv_store : Jobs.wf (store o);
  inv_steps : forall k s, PyDict.get k (step_map o) = Some s <-> s ∈ P /\ step_key s = k;
  inv_jobs : forall i j, PyDict.get i (store o) = Some j ->
    exists s, s ∈ P /\ i = jid (step_key s) /\ plan_step_key j = step_key s
              /\ job_dependencies j = dependencies s /\ max_attempts j = 3
              /\ idempotency_key j = dg +:+ ":" +:+ step_key s;
  inv_all : forall s, s ∈ P -> is_Some (PyDict.get (jid (step_key s)) (store o));
  inv_unblocked : forall i j, PyDict.get i (store o) = Some j -> job_status j <> BLOCKED ->
    forall d, d ∈ job_dependencies j ->
    exists jd, PyDict.get (jid d) (store o) = Some jd /\ job_status jd = SUCCEEDED;
  inv_succeeded : forall i j, PyDict.get i (store o) = Some j -> job_status j = SUCCEEDED ->
    plan_step_key j ∈ step_key <$> calls o;
  inv_status : forall i j, PyDict.get i (store o) = Some j ->
    job_status j ∈ [BLOCKED; READY; LEASED; SUCCEEDED; FAILED; POLICY_DENIED]
    /\ (job_status j = BLOCKED -> attempt j = 0) /\ (job_status j = READY -> attempt j < 3);
  inv_attempt : forall i j, PyDict.get i (store o) = Some j ->
    attempt j = runs (plan_step_key j) (calls o);
  inv_final : forall l1 s l2, calls o = l1 ++ s :: l2 -> final_result (runner l2 s) = true ->
    s ∉ l1 /\ exists j, PyDict.get (jid (step_key s)) (store o) = Some j
                      /\ job_status j ∈ [SUCCEEDED; FAILED; POLICY_DENIED];
  inv_calls : forall s, s ∈ calls o -> s ∈ P;
  inv_order : dependency_order (calls o)
}.

Lemma key_inj s t : s ∈ P -> t ∈ P -> step_key s = step_key t -> s = t.
Proof.
  intros Hs Ht E. pose proof (Plan.wf_unique _ P_wf) as Hnd. unfold Plan.keys in Hnd.
  apply list_elem_of_lookup in Hs as [i Hi], Ht as [i' Hi'].
  assert (i = i') as ->; [|congruence].
  eapply (NoDup_lookup _ i i' (step_key s)); [exact Hnd|..]; rewrite list_lookup_fmap.
  - by rewrite Hi.
  - by rewrite Hi', E.
Qed.

Lemma jid_inj k k' : jid k = jid k' -> k = k'.
Proof. apply PyStr.app_inv_head. Qed.

Lemma runs_cons s h k : runs k (s :: h) = runs k h + (if bool_decide (step_key s = k) then 1 else 0).
Proof. unfold runs. cbn. case_bool_decide; cbn; lia. Qed.

(** One execution of a leaseable job keeps the invariant. *)
Lemma execute_inv o s jc r gc :
  inv o -> r = runner (calls o) s -> s ∈ P -> PyDict.get (jid (step_key s)) (store o) = Some jc ->
  Jobs.can_lease now jc = true ->
  inv (mkOrch (PyDict.set (jid (step_key s)) (after jc r) (store o)) (step_map o) (s :: calls o) gc).
Proof.
  intros Hi Hr Hs Hg Hc.
  destruct (after_identity jc r) as [(Hid & Hsk & Hik & Hdep & Hmax) Hatt].
  destruct (after_status jc r) as (Hnb & Hready & _ & Hst & Hfin).
  assert (Hown : exists s', s' ∈ P /\ jid (step_key s) = jid (step_key s') /\ plan_step_key jc = step_key s'
              /\ job_dependencies jc = dependencies s' /\ max_attempts jc = 3
              /\ idempotency_key jc = dg +:+ ":" +:+ step_key s') by exact (inv_jobs _ Hi _ _ Hg).
  destruct Hown as (s' & Hs' & E & Hpk & Hdeps & Hm & Hik'). apply jid_inj in E.
  apply key_inj in E as <-; [|done..].
  assert (Hlive : job_status jc <> BLOCKED /\ job_status jc ∉ [SUCCEEDED; FAILED; POLICY_DENIED]).
  { unfold Jobs.can_lease, Jobs.stale in Hc. split; intros Hb;
      [by rewrite Hb in Hc|set_unfold; destruct_or!; rewrite Hb in Hc; done]. }
  assert (Hother : forall i j, i <> jid (step_key s) -> PyDict.get i (store o) = Some j -> plan_step_key j <> step_key s).
  { intros i j Hne Hj E. destruct (inv_jobs _ Hi _ _ Hj) as (t & Ht & -> & Ep & _). congruence. }
  assert (Hsucc : forall d, d ∈ dependencies s ->
    exists jd, PyDict.get (jid d) (store o) = Some jd /\ job_status jd = SUCCEEDED).
  { intros d Hd. eapply (inv_unblocked _ Hi _ _ Hg); [tauto|by rewrite Hdeps]. }
  assert (Hkeep : forall d jd, PyDict.get (jid d) (store o) = Some jd -> job_status jd = SUCCEEDED ->
    exists jd', PyDict.get (jid d) (PyDict.set (jid (step_key s)) (after jc r) (store o)) = Some jd'
      /\ job_status jd' = SUCCEEDED).
  { intros d jd Hjd Hss. rewrite PyDict.get_set. case_decide as E; [|by exists jd].
    rewrite E in Hg. exfalso. apply Hlive. simplify_eq. rewrite Hss. left. }
  split; cbn.
  - split; [apply PyDict.set_wf, Hi|..].
    + intros i j. rewrite PyDict.get_set. case_decide; [|apply Hi].
      intros [= <-]. subst. rewrite Hid. by apply (Jobs.wf_ids _ (inv_store _ Hi)).
    + intros i i' j j'. rewrite !PyDict.get_set.
      do 2 case_decide; intros ? ? E; simplify_eq; eauto using (Jobs.wf_idem _ (inv_store _ Hi));
        eapply (Jobs.wf_idem _ (inv_store _ Hi)); eauto; congruence.
  - apply Hi.
  - intros i j. rewrite PyDict.get_set. case_decide; [|apply Hi].
    intros [= <-]. subst. exists s. rewrite Hsk, Hdep, Hmax, Hik. done.
  - intros t Ht. rewrite PyDict.get_set. case_decide; [by eexists|]. by apply Hi.
  - intros i j. rewrite PyDict.get_set. case_decide as E.
    + intros [= <-] _ d. rewrite Hdep, Hdeps. intros Hd. destruct (Hsucc d Hd) as (jd & ? & ?). eauto.
    + intros Hj Hb d Hd. destruct (inv_unblocked _ Hi _ _ Hj Hb d Hd) as (jd & ? & ?). eauto.
  - intros i j. rewrite PyDict.get_set. case_decide as E.
    + intros [= <-] _. rewrite Hsk, Hpk. left.
    + intros Hj Hss. right. by apply (inv_succeeded _ Hi i j).
  - intros i j. rewrite PyDict.get_set. case_decide as E; [|apply Hi].
    intros [= <-]. split_and!; [set_solver|done|]. rewrite Hatt, <- Hm. done.
  - intros i j. rewrite PyDict.get_set, runs_cons. case_decide as E.
    + intros [= <-]. rewrite Hatt, Hsk, Hpk, bool_decide_true by done.
      rewrite <- Hpk. by rewrite (inv_attempt _ Hi _ _ Hg).
    + intros Hj. rewrite bool_decide_false by (intros E'; by apply (Hother i j)).
      rewrite (inv_attempt _ Hi _ _ Hj). lia.
  - intros l1 t l2 E Hf. destruct l1 as [|t1 l1]; cbn in E; injection E as -> E.
    + split; [by apply not_elem_of_nil|]. rewrite PyDict.get_set_eq. eexists. split; [done|].
      apply Hfin. by rewrite Hr, E.
    + destruct (inv_final _ Hi _ _ _ E Hf) as (Hni & j & Hj & Hjs).
      rewrite PyDict.get_set. case_decide as Ek.
      { rewrite Ek in Hg. simplify_eq. by destruct Hlive. }
      split; [|by exists j]. apply not_elem_of_cons. split; [|done]. intros ->. done.
  - intros t [->|Ht]%elem_of_cons; [done|by apply Hi].
  - intros l1 t l2 E d Hd. destruct l1 as [|t1 l1]; cbn in E; injection E as -> E.
    + subst l2. destruct (Hsucc d Hd) as (jd & Hjd & Hss).
      pose proof (inv_succeeded _ Hi _ _ Hjd Hss) as Hin.
      destruct (inv_jobs _ Hi _ _ Hjd) as (t' & _ & E' & Ep & _). apply jid_inj in E'.
      by rewrite Ep, <- E' in Hin.
    + by eapply (inv_order _ Hi).
Qed.

Lemma inv_ext o o' :
  store o' = store o -> step_map o' = step_map o -> calls o' = calls o -> inv o -> inv o'.
Proof. intros E1 E2 E3 []. split; rewrite ?E1, ?E2, ?E3; done. Qed.

(** ** The measure: attempts that may still be made *)
Definition weight (j : Job) : nat :=
  if bool_decide (job_status j = BLOCKED) || bool_decide (job_status j = READY)
  then Z.to_nat (max_attempts j - attempt j) else 0.

Definition weight_at (st : Jobs.Store) (s : PlanStep) : nat :=
  from_option weight 0%nat (PyDict.get (jid (step_key s)) st).

Definition total (st : Jobs.Store) : nat := sum_list_with (weight_at st) P.

(** No job is left LEASED and no job has used more than its attempts: what
    holds between rounds as long as the runner fails only by [StepFailure]. *)
Definition quiet (st : Jobs.Store) : Prop :=
  forall i j, PyDict.get i st = Some j -> job_status j <> LEASED /\ attempt j <= 3.

Lemma sum_le {A} (f g : A -> nat) l :
  (forall x, x ∈ l -> f x <= g x)%nat -> (sum_list_with f l <= sum_list_with g l)%nat.
Proof.
  induction l as [|x l IH]; intros H; cbn; [lia|].
  pose proof (H x ltac:(left)). specialize (IH (fun y Hy => H y ltac:(by right))). cbn in IH. lia.
Qed.

Lemma sum_lt {A} (f g : A -> nat) l x :
  (forall y, y ∈ l -> f y <= g y)%nat -> x ∈ l -> (f x < g x)%nat ->
  (sum_list_with f l < sum_list_with g l)%nat.
Proof.
  induction l as [|y l IH]; intros H Hx Hlt; [by apply elem_of_nil in Hx|]. cbn.
  pose proof (H y ltac:(left)).
  pose proof (sum_le f g l (fun y Hy => H y ltac:(by right))). cbn in *.
  apply elem_of_cons in Hx as [->|Hx]; [lia|].
  specialize (IH (fun y Hy => H y ltac:(by right)) Hx Hlt). cbn in IH. lia.
Qed.

Lemma after_weight j r :
  job_status j = READY -> attempt j < max_attempts j -> is_error r = false ->
  (weight (after j r) < weight j)%nat.
Proof.
  intros Hr Ha He. destruct (after_identity j r) as [(_ & _ & _ & _ & Hm) Hat].
  destruct (after_status j r) as (Hnb & _).
  unfold weight. rewrite Hm, Hat, Hr, (bool_decide_false _ Hnb).
  rewrite (bool_decide_true (READY = READY)), orb_true_r by done. cbn [orb].
  case_bool_decide; lia.
Qed.

Lemma can_lease_quiet st i j :
  quiet st -> PyDict.get i st = Some j -> Jobs.can_lease now j = true -> job_status j = READY.
Proof.
  intros Hq Hg Hc. destruct (Hq _ _ Hg) as [Hnl _].
  unfold Jobs.can_lease, Jobs.stale in Hc. rewrite (bool_decide_false (job_status j = LEASED) Hnl) in Hc.
  cbn in Hc. rewrite orb_false_r in Hc. by breflect.
Qed.

Lemma execute_progress o s jc r :
  inv o -> s ∈ P -> PyDict.get (jid (step_key s)) (store o) = Some jc ->
  Jobs.can_lease now jc = true -> quiet (store o) -> is_error r = false ->
  let st := PyDict.set (jid (step_key s)) (after jc r) (store o) in
  quiet st /\ (total st < total (store o))%nat.
Proof.
  intros Hi Hs Hg Hc Hq He st.
  assert (Hr : job_status jc = READY) by by eapply can_lease_quiet.
  destruct (inv_status _ Hi _ _ Hg) as (_ & _ & Hat). specialize (Hat Hr).
  destruct (inv_jobs _ Hi _ _ Hg) as (? & _ & _ & _ & _ & Hm & _).
  split.
  - intros i j. unfold st. rewrite PyDict.get_set. case_decide; [|apply Hq]. intros [= <-].
    destruct (after_identity jc r) as [_ ->]. split; [by apply after_status|lia].
  - unfold total. apply (sum_lt _ _ _ s); [|done|].
    + intros t _. unfold weight_at, st. rewrite PyDict.get_set. case_decide as E; [|done].
      rewrite <- E, Hg. cbn. apply Nat.lt_le_incl, after_weight; [done|lia|done].
    + unfold weight_at, st. rewrite PyDict.get_set_eq, Hg. cbn. apply after_weight; [done|lia|done].
Qed.

(** ** One round *)

Definition ready_targets (o : Orch) (ts : list (Job * PlanStep)) : Prop :=
  NoDup ((fun t => step_key t.2) <$> ts)
  /\ forall j s, (j, s) ∈ ts -> s ∈ P /\ job_id j = jid (step_key s)
       /\ exists jc, PyDict.get (jid (step_key s)) (store o) = Some jc /\ Jobs.can_lease now jc = true.

(** A runner that fails only by raising [StepFailure], as its protocol says. *)
Definition fails_by_step_failure : Prop := forall h s, is_error (runner h s) = false.

Definition is_gate_signal (e : exn) : bool :=
  match e with StepPaused _ | StepCancelled _ => true | _ => false end.

Lemma check_gate_spec o :
  exists g r, check_gate o = (r, mkOrch (store o) (step_map o) (calls o) g)
    /\ match r with Ret _ => True | Raise e => is_gate_signal e = true /\ step_gate <> None end.
Proof.
  unfold check_gate. destruct step_gate as [gate|]; [|by exists (gate_calls o), (Ret tt); destruct o].
  eexists _, _. split; [reflexivity|]. repeat case_bool_decide; done.
Qed.

Lemma run_targets_spec ts o :
  inv o -> ready_targets o ts ->
  exists r o', run_targets ts o = (r, o') /\ inv o'
  /\ (fails_by_step_failure -> quiet (store o) ->
      quiet (store o')
      /\ match r with
         | Ret rs => length rs = length ts /\ (total (store o') + length ts <= total (store o))%nat
         | Raise e => is_gate_signal e = true /\ step_gate <> None
             /\ exists i j, PyDict.get i (store o') = Some j /\ job_status j = READY
         end).
Proof.
  revert o; induction ts as [|[j s] ts IH]; intros o Hi [Hnd Hts]; cbn.
  { exists (Ret []), o. split_and!; [done..|]. intros _ Hq. cbn. split_and!; [done..|lia]. }
  destruct (check_gate_spec o) as (g & rg & Eg & Hrg).
  unfold mbind at 1, M_bind at 1. rewrite Eg. destruct rg as [[]|e]; cycle 1.
  { eexists _, _. split; [reflexivity|]. split; [by apply (inv_ext o)|].
    intros _ Hq. split_and!; [done|apply Hrg..|]. cbn.
    destruct (Hts j s ltac:(left)) as (_ & _ & jc & Hg & Hc).
    exists (jid (step_key s)), jc. split; [done|]. by eapply can_lease_quiet. }
  destruct (Hts j s ltac:(left)) as (Hs & Hid & jc & Hg & Hc).
  set (o1 := mkOrch (store o) (step_map o) (calls o) g).
  assert (Hi1 : inv o1) by (by apply (inv_ext o)).
  pose proof (execute_spec j s o1 jc) as He. rewrite Hid in He.
  specialize (He Hg (Jobs.wf_ids _ (inv_store _ Hi) _ _ Hg) Hc). cbn zeta in He.
  unfold mbind at 1, M_bind at 1. rewrite He. clear He. set (r := runner (calls o1) s).
  pose proof (execute_inv o1 s jc r (gate_calls o1) Hi1 eq_refl Hs Hg Hc) as Hi2.
  match type of Hi2 with inv ?x => set (o2 := x) in * end.
  cbn in Hnd. apply NoDup_cons in Hnd as [Hni Hnd].
  assert (Hts2 : ready_targets o2 ts).
  { split; [done|]. intros j' s' Hin. destruct (Hts j' s' ltac:(by right)) as (? & ? & jc' & ? & ?).
    split_and!; [done..|]. exists jc'. split; [|done]. unfold o2; cbn [store]. rewrite PyDict.get_set_ne; [done|].
    intros E%jid_inj. apply Hni. rewrite E. apply list_elem_of_fmap. by exists (j', s'). }
  destruct (IH o2 Hi2 Hts2) as (r' & o' & E & Hi' & Hq').
  destruct r as [d|fc|e] eqn:Er; unfold mbind, M_bind; rewrite ?E.
  3: { eexists _, _. split; [reflexivity|]. split; [done|]. intros Hne. specialize (Hne (calls o1) s).
       unfold r in Er. by rewrite Er in Hne. }
  all: match type of Er with _ = ?x =>
    pose proof (fun Hq => execute_progress o1 s jc x Hi1 Hs Hg Hc Hq eq_refl) as Hprog end.
  all: destruct r' as [rs|e']; eexists _, _; (split; [reflexivity|]); (split; [done|]);
    intros Hne Hq; destruct (Hprog Hq) as [Hq2 Hlt]; destruct (Hq' Hne Hq2) as [Hq3 Hr'];
    (split; [done|]); destruct Hr' as [Hlen Hle]; [cbn [length]; split; [by rewrite <- Hlen|]|done].
  all: unfold o2 in Hle; cbn [store] in Hle; unfold o1 in Hle, Hlt; cbn [store] in Hle, Hlt; lia.
Qed.

(** ** Three attempts, whatever the runner raises *)

(** Attempts used, also by the job an exception has left LEASED. *)
Definition within_attempts (st : Jobs.Store) : Prop := forall i j, PyDict.get i st = Some j -> attempt j <= 3.

(** After rounds: nothing is leased, unless an exception ended them. *)
Definition spent {A} (r : outcome A) (st : Jobs.Store) : Prop := within_attempts st /\ (is_Ret r = true -> quiet st).

Lemma quiet_spent {A} (r : outcome A) st : quiet st -> spent r st.
Proof. intros Hq. split; [|done]. intros i j Hj. by apply (Hq i j). Qed.

Lemma execute_spent {A} o s jc r (q : outcome A) :
  inv o -> s ∈ P -> PyDict.get (jid (step_key s)) (store o) = Some jc ->
  Jobs.can_lease now jc = true -> quiet (store o) -> is_Ret q = negb (is_error r) ->
  spent q (PyDict.set (jid (step_key s)) (after jc r) (store o)).
Proof.
  intros Hi Hs Hg Hc Hq E. destruct (is_error r) eqn:Er.
  - split; [|by rewrite E]. intros i j. rewrite PyDict.get_set. case_decide; [|apply Hq]. intros [= <-].
    destruct (after_identity jc r) as [_ ->]. assert (job_status jc = READY) as Hr by by eapply can_lease_quiet.
    destruct (inv_status _ Hi _ _ Hg) as (_ & _ & Hat). specialize (Hat Hr). lia.
  - apply quiet_spent. by eapply execute_progress.
Qed.

Lemma run_targets_spent ts o :
  inv o -> ready_targets o ts -> quiet (store o) -> spent (run_targets ts o).1 (store (run_targets ts o).2).
Proof.
  revert o; induction ts as [|[j s] ts IH]; intros o Hi [Hnd Hts] Hq; cbn [run_targets]; [by apply quiet_spent|].
  destruct (check_gate_spec o) as (g & rg & Eg & _). unfold mbind, M_bind. rewrite Eg.
  destruct rg as [[]|e]; [|by apply quiet_spent].
  destruct (Hts j s ltac:(left)) as (Hs & Hid & jc & Hg & Hc).
  set (o1 := mkOrch (store o) (step_map o) (calls o) g). assert (Hi1 : inv o1) by (by apply (inv_ext o)).
  pose proof (execute_spec j s o1 jc) as He. rewrite Hid in He.
  specialize (He Hg (Jobs.wf_ids _ (inv_store _ Hi) _ _ Hg) Hc). cbn zeta in He.
  set (r := runner (calls o1) s) in *.
  pose proof (execute_inv o1 s jc r (gate_calls o1) Hi1 eq_refl Hs Hg Hc) as Hi2.
  pose proof (fun A (q : outcome A) => execute_spent o1 s jc r q Hi1 Hs Hg Hc Hq) as Hsp.
  cbn in Hnd. apply NoDup_cons in Hnd as [Hni Hnd].
  assert (Hts2 : ready_targets (mkOrch (PyDict.set (jid (step_key s)) (after jc r) (store o1)) (step_map o1) (s :: calls o1) (gate_calls o1)) ts).
  { split; [done|]. intros j' s' Hin. destruct (Hts j' s' ltac:(by right)) as (? & ? & jc' & ? & ?).
    split_and!; [done..|]. exists jc'. split; [|done]. cbn [store]. rewrite PyDict.get_set_ne; [done|].
    intros E%jid_inj. apply Hni. rewrite E. apply list_elem_of_fmap. by exists (j', s'). }
  rewrite He. destruct r as [d|fc|e]; [..|by apply Hsp].
  all: specialize (IH _ Hi2 Hts2 (proj2 (Hsp _ (Ret tt) eq_refl) eq_refl));
    destruct (run_targets ts _) as [[rs|e] o']; exact IH.
Qed.

(** Every blocked job waits for a dependency that has not succeeded. *)
Definition settled (st : Jobs.Store) : Prop :=
  forall i j, PyDict.get i st = Some j -> job_status j = BLOCKED ->
  exists d, d ∈ job_dependencies j
    /\ forall jd, PyDict.get (jid d) st = Some jd -> job_status jd <> SUCCEEDED.

Lemma resolved_status succ j :
  (job_status (resolved succ j) = job_status j
   \/ (job_status j = BLOCKED /\ job_status (resolved succ j) = READY /\ deps_met succ j = true))
  /\ job_dependencies (resolved succ j) = job_dependencies j
  /\ plan_step_key (resolved succ j) = plan_step_key j
  /\ max_attempts (resolved succ j) = max_attempts j /\ attempt (resolved succ j) = attempt j
  /\ idempotency_key (resolved succ j) = idempotency_key j.
Proof.
  unfold resolved. destruct (deps_met succ j) eqn:E; [|split_and!; by try left].
  split_and!; try done. right. unfold deps_met in E. breflect. done.
Qed.

Lemma resolved_weight succ j : weight (resolved succ j) = weight j.
Proof.
  destruct (resolved_status succ j) as (Hs & _ & _ & Hm & Ha & _). unfold weight. rewrite Hm, Ha.
  destruct Hs as [->|(-> & -> & _)]; done.
Qed.

Section resolution.
Context (o : Orch) (s' : Jobs.Store) (succ : list string).
Hypothesis Hi : inv o.
Hypothesis Hw : Jobs.wf s'.
Hypothesis Hget : forall k, PyDict.get k s' = resolved succ <$> PyDict.get k (store o).
Hypothesis Hsucc : forall d,
  d ∈ succ <-> exists jd, PyDict.get (jid d) (store o) = Some jd /\ job_status jd = SUCCEEDED.

Lemma resolved_inv i j' :
  PyDict.get i s' = Some j' -> exists j, PyDict.get i (store o) = Some j /\ j' = resolved succ j.
Proof. rewrite Hget. destruct (PyDict.get i (store o)) as [j|]; [|done]. intros [= <-]. by exists j. Qed.

Lemma resolved_fwd i j : PyDict.get i (store o) = Some j -> PyDict.get i s' = Some (resolved succ j).
Proof. intros Hj. by rewrite Hget, Hj. Qed.

Lemma deps_met_in j d : deps_met succ j = true -> d ∈ job_dependencies j -> d ∈ succ.
Proof.
  intros Hd Hin. unfold deps_met in Hd. apply andb_true_iff in Hd as [_ Hd].
  rewrite List.forallb_forall in Hd. apply list_elem_of_In, Hd in Hin. by breflect.
Qed.

Lemma succeeded_stays d jd :
  PyDict.get (jid d) (store o) = Some jd -> job_status jd = SUCCEEDED ->
  exists jd', PyDict.get (jid d) s' = Some jd' /\ job_status jd' = SUCCEEDED.
Proof.
  intros Hj Hs. exists (resolved succ jd). split; [by apply resolved_fwd|].
  destruct (resolved_status succ jd) as ([->|(E' & _)] & _); congruence.
Qed.

Lemma resolved_state_inv : inv (mkOrch s' (step_map o) (calls o) (gate_calls o)).
Proof.
  split; cbn; [done|apply Hi|..|apply Hi|apply Hi]; cycle -1.
  { intros l1 t l2 E Hf. destruct (inv_final _ Hi _ _ _ E Hf) as (Hni & j & Hj & Hjs).
    split; [done|]. exists (resolved succ j). split; [by apply resolved_fwd|].
    destruct (resolved_status succ j) as ([->|(E' & _)] & _); [done|]. rewrite E' in Hjs. set_solver. }
  - intros i j' (j & Hj & ->)%resolved_inv. destruct (resolved_status succ j) as (_ & -> & -> & -> & _ & ->).
    by apply (inv_jobs _ Hi).
  - intros t Ht. destruct (inv_all _ Hi t Ht) as [j Hj]. rewrite (resolved_fwd _ _ Hj). by eexists.
  - intros i j' (j & Hj & ->)%resolved_inv Hb d. destruct (resolved_status succ j) as (Hs & -> & _).
    intros Hd. destruct (decide (job_status j = BLOCKED)) as [Hbl|Hbl].
    + destruct Hs as [Hs|(_ & _ & Hm)]; [congruence|]. pose proof (deps_met_in _ _ Hm Hd) as Hin.
      apply Hsucc in Hin as (jd & ? & ?). by eapply succeeded_stays.
    + destruct (inv_unblocked _ Hi _ _ Hj Hbl d Hd) as (jd & ? & ?). by eapply succeeded_stays.
  - intros i j' (j & Hj & ->)%resolved_inv Hs. destruct (resolved_status succ j) as (Hst & _ & -> & _).
    apply (inv_succeeded _ Hi _ _ Hj). destruct Hst as [<-|(_ & E' & _)]; congruence.
  - intros i j' (j & Hj & ->)%resolved_inv. destruct (resolved_status succ j) as (Hst & _ & _ & _ & -> & _).
    destruct (inv_status _ Hi _ _ Hj) as (H1 & H2 & H3).
    destruct Hst as [->|(Eb & -> & _)]; [done|]. split_and!; [set_solver|done|].
    intros _. rewrite (H2 Eb). lia.
  - intros i j' (j & Hj & ->)%resolved_inv. destruct (resolved_status succ j) as (_ & _ & -> & _ & -> & _).
    by apply (inv_attempt _ Hi _ _ Hj).
Qed.

Lemma resolved_settled : settled s'.
Proof.
  intros i j' (j & Hj & ->)%resolved_inv Hb. destruct (resolved_status succ j) as (Hst & -> & _).
  destruct Hst as [Hst|(_ & Hst & _)]; [|congruence]. rewrite Hst in Hb.
  assert (Hn : ~ Forall (fun d => d ∈ succ) (job_dependencies j)).
  { intros Hall. assert (Hm : deps_met succ j = true).
    { unfold deps_met. rewrite bool_decide_true by done. apply List.forallb_forall.
      intros d Hd%list_elem_of_In. rewrite Forall_forall in Hall. by apply bool_decide_eq_true, Hall. }
    unfold resolved in Hst. rewrite Hm in Hst. cbn in Hst. congruence. }
  apply not_Forall_Exists in Hn; [|intros x; apply _].
  apply Exists_exists in Hn as (d & Hd & Hns). exists d. split; [done|].
  intros jd' (jd & Hjd & ->)%resolved_inv Hs. apply Hns, Hsucc. exists jd. split; [done|].
  destruct (resolved_status succ jd) as ([<-|(_ & E' & _)] & _); congruence.
Qed.

Lemma resolved_total : total s' = total (store o).
Proof.
  unfold total. clear - Hget. induction P as [|t l IH]; cbn; [done|]. f_equal; [|exact IH].
  unfold weight_at. rewrite Hget. destruct (PyDict.get _ (store o)); cbn; [apply resolved_weight|done].
Qed.

Lemma resolved_quiet : quiet (store o) -> quiet s'.
Proof.
  intros Hq i j' (j & Hj & ->)%resolved_inv. destruct (Hq _ _ Hj) as [Hl Ha].
  destruct (resolved_status succ j) as (Hst & _ & _ & _ & -> & _). split; [|done].
  destruct Hst as [->|(_ & -> & _)]; done.
Qed.

Lemma resolved_same : PyDict.keys s' = PyDict.keys (store o) -> settled (store o) -> s' = store o.
Proof.
  intros Hk Hset. apply PyDict.dict_eq; [apply Hw|done|]. intros k. rewrite Hget.
  destruct (PyDict.get k (store o)) as [j|] eqn:Hj; [|done]. cbn. f_equal.
  unfold resolved. destruct (deps_met succ j) eqn:Hm; [|done].
  assert (Hb : job_status j = BLOCKED) by (unfold deps_met in Hm; by breflect).
  destruct (Hset _ _ Hj Hb) as (d & Hd & Hno). exfalso.
  pose proof (deps_met_in _ _ Hm Hd) as Hin. apply Hsucc in Hin as (jd & Hjd & Hs). by eapply Hno.
Qed.
End resolution.

Lemma resolve_inv o :
  inv o ->
  exists o', on_store resolve_dependencies o = (Ret tt, o') /\ inv o' /\ settled (store o')
    /\ total (store o') = total (store o) /\ calls o' = calls o /\ step_map o' = step_map o
    /\ (quiet (store o) -> quiet (store o'))
    /\ (settled (store o) -> store o' = store o).
Proof.
  intros Hi. destruct (resolve_spec (store o) (inv_store _ Hi)) as (s' & E & Hw & Hk & Hget).
  set (succ := succeeded_keys (PyDict.values (store o))) in *.
  assert (Hsucc : forall d, d ∈ succ <-> exists jd, PyDict.get (jid d) (store o) = Some jd /\ job_status jd = SUCCEEDED).
  { intros d. unfold succ. rewrite elem_of_succeeded by apply Hi. split.
    - intros (i & j & Hj & Hs & <-). destruct (inv_jobs _ Hi _ _ Hj) as (t & _ & -> & Ep & _).
      rewrite Ep. by exists j.
    - intros (jd & Hj & Hs). destruct (inv_jobs _ Hi _ _ Hj) as (t & _ & Ei & Ep & _).
      apply jid_inj in Ei. exists (jid d), jd. by rewrite Ep. }
  exists (mkOrch s' (step_map o) (calls o) (gate_calls o)).
  split; [unfold on_store; by rewrite E|].
  split_and!; cbn; eauto using resolved_state_inv, resolved_settled, resolved_total, resolved_quiet, resolved_same.
Qed.

Lemma targets_ready o :
  inv o ->
  let l := Jobs.leaseable_loop now (PyDict.values (store o)) [] [] in
  ready_targets o (targets_of (step_map o) l)
  /\ (targets_of (step_map o) l = [] -> forall i j, PyDict.get i (store o) = Some j -> job_status j <> READY).
Proof.
  intros Hi l.
  assert (Hl : forall j, j ∈ l -> exists s, s ∈ P /\ PyDict.get (plan_step_key j) (step_map o) = Some s
      /\ plan_step_key j = step_key s /\ job_id j = jid (step_key s)
      /\ PyDict.get (jid (step_key s)) (store o) = Some j /\ Jobs.can_lease now j = true).
  { intros j [Hv Hc]%Jobs.leaseable_elem. apply values_get in Hv; [|apply Hi].
    destruct (inv_jobs _ Hi _ _ Hv) as (s & Hs & Ei & Ep & _). exists s. rewrite Ep, <- Ei.
    split_and!; try done. by apply (inv_steps _ Hi). }
  assert (Hnd : NoDup (job_id <$> l)) by (apply Jobs.leaseable_nodup, Hi).
  split; [split|].
  - unfold targets_of. clearbody l. induction l as [|j l IH]; cbn; [constructor|].
    rewrite fmap_cons in Hnd. apply NoDup_cons in Hnd as [Hni Hnd].
    destruct (Hl j ltac:(left)) as (s & Hs & -> & Ep & Eid & _). cbn.
    apply NoDup_cons. split; [|apply IH; [|done]; intros j' Hj'; apply Hl; by right].
    intros (t & Et & Ht)%list_elem_of_fmap. destruct t as [j' s']. cbn in Et.
    apply list_elem_of_omap in Ht as (j1 & Hj1 & E).
    destruct (Hl j1 ltac:(by right)) as (s1 & _ & E1 & _ & Eid1 & _). rewrite E1 in E.
    injection E as <- <-. apply Hni, list_elem_of_fmap. exists j1. split; [congruence|done].
  - intros j s (j1 & Hj1 & E)%list_elem_of_omap.
    destruct (Hl j1 Hj1) as (s1 & Hs & E1 & _ & Eid & Hg & Hc). rewrite E1 in E. injection E as <- <-.
    split_and!; [done..|]. by exists j1.
  - intros E i j Hj Hr.
    assert (Hin : j ∈ l).
    { apply Jobs.leaseable_elem. split.
      - apply PyDict.values_In; [apply (inv_store _ Hi)|by eexists].
      - unfold Jobs.can_lease. by rewrite bool_decide_true. }
    destruct (Hl j Hin) as (s & _ & Es & _).
    assert (Ht : (j, s) ∈ targets_of (step_map o) l).
    { apply list_elem_of_omap. exists j. by rewrite Es. }
    rewrite E in Ht. by apply elem_of_nil in Ht.
Qed.

Lemma execute_ready_spec o :
  inv o ->
  exists r o', execute_ready o = (r, o') /\ inv o'
  /\ (fails_by_step_failure -> quiet (store o) ->
      quiet (store o')
      /\ match r with
         | Ret rs => settled (store o') /\ (total (store o') + length rs <= total (store o))%nat
             /\ (rs = [] -> (forall i j, PyDict.get i (store o) = Some j -> job_status j <> READY)
                  /\ (settled (store o) -> store o' = store o))
         | Raise e => is_gate_signal e = true /\ step_gate <> None
             /\ exists i j, PyDict.get i (store o') = Some j /\ job_status j = READY
         end).
Proof.
  intros Hi. destruct (targets_ready o Hi) as [Hready Hnone].
  set (l := Jobs.leaseable_loop now (PyDict.values (store o)) [] []) in *.
  set (ts := targets_of (step_map o) l) in *.
  destruct (run_targets_spec ts o Hi Hready) as (r & o1 & E & Hi1 & Hq1).
  assert (Hrun : execute_ready o = (rs ← run_targets ts; on_store resolve_dependencies;; mret rs) o).
  { unfold execute_ready, on_store, mbind, M_bind, get. cbn. by destruct o. }
  rewrite Hrun. unfold mbind at 1, M_bind at 1. rewrite E. destruct r as [rs|e]; cycle 1.
  { exists (Raise e), o1. split_and!; [done..|]. intros Hne Hq. by apply Hq1. }
  destruct (resolve_inv o1 Hi1) as (o2 & E2 & Hi2 & Hset & Htot & _ & _ & Hqq & Hsame).
  exists (Ret rs), o2. unfold mbind, M_bind. rewrite E2. split_and!; [done..|].
  intros Hne Hq. destruct (Hq1 Hne Hq) as (Hq' & Hlen & Hle).
  split; [by apply Hqq|]. split_and!; [done|rewrite Htot, Hlen; lia|].
  intros ->. destruct ts as [|t ts']; [|done]. split; [by apply Hnone|].
  intros Hs. cbn in E. injection E as <-. by apply Hsame.
Qed.

Lemma execute_ready_spent o :
  inv o -> quiet (store o) -> spent (execute_ready o).1 (store (execute_ready o).2).
Proof.
  intros Hi Hq. destruct (targets_ready o Hi) as [Hready _].
  pose proof (run_targets_spent _ o Hi Hready Hq) as H. destruct (run_targets_spec _ o Hi Hready) as (r & o1 & E & Hi1 & _).
  assert (Hrun : execute_ready o = (rs ← run_targets (targets_of (step_map o) (Jobs.leaseable_loop now (PyDict.values (store o)) [] []));
                                    on_store resolve_dependencies;; mret rs) o).
  { unfold execute_ready, on_store, mbind, M_bind, get. cbn. by destruct o. }
  rewrite Hrun. unfold mbind, M_bind. rewrite E in *. destruct r as [rs|e]; [|exact H].
  destruct (resolve_inv o1 Hi1) as (o2 & E2 & _ & _ & _ & _ & _ & Hqq & _).
  rewrite E2. apply quiet_spent, Hqq. by apply H.
Qed.

(** ** The drain loop *)

Lemma run_to_completion_inv n o : inv o -> inv (run_to_completion n o).2.
Proof.
  revert o; induction n as [|n IH]; intros o Hi; cbn; [done|].
  destruct (execute_ready_spec o Hi) as (r & o' & -> & Hi' & _).
  destruct r as [[|j rs]|e]; [done|by apply IH|destruct e; done].
Qed.

Lemma run_to_completion_spent n o :
  inv o -> quiet (store o) -> within_attempts (store (run_to_completion n o).2).
Proof.
  revert o; induction n as [|n IH]; intros o Hi Hq; cbn [run_to_completion].
  { apply (quiet_spent (Ret tt) _ Hq). }
  destruct (execute_ready_spec o Hi) as (r & o' & E & Hi' & _). pose proof (execute_ready_spent o Hi Hq) as [Hw Hq'].
  rewrite E in *. cbn [fst snd] in *. destruct r as [[|j rs]|e]; [exact Hw|by apply IH, Hq'|by destruct e].
Qed.

(** Nothing is left to run. *)
Definition drained (st : Jobs.Store) : Prop :=
  quiet st /\ settled st /\ forall i j, PyDict.get i st = Some j -> job_status j <> READY.

(** Ready to go on: settled, or with a READY job whose round will settle. *)
Definition resumable (st : Jobs.Store) : Prop :=
  settled st \/ exists i j, PyDict.get i st = Some j /\ job_status j = READY.

Lemma run_to_completion_drains n o :
  inv o -> quiet (store o) -> resumable (store o) -> fails_by_step_failure -> step_gate = None ->
  (total (store o) < n)%nat ->
  exists o', run_to_completion n o = (Ret "completed", o') /\ inv o' /\ drained (store o').
Proof.
  revert o; induction n as [|n IH]; intros o Hi Hq Hs Hne Hgate Hlt; [lia|]. cbn.
  destruct (execute_ready_spec o Hi) as (r & o' & -> & Hi' & Hr).
  destruct (Hr Hne Hq) as [Hq' Hcase]. destruct r as [[|j rs]|e].
  - exists o'. destruct Hcase as (Hs' & _ & Hempty). destruct (Hempty eq_refl) as [Hno Hsame].
    destruct Hs as [Hs|(i & j & Hj & Hjr)]; [|by apply Hno in Hj].
    split_and!; [done..|]. rewrite (Hsame Hs) in *. done.
  - destruct Hcase as (Hs' & Hle & _). cbn [length] in Hle. apply IH; try done; [by left|lia].
  - by destruct Hcase as (_ & ? & _).
Qed.

(** Between rounds, and at every pause, the plan can be resumed. *)
Lemma run_to_completion_resumable n o :
  inv o -> quiet (store o) -> resumable (store o) -> fails_by_step_failure ->
  quiet (store (run_to_completion n o).2) /\ resumable (store (run_to_completion n o).2)
  /\ exists res, (run_to_completion n o).1 = Ret res /\ res ∈ ["completed"; "paused"; "cancelled"].
Proof.
  revert o; induction n as [|n IH]; intros o Hi Hq Hs Hne; cbn.
  { split_and!; [done..|]. eexists. split; [done|set_solver]. }
  destruct (execute_ready_spec o Hi) as (r & o' & -> & Hi' & Hr).
  destruct (Hr Hne Hq) as [Hq' Hcase]. destruct r as [[|j rs]|e].
  - destruct Hcase as (Hs' & _). cbn in *. split_and!; [done|by left|].
    eexists. split; [done|set_solver].
  - destruct Hcase as (Hs' & _). apply IH; try done. by left.
  - destruct Hcase as (Hsig & _ & Hready).
    destruct e; try discriminate Hsig; cbn; (split_and!; [done|by right|]);
      eexists; (split; [done|set_solver]).
Qed.

(** The measure is at most three attempts per step. *)
Lemma total_bound o : inv o -> (total (store o) <= 3 * length P)%nat.
Proof.
  intros Hi. unfold total.
  assert (H : forall l, (sum_list_with (weight_at (store o)) l <= 3 * length l)%nat); [|apply H].
  induction l as [|s l IH]; [done|]. cbn [sum_list_with length].
  enough (weight_at (store o) s <= 3)%nat by lia. unfold weight_at.
  destruct (PyDict.get _ (store o)) as [j|] eqn:Hj; cbn; [|lia].
  destruct (inv_jobs _ Hi _ _ Hj) as (_ & _ & _ & _ & _ & Hm & _).
  pose proof (inv_attempt _ Hi _ _ Hj) as Ha. unfold weight, runs in *. case_match; lia.
Qed.

(** What a drained plan looks like. *)
Definition failed (st : Jobs.Store) (k : string) : Prop :=
  exists j, PyDict.get (jid k) st = Some j /\ job_status j ∈ [FAILED; POLICY_DENIED].

Lemma drained_outcome o s :
  inv o -> drained (store o) -> s ∈ P ->
  exists j, PyDict.get (jid (step_key s)) (store o) = Some j /\
    (job_status j = SUCCEEDED
     \/ job_status j ∈ [FAILED; POLICY_DENIED]
     \/ (job_status j = BLOCKED /\ attempt j = 0
         /\ exists k, tc (Plan.depends P) (step_key s) k /\ failed (store o) k)).
Proof.
  intros Hi (Hq & Hs & Hr) Hin. remember (step_key s) as k eqn:Ek.
  revert s Hin Ek. induction (Plan.plan_wf_Acc P k P_wf) as [k _ IH]. intros s Hin ->.
  destruct (inv_all _ Hi s Hin) as [j Hj]. exists j. split; [done|].
  destruct (inv_status _ Hi _ _ Hj) as (Hst & Hb & _).
  destruct (Hq _ _ Hj) as [Hnl _]. specialize (Hr _ _ Hj).
  destruct (decide (job_status j = BLOCKED)) as [E|E]; [|set_solver].
  right; right. split_and!; [done|by apply Hb|].
  destruct (Hs _ _ Hj E) as (d & Hd & Hno).
  destruct (inv_jobs _ Hi _ _ Hj) as (s' & Hs' & Ei & _ & Hdeps & _). apply jid_inj in Ei.
  apply key_inj in Ei as <-; [|done..]. rewrite Hdeps in Hd.
  assert (Hdep : Plan.depends P (step_key s) d) by (by exists s).
  apply (Plan.wf_known _ P_wf) in Hdep as Hk. unfold Plan.keys in Hk.
  apply list_elem_of_fmap in Hk as (t & -> & Ht).
  destruct (IH (step_key t) Hdep t Ht eq_refl) as (jt & Hjt & [Hss|[Hf|(_ & _ & k & Hk & Hf)]]).
  - by apply Hno in Hjt.
  - exists (step_key t). split; [by apply tc_once|]. by exists jt.
  - exists k. split; [|done]. by eapply tc_l.
Qed.

(** ** Dispatch *)

Definition dispatched (l : list PlanStep) (c : list PlanStep) (g : nat) : Orch :=
  mkOrch ((fun s => (jid (step_key s), job_of dg s)) <$> l) ((fun s => (step_key s, s)) <$> l) c g.

Definition start_of (c : list PlanStep) (g : nat) : Orch := mkOrch [] [] c g.

Definition dispatch_step (st : PlanStep) : M Orch Job :=
  j ← on_store (JobService.add (job_of dg st)); register st;; mret j.

Lemma idem_inj k k' : dg +:+ ":" +:+ k = dg +:+ ":" +:+ k' -> k = k'.
Proof. intros H%PyStr.app_inv_head. by apply PyStr.app_inv_head in H. Qed.

Lemma dispatch_step_new l s c g :
  step_key s ∉ step_key <$> l ->
  dispatch_step s (dispatched l c g) = (Ret (job_of dg s), dispatched (l ++ [s]) c g).
Proof.
  intros Hni. unfold dispatch_step, on_store, register, mbind, M_bind, modify, mret, M_ret,
    JobService.add, Jobs.add. cbn.
  destruct (List.find _ _) as [e|] eqn:E.
  - exfalso. apply List.find_some in E as [Hin Hk]. breflect.
    unfold PyDict.values in Hin. apply list_elem_of_In in Hin. rewrite <- list_fmap_compose in Hin.
    apply list_elem_of_fmap in Hin as (t & -> & Ht). cbn in Hk. apply idem_inj in Hk.
    apply Hni. rewrite <- Hk. apply list_elem_of_fmap. by exists t.
  - cbn. unfold dispatched. rewrite !fmap_app. cbn. do 2 f_equal; apply PyDict.keys_set_notin;
      unfold PyDict.keys; rewrite <- list_fmap_compose.
    + intros (t & E' & Ht)%list_elem_of_fmap. cbn in E'. apply Hni, list_elem_of_fmap. exists t.
      split; [by apply jid_inj|done].
    + intros (t & E' & Ht)%list_elem_of_fmap. apply Hni, list_elem_of_fmap. by exists t.
Qed.

Lemma dispatch_loop l l' c g :
  NoDup (step_key <$> l ++ l') ->
  mapM_state dispatch_step l' (dispatched l c g) = (Ret (job_of dg <$> l'), dispatched (l ++ l') c g).
Proof.
  revert l; induction l' as [|s l' IH]; intros l Hnd; cbn; [by rewrite app_nil_r|].
  unfold mbind at 1, M_bind at 1. rewrite dispatch_step_new.
  - unfold mbind, M_bind. rewrite IH; rewrite <- (assoc_L (++)); done.
  - rewrite fmap_app in Hnd. apply NoDup_app in Hnd as (_ & Hd & _).
    intros Hin. apply (Hd _ Hin). left.
Qed.

Lemma dispatch_spec plan g :
  steps plan = P -> plan_digest plan = dg ->
  dispatch plan (start_of [] g) = (Ret (job_of dg <$> P), dispatched P [] g).
Proof.
  intros E1 E2. unfold dispatch. rewrite E1, E2. apply (dispatch_loop [] P). apply P_wf.
Qed.

Lemma dispatched_get g i j :
  PyDict.get i (store (dispatched P [] g)) = Some j <->
  exists s, s ∈ P /\ i = jid (step_key s) /\ j = job_of dg s.
Proof.
  cbn. rewrite PyDict.get_In.
  - rewrite list_elem_of_fmap. naive_solver.
  - unfold PyDict.wf, PyDict.keys. rewrite <- list_fmap_compose.
    change (fst ∘ _) with (jid ∘ step_key). rewrite list_fmap_compose.
    apply NoDup_fmap_2; [intros ??; apply jid_inj|apply P_wf].
Qed.

Lemma dispatched_inv g :
  inv (dispatched P [] g) /\ quiet (store (dispatched P [] g)) /\ settled (store (dispatched P [] g)).
Proof.
  assert (Hnoss : forall s, job_status (job_of dg s) <> SUCCEEDED /\ job_status (job_of dg s) <> LEASED
    /\ (job_status (job_of dg s) = BLOCKED <-> dependencies s <> [])).
  { intros s. cbn. case_bool_decide; naive_solver. }
  assert (Hall : forall s, s ∈ P -> PyDict.get (jid (step_key s)) (store (dispatched P [] g)) = Some (job_of dg s)).
  { intros s Hs. apply dispatched_get. by exists s. }
  split; [split|split].
  - split.
    + unfold PyDict.wf, PyDict.keys. cbn. rewrite <- list_fmap_compose.
      change (fst ∘ _) with (jid ∘ step_key). rewrite list_fmap_compose.
      apply NoDup_fmap_2; [intros ??; apply jid_inj|apply P_wf].
    + by intros i j (s & Hs & -> & ->)%dispatched_get.
    + intros i i' j j' (s & Hs & -> & ->)%dispatched_get (s' & Hs' & -> & ->)%dispatched_get E.
      cbn in E. apply idem_inj in E. by rewrite E.
  - intros k s. cbn. rewrite PyDict.get_In, list_elem_of_fmap; [naive_solver|].
    unfold PyDict.wf, PyDict.keys. rewrite <- list_fmap_compose. apply P_wf.
  - intros i j (s & Hs & -> & ->)%dispatched_get. by exists s.
  - intros s Hs. rewrite Hall by done. by eexists.
  - intros i j (s & Hs & -> & ->)%dispatched_get Hb d Hd. exfalso.
    apply Hb, Hnoss. intros E. cbn in Hd. rewrite E in Hd. by apply elem_of_nil in Hd.
  - intros i j (s & Hs & -> & ->)%dispatched_get Hss. by apply Hnoss in Hss.
  - intros i j (s & Hs & -> & ->)%dispatched_get. cbn. case_bool_decide; (split; [set_solver|done]).
  - intros i j (s & Hs & -> & ->)%dispatched_get. done.
  - intros l1 s l2 E. by destruct l1.
  - intros s Hs. by apply elem_of_nil in Hs.
  - intros l1 s l2 E. by destruct l1.
  - intros i j (s & Hs & -> & ->)%dispatched_get. split; [apply Hnoss|done].
  - intros i j (s & Hs & -> & ->)%dispatched_get Hb. apply Hnoss in Hb.
    cbn. destruct (dependencies s) as [|d ds] eqn:E; [done|]. exists d. split; [left|].
    intros jd (t & _ & _ & ->)%(dispatched_get g). apply Hnoss.
Qed.

(** Dispatching a step whose job is stored gives that job back. *)
Lemma redispatch_step s o c g m :
  inv o -> s ∈ P ->
  exists j, PyDict.get (jid (step_key s)) (store o) = Some j
    /\ dispatch_step s (mkOrch (store o) m c g)
       = (Ret j, mkOrch (store o) (PyDict.set (step_key s) s m) c g).
Proof.
  intros Hi Hs. destruct (inv_all _ Hi s Hs) as [j Hj]. exists j. split; [done|].
  destruct (inv_jobs _ Hi _ _ Hj) as (s' & _ & Ei & _ & _ & _ & Hik). apply jid_inj in Ei.
  unfold dispatch_step, on_store, register, mbind, M_bind, modify, mret, M_ret, JobService.add, Jobs.add. cbn.
  destruct (List.find _ _) as [e|] eqn:E.
  - apply List.find_some in E as [Hin Hk]. breflect. cbn in Hk.
    apply list_elem_of_In, PyDict.values_In in Hin as [k He]; [|apply Hi].
    assert (k = jid (step_key s)) as ->.
    { apply (Jobs.wf_idem _ (inv_store _ Hi) _ _ _ _ He Hj). by rewrite Hk, Hik, Ei. }
    rewrite Hj in He. injection He as <-. done.
  - exfalso. eapply List.find_none in E; [|apply list_elem_of_In, PyDict.values_In; [apply Hi|by eexists]].
    breflect. cbn in E. by rewrite Hik, Ei in E.
Qed.

Lemma redispatch_loop l o c g m :
  inv o -> (forall s, s ∈ l -> s ∈ P) ->
  exists js m', mapM_state dispatch_step l (mkOrch (store o) m c g) = (Ret js, mkOrch (store o) m' c g)
    /\ Forall2 (fun s j => PyDict.get (jid (step_key s)) (store o) = Some j) l js
    /\ forall k, PyDict.get k m' = match List.find (fun s => bool_decide (step_key s = k)) l with
                                  | Some s => Some s
                                  | None => PyDict.get k m
                                  end.
Proof.
  intros Hi. revert m; induction l as [|s l IH]; intros m Hl; cbn.
  { exists [], m. split_and!; [done|constructor|done]. }
  unfold mbind at 1, M_bind at 1.
  destruct (redispatch_step s o c g m Hi (Hl s ltac:(left))) as (j & Hj & ->).
  destruct (IH (PyDict.set (step_key s) s m) (fun t Ht => Hl t ltac:(by right))) as (js & m' & E & Hf & Hm).
  exists (j :: js), m'. unfold mbind, M_bind. rewrite E. split_and!; [done|by constructor|].
  intros k. rewrite Hm, PyDict.get_set. destruct (List.find _ l) as [t|] eqn:Ef.
  - case_bool_decide as Ek; [|done]. apply List.find_some in Ef as [Ht Etk]. breflect.
    f_equal. apply key_inj; [apply Hl; right; by apply list_elem_of_In|apply Hl; left|congruence].
  - case_decide; case_bool_decide; done.
Qed.

End plan.

(** ** Theorems *)

(** The state after dispatching [plan] into an empty store and draining it
    for at most [n] rounds. *)
Definition dispatch_and_run (plan : ExecutionPlan) (n : nat) : Orch :=
  (run_to_completion n (dispatch plan (start_of [] 0)).2).2.

Definition job_status_in (o : Orch) (k : string) (l : list JobStatus) : Prop :=
  exists j, PyDict.get (jid k) (store o) = Some j /\ job_status j ∈ l.

Lemma dispatch_and_run_inv plan n :
  Plan.plan_wf (steps plan) -> inv (steps plan) (plan_digest plan) (dispatch_and_run plan n).
Proof.
  intros Hw. unfold dispatch_and_run.
  rewrite (dispatch_spec (steps plan) (plan_digest plan) Hw plan 0 eq_refl eq_refl). cbn [snd].
  apply run_to_completion_inv; [done|]. by apply dispatched_inv.
Qed.

(** C8: dependencies first. However the runner answers, whatever the gate
    decides and however many rounds are run, every call of the runner is for
    a step of the plan, and all the steps it depends on were called before
    it; and no job leaves BLOCKED unless all its dependencies SUCCEEDED. *)
Theorem steps_run_after_their_dependencies plan n :
  Plan.plan_wf (steps plan) ->
  let o := dispatch_and_run plan n in
  (forall s, s ∈ calls o -> s ∈ steps plan)
  /\ (forall l1 s l2, calls o = l1 ++ s :: l2 -> forall d, d ∈ dependencies s -> d ∈ step_key <$> l2)
  /\ (forall s, s ∈ steps plan ->
        job_status_in o (step_key s) [READY; LEASED; SUCCEEDED; FAILED; POLICY_DENIED] ->
        forall d, d ∈ dependencies s -> job_status_in o d [SUCCEEDED]).
Proof.
  intros Hw o. pose proof (dispatch_and_run_inv plan n Hw) as Hi. fold o in Hi.
  split_and!; [apply Hi|apply Hi|]. intros s Hs (j & Hj & Hst) d Hd.
  destruct (inv_jobs _ _ _ Hi _ _ Hj) as (s' & Hs' & Ei & _ & Hdeps & _).
  apply jid_inj, (key_inj _ Hw) in Ei as <-; [|done..].
  destruct (inv_unblocked _ _ _ Hi _ _ Hj) with (d := d) as (jd & Hjd & Hss); [|by rewrite Hdeps|].
  { intros E. rewrite E in Hst. set_solver. }
  exists jd. rewrite Hss. split; [done|set_solver].
Qed.

(** No step is run more than three times: an exception the runner does not
    turn into a [StepFailure] ends the run. *)
Lemma runs_at_most_three plan n :
  Plan.plan_wf (steps plan) ->
  forall s, s ∈ steps plan -> runs (step_key s) (calls (dispatch_and_run plan n)) <= 3.
Proof.
  intros Hw s Hs. pose proof (dispatch_and_run_inv plan n Hw) as Hi.
  destruct (inv_all _ _ _ Hi s Hs) as [j Hj].
  destruct (inv_jobs _ _ _ Hi _ _ Hj) as (s' & _ & Ei & Ep & _). apply jid_inj in Ei.
  rewrite Ei, <- Ep, <- (inv_attempt _ _ _ Hi _ _ Hj).
  enough (within_attempts (store (dispatch_and_run plan n))) as H by by apply (H _ _ Hj).
  unfold dispatch_and_run.
  rewrite (dispatch_spec (steps plan) (plan_digest plan) Hw plan 0 eq_refl eq_refl). cbn [snd].
  destruct (dispatched_inv _ (plan_digest plan) Hw 0) as (Hi0 & Hq0 & _).
  by apply (run_to_completion_spent _ _ Hw n _ Hi0 Hq0).
Qed.

(** bounded retries. Whatever the runner does, a step is run at most three
    times; and once a run of it succeeded, was denied by policy, or failed for
    any other reason than an unavailable worker or a timeout, it is never run
    again. *)
Theorem retries_are_bounded plan n :
  Plan.plan_wf (steps plan) ->
  let o := dispatch_and_run plan n in
  (forall s, s ∈ steps plan -> runs (step_key s) (calls o) <= 3)
  /\ (forall l1 s l2, calls o = l1 ++ s :: l2 -> final_result (runner l2 s) = true -> s ∉ l1).
Proof.
  intros Hw o. pose proof (dispatch_and_run_inv plan n Hw) as Hi. fold o in Hi. split.
  - by apply runs_at_most_three.
  - intros l1 s l2 E Hf. by destruct (inv_final _ _ _ Hi _ _ _ E Hf).
Qed.

(** restart is safe. A new orchestrator over the same job store, after
    any execution (paused, cancelled or interrupted), dispatches the same
    plan without creating or resetting a job: it gets back the stored job of
    every step, the store is unchanged, and it knows the same steps. *)
Theorem redispatch_changes_nothing plan n c g :
  Plan.plan_wf (steps plan) ->
  let o := dispatch_and_run plan n in
  exists js m, dispatch plan (mkOrch (store o) [] c g) = (Ret js, mkOrch (store o) m c g)
    /\ Forall2 (fun s j => PyDict.get (jid (step_key s)) (store o) = Some j) (steps plan) js
    /\ forall k, PyDict.get k m = PyDict.get k (step_map o).
Proof.
  intros Hw o. pose proof (dispatch_and_run_inv plan n Hw) as Hi. fold o in Hi.
  destruct (redispatch_loop _ _ Hw (steps plan) o c g [] Hi) as (js & m & E & Hf & Hm); [done|].
  exists js, m. split_and!; [exact E|done|]. intros k. rewrite Hm.
  destruct (List.find _ _) as [s|] eqn:Ef.
  - apply List.find_some in Ef as [Hs Hk]. breflect. symmetry. apply (inv_steps _ _ _ Hi).
    split; [by apply list_elem_of_In|done].
  - destruct (PyDict.get k (step_map o)) as [s|] eqn:Es; [|done].
    apply (inv_steps _ _ _ Hi) in Es as [Hs Hk].
    eapply List.find_none in Ef; [|by apply list_elem_of_In]. by breflect.
Qed.

End run.

(** ** Runs of one plan, one after the other *)

(** One call of [run_to_completion]: the gate it is given, the worker, the
    time and the limit of rounds. *)
Record Run : Type := mkRun {
  r_gate : option (nat -> option string);
  r_owner : string;
  r_now : datetime;
  r_rounds : nat
}.

Definition resume (ttl : Z) (runner : list PlanStep -> PlanStep -> run_result) (r : Run) : M Orch string :=
  run_to_completion ttl runner (r_gate r) (r_owner r) (r_now r) (r_rounds r).

Definition after_runs (ttl : Z) (runner : list PlanStep -> PlanStep -> run_result) (rs : list Run) (o : Orch) : Orch :=
  foldl (fun o r => (resume ttl runner r o).2) o rs.

Lemma after_runs_resumable ttl runner P dg (Hw : Plan.plan_wf P) rs : fails_by_step_failure runner ->
  forall o, inv runner P dg o -> quiet (store o) -> resumable (store o) ->
  let o' := after_runs ttl runner rs o in inv runner P dg o' /\ quiet (store o') /\ resumable (store o').
Proof.
  intros Hne. induction rs as [|r rs IH]; intros o Hi Hq Hr; [done|]. cbn.
  destruct (run_to_completion_resumable ttl runner (r_gate r) (r_owner r) (r_now r) _ _ Hw (r_rounds r) o Hi Hq Hr Hne)
    as (Hq' & Hr' & _).
  apply IH; [|done..]. exact (run_to_completion_inv ttl runner (r_gate r) (r_owner r) (r_now r) _ _ Hw (r_rounds r) o Hi).
Qed.

(** C13: every plan drains, across pauses. Dispatch a well-formed plan and
    run it any number of times, each time with any gate, any limit of rounds
    and at any moment; with a runner that fails only by [StepFailure] every
    such run answers completed, paused or cancelled and never raises. Run it
    then without a gate, with more rounds than three per step: it answers
    completed, and each step has SUCCEEDED, or FAILED or been POLICY_DENIED
    itself, or was never run because a step it (transitively) depends on
    failed. *)
Theorem every_plan_drains ttl runner plan rs :
  Plan.plan_wf (steps plan) -> fails_by_step_failure runner ->
  let o := after_runs ttl runner rs (dispatch plan (start_of [] 0)).2 in
  (forall r, exists res, (resume ttl runner r o).1 = Ret res /\ res ∈ ["completed"; "paused"; "cancelled"])
  /\ forall owner now n, (3 * length (steps plan) < n)%nat ->
  exists o', resume ttl runner (mkRun None owner now n) o = (Ret "completed", o')
  /\ forall s, s ∈ steps plan ->
      job_status_in o' (step_key s) [SUCCEEDED; FAILED; POLICY_DENIED]
      \/ (job_status_in o' (step_key s) [BLOCKED] /\ runs (step_key s) (calls o') = 0
          /\ exists k, tc (Plan.depends (steps plan)) (step_key s) k /\ job_status_in o' k [FAILED; POLICY_DENIED]).
Proof.
  intros Hw Hne o. destruct (dispatched_inv runner _ (plan_digest plan) Hw 0) as (Hi0 & Hq0 & Hs0).
  assert (inv runner (steps plan) (plan_digest plan) o /\ quiet (store o) /\ resumable (store o)) as (Hi & Hq & Hres).
  { unfold o. rewrite (dispatch_spec (steps plan) (plan_digest plan) Hw plan 0 eq_refl eq_refl). cbn [snd].
    exact (after_runs_resumable ttl runner _ _ Hw rs Hne _ Hi0 Hq0 (or_introl Hs0)). }
  split.
  { intros r. by apply (run_to_completion_resumable ttl runner (r_gate r) (r_owner r) (r_now r) _ _ Hw (r_rounds r) o Hi Hq Hres Hne). }
  intros owner now n Hn.
  destruct (run_to_completion_drains ttl runner None owner now _ _ Hw n _ Hi Hq Hres Hne eq_refl) as (o' & E & Hi' & Hd).
  { pose proof (total_bound runner _ _ _ Hi). lia. }
  exists o'. split; [exact E|]. intros s Hs.
  destruct (drained_outcome _ _ _ Hw o' s Hi' Hd Hs) as (j & Hj & [Hss|[Hf|(Hb & Ha & k & Hk & Hf)]]).
  - left. exists j. rewrite Hss. split; [done|set_solver].
  - left. exists j. split; [done|set_solver].
  - right. split_and!; [exists j; rewrite Hb; split; [done|set_solver]| |by exists k].
    destruct (inv_jobs _ _ _ _ Hi' _ _ Hj) as (s' & _ & Ei & Ep & _). apply jid_inj in Ei.
    by rewrite Ei, <- Ep, <- (inv_attempt _ _ _ _ Hi' _ _ Hj).
Qed.

(** ** Concrete runs *)

(** A chain of [n] steps, each depending on the one before. *)
Definition chain_step (i : nat) : PlanStep :=
  mkPlanStep (pretty i) "nmap" RiskClass.LOW [] (match i with O => [] | S i' => [pretty i'] end).
Definition chain_plan (n : nat) : ExecutionPlan :=
  mkExecutionPlan "plan-1" "asm-1" 1 (chain_step <$> seq 0 n) "sha256:d".

Definition ok_runner : list PlanStep -> PlanStep -> run_result := fun _ _ => RunOk "r".

(** Fails with a timeout on the first two attempts of step 1. *)
Definition flaky_runner : list PlanStep -> PlanStep -> run_result :=
  fun h s => if bool_decide (step_key s = "1") && (runs "1" h <? 2)
             then RunFailure FailureClass.TIMEOUT else RunOk "r".

(** Pauses the second time it is asked. *)
Definition pause_gate : option (nat -> option string) :=
  Some (fun n => if bool_decide (n = 1%nat) then Some "paused" else None).

(** the round limit can end a run early. [max_rounds] defaults to 100
    and one round executes one level of the dependency graph, so a valid plan
    that is a chain of 101 steps is answered "completed" although its last
    step is still READY and was never run. *)
Theorem long_chain_is_cut_short :
  is_Ret (Plan.create "plan-1" "asm-1" 1 (steps (chain_plan 101))) = true
  /\ (run_to_completion 300 ok_runner None "w" 0 100 (dispatch (chain_plan 101) (start_of [] 0)).2).1
     = Ret "completed"
  /\ (job_status <$> PyDict.get (jid "100") (store (dispatch_and_run 300 ok_runner None "w" 0 (chain_plan 101) 100)))
     = Some READY
  /\ runs "100" (calls (dispatch_and_run 300 ok_runner None "w" 0 (chain_plan 101) 100)) = 0.
Proof. vm_compute. split_and!; reflexivity. Qed.

Lemma chain_wf : Plan.plan_wf (steps (chain_plan 3)).
Proof.
  destruct (Plan.create "p" "a" 1 (steps (chain_plan 3))) as [p|e] eqn:E; [|vm_compute in E; discriminate E].
  by apply Plan.plan_create_Ret in E as (_ & Hw & _).
Qed.

Lemma flaky_fails_by_step_failure : fails_by_step_failure flaky_runner.
Proof. intros h s. unfold flaky_runner. by destruct (_ && _). Qed.

Lemma steps_run_after_their_dependencies_witness :
  let o := dispatch_and_run 300 flaky_runner pause_gate "w" 0 (chain_plan 3) 7 in
  (step_key <$> calls o) = ["0"] /\ forall s, s ∈ calls o -> s ∈ steps (chain_plan 3).
Proof.
  intros o. split; [vm_compute; reflexivity|].
  destruct (steps_run_after_their_dependencies 300 flaky_runner pause_gate "w" 0 (chain_plan 3) 7 chain_wf) as (H & _).
  exact H.
Defined.

Lemma retries_are_bounded_witness :
  let o := dispatch_and_run 300 flaky_runner None "w" 0 (chain_plan 3) 7 in
  (step_key <$> calls o) = ["2"; "1"; "1"; "1"; "0"] /\ runs "1" (calls o) <= 3.
Proof.
  intros o. split; [vm_compute; reflexivity|].
  destruct (retries_are_bounded 300 flaky_runner None "w" 0 (chain_plan 3) 7 chain_wf) as (H & _).
  apply (H (chain_step 1)). right. left.
Defined.

Lemma redispatch_changes_nothing_witness :
  let o := dispatch_and_run 300 flaky_runner pause_gate "w" 0 (chain_plan 3) 7 in
  exists js m, dispatch (chain_plan 3) (mkOrch (store o) [] [] 0) = (Ret js, mkOrch (store o) m [] 0).
Proof.
  destruct (redispatch_changes_nothing 300 flaky_runner pause_gate "w" 0 (chain_plan 3) 7 [] 0 chain_wf)
    as (js & m & H & _).
  exists js, m. exact H.
Defined.

(** Two paused runs, and one of a single round, before the last. *)
Definition demo_pauses : list Run :=
  [mkRun pause_gate "w" 0 7; mkRun (Some (fun _ => Some "paused")) "w1" 3 9; mkRun None "w2" 4 1].

Lemma every_plan_drains_witness :
  let o := after_runs 300 flaky_runner demo_pauses (dispatch (chain_plan 3) (start_of [] 0)).2 in
  (step_key <$> calls o) = ["1"; "0"]
  /\ exists o', resume 300 flaky_runner (mkRun None "w3" 5 10) o = (Ret "completed", o').
Proof.
  intros o. split; [vm_compute; reflexivity|].
  destruct (every_plan_drains 300 flaky_runner (chain_plan 3) demo_pauses chain_wf flaky_fails_by_step_failure) as (_ & H).
  destruct (H "w3" 5 10%nat ltac:(cbn; lia)) as (o' & Ho & _). exists o'. exact Ho.
Defined.

End Orchestrator.
