(* ===== verification/Pool.v ===== *)
(** * Concurrent execution of a round

    Models the [ThreadPoolExecutor] branch of [execute_ready] in
    [src/secopent/application/orchestrator.py]: the workers of one round run
    [_execute] concurrently on the shared job store.  A store call holds the
    store's lock, so a worker makes two atomic moves, the lease and, after the
    runner answered, the final write; the schedule interleaves the moves of
    the workers in any order. *)
From S2P Require Import Prelude PyStr PyTime Sha256 Canonical Policy PyDict Assessments Jobs Orchestrator.

#[local] Open Scope Z_scope.

Module Pool.
Import JobStatus Orchestrator.

Section pool.
(** The answer of the runner for each step of the round. *)
Context (ttl : Z) (res : PlanStep -> run_result) (owner : string) (now : datetime).

Inductive phase : Type :=
| Todo
| Leased (j : Job)
| Done (r : outcome Job).

Record worker : Type := mkWorker { w_job : Job; w_step : PlanStep; w_phase : phase }.

Definition config : Type := Jobs.Store * list worker.

Definition submit (ts : list (Job * PlanStep)) : list worker :=
  (fun t => mkWorker t.1 t.2 Todo) <$> ts.

(** One atomic move of one worker. *)
Inductive pool_step : config -> config -> Prop :=
| move_lease s s' ws i w r :
    ws !! i = Some w -> w_phase w = Todo ->
    JobService.lease ttl (job_id (w_job w)) owner now s = (r, s') ->
    pool_step (s, ws)
      (s', <[i := mkWorker (w_job w) (w_step w)
                   (match r with Ret l => Leased l | Raise e => Done (Raise e) end)]> ws)
| move_finish s s' ws i w l r :
    ws !! i = Some w -> w_phase w = Leased l ->
    finish (w_job w) l (res (w_step w)) s = (r, s') ->
    pool_step (s, ws) (s', <[i := mkWorker (w_job w) (w_step w) (Done r)]> ws).

Definition all_done (ws : list worker) : Prop := Forall (fun w => exists r, w_phase w = Done r) ws.

(** The outcome a worker ends with when its job was [jc] at the start. *)
Definition expected (jc : Job) (st : PlanStep) : outcome Job :=
  match res st with RunError e => Raise e | _ => Ret (after ttl owner now jc (res st)) end.

Section round.
Context (s0 : Jobs.Store) (ts : list (Job * PlanStep)).
Hypothesis ids_distinct : NoDup ((fun t => job_id t.1) <$> ts).
Hypothesis leaseable_targets : forall j st, (j, st) ∈ ts ->
  exists jc, PyDict.get (job_id j) s0 = Some jc /\ job_id jc = job_id j /\ Jobs.can_lease now jc = true.

(** What the store holds for a worker's job at each phase. *)
Definition phase_ok (s : Jobs.Store) (w : worker) : Prop :=
  exists jc, PyDict.get (job_id (w_job w)) s0 = Some jc /\ job_id jc = job_id (w_job w)
    /\ Jobs.can_lease now jc = true
    /\ match w_phase w with
       | Todo => PyDict.get (job_id (w_job w)) s = Some jc
       | Leased l => l = Jobs.leased ttl owner now jc /\ PyDict.get (job_id (w_job w)) s = Some l
       | Done r => r = expected jc (w_step w)
                   /\ PyDict.get (job_id (w_job w)) s = Some (after ttl owner now jc (res (w_step w)))
       end.

Record pool_inv (c : config) : Prop := {
  pi_keys : PyDict.keys c.1 = PyDict.keys s0;
  pi_workers : (fun w => (w_job w, w_step w)) <$> c.2 = ts;
  pi_phase : forall w, w ∈ c.2 -> phase_ok c.1 w;
  pi_rest : forall k, k ∉ (fun t => job_id t.1) <$> ts -> PyDict.get k c.1 = PyDict.get k s0
}.

Lemma worker_ids c : pool_inv c -> (fun w => job_id (w_job w)) <$> c.2 = (fun t => job_id t.1) <$> ts.
Proof. intros H. rewrite <- (pi_workers _ H), <- list_fmap_compose. done. Qed.

(** A worker's move writes its own job and keeps the invariant. *)
Lemma move_inv s ws i w v p :
  pool_inv (s, ws) -> ws !! i = Some w ->
  phase_ok (PyDict.set (job_id (w_job w)) v s) (mkWorker (w_job w) (w_step w) p) ->
  pool_inv (PyDict.set (job_id (w_job w)) v s, <[i := mkWorker (w_job w) (w_step w) p]> ws).
Proof.
  intros Hi Hw Hp.
  assert (Hin : w ∈ ws) by by eapply list_elem_of_lookup_2.
  assert (Hkey : job_id (w_job w) ∈ PyDict.keys s0).
  { destruct (pi_phase _ Hi w Hin) as (jc & Hg & _). by eapply PyDict.get_Some_keys. }
  split; cbn [fst snd].
  - rewrite PyDict.keys_set_in; [apply (pi_keys _ Hi)|]. by rewrite (pi_keys _ Hi : PyDict.keys s = _).
  - rewrite list_fmap_insert. cbn. rewrite list_insert_id; [apply (pi_workers _ Hi)|].
    cbn. rewrite list_lookup_fmap, Hw. done.
  - intros w' Hw'. apply list_elem_of_lookup in Hw' as [i' Hi'].
    destruct (decide (i = i')) as [<-|Hne].
    + rewrite list_lookup_insert_eq in Hi' by by eapply lookup_lt_Some. injection Hi' as <-. exact Hp.
    + rewrite list_lookup_insert_ne in Hi' by done.
      assert (Hid : job_id (w_job w) <> job_id (w_job w')).
      { intros E. apply Hne. pose proof (worker_ids _ Hi) as Eids. cbn in Eids.
        eapply NoDup_lookup; [rewrite <- Eids in ids_distinct; exact ids_distinct|..];
          rewrite list_lookup_fmap; [by rewrite Hw|by rewrite Hi', E]. }
      destruct (pi_phase _ Hi w' ltac:(by eapply list_elem_of_lookup_2)) as (jc & Hg & Hj & Hc & Hph).
      exists jc. split_and!; [done..|]. rewrite PyDict.get_set_ne by done. exact Hph.
  - intros k Hk. rewrite PyDict.get_set_ne; [by apply (pi_rest _ Hi)|].
    intros <-. apply Hk. rewrite <- (worker_ids _ Hi). apply list_elem_of_fmap. by exists w.
Qed.

Lemma finish_spec j jc r s :
  PyDict.get (job_id j) s = Some (Jobs.leased ttl owner now jc) -> job_id jc = job_id j ->
  exists s', finish j (Jobs.leased ttl owner now jc) r s
    = (match r with RunError e => Raise e | _ => Ret (after ttl owner now jc r) end, s')
    /\ s' = PyDict.set (job_id j) (after ttl owner now jc r) s.
Proof.
  intros Hg Hid. eexists. split; [|reflexivity].
  assert (Hset : forall f, Jobs.set_job (job_id j) f s
    = (Ret (f (Jobs.leased ttl owner now jc)), PyDict.set (job_id j) (f (Jobs.leased ttl owner now jc)) s)).
  { intros f. by rewrite Jobs.set_job_spec, Hg. }
  destruct r as [d|fc|e]; cbn.
  - unfold JobService.complete, Jobs.complete. by rewrite Hset.
  - unfold handle_failure. cbn [job_id Jobs.leased Jobs.with_attempt Jobs.with_lease Jobs.with_status
      attempt max_attempts]. rewrite Hid.
    unfold JobService.fail, Jobs.fail, JobService.requeue, Jobs.requeue.
    repeat case_bool_decide; cbn; try (by rewrite Hset);
      destruct (attempt jc + 1 <? max_attempts jc); by rewrite Hset.
  - unfold raise. f_equal. by rewrite PyDict.set_same.
Qed.

Lemma pool_step_inv c c' : pool_inv c -> pool_step c c' -> pool_inv c'.
Proof.
  intros Hi Hs. destruct Hs as [s s' ws i w r Hw Hp E|s s' ws i w l r Hw Hp E].
  - destruct (pi_phase _ Hi w ltac:(by eapply list_elem_of_lookup_2)) as (jc & Hg & Hid & Hc & Hph).
    cbn in Hph. rewrite Hp in Hph. unfold JobService.lease in E.
    rewrite Jobs.lease_spec, Hph, Hc in E. injection E as <- <-. apply move_inv; [done..|].
    exists jc. cbn. by rewrite PyDict.get_set_eq.
  - destruct (pi_phase _ Hi w ltac:(by eapply list_elem_of_lookup_2)) as (jc & Hg & Hid & Hc & Hph).
    cbn in Hph. rewrite Hp in Hph. destruct Hph as [-> Hph].
    destruct (finish_spec (w_job w) jc (res (w_step w)) s Hph Hid) as (s1 & E' & ->).
    rewrite E' in E. injection E as <- <-. apply move_inv; [done..|].
    exists jc. cbn. by rewrite PyDict.get_set_eq.
Qed.

Lemma submit_inv : pool_inv (s0, submit ts).
Proof.
  split; cbn; [done| | |done].
  - unfold submit. rewrite <- list_fmap_compose. rewrite <- (list_fmap_id ts) at 2.
    apply list_fmap_ext. by intros i [].
  - intros w ([j st] & -> & Hin)%list_elem_of_fmap. cbn.
    destruct (leaseable_targets _ _ Hin) as (jc & Hg & Hid & Hc). by exists jc.
Qed.

Lemma pool_steps_inv c c' : rtc pool_step c c' -> pool_inv c -> pool_inv c'.
Proof. induction 1; [done|]. intros. by apply IHrtc, (pool_step_inv x). Qed.

(** The sequential round, as a function of the store. *)
Fixpoint sequential (l : list (Job * PlanStep)) (s : Jobs.Store) : Jobs.Store :=
  match l with
  | [] => s
  | (j, st) :: l' =>
      sequential l' (match PyDict.get (job_id j) s0 with
                     | Some jc => PyDict.set (job_id j) (after ttl owner now jc (res st)) s
                     | None => s
                     end)
  end.

Lemma sequential_get l s :
  NoDup ((fun t => job_id t.1) <$> l) -> (forall t, t ∈ l -> t ∈ ts) ->
  PyDict.keys s = PyDict.keys s0 ->
  PyDict.keys (sequential l s) = PyDict.keys s0
  /\ (forall k, k ∉ (fun t => job_id t.1) <$> l -> PyDict.get k (sequential l s) = PyDict.get k s)
  /\ forall j st jc, (j, st) ∈ l -> PyDict.get (job_id j) s0 = Some jc ->
       PyDict.get (job_id j) (sequential l s) = Some (after ttl owner now jc (res st)).
Proof.
  revert s; induction l as [|[j st] l IH]; intros s Hnd Hsub Hk.
  { cbn. split_and!; [done..|]. by intros ? ? ? ?%elem_of_nil. }
  rewrite fmap_cons in Hnd. apply NoDup_cons in Hnd as [Hni Hnd]. cbn in Hni.
  destruct (leaseable_targets j st (Hsub _ ltac:(left))) as (jc & Hg & _). cbn. rewrite Hg.
  destruct (IH (PyDict.set (job_id j) (after ttl owner now jc (res st)) s) Hnd) as (Hk' & Hr & Hd).
  { intros t Ht. apply Hsub. by right. }
  { rewrite PyDict.keys_set_in; [done|]. rewrite Hk. by eapply PyDict.get_Some_keys. }
  split_and!; [done|..].
  - intros k [Hne Hk0]%not_elem_of_cons. rewrite Hr by done. by apply PyDict.get_set_ne.
  - intros j' st' jc' [[= -> ->]|Hin]%elem_of_cons Hg'; [|by eapply Hd].
    rewrite Hr by done. rewrite PyDict.get_set_eq. congruence.
Qed.

Lemma pool_final c :
  PyDict.wf s0 -> rtc pool_step (s0, submit ts) c -> all_done c.2 ->
  c.1 = sequential ts s0
  /\ Forall2 (fun t w => exists jc, PyDict.get (job_id t.1) s0 = Some jc
                /\ w_phase w = Done (expected jc t.2)) ts c.2.
Proof.
  intros Hwf Hs Hd. pose proof (pool_steps_inv _ _ Hs submit_inv) as Hi.
  destruct (sequential_get ts s0 ids_distinct (fun t Ht => Ht) eq_refl) as (Hk & Hr & Hg).
  assert (Hw : forall w, w ∈ c.2 -> exists jc, PyDict.get (job_id (w_job w)) s0 = Some jc
     /\ w_phase w = Done (expected jc (w_step w))
     /\ PyDict.get (job_id (w_job w)) c.1 = Some (after ttl owner now jc (res (w_step w)))).
  { intros w Hin. unfold all_done in Hd. rewrite Forall_forall in Hd. destruct (Hd w Hin) as [r Hp].
    destruct (pi_phase _ Hi w Hin) as (jc & Hj & _ & _ & Hph). rewrite Hp in Hph.
    destruct Hph as [-> Hph]. by exists jc. }
  split.
  - apply PyDict.dict_eq.
    + unfold PyDict.wf. by rewrite (pi_keys _ Hi).
    + by rewrite (pi_keys _ Hi), Hk.
    + intros k. destruct (decide (k ∈ (fun t => job_id t.1) <$> ts)) as [Hin|Hni];
        [|by rewrite (pi_rest _ Hi k Hni), Hr].
      rewrite <- (worker_ids _ Hi) in Hin. apply list_elem_of_fmap in Hin as (w & -> & Hin).
      destruct (Hw w Hin) as (jc & Hj & _ & ->). symmetry. apply Hg; [|done].
      rewrite <- (pi_workers _ Hi). apply list_elem_of_fmap. by exists w.
  - rewrite <- (pi_workers _ Hi). apply Forall2_fmap_l, Forall_Forall2_diag, Forall_forall.
    intros w Hin. cbn. destruct (Hw w Hin) as (jc & ? & ? & _). by exists jc.
Qed.

End round.

(** ** No schedule gets stuck *)
Definition moves_left (w : worker) : nat :=
  match w_phase w with Todo => 2 | Leased _ => 1 | Done _ => 0 end.

Lemma sum_insert (f : worker -> nat) ws i w w' :
  ws !! i = Some w -> (sum_list_with f (<[i := w']> ws) + f w = sum_list_with f ws + f w')%nat.
Proof.
  revert i; induction ws as [|v ws IH]; intros [|i] H; try discriminate H.
  - injection H as ->. change (<[0%nat:=w']> (w :: ws)) with (w' :: ws). cbn [sum_list_with]. lia.
  - change (<[S i:=w']> (v :: ws)) with (v :: <[i:=w']> ws). cbn [sum_list_with].
    specialize (IH i H). lia.
Qed.

Lemma pool_completes s ws : exists c, rtc pool_step (s, ws) c /\ all_done c.2.
Proof.
  remember (sum_list_with moves_left ws) as n eqn:En.
  revert s ws En. induction (lt_wf n) as [n _ IH]. intros s ws ->.
  assert (Hcase : all_done ws \/ exists i w, ws !! i = Some w /\ forall r, w_phase w <> Done r).
  { destruct (decide (Forall (fun w => moves_left w = 0%nat) ws)) as [H|H].
    - left. eapply Forall_impl; [exact H|]. intros w. unfold moves_left.
      destruct (w_phase w) as [| |r]; try discriminate. by exists r.
    - right. apply not_Forall_Exists in H; [|intros w; apply _].
      apply Exists_exists in H as (w & Hin & Hm). apply list_elem_of_lookup in Hin as [i Hi].
      exists i, w. split; [done|]. intros r E. apply Hm. unfold moves_left. by rewrite E. }
  destruct Hcase as [Hd|(i & w & Hw & Hnd)]; [by exists (s, ws)|].
  assert (Hstep : exists s' p, pool_step (s, ws) (s', <[i := mkWorker (w_job w) (w_step w) p]> ws)
     /\ (moves_left (mkWorker (w_job w) (w_step w) p) < moves_left w)%nat).
  { destruct (w_phase w) as [|l|r] eqn:E; [| |by destruct (Hnd r)].
    - destruct (JobService.lease ttl (job_id (w_job w)) owner now s) as [r s'] eqn:El.
      exists s'. eexists. split; [by eapply move_lease|]. unfold moves_left. rewrite E. cbn.
      destruct r; lia.
    - destruct (finish (w_job w) l (res (w_step w)) s) as [r s'] eqn:El.
      exists s', (Done r). split; [by eapply move_finish|]. unfold moves_left. rewrite E. cbn. lia. }
  destruct Hstep as (s' & p & Hs & Hlt).
  pose proof (sum_insert moves_left ws i w (mkWorker (w_job w) (w_step w) p) Hw) as Hsum.
  destruct (IH (sum_list_with moves_left (<[i := mkWorker (w_job w) (w_step w) p]> ws))
              ltac:(lia) s' _ eq_refl) as (c & Hc & Hdone).
  exists c. split; [|done]. by eapply rtc_l.
Qed.

(** ** The sequential loop computes [sequential] *)
Lemma run_targets_sequential s0 ts o :
  (forall st, is_error (res st) = false) ->
  NoDup ((fun t => job_id t.1) <$> ts) ->
  (forall j st, (j, st) ∈ ts -> exists jc, PyDict.get (job_id j) s0 = Some jc
     /\ job_id jc = job_id j /\ Jobs.can_lease now jc = true
     /\ PyDict.get (job_id j) (store o) = Some jc) ->
  exists rs o', run_targets ttl (fun _ => res) None owner now ts o = (Ret rs, o')
    /\ store o' = sequential s0 ts (store o)
    /\ Forall2 (fun t r => exists jc, PyDict.get (job_id t.1) s0 = Some jc
                  /\ r = after ttl owner now jc (res t.2)) ts rs.
Proof.
  intros Hne. revert o; induction ts as [|[j st] ts IH]; intros o Hnd Hts.
  { by exists [], o. }
  rewrite fmap_cons in Hnd. apply NoDup_cons in Hnd as [Hni Hnd]. cbn in Hni.
  destruct (Hts j st ltac:(left)) as (jc & Hg & Hid & Hc & Hgo).
  pose proof (execute_spec ttl (fun _ => res) owner now j st o jc Hgo Hid Hc) as He. cbn zeta beta in He.
  set (o1 := mkOrch (PyDict.set (job_id j) (after ttl owner now jc (res st)) (store o)) (step_map o)
               (st :: calls o) (gate_calls o)) in *.
  destruct (IH o1 Hnd) as (rs & o' & E & Hst & Hf).
  { intros j' st' Hin. destruct (Hts j' st' ltac:(by right)) as (jc' & ? & ? & ? & ?).
    exists jc'. split_and!; [done..|]. unfold o1; cbn [store]. rewrite PyDict.get_set_ne; [done|].
    intros Eid. apply Hni. rewrite Eid. apply list_elem_of_fmap. by exists (j', st'). }
  exists (after ttl owner now jc (res st) :: rs), o'. split_and!.
  - cbn. unfold mbind, M_bind, mret, M_ret. rewrite He.
    specialize (Hne st). destruct (res st); try discriminate Hne; by rewrite E.
  - cbn. rewrite Hg. exact Hst.
  - constructor; [by exists jc|exact Hf].
Qed.

(** C30: concurrency does not change the result. Take the targets of a round
    (distinct jobs a lease is due for), no step gate, and a runner that never
    crashes and whose answer depends on the step alone. Every schedule of the
    workers, however their leases and final writes interleave, can be
    completed, and every completed schedule leaves exactly the job store of
    the sequential loop and gives every worker the job the sequential loop
    returns for it: no job is leased twice and no write is lost. *)
Theorem pool_equals_sequential ts o c :
  PyDict.wf (store o) -> NoDup ((fun t => job_id t.1) <$> ts) ->
  (forall j st, (j, st) ∈ ts -> exists jc, PyDict.get (job_id j) (store o) = Some jc
     /\ job_id jc = job_id j /\ Jobs.can_lease now jc = true) ->
  (forall st, is_error (res st) = false) ->
  rtc pool_step (store o, submit ts) c ->
  (exists c', rtc pool_step c c' /\ all_done c'.2)
  /\ (all_done c.2 ->
      exists rs o', run_targets ttl (fun _ => res) None owner now ts o = (Ret rs, o')
        /\ c.1 = store o' /\ (w_phase <$> c.2) = (fun r => Done (Ret r)) <$> rs).
Proof.
  intros Hwf Hnd Hts Hne Hs. split; [destruct c as [s ws]; apply pool_completes|].
  intros Hd. destruct (pool_final (store o) ts Hnd Hts c Hwf Hs Hd) as [Hst Hw].
  destruct (run_targets_sequential (store o) ts o Hne Hnd) as (rs & o' & E & Hso & Hf).
  { intros j st Hin. destruct (Hts j st Hin) as (jc & Hj & ? & ?). by exists jc. }
  exists rs, o'. split_and!; [done|congruence|].
  apply list_eq_Forall2, Forall2_fmap_2.
  clear - Hw Hf Hne. revert rs Hf. induction Hw as [|t w ts ws (jc & Hj & Hp) _ IH]; intros rs Hf.
  - apply Forall2_nil_inv_l in Hf as ->. constructor.
  - apply Forall2_cons_inv_l in Hf as (r & rs' & (jc' & Hj' & ->) & Hf & ->).
    constructor; [|by apply IH]. rewrite Hp. simplify_eq. unfold expected.
    specialize (Hne t.2). by destruct (res t.2).
Qed.

End pool.

(** ** A concrete schedule: two workers, both lease before either finishes *)
Definition demo_steps : list PlanStep :=
  [mkPlanStep "a" "nmap" RiskClass.LOW [] []; mkPlanStep "b" "nmap" RiskClass.LOW [] []].
Definition demo_orch : Orch :=
  (dispatch (mkExecutionPlan "p" "asm" 1 demo_steps "d") (start_of [] 0)).2.
Definition demo_targets : list (Job * PlanStep) :=
  (fun s => (job_of "d" s, s)) <$> demo_steps.
Definition demo_res : PlanStep -> run_result :=
  fun s => if bool_decide (step_key s = "a") then RunFailure FailureClass.TIMEOUT else RunOk "r".

Lemma pool_equals_sequential_witness :
  exists c, rtc (pool_step 300 demo_res "w" 0) (store demo_orch, submit demo_targets) c /\ all_done c.2
  /\ exists rs o', run_targets 300 (fun _ => demo_res) None "w" 0 demo_targets demo_orch = (Ret rs, o')
       /\ c.1 = store o'.
Proof.
  assert (H1 : PyDict.wf (store demo_orch)) by (apply (bool_decide_unpack _); vm_compute; exact I).
  assert (H2 : NoDup ((fun t : Job * PlanStep => job_id t.1) <$> demo_targets))
    by (apply (bool_decide_unpack _); vm_compute; exact I).
  assert (H3 : forall j st, (j, st) ∈ demo_targets -> exists jc, PyDict.get (job_id j) (store demo_orch) = Some jc
     /\ job_id jc = job_id j /\ Jobs.can_lease 0 jc = true).
  { intros j st Hin. unfold demo_targets, demo_steps in Hin. cbn in Hin.
    apply elem_of_cons in Hin as [[= -> ->]|Hin]; [|apply list_elem_of_singleton in Hin as [= -> ->]];
      eexists; (split; [vm_compute; reflexivity|]); split; reflexivity. }
  assert (H4 : forall st, is_error (demo_res st) = false)
    by (intros st; unfold demo_res; case_bool_decide; reflexivity).
  destruct (pool_completes 300 demo_res "w" 0 (store demo_orch) (submit demo_targets)) as (c & Hc & Hd).
  exists c. split; [exact Hc|]. split; [exact Hd|].
  destruct (pool_equals_sequential 300 demo_res "w" 0 demo_targets demo_orch c H1 H2 H3 H4 Hc) as [_ H].
  destruct (H Hd) as (rs & o' & E & Hs & _). exists rs, o'. split; [exact E|exact Hs].
Defined.

End Pool.
