(* ===== verification/Net.v ===== *)
(** * Addresses and URLs

    What the scope code uses of Python's standard library, translated from it
    (CPython 3.12, the version of the [Dockerfile]): [ipaddress] (Module
    [Ip]), [urllib.parse.urlsplit]/[urlunsplit] and [posixpath.normpath]
    (Module [Url]), and the IDNA codec (Module [Idna]).  Errors of
    [ipaddress] are [None]: the program only ever sees that there was a
    [ValueError].  Tables of Unicode are outside: for a text that is not
    ASCII, IDNA encoding and the NFKC check of a network location are the
    fields of [Unicode]. *)
From S2P Require Import Prelude PyStr.

#[local] Open Scope Z_scope.

Record Unicode : Type := mkUnicode {
  nonascii_idna : string -> option string;
  nonascii_netloc_ok : string -> bool
}.

Definition isascii (s : string) : bool := PyStr.forallb (fun c => (N_of_ascii c <? 128)%N) s.

(** ** [ipaddress] *)
Module Ip.

Inductive address : Type :=
| V4 (n : Z)
| V6 (n : Z) (scope_id : option string).

#[export] Instance address_eq_dec : EqDecision address.
Proof. solve_decision. Defined.

(** [int.from_bytes(_, 'big')] *)
Definition of_bytes (l : list Z) : Z := foldl (fun acc b => acc * 256 + b) 0 l.

Definition parse_octet (s : string) : option Z :=
  if PyStr.is_empty s || negb (PyStr.forallb PyStr.is_digit s) || (3 <? PyStr.len s)
     || (negb (String.eqb s "0") && PyStr.startswith s "0")
  then None
  else let v := PyStr.digits_val 0 s in if 255 <? v then None else Some v.

Definition v4_int (s : string) : option Z :=
  let octets := PyStr.split "." s in
  if PyStr.is_empty s || negb (length octets =? 4)%nat then None
  else of_bytes <$> mapM parse_octet octets.

(** [IPv4Address(s)] *)
Definition v4_address (s : string) : option Z := if PyStr.has_char "/" s then None else v4_int s.

Definition is_hex (c : ascii) : bool :=
  let n := N_of_ascii c in
  PyStr.is_digit c || ((65 <=? n) && (n <=? 70))%N || ((97 <=? n) && (n <=? 102))%N.

Definition hex_val (c : ascii) : Z :=
  let n := Z.of_N (N_of_ascii c) in
  if n <=? 57 then n - 48 else if n <=? 70 then n - 55 else n - 87.

Fixpoint hex_value (acc : Z) (s : string) : Z :=
  match s with
  | EmptyString => acc
  | String c r => hex_value (acc * 16 + hex_val c) r
  end.

(** ['%x' % n] for [0 <= n < 65536] *)
Definition hex_char (n : Z) : ascii := ascii_of_N (Z.to_N (if n <? 10 then 48 + n else 87 + n)).
Definition hex (n : Z) : string :=
  let d k := String (hex_char (Z.land (Z.shiftr n (4 * k)) 15)) in
  if n <? 16 then d 0 ""
  else if n <? 256 then d 1 (d 0 "")
  else if n <? 4096 then d 2 (d 1 (d 0 ""))
  else d 3 (d 2 (d 1 (d 0 ""))).

(** [int('', 16)] is a [ValueError]. *)
Definition parse_hextet (s : string) : option Z :=
  if negb (PyStr.forallb is_hex s) || (4 <? PyStr.len s) || PyStr.is_empty s then None
  else Some (hex_value 0 s).

(** The parts, with an IPv4-style suffix replaced by its two hextets. *)
Definition v6_parts (s : string) : option (list string) :=
  let parts := PyStr.split ":" s in
  if (length parts <? 3)%nat then None
  else
    let suffix := List.last parts "" in
    if PyStr.has_char "." suffix
    then n ← v4_address suffix;
         Some (removelast parts ++ [hex (Z.land (Z.shiftr n 16) 65535); hex (Z.land n 65535)])
    else Some parts.

(** The loop that looks for the double colon between the endpoints: [None]
    is its error. *)
Fixpoint skip_index (i : nat) (inner : list string) (found : option nat) : option (option nat) :=
  match inner with
  | [] => Some found
  | p :: ps =>
      if PyStr.is_empty p
      then match found with Some _ => None | None => skip_index (S i) ps (Some i) end
      else skip_index (S i) ps found
  end.

(** [parts_hi], [parts_lo], [parts_skipped] *)
Definition v6_layout (parts : list string) : option (nat * nat * nat) :=
  let n := length parts in
  let first_empty := PyStr.is_empty (List.hd "" parts) in
  let last_empty := PyStr.is_empty (List.last parts "") in
  skip ← skip_index 1 (removelast (tail parts)) None;
  match skip with
  | Some k =>
      if first_empty && negb (k - 1 =? 0)%nat then None
      else
        let hi := if first_empty then (k - 1)%nat else k in
        let lo0 := (n - k - 1)%nat in
        if last_empty && negb (lo0 - 1 =? 0)%nat then None
        else
          let lo := if last_empty then (lo0 - 1)%nat else lo0 in
          if (8 <=? hi + lo)%nat then None else Some (hi, lo, (8 - (hi + lo))%nat)
  | None =>
      if negb (n =? 8)%nat || first_empty || last_empty then None else Some (n, 0%nat, 0%nat)
  end.

Definition push_hextet (acc : option Z) (s : string) : option Z :=
  a ← acc; h ← parse_hextet s; Some (Z.lor (Z.shiftl a 16) h).

Definition v6_int (s : string) : option Z :=
  if PyStr.is_empty s then None
  else
    parts ← v6_parts s;
    if (9 <? length parts)%nat then None
    else
      '(hi, lo, skipped) ← v6_layout parts;
      upper ← foldl push_hextet (Some 0) (take hi parts);
      foldl push_hextet (Some (Z.shiftl upper (16 * Z.of_nat skipped))) (drop (length parts - lo) parts).

Definition split_scope_id (s : string) : option (string * option string) :=
  let '(addr, sep, scope_id) := PyStr.partition "%" s in
  if negb sep then Some (addr, None)
  else if PyStr.is_empty scope_id || PyStr.has_char "%" scope_id then None
  else Some (addr, Some scope_id).

(** [IPv6Address(s)] *)
Definition v6_address (s : string) : option (Z * option string) :=
  if PyStr.has_char "/" s then None
  else '(addr, scope_id) ← split_scope_id s; n ← v6_int addr; Some (n, scope_id).

Definition ip_address (s : string) : option address :=
  match v4_address s with
  | Some n => Some (V4 n)
  | None => match v6_address s with Some (n, z) => Some (V6 n z) | None => None end
  end.

(** *** Networks *)
Record network : Type := mkNetwork {
  network_address : address;
  net_prefixlen : Z
}.

Definition max_prefixlen (a : address) : Z := match a with V4 _ => 32 | V6 _ _ => 128 end.
Definition ip_of (a : address) : Z := match a with V4 n => n | V6 n _ => n end.
Definition same_version (a b : address) : bool :=
  match a, b with V4 _, V4 _ | V6 _ _, V6 _ _ => true | _, _ => false end.

Definition ip_int_from_prefix (bits p : Z) : Z := Z.lxor (Z.ones bits) (Z.shiftr (Z.ones bits) p).

Definition prefix_from_prefix_string (bits : Z) (s : string) : option Z :=
  if PyStr.is_empty s || negb (PyStr.forallb PyStr.is_digit s) || (4300 <? PyStr.len s) then None
  else let p := PyStr.digits_val 0 s in if p <=? bits then Some p else None.

(** [(~n & (n - 1)).bit_length()], at most [bits] *)
Definition count_righthand_zero_bits (n bits : Z) : Z :=
  if n =? 0 then bits
  else let m := Z.land (Z.lnot n) (n - 1) in Z.min bits (if m =? 0 then 0 else Z.log2 m + 1).

Definition prefix_from_ip_int (bits n : Z) : option Z :=
  let tz := count_righthand_zero_bits n bits in
  let p := bits - tz in
  if Z.shiftr n tz =? Z.shiftl 1 p - 1 then Some p else None.

Definition prefix_from_ip_string (s : string) : option Z :=
  n ← v4_int s;
  match prefix_from_ip_int 32 n with
  | Some p => Some p
  | None => prefix_from_ip_int 32 (Z.lxor n (Z.ones 32))
  end.

(** [_make_netmask]: only IPv4 knows dotted masks. *)
Definition make_prefix (v6 : bool) (mask : option string) : option Z :=
  let bits := if v6 then 128 else 32 in
  match mask with
  | None => Some bits
  | Some m =>
      match prefix_from_prefix_string bits m with
      | Some p => Some p
      | None => if v6 then None else prefix_from_ip_string m
      end
  end.

Definition apply_mask (a : address) (p : Z) : address :=
  let masked := Z.land (ip_of a) (ip_int_from_prefix (max_prefixlen a) p) in
  if masked =? ip_of a then a
  else match a with V4 _ => V4 masked | V6 _ _ => V6 masked None end.

Definition split_addr_prefix (s : string) : option (string * option string) :=
  match PyStr.split "/" s with
  | [a] => Some (a, None)
  | [a; m] => Some (a, Some m)
  | _ => None
  end.

Definition v4_network (s : string) : option network :=
  '(a, m) ← split_addr_prefix s;
  n ← v4_address a;
  p ← make_prefix false m;
  Some (mkNetwork (apply_mask (V4 n) p) p).

Definition v6_network (s : string) : option network :=
  '(a, m) ← split_addr_prefix s;
  '(n, z) ← v6_address a;
  p ← make_prefix true m;
  Some (mkNetwork (apply_mask (V6 n z) p) p).

(** [ip_network(s, strict=False)] *)
Definition ip_network (s : string) : option network :=
  match v4_network s with
  | Some n => Some n
  | None => v6_network s
  end.

(** [address in network] *)
Definition contains (net : network) (a : address) : bool :=
  same_version (network_address net) a
  && (Z.land (ip_of a) (ip_int_from_prefix (max_prefixlen a) (net_prefixlen net))
      =? ip_of (network_address net)).

(** *** Printing *)
Definition v4_string (n : Z) : string :=
  PyStr.join "." ((fun k => pretty (Z.land (Z.shiftr n (8 * k)) 255)) <$> [3; 2; 1; 0]).

Definition hextets (n : Z) : list string :=
  (fun k => hex (Z.land (Z.shiftr n (16 * k)) 65535)) <$> [7; 6; 5; 4; 3; 2; 1; 0].

(** The loop of [_compress_hextets]: the longest run so far and the one that
    ends here, each with its start. *)
Fixpoint longest_zeros (i : nat) (l : list string) (best_start best_len start len : nat) : nat * nat :=
  match l with
  | [] => (best_start, best_len)
  | h :: t =>
      if String.eqb h "0" then
        let len' := S len in
        let start' := if (len =? 0)%nat then i else start in
        if (best_len <? len')%nat then longest_zeros (S i) t start' len' start' len'
        else longest_zeros (S i) t best_start best_len start' len'
      else longest_zeros (S i) t best_start best_len 0 0
  end.

Definition compress_hextets (l : list string) : list string :=
  let '(start, len) := longest_zeros 0 l 0 0 0 0 in
  if (1 <? len)%nat then
    (if (start =? 0)%nat then [""] else [])
    ++ take start l ++ [""] ++ drop (start + len) l
    ++ (if (start + len =? length l)%nat then [""] else [])
  else l.

Definition v6_string (n : Z) : string := PyStr.join ":" (compress_hextets (hextets n)).

Definition address_str (a : address) : string :=
  match a with
  | V4 n => v4_string n
  | V6 n None => v6_string n
  | V6 n (Some z) => v6_string n +:+ "%" +:+ z
  end.

Definition network_str (net : network) : string :=
  address_str (network_address net) +:+ "/" +:+ pretty (net_prefixlen net).

(** *** Special addresses *)
Definition in_v4 (a : address) (n p : Z) : bool := contains (mkNetwork (V4 n) p) a.
Definition in_v6 (a : address) (n p : Z) : bool := contains (mkNetwork (V6 n None) p) a.

Definition is_loopback (a : address) : bool :=
  match a with V4 _ => in_v4 a (127 * 2 ^ 24) 8 | V6 n _ => n =? 1 end.
Definition is_link_local (a : address) : bool :=
  match a with
  | V4 _ => in_v4 a ((169 * 256 + 254) * 2 ^ 16) 16
  | V6 _ _ => in_v6 a (65152 * 2 ^ 112) 10
  end.
Definition is_unspecified (a : address) : bool := ip_of a =? 0.
Definition is_multicast (a : address) : bool :=
  match a with V4 _ => in_v4 a (224 * 2 ^ 24) 4 | V6 _ _ => in_v6 a (255 * 2 ^ 120) 8 end.

Example addresses :
  ip_address "192.168.1.10" = Some (V4 3232235786)
  /\ ip_address "192.168.01.10" = None
  /\ ip_address "::1" = Some (V6 1 None)
  /\ (address_str <$> ip_address "2001:DB8:0:0:1:0:0:1") = Some "2001:db8::1:0:0:1"
  /\ (address_str <$> ip_address "1:0:0:0:0:0:0:0") = Some "1::"
  /\ (address_str <$> ip_address "::ffff:10.0.0.1") = Some "::ffff:a00:1"
  /\ (address_str <$> ip_address "fe80::1%eth0") = Some "fe80::1%eth0"
  /\ ip_address "1::2::3" = None
  /\ (network_str <$> ip_network "10.1.2.3/255.255.0.0") = Some "10.1.0.0/16"
  /\ (network_str <$> ip_network "10.1.2.3/0.0.0.255") = Some "10.1.2.0/24"
  /\ (network_str <$> ip_network "2001:db8::5/32") = Some "2001:db8::/32"
  /\ (is_link_local <$> ip_address "169.254.169.254") = Some true
  /\ (is_loopback <$> ip_address "127.9.9.9") = Some true
  /\ (is_multicast <$> ip_address "ff02::1") = Some true
  /\ (is_link_local <$> ip_address "fe80::1") = Some true.
Proof. vm_compute. done. Qed.

End Ip.

(** ** [urllib.parse] and [posixpath] *)
Module Url.

Record SplitResult : Type := mkSplit {
  scheme : string;
  netloc : string;
  path : string;
  query : string;
  fragment : string
}.

Fixpoint remove_chars (p : ascii -> bool) (s : string) : string :=
  match s with
  | EmptyString => EmptyString
  | String c r => if p c then remove_chars p r else String c (remove_chars p r)
  end.

Definition is_alpha (c : ascii) : bool := PyStr.is_upper c || PyStr.is_lower c.
Definition is_scheme_char (c : ascii) : bool :=
  PyStr.is_alnum c || Ascii.eqb c "+" || Ascii.eqb c "-" || Ascii.eqb c ".".

Definition head_is (p : ascii -> bool) (s : string) : bool :=
  match s with String c _ => p c | EmptyString => false end.

(** The scheme and what follows its colon. *)
Definition split_scheme (url : string) : string * string :=
  let '(before, found, after) := PyStr.partition ":" url in
  if found && head_is is_alpha before && PyStr.forallb is_scheme_char before
  then (PyStr.lower before, after)
  else ("", url).

(** [_splitnetloc] of a text after its two slashes. *)
Fixpoint split_netloc (s : string) : string * string :=
  match s with
  | EmptyString => (EmptyString, EmptyString)
  | String c r =>
      if Ascii.eqb c "/" || Ascii.eqb c "?" || Ascii.eqb c "#" then (EmptyString, s)
      else let '(h, t) := split_netloc r in (String c h, t)
  end.

(** [_check_bracketed_host] *)
Definition bracketed_host_ok (hostname : string) : bool :=
  if PyStr.startswith hostname "v" then
    let '(v, dot, rest) := PyStr.partition "." (PyStr.drop 1 hostname) in
    dot && PyStr.truthy v && PyStr.forallb Ip.is_hex v && PyStr.truthy rest
  else match Ip.ip_address hostname with Some (Ip.V6 _ _) => true | _ => false end.

(** [_check_bracketed_netloc] *)
Definition bracketed_netloc_ok (netloc : string) : bool :=
  let hostname_and_port := (PyStr.rpartition "@" netloc).2 in
  let '(before_bracket, have_open_br, bracketed) := PyStr.partition "[" hostname_and_port in
  if have_open_br then
    let '(hostname, _, port) := PyStr.partition "]" bracketed in
    PyStr.is_empty before_bracket
    && (PyStr.is_empty port || PyStr.startswith port ":")
    && bracketed_host_ok hostname
  else bracketed_host_ok (PyStr.partition ":" hostname_and_port).1.1.

Section unicode.
Context (uni : Unicode).

Definition urlsplit (url0 : string) : outcome SplitResult :=
  let url1 := PyStr.lstrip_by (fun c => (N_of_ascii c <=? 32)%N) url0 in
  let url2 := remove_chars (fun c => Ascii.eqb c "009" || Ascii.eqb c "010" || Ascii.eqb c "013") url1 in
  let '(scheme, url3) := split_scheme url2 in
  let '(netloc, url4) := if PyStr.startswith url3 "//" then split_netloc (PyStr.drop 2 url3) else ("", url3) in
  let open := PyStr.has_char "[" netloc in
  let close := PyStr.has_char "]" netloc in
  raise_if (xorb open close) (ValueError "Invalid IPv6 URL");;
  raise_if (open && close && negb (bracketed_netloc_ok netloc)) (ValueError "Invalid IPv6 URL");;
  let '(url5, _, fragment) := PyStr.partition "#" url4 in
  let '(url6, _, query) := PyStr.partition "?" url5 in
  raise_if (negb (isascii netloc) && negb (nonascii_netloc_ok uni netloc))
    (ValueError ("netloc '" +:+ netloc +:+ "' contains invalid characters under NFKC normalization"));;
  Ret (mkSplit scheme netloc url6 query fragment).

(** [_hostinfo]: hostname and port as written. *)
Definition hostinfo (netloc : string) : string * option string :=
  let hostinfo := (PyStr.rpartition "@" netloc).2 in
  let '(_, have_open_br, bracketed) := PyStr.partition "[" hostinfo in
  let '(hostname, port) :=
    if have_open_br then
      let '(hostname, _, after) := PyStr.partition "]" bracketed in
      (hostname, (PyStr.partition ":" after).2)
    else let '(hostname, _, port) := PyStr.partition ":" hostinfo in (hostname, port) in
  (hostname, if PyStr.is_empty port then None else Some port).

Definition hostname (r : SplitResult) : option string :=
  let h := (hostinfo (netloc r)).1 in
  if PyStr.is_empty h then None
  else let '(name, percent, zone) := PyStr.partition "%" h in
       Some (PyStr.lower name +:+ (if percent then "%" else "") +:+ zone).

Definition port (r : SplitResult) : outcome (option Z) :=
  match (hostinfo (netloc r)).2 with
  | None => Ret None
  | Some p =>
      raise_if (negb (PyStr.forallb PyStr.is_digit p))
        (ValueError ("Port could not be cast to integer value as " +:+ PyStr.repr p));;
      raise_if (4300 <? PyStr.len p) (ValueError "Exceeds the limit (4300 digits) for integer string conversion");;
      raise_if (65535 <? PyStr.digits_val 0 p) (ValueError "Port out of range 0-65535");;
      Ret (Some (PyStr.digits_val 0 p))
  end.

(** [urlunsplit] where the scheme is http or https (both are in
    [uses_netloc]) and there is no fragment. *)
Definition urlunsplit (scheme netloc url query : string) : string :=
  let url1 := if PyStr.truthy netloc || negb (PyStr.startswith url "//")
              then "//" +:+ netloc +:+ (if PyStr.truthy url && negb (PyStr.startswith url "/") then "/" +:+ url else url)
              else url in
  let url2 := scheme +:+ ":" +:+ url1 in
  if PyStr.truthy query then url2 +:+ "?" +:+ query else url2.

End unicode.

(** [posixpath.normpath] *)
Fixpoint norm_comps (initial : bool) (comps new_comps : list string) : list string :=
  match comps with
  | [] => new_comps
  | c :: cs =>
      if PyStr.is_empty c || String.eqb c "." then norm_comps initial cs new_comps
      else if negb (String.eqb c "..")
              || (negb initial && bool_decide (new_comps = []))
              || String.eqb (List.last new_comps "") ".."
      then norm_comps initial cs (new_comps ++ [c])
      else norm_comps initial cs (removelast new_comps)
  end.

Definition normpath (p : string) : string :=
  if PyStr.is_empty p then "."
  else
    let slashes := if PyStr.startswith p "//" && negb (PyStr.startswith p "///") then "//"
                   else if PyStr.startswith p "/" then "/" else "" in
    let r := slashes +:+ PyStr.join "/" (norm_comps (PyStr.truthy slashes) (PyStr.split "/" p) []) in
    if PyStr.is_empty r then "." else r.

Example urls :
  let uni := mkUnicode (fun _ => None) (fun _ => true) in
  let split u := match urlsplit uni u with
                 | Ret r => Some (scheme r, hostname r, match port r with Ret p => Some p | _ => None end, path r, query r)
                 | Raise _ => None end in
  split "HTTP://User:pw@Shop.Example:8080/a/b?x=1#f"
    = Some ("http", Some "shop.example", Some (Some 8080), "/a/b", "x=1")
  /\ split "https://[2001:DB8::1]:443/" = Some ("https", Some "2001:db8::1", Some (Some 443), "/", "")
  /\ split "http://[10.0.0.1]/" = None
  /\ split "https://a:b:1/" = Some ("https", Some "a", None, "/", "")
  /\ normpath "/a/../b/./c//d/.." = "/b/c"
  /\ normpath "/../x" = "/x" /\ normpath "/" = "/".
Proof. vm_compute. done. Qed.

End Url.

(** ** The IDNA codec *)
Module Idna.

Definition label_ok (s : string) : bool := PyStr.truthy s && (PyStr.len s <? 64).

(** [raw.encode("idna")]; [None] is a [UnicodeError]. *)
Definition encode (uni : Unicode) (s : string) : option string :=
  if PyStr.is_empty s then Some ""
  else if isascii s then
    let labels := PyStr.split "." s in
    if forallb label_ok (removelast labels) && (PyStr.len (List.last labels "") <? 64) then Some s else None
  else nonascii_idna uni s.

End Idna.
