(* ===== verification/NetFacts.v ===== *)
(** * Facts about addresses

    Bounds of the parsed addresses, what membership in a network means, and
    the round trip between addresses and their texts. *)
From S2P Require Import Prelude PyStr Net.

#[local] Open Scope Z_scope.

Module IpFacts.
Import Ip.

(** ** Bits *)
Lemma lor_shift a h k : 0 <= k -> 0 <= h < 2 ^ k -> Z.lor (Z.shiftl a k) h = a * 2 ^ k + h.
Proof.
  intros Hk Hh. rewrite <- Z.shiftl_mul_pow2, <- Z.add_lor_land by done.
  replace (Z.land (Z.shiftl a k) h) with 0; [lia|]. symmetry.
  rewrite <- (Z.mod_small h (2 ^ k)), <- Z.land_ones, (Z.land_comm h), Z.land_assoc, Z.land_ones, Z.shiftl_mul_pow2 by done.
  by rewrite Z_mod_mult.
Qed.

Lemma testbit_high n k i : 0 <= n < 2 ^ k -> 0 <= k -> k <= i -> Z.testbit n i = false.
Proof. intros Hn Hk Hi. rewrite <- (Z.mod_small n (2 ^ k)) by done. by apply Z.mod_pow2_bits_high. Qed.

Lemma land_prefix bits p n :
  0 <= p <= bits -> 0 <= n < 2 ^ bits ->
  Z.land n (ip_int_from_prefix bits p) = n / 2 ^ (bits - p) * 2 ^ (bits - p).
Proof.
  intros Hp Hn. rewrite <- Z.shiftl_mul_pow2, <- Z.shiftr_div_pow2 by lia.
  apply Z.bits_inj'. intros i Hi. unfold ip_int_from_prefix.
  rewrite Z.land_spec, Z.lxor_spec, Z.shiftr_spec, !Z.testbit_ones by lia.
  destruct (Z.ltb_spec i (bits - p)).
  - rewrite Z.shiftl_spec_low by done.
    rewrite (proj2 (Z.leb_le 0 i)), (proj2 (Z.leb_le 0 (i + p))), (proj2 (Z.ltb_lt i bits)),
      (proj2 (Z.ltb_lt (i + p) bits)) by lia. apply andb_false_r.
  - rewrite Z.shiftl_spec, Z.shiftr_spec by lia. replace (i - (bits - p) + (bits - p)) with i by lia.
    rewrite (proj2 (Z.leb_le 0 i)), (proj2 (Z.leb_le 0 (i + p))), (proj2 (Z.ltb_ge (i + p) bits)) by lia.
    destruct (Z.ltb_spec i bits); [apply andb_true_r|]. cbn. rewrite (testbit_high n bits) by lia. done.
Qed.

(** ** Bounds *)
Definition valid (a : address) : Prop := 0 <= ip_of a < 2 ^ max_prefixlen a.

Lemma digits_val_nonneg acc s : 0 <= acc -> PyStr.forallb PyStr.is_digit s = true -> 0 <= PyStr.digits_val acc s.
Proof.
  revert acc; induction s as [|c s IH]; intros acc Ha; cbn; [done|]. intros [Hc Hs]%andb_true_iff.
  apply IH; [|done]. unfold PyStr.is_digit in Hc. apply andb_true_iff in Hc as [H1%N.leb_le H2%N.leb_le].
  unfold PyStr.digit_val. lia.
Qed.

Lemma parse_octet_bound s v : parse_octet s = Some v -> 0 <= v <= 255.
Proof.
  unfold parse_octet. destruct (_ || _) eqn:E; [done|]. apply orb_false_iff in E as [E _].
  apply orb_false_iff in E as [E _]. apply orb_false_iff in E as [_ E]. apply negb_false_iff in E.
  pose proof (digits_val_nonneg 0 s (Z.le_refl 0) E). cbn zeta. destruct (Z.ltb_spec 255 (PyStr.digits_val 0 s)); [done|].
  intros [= <-]. lia.
Qed.

Lemma v4_int_bound s n : v4_int s = Some n -> 0 <= n < 2 ^ 32.
Proof.
  unfold v4_int. cbn zeta. destruct (_ || _) eqn:E; [done|]. apply orb_false_iff in E as [_ E].
  apply negb_false_iff, Nat.eqb_eq in E.
  destruct (mapM parse_octet _) as [l|] eqn:El; [|done]. intros [= <-].
  apply mapM_Some in El. pose proof (Forall2_length _ _ _ El) as Hl. rewrite E in Hl. clear E.
  assert (Hb : Forall (fun v => 0 <= v <= 255) l).
  { clear Hl. induction El; constructor; [by eapply parse_octet_bound|done]. }
  destruct l as [|a [|b [|c [|d [|]]]]]; try discriminate Hl. decompose_Forall. unfold of_bytes. cbn [foldl]. lia.
Qed.

Lemma v4_address_bound s n : v4_address s = Some n -> 0 <= n < 2 ^ 32.
Proof. unfold v4_address. destruct (PyStr.has_char _ _); [done|]. apply v4_int_bound. Qed.

Lemma hex_val_bound c : is_hex c = true -> 0 <= hex_val c < 16.
Proof.
  unfold is_hex, hex_val, PyStr.is_digit. intros H.
  destruct (Z.leb_spec (Z.of_N (N_of_ascii c)) 57), (Z.leb_spec (Z.of_N (N_of_ascii c)) 70);
    rewrite !orb_true_iff, !andb_true_iff, !N.leb_le in H; lia.
Qed.

Lemma hex_value_bound acc s :
  0 <= acc -> PyStr.forallb is_hex s = true ->
  0 <= hex_value acc s < (acc + 1) * 16 ^ Z.of_nat (String.length s).
Proof.
  revert acc; induction s as [|c s IH]; intros acc Ha; cbn [PyStr.forallb hex_value String.length].
  { intros _. cbn. lia. }
  intros [Hc Hs]%andb_true_iff. apply hex_val_bound in Hc.
  destruct (IH (acc * 16 + hex_val c)) as [H1 H2]; [lia|done|]. split; [done|].
  eapply Z.lt_le_trans; [exact H2|]. rewrite Nat2Z.inj_succ, Z.pow_succ_r by lia. nia.
Qed.

Lemma parse_hextet_bound s h : parse_hextet s = Some h -> 0 <= h < 2 ^ 16.
Proof.
  unfold parse_hextet. destruct (_ || _) eqn:E; [done|]. intros [= <-].
  apply orb_false_iff in E as [E _]. apply orb_false_iff in E as [Hx%negb_false_iff Hl%Z.ltb_ge].
  destruct (hex_value_bound 0 s ltac:(lia) Hx) as [H1 H2]. split; [done|]. eapply Z.lt_le_trans; [exact H2|].
  unfold PyStr.len in Hl. transitivity (16 ^ 4); [|done]. rewrite Z.mul_1_l. apply Z.pow_le_mono_r; lia.
Qed.

Lemma push_none l : foldl push_hextet None l = None.
Proof. induction l as [|x l IH]; [done|]. exact IH. Qed.

Lemma push_bound l a r k :
  0 <= k -> 0 <= a < 2 ^ (16 * k) -> foldl push_hextet (Some a) l = Some r ->
  0 <= r < 2 ^ (16 * (k + Z.of_nat (length l))).
Proof.
  revert a k; induction l as [|s l IH]; intros a k Hk Ha; cbn [foldl].
  { intros [= <-]. cbn [length]. by rewrite Z.add_0_r. }
  unfold push_hextet at 2. cbn. destruct (parse_hextet s) as [h|] eqn:Eh; cbn.
  - intros H. apply parse_hextet_bound in Eh. replace (k + Z.of_nat (S (length l))) with ((k + 1) + Z.of_nat (length l)) by lia.
    apply (IH _ (k + 1) ltac:(lia)) in H; [done|]. rewrite lor_shift by lia.
    replace (16 * (k + 1)) with (16 * k + 16) by lia. rewrite Z.pow_add_r by lia. lia.
  - by rewrite push_none.
Qed.

Lemma v6_layout_bound parts hi lo sk : v6_layout parts = Some (hi, lo, sk) -> (hi + lo + sk = 8)%nat.
Proof.
  unfold v6_layout. cbn zeta. destruct (skip_index _ _ _) as [[k|]|]; cbn [mbind option_bind]; [| |done].
  - destruct (_ && _); [done|]. destruct (_ && _); [done|]. destruct (_ <=? _)%nat eqn:E; [done|].
    apply Nat.leb_gt in E. intros [= <- <- <-]. lia.
  - destruct (_ || _) eqn:E; [done|]. intros [= <- <- <-]. apply orb_false_iff in E as [E _].
    apply orb_false_iff in E as [E _]. apply negb_false_iff, Nat.eqb_eq in E. lia.
Qed.

Lemma v6_int_bound s n : v6_int s = Some n -> 0 <= n < 2 ^ 128.
Proof.
  unfold v6_int. destruct (PyStr.is_empty s); [done|]. destruct (v6_parts s) as [parts|]; [|done]. cbn [mbind option_bind].
  destruct (9 <? length parts)%nat; [done|]. destruct (v6_layout parts) as [[[hi lo] sk]|] eqn:El; [|done]. cbn [mbind option_bind].
  apply v6_layout_bound in El. destruct (foldl push_hextet (Some 0) (take hi parts)) as [u|] eqn:Eu; [|done]. cbn [mbind option_bind].
  apply (push_bound _ _ _ 0) in Eu; [|lia..]. intros H.
  assert (Hs : 0 <= Z.shiftl u (16 * Z.of_nat sk) < 2 ^ (16 * (Z.of_nat (length (take hi parts)) + Z.of_nat sk))).
  { rewrite Z.shiftl_mul_pow2 by lia. rewrite Z.mul_add_distr_l, Z.pow_add_r by lia. rewrite Z.add_0_l in Eu.
    assert (0 < 2 ^ (16 * Z.of_nat sk)) by (apply Z.pow_pos_nonneg; lia).
    split; [apply Z.mul_nonneg_nonneg; lia|]. apply Z.mul_lt_mono_pos_r; lia. }
  apply (push_bound _ _ _ (Z.of_nat (length (take hi parts)) + Z.of_nat sk)) in H; [|lia|done].
  split; [lia|]. eapply Z.lt_le_trans; [apply H|]. apply Z.pow_le_mono_r; [lia|].
  rewrite length_take, length_drop. lia.
Qed.

Lemma ip_address_valid s a : ip_address s = Some a -> valid a.
Proof.
  unfold ip_address, valid. destruct (v4_address s) as [n|] eqn:E4; [intros [= <-]; by apply v4_address_bound in E4|].
  unfold v6_address. destruct (PyStr.has_char _ _); [done|]. destruct (split_scope_id s) as [[x z]|]; [|done]. cbn.
  destruct (v6_int x) as [n|] eqn:E6; [|done]. intros [= <-]. by apply v6_int_bound in E6.
Qed.

(** ** Networks *)
Definition net_valid (net : network) : Prop :=
  let a := network_address net in
  valid a /\ 0 <= net_prefixlen net <= max_prefixlen a
  /\ Z.land (ip_of a) (ip_int_from_prefix (max_prefixlen a) (net_prefixlen net)) = ip_of a.

Lemma prefix_from_prefix_string_bound bits s p : prefix_from_prefix_string bits s = Some p -> 0 <= p <= bits.
Proof.
  unfold prefix_from_prefix_string. destruct (_ || _) eqn:E; [done|].
  apply orb_false_iff in E as [E _]. apply orb_false_iff in E as [_ E%negb_false_iff].
  pose proof (digits_val_nonneg 0 s (Z.le_refl 0) E). cbn zeta.
  destruct (Z.leb_spec (PyStr.digits_val 0 s) bits); [|done]. intros [= <-]. lia.
Qed.

Lemma prefix_from_ip_int_bound bits n p : 0 <= bits -> prefix_from_ip_int bits n = Some p -> 0 <= p <= bits.
Proof.
  intros Hb. unfold prefix_from_ip_int. cbn zeta. destruct (_ =? _); [|done]. intros [= <-].
  unfold count_righthand_zero_bits. destruct (n =? 0); [lia|]. cbn zeta.
  destruct (_ =? 0); [lia|]. pose proof (Z.log2_nonneg (Z.land (Z.lnot n) (n - 1))). lia.
Qed.

Lemma make_prefix_bound v6 m p : make_prefix v6 m = Some p -> 0 <= p <= (if v6 : bool then 128 else 32).
Proof.
  unfold make_prefix. destruct m as [m|]; [|intros [= <-]; by destruct v6].
  destruct (prefix_from_prefix_string _ m) as [q|] eqn:E.
  - intros [= <-]. by apply prefix_from_prefix_string_bound in E.
  - destruct v6; [done|]. unfold prefix_from_ip_string. destruct (v4_int m) as [n|]; [|done]. cbn [mbind option_bind].
    destruct (prefix_from_ip_int 32 n) as [q|] eqn:E1; [intros [= <-]|intros E2];
      by eapply prefix_from_ip_int_bound.
Qed.

Lemma apply_mask_same_version a p : same_version (apply_mask a p) a = true /\ max_prefixlen (apply_mask a p) = max_prefixlen a.
Proof. unfold apply_mask. cbn zeta. by destruct (_ =? _), a. Qed.

Lemma apply_mask_valid a p :
  valid a -> 0 <= p <= max_prefixlen a -> net_valid (mkNetwork (apply_mask a p) p).
Proof.
  intros Ha Hp. unfold net_valid. cbn [network_address net_prefixlen].
  rewrite (proj2 (apply_mask_same_version a p)).
  assert (Hm := land_prefix (max_prefixlen a) p (ip_of a) Hp Ha).
  set (m := Z.land (ip_of a) (ip_int_from_prefix (max_prefixlen a) p)) in *.
  set (k := max_prefixlen a - p) in *. assert (Hk : 0 < 2 ^ k) by (apply Z.pow_pos_nonneg; lia).
  assert (Hb : 0 <= m <= ip_of a).
  { rewrite Hm. unfold valid in Ha. split; [apply Z.mul_nonneg_nonneg; [apply Z.div_pos; lia|lia]|].
    rewrite Z.mul_comm. apply Z.mul_div_le. lia. }
  assert (Hi : Z.land m (ip_int_from_prefix (max_prefixlen a) p) = m).
  { unfold valid in Ha. rewrite land_prefix by lia. fold k. rewrite Hm at 1. rewrite Z.div_mul by lia. by rewrite <- Hm. }
  unfold apply_mask. fold m. destruct (Z.eqb_spec m (ip_of a)) as [E|E].
  - split; [done|]. split; [done|]. by rewrite <- E.
  - unfold valid in *. destruct a; cbn [max_prefixlen ip_of] in *; (split; [lia|]); done.
Qed.

Lemma ip_network_valid s net : ip_network s = Some net -> net_valid net.
Proof.
  unfold ip_network. destruct (v4_network s) as [n4|] eqn:E4.
  - intros [= <-]. unfold v4_network in E4. destruct (split_addr_prefix s) as [[a m]|]; [|done]. cbn [mbind option_bind] in E4.
    destruct (v4_address a) as [n|] eqn:Ea; [|done]. cbn [mbind option_bind] in E4.
    destruct (make_prefix false m) as [p|] eqn:Ep; [|done]. injection E4 as <-.
    apply apply_mask_valid; [by apply v4_address_bound in Ea|by apply make_prefix_bound in Ep].
  - unfold v6_network. destruct (split_addr_prefix s) as [[a m]|]; [|done]. cbn [mbind option_bind].
    destruct (v6_address a) as [[n z]|] eqn:Ea; [|done]. cbn [mbind option_bind].
    destruct (make_prefix true m) as [p|] eqn:Ep; [|done]. intros [= <-].
    apply apply_mask_valid; [|by apply make_prefix_bound in Ep].
    unfold v6_address in Ea. destruct (PyStr.has_char _ _); [done|]. destruct (split_scope_id a) as [[x y]|]; [|done].
    cbn [mbind option_bind] in Ea. destruct (v6_int x) as [k|] eqn:E6; [|done]. injection Ea as <- _. by apply v6_int_bound in E6.
Qed.

(** An address is in a network when it has the version of the network and
    agrees with it on the bits of the prefix. *)
Lemma contains_spec net a :
  net_valid net -> valid a ->
  contains net a = true <->
  same_version (network_address net) a = true
  /\ ip_of a / 2 ^ (max_prefixlen a - net_prefixlen net)
     = ip_of (network_address net) / 2 ^ (max_prefixlen a - net_prefixlen net).
Proof.
  intros (Hv & Hp & Hm) Ha. unfold contains. rewrite andb_true_iff, Z.eqb_eq.
  destruct (same_version (network_address net) a) eqn:Ev; [|naive_solver].
  assert (El : max_prefixlen (network_address net) = max_prefixlen a) by (destruct (network_address net), a; done).
  rewrite El in *. unfold valid in *. rewrite land_prefix by lia.
  rewrite <- Hm at 1. rewrite land_prefix by (rewrite ?El in *; lia).
  assert (0 < 2 ^ (max_prefixlen a - net_prefixlen net)) by (apply Z.pow_pos_nonneg; lia).
  split; [intros [_ E]; split; [done|]; by apply Z.mul_reg_r in E; [|lia]|]. by intros [_ ->].
Qed.

End IpFacts.
