(* ===== verification/AuditTrail.v ===== *)
(** * The audit trail

    Models [src/secopent/domain/audit/models.py] (events linked by hashes),
    [src/secopent/application/audit_chain.py] (the signed chain with rotation,
    redaction and restart) and [src/secopent/application/audit.py] (the
    unsigned service and the keyed MAC).  The Ed25519 signer is a parameter;
    the clock is an argument.  [AuditChain] holds one lock around [record], so
    a call is one step; [rotate] reads the tail and [redact_pii] notes the
    redaction just before, and a call of another thread that comes between is
    left out.  The store appends in a transaction of its own, which may fail,
    or adds the row to the session of the caller, who commits it or rolls it
    back later ([AuditChain.Running]). *)
From S2P Require Import Prelude PyStr PyTime PyFloat Sha256 Canonical PyJson.

#[local] Open Scope Z_scope.

Record AuditEvent : Type := mkAuditEvent {
  event_id : string;
  actor : string;
  action : string;
  resource_type : string;
  resource_id : string;
  payload : list (string * json);
  previous_hash : string;
  event_hash : string;
  occurred_at : datetime
}.

Module AuditEvent.

Definition GENESIS_HASH : string := String.concat "" (replicate 64 "0").

Definition SECRET_KEYS : list string :=
  ["password"; "secret"; "token"; "authorization"; "api_key"; "cookie"].

Definition check_no_secret (p : list (string * json)) : outcome unit :=
  match List.find (fun kv => bool_decide (PyStr.lower kv.1 ∈ SECRET_KEYS)) p with
  | Some (k, _) =>
      Raise (DomainValidationError ("secret key '" +:+ k +:+ "' must not appear in audit payload"))
  | None => Ret tt
  end.

(** The content the hash covers. *)
Definition body (id actor action rtype rid : string) (payload : list (string * json))
    (previous : string) (at_ : datetime) : json :=
  JObj [("id", JStr id); ("actor", JStr actor); ("action", JStr action);
        ("resource_type", JStr rtype); ("resource_id", JStr rid); ("payload", JObj payload);
        ("previous_hash", JStr previous); ("occurred_at", Canonical.jtime at_)].

Definition body_of (e : AuditEvent) : json :=
  body (event_id e) (actor e) (action e) (resource_type e) (resource_id e) (payload e)
    (previous_hash e) (occurred_at e).

Definition create (id actor action rtype rid : string) (payload : list (string * json))
    (previous : string) (now : datetime) : outcome AuditEvent :=
  raise_if (negb (PyStr.truthy id && PyStr.truthy actor && PyStr.truthy action
                  && PyStr.truthy rtype && PyStr.truthy rid))
    (DomainValidationError "audit event fields must not be empty");;
  check_no_secret payload;;
  Ret (mkAuditEvent id actor action rtype rid payload previous
         (Canonical.canonical_digest (body id actor action rtype rid payload previous now)) now).

Definition bare (h : string) : string := PyStr.removeprefix h "sha256:".

(** The loop of [verify_chain] with its running [previous]. *)
Fixpoint verify_from (previous : string) (events : list AuditEvent) : bool :=
  match events with
  | [] => true
  | e :: es =>
      let expected_prev := if PyStr.startswith previous "sha256:" then bare previous else previous in
      if negb (bool_decide (previous_hash e = expected_prev)) then false
      else if negb (bool_decide (Canonical.canonical_digest (body_of e) = event_hash e)) then false
      else verify_from (bare (event_hash e)) es
  end.

Definition verify_chain (events : list AuditEvent) : bool := verify_from GENESIS_HASH events.

(** ** Tamper evidence *)

(** What the hash pins down: everything, up to key order in the payload. *)
Definition event_equiv (e f : AuditEvent) : Prop :=
  event_id e = event_id f /\ actor e = actor f /\ action e = action f
  /\ resource_type e = resource_type f /\ resource_id e = resource_id f
  /\ Canonical.normalize (JObj (payload e)) = Canonical.normalize (JObj (payload f))
  /\ previous_hash e = previous_hash f /\ event_hash e = event_hash f
  /\ occurred_at e = occurred_at f.

Lemma bare_digest j : bare (Canonical.canonical_digest j) = Sha256.hexdigest (Canonical.canonical_json j).
Proof. apply PyStr.removeprefix_app. Qed.

Lemma body_inj e f :
  PyTime.valid (occurred_at e) -> PyTime.valid (occurred_at f) ->
  Canonical.normalize (body_of e) = Canonical.normalize (body_of f) ->
  event_hash e = event_hash f -> event_equiv e f.
Proof.
  intros Hve Hvf H Hh. apply Canonical.normalize_fields in H; [|done|by vm_compute].
  cbn -[Canonical.normalize] in H. injection H as H1 H2 H3 H4 H5 H6 H7 H8.
  split_and!; try done; [exact (f_equal JObj H6)|by apply PyTime.isoformat_inj].
Qed.

(** The hash a chain ends in. *)
Definition tail_from (previous : string) (events : list AuditEvent) : string :=
  match last events with Some e => bare (event_hash e) | None => previous end.

Definition link_ok (previous : string) (e : AuditEvent) : Prop :=
  previous_hash e = (if PyStr.startswith previous "sha256:" then bare previous else previous)
  /\ event_hash e = Canonical.canonical_digest (body_of e).

Lemma verify_from_cons p e es :
  verify_from p (e :: es) = true <-> link_ok p e /\ verify_from (bare (event_hash e)) es = true.
Proof.
  cbn [verify_from]. unfold link_ok.
  case_bool_decide as E1; cbn [negb]; [|split; [done|by intros [[? _] _]]].
  case_bool_decide as E2; cbn [negb]; [|split; [done|by intros [[_ ?] _]]].
  split; [intros H; split; [split; [exact E1|by symmetry]|exact H]|by intros [_ H]].
Qed.

Lemma verify_from_snoc p es e :
  verify_from p (es ++ [e]) = true <-> verify_from p es = true /\ link_ok (tail_from p es) e.
Proof.
  revert p; induction es as [|e0 es IH]; intros p.
  - cbn [app]. rewrite verify_from_cons. cbn. unfold tail_from; cbn. tauto.
  - cbn [app]. rewrite !verify_from_cons, IH.
    assert (Ht : tail_from p (e0 :: es) = tail_from (bare (event_hash e0)) es).
    { unfold tail_from. destruct es as [|e1 es] using rev_ind; [done|].
      by rewrite app_comm_cons, !last_snoc. }
    rewrite Ht. tauto.
Qed.

Lemma link_expected p p' e f :
  link_ok p e -> link_ok p' f -> previous_hash e = previous_hash f ->
  PyStr.startswith p "sha256:" = false -> PyStr.startswith p' "sha256:" = false -> p = p'.
Proof. intros [H1 _] [H2 _] E Hp Hp'. rewrite Hp in H1. rewrite Hp' in H2. congruence. Qed.

Lemma tail_not_tagged es :
  verify_chain es = true -> PyStr.startswith (tail_from GENESIS_HASH es) "sha256:" = false.
Proof.
  destruct es as [|e es] using rev_ind; [done|]. unfold verify_chain.
  intros [_ [_ H]]%verify_from_snoc. unfold tail_from. rewrite last_snoc, H, bare_digest.
  apply Sha256.hexdigest_not_tagged.
Qed.

(** One step back along two chains with the same tail. *)
Lemma last_link_inj es e es' f :
  verify_chain (es ++ [e]) = true -> verify_chain (es' ++ [f]) = true ->
  PyTime.valid (occurred_at e) -> PyTime.valid (occurred_at f) ->
  bare (event_hash e) = bare (event_hash f) ->
  (event_equiv e f /\ verify_chain es = true /\ verify_chain es' = true
   /\ tail_from GENESIS_HASH es = tail_from GENESIS_HASH es')
  \/ Sha256.collision (Canonical.canonical_json (body_of e)) (Canonical.canonical_json (body_of f)).
Proof.
  unfold verify_chain. intros [H1 L1]%verify_from_snoc [H2 L2]%verify_from_snoc Hv1 Hv2 Hb.
  pose proof (proj2 L1) as E1. pose proof (proj2 L2) as E2.
  assert (Hh : event_hash e = event_hash f).
  { rewrite E1, E2 in *. rewrite !bare_digest in Hb. unfold Canonical.canonical_digest. by rewrite Hb. }
  assert (Hd : Canonical.canonical_digest (body_of e) = Canonical.canonical_digest (body_of f)) by congruence.
  apply Canonical.canonical_digest_inj in Hd as [Hn|Hc]; [left|by right].
  pose proof (body_inj e f Hv1 Hv2 Hn Hh) as He.
  split_and!; [done..|]. eapply link_expected; [exact L1|exact L2|apply He|..]; by apply tail_not_tagged.
Qed.

(** C20: the chain is tamper evident. Two event lists that both pass
    [verify_chain] and end in the same hash are the same list, event by event
    and field by field (payloads up to key order, which JSON does not
    record): nothing was edited, inserted, removed or reordered. The only
    ways out are a SHA-256 collision between two events, or an event whose
    hash is the all-zero genesis value. *)
Theorem same_tail_same_history es es' :
  verify_chain es = true -> verify_chain es' = true ->
  Forall (fun e => PyTime.valid (occurred_at e)) es ->
  Forall (fun e => PyTime.valid (occurred_at e)) es' ->
  tail_from GENESIS_HASH es = tail_from GENESIS_HASH es' ->
  Forall2 event_equiv es es'
  \/ (exists e f, e ∈ es /\ f ∈ es' /\
       Sha256.collision (Canonical.canonical_json (body_of e)) (Canonical.canonical_json (body_of f)))
  \/ (exists e, e ∈ es ++ es' /\ bare (event_hash e) = GENESIS_HASH).
Proof.
  revert es'. induction es as [|e es IH] using rev_ind; intros es' H1 H2 V1 V2 Ht.
  { destruct es' as [|f es' _] using rev_ind; [by left; constructor|]. right; right.
    exists f. unfold tail_from in Ht. rewrite last_snoc in Ht. split; [set_solver|done]. }
  destruct es' as [|f es' _] using rev_ind.
  { right; right. exists e. unfold tail_from in Ht. rewrite last_snoc in Ht. split; [set_solver|done]. }
  apply Forall_app in V1 as [V1 [Ve _]%Forall_cons], V2 as [V2 [Vf _]%Forall_cons].
  unfold tail_from in Ht. rewrite !last_snoc in Ht.
  destruct (last_link_inj _ _ _ _ H1 H2 Ve Vf Ht) as [(He & H1' & H2' & Ht')|Hc].
  - destruct (IH es' H1' H2' V1 V2 Ht') as [Hf|[(e' & f' & ? & ? & ?)|(e' & Hin & ?)]].
    + left. apply Forall2_app; [done|]. by constructor.
    + right; left. exists e', f'. split_and!; [set_solver..|done].
    + right; right. exists e'. split; [set_solver|done].
  - right; left. exists e, f. split_and!; [set_solver..|done].
Qed.

End AuditEvent.

(** ** The signed chain *)
Record SignedAuditEvent : Type := mkSigned {
  event : AuditEvent;
  signature : string
}.

(** [AuditChain]: the attributes, and what its store (if any) holds, as the
    transaction in which a call is made sees it. *)
Record Chain : Type := mkChain {
  events : list SignedAuditEvent;
  tail : string;
  counter : Z;
  redactions : gmap string (gset string);
  stored : option (list SignedAuditEvent)
}.

Module AuditChain.
Import AuditEvent.

Section chain.
Context (sign : string -> string).

(** One step of re-deriving the redactions of [_load_from_store]. *)
Definition load_redaction (m : gmap string (gset string)) (s : SignedAuditEvent)
  : gmap string (gset string) :=
  if bool_decide (action (event s) = "gdpr.redacted") then
    match field "redacted_event_id" (payload (event s)), field "keys" (payload (event s)) with
    | Some (JStr eid), Some (JArr keys) => <[eid := list_to_set (py_str <$> keys)]> m
    | _, _ => m
    end
  else m.

Definition load_from_store (l : list SignedAuditEvent) : Chain :=
  mkChain l
    (match last l with Some s => bare (event_hash (event s)) | None => GENESIS_HASH end)
    (match l with [] => 0 | _ => Z.of_nat (length l) end)
    (foldl load_redaction ∅ l)
    (Some l).

(** [AuditChain(signer, store=...)] *)
Definition init (store : option (list SignedAuditEvent)) : Chain :=
  match store with
  | None => mkChain [] GENESIS_HASH 0 ∅ None
  | Some l => load_from_store l
  end.

(** [SignedAuditEventStore.append]: in a transaction of its own, which may
    fail to commit, or [session.add] on the session of the caller. *)
Definition Append : Type := SignedAuditEvent -> list SignedAuditEvent -> outcome (list SignedAuditEvent).
Definition own_transaction (failure : option exn) : Append := fun s rows =>
  match failure with Some e => Raise e | None => Ret (rows ++ [s]) end.
Definition session_add : Append := fun s rows => Ret (rows ++ [s]).

(** The memory moves before the store is asked. *)
Definition record (append : Append) (actor action rtype rid : string) (payload : list (string * json))
    (permit_nonce : option string) (now : datetime) : M Chain SignedAuditEvent :=
  modify (fun c => mkChain (events c) (tail c) (counter c + 1) (redactions c) (stored c));;
  c ← get;
  let body := match permit_nonce with
              | Some n => set_field "permit_nonce" (JStr n) payload
              | None => payload
              end in
  e ← lift (create ("evt-" +:+ pretty (counter c)) actor action rtype rid body (tail c) now);
  let signed := mkSigned e (sign (event_hash e)) in
  modify (fun c => mkChain (events c ++ [signed]) (bare (event_hash e)) (counter c) (redactions c) (stored c));;
  match stored c with
  | None => mret signed
  | Some rows =>
      rows' ← lift (append signed rows);
      modify (fun c => mkChain (events c) (tail c) (counter c) (redactions c) (Some rows'));;
      mret signed
  end.

Definition record_permit_nonce (append : Append) (actor job_id permit_nonce : string) (now : datetime)
  : M Chain SignedAuditEvent :=
  record append actor "permit.used" "permit" job_id [("job_id", JStr job_id)] (Some permit_nonce) now.

Definition permit_nonces (c : Chain) : gset string :=
  list_to_set (omap (fun s => py_str <$> field "permit_nonce" (payload (event s))) (events c)).

Definition verify (sig_ok : string -> string -> bool) (c : Chain) : bool :=
  verify_chain (event <$> events c)
  && forallb (fun s => sig_ok (event_hash (event s)) (signature s)) (events c).

Definition rotate (append : Append) (actor : string) (now : datetime) : M Chain SignedAuditEvent :=
  c ← get;
  record append actor "audit.rotated" "audit_chain" "rotation"
    [("previous_chain_tail_hash", JStr (tail c))] None now.

Definition redact_pii (append : Append) (eid : string) (keys : gset string) (actor : string) (now : datetime)
  : M Chain SignedAuditEvent :=
  modify (fun c => mkChain (events c) (tail c) (counter c) (<[eid := keys]> (redactions c)) (stored c));;
  record append actor "gdpr.redacted" "audit_event" eid
    [("redacted_event_id", JStr eid); ("keys", Canonical.jset (elements keys))] None now.

Definition mask (keys : gset string) (e : AuditEvent) : AuditEvent :=
  mkAuditEvent (event_id e) (actor e) (action e) (resource_type e) (resource_id e)
    ((fun kv => (kv.1, if bool_decide (kv.1 ∈ keys) then JStr "[REDACTED:gdpr]" else kv.2)) <$> payload e)
    (previous_hash e) (event_hash e) (occurred_at e).

Definition export (redacted : bool) (c : Chain) : list AuditEvent :=
  if negb redacted then event <$> events c
  else (fun s => match redactions c !! event_id (event s) with
                 | Some keys => if bool_decide (keys = ∅) then event s else mask keys (event s)
                 | None => event s
                 end) <$> events c.

(** ** The chain as a transition system *)

(** A running process: the chain, whose [stored] is what is committed, and the
    rows that sit in the callers' open sessions. *)
Record Running : Type := mkRunning { chain : Chain; open_rows : gmap nat (list SignedAuditEvent) }.
Definition rows_of (n : nat) (w : Running) : list SignedAuditEvent := default [] (open_rows w !! n).

(** Where a call puts its row. *)
Inductive Via : Type := Own (failure : option exn) | Session (n : nat).

Definition with_stored (l : option (list SignedAuditEvent)) (c : Chain) : Chain :=
  mkChain (events c) (tail c) (counter c) (redactions c) l.

Definition via (v : Via) (m : Append -> M Chain SignedAuditEvent) (w : Running) : outcome unit * Running :=
  let done (o : outcome SignedAuditEvent) := match o with Ret _ => Ret tt | Raise e => Raise e end in
  match v with
  | Own failure => let '(o, c) := m (own_transaction failure) (chain w) in (done o, mkRunning c (open_rows w))
  | Session n =>
      match stored (chain w) with
      | None => let '(o, c) := m session_add (chain w) in (done o, mkRunning c (open_rows w))
      | Some l => let '(o, c) := m session_add (with_stored (Some (rows_of n w)) (chain w)) in
          (done o, mkRunning (with_stored (Some l) c) (<[n := default [] (stored c)]> (open_rows w)))
      end
  end.

Inductive op : Type :=
| Record_ (v : Via) (actor action rtype rid : string) (payload : list (string * json))
    (permit_nonce : option string) (now : datetime)
| RecordNonce (v : Via) (actor job_id nonce : string) (now : datetime)
| Rotate (v : Via) (actor : string) (now : datetime)
| Redact (v : Via) (eid : string) (keys : gset string) (actor : string) (now : datetime)
| Commit (n : nat)
| Rollback (n : nat)
| Restart.

(** A session's rows are inserted when it commits; a new process loads the
    committed rows, and the sessions die with the old one. *)
Definition run (o : op) (w : Running) : outcome unit * Running :=
  match o with
  | Record_ v a act rt rid p n t => via v (fun append => record append a act rt rid p n t) w
  | RecordNonce v a j n t => via v (fun append => record_permit_nonce append a j n t) w
  | Rotate v a t => via v (fun append => rotate append a t) w
  | Redact v eid ks a t => via v (fun append => redact_pii append eid ks a t) w
  | Commit n => (Ret tt, mkRunning (with_stored ((fun l => l ++ rows_of n w) <$> stored (chain w)) (chain w)) (delete n (open_rows w)))
  | Rollback n => (Ret tt, mkRunning (chain w) (delete n (open_rows w)))
  | Restart => (Ret tt, mkRunning (init (stored (chain w))) ∅)
  end.

(** Any call of the process, whatever becomes of its row. *)
Inductive live_step (w : Running) : Running -> Prop := live_op o : o <> Restart -> live_step w (run o w).2.

(** No row is committed after a gap: what is committed stays a prefix of what
    was recorded. It holds as long as every append succeeds, every session
    commits, and they commit in the order in which they recorded; a failed
    append or a rollback is harmless if a restart comes before the next
    commit. *)
Definition in_order (o : op) (w : Running) : Prop :=
  match o with
  | Record_ (Own None) _ _ _ _ _ _ _ | RecordNonce (Own None) _ _ _ _ | Rotate (Own None) _ _ | Redact (Own None) _ _ _ _ =>
      forall l, stored (chain w) = Some l -> l = events (chain w)
  | Commit n => forall l, stored (chain w) = Some l -> l ++ rows_of n w `prefix_of` events (chain w)
  | _ => True
  end.
Inductive ordered_step (w : Running) : Running -> Prop := ordered_op o : in_order o w -> ordered_step w (run o w).2.

(** ** What recording does *)
Lemma record_cases append a act rt rid p n t c :
  let body := match n with Some x => set_field "permit_nonce" (JStr x) p | None => p end in
  record append a act rt rid p n t c
  = match create ("evt-" +:+ pretty (counter c + 1)) a act rt rid body (tail c) t with
    | Ret e =>
        let signed := mkSigned e (sign (event_hash e)) in
        let after := mkChain (events c ++ [signed]) (bare (event_hash e)) (counter c + 1) (redactions c) in
        match stored c with
        | None => (Ret signed, after None)
        | Some l => match append signed l with Ret l' => (Ret signed, after (Some l')) | Raise x => (Raise x, after (Some l)) end
        end
    | Raise x => (Raise x, mkChain (events c) (tail c) (counter c + 1) (redactions c) (stored c))
    end.
Proof.
  unfold record, mbind, M_bind, modify, get, lift, mret, M_ret. cbn.
  destruct (create _ _ _ _ _ _ _ _); [|done]. destruct (stored c); [|done]. cbn. by destruct (append _ _).
Qed.

Lemma chain_record_spec a act rt rid p n t c :
  let body := match n with Some x => set_field "permit_nonce" (JStr x) p | None => p end in
  record session_add a act rt rid p n t c
  = match create ("evt-" +:+ pretty (counter c + 1)) a act rt rid body (tail c) t with
    | Ret e =>
        let signed := mkSigned e (sign (event_hash e)) in
        (Ret signed,
         mkChain (events c ++ [signed]) (bare (event_hash e)) (counter c + 1) (redactions c)
           (match stored c with Some l => Some (l ++ [signed]) | None => None end))
    | Raise x => (Raise x, mkChain (events c) (tail c) (counter c + 1) (redactions c) (stored c))
    end.
Proof.
  cbn zeta. rewrite record_cases. cbn zeta. destruct (create _ _ _ _ _ _ _ _); [|done]. by destruct (stored c).
Qed.

Lemma create_link id a act rt rid p prev t e :
  create id a act rt rid p prev t = Ret e ->
  event_id e = id /\ actor e = a /\ action e = act /\ resource_id e = rid /\ payload e = p
  /\ previous_hash e = prev /\ occurred_at e = t
  /\ event_hash e = Canonical.canonical_digest (body_of e).
Proof. by intros (? & _ & (? & _ & [= <-])%bind_Ret)%bind_Ret. Qed.

(** ** The invariant *)
Record linked (c : Chain) : Prop := {
  wf_chain : verify_chain (event <$> events c) = true;
  wf_tail : tail c = tail_from GENESIS_HASH (event <$> events c);
  wf_sigs : forall s, s ∈ events c -> signature s = sign (event_hash (event s))
}.

(** ... and the store holds exactly what the memory does. *)
Record wf (c : Chain) : Prop := {
  wf_linked : linked c;
  wf_stored : forall l, stored c = Some l -> l = events c
}.

Lemma linked_verifies sig_ok c : (forall m, sig_ok m (sign m) = true) -> linked c -> verify sig_ok c = true.
Proof.
  intros Hsig Hw. unfold verify. rewrite (wf_chain _ Hw). apply List.forallb_forall.
  intros s Hin%list_elem_of_In. by rewrite (wf_sigs _ Hw s Hin).
Qed.

Lemma linked_ext c c' : events c' = events c -> tail c' = tail c -> linked c -> linked c'.
Proof. intros He Ht [H1 H2 H3]. split; by rewrite ?He, ?Ht. Qed.

Lemma linked_snoc c e : linked c -> previous_hash e = tail c -> event_hash e = Canonical.canonical_digest (body_of e) ->
  forall c', events c' = events c ++ [mkSigned e (sign (event_hash e))] -> tail c' = bare (event_hash e) -> linked c'.
Proof.
  intros [Hc Ht Hs] Hp Hh c' He' Ht'. split; rewrite ?He', ?Ht', ?fmap_app.
  - change (event <$> [mkSigned e (sign (event_hash e))]) with [e].
    apply verify_from_snoc. split; [done|]. split; [|done].
    rewrite <- Ht, Hp. replace (PyStr.startswith (tail c) "sha256:") with false; [done|].
    symmetry. rewrite Ht. by apply tail_not_tagged.
  - change (event <$> [mkSigned e (sign (event_hash e))]) with [e]. unfold tail_from. by rewrite last_snoc.
  - intros s [Hs'|Hs']%elem_of_app; [by apply Hs|]. by apply list_elem_of_singleton in Hs' as ->.
Qed.

Lemma tail_of_loaded (l : list SignedAuditEvent) :
  match last l with Some s => bare (event_hash (event s)) | None => GENESIS_HASH end = tail_from GENESIS_HASH (event <$> l).
Proof. unfold tail_from. rewrite fmap_last. by destruct (last l). Qed.

(** A prefix of a linked chain is one. *)
Lemma prefix_links c l : linked c -> l `prefix_of` events c -> linked (load_from_store l).
Proof.
  intros [Hc _ Hs] [k Hk]. split; cbn; [|apply tail_of_loaded|].
  - rewrite Hk, fmap_app in Hc. clear Hk. revert Hc. induction k as [|x k IH] using rev_ind; [by rewrite app_nil_r|].
    rewrite fmap_app, app_assoc. intros [H _]%verify_from_snoc. by apply IH.
  - intros s Hin. apply Hs. rewrite Hk. set_solver.
Qed.

(** What a call that records changes: nothing but the counter, or the memory
    has one linked event more, and the store what [append] made of it. *)
Definition grows (append : Append) (c c' : Chain) : Prop :=
  linked c'
  /\ (events c' = events c /\ stored c' = stored c
      \/ exists s, events c' = events c ++ [s]
           /\ stored c' = (fun l => match append s l with Ret l' => l' | Raise _ => l end) <$> stored c).

Lemma record_grows append a act rt rid p n t c : linked c -> grows append c (record append a act rt rid p n t c).2.
Proof.
  intros Hl. rewrite record_cases. cbn zeta.
  destruct (create _ _ _ _ _ _ _ _) as [e|x] eqn:E; cbn; [|split; [by apply (linked_ext c)|by left]].
  apply create_link in E as (_ & _ & _ & _ & _ & Hp & _ & Hh).
  assert (H : forall o st, st = (fun l => match append (mkSigned e (sign (event_hash e))) l with Ret l' => l' | Raise _ => l end) <$> stored c ->
    grows append c (o : outcome SignedAuditEvent, mkChain (events c ++ [mkSigned e (sign (event_hash e))]) (bare (event_hash e)) (counter c + 1) (redactions c) st).2).
  { intros o st ->. split; [by apply (linked_snoc c e)|]. right. by eexists. }
  destruct (stored c) as [l|] eqn:El; [|by apply H]. destruct (append _ l) as [l'|x] eqn:Ea; apply H; cbn; by rewrite Ea.
Qed.

(** The recording operations. *)
Definition records (m : Append -> M Chain SignedAuditEvent) : Prop :=
  forall append c, linked c -> grows append c (m append c).2.

Lemma rotate_records a t : records (fun append => rotate append a t).
Proof. intros append c Hl. exact (record_grows append _ _ _ _ _ None t c Hl). Qed.

Lemma redact_records eid ks a t : records (fun append => redact_pii append eid ks a t).
Proof.
  intros append c Hl. set (c1 := mkChain (events c) (tail c) (counter c) (<[eid := ks]> (redactions c)) (stored c)).
  apply (record_grows append a "gdpr.redacted" "audit_event" eid
    [("redacted_event_id", JStr eid); ("keys", Canonical.jset (elements ks))] None t c1). by apply (linked_ext c).
Qed.

Lemma record_wf a act rt rid p n t c : wf c -> wf (record session_add a act rt rid p n t c).2.
Proof.
  intros [Hl Hst]. destruct (record_grows session_add a act rt rid p n t c Hl) as [H1 H2]. split; [done|].
  intros l. destruct H2 as [[-> ->]|(s & -> & ->)]; [apply Hst|].
  destruct (stored c) as [l0|]; [|done]. cbn. intros [= <-]. by rewrite (Hst l0 eq_refl).
Qed.

(** A running process whose store has no gap. *)
Definition sound (w : Running) : Prop :=
  linked (chain w) /\ forall l, stored (chain w) = Some l -> l `prefix_of` events (chain w).

Lemma via_grows v m w : records m -> linked (chain w) ->
  let w' := (via v m w).2 in
  linked (chain w')
  /\ (events (chain w') = events (chain w) /\ stored (chain w') = stored (chain w)
      \/ exists s, events (chain w') = events (chain w) ++ [s]
           /\ stored (chain w') = match v with Own None => (fun l => l ++ [s]) <$> stored (chain w) | _ => stored (chain w) end).
Proof.
  intros Hm Hl. cbv zeta. destruct v as [f|n]; unfold via.
  - destruct (Hm (own_transaction f) (chain w) Hl) as [H1 H2]. destruct (m _ _) as [o c']; cbn [snd chain] in *.
    split; [done|]. destruct H2 as [H2|(s & He & Hs)]; [by left|right]. exists s. split; [done|]. rewrite Hs.
    destruct f; cbn; [|done]. by destruct (stored (chain w)).
  - destruct (stored (chain w)) as [l|] eqn:El.
    + destruct (Hm session_add (with_stored (Some (rows_of n w)) (chain w))) as [H1 H2]; [by apply (linked_ext (chain w))|].
      destruct (m _ _) as [o c']; cbn [snd chain with_stored events stored] in *. split; [by apply (linked_ext c')|].
      destruct H2 as [[He _]|(s & He & _)]; [by left|right; by exists s].
    + destruct (Hm session_add (chain w) Hl) as [H1 H2]. destruct (m _ _) as [o c']; cbn [snd chain] in *. split; [done|].
      rewrite El in H2. destruct H2 as [H2|(s & He & Hs)]; [by left|right; by exists s].
Qed.

(** Every operation but a restart. *)
Lemma run_linked o w : o <> Restart -> linked (chain w) ->
  linked (chain (run o w).2) /\ events (chain w) `prefix_of` events (chain (run o w).2).
Proof.
  intros Ho Hl.
  assert (Hv : forall v m, records m -> linked (chain (via v m w).2) /\ events (chain w) `prefix_of` events (chain (via v m w).2)).
  { intros v m Hm. destruct (via_grows v m w Hm Hl) as [H1 [[-> _]|(s & -> & _)]]; (split; [done|]); [done|by eexists]. }
  destruct o; cbn [run]; try done; try apply Hv.
  - intros append c. apply record_grows.
  - intros append c. apply record_grows.
  - apply rotate_records.
  - apply redact_records.
  - split; [by apply (linked_ext (chain w))|done].
Qed.

Lemma via_sound v m w : records m -> sound w ->
  (v = Own None -> forall l, stored (chain w) = Some l -> l = events (chain w)) ->
  let w' := (via v m w).2 in
  sound w' /\ forall l, stored (chain w) = Some l -> exists l', stored (chain w') = Some l' /\ l `prefix_of` l'.
Proof.
  intros Hm [Hl Hp] Hv. cbv zeta. destruct (via_grows v m w Hm Hl) as [H1 [[He Hs]|(s & He & Hs)]].
  - split; [split; [done|by rewrite He, Hs]|]. rewrite Hs. intros l Hst. by exists l.
  - assert (Hd : v = Own None \/ stored (chain (via v m w).2) = stored (chain w)) by (rewrite Hs; destruct v as [[]|]; auto).
    destruct Hd as [->|E].
    + unfold sound. rewrite He, Hs. split; [split; [done|]|].
      * intros l. destruct (stored (chain w)) as [l0|]; [|done]. intros [= <-]. by rewrite (Hv eq_refl l0 eq_refl).
      * intros l ->. eexists. split; [done|]. by eexists.
    + unfold sound. rewrite He, E. split; [split; [done|]|intros l Hst; by exists l]. intros l Hst. etrans; [by apply Hp|]. by eexists.
Qed.

Lemma run_sound o w : in_order o w -> sound w ->
  let w' := (run o w).2 in
  sound w' /\ forall l, stored (chain w) = Some l -> exists l', stored (chain w') = Some l' /\ l `prefix_of` l'.
Proof.
  intros Hi Hw. cbv zeta.
  destruct o; cbn [run in_order] in *; try (apply via_sound; [|done|by intros ->]).
  - intros append c. apply record_grows.
  - intros append c. apply record_grows.
  - apply rotate_records.
  - apply redact_records.
  - destruct Hw as [Hl Hp]. cbn. split; [split; cbn; [by apply (linked_ext (chain w))|]|].
    + destruct (stored (chain w)) as [l0|]; [|done]. intros l [= <-]. by apply Hi.
    + intros l ->. eexists. split; [done|]. by eexists.
  - split; [done|]. intros l Hst. by exists l.
  - destruct Hw as [Hl Hp]. cbn. destruct (stored (chain w)) as [l|] eqn:El; cbn.
    + split; [split; cbn; [by eapply prefix_links, Hp|by intros ? [= <-]]|]. intros ? [= <-]. by exists l.
    + split; [|done]. split; [|done]. split; [done|done|]. by intros s ?%elem_of_nil.
Qed.

(** Started with an empty store or none, and run for any calls whose rows are
    committed in order. *)
Definition initial (w : Running) : Prop := w = mkRunning (init None) ∅ \/ w = mkRunning (init (Some [])) ∅.
Definition reachable (w : Running) : Prop := exists w0, initial w0 /\ rtc ordered_step w0 w.

Lemma initial_sound w : initial w -> sound w.
Proof.
  intros [->| ->]; (split; cbn; [split; cbn; [done|done|by intros s ?%elem_of_nil]|]); [done|by intros l [= <-]].
Qed.

Lemma ordered_sound w w' : rtc ordered_step w w' -> sound w ->
  sound w' /\ forall l, stored (chain w) = Some l -> exists l', stored (chain w') = Some l' /\ l `prefix_of` l'.
Proof.
  induction 1 as [w|x y z [o Hi] _ IH]; intros Hw; [split; [done|]; intros l Hl; by exists l|].
  destruct (run_sound o x Hi Hw) as [Hy Hp]. destruct (IH Hy) as [Hz Hq]. split; [done|].
  intros l Hl. destruct (Hp l Hl) as (l1 & H1 & Hl1). destruct (Hq l1 H1) as (l2 & H2 & Hl2).
  exists l2. split; [done|]. by etrans.
Qed.

Lemma live_linked w w' : rtc live_step w w' -> linked (chain w) ->
  linked (chain w') /\ events (chain w) `prefix_of` events (chain w').
Proof.
  induction 1 as [w|x y z [o Ho] _ IH]; intros Hw; [done|].
  destruct (run_linked o x Ho Hw) as [Hy Hp]. destruct (IH Hy) as [Hz Hq]. split; [done|]. by etrans.
Qed.

(** C19: the signed chain of a running process never breaks, and its store
    does not as long as rows are committed in order. From an empty or absent
    store, after any calls, rotations and redactions, calls that fail and
    restarts included, in which no row is committed while an earlier event is
    missing from the store ([in_order]): the rows on disk only grow, form a
    chain that verifies and are the beginning of the chain in memory. And
    however the process goes on from there without a restart, whichever
    appends fail and whichever sessions are rolled back: the chain in memory
    verifies, every hash links to the one before and every signature checks,
    and every event that was recorded is still in it, in order. *)
Theorem chain_always_verifies sig_ok w w1 w2 :
  (forall m, sig_ok m (sign m) = true) ->
  reachable w -> rtc ordered_step w w1 -> rtc live_step w1 w2 ->
  verify sig_ok (chain w2) = true /\ events (chain w1) `prefix_of` events (chain w2)
  /\ (forall l, stored (chain w) = Some l -> exists l', stored (chain w1) = Some l' /\ l `prefix_of` l'
        /\ l' `prefix_of` events (chain w1) /\ verify sig_ok (load_from_store l') = true).
Proof.
  intros Hsig (w0 & Hi & Hr) H1 H2.
  destruct (ordered_sound _ _ Hr (initial_sound _ Hi)) as [Hw _]. destruct (ordered_sound _ _ H1 Hw) as [[Hl Hp] Hst].
  destruct (live_linked _ _ H2 Hl) as [Hl2 Hp2]. split; [by apply linked_verifies|]. split; [done|].
  intros l Hs. destruct (Hst l Hs) as (l' & H & Hll). exists l'. split_and!; [done|done|by apply Hp|].
  apply linked_verifies; [done|]. by apply (prefix_links (chain w1)), Hp.
Qed.

(** ** Redaction *)

(** An append adds the row at the end, or fails. *)
Definition appends (append : Append) : Prop := forall s l l', append s l = Ret l' -> l' = l ++ [s].
Lemma own_appends f : appends (own_transaction f).
Proof. intros s l l'. unfold own_transaction. destruct f; by intros [= <-]. Qed.
Lemma session_appends : appends session_add.
Proof. by intros s l l' [= <-]. Qed.

Lemma redact_ret append eid keys a t c s c' :
  appends append -> redact_pii append eid keys a t c = (Ret s, c') ->
  redactions c' !! eid = Some keys
  /\ action (event s) = "gdpr.redacted" /\ events c' = events c ++ [s]
  /\ payload (event s) = [("redacted_event_id", JStr eid); ("keys", Canonical.jset (elements keys))]
  /\ (forall l, stored c = Some l -> stored c' = Some (l ++ [s])).
Proof.
  intros Happ. unfold redact_pii, modify, mbind, M_bind. rewrite record_cases. cbn zeta.
  destruct (create _ _ _ _ _ _ _ _) as [e|x] eqn:E; [|done]. apply create_link in E as (_ & _ & Ha & _ & Hp & _).
  cbn [events tail counter redactions stored]. destruct (stored c) as [l0|].
  - destruct (append _ l0) as [l'|x] eqn:El; [|done]. intros [= <- <-]. cbn. rewrite lookup_insert_eq.
    split_and!; try done. intros l [= <-]. by rewrite (Happ _ _ _ El).
  - intros [= <- <-]. cbn. by rewrite lookup_insert_eq.
Qed.

(** redaction masks on export, is itself recorded, and survives a
    restart. After a successful [redact_pii], the redacted export has the same
    events with the same hashes, the named keys of that event read
    "[REDACTED:gdpr]" and every other value is unchanged; the unredacted
    export still verifies; and a new process that loads the store masks the
    same keys. *)
Theorem redaction_masks_and_survives append eid keys a t c s c' :
  appends append -> linked c -> keys <> ∅ -> stored c <> None ->
  redact_pii append eid keys a t c = (Ret s, c') ->
  (forall e k v, e ∈ export true c' -> event_id e = eid -> (k, v) ∈ payload e -> k ∈ keys ->
     v = JStr "[REDACTED:gdpr]")
  /\ (event_hash <$> export true c') = (event_hash <$> export false c')
  /\ (event_id <$> export true c') = (event_id <$> export false c')
  /\ verify_chain (export false c') = true
  /\ redactions (init (stored c')) !! eid = Some keys.
Proof.
  intros Happ Hw Hne Hst H. destruct (redact_ret _ _ _ _ _ _ _ _ Happ H) as (Hr & Hact & Hev & Hp & Hs).
  assert (Hw' : linked c').
  { destruct (redact_records eid keys a t append c Hw) as [Hw' _]. by rewrite H in Hw'. }
  split_and!.
  - intros e k v (s0 & -> & Hs0)%list_elem_of_fmap Hid Hkv Hk.
    destruct (redactions c' !! event_id (event s0)) as [ks|] eqn:Er; [case_bool_decide|];
      cbn in Hid; try (rewrite Hid, Hr in Er; congruence).
    rewrite Hid, Hr in Er. injection Er as <-. cbn in Hkv.
    apply list_elem_of_fmap in Hkv as ([k' v'] & [= -> ->] & _). cbn. by rewrite bool_decide_true.
  - unfold export. cbn. rewrite <- !list_fmap_compose. apply list_fmap_ext. intros i s0 _. cbn.
    by repeat case_match.
  - unfold export. cbn. rewrite <- !list_fmap_compose. apply list_fmap_ext. intros i s0 _. cbn.
    by repeat case_match.
  - exact (wf_chain _ Hw').
  - destruct (stored c) as [l|] eqn:El; [|done]. rewrite (Hs l eq_refl). cbn.
    rewrite foldl_app. cbn [foldl].
    assert (Hload : forall m, load_redaction m s
      = <[eid := list_to_set (py_str <$> (JStr <$> PyStr.sorted (elements keys)))]> m).
    { intros m. unfold load_redaction. by rewrite Hact, Hp. }
    rewrite Hload, lookup_insert_eq. f_equal. apply set_eq. intros k.
    rewrite elem_of_list_to_set. rewrite <- list_fmap_compose. rewrite (list_fmap_ext _ id) by done. rewrite list_fmap_id.
    by rewrite PyStr.elem_of_sorted, elem_of_elements.
Qed.

(** A second redaction of the same event undoes the first. [redact_pii]
    replaces the set of masked keys instead of adding to it, so a key that
    only the first request named is exported in plain text again. *)
Theorem second_redaction_unmasks append eid keys1 keys2 a1 a2 t1 t2 c s1 c1 s2 c2 s0 k v :
  appends append -> redact_pii append eid keys1 a1 t1 c = (Ret s1, c1) ->
  redact_pii append eid keys2 a2 t2 c1 = (Ret s2, c2) ->
  s0 ∈ events c -> event_id (event s0) = eid -> (k, v) ∈ payload (event s0) ->
  k ∈ keys1 -> k ∉ keys2 ->
  exists e, e ∈ export true c2 /\ event_id e = eid /\ (k, v) ∈ payload e.
Proof.
  intros Happ H1 H2 Hin Hid Hkv _ Hk2.
  destruct (redact_ret _ _ _ _ _ _ _ _ Happ H1) as (_ & _ & He1 & _).
  destruct (redact_ret _ _ _ _ _ _ _ _ Happ H2) as (Hr & _ & He2 & _).
  assert (Hin2 : s0 ∈ events c2) by (rewrite He2, He1; set_solver).
  set (f := fun s => match redactions c2 !! event_id (event s) with
                     | Some keys => if bool_decide (keys = ∅) then event s else mask keys (event s)
                     | None => event s
                     end).
  exists (f s0). split_and!.
  - unfold export. cbn. apply list_elem_of_fmap. by exists s0.
  - unfold f. by repeat case_match.
  - unfold f. rewrite Hid, Hr. case_bool_decide; [done|]. cbn.
    apply list_elem_of_fmap. exists (k, v). cbn. by rewrite bool_decide_false.
Qed.

End chain.

(** ** Concrete runs *)
Definition demo_sign (m : string) : string := "sig:" +:+ m.
Definition demo_ok (m s : string) : bool := bool_decide (s = demo_sign m).

Lemma demo_sig_ok m : demo_ok m (demo_sign m) = true.
Proof. unfold demo_ok. by apply bool_decide_eq_true. Qed.

Definition own : Via := Own None.
Definition demo_ops : list op :=
  [Record_ own "ana" "user.created" "user" "u1" [("email", JStr "a@x"); ("phone", JStr "1")] None 0;
   Record_ own "ana" "login" "user" "u1" [("password", JStr "p")] None 1;
   RecordNonce own "w" "job:1" "n-1" 2].

Definition run_ops (ops : list op) (w : Running) : Running := foldl (fun w o => (run demo_sign o w).2) w ops.
Fixpoint all_in_order (ops : list op) (w : Running) : Prop :=
  match ops with [] => True | o :: ops => in_order o w /\ all_in_order ops (run demo_sign o w).2 end.

Lemma run_ops_ordered ops w : all_in_order ops w -> rtc (ordered_step demo_sign) w (run_ops ops w).
Proof.
  revert w; induction ops as [|o ops IH]; intros w; [reflexivity|]. intros [H Ho].
  eapply rtc_l; [by constructor|by apply IH].
Qed.

Lemma run_ops_live ops w : Forall (fun o => o <> Restart) ops -> rtc (live_step demo_sign) w (run_ops ops w).
Proof.
  intros H. revert w; induction H as [|o ops Ho _ IH]; intros w; [reflexivity|].
  eapply rtc_l; [by constructor|by apply IH].
Qed.

Definition demo_start : Running := mkRunning (init (Some [])) ∅.
Definition demo_running : Running := run_ops demo_ops demo_start.
Definition demo_chain : Chain := chain demo_running.

(** A goal of [in_order] on a concrete state. *)
Ltac ordered := cbn [all_in_order in_order]; repeat split; (let l := fresh in let H := fresh in intros l H; vm_compute in H; injection H as <-; first [vm_compute; reflexivity|eexists; vm_compute; reflexivity]).

Lemma demo_running_reachable : reachable demo_sign demo_running.
Proof. exists demo_start. split; [by right|]. apply run_ops_ordered. ordered. Qed.

Lemma demo_chain_linked : linked demo_sign demo_chain.
Proof.
  destruct demo_running_reachable as (w0 & Hi & Hr). exact (proj1 (proj1 (ordered_sound _ _ _ Hr (initial_sound _ _ Hi)))).
Qed.

(** Event identifiers can repeat after a restart. The counter also
    advances for a record that is refused (here a payload with a password),
    but a restart sets it to the number of stored events, so the next event
    gets an identifier that is already in the chain. *)
Theorem restart_can_reuse_event_id :
  exists w, reachable demo_sign w /\
    (event_id ∘ event) <$> events (chain w) = ["evt-1"; "evt-3"; "evt-3"].
Proof.
  exists (run_ops [Restart; Record_ own "ana" "logout" "user" "u1" [] None 3] demo_running). split.
  - exists demo_start. split; [by right|]. etrans; apply run_ops_ordered; ordered.
  - vm_compute. reflexivity.
Qed.

(** Two callers with sessions, committed in order; then an append that fails. *)
Definition demo_more : list op :=
  [Rotate (Session 1) "sys" 5; Record_ (Session 2) "bob" "login" "user" "u2" [] None 6; Commit 1; Commit 2; Restart].
Definition demo_lost : Via := Own (Some (OSError "disk full")).

Lemma chain_always_verifies_witness :
  let w1 := run_ops demo_more demo_running in
  let w2 := run_ops [Record_ demo_lost "eve" "login" "user" "u3" [] None 7; Record_ (Session 3) "eve" "login" "user" "u3" [] None 8; Rollback 3] w1 in
  verify demo_ok (chain w2) = true /\ length (events (chain w2)) = 6%nat
  /\ exists l', stored (chain w1) = Some l' /\ length l' = 4%nat /\ verify demo_ok (load_from_store l') = true.
Proof.
  cbv zeta. set (w1 := run_ops demo_more demo_running). set (w2 := run_ops _ w1).
  assert (H1 : rtc (ordered_step demo_sign) demo_running w1) by (apply run_ops_ordered; ordered).
  assert (H2 : rtc (live_step demo_sign) w1 w2).
  { apply run_ops_live. repeat constructor; discriminate. }
  destruct (chain_always_verifies demo_sign demo_ok demo_running w1 w2 demo_sig_ok demo_running_reachable H1 H2) as (Hv & _ & Hst).
  split; [exact Hv|]. split; [vm_compute; reflexivity|].
  destruct (stored (chain demo_running)) as [l|] eqn:El; [|vm_compute in El; discriminate El].
  destruct (Hst l eq_refl) as (l' & Hl' & _ & _ & Hv'). exists l'. split; [exact Hl'|]. split; [|exact Hv'].
  assert (E : (length <$> stored (chain w1)) = Some 4%nat) by (vm_compute; reflexivity).
  rewrite Hl' in E. injection E as E. exact E.
Defined.

(** A lost row breaks what is on disk. The memory keeps the event whose append
    failed, or whose session was rolled back, so the next row links to an
    event that is not stored: the process goes on with a chain that verifies,
    the next one starts with a chain that does not. *)
Example lost_row_breaks_the_stored_chain :
  let after lost := run_ops (lost ++ [Record_ own "bob" "login" "user" "u2" [] None 4]) demo_running in
  let failed := [Record_ demo_lost "ana" "logout" "user" "u1" [] None 3] in
  let undone := [Record_ (Session 1) "ana" "logout" "user" "u1" [] None 3; Rollback 1] in
  (fun lost => (verify demo_ok (chain (after lost)), verify demo_ok (chain (run demo_sign Restart (after lost)).2))) <$> [failed; undone]
  = [(true, false); (true, false)].
Proof. vm_compute. reflexivity. Qed.

(** So does a caller that commits after a later one. *)
Example late_commit_breaks_the_stored_chain :
  let w := run_ops [Record_ (Session 1) "ana" "logout" "user" "u1" [] None 3; Record_ own "bob" "login" "user" "u2" [] None 4; Commit 1] demo_running in
  verify demo_ok (chain w) = true /\ verify demo_ok (chain (run demo_sign Restart w).2) = false.
Proof. vm_compute. done. Qed.

Lemma redaction_masks_and_survives_witness :
  exists s c', redact_pii demo_sign session_add "evt-1" {["email"]} "dpo" 7 demo_chain = (Ret s, c')
    /\ verify_chain (export false c') = true.
Proof.
  destruct (redact_pii demo_sign session_add "evt-1" {["email"]} "dpo" 7 demo_chain) as [[s|e] c'] eqn:E.
  - exists s, c'. split; [reflexivity|].
    refine (proj1 (proj2 (proj2 (proj2 (redaction_masks_and_survives demo_sign session_add "evt-1" {["email"]} "dpo" 7
      demo_chain s c' session_appends demo_chain_linked _ _ E))))).
    + set_solver.
    + vm_compute. discriminate.
  - exfalso. apply (f_equal (fun x => is_Ret x.1)) in E. vm_compute in E. discriminate E.
Defined.

Lemma second_redaction_unmasks_witness :
  exists c2 e, e ∈ export true c2 /\ event_id e = "evt-1" /\ ("email", JStr "a@x") ∈ payload e.
Proof.
  destruct (redact_pii demo_sign session_add "evt-1" {["email"]} "dpo" 7 demo_chain) as [[s1|x] c1] eqn:E1.
  2: { exfalso. apply (f_equal (fun x => is_Ret x.1)) in E1. vm_compute in E1. discriminate E1. }
  destruct (redact_pii demo_sign session_add "evt-1" {["phone"]} "dpo" 8 c1) as [[s2|x] c2] eqn:E2.
  2: { exfalso. apply (f_equal snd) in E1. cbn in E1. rewrite <- E1 in E2.
       apply (f_equal (fun x => is_Ret x.1)) in E2. vm_compute in E2. discriminate E2. }
  exists c2.
  destruct (events demo_chain) as [|s0 l] eqn:Ev; [vm_compute in Ev; discriminate Ev|].
  assert (H0 : event_id (event s0) = "evt-1" /\ payload (event s0) = [("email", JStr "a@x"); ("phone", JStr "1")]).
  { assert (E : ((fun s => (event_id (event s), payload (event s))) <$> head (events demo_chain))
      = Some ("evt-1", [("email", JStr "a@x"); ("phone", JStr "1")])) by (vm_compute; reflexivity).
    rewrite Ev in E. cbn in E. injection E as H1 H2. split; assumption. }
  destruct H0 as [Hid Hp].
  apply (second_redaction_unmasks demo_sign session_add "evt-1" {["email"]} {["phone"]} "dpo" "dpo" 7 8 demo_chain s1 c1 s2 c2 s0
           "email" (JStr "a@x") session_appends E1 E2).
  - rewrite Ev. left.
  - exact Hid.
  - rewrite Hp. left.
  - set_solver.
  - set_solver.
Defined.

Lemma same_tail_same_history_witness :
  let es := event <$> events demo_chain in
  verify_chain es = true /\
  (Forall2 event_equiv es es
  \/ (exists e f, e ∈ es /\ f ∈ es /\
       Sha256.collision (Canonical.canonical_json (body_of e)) (Canonical.canonical_json (body_of f)))
  \/ (exists e, e ∈ es ++ es /\ bare (event_hash e) = GENESIS_HASH)).
Proof.
  intros es. assert (H : verify_chain es = true) by exact (wf_chain _ _ demo_chain_linked).
  assert (Hv : Forall (fun e => PyTime.valid (occurred_at e)) es).
  { assert (E : occurred_at <$> es = [0; 2]) by (vm_compute; reflexivity).
    apply Forall_forall. intros e He. assert (Hin : occurred_at e ∈ occurred_at <$> es)
      by (apply list_elem_of_fmap; exists e; split; [reflexivity|exact He]).
    rewrite E in Hin. apply elem_of_cons in Hin as [->|Hin%list_elem_of_singleton]; [|rewrite Hin];
      unfold PyTime.valid, PyTime.day, PyTime.second; lia. }
  split; [exact H|]. exact (same_tail_same_history es es H H Hv Hv eq_refl).
Defined.

End AuditChain.

(** ** The unsigned service and the keyed MAC *)
Module AuditService.
Import AuditEvent.

(** [AuditRepository]: the events in order; [last_hash] is the bare hash of
    the most recent one. *)
Definition last_hash (l : list AuditEvent) : string :=
  match last l with Some e => bare (event_hash e) | None => GENESIS_HASH end.

Definition record (actor action rtype rid : string) (payload : list (string * json)) (now : datetime)
  : M (list AuditEvent) AuditEvent :=
  l ← get;
  let previous := if PyStr.truthy (last_hash l) then last_hash l else GENESIS_HASH in
  e ← lift (create ("evt-" +:+ pretty (Z.of_nat (length l) + 1)) actor action rtype rid payload previous now);
  modify (fun l => l ++ [e]);;
  mret e.

(** The unsigned service keeps its chain verifiable: after any sequence
    of [record] calls, refused ones included, the stored events pass
    [verify_chain]. *)
Theorem service_chain_verifies l actor action rtype rid payload now :
  verify_chain l = true -> verify_chain (record actor action rtype rid payload now l).2 = true.
Proof.
  intros H. unfold record, get, lift, modify, mbind, M_bind, mret, M_ret.
  destruct (create _ _ _ _ _ _ _ _) as [e|x] eqn:E; cbn [snd]; [|exact H].
  apply AuditChain.create_link in E as (_ & _ & _ & _ & _ & Hp & _ & Hh).
  apply verify_from_snoc. split; [exact H|]. split; [|exact Hh].
  pose proof (tail_not_tagged l H) as Ht. rewrite Ht, Hp.
  assert (E : last_hash l = tail_from GENESIS_HASH l) by done.
  rewrite E. destruct (PyStr.truthy (tail_from GENESIS_HASH l)) eqn:Et; [done|].
  apply PyStr.truthy_false in Et. unfold tail_from in *.
  destruct l as [|e0 l0 _] using rev_ind; [done|]. rewrite last_snoc in *.
  apply verify_from_snoc in H as [_ [_ Hd]]. rewrite Hd, bare_digest in Et.
  by apply Sha256.hexdigest_not_empty in Et.
Qed.

Lemma service_chain_verifies_witness :
  verify_chain (record "ana" "login" "user" "u1" [] 5 []).2 = true.
Proof. apply (service_chain_verifies [] "ana" "login" "user" "u1" [] 5). reflexivity. Defined.

Definition chain_hmac (events : list AuditEvent) (key : string) : string :=
  "hmac-sha256:" +:+ Sha256.hmac key (PyStr.join "" (event_hash <$> events)).

Definition verify_chain_hmac (events : list AuditEvent) (key expected : string) : bool :=
  bool_decide (chain_hmac events key = expected).

End AuditService.

(** One call of the recorder port ([application/ports/audit.py]), as the
    clients of the audit make it. *)
Record AuditCall : Type := mkCall {
  call_actor : string;
  call_action : string;
  call_rtype : string;
  call_rid : string;
  call_payload : list (string * json)
}.
