(* ===== verification/Outbox.v ===== *)
(** * The audit outbox

    Models [src/secopent/infrastructure/audit/outbox_recorder.py] and
    [outbox_worker.py] over the tables they share
    ([infrastructure/db/outbox_models.py], the audit table of
    [infrastructure/repositories/sqlalchemy_core.py] and the signed table of
    [infrastructure/repositories/sqlalchemy_audit_chain.py]), with the unit of
    work of [infrastructure/db/session.py].  A transaction can fail when it
    commits: the database is rolled back, the memory of the signed chain is
    not.  The clock, the outcome of every commit and the order of a SELECT by
    time are parameters. *)
From S2P Require Import Prelude PyStr PyTime PyFloat Sha256 Canonical PyJson AuditTrail.

#[local] Open Scope Z_scope.

(** [CoreAuditOutbox] *)
Record OutboxRow : Type := mkRow {
  ob_id : Z;
  ob_call : AuditCall;
  ob_status : string;
  ob_error : option string;
  created_at : datetime;
  processed_at : option datetime
}.

(** The tables (the signed one is the store of the chain), the memory of the
    chain, and how many times the clock was read and a commit was tried. *)
Record World : Type := mkWorld {
  outbox : list OutboxRow;
  audit_table : list AuditEvent;
  chain : Chain;
  ticks : nat;
  commits : nat
}.

Module Outbox.

Definition BATCH_SIZE : nat := 100.
Definition ERROR_TEXT_LIMIT : nat := 1024.

Definition with_outbox (f : list OutboxRow -> list OutboxRow) : M World unit :=
  modify (fun w => mkWorld (f (outbox w)) (audit_table w) (chain w) (ticks w) (commits w)).

(** What a rollback to the start [w0] of the transaction leaves of [w]. *)
Definition rollback (w0 w : World) : World :=
  mkWorld (outbox w0) (audit_table w0)
    (mkChain (events (chain w)) (tail (chain w)) (counter (chain w)) (redactions (chain w)) (stored (chain w0)))
    (ticks w) (commits w).

Section outbox.
Context (sign : string -> string) (clock : nat -> datetime).
(** What the n-th commit raises, if it fails. *)
Context (commit_error : nat -> option exn).
(** [SELECT ... ORDER BY occurred_at] of the audit table. *)
Context (by_time : list AuditEvent -> list AuditEvent).

Definition utc_now : M World datetime := fun w =>
  (Ret (clock (ticks w)), mkWorld (outbox w) (audit_table w) (chain w) (S (ticks w)) (commits w)).

(** [with db.unit_of_work() as uow] *)
Definition unit_of_work {A} (body : M World A) : M World A := fun w =>
  let (r, w') := body w in
  match r with
  | Raise e => (Raise e, rollback w w')
  | Ret a =>
      let w'' := mkWorld (outbox w') (audit_table w') (chain w') (ticks w') (S (commits w')) in
      match commit_error (commits w') with
      | None => (Ret a, w'')
      | Some e => (Raise e, rollback w w'')
      end
  end.

Definition next_id (rows : list OutboxRow) : Z := foldr Z.max 0 (ob_id <$> rows) + 1.

(** [OutboxRecorder.record] *)
Definition add_row (c : AuditCall) : M World unit :=
  now ← utc_now;
  with_outbox (fun rows => rows ++ [mkRow (next_id rows) c "pending" None now None]).

Definition record (in_session : bool) (c : AuditCall) : M World unit :=
  if in_session then add_row c else unit_of_work (add_row c).

(** [AuditService(SqlAlchemyAuditRepository(session)).record] *)
Definition audit_record (c : AuditCall) : M World unit :=
  now ← utc_now;
  w ← get;
  e ← lift (AuditService.record (call_actor c) (call_action c) (call_rtype c) (call_rid c) (call_payload c) now
              (by_time (audit_table w))).1;
  modify (fun w => mkWorld (outbox w) (audit_table w ++ [e]) (chain w) (ticks w) (commits w)).

Definition in_chain {A} (m : M Chain A) : M World A := fun w =>
  let (r, ch) := m (chain w) in (r, mkWorld (outbox w) (audit_table w) ch (ticks w) (commits w)).

Definition chain_record (c : AuditCall) : M World unit :=
  now ← utc_now;
  in_chain (AuditChain.record sign AuditChain.session_add (call_actor c) (call_action c) (call_rtype c) (call_rid c)
              (call_payload c) None now);;
  mret tt.

Definition set_row (i : Z) (f : OutboxRow -> OutboxRow) : M World unit :=
  with_outbox (fmap (fun r => if ob_id r =? i then f r else r)).

Definition done (now : datetime) (r : OutboxRow) : OutboxRow :=
  mkRow (ob_id r) (ob_call r) "done" (ob_error r) (created_at r) (Some now).

Definition failed (e : exn) (r : OutboxRow) : OutboxRow :=
  mkRow (ob_id r) (ob_call r) "failed" (Some (PyStr.take ERROR_TEXT_LIMIT (message e))) (created_at r)
    (processed_at r).

Definition drain_row (r : OutboxRow) : M World unit := fun w =>
  let (x, w') := (audit_record (ob_call r);; chain_record (ob_call r);;
                  now ← utc_now; set_row (ob_id r) (done now)) w in
  match x with
  | Ret _ => (Ret tt, w')
  | Raise e => set_row (ob_id r) (failed e) (rollback w w')
  end.

Definition is_pending (r : OutboxRow) : bool := bool_decide (ob_status r = "pending").

Definition pending_ids (rows : list OutboxRow) : list Z :=
  take BATCH_SIZE (merge_sort Z.le (ob_id <$> List.filter is_pending rows)).

Definition drain_one (i : Z) : M World unit := fun w =>
  match List.find (fun r => ob_id r =? i) (outbox w) with
  | Some r => if is_pending r then drain_row r w else (Ret tt, w)
  | None => (Ret tt, w)
  end.

Fixpoint drain_ids (ids : list Z) : M World unit :=
  match ids with
  | [] => mret tt
  | i :: ids' => unit_of_work (drain_one i);; drain_ids ids'
  end.

Definition drain_batch : M World Z :=
  ids ← unit_of_work (fun w => (Ret (pending_ids (outbox w)), w));
  drain_ids ids;;
  mret (Z.of_nat (length ids)).

Fixpoint drain_loop (fuel : nat) (total : Z) : M World Z := fun w =>
  match fuel with
  | O => (Raise OutOfFuel, w)
  | S n =>
      let (r, w') := drain_batch w in
      match r with
      | Raise _ => (Ret total, w')
      | Ret 0 => (Ret total, w')
      | Ret d => drain_loop n (total + d) w'
      end
  end.

(** The loop ends by itself; the bound is above the number of rows. *)
Definition drain_pending : M World Z := fun w => drain_loop (S (length (outbox w))) 0 w.

(** One turn of the loop of [run_forever]. *)
Definition poll : M World unit := fun w => (Ret tt, (drain_batch w).2).

(** A new process: the chain is loaded from its table. *)
Definition restart : M World unit :=
  modify (fun w => mkWorld (outbox w) (audit_table w) (AuditChain.init (stored (chain w))) (ticks w) (commits w)).

Inductive op : Type := Record_ (in_session : bool) (c : AuditCall) | Poll | DrainPending | Restart.

Definition run (o : op) (w : World) : World :=
  match o with
  | Record_ s c => (record s c w).2
  | Poll => (poll w).2
  | DrainPending => (drain_pending w).2
  | Restart => (restart w).2
  end.

Definition run_all (ops : list op) (w : World) : World := foldl (fun w o => run o w) w ops.

Definition empty : World := mkWorld [] [] (AuditChain.init (Some [])) 0 0.

(** ** One row *)

(** What the recorded events say, as calls. *)
Definition call_of (e : AuditEvent) : AuditCall :=
  mkCall (actor e) (action e) (resource_type e) (resource_id e) (payload e).

Definition table_calls (w : World) : list AuditCall := call_of <$> audit_table w.
Definition signed_calls (w : World) : option (list AuditCall) :=
  match stored (chain w) with Some l => Some (call_of ∘ event <$> l) | None => None end.

(** Whether the audit takes a call does not depend on when it is made. *)
Definition verdict (c : AuditCall) : outcome unit :=
  raise_if (negb (PyStr.truthy (call_actor c) && PyStr.truthy (call_action c)
                  && PyStr.truthy (call_rtype c) && PyStr.truthy (call_rid c)))
    (DomainValidationError "audit event fields must not be empty");;
  AuditEvent.check_no_secret (call_payload c).

Lemma create_verdict id c prev now :
  PyStr.truthy id = true ->
  match AuditEvent.create id (call_actor c) (call_action c) (call_rtype c) (call_rid c) (call_payload c) prev now with
  | Ret e => verdict c = Ret tt /\ call_of e = c
  | Raise x => verdict c = Raise x
  end.
Proof.
  intros Hid. unfold AuditEvent.create, verdict. rewrite Hid. cbn [andb].
  destruct (raise_if _ _) as [[]|x]; [|done]. cbn [mbind outcome_bind].
  destruct (AuditEvent.check_no_secret _) as [[]|x]; [|done]. split; [done|]. by destruct c.
Qed.

Lemma evt_truthy n : PyStr.truthy ("evt-" +:+ n) = true.
Proof. done. Qed.

Lemma audit_record_spec c w :
  match verdict c with
  | Ret _ => exists e, call_of e = c /\ audit_record c w
      = (Ret tt, mkWorld (outbox w) (audit_table w ++ [e]) (chain w) (S (ticks w)) (commits w))
  | Raise x => audit_record c w
      = (Raise x, mkWorld (outbox w) (audit_table w) (chain w) (S (ticks w)) (commits w))
  end.
Proof.
  unfold audit_record, AuditService.record, utc_now, get, lift, modify, mbind, M_bind, mret, M_ret. cbn.
  match goal with |- context [AuditEvent.create ?id _ _ _ _ _ ?prev ?now] =>
    pose proof (create_verdict id c prev now (evt_truthy _)) as H;
    destruct (AuditEvent.create id _ _ _ _ _ prev now) as [e|x] end.
  - destruct H as [-> He]. by exists e.
  - by rewrite H.
Qed.

Lemma chain_call_spec c w :
  verdict c = Ret tt ->
  exists s ch, chain_record c w = (Ret tt, mkWorld (outbox w) (audit_table w) ch (S (ticks w)) (commits w))
    /\ call_of (event s) = c /\ stored ch = (fun l => l ++ [s]) <$> stored (chain w)
    /\ (AuditChain.wf sign (chain w) -> AuditChain.wf sign ch).
Proof.
  intros Hv. unfold chain_record, in_chain, utc_now, mbind, M_bind, mret, M_ret. cbn [ticks outbox audit_table chain commits].
  pose proof (AuditChain.record_wf sign (call_actor c) (call_action c) (call_rtype c) (call_rid c)
    (call_payload c) None (clock (ticks w)) (chain w)) as Hw.
  pose proof (AuditChain.chain_record_spec sign (call_actor c) (call_action c) (call_rtype c) (call_rid c)
    (call_payload c) None (clock (ticks w)) (chain w)) as E. cbn zeta in E. rewrite E in *.
  pose proof (create_verdict ("evt-" +:+ pretty (counter (chain w) + 1)) c (tail (chain w)) (clock (ticks w))
    (evt_truthy _)) as H.
  destruct (AuditEvent.create _ _ _ _ _ _ _ _) as [e|x]; [|congruence].
  destruct H as [_ He]. exists (mkSigned e (sign (event_hash e))). eexists. split_and!; [done|exact He| |exact Hw]. cbn. by destruct (stored (chain w)).
Qed.

(** ** The rows *)

Definition ids (rows : list OutboxRow) : list Z := ob_id <$> rows.
Definition ordered (rows : list OutboxRow) : Prop := StronglySorted Z.lt (ids rows) /\ Forall (fun i => 0 < i) (ids rows).

Lemma ordered_app s r p : ordered (s ++ r :: p) ->
  Forall (fun x => ob_id x < ob_id r) s /\ Forall (fun x => ob_id r < ob_id x) p.
Proof.
  intros [H _]. unfold ids in H. rewrite fmap_app, fmap_cons in H. apply StronglySorted_app in H as (H1 & _ & H2).
  apply StronglySorted_inv in H2 as [_ H2]. rewrite Forall_fmap in H2. split; [|exact H2].
  apply Forall_forall. intros x Hx. apply H1; [by apply list_elem_of_fmap_2|by left].
Qed.

Lemma find_row s r p : ordered (s ++ r :: p) -> List.find (fun x => ob_id x =? ob_id r) (s ++ r :: p) = Some r.
Proof.
  intros [Hs _]%ordered_app. induction Hs as [|x s Hx _ IH]; cbn; [by rewrite Z.eqb_refl|].
  destruct (Z.eqb_spec (ob_id x) (ob_id r)); [lia|exact IH].
Qed.

Lemma set_rows_at s r p f : ordered (s ++ r :: p) ->
  (fun x => if ob_id x =? ob_id r then f x else x) <$> (s ++ r :: p) = s ++ f r :: p.
Proof.
  intros [Hs Hp]%ordered_app. rewrite fmap_app, fmap_cons, Z.eqb_refl.
  assert (Hid : forall l, Forall (fun x => ob_id x <> ob_id r) l ->
    (fun x => if ob_id x =? ob_id r then f x else x) <$> l = l).
  { induction 1 as [|x l Hx _ IH]; [done|]. rewrite fmap_cons, IH. by apply Z.eqb_neq in Hx as ->. }
  rewrite !Hid; [done|eapply Forall_impl; [exact Hp|]; cbn; lia|eapply Forall_impl; [exact Hs|]; cbn; lia].
Qed.

Lemma set_row_spec s r p f w :
  outbox w = s ++ r :: p -> ordered (s ++ r :: p) ->
  set_row (ob_id r) f w
  = (Ret tt, mkWorld (s ++ f r :: p) (audit_table w) (chain w) (ticks w) (commits w)).
Proof. intros Ho H. unfold set_row, with_outbox, modify. by rewrite Ho, set_rows_at. Qed.

Lemma pending_ids_spec s p :
  ordered (s ++ p) -> Forall (fun r => is_pending r = false) s -> Forall (fun r => is_pending r = true) p ->
  pending_ids (s ++ p) = ids (take BATCH_SIZE p).
Proof.
  intros [Hs _] Hn Hp. unfold pending_ids, ids. rewrite List.filter_app.
  assert (E1 : List.filter is_pending s = []) by (clear Hs; induction Hn as [|x l E _ IH]; cbn [List.filter]; [done|by rewrite E]).
  assert (E2 : List.filter is_pending p = p).
  { clear Hs. induction Hp as [|x l E _ IH]; cbn [List.filter]; [done|]. by rewrite E, IH. }
  rewrite E1, E2, fmap_take. cbn [app]. f_equal.
  unfold ids in Hs. rewrite fmap_app in Hs. apply StronglySorted_app_1_r in Hs.
  apply (StronglySorted_unique Z.le); [apply StronglySorted_merge_sort; [intros ???; lia|intros ??; lia]| |apply merge_sort_Permutation].
  clear -Hs. induction Hs as [|i l _ IH Hf]; constructor; [done|]. eapply Forall_impl; [exact Hf|]. lia.
Qed.

(** ** The invariant: settled rows, then pending ones *)

Definition is_done (r : OutboxRow) : bool := bool_decide (ob_status r = "done").
Definition done_calls (rows : list OutboxRow) : list AuditCall := ob_call <$> List.filter is_done rows.

Record shape (s p : list OutboxRow) (w : World) : Prop := {
  sh_rows : outbox w = s ++ p;
  sh_ordered : ordered (s ++ p);
  sh_settled : Forall (fun r => is_pending r = false) s;
  sh_pending : Forall (fun r => is_pending r = true) p;
  sh_table : table_calls w = done_calls s;
  sh_signed : signed_calls w = Some (done_calls s)
}.

(** How a settled row follows from the pending one. *)
Definition drained (r r' : OutboxRow) : Prop :=
  ob_id r' = ob_id r /\ ob_call r' = ob_call r
  /\ match verdict (ob_call r) with
     | Ret _ => ob_status r' = "done"
     | Raise x => ob_status r' = "failed" /\ ob_error r' = Some (PyStr.take ERROR_TEXT_LIMIT (message x))
     end.

Lemma drained_ids l l' : Forall2 drained l l' -> ids l' = ids l.
Proof. induction 1 as [|r r' l l' (Hi & _) _ IH]; [done|]. unfold ids in *. by rewrite !fmap_cons, Hi, IH. Qed.

Lemma drained_status r r' : drained r r' -> is_pending r' = false.
Proof. intros (_ & _ & H). unfold is_pending. destruct (verdict _); [by rewrite H|by destruct H as [-> _]]. Qed.

Definition accepted (l : list AuditCall) : list AuditCall := List.filter (fun c => is_Ret (verdict c)) l.

Lemma drained_done l l' : Forall2 drained l l' -> done_calls l' = accepted (ob_call <$> l).
Proof.
  induction 1 as [|r r' l l' (_ & Hc & Hs) _ IH]; [done|]. unfold done_calls, accepted in *. cbn.
  unfold is_done at 1. destruct (verdict (ob_call r)) as [[]|x]; cbn.
  - rewrite bool_decide_true by done. rewrite fmap_cons, IH, Hc. done.
  - destruct Hs as [-> _]. by rewrite bool_decide_false.
Qed.

Lemma rollback_shape s p w w' : shape s p w -> shape s p (rollback w w').
Proof. by intros [H1 H2 H3 H4 H5 H6]. Qed.

Lemma count_shape s p w k : shape s p w -> shape s p (mkWorld (outbox w) (audit_table w) (chain w) (ticks w) k).
Proof. by intros [H1 H2 H3 H4 H5 H6]. Qed.

Lemma drained_app_ordered s p1 p2 s2 : Forall2 drained p1 s2 -> ordered (s ++ p1 ++ p2) -> ordered ((s ++ s2) ++ p2).
Proof.
  intros Hd%drained_ids. unfold ordered, ids in *. by rewrite !fmap_app, Hd, app_assoc.
Qed.

(** A row that is drained settles, and an accepted call reaches both tables. *)
Lemma drain_row_spec s r p w :
  shape s (r :: p) w ->
  exists r' w', drain_row r w = (Ret tt, w') /\ drained r r' /\ shape (s ++ [r']) p w'
    /\ commits w' = commits w /\ (AuditChain.wf sign (chain w) -> AuditChain.wf sign (chain w')).
Proof.
  intros [Hr Ho Hs [Hp1 Hp]%Forall_cons Ht Hg].
  assert (Hnew : forall r', drained r r' -> forall w', outbox w' = s ++ r' :: p ->
    table_calls w' = table_calls w ++ done_calls [r'] ->
    signed_calls w' = (fun l => l ++ done_calls [r']) <$> signed_calls w ->
    shape (s ++ [r']) p w').
  { intros r' Hd w' Hr' Ht' Hg'. split.
    - by rewrite Hr', <- app_assoc.
    - apply (drained_app_ordered s [r] p [r']); [constructor; [done|constructor]|exact Ho].
    - apply Forall_app. split; [done|]. constructor; [by eapply drained_status|constructor].
    - done.
    - rewrite Ht', Ht. unfold done_calls. by rewrite List.filter_app, fmap_app.
    - rewrite Hg', Hg. unfold done_calls. rewrite List.filter_app, fmap_app. done. }
  unfold drain_row, mbind, M_bind. pose proof (audit_record_spec (ob_call r) w) as Ha.
  destruct (verdict (ob_call r)) as [[]|x] eqn:Ev.
  - destruct Ha as (e & He & ->).
    destruct (chain_call_spec (ob_call r) (mkWorld (outbox w) (audit_table w ++ [e]) (chain w) (S (ticks w)) (commits w)) Ev)
      as (g & ch & -> & Hgc & Hst & Hwf).
    unfold utc_now. cbn [ticks outbox audit_table chain commits].
    rewrite (set_row_spec s r p) by done. eexists (done _ r), _. split; [reflexivity|].
    assert (Hd : forall t, drained r (done t r)) by (intros t; split_and!; [done..|by rewrite Ev]).
    split_and!; [apply Hd| |done|exact Hwf]. apply Hnew; [apply Hd|done| |].
    + unfold table_calls. cbn. by rewrite fmap_app, list_fmap_singleton, He.
    + unfold signed_calls. cbn [chain]. rewrite Hst. cbn [chain]. destruct (stored (chain w)); [|done].
      cbn. rewrite fmap_app. by assert (call_of ∘ event <$> [g] = [ob_call r]) as -> by (cbn; by rewrite Hgc).
  - rewrite Ha. rewrite (set_row_spec s r p) by done. eexists (failed x r), _. split; [reflexivity|].
    assert (Hd : drained r (failed x r)) by (split_and!; [done..|by rewrite Ev]).
    split_and!; [exact Hd| |done|].
    + apply Hnew; [exact Hd|done| |].
      * unfold table_calls, rollback. cbn. by rewrite app_nil_r.
      * unfold signed_calls, rollback. cbn. destruct (stored (chain w)); [|done]. cbn. by rewrite app_nil_r.
    + unfold rollback. cbn. by destruct (chain w).
Qed.

(** ** A transaction, a batch, the loop *)

(** No commit from the n-th on fails. *)
Definition commits_from (n : nat) : Prop := forall k, (n <= k)%nat -> commit_error k = None.

Lemma commits_le n m : commits_from n -> (n <= m)%nat -> commits_from m.
Proof. intros H Hle k Hk. apply H. lia. Qed.

(** What a run over the first [k] pending rows leaves: a part of them has
    settled, all [k] if it returned, and it can only raise if a commit fails. *)
Record progress (s p : list OutboxRow) (k : nat) (w : World) {A} (a : A) (x : outcome A * World) : Prop := {
  pr_rows : exists p1 p2 s2, p = p1 ++ p2 /\ Forall2 drained p1 s2 /\ shape (s ++ s2) p2 x.2
    /\ (is_Ret x.1 = true -> length p1 = k);
  pr_ret : x.1 = Ret a \/ is_Ret x.1 = false;
  pr_commits : (commits w <= commits x.2)%nat;
  pr_ok : commits_from (commits w) ->
    x.1 = Ret a /\ (AuditChain.wf sign (chain w) -> AuditChain.wf sign (chain x.2))
}.

Lemma drain_one_spec s r p w :
  shape s (r :: p) w -> progress s (r :: p) 1 w tt (unit_of_work (drain_one (ob_id r)) w).
Proof.
  intros Hsh. unfold unit_of_work, drain_one. rewrite (sh_rows _ _ _ Hsh), (find_row s r p) by apply Hsh.
  pose proof (sh_pending _ _ _ Hsh) as [-> _]%Forall_cons.
  destruct (drain_row_spec s r p w Hsh) as (r' & w' & -> & Hd & Hsh' & Hc & Hwf).
  destruct (commit_error (commits w')) as [e|] eqn:Ec; split; cbn [fst snd is_Ret].
  - exists [], (r :: p), []. rewrite app_nil_r. split_and!; [done|constructor|by apply rollback_shape|done].
  - by right.
  - cbn. lia.
  - intros Hk. rewrite Hk in Ec by lia. done.
  - exists [r], p, [r']. split_and!; [done|constructor; [done|constructor]|by apply count_shape|done].
  - by left.
  - cbn. lia.
  - done.
Qed.

Lemma progress_cons s r p k w w1 r' x :
  shape (s ++ [r']) p w1 -> drained r r' -> (commits w <= commits w1)%nat ->
  (AuditChain.wf sign (chain w) -> commits_from (commits w) -> AuditChain.wf sign (chain w1)) ->
  progress (s ++ [r']) p k w1 tt x -> progress s (r :: p) (S k) w tt x.
Proof.
  intros Hsh Hd Hc Hwf [(p1 & p2 & s2 & -> & HF & Hsh2 & Hl) Hr Hle Hok]. split; [|done|lia|].
  - exists (r :: p1), p2, (r' :: s2). split_and!; [done|by constructor| |intros H; cbn; by rewrite Hl].
    rewrite <- app_assoc in Hsh2. exact Hsh2.
  - intros Hk. destruct Hok as [-> Hw]; [by eapply commits_le|]. split; [done|]. intros Hw0. by apply Hw, Hwf.
Qed.

Lemma drain_ids_spec k s p w :
  shape s p w -> progress s p (length (take k p)) w tt (drain_ids (ids (take k p)) w).
Proof.
  revert k s w. induction p as [|r p IH]; intros [|k] s w Hsh;
    try by (split; [exists [], [], []; rewrite ?app_nil_r; by split_and!|by left|done|by split]).
  { split; [exists [], (r :: p), []; rewrite ?app_nil_r; by split_and!|by left|done|by split]. }
  cbn [take ids length]. unfold ids. rewrite fmap_cons. cbn [drain_ids]. unfold mbind, M_bind.
  destruct (drain_one_spec s r p w Hsh) as [(p1 & p2 & s2 & Hp & HF & Hsh' & Hl) Hr Hle Hok].
  destruct (unit_of_work (drain_one (ob_id r)) w) as [[[]|e] w1]; cbn [fst snd is_Ret] in *.
  - specialize (Hl eq_refl). destruct p1 as [|r1 [|? ?]]; [done| |done]. cbn in Hp. injection Hp as <- <-.
    inversion HF as [|? r' ? ? Hd HF']; subst. inversion HF'; subst.
    apply (progress_cons s r p _ w w1 r'); [done..| |by apply IH]. intros Hw Hk. by apply Hok.
  - split; cbn [fst snd is_Ret]; [|by right|done|].
    + exists p1, p2, s2. by split_and!.
    + intros Hk. destruct (Hok Hk) as [? _]. done.
Qed.

Lemma drain_batch_spec s p w :
  shape s p w ->
  progress s p (length (take BATCH_SIZE p)) w (Z.of_nat (length (take BATCH_SIZE p))) (drain_batch w).
Proof.
  intros Hsh. unfold drain_batch, mbind, M_bind, mret, M_ret. unfold unit_of_work at 1.
  destruct (commit_error (commits w)) as [e|] eqn:Ec.
  { split; cbn [fst snd is_Ret]; [|by right|cbn; lia|intros Hk; by rewrite Hk in Ec by lia].
    exists [], p, []. rewrite app_nil_r. split_and!; [done|constructor|by apply rollback_shape|done]. }
  rewrite (sh_rows _ _ _ Hsh), pending_ids_spec by apply Hsh.
  set (w1 := mkWorld (s ++ p) _ _ _ _).
  assert (Hsh1 : shape s p w1) by (subst w1; rewrite <- (sh_rows _ _ _ Hsh); by apply count_shape).
  destruct (drain_ids_spec BATCH_SIZE s p w1 Hsh1) as [Hrows Hr Hle Hok].
  unfold ids in *. rewrite length_fmap.
  destruct (drain_ids (ob_id <$> take BATCH_SIZE p) w1) as [[[]|e] w2]; cbn [fst snd is_Ret] in *;
    (split; cbn [fst snd is_Ret]; [done|by (left + right)|cbn in Hle; lia|]).
  - intros Hk. split; [done|]. intros Hw. apply Hok; [|done]. eapply commits_le; [done|cbn; lia].
  - intros Hk. destruct Hok as [? _]; [|done]. eapply commits_le; [done|cbn; lia].
Qed.

Lemma drain_loop_spec fuel s p w total :
  shape s p w -> (length p < fuel)%nat ->
  exists t w' p1 p2 s2, drain_loop fuel total w = (Ret t, w') /\ p = p1 ++ p2 /\ Forall2 drained p1 s2
    /\ shape (s ++ s2) p2 w'
    /\ (commits_from (commits w) -> p2 = [] /\ t = total + Z.of_nat (length p)
        /\ (AuditChain.wf sign (chain w) -> AuditChain.wf sign (chain w'))).
Proof.
  revert s p w total. induction fuel as [|n IH]; intros s p w total Hsh Hf; [lia|]. cbn [drain_loop].
  destruct (drain_batch_spec s p w Hsh) as [(p1 & p2 & s2 & Hp & HF & Hsh' & Hl) Hr Hle Hok].
  destruct (drain_batch w) as [[d|e] w1]; cbn [fst snd is_Ret] in *.
  2: { exists total, w1, p1, p2, s2. split_and!; [done..|]. intros Hk. by destruct (Hok Hk). }
  specialize (Hl eq_refl). destruct Hr as [[= ->]|?]; [|done].
  rewrite length_take in *.
  destruct p as [|r p']; [|].
  - cbn. symmetry in Hp. apply app_nil in Hp as [-> ->]. inversion HF; subst.
    exists total, w1, [], [], []. split_and!; [done..|]. intros Hk. destruct (Hok Hk). split_and!; [done|lia|done].
  - set (p := r :: p') in *. assert (Hpos : (0 < length p1)%nat) by (rewrite Hl; subst p; cbn; lia).
    assert (Hlen : (length p = length p1 + length p2)%nat) by by rewrite Hp, length_app.
    destruct (IH (s ++ s2) p2 w1 (total + Z.of_nat (length p1)) Hsh' ltac:(lia))
      as (t & w' & p3 & p4 & s3 & El & Hp2 & HF2 & Hsh2 & Hend).
    exists t, w', (p1 ++ p3), p4, (s2 ++ s3). rewrite <- Hl.
    destruct (Z.of_nat (length p1)) as [|z|z] eqn:Ez; [lia| |lia]. split_and!; [done| | |by rewrite app_assoc|].
    + by rewrite <- app_assoc, <- Hp2.
    + by apply Forall2_app.
    + intros Hk. destruct Hend as (-> & -> & Hw); [by eapply commits_le|]. split_and!; [done|lia|].
      intros H. by apply Hw, Hok.
Qed.

(** ** Histories *)

Lemma next_id_above rows : Forall (fun i => i < next_id rows) (ids rows).
Proof.
  unfold next_id, ids. induction rows as [|r rows IH]; [constructor|]. cbn [fmap list_fmap foldr]. constructor; [lia|].
  eapply Forall_impl; [exact IH|]. cbn. lia.
Qed.

Lemma next_id_pos rows : 0 < next_id rows.
Proof. unfold next_id. induction rows as [|r rows IH]; cbn; lia. Qed.

Lemma add_row_spec s p c w :
  shape s p w -> exists r w', add_row c w = (Ret tt, w') /\ ob_call r = c /\ shape s (p ++ [r]) w'
    /\ commits w' = commits w.
Proof.
  intros [Hr [Ho Hpos] Hs Hp Ht Hg]. unfold add_row, utc_now, with_outbox, modify, mbind, M_bind. cbn.
  eexists (mkRow _ c "pending" None _ None), _. split_and!; [done..| |done]. split; cbn; try done.
  - rewrite Hr. by rewrite app_assoc.
  - rewrite app_assoc, <- Hr in *. unfold ordered, ids in *. rewrite fmap_app. cbn. split.
    + apply StronglySorted_app_2; [|done|by repeat constructor].
      intros i j Hi ->%list_elem_of_singleton. pose proof (next_id_above (outbox w)) as H. rewrite Forall_forall in H. by apply H.
    + apply Forall_app. split; [done|]. constructor; [apply next_id_pos|constructor].
  - apply Forall_app. split; [done|]. by repeat constructor.
Qed.

Definition added (o : op) : list AuditCall := match o with Record_ _ c => [c] | _ => [] end.

Lemma settled_calls l l' : Forall2 drained l l' -> ob_call <$> l' = ob_call <$> l.
Proof. induction 1 as [|r r' l l' (_ & Hc & _) _ IH]; [done|]. by rewrite !fmap_cons, Hc, IH. Qed.

(** Every call keeps the shape and the rows: they only settle, and [record]
    adds one unless its commit fails. *)
Lemma run_shape o s p w :
  shape s p w -> exists s' p', shape s' p' (run o w)
    /\ (ob_call <$> s' ++ p' = (ob_call <$> s ++ p) ++ added o \/ ob_call <$> s' ++ p' = ob_call <$> s ++ p).
Proof.
  intros Hsh. destruct o as [in_session c| | |]; cbn [run added].
  - destruct (add_row_spec s p c w Hsh) as (r & w' & Ha & Hc & Hsh' & _). unfold record.
    assert (E : ob_call <$> s ++ p ++ [r] = (ob_call <$> s ++ p) ++ [c]) by (rewrite !fmap_app, <- app_assoc; cbn; by rewrite Hc).
    destruct in_session; [rewrite Ha; eexists s, _; split; [exact Hsh'|by left]|].
    unfold unit_of_work. rewrite Ha. destruct (commit_error _); cbn.
    + exists s, p. split; [by apply rollback_shape|by right].
    + eexists s, _. split; [by apply count_shape|by left].
  - unfold poll. destruct (drain_batch_spec s p w Hsh) as [(p1 & p2 & s2 & -> & HF & Hsh' & _) _ _ _].
    exists (s ++ s2), p2. split; [done|]. right. by rewrite <- app_assoc, !fmap_app, (settled_calls _ _ HF).
  - unfold drain_pending. destruct (drain_loop_spec (S (length (outbox w))) s p w 0 Hsh)
      as (t & w' & p1 & p2 & s2 & -> & -> & HF & Hsh' & _); [rewrite (sh_rows _ _ _ Hsh), length_app; lia|].
    exists (s ++ s2), p2. split; [done|]. right. by rewrite <- app_assoc, !fmap_app, (settled_calls _ _ HF).
  - exists s, p. split; [|by right]. destruct Hsh as [H1 H2 H3 H4 H5 H6]. split; try done.
    unfold signed_calls, restart, modify in *. cbn. by destruct (stored (chain w)).
Qed.

Lemma empty_shape : shape [] [] empty.
Proof. split; try done; try constructor; constructor. Qed.

Lemma run_all_shape ops : exists s p, shape s p (run_all ops empty)
  /\ (ob_call <$> s ++ p) `sublist_of` (ops ≫= added).
Proof.
  induction ops as [|o ops IH] using rev_ind; [exists [], []; split; [apply empty_shape|done]|].
  destruct IH as (s & p & Hsh & Hsub). unfold run_all. rewrite foldl_app. cbn.
  destruct (run_shape o s p _ Hsh) as (s' & p' & Hsh' & E). exists s', p'. split; [exact Hsh'|].
  rewrite bind_app. cbn. rewrite app_nil_r. destruct E as [-> | ->]; [by apply sublist_app|].
  by apply sublist_inserts_r.
Qed.

Lemma pending_done p : Forall (fun r => is_pending r = true) p -> done_calls p = [].
Proof.
  unfold done_calls. induction 1 as [|r p Hr _ IH]; [done|]. cbn [List.filter].
  unfold is_pending in Hr. apply bool_decide_eq_true in Hr. unfold is_done at 1. rewrite Hr. exact IH.
Qed.

(** C21: Every accepted event is audited exactly once. Whatever is recorded,
    drained and restarted, and whichever commits fail, the audit table and the
    signed table hold the same calls: those of the rows marked done, once
    each and in the order of the rows; the rows are in the order they were
    recorded in, and no row is settled while an earlier one is pending. *)
Theorem audit_is_exactly_once ops :
  let w := run_all ops empty in
  table_calls w = done_calls (outbox w) /\ signed_calls w = Some (done_calls (outbox w))
  /\ (ob_call <$> outbox w) `sublist_of` (ops ≫= added)
  /\ StronglySorted Z.lt (ids (outbox w))
  /\ exists s p, outbox w = s ++ p /\ Forall (fun r => is_pending r = false) s
     /\ Forall (fun r => is_pending r = true) p.
Proof.
  intros w. destruct (run_all_shape ops) as (s & p & [Hr [Ho _] Hs Hp Ht Hg] & Hsub). fold w in Hr, Ht, Hg.
  rewrite Hr. assert (E : done_calls (s ++ p) = done_calls s).
  { unfold done_calls. rewrite List.filter_app, fmap_app. fold (done_calls p). by rewrite (pending_done p), app_nil_r. }
  rewrite E. split_and!; [done..|]. by exists s, p.
Qed.

(** Draining always ends, and empties the outbox. In every state a history
    can reach, [drain_pending] returns. When the database takes the commits,
    it settles every pending row: the calls the audit accepts are appended to
    both tables in the order of the rows, a row it refuses is marked failed
    with the message of the refusal, the number of rows is returned, and a
    signed chain that was intact stays so. *)
Theorem drain_flushes_the_outbox ops :
  let w := run_all ops empty in
  let todo := List.filter is_pending (outbox w) in
  exists n w', drain_pending w = (Ret n, w') /\ (commits_from (commits w) ->
    n = Z.of_nat (length todo)
    /\ table_calls w' = table_calls w ++ accepted (ob_call <$> todo)
    /\ (exists l, signed_calls w = Some l /\ signed_calls w' = Some (l ++ accepted (ob_call <$> todo)))
    /\ (exists s settled, outbox w = s ++ todo /\ outbox w' = s ++ settled /\ Forall2 drained todo settled)
    /\ (AuditChain.wf sign (chain w) -> AuditChain.wf sign (chain w'))).
Proof.
  intros w todo. destruct (run_all_shape ops) as (s & p & Hsh & _). fold w in Hsh.
  assert (Etodo : todo = p).
  { subst todo. rewrite (sh_rows _ _ _ Hsh), List.filter_app.
    pose proof (sh_settled _ _ _ Hsh) as Hs. pose proof (sh_pending _ _ _ Hsh) as Hp. clear Hsh.
    assert (List.filter is_pending s = []) as -> by (induction Hs as [|x l E _ IH]; cbn [List.filter]; [done|by rewrite E]).
    induction Hp as [|x l E _ IH]; cbn [List.filter app] in *; [done|by rewrite E, IH]. }
  rewrite Etodo. unfold drain_pending.
  destruct (drain_loop_spec (S (length (outbox w))) s p w 0 Hsh)
    as (t & w' & p1 & p2 & s2 & -> & Hp & HF & Hsh' & Hend); [rewrite (sh_rows _ _ _ Hsh), length_app; lia|].
  exists t, w'. split; [done|]. intros Hk. destruct (Hend Hk) as (-> & -> & Hwf). rewrite app_nil_r in Hp. subst p1.
  assert (E : done_calls (s ++ s2) = done_calls s ++ accepted (ob_call <$> p)).
  { unfold done_calls at 1. rewrite List.filter_app, fmap_app. f_equal. by apply drained_done. }
  split_and!; [lia| | | |exact Hwf].
  - by rewrite (sh_table _ _ _ Hsh'), (sh_table _ _ _ Hsh), E.
  - exists (done_calls s). by rewrite (sh_signed _ _ _ Hsh'), (sh_signed _ _ _ Hsh), E.
  - exists s, s2. split_and!; [apply Hsh| |done]. rewrite (sh_rows _ _ _ Hsh'). by rewrite app_nil_r.
Qed.
End outbox.

(** ** Concrete runs *)
Definition demo_call (actor : string) (p : list (string * json)) : AuditCall := mkCall actor "login" "user" "u1" p.
Definition demo_ops : list op :=
  [Record_ true (demo_call "ana" []); Record_ false (demo_call "" []);
   Record_ false (demo_call "bob" [("token", JStr "t")]); Record_ true (demo_call "eve" [])].
Definition demo_clock (n : nat) : datetime := Z.of_nat n.
Definition demo_run (fails : list nat) (ops : list op) : World :=
  run_all AuditChain.demo_sign demo_clock (fun k => if bool_decide (k ∈ fails) then Some (RuntimeError "disk full") else None)
    id ops empty.

Example demo_drain :
  let w := demo_run [] (demo_ops ++ [DrainPending]) in
  ob_status <$> outbox w = ["done"; "failed"; "failed"; "done"]
  /\ call_actor <$> table_calls w = ["ana"; "eve"]
  /\ AuditEvent.verify_chain (audit_table w) = true /\ AuditChain.verify AuditChain.demo_ok (chain w) = true.
Proof. split_and!; vm_compute; reflexivity. Qed.

(** A failed commit breaks the signed chain. The table is rolled back but the
    memory of the chain keeps the event, so the event is signed again with a
    link to one the table does not have: after a restart the chain that was
    loaded does not verify. *)
Example failed_commit_breaks_the_signed_chain :
  let w := demo_run [1%nat] [Record_ true (demo_call "ana" []); Poll; Poll; Restart] in
  call_actor <$> table_calls w = ["ana"] /\ event_id <$> audit_table w = ["evt-1"]
  /\ event_id ∘ event <$> events (chain w) = ["evt-2"]
  /\ AuditChain.verify AuditChain.demo_ok (chain w) = false.
Proof. split_and!; vm_compute; reflexivity. Qed.

End Outbox.
