(* ===== verification/Evidence.v ===== *)
(** * Evidence: layers, redaction and the content-addressed store

    Models [src/secopent/domain/evidence/models.py],
    [application/evidence.py],
    [infrastructure/evidence_store/local_cas.py] and the redaction engine of
    [infrastructure/evidence_store/redaction.py].  What a regular expression
    matches is a parameter: the pieces a search cuts a text into.  The disk is
    a map from paths to contents. *)
From S2P Require Import Prelude PyStr Sha256 Canonical.

#[local] Open Scope Z_scope.

Module EvidenceLayer.
Inductive t : Type := RAW | REDACTED | SUMMARY.
#[export] Instance eq_dec : EqDecision t.
Proof. solve_decision. Defined.
Definition to_string (s : t) : string := match s with RAW => "raw" | REDACTED => "redacted" | SUMMARY => "summary" end.
#[export] Program Instance strenum : StrEnum t := { value := to_string; members := [RAW; REDACTED; SUMMARY] }.
Next Obligation. solve_members. Qed.
Next Obligation. solve_value_inj. Qed.
End EvidenceLayer.
Notation EvidenceLayer := EvidenceLayer.t.

Module SecretOrigin.
Inductive t : Type := OURS | TARGET.
#[export] Instance eq_dec : EqDecision t.
Proof. solve_decision. Defined.
Definition to_string (s : t) : string := match s with OURS => "ours" | TARGET => "target" end.
#[export] Program Instance strenum : StrEnum t := { value := to_string; members := [OURS; TARGET] }.
Next Obligation. solve_members. Qed.
Next Obligation. solve_value_inj. Qed.
End SecretOrigin.
Notation SecretOrigin := SecretOrigin.t.
Export (hints) EvidenceLayer SecretOrigin.

Record Redaction : Type := mkRedaction { kind : string; origin : SecretOrigin }.

Record RedactionResult : Type := mkRedacted { redacted_text : string; redactions : list Redaction }.

Record Evidence : Type := mkEvidence {
  ev_id : string;
  layer : EvidenceLayer;
  sha256 : string;
  storage_uri : string;
  source_id : string;
  ev_signature : string
}.

(** ** Redaction *)
Module RedactionEngine.

Definition check_redaction (r : Redaction) : outcome Redaction :=
  raise_if (PyStr.is_empty (kind r)) (DomainValidationError "Redaction.kind must be non-empty");; Ret r.

Definition count (r : RedactionResult) : Z := Z.of_nat (length (redactions r)).
Definition count_by_origin (o : SecretOrigin) (r : RedactionResult) : Z :=
  Z.of_nat (length (List.filter (fun x => bool_decide (origin x = o)) (redactions r))).

(** The kinds of [_PATTERNS], in their order. *)
Definition PATTERNS : list string :=
  ["private_key"; "jwt"; "aws_access_key"; "cn_id"; "cn_mobile"; "email"; "internal_ip"].

(** A part of a text: not matched, or a match of the pattern. *)
Inductive piece : Type := Plain (s : string) | Match (s : string).

Definition text_of (p : piece) : string := match p with Plain s | Match s => s end.
Definition is_match (p : piece) : bool := match p with Match _ => true | Plain _ => false end.

Section engine.
Context (ours : gset string).
(** How the pattern of a kind cuts a text. *)
Context (cut : string -> string -> list piece).

Definition mask (k : string) (p : piece) : string :=
  match p with Plain s => s | Match _ => "[REDACTED:" +:+ k +:+ "]" end.

Definition origin_of (s : string) : SecretOrigin :=
  if bool_decide (s ∈ ours) then SecretOrigin.OURS else SecretOrigin.TARGET.

Definition note (k : string) (p : piece) : list Redaction :=
  match p with Plain _ => [] | Match s => [mkRedaction k (origin_of s)] end.

(** One pattern over the text left by the ones before. *)
Definition apply_pattern (r : RedactionResult) (k : string) : RedactionResult :=
  let pieces := cut k (redacted_text r) in
  mkRedacted (PyStr.join "" (mask k <$> pieces)) (redactions r ++ (pieces ≫= note k)).

Definition redact (text : string) : RedactionResult := foldl apply_pattern (mkRedacted text []) PATTERNS.
End engine.
End RedactionEngine.

(** ** The store *)
Module LocalCAS.

(** What is on the disk, by path under the base directory. *)
Notation Disk := (gmap string string).

Definition path (hexd : string) : string := "sha256/" +:+ PyStr.take 2 hexd +:+ "/" +:+ hexd.

Definition uri_for (sha : string) : string := "cas://" +:+ path (PyStr.removeprefix sha "sha256:").

Definition put (content : string) : M Disk (string * string) :=
  let hexd := Sha256.hexdigest content in
  modify (<[path hexd := content]>);;
  mret ("sha256:" +:+ hexd, uri_for ("sha256:" +:+ hexd)).

Definition get (sha : string) (d : Disk) : outcome string :=
  unwrap (d !! path (PyStr.removeprefix sha "sha256:")) (LookupError "No such file or directory").
End LocalCAS.
Notation Disk := LocalCAS.Disk.

Module EvidenceService.

Definition make_evidence (e : Evidence) : outcome Evidence :=
  raise_if (PyStr.is_empty (ev_id e)) (DomainValidationError "Evidence.id must be non-empty");;
  raise_if (negb (PyStr.startswith (sha256 e) "sha256:")) (DomainValidationError "Evidence.sha256 must be a sha256: digest");;
  raise_if (PyStr.is_empty (storage_uri e)) (DomainValidationError "Evidence.storage_uri must be non-empty");;
  Ret e.

Section service.
Context (redactor : string -> RedactionResult).
(** The signature of derived content, when a signer is configured. *)
Context (signer : option (string -> outcome string)).

Definition store_raw (eid content : string) : M Disk Evidence :=
  a ← LocalCAS.put content;
  lift (make_evidence (mkEvidence eid EvidenceLayer.RAW a.1 a.2 "" "")).

Definition derive (eid : string) (l : EvidenceLayer) (source content : string) : M Disk Evidence :=
  a ← LocalCAS.put content;
  g ← lift (match signer with Some sg => sg content | None => Ret "" end);
  lift (make_evidence (mkEvidence eid l a.1 a.2 source g)).

Definition redact (eid : string) (raw : Evidence) (text : string) : M Disk Evidence :=
  derive eid EvidenceLayer.REDACTED (ev_id raw) (redacted_text (redactor text)).

Definition summarize (eid : string) (raw : Evidence) (summary : string) : M Disk Evidence :=
  derive eid EvidenceLayer.SUMMARY (ev_id raw) summary.

Inductive op : Type :=
| StoreRaw (eid content : string)
| Redact (eid : string) (raw : Evidence) (text : string)
| Summarize (eid : string) (raw : Evidence) (summary : string).

(** What an operation stores. *)
Definition content_of (o : op) : string :=
  match o with
  | StoreRaw _ c | Summarize _ _ c => c
  | Redact _ _ t => redacted_text (redactor t)
  end.

Definition run (o : op) : M Disk Evidence :=
  match o with
  | StoreRaw i c => store_raw i c
  | Redact i r t => redact i r t
  | Summarize i r s => summarize i r s
  end.

Definition run_all (ops : list op) (d : Disk) : Disk := foldl (fun d o => (run o d).2) d ops.

(** ** The layers *)

Lemma run_disk o d : (run o d).2 = <[LocalCAS.path (Sha256.hexdigest (content_of o)) := content_of o]> d.
Proof.
  destruct o; cbn [run content_of]; unfold store_raw, redact, summarize, derive, LocalCAS.put, modify, lift, mbind, M_bind,
    mret, M_ret; cbn; repeat case_match; simplify_eq; done.
Qed.

Definition layer_of (o : op) : EvidenceLayer :=
  match o with StoreRaw _ _ => EvidenceLayer.RAW | Redact _ _ _ => EvidenceLayer.REDACTED
  | Summarize _ _ _ => EvidenceLayer.SUMMARY end.

Definition source_of (o : op) : string :=
  match o with StoreRaw _ _ => "" | Redact _ r _ | Summarize _ r _ => ev_id r end.

Lemma run_evidence o d e d' :
  run o d = (Ret e, d') ->
  layer e = layer_of o /\ source_id e = source_of o /\ sha256 e = "sha256:" +:+ Sha256.hexdigest (content_of o)
  /\ storage_uri e = LocalCAS.uri_for (sha256 e)
  /\ match o with StoreRaw _ _ => ev_signature e = "" | _ =>
       match signer with Some sg => sg (content_of o) = Ret (ev_signature e) | None => ev_signature e = "" end end.
Proof.
  assert (Hmk : forall x y, make_evidence x = Ret y -> y = x) by (unfold make_evidence; intros x y H; by inv_ret).
  destruct o; cbn [run]; unfold store_raw, redact, summarize, derive, LocalCAS.put, modify, lift, mbind, M_bind, mret, M_ret;
    cbn -[make_evidence]; intros H.
  - injection H as H%Hmk _. by subst e.
  - destruct signer as [sg|]; [destruct (sg _) as [g|x] eqn:E; [|done]|]; injection H as H%Hmk _; by subst e.
  - destruct signer as [sg|]; [destruct (sg _) as [g|x] eqn:E; [|done]|]; injection H as H%Hmk _; by subst e.
Qed.

End service.

Lemma length_take n s : String.length (PyStr.take n s) = Nat.min n (String.length s).
Proof. revert s; induction n as [|n IH]; intros [|c s]; cbn; [done..|]. by rewrite IH. Qed.

Lemma path_inj a b : LocalCAS.path a = LocalCAS.path b -> a = b.
Proof.
  unfold LocalCAS.path. intros H%PyStr.app_inv_head.
  assert (Hl : String.length a = String.length b).
  { apply (f_equal String.length) in H. rewrite !PyStr.length_app, !length_take in H. cbn [String.length] in H. lia. }
  apply PyStr.app_inj_length in H as [_ H]; [|by rewrite !length_take, Hl].
  by apply PyStr.app_inv_head in H.
Qed.

Lemma get_digest h (d : Disk) :
  LocalCAS.get ("sha256:" +:+ h) d = unwrap (d !! LocalCAS.path h) (LookupError "No such file or directory").
Proof. unfold LocalCAS.get. by rewrite PyStr.removeprefix_app. Qed.

(** Every object under its own digest. *)
Definition addressed (d : Disk) : Prop := map_Forall (fun p c => p = LocalCAS.path (Sha256.hexdigest c)) d.

Section history.
Context (redactor : string -> RedactionResult) (signer : option (string -> outcome string)).

Lemma run_all_addressed ops d : addressed d -> addressed (run_all redactor signer ops d).
Proof.
  revert d; induction ops as [|o ops IH]; intros d Hd; [exact Hd|]. apply IH. rewrite run_disk.
  by apply map_Forall_insert_2.
Qed.

(** Once stored, what is read back is what was stored, or a collision. *)
Lemma stored_content ops o d :
  let c := content_of redactor o in
  exists c', run_all redactor signer ops (run redactor signer o d).2 !! LocalCAS.path (Sha256.hexdigest c) = Some c'
    /\ (c' = c \/ Sha256.collision c' c).
Proof.
  intros c. induction ops as [|o' ops IH] using rev_ind.
  - exists c. cbn. rewrite run_disk, lookup_insert_eq. split; [done|by left].
  - destruct IH as (c' & Hc' & Hor). unfold run_all. rewrite foldl_app. cbn. fold (run_all redactor signer ops (run redactor signer o d).2).
    rewrite run_disk. destruct (decide (LocalCAS.path (Sha256.hexdigest (content_of redactor o')) = LocalCAS.path (Sha256.hexdigest c)))
      as [E|E].
    + rewrite E, lookup_insert_eq. eexists. split; [done|]. apply path_inj in E.
      destruct (decide (content_of redactor o' = c)); [by left|right; done].
    + rewrite lookup_insert_ne by done. by exists c'.
Qed.

(** Evidence is never overwritten. Whatever was stored before and is stored
    after it, the content of an evidence object is read back under its digest
    exactly as it was stored (or SHA-256 has a collision); a derived layer is
    another object, linked to its source and signed by itself, and the raw
    layer carries no signature and no source. *)
Theorem evidence_is_never_overwritten before o after d e d1 :
  addressed d -> run redactor signer o (run_all redactor signer before d) = (Ret e, d1) ->
  let d' := run_all redactor signer after d1 in
  addressed d'
  /\ (LocalCAS.get (sha256 e) d' = Ret (content_of redactor o)
      \/ exists c', Sha256.collision c' (content_of redactor o))
  /\ layer e = layer_of o /\ source_id e = source_of o
  /\ (layer e = EvidenceLayer.RAW -> ev_signature e = "" /\ source_id e = "")
  /\ (layer e <> EvidenceLayer.RAW -> forall sg, signer = Some sg -> sg (content_of redactor o) = Ret (ev_signature e)).
Proof.
  intros Hd Hr. cbv zeta. pose proof (run_evidence redactor signer _ _ _ _ Hr) as (Hl & Hs & Hh & _ & Hg).
  apply (f_equal snd) in Hr as E. cbn in E. subst d1.
  destruct (stored_content after o (run_all redactor signer before d)) as (c' & Hc & Hor).
  split_and!; [| |done|done| |].
  - rewrite run_disk. apply run_all_addressed, map_Forall_insert_2; [done|]. by apply run_all_addressed.
  - rewrite Hh, get_digest, Hc. cbn. destruct Hor as [-> |?]; [by left|right; by eexists].
  - rewrite Hl, Hs. by destruct o.
  - rewrite Hl. intros Hn sg ->. by destruct o.
Qed.
End history.

Definition demo_redactor (s : string) : RedactionResult := mkRedacted "[masked]" [].
Definition demo_signer (s : string) : outcome string := Ret ("sig:" +:+ s).

Lemma evidence_is_never_overwritten_witness :
  exists e d1, run demo_redactor (Some demo_signer) (StoreRaw "e1" "token=abc") ∅ = (Ret e, d1)
    /\ (LocalCAS.get (sha256 e) (run_all demo_redactor (Some demo_signer) [Redact "e2" e "token=abc"; StoreRaw "e1" "other"] d1)
         = Ret "token=abc" \/ exists c', Sha256.collision c' "token=abc").
Proof.
  destruct (run demo_redactor (Some demo_signer) (StoreRaw "e1" "token=abc") ∅) as [[e|x] d1] eqn:E.
  2: { exfalso. apply (f_equal (fun r => is_Ret r.1)) in E. vm_compute in E. discriminate E. }
  exists e, d1. split; [reflexivity|].
  apply (evidence_is_never_overwritten demo_redactor (Some demo_signer) [] (StoreRaw "e1" "token=abc")
    [Redact "e2" e "token=abc"; StoreRaw "e1" "other"] ∅ e d1); [apply map_Forall_empty|exact E].
Defined.
End EvidenceService.

(** ** What redaction does *)
Module RedactionFacts.
Import RedactionEngine.
Section facts.
Context (ours : gset string) (cut : string -> string -> list piece).
(** [re.sub] leaves everything outside the matches as it is. *)
Hypothesis cut_covers : forall k s, PyStr.join "" (text_of <$> cut k s) = s.

(** The texts the patterns see, one after the other. *)
Fixpoint stages (text : string) (ks : list string) : list (string * string) :=
  match ks with
  | [] => []
  | k :: ks' => (k, text) :: stages (PyStr.join "" (mask k <$> cut k text)) ks'
  end.

Lemma redact_from ks r :
  foldl (apply_pattern ours cut) r ks
  = mkRedacted (foldl (fun t k => PyStr.join "" (mask k <$> cut k t)) (redacted_text r) ks)
      (redactions r ++ (stages (redacted_text r) ks ≫= (fun kt => cut kt.1 kt.2 ≫= note ours kt.1))).
Proof.
  revert r; induction ks as [|k ks IH]; intros r; cbn [foldl stages].
  - rewrite app_nil_r. by destruct r.
  - rewrite IH. unfold apply_pattern. cbn [redacted_text redactions]. by rewrite <- app_assoc.
Qed.

(** The log of a redaction is exact. There is one entry for every match of
    every pattern, in order, with the kind of the pattern and the origin of
    the value, and never the value; the text that comes out is the last stage;
    and a text nothing matches is returned as it came, with an empty log. *)
Theorem redaction_log_is_exact text :
  let r := redact ours cut text in
  redactions r = (stages text PATTERNS ≫= fun kt =>
    (fun s => mkRedaction kt.1 (origin_of ours s))
      <$> omap (fun p => match p with Match s => Some s | Plain _ => None end) (cut kt.1 kt.2))
  /\ count_by_origin SecretOrigin.OURS r + count_by_origin SecretOrigin.TARGET r = count r
  /\ ((forall k, k ∈ PATTERNS -> Forall (fun p => is_match p = false) (cut k text)) ->
      redacted_text r = text /\ redactions r = []).
Proof.
  cbv zeta. unfold redact. rewrite redact_from. cbn [redacted_text redactions app]. split_and!.
  - apply list_bind_ext; [|done]. intros [k t]. cbn. induction (cut k t) as [|[s|s] l IH]; cbn; [done|exact IH|].
    by rewrite <- IH.
  - unfold count_by_origin, count. cbn [redactions]. rewrite <- Nat2Z.inj_add. f_equal.
    generalize (stages text PATTERNS ≫= (fun kt => cut kt.1 kt.2 ≫= note ours kt.1)) as l.
    induction l as [|[k o] l IH]; [done|]. cbn [List.filter origin].
    destruct o; repeat (case_bool_decide; try done); cbn [length]; lia.
  - intros Hn. assert (Hk : forall k, k ∈ PATTERNS -> PyStr.join "" (mask k <$> cut k text) = text
      /\ (cut k text ≫= note ours k) = []).
    { intros k Hk%Hn. split.
      - rewrite <- (cut_covers k text) at 2. f_equal. apply list_fmap_ext. intros i p Hp.
        apply list_elem_of_lookup_2 in Hp. rewrite Forall_forall in Hk. specialize (Hk p Hp). by destruct p.
      - induction Hk as [|p l Hp _ IH]; [done|]. cbn. destruct p; [exact IH|done]. }
    clear Hn. generalize dependent PATTERNS. intros ks. induction ks as [|k ks IH]; intros Hk; [done|].
    cbn [foldl stages]. destruct (Hk k) as [-> E]; [by left|].
    destruct IH as [-> IH]; [intros k' ?; apply Hk; by right|]. split; [done|].
    rewrite bind_cons. cbn [fst snd]. by rewrite E, IH.
Qed.
End facts.

(** A cut that finds whole-text tokens only. *)
Definition demo_cut (k s : string) : list piece :=
  if bool_decide (k = "jwt") && PyStr.startswith s "eyJ" then [Match s] else [Plain s].

Lemma demo_cut_covers k s : PyStr.join "" (text_of <$> demo_cut k s) = s.
Proof. unfold demo_cut. by destruct (_ && _). Qed.

Lemma redaction_log_is_exact_witness :
  redact {["eyJ.a.b"]} demo_cut "eyJ.a.b" = mkRedacted "[REDACTED:jwt]" [mkRedaction "jwt" SecretOrigin.OURS]
  /\ count_by_origin SecretOrigin.OURS (redact {["eyJ.a.b"]} demo_cut "eyJ.a.b")
     + count_by_origin SecretOrigin.TARGET (redact {["eyJ.a.b"]} demo_cut "eyJ.a.b")
     = count (redact {["eyJ.a.b"]} demo_cut "eyJ.a.b").
Proof.
  split; [vm_compute; reflexivity|].
  exact (proj1 (proj2 (redaction_log_is_exact {["eyJ.a.b"]} demo_cut demo_cut_covers "eyJ.a.b"))).
Defined.
End RedactionFacts.
