(* ===== verification/Gateway.v ===== *)
(** * The model gateway and the prompt-injection guard

    Models [src/secopent/application/remote_model.py] (Module [Gateway]) and
    [application/prompt_injection.py] (Module [Guard]).  The two backends, the
    redactor and the audit recorder are parameters; what is sent to a backend
    is kept in the state.  The ratio the code computes as a float is compared
    exactly, which agrees with the float for numbers below 2^50. *)
From S2P Require Import Prelude PyStr PyTime PyText Canonical PyJson AuditTrail Evidence.

#[local] Open Scope Z_scope.

Module DataClassification.
Inductive t : Type := PUBLIC | INTERNAL | SENSITIVE | RESTRICTED | SECRET.
#[export] Instance eq_dec : EqDecision t.
Proof. solve_decision. Defined.
Definition to_string (s : t) : string :=
  match s with PUBLIC => "public" | INTERNAL => "internal" | SENSITIVE => "sensitive" | RESTRICTED => "restricted"
  | SECRET => "secret" end.
#[export] Program Instance strenum : StrEnum t :=
  { value := to_string; members := [PUBLIC; INTERNAL; SENSITIVE; RESTRICTED; SECRET] }.
Next Obligation. solve_members. Qed.
Next Obligation. solve_value_inj. Qed.
End DataClassification.
Notation DataClassification := DataClassification.t.
Export (hints) DataClassification.

Record ModelBudget : Type := mkBudget {
  daily_token_budget : Z;
  rate_limit_per_min : Z;
  prompt_size_cap : Z
}.

Record ModelResponse : Type := mkResponse {
  resp_text : string;
  backend : string;
  degraded : bool;
  was_redacted : bool;
  alert : option string
}.

(** The gateway's counters, every text a backend was given, and the audit. *)
Record World : Type := mkWorld {
  tokens_used : Z;
  request_times : list datetime;
  sent : list (string * string);
  log : list AuditCall
}.

Module Gateway.

Definition default_budget : ModelBudget := mkBudget 500000 10 32000.

(** [max(1, len(text) // 4)] *)
Definition estimate_tokens (text : string) : Z := Z.max 1 (PyText.characters text / 4).

Section gateway.
Context (local : string -> outcome string) (remote : option (string -> outcome string)).
Context (redact : string -> RedactionResult) (budget : ModelBudget).
(** The recorder, when there is one. *)
Context (audit : option (AuditCall -> outcome unit)).

Definition rate_exceeded (now : datetime) (w : World) : bool :=
  rate_limit_per_min budget
    <=? Z.of_nat (length (List.filter (fun t => now - 60 * PyTime.second <=? t) (request_times w))).

(** [n / d >= p / q] for positive [q]. *)
Definition ratio_ge (n d p q : Z) : bool := if 0 <? d then p * d <=? n * q else n * q <=? p * d.

Definition alert_for (projected : Z) : outcome (option string) :=
  raise_if (daily_token_budget budget =? 0) (ZeroDivisionError "division by zero");;
  Ret (if ratio_ge projected (daily_token_budget budget) 1 1 then Some "budget_100_degrade"
       else if ratio_ge projected (daily_token_budget budget) 8 10 then Some "budget_80_warn" else None).

Definition complete (name : string) (f : string -> outcome string) (text : string) : M World string := fun w =>
  (f text, mkWorld (tokens_used w) (request_times w) (sent w ++ [(name, text)]) (log w)).

Definition json_alert (a : option string) : json := match a with Some s => JStr s | None => JNull end.

Definition record_audit (c : DataClassification) (name : string) (redacted degr : bool) (a : option string) (tokens : Z)
  : M World unit :=
  match audit with
  | None => mret tt
  | Some accepts =>
      let call := mkCall "model_gateway" "model.call" "model" name
        [("classification", Canonical.jenum c); ("backend", JStr name); ("redacted", JBool redacted);
         ("degraded", JBool degr); ("alert", json_alert a); ("tokens", JInt tokens)] in
      lift (accepts call);;
      modify (fun w => mkWorld (tokens_used w) (request_times w) (sent w) (log w ++ [call]))
  end.

(** The text that may be sent, or the refusal of the classification. *)
Definition admit_text (prompt : string) (c : DataClassification) : outcome (string * bool) :=
  match c with
  | DataClassification.SECRET => Raise (SecretNeverSent "secret data must never be sent to a model")
  | DataClassification.RESTRICTED => Raise (RestrictedDenied "restricted data is default-deny for model access")
  | DataClassification.SENSITIVE => Ret (redacted_text (redact prompt), true)
  | _ => Ret (prompt, false)
  end.

(** The remote backend, if the call may use it. *)
Definition remote_allowed (estimate : Z) (now : datetime) (w : World) : bool :=
  negb (rate_exceeded now w || (daily_token_budget budget <? tokens_used w + estimate)).

Definition call (prompt : string) (c : DataClassification) (now : datetime) (prefer_remote : bool)
  : M World ModelResponse :=
  tr ← lift (admit_text prompt c);
  let text := tr.1 in
  lift (raise_if (prompt_size_cap budget <? PyText.characters text)
          (PromptTooLarge ("prompt length " +:+ pretty (PyText.characters text) +:+ " exceeds cap "
                           +:+ pretty (prompt_size_cap budget))));;
  let estimate := estimate_tokens text in
  w ← get;
  let chosen := match remote with
                | Some f => if prefer_remote then (if remote_allowed estimate now w then (Some f, false) else (None, true))
                            else (None, false)
                | None => (None, false)
                end in
  a ← lift (alert_for (tokens_used w + estimate));
  let name := match chosen.1 with Some _ => "remote" | None => "local" end in
  result ← complete name (default local chosen.1) text;
  modify (fun w => mkWorld (tokens_used w + estimate) (request_times w ++ [now]) (sent w) (log w));;
  record_audit c name tr.2 chosen.2 a estimate;;
  mret (mkResponse result name chosen.2 tr.2 a).

(** ** Histories *)
Record request : Type := mkRequest {
  rq_prompt : string;
  rq_class : DataClassification;
  rq_now : datetime;
  rq_remote : bool
}.

Definition ask (q : request) : M World ModelResponse := call (rq_prompt q) (rq_class q) (rq_now q) (rq_remote q).

Fixpoint run_all (qs : list request) (w : World) : list (outcome ModelResponse) * World :=
  match qs with
  | [] => ([], w)
  | q :: r => let (o, w') := ask q w in let (os, w'') := run_all r w' in (o :: os, w'')
  end.

Definition fresh : World := mkWorld 0 [] [] [].

(** ** What a call does *)

(** The text of a request that may be sent. *)
Definition admissible (q : request) (text : string) : Prop :=
  rq_class q <> DataClassification.SECRET /\ rq_class q <> DataClassification.RESTRICTED
  /\ text = (if bool_decide (rq_class q = DataClassification.SENSITIVE) then redacted_text (redact (rq_prompt q)) else rq_prompt q)
  /\ PyText.characters text <= prompt_size_cap budget.

Lemma admit_text_Ret q tr :
  admit_text (rq_prompt q) (rq_class q) = Ret tr ->
  PyText.characters tr.1 <= prompt_size_cap budget -> admissible q tr.1.
Proof. unfold admit_text, admissible. destruct (rq_class q); intros [= <-] ?; case_bool_decide; by split_and!. Qed.

(** A call that is answered sent one admissible text and is counted; the
    remote backend was chosen only within the rate and the budget. A call that
    raises sent at most that text. *)
Lemma ask_spec q w :
  match ask q w with
  | (Ret r, w') => exists text, admissible q text
      /\ tokens_used w' = tokens_used w + estimate_tokens text /\ request_times w' = request_times w ++ [rq_now q]
      /\ sent w' = sent w ++ [(backend r, text)]
      /\ (backend r = "remote" -> remote_allowed (estimate_tokens text) (rq_now q) w = true)
  | (Raise e, w') => tokens_used w <= tokens_used w' /\ request_times w `prefix_of` request_times w'
      /\ (sent w' = sent w \/ exists name text, admissible q text /\ sent w' = sent w ++ [(name, text)])
  end.
Proof.
  assert (Hest : forall t, 1 <= estimate_tokens t) by (intros t; unfold estimate_tokens; lia).
  unfold ask, call, lift, mbind, M_bind, get, modify, mret, M_ret.
  destruct (admit_text _ _) as [tr|e] eqn:Ea; [|split_and!; [done..|by left]].
  destruct (Z.ltb_spec (prompt_size_cap budget) (PyText.characters tr.1)) as [|Hcap]; cbn [raise_if];
    [split_and!; [done..|by left]|].
  pose proof (admit_text_Ret q tr Ea Hcap) as Hadm.
  set (chosen := match remote with Some _ => _ | None => _ end).
  assert (Hrem : match chosen.1 with Some _ => "remote" | None => "local" end = "remote" ->
    remote_allowed (estimate_tokens tr.1) (rq_now q) w = true).
  { subst chosen. destruct remote, (rq_remote q); cbn; try done. by destruct (remote_allowed _ _ _). }
  destruct (alert_for _) as [a|e]; [|split_and!; [done..|by left]].
  unfold complete. destruct (default local chosen.1 tr.1) as [res|e]; cbn [tokens_used request_times sent log];
    [|split_and!; [done..|right; by eexists _, _]].
  unfold record_audit, lift, mbind, M_bind, modify, mret, M_ret.
  destruct audit as [accepts|]; [match goal with |- context [accepts ?c] => destruct (accepts c) as [[]|e] end|]; cbn.
  - exists tr.1. by split_and!.
  - split_and!; [specialize (Hest tr.1); lia|by eexists|right; by eexists _, _].
  - exists tr.1. by split_and!.
Qed.

(** The requests the remote backend answered. *)
Definition remotely (q : request) (o : outcome ModelResponse) : bool :=
  match o with Ret r => bool_decide (backend r = "remote") | Raise _ => false end.

Fixpoint answered_remotely (qs : list request) (os : list (outcome ModelResponse)) : list request :=
  match qs, os with
  | q :: qs', o :: os' => if remotely q o then q :: answered_remotely qs' os' else answered_remotely qs' os'
  | _, _ => []
  end.

(** The tokens a request is charged. *)
Definition cost (q : request) : Z :=
  match admit_text (rq_prompt q) (rq_class q) with Ret tr => estimate_tokens tr.1 | Raise _ => 0 end.

Definition total_cost (l : list request) : Z := foldr (fun q n => cost q + n) 0 l.

(** How many of them fall in the minute that ends at [t]. *)
Definition in_minute (t : datetime) (l : list datetime) : Z :=
  Z.of_nat (length (List.filter (fun x => (t - 60 * PyTime.second <=? x) && (x <=? t)) l)).

Lemma admissible_cost q text : admissible q text -> cost q = estimate_tokens text.
Proof.
  unfold admissible, cost, admit_text. intros (H1 & H2 & -> & _).
  destruct (rq_class q); try done; by rewrite ?bool_decide_true, ?bool_decide_false by done.
Qed.

(** ** Nothing secret leaves, and the remote model is rationed *)

Record bounded (R : list request) (w : World) : Prop := {
  bd_times : rq_now <$> R ⊆+ request_times w;
  bd_tokens : total_cost R <= tokens_used w;
  bd_budget : total_cost R <= Z.max 0 (daily_token_budget budget);
  bd_rate : forall t, in_minute t (rq_now <$> R) <= Z.max 0 (rate_limit_per_min budget)
}.

Lemma total_cost_app a b : total_cost (a ++ b) = total_cost a + total_cost b.
Proof. induction a as [|q a IH]; [done|]. cbn [app total_cost foldr] in *. unfold total_cost in *. cbn [foldr]. lia. Qed.

Lemma in_minute_app t a b : in_minute t (a ++ b) = in_minute t a + in_minute t b.
Proof. unfold in_minute. rewrite List.filter_app, length_app. apply Nat2Z.inj_add. Qed.

Lemma filter_submset_length {A} (P Q : A -> bool) (l k : list A) :
  l ⊆+ k -> (forall x, P x = true -> Q x = true) -> (length (List.filter P l) <= length (List.filter Q k))%nat.
Proof.
  intros Hs HPQ. assert (Hlk : (length (List.filter Q l) <= length (List.filter Q k))%nat).
  { induction Hs as [|x l k _ IH|x y l|x l k _ IH|l1 l2 l3 _ IH1 _ IH2]; cbn [List.filter].
    - done.
    - destruct (Q x); cbn [length]; lia.
    - destruct (Q x), (Q y); cbn [length]; lia.
    - destruct (Q x); cbn [length]; lia.
    - lia. }
  etrans; [|exact Hlk]. clear Hs Hlk. induction l as [|x l IH]; [done|]. cbn [List.filter].
  specialize (HPQ x). destruct (P x), (Q x); cbn [length]; first [lia|by specialize (HPQ eq_refl)].
Qed.

Lemma rate_window R w now t :
  bounded R w -> rate_exceeded now w = false -> t - 60 * PyTime.second <= now <= t ->
  in_minute t (rq_now <$> R) < rate_limit_per_min budget.
Proof.
  intros [Hs _ _ _] Hr Ht. unfold rate_exceeded in Hr. apply Z.leb_gt in Hr. unfold in_minute.
  pose proof (filter_submset_length (fun x => (t - 60 * PyTime.second <=? x) && (x <=? t))
    (fun x => now - 60 * PyTime.second <=? x) _ _ Hs) as H.
  assert (forall x, (t - 60 * PyTime.second <=? x) && (x <=? t) = true -> (now - 60 * PyTime.second <=? x) = true).
  { intros x [?%Z.leb_le _]%andb_true_iff. apply Z.leb_le. lia. }
  specialize (H ltac:(done)). lia.
Qed.

Lemma ask_bounded q w R :
  bounded R w -> bounded (R ++ if remotely q (ask q w).1 then [q] else []) (ask q w).2.
Proof.
  intros Hb. pose proof (ask_spec q w) as H. destruct (ask q w) as [[r|e] w']; cbn [fst snd remotely].
  2: { rewrite app_nil_r. destruct H as (Ht & [k Hk] & _), Hb as [H1 H2 H3 H4]. split; [|lia|done..].
       rewrite Hk. etrans; [exact H1|]. by apply submseteq_inserts_r. }
  destruct H as (text & Hadm & Ht & Hn & _ & Hrem).
  case_bool_decide as Eb.
  - specialize (Hrem Eb). unfold remote_allowed in Hrem. apply negb_true_iff, orb_false_iff in Hrem as [Hrate Hbud].
    apply Z.ltb_ge in Hbud. rewrite <- (admissible_cost q text Hadm) in *.
    assert (Hc : total_cost (R ++ [q]) = total_cost R + cost q) by (rewrite total_cost_app; cbn; lia).
    pose proof Hb as [H1 H2 H3 H4]. split.
    + rewrite Hn, fmap_app. cbn. by apply submseteq_app.
    + lia.
    + lia.
    + intros t. rewrite fmap_app, in_minute_app. pose proof (rate_window R w (rq_now q) t Hb Hrate) as Hw.
      specialize (H4 t). unfold in_minute at 2. cbn.
      destruct (Z.leb_spec (t - 60 * PyTime.second) (rq_now q)), (Z.leb_spec (rq_now q) t); cbn; lia.
  - rewrite app_nil_r. destruct Hb as [H1 H2 H3 H4]. split; [|unfold estimate_tokens in Ht; lia|done..].
    rewrite Hn. etrans; [exact H1|]. by apply submseteq_inserts_r.
Qed.

Lemma run_bounded qs w R :
  bounded R w -> bounded (R ++ answered_remotely qs (run_all qs w).1) (run_all qs w).2.
Proof.
  revert w R; induction qs as [|q qs IH]; intros w R Hb; cbn [run_all]; [by rewrite app_nil_r|].
  pose proof (ask_bounded q w R Hb) as H1. destruct (ask q w) as [o w1]. cbn [fst snd] in H1.
  specialize (IH w1 _ H1). destruct (run_all qs w1) as [os w2]. cbn [fst snd answered_remotely] in *.
  rewrite <- app_assoc in IH. by destruct (remotely q o).
Qed.

Lemma run_sent qs w :
  exists l, sent (run_all qs w).2 = sent w ++ l /\ Forall (fun nt => exists q, q ∈ qs /\ admissible q nt.2) l.
Proof.
  revert w; induction qs as [|q qs IH]; intros w; cbn [run_all]; [exists []; by rewrite app_nil_r|].
  pose proof (ask_spec q w) as H. destruct (ask q w) as [o w1].
  destruct (IH w1) as (l & Hl & HF). destruct (run_all qs w1) as [os w2]. cbn [fst snd] in *.
  assert (HF' : Forall (fun nt => exists q0, q0 ∈ q :: qs /\ admissible q0 nt.2) l).
  { eapply Forall_impl; [exact HF|]. intros x (q0 & ? & ?). exists q0. split; [by right|done]. }
  assert (Hone : forall n t, admissible q t -> sent w1 = sent w ++ [(n, t)] ->
    exists l, sent w2 = sent w ++ l /\ Forall (fun nt => exists q0, q0 ∈ q :: qs /\ admissible q0 nt.2) l).
  { intros n t Ht E. exists ((n, t) :: l). rewrite Hl, E, <- app_assoc. split; [done|]. constructor; [|done].
    exists q. split; [by left|done]. }
  destruct o as [r|e].
  - destruct H as (t & Ht & _ & _ & E & _). by eapply Hone.
  - destruct H as (_ & _ & [E|(n & t & Ht & E)]); [|by eapply Hone]. exists l. by rewrite Hl, E.
Qed.

(** C38: What leaves is admissible. Whatever is asked, every text a model was given,
    local or remote, even by a call that then failed, belongs to a request
    that is neither secret nor restricted, is the redacted text if the request
    is sensitive, and is within the size cap. *)
Theorem no_secret_reaches_a_model qs :
  Forall (fun nt => exists q, q ∈ qs /\ admissible q nt.2) (sent (run_all qs fresh).2).
Proof. destruct (run_sent qs fresh) as (l & -> & H). exact H. Qed.

(** The remote model is rationed. Whatever is asked and whenever, the requests
    it answered cost at most the token budget together, and in every minute
    there are at most as many as the rate limit. *)
Theorem remote_use_is_bounded qs :
  let R := answered_remotely qs (run_all qs fresh).1 in
  total_cost R <= Z.max 0 (daily_token_budget budget)
  /\ forall t, in_minute t (rq_now <$> R) <= Z.max 0 (rate_limit_per_min budget).
Proof.
  assert (H0 : bounded [] fresh) by (split; cbn; [done|lia|lia|intros t; unfold in_minute; cbn; lia]).
  destruct (run_bounded qs fresh [] H0) as [_ _ H1 H2]. by split.
Qed.
End gateway.

(** ** Concrete runs *)
Definition demo_local (p : string) : outcome string := Ret ("local:" +:+ p).
Definition demo_remote (p : string) : outcome string := if PyStr.startswith p "x" then Raise (RuntimeError "down") else Ret ("remote:" +:+ p).
Definition demo_redact (p : string) : RedactionResult := mkRedacted "[masked]" [].
Definition demo_run (b : ModelBudget) (qs : list request) : list (outcome (string * option string)) :=
  (fun o => match o with Ret r => Ret (resp_text r, alert r) | Raise e => Raise e end)
    <$> (run_all demo_local (Some demo_remote) demo_redact b None qs fresh).1.

Example demo_calls :
  demo_run (mkBudget 10 1 100)
    [mkRequest "hi" DataClassification.PUBLIC 0 true; mkRequest "hi" DataClassification.SENSITIVE 1 true;
     mkRequest "hi" DataClassification.SECRET 2 true; mkRequest "hi" DataClassification.PUBLIC (61 * PyTime.second) true]
  = [Ret ("remote:hi", None); Ret ("local:[masked]", None);
     Raise (SecretNeverSent "secret data must never be sent to a model"); Ret ("remote:hi", None)].
Proof. vm_compute. reflexivity. Qed.

(** The budget is called daily, but nothing ever resets it: a day later the
    gateway still degrades. *)
Example budget_is_never_reset :
  demo_run (mkBudget 2 10 100)
    [mkRequest "hi" DataClassification.PUBLIC 0 true; mkRequest "hi" DataClassification.PUBLIC 1 true;
     mkRequest "hi" DataClassification.PUBLIC (2 * PyTime.day) true]
  = [Ret ("remote:hi", None); Ret ("remote:hi", Some "budget_100_degrade"); Ret ("local:hi", Some "budget_100_degrade")].
Proof. vm_compute. reflexivity. Qed.

(** A remote call that fails is not counted, so failing calls are not limited. *)
Example failed_calls_are_not_limited :
  let r := run_all demo_local (Some demo_remote) demo_redact (mkBudget 100 1 100) None
    [mkRequest "x1" DataClassification.PUBLIC 0 true; mkRequest "x2" DataClassification.PUBLIC 0 true;
     mkRequest "x3" DataClassification.PUBLIC 0 true] fresh in
  sent r.2 = [("remote", "x1"); ("remote", "x2"); ("remote", "x3")] /\ request_times r.2 = [].
Proof. split; vm_compute; reflexivity. Qed.
End Gateway.

(** ** Untrusted content *)
Record UntrustedContent : Type := mkUntrusted { uc_source : string; uc_text : string; untrusted : bool }.
Record AgentAction : Type := mkAction { action_type : string; target : string; action_payload : list (string * json) }.

Module Guard.

Definition PROTECTED_TARGETS : gset string :=
  {["scope"; "policy"; "plan"; "approval"; "secret"; "case_status"; "permit"; "capability"]}.
Definition ALLOWED_ACTIONS : gset string := {["add_observation"; "add_finding"; "request_coverage"; "annotate"]}.

Definition mark_untrusted (source text : string) : UntrustedContent := mkUntrusted source text true.

Definition validate_action (a : AgentAction) : outcome AgentAction :=
  raise_if (negb (bool_decide (action_type a ∈ ALLOWED_ACTIONS)))
    (InjectionBlocked ("action type not allowed: " +:+ PyStr.repr (action_type a)));;
  raise_if (bool_decide (target a ∈ PROTECTED_TARGETS))
    (InjectionBlocked ("cannot modify protected resource: " +:+ PyStr.repr (target a)));;
  Ret a.

(** [d.setdefault(k, v)] *)
Definition set_default (k : string) (v : json) (d : list (string * json)) : list (string * json) :=
  match field k d with Some _ => d | None => d ++ [(k, v)] end.

Definition action_from_untrusted (c : UntrustedContent) (atype tgt : string) (payload : option (list (string * json)))
  : outcome AgentAction :=
  validate_action (mkAction atype tgt (set_default "_untrusted_source" (JStr (uc_source c)) (default [] payload))).

Definition printable (c : ascii) : bool :=
  Ascii.eqb c "009" || Ascii.eqb c "010" || (32 <=? N_of_ascii c)%N.

Fixpoint sanitize (s : string) : string :=
  match s with
  | EmptyString => EmptyString
  | String c r => if printable c then String c (sanitize r) else sanitize r
  end.

Lemma sanitize_printable s : PyStr.forallb printable (sanitize s) = true.
Proof. induction s as [|c s IH]; [done|]. cbn [sanitize]. destruct (printable c) eqn:E; [cbn; by rewrite E|done]. Qed.

Lemma sanitize_id s : PyStr.forallb printable s = true -> sanitize s = s.
Proof. induction s as [|c s IH]; [done|]. cbn. intros [-> H]%andb_true_iff. by rewrite IH. Qed.

Lemma set_default_spec k v d : is_Some (field k (set_default k v d)) /\ (forall x, x ∈ d -> x ∈ set_default k v d).
Proof.
  unfold set_default. destruct (field k d) as [w|] eqn:E; [by rewrite E; split; [eexists|]|]. split.
  - clear. unfold field. induction d as [|[k' w] d IH]; cbn [app List.find fst].
    + rewrite bool_decide_true by done. by eexists.
    + case_bool_decide; [by eexists|exact IH].
  - intros x Hx. apply elem_of_app. by left.
Qed.

Lemma validate_Ret a a' :
  validate_action a = Ret a' <-> a' = a /\ action_type a ∈ ALLOWED_ACTIONS /\ target a ∉ PROTECTED_TARGETS.
Proof.
  unfold validate_action. rewrite !(bool_decide_decide (_ ∈ _)).
  destruct (decide (action_type a ∈ ALLOWED_ACTIONS)), (decide (target a ∈ PROTECTED_TARGETS)); cbn [negb raise_if mbind outcome_bind];
    split; try (intros (? & ? & ?); congruence || by f_equal); try done.
  intros [= <-]. done.
Qed.

(** Untrusted content reaches no protected resource. An action derived from
    it exists exactly when its type is one of the four additive ones and its
    target is not protected, whatever the content and the payload say; the
    action carries its type, target and payload unchanged and names a source;
    and sanitising leaves exactly the printable characters, tabs and newlines
    of a text. *)
Theorem untrusted_content_is_contained c atype tgt payload :
  (is_Ret (action_from_untrusted c atype tgt payload) = true <->
     atype ∈ ALLOWED_ACTIONS /\ tgt ∉ PROTECTED_TARGETS)
  /\ (forall a, action_from_untrusted c atype tgt payload = Ret a ->
      action_type a = atype /\ target a = tgt /\ is_Some (field "_untrusted_source" (action_payload a))
      /\ (forall k v, (k, v) ∈ default [] payload -> (k, v) ∈ action_payload a))
  /\ PyStr.forallb printable (sanitize (uc_text c)) = true
  /\ sanitize (sanitize (uc_text c)) = sanitize (uc_text c).
Proof.
  destruct (set_default_spec "_untrusted_source" (JStr (uc_source c)) (default [] payload)) as [Hf Hin].
  split_and!; [| |apply sanitize_printable|apply sanitize_id, sanitize_printable].
  - rewrite is_Ret_true. unfold action_from_untrusted. setoid_rewrite validate_Ret. cbn [action_type target].
    split; [by intros (a & _ & H)|]. intros H. by eexists.
  - intros a. unfold action_from_untrusted. rewrite validate_Ret. intros [-> _]. split; [done|]. split; [done|].
    split; [exact Hf|]. intros k v. apply Hin.
Qed.

(** The label of the source is only a default: a payload can bring its own. *)
Example source_label_can_be_replaced :
  action_from_untrusted (mark_untrusted "evil.example" "hi") "annotate" "note"
    (Some [("_untrusted_source", JStr "operator")])
  = Ret (mkAction "annotate" "note" [("_untrusted_source", JStr "operator")]).
Proof. vm_compute. reflexivity. Qed.
End Guard.
