(* ===== verification/Secrets.v ===== *)
(** * Secrets

    Models [src/secopent/application/secret_store.py],
    [src/secopent/domain/secrets/models.py] and the two backends of
    [src/secopent/infrastructure/secrets/].  The store is written against the
    backend port ([SecretBackend], the Python protocol) and its theorems need
    only the port's laws; the backends discharge them.  Fernet is a parameter:
    a token decrypts to what was encrypted.  A file holds the text written to
    it; permissions and the atomic rename are not modelled. *)
From S2P Require Import Prelude PyStr PyTime PyFloat Sha256 Canonical PyJson PyText PyDict JsonText PyIso AuditTrail.

#[local] Open Scope Z_scope.

Record SecretMetadata : Type := mkSecret {
  secret_ref : string;
  secret_name : string;
  secret_created_at : datetime
}.

#[export] Instance secret_metadata_eq_dec : EqDecision SecretMetadata.
Proof. solve_decision. Defined.

(** ** The backend port *)

(** [put], [get] and [delete], and the start of a new process over the same
    files ([reopen]). *)
Class SecretBackend (B : Type) := {
  put : string -> string -> B -> B;
  get : string -> B -> outcome (option string);
  delete : string -> B -> B;
  reopen : B -> outcome B
}.

(** What a backend promises: a dictionary of texts. *)
Class LawfulBackend (B : Type) `{SecretBackend B} := {
  backend_ok : B -> Prop;
  put_ok k v b : backend_ok b -> backend_ok (put k v b);
  delete_ok k b : backend_ok b -> backend_ok (delete k b);
  get_total k b : backend_ok b -> exists o, get k b = Ret o;
  get_put k k' v b : backend_ok b ->
    get k (put k' v b) = if bool_decide (k = k') then Ret (Some v) else get k b;
  get_delete k k' b : backend_ok b ->
    get k (delete k' b) = if bool_decide (k = k') then Ret None else get k b
}.

(** A durable one also survives the process. *)
Class DurableBackend (B : Type) `{LawfulBackend B} := {
  reopen_get b : backend_ok b -> exists b', reopen b = Ret b' /\ backend_ok b'
    /\ forall k, get k b' = get k b
}.

(** ** The encrypted backends *)
Module Fernet.
Section fernet.
(** [encrypt n v] is the [n]-th token made, which Fernet salts. *)
Context (encrypt : nat -> string -> string) (decrypt : string -> outcome string).

(** [EncryptedFileBackend]: in memory; a new process has a new key and an
    empty store. *)
Record Memory : Type := mkMemory { mem_store : dict string; mem_made : nat }.

(** [PersistentEncryptedFileBackend]: the store and its file. *)
Record Persistent : Type := mkPersistent {
  disk_store : dict string;
  disk_file : option string;
  disk_made : nat
}.

Definition decrypted (o : option string) : outcome (option string) :=
  match o with
  | None => Ret None
  | Some token => v ← decrypt token; Ret (Some v)
  end.

Definition mem_put (k v : string) (b : Memory) : Memory :=
  mkMemory (PyDict.set k (encrypt (mem_made b) v) (mem_store b)) (S (mem_made b)).
Definition mem_get (k : string) (b : Memory) : outcome (option string) :=
  decrypted (PyDict.get k (mem_store b)).
Definition mem_delete (k : string) (b : Memory) : Memory :=
  mkMemory (PyDict.remove k (mem_store b)) (mem_made b).

#[global] Instance memory_backend : SecretBackend Memory := {
  put := mem_put; get := mem_get; delete := mem_delete;
  reopen b := Ret (mkMemory [] (mem_made b))
}.

(** [_load_store]: a missing or unreadable file is an empty store. *)
Definition load_store (file : option string) : outcome (dict string) :=
  match file with
  | None => Ret []
  | Some text =>
      match JsonText.loads text with
      | None => Ret []
      | Some (JObj l) => Ret (prod_map id py_str <$> l)
      | Some v => Raise (AttributeError (no_attribute v "items"))
      end
  end.

Definition store_json (s : dict string) : json := JObj (prod_map id JStr <$> s).

(** [_flush] *)
Definition flush (s : dict string) (made : nat) : Persistent :=
  mkPersistent s (Some (JsonText.dumps (store_json s))) made.

Definition disk_put (k v : string) (b : Persistent) : Persistent :=
  flush (PyDict.set k (encrypt (disk_made b) v) (disk_store b)) (S (disk_made b)).
Definition disk_get (k : string) (b : Persistent) : outcome (option string) :=
  decrypted (PyDict.get k (disk_store b)).
Definition disk_delete (k : string) (b : Persistent) : Persistent :=
  if bool_decide (k ∈ PyDict.keys (disk_store b))
  then flush (PyDict.remove k (disk_store b)) (disk_made b) else b.
Definition disk_open (b : Persistent) : outcome Persistent :=
  s ← load_store (disk_file b); Ret (mkPersistent s (disk_file b) (disk_made b)).

#[global] Instance persistent_backend : SecretBackend Persistent := {
  put := disk_put; get := disk_get; delete := disk_delete; reopen := disk_open
}.

Context (decrypt_encrypt : forall n v, decrypt (encrypt n v) = Ret v).

(** Every token of the store is one the backend made. *)
Definition tokens_ok (s : dict string) : Prop :=
  PyDict.wf s /\ forall k t, PyDict.get k s = Some t -> exists v, decrypt t = Ret v.

Lemma get_remove {A} (k k' : string) (s : dict A) :
  PyDict.get k (PyDict.remove k' s) = if bool_decide (k = k') then None else PyDict.get k s.
Proof.
  induction s as [|[k0 v] s IH]; [cbn; by case_bool_decide|].
  unfold PyDict.remove in *. cbn [List.filter fst].
  destruct (decide (k0 = k')) as [->|Hne].
  - rewrite bool_decide_true by done. cbn [negb]. rewrite IH. cbn.
    repeat case_bool_decide; try case_decide; congruence.
  - rewrite (bool_decide_false (k0 = k')) by done. cbn [negb PyDict.get]. rewrite IH.
    repeat case_bool_decide; try case_decide; congruence.
Qed.

Lemma tokens_put k n v s : tokens_ok s -> tokens_ok (PyDict.set k (encrypt n v) s).
Proof.
  intros [Hw Hd]. split; [by apply PyDict.set_wf|]. intros k' t. rewrite PyDict.get_set.
  case_decide; [|by apply Hd]. intros [= <-]. by eexists.
Qed.

Lemma tokens_remove k s : tokens_ok s -> tokens_ok (PyDict.remove k s).
Proof.
  intros [Hw Hd]. split.
  - unfold PyDict.wf, PyDict.keys, PyDict.remove in *. eapply sublist_NoDup; [exact Hw|].
    apply fmap_sublist. clear. induction s as [|x s IH]; cbn; [done|]. case_match; by constructor.
  - intros k' t. rewrite get_remove. case_bool_decide; [done|]. apply Hd.
Qed.

Lemma decrypted_total k s : tokens_ok s -> exists o, decrypted (PyDict.get k s) = Ret o.
Proof.
  intros [_ Hd]. destruct (PyDict.get k s) as [t|] eqn:E; cbn; [|by eexists].
  destruct (Hd _ _ E) as [v ->]. by eexists.
Qed.

Lemma decrypted_set k k' n v s :
  decrypted (PyDict.get k (PyDict.set k' (encrypt n v) s))
  = if bool_decide (k = k') then Ret (Some v) else decrypted (PyDict.get k s).
Proof.
  rewrite PyDict.get_set. repeat case_decide; repeat case_bool_decide; try congruence.
  cbn. by rewrite decrypt_encrypt.
Qed.

Lemma decrypted_remove k k' s :
  decrypted (PyDict.get k (PyDict.remove k' s))
  = if bool_decide (k = k') then Ret None else decrypted (PyDict.get k s).
Proof. rewrite get_remove. by case_bool_decide. Qed.

#[global] Instance memory_lawful : LawfulBackend Memory.
Proof.
  refine {| backend_ok b := tokens_ok (mem_store b) |}.
  - intros k v b Hb. by apply tokens_put.
  - intros k b Hb. by apply tokens_remove.
  - intros k b Hb. by apply decrypted_total.
  - intros k k' v b _. apply decrypted_set.
  - intros k k' b _. apply decrypted_remove.
Defined.

(** Writing the file and opening it again gives the store back. *)
Lemma load_flush s n : PyDict.wf s -> load_store (disk_file (flush s n)) = Ret s.
Proof.
  intros Hw. unfold flush, load_store. cbn [disk_file]. rewrite JsonText.loads_dumps.
  - unfold store_json. f_equal. rewrite <- list_fmap_compose. rewrite <- (list_fmap_id s) at 2.
    apply list_fmap_ext. by intros i [k v] _.
  - cbn. split.
    + rewrite <- list_fmap_compose. exact Hw.
    + clear. induction s as [|[k v] s IH]; cbn; auto.
Qed.

Definition disk_ok (b : Persistent) : Prop :=
  tokens_ok (disk_store b) /\ load_store (disk_file b) = Ret (disk_store b).

Lemma flush_ok s n : tokens_ok s -> disk_ok (flush s n).
Proof. intros Hs. split; [done|]. apply load_flush, Hs. Qed.

#[global] Instance persistent_lawful : LawfulBackend Persistent.
Proof.
  refine {| backend_ok := disk_ok |}.
  - intros k v b [Hb _]. by apply flush_ok, tokens_put.
  - intros k b Hb. cbn. unfold disk_delete. case_bool_decide; [|done].
    by apply flush_ok, tokens_remove, Hb.
  - intros k b [Hb _]. by apply decrypted_total.
  - intros k k' v b _. apply decrypted_set.
  - intros k k' b [[Hw _] _]. cbn. unfold disk_delete.
    case_bool_decide as Hin; [apply decrypted_remove|].
    case_bool_decide; [|done]. subst. unfold disk_get.
    by rewrite (proj2 (PyDict.get_None_keys _ _) Hin).
Defined.

#[global] Instance persistent_durable : DurableBackend Persistent.
Proof.
  split. intros b [Ht Hl]. cbn. unfold disk_open. rewrite Hl. cbn.
  eexists. split; [done|]. by split.
Qed.

End fernet.
End Fernet.

(** ** The store *)
Module SecretStore.

Record State (B : Type) : Type := mkState {
  backend : B;
  cache : dict SecretMetadata;
  log : list AuditCall
}.
Arguments mkState {B}.
Arguments backend {B}.
Arguments cache {B}.
Arguments log {B}.

Definition check_metadata (m : SecretMetadata) : outcome SecretMetadata :=
  raise_if (PyStr.is_empty (secret_ref m))
    (DomainValidationError "SecretMetadata.secret_ref must be non-empty");;
  raise_if (PyStr.is_empty (secret_name m))
    (DomainValidationError "SecretMetadata.name must be non-empty");;
  Ret m.

(** The reference of a secret registered under [name] at [now]. *)
Definition ref_of (name : string) (now : datetime) : string :=
  "secret:" +:+ PyStr.take 16 (PyStr.removeprefix
    (Canonical.canonical_digest (JObj [("name", JStr name); ("created_at", Canonical.jtime now)]))
    "sha256:").

Definition meta_ref (r : string) : string := "meta:" +:+ r.

Definition metadata_json (m : SecretMetadata) : json :=
  JObj [("secret_ref", JStr (secret_ref m)); ("name", JStr (secret_name m));
        ("created_at", JStr (PyIso.isoformat (secret_created_at m)))].

Definition metadata_to_json (m : SecretMetadata) : string := JsonText.dumps (metadata_json m).

Definition time_field (k : string) (d : json) : outcome datetime :=
  s ← JsonText.text_field k d;
  unwrap (PyIso.fromisoformat s) (ValueError ("Invalid isoformat string: " +:+ PyStr.repr s)).

Definition metadata_from_json (payload : string) : outcome SecretMetadata :=
  d ← unwrap (JsonText.loads payload) (ValueError "JSONDecodeError");
  r ← JsonText.text_field "secret_ref" d;
  n ← JsonText.text_field "name" d;
  t ← time_field "created_at" d;
  check_metadata (mkSecret r n t).

Lemma metadata_roundtrip m :
  PyTime.valid (secret_created_at m) -> check_metadata m = Ret m ->
  metadata_from_json (metadata_to_json m) = Ret m.
Proof.
  intros Hv Hc. unfold metadata_from_json, metadata_to_json.
  rewrite JsonText.loads_dumps by (cbn; split; [|auto]; apply (bool_decide_unpack _); vm_compute; exact I).
  cbn [unwrap mbind outcome_bind].
  replace (JsonText.text_field "secret_ref" (metadata_json m)) with (Ret (secret_ref m)) by reflexivity.
  replace (JsonText.text_field "name" (metadata_json m)) with (Ret (secret_name m)) by reflexivity.
  unfold time_field.
  replace (JsonText.text_field "created_at" (metadata_json m))
    with (Ret (PyIso.isoformat (secret_created_at m))) by reflexivity.
  cbn [mbind outcome_bind]. rewrite PyIso.fromisoformat_isoformat by done. destruct m. exact Hc.
Qed.

Section store.
Context {B : Type} `{SecretBackend B}.
(** The recorder of the audit service, when one is given: it may refuse. *)
Context (audit : option (AuditCall -> outcome unit)).

Definition put_value (k v : string) : M (State B) unit :=
  modify (fun st => mkState (put k v (backend st)) (cache st) (log st)).
Definition get_value (k : string) : M (State B) (option string) :=
  st ← Prelude.get; lift (get k (backend st)).
Definition delete_value (k : string) : M (State B) unit :=
  modify (fun st => mkState (delete k (backend st)) (cache st) (log st)).
Definition set_cache (f : dict SecretMetadata -> dict SecretMetadata) : M (State B) unit :=
  modify (fun st => mkState (backend st) (f (cache st)) (log st)).

(** [_record] *)
Definition record (action r : string) (extra : list (string * json)) : M (State B) unit :=
  match audit with
  | None => mret tt
  | Some ok =>
      let call := mkCall "secret_store" action "secret" r extra in
      lift (ok call);;
      modify (fun st => mkState (backend st) (cache st) (log st ++ [call]))
  end.

Definition register (name v : string) (now : datetime) : M (State B) SecretMetadata :=
  let r := ref_of name now in
  put_value r v;;
  m ← lift (check_metadata (mkSecret r name now));
  put_value (meta_ref r) (metadata_to_json m);;
  set_cache (PyDict.set r m);;
  record "secret.registered" r [("name", JStr name)];;
  mret m.

Definition not_found (r : string) : exn := SecretNotFound ("unknown secret_ref: " +:+ r).

Definition resolve (r : string) : M (State B) string :=
  o ← get_value r;
  v ← lift (unwrap o (not_found r));
  record "secret.resolved" r [];;
  mret v.

Definition revoke (r : string) : M (State B) unit :=
  o ← get_value r;
  lift (unwrap o (not_found r));;
  delete_value r;;
  delete_value (meta_ref r);;
  set_cache (PyDict.remove r);;
  record "secret.revoked" r [].

Definition metadata (r : string) : M (State B) (option SecretMetadata) :=
  st ← Prelude.get;
  match PyDict.get r (cache st) with
  | Some m => mret (Some m)
  | None =>
      o ← get_value (meta_ref r);
      match o with
      | None => mret None
      | Some payload =>
          m ← lift (metadata_from_json payload);
          set_cache (PyDict.set r m);;
          mret (Some m)
      end
  end.

(** A new process over the same backend files; the audit log is elsewhere. *)
Definition restart : M (State B) unit :=
  st ← Prelude.get;
  b ← lift (reopen (backend st));
  modify (fun st => mkState b [] (log st)).

Inductive op : Type :=
| Register (name v : string) (now : datetime)
| Resolve (r : string)
| Revoke (r : string)
| Metadata (r : string)
| Restart.

Inductive answer : Type :=
| AUnit
| AMetadata (m : option SecretMetadata)
| ASecret (v : string).

Definition run (o : op) : M (State B) answer :=
  match o with
  | Register n v t => m ← register n v t; mret (AMetadata (Some m))
  | Resolve r => v ← resolve r; mret (ASecret v)
  | Revoke r => revoke r;; mret AUnit
  | Metadata r => m ← metadata r; mret (AMetadata m)
  | Restart => restart;; mret AUnit
  end.

(** The answers of a history and the state it ends in. *)
Fixpoint run_all (ops : list op) (st : State B) : list (outcome answer) * State B :=
  match ops with
  | [] => ([], st)
  | o :: os => let '(a, st) := run o st in let '(l, st) := run_all os st in (a :: l, st)
  end.
End store.

(** ** What each call does *)
Section laws.
Context {B : Type} `{DurableBackend B}.
Context (audit : option (AuditCall -> outcome unit)).

(** The recorder's verdict on an event, and the events it adds. *)
Definition verdict (c : AuditCall) : outcome unit :=
  match audit with None => Ret tt | Some ok => ok c end.
Definition logged (c : AuditCall) : list AuditCall :=
  match audit with None => [] | Some _ => [c] end.

Lemma ledger_record_spec action r extra (st : State B) :
  record audit action r extra st =
  let c := mkCall "secret_store" action "secret" r extra in
  match verdict c with
  | Ret _ => (Ret tt, mkState (backend st) (cache st) (log st ++ logged c))
  | Raise e => (Raise e, st)
  end.
Proof.
  unfold record, verdict, logged. destruct audit as [ok|]; cbn.
  - unfold lift, modify, mbind, M_bind. by destruct (ok _) as [[]|].
  - rewrite app_nil_r. by destruct st.
Qed.

Lemma ref_prefix name now : PyStr.startswith (ref_of name now) "secret:" = true.
Proof. apply PyStr.startswith_app. Qed.

Lemma meta_prefix r : PyStr.startswith (meta_ref r) "secret:" = false.
Proof. reflexivity. Qed.

Lemma meta_ref_inj r r' : meta_ref r = meta_ref r' -> r = r'.
Proof. apply PyStr.app_inv_head. Qed.

Definition registered (name v : string) (now : datetime) (st : State B) : State B :=
  let r := ref_of name now in
  let m := mkSecret r name now in
  mkState (put (meta_ref r) (metadata_to_json m) (put r v (backend st)))
    (PyDict.set r m (cache st)) (log st).

Lemma register_spec name v now (st : State B) :
  register audit name v now st =
  let r := ref_of name now in
  let c := mkCall "secret_store" "secret.registered" "secret" r [("name", JStr name)] in
  if PyStr.is_empty name
  then (Raise (DomainValidationError "SecretMetadata.name must be non-empty"),
        mkState (put r v (backend st)) (cache st) (log st))
  else match verdict c with
       | Ret _ => (Ret (mkSecret r name now),
                   mkState (backend (registered name v now st)) (cache (registered name v now st))
                     (log st ++ logged c))
       | Raise e => (Raise e, registered name v now st)
       end.
Proof.
  unfold register, put_value, set_cache, mbind, M_bind, lift, modify, check_metadata. cbn.
  assert (PyStr.is_empty (ref_of name now) = false) as -> by done. cbn.
  destruct (PyStr.is_empty name); cbn; [done|].
  pose proof ledger_record_spec as Hr. unfold mbind, M_bind in Hr. rewrite Hr. cbn.
  by destruct (verdict _).
Qed.

Lemma secret_resolve_spec r (st : State B) o :
  get r (backend st) = Ret o ->
  resolve audit r st =
  let c := mkCall "secret_store" "secret.resolved" "secret" r [] in
  match o with
  | None => (Raise (not_found r), st)
  | Some v => match verdict c with
              | Ret _ => (Ret v, mkState (backend st) (cache st) (log st ++ logged c))
              | Raise e => (Raise e, st)
              end
  end.
Proof.
  intros Hg. unfold resolve, get_value, mbind, M_bind, Prelude.get, lift. cbn. rewrite Hg. cbn.
  destruct o as [v|]; cbn; [|done]. rewrite ledger_record_spec. cbn. by destruct (verdict _).
Qed.

Definition revoked (r : string) (st : State B) : State B :=
  mkState (delete (meta_ref r) (delete r (backend st))) (PyDict.remove r (cache st)) (log st).

Lemma revoke_spec r (st : State B) o :
  get r (backend st) = Ret o ->
  revoke audit r st =
  let c := mkCall "secret_store" "secret.revoked" "secret" r [] in
  match o with
  | None => (Raise (not_found r), st)
  | Some _ => match verdict c with
              | Ret _ => (Ret tt, mkState (backend (revoked r st)) (cache (revoked r st)) (log st ++ logged c))
              | Raise e => (Raise e, revoked r st)
              end
  end.
Proof.
  intros Hg. unfold revoke, get_value, delete_value, set_cache, mbind, M_bind, Prelude.get, lift, modify.
  cbn. rewrite Hg. cbn. destruct o as [v|]; cbn; [|done]. rewrite ledger_record_spec. cbn. by destruct (verdict _).
Qed.

Lemma metadata_spec r (st : State B) o :
  get (meta_ref r) (backend st) = Ret o ->
  metadata r st =
  match PyDict.get r (cache st), o with
  | Some m, _ => (Ret (Some m), st)
  | None, None => (Ret None, st)
  | None, Some p =>
      match metadata_from_json p with
      | Ret m => (Ret (Some m), mkState (backend st) (PyDict.set r m (cache st)) (log st))
      | Raise e => (Raise e, st)
      end
  end.
Proof.
  intros Hg. unfold metadata, get_value, set_cache, mbind, M_bind, Prelude.get, lift, modify. cbn.
  destruct (PyDict.get r (cache st)); [done|]. cbn. rewrite Hg. cbn. destruct o; cbn; [|done].
  by destruct (metadata_from_json _).
Qed.

Lemma restart_spec (st : State B) :
  backend_ok (backend st) ->
  exists b, restart st = (Ret tt, mkState b [] (log st)) /\ backend_ok b
    /\ forall k, get k b = get k (backend st).
Proof.
  intros Hok. destruct (reopen_get _ Hok) as (b & Hb & Hob & Hg). exists b.
  unfold restart, mbind, M_bind, Prelude.get, lift, modify. cbn. by rewrite Hb.
Qed.

(** ** A registered secret stays available *)

(** The calls that overwrite or delete the secret [r] or its metadata. *)
Definition touches (r : string) (o : op) : bool :=
  match o with
  | Register n _ t => bool_decide (ref_of n t = r)
  | Revoke r' => bool_decide (r' = r) || bool_decide (r' = meta_ref r)
  | _ => false
  end.

Record kept (r v : string) (m : SecretMetadata) (st : State B) : Prop := {
  kept_ok : backend_ok (backend st);
  kept_value : get r (backend st) = Ret (Some v);
  kept_meta : get (meta_ref r) (backend st) = Ret (Some (metadata_to_json m));
  kept_cache : forall m', PyDict.get r (cache st) = Some m' -> m' = m
}.

Lemma kept_same r v m (st st' : State B) :
  backend st' = backend st -> cache st' = cache st -> kept r v m st -> kept r v m st'.
Proof. intros Hb Hc [? ? ? ?]. split; rewrite ?Hb, ?Hc; done. Qed.

Lemma prefix_differ k k' p : PyStr.startswith k p = true -> PyStr.startswith k' p = false -> k <> k'.
Proof. congruence. Qed.

Lemma run_kept r v m o (st : State B) :
  PyStr.startswith r "secret:" = true ->
  metadata_from_json (metadata_to_json m) = Ret m ->
  touches r o = false -> kept r v m st -> kept r v m (run audit o st).2.
Proof.
  intros Hp Hrt Ht Hk. pose proof Hk as [Hok Hv Hm Hc].
  destruct o as [n w t|r'|r'|r'|]; cbn [run touches] in *; unfold mbind, M_bind.
  - breflect. rewrite register_spec. cbn zeta.
    assert (Hput : forall b, backend_ok b -> get r b = Ret (Some v) -> get (meta_ref r) b = Ret (Some (metadata_to_json m)) ->
      get r (put (ref_of n t) w b) = Ret (Some v)
      /\ get (meta_ref r) (put (ref_of n t) w b) = Ret (Some (metadata_to_json m))).
    { intros b Hb Hb1 Hb2. rewrite !get_put by done.
      rewrite !bool_decide_false; [done| |by intros ->].
      intros E. pose proof (ref_prefix n t) as Hx. by rewrite <- E in Hx. }
    destruct (PyStr.is_empty n); cbn [snd].
    { destruct (Hput _ Hok Hv Hm). split; cbn; [by apply put_ok|done..]. }
    enough (kept r v m (registered n w t st)) as Hreg by by destruct (verdict _); cbn; [eapply kept_same, Hreg|].
    destruct (Hput _ Hok Hv Hm) as [Hx1 Hx2]. unfold registered.
    split; cbn [backend cache]; [by do 2 apply put_ok|..].
    + rewrite get_put by by apply put_ok. rewrite bool_decide_false; [done|]. intros ->. done.
    + rewrite get_put by by apply put_ok. rewrite bool_decide_false; [done|].
      intros E%meta_ref_inj. by subst.
    + intros m'. rewrite PyDict.get_set_ne by done. apply Hc.
  - destruct (get_total r' _ Hok) as [o Ho]. rewrite (secret_resolve_spec _ _ o) by done. cbn zeta.
    destruct o; [|exact Hk]. destruct (verdict _); [|exact Hk]. by eapply kept_same, Hk.
  - apply orb_false_iff in Ht as [Ht1 Ht2]. breflect.
    destruct (get_total r' _ Hok) as [o Ho]. rewrite (revoke_spec _ _ o) by done. cbn zeta.
    destruct o; [|exact Hk].
    enough (kept r v m (revoked r' st)) as Hr by by destruct (verdict _); cbn; [eapply kept_same, Hr|].
    unfold revoked. split; cbn [backend cache]; [by do 2 apply delete_ok|..].
    + rewrite !get_delete by (try apply delete_ok; done). rewrite !bool_decide_false; [done|congruence|].
      intros ->. done.
    + rewrite !get_delete by (try apply delete_ok; done). rewrite !bool_decide_false; [done|congruence|].
      intros E%meta_ref_inj. by subst.
    + intros m'. rewrite Fernet.get_remove. case_bool_decide; [done|]. apply Hc.
  - destruct (get_total (meta_ref r') _ Hok) as [o Ho]. rewrite (metadata_spec _ _ o) by done.
    destruct (PyDict.get r' (cache st)) eqn:E; [exact Hk|]. destruct o as [p|]; [|exact Hk].
    destruct (metadata_from_json p) as [m'|] eqn:Em; [|exact Hk]. cbn. split; cbn; [done..|].
    intros m2. rewrite PyDict.get_set. case_decide; [|apply Hc]. intros [= <-]. subst.
    rewrite Hm in Ho. injection Ho as <-. rewrite Hrt in Em. congruence.
  - destruct (restart_spec st Hok) as (b & Hr & Hob & Hg). rewrite Hr. cbn.
    split; cbn; [done|by rewrite Hg..|done].
Qed.

Lemma run_all_kept r v m ops (st : State B) :
  PyStr.startswith r "secret:" = true ->
  metadata_from_json (metadata_to_json m) = Ret m ->
  Forall (fun o => touches r o = false) ops -> kept r v m st -> kept r v m (run_all audit ops st).2.
Proof.
  intros Hp Hrt Hops. revert st. induction Hops as [|o os Ho _ IH]; intros st Hk; cbn; [done|].
  destruct (run audit o st) as [a st'] eqn:E. specialize (IH st').
  destruct (run_all audit os st') as [l st2]. apply IH.
  change st' with (a, st').2. rewrite <- E. by apply run_kept.
Qed.

(** C31: A registered secret can be resolved until it is revoked. Over any durable
    backend, after [register] returned, whatever calls and restarts follow, as
    long as none registers the same name at the same instant again or revokes
    it, [resolve] answers the registered value (unless the audit refuses the
    event), and [metadata] answers the metadata of the registration, from the
    cache or from the backend. *)
Theorem registered_secret_survives name v now m ops (st st1 : State B) :
  backend_ok (backend st) -> PyTime.valid now ->
  register audit name v now st = (Ret m, st1) ->
  Forall (fun o => touches (secret_ref m) o = false) ops ->
  let st2 := (run_all audit ops st1).2 in
  let c := mkCall "secret_store" "secret.resolved" "secret" (secret_ref m) [] in
  (resolve audit (secret_ref m) st2).1 = (verdict c;; Ret v)
  /\ (metadata (secret_ref m) st2).1 = Ret (Some m).
Proof.
  intros Hok Hnow Hreg Hops st2 c. rewrite register_spec in Hreg. cbn zeta in Hreg.
  destruct (PyStr.is_empty name) eqn:En; [done|].
  destruct (verdict _) as [[]|]; [|done]. injection Hreg as <- <-. cbn [secret_ref] in *.
  set (r := ref_of name now) in *. set (m := mkSecret r name now) in *.
  assert (Hrt : metadata_from_json (metadata_to_json m) = Ret m).
  { apply metadata_roundtrip; [done|]. unfold check_metadata. cbn. by rewrite En. }
  assert (Hk : kept r v m st2).
  { apply run_all_kept; [apply ref_prefix|done..|]. split; cbn [backend cache]; unfold registered.
    - by do 2 apply put_ok.
    - cbn [backend]. rewrite get_put by by apply put_ok. rewrite bool_decide_false.
      + rewrite get_put by done. by rewrite bool_decide_true.
      + exact (prefix_differ _ _ _ (ref_prefix name now) (meta_prefix r)).
    - cbn [backend]. rewrite get_put by by apply put_ok. by rewrite bool_decide_true.
    - intros m'. cbn [cache]. rewrite PyDict.get_set_eq. by intros [= <-]. }
  destruct Hk as [_ Hv Hm Hc]. split.
  - rewrite (secret_resolve_spec _ _ _ Hv). subst c. cbn zeta. change (secret_ref m) with r.
    by destruct (verdict (mkCall _ _ _ r _)) as [[]|].
  - rewrite (metadata_spec _ _ _ Hm). destruct (PyDict.get r (cache st2)) as [m'|] eqn:E.
    + assert (m' = m) as Em by by apply Hc. cbn. by rewrite Em.
    + by rewrite Hrt.
Qed.

(** ** Values stay in the backend *)

(** Two histories that differ in the values registered, and in nothing else. *)
Definition same_but_value (a b : op) : Prop :=
  match a, b with
  | Register n _ t, Register n' _ t' => n = n' /\ t = t'
  | _, _ => a = b
  end.

(** What an observer who is not handed the secret sees of an answer. *)
Definition public (a : outcome answer) : outcome answer :=
  match a with Ret (ASecret _) => Ret (ASecret "") | _ => a end.

Definition same_presence {A} (x y : outcome (option A)) : Prop :=
  match x, y with
  | Ret (Some _), Ret (Some _) | Ret None, Ret None => True
  | _, _ => False
  end.

(** The same logs and caches, and backends that differ only in the values kept
    under secret references. *)
Record alike (st st' : State B) : Prop := {
  alike_ok : backend_ok (backend st);
  alike_ok' : backend_ok (backend st');
  alike_cache : cache st = cache st';
  alike_log : log st = log st';
  alike_presence : forall k, same_presence (get k (backend st)) (get k (backend st'));
  alike_clear : forall k, PyStr.startswith k "secret:" = false ->
    get k (backend st) = get k (backend st')
}.

Lemma alike_put k v v' (st st' : State B) c l :
  alike st st' -> (PyStr.startswith k "secret:" = false -> v = v') ->
  alike (mkState (put k v (backend st)) c l) (mkState (put k v' (backend st')) c l).
Proof.
  intros [Ho Ho' _ _ Hp Hcl] Hv. split; cbn [backend cache log]; [by apply put_ok..|done|done| |].
  - intros k0. rewrite !get_put by done. by case_bool_decide.
  - intros k0 Hk0. rewrite !get_put by done. case_bool_decide; [|by apply Hcl]. subst. by rewrite Hv.
Qed.

Lemma alike_delete k (st st' : State B) c l :
  alike st st' -> alike (mkState (delete k (backend st)) c l) (mkState (delete k (backend st')) c l).
Proof.
  intros [Ho Ho' _ _ Hp Hcl]. split; cbn [backend cache log]; [by apply delete_ok..|done|done| |].
  - intros k0. rewrite !get_delete by done. by case_bool_decide.
  - intros k0 Hk0. rewrite !get_delete by done. case_bool_decide; [done|by apply Hcl].
Qed.

Lemma alike_with (st st' : State B) c l :
  alike st st' -> alike (mkState (backend st) c l) (mkState (backend st') c l).
Proof. intros [? ? ? ? ? ?]. by split. Qed.

Lemma run_alike o o' (st st' : State B) :
  same_but_value o o' -> alike st st' ->
  public (run audit o st).1 = public (run audit o' st').1 /\ alike (run audit o st).2 (run audit o' st').2.
Proof.
  intros Hs Ha. pose proof Ha as [Hok Hok' Hca Hlo Hpr Hcl].
  destruct o as [n w t|r|r|r|]; [destruct o' as [n' w' t'| | | |]; [destruct Hs as [<- <-]|done..]|..];
    try (cbn in Hs; subst o'); cbn [run]; unfold mbind, M_bind.
  - rewrite !register_spec. cbn zeta. destruct (PyStr.is_empty n); cbn [fst snd].
    { split; [done|]. rewrite <- Hca, <- Hlo. apply alike_put; [done|]. by rewrite ref_prefix. }
    assert (Hreg : forall l, alike
      (mkState (backend (registered n w t st)) (cache (registered n w t st)) l)
      (mkState (backend (registered n w' t st')) (cache (registered n w' t st')) l)).
    { intros l. unfold registered. cbn [backend cache]. rewrite <- Hca.
      apply (alike_put _ _ _ (mkState (put (ref_of n t) w (backend st)) (cache st) l)
               (mkState (put (ref_of n t) w' (backend st')) (cache st) l)); [|done].
      apply alike_put; [done|]. by rewrite ref_prefix. }
    destruct (verdict _); cbn [fst snd]; (split; [done|]).
    + rewrite <- Hlo. apply Hreg.
    + unfold registered at 1 2. rewrite <- Hlo. apply (Hreg (log st)).
  - pose proof (Hpr r) as Hp. destruct (get_total r _ Hok) as [x Hx], (get_total r _ Hok') as [y Hy].
    rewrite Hx, Hy in Hp. rewrite (secret_resolve_spec _ _ _ Hx), (secret_resolve_spec _ _ _ Hy). cbn zeta.
    destruct x, y; try done. destruct (verdict _); cbn; [|done]. split; [done|].
    rewrite <- Hca, <- Hlo. by apply alike_with.
  - pose proof (Hpr r) as Hp. destruct (get_total r _ Hok) as [x Hx], (get_total r _ Hok') as [y Hy].
    rewrite Hx, Hy in Hp. rewrite (revoke_spec _ _ _ Hx), (revoke_spec _ _ _ Hy). cbn zeta.
    destruct x, y; try done.
    assert (Hrev : forall l, alike (mkState (backend (revoked r st)) (cache (revoked r st)) l)
                               (mkState (backend (revoked r st')) (cache (revoked r st')) l)).
    { intros l. unfold revoked. cbn [backend cache]. rewrite <- Hca.
      apply (alike_delete _ (mkState (delete r (backend st)) (cache st) l)
               (mkState (delete r (backend st')) (cache st) l)). by apply alike_delete. }
    destruct (verdict _); cbn [fst snd]; (split; [done|]).
    + rewrite <- Hlo. apply Hrev.
    + unfold revoked at 1 2. rewrite <- Hlo. apply (Hrev (log st)).
  - pose proof (Hcl (meta_ref r) (meta_prefix r)) as Hm.
    destruct (get_total (meta_ref r) _ Hok) as [x Hx]. pose proof Hx as Hy. rewrite Hm in Hy.
    rewrite (metadata_spec _ _ _ Hx), (metadata_spec _ _ _ Hy), <- Hca.
    destruct (PyDict.get r (cache st)); [done|]. destruct x as [p|]; [|done].
    destruct (metadata_from_json p); cbn; [|done]. split; [done|]. rewrite <- Hlo. by apply alike_with.
  - destruct (restart_spec _ Hok) as (b & Hb & Hbo & Hg), (restart_spec _ Hok') as (b' & Hb' & Hbo' & Hg').
    rewrite Hb, Hb'. cbn. split; [done|]. split; cbn; [done..| |].
    + intros k. rewrite Hg, Hg'. apply Hpr.
    + intros k Hk. rewrite Hg, Hg'. by apply Hcl.
Qed.

Lemma run_all_alike ops ops' (s1 s2 : State B) :
  Forall2 same_but_value ops ops' -> alike s1 s2 ->
  (public <$> (run_all audit ops s1).1) = (public <$> (run_all audit ops' s2).1)
  /\ alike (run_all audit ops s1).2 (run_all audit ops' s2).2.
Proof.
  intros Hops. revert s1 s2. induction Hops as [|o o' ops ops' Ho _ IH]; intros s1 s2 Ha; cbn; [done|].
  destruct (run_alike _ _ _ _ Ho Ha) as [Hans Hst].
  destruct (run audit o s1) as [a s1'], (run audit o' s2) as [a' s2']. cbn [fst snd] in *.
  specialize (IH _ _ Hst).
  destruct (run_all audit ops s1') as [l1 t1], (run_all audit ops' s2') as [l2 t2]. cbn in *.
  destruct IH as (-> & ?). by rewrite Hans.
Qed.

(** The values of secrets do not leak. Run two histories that differ only in
    the values registered: every answer but that of [resolve] is the same, and
    so are the errors, the audit log and the metadata cache. Nothing an
    observer of these can see depends on a secret's value. *)
Theorem secret_values_do_not_leak ops ops' (st : State B) :
  backend_ok (backend st) -> Forall2 same_but_value ops ops' ->
  (public <$> (run_all audit ops st).1) = (public <$> (run_all audit ops' st).1)
  /\ log (run_all audit ops st).2 = log (run_all audit ops' st).2
  /\ cache (run_all audit ops st).2 = cache (run_all audit ops' st).2.
Proof.
  intros Hok Hops.
  assert (Ha : alike st st).
  { split; try done. intros k. destruct (get_total k _ Hok) as [[]  ->]; done. }
  destruct (run_all_alike _ _ _ _ Hops Ha) as [Hans [_ _ Hc Hl _ _]]. done.
Qed.

End laws.
End SecretStore.

(** ** Concrete runs *)
Module SecretsDemo.
Import SecretStore.

(** A stand-in for Fernet: it marks the text. *)
Definition encrypt (n : nat) (v : string) : string := "tok" +:+ v.
Definition decrypt (t : string) : outcome string :=
  if PyStr.startswith t "tok" then Ret (PyStr.drop 3 t) else Raise (ValueError "InvalidToken").

Lemma decrypt_encrypt n v : decrypt (encrypt n v) = Ret v.
Proof. unfold decrypt, encrypt. by rewrite PyStr.startswith_app, (PyStr.drop_app "tok"). Qed.

#[export] Instance disk : SecretBackend Fernet.Persistent := Fernet.persistent_backend encrypt decrypt.
#[export] Instance disk_lawful : LawfulBackend Fernet.Persistent :=
  Fernet.persistent_lawful encrypt decrypt decrypt_encrypt.
#[export] Instance disk_durable : DurableBackend Fernet.Persistent :=
  Fernet.persistent_durable encrypt decrypt decrypt_encrypt.

Definition empty : State Fernet.Persistent := mkState (Fernet.mkPersistent [] None 0) [] [].

Lemma empty_ok : backend_ok (backend empty).
Proof. split; [split; [apply NoDup_nil_2|done]|done]. Qed.

Definition accept : option (AuditCall -> outcome unit) := Some (fun _ => Ret tt).
Definition noon : datetime := 63000000000 * PyTime.second.

Lemma registered_secret_survives_witness :
  exists m st1, register accept "db" "hunter2" noon empty = (Ret m, st1)
    /\ (resolve accept (secret_ref m)
         (run_all accept [Restart; Register "api" "k" noon; Metadata (secret_ref m); Restart] st1).2).1
       = Ret "hunter2".
Proof.
  do 2 eexists. split; [vm_compute; reflexivity|].
  refine (proj1 (registered_secret_survives accept "db" "hunter2" noon _ _ empty _ empty_ok _ _ _)).
  - split; [discriminate|reflexivity].
  - vm_compute; reflexivity.
  - repeat constructor.
Defined.

Lemma secret_values_do_not_leak_witness :
  let ops v := [Register "db" v noon; Resolve (ref_of "db" noon); Restart; Metadata (ref_of "db" noon)] in
  log (run_all accept (ops "hunter2") empty).2 = log (run_all accept (ops "other") empty).2
  /\ length (log (run_all accept (ops "hunter2") empty).2) = 2%nat.
Proof.
  intros ops. split; [|vm_compute; reflexivity].
  refine (proj1 (proj2 (secret_values_do_not_leak accept (ops "hunter2") (ops "other") empty empty_ok _))).
  repeat constructor.
Defined.

(** The reference is a digest of the name and the instant: a second secret of
    the same name at the same instant replaces the first. *)
Example same_instant_overwrites :
  (resolve accept (ref_of "db" noon)
     (run_all accept [Register "db" "first" noon; Register "db" "second" noon] empty).2).1 = Ret "second".
Proof. vm_compute. reflexivity. Qed.

(** A registration refused for its empty name has already stored the value. *)
Example refused_registration_stores_the_value :
  let '(a, st) := register accept "" "hunter2" noon empty in
  a = Raise (DomainValidationError "SecretMetadata.name must be non-empty")
  /\ (resolve accept (ref_of "" noon) st).1 = Ret "hunter2".
Proof. vm_compute. split; reflexivity. Qed.

(** The in-memory backend forgets its secrets with the process. *)
Example memory_backend_is_not_durable :
  let M := Fernet.memory_backend encrypt decrypt in
  let st := mkState (Fernet.mkMemory [] 0) [] [] in
  (@resolve _ M accept (ref_of "db" noon)
     (@run_all _ M accept [Register "db" "v" noon; Restart] st).2).1
  = Raise (not_found (ref_of "db" noon)).
Proof. vm_compute. reflexivity. Qed.

End SecretsDemo.
