(* ===== verification/Keys.v ===== *)
(** * Signing keys

    Models [src/secopent/application/signing_keys.py]: named signing keys
    whose private material lives in the secret store and whose public
    information is kept in a dictionary and, when a path is configured, in a
    file that is read back at the next start.  The key operations (the
    [KeyProvider] port) are a class with the law of signatures. *)
From S2P Require Import Prelude PyStr PyTime PyFloat Sha256 Canonical PyJson PyText PyDict JsonText PyIso AuditTrail Secrets.

#[local] Open Scope Z_scope.

Record SigningKeyInfo : Type := mkKey {
  key_id : string;
  key_name : string;
  public_key : string;
  key_created_at : datetime;
  archived : bool
}.

(** The [n]-th key pair generated, private material first; signing; and the
    verification third parties do. *)
Class KeyProvider := {
  generate : nat -> string * string;
  signer : string -> string -> string;
  verifies : string -> string -> string -> bool;
  signatures_verify : forall n m, verifies (generate n).2 m (signer (generate n).1 m) = true
}.

Module SigningKeys.

Record State (B : Type) : Type := mkState {
  secrets : SecretStore.State B;
  keys : dict SigningKeyInfo;
  metadata_file : option string;
  generated : nat
}.
Arguments mkState {B}.
Arguments secrets {B}.
Arguments keys {B}.
Arguments metadata_file {B}.
Arguments generated {B}.

Definition archive (i : SigningKeyInfo) : SigningKeyInfo :=
  mkKey (key_id i) (key_name i) (public_key i) (key_created_at i) true.

(** ** The metadata file *)
Definition key_json (i : SigningKeyInfo) : json :=
  JObj [("key_id", JStr (key_id i)); ("name", JStr (key_name i));
        ("public_key", JStr (public_key i));
        ("created_at", JStr (PyIso.isoformat (key_created_at i)));
        ("archived", JBool (archived i))].

Definition keys_json (d : dict SigningKeyInfo) : json :=
  JObj [("keys", JArr (key_json <$> PyDict.values d))].

(** One entry of the file; whatever it raises, the entry is skipped. *)
Definition entry_info (entry : json) : outcome SigningKeyInfo :=
  k ← JsonText.text_field "key_id" entry;
  n ← JsonText.text_field "name" entry;
  p ← JsonText.text_field "public_key" entry;
  t ← SecretStore.time_field "created_at" entry;
  let arch := match entry with JObj l => default (JBool false) (field "archived" l) | _ => JBool false end in
  Ret (mkKey k n p t (truthy_json arch)).

Definition load_entry (d : dict SigningKeyInfo) (entry : json) : dict SigningKeyInfo :=
  match entry_info entry with
  | Ret i => PyDict.set (key_id i) i d
  | Raise _ => d
  end.

(** [_load_metadata]: a missing or unreadable file is no keys. *)
Definition load_metadata (file : option string) : outcome (dict SigningKeyInfo) :=
  match file with
  | None => Ret []
  | Some text =>
      match JsonText.loads text with
      | None => Ret []
      | Some (JObj l) =>
          match default (JArr []) (field "keys" l) with
          | JArr entries => Ret (foldl load_entry [] entries)
          | JObj _ | JStr _ => Ret []
          | v => Raise (TypeError ("'" +:+ type_name v +:+ "' object is not iterable"))
          end
      | Some v => Raise (AttributeError (no_attribute v "get"))
      end
  end.

Section service.
Context {B : Type} `{SecretBackend B} `{KeyProvider}.
Context (audit : option (AuditCall -> outcome unit)).
(** Whether a metadata path is configured. *)
Context (has_path : bool).

Definition with_secrets {A} (m : M (SecretStore.State B) A) : M (State B) A :=
  fun st => let '(a, s) := m (secrets st) in
            (a, mkState s (keys st) (metadata_file st) (generated st)).

Definition set_keys (f : dict SigningKeyInfo -> dict SigningKeyInfo) : M (State B) unit :=
  modify (fun st => mkState (secrets st) (f (keys st)) (metadata_file st) (generated st)).

(** [_flush_metadata] *)
Definition flush : M (State B) unit :=
  modify (fun st =>
    if has_path
    then mkState (secrets st) (keys st) (Some (JsonText.dumps (keys_json (keys st)))) (generated st)
    else st).

Definition generate_pair : M (State B) (string * string) :=
  fun st => (Ret (generate (generated st)),
             mkState (secrets st) (keys st) (metadata_file st) (S (generated st))).

Definition create_key (name : string) (now : datetime) : M (State B) SigningKeyInfo :=
  pair ← generate_pair;
  metadata ← with_secrets (SecretStore.register audit name (pair.1) now);
  let info := mkKey (secret_ref metadata) name (pair.2) now false in
  set_keys (PyDict.set (key_id info) info);;
  flush;;
  mret info.

Definition named (name : string) (i : SigningKeyInfo) : bool :=
  bool_decide (key_name i = name) && negb (archived i).

Definition ensure_default_key (name : string) (now : datetime) : M (State B) SigningKeyInfo :=
  st ← Prelude.get;
  match List.find (named name) (PyDict.values (keys st)) with
  | Some info => mret info
  | None => create_key name now
  end.

Definition list_keys (st : State B) : list SigningKeyInfo :=
  omap (fun k => PyDict.get k (keys st)) (PyStr.sorted (PyDict.keys (keys st))).

Definition get (k : string) : M (State B) SigningKeyInfo :=
  st ← Prelude.get;
  lift (unwrap (PyDict.get k (keys st)) (SigningKeyNotFound ("unknown signing key: " +:+ k))).

Definition default_key_id (st : State B) : option string :=
  key_id <$> last (List.filter (fun i => negb (archived i)) (PyDict.values (keys st))).

Definition rotate (old_key_id : string) (now : datetime) : M (State B) SigningKeyInfo :=
  old ← get old_key_id;
  new_info ← create_key (key_name old +:+ "-next") now;
  set_keys (PyDict.set old_key_id (archive old));;
  flush;;
  mret new_info.

(** [key_id or self.default_key_id()] *)
Definition target (k : option string) (st : State B) : option string :=
  match k with
  | Some k => if PyStr.truthy k then Some k else default_key_id st
  | None => default_key_id st
  end.

Definition signer_for (k : option string) : M (State B) (string -> string) :=
  st ← Prelude.get;
  t ← lift (unwrap (target k st) (SigningKeyNotFound "no signing keys available"));
  get t;;
  private_material ← with_secrets (SecretStore.resolve audit t);
  mret (signer private_material).

(** A new process: the secret store over the same files, the keys from the
    metadata file when there is a path. *)
Definition restart : M (State B) unit :=
  with_secrets SecretStore.restart;;
  st ← Prelude.get;
  d ← lift (load_metadata (if has_path then metadata_file st else None));
  set_keys (fun _ => d).

Inductive op : Type :=
| Create (name : string) (now : datetime)
| Ensure (name : string) (now : datetime)
| Rotate (k : string) (now : datetime)
| Sign (k : option string)
| Restart.

Definition run (o : op) : M (State B) unit :=
  match o with
  | Create n t => create_key n t;; mret tt
  | Ensure n t => ensure_default_key n t;; mret tt
  | Rotate k t => rotate k t;; mret tt
  | Sign k => signer_for k;; mret tt
  | Restart => restart
  end.

Fixpoint run_all (ops : list op) (st : State B) : State B :=
  match ops with
  | [] => st
  | o :: os => run_all os (run o st).2
  end.

(** The reference the call creates a key under, if it creates one. *)
Definition creates (o : op) (st : State B) : option string :=
  match o with
  | Create n t => Some (SecretStore.ref_of n t)
  | Ensure n t =>
      match List.find (named n) (PyDict.values (keys st)) with
      | Some _ => None
      | None => Some (SecretStore.ref_of n t)
      end
  | Rotate k t =>
      match PyDict.get k (keys st) with
      | Some old => Some (SecretStore.ref_of (key_name old +:+ "-next") t)
      | None => None
      end
  | _ => None
  end.

(** The calls as the program makes them: keys have names, times are instants,
    and the reference of a rotated key's successor is not the key's own (which
    would be a collision of digests). *)
Definition op_ok (o : op) (st : State B) : Prop :=
  match o with
  | Create n t | Ensure n t => n <> "" /\ PyTime.valid t
  | Rotate k t => PyTime.valid t /\ creates o st <> Some k
  | _ => True
  end.

Fixpoint run_ok (ops : list op) (st : State B) : Prop :=
  match ops with
  | [] => True
  | o :: os => op_ok o st /\ run_ok os (run o st).2
  end.

(** No call of the history creates a key under [k]. *)
Fixpoint never_recreates (k : string) (ops : list op) (st : State B) : Prop :=
  match ops with
  | [] => True
  | o :: os => creates o st <> Some k /\ never_recreates k os (run o st).2
  end.
End service.

(** ** The metadata file gives the keys back *)
Definition info_ok (k : string) (i : SigningKeyInfo) : Prop :=
  key_id i = k /\ PyStr.startswith k "secret:" = true /\ PyTime.valid (key_created_at i).

Lemma entry_back i : PyTime.valid (key_created_at i) -> entry_info (key_json i) = Ret i.
Proof.
  intros Hv. unfold entry_info.
  replace (JsonText.text_field "key_id" (key_json i)) with (Ret (key_id i)) by reflexivity.
  replace (JsonText.text_field "name" (key_json i)) with (Ret (key_name i)) by reflexivity.
  replace (JsonText.text_field "public_key" (key_json i)) with (Ret (public_key i)) by reflexivity.
  unfold SecretStore.time_field.
  replace (JsonText.text_field "created_at" (key_json i))
    with (Ret (PyIso.isoformat (key_created_at i))) by reflexivity.
  cbn [mbind outcome_bind]. rewrite PyIso.fromisoformat_isoformat by done. by destruct i.
Qed.

Lemma entries_back (d : dict SigningKeyInfo) acc :
  PyDict.wf (acc ++ d) -> (forall k i, (k, i) ∈ d -> info_ok k i) ->
  foldl load_entry acc (key_json <$> PyDict.values d) = acc ++ d.
Proof.
  revert acc. induction d as [|[k i] d IH]; intros acc Hw Hok; [by rewrite app_nil_r|].
  destruct (Hok k i) as (Hk & _ & Hv); [constructor|]. cbn.
  unfold load_entry at 2. rewrite entry_back by done. cbn. rewrite Hk.
  assert (Hw' : PyDict.wf ((acc ++ [(k, i)]) ++ d)) by by rewrite <- (assoc_L (++)).
  rewrite PyDict.keys_set_notin.
  - change (PyDict.values d) with (d.*2) in IH. rewrite IH; [by rewrite <- (assoc_L (++))|done|].
    intros k' i' Hin. apply Hok. by constructor.
  - unfold PyDict.wf, PyDict.keys in *. rewrite fmap_app in Hw. apply NoDup_app in Hw as (_ & Hw & _).
    intros Hin. apply (Hw k Hin). constructor.
Qed.

Lemma jwf_keys_json d : JsonText.jwf (keys_json d).
Proof.
  split; [apply (bool_decide_unpack _); vm_compute; exact I|]. split; [|done].
  cbn. induction (PyDict.values d) as [|i l IH]; [done|]. split; [|exact IH].
  split; [apply (bool_decide_unpack _); vm_compute; exact I|]. by repeat split.
Qed.

Lemma load_back d :
  PyDict.wf d -> (forall k i, PyDict.get k d = Some i -> info_ok k i) ->
  load_metadata (Some (JsonText.dumps (keys_json d))) = Ret d.
Proof.
  intros Hw Hok. unfold load_metadata. rewrite JsonText.loads_dumps by apply jwf_keys_json.
  unfold keys_json. cbn [field List.find fst fmap option_fmap option_map snd default].
  rewrite bool_decide_true by done. cbn. f_equal. apply (entries_back d []); [done|].
  intros k i Hin. apply Hok. by apply PyDict.get_In.
Qed.

(** ** The invariant *)
Section laws.
Context {B : Type} `{DurableBackend B} `{KeyProvider}.
Context (audit : option (AuditCall -> outcome unit)).
Context (audit_accepts : forall c, SecretStore.verdict audit c = Ret tt).

(** The listed key [k] has its private half in the backend. *)
Definition paired (b : B) (k : string) (i : SigningKeyInfo) : Prop :=
  exists n, Secrets.get k b = Ret (Some (generate n).1) /\ public_key i = (generate n).2.

Record keys_ok (st : State B) : Prop := {
  ko_backend : backend_ok (SecretStore.backend (secrets st));
  ko_wf : PyDict.wf (keys st);
  ko_info : forall k i, PyDict.get k (keys st) = Some i -> info_ok k i;
  ko_paired : forall k i, PyDict.get k (keys st) = Some i ->
    paired (SecretStore.backend (secrets st)) k i;
  ko_file : load_metadata (metadata_file st) = Ret (keys st)
}.

Definition created (name : string) (now : datetime) (st : State B) : SigningKeyInfo :=
  mkKey (SecretStore.ref_of name now) name (generate (generated st)).2 now false.

Lemma create_key_spec name now (st : State B) :
  name <> "" -> keys_ok st -> PyTime.valid now ->
  exists st', create_key audit true name now st = (Ret (created name now st), st')
    /\ keys st' = PyDict.set (SecretStore.ref_of name now) (created name now st) (keys st)
    /\ keys_ok st'.
Proof.
  intros Hname [Hb Hw Hi Hp Hf] Hnow. apply PyStr.is_empty_false in Hname.
  unfold create_key, generate_pair, with_secrets, set_keys, flush, mbind, M_bind, modify.
  cbn [secrets keys metadata_file generated]. rewrite SecretStore.register_spec. cbn zeta. rewrite Hname, audit_accepts.
  cbn -[JsonText.dumps keys_json SecretStore.ref_of]. eexists. split; [reflexivity|].
  cbn -[JsonText.dumps keys_json SecretStore.ref_of]. split; [reflexivity|].
  set (r := SecretStore.ref_of name now).
  assert (Hw' : PyDict.wf (PyDict.set r (created name now st) (keys st))) by by apply PyDict.set_wf.
  assert (Hi' : forall k i, PyDict.get k (PyDict.set r (created name now st) (keys st)) = Some i -> info_ok k i).
  { intros k i. rewrite PyDict.get_set. case_decide; [|apply Hi]. intros [= <-]. subst k.
    split; [done|]. split; [apply SecretStore.ref_prefix|done]. }
  split; cbn -[JsonText.dumps keys_json load_metadata]; [by do 2 apply put_ok|done|done| |by apply load_back].
  intros k i Hk. unfold paired. destruct (Hi' _ _ Hk) as (_ & Hpre & _).
  rewrite get_put by by apply put_ok.
  rewrite bool_decide_false by exact (SecretStore.prefix_differ _ _ _ Hpre (SecretStore.meta_prefix r)).
  rewrite get_put by done. rewrite PyDict.get_set in Hk. case_decide as E.
  - injection Hk as <-. rewrite bool_decide_true by done. by eexists.
  - rewrite bool_decide_false by congruence. by apply Hp.
Qed.

Lemma archive_ok k i (st : State B) :
  keys_ok st -> PyDict.get k (keys st) = Some i ->
  keys_ok ((set_keys (PyDict.set k (archive i));; flush true) st).2
  /\ keys ((set_keys (PyDict.set k (archive i));; flush true) st).2 = PyDict.set k (archive i) (keys st).
Proof.
  intros [Hb Hw Hi Hp Hf] Hk.
  change ((set_keys (PyDict.set k (archive i));; flush true) st).2
    with (mkState (secrets st) (PyDict.set k (archive i) (keys st))
            (Some (JsonText.dumps (keys_json (PyDict.set k (archive i) (keys st))))) (generated st)).
  split; [|done].
  assert (Hw' : PyDict.wf (PyDict.set k (archive i) (keys st))) by by apply PyDict.set_wf.
  assert (Hi' : forall k' i', PyDict.get k' (PyDict.set k (archive i) (keys st)) = Some i' -> info_ok k' i').
  { intros k' i'. rewrite PyDict.get_set. case_decide; [|apply Hi]. intros [= <-]. subst k'. exact (Hi _ _ Hk). }
  split; cbn -[JsonText.dumps keys_json load_metadata]; [done|done|done| |by apply load_back].
  intros k' i'. rewrite PyDict.get_set. case_decide; [|apply Hp]. intros [= <-]. subst k'. exact (Hp _ _ Hk).
Qed.

(** Signing changes nothing but the audit log. *)
Lemma signer_for_state k (st : State B) :
  keys_ok st ->
  let st' := (signer_for audit k st).2 in
  keys st' = keys st /\ metadata_file st' = metadata_file st
  /\ SecretStore.backend (secrets st') = SecretStore.backend (secrets st).
Proof.
  intros [Hb _ _ _ _]. unfold signer_for, get, with_secrets, mbind, M_bind, Prelude.get, lift. cbn.
  destruct (target k st) as [t|]; cbn; [|done].
  destruct (PyDict.get t (keys st)); cbn; [|done].
  destruct (get_total t _ Hb) as [o Ho]. rewrite (SecretStore.secret_resolve_spec _ _ _ _ Ho). cbn zeta.
  destruct o; [|done]. by rewrite audit_accepts.
Qed.

Lemma signer_for_listed k i (st : State B) :
  keys_ok st -> PyDict.get k (keys st) = Some i ->
  exists n, public_key i = (generate n).2
    /\ (signer_for audit (Some k) st).1 = Ret (signer (generate n).1).
Proof.
  intros [Hb _ Hi Hp _] Hk. destruct (Hp _ _ Hk) as (n & Hg & Hpub). exists n. split; [done|].
  destruct (Hi _ _ Hk) as (_ & Hpre & _).
  unfold signer_for, get, with_secrets, mbind, M_bind, Prelude.get, lift, target.
  assert (PyStr.truthy k = true) as -> by by destruct k. cbn. rewrite Hk. cbn.
  rewrite (SecretStore.secret_resolve_spec _ _ _ _ Hg). cbn zeta. by rewrite audit_accepts.
Qed.

Lemma keys_ok_same (st st' : State B) :
  keys st' = keys st -> metadata_file st' = metadata_file st ->
  backend_ok (SecretStore.backend (secrets st')) ->
  (forall k, Secrets.get k (SecretStore.backend (secrets st')) = Secrets.get k (SecretStore.backend (secrets st))) ->
  keys_ok st -> keys_ok st'.
Proof.
  intros Hk Hm Hb Hg [_ Hw Hi Hp Hf]. split; rewrite ?Hk, ?Hm; try done.
  intros k i Hki. destruct (Hp k i Hki) as (n & Hn & Hpub). exists n. by rewrite Hg.
Qed.

(** The key a call keeps: listed before, and not created again. *)
Lemma run_keys_ok o (st : State B) :
  keys_ok st -> op_ok o st ->
  keys_ok (run audit true o st).2
  /\ forall k i, PyDict.get k (keys st) = Some i -> creates o st <> Some k ->
       exists i', PyDict.get k (keys (run audit true o st).2) = Some i' /\ public_key i' = public_key i.
Proof.
  intros Hok Ho.
  assert (Hcreate : forall n t, n <> "" -> PyTime.valid t ->
    keys_ok (create_key audit true n t st).2
    /\ forall k i, PyDict.get k (keys st) = Some i -> Some (SecretStore.ref_of n t) <> Some k ->
         exists i', PyDict.get k (keys (create_key audit true n t st).2) = Some i' /\ public_key i' = public_key i).
  { intros n t Hn Ht. destruct (create_key_spec n t st Hn Hok Ht) as (st' & -> & Hk & Hok').
    split; [done|]. intros k i Hki Hne. exists i. cbn [snd]. rewrite Hk, PyDict.get_set_ne by congruence. done. }
  assert (Hsnd : forall (m : M (State B) SigningKeyInfo), ((m;; mret tt) st).2 = (m st).2).
  { intros m. unfold mbind, M_bind. by destruct (m st) as [[]]. }
  destruct o as [n t|n t|k t|k|]; cbn [run op_ok] in *.
  - rewrite Hsnd. destruct Ho. by apply Hcreate.
  - rewrite Hsnd. unfold ensure_default_key, mbind, M_bind, Prelude.get. cbn [creates].
    destruct (List.find _ _); cbn; [by eauto|]. destruct Ho. by apply Hcreate.
  - rewrite Hsnd. destruct Ho as [Ht Hself]. unfold rotate, get, mbind, M_bind, Prelude.get, lift.
    cbn [creates] in *. destruct (PyDict.get k (keys st)) as [old|] eqn:E; cbn; [|by eauto].
    assert (Hname : key_name old +:+ "-next" <> "") by by destruct (key_name old).
    destruct (create_key_spec _ t st Hname Hok Ht) as (st' & -> & Hk & Hok'). cbn [unwrap].
    assert (Hold : PyDict.get k (keys st') = Some old).
    { rewrite Hk, PyDict.get_set_ne by congruence. done. }
    destruct (archive_ok k old st' Hok' Hold) as [Ha Hak]. split; [exact Ha|].
    intros k' i' Hk' Hne. exists (if bool_decide (k' = k) then archive i' else i').
    change (PyDict.get k' (PyDict.set k (archive old) (keys st')) = Some (if bool_decide (k' = k) then archive i' else i')
      /\ public_key (if bool_decide (k' = k) then archive i' else i') = public_key i').
    rewrite PyDict.get_set. case_decide; case_bool_decide; try congruence.
    + subst. split; [|done]. congruence.
    + split; [|done]. rewrite Hk, PyDict.get_set_ne by congruence. done.
  - assert (Hs : ((signer_for audit k;; mret tt) st).2 = (signer_for audit k st).2).
    { unfold mbind, M_bind. by destruct (signer_for audit k st) as [[]]. }
    rewrite Hs. destruct (signer_for_state k st Hok) as (Hk & Hm & Hb). split.
    + eapply keys_ok_same; [done|done|rewrite Hb; apply Hok|by rewrite Hb|done].
    + intros k' i Hi _. exists i. by rewrite Hk.
  - destruct (SecretStore.restart_spec (secrets st) (ko_backend _ Hok)) as (b & Hr & Hb & Hg).
    unfold restart, with_secrets, mbind, M_bind, Prelude.get, lift, set_keys, modify. cbn. rewrite Hr.
    cbn. rewrite (ko_file _ Hok). cbn. split; [|by eauto].
    apply (keys_ok_same st); [reflexivity|reflexivity|exact Hb|exact Hg|exact Hok].
Qed.

Lemma run_all_keys_ok ops (st : State B) :
  keys_ok st -> run_ok audit true ops st ->
  keys_ok (run_all audit true ops st)
  /\ forall k i, PyDict.get k (keys st) = Some i -> never_recreates audit true k ops st ->
       exists i', PyDict.get k (keys (run_all audit true ops st)) = Some i' /\ public_key i' = public_key i.
Proof.
  revert st. induction ops as [|o os IH]; intros st Hok; cbn; [by eauto|].
  intros [Ho Hr]. destruct (run_keys_ok o st Hok Ho) as [Hok' Hk].
  destruct (IH _ Hok' Hr) as [Hok2 Hk2]. split; [done|].
  intros k i Hi [Hne Hn]. destruct (Hk k i Hi Hne) as (i1 & Hi1 & Hp1).
  destruct (Hk2 k i1 Hi1 Hn) as (i2 & Hi2 & Hp2). exists i2. split; [done|congruence].
Qed.

(** Signatures outlive rotation and restarts. With a durable secret backend, a
    metadata path and an audit that accepts, start from no keys. After any
    history, every listed key can sign. A signature made then verifies under
    the public key listed for it, and, whatever is created, rotated, signed or
    restarted afterwards, the key stays listed with a public key the signature
    verifies under, unless a key is created under the same reference. *)
Theorem signatures_outlive_rotation_and_restart b log ops1 ops2 k i :
  backend_ok b ->
  let st0 : State B := mkState (SecretStore.mkState b [] log) [] None 0 in
  let st1 := run_all audit true ops1 st0 in
  run_ok audit true ops1 st0 -> PyDict.get k (keys st1) = Some i ->
  exists sign st2, signer_for audit (Some k) st1 = (Ret sign, st2)
    /\ (forall m, verifies (public_key i) m (sign m) = true)
    /\ (run_ok audit true ops2 st2 -> never_recreates audit true k ops2 st2 ->
         exists i', (get k (run_all audit true ops2 st2)).1 = Ret i'
           /\ forall m, verifies (public_key i') m (sign m) = true).
Proof.
  intros Hb st0 st1 Hr1 Hk.
  assert (Hok0 : keys_ok st0) by (split; cbn; [done|apply NoDup_nil_2|done..]).
  destruct (run_all_keys_ok ops1 st0 Hok0 Hr1) as [Hok1 _]. fold st1 in Hok1.
  destruct (signer_for_listed k i st1 Hok1 Hk) as (n & Hpub & Hs).
  destruct (signer_for audit (Some k) st1) as [a st2] eqn:E. cbn in Hs. subst a.
  assert (Hv : forall p m, p = public_key i -> verifies p m (signer (generate n).1 m) = true).
  { intros p m ->. rewrite Hpub. apply signatures_verify. }
  exists (signer (generate n).1), st2. split; [done|]. split; [intros m; by apply Hv|].
  intros Hr2 Hn2.
  destruct (signer_for_state (Some k) st1 Hok1) as (Hk2 & Hm2 & Hb2). rewrite E in Hk2, Hm2, Hb2. cbn in *.
  assert (Hok2 : keys_ok st2).
  { eapply keys_ok_same; [done|done|rewrite Hb2; apply Hok1|by rewrite Hb2|done]. }
  destruct (run_all_keys_ok ops2 st2 Hok2 Hr2) as [_ Hlast].
  destruct (Hlast k i) as (i' & Hi' & Hp'); [by rewrite Hk2|done|].
  exists i'. split; [|intros m; by apply Hv].
  unfold get, mbind, M_bind, Prelude.get, lift. cbn. by rewrite Hi'.
Qed.
End laws.
End SigningKeys.

(** ** Concrete runs *)
Module KeysDemo.
Import SigningKeys SecretsDemo.

(** Stand-ins: the private half is a mark on the public one. *)
#[export] Program Instance demo_provider : KeyProvider := {
  generate n := ("key-" +:+ pretty n, "pub-" +:+ pretty n);
  signer priv m := PyStr.drop 4 priv +:+ ":" +:+ m;
  verifies pub m s := bool_decide (s = PyStr.drop 4 pub +:+ ":" +:+ m)
}.
Next Obligation.
  intros n m. cbn. apply bool_decide_eq_true.
  pose proof (PyStr.drop_app "key-") as Hk. pose proof (PyStr.drop_app "pub-") as Hp. cbn in Hk, Hp.
  by rewrite Hk, Hp.
Qed.

Definition none : State Fernet.Persistent := mkState empty [] None 0.
Definition default_ref : string := SecretStore.ref_of "default" noon.
Definition day1 : datetime := noon + PyTime.day.
Definition day2 : datetime := noon + 2 * PyTime.day.

Lemma accepting c : SecretStore.verdict accept c = Ret tt.
Proof. reflexivity. Qed.

(** Sign with the default key, rotate it, restart: the old signature still
    verifies. *)
Lemma signatures_outlive_rotation_and_restart_witness :
  let st1 := run_all accept true [Ensure "default" noon; Restart] none in
  exists i sign st2, PyDict.get default_ref (keys st1) = Some i
    /\ signer_for accept (Some default_ref) st1 = (Ret sign, st2)
    /\ exists i', (get default_ref (run_all accept true [Rotate default_ref day1; Restart] st2)).1 = Ret i'
         /\ verifies (public_key i') "case" (sign "case") = true.
Proof.
  intros st1.
  assert (Hk : exists i, PyDict.get default_ref (keys st1) = Some i) by (eexists; vm_compute; reflexivity).
  destruct Hk as [i Hi].
  destruct (signatures_outlive_rotation_and_restart accept accepting (Fernet.mkPersistent [] None 0) []
    [Ensure "default" noon; Restart] [Rotate default_ref day1; Restart] default_ref i) as (sign & st2 & Hs & _ & H).
  - exact empty_ok.
  - split; [split; [discriminate|split; [discriminate|reflexivity]]|]. split; exact I.
  - exact Hi.
  - exists i, sign, st2. split; [exact Hi|]. split; [exact Hs|].
    assert (Hst2 : st2 = (signer_for accept (Some default_ref) st1).2) by (unfold st1, none, empty; by rewrite Hs).
    destruct H as (i' & Hg & Hv).
    + subst st2. split; [|split; exact I]. split; [split; [discriminate|reflexivity]|].
      vm_compute. discriminate.
    + subst st2. split; [vm_compute; discriminate|]. split; [vm_compute; discriminate|exact I].
    + exists i'. split; [exact Hg|apply Hv].
Defined.

(** A rotated key is archived but still signs when asked for by its id. *)
Example archived_key_still_signs :
  let st := run_all accept true [Ensure "default" noon; Rotate default_ref day1] none in
  (archived <$> PyDict.get default_ref (keys st)) = Some true
  /\ is_Ret (signer_for accept (Some default_ref) st).1 = true.
Proof. vm_compute. split; reflexivity. Qed.

(** After a rotation no active key has the default name, so the next start
    makes another key, which becomes the default. *)
Example restart_after_rotation_makes_another_default :
  let st := run_all accept true [Ensure "default" noon; Rotate default_ref day1; Restart; Ensure "default" day2] none in
  ((fun i => (key_name i, archived i)) <$> PyDict.values (keys st))
  = [("default", true); ("default-next", false); ("default", false)]
  /\ default_key_id st = Some (SecretStore.ref_of "default" day2).
Proof. vm_compute. split; reflexivity. Qed.

(** Two keys created under one name at one instant share their reference: the
    first is gone and its signatures no longer verify. *)
Example same_instant_replaces_the_key :
  let st1 := run_all accept true [Create "k" noon] none in
  let st2 := run_all accept true [Create "k" noon] st1 in
  let r := SecretStore.ref_of "k" noon in
  match (signer_for accept (Some r) st1).1, (get r st2).1 with
  | Ret sign, Ret i => verifies (public_key i) "m" (sign "m")
  | _, _ => true
  end = false.
Proof. vm_compute. reflexivity. Qed.

End KeysDemo.
