(* ===== verification/Updates.v ===== *)
(** * Update bundles

    Models [src/secopent/domain/updates/models.py], the publisher
    ([application/intel_bundle.py]), the registry synchronisation
    ([application/bundle_sync.py]), the update manager over its repository port
    ([application/updates.py]), the bundle tables
    ([infrastructure/repositories/sqlalchemy_intel.py],
    [SqlAlchemyUpdateRepository]) and the signature verifier
    ([infrastructure/signing/ed25519.py]).  Ed25519 itself, the download and
    the signer are parameters; a transaction is not rolled back. *)
From S2P Require Import Prelude PyStr PyTime PyFloat Sha256 Canonical PyJson PyText PyDict JsonText AuditTrail.

#[local] Open Scope Z_scope.

Record UpdateBundle : Type := mkBundle {
  bundle_id : string;
  bundle_version : string;
  schema_version : string;
  bundle_payload : list (string * json);
  bundle_digest : string
}.

Module UpdateBundle.

(** The document the digest, and so the signature, covers. *)
Definition signed_document (id version schema : string) (payload : list (string * json)) : json :=
  JObj [("bundle_id", JStr id); ("version", JStr version); ("schema_version", JStr schema);
        ("payload", JObj payload)].

Definition create (id version schema : string) (payload : list (string * json)) : outcome UpdateBundle :=
  raise_if (PyStr.is_empty id || PyStr.is_empty version || PyStr.is_empty schema)
    (DomainValidationError "bundle_id, version, schema_version must not be empty");;
  Ret (mkBundle id version schema payload
         (Canonical.canonical_digest (signed_document id version schema payload))).

Lemma create_Ret id v sc p b :
  create id v sc p = Ret b <->
  id <> "" /\ v <> "" /\ sc <> ""
  /\ b = mkBundle id v sc p (Canonical.canonical_digest (signed_document id v sc p)).
Proof.
  unfold create. rewrite <- !PyStr.is_empty_false.
  destruct (PyStr.is_empty id), (PyStr.is_empty v), (PyStr.is_empty sc); cbn; naive_solver.
Qed.
End UpdateBundle.

(** ** Base64 and UTF-8, as the standard library reads them *)
Module PyBytes.

Definition sextet (c : ascii) : option Z :=
  let n := Z.of_N (N_of_ascii c) in
  if (65 <=? n) && (n <=? 90) then Some (n - 65)
  else if (97 <=? n) && (n <=? 122) then Some (n - 71)
  else if (48 <=? n) && (n <=? 57) then Some (n + 4)
  else if n =? 43 then Some 62
  else if n =? 47 then Some 63
  else None.

(** [binascii.a2b_base64], not strict: characters outside the alphabet are
    skipped, and the data ends at its padding.  [pos] is the place in the
    group of four, [left] the bits carried over, [pads] the padding seen. *)
Fixpoint a2b (pos left pads : Z) (s : string) : outcome string :=
  match s with
  | EmptyString => raise_if (negb (pos =? 0)) (ValueError "Incorrect padding");; Ret ""
  | String c r =>
      if Ascii.eqb c "=" then
        if (2 <=? pos) && (4 <=? pos + (pads + 1)) then Ret ""
        else a2b pos left (if 2 <=? pos then pads + 1 else pads) r
      else
        match sextet c with
        | None => a2b pos left pads r
        | Some v =>
            if pos =? 0 then a2b 1 v 0 r
            else if pos =? 1
            then t ← a2b 2 (Z.land v 15) 0 r;
                 Ret (String (JsonText.byte (Z.lor (Z.shiftl left 2) (Z.shiftr v 4))) t)
            else if pos =? 2
            then t ← a2b 3 (Z.land v 3) 0 r;
                 Ret (String (JsonText.byte (Z.lor (Z.shiftl left 4) (Z.shiftr v 2))) t)
            else t ← a2b 0 0 0 r;
                 Ret (String (JsonText.byte (Z.lor (Z.shiftl left 6) v)) t)
        end
  end.

Definition b64decode (s : string) : outcome string := a2b 0 0 0 s.

Definition in_range (lo hi : Z) (c : ascii) : bool :=
  let n := Z.of_N (N_of_ascii c) in (lo <=? n) && (n <=? hi).

(** Whether bytes decode as UTF-8: no overlong forms, no surrogates. *)
Fixpoint utf8_ok (s : string) : bool :=
  match s with
  | EmptyString => true
  | String c r =>
      if in_range 0 127 c then utf8_ok r
      else if in_range 194 223 c then
        match r with String a r1 => in_range 128 191 a && utf8_ok r1 | _ => false end
      else if in_range 224 239 c then
        match r with
        | String a (String b r1) =>
            (if in_range 224 224 c then in_range 160 191 a
             else if in_range 237 237 c then in_range 128 159 a else in_range 128 191 a)
            && in_range 128 191 b && utf8_ok r1
        | _ => false
        end
      else if in_range 240 244 c then
        match r with
        | String a (String b (String d r1)) =>
            (if in_range 240 240 c then in_range 144 191 a
             else if in_range 244 244 c then in_range 128 143 a else in_range 128 191 a)
            && in_range 128 191 b && in_range 128 191 d && utf8_ok r1
        | _ => false
        end
      else false
  end.

Example b64_reads :
  b64decode "aGVsbG8=" = Ret "hello" /\ b64decode "aGV sbG8 =" = Ret "hello"
  /\ b64decode "aGVsbG8" = Raise (ValueError "Incorrect padding") /\ b64decode "" = Ret "".
Proof. split_and!; vm_compute; reflexivity. Qed.
End PyBytes.

(** ** The tables *)
Record StoredBundle : Type := mkStored {
  st_version : string;
  st_digest : string;
  st_payload : list (string * json);
  staged_at : datetime
}.

(** What the bundle services share: the bundle rows by id, the activation
    pointer, the audit log, and the signature state of the health monitor. *)
Record World : Type := mkWorld {
  bundles : dict StoredBundle;
  active : option string;
  log : list AuditCall;
  last_valid : bool;
  last_bundle_id : option string
}.

Module UpdateRepository.
(** [merge] *)
Definition add_bundle (id version digest : string) (payload : list (string * json)) (now : datetime)
  : M World unit :=
  modify (fun w => mkWorld (PyDict.set id (mkStored version digest payload now) (bundles w)) (active w)
                     (log w) (last_valid w) (last_bundle_id w)).

Definition get_bundle (id : string) (w : World) : option StoredBundle := PyDict.get id (bundles w).

(** Delete the pointer rows and insert one. *)
Definition set_active_bundle (id : string) : M World unit :=
  modify (fun w => mkWorld (bundles w) (Some id) (log w) (last_valid w) (last_bundle_id w)).

Definition get_active_bundle_id (w : World) : option string := active w.
End UpdateRepository.

(** [BundleSignatureState.record] *)
Definition record_signature (id : string) (valid : bool) : M World unit :=
  modify (fun w => mkWorld (bundles w) (active w) (log w) valid (Some id)).

Record SyncResult : Type := mkSync {
  sync_bundle_id : string;
  sync_version : string;
  sync_digest : string;
  previous_bundle_id : option string
}.

(** ** Verification of a signature *)
Module SignatureVerifier.
Section verifier.
(** [load_pem_public_key] when it gives an Ed25519 key, [from_public_bytes],
    and the verification itself. *)
Context {Key : Type} (load_pem load_raw : string -> option Key).
Context (ed25519 : Key -> string -> string -> bool).

Definition verify (b : UpdateBundle) (signature public_key : string) : bool :=
  if PyStr.is_empty signature || PyStr.is_empty public_key then false
  else
    match (if PyStr.startswith public_key "-----BEGIN" then load_pem public_key else load_raw public_key) with
    | None => false
    | Some pk => ed25519 pk signature (bundle_digest b)
    end.

(** The verdict is about the digest alone. *)
Lemma verify_digest b b' s k : bundle_digest b = bundle_digest b' -> verify b s k = verify b' s k.
Proof. unfold verify. intros ->. done. Qed.
End verifier.
End SignatureVerifier.

(** [dict(value)] of a JSON value. *)
Definition to_dict (v : json) : outcome (list (string * json)) :=
  match v with
  | JObj l => Ret l
  | JArr l =>
      ps ← mapM_outcome (fun x => match x with
             | JArr [JStr k; y] => Ret (k, y)
             | JStr (String a (String b "")) => Ret (String a "", JStr (String b ""))
             | _ => Raise (TypeError "cannot convert dictionary update sequence")
             end) l;
      Ret (JsonText.dict_of ps)
  | JStr "" => Ret []
  | _ => Raise (TypeError ("'" +:+ type_name v +:+ "' object is not iterable"))
  end.

Definition not_json : exn := DomainValidationError "bundle bytes are not valid JSON".

(** [json.loads(bundle_bytes.decode("utf-8"))] *)
Definition load_document (bytes : string) : outcome json :=
  raise_if (negb (PyBytes.utf8_ok bytes)) not_json;;
  unwrap (JsonText.loads bytes) not_json.

(** [doc.get("payload", {})] *)
Definition payload_of (doc : json) : outcome json :=
  match doc with
  | JObj l => Ret (default (JObj []) (field "payload" l))
  | v => Raise (AttributeError (no_attribute v "get"))
  end.

(** ** The services *)
Section services.
Context (audit_ok : AuditCall -> outcome unit).
Context (verify : UpdateBundle -> string -> string -> bool).

Definition record (actor action id : string) (payload : list (string * json)) : M World unit :=
  let call := mkCall actor action "update_bundle" id payload in
  lift (audit_ok call);;
  modify (fun w => mkWorld (bundles w) (active w) (log w ++ [call]) (last_valid w) (last_bundle_id w)).

Definition stage_and_activate (b : UpdateBundle) (now : datetime) : M World unit :=
  UpdateRepository.add_bundle (bundle_id b) (bundle_version b) (bundle_digest b) (bundle_payload b) now;;
  UpdateRepository.set_active_bundle (bundle_id b).

Definition DEFAULT_SCHEMA : string := "secopent-intel/v1".

(** [IntelBundlePublisher.publish]; [signer] answers the signature in base64. *)
Definition publish (has_state : bool) (schema id version : string) (payload : list (string * json))
    (signer : string -> outcome string) (public_key : string) (now : datetime) : M World UpdateBundle :=
  b ← lift (UpdateBundle.create id version schema payload);
  s ← lift (signer (bundle_digest b));
  signature ← lift (PyBytes.b64decode s);
  public_key_bytes ← lift (PyBytes.b64decode public_key);
  let valid := verify b signature public_key_bytes in
  (if has_state then record_signature (bundle_id b) valid else mret tt);;
  (if valid then mret tt
   else record "intel-publisher" "update.rejected" (bundle_id b)
          [("reason", JStr "signature_invalid"); ("version", JStr (bundle_version b))];;
        raise (DomainValidationError ("intel bundle signature verification failed: " +:+ bundle_id b)));;
  stage_and_activate b now;;
  record "intel-publisher" "update.published" (bundle_id b)
    [("version", JStr (bundle_version b)); ("schema_version", JStr (schema_version b));
     ("digest", JStr (bundle_digest b))];;
  mret b.

(** [BundleSyncService._parse] *)
Definition parse (bytes : string) : outcome UpdateBundle :=
  doc ← load_document bytes;
  id ← JsonText.text_field "bundle_id" doc;
  version ← JsonText.text_field "version" doc;
  schema ← JsonText.text_field "schema_version" doc;
  p ← payload_of doc;
  payload ← to_dict p;
  UpdateBundle.create id version schema payload.

Definition schema_mismatch (b : UpdateBundle) (expected : string) : exn :=
  DomainValidationError ("schema version mismatch: bundle=" +:+ schema_version b +:+ " expected=" +:+ expected).

(** [BundleSyncService.sync]; [fetch] answers the bundle's bytes and its
    signature, or raises (a revoked or unreachable bundle). *)
Definition sync (fetch : string -> outcome (string * string)) (expected public_key source : string)
    (now : datetime) : M World SyncResult :=
  fetched ← lift (fetch source);
  b ← lift (parse (fetched.1));
  w ← Prelude.get;
  let previous := UpdateRepository.get_active_bundle_id w in
  (if verify b (fetched.2) public_key then mret tt
   else record "bundle-sync" "update.rejected" (bundle_id b)
          [("reason", JStr "signature_invalid"); ("version", JStr (bundle_version b));
           ("source", JStr source)];;
        raise (DomainValidationError ("signature verification failed for bundle " +:+ bundle_id b)));;
  (if bool_decide (schema_version b = expected) then mret tt
   else record "bundle-sync" "update.rejected" (bundle_id b)
          [("reason", JStr "schema_incompatible"); ("bundle_schema", JStr (schema_version b));
           ("expected_schema", JStr expected)];;
        raise (schema_mismatch b expected));;
  stage_and_activate b now;;
  record "bundle-sync" "update.synced" (bundle_id b)
    [("version", JStr (bundle_version b)); ("schema_version", JStr (schema_version b));
     ("source", JStr source); ("digest", JStr (bundle_digest b));
     ("previous_bundle_id", Canonical.jopt JStr previous)];;
  mret (mkSync (bundle_id b) (bundle_version b) (bundle_digest b) previous).

(** The calls that write bundles, with what their callers pass. *)
Inductive op : Type :=
| Publish (has_state : bool) (schema id version : string) (payload : list (string * json))
    (signer : string -> outcome string) (public_key : string) (now : datetime)
| Sync (fetch : string -> outcome (string * string)) (expected public_key source : string) (now : datetime).

Definition run (o : op) : M World unit :=
  match o with
  | Publish h sc id v p s k t => publish h sc id v p s k t;; mret tt
  | Sync f e k src t => sync f e k src t;; mret tt
  end.

Fixpoint run_all (ops : list op) (w : World) : World :=
  match ops with
  | [] => w
  | o :: os => run_all os (run o w).2
  end.

(** The public key a call verifies with. *)
Definition op_key (o : op) : outcome string :=
  match o with
  | Publish _ _ _ _ _ _ k _ => PyBytes.b64decode k
  | Sync _ _ k _ _ => Ret k
  end.

(** ** What a call does to the tables *)

(** The row of a bundle, and a bundle verified under [pk]. *)
Definition row_of (b : UpdateBundle) (now : datetime) : StoredBundle :=
  mkStored (bundle_version b) (bundle_digest b) (bundle_payload b) now.

Definition verified (pk : string) (b : UpdateBundle) : Prop :=
  (exists s, verify b s pk = true)
  /\ UpdateBundle.create (bundle_id b) (bundle_version b) (schema_version b) (bundle_payload b) = Ret b.

Definition untouched (w w' : World) : Prop := bundles w' = bundles w /\ active w' = active w.

(** [w'] is [w] with the bundle [b] stored and activated. *)
Definition activated (b : UpdateBundle) (now : datetime) (w w' : World) : Prop :=
  bundles w' = PyDict.set (bundle_id b) (row_of b now) (bundles w) /\ active w' = Some (bundle_id b).

Lemma record_untouched actor action id p w : untouched w (record actor action id p w).2.
Proof. unfold record, lift, modify, mbind, M_bind. by destruct (audit_ok _). Qed.

(** The end shared by the services: store, activate, record, answer. *)
Lemma activate_cases {A} (b : UpdateBundle) actor action p now (a : A) w w0 :
  untouched w0 w ->
  let m := stage_and_activate b now;; record actor action (bundle_id b) p;; mret a in
  activated b now w0 (m w).2
  /\ (m w).1 = (_ ← audit_ok (mkCall actor action "update_bundle" (bundle_id b) p); Ret a).
Proof.
  intros [Hb Ha]. unfold stage_and_activate, record, lift, modify, mbind, M_bind, activated. cbn.
  destruct (audit_ok _) as [[]|]; cbn; rewrite Hb; done.
Qed.

(** A rejection leaves the tables alone and raises. *)
Lemma reject_cases {A} actor action id p e (k : M World A) w w0 :
  untouched w0 w ->
  let m := (record actor action id p;; raise (A:=unit) e);; k in
  untouched w0 (m w).2 /\ is_Ret (m w).1 = false.
Proof.
  intros [Hb Ha]. unfold record, raise, lift, modify, mbind, M_bind. cbn.
  destruct (audit_ok _) as [[]|]; cbn; (split; [by split|done]).
Qed.

Lemma lifted_bind {S A A'} (m : outcome A) (f : A -> M S A') s :
  (lift m ≫= f) s = match m with Ret a => f a s | Raise e => (Raise e, s) end.
Proof. unfold lift, mbind, M_bind. by destruct m. Qed.

(** What the end of a call is: refused with the tables as they were, or the
    bundle [b], verified under [pk], stored and activated; the call then
    answers whatever the audit makes of the last event. *)
Definition settled {A} (pk : string) (w0 : World) (x : outcome A * World) : Prop :=
  (untouched w0 x.2 /\ is_Ret x.1 = false)
  \/ exists b now c (a : A), verified pk b /\ activated b now w0 x.2
       /\ x.1 = (_ ← audit_ok c; Ret a).

Lemma publish_settled h sc id v p signer k now w pk :
  PyBytes.b64decode k = Ret pk -> settled pk w (publish h sc id v p signer k now w).
Proof.
  intros Hpk. unfold publish. assert (Hno : forall e, settled (A:=UpdateBundle) pk w (Raise e, w)).
  { intros e. left. by split. }
  rewrite lifted_bind. destruct (UpdateBundle.create id v sc p) as [b|] eqn:Eb; [|apply Hno].
  rewrite lifted_bind. destruct (signer _) as [s|]; [|apply Hno].
  rewrite lifted_bind. destruct (PyBytes.b64decode s) as [sig|]; [|apply Hno].
  rewrite lifted_bind, Hpk.
  assert (Hs : exists w1, (if h then record_signature (bundle_id b) (verify b sig pk) else mret tt) w = (Ret tt, w1)
    /\ untouched w w1).
  { destruct h; eexists; by split. }
  destruct Hs as (w1 & Hs & Hu). unfold mbind at 1, M_bind at 1. rewrite Hs. cbn [fst snd].
  destruct (verify b sig pk) eqn:Ev.
  - right. apply UpdateBundle.create_Ret in Eb as Hb. destruct Hb as (? & ? & ? & ->).
    eexists _, now, _, _. split; [|apply (activate_cases _ _ _ _ now _ w1 w Hu)].
    split; [by eexists|exact Eb].
  - left. by apply reject_cases.
Qed.

Lemma parse_created bytes b :
  parse bytes = Ret b ->
  UpdateBundle.create (bundle_id b) (bundle_version b) (schema_version b) (bundle_payload b) = Ret b.
Proof.
  unfold parse. intros H. inv_ret.
  match goal with H : UpdateBundle.create _ _ _ _ = Ret b |- _ =>
    pose proof H as Hc; apply UpdateBundle.create_Ret in H as (_ & _ & _ & ->) end. exact Hc.
Qed.

Lemma sync_settled f expected pk src now w : settled pk w (sync f expected pk src now w).
Proof.
  unfold sync. assert (Hno : forall e, settled (A:=SyncResult) pk w (Raise e, w)).
  { intros e. left. by split. }
  assert (Hu : untouched w w) by done.
  rewrite lifted_bind. destruct (f src) as [[bytes sig]|]; [|apply Hno]. cbn [fst snd].
  rewrite lifted_bind. destruct (parse bytes) as [b|] eqn:Eb; [|apply Hno].
  unfold mbind at 1, M_bind at 1, Prelude.get. cbn [fst snd].
  destruct (verify b sig pk) eqn:Ev; [|left; by apply reject_cases].
  destruct (bool_decide (schema_version b = expected)); [|left; by apply reject_cases].
  right. eexists b, now, _, _. split; [|apply (activate_cases _ _ _ _ now _ w w Hu)].
  split; [by eexists|]. by eapply parse_created.
Qed.

Lemma run_settled o w pk : op_key o = Ret pk -> settled pk w (run o w).
Proof.
  assert (Hunit : forall A (m : M World A), settled pk w (m w) -> settled pk w ((m;; mret tt) w)).
  { intros A m. unfold mbind, M_bind. destruct (m w) as [x w']. intros [[Hu Hx]|(b & now & c & a & Hv & Ha & Hx)].
    - left. destruct x; [done|]. by split.
    - right. exists b, now, c, tt. cbn in Hx. subst x. destruct (audit_ok c); cbn; by split_and!. }
  destruct o as [h sc id v p s k t|f e k src t]; cbn [run op_key]; intros Hk; apply Hunit.
  - by apply publish_settled.
  - injection Hk as ->. apply sync_settled.
Qed.

(** A key that cannot be read stops the call. *)
Lemma run_no_key o w e : op_key o = Raise e -> untouched w (run o w).2 /\ is_Ret (run o w).1 = false.
Proof.
  destruct o as [h sc id v p s k t|]; cbn [run op_key]; [|done]. intros Hk.
  assert (Hp : exists e', publish h sc id v p s k t w = (Raise e', w)).
  { unfold publish.
    rewrite lifted_bind. destruct (UpdateBundle.create id v sc p) as [b|]; [|by eexists].
    rewrite lifted_bind. destruct (s _) as [s'|]; [|by eexists].
    rewrite lifted_bind. destruct (PyBytes.b64decode s') as [sig|]; [|by eexists].
    rewrite lifted_bind, Hk. by eexists. }
  destruct Hp as [e' Hp]. unfold mbind, M_bind. by rewrite Hp.
Qed.

(** ** Properties *)

(** Every row of the store was verified under a key the callers trust, and
    carries the digest of its own content; the pointer names a row. *)
Record vetted (trusted : string -> Prop) (w : World) : Prop := {
  vetted_rows : forall id row, PyDict.get id (bundles w) = Some row ->
    exists b pk now, trusted pk /\ verified pk b /\ bundle_id b = id /\ row = row_of b now;
  vetted_active : forall id, active w = Some id -> is_Some (PyDict.get id (bundles w))
}.

Lemma run_vetted trusted o w :
  (forall pk, op_key o = Ret pk -> trusted pk) -> vetted trusted w -> vetted trusted (run o w).2.
Proof.
  intros Ht [Hr Ha].
  assert (Hsame : untouched w (run o w).2 -> vetted trusted (run o w).2).
  { intros [Hb Hc]. split; rewrite Hb; [done|]. rewrite Hc. done. }
  destruct (op_key o) as [pk|e] eqn:Ek; [|apply Hsame; by eapply run_no_key].
  destruct (run_settled o w pk Ek) as [[Hu _]|(b & now & c & a & Hv & [Hb Hact] & _)]; [by apply Hsame|].
  split; rewrite Hb.
  - intros id row. rewrite PyDict.get_set. case_decide; [|apply Hr]. intros [= <-]. subst.
    exists b, pk, now. split; [by apply Ht|]. by split.
  - intros id. rewrite Hact. intros [= <-]. rewrite PyDict.get_set_eq. by eexists.
Qed.

(** Only verified bundles are ever stored or activated. From empty tables,
    after any history of publications and synchronisations, refused and
    interrupted ones included, every stored bundle carries the digest of its
    own content and a signature over that digest was verified under a key some
    call trusted; and the activation pointer names a stored bundle. *)
Theorem only_verified_bundles_are_stored trusted ops w :
  bundles w = [] -> active w = None ->
  (forall o pk, o ∈ ops -> op_key o = Ret pk -> trusted pk) ->
  let w' := run_all ops w in
  (forall id row, PyDict.get id (bundles w') = Some row ->
     exists schema s pk, trusted pk
       /\ st_digest row = Canonical.canonical_digest
            (UpdateBundle.signed_document id (st_version row) schema (st_payload row))
       /\ verify (mkBundle id (st_version row) schema (st_payload row) (st_digest row)) s pk = true)
  /\ forall id, active w' = Some id -> is_Some (PyDict.get id (bundles w')).
Proof.
  intros Hb Ha Hops w'. assert (Hv : vetted trusted w').
  { unfold w'. assert (H0 : vetted trusted w) by (split; rewrite ?Hb, ?Ha; done).
    clear Hb Ha w'. revert w H0. induction ops as [|o os IH]; intros w H0; cbn; [done|].
    apply IH; [intros; eapply Hops; [by constructor|done]|].
    apply run_vetted; [|done]. intros pk Hk. eapply Hops; [constructor|done]. }
  split; [|apply Hv]. intros id row Hrow.
  destruct (vetted_rows _ _ Hv id row Hrow) as (b & pk & now & Ht & [[s Hs] Hc] & <- & ->).
  apply UpdateBundle.create_Ret in Hc as (_ & _ & _ & Hbe).
  exists (schema_version b), s, pk. split; [done|]. unfold row_of. cbn. split.
  - rewrite Hbe at 1. done.
  - by destruct b.
Qed.

(** C32: A call that fails leaves the bundles and the pointer as they were, and a
    call that returns has activated a bundle it verified, provided the audit
    takes the events. *)
Theorem bundle_calls_are_all_or_nothing o w :
  (forall c, audit_ok c = Ret tt) ->
  match (run o w).1 with
  | Raise _ => bundles (run o w).2 = bundles w /\ active (run o w).2 = active w
  | Ret _ => exists b pk now, op_key o = Ret pk /\ (exists s, verify b s pk = true)
      /\ bundles (run o w).2 = PyDict.set (bundle_id b) (row_of b now) (bundles w)
      /\ active (run o w).2 = Some (bundle_id b)
  end.
Proof.
  intros Haud. destruct (op_key o) as [pk|e] eqn:Ek.
  - destruct (run_settled o w pk Ek) as [[Hu Hf]|(b & now & c & a & [Hv _] & Ha & Hx)].
    + by destruct (run o w).1.
    + rewrite Hx, Haud. exists b, pk, now. split; [done|]. by split.
  - destruct (run_no_key o w e Ek) as [Hu Hf]. by destruct (run o w).1.
Qed.
End services.

(** ** The update manager

    [UpdateManager] is written against a repository port whose activation may
    fail; the class has what the port documents. *)
Class BundleRepository (R : Type) := {
  stage : UpdateBundle -> string -> M R unit;
  staged_payload : string -> R -> option (list (string * json));
  activate : string -> M R string;
  active_id : R -> option string;
  rollback_to_previous : M R (option string)
}.

(** Staging never moves the pointer; a switch that returns has happened. *)
Class LawfulBundleRepository (R : Type) `{BundleRepository R} := {
  stage_keeps_active b s r : active_id (stage b s r).2 = active_id r;
  activate_switches id r x r' : activate id r = (Ret x, r') -> active_id r' = Some id;
  activate_raises id r e r' : activate id r = (Raise e, r') -> is_exception e = true;
  rollback_switches r x r' : rollback_to_previous r = (Ret (Some x), r') -> active_id r' = Some x
}.

Module UpdateManager.
Section manager.
Context {R : Type} `{BundleRepository R}.
Context (audit_ok : AuditCall -> outcome unit).
Context (verify : UpdateBundle -> string -> string -> bool).
Context (fetch : string -> outcome (string * string)).
Context (expected_schema public_key : string).

(** The repository and the audit log. *)
Definition State : Type := R * list AuditCall.

Definition in_repo {A} (m : M R A) : M State A :=
  fun st => let '(a, r) := m st.1 in (a, (r, st.2)).

Definition record (action id : string) (payload : list (string * json)) : M State unit :=
  let call := mkCall "update-manager" action "update_bundle" id payload in
  lift (audit_ok call);;
  modify (fun st => (st.1, st.2 ++ [call])).

Definition changed_keys (old new : list (string * json)) : list string :=
  PyStr.sorted (List.filter (fun k =>
    match field k old, field k new with
    | Some x, Some y => negb (JsonText.py_eq x y)
    | _, _ => false
    end) (dict_keys old)).

(** [_preview_diff] *)
Definition preview_diff (previous : option string) (b : UpdateBundle) (r : R) : json :=
  let arr l := JArr (JStr <$> l) in
  match previous with
  | None => JObj [("added", arr (dict_keys (bundle_payload b))); ("removed", arr []); ("changed", arr [])]
  | Some p =>
      match staged_payload p r with
      | None => JObj [("added", arr []); ("removed", arr []); ("changed", arr []);
                      ("note", JStr "previous not found")]
      | Some old =>
          let new := bundle_payload b in
          JObj [("added", arr (PyStr.sorted (List.filter
                   (fun k => negb (bool_decide (k ∈ dict_keys old))) (dict_keys new))));
                ("removed", arr (PyStr.sorted (List.filter
                   (fun k => negb (bool_decide (k ∈ dict_keys new))) (dict_keys old))));
                ("changed", arr (changed_keys old new))]
      end
  end.

(** [_fetch] *)
Definition fetch_bundle (source : string) : outcome (UpdateBundle * string) :=
  fetched ← fetch source;
  doc ← load_document (fetched.1);
  p ← payload_of doc;
  payload ← to_dict p;
  id ← JsonText.text_field "bundle_id" doc;
  version ← JsonText.text_field "version" doc;
  schema ← JsonText.text_field "schema_version" doc;
  b ← UpdateBundle.create id version schema payload;
  Ret (b, fetched.2).

Definition obtain (source : string) (injected : option UpdateBundle) : outcome (UpdateBundle * string) :=
  match injected with
  | None => fetch_bundle source
  | Some b => fetched ← fetch source; Ret (b, fetched.2)
  end.

(** The failure of an activation: the previous bundle is made active again if
    the pointer has moved, the failure is recorded, and raised again. *)
Definition recover (previous : option string) (id : string) (e : exn) : M State string :=
  st ← Prelude.get;
  (match previous with
   | Some p => if bool_decide (active_id st.1 = Some p) then mret tt
               else in_repo (activate p);; mret tt
   | None => mret tt
   end);;
  record "update.rejected" id
    [("reason", JStr "activation_failed"); ("error", JStr (message e))];;
  raise e.

Definition sync (source : string) (injected : option UpdateBundle) : M State SyncResult :=
  bs ← lift (obtain source injected);
  let b := bs.1 in let signature := bs.2 in
  st ← Prelude.get;
  let previous := active_id st.1 in
  in_repo (stage b signature);;
  (if verify b signature public_key then mret tt
   else record "update.rejected" (bundle_id b)
          [("reason", JStr "signature_invalid"); ("version", JStr (bundle_version b))];;
        raise (DomainValidationError ("signature verification failed for bundle " +:+ bundle_id b)));;
  (if bool_decide (schema_version b = expected_schema) then mret tt
   else record "update.rejected" (bundle_id b)
          [("reason", JStr "schema_incompatible"); ("bundle_schema", JStr (schema_version b));
           ("expected_schema", JStr expected_schema)];;
        raise (schema_mismatch b expected_schema));;
  st ← Prelude.get;
  record "update.synced" (bundle_id b)
    [("version", JStr (bundle_version b)); ("schema_version", JStr (schema_version b));
     ("source", JStr source); ("digest", JStr (bundle_digest b));
     ("diff", preview_diff previous b st.1)];;
  try_exceptM (in_repo (activate (bundle_id b))) is_exception (recover previous (bundle_id b));;
  record "update.activated" (bundle_id b)
    [("version", JStr (bundle_version b)); ("previous_bundle_id", Canonical.jopt JStr previous);
     ("digest", JStr (bundle_digest b))];;
  mret (mkSync (bundle_id b) (bundle_version b) (bundle_digest b) previous).

Definition rollback : M State string :=
  restored ← in_repo rollback_to_previous;
  r ← lift (unwrap restored (RuntimeError "rollback produced no active bundle"));
  record "update.rolled_back" r [("restored_bundle_id", JStr r)];;
  mret r.

(** ** What a synchronisation leaves behind *)
Context `{!LawfulBundleRepository R}.
Context (audit_accepts : forall c, audit_ok c = Ret tt).

Definition pointer (st : State) : option string := active_id st.1.

Lemma ends_get {A} (f : State -> M State A) Q E (st : State) : ends (f st) Q E st -> ends (x ← Prelude.get; f x) Q E st.
Proof. done. Qed.

Lemma ends_record action id p (Q : unit -> State -> Prop) E (st : State) :
  Q tt (st.1, st.2 ++ [mkCall "update-manager" action "update_bundle" id p]) -> ends (record action id p) Q E st.
Proof. intros HQ. unfold ends, record, lift, modify, mbind, M_bind. by rewrite audit_accepts. Qed.

(** A rejection: the event is recorded and the call fails. *)
Lemma ends_reject action id p e (Q : unit -> State -> Prop) (E : State -> Prop) (st : State) :
  (forall st', pointer st' = pointer st -> E st') -> ends (record action id p;; raise (A:=unit) e) Q E st.
Proof. intros HE. apply ends_bind, ends_record. by apply HE. Qed.

Lemma ends_recover previous id e (st : State) (Q : string -> State -> Prop) :
  (forall p r, previous = Some p -> active_id r <> Some p -> exists x r', activate p r = (Ret x, r')) ->
  ends (recover previous id e) Q (fun st' => previous = None \/ pointer st' = previous) st.
Proof.
  intros Hrestore. unfold recover. apply ends_get. apply ends_bind.
  apply (ends_mono _ (fun _ st' => previous = None \/ pointer st' = previous) _ (fun _ => False)); [|clear st|done].
  - destruct previous as [p|]; [|by left]. case_bool_decide as E; [by right|].
    apply ends_bind. unfold ends, in_repo. destruct (Hrestore p st.1 eq_refl E) as (x & r' & Hx).
    rewrite Hx. right. cbn. by eapply activate_switches.
  - intros _ st' Hst. apply ends_bind, ends_record. exact Hst.
Qed.

(** A failed synchronisation leaves the active bundle in place. When the
    audit takes the events and the repository can make the previously active
    bundle active again, [sync] either returns, and then the new bundle is the
    active one, was verified, has the expected schema, and the result names the
    bundle that was active before; or it raises, for whatever reason, and the
    bundle that was active before, if there was one, is the active one. *)
Theorem failed_sync_keeps_the_active_bundle source injected (st : State) :
  (forall p r, pointer st = Some p -> active_id r <> Some p -> exists x r', activate p r = (Ret x, r')) ->
  match sync source injected st with
  | (Ret res, st') =>
      pointer st' = Some (sync_bundle_id res) /\ previous_bundle_id res = pointer st
      /\ exists b signature, obtain source injected = Ret (b, signature)
           /\ sync_bundle_id res = bundle_id b /\ sync_digest res = bundle_digest b
           /\ verify b signature public_key = true /\ schema_version b = expected_schema
  | (Raise _, st') => pointer st = None \/ pointer st' = pointer st
  end.
Proof.
  intros Hrestore.
  change (ends (sync source injected)
    (fun res st' => pointer st' = Some (sync_bundle_id res) /\ previous_bundle_id res = pointer st
      /\ exists b signature, obtain source injected = Ret (b, signature)
           /\ sync_bundle_id res = bundle_id b /\ sync_digest res = bundle_digest b
           /\ verify b signature public_key = true /\ schema_version b = expected_schema)
    (fun st' => pointer st = None \/ pointer st' = pointer st) st).
  unfold sync. apply ends_bind, ends_lift; [|by right]. intros [b signature] Hob. cbn [fst snd].
  apply ends_get, ends_bind. pose proof (stage_keeps_active b signature st.1) as Hstage.
  unfold ends at 1, in_repo at 1. destruct (stage b signature st.1) as [[[]|e] r1] eqn:Es; cbn in Hstage; [|by right].
  set (st1 := (r1, st.2)). assert (H1 : pointer st1 = pointer st) by exact Hstage.
  change (active_id st.1) with (pointer st). clearbody st1. clear Hstage Es r1.
  apply ends_bind. destruct (verify b signature public_key) eqn:Hv;
    [apply ends_ret|apply ends_reject; intros st' ->; by right].
  apply ends_bind. case_bool_decide as Hsc;
    [apply ends_ret|apply ends_reject; intros st' ->; by right].
  apply ends_get, ends_bind, ends_record.
  apply ends_bind, (ends_mono _ (fun _ st' => pointer st' = Some (bundle_id b)) _
    (fun st' => pointer st = None \/ pointer st' = pointer st)); [|clear H1 st1|done].
  - unfold try_exceptM, ends, in_repo. cbn [fst snd].
    destruct (activate (bundle_id b) st1.1) as [[x|e] r2] eqn:Ea.
    + by eapply activate_switches.
    + rewrite (activate_raises _ _ _ _ Ea).
      pose proof (ends_recover (pointer st) (bundle_id b) e (r2, st1.2 ++ [mkCall "update-manager" "update.synced"
        "update_bundle" (bundle_id b) [("version", JStr (bundle_version b)); ("schema_version", JStr (schema_version b));
         ("source", JStr source); ("digest", JStr (bundle_digest b)); ("diff", preview_diff (pointer st) b st1.1)]])
        (fun _ st' => pointer st' = Some (bundle_id b)) Hrestore) as Hrec.
      exact Hrec.
  - intros _ st' Hp. apply ends_bind, ends_record, ends_ret. cbn. split; [exact Hp|]. split; [done|].
    exists b, signature. done.
Qed.
End manager.
End UpdateManager.

(** ** Concrete runs *)
Module UpdatesDemo.

Definition accept (c : AuditCall) : outcome unit := Ret tt.

(** A stand-in for Ed25519: one signature and one key are right. *)
Definition demo_verify (b : UpdateBundle) (s k : string) : bool :=
  bool_decide (s = "hello") && bool_decide (k = "key").
Definition demo_signer (d : string) : outcome string := Ret "aGVsbG8=".
Definition wrong_signer (d : string) : outcome string := Ret "aGVs".

Definition empty : World := mkWorld [] None [] true None.

Definition document (id : string) : string :=
  JsonText.dumps (JObj [("bundle_id", JStr id); ("version", JStr "1"); ("schema_version", JStr DEFAULT_SCHEMA);
                        ("payload", JObj [("kind", JStr "intel")])]).
Definition demo_fetch (s : string) : outcome (string * string) := Ret (document s, "hello").
Definition tampered_fetch (s : string) : outcome (string * string) := Ret (document s, "other").

Definition demo_ops : list op :=
  [Publish true DEFAULT_SCHEMA "b1" "1" [("kind", JStr "intel")] demo_signer "a2V5" 0;
   Sync tampered_fetch DEFAULT_SCHEMA "key" "b2" 1;
   Sync demo_fetch DEFAULT_SCHEMA "key" "b3" 2].

Lemma only_verified_bundles_are_stored_witness :
  let w := run_all accept demo_verify demo_ops empty in
  PyDict.keys (bundles w) = ["b1"; "b3"] /\ active w = Some "b3"
  /\ is_Some (PyDict.get "b3" (bundles w)).
Proof.
  intros w. split; [vm_compute; reflexivity|]. split; [vm_compute; reflexivity|].
  refine (proj2 (only_verified_bundles_are_stored accept demo_verify (fun k => k = "key") demo_ops empty
    eq_refl eq_refl _) "b3" _); [|vm_compute; reflexivity].
  intros o pk Ho. unfold demo_ops in Ho.
  repeat (apply elem_of_cons in Ho as [->|Ho]; [vm_compute; congruence|]). by apply elem_of_nil in Ho.
Defined.

Lemma bundle_calls_are_all_or_nothing_witness :
  let w := run_all accept demo_verify (take 1 demo_ops) empty in
  bundles (run accept demo_verify (Sync tampered_fetch DEFAULT_SCHEMA "key" "b2" 1) w).2 = bundles w.
Proof.
  intros w.
  pose proof (bundle_calls_are_all_or_nothing accept demo_verify
    (Sync tampered_fetch DEFAULT_SCHEMA "key" "b2" 1) w (fun _ => eq_refl)) as H.
  assert (E : exists e, (run accept demo_verify (Sync tampered_fetch DEFAULT_SCHEMA "key" "b2" 1) w).1 = Raise e)
    by (eexists; vm_compute; reflexivity).
  destruct E as [e E]. rewrite E in H. exact (proj1 H).
Defined.

(** A bundle rejected by the synchronisation is not reported to the health
    monitor, which only hears of publications. *)
Example rejected_sync_is_not_reported :
  let '(a, w) := sync accept demo_verify tampered_fetch DEFAULT_SCHEMA "key" "b2" 1 empty in
  is_Ret a = false /\ last_valid w = true /\ last_bundle_id w = None.
Proof. vm_compute. split_and!; reflexivity. Qed.

(** A repository whose activation of one bundle fails after the switch. *)
Record Repo : Type := mkRepo { rows : dict (list (string * json)); act : option string }.

#[export] Instance demo_repo : BundleRepository Repo := {
  stage b s := modify (fun r => mkRepo (PyDict.set (bundle_id b) (bundle_payload b) (rows r)) (act r));
  staged_payload id r := PyDict.get id (rows r);
  activate id := fun r =>
    (if bool_decide (id = "broken") then Raise (RuntimeError "disk full") else Ret id, mkRepo (rows r) (Some id));
  active_id := act;
  rollback_to_previous := raise (LookupError "no previous bundle")
}.

#[export] Instance demo_repo_lawful : LawfulBundleRepository Repo.
Proof.
  split.
  - done.
  - intros id r x r'. cbn. by intros [= _ <-].
  - intros id r e r'. cbn. case_bool_decide; [|done]. by intros [= <- _].
  - done.
Qed.

Definition demo_sync (source : string) : M (UpdateManager.State (R := Repo)) SyncResult :=
  UpdateManager.sync accept demo_verify demo_fetch DEFAULT_SCHEMA "key" source None.

Definition with_b1 : Repo * list AuditCall := (demo_sync "b1" (mkRepo [] None, [])).2.

Lemma failed_sync_keeps_the_active_bundle_witness :
  is_Ret (demo_sync "broken" with_b1).1 = false
  /\ act ((demo_sync "broken" with_b1).2).1 = Some "b1".
Proof.
  split; [vm_compute; reflexivity|].
  pose proof (UpdateManager.failed_sync_keeps_the_active_bundle accept demo_verify demo_fetch DEFAULT_SCHEMA "key"
    (fun _ => eq_refl) "broken" None with_b1) as H.
  assert (Hr : forall p r, UpdateManager.pointer with_b1 = Some p -> active_id r <> Some p ->
    exists x r', activate p r = (Ret x, r')).
  { intros p r Hp _. assert (p = "b1") as -> by (vm_compute in Hp; congruence). do 2 eexists. reflexivity. }
  specialize (H Hr). change (UpdateManager.sync accept demo_verify demo_fetch DEFAULT_SCHEMA "key" "broken" None)
    with (demo_sync "broken") in H.
  assert (E : exists e st', demo_sync "broken" with_b1 = (Raise e, st')) by (do 2 eexists; vm_compute; reflexivity).
  destruct E as (e & st' & E). rewrite E in *. cbn [fst snd] in *.
  destruct H as [H|H]; [vm_compute in H; discriminate H|]. unfold UpdateManager.pointer in H. cbn in H.
  rewrite H. vm_compute. reflexivity.
Defined.

(** With no bundle active before, a failed first activation is not undone. *)
Example failed_first_activation_stays :
  let '(a, st) := demo_sync "broken" (mkRepo [] None, []) in
  is_Ret a = false /\ act st.1 = Some "broken".
Proof. vm_compute. split; reflexivity. Qed.

End UpdatesDemo.
