(* ===== verification/Scope.v ===== *)
(** * Scope: normalisation, snapshots, the scope service

    Models [src/secopent/domain/scope/normalize.py] (Module [Normalize]),
    [src/secopent/domain/scope/models.py] (Module [Scope]) and
    [src/secopent/application/scopes.py] (Module [ScopeService]).  A matcher
    that may raise returns an [outcome]; [any] stops at the first rule that
    matches, as Python's does. *)
From S2P Require Import Prelude PyStr PyTime PyFloat Sha256 Canonical Net NetFacts AuditTrail.

#[local] Open Scope Z_scope.

Definition invalid (msg : string) : exn := DomainValidationError msg.

(** ** [normalize.py] *)
Module Normalize.
Section unicode.
Context (uni : Unicode).

Definition normalize_domain (v : string) : outcome string :=
  let domain := PyStr.lower (PyStr.rstrip_char "." (PyStr.strip v)) in
  let wildcard := PyStr.startswith domain "*." in
  let raw := if wildcard then PyStr.drop 2 domain else domain in
  encoded ← unwrap (Idna.encode uni raw) (invalid "invalid domain");
  raise_if (PyStr.is_empty encoded || existsb PyStr.is_empty (PyStr.split "." encoded)) (invalid "invalid domain");;
  Ret ((if wildcard then "*." else "") +:+ encoded).

Definition normalize_ip_or_network (v : string) : outcome string :=
  if PyStr.has_char "/" v
  then unwrap (Ip.network_str <$> Ip.ip_network (PyStr.strip v)) (invalid "invalid IP or CIDR")
  else unwrap (Ip.address_str <$> Ip.ip_address (PyStr.strip v)) (invalid "invalid IP or CIDR").

Definition default_port (scheme : string) : Z := if String.eqb scheme "https" then 443 else 80.

(** [path = posixpath.normpath("/" + ...)] with the trailing slash kept *)
Definition normalize_path (p : string) : string :=
  let n := Url.normpath ("/" +:+ PyStr.lstrip_char "/" p) in
  if PyStr.endswith p "/" && negb (PyStr.endswith n "/") then n +:+ "/" else n.

Definition normalize_url (v : string) : outcome string :=
  parsed ← Url.urlsplit uni (PyStr.strip v);
  let scheme := PyStr.lower (Url.scheme parsed) in
  raise_if (negb (bool_decide (scheme ∈ ["http"; "https"])) || negb (bool_decide (is_Some (Url.hostname parsed))))
    (invalid "URL must use http or https");;
  host ← normalize_domain (default "" (Url.hostname parsed));
  port ← Url.port parsed;
  let port := if bool_decide (port = Some (default_port scheme)) then None else port in
  let netloc := match port with None => host | Some p => host +:+ ":" +:+ pretty p end in
  Ret (Url.urlunsplit scheme netloc (normalize_path (Url.path parsed)) (Url.query parsed)).

Definition normalize_port (v : Z) : outcome Z :=
  raise_if (negb ((1 <=? v) && (v <=? 65535))) (invalid "port must be between 1 and 65535");; Ret v.

Definition normalize_cloud_account (v : string) : outcome string :=
  let '(provider0, sep, account0) := PyStr.partition ":" (PyStr.strip v) in
  raise_if (negb sep) (invalid "cloud account must be provider:account_id");;
  let provider := PyStr.lower (PyStr.strip provider0) in
  let account := PyStr.strip account0 in
  raise_if (PyStr.is_empty provider || PyStr.is_empty account)
    (invalid "cloud account provider and id must be non-empty");;
  raise_if (negb (PyStr.isalnum (PyStr.replace "_" "" (PyStr.replace "-" "" provider))))
    (invalid "invalid cloud provider");;
  Ret (provider +:+ ":" +:+ account).

Definition is_http (v : string) : bool := PyStr.startswith v "http://" || PyStr.startswith v "https://".

(** [ScopeDraft._normalize_target] *)
Definition normalize_target (v : string) : outcome string :=
  if is_http (PyStr.lower (PyStr.strip v)) then normalize_url v
  else match normalize_ip_or_network v with
       | Raise (DomainValidationError _) => normalize_domain v
       | r => r
       end.

End unicode.
End Normalize.

(** ** [models.py] *)
Record ScopeLimits : Type := mkLimits {
  requests_per_second : pyfloat;
  concurrency : Z;
  max_requests : Z
}.

Record ScopeSnapshot : Type := mkScope {
  sc_id : string;
  sc_project_id : string;
  include : list string;
  exclude : list string;
  ports : list Z;
  sc_limits : ScopeLimits;
  sc_approved_by : string;
  sc_approved_at : datetime;
  sc_digest : string;
  cloud_accounts : list string
}.

Record ScopeDraft : Type := mkDraft {
  dr_project_id : string;
  dr_include : list string;
  dr_exclude : list string;
  dr_ports : list Z;
  dr_limits : ScopeLimits;
  dr_cloud_accounts : list string
}.

(** [any(f(x) for x in l)] where [f] may raise. *)
Fixpoint any {A} (f : A -> outcome bool) (l : list A) : outcome bool :=
  match l with
  | [] => Ret false
  | x :: xs => b ← f x; if b : bool then Ret true else any f xs
  end.

(** [tuple(sorted({...}))] *)
Definition sorted_set (l : list string) : list string := PyStr.sorted (remove_dups l).
Definition sorted_ports (l : list Z) : list Z := merge_sort Z.le (remove_dups l).

Module Scope.
Import Normalize.

Definition check_limits (l : ScopeLimits) : outcome ScopeLimits :=
  raise_if (PyFloat.leb (requests_per_second l) (flt "0.0") || (concurrency l <? 1) || (max_requests l <? 1))
    (invalid "scope limits must be positive");; Ret l.

Definition default_limits : ScopeLimits := mkLimits (flt "5.0") 3 50000.

Definition domain_matches (rule domain : string) : bool :=
  if PyStr.startswith rule "*." then
    let suffix := PyStr.drop 2 rule in
    PyStr.endswith domain ("." +:+ suffix) && negb (String.eqb domain suffix)
  else String.eqb domain rule.

Definition host_matches (rule_host value_host : string) : bool :=
  domain_matches rule_host value_host ||
  match Ip.ip_network rule_host with
  | None => false
  | Some net => match Ip.ip_address value_host with Some a => Ip.contains net a | None => false end
  end.

Section unicode.
Context (uni : Unicode).

Definition target_matches (rule v : string) : outcome bool :=
  if is_http rule then
    r ← Url.urlsplit uni rule;
    let rule_host := default "" (Url.hostname r) in
    if PyStr.is_empty rule_host then Ret false
    else
      value_host ← (if is_http v then r' ← Url.urlsplit uni v; Ret (default "" (Url.hostname r')) else Ret v);
      if PyStr.is_empty value_host then Ret false else Ret (host_matches rule_host value_host)
  else
    match Ip.ip_network rule with
    | None => d ← normalize_domain uni v; Ret (domain_matches rule d)
    | Some net => Ret (match Ip.ip_address v with Some a => Ip.contains net a | None => false end)
    end.

(** [not any(... in exclude) and any(... in include)] *)
Definition allowed_by (m : string -> outcome bool) (s : ScopeSnapshot) : outcome bool :=
  d ← any m (exclude s);
  if d : bool then Ret false else any m (include s).

Definition includes_ip (s : ScopeSnapshot) (v : string) : outcome bool :=
  n ← normalize_ip_or_network v;
  raise_if (PyStr.has_char "/" n) (invalid "target must be a single IP");;
  allowed_by (fun rule => target_matches rule n) s.

Definition includes_domain (s : ScopeSnapshot) (v : string) : outcome bool :=
  n ← normalize_domain uni v;
  allowed_by (fun rule => target_matches rule n) s.

Definition url_matches (normalized host rule : string) : outcome bool :=
  if is_http rule then Ret (PyStr.startswith normalized rule) else target_matches rule host.

Definition includes_url (s : ScopeSnapshot) (v : string) : outcome bool :=
  n ← normalize_url uni v;
  r ← Url.urlsplit uni n;
  allowed_by (url_matches n (default "" (Url.hostname r))) s.

Definition matches_any (host : string) (rules : list string) : outcome bool :=
  any (fun rule => target_matches rule host) rules.

Definition includes_host (s : ScopeSnapshot) (host : string) : outcome bool :=
  d ← matches_any host (exclude s);
  if d : bool then Ret false else matches_any host (include s).

Definition excludes_host (s : ScopeSnapshot) (host : string) : outcome bool := matches_any host (exclude s).

Definition includes_port (s : ScopeSnapshot) (v : Z) : outcome bool :=
  n ← normalize_port v; Ret (bool_decide (n ∈ ports s)).

Definition cloud_account_excluded (s : ScopeSnapshot) (normalized : string) : outcome bool :=
  any (fun rule => match normalize_cloud_account rule with
                   | Ret a => Ret (String.eqb a normalized)
                   | Raise (DomainValidationError _) => Ret false
                   | Raise e => Raise e
                   end) (exclude s).

Definition includes_cloud_account (s : ScopeSnapshot) (v : string) : outcome bool :=
  n ← normalize_cloud_account v;
  b ← cloud_account_excluded s n;
  if b : bool then Ret false else Ret (bool_decide (n ∈ cloud_accounts s)).

(** [ScopeDraft(...)] *)
Definition check_draft (d : ScopeDraft) : outcome ScopeDraft :=
  raise_if (PyStr.is_empty (PyStr.strip (dr_project_id d)) || bool_decide (dr_include d = []))
    (invalid "project and include targets are required");;
  mapM_outcome normalize_port (dr_ports d);;
  Ret d.

(** [asdict(self.limits)] *)
Definition limits_json (l : ScopeLimits) : outcome json :=
  r ← Canonical.json_of_float (requests_per_second l);
  Ret (JObj [("requests_per_second", r); ("concurrency", JInt (concurrency l)); ("max_requests", JInt (max_requests l))]).

Definition scope_payload (id project_id : string) (inc exc : list string) (prt : list Z) (limits : json)
    (accounts : list string) (by_ : string) (at_ : datetime) : json :=
  JObj [("id", JStr id); ("project_id", JStr project_id); ("include", Canonical.jstrs inc);
        ("exclude", Canonical.jstrs exc); ("ports", JArr (JInt <$> prt)); ("limits", limits);
        ("cloud_accounts", Canonical.jstrs accounts); ("approved_by", JStr by_); ("approved_at", Canonical.jtime at_)].

(** [ScopeDraft.freeze] *)
Definition freeze (now : datetime) (snapshot_id approved_by : string) (d : ScopeDraft) : outcome ScopeSnapshot :=
  inc ← mapM_outcome (normalize_target uni) (dr_include d);
  exc ← mapM_outcome (normalize_target uni) (dr_exclude d);
  prt ← mapM_outcome normalize_port (dr_ports d);
  acc ← mapM_outcome normalize_cloud_account (dr_cloud_accounts d);
  lim ← limits_json (dr_limits d);
  let payload := scope_payload snapshot_id (dr_project_id d) (sorted_set inc) (sorted_set exc) (sorted_ports prt)
                   lim (sorted_set acc) approved_by now in
  Ret (mkScope snapshot_id (dr_project_id d) (sorted_set inc) (sorted_set exc) (sorted_ports prt) (dr_limits d)
         approved_by now (Canonical.canonical_digest payload) (sorted_set acc)).

End unicode.
End Scope.

(** ** [application/scopes.py] *)
Record ScopeValidationResult : Type := mkValidation {
  v_include : list string;
  v_exclude : list string;
  v_ports : list Z;
  v_cloud_accounts : list string;
  v_errors : list (string * Z * string * string)
}.

Record ScopeWorld : Type := mkScopeWorld {
  snapshots : gmap string ScopeSnapshot;
  scope_audit : list AuditEvent
}.

Module ScopeService.
Import Normalize Scope.
Section unicode.
Context (uni : Unicode).

(** One of the four loops of [validate]: the values that normalise, and a row
    per failure. *)
Fixpoint collect {A B} (field : string) (raw : A -> string) (f : A -> outcome B) (i : Z) (l : list A)
  : list B * list (string * Z * string * string) :=
  match l with
  | [] => ([], [])
  | x :: xs =>
      let '(good, bad) := collect field raw f (i + 1) xs in
      match f x with
      | Ret y => (y :: good, bad)
      | Raise e => (good, (field, i, raw x, message e) :: bad)
      end
  end.

Definition validate (inc exc : list string) (prt : list Z) (acc : list string) : ScopeValidationResult :=
  let '(norm_include, e1) := collect "include" id (normalize_target uni) 0 inc in
  let '(norm_exclude, e2) := collect "exclude" id (normalize_target uni) 0 exc in
  let '(good_ports, e3) := collect "ports" pretty normalize_port 0 prt in
  let '(norm_accounts, e4) := collect "cloud_accounts" id normalize_cloud_account 0 acc in
  mkValidation (sorted_set norm_include) (sorted_set norm_exclude) (sorted_ports good_ports)
    (sorted_set norm_accounts) (e1 ++ e2 ++ e3 ++ e4).

Definition ok (r : ScopeValidationResult) : bool := bool_decide (v_errors r = []).

(** [self._audit.record(...)] on the audit part of the state. *)
Definition record_audit (c : AuditCall) (now : datetime) : M ScopeWorld unit :=
  fun w =>
    match AuditService.record (call_actor c) (call_action c) (call_rtype c) (call_rid c) (call_payload c) now
            (scope_audit w) with
    | (Ret _, l) => (Ret tt, mkScopeWorld (snapshots w) l)
    | (Raise e, l) => (Raise e, mkScopeWorld (snapshots w) l)
    end.

(** [hex] is the twelve digits of the [uuid4]; [now] is read twice, once for
    the snapshot and once for the audit event. *)
Definition freeze (hex : string) (now audit_now : datetime) (project_id : string) (inc exc : list string) (prt : list Z)
    (approved_by : string) (rps : pyfloat) (conc max_req : Z) (acc : list string) : M ScopeWorld ScopeSnapshot :=
  limits ← lift (check_limits (mkLimits rps conc max_req));
  draft ← lift (check_draft (mkDraft project_id inc exc prt limits acc));
  snapshot ← lift (Scope.freeze uni now ("scope-" +:+ hex) approved_by draft);
  modify (fun w => mkScopeWorld (<[sc_id snapshot := snapshot]> (snapshots w)) (scope_audit w));;
  record_audit (mkCall approved_by "scope.frozen" "scope_snapshot" (sc_id snapshot)
    [("project_id", JStr project_id); ("digest", JStr (sc_digest snapshot))]) audit_now;;
  mret snapshot.

(** *** A draft that validates is a draft that freezes *)

Lemma collect_spec {A B} field raw (f : A -> outcome B) i l :
  let '(good, bad) := collect field raw f i l in
  match mapM_outcome f l with
  | Ret ys => good = ys /\ bad = []
  | Raise _ => bad <> []
  end.
Proof.
  revert i; induction l as [|x xs IH]; intros i; cbn; [done|].
  specialize (IH (i + 1)). destruct (collect field raw f (i + 1) xs) as [good bad].
  destruct (f x) as [y|e]; cbn; [|done]. destruct (mapM_outcome f xs) as [ys|e]; cbn; [|done].
  by destruct IH as [-> ->].
Qed.

(** What [validate] answers, in terms of what [freeze] computes. *)
Lemma validate_spec inc exc prt acc :
  let r := validate inc exc prt acc in
  match mapM_outcome (normalize_target uni) inc, mapM_outcome (normalize_target uni) exc,
        mapM_outcome normalize_port prt, mapM_outcome normalize_cloud_account acc with
  | Ret a, Ret b, Ret c, Ret d =>
      ok r = true /\ v_include r = sorted_set a /\ v_exclude r = sorted_set b /\ v_ports r = sorted_ports c
      /\ v_cloud_accounts r = sorted_set d
  | _, _, _, _ => ok r = false
  end.
Proof.
  unfold validate, ok.
  pose proof (collect_spec "include" id (normalize_target uni) 0 inc) as H1.
  pose proof (collect_spec "exclude" id (normalize_target uni) 0 exc) as H2.
  pose proof (collect_spec "ports" pretty normalize_port 0 prt) as H3.
  pose proof (collect_spec "cloud_accounts" id normalize_cloud_account 0 acc) as H4.
  destruct (collect "include" _ _ _ _) as [g1 b1], (collect "exclude" _ _ _ _) as [g2 b2],
    (collect "ports" _ _ _ _) as [g3 b3], (collect "cloud_accounts" _ _ _ _) as [g4 b4]. cbn.
  destruct (mapM_outcome _ inc), (mapM_outcome _ exc), (mapM_outcome _ prt), (mapM_outcome _ acc);
    try (apply bool_decide_eq_false; intros Hn; repeat apply app_eq_nil in Hn as [? Hn];
         repeat match goal with H : _ = [] |- _ => rewrite H in * end; done).
  destruct H1 as [-> ->], H2 as [-> ->], H3 as [-> ->], H4 as [-> ->].
  split_and!; try done.
Qed.

(** The conditions on a draft besides its targets. *)
Definition draft_ok (project_id : string) (inc : list string) (rps : pyfloat) (conc max_req : Z) : bool :=
  PyStr.truthy (PyStr.strip project_id) && negb (bool_decide (inc = []))
  && negb (PyFloat.leb rps (flt "0.0")) && is_Ret (Canonical.json_of_float rps) && (1 <=? conc) && (1 <=? max_req).

(** The part of [freeze] before it touches the state. *)
Definition prepare (hex : string) (now : datetime) (project_id : string) (inc exc : list string) (prt : list Z)
    (approved_by : string) (rps : pyfloat) (conc max_req : Z) (acc : list string) : outcome ScopeSnapshot :=
  limits ← check_limits (mkLimits rps conc max_req);
  draft ← check_draft (mkDraft project_id inc exc prt limits acc);
  Scope.freeze uni now ("scope-" +:+ hex) approved_by draft.

Lemma freeze_prepare hex now audit_now project_id inc exc prt by_ rps conc max_req acc w :
  freeze hex now audit_now project_id inc exc prt by_ rps conc max_req acc w =
  match prepare hex now project_id inc exc prt by_ rps conc max_req acc with
  | Raise e => (Raise e, w)
  | Ret s =>
      let snaps := <[sc_id s := s]> (snapshots w) in
      match AuditService.record by_ "scope.frozen" "scope_snapshot" (sc_id s)
              [("project_id", JStr project_id); ("digest", JStr (sc_digest s))] audit_now (scope_audit w) with
      | (Ret _, l) => (Ret s, mkScopeWorld snaps l)
      | (Raise e, l) => (Raise e, mkScopeWorld snaps l)
      end
  end.
Proof.
  unfold freeze, prepare, lift, mbind at 1 2 3 4 5, M_bind.
  destruct (check_limits _) as [l|]; [|done]. cbn [mbind outcome_bind].
  destruct (check_draft _) as [d|]; [|done]. cbn [mbind outcome_bind].
  destruct (Scope.freeze _ _ _ _ _) as [s|]; [|done].
  unfold record_audit, modify. cbn [snapshots scope_audit call_actor call_action call_rtype call_rid call_payload].
  by destruct (AuditService.record _ _ _ _ _ _ _) as [[]].
Qed.

Lemma prepare_spec hex now project_id inc exc prt by_ rps conc max_req acc :
  let r := validate inc exc prt acc in
  let good := ok r && draft_ok project_id inc rps conc max_req in
  match prepare hex now project_id inc exc prt by_ rps conc max_req acc with
  | Ret s => good = true /\ sc_id s = "scope-" +:+ hex /\ include s = v_include r /\ exclude s = v_exclude r
      /\ ports s = v_ports r /\ cloud_accounts s = v_cloud_accounts r
  | Raise _ => good = false
  end.
Proof.
  cbn zeta. pose proof (validate_spec inc exc prt acc) as Hv. cbn zeta in Hv.
  unfold prepare, check_limits, check_draft, draft_ok.
  cbn [requests_per_second concurrency max_requests dr_project_id dr_include dr_ports]. rewrite !Z.ltb_antisym.
  destruct (PyFloat.leb rps (flt "0.0")); [cbn; by rewrite ?andb_false_r|].
  destruct (1 <=? conc); [|cbn; by rewrite ?andb_false_r].
  destruct (1 <=? max_req); [|cbn; by rewrite ?andb_false_r].
  unfold PyStr.truthy. destruct (PyStr.is_empty (PyStr.strip project_id)); [cbn; by rewrite ?andb_false_r|].
  destruct (bool_decide (inc = [])); [cbn; by rewrite ?andb_false_r|].
  cbn [orb negb raise_if mbind outcome_bind mret outcome_ret dr_project_id dr_include dr_ports].
  cbn [orb negb raise_if mbind outcome_bind]. unfold Scope.freeze.
  cbn [dr_include dr_exclude dr_ports dr_cloud_accounts dr_limits dr_project_id].
  destruct (mapM_outcome normalize_port prt) as [c|] eqn:Ep;
    [|destruct (mapM_outcome (normalize_target uni) inc), (mapM_outcome (normalize_target uni) exc); cbn; by rewrite Hv].
  cbn [mbind outcome_bind dr_include dr_exclude dr_ports dr_cloud_accounts dr_limits dr_project_id].
  destruct (mapM_outcome (normalize_target uni) inc) as [a|]; [|cbn; by rewrite Hv].
  cbn [mbind outcome_bind].
  destruct (mapM_outcome (normalize_target uni) exc) as [b|]; [|cbn; by rewrite Hv].
  cbn [mbind outcome_bind]. rewrite Ep. cbn [mbind outcome_bind].
  destruct (mapM_outcome normalize_cloud_account acc) as [d|]; [|cbn; by rewrite Hv].
  destruct Hv as (-> & -> & -> & -> & ->). cbn [mbind outcome_bind]. unfold limits_json. cbn [requests_per_second].
  by destruct (Canonical.json_of_float rps).
Qed.

(** [validate] predicts [freeze]. Freezing succeeds up to the audit exactly
    when the draft validates and its project, limits and include list are
    acceptable; the snapshot then holds the very lists [validate] reported,
    it is stored under its identifier, and one audit event is appended.
    Otherwise [freeze] raises and nothing has changed, except that with an
    empty approver the snapshot is stored before the audit refuses. *)
Theorem validate_predicts_freeze hex now audit_now project_id inc exc prt by_ rps conc max_req acc w :
  let r := validate inc exc prt acc in
  let good := ok r && draft_ok project_id inc rps conc max_req in
  match freeze hex now audit_now project_id inc exc prt by_ rps conc max_req acc w with
  | (Ret s, w') =>
      good = true /\ by_ <> "" /\ sc_id s = "scope-" +:+ hex
      /\ include s = v_include r /\ exclude s = v_exclude r /\ ports s = v_ports r
      /\ cloud_accounts s = v_cloud_accounts r
      /\ snapshots w' = <[sc_id s := s]> (snapshots w) /\ exists e, scope_audit w' = scope_audit w ++ [e]
  | (Raise _, w') =>
      scope_audit w' = scope_audit w
      /\ if good then by_ = "" /\ exists s, snapshots w' = <[sc_id s := s]> (snapshots w) else w' = w
  end.
Proof.
  cbn zeta. rewrite freeze_prepare.
  pose proof (prepare_spec hex now project_id inc exc prt by_ rps conc max_req acc) as Hp. cbn zeta in Hp.
  destruct (prepare _ _ _ _ _ _ _ _ _ _ _) as [s|e]; [|by rewrite Hp].
  destruct Hp as (Hg & Hid & Hi & He & Hpt & Hc). rewrite Hg. cbn zeta.
  unfold AuditService.record, get, lift, modify, mret, M_ret, mbind, M_bind, AuditEvent.create. rewrite Hid.
  destruct by_ as [|c0 by_].
  - split; [done|]. split; [done|]. exists s. by rewrite Hid.
  - change (PyStr.truthy ("scope-" +:+ hex)) with true. cbn [PyStr.truthy PyStr.is_empty negb andb raise_if mbind outcome_bind].
    split_and!; try done; [by rewrite Hid|]. eexists. reflexivity.
Qed.

End unicode.
End ScopeService.

(** ** What a scope lets through *)
Module ScopeFacts.
Import Normalize Scope.

Section unicode.
Context (uni : Unicode).

Lemma any_true {A} (f : A -> outcome bool) l : any f l = Ret true -> Exists (fun x => f x = Ret true) l.
Proof.
  induction l as [|x l IH]; cbn; [done|]. intros H%bind_Ret. destruct H as (b & Hb & H).
  destruct b; [by left|right; by apply IH].
Qed.

Lemma any_false {A} (f : A -> outcome bool) l : any f l = Ret false <-> Forall (fun x => f x = Ret false) l.
Proof.
  induction l as [|x l IH]; cbn; [split; [constructor|done]|]. rewrite Forall_cons, <- IH.
  destruct (f x) as [[]|e]; cbn; naive_solver.
Qed.

Lemma allowed_by_true m s :
  allowed_by m s = Ret true ->
  Forall (fun r => m r = Ret false) (exclude s) /\ Exists (fun r => m r = Ret true) (include s).
Proof.
  unfold allowed_by. intros ([] & Hd & H)%bind_Ret; [discriminate|].
  split; [by apply any_false|by apply any_true].
Qed.

Lemma allowed_by_false m s s' :
  exclude s ⊆ exclude s' -> include s' ⊆ include s ->
  allowed_by m s' = Ret true -> allowed_by m s <> Ret false.
Proof.
  intros He Hi [Hx Hn]%allowed_by_true H. unfold allowed_by in H.
  rewrite Forall_forall in Hx. rewrite Exists_exists in Hn. destruct Hn as (r & Hr & Hm).
  assert (Ex : any m (exclude s) = Ret false) by (apply any_false, Forall_forall; auto).
  rewrite Ex in H. apply any_false in H. rewrite Forall_forall in H. specialize (H r (Hi _ Hr)). congruence.
Qed.

(** The four questions a scope is asked about network targets. *)
Inductive query : Type := AskIp | AskDomain | AskUrl | AskHost.

Definition includes (q : query) : ScopeSnapshot -> string -> outcome bool :=
  match q with
  | AskIp => includes_ip uni
  | AskDomain => includes_domain uni
  | AskUrl => includes_url uni
  | AskHost => includes_host uni
  end.

(** The matcher a question runs the rules through, once the target is
    normalised. *)
Definition matcher (q : query) (v : string) : outcome (string -> outcome bool) :=
  match q with
  | AskIp =>
      n ← normalize_ip_or_network v;
      raise_if (PyStr.has_char "/" n) (invalid "target must be a single IP");;
      Ret (fun rule => target_matches uni rule n)
  | AskDomain => n ← normalize_domain uni v; Ret (fun rule => target_matches uni rule n)
  | AskUrl =>
      n ← normalize_url uni v;
      r ← Url.urlsplit uni n;
      Ret (url_matches uni n (default "" (Url.hostname r)))
  | AskHost => Ret (fun rule => target_matches uni rule v)
  end.

Lemma includes_matcher q s v : includes q s v = (m ← matcher q v; allowed_by m s).
Proof.
  destruct q; cbn; unfold includes_ip, includes_domain, includes_url, includes_host.
  - destruct (normalize_ip_or_network v); [|done]. cbn. by destruct (raise_if _ _).
  - by destruct (normalize_domain uni v).
  - destruct (normalize_url uni v); [|done]. cbn. by destruct (Url.urlsplit uni _).
  - done.
Qed.

(** C9: Exclusion wins. Whatever is asked about an address, a domain, a URL or a
    host, the answer is yes only if no exclude rule matches (and none fails to
    be evaluated) and some include rule does; and a scope that excludes more
    and includes less never admits what the wider scope refuses. A cloud
    account is in scope only if it is listed and no exclude rule names it. *)
Theorem exclusion_wins q s s' v :
  (includes q s v = Ret true ->
     exists m, matcher q v = Ret m /\ Forall (fun r => m r = Ret false) (exclude s)
               /\ Exists (fun r => m r = Ret true) (include s))
  /\ (exclude s ⊆ exclude s' -> include s' ⊆ include s -> includes q s' v = Ret true ->
      includes q s v <> Ret false)
  /\ (includes_cloud_account s v = Ret true ->
      exists n, normalize_cloud_account v = Ret n /\ n ∈ cloud_accounts s
        /\ Forall (fun r => normalize_cloud_account r <> Ret n) (exclude s)).
Proof.
  rewrite !includes_matcher. split_and!.
  - intros (m & Hm & H)%bind_Ret. exists m. split; [done|]. by apply allowed_by_true.
  - intros He Hi (m & Hm & H)%bind_Ret. rewrite Hm. cbn. by apply (allowed_by_false m s s').
  - unfold includes_cloud_account. intros (n & Hn & H)%bind_Ret. apply bind_Ret in H as ([] & Hb & H); [discriminate|].
    injection H as H%bool_decide_eq_true. exists n. split_and!; [done..|].
    unfold cloud_account_excluded in Hb. apply any_false in Hb. eapply Forall_impl; [exact Hb|]. cbn.
    intros r Hr E. rewrite E in Hr. rewrite String.eqb_refl in Hr. discriminate.
Qed.

(** ** What a rule matches *)
Lemma domain_matches_exact rule d : PyStr.startswith rule "*." = false -> domain_matches rule d = true <-> d = rule.
Proof. unfold domain_matches. intros ->. apply String.eqb_eq. Qed.

Lemma domain_matches_wildcard suffix d :
  domain_matches ("*." +:+ suffix) d = true <-> exists p, d = p +:+ "." +:+ suffix.
Proof.
  unfold domain_matches. rewrite PyStr.startswith_app. cbn zeta.
  change (PyStr.drop 2 ("*." +:+ suffix)) with suffix. rewrite andb_true_iff, PyStr.endswith_true. split.
  - intros [[p ->] _]. by exists p.
  - intros [p ->]. split; [by exists p|]. apply negb_true_iff, String.eqb_neq. intros E.
    apply (f_equal String.length) in E. rewrite !PyStr.length_app in E. cbn in E. lia.
Qed.

(** The rules of a frozen scope match what they say. A plain domain matches
    the targets that normalise to it; a wildcard matches exactly the proper
    subdomains of its suffix; an address or network rule matches exactly the
    addresses of its version that agree with it on the bits of its prefix; and
    a URL rule matches the URLs whose normal form it is a prefix of. *)
Theorem rules_match_what_they_say rule v :
  (is_http rule = false -> Ip.ip_network rule = None -> PyStr.startswith rule "*." = false ->
     target_matches uni rule v = Ret true <-> normalize_domain uni v = Ret rule)
  /\ (forall suffix, rule = "*." +:+ suffix -> Ip.ip_network rule = None ->
     target_matches uni rule v = Ret true <-> exists p, normalize_domain uni v = Ret (p +:+ "." +:+ suffix))
  /\ (forall net, is_http rule = false -> Ip.ip_network rule = Some net ->
     target_matches uni rule v = Ret true <->
     exists a, Ip.ip_address v = Some a /\ Ip.same_version (Ip.network_address net) a = true
       /\ let hostbits := Ip.max_prefixlen a - Ip.net_prefixlen net in
          Ip.ip_of a / 2 ^ hostbits = Ip.ip_of (Ip.network_address net) / 2 ^ hostbits)
  /\ (forall n host, is_http rule = true -> url_matches uni n host rule = Ret true <-> exists r, n = rule +:+ r).
Proof.
  split_and!.
  - intros Hh Hn Hw. unfold target_matches. rewrite Hh, Hn.
    destruct (normalize_domain uni v) as [d|]; cbn; [|done].
    split; [intros [= E]; f_equal; by apply domain_matches_exact|].
    intros [= ->]. f_equal. by apply domain_matches_exact.
  - intros suffix -> Hn. unfold target_matches. change (is_http ("*." +:+ suffix)) with false. rewrite Hn.
    destruct (normalize_domain uni v) as [d|]; cbn [mbind outcome_bind]; [|split; [done|by intros [? ?]]]. split.
    + intros [= E]. apply domain_matches_wildcard in E as [p ->]. by exists p.
    + intros [p [= ->]]. f_equal. apply domain_matches_wildcard. by exists p.
  - intros net Hh Hn. unfold target_matches. rewrite Hh, Hn. apply IpFacts.ip_network_valid in Hn.
    destruct (Ip.ip_address v) as [a|] eqn:Ea; [|split; [done|by intros (? & ? & _)]].
    apply IpFacts.ip_address_valid in Ea. pose proof (IpFacts.contains_spec net a Hn Ea) as Hc. split.
    + intros [= E]. exists a. split; [done|]. by apply Hc.
    + intros (b & [= <-] & H). f_equal. by apply Hc.
  - intros n host Hh. unfold url_matches. rewrite Hh. split.
    + intros [= E]. by apply PyStr.startswith_true.
    + intros H. f_equal. by apply PyStr.startswith_true.
Qed.

End unicode.
End ScopeFacts.

(** ** What freezing gives *)
Module FrozenScope.
Import Normalize Scope.

Section unicode.
Context (uni : Unicode).

(** Sorted, without duplicates. *)
Definition canonical_strings (l : list string) : Prop := Sorted String.le l /\ NoDup l.

Lemma sorted_set_canonical l : canonical_strings (sorted_set l).
Proof.
  split; [apply PyStr.sorted_Sorted|]. unfold sorted_set. rewrite PyStr.sorted_Permutation. apply NoDup_remove_dups.
Qed.

Lemma elem_of_sorted_set x l : x ∈ sorted_set l <-> x ∈ l.
Proof. unfold sorted_set. by rewrite PyStr.elem_of_sorted, elem_of_remove_dups. Qed.

Lemma sorted_set_ext l m : (forall x, x ∈ l <-> x ∈ m) -> sorted_set l = sorted_set m.
Proof.
  intros H. apply PyStr.sorted_unique, NoDup_Permutation; [apply NoDup_remove_dups..|].
  intros x. by rewrite !elem_of_remove_dups.
Qed.

Lemma elem_of_sorted_ports x l : x ∈ sorted_ports l <-> x ∈ l.
Proof. unfold sorted_ports. by rewrite merge_sort_Permutation, elem_of_remove_dups. Qed.

Lemma sorted_ports_ext l m : (forall x, x ∈ l <-> x ∈ m) -> sorted_ports l = sorted_ports m.
Proof.
  intros H. apply (Sorted_unique Z.le); [apply Sorted_merge_sort, _..|].
  unfold sorted_ports. rewrite !merge_sort_Permutation.
  apply NoDup_Permutation; [apply NoDup_remove_dups..|]. intros x. by rewrite !elem_of_remove_dups.
Qed.

Lemma mapM_elem {A B} (f : A -> outcome B) l ys y :
  mapM_outcome f l = Ret ys -> y ∈ ys <-> exists x, x ∈ l /\ f x = Ret y.
Proof.
  rewrite mapM_outcome_Ret. intros H. split.
  - intros Hy. apply list_elem_of_lookup in Hy as [i Hi].
    destruct (Forall2_lookup_r _ _ _ _ _ H Hi) as (x & Hx & E). exists x. split; [by eapply list_elem_of_lookup_2|done].
  - intros (x & Hx & E). apply list_elem_of_lookup in Hx as [i Hi].
    destruct (Forall2_lookup_l _ _ _ _ _ H Hi) as (y' & Hy & E'). rewrite E in E'. injection E' as ->.
    by eapply list_elem_of_lookup_2.
Qed.

(** The same targets, in another order or repeated, normalise to the same set. *)
Lemma mapM_same_elements {A B} (f : A -> outcome B) l m ys :
  (forall x, x ∈ l <-> x ∈ m) -> mapM_outcome f l = Ret ys ->
  exists zs, mapM_outcome f m = Ret zs /\ forall y, y ∈ ys <-> y ∈ zs.
Proof.
  intros H Hl. assert (Hm : exists zs, mapM_outcome f m = Ret zs).
  { assert (Hall : forall x, x ∈ m -> exists y, f x = Ret y).
    { intros x Hx. apply H in Hx. apply mapM_outcome_Ret in Hl. apply list_elem_of_lookup in Hx as [i Hi].
      destruct (Forall2_lookup_l _ _ _ _ _ Hl Hi) as (y & _ & E). by exists y. }
    clear H Hl. induction m as [|x m IH]; cbn; [by eexists|].
    destruct (Hall x ltac:(left)) as [y ->]. destruct IH as [zs ->]; [intros z Hz; apply Hall; by right|].
    by eexists. }
  destruct Hm as [zs Hm]. exists zs. split; [done|]. intros y.
  rewrite (mapM_elem _ _ _ _ Hl), (mapM_elem _ _ _ _ Hm). setoid_rewrite H. done.
Qed.

Definition same_draft (d d' : ScopeDraft) : Prop :=
  dr_project_id d = dr_project_id d' /\ dr_limits d = dr_limits d'
  /\ (forall x, x ∈ dr_include d <-> x ∈ dr_include d') /\ (forall x, x ∈ dr_exclude d <-> x ∈ dr_exclude d')
  /\ (forall x, x ∈ dr_ports d <-> x ∈ dr_ports d') /\ (forall x, x ∈ dr_cloud_accounts d <-> x ∈ dr_cloud_accounts d').

(** The lists of a frozen scope are sorted and free of duplicates, its ports
    are ports, every entry is the normal form of a draft entry and every draft
    entry is represented; and the result, digest included, depends only on
    which targets the draft names, not on their order or repetition. *)
Theorem frozen_scope_is_canonical now id by_ d d' s :
  freeze uni now id by_ d = Ret s ->
  canonical_strings (include s) /\ canonical_strings (exclude s) /\ canonical_strings (cloud_accounts s)
  /\ Sorted Z.le (ports s) /\ NoDup (ports s) /\ Forall (fun p => 1 <= p <= 65535) (ports s)
  /\ (forall y, y ∈ include s <-> exists x, x ∈ dr_include d /\ normalize_target uni x = Ret y)
  /\ (forall y, y ∈ exclude s <-> exists x, x ∈ dr_exclude d /\ normalize_target uni x = Ret y)
  /\ (forall y, y ∈ cloud_accounts s <-> exists x, x ∈ dr_cloud_accounts d /\ normalize_cloud_account x = Ret y)
  /\ (forall p, p ∈ ports s <-> p ∈ dr_ports d)
  /\ (same_draft d d' -> freeze uni now id by_ d' = Ret s).
Proof.
  unfold freeze. intros H. apply bind_Ret in H as (inc & Hi & H). apply bind_Ret in H as (exc & He & H).
  apply bind_Ret in H as (prt & Hp & H). apply bind_Ret in H as (acc & Ha & H).
  apply bind_Ret in H as (lim & Hl & [= <-]). cbn [include exclude cloud_accounts ports].
  assert (Hprt : prt = dr_ports d /\ Forall (fun p => 1 <= p <= 65535) prt).
  { apply mapM_outcome_Ret in Hp. induction Hp as [|x y l l' Hxy _ [-> IH]]; [done|].
    unfold normalize_port in Hxy. apply bind_Ret in Hxy as (? & Hr & [= <-]). apply raise_if_Ret in Hr. breflect.
    split; [done|]. constructor; [lia|done]. }
  destruct Hprt as [-> Hrange].
  split_and!; try apply sorted_set_canonical.
  - apply Sorted_merge_sort, _.
  - unfold sorted_ports. rewrite merge_sort_Permutation. apply NoDup_remove_dups.
  - apply Forall_forall. intros p Hin. rewrite elem_of_sorted_ports in Hin. rewrite Forall_forall in Hrange. by apply Hrange.
  - intros y. rewrite elem_of_sorted_set. by apply mapM_elem.
  - intros y. rewrite elem_of_sorted_set. by apply mapM_elem.
  - intros y. rewrite elem_of_sorted_set. by apply mapM_elem.
  - intros p. apply elem_of_sorted_ports.
  - intros (Epid & Elim & Ei & Ee & Ep & Ea).
    destruct (mapM_same_elements _ _ _ _ Ei Hi) as (inc' & -> & Hi'). destruct (mapM_same_elements _ _ _ _ Ee He) as (exc' & -> & He').
    destruct (mapM_same_elements _ _ _ _ Ep Hp) as (prt' & -> & Hp'). destruct (mapM_same_elements _ _ _ _ Ea Ha) as (acc' & -> & Ha').
    cbn. rewrite <- Elim, Hl. cbn.
    rewrite (sorted_set_ext _ _ Hi'), (sorted_set_ext _ _ He'), (sorted_set_ext _ _ Ha'), (sorted_ports_ext _ _ Hp').
    by rewrite Epid.
Qed.

(** The digest of a frozen scope pins every field of it: two frozen scopes
    with the same digest are the same scope, or exhibit a SHA-256
    collision. *)
Theorem scope_digest_binds now now' id id' by_ by' d d' s s' :
  PyTime.valid now -> PyTime.valid now' ->
  freeze uni now id by_ d = Ret s -> freeze uni now' id' by' d' = Ret s' ->
  sc_digest s = sc_digest s' -> s = s' \/ exists x y, Sha256.collision x y.
Proof.
  intros Ht Ht' H H'. unfold freeze in H, H'.
  apply bind_Ret in H as (inc & Hi & H). apply bind_Ret in H as (exc & He & H).
  apply bind_Ret in H as (prt & Hp & H). apply bind_Ret in H as (acc & Ha & H). apply bind_Ret in H as (lim & Hl & [= <-]).
  apply bind_Ret in H' as (inc' & Hi' & H'). apply bind_Ret in H' as (exc' & He' & H').
  apply bind_Ret in H' as (prt' & Hp' & H'). apply bind_Ret in H' as (acc' & Ha' & H').
  apply bind_Ret in H' as (lim' & Hl' & [= <-]). cbn [sc_digest].
  intros [Hn|Hc]%Canonical.canonical_digest_inj; [left|right; eauto].
  apply Canonical.normalize_fields in Hn; [|done|by vm_compute].
  cbn [fmap list_fmap snd] in Hn.
  assert (Hf : forall (u v : json) l m, u :: l = v :: m -> u = v /\ l = m) by by intros ? ? ? ? [= -> ->].
  apply Hf in Hn as [E1 Hn]. apply Hf in Hn as [E2 Hn]. apply Hf in Hn as [E3 Hn]. apply Hf in Hn as [E4 Hn].
  apply Hf in Hn as [E5 Hn]. apply Hf in Hn as [E6 Hn]. apply Hf in Hn as [E7 Hn]. apply Hf in Hn as [E8 Hn].
  apply Hf in Hn as [E9 _].
  apply Canonical.normalize_jstrs_inj in E3, E4, E7. cbn in E1, E2, E8, E9.
  injection E1 as ->. injection E2 as ->. injection E8 as ->.
  assert (now = now') as -> by (injection E9 as E9; by apply PyTime.isoformat_inj in E9).
  apply Canonical.normalize_arr_inj in E5. rewrite <- !list_fmap_compose in E5.
  apply list_fmap_eq_inj in E5; [|by intros ? ? [= ->]].
  assert (El : dr_limits d = dr_limits d').
  { unfold limits_json in Hl, Hl'. apply bind_Ret in Hl as (r & Hr & [= <-]). apply bind_Ret in Hl' as (r' & Hr' & [= <-]).
    apply Canonical.normalize_fields in E6; [|done|by vm_compute]. cbn in E6. injection E6 as Er Ec Em.
    destruct (dr_limits d) as [f c m], (dr_limits d') as [f' c' m']. cbn in *. subst.
    destruct f, f'; try discriminate. injection Hr as <-. injection Hr' as <-. cbn in Er. by injection Er as ->. }
  assert (lim = lim') as -> by (rewrite El in Hl; congruence). by rewrite E3, E4, E5, E7, El.
Qed.

End unicode.

Definition ascii_only : Unicode := mkUnicode (fun _ => None) (fun _ => true).

Definition demo_draft : ScopeDraft :=
  mkDraft "acme" ["*.Shop.example"; "10.0.0.0/8"; "https://API.shop.example:443/v1"] ["admin.shop.example"; "10.0.0.1"]
    [443; 80; 443] default_limits ["AWS:1234"].

Definition demo_scope : outcome ScopeSnapshot := freeze ascii_only 0 "scope-1" "ana" demo_draft.

Example demo_scope_fields :
  match demo_scope with
  | Ret s => include s = ["*.shop.example"; "10.0.0.0/8"; "https://api.shop.example/v1"]
             /\ exclude s = ["10.0.0.1"; "admin.shop.example"] /\ ports s = [80; 443]
             /\ cloud_accounts s = ["aws:1234"]
             /\ includes_domain ascii_only s "WWW.shop.example." = Ret true
             /\ includes_domain ascii_only s "shop.example" = Ret false
             /\ includes_domain ascii_only s "admin.shop.example" = Ret false
             /\ includes_ip ascii_only s "10.9.8.7" = Ret true /\ includes_ip ascii_only s "10.0.0.1" = Ret false
             /\ includes_url ascii_only s "https://api.shop.example/v1/../v1/users?x=1" = Ret true
             /\ includes_cloud_account s "aws:1234" = Ret true
  | Raise _ => False
  end.
Proof. vm_compute. done. Qed.

Lemma frozen_scope_is_canonical_witness :
  exists s, demo_scope = Ret s /\ NoDup (ports s).
Proof.
  destruct demo_scope as [s|e] eqn:E; [|exfalso; apply (f_equal is_Ret) in E; vm_compute in E; discriminate E].
  exists s. split; [reflexivity|].
  exact (proj1 (proj2 (proj2 (proj2 (proj2 (frozen_scope_is_canonical ascii_only 0 "scope-1" "ana" demo_draft demo_draft s E)))))).
Defined.

Lemma scope_digest_binds_witness :
  exists s, demo_scope = Ret s /\ (s = s \/ exists x y, Sha256.collision x y).
Proof.
  destruct demo_scope as [s|e] eqn:E; [|exfalso; apply (f_equal is_Ret) in E; vm_compute in E; discriminate E].
  exists s. split; [reflexivity|].
  apply (scope_digest_binds ascii_only 0 0 "scope-1" "scope-1" "ana" "ana" demo_draft demo_draft s s); try exact E.
  - split; [discriminate|reflexivity].
  - split; [discriminate|reflexivity].
  - reflexivity.
Defined.

(** A URL target with an IPv6 address loses its brackets in
    [normalize_url]. The frozen rule matches nothing, and asking about its own
    text raises a plain [ValueError], which [_matches_boundary] of the grants
    does not catch. *)
Lemma ipv6_url_target_is_lost :
  normalize_target ascii_only "http://[2001:db8::1]/" = Ret "http://2001:db8::1/"
  /\ target_matches ascii_only "http://2001:db8::1/" "2001:db8::1" = Ret false
  /\ exists msg, normalize_url ascii_only "http://2001:db8::1/" = Raise (ValueError msg).
Proof. vm_compute. split_and!; [done..|]. by eexists. Qed.

(** A URL rule is a textual prefix: it also covers longer path segments. *)
Lemma url_rule_covers_longer_segments :
  url_matches ascii_only "https://a.example/application" "a.example" "https://a.example/app" = Ret true.
Proof. reflexivity. Qed.

End FrozenScope.
