(* ===== verification/Grants.v ===== *)
(** * Engagement grants

    Models [src/secopent/domain/grants/models.py] (Modules [GrantStatus],
    [Grant]) and [src/secopent/application/grants.py] (Module
    [GrantService]), and composes the grant service with the assessment
    service: it is the [Authority] the theorems of [AssessmentService] are
    proved against (Module [GrantAuthority]).  The repository is a map from
    identifiers; [GrantDecision] has the fields of [PolicyDecision]. *)
From S2P Require Import Prelude PyStr PyTime PyFloat Sha256 Canonical Policy Assessments AssessmentService Net AuditTrail Scope.

#[local] Open Scope Z_scope.

Module GrantStatus.
Inductive t : Type := ACTIVE | REVOKED | EXPIRED.
#[export] Instance eq_dec : EqDecision t.
Proof. solve_decision. Defined.
Definition to_string (s : t) : string :=
  match s with ACTIVE => "active" | REVOKED => "revoked" | EXPIRED => "expired" end.
#[export] Program Instance strenum : StrEnum t :=
  { value := to_string; members := [ACTIVE; REVOKED; EXPIRED] }.
Next Obligation. solve_members. Qed.
Next Obligation. solve_value_inj. Qed.
End GrantStatus.
Notation GrantStatus := GrantStatus.t.
Export (hints) GrantStatus.

Record EngagementGrant : Type := mkGrant {
  g_id : string;
  g_project_id : string;
  g_name : string;
  g_scope : ScopeSnapshot;
  risk_caps : gset RiskClass;
  valid_from : datetime;
  valid_to : datetime;
  created_by : string;
  g_created_at : datetime;
  g_status : GrantStatus;
  g_digest : string
}.

Module Grant.
Section unicode.
Context (uni : Unicode).

Definition payload (project_id name scope_digest : string) (caps : gset RiskClass) (from to : datetime) (by_ : string)
    (at_ : datetime) : json :=
  JObj [("project_id", JStr project_id); ("name", JStr (PyStr.strip name)); ("scope_digest", JStr scope_digest);
        ("risk_caps", Canonical.jset (value <$> elements caps)); ("valid_from", Canonical.jtime from);
        ("valid_to", Canonical.jtime to); ("created_by", JStr by_); ("created_at", Canonical.jtime at_)].

(** [EngagementGrant.create]; [hex] is the twelve digits of the [uuid4]. *)
Definition create (hex project_id name : string) (scope : ScopeSnapshot) (caps : gset RiskClass) (from to : datetime)
    (by_ : string) (at_ : datetime) (grant_id : option string) : outcome EngagementGrant :=
  raise_if (PyStr.is_empty (PyStr.strip name)) (DomainValidationError "grant name must be non-empty");;
  raise_if (bool_decide (RiskClass.DESTRUCTIVE ∈ caps))
    (DomainValidationError "destructive risk can never be grant-approved");;
  raise_if (to <=? from) (DomainValidationError "grant window must be positive");;
  Ret (mkGrant (if PyStr.truthy (default "" grant_id) then default "" grant_id else "grant-" +:+ hex)
         project_id (PyStr.strip name) scope caps from to by_ at_ GrantStatus.ACTIVE
         (Canonical.canonical_digest (payload project_id name (sc_digest scope) caps from to by_ at_))).

Definition revoke (g : EngagementGrant) : EngagementGrant :=
  mkGrant (g_id g) (g_project_id g) (g_name g) (g_scope g) (risk_caps g) (valid_from g) (valid_to g) (created_by g)
    (g_created_at g) GrantStatus.REVOKED (g_digest g).

Definition is_active_at (g : EngagementGrant) (now : datetime) : bool :=
  if bool_decide (g_status g = GrantStatus.REVOKED) then false
  else negb ((now <? valid_from g) || (valid_to g <? now)).

(** One [try: if includes(target): return True / except DomainValidationError: pass]. *)
Definition tried (m : outcome bool) (next : outcome bool) : outcome bool :=
  match m with
  | Ret true => Ret true
  | Ret false | Raise (DomainValidationError _) => next
  | Raise e => Raise e
  end.

Definition matches_boundary (g : EngagementGrant) (target : string) : outcome bool :=
  tried (Scope.includes_url uni (g_scope g) target)
    (tried (Scope.includes_ip uni (g_scope g) target)
       (match Scope.includes_domain uni (g_scope g) target with
        | Raise (DomainValidationError _) => Ret false
        | r => r
        end)).

(** [all(f(x) for x in l)] where [f] may raise. *)
Fixpoint all_of {A} (f : A -> outcome bool) (l : list A) : outcome bool :=
  match l with
  | [] => Ret true
  | x :: xs => b ← f x; if b : bool then all_of f xs else Ret false
  end.

Definition covers_scope (g : EngagementGrant) (s : ScopeSnapshot) : outcome bool :=
  if negb (forallb (fun p => bool_decide (p ∈ ports (g_scope g))) (ports s)) then Ret false
  else all_of (matches_boundary g) (include s).

Definition covers_risks (g : EngagementGrant) (steps : list PlanStep) : bool :=
  forallb (fun st => bool_decide (risk st ∈ risk_caps g)) steps.

End unicode.
End Grant.

Notation GrantRepo := (gmap string EngagementGrant).

Module GrantService.
Section unicode.
Context (uni : Unicode).

Definition require_human (actor_role : string) : outcome unit :=
  raise_if (negb (bool_decide (actor_role = "human")))
    (AssessmentPermissionError "grant creation/revocation is human-only").

Definition create_human (hex : string) (now : datetime) (project_id name : string) (scope : ScopeSnapshot)
    (caps : gset RiskClass) (from to : datetime) (actor_role : string) : M GrantRepo EngagementGrant :=
  lift (require_human actor_role);;
  g ← lift (Grant.create hex project_id name scope caps from to actor_role now None);
  modify (<[g_id g := g]>);;
  mret g.

Definition revoke (grant_id actor_role : string) : M GrantRepo EngagementGrant :=
  lift (require_human actor_role);;
  o ← gets (lookup grant_id);
  g ← lift (unwrap o (GrantNotFoundError ("grant not found: " +:+ grant_id)));
  modify (<[g_id (Grant.revoke g) := Grant.revoke g]>);;
  mret (Grant.revoke g).

Definition authorize (r : GrantRepo) (grant_id : string) (scope : ScopeSnapshot) (steps : list PlanStep)
    (now : datetime) : outcome PolicyDecision :=
  match r !! grant_id with
  | None => Ret (mkPolicyDecision false "GRANT_NOT_FOUND")
  | Some g =>
      if negb (Grant.is_active_at g now) then Ret (mkPolicyDecision false "GRANT_INACTIVE")
      else
        b ← Grant.covers_scope uni g scope;
        if negb b then Ret (mkPolicyDecision false "GRANT_SCOPE_MISMATCH")
        else if negb (Grant.covers_risks g steps) then Ret (mkPolicyDecision false "GRANT_RISK_NOT_APPROVED")
        else Ret (mkPolicyDecision true "ALLOWED")
  end.

(** [list_for_project] lists in an order of the repository's choosing. *)
Definition list_for_project (r : GrantRepo) (project_id : string) : list EngagementGrant :=
  List.filter (fun g => bool_decide (g_project_id g = project_id)) (map_to_list r).*2.

Definition list_active (r : GrantRepo) (project_id : string) (now : datetime) : list EngagementGrant :=
  List.filter (fun g => Grant.is_active_at g now) (list_for_project r project_id).

Definition get_active (r : GrantRepo) (grant_id : string) (now : datetime) : option EngagementGrant :=
  match r !! grant_id with
  | Some g => if Grant.is_active_at g now then Some g else None
  | None => None
  end.

(** ** The grants of a service *)

(** Everything that changes the repository, whoever calls. *)
Inductive op : Type :=
| Create (hex : string) (now : datetime) (project_id name : string) (scope : ScopeSnapshot) (caps : gset RiskClass)
    (from to : datetime) (role : string)
| Revoke (grant_id role : string).

Definition run (o : op) (r : GrantRepo) : GrantRepo :=
  match o with
  | Create hex now pid name scope caps from to role => (create_human hex now pid name scope caps from to role r).2
  | Revoke gid role => (revoke gid role r).2
  end.

Definition run_all (ops : list op) (r : GrantRepo) : GrantRepo := foldl (fun r o => run o r) r ops.

Definition grant_ok (k : string) (g : EngagementGrant) : Prop :=
  g_id g = k /\ created_by g = "human" /\ RiskClass.DESTRUCTIVE ∉ risk_caps g /\ valid_from g < valid_to g
  /\ g_name g <> "".

Definition wf (r : GrantRepo) : Prop := map_Forall grant_ok r.

Lemma create_human_cases hex now pid name scope caps from to role r :
  (exists e, create_human hex now pid name scope caps from to role r = (Raise e, r)
     /\ (role <> "human" -> e = AssessmentPermissionError "grant creation/revocation is human-only"))
  \/ exists g, create_human hex now pid name scope caps from to role r = (Ret g, <[g_id g := g]> r)
       /\ role = "human" /\ grant_ok (g_id g) g /\ g_status g = GrantStatus.ACTIVE /\ g_id g = "grant-" +:+ hex.
Proof.
  unfold create_human, require_human, Grant.create, lift, modify, mbind at 1 2 3, M_bind.
  case_bool_decide as Hr; cbn [negb raise_if]; [|left; by eexists]. subst role.
  destruct (PyStr.is_empty (PyStr.strip name)) eqn:En; [left; by eexists|].
  case_bool_decide as Hd; [left; by eexists|]. destruct (Z.leb_spec to from); [left; by eexists|].
  right. eexists. split; [reflexivity|]. split; [done|]. split; [|done].
  split_and!; cbn; [done|done|done|lia|by apply PyStr.is_empty_false].
Qed.

Lemma revoke_cases gid role r :
  (exists e, revoke gid role r = (Raise e, r)
     /\ (role <> "human" -> e = AssessmentPermissionError "grant creation/revocation is human-only"))
  \/ exists g, r !! gid = Some g /\ role = "human"
       /\ revoke gid role r = (Ret (Grant.revoke g), <[g_id g := Grant.revoke g]> r).
Proof.
  unfold revoke, require_human, lift, gets, modify, mbind, M_bind.
  case_bool_decide as Hr; cbn [negb raise_if]; [|left; by eexists].
  destruct (r !! gid) as [g|]; cbn; [right; by exists g|left; eexists; split; [done|congruence]].
Qed.

Lemma run_grants_wf o r : wf r -> wf (run o r).
Proof.
  intros Hw. destruct o as [hex now pid name scope caps from to role|gid role]; cbn [run].
  - destruct (create_human_cases hex now pid name scope caps from to role r) as [(e & -> & _)|(g & -> & _ & Hg & _)]; [done|].
    by apply map_Forall_insert_2.
  - destruct (revoke_cases gid role r) as [(e & -> & _)|(g & Hg & _ & ->)]; [done|].
    apply map_Forall_insert_2; [|done]. destruct (Hw _ _ Hg) as [_ H]. exact (conj eq_refl H).
Qed.

Lemma run_all_grants_wf ops r : wf r -> wf (run_all ops r).
Proof. revert r; induction ops as [|o ops IH]; intros r Hw; [done|]. by apply IH, run_grants_wf. Qed.

Lemma empty_grants_wf : wf ∅.
Proof. apply map_Forall_empty. Qed.

Lemma all_of_true {A} (f : A -> outcome bool) l : Grant.all_of f l = Ret true <-> Forall (fun x => f x = Ret true) l.
Proof.
  induction l as [|x l IH]; cbn; [split; [constructor|done]|]. rewrite Forall_cons, <- IH.
  destruct (f x) as [[]|e]; cbn; naive_solver.
Qed.

(** What an authorisation needs. *)
Definition covered (g : EngagementGrant) (scope : ScopeSnapshot) (steps : list PlanStep) (now : datetime) : Prop :=
  g_status g <> GrantStatus.REVOKED /\ valid_from g <= now <= valid_to g
  /\ (forall p, p ∈ ports scope -> p ∈ ports (g_scope g))
  /\ Forall (fun t => Grant.matches_boundary uni g t = Ret true) (include scope)
  /\ Forall (fun st => risk st ∈ risk_caps g) steps.

Lemma covers_scope_true g s :
  Grant.covers_scope uni g s = Ret true <->
  (forall p, p ∈ ports s -> p ∈ ports (g_scope g)) /\ Forall (fun t => Grant.matches_boundary uni g t = Ret true) (include s).
Proof.
  unfold Grant.covers_scope. rewrite <- all_of_true.
  assert (Hp : forallb (fun p => bool_decide (p ∈ ports (g_scope g))) (ports s) = true <->
               (forall p, p ∈ ports s -> p ∈ ports (g_scope g))).
  { rewrite List.forallb_forall. split.
    - intros H p Hin. apply list_elem_of_In, H in Hin. by apply bool_decide_eq_true in Hin.
    - intros H p Hin. apply bool_decide_eq_true, H. by apply list_elem_of_In. }
  destruct (forallb _ _); cbn [negb].
  - split; [intros H; split; [by apply Hp|done]|by intros [_ ?]].
  - split; [done|]. intros [H _]. apply Hp in H. discriminate.
Qed.

Lemma covers_risks_true g steps :
  Grant.covers_risks g steps = true <-> Forall (fun st => risk st ∈ risk_caps g) steps.
Proof.
  unfold Grant.covers_risks. rewrite List.forallb_forall, Forall_forall. split.
  - intros H st Hin. apply list_elem_of_In, H in Hin. by apply bool_decide_eq_true in Hin.
  - intros H st Hin. apply bool_decide_eq_true, H. by apply list_elem_of_In.
Qed.

Lemma is_active_at_true g now :
  Grant.is_active_at g now = true <-> g_status g <> GrantStatus.REVOKED /\ valid_from g <= now <= valid_to g.
Proof.
  unfold Grant.is_active_at. case_bool_decide as H; [naive_solver|].
  rewrite negb_true_iff, orb_false_iff, !Z.ltb_ge. naive_solver.
Qed.

Lemma authorize_allowed r gid scope steps now :
  (exists d, authorize r gid scope steps now = Ret d /\ allowed d = true) <->
  exists g, r !! gid = Some g /\ covered g scope steps now.
Proof.
  unfold authorize, covered. destruct (r !! gid) as [g|]; [|split; [by intros (? & [= <-] & ?)|by intros (? & ? & _)]].
  pose proof (is_active_at_true g now) as Ha. pose proof (covers_scope_true g scope) as Hs.
  pose proof (covers_risks_true g steps) as Hr.
  destruct (Grant.is_active_at g now); cbn [negb].
  2: { split; [by intros (? & [= <-] & ?)|]. intros (? & [= <-] & H1 & H2 & _). assert (false = true) by (apply Ha; done). done. }
  destruct (Grant.covers_scope uni g scope) as [[]|e]; cbn [mbind outcome_bind negb].
  2: { split; [by intros (? & [= <-] & ?)|]. intros (? & [= <-] & _ & _ & H1 & H2 & _).
       assert (Ret false = Ret true :> outcome bool) by (apply Hs; done). done. }
  2: { split; [by intros (? & ? & _)|]. intros (? & [= <-] & _ & _ & H1 & H2 & _).
       assert (Raise e = Ret true :> outcome bool) by (apply Hs; done). done. }
  destruct (Grant.covers_risks g steps); cbn [negb].
  - split; [intros _|intros _; by eexists]. exists g. naive_solver.
  - split; [by intros (? & [= <-] & ?)|]. intros (? & [= <-] & _ & _ & _ & _ & H). assert (false = true) by (apply Hr; done). done.
Qed.

(** A grant that is revoked stays revoked under every call but a creation
    that draws its identifier again. *)
Definition creates (gid : string) (o : op) : bool :=
  match o with Create hex _ _ _ _ _ _ _ _ => bool_decide ("grant-" +:+ hex = gid) | Revoke _ _ => false end.

Lemma run_keeps_revoked o r gid g :
  wf r -> creates gid o = false -> r !! gid = Some g -> g_status g = GrantStatus.REVOKED ->
  exists g', run o r !! gid = Some g' /\ g_status g' = GrantStatus.REVOKED.
Proof.
  intros Hw Hc Hg Hs. destruct o as [hex now pid name scope caps from to role|gid' role]; cbn [run creates] in *.
  - destruct (create_human_cases hex now pid name scope caps from to role r) as [(e & -> & _)|(g0 & -> & _ & _ & _ & Hid)];
      [by exists g|]. breflect. cbn [snd]. rewrite lookup_insert_ne by congruence. by exists g.
  - destruct (revoke_cases gid' role r) as [(e & -> & _)|(g0 & Hg0 & _ & ->)]; [by exists g|]. cbn [snd].
    destruct (Hw _ _ Hg0) as [Hid _]. rewrite Hid. destruct (decide (gid' = gid)) as [->|Hne].
    + rewrite lookup_insert_eq. by eexists.
    + rewrite lookup_insert_ne by done. by exists g.
Qed.

Lemma run_all_keeps_revoked ops r gid g :
  wf r -> Forall (fun o => creates gid o = false) ops -> r !! gid = Some g -> g_status g = GrantStatus.REVOKED ->
  exists g', run_all ops r !! gid = Some g' /\ g_status g' = GrantStatus.REVOKED.
Proof.
  intros Hw Hops. revert r g Hw; induction Hops as [|o ops Ho _ IH]; intros r g Hw Hg Hs; [by exists g|].
  destruct (run_keeps_revoked o r gid g Hw Ho Hg Hs) as (g' & Hg' & Hs').
  apply (IH (run o r) g'); [by apply run_grants_wf|done..].
Qed.

(** Grants bound what agents may do, and only humans make them. Over any
    sequence of calls by anyone, [authorize] allows exactly when a stored grant
    covers the request: it is not revoked, now is in its window, every port
    and every included target of the assessment is inside the grant's scope,
    and the risk of every step is among its caps; such a grant was created by
    a human and no step it covers is destructive. *)
Theorem authorize_needs_covering_human_grant ops gid scope steps now :
  let r := run_all ops ∅ in
  ((exists d, authorize r gid scope steps now = Ret d /\ allowed d = true) <->
   (exists g, r !! gid = Some g /\ covered g scope steps now))
  /\ (forall g, r !! gid = Some g -> covered g scope steps now ->
        created_by g = "human" /\ Forall (fun s => risk s <> RiskClass.DESTRUCTIVE) steps)
  /\ (forall hex t pid name caps from to role, role <> "human" ->
        create_human hex t pid name scope caps from to role r
          = (Raise (AssessmentPermissionError "grant creation/revocation is human-only"), r)
        /\ revoke gid role r = (Raise (AssessmentPermissionError "grant creation/revocation is human-only"), r)).
Proof.
  cbn zeta. pose proof (run_all_grants_wf ops ∅ empty_grants_wf) as Hw. split_and!.
  - apply authorize_allowed.
  - intros g Hg (_ & _ & _ & _ & Hr). destruct (Hw _ _ Hg) as (_ & Hc & Hd & _). split; [done|].
    eapply Forall_impl; [exact Hr|]. cbn. intros st Hst E. by rewrite E in Hst.
  - intros hex t pid name caps from to role Hrole. split.
    + destruct (create_human_cases hex t pid name scope caps from to role (run_all ops ∅)) as [(e & -> & He)|(g & _ & -> & _)];
        [by rewrite He|done].
    + destruct (revoke_cases gid role (run_all ops ∅)) as [(e & -> & He)|(g & _ & -> & _)]; [by rewrite He|done].
Qed.

(** C23: Revocation is final. Once a human has revoked a grant, it authorizes
    nothing, is not listed as active and is not returned as active, whatever
    calls follow (short of a new grant drawing the same identifier). *)
Theorem revocation_is_final ops0 ops gid role g r1 scope steps now pid :
  revoke gid role (run_all ops0 ∅) = (Ret g, r1) -> Forall (fun o => creates gid o = false) ops ->
  let r := run_all ops r1 in
  (forall d, authorize r gid scope steps now = Ret d -> allowed d = false)
  /\ get_active r gid now = None
  /\ Forall (fun g => g_id g <> gid) (list_active r pid now).
Proof.
  cbn zeta. intros Hr Hops. pose proof (run_all_grants_wf ops0 ∅ empty_grants_wf) as Hw0.
  assert (Hw1 : wf r1) by (pose proof (run_grants_wf (Revoke gid role) _ Hw0) as H; cbn [run] in H; by rewrite Hr in H).
  destruct (revoke_cases gid role (run_all ops0 ∅)) as [(e & E & _)|(g0 & Hg0 & _ & E)]; rewrite E in Hr; [done|].
  injection Hr as <- <-. destruct (Hw0 _ _ Hg0) as [Hid _].
  destruct (run_all_keeps_revoked ops _ gid (Grant.revoke g0) Hw1 Hops) as (g' & Hg' & Hs');
    [cbn; rewrite Hid; apply lookup_insert_eq|done|].
  set (r := run_all ops _) in *.
  assert (Hna : Grant.is_active_at g' now = false) by (unfold Grant.is_active_at; by rewrite bool_decide_true).
  split_and!.
  - intros d Hd. destruct (allowed d) eqn:Ea; [|done]. exfalso.
    destruct (proj1 (authorize_allowed r gid scope steps now)) as (g2 & Hg2 & Hs2 & _); [by exists d|]. congruence.
  - unfold get_active. by rewrite Hg', Hna.
  - apply Forall_forall. intros g2 Hin Hid2. unfold list_active, list_for_project in Hin.
    apply list_elem_of_In, List.filter_In in Hin as [Hin Ha]. apply List.filter_In in Hin as [Hin _].
    apply list_elem_of_In, list_elem_of_fmap in Hin as ([k g3] & -> & Hin). apply elem_of_map_to_list in Hin. cbn in *.
    assert (Hwr : wf r) by by apply run_all_grants_wf. destruct (Hwr _ _ Hin) as [Hk _]. simplify_eq. congruence.
Qed.

End unicode.
End GrantService.

(** ** The grant service behind the assessment service *)
Module GrantAuthority.
Import GrantService.
Section unicode.
Context (uni : Unicode).

Definition authority (scopes : ScopeWorld) (r : GrantRepo) : Authority ScopeSnapshot :=
  mkAuthority (Some (fun k => snapshots scopes !! k)) (Some (fun g scope steps now => GrantService.authorize uni r g scope steps now)).

(** The promise of the interface, discharged: a repository whose grants were
    made by the service never authorizes a destructive step. *)
#[export] Instance authority_lawful scopes ops : LawfulAuthority (authority scopes (GrantService.run_all ops ∅)).
Proof.
  intros svc g scope steps now d [= <-] Hd Ha.
  destruct (proj1 (authorize_allowed uni (GrantService.run_all ops ∅) g scope steps now)) as (gr & Hg & _ & _ & _ & _ & Hr); [by exists d|].
  destruct (run_all_grants_wf ops ∅ empty_grants_wf _ _ Hg) as (_ & _ & Hn & _).
  eapply Forall_impl; [exact Hr|]. cbn. intros st Hst E. by rewrite E in Hst.
Qed.

(** C5: The two services together. When an approval through a grant succeeds in
    a reachable state, some human created the grant, it is not revoked, the
    call falls in its window, the ports and every target of the assessment's
    own scope snapshot are inside the grant's scope, every step of the stored
    plan has a risk the grant allows and none is destructive; the approval
    binds that very plan and names the grant as its approver. *)
Theorem grant_approval_is_covered scopes ops assessments0 now h k by_ risks caps sd role gid ap r' :
  let grants := GrantService.run_all ops ∅ in
  AssessmentService.reachable (Scope:=ScopeSnapshot) assessments0 ->
  AssessmentService.approve (authority scopes grants) now h k by_ risks caps sd role (Some gid) assessments0 = (Ret ap, r') ->
  approved_by ap = "grant:" +:+ gid
  /\ exists g a p scope,
      grants !! gid = Some g /\ created_by g = "human"
      /\ assessments assessments0 !! k = Some a /\ snapshots scopes !! scope_snapshot_id a = Some scope
      /\ AssessmentService.active_plan assessments0 a = Some p /\ approval_plan_digest ap = plan_digest p
      /\ covered uni g scope (Assessments.steps p) now
      /\ Forall (fun s => risk s <> RiskClass.DESTRUCTIVE) (Assessments.steps p).
Proof.
  cbn zeta. intros Hr%AssessmentService.reachable_wf H.
  apply AssessmentService.approve_grant_inv in H as (Hby & Hg & a & p & Ha & Hp & Hd); [|done].
  split; [done|]. destruct Hg as (svc & snap & a' & scope & d & [= <-] & [= <-] & Ha' & Hs & Hsvc & Hal).
  rewrite Ha in Ha'. injection Ha' as <-. rewrite Hp in Hsvc.
  destruct (proj1 (authorize_allowed uni (GrantService.run_all ops ∅) gid scope (Assessments.steps p) now)) as (g & Hg & Hc); [by exists d|].
  destruct (run_all_grants_wf ops ∅ empty_grants_wf _ _ Hg) as (_ & Hh & Hn & _).
  exists g, a, p, scope. split_and!; try done.
  destruct Hc as (_ & _ & _ & _ & Hr'). eapply Forall_impl; [exact Hr'|]. cbn. intros st Hst E. by rewrite E in Hst.
Qed.

End unicode.
(** *** A concrete run *)
Definition demo_scope (id : string) (inc : list string) : ScopeSnapshot :=
  mkScope id "acme" inc [] [443] Scope.default_limits "ana" 0 ("sha256:" +:+ id) [].

Definition demo_scopes : ScopeWorld :=
  mkScopeWorld {[ "scope-1" := demo_scope "scope-1" ["www.shop.example"] ]} [].

Definition demo_ops : list GrantService.op :=
  [GrantService.Create "1" 0 "acme" "retest" (demo_scope "scope-g" ["*.shop.example"]) {[RiskClass.LOW; RiskClass.ACTIVE]}
     0 PyTime.day "human";
   GrantService.Create "2" 0 "acme" "mine" (demo_scope "scope-g" ["*"]) {[RiskClass.LOW]} 0 PyTime.day "agent"].

Definition demo_assessments : Repo :=
  AssessmentService.run_all (AssessmentService.demo_prefix_of ScopeSnapshot) empty_repo.

Lemma demo_assessments_reachable : AssessmentService.reachable (Scope:=ScopeSnapshot) demo_assessments.
Proof. apply AssessmentService.run_all_steps. vm_compute. done. Qed.

Definition demo_approve (gid : string) : M Repo Approval :=
  AssessmentService.approve (authority FrozenScope.ascii_only demo_scopes (GrantService.run_all demo_ops ∅)) 5 "1" "asm-1" "agent-7"
    {[RiskClass.LOW]} {["nmap"]} "sd" "agent" (Some gid).

Example demo_approvals :
  is_Ret (demo_approve "grant-1" demo_assessments).1 = true /\ is_Ret (demo_approve "grant-2" demo_assessments).1 = false.
Proof. vm_compute. done. Qed.

(** The boundary check is documented to take URLs, addresses, domains and
    networks, but a network is none of the first three: an assessment scope
    that lists a network is covered by no grant, not even one with the same
    network; a single address of it is. *)
Lemma network_target_is_never_covered :
  let g := mkGrant "grant-1" "acme" "g" (demo_scope "scope-g" ["10.0.0.0/8"]) {[RiskClass.LOW]} 0 PyTime.day "ana" 0
             GrantStatus.ACTIVE "d" in
  Grant.covers_scope FrozenScope.ascii_only g (demo_scope "scope-1" ["10.0.0.0/8"]) = Ret false
  /\ Grant.covers_scope FrozenScope.ascii_only g (demo_scope "scope-1" ["10.1.2.3"]) = Ret true.
Proof. vm_compute. done. Qed.

Lemma grant_approval_is_covered_witness :
  exists ap, (demo_approve "grant-1" demo_assessments).1 = Ret ap /\ approved_by ap = "grant:grant-1".
Proof.
  destruct (demo_approve "grant-1" demo_assessments) as [[ap|e] r'] eqn:E;
    [|exfalso; apply (f_equal (fun x => is_Ret x.1)) in E; vm_compute in E; discriminate E].
  exists ap. split; [reflexivity|].
  exact (proj1 (grant_approval_is_covered FrozenScope.ascii_only demo_scopes demo_ops demo_assessments 5 "1" "asm-1" "agent-7"
                  {[RiskClass.LOW]} {["nmap"]} "sd" "agent" "grant-1" ap r' demo_assessments_reachable E)).
Defined.

Lemma revocation_is_final_witness :
  exists g r1, GrantService.revoke "grant-1" "human" (GrantService.run_all demo_ops ∅) = (Ret g, r1)
    /\ GrantService.get_active (GrantService.run_all [GrantService.Revoke "grant-1" "agent"] r1) "grant-1" 5 = None.
Proof.
  destruct (GrantService.revoke "grant-1" "human" (GrantService.run_all demo_ops ∅)) as [[g|e] r1] eqn:E;
    [|exfalso; apply (f_equal (fun x => is_Ret x.1)) in E; vm_compute in E; discriminate E].
  exists g, r1. split; [reflexivity|].
  refine (proj1 (proj2 (GrantService.revocation_is_final FrozenScope.ascii_only demo_ops [GrantService.Revoke "grant-1" "agent"]
            "grant-1" "human" g r1 (demo_scope "x" []) [] 5 "acme" E _))).
  constructor; [reflexivity|constructor].
Defined.

End GrantAuthority.
