(* ===== verification/Enforcer.v ===== *)
(** * Policy engine and scope enforcer

    Models [src/secopent/domain/policy/engine.py] (Module [PolicyEngine]) and
    [src/secopent/application/scope_enforcer.py] (Module [ScopeEnforcer]).
    The resolver is a parameter: a function from host names to addresses,
    which may fail. *)
From S2P Require Import Prelude PyStr PyTime PyFloat Canonical Policy Net NetFacts Scope.

#[local] Open Scope Z_scope.

Module PolicyEngine.
Section unicode.
Context (uni : Unicode).

(** [a or b] where both may raise. *)
Definition or_else (a b : outcome bool) : outcome bool := x ← a; if x : bool then Ret true else b.

(** [mode] is not looked at. *)
Definition evaluate (request : ActionRequest) (scope : ScopeSnapshot) (mode : ExecutionMode)
    (approved_risks : gset RiskClass) (approved_capabilities : gset string) : outcome PolicyDecision :=
  if bool_decide (ar_risk request = RiskClass.DESTRUCTIVE) then Ret (mkPolicyDecision false "DESTRUCTIVE_ACTION_DENIED")
  else
    denied ← or_else (p ← Scope.includes_port scope (ar_port request); Ret (negb p))
                     (u ← Scope.includes_url uni scope (ar_target request); Ret (negb u));
    if denied : bool then Ret (mkPolicyDecision false "SCOPE_DENIED")
    else if negb (bool_decide (ar_risk request ∈ approved_risks)) then Ret (mkPolicyDecision false "RISK_NOT_APPROVED")
    else if bool_decide (ar_risk request ∈ [RiskClass.ACTIVE; RiskClass.INTRUSIVE])
            && negb (bool_decide (ar_capability request ∈ approved_capabilities))
    then Ret (mkPolicyDecision false "CAPABILITY_NOT_APPROVED")
    else Ret (mkPolicyDecision true "ALLOWED").

(** What an allowed action satisfies. *)
Definition permitted (request : ActionRequest) (scope : ScopeSnapshot) (approved_risks : gset RiskClass)
    (approved_capabilities : gset string) : Prop :=
  ar_risk request <> RiskClass.DESTRUCTIVE
  /\ Scope.includes_port scope (ar_port request) = Ret true
  /\ Scope.includes_url uni scope (ar_target request) = Ret true
  /\ ar_risk request ∈ approved_risks
  /\ (ar_risk request = RiskClass.ACTIVE \/ ar_risk request = RiskClass.INTRUSIVE ->
      ar_capability request ∈ approved_capabilities).

Lemma evaluate_allowed request scope mode risks caps :
  (exists d, evaluate request scope mode risks caps = Ret d /\ allowed d = true) <-> permitted request scope risks caps.
Proof.
  unfold evaluate, permitted, or_else. case_bool_decide as Hd; [split; [by intros (? & [= <-] & ?)|by intros [? _]]|].
  destruct (Scope.includes_port scope (ar_port request)) as [[]|e]; cbn [mbind outcome_bind negb];
    [|split; [by intros (? & [= <-] & ?)|by intros (_ & ? & _)]|split; [by intros (? & ? & _)|by intros (_ & ? & _)]].
  destruct (Scope.includes_url uni scope (ar_target request)) as [[]|e]; cbn [mbind outcome_bind negb];
    [|split; [by intros (? & [= <-] & ?)|by intros (_ & _ & ? & _)]|split; [by intros (? & ? & _)|by intros (_ & _ & ? & _)]].
  case_bool_decide as Hr; cbn [negb]; [|split; [by intros (? & [= <-] & ?)|by intros (_ & _ & _ & ? & _)]].
  case_bool_decide as Hc; case_bool_decide as Hcap; cbn [negb andb].
  - split; [intros _|by eexists]. split_and!; done.
  - split; [by intros (? & [= <-] & ?)|]. intros (_ & _ & _ & _ & H). destruct Hcap. apply H. set_solver.
  - split; [intros _|by eexists]. split_and!; done.
  - split; [intros _|by eexists]. split_and!; try done. intros H. destruct Hc. set_solver.
Qed.

(** The engine allows exactly the permitted actions: not destructive, port
    and URL in scope, the risk approved, and for an active or intrusive action
    the capability approved too. The decision does not depend on the execution
    mode, and whatever is approved, a destructive action is denied before the
    scope is even looked at. *)
Theorem engine_allows_exactly request scope mode risks caps :
  ((exists d, evaluate request scope mode risks caps = Ret d /\ allowed d = true) <-> permitted request scope risks caps)
  /\ (forall mode', evaluate request scope mode' risks caps = evaluate request scope mode risks caps)
  /\ (ar_risk request = RiskClass.DESTRUCTIVE ->
      evaluate request scope mode risks caps = Ret (mkPolicyDecision false "DESTRUCTIVE_ACTION_DENIED"))
  /\ (forall risks' caps', risks ⊆ risks' -> caps ⊆ caps' ->
      (exists d, evaluate request scope mode risks caps = Ret d /\ allowed d = true) ->
      exists d, evaluate request scope mode risks' caps' = Ret d /\ allowed d = true).
Proof.
  split_and!.
  - apply evaluate_allowed.
  - done.
  - intros H. unfold evaluate. by rewrite bool_decide_true.
  - intros risks' caps' Hr Hc H. apply evaluate_allowed. apply evaluate_allowed in H as (H1 & H2 & H3 & H4 & H5).
    split_and!; [done..|set_solver|]. intros Hk. apply Hc, H5, Hk.
Qed.

End unicode.
End PolicyEngine.

Record EnforcementContext : Type := mkEnforcement {
  ec_risk : RiskClass;
  ec_approved_risks : gset RiskClass;
  ec_approved : bool;
  budget_remaining : pyfloat;
  ec_now : datetime;
  time_window : option (Z * Z);
  permit_valid : bool
}.

Module ScopeEnforcer.
Section unicode.
Context (uni : Unicode) (resolve : string -> outcome (list string)).

Definition is_ip (host : string) : bool := bool_decide (is_Some (Ip.ip_address host)).

Definition split_target (target : string) : outcome (string * option Z) :=
  if Normalize.is_http target then
    parsed ← Url.urlsplit uni target;
    port ← Url.port parsed;
    let given := default 0 port in
    Ret (default "" (Url.hostname parsed),
         Some (if given =? 0 then Normalize.default_port (Url.scheme parsed) else given))
  else if PyStr.has_char ":" target then
    let '(host, _, port_str) := PyStr.rpartition ":" target in
    match PyStr.int_of_str port_str with
    | Ret p => Ret (host, Some p)
    | Raise _ => Ret (target, None)
    end
  else Ret (target, None).

Definition is_blocked (a : Ip.address) : bool :=
  Ip.is_loopback a || Ip.is_link_local a || Ip.is_unspecified a || Ip.is_multicast a.

(** [ipaddress.ip_address(ip)] outside any [try]. *)
Definition is_blocked_ip (ip : string) : outcome bool :=
  a ← unwrap (Ip.ip_address ip) (ValueError (PyStr.repr ip +:+ " does not appear to be an IPv4 or IPv6 address"));
  Ret (is_blocked a).

Definition deny (reason : string) : outcome PolicyDecision := Ret (mkPolicyDecision false reason).

(** The loop of step 5; [k] is the rest of the chain. *)
Fixpoint recheck (scope : ScopeSnapshot) (resolved : list string) (k : outcome PolicyDecision) : outcome PolicyDecision :=
  match resolved with
  | [] => k
  | ip :: ips =>
      b ← is_blocked_ip ip;
      if b : bool then deny "REBINDING_BLOCKED"
      else
        i ← Scope.includes_ip uni scope ip;
        if negb i then deny "RESOLVED_IP_OUT_OF_SCOPE" else recheck scope ips k
  end.

(** Steps 7 to 10. *)
Definition check_context (c : EnforcementContext) : outcome PolicyDecision :=
  if match time_window c with
     | Some (start, stop) => negb ((start <=? PyTime.hour (ec_now c)) && (PyTime.hour (ec_now c) <? stop))
     | None => false
     end then deny "OUTSIDE_TIME_WINDOW"
  else if bool_decide (ec_risk c = RiskClass.DESTRUCTIVE) then deny "DESTRUCTIVE_DENIED"
  else if negb (bool_decide (ec_risk c ∈ ec_approved_risks c)) then deny "RISK_NOT_APPROVED"
  else if negb (ec_approved c) then deny "NOT_APPROVED"
  else if PyFloat.leb (budget_remaining c) (flt "0.0") then deny "BUDGET_EXHAUSTED"
  else if negb (permit_valid c) then deny "PERMIT_INVALID"
  else Ret (mkPolicyDecision true "ALLOWED").

Definition check_port (scope : ScopeSnapshot) (port : option Z) (k : outcome PolicyDecision) : outcome PolicyDecision :=
  match port with
  | None => k
  | Some p => b ← Scope.includes_port scope p; if negb b then deny "PORT_NOT_ALLOWED" else k
  end.

Definition resolve_host (host : string) : outcome (list string) := if is_ip host then Ret [host] else resolve host.

Definition check (target : string) (scope : ScopeSnapshot) (c : EnforcementContext) : outcome PolicyDecision :=
  '(host, port) ← split_target target;
  if PyStr.is_empty host then deny "INVALID_TARGET"
  else
    excluded ← Scope.excludes_host uni scope host;
    if excluded : bool then deny "EXPLICIT_DENY"
    else
      included ← Scope.includes_host uni scope host;
      if negb included then deny "NOT_INCLUDED"
      else
        resolved ← resolve_host host;
        if bool_decide (resolved = []) then deny "DNS_RESOLUTION_FAILED"
        else recheck scope resolved (check_port scope port (check_context c)).

(** ** Specification *)
Definition ip_ok (scope : ScopeSnapshot) (ip : string) : Prop :=
  exists a, Ip.ip_address ip = Some a /\ is_blocked a = false /\ Scope.includes_ip uni scope ip = Ret true.

Definition context_ok (c : EnforcementContext) : Prop :=
  match time_window c with Some (start, stop) => start <= PyTime.hour (ec_now c) < stop | None => True end
  /\ ec_risk c <> RiskClass.DESTRUCTIVE /\ ec_risk c ∈ ec_approved_risks c /\ ec_approved c = true
  /\ PyFloat.leb (budget_remaining c) (flt "0.0") = false /\ permit_valid c = true.

(** The target may be touched. *)
Definition touchable (target : string) (scope : ScopeSnapshot) (c : EnforcementContext) : Prop :=
  exists host port ips,
    split_target target = Ret (host, port) /\ host <> ""
    /\ Scope.excludes_host uni scope host = Ret false /\ Scope.includes_host uni scope host = Ret true
    /\ resolve_host host = Ret ips /\ ips <> [] /\ Forall (ip_ok scope) ips
    /\ (forall p, port = Some p -> Scope.includes_port scope p = Ret true)
    /\ context_ok c.

Definition allows (m : outcome PolicyDecision) : Prop := exists d, m = Ret d /\ allowed d = true.

Lemma deny_not r : ~ allows (deny r).
Proof. by intros (? & [= <-] & ?). Qed.

Lemma raise_not e : ~ allows (Raise e).
Proof. by intros (? & ? & _). Qed.

Lemma check_context_allows c : allows (check_context c) <-> context_ok c.
Proof.
  unfold check_context, context_ok.
  assert (Hw : (match time_window c with
                | Some (start, stop) => negb ((start <=? PyTime.hour (ec_now c)) && (PyTime.hour (ec_now c) <? stop))
                | None => false end) = false <->
               match time_window c with Some (start, stop) => start <= PyTime.hour (ec_now c) < stop | None => True end).
  { destruct (time_window c) as [[a b]|]; [|done]. rewrite negb_false_iff, andb_true_iff, Z.leb_le, Z.ltb_lt. done. }
  rewrite <- Hw. destruct (match time_window c with Some _ => _ | None => _ end);
    [split; [by intros ?%deny_not|by intros [? _]]|].
  case_bool_decide as H1; [split; [by intros ?%deny_not|by intros (_ & ? & _)]|].
  case_bool_decide as H2; cbn [negb]; [|split; [by intros ?%deny_not|by intros (_ & _ & ? & _)]].
  destruct (ec_approved c); cbn [negb]; [|split; [by intros ?%deny_not|by intros (_ & _ & _ & ? & _)]].
  destruct (PyFloat.leb (budget_remaining c) (flt "0.0")); [split; [by intros ?%deny_not|by intros (_ & _ & _ & _ & ? & _)]|].
  destruct (permit_valid c); cbn [negb]; [|split; [by intros ?%deny_not|by intros (_ & _ & _ & _ & _ & ?)]].
  split; [done|]. intros _. by eexists.
Qed.

Lemma check_port_allows scope port k :
  allows (check_port scope port k) <-> (forall p, port = Some p -> Scope.includes_port scope p = Ret true) /\ allows k.
Proof.
  destruct port as [p|]; cbn [check_port]; [|naive_solver].
  destruct (Scope.includes_port scope p) as [[]|e] eqn:E; cbn [mbind outcome_bind negb].
  - split; [intros H; split; [by intros ? [= <-]|done]|by intros [_ ?]].
  - split; [by intros ?%deny_not|]. intros [H _]. specialize (H p eq_refl). congruence.
  - split; [by intros ?%raise_not|]. intros [H _]. specialize (H p eq_refl). congruence.
Qed.

Lemma recheck_allows scope ips k : allows (recheck scope ips k) <-> Forall (ip_ok scope) ips /\ allows k.
Proof.
  induction ips as [|ip ips IH]; cbn [recheck]; [naive_solver|]. rewrite Forall_cons. unfold is_blocked_ip, ip_ok at 1.
  destruct (Ip.ip_address ip) as [a|]; cbn [unwrap mbind outcome_bind];
    [|split; [by intros ?%raise_not|by intros [[(? & ? & _) _] _]]].
  destruct (is_blocked a) eqn:Eb; [split; [by intros ?%deny_not|]; intros [[(? & [= <-] & ? & _) _] _]; congruence|].
  destruct (Scope.includes_ip uni scope ip) as [[]|e]; cbn [mbind outcome_bind negb].
  - rewrite IH. naive_solver.
  - split; [by intros ?%deny_not|by intros [[(? & _ & _ & ?) _] _]].
  - split; [by intros ?%raise_not|by intros [[(? & _ & _ & ?) _] _]].
Qed.

Lemma check_allows target scope c : allows (check target scope c) <-> touchable target scope c.
Proof.
  unfold check, touchable. destruct (split_target target) as [[host port]|e]; cbn [mbind outcome_bind];
    [|split; [by intros ?%raise_not|by intros (? & ? & ? & ? & _)]].
  destruct (PyStr.is_empty host) eqn:Eh.
  { apply PyStr.is_empty_true in Eh. split; [by intros ?%deny_not|]. intros (? & ? & ? & [= <- <-] & ? & _). done. }
  apply PyStr.is_empty_false in Eh.
  transitivity (Scope.excludes_host uni scope host = Ret false /\ Scope.includes_host uni scope host = Ret true
       /\ exists ips, resolve_host host = Ret ips /\ ips <> [] /\ Forall (ip_ok scope) ips
       /\ (forall p, port = Some p -> Scope.includes_port scope p = Ret true) /\ context_ok c).
  2: { split.
       - intros (H1 & H2 & ips & H). by exists host, port, ips.
       - intros (h & p & ips & [= <- <-] & _ & H1 & H2 & H). eauto. }
  destruct (Scope.excludes_host uni scope host) as [[]|e]; cbn [mbind outcome_bind];
    [split; [by intros ?%deny_not|by intros (? & _)]| |split; [by intros ?%raise_not|by intros (? & _)]].
  destruct (Scope.includes_host uni scope host) as [[]|e]; cbn [mbind outcome_bind negb];
    [|split; [by intros ?%deny_not|by intros (_ & ? & _)]|split; [by intros ?%raise_not|by intros (_ & ? & _)]].
  destruct (resolve_host host) as [ips|e]; cbn [mbind outcome_bind];
    [|split; [by intros ?%raise_not|by intros (_ & _ & ? & ? & _)]].
  case_bool_decide as Hn; [split; [by intros ?%deny_not|]; by intros (_ & _ & ? & [= <-] & ? & _)|].
  rewrite recheck_allows, check_port_allows, check_context_allows. split.
  - intros (H1 & H2 & H3). split_and!; [done..|]. by exists ips.
  - by intros (_ & _ & ? & [= <-] & _ & H).
Qed.

(** The reason of a decision is ALLOWED exactly when it allows. *)
Definition honest (m : outcome PolicyDecision) : Prop :=
  forall d, m = Ret d -> allowed d = bool_decide (reason d = "ALLOWED").

Lemma honest_bind {A} (m : outcome A) (f : A -> outcome PolicyDecision) : (forall a, honest (f a)) -> honest (m ≫= f).
Proof. intros Hf d (a & _ & H)%bind_Ret. by apply (Hf a). Qed.

Lemma recheck_honest scope ips k : honest k -> honest (recheck scope ips k).
Proof.
  intros Hk. induction ips as [|ip ips IH]; cbn [recheck]; [done|]. apply honest_bind. intros [].
  { by intros d [= <-]. }
  apply honest_bind. intros []; [done|by intros d [= <-]].
Qed.

Lemma check_honest target scope c : honest (check target scope c).
Proof.
  unfold check. apply honest_bind. intros [host port].
  destruct (PyStr.is_empty host); [by intros d [= <-]|]. apply honest_bind. intros []; [by intros d [= <-]|].
  apply honest_bind. intros []; [|by intros d [= <-]]. apply honest_bind. intros ips.
  case_bool_decide; [by intros d [= <-]|]. apply recheck_honest. unfold check_port.
  assert (Hc : honest (check_context c)).
  { unfold check_context, deny. intros d. repeat case_match; by intros [= <-]. }
  destruct port as [p|]; [|done]. apply honest_bind. intros []; [done|by intros d [= <-]].
Qed.

(** C6: The ten steps together allow exactly the touchable targets. In
    particular every address the name resolves to, not only the name, is in
    scope, matches no exclude rule, and is not a loopback, link-local (cloud
    metadata), unspecified or multicast address; so a name that is in scope
    but has been rebound elsewhere is refused, and so is a target any of whose
    conditions cannot be evaluated. The reason says ALLOWED exactly on an
    allowed target. *)
Theorem enforcer_allows_exactly target scope c :
  (allows (check target scope c) <-> touchable target scope c)
  /\ forall d, check target scope c = Ret d -> allowed d = bool_decide (reason d = "ALLOWED").
Proof. split; [apply check_allows|]. intros d. apply check_honest. Qed.

End unicode.

(** *** Concrete runs *)
Definition demo_scope : ScopeSnapshot :=
  mkScope "scope-1" "acme" ["*.shop.example"; "10.0.0.0/8"] ["10.0.0.1"] [443] Scope.default_limits "ana" 0 "sha256:x" [].
Definition demo_resolve (host : string) : outcome (list string) :=
  Ret (if String.eqb host "www.shop.example" then ["10.1.2.3"]
       else if String.eqb host "rebound.shop.example" then ["10.1.2.3"; "169.254.169.254"]
       else if String.eqb host "moved.shop.example" then ["10.0.0.1"] else []).
Definition demo_context : EnforcementContext :=
  mkEnforcement RiskClass.LOW {[RiskClass.LOW]} true (flt "1.0") (12 * 3600 * PyTime.second) (Some (9, 17)) true.

Example demo_checks :
  let check t := match check FrozenScope.ascii_only demo_resolve t demo_scope demo_context with
                 | Ret d => reason d | Raise _ => "raised" end in
  check "https://www.shop.example/login" = "ALLOWED"
  /\ check "https://www.shop.example:8443/" = "PORT_NOT_ALLOWED"
  /\ check "rebound.shop.example" = "REBINDING_BLOCKED"
  /\ check "moved.shop.example" = "RESOLVED_IP_OUT_OF_SCOPE"
  /\ check "gone.shop.example" = "DNS_RESOLUTION_FAILED"
  /\ check "10.0.0.1" = "EXPLICIT_DENY" /\ check "evil.example" = "NOT_INCLUDED" /\ check "10.9.9.9:443" = "ALLOWED"
  /\ check "https:///x" = "INVALID_TARGET".
Proof. vm_compute. done. Qed.

(** A bare IPv6 target is cut at its last colon: the last group is taken for a
    port and the rest is not an address, so an address that is in scope is
    refused. *)
Lemma bare_ipv6_target_is_cut :
  split_target FrozenScope.ascii_only "2001:db8::1" = Ret ("2001:db8:", Some 1)
  /\ check FrozenScope.ascii_only demo_resolve "2001:db8::1"
       (mkScope "s" "p" ["2001:db8::/32"] [] [443] Scope.default_limits "ana" 0 "d" []) demo_context
     = Ret (mkPolicyDecision false "NOT_INCLUDED").
Proof. vm_compute. done. Qed.

End ScopeEnforcer.
