(* ===== verification/Contracts.v ===== *)
(** * Adapter contracts

    Models [src/secopent/domain/adapters/contracts.py]: the records every tool
    adapter exchanges with the engine, with the checks of their
    [__post_init__] methods; a constructor call that fails its checks raises. *)
From S2P Require Import Prelude PyStr PyTime PyFloat Sha256 Canonical Policy.

#[local] Open Scope Z_scope.

Module Severity.
Inductive t : Type := INFO | LOW | MEDIUM | HIGH | CRITICAL.
#[export] Instance eq_dec : EqDecision t.
Proof. solve_decision. Defined.
Definition to_string (s : t) : string :=
  match s with
  | INFO => "info" | LOW => "low" | MEDIUM => "medium" | HIGH => "high" | CRITICAL => "critical"
  end.
#[export] Program Instance strenum : StrEnum t :=
  { value := to_string; members := [INFO; LOW; MEDIUM; HIGH; CRITICAL] }.
Next Obligation. solve_members. Qed.
Next Obligation. solve_value_inj. Qed.
End Severity.
Notation Severity := Severity.t.

Module CoverageDomain.
Inductive t : Type := ASSET | WEB | NETWORK | CLOUD.
#[export] Instance eq_dec : EqDecision t.
Proof. solve_decision. Defined.
Definition to_string (s : t) : string :=
  match s with ASSET => "asset" | WEB => "web" | NETWORK => "network" | CLOUD => "cloud" end.
#[export] Program Instance strenum : StrEnum t :=
  { value := to_string; members := [ASSET; WEB; NETWORK; CLOUD] }.
Next Obligation. solve_members. Qed.
Next Obligation. solve_value_inj. Qed.
End CoverageDomain.
Notation CoverageDomain := CoverageDomain.t.

Module OutputStatus.
Inductive t : Type := COMPLETED | PARTIAL | FAILED.
#[export] Instance eq_dec : EqDecision t.
Proof. solve_decision. Defined.
Definition to_string (s : t) : string :=
  match s with COMPLETED => "completed" | PARTIAL => "partial" | FAILED => "failed" end.
#[export] Program Instance strenum : StrEnum t :=
  { value := to_string; members := [COMPLETED; PARTIAL; FAILED] }.
Next Obligation. solve_members. Qed.
Next Obligation. solve_value_inj. Qed.
End OutputStatus.
Notation OutputStatus := OutputStatus.t.
Export (hints) Severity CoverageDomain OutputStatus.

(** [if not field: raise DomainValidationError(msg)] *)
Definition require_text (s msg : string) : outcome unit :=
  raise_if (negb (PyStr.truthy s)) (DomainValidationError msg).

Definition require_items {A} (l : list A) (msg : string) : outcome unit :=
  raise_if (match l with [] => true | _ => false end) (DomainValidationError msg).

Lemma require_text_Ret s msg u : require_text s msg = Ret u <-> s <> "".
Proof. unfold require_text. by rewrite raise_if_Ret, negb_false_iff, PyStr.truthy_true. Qed.

Record AdapterSource : Type := mkAdapterSource {
  src_name : string;
  src_version : string;
  template_version : string
}.

Record AdapterUpstream : Type := mkAdapterUpstream {
  up_name : string;
  up_url : string;
  up_version : string;
  up_digest : string
}.

Record AdapterManifest : Type := mkAdapterManifest {
  am_id : string;
  am_version : string;
  adapter_api_version : string;
  am_license : string;
  upstream : AdapterUpstream;
  risk_class : RiskClass;
  am_coverage_domain : list CoverageDomain;
  input_schema : string;
  output_schema : string;
  network_policy : string;
  parser : string;
  fixtures : list string;
  permissions : list string;
  am_digest : string
}.

Record ExecutionPolicy : Type := mkExecutionPolicy {
  timeout_seconds : Z;
  max_concurrency : Z;
  network_profile : string
}.

Record AdapterInput : Type := mkAdapterInput {
  ai_run_id : string;
  engagement_id : string;
  ai_scope_snapshot : list (string * json);
  targets : list string;
  options : list (string * json);
  execution_policy : ExecutionPolicy
}.

Record Artifact : Type := mkArtifact {
  art_id : string;
  art_kind : string;
  art_sha256 : string;
  storage_uri : string
}.

Record Observation : Type := mkObservation {
  external_id : string;
  asset_identity : string;
  obs_source : AdapterSource;
  rule_id : string;
  rule_version : string;
  coverage_domain : CoverageDomain;
  obs_title : string;
  obs_severity : Severity;
  confidence : pyfloat;
  obs_cwe : list string;
  obs_cve : list string;
  obs_owasp : list string;
  evidence_artifact_ids : list string;
  raw : list (string * json)
}.

Record AdapterOutput : Type := mkAdapterOutput {
  ao_run_id : string;
  ao_status : OutputStatus;
  tool : AdapterSource;
  artifacts : list Artifact;
  observations : list Observation;
  errors : list string
}.

Module Contracts.

Definition check_source (s : AdapterSource) : outcome AdapterSource :=
  require_text (src_name s) "AdapterSource.name must be non-empty";;
  require_text (src_version s) "AdapterSource.version must be non-empty";;
  require_text (template_version s) "AdapterSource.template_version must be non-empty";;
  Ret s.

Definition check_upstream (u : AdapterUpstream) : outcome AdapterUpstream :=
  require_text (up_name u) "AdapterUpstream.name must be non-empty";;
  require_text (up_version u) "AdapterUpstream.version must be non-empty";;
  Ret u.

Definition upstream_json (u : AdapterUpstream) : json :=
  JObj [("name", JStr (up_name u)); ("url", JStr (up_url u)); ("version", JStr (up_version u));
        ("digest", JStr (up_digest u))].

(** Every field but the digest. *)
Definition manifest_payload (m : AdapterManifest) : json :=
  JObj [("id", JStr (am_id m)); ("version", JStr (am_version m));
        ("adapter_api_version", JStr (adapter_api_version m)); ("license", JStr (am_license m));
        ("upstream", upstream_json (upstream m)); ("risk_class", Canonical.jenum (risk_class m));
        ("coverage_domain", Canonical.jstrs (value <$> am_coverage_domain m));
        ("input_schema", JStr (input_schema m)); ("output_schema", JStr (output_schema m));
        ("network_policy", JStr (network_policy m)); ("parser", JStr (parser m));
        ("fixtures", Canonical.jstrs (fixtures m)); ("permissions", Canonical.jstrs (permissions m))].

(** [AdapterManifest(...)]: a digest passed by the caller is overwritten. *)
Definition make_manifest (m : AdapterManifest) : outcome AdapterManifest :=
  require_text (am_id m) "AdapterManifest.id must be non-empty";;
  require_text (am_version m) "AdapterManifest.version must be non-empty";;
  require_text (adapter_api_version m) "AdapterManifest.adapter_api_version must be non-empty";;
  require_text (am_license m) "AdapterManifest.license must be non-empty";;
  require_items (am_coverage_domain m) "AdapterManifest.coverage_domain must be non-empty";;
  require_text (input_schema m) "AdapterManifest.input_schema must be non-empty";;
  require_text (output_schema m) "AdapterManifest.output_schema must be non-empty";;
  require_text (network_policy m) "AdapterManifest.network_policy must be non-empty";;
  require_text (parser m) "AdapterManifest.parser must be non-empty";;
  Ret (mkAdapterManifest (am_id m) (am_version m) (adapter_api_version m) (am_license m) (upstream m)
         (risk_class m) (am_coverage_domain m) (input_schema m) (output_schema m) (network_policy m)
         (parser m) (fixtures m) (permissions m) (Canonical.canonical_digest (manifest_payload m))).

Definition check_policy (p : ExecutionPolicy) : outcome ExecutionPolicy :=
  raise_if (timeout_seconds p <=? 0)
    (DomainValidationError "ExecutionPolicy.timeout_seconds must be positive");;
  raise_if (max_concurrency p <=? 0)
    (DomainValidationError "ExecutionPolicy.max_concurrency must be positive");;
  require_text (network_profile p) "ExecutionPolicy.network_profile must be non-empty";;
  Ret p.

Definition check_input (i : AdapterInput) : outcome AdapterInput :=
  require_text (ai_run_id i) "AdapterInput.run_id must be non-empty";;
  require_text (engagement_id i) "AdapterInput.engagement_id must be non-empty";;
  require_items (targets i) "AdapterInput.targets must be non-empty";;
  Ret i.

Definition check_artifact (a : Artifact) : outcome Artifact :=
  require_text (art_id a) "Artifact.id must be non-empty";;
  require_text (art_kind a) "Artifact.kind must be non-empty";;
  require_text (art_sha256 a) "Artifact.sha256 must be non-empty";;
  require_text (storage_uri a) "Artifact.storage_uri must be non-empty";;
  Ret a.

Definition check_observation (o : Observation) : outcome Observation :=
  require_text (external_id o) "Observation.external_id must be non-empty";;
  require_text (asset_identity o) "Observation.asset_identity must be non-empty";;
  require_text (rule_id o) "Observation.rule_id must be non-empty";;
  require_text (rule_version o) "Observation.rule_version must be non-empty";;
  require_text (obs_title o) "Observation.title must be non-empty";;
  raise_if (negb (PyFloat.leb (flt "0.0") (confidence o) && PyFloat.leb (confidence o) (flt "1.0")))
    (DomainValidationError "Observation.confidence must be in [0.0, 1.0]");;
  Ret o.

Definition check_output (o : AdapterOutput) : outcome AdapterOutput :=
  require_text (ao_run_id o) "AdapterOutput.run_id must be non-empty";;
  Ret o.

Lemma make_manifest_Ret m m' :
  make_manifest m = Ret m' ->
  am_digest m' = Canonical.canonical_digest (manifest_payload m') /\ manifest_payload m' = manifest_payload m
  /\ upstream m' = upstream m.
Proof. unfold make_manifest. intros H. inv_ret. done. Qed.

(** a manifest digest pins the manifest. Whatever digest the caller
    passes, [AdapterManifest] carries the digest of its own content; two
    manifests with the same digest agree on every field, the upstream pin,
    the risk class, the coverage and the permissions included, or exhibit a
    SHA-256 collision. *)
Theorem manifest_digest_binds m n m' n' :
  make_manifest m = Ret m' -> make_manifest n = Ret n' -> am_digest m' = am_digest n' ->
  m' = n' \/ Sha256.collision (Canonical.canonical_json (manifest_payload m'))
                              (Canonical.canonical_json (manifest_payload n')).
Proof.
  intros (Hm & _)%make_manifest_Ret (Hn & _)%make_manifest_Ret Hd.
  pose proof Hd as Hdig. rewrite Hm, Hn in Hd. apply Canonical.canonical_digest_inj in Hd as [H|Hc]; [left|by right].
  apply Canonical.normalize_fields in H; [|done|by vm_compute].
  cbn -[Canonical.normalize upstream_json Canonical.jstrs] in H.
  injection H as H1 H2 H3 H4 U4 U1 U2 U3 Hr Hcov H5 H6 H7 H8 Hfix Hperm.
  apply (f_equal JArr) in Hcov, Hfix, Hperm.
  apply Canonical.normalize_jstrs_inj in Hcov, Hfix, Hperm.
  assert (Hcov' : am_coverage_domain m' = am_coverage_domain n').
  { assert (HI : Inj (=) (=) CoverageDomain.to_string) by (intros [] []; by cbn).
    by apply (list_fmap_eq_inj CoverageDomain.to_string) in Hcov. }
  destruct m' as [? ? ? ? u ? ? ? ? ? ? ? ? ?], n' as [? ? ? ? u' ? ? ? ? ? ? ? ? ?]; cbn in *.
  destruct u, u'; cbn in *. pose proof (value_inj risk_class0 risk_class1 Hr). congruence.
Qed.

Definition demo_manifest : AdapterManifest :=
  mkAdapterManifest "nmap" "1" "1" "GPL" (mkAdapterUpstream "nmap" "https://nmap.org" "7.95" "sha256:u")
    RiskClass.LOW [CoverageDomain.NETWORK] "in" "out" "scan" "nmap:parse" [] ["net"] "".

Lemma manifest_digest_binds_witness :
  exists m, make_manifest demo_manifest = Ret m /\ (m = m \/
    Sha256.collision (Canonical.canonical_json (manifest_payload m)) (Canonical.canonical_json (manifest_payload m))).
Proof.
  eexists. split; [reflexivity|].
  exact (manifest_digest_binds demo_manifest demo_manifest _ _ eq_refl eq_refl eq_refl).
Defined.

End Contracts.
