(* ===== verification/Adapters.v ===== *)
(** * Adapter runner

    Models [src/secopent/infrastructure/adapters/base.py]: the runner that
    checks every target against a scope snapshot carried as a plain dict,
    runs the pinned container, stores its artifacts and parses its output.
    The container executor, the store of artifacts, the parsers and the
    temporary directories are parameters; the world records every container
    started and every artifact stored. *)
From S2P Require Import Prelude PyStr PyTime PyFloat Sha256 Canonical PyJson PyText PyIso Policy Net Scope Enforcer Contracts.

#[local] Open Scope Z_scope.

(** ** [int()], [float()] and iteration of the values of a dict *)
Module PyNumbers.

(** The double nearest to an integer, half to even. *)
Definition round53 (n : Z) : Z :=
  let k := Z.max 0 (Z.log2 (Z.abs n) - 52) in
  let q := Z.abs n / 2 ^ k in
  let r := Z.abs n mod 2 ^ k in
  let up := (2 ^ k <? 2 * r) || ((2 ^ k =? 2 * r) && (0 <? k) && Z.odd q) in
  Z.sgn n * ((if up then q + 1 else q) * 2 ^ k).

(** [int(f)] truncates; from 2^53 on the value of a double is not its
    shortest text. *)
Definition int_of_float (f : PyFloat.lit) : Z :=
  let '(m, e) := PyFloat.decimal f in
  round53 (if 0 <=? e then m * 10 ^ e else Z.quot m (10 ^ (- e))).

Definition no_number (fn : string) (v : json) : exn :=
  TypeError (fn +:+ " argument must be a string or a real number, not '" +:+ type_name v +:+ "'").

(** [int(v)] *)
Definition to_int (v : json) : outcome Z :=
  match v with
  | JInt z => Ret z
  | JBool b => Ret (if b then 1 else 0)
  | JFloat f =>
      if PyFloat.overflows f then Raise (OverflowError "cannot convert float infinity to integer") else Ret (int_of_float f)
  | JStr s => PyStr.int_of_str s
  | _ => Raise (no_number "int()" v)
  end.

Section float.
(** [float()] of a text, and of an integer that no double equals. *)
Context (float_conv : json -> outcome pyfloat).

Definition float_of_int (z : Z) : outcome pyfloat :=
  if Z.abs z <=? 2 ^ 53 then
    match decide (PyFloat.lit_wf (pretty z +:+ ".0") = true) with
    | left H => Ret (PyFloat.Fin (PyFloat.mkLit _ H))
    | right _ => float_conv (JInt z)
    end
  else float_conv (JInt z).

Definition to_float (v : json) : outcome pyfloat :=
  match v with
  | JFloat f => Ret (PyFloat.Fin f)
  | JInt z => float_of_int z
  | JBool b => Ret (if b then flt "1.0" else flt "0.0")
  | JStr s => float_conv v
  | _ => Raise (no_number "float()" v)
  end.
End float.

(** The characters of a text: a byte 10xxxxxx continues the one before. *)
Fixpoint characters_of (s : string) : list string :=
  match s with
  | EmptyString => []
  | String c r =>
      match r with
      | String d _ =>
          if (128 <=? N_of_ascii d)%N && (N_of_ascii d <? 192)%N then
            match characters_of r with x :: xs => String c x :: xs | [] => [String c ""] end
          else String c "" :: characters_of r
      | EmptyString => [String c ""]
      end
  end.

(** [isinstance(v, Sequence)], and its items: a text is a sequence too. *)
Definition sequence (v : json) : option (list json) :=
  match v with
  | JArr l => Some l
  | JStr s => Some (JStr <$> characters_of s)
  | _ => None
  end.

Example numbers : to_int (JFloat (PyFloat.mkLit "3.9" eq_refl)) = Ret 3
  /\ to_int (JFloat (PyFloat.mkLit "-3.9" eq_refl)) = Ret (-3)
  /\ to_int (JFloat (PyFloat.mkLit "1.2345678901234567e+17" eq_refl)) = Ret 123456789012345664
  /\ to_int (JFloat (PyFloat.mkLit "1e400" eq_refl)) = Raise (OverflowError "cannot convert float infinity to integer")
  /\ to_int (JStr " 80 ") = Ret 80
  /\ to_float (fun _ => Raise (ValueError "")) (JInt 5) = Ret (flt "5.0")
  /\ sequence (JStr "80") = Some [JStr "8"; JStr "0"].
Proof. vm_compute. done. Qed.

End PyNumbers.

(** ** Containers *)

(** A file of the output directory; no content for anything that is not a
    regular file. *)
Record DirEntry : Type := mkEntry { entry_name : string; content : option string }.

Record ContainerResult : Type := mkContainerResult {
  stdout : string;
  stderr : string;
  exit_code : Z;
  artifacts_dir : option (list DirEntry)
}.

(** One call of [ContainerExecutor.run], with the file [input.json] the
    container is given. *)
Record Invocation : Type := mkInvocation {
  image_digest : string;
  command : list string;
  mounts : list (string * string);
  inv_network_policy : string;
  resource_limits : list (string * json);
  input_json : json
}.

Record World : Type := mkWorld {
  invocations : list Invocation;
  cas_writes : list (string * string)
}.

Module AdapterRunner.

Definition SECURITY_FLAGS : list string :=
  ["--user=nonroot"; "--cap-drop=ALL"; "--read-only"; "--network=scoped-egress"].

Definition DEFAULT_RESOURCE_LIMITS : list (string * json) :=
  [("cpu_quota", JStr "1.0"); ("memory_mb", JInt 512); ("pids_limit", JInt 64); ("no_new_privileges", JBool true)].

Section runner.
Context (uni : Unicode) (float_conv : json -> outcome pyfloat).
(** The injected policy engine. *)
Context (policy_engine : ActionRequest -> ScopeSnapshot -> ExecutionMode -> gset RiskClass -> gset string ->
                         outcome PolicyDecision).
(** What the n-th container does; the n-th write to the store; the n-th
    temporary directory; the parser registered under a name. *)
Context (execute : nat -> Invocation -> outcome ContainerResult)
        (cas_store : nat -> string -> string -> outcome string)
        (mkdtemp : string -> nat -> string)
        (parsers : string -> option (string -> AdapterSource -> list (string * string) -> outcome (list Observation))).

(** *** The scope snapshot *)
Definition item (k : string) (d : list (string * json)) : outcome json := unwrap (field k d) (KeyError k).

Definition items (k : string) (v : json) : outcome (list json) :=
  unwrap (PyNumbers.sequence v) (AssertionError ("scope_snapshot." +:+ k +:+ " must be a sequence")).

Definition rebuild_scope_snapshot (serialized : list (string * json)) : outcome ScopeSnapshot :=
  limits_raw ← item "limits" serialized;
  l ← unwrap (match limits_raw with JObj l => Some l | _ => None end)
        (AssertionError "scope_snapshot.limits must be a mapping");
  rps ← (v ← item "requests_per_second" l; PyNumbers.to_float float_conv v);
  conc ← (v ← item "concurrency" l; PyNumbers.to_int v);
  max_req ← (v ← item "max_requests" l; PyNumbers.to_int v);
  limits ← Scope.check_limits (mkLimits rps conc max_req);
  ports_raw ← (v ← item "ports" serialized; items "ports" v);
  approved_at_raw ← (v ← item "approved_at" serialized;
                     unwrap (match v with JStr s => Some s | _ => None end)
                       (AssertionError "scope_snapshot.approved_at must be ISO str"));
  include_raw ← (v ← item "include" serialized; items "include" v);
  exclude_raw ← items "exclude" (default (JArr []) (field "exclude" serialized));
  cloud_raw ← items "cloud_accounts" (default (JArr []) (field "cloud_accounts" serialized));
  id ← item "id" serialized;
  project_id ← item "project_id" serialized;
  prt ← mapM_outcome PyNumbers.to_int ports_raw;
  by_ ← item "approved_by" serialized;
  at_ ← unwrap (PyIso.fromisoformat approved_at_raw) (ValueError "Invalid isoformat string");
  digest ← item "digest" serialized;
  Ret (mkScope (py_str id) (py_str project_id) (py_str <$> include_raw) (py_str <$> exclude_raw) prt limits
         (py_str by_) at_ (py_str digest) (py_str <$> cloud_raw)).

(** *** The gate *)
Definition is_cloud_target (target : string) (m : AdapterManifest) : outcome bool :=
  if negb (bool_decide (CoverageDomain.CLOUD ∈ am_coverage_domain m)) then Ret false
  else match Normalize.normalize_cloud_account target with
       | Ret _ => Ret true
       | Raise (DomainValidationError _) => Ret false
       | Raise e => Raise e
       end.

Definition denied (target reason : string) : exn :=
  ScopeDeniedError ("scope denied for target=" +:+ target +:+ " reason=" +:+ reason).

Definition enforce_cloud_target (target : string) (risk : RiskClass) (capability : string) (scope : ScopeSnapshot)
    (approved_risks : gset RiskClass) (approved_capabilities : gset string) : outcome unit :=
  raise_if (bool_decide (risk = RiskClass.DESTRUCTIVE)) (denied target "DESTRUCTIVE_ACTION_DENIED");;
  i ← Scope.includes_cloud_account scope target;
  raise_if (negb i) (denied target "SCOPE_DENIED");;
  raise_if (negb (bool_decide (risk ∈ approved_risks))) (denied target "RISK_NOT_APPROVED");;
  raise_if (bool_decide (risk ∈ [RiskClass.ACTIVE; RiskClass.INTRUSIVE])
            && negb (bool_decide (capability ∈ approved_capabilities))) (denied target "CAPABILITY_NOT_APPROVED").

Definition extract_ports (i : AdapterInput) : outcome (list Z) :=
  match PyNumbers.sequence (default JNull (field "ports" (options i))) with
  | None => Ret []
  | Some l => mapM_outcome PyNumbers.to_int l
  end.

(** [manifest.permissions[0] if manifest.permissions else "passive"] *)
Definition capability_of (m : AdapterManifest) : string := hd "passive" (permissions m).

Definition approved_risks : gset RiskClass :=
  {[RiskClass.PASSIVE; RiskClass.LOW; RiskClass.ACTIVE; RiskClass.INTRUSIVE]}.

Definition approved_capabilities (m : AdapterManifest) : gset string := list_to_set (permissions m).

Definition enforce_target (m : AdapterManifest) (scope : ScopeSnapshot) (ports : list Z) (target : string) : outcome unit :=
  cloud ← is_cloud_target target m;
  if cloud : bool then
    enforce_cloud_target target (risk_class m) (capability_of m) scope approved_risks (approved_capabilities m)
  else
    decision ← policy_engine (mkActionRequest target (hd 0 ports) (risk_class m) (capability_of m)) scope
                 ExecutionMode.SCOPE_AUTOPILOT approved_risks (approved_capabilities m);
    raise_if (negb (allowed decision)) (denied target (reason decision)).

Fixpoint enforce_targets (m : AdapterManifest) (scope : ScopeSnapshot) (ports : list Z) (ts : list string) : outcome unit :=
  match ts with
  | [] => Ret tt
  | t :: ts => enforce_target m scope ports t;; enforce_targets m scope ports ts
  end.

Definition enforce_scope (m : AdapterManifest) (i : AdapterInput) (scope : ScopeSnapshot) : outcome unit :=
  ports ← extract_ports i;
  enforce_targets m scope ports (targets i).

(** *** The container *)
Definition input_payload (i : AdapterInput) : json :=
  JObj [("run_id", JStr (ai_run_id i)); ("engagement_id", JStr (engagement_id i));
        ("targets", Canonical.jstrs (targets i)); ("options", JObj (options i));
        ("execution_policy", JObj [("timeout_seconds", JInt (timeout_seconds (execution_policy i)));
                                   ("max_concurrency", JInt (max_concurrency (execution_policy i)));
                                   ("network_profile", JStr (network_profile (execution_policy i)))])].

Definition invocation_of (m : AdapterManifest) (i : AdapterInput) (n : nat) : Invocation :=
  mkInvocation (up_digest (upstream m))
    (SECURITY_FLAGS ++ [up_digest (upstream m); "--input=/in/input.json"; "--output=/out"])
    [("/in", mkdtemp "adapter-in-" n); ("/out", mkdtemp "adapter-out-" n)]
    (network_policy m) DEFAULT_RESOURCE_LIMITS (input_payload i).

Definition execute_container (m : AdapterManifest) (i : AdapterInput) : M World ContainerResult := fun w =>
  let n := length (invocations w) in
  let inv := invocation_of m i n in
  (execute n inv, mkWorld (invocations w ++ [inv]) (cas_writes w)).

(** [path.suffix.lstrip(".") or "bin"]: what follows the last point of the
    name, when that is neither its first nor its last character. *)
Definition kind_of (name : string) : string :=
  let '(stem, dot, ext) := PyStr.rpartition "." name in
  if dot && PyStr.truthy stem && PyStr.truthy ext then ext else "bin".

Definition store_artifact (name c : string) : M World Artifact := fun w =>
  let k := kind_of name in
  let w1 := mkWorld (invocations w) (cas_writes w ++ [(c, k)]) in
  match cas_store (length (cas_writes w)) c k with
  | Raise e => (Raise e, w1)
  | Ret uri => (Contracts.check_artifact (mkArtifact name k ("sha256:" +:+ Sha256.hexdigest c) uri), w1)
  end.

(** The regular files of a directory listing. *)
Definition files (l : list DirEntry) : list (string * string) :=
  omap (fun e => (fun c => (entry_name e, c)) <$> content e) l.

#[local] Instance name_le_dec : RelDecision (fun a b : DirEntry => String.le (entry_name a) (entry_name b)) :=
  fun a b => decide (String.le (entry_name a) (entry_name b)).
Definition by_name (l : list DirEntry) : list DirEntry :=
  merge_sort (fun a b => String.le (entry_name a) (entry_name b)) l.

Definition collect_artifacts (dir : option (list DirEntry)) : M World (list Artifact) :=
  match dir with
  | None => mret []
  | Some l => mapM_state (fun nc => store_artifact nc.1 nc.2) (files (by_name l))
  end.

Definition parse (m : AdapterManifest) (source : AdapterSource) (out : string) (dir : option (list DirEntry))
    : outcome (list Observation) :=
  match parsers (parser m) with
  | None => Ret []
  | Some p => p out source (match dir with None => [] | Some l => files l end)
  end.

(** [AdapterRunner.run] *)
Definition run (m : AdapterManifest) (i : AdapterInput) : M World AdapterOutput :=
  scope ← lift (rebuild_scope_snapshot (ai_scope_snapshot i));
  lift (enforce_scope m i scope);;
  source ← lift (Contracts.check_source (mkAdapterSource (am_id m) (am_version m) (up_version (upstream m))));
  try_result ← (fun w => match execute_container m i w with
                         | (Ret r, w') => (Ret (inl r), w')
                         | (Raise e, w') => if is_exception e then (Ret (inr e), w') else (Raise e, w')
                         end);
  match try_result with
  | inr e =>
      lift (Contracts.check_output (mkAdapterOutput (ai_run_id i) OutputStatus.FAILED source [] []
              ["container execution failed: " +:+ message e]))
  | inl result =>
      arts ← collect_artifacts (artifacts_dir result);
      obs ← lift (parse m source (stdout result) (artifacts_dir result));
      let ok := exit_code result =? 0 in
      lift (Contracts.check_output (mkAdapterOutput (ai_run_id i)
              (if ok then OutputStatus.COMPLETED else OutputStatus.PARTIAL) source arts obs
              (if ok then [] else ["container exit_code=" +:+ pretty (exit_code result) +:+ " stderr=" +:+ stderr result])))
  end.

End runner.
End AdapterRunner.

(** ** What the runner guarantees *)
Module AdapterFacts.
Import AdapterRunner.

Section facts.
Context (uni : Unicode) (float_conv : json -> outcome pyfloat)
        (execute : nat -> Invocation -> outcome ContainerResult)
        (cas_store : nat -> string -> string -> outcome string) (mkdtemp : string -> nat -> string)
        (parsers : string -> option (string -> AdapterSource -> list (string * string) -> outcome (list Observation))).

(** The runner with the policy engine of the program. *)
Definition run_wired : AdapterManifest -> AdapterInput -> M World AdapterOutput :=
  run float_conv (PolicyEngine.evaluate uni) execute cas_store mkdtemp parsers.

(** A target the gate lets through: never for a destructive adapter; a cloud
    account must be listed and not excluded, any other target must be an
    http URL of the scope and the first port a port of the scope; an active
    or intrusive adapter must declare a permission. *)
Definition cleared (m : AdapterManifest) (scope : ScopeSnapshot) (ports : list Z) (target : string) : Prop :=
  risk_class m <> RiskClass.DESTRUCTIVE
  /\ (risk_class m = RiskClass.ACTIVE \/ risk_class m = RiskClass.INTRUSIVE -> permissions m <> [])
  /\ ((is_cloud_target target m = Ret true /\ Scope.includes_cloud_account scope target = Ret true)
      \/ (is_cloud_target target m = Ret false
          /\ Scope.includes_port scope (hd 0 ports) = Ret true /\ Scope.includes_url uni scope target = Ret true)).

Lemma risk_approved m : risk_class m <> RiskClass.DESTRUCTIVE <-> risk_class m ∈ approved_risks.
Proof. unfold approved_risks. destruct (risk_class m); split; first [done | set_solver]. Qed.

Lemma capability_approved m : capability_of m ∈ approved_capabilities m <-> permissions m <> [] \/ False.
Proof.
  unfold capability_of, approved_capabilities. destruct (permissions m) as [|p l]; cbn; [set_solver|].
  split; [by left|]. intros _. set_solver.
Qed.

Lemma capability_needed m :
  (risk_class m = RiskClass.ACTIVE \/ risk_class m = RiskClass.INTRUSIVE -> capability_of m ∈ approved_capabilities m)
  <-> (risk_class m = RiskClass.ACTIVE \/ risk_class m = RiskClass.INTRUSIVE -> permissions m <> []).
Proof. rewrite capability_approved. naive_solver. Qed.

Lemma cloud_gate m scope t :
  enforce_cloud_target t (risk_class m) (capability_of m) scope approved_risks (approved_capabilities m) = Ret tt
  <-> risk_class m <> RiskClass.DESTRUCTIVE
      /\ (risk_class m = RiskClass.ACTIVE \/ risk_class m = RiskClass.INTRUSIVE -> permissions m <> [])
      /\ Scope.includes_cloud_account scope t = Ret true.
Proof.
  rewrite <- capability_needed. unfold enforce_cloud_target.
  assert (forall c e (k : outcome unit), (raise_if c e;; k) = Ret tt <-> c = false /\ k = Ret tt) as R.
  { intros [] e k; cbn; naive_solver. }
  rewrite R, bool_decide_eq_false, bind_Ret. do 2 setoid_rewrite R.
  setoid_rewrite raise_if_Ret. setoid_rewrite negb_false_iff. setoid_rewrite bool_decide_eq_true.
  setoid_rewrite <- risk_approved.
  assert (bool_decide (risk_class m ∈ [RiskClass.ACTIVE; RiskClass.INTRUSIVE])
          && negb (bool_decide (capability_of m ∈ approved_capabilities m)) = false
          <-> (risk_class m = RiskClass.ACTIVE \/ risk_class m = RiskClass.INTRUSIVE ->
               capability_of m ∈ approved_capabilities m)) as Hc.
  { do 2 case_bool_decide; cbn; set_solver. }
  setoid_rewrite Hc. naive_solver.
Qed.

Lemma target_gate m scope ports t :
  enforce_target (PolicyEngine.evaluate uni) m scope ports t = Ret tt <-> cleared m scope ports t.
Proof.
  unfold enforce_target, cleared. destruct (is_cloud_target t m) as [[]|e]; cbn [mbind outcome_bind].
  - rewrite cloud_gate. naive_solver.
  - pose proof (PolicyEngine.evaluate_allowed uni (mkActionRequest t (hd 0 ports) (risk_class m) (capability_of m)) scope
      ExecutionMode.SCOPE_AUTOPILOT approved_risks (approved_capabilities m)) as H.
    unfold PolicyEngine.permitted in H. cbn [ar_risk ar_port ar_target ar_capability] in H.
    rewrite capability_needed, <- risk_approved in H.
    assert ((y ← PolicyEngine.evaluate uni (mkActionRequest t (hd 0 ports) (risk_class m) (capability_of m)) scope
               ExecutionMode.SCOPE_AUTOPILOT approved_risks (approved_capabilities m);
             raise_if (negb (allowed y)) (denied t (reason y))) = Ret tt
            <-> exists d, PolicyEngine.evaluate uni (mkActionRequest t (hd 0 ports) (risk_class m) (capability_of m)) scope
               ExecutionMode.SCOPE_AUTOPILOT approved_risks (approved_capabilities m) = Ret d /\ allowed d = true) as ->.
    { rewrite bind_Ret. setoid_rewrite raise_if_Ret. by setoid_rewrite negb_false_iff. }
    rewrite H. naive_solver.
  - naive_solver.
Qed.

Lemma targets_gate m scope ports ts :
  enforce_targets (PolicyEngine.evaluate uni) m scope ports ts = Ret tt <-> Forall (cleared m scope ports) ts.
Proof.
  induction ts as [|t ts IH]; cbn [enforce_targets]; [by split|].
  rewrite Forall_cons, <- target_gate, <- IH.
  destruct (enforce_target _ m scope ports t) as [[]|e]; cbn [mbind outcome_bind]; naive_solver.
Qed.

(** The gate as a whole. *)
Definition gate_open (m : AdapterManifest) (i : AdapterInput) : Prop :=
  exists scope ports, rebuild_scope_snapshot float_conv (ai_scope_snapshot i) = Ret scope /\ extract_ports i = Ret ports
    /\ Forall (cleared m scope ports) (targets i).

Definition gate (m : AdapterManifest) (i : AdapterInput) : outcome unit :=
  scope ← rebuild_scope_snapshot float_conv (ai_scope_snapshot i); enforce_scope (PolicyEngine.evaluate uni) m i scope.

Lemma gate_opens m i : gate m i = Ret tt <-> gate_open m i.
Proof.
  unfold gate, gate_open, enforce_scope. rewrite bind_Ret. setoid_rewrite bind_Ret.
  setoid_rewrite targets_gate. naive_solver.
Qed.

(** The source named in every output. *)
Definition source_of (m : AdapterManifest) : AdapterSource :=
  mkAdapterSource (am_id m) (am_version m) (up_version (upstream m)).
Definition source_ok (m : AdapterManifest) : Prop := Contracts.check_source (source_of m) = Ret (source_of m).

Lemma check_source_Ret s s' : Contracts.check_source s = Ret s' -> s' = s.
Proof. unfold Contracts.check_source. intros H. by inv_ret. Qed.

Lemma source_cases m : source_ok m \/ ~ source_ok m.
Proof.
  unfold source_ok. destruct (Contracts.check_source (source_of m)) as [s|e] eqn:E; [left|by right].
  by apply check_source_Ret in E as ->.
Qed.

(** [run] behind its gate. *)
Definition after_gate (m : AdapterManifest) (i : AdapterInput) : M World AdapterOutput :=
  source ← lift (Contracts.check_source (source_of m));
  try_result ← (fun w => match execute_container execute mkdtemp m i w with
                         | (Ret r, w') => (Ret (inl r), w')
                         | (Raise e, w') => if is_exception e then (Ret (inr e), w') else (Raise e, w')
                         end);
  match try_result with
  | inr e =>
      lift (Contracts.check_output (mkAdapterOutput (ai_run_id i) OutputStatus.FAILED source [] []
              ["container execution failed: " +:+ message e]))
  | inl result =>
      arts ← collect_artifacts cas_store (artifacts_dir result);
      obs ← lift (parse parsers m source (stdout result) (artifacts_dir result));
      let ok := exit_code result =? 0 in
      lift (Contracts.check_output (mkAdapterOutput (ai_run_id i)
              (if ok then OutputStatus.COMPLETED else OutputStatus.PARTIAL) source arts obs
              (if ok then [] else ["container exit_code=" +:+ pretty (exit_code result) +:+ " stderr=" +:+ stderr result])))
  end.

Lemma run_gate m i w :
  run_wired m i w = match gate m i with Ret _ => after_gate m i w | Raise e => (Raise e, w) end.
Proof.
  unfold run_wired, run, gate, after_gate, source_of. unfold mbind at 1, M_bind at 1, lift at 1.
  destruct (rebuild_scope_snapshot float_conv (ai_scope_snapshot i)) as [scope|e]; [|done].
  cbn [mbind outcome_bind]. unfold M_bind at 1, lift at 1.
  by destruct (enforce_scope (PolicyEngine.evaluate uni) m i scope).
Qed.

(** Collecting artifacts starts no container. *)
Lemma collect_invocations dir w : invocations (collect_artifacts cas_store dir w).2 = invocations w.
Proof.
  destruct dir as [l|]; [|done]. unfold collect_artifacts.
  refine (preserves_mapM (fun w' => invocations w' = invocations w) _ _ _ w eq_refl).
  intros [n c] w1 <-. cbn. unfold store_artifact. by destruct (cas_store _ _ _).
Qed.

Lemma after_gate_starts m i w : source_ok m ->
  invocations (after_gate m i w).2 = invocations w ++ [invocation_of mkdtemp m i (length (invocations w))].
Proof.
  intros Hs. unfold after_gate. unfold mbind, M_bind, lift at 1. rewrite Hs. cbn [execute_container].
  unfold execute_container. destruct (execute _ _) as [r|e].
  - pose proof (collect_invocations (artifacts_dir r) (mkWorld (invocations w ++
      [invocation_of mkdtemp m i (length (invocations w))]) (cas_writes w))) as H.
    destruct (collect_artifacts _ _ _) as [[arts|e] w']; cbn in H |- *; [|done].
    unfold lift. destruct (parse _ _ _ _ _); cbn; done.
  - by destruct (is_exception e).
Qed.

Lemma after_gate_stops m i w : ~ source_ok m -> exists e, after_gate m i w = (Raise e, w).
Proof.
  intros Hs. unfold after_gate, source_ok, lift in *. unfold mbind, M_bind.
  destruct (Contracts.check_source (source_of m)) as [s|e] eqn:E; [|by exists e].
  destruct Hs. by apply check_source_Ret in E as ->.
Qed.

(** C7: no container starts before the gate. A run starts one container, with
    the pinned image of the manifest and the hardening flags, exactly when the
    scope snapshot reads back, the ports read as integers and every target of
    the input is cleared, and the manifest names a source. Otherwise it raises
    and starts and stores nothing. *)
Theorem no_container_before_the_gate m i w :
  let '(o, w') := run_wired m i w in
  (gate_open m i /\ source_ok m
   /\ invocations w' = invocations w ++ [invocation_of mkdtemp m i (length (invocations w))]
   /\ image_digest (invocation_of mkdtemp m i (length (invocations w))) = up_digest (upstream m)
   /\ SECURITY_FLAGS `prefix_of` command (invocation_of mkdtemp m i (length (invocations w))))
  \/ (~ (gate_open m i /\ source_ok m) /\ w' = w /\ exists e, o = Raise e).
Proof.
  rewrite run_gate. destruct (gate m i) as [[]|e] eqn:Eg.
  - apply gate_opens in Eg. destruct (source_cases m) as [Hs|Hs].
    + pose proof (after_gate_starts m i w Hs) as H. destruct (after_gate m i w) as [o w']. left.
      split_and!; [done..|by eexists].
    + destruct (after_gate_stops m i w Hs) as [e ->]. right. split_and!; [by intros []|done|by eexists].
  - right. split_and!; [|done|by eexists]. intros [H%gate_opens _]. congruence.
Qed.

(** Storing the files of a directory: every one is written in turn, and the
    handle of each names its content. *)
Definition stores (nc : string * string) (a : Artifact) : Prop :=
  art_id a = nc.1 /\ art_kind a = kind_of nc.1 /\ art_sha256 a = "sha256:" +:+ Sha256.hexdigest nc.2
  /\ exists k, cas_store k nc.2 (kind_of nc.1) = Ret (storage_uri a).

Lemma store_artifact_Ret nc a w w' : store_artifact cas_store nc.1 nc.2 w = (Ret a, w') ->
  stores nc a /\ w' = mkWorld (invocations w) (cas_writes w ++ [(nc.2, kind_of nc.1)]).
Proof.
  unfold store_artifact. destruct (cas_store _ _ _) as [uri|e] eqn:E; [|done]. intros [= H <-].
  unfold Contracts.check_artifact in H. inv_ret. split; [|done]. unfold stores; cbn. eauto.
Qed.

Lemma store_all l : forall w arts w',
  mapM_state (fun nc => store_artifact cas_store nc.1 nc.2) l w = (Ret arts, w') ->
  Forall2 stores l arts
  /\ w' = mkWorld (invocations w) (cas_writes w ++ ((fun nc => (nc.2, kind_of nc.1)) <$> l)).
Proof.
  induction l as [|nc l IH]; intros w arts w'; cbn [mapM_state].
  { intros [= <- <-]. split; [constructor|]. rewrite app_nil_r. by destruct w. }
  unfold mbind, M_bind. destruct (store_artifact _ _ _ w) as [[a|e] w1] eqn:E; [|done].
  destruct (mapM_state _ _ w1) as [[rest|e] w2] eqn:E2; [|done]. intros [= <- <-].
  apply store_artifact_Ret in E as [H1 ->]. apply IH in E2 as [H2 ->]. split; [by constructor|].
  cbn. by rewrite <- app_assoc.
Qed.

(** What an output says of the container that ran. *)
Definition reports (m : AdapterManifest) (i : AdapterInput) (w w' : World) (out : AdapterOutput) : Prop :=
  let n := length (invocations w) in
  match execute n (invocation_of mkdtemp m i n) with
  | Raise e => ao_status out = OutputStatus.FAILED /\ artifacts out = [] /\ observations out = []
               /\ errors out = ["container execution failed: " +:+ message e] /\ cas_writes w' = cas_writes w
  | Ret r =>
      let fs := match artifacts_dir r with None => [] | Some l => files (by_name l) end in
      (ao_status out = OutputStatus.COMPLETED <-> exit_code r = 0) /\ ao_status out <> OutputStatus.FAILED
      /\ (errors out = [] <-> exit_code r = 0)
      /\ Forall2 stores fs (artifacts out)
      /\ cas_writes w' = cas_writes w ++ ((fun nc => (nc.2, kind_of nc.1)) <$> fs)
      /\ match parsers (parser m) with
         | None => observations out = []
         | Some p => p (stdout r) (source_of m) (match artifacts_dir r with None => [] | Some l => files l end)
                     = Ret (observations out)
         end
  end.

Lemma check_output_Ret o o' : Contracts.check_output o = Ret o' -> o' = o.
Proof. unfold Contracts.check_output. intros H. by inv_ret. Qed.

(** an output is the account of one container. When a run returns, the
    output names the run and the tool; it is FAILED exactly when the executor
    raised, with that error and nothing stored; otherwise it is COMPLETED
    exactly for exit code zero, its artifacts are the regular files of the
    output directory in name order, each stored once under the digest of its
    content, and its observations are what the parser of the manifest made of
    the output. *)
Theorem output_reports_the_container m i w out w' :
  (forall n inv e, execute n inv = Raise e -> is_exception e = true) ->
  run_wired m i w = (Ret out, w') ->
  ao_run_id out = ai_run_id i /\ tool out = source_of m /\ reports m i w w' out.
Proof.
  intros Hx. rewrite run_gate. destruct (gate m i) as [_|e]; [|done].
  unfold after_gate. unfold mbind, M_bind, lift at 1.
  destruct (Contracts.check_source (source_of m)) as [s|e] eqn:Es; [|done]. apply check_source_Ret in Es as ->.
  unfold execute_container, reports. destruct (execute _ _) as [r|e] eqn:Ex.
  - unfold collect_artifacts, parse.
    destruct (artifacts_dir r) as [l|] eqn:Ed; cbn [mret M_ret].
    + destruct (mapM_state _ _ _) as [[arts|e] w1] eqn:Em; [|done]. apply store_all in Em as [Hs ->].
      unfold lift. destruct (parsers (parser m)) as [p|]; [destruct (p _ _ _) as [obs|e] eqn:Ep; [|done]|];
        intros [= H%check_output_Ret <-]; subst out; cbn; rewrite ?Ed, ?Ep;
        destruct (Z.eqb_spec (exit_code r) 0); naive_solver.
    + unfold lift. destruct (parsers (parser m)) as [p|]; [destruct (p _ _ _) as [obs|e] eqn:Ep; [|done]|];
        intros [= H%check_output_Ret <-]; subst out; cbn; rewrite ?Ed, ?Ep, ?app_nil_r;
        destruct (Z.eqb_spec (exit_code r) 0); naive_solver.
  - rewrite (Hx _ _ _ Ex). unfold lift. intros [= H%check_output_Ret <-]. by subst out.
Qed.

(** Port 0 is what a target without ports is checked with, and it is no port:
    the documented port-less runs always raise. *)
Lemma portless_runs_always_raise m i w t ts :
  field "ports" (options i) = None -> targets i = t :: ts -> is_cloud_target t m = Ret false ->
  exists e, run_wired m i w = (Raise e, w).
Proof.
  intros Hp Ht Hc. rewrite run_gate. destruct (gate m i) as [[]|e] eqn:E; [exfalso|by eexists].
  apply gate_opens in E as (scope & ports & _ & Hports & Hall). unfold extract_ports in Hports. rewrite Hp in Hports.
  injection Hports as <-. rewrite Ht, Forall_cons in Hall. destruct Hall as [(_ & _ & [[H _]|(_ & H & _)]) _]; [congruence|discriminate H].
Qed.

End facts.

(** ** Concrete runs *)
Definition demo_upstream : AdapterUpstream := mkAdapterUpstream "nuclei" "https://example.org" "3.1" "sha256:aa".
Definition demo_manifest (domains : list CoverageDomain) : AdapterManifest :=
  mkAdapterManifest "nuclei" "1" "1" "MIT" demo_upstream RiskClass.ACTIVE domains
    "in" "out" "scoped" "nuclei:parse" [] ["network.connect"] "".
Definition demo_scope : list (string * json) :=
  [("limits", JObj [("requests_per_second", JInt 5); ("concurrency", JInt 3); ("max_requests", JInt 100)]);
   ("ports", JArr [JInt 443]); ("approved_at", JStr "2026-01-01T00:00:00+00:00");
   ("include", JArr [JStr "https://app.example.com/"]); ("cloud_accounts", JArr [JStr "aws:123"]);
   ("id", JStr "scope-1"); ("project_id", JStr "p"); ("approved_by", JStr "ana"); ("digest", JStr "d")].
Definition demo_input (ts : list string) (ports : list (string * json)) : AdapterInput :=
  mkAdapterInput "r1" "e1" demo_scope ts ports (mkExecutionPolicy 60 1 "scoped").
Definition demo_execute (n : nat) (inv : Invocation) : outcome ContainerResult :=
  Ret (mkContainerResult "{}" "" 0 (Some [mkEntry "b.json" (Some "B"); mkEntry "sub" None; mkEntry "a" (Some "A")])).
Definition demo_store (n : nat) (c k : string) : outcome string := Ret ("cas://" +:+ k +:+ "/" +:+ c).
Definition demo_conv (v : json) : outcome pyfloat := Raise (ValueError "could not convert string to float").
Definition demo_run (domains : list CoverageDomain) (ts : list string) (ports : list (string * json)) : outcome AdapterOutput * World :=
  run_wired FrozenScope.ascii_only demo_conv demo_execute demo_store (fun p n => "/tmp/" +:+ p +:+ pretty n)
    (fun _ => None) (demo_manifest domains) (demo_input ts ports) (mkWorld [] []).

Example demo_outputs :
  let '(o, w) := demo_run [CoverageDomain.WEB] ["https://app.example.com/"] [("ports", JArr [JInt 443])] in
  (fun out => (ao_status out, (fun a => (art_id a, art_kind a, storage_uri a)) <$> artifacts out)) <$> o
  = Ret (OutputStatus.COMPLETED, [("a", "bin", "cas://bin/A"); ("b.json", "json", "cas://json/B")])
  /\ length (invocations w) = 1%nat /\ cas_writes w = [("A", "bin"); ("B", "json")].
Proof. vm_compute. done. Qed.

(** Only the first port is checked; the tool is given all of them. *)
Example only_the_first_port_is_checked :
  let '(o, w) := demo_run [CoverageDomain.WEB] ["https://app.example.com/"] [("ports", JArr [JInt 443; JInt 22])] in
  is_Ret o = true /\ (fun inv => match input_json inv with JObj l => field "options" l | _ => None end) <$> invocations w
    = [Some (JObj [("ports", JArr [JInt 443; JInt 22])])].
Proof. vm_compute. done. Qed.

(** A URL parses as a cloud account of the provider https: an adapter that
    also covers the cloud is refused every URL, whatever the scope. *)
Example url_is_taken_for_a_cloud_account :
  is_cloud_target "https://app.example.com/" (demo_manifest [CoverageDomain.WEB; CoverageDomain.CLOUD]) = Ret true
  /\ demo_run [CoverageDomain.WEB; CoverageDomain.CLOUD] ["https://app.example.com/"] [("ports", JArr [JInt 443])]
     = (Raise (denied "https://app.example.com/" "SCOPE_DENIED"), mkWorld [] []).
Proof. vm_compute. done. Qed.

Lemma output_reports_the_container_witness :
  exists out w', demo_run [CoverageDomain.CLOUD] ["aws:123"] [] = (Ret out, w') /\ ao_run_id out = "r1".
Proof.
  eexists _, _. split; [reflexivity|].
  refine (proj1 (output_reports_the_container FrozenScope.ascii_only demo_conv demo_execute demo_store
    (fun p n => "/tmp/" +:+ p +:+ pretty n) (fun _ => None) (demo_manifest [CoverageDomain.CLOUD]) (demo_input ["aws:123"] []) (mkWorld [] []) _ _ _ eq_refl)).
  intros n inv e H. discriminate H.
Defined.

End AdapterFacts.
