(* ===== verification/StepRunner.v ===== *)
(** * Step runner

    Models [src/secopent/infrastructure/adapters/image_catalog.py] (Module
    [ImageCatalog]), [real_scan.py] (Module [RealScan]) and [step_runner.py]
    (Module [StepRunner]): how a plan step becomes container runs, one per
    target of the engagement, and how their observations are kept.  The
    container executor and the tool parsers are parameters; nothing is assumed
    of them, so what they raise may leave a step. *)
From S2P Require Import Prelude PyStr PyTime PyFloat Sha256 Canonical PyJson Policy PyDict Assessments Jobs Orchestrator Contracts.

#[local] Open Scope Z_scope.

(** ** [pathlib.PurePosixPath] *)
Module PosixPath.

Definition parts (s : string) : list string :=
  List.filter (fun p => negb (bool_decide (p = "") || bool_decide (p = "."))) (PyStr.split "/" s).

Definition root (s : string) : string :=
  if PyStr.startswith s "//" && negb (PyStr.startswith s "///") then "//"
  else if PyStr.startswith s "/" then "/" else "".

(** [str(Path(s))] *)
Definition path_str (s : string) : string :=
  let t := root s +:+ PyStr.join "/" (parts s) in if PyStr.is_empty t then "." else t.

(** [Path(s).name] *)
Definition name (s : string) : string := default "" (last (parts s)).

End PosixPath.

(** ** Images *)
Record ImageRef : Type := mkImage { image_name : string; tag : string; digest : string }.

Module ImageCatalog.

Definition IMAGE_CATALOG : dict ImageRef :=
  [("subfinder", mkImage "projectdiscovery/subfinder" "latest" "sha256:8953620e5248c43871c7d852bf60095f326622c99e88e7ca831c201e68020a22");
   ("httpx", mkImage "projectdiscovery/httpx" "latest" "sha256:e2f89a700e535b3e0d5ccf95e3383ebb54c2faecd8e8100573455cd0cbe8e02d");
   ("naabu", mkImage "projectdiscovery/naabu" "latest" "sha256:0b7efcd6eb4bf7be2c5cfb2bbfe091a132df0e442e549267bca818a4cef15ea4");
   ("katana", mkImage "projectdiscovery/katana" "latest" "sha256:a05d8460d34d06addc259da2543e554ef85ea756ed68e57701850fe09f326eff");
   ("fingerprinthub", mkImage "dominicbreuker/fingerprintx" "latest" "");
   ("nuclei", mkImage "projectdiscovery/nuclei" "latest" "sha256:e677842fb1f50f29747565ba274a1d35dcf8c684132a42b0cb406e71fccae9fc");
   ("dalfox", mkImage "hahwul/dalfox" "latest" "sha256:91d5cebda9114fb7c2bfc7ad179ac5d605705c0bf4632a68f572f7a2f1d8a6dc");
   ("restler", mkImage "mcr.microsoft.com/restlerfuzzer/restler" "latest" "sha256:0f3275119352be05011b7004a7bc644b190baf7522674ab970955917ee111a12");
   ("schemathesis", mkImage "schemathesis/schemathesis" "latest" "sha256:2f25d34b5e063e58df213f43a8ae288f656e0c1ca7a27821e0f1987430893ae5");
   ("zap", mkImage "owasp/zap2docker-stable" "latest" "");
   ("nmap", mkImage "instrumentisto/nmap" "latest" "sha256:96f6ed194519b62421a1a1c57809e65a7f94d2aa1c8c25676f247e5e148c0827");
   ("nuclei_tcp", mkImage "projectdiscovery/nuclei" "latest" "sha256:e677842fb1f50f29747565ba274a1d35dcf8c684132a42b0cb406e71fccae9fc");
   ("prowler", mkImage "toniblyx/prowler" "latest" "");
   ("trivy", mkImage "aquasec/trivy" "latest" "sha256:cffe3f5161a47a6823fbd23d985795b3ed72a4c806da4c4df16266c02accdd6f");
   ("kube_bench", mkImage "aquasec/kube-bench" "latest" "");
   ("checkov", mkImage "bridgecrew/checkov" "latest" "sha256:c64ffb6d6fc8087c896341a2c697770a04a1cf558db04fa7b8129d8ca6bce336");
   ("scoutsuite", mkImage "nccgroup/scoutsuite" "latest" "");
   ("juice_shop", mkImage "bkimminich/juice-shop" "latest" "sha256:e68144772ebaaca0ec117b38d44903af92416793230288ef7c5437fc4f26850a");
   ("httpbin", mkImage "kennethreitz/httpbin" "latest" "sha256:599fe5e5073102dbb0ee3dbb65f049dab44fa9fc251f6835c9990f8fb196a72b");
   ("interactsh_server", mkImage "projectdiscovery/interactsh-server" "latest" "sha256:f75d1fdeb0598012ce4560158232a9ad99701da28b31c141dc95d03402e4aa4f");
   ("alpine", mkImage "library/alpine" "latest" "sha256:28bd5fe8b56d1bd048e5babf5b10710ebe0bae67db86916198a6eec434943f8b")].

Definition ref (adapter_key : string) : outcome ImageRef :=
  unwrap (PyDict.get adapter_key IMAGE_CATALOG) (KeyError (PyStr.repr adapter_key)).

Definition pull_spec (adapter_key : string) : outcome string :=
  image ← ref adapter_key;
  Ret (if PyStr.is_empty (digest image) then image_name image +:+ ":" +:+ tag image
       else image_name image +:+ "@" +:+ digest image).

End ImageCatalog.

(** ** One tool scan *)

(** An observation as a parser makes it.  The field [asset_identity] holds
    whatever value the tool printed there (some parsers pass a number, a list
    or a dict on); that of [as_observation] is its [str()]. *)
Record Scanned : Type := mkScanned {
  as_observation :> Observation;
  raw_asset : json
}.

(** One call of the container executor. *)
Record ScanCall : Type := mkScanCall {
  image : string;
  sc_command : list string;
  sc_mounts : dict string;
  sc_limits : list (string * string);
  capabilities : list string
}.

Record RealScanResult : Type := mkScanResult {
  rs_adapter : string;
  rs_observations : list Scanned;
  rs_exit_code : Z;
  rs_stdout : string;
  rs_stderr : string
}.

Module RealScan.

(** The keys of [_ADAPTER_PARSERS]. *)
Definition ADAPTER_PARSERS : list string :=
  ["nuclei"; "subfinder"; "httpx"; "naabu"; "nmap"; "dalfox"; "katana"; "schemathesis"; "restler"; "trivy"; "prowler";
   "kube_bench"; "checkov"; "scoutsuite"].

Definition limits (memory cpus : string) : list (string * string) := [("memory", memory); ("cpus", cpus)].

Definition DEFAULT_RESOURCE_LIMITS : list (string * string) := limits "512m" "0.5".

Definition ADAPTER_RESOURCE_LIMITS : dict (list (string * string)) :=
  [("trivy", limits "2g" "1.0"); ("prowler", limits "1g" "1.0"); ("scoutsuite", limits "1g" "1.0");
   ("zap", limits "1g" "1.0"); ("schemathesis", limits "1g" "1.0"); ("restler", limits "1g" "1.0");
   ("checkov", limits "1g" "1.0"); ("kube_bench", limits "1g" "1.0"); ("nuclei", limits "2g" "1.0")].

Definition ADAPTER_CAPABILITIES : dict (list string) := [("nmap", ["NET_RAW"]); ("naabu", ["NET_RAW"])].

Definition image_ref (adapter_key : string) : outcome string := ImageCatalog.pull_spec adapter_key.

Section scan.
(** What the n-th container does (standard output and error, exit code), and
    the parser of an adapter. *)
Context (execute : nat -> ScanCall -> outcome (string * string * Z))
        (parse : string -> string -> AdapterSource -> outcome (list Scanned)).

Definition call_of (adapter_key : string) (args : list string) (mounts : dict string) : outcome ScanCall :=
  i ← image_ref adapter_key;
  Ret (mkScanCall i args mounts
         (default DEFAULT_RESOURCE_LIMITS (PyDict.get adapter_key ADAPTER_RESOURCE_LIMITS))
         (default [] (PyDict.get adapter_key ADAPTER_CAPABILITIES))).

Definition launch_failed (adapter_key : string) (e : exn) : exn :=
  if is_exception e
  then ContainerExecError ("container launch failed for " +:+ adapter_key +:+ ": " +:+ message e) else e.

(** [RealScanRunner.scan] *)
Definition scan (adapter_key : string) (args : list string) (mounts : dict string) : M (list ScanCall) RealScanResult :=
  lift (raise_if (negb (bool_decide (adapter_key ∈ ADAPTER_PARSERS)))
          (ValueError ("no parser registered for adapter " +:+ PyStr.repr adapter_key)));;
  '(out, err, code) ← (fun calls =>
     match call_of adapter_key args mounts with
     | Raise e => (Raise (launch_failed adapter_key e), calls)
     | Ret c => match execute (length calls) c with
                | Raise e => (Raise (launch_failed adapter_key e), calls ++ [c])
                | Ret r => (Ret r, calls ++ [c])
                end
     end);
  source ← lift (Contracts.check_source (mkAdapterSource adapter_key "1.0.0" "1.0.0"));
  obs ← lift (parse adapter_key out source);
  mret (mkScanResult adapter_key obs code out err).

End scan.
End RealScan.

(** ** The runner of plan steps *)
Record ScanContext : Type := mkContext {
  ctx_targets : list string;
  template_host_dir : option string;
  template_container_path : string;
  extra_mounts : list (string * string);
  ctx_ports : list Z
}.

(** What a step does besides returning: a [StepFailure], or another
    exception. *)
Inductive attempt (A : Type) : Type :=
| Done (a : A)
| StepFailed (fc : FailureClass) (msg : string)
| Raised (e : exn).
Arguments Done {A} a.
Arguments StepFailed {A} fc msg.
Arguments Raised {A} e.

Record State : Type := mkState {
  scans : list ScanCall;
  collected : dict (list Scanned)
}.

Module StepRunner.
Import FailureClass.

Definition TEMPLATE_ADAPTERS : list string := ["nuclei"; "nuclei_tcp"].
Definition URL_ADAPTERS : list string := ["nuclei"; "nuclei_tcp"; "httpx"; "katana"; "dalfox"].

Definition source_json (s : AdapterSource) : json :=
  JObj [("name", JStr (src_name s)); ("version", JStr (src_version s)); ("template_version", JStr (template_version s))].

(** No float of the value is beyond the doubles. *)
Fixpoint finite (v : json) : bool :=
  match v with
  | JFloat f => negb (PyFloat.overflows f)
  | JArr l => forallb finite l
  | JObj l => forallb (fun e => finite e.2) l
  | _ => true
  end.

(** What [canonical_json] refuses: [allow_nan=False]. *)
Definition out_of_range : exn := ValueError "Out of range float values are not JSON compliant".

(** [asdict(observation)], as [canonical_json] encodes it. *)
Definition observation_json (o : Scanned) : outcome json :=
  conf ← Canonical.json_of_float (confidence o);
  raise_if (negb (finite (raw_asset o) && finite (JObj (raw o)))) out_of_range;;
  Ret (JObj [("external_id", JStr (external_id o)); ("asset_identity", raw_asset o);
             ("source", source_json (obs_source o)); ("rule_id", JStr (rule_id o)); ("rule_version", JStr (rule_version o));
             ("coverage_domain", Canonical.jenum (coverage_domain o)); ("title", JStr (obs_title o));
             ("severity", Canonical.jenum (obs_severity o)); ("confidence", conf); ("cwe", Canonical.jstrs (obs_cwe o));
             ("cve", Canonical.jstrs (obs_cve o)); ("owasp", Canonical.jstrs (obs_owasp o));
             ("evidence_artifact_ids", Canonical.jstrs (evidence_artifact_ids o)); ("raw", JObj (raw o))]).

Definition digest_of (l : list Scanned) : outcome string :=
  js ← mapM_outcome observation_json l; Ret (Canonical.canonical_digest (JArr js)).

Section runner.
Context (execute : nat -> ScanCall -> outcome (string * string * Z))
        (parse : string -> string -> AdapterSource -> outcome (list Scanned))
        (is_file : string -> bool).

Definition ports_arg (c : ScanContext) : string := PyStr.join "," (pretty <$> ctx_ports c).

Definition url_target (adapter_key target : string) : string :=
  if bool_decide (adapter_key ∈ URL_ADAPTERS) then PyStr.rstrip_char "/" target else target.

Definition base_mounts (c : ScanContext) : dict string :=
  foldl (fun d m => PyDict.set m.1 m.2 d) [] (extra_mounts c).

(** [if self._context.template_host_dir]: the directory when it is given. *)
Definition host_dir (c : ScanContext) : option string :=
  match template_host_dir c with Some d => if PyStr.is_empty d then None else Some d | None => None end.

(** The arguments of nuclei. *)
Definition template_invocation (c : ScanContext) (target : string) : list string * dict string :=
  let args := ["-u"; target; "-jsonl"; "-silent"; "-duc"] in
  match host_dir c with
  | None => (args, base_mounts c)
  | Some d =>
      if is_file (PosixPath.path_str d) then
        let file_dest := template_container_path c +:+ "/" +:+ PosixPath.name d in
        ("-t" :: file_dest :: args, PyDict.set file_dest (PosixPath.path_str d) (base_mounts c))
      else ("-t" :: (template_container_path c +:+ "/") :: args, PyDict.set (template_container_path c) d (base_mounts c))
  end.

(** The arguments of the tools that need neither templates nor ports. *)
Definition plain_args (adapter_key target : string) : list string :=
  if bool_decide (adapter_key = "httpx") then ["-u"; target; "-json"; "-silent"]
  else if bool_decide (adapter_key = "dalfox") then ["dalfox"; "url"; target; "-o"; "json"; "--silence"]
  else if bool_decide (adapter_key = "subfinder") then ["-d"; target; "-json"; "-silent"]
  else if bool_decide (adapter_key = "katana") then ["-u"; target; "-json"; "-silent"; "-d"; "3"]
  else if bool_decide (adapter_key = "fingerprinthub") then ["-t"; target; "-j"]
  else if bool_decide (adapter_key = "schemathesis") then ["run"; target; "--report"; "json"; "--hypothesis-max-examples"; "50"]
  else if bool_decide (adapter_key = "prowler") then [target; "-M"; "json"]
  else if bool_decide (adapter_key = "kube_bench") then ["--json"]
  else if bool_decide (adapter_key = "scoutsuite") then [target; "--report-dir"; "/work/output"; "--json"]
  else if bool_decide (adapter_key = "zap") then ["-t"; target; "-J"; "-l"; "WARN"]
  else if bool_decide (adapter_key = "restler") then ["test"; "--grammar_file"; target]
  else if bool_decide (adapter_key = "trivy") then ["image"; "--format"; "json"; "--quiet"; target]
  else [target].

(** [_invocation] *)
Definition invocation (c : ScanContext) (adapter_key target0 : string) : attempt (list string * dict string) :=
  let target := url_target adapter_key target0 in
  if bool_decide (adapter_key ∈ TEMPLATE_ADAPTERS) then Done (template_invocation c target)
  else if bool_decide (adapter_key = "nmap") then
    Done ((if bool_decide (ctx_ports c = []) then ["--open"; "-oX"; "-"; target]
           else ["-p"; ports_arg c; "--open"; "-oX"; "-"; target]), base_mounts c)
  else if bool_decide (adapter_key = "naabu") then
    Done ((if bool_decide (ctx_ports c = []) then ["-host"; target; "-json"; "-silent"]
           else ["-host"; target; "-p"; ports_arg c; "-json"; "-silent"]), base_mounts c)
  else if bool_decide (adapter_key = "checkov") then
    match host_dir c with
    | Some d => Done (["--directory"; template_container_path c; "--output"; "json"; "--quiet"],
                      PyDict.set (template_container_path c) d (base_mounts c))
    | None => StepFailed INPUT_INVALID "checkov requires template_host_dir (IaC input directory)"
    end
  else Done (plain_args adapter_key target, base_mounts c).

(** A scan that exits with an error and finds nothing is no result. *)
Definition fruitless (r : RealScanResult) : bool :=
  negb (rs_exit_code r =? 0) && bool_decide (rs_observations r = []).

Definition no_result (s : PlanStep) (target : string) (r : RealScanResult) : string :=
  let err := PyStr.strip (rs_stderr r) in
  "adapter " +:+ PyStr.repr (runner s) +:+ " on " +:+ target +:+ ": exit_code=" +:+ pretty (rs_exit_code r)
  +:+ ", stderr=" +:+ (if PyStr.is_empty err then "no stderr" else err).

(** [_scan_target]; [DomainValidationError] is a [ValueError] too. *)
Definition scan_target (c : ScanContext) (s : PlanStep) (target : string) (calls : list ScanCall)
    : attempt RealScanResult * list ScanCall :=
  match invocation c (runner s) target with
  | StepFailed fc msg => (StepFailed fc msg, calls)
  | Raised e => (Raised e, calls)
  | Done (args, mounts) =>
      match RealScan.scan execute parse (runner s) args mounts calls with
      | (Raise (ContainerExecError msg), calls) =>
          (StepFailed WORKER_UNAVAILABLE
             (msg +:+ " (see `docker logs " +:+ runner s +:+ "` for the container)"), calls)
      | (Raise e, calls) => (if is_value_error e then StepFailed INPUT_INVALID (message e) else Raised e, calls)
      | (Ret r, calls) =>
          (if fruitless r then StepFailed WORKER_UNAVAILABLE (no_result s target r) else Done r, calls)
      end
  end.

Fixpoint scan_targets (c : ScanContext) (s : PlanStep) (ts : list string) (merged : list Scanned) (calls : list ScanCall)
    : attempt (list Scanned) * list ScanCall :=
  match ts with
  | [] => (Done merged, calls)
  | t :: ts =>
      match scan_target c s t calls with
      | (Done r, calls) => scan_targets c s ts (merged ++ rs_observations r) calls
      | (StepFailed fc msg, calls) => (StepFailed fc msg, calls)
      | (Raised e, calls) => (Raised e, calls)
      end
  end.

(** [AdapterStepRunner.run] *)
Definition run (c : ScanContext) (s : PlanStep) (w : State) : attempt string * State :=
  if bool_decide (ctx_targets c = []) then (StepFailed INPUT_INVALID "scan context has no targets", w)
  else
    match scan_targets c s (ctx_targets c) [] (scans w) with
    | (Done l, calls) =>
        let w' := mkState calls (PyDict.set (step_key s) l (collected w)) in
        match digest_of l with Ret d => (Done d, w') | Raise e => (Raised e, w') end
    | (StepFailed fc msg, calls) => (StepFailed fc msg, mkState calls (collected w))
    | (Raised e, calls) => (Raised e, mkState calls (collected w))
    end.

Definition observations_for (key : string) (w : State) : list Scanned := default [] (PyDict.get key (collected w)).

Definition all_observations (w : State) : list Scanned := mjoin (PyDict.values (collected w)).

(** What the orchestrator sees of a step. *)
Definition result_of (a : attempt string) : run_result :=
  match a with Done d => RunOk d | StepFailed fc _ => RunFailure fc | Raised e => RunError e end.

Definition initial : State := mkState [] [].

(** The state after the given runs, newest first. *)
Fixpoint after (c : ScanContext) (h : list PlanStep) : State :=
  match h with [] => initial | s :: h => (run c s (after c h)).2 end.

(** The runner as the parameter of [Orchestrator]. *)
Definition step_runner (c : ScanContext) (h : list PlanStep) (s : PlanStep) : run_result :=
  result_of (run c s (after c h)).1.

End runner.
End StepRunner.

(** ** What a step does *)
Module StepRunnerFacts.
Import StepRunner FailureClass.

Section facts.
Context (execute : nat -> ScanCall -> outcome (string * string * Z))
        (parse : string -> string -> AdapterSource -> outcome (list Scanned))
        (is_file : string -> bool) (c : ScanContext).

(** The container a target is scanned with, if the step starts one at all. *)
Definition call_for (s : PlanStep) (t : string) : option ScanCall :=
  if bool_decide (runner s ∈ RealScan.ADAPTER_PARSERS) then
    match invocation is_file c (runner s) t with
    | Done (args, mounts) => match RealScan.call_of (runner s) args mounts with Ret k => Some k | Raise _ => None end
    | _ => None
    end
  else None.

Definition default_source (key : string) : AdapterSource := mkAdapterSource key "1.0.0" "1.0.0".

(** The result of the n-th container, started for a target, is [r]. *)
Definition scanned (s : PlanStep) (n : nat) (t : string) (r : RealScanResult) : Prop :=
  exists k, call_for s t = Some k /\ execute n k = Ret (rs_stdout r, rs_stderr r, rs_exit_code r)
    /\ parse (runner s) (rs_stdout r) (default_source (runner s)) = Ret (rs_observations r) /\ fruitless r = false.

Lemma parser_key_named key : key ∈ RealScan.ADAPTER_PARSERS ->
  Contracts.check_source (default_source key) = Ret (default_source key).
Proof. intros H. unfold Contracts.check_source, default_source, Contracts.require_text. cbn.
  destruct key; [|done]. exfalso. revert H. cbv [RealScan.ADAPTER_PARSERS]. set_solver. Qed.

Lemma scan_spec key args mounts calls :
  let '(o, calls') := RealScan.scan execute parse key args mounts calls in
  let started := if bool_decide (key ∈ RealScan.ADAPTER_PARSERS) then
                   match RealScan.call_of key args mounts with Ret k => [k] | Raise _ => [] end else [] in
  calls' = calls ++ started
  /\ forall r, o = Ret r -> exists k, started = [k]
       /\ execute (length calls) k = Ret (rs_stdout r, rs_stderr r, rs_exit_code r)
       /\ parse key (rs_stdout r) (default_source key) = Ret (rs_observations r).
Proof.
  unfold RealScan.scan, mbind, M_bind, lift. case_bool_decide as Hk; cbn [raise_if negb].
  2: { by rewrite app_nil_r. }
  destruct (RealScan.call_of key args mounts) as [k|e]; [|by rewrite app_nil_r].
  destruct (execute (length calls) k) as [[[out err] code]|e] eqn:Ex; [|done].
  change (mkAdapterSource key "1.0.0" "1.0.0") with (default_source key). rewrite (parser_key_named _ Hk). destruct (parse _ _ _) as [obs|e] eqn:Ep; [|done].
  split; [done|]. intros r [= <-]. by exists k.
Qed.

Lemma scan_target_spec s t calls :
  let '(a, calls') := scan_target execute parse is_file c s t calls in
  calls' = calls ++ option_list (call_for s t)
  /\ forall r, a = Done r -> scanned s (length calls) t r.
Proof.
  unfold scan_target, call_for, scanned, call_for.
  destruct (invocation is_file c (runner s) t) as [[args mounts]|fc msg|e];
    [|case_bool_decide; by rewrite app_nil_r..].
  pose proof (scan_spec (runner s) args mounts calls) as H.
  destruct (RealScan.scan execute parse (runner s) args mounts calls) as [[r|e] calls'].
  - destruct H as [-> H]. split.
    { case_bool_decide; [|done]. by destruct (RealScan.call_of _ _ _). }
    intros r'. destruct (fruitless r) eqn:Ef; [done|]. intros [= <-].
    destruct (H r eq_refl) as (k & Hs & He & Hp). exists k. case_bool_decide; [|done].
    destruct (RealScan.call_of _ _ _); [|done]. injection Hs as <-. done.
  - destruct H as [-> _].
    assert (calls ++ (if bool_decide (runner s ∈ RealScan.ADAPTER_PARSERS) then
              match RealScan.call_of (runner s) args mounts with Ret k => [k] | Raise _ => [] end else [])
            = calls ++ option_list (if bool_decide (runner s ∈ RealScan.ADAPTER_PARSERS) then
              match RealScan.call_of (runner s) args mounts with Ret k => Some k | Raise _ => None end else None)) as ->.
    { case_bool_decide; [|done]. by destruct (RealScan.call_of _ _ _). }
    destruct e; try (split; [done|]; cbn; by intros r [=]); cbn.
Qed.

(** The results of the targets, the first scanned by the n-th container. *)
Definition all_scanned (s : PlanStep) (n : nat) (ts : list string) (rs : list RealScanResult) : Prop :=
  length rs = length ts
  /\ forall i t r, ts !! i = Some t -> rs !! i = Some r -> scanned s (n + i) t r.

Lemma scan_targets_spec s ts : forall merged calls,
  let '(a, calls') := scan_targets execute parse is_file c s ts merged calls in
  (exists n, (n <= length ts)%nat /\ calls' = calls ++ omap (call_for s) (take n ts))
  /\ forall l, a = Done l -> calls' = calls ++ omap (call_for s) ts
     /\ exists rs, all_scanned s (length calls) ts rs /\ l = merged ++ mjoin (rs_observations <$> rs).
Proof.
  induction ts as [|t ts IH]; intros merged calls; cbn [scan_targets].
  { split; [exists 0%nat; by rewrite app_nil_r|]. intros l [= <-]. rewrite !app_nil_r. split; [done|].
    exists []. rewrite app_nil_r. done. }
  pose proof (scan_target_spec s t calls) as H.
  assert (forall k, option_list k = omap (M:=list) (fun x : option ScanCall => x) [k]) as Ho by (by intros [k|]).
  assert (forall l, omap (call_for s) (t :: l) = option_list (call_for s t) ++ omap (call_for s) l) as Hc.
  { intros l. cbn. by destruct (call_for s t). }
  destruct (scan_target execute parse is_file c s t calls) as [[r|fc msg|e] calls1]; destruct H as [-> H].
  - specialize (IH (merged ++ rs_observations r) (calls ++ option_list (call_for s t))).
    destruct (scan_targets _ _ _ _ _ _ _ _) as [a calls']. destruct IH as [(n & Hn & Hn') IH]. split.
    { exists (S n). split; [cbn; lia|]. rewrite Hn'. cbn [firstn]. by rewrite Hc, app_assoc. }
    intros l E. destruct (IH l E) as (-> & rs & [Hlen Hrs] & ->). split; [by rewrite Hc, app_assoc|].
    specialize (H r eq_refl). exists (r :: rs). split; [split; [cbn; lia|]|cbn; by rewrite app_assoc].
    intros [|i] t' r' Ht Hr; cbn in Ht, Hr.
    + injection Ht as <-. injection Hr as <-. by rewrite Nat.add_0_r.
    + specialize (Hrs i t' r' Ht Hr). destruct H as (k & Hk & _). rewrite Hk in Hrs.
      rewrite length_app in Hrs. cbn in Hrs. by replace (length calls + S i)%nat with (length calls + 1 + i)%nat by lia.
  - split; [|done]. exists 1%nat. split; [cbn; lia|]. cbn [firstn]. by rewrite Hc, app_nil_r.
  - split; [|done]. exists 1%nat. split; [cbn; lia|]. cbn [firstn]. by rewrite Hc, app_nil_r.
Qed.

(** a step is its scans. Running a step starts the containers of the
    targets of the engagement, in order and one each, up to the first target
    that fails. It succeeds only when the engagement has targets and every one
    was scanned by its container, none with an error exit and no finding; then
    exactly the observations parsed from these runs are kept under the key of
    the step, in target order, and the digest it returns is theirs. When it
    fails, nothing that was kept changes. *)
Theorem step_is_its_scans s w :
  let '(a, w') := run execute parse is_file c s w in
  (exists n, (n <= length (ctx_targets c))%nat /\ scans w' = scans w ++ omap (call_for s) (take n (ctx_targets c)))
  /\ match a with
     | Done d => ctx_targets c <> [] /\ scans w' = scans w ++ omap (call_for s) (ctx_targets c)
         /\ exists rs, all_scanned s (length (scans w)) (ctx_targets c) rs
            /\ collected w' = PyDict.set (step_key s) (mjoin (rs_observations <$> rs)) (collected w)
            /\ digest_of (observations_for (step_key s) w') = Ret d
     | StepFailed _ _ => collected w' = collected w
     | Raised _ => True
     end.
Proof.
  unfold run. case_bool_decide as Hn; [split; [|done]; exists 0%nat; split; [lia|by rewrite app_nil_r]|].
  pose proof (scan_targets_spec s (ctx_targets c) [] (scans w)) as H.
  destruct (scan_targets _ _ _ _ _ _ _ _) as [[l|fc msg|e] calls]; destruct H as [Hc H]; [|done..].
  destruct (H l eq_refl) as (-> & rs & Hrs & ->).
  destruct (digest_of _) as [d|e] eqn:Ed; (split; [done|]); [|done].
  split_and!; [done..|]. exists rs. split_and!; [done..|].
  unfold observations_for. cbn [collected]. by rewrite PyDict.get_set_eq.
Qed.

(** An adapter without a registered parser never starts a container. *)
Lemma unregistered_adapter_never_runs s w :
  runner s ∉ RealScan.ADAPTER_PARSERS -> scans (run execute parse is_file c s w).2 = scans w
  /\ result_of (run execute parse is_file c s w).1 = RunFailure INPUT_INVALID.
Proof.
  intros Hk. unfold run. case_bool_decide as Hn; [done|]. destruct (ctx_targets c) as [|t ts] eqn:Et; [done|].
  cbn [scan_targets]. unfold scan_target.
  assert (exists x, invocation is_file c (runner s) t = Done x \/ exists m, invocation is_file c (runner s) t = StepFailed INPUT_INVALID m)
    as [[args mounts] [->|[m ->]]]; [|unfold RealScan.scan, mbind, M_bind, lift; by rewrite bool_decide_false|done].
  unfold invocation. repeat case_bool_decide; [eexists; by left..| |eexists; by left].
  destruct (host_dir c); [eexists; by left|]. exists ([], []). right. by eexists.
Qed.

(** *** Under the orchestrator *)

Lemma length_omap_le {A B} (f : A -> option B) l : (length (omap f l) <= length l)%nat.
Proof. induction l as [|x l IH]; cbn; [done|]. destruct (f x); cbn; lia. Qed.

Lemma run_starts s w : (length (scans (run execute parse is_file c s w).2) <= length (scans w) + length (ctx_targets c))%nat.
Proof.
  unfold run. case_bool_decide; [cbn; lia|]. pose proof (scan_targets_spec s (ctx_targets c) [] (scans w)) as H1.
  assert (forall n, (length (omap (call_for s) (take n (ctx_targets c))) <= length (ctx_targets c))%nat) as Hl.
  { intros n. etrans; [apply length_omap_le|]. rewrite length_take. lia. }
  destruct (scan_targets _ _ _ _ _ _ _ _) as [[l|fc msg|e] calls]; destruct H1 as [(n & _ & Hc) _];
    specialize (Hl n); [destruct (digest_of l)|..]; cbn [snd scans]; rewrite Hc, length_app; lia.
Qed.

Lemma scans_of_history h :
  (length (scans (after execute parse is_file c h)) <= length h * length (ctx_targets c))%nat.
Proof. induction h as [|s h IH]; cbn [after length]; [done|]. pose proof (run_starts s (after execute parse is_file c h)). lia. Qed.

(** What escapes a step is neither a failure of the executor nor a
    [ValueError]: a failure of a parser, that is. *)
Section escapes.
Context (P : exn -> Prop).
Hypothesis executor : forall n k e, execute n k = Raise e -> is_exception e = true.
Hypothesis parsers : forall key out src e, parse key out src = Raise e -> P e.

Lemma scan_fails key args mounts calls e calls' :
  RealScan.scan execute parse key args mounts calls = (Raise e, calls') ->
  is_value_error e = true \/ (exists msg, e = ContainerExecError msg) \/ P e.
Proof.
  unfold RealScan.scan, mbind, M_bind, lift. case_bool_decide as Hk; cbn [raise_if negb]; [|intros [= <- _]; by left].
  unfold RealScan.launch_failed. destruct (RealScan.call_of key args mounts) as [k|e'] eqn:Ec.
  - destruct (execute (length calls) k) as [[[out err] code]|e'] eqn:Ex.
    + change (mkAdapterSource key "1.0.0" "1.0.0") with (default_source key). rewrite (parser_key_named _ Hk).
      destruct (parse _ _ _) as [obs|e'] eqn:Ep; [done|]. intros [= <- _]. right. right. by eapply parsers.
    + rewrite (executor _ _ _ Ex). intros [= <- _]. right. left. by eexists.
  - assert (is_exception e' = true) as ->; [|intros [= <- _]; right; left; by eexists].
    apply bind_Raise in Ec as [Ec|(i & _ & Ec)]; [|done]. apply bind_Raise in Ec as [Ec|(i & _ & Ec)]; [|done].
    unfold ImageCatalog.ref, unwrap in Ec. destruct (PyDict.get key ImageCatalog.IMAGE_CATALOG); [done|]. by injection Ec as <-.
Qed.

Lemma scan_target_fails s t calls e calls' :
  scan_target execute parse is_file c s t calls = (Raised e, calls') -> P e /\ is_value_error e = false.
Proof.
  unfold scan_target. destruct (invocation is_file c (runner s) t) as [[args mounts]|fc msg|e'] eqn:Ei; [|done|].
  - destruct (RealScan.scan execute parse (runner s) args mounts calls) as [[r|e'] calls1] eqn:Es; [by destruct (fruitless r)|].
    apply scan_fails in Es as [H|[[msg ->]|H]]; [|done|].
    + rewrite H. by destruct e'.
    + destruct (is_value_error e') eqn:Ev; [by destruct e'|]. destruct e'; by intros [= <- _].
  - unfold invocation in Ei. repeat case_bool_decide; try done. by destruct (host_dir c).
Qed.

Lemma scan_targets_fail s ts : forall merged calls e calls',
  scan_targets execute parse is_file c s ts merged calls = (Raised e, calls') -> P e /\ is_value_error e = false.
Proof.
  induction ts as [|t ts IH]; intros merged calls e calls'; cbn [scan_targets]; [done|].
  pose proof (scan_target_fails s t calls) as H.
  destruct (scan_target execute parse is_file c s t calls) as [[r|fc msg|e'] calls1]; [apply IH|done|].
  intros [= -> _]. by eapply H.
Qed.
End escapes.

Lemma digest_raises l e : digest_of l = Raise e -> e = out_of_range.
Proof.
  unfold digest_of. intros [H|(js & _ & [=])]%bind_Raise. revert H.
  induction l as [|o l IH]; cbn [mapM_outcome]; [done|]. intros [H|(j & _ & [H|(js & _ & [=])]%bind_Raise)]%bind_Raise; [|by apply IH].
  revert H. unfold observation_json. intros [H|(conf & _ & H)]%bind_Raise; [by destruct (confidence o); [|injection H as <-..]|].
  by apply bind_Raise in H as [[_ H]%raise_if_Raise|(? & _ & H)].
Qed.

(** What ends a step by another exception than a step failure: what escapes of
    a parser, and the digest of an observation that holds an infinite number. *)
Lemma run_fails (P : exn -> Prop) s w e w' :
  (forall n k e, execute n k = Raise e -> is_exception e = true) ->
  (forall key out src e, parse key out src = Raise e -> P e) ->
  run execute parse is_file c s w = (Raised e, w') -> (P e /\ is_value_error e = false) \/ e = out_of_range.
Proof.
  intros Hx Hp. unfold run. case_bool_decide; [done|].
  pose proof (scan_targets_fail P Hx Hp s (ctx_targets c) [] (scans w)) as H2.
  destruct (scan_targets _ _ _ _ _ _ _ _) as [[l|fc msg|e'] calls]; [|done|intros [= -> _]; left; by eapply H2].
  destruct (digest_of l) as [d|e'] eqn:Ed; [done|]. intros [= -> _]. right. by eapply digest_raises.
Qed.

(** A history in which no key occurs more than three times. *)
Lemma history_bound P : forall h, (forall s, s ∈ h -> step_key s ∈ step_key <$> P) ->
  (forall s, s ∈ P -> Orchestrator.runs (step_key s) h <= 3) -> (length h <= 3 * length P)%nat.
Proof.
  induction P as [|s P IH]; intros h Hin H3.
  { destruct h as [|s h]; [done|]. specialize (Hin s ltac:(left)). by apply elem_of_nil in Hin. }
  set (q := fun x => negb (bool_decide (step_key x = step_key s))).
  assert (length h = length (List.filter (fun x => bool_decide (step_key x = step_key s)) h) + length (List.filter q h))%nat as ->.
  { unfold q. clear. induction h as [|x h IH]; [done|]. cbn. case_bool_decide; cbn; lia. }
  pose proof (H3 s ltac:(left)) as Hs. unfold Orchestrator.runs in Hs.
  assert (length (List.filter q h) <= 3 * length P)%nat; [|cbn; lia].
  apply IH.
  - intros x [Hx Hq]%elem_filter. apply negb_true_iff, bool_decide_eq_false in Hq.
    specialize (Hin x Hx). cbn in Hin. apply elem_of_cons in Hin as [E|E]; done.
  - intros x Hx. specialize (H3 x ltac:(by right)). unfold Orchestrator.runs in *. etrans; [|exact H3].
    apply inj_le. clear. induction h as [|y h IH]; [done|]. cbn. unfold q at 1.
    destruct (negb _); cbn; case_bool_decide; cbn; lia.
Qed.

(** C15: bounded containers. Executing a well-formed plan with this runner,
    through any number of rounds and with any gate, starts at most three
    containers per step and target of the engagement. Nothing is assumed of
    the executor and of the parsers: what they raise may leave the step, and
    ends the run. *)
Theorem containers_are_bounded ttl gate owner now plan n :
  Plan.plan_wf (steps plan) ->
  let o := Orchestrator.dispatch_and_run ttl (step_runner execute parse is_file c) gate owner now plan n in
  (length (scans (after execute parse is_file c (calls o))) <= 3 * length (steps plan) * length (ctx_targets c))%nat.
Proof.
  intros Hw o. etrans; [apply scans_of_history|]. apply Nat.mul_le_mono_r, history_bound.
  - intros s Hs. apply list_elem_of_fmap. exists s. split; [done|].
    by apply (Orchestrator.inv_calls _ _ _ _ (Orchestrator.dispatch_and_run_inv ttl (step_runner execute parse is_file c) gate owner now plan n Hw)).
  - intros s Hs. by apply (Orchestrator.runs_at_most_three ttl (step_runner execute parse is_file c) gate owner now plan n Hw).
Qed.

End facts.

(** ** Concrete runs *)
Definition demo_observation (key out : string) : Scanned :=
  mkScanned (mkObservation ("x:" +:+ out) "host" (default_source key) "rule" "1" CoverageDomain.WEB out Severity.LOW (flt "0.9")
    [] [] [] [] []) (JStr "host").
Definition demo_parse (key out : string) (src : AdapterSource) : outcome (list Scanned) :=
  if bool_decide (out = "garbage") then Raise (ValueError "Expecting value") else
  Ret (if PyStr.is_empty out then [] else [demo_observation key out]).
Definition demo_context (ts : list string) : ScanContext := mkContext ts (Some "/srv/templates/") "/templates" [] [443; 8443].
Definition demo_step (key adapter : string) : PlanStep := mkPlanStep key adapter RiskClass.LOW [] [].
Definition demo_execute (n : nat) (k : ScanCall) : outcome (string * string * Z) :=
  match n with
  | 1%nat => Ret ("", "no route", 1)
  | 3%nat => Ret ("garbage", "", 0)
  | _ => Ret (default "" (last (sc_command k)), "", 0)
  end.
Definition demo_run (s : PlanStep) (w : State) : attempt string * State :=
  run demo_execute demo_parse (fun _ => false) (demo_context ["http://a/"; "http://b"]) s w.

(** The second container exits with an error and finds nothing: the step
    fails, and a later run of it scans both targets again. *)
Example demo_runs :
  let '(a, w) := demo_run (demo_step "s" "nmap") initial in
  a = StepFailed WORKER_UNAVAILABLE "adapter 'nmap' on http://b: exit_code=1, stderr=no route"
  /\ (sc_command <$> scans w) = [["-p"; "443,8443"; "--open"; "-oX"; "-"; "http://a/"]; ["-p"; "443,8443"; "--open"; "-oX"; "-"; "http://b"]]
  /\ all_observations w = []
  /\ (demo_run (demo_step "s" "httpx") w).1
     = StepFailed INPUT_INVALID "Expecting value".
Proof. vm_compute. done. Qed.

(** A parser that cannot read the output of a tool is reported as invalid
    input; the class PARSE_FAILED is never used. *)
Example unreadable_output_is_invalid_input :
  (demo_run (demo_step "s" "trivy") (mkState (repeat (mkScanCall "" [] [] [] []) 3) [])).1 = StepFailed INPUT_INVALID "Expecting value".
Proof. vm_compute. done. Qed.

(** The arguments of these three adapters are prepared, but no parser is
    registered for them. *)
Example adapters_without_a_parser :
  (fun key => is_Ret (RealScan.image_ref key)) <$> ["zap"; "fingerprinthub"; "nuclei_tcp"] = [true; true; true]
  /\ (fun key => (demo_run (demo_step "s" key) initial).1) <$> ["zap"; "fingerprinthub"; "nuclei_tcp"]
     = [StepFailed INPUT_INVALID "no parser registered for adapter 'zap'";
        StepFailed INPUT_INVALID "no parser registered for adapter 'fingerprinthub'";
        StepFailed INPUT_INVALID "no parser registered for adapter 'nuclei_tcp'"].
Proof. vm_compute. done. Qed.

(** These images are not pinned: they run whatever the tag names. *)
Example unpinned_images :
  RealScan.image_ref "prowler" = Ret "toniblyx/prowler:latest" /\ RealScan.image_ref "kube_bench" = Ret "aquasec/kube-bench:latest"
  /\ RealScan.image_ref "scoutsuite" = Ret "nccgroup/scoutsuite:latest".
Proof. vm_compute. done. Qed.

(** A parser that raises something else than a [ValueError]: the run ends
    there. *)
Definition raising_parse (key out : string) (src : AdapterSource) : outcome (list Scanned) :=
  if bool_decide (out = "garbage") then Raise (TypeError "unhashable type: 'list'") else demo_parse key out src.
Definition demo_run_plan : Orch :=
  Orchestrator.dispatch_and_run 60 (step_runner (fun _ _ => Ret ("garbage", "", 0%Z)) raising_parse (fun _ => false) (demo_context ["http://a/"; "http://b"]))
    None "w" 0%Z (Orchestrator.chain_plan 3) 5.

Lemma containers_are_bounded_witness :
  length (scans (after (fun _ _ => Ret ("garbage", "", 0%Z)) raising_parse (fun _ => false) (demo_context ["http://a/"; "http://b"]) (calls demo_run_plan))) = 1%nat
  /\ (length (scans (after (fun _ _ => Ret ("garbage", "", 0%Z)) raising_parse (fun _ => false) (demo_context ["http://a/"; "http://b"]) (calls demo_run_plan))) <= 18)%nat.
Proof.
  split; [vm_compute; reflexivity|].
  exact (containers_are_bounded (fun _ _ => Ret ("garbage", "", 0%Z)) raising_parse (fun _ => false) (demo_context ["http://a/"; "http://b"])
    60 None "w" 0 (Orchestrator.chain_plan 3) 5 Orchestrator.chain_wf).
Defined.

End StepRunnerFacts.
