(* ===== verification/ToolText.v ===== *)
(** * Reading the output of scan tools

    What the parsers of [src/secopent/integrations/adapters] share: lines and
    JSON records of a tool's output ([_common.py] and the loaders of the
    packages), the CVE identifiers in a text, and the loop every parser runs
    over its records (Section [collect]).  Texts are UTF-8; [\d] and
    [str.lower] are taken as ASCII; an output holding the words NaN or Infinity
    is refused as malformed (Python reads it), one nested deeper than the
    interpreter's stack or with an integer of more than 4300 digits is read
    (Python raises RecursionError or ValueError). *)
From S2P Require Import Prelude PyStr PyTime PyFloat Sha256 Canonical PyJson PyText PyDict JsonText JsonIndent Policy Contracts Adapters StepRunner.

#[local] Open Scope Z_scope.

(** A JSON object of a tool. *)
Definition record : Type := list (string * json).

Module ToolText.

(** ** Lines *)

(** The bytes of the line boundary [s] starts with: LF, CR, CRLF, VT, FF, FS,
    GS, RS, U+0085, U+2028 and U+2029. *)
Definition boundary (s : string) : nat :=
  match s with
  | String "013" (String "010" _) => 2
  | String "194" (String "133" _) => 2
  | String "226" (String "128" (String "168" _)) => 3
  | String "226" (String "128" (String "169" _)) => 3
  | String c _ =>
      let n := N_of_ascii c in if ((10 <=? n) && (n <=? 13) || (28 <=? n) && (n <=? 30))%N then 1 else 0
  | EmptyString => 0
  end%nat.

(** [str.splitlines]: [skip] bytes of a boundary are still to be passed. *)
Fixpoint lines_from (skip : nat) (s : string) : list string :=
  match s with
  | EmptyString => []
  | String c r =>
      match skip with
      | S k => lines_from k r
      | O =>
          match boundary s with
          | S k => "" :: lines_from k r
          | O => match lines_from 0 r with l :: ls => String c l :: ls | [] => [String c ""] end
          end
      end
  end.
Definition splitlines (s : string) : list string := lines_from 0 s.

Definition blank (s : string) : bool := PyStr.is_empty (PyStr.strip s).

(** ** Records *)

Definition objects (l : list json) : list record := omap (fun v => match v with JObj r => Some r | _ => None end) l.

(** The records of one JSON value. *)
Definition records_of (v : json) : list record :=
  match v with JObj r => [r] | JArr l => objects l | _ => [] end.

(** The records of a whole text, none if it is no JSON. *)
Definition whole (s : string) : list record :=
  match JsonText.loads s with Some v => records_of v | None => [] end.

(** The loop of [safe_jsonl_load]: [None] at the first line that is no JSON. *)
Fixpoint jsonl (lines : list string) : option (list record) :=
  match lines with
  | [] => Some []
  | l :: r =>
      let line := PyStr.strip l in
      if PyStr.is_empty line then jsonl r
      else v ← JsonText.loads line; rest ← jsonl r; Some (records_of v ++ rest)
  end.

Definition safe_jsonl_load (stdout : string) : list record :=
  if blank stdout then []
  else
    match jsonl (splitlines stdout) with
    | None => []
    | Some [] => whole stdout
    | Some l => l
    end.

(** An array written over several lines is no list of records: its first line
    is no JSON. *)
Example spread_array_is_not_read :
  let out := "[" +:+ JsonIndent.nl +:+ "{}" +:+ JsonIndent.nl +:+ "]" in
  safe_jsonl_load out = [] /\ whole out = [[]].
Proof. vm_compute. done. Qed.

(** The loop of dalfox, which skips the lines that are no JSON. *)
Fixpoint jsonl_lenient (lines : list string) : list record :=
  match lines with
  | [] => []
  | l :: r =>
      let line := PyStr.strip l in
      if PyStr.is_empty line then jsonl_lenient r
      else match JsonText.loads line with Some v => records_of v ++ jsonl_lenient r | None => jsonl_lenient r end
  end.

(** ** Values of a record *)

(** [record.get(k)] *)
Definition get (k : string) (r : record) : json := default JNull (field k r).

(** [a or b or c] *)
Definition or_else (l : list json) : json :=
  match l with [] => JNull | v :: r => foldl json_or v r end.

(** [record.get(k1) or record.get(k2) or ..] *)
Definition first_of (ks : list string) (r : record) : json := or_else ((fun k => get k r) <$> ks).

(** [_safe_str] *)
Definition safe_str (v : json) : string := match v with JNull => "" | v => py_str v end.

Definition or_text (s dflt : string) : string := if PyStr.truthy s then s else dflt.

(** [raw.setdefault(k, v)] *)
Definition setdefault (k : string) (v : json) (r : record) : record :=
  match field k r with Some _ => r | None => r ++ [(k, v)] end.

(** The value as a member of a set: equal members have equal texts, across
    the numbers; a list or a dict has no hash. *)
Definition whole_float (f : PyFloat.lit) : bool :=
  let '(m, e) := PyFloat.decimal f in (0 <=? e) || (m mod 10 ^ (- e) =? 0).

Definition hashed (v : json) : outcome string :=
  match v with
  | JArr _ | JObj _ => Raise (TypeError ("unhashable type: '" +:+ type_name v +:+ "'"))
  | JBool b => Ret (if b then "1" else "0")
  | JFloat f =>
      Ret (if PyFloat.overflows f then (if (PyFloat.decimal f).1 <? 0 then "-inf" else "inf")
           else if whole_float f then pretty (PyNumbers.int_of_float f) else PyFloat.text f)
  | v => Ret (Canonical.dump v)
  end.

Example members :
  hashed <$> [JStr "1"; JInt 1; JBool true; JFloat (PyFloat.mkLit "1.0" eq_refl); JFloat (PyFloat.mkLit "1.5" eq_refl)]
  = Ret <$> [Canonical.quote "1"; "1"; "1"; "1"; "1.5"].
Proof. vm_compute. reflexivity. Qed.

(** [iter(v)], where a text has been made the list of it. *)
Definition iterate (v : json) : outcome (list json) :=
  match v with
  | JArr l => Ret l
  | JObj l => Ret (JStr <$> dict_keys l)
  | JStr s => Ret [v]
  | _ => Raise (TypeError ("'" +:+ type_name v +:+ "' object is not iterable"))
  end.

(** ** CVE identifiers *)

Fixpoint digits_at_most (n : nat) (s : string) : nat :=
  match n, s with
  | S m, String c r => if PyStr.is_digit c then S (digits_at_most m r) else 0%nat
  | _, _ => 0%nat
  end.

(** The length of the match of [CVE-\d{4}-\d{4,7}] at the start, ignoring
    case. *)
Definition cve_length (s : string) : option nat :=
  if PyStr.startswith (PyStr.upper (PyStr.take 4 s)) "CVE-" && Nat.eqb (digits_at_most 4 (PyStr.drop 4 s)) 4
     && PyStr.startswith (PyStr.drop 8 s) "-" then
    let k := digits_at_most 7 (PyStr.drop 9 s) in if (4 <=? k)%nat then Some (9 + k)%nat else None
  else None.

(** [findall] *)
Fixpoint cves_from (skip : nat) (s : string) : list string :=
  match s with
  | EmptyString => []
  | String c r =>
      match skip with
      | S k => cves_from k r
      | O => match cve_length s with
             | Some n => PyStr.upper (PyStr.take n s) :: cves_from (n - 1) r
             | None => cves_from 0 r
             end
      end
  end.

(** [dict.fromkeys]: each once, in the order of first appearance. *)
Definition once (l : list string) : list string :=
  foldl (fun acc x => if bool_decide (x ∈ acc) then acc else acc ++ [x]) [] l.

Definition cves (s : string) : list string := once (cves_from 0 s).

(** The identifiers of a value that is a text or iterates over texts. *)
Definition cves_of (items : list json) : list string :=
  once (v ← items; match v with JStr s => cves_from 0 s | _ => [] end).

(** [_extract_cve]: a text stands for the list of it. *)
Definition extract_cve (reference : json) : outcome (list string) :=
  if negb (truthy_json reference) then Ret [] else items ← iterate reference; Ret (cves_of items).

(** [tuple(sorted(set(l)))] *)
Definition sorted_set (l : list string) : list string := PyStr.sorted (once l).

(** ** Tables *)
Definition attribution : Type := (list string * list string)%type.
Definition no_attribution : attribution := ([], []).

(** The first entry whose key is a prefix. *)
Definition by_prefix (table : dict attribution) (hit : string -> string -> bool) (s : string) : attribution :=
  match List.find (fun e => hit e.1 s) table with Some e => e.2 | None => no_attribution end.

Definition severity_of (table : dict Severity) (dflt : Severity) (s : string) : Severity :=
  default dflt (PyDict.get s table).

(** ** The loop of a parser *)

(** What a parser says of one record; the observation's identifier is
    [d_prefix] and a number, its asset any value. *)
Record Draft : Type := mkDraft {
  d_prefix : string;
  d_asset : json;
  d_rule : string;
  d_title : string;
  d_severity : Severity;
  d_cwe : list string;
  d_cve : list string;
  d_owasp : list string;
  d_raw : record
}.

(** What is the same for all observations of a tool. *)
Record ToolConstants : Type := mkTool {
  tool_version : string;
  tool_domain : CoverageDomain;
  tool_confidence : PyFloat.lit
}.

Definition observe (t : ToolConstants) (source : AdapterSource) (number : nat) (d : Draft) : outcome Scanned :=
  raise_if (negb (truthy_json (d_asset d))) (DomainValidationError "Observation.asset_identity must be non-empty");;
  o ← Contracts.check_observation
        (mkObservation (d_prefix d +:+ ":" +:+ pretty (Z.of_nat number)) (py_str (d_asset d)) source (d_rule d) (tool_version t)
           (tool_domain t) (d_title d) (d_severity d) (PyFloat.Fin (tool_confidence t)) (d_cwe d) (d_cve d) (d_owasp d) [] (d_raw d));
  Ret (mkScanned o (d_asset d)).

(** [enumerate(records)] *)
Definition enumerate {A} (l : list A) : list (nat * A) := imap (fun i x => (i, x)) l.

Section collect.
Context {K R : Type} `{EqDecision K} (t : ToolConstants) (source : AdapterSource).
(** The key under which a record counts once ([None]: the record is
    skipped), its draft, and its number, given how many observations there
    are. *)
Context (key_of : R -> outcome (option K)) (draft : R -> outcome Draft) (number : nat -> R -> nat).

Fixpoint collect (n : nat) (seen : list K) (rs : list R) : outcome (list Scanned) :=
  match rs with
  | [] => Ret []
  | r :: rest =>
      k ← key_of r;
      match k with
      | None => collect n seen rest
      | Some k =>
          if bool_decide (k ∈ seen) then collect n seen rest
          else
            d ← draft r;
            o ← observe t source (number n r) d;
            l ← collect (S n) (seen ++ [k]) rest;
            Ret (o :: l)
      end
  end.

(** An observation as every parser makes them. *)
Record sound (o : Scanned) (j : nat) : Prop := {
  sound_contract : Contracts.check_observation o = Ret (o : Observation);
  sound_asset : truthy_json (raw_asset o) = true /\ asset_identity o = py_str (raw_asset o);
  sound_source : obs_source o = source;
  sound_tool : rule_version o = tool_version t /\ coverage_domain o = tool_domain t /\ confidence o = PyFloat.Fin (tool_confidence t);
  sound_id : exists p, external_id o = p +:+ ":" +:+ pretty (Z.of_nat j)
}.

Lemma observe_sound j d o : observe t source j d = Ret o -> sound o j.
Proof.
  unfold observe. intros ([] & Ha & (x & H & [= <-])%bind_Ret)%bind_Ret. apply raise_if_Ret, negb_false_iff in Ha.
  assert (Ho : Contracts.check_observation x = Ret x).
  { pose proof H as H'. unfold Contracts.check_observation in H'. inv_ret. exact H. }
  unfold Contracts.check_observation in H. inv_ret. by split; [exact Ho|..|eexists].
Qed.

(** What the loop makes of the records: one observation for the first record
    of each key, in order. *)
Inductive picks : nat -> list K -> list R -> list (K * nat * R * Scanned) -> Prop :=
| Picks_nil n seen : picks n seen [] []
| Picks_skip n seen r rs l : key_of r = Ret None -> picks n seen rs l -> picks n seen (r :: rs) l
| Picks_seen n seen k r rs l : key_of r = Ret (Some k) -> k ∈ seen -> picks n seen rs l -> picks n seen (r :: rs) l
| Picks_new n seen k r d o rs l :
    key_of r = Ret (Some k) -> k ∉ seen -> draft r = Ret d -> observe t source (number n r) d = Ret o ->
    picks (S n) (seen ++ [k]) rs l -> picks n seen (r :: rs) ((k, number n r, r, o) :: l).

Lemma collect_picks n seen rs os :
  collect n seen rs = Ret os -> exists l, picks n seen rs l /\ os = snd <$> l.
Proof.
  revert n seen os; induction rs as [|r rs IH]; intros n seen os; cbn [collect].
  { intros [= <-]. exists []. split; [constructor|done]. }
  intros (k & Hk & H)%bind_Ret. destruct k as [k|].
  - case_bool_decide as Hs.
    + destruct (IH _ _ _ H) as (l & Hl & ->). exists l. split; [by eapply Picks_seen|done].
    + apply bind_Ret in H as (d & Hd & (o & Ho & (l' & Hl' & [= <-])%bind_Ret)%bind_Ret).
      destruct (IH _ _ _ Hl') as (l & Hl & ->). eexists (_ :: l). split; [by eapply Picks_new|done].
  - destruct (IH _ _ _ H) as (l & Hl & ->). exists l. split; [by eapply Picks_skip|done].
Qed.

Lemma picks_sound n seen rs l : picks n seen rs l -> Forall (fun x => sound x.2 x.1.1.2) l.
Proof. induction 1; [constructor|done|done|]. constructor; [|done]. by eapply observe_sound. Qed.

(** Every key is new, and counted once. *)
Lemma picks_keys n seen rs l : picks n seen rs l -> NoDup ((fun x => x.1.1.1) <$> l) /\ forall k, k ∈ (fun x => x.1.1.1) <$> l -> k ∉ seen.
Proof.
  induction 1 as [n seen|n seen r rs l Hk H IH|n seen k r rs l Hk Hs H IH|n seen k r d o rs l Hk Hs Hd Ho H [IH1 IH2]]; [|done..|].
  - split; [constructor|]. by intros k ?%elem_of_nil.
  - rewrite fmap_cons. cbn [fst]. split.
    + constructor; [|done]. intros Hin. apply (IH2 k Hin). apply elem_of_app. right. by apply list_elem_of_singleton.
    + intros k' [->|Hin]%elem_of_cons; [done|]. intros Hs'. apply (IH2 k' Hin). apply elem_of_app. by left.
Qed.

(** Nothing is lost but the records without a key and those of a key that
    already has an observation. *)
Lemma picks_complete n seen rs l r k :
  picks n seen rs l -> r ∈ rs -> key_of r = Ret (Some k) -> k ∈ seen \/ k ∈ (fun x => x.1.1.1) <$> l.
Proof.
  induction 1 as [n seen|n seen r' rs l Hk H IH|n seen k' r' rs l Hk Hs H IH|n seen k' r' d o rs l Hk Hs Hd Ho H IH];
    intros Hin Hr; [by apply elem_of_nil in Hin|..]; apply elem_of_cons in Hin as [->|Hin].
  - congruence.
  - by apply IH.
  - left. congruence.
  - by apply IH.
  - right. rewrite fmap_cons. assert (k = k') as -> by congruence. apply elem_of_cons. by left.
  - rewrite fmap_cons. cbn [fst]. destruct (IH Hin Hr) as [[Hs'|Hs']%elem_of_app|Hl].
    + by left.
    + apply list_elem_of_singleton in Hs' as ->. right. apply elem_of_cons. by left.
    + right. apply elem_of_cons. by right.
Qed.

(** The only failures of a loop are those of its records. *)
Lemma collect_raises (P : exn -> Prop) n seen rs e :
  (forall r e, key_of r = Raise e -> P e) -> (forall r e, draft r = Raise e -> P e) ->
  (forall j d e, observe t source j d = Raise e -> P e) ->
  collect n seen rs = Raise e -> P e.
Proof.
  intros Hk Hd Ho. revert n seen; induction rs as [|r rs IH]; intros n seen; [done|]. cbn [collect].
  intros [H|(k & _ & H)]%bind_Raise; [by eapply Hk|]. destruct k as [k|]; [|by eapply IH].
  case_bool_decide; [by eapply IH|]. apply bind_Raise in H as [H|(d & _ & H)]; [by eapply Hd|].
  apply bind_Raise in H as [H|(o & _ & H)]; [by eapply Ho|]. apply bind_Raise in H as [H|(l & _ & H)]; [by eapply IH|done].
Qed.

End collect.

Lemma observe_raises t source j d e : observe t source j d = Raise e -> is_value_error e = true.
Proof.
  unfold observe, Contracts.check_observation, Contracts.require_text.
  intros [[_ <-]%raise_if_Raise|(? & _ & [H|(? & _ & [=])]%bind_Raise)]%bind_Raise; [done|revert H].
  repeat (intros [H|(? & _ & H)]%bind_Raise; [apply raise_if_Raise in H as [_ <-]; done|revert H]). done.
Qed.

(** *** Numbers *)
Section numbers.
Context {K R : Type} `{EqDecision K} (t : ToolConstants) (source : AdapterSource).
Context (key_of : R -> outcome (option K)) (draft : R -> outcome Draft).

(** Numbered as they come: the numbers grow. *)
Lemma numbers_emitted n seen rs l :
  picks t source key_of draft (fun n _ => n) n seen rs l -> StronglySorted lt ((fun x => x.1.1.2) <$> l) /\ Forall (fun x => n <= x.1.1.2)%nat l.
Proof.
  induction 1 as [n seen|n seen r rs l Hk H IH|n seen k r rs l Hk Hs H IH|n seen k r d o rs l Hk Hs Hd Ho H [IH1 IH2]]; [|done..|].
  - split; constructor.
  - rewrite fmap_cons. cbn [fst snd]. split.
    + constructor; [done|]. apply Forall_fmap. eapply Forall_impl; [exact IH2|]. cbn. lia.
    + constructor; [done|]. eapply Forall_impl; [exact IH2|]. cbn. lia.
Qed.
End numbers.

Section enumerated.
Context {K A : Type} `{EqDecision K} (t : ToolConstants) (source : AdapterSource).
Context (key_of : nat * A -> outcome (option K)) (draft : nat * A -> outcome Draft).

(** Numbered by the position of the record. *)
Lemma numbers_enumerated n seen rs l :
  StronglySorted lt (rs.*1) -> picks t source key_of draft (fun _ r => r.1) n seen rs l ->
  StronglySorted lt ((fun x => x.1.1.2) <$> l) /\ Forall (fun x => x.1.1.2 ∈ rs.*1) l.
Proof.
  intros Hs H. revert Hs.
  induction H as [n seen|n seen r rs l Hk H IH|n seen k r rs l Hk Hse H IH|n seen k r d o rs l Hk Hse Hd Ho H IH]; intros Hs.
  - split; constructor.
  - rewrite fmap_cons in Hs. inversion Hs as [|? ? Hs' Hle]; subst. destruct (IH Hs') as [H1 H2]. split; [done|].
    eapply Forall_impl; [exact H2|]. intros x Hx. rewrite fmap_cons. apply elem_of_cons. by right.
  - rewrite fmap_cons in Hs. inversion Hs as [|? ? Hs' Hle]; subst. destruct (IH Hs') as [H1 H2]. split; [done|].
    eapply Forall_impl; [exact H2|]. intros x Hx. rewrite fmap_cons. apply elem_of_cons. by right.
  - rewrite fmap_cons in Hs. inversion Hs as [|? ? Hs' Hle]; subst. destruct (IH Hs') as [H1 H2]. rewrite !fmap_cons. cbn [fst snd]. split.
    + constructor; [done|]. apply Forall_fmap. apply Forall_forall. intros x Hx.
      pose proof (proj1 (Forall_forall _ _) Hle) as Hle'. apply Hle'. by apply (proj1 (Forall_forall _ _) H2).
    + constructor; [apply elem_of_cons; by left|]. eapply Forall_impl; [exact H2|]. intros x Hx. apply elem_of_cons. by right.
Qed.
End enumerated.

Lemma enumerate_sorted {A} (l : list A) : StronglySorted lt ((enumerate l).*1).
Proof.
  assert (H : forall k, StronglySorted lt ((imap (fun i x => ((k + i)%nat, x)) l).*1) /\ Forall (fun i => k <= i)%nat ((imap (fun i x => ((k + i)%nat, x)) l).*1)).
  { induction l as [|x l IH]; intros k; [split; constructor|]. cbn. destruct (IH (S k)) as [H1 H2].
    assert (E : imap ((λ (i : nat) (x : A), ((k + i)%nat, x)) ∘ S) l = imap (fun i x => ((S k + i)%nat, x)) l).
    { apply imap_ext. intros i y _. cbn. f_equal. lia. }
    rewrite E, Nat.add_0_r. split; (constructor; [done || lia|]); (eapply Forall_impl; [exact H2|cbn; lia]). }
  destruct (H 0%nat) as [H0 _]. exact H0.
Qed.

(** *** Identifiers *)

Lemma colon_number_inj p q (i j : nat) :
  p +:+ ":" +:+ pretty (Z.of_nat i) = q +:+ ":" +:+ pretty (Z.of_nat j) -> i = j.
Proof.
  intros H. assert (Hlast : forall p (n : nat), List.last (PyStr.split ":" (p +:+ ":" +:+ pretty (Z.of_nat n))) "" = pretty (Z.of_nat n)).
  { clear. intros p n. assert (Hd : PyText.no_char ":" (pretty (Z.of_nat n))).
    { apply PyText.digits_no_char; [done|]. destruct (PyText.pretty_nonneg (Z.of_nat n) ltac:(lia)) as [_ Hd].
      unfold PyText.digits in Hd. by apply andb_true_iff in Hd as [_ ?]. }
    assert (exists x xs, PyStr.split ":" (p +:+ ":" +:+ pretty (Z.of_nat n)) = (x :: xs) ++ [pretty (Z.of_nat n)]) as (x & xs & ->).
    { induction p as [|c p (x & xs & IH)].
      - exists "", []. rewrite PyStr.app_nil_l. change (":" +:+ ?r) with ("" +:+ String ":" r). rewrite PyText.split_sep by done.
        by rewrite PyText.split_no_char.
      - rewrite PyStr.app_cons. cbn [PyStr.split]. rewrite IH. cbn [app].
        destruct (Ascii.eqb ":" c); [by exists "", (x :: xs)|by exists (String c x), xs]. }
    by rewrite List.last_last. }
  pose proof (Hlast p i) as Hi. rewrite H, Hlast in Hi. apply (inj pretty) in Hi. lia.
Qed.

Lemma ids_distinct t source l :
  Forall2 (sound t source) l.*1 l.*2 -> NoDup l.*2 -> NoDup ((fun o : Scanned => external_id o) <$> l.*1).
Proof.
  induction l as [|[o j] l IH]; cbn; intros HF Hnd; [constructor|]. inversion HF as [|? ? ? ? Ho HF']; subst.
  apply NoDup_cons in Hnd as [Hj Hnd]. constructor; [|by apply IH]. intros (o' & E & Ho')%list_elem_of_fmap.
  apply list_elem_of_lookup in Ho' as [i Hi]. destruct (Forall2_lookup_l _ _ _ _ _ HF' Hi) as (j' & Hj' & Hs').
  destruct (sound_id _ _ _ _ Ho) as [p Hp], (sound_id _ _ _ _ Hs') as [p' Hp']. rewrite Hp, Hp' in E.
  apply colon_number_inj in E. subst j'. apply Hj. by eapply list_elem_of_lookup_2.
Qed.

Lemma lt_sorted_NoDup (l : list nat) : StronglySorted lt l -> NoDup l.
Proof.
  induction 1 as [|x l Hs IH Hx]; constructor; [|done]. intros Hin. rewrite Forall_forall in Hx. specialize (Hx x Hin). lia.
Qed.

(** ** What every parser promises *)
Definition promises (t : ToolConstants) (source : AdapterSource) (l : list Scanned) : Prop :=
  Forall (fun o : Scanned => Contracts.check_observation o = Ret (o : Observation)
                   /\ (truthy_json (raw_asset o) = true /\ asset_identity o = py_str (raw_asset o)) /\ obs_source o = source /\ rule_version o = tool_version t
                   /\ coverage_domain o = tool_domain t /\ confidence o = PyFloat.Fin (tool_confidence t)) l
  /\ NoDup ((fun o : Scanned => external_id o) <$> l).

Lemma picks_promise {K R} `{EqDecision K} t source (key_of : R -> outcome (option K)) draft number n seen rs l :
  picks t source key_of draft number n seen rs l -> StronglySorted lt ((fun x => x.1.1.2) <$> l) -> promises t source (snd <$> l).
Proof.
  intros Hp Hs. pose proof (picks_sound _ _ _ _ _ _ _ _ _ Hp) as HF. split.
  - apply Forall_fmap. eapply Forall_impl; [exact HF|]. intros x [? [? ?] ? (? & ? & ?) ?]. by split_and!.
  - pose proof (ids_distinct t source ((fun x => (x.2, x.1.1.2)) <$> l)) as H. rewrite <- !list_fmap_compose in H. rewrite <- list_fmap_compose. apply H.
    + clear -HF. induction HF; constructor; done.
    + by apply lt_sorted_NoDup.
Qed.

Lemma emitted_promise {K R} `{EqDecision K} t source (key_of : R -> outcome (option K)) draft rs l :
  collect t source key_of draft (fun n _ => n) 0 [] rs = Ret l -> promises t source l.
Proof.
  intros (ps & Hp & ->)%collect_picks. eapply picks_promise; [done|]. by apply numbers_emitted in Hp as [? _].
Qed.

Lemma enumerated_promise {K A} `{EqDecision K} t source (key_of : nat * A -> outcome (option K)) draft (rs : list A) l :
  collect t source key_of draft (fun _ r => r.1) 0 [] (enumerate rs) = Ret l -> promises t source l.
Proof.
  intros (ps & Hp & ->)%collect_picks. eapply picks_promise; [done|].
  apply numbers_enumerated in Hp as [? _]; [done|apply enumerate_sorted].
Qed.

(** ** Failures *)

(** Every failure of a parser is a ValueError, a TypeError or an
    OverflowError. *)
Definition tame (e : exn) : Prop := is_value_error e = true \/ exists msg, e = TypeError msg \/ e = OverflowError msg.
Definition tamely {A} (m : outcome A) : Prop := forall e, m = Raise e -> tame e.

Lemma tamely_Ret {A} (a : A) : tamely (Ret a).
Proof. by intros e. Qed.
Lemma tamely_type_error {A} msg : tamely (Raise (TypeError msg) : outcome A).
Proof. intros e [= <-]. right. eexists. by left. Qed.
Lemma tamely_bind {A B} (m : outcome A) (f : A -> outcome B) : tamely m -> (forall a, tamely (f a)) -> tamely (m ≫= f).
Proof. intros Hm Hf e [H|(a & _ & H)]%bind_Raise; [by apply Hm|by eapply Hf]. Qed.
Lemma tamely_overflow {A} msg : tamely (Raise (OverflowError msg) : outcome A).
Proof. intros e [= <-]. right. eexists. by right. Qed.
Lemma tamely_hashed v : tamely (hashed v).
Proof. destruct v; (apply tamely_Ret || apply tamely_type_error). Qed.
Lemma tamely_iterate v : tamely (iterate v).
Proof. destruct v; (apply tamely_Ret || apply tamely_type_error). Qed.
Lemma tamely_extract_cve v : tamely (extract_cve v).
Proof. unfold extract_cve. destruct (negb _); [apply tamely_Ret|]. apply tamely_bind; [apply tamely_iterate|]. intros a. apply tamely_Ret. Qed.

Lemma tamely_collect {K R} `{EqDecision K} t source (key_of : R -> outcome (option K)) draft number n seen rs :
  (forall r, tamely (key_of r)) -> (forall r, tamely (draft r)) -> tamely (collect t source key_of draft number n seen rs).
Proof.
  intros Hk Hd e. apply collect_raises; [apply Hk|apply Hd|]. intros j d e' H'. left. by eapply observe_raises.
Qed.

Lemma nothing_promised t source : promises t source [].
Proof. split; constructor. Qed.

(** A parser that keeps its promise or fails tamely. *)
Definition well_behaved (t : ToolConstants) (parse : string -> AdapterSource -> outcome (list Scanned)) : Prop :=
  forall stdout source, match parse stdout source with Ret l => promises t source l | Raise e => tame e end.

Lemma behaves t source (m : outcome (list Scanned)) :
  tamely m -> (forall l, m = Ret l -> promises t source l) ->
  match m with Ret l => promises t source l | Raise e => tame e end.
Proof. intros Ht Hp. destruct m as [l|e]; [by apply Hp|by apply Ht]. Qed.

Section behaves.
Context {K R : Type} `{EqDecision K} (t : ToolConstants) (load : string -> list R).

Lemma emitted_behaves (key_of : R -> outcome (option K)) draft :
  (forall r, tamely (key_of r)) -> (forall r, tamely (draft r)) ->
  well_behaved t (fun stdout source => collect t source key_of draft (fun n _ => n) 0 [] (load stdout)).
Proof. intros Hk Hd stdout source. apply behaves; [by apply tamely_collect|intros l; apply emitted_promise]. Qed.

Lemma enumerated_behaves (key_of : nat * R -> outcome (option K)) draft :
  (forall r, tamely (key_of r)) -> (forall r, tamely (draft r)) ->
  well_behaved t (fun stdout source => collect t source key_of draft (fun _ r => r.1) 0 [] (enumerate (load stdout))).
Proof. intros Hk Hd stdout source. apply behaves; [by apply tamely_collect|intros l; apply enumerated_promise]. Qed.
End behaves.

(** ** Manifests *)

(** [_image.digest if _image and _image.digest else fallback + version] *)
Definition upstream_digest (key fallback version : string) : string :=
  match PyDict.get key ImageCatalog.IMAGE_CATALOG with
  | Some i => or_text (digest i) (fallback +:+ version)
  | None => fallback +:+ version
  end.

(** The constructor calls every [manifest()] makes. *)
Definition manifest_of (image id license : string) (up : string * string * string) (fallback : string) (risk : RiskClass)
    (domains : list CoverageDomain) (schemas : string * string) (entry : string) (fixtures permissions : list string)
    : outcome AdapterManifest :=
  u ← Contracts.check_upstream (mkAdapterUpstream up.1.1 up.1.2 up.2 (upstream_digest image fallback up.2));
  Contracts.make_manifest
    (mkAdapterManifest id "1.0.0" "v1" license u risk domains schemas.1 schemas.2 "scoped-egress" entry fixtures permissions "").

End ToolText.

Create HintDb tame discriminated.
#[export] Hint Resolve ToolText.tamely_Ret ToolText.tamely_type_error ToolText.tamely_overflow ToolText.tamely_hashed ToolText.tamely_iterate
  ToolText.tamely_extract_cve : tame.

(** Splits the binds and the cases of a computation of a parser; what is left
    is looked up in [tame]. *)
Ltac solve_tame :=
  cbv beta zeta;
  lazymatch goal with
  | |- ToolText.tamely (_ ≫= _) => apply ToolText.tamely_bind; [solve_tame|intros ?; solve_tame]
  | |- ToolText.tamely (match ?x with _ => _ end) => destruct x; solve_tame
  | |- _ => solve [auto 1 with tame]
  end.
