(* ===== verification/ReconTools.v ===== *)
(** * Parsers of the reconnaissance tools

    Models the packages [subfinder], [httpx], [naabu], [katana],
    [fingerprinthub] and [nmap] of [src/secopent/integrations/adapters]: the
    manifest and the parser of each, over the shared loop of [ToolText].  The
    XML reader of nmap's output is a parameter that gives the element tree. *)
From S2P Require Import Prelude PyStr PyTime PyFloat Sha256 Canonical PyJson PyText PyDict JsonText JsonIndent Policy Contracts Adapters StepRunner ToolText.

#[local] Open Scope Z_scope.
Import ToolText.

Module Subfinder.

Definition VERSION : string := "2.6.7".
Definition manifest : outcome AdapterManifest :=
  manifest_of "subfinder" "subfinder" "MIT"
    ("subfinder", "https://github.com/projectdiscovery/subfinder", VERSION) "sha256:subfinder-"
    RiskClass.PASSIVE [CoverageDomain.ASSET]
    ("schema://subfinder/input.json", "schema://subfinder/output.json") "secopent_adapters.subfinder:parse"
    ["fixtures/positive.json"; "fixtures/negative.json"; "fixtures/timeout.txt"; "fixtures/malformed.json"]
    ["passive"].

Definition host (r : record) : json := first_of ["host"; "domain"] r.
Definition key_of (x : nat * record) : outcome (option string) :=
  if negb (truthy_json (host x.2)) then Ret None else k ← hashed (host x.2); Ret (Some k).
Definition draft (x : nat * record) : outcome Draft :=
  let h := py_str (host x.2) in
  Ret (mkDraft ("subfinder:" +:+ h) (host x.2) "subfinder.subdomain" ("subdomain discovered: " +:+ h) Severity.INFO [] [] [] x.2).
Definition constants : ToolConstants := mkTool VERSION CoverageDomain.ASSET (PyFloat.mkLit "0.9" eq_refl).
Definition parse (stdout : string) (source : AdapterSource) : outcome (list Scanned) :=
  collect constants source key_of draft (fun _ x => x.1) 0 [] (enumerate (safe_jsonl_load stdout)).

Lemma subfinder_behaves : well_behaved constants parse.
Proof. apply (enumerated_behaves constants safe_jsonl_load key_of draft); intros x; unfold key_of, draft; solve_tame. Qed.

End Subfinder.

Module Httpx.

Definition VERSION : string := "1.6.9".
Definition manifest : outcome AdapterManifest :=
  manifest_of "httpx" "httpx" "MIT"
    ("httpx", "https://github.com/projectdiscovery/httpx", VERSION) "sha256:httpx-"
    RiskClass.PASSIVE [CoverageDomain.ASSET]
    ("schema://httpx/input.json", "schema://httpx/output.json") "secopent_adapters.httpx:parse"
    ["fixtures/positive.json"; "fixtures/negative.json"; "fixtures/timeout.txt"; "fixtures/malformed.json"]
    ["network.connect"].

Definition url (r : record) : json := first_of ["url"; "input"] r.
Definition key_of (x : nat * record) : outcome (option string) :=
  if negb (truthy_json (url x.2)) then Ret None else k ← hashed (url x.2); Ret (Some k).
Definition tech (r : record) : json := or_else [get "tech" r; get "technologies" r; JArr []].
Definition draft (x : nat * record) : outcome Draft :=
  let u := py_str (url x.2) in
  let title := "http probe: " +:+ u +:+ " status=" +:+ py_str (get "status_code" x.2) +:+ " title="
                 +:+ py_repr (default (JStr "") (field "title" x.2)) in
  let raw := setdefault "tech" (JArr (match tech x.2 with JArr l => l | v => [v] end)) x.2 in
  Ret (mkDraft ("httpx:" +:+ u) (url x.2) "httpx.probe" title Severity.INFO [] [] [] raw).
Definition constants : ToolConstants := mkTool VERSION CoverageDomain.ASSET (PyFloat.mkLit "0.95" eq_refl).
Definition parse (stdout : string) (source : AdapterSource) : outcome (list Scanned) :=
  collect constants source key_of draft (fun _ x => x.1) 0 [] (enumerate (safe_jsonl_load stdout)).

Lemma httpx_behaves : well_behaved constants parse.
Proof. apply (enumerated_behaves constants safe_jsonl_load key_of draft); intros x; unfold key_of, draft; solve_tame. Qed.

End Httpx.

Module Naabu.

Definition VERSION : string := "2.3.3".
Definition manifest : outcome AdapterManifest :=
  manifest_of "naabu" "naabu" "MIT"
    ("naabu", "https://github.com/projectdiscovery/naabu", VERSION) "sha256:naabu-"
    RiskClass.LOW [CoverageDomain.ASSET]
    ("schema://naabu/input.json", "schema://naabu/output.json") "secopent_adapters.naabu:parse"
    ["fixtures/positive.json"; "fixtures/negative.json"; "fixtures/timeout.txt"; "fixtures/malformed.json"]
    ["network.connect"].

Definition ip (r : record) : json := first_of ["ip"; "host"; "address"] r.
Definition asset (r : record) : string := py_str (ip r) +:+ ":" +:+ py_str (get "port" r).
Definition key_of (x : nat * record) : outcome (option string) :=
  Ret (if negb (truthy_json (ip x.2)) then None else match get "port" x.2 with JNull => None | _ => Some (asset x.2) end).
Definition draft (x : nat * record) : outcome Draft :=
  let a := asset x.2 in
  Ret (mkDraft ("naabu:" +:+ a) (JStr a) "naabu.open_port" ("open port: " +:+ a) Severity.INFO [] [] [] x.2).
Definition constants : ToolConstants := mkTool VERSION CoverageDomain.ASSET (PyFloat.mkLit "0.95" eq_refl).
Definition parse (stdout : string) (source : AdapterSource) : outcome (list Scanned) :=
  collect constants source key_of draft (fun _ x => x.1) 0 [] (enumerate (safe_jsonl_load stdout)).

Lemma naabu_behaves : well_behaved constants parse.
Proof. apply (enumerated_behaves constants safe_jsonl_load key_of draft); intros x; unfold key_of, draft; solve_tame. Qed.

End Naabu.

Module Katana.

Definition VERSION : string := "1.1.0".
Definition manifest : outcome AdapterManifest :=
  manifest_of "katana" "katana" "MIT"
    ("katana", "https://github.com/projectdiscovery/katana", VERSION) "sha256:katana-"
    RiskClass.PASSIVE [CoverageDomain.ASSET]
    ("schema://katana/input.json", "schema://katana/output.json") "secopent_adapters.katana:parse"
    ["fixtures/positive.json"; "fixtures/negative.json"; "fixtures/timeout.txt"; "fixtures/malformed.json"]
    ["network.connect"].

Definition url (r : record) : json :=
  match get "request" r with JObj q => first_of ["endpoint"; "url"] q | _ => first_of ["url"; "endpoint"] r end.
Definition key_of (x : nat * record) : outcome (option string) :=
  if negb (truthy_json (url x.2)) then Ret None else k ← hashed (url x.2); Ret (Some k).
Definition draft (x : nat * record) : outcome Draft :=
  let u := py_str (url x.2) in
  Ret (mkDraft ("katana:" +:+ u) (url x.2) "katana.crawl" ("crawled URL: " +:+ u) Severity.INFO [] [] [] x.2).
Definition constants : ToolConstants := mkTool VERSION CoverageDomain.ASSET (PyFloat.mkLit "0.9" eq_refl).
Definition parse (stdout : string) (source : AdapterSource) : outcome (list Scanned) :=
  collect constants source key_of draft (fun _ x => x.1) 0 [] (enumerate (safe_jsonl_load stdout)).

Lemma katana_behaves : well_behaved constants parse.
Proof. apply (enumerated_behaves constants safe_jsonl_load key_of draft); intros x; unfold key_of, draft; solve_tame. Qed.

End Katana.

Module FingerprintHub.

Definition TAG_OWASP : dict (list string) :=
  [
   ("wordpress", ["A01"]); ("phpmyadmin", ["A01"; "A07"]); ("jenkins", ["A05"]); ("git", ["A05"])
  ].

Definition VERSION : string := "1.9.0".
Definition manifest : outcome AdapterManifest :=
  manifest_of "fingerprinthub" "fingerprinthub" "MIT"
    ("FingerprintHub", "https://github.com/StarCrossPortal/FingerprintHub", VERSION) "sha256:fingerprinthub-"
    RiskClass.PASSIVE [CoverageDomain.ASSET]
    ("schema://fingerprinthub/input.json", "schema://fingerprinthub/output.json") "secopent_adapters.fingerprinthub:parse"
    ["fixtures/positive.json"; "fixtures/negative.json"; "fixtures/timeout.txt"; "fixtures/malformed.json"]
    ["passive"].

Definition url (r : record) : json := first_of ["url"; "host"; "input"] r.
Definition fingerprints (r : record) : json :=
  let l := get "fingerprints" r in
  if truthy_json l then l else let single := get "fingerprint" r in JArr (if truthy_json single then [single] else []).
(** [for fp in fingerprints]: a text gives its characters. *)
Definition names (v : json) : outcome (list json) :=
  match v with JStr s => Ret (JStr <$> Utf8.chars s) | v => iterate v end.
(** The matches of a record: its number and itself, and each fingerprint or
    the failure to list them, for the loop to meet in its turn. *)
Definition matches (x : nat * record) : list (nat * record * outcome string) :=
  if negb (truthy_json (url x.2)) then []
  else
    match names (fingerprints x.2) with
    | Ret l => omap (fun v => match v with JStr fp => Some (x, Ret fp) | _ => None end) (l : list json)
    | Raise e => [(x, Raise e)]
    end.
Definition key_of (x : nat * record * outcome string) : outcome (option (string * string)) :=
  fp ← x.2; u ← hashed (url x.1.2); Ret (Some (u, fp)).
Definition draft (x : nat * record * outcome string) : outcome Draft :=
  fp ← x.2;
  let u := py_str (url x.1.2) in
  let raw := foldl (fun d e => PyDict.set e.1 e.2 d) [("url", url x.1.2); ("fingerprint", JStr fp)] x.1.2 in
  Ret (mkDraft ("fingerprinthub:" +:+ u +:+ ":" +:+ fp) (url x.1.2) "fingerprinthub.match" ("fingerprint: " +:+ fp +:+ " on " +:+ u)
         Severity.INFO [] [] (default [] (PyDict.get (PyStr.lower fp) TAG_OWASP)) raw).
Definition constants : ToolConstants := mkTool VERSION CoverageDomain.ASSET (PyFloat.mkLit "0.85" eq_refl).
Definition parse (stdout : string) (source : AdapterSource) : outcome (list Scanned) :=
  collect constants source key_of draft (fun _ x => x.1.1) 0 [] (enumerate (safe_jsonl_load stdout) ≫= matches).

(** A fingerprint given as a text where a list is expected is taken letter by
    letter. *)
Example text_is_spelled_out :
  let q s := Canonical.dq +:+ s +:+ Canonical.dq in
  let line := "{" +:+ q "url" +:+ ":" +:+ q "http://a" +:+ "," +:+ q "fingerprints" +:+ ":" +:+ q "git" +:+ "}" in
  match parse line (mkAdapterSource "f" "1" "1") with
  | Ret l => (fun o : Scanned => obs_title o) <$> l = ["fingerprint: g on http://a"; "fingerprint: i on http://a"; "fingerprint: t on http://a"]
  | Raise _ => False
  end.
Proof. vm_compute. reflexivity. Qed.

End FingerprintHub.

(** An XML element; its text is not used. *)
#[local] Unset Elimination Schemes.
Inductive element : Type := Elem (tag : string) (attributes : dict string) (children : list element).
#[local] Set Elimination Schemes.
Definition elem_tag (e : element) : string := let 'Elem t _ _ := e in t.
Definition attributes (e : element) : dict string := let 'Elem _ a _ := e in a.
Definition children (e : element) : list element := let 'Elem _ _ c := e in c.

Module Nmap.

Definition VERSION : string := "7.94".
Definition manifest : outcome AdapterManifest :=
  manifest_of "nmap" "nmap" "GPL-2.0-or-later"
    ("nmap", "https://nmap.org/", VERSION) "sha256:nmap-"
    RiskClass.LOW [CoverageDomain.NETWORK]
    ("schema://nmap/input.json", "schema://nmap/output.xml") "secopent_adapters.nmap:parse"
    ["fixtures/positive.xml"; "fixtures/negative.xml"; "fixtures/timeout.txt"; "fixtures/malformed.xml"]
    ["network.connect"; "independent_process"].

Definition VULN_SCRIPT_IDS : list string :=
  ["ssl-heartbleed"; "ssl-ccs"; "ssl-poodle"; "smb-vuln"; "vulners"; "http-vuln-cve"; "ftp-vsftpd-backdoor"; "ssh-hostkey";
   "ms-sql-empty-password"].

(** *** [ElementTree] *)
Definition attr (k : string) (e : element) : option string := PyDict.get k (attributes e).
Definition attr_or (k dflt : string) (e : element) : string := default dflt (attr k e).
(** [e.findall(tag)], [e.find(tag)] and [e.iter(tag)]. *)
Definition findall (tag : string) (e : element) : list element := List.filter (fun c => bool_decide (elem_tag c = tag)) (children e).
Definition find (tag : string) (e : element) : option element := head (findall tag e).
Fixpoint descendants (e : element) : list element :=
  e :: (fix go l := match l with [] => [] | c :: r => descendants c ++ go r end) (children e).
Definition iter (tag : string) (e : element) : list element := List.filter (fun c => bool_decide (elem_tag c = tag)) (descendants e).

Definition host_addresses (h : element) : list string * option string :=
  ((fun a => attr_or "addr" "" a) <$> List.filter (fun a => bool_decide (attr_or "addrtype" "" a = "ipv4")) (findall "address" h),
   head (omap (fun n => s ← attr "name" n; if PyStr.truthy s then Some s else None) (iter "hostname" h))).

Definition parse_service (p : element) : dict string :=
  match find "service" p with
  | None => []
  | Some s => omap (fun k => v ← attr k s; if PyStr.truthy v then Some (k, v) else None) ["name"; "product"; "version"; "extrainfo"; "tunnel"]
  end.

(** The id and the output of each script. *)
Definition parse_scripts (p : element) : list (string * string) :=
  (fun s => (attr_or "id" "" s, attr_or "output" "" s)) <$> findall "script" p.

(** A port with its address and the name of its host. *)
Record Port : Type := mkPort { p_ip : string; p_hostname : option string; p_id : string; p_elem : element }.

Definition port_asset (p : Port) : string := p_ip p +:+ ":" +:+ p_id p.

Definition open_port (ip : string) (hostname : option string) (e : element) : option Port :=
  if match find "state" e with Some s => negb (bool_decide (attr "state" s = Some "open")) | None => false end then None
  else i ← attr "portid" e; if PyStr.truthy i then Some (mkPort ip hostname i e) else None.

Definition host_ports (h : element) : list Port :=
  if match find "status" h with Some s => bool_decide (attr "state" s = Some "down") | None => false end then []
  else
    match (host_addresses h).1 with
    | [] => []
    | ip :: _ => omap (open_port ip (host_addresses h).2) (iter "port" h)
    end.

Definition key_of (p : Port) : outcome (option string) := Ret (Some (port_asset p)).

Definition draft (p : Port) : outcome Draft :=
  let service := parse_service (p_elem p) in
  let scripts := parse_scripts (p_elem p) in
  let cves := s ← scripts; if bool_decide (s.1 ∈ VULN_SCRIPT_IDS) || PyStr.truthy s.2 then ToolText.cves s.2 else [] in
  let cwes := s ← scripts; if PyStr.startswith s.1 "ssl-" && PyStr.truthy s.2 then ["CWE-310"] else [] in
  let title := match PyDict.get "name" service with
               | Some n => "open " +:+ n +:+ " port: " +:+ port_asset p
               | None => "open port: " +:+ port_asset p
               end in
  Ret (mkDraft ("nmap:" +:+ port_asset p) (JStr (port_asset p)) "nmap.open_port" title Severity.INFO
         (sorted_set cwes) (sorted_set cves) []
         [("ip", JStr (p_ip p)); ("port", JStr (p_id p)); ("protocol", JStr (attr_or "protocol" "tcp" (p_elem p)));
          ("hostname", JStr (default "" (p_hostname p))); ("service", JObj ((fun e => (e.1, JStr e.2)) <$> service));
          ("scripts", JArr ((fun s => JObj [("id", JStr s.1); ("output", JStr s.2)]) <$> scripts))]).
Definition constants : ToolConstants := mkTool VERSION CoverageDomain.NETWORK (PyFloat.mkLit "0.95" eq_refl).

Section parse.
(** [defusedxml.ElementTree.fromstring], [None] if it refuses the text. *)
Context (fromstring : string -> option element).

Definition parse (stdout : string) (source : AdapterSource) : outcome (list Scanned) :=
  if blank stdout then Ret []
  else
    match fromstring stdout with
    | None => Ret []
    | Some root => collect constants source key_of draft (fun n _ => n) 0 [] (h ← iter "host" root; host_ports h)
    end.

Lemma nmap_behaves : well_behaved constants parse.
Proof.
  intros stdout source. unfold parse. destruct (blank stdout); [apply nothing_promised|].
  destruct (fromstring stdout) as [root|]; [|apply nothing_promised].
  apply (emitted_behaves constants (fun _ => h ← iter "host" root; host_ports h) key_of draft); [..|exact stdout];
    intros x; unfold key_of, draft; solve_tame.
Qed.
End parse.

(** The protocol is not part of the key, and a host without an IPv4 address
    has no ports: of 53/tcp and 53/udp one is lost, and an IPv6 host whole. *)
Definition demo_address (kind a : string) : element := Elem "address" [("addr", a); ("addrtype", kind)] [].
Definition demo_port (proto i : string) : element :=
  Elem "port" [("protocol", proto); ("portid", i)] [Elem "state" [("state", "open")] []].
Example udp_port_is_lost :
  let host := Elem "host" [] [demo_address "ipv4" "10.0.0.1"; Elem "ports" [] [demo_port "tcp" "53"; demo_port "udp" "53"]] in
  let host6 := Elem "host" [] [demo_address "ipv6" "2001:db8::1"; Elem "ports" [] [demo_port "tcp" "22"]] in
  match parse (fun _ => Some (Elem "nmaprun" [] [host; host6])) "<x/>" (mkAdapterSource "nmap" "1" "1") with
  | Ret l => (fun o : Scanned => asset_identity o) <$> l = ["10.0.0.1:53"]
  | Raise _ => False
  end.
Proof. vm_compute. reflexivity. Qed.

End Nmap.
