(* ===== verification/WebTools.v ===== *)
(** * Parsers of the web and API scanners

    Models the packages [nuclei], [nuclei_tcp], [dalfox], [zap], [restler] and
    [schemathesis] of [src/secopent/integrations/adapters]: the manifest and
    the parser of each, over the shared loop of [ToolText]. *)
From S2P Require Import Prelude PyStr PyTime PyFloat Sha256 Canonical PyJson PyText PyDict JsonText JsonIndent Policy Contracts Adapters StepRunner ToolText.

#[local] Open Scope Z_scope.
Import ToolText.

(** ** What both nuclei parsers share *)
Module NucleiText.

Definition info (r : record) : record := match get "info" r with JObj d => d | _ => [] end.

Definition template_id (i : nat) (r : record) : json :=
  or_else [get "template-id" r; get "templateID" r; get "template_id" r; get "name" (info r); JStr ("unknown-" +:+ pretty (Z.of_nat i))].

Definition tags (r : record) : json := or_else [get "tags" (info r); get "tags" r; JArr []].

(** [_map_tags] over a table of tags. *)
Definition map_tags (table : dict attribution) (tags : json) : outcome attribution :=
  if negb (truthy_json tags) then Ret no_attribution
  else
    items ← iterate tags;
    let hits := omap (fun v => match v with JStr s => PyDict.get (PyStr.lower s) table | _ => None end) (items : list json) in
    Ret (sorted_set (concat hits.*1), sorted_set (concat hits.*2)).

Definition severity (table : dict Severity) (r : record) : Severity :=
  severity_of table Severity.INFO (PyStr.lower (py_str (default (JStr "info") (field "severity" (info r))))).

Definition title (i : nat) (r : record) : string := py_str (json_or (get "name" (info r)) (template_id i r)).

(** The record, with the two keys downstream code reads. *)
Definition raw (i : nat) (r : record) : record :=
  setdefault "tags" (JArr (match tags r with JArr l => l | v => [v] end)) (setdefault "template-id" (template_id i r) r).

Definition reference (r : record) : json := json_or (get "reference" r) (get "reference" (info r)).

(** A CVE in the identifier of the template, if the references name none. *)
Definition or_template (i : nat) (r : record) (cve : list string) : list string :=
  match cve, template_id i r with [], JStr t => cves t | _, _ => cve end.

Lemma tamely_map_tags table tags : tamely (map_tags table tags).
Proof. unfold map_tags. solve_tame. Qed.

End NucleiText.
#[export] Hint Resolve NucleiText.tamely_map_tags : tame.

Module Nuclei.

Definition TAG_MAP : dict attribution :=
  [
   ("sqli", (["CWE-89"], ["A03:2021"])); ("sql-injection", (["CWE-89"], ["A03:2021"]));
   ("xss", (["CWE-79"], ["A03:2021"])); ("stored-xss", (["CWE-79"], ["A03:2021"]));
   ("reflected-xss", (["CWE-79"], ["A03:2021"])); ("dom-xss", (["CWE-79"], ["A03:2021"]));
   ("ssrf", (["CWE-918"], ["A10:2021"])); ("rce", (["CWE-78"], ["A03:2021"])); ("lfi", (["CWE-22"], ["A01:2021"]));
   ("rfi", (["CWE-98"], ["A03:2021"])); ("command-injection", (["CWE-78"], ["A03:2021"]));
   ("ssti", (["CWE-94"], ["A03:2021"])); ("default-login", (["CWE-521"], ["A07:2021"]));
   ("weak-password", (["CWE-521"], ["A07:2021"])); ("auth-bypass", (["CWE-287"], ["A07:2021"]));
   ("exposure", (["CWE-200"], ["A05:2021"])); ("exposed-panel", (["CWE-200"], ["A05:2021"]));
   ("misconfig", (["CWE-16"], ["A05:2021"])); ("ssl", (["CWE-295"], ["A02:2021"]));
   ("tls", (["CWE-295"], ["A02:2021"])); ("idor", (["CWE-639"], ["A01:2021"]));
   ("authz", (["CWE-862"], ["A01:2021"])); ("open-redirect", (["CWE-601"], ["A01:2021"]))
  ].

Definition SEVERITY_MAP : dict Severity :=
  [
   ("critical", Severity.CRITICAL); ("high", Severity.HIGH); ("medium", Severity.MEDIUM);
   ("moderate", Severity.MEDIUM); ("low", Severity.LOW); ("info", Severity.INFO); ("informational", Severity.INFO)
  ].

Definition VERSION : string := "3.3.7".
Definition manifest : outcome AdapterManifest :=
  manifest_of "nuclei" "nuclei" "MIT"
    ("nuclei", "https://github.com/projectdiscovery/nuclei", VERSION) "sha256:nuclei-"
    RiskClass.ACTIVE [CoverageDomain.WEB]
    ("schema://nuclei/input.json", "schema://nuclei/output.json") "secopent_adapters.nuclei:parse"
    ["fixtures/positive.jsonl"; "fixtures/negative.jsonl"; "fixtures/timeout.txt"; "fixtures/malformed.jsonl"]
    ["active"].

Import NucleiText.

Definition host (r : record) : json := or_else [get "matched-host" r; get "matched-at" r; get "host" r; get "url" r; JStr ""].
Definition matched_at (r : record) : string := py_str (json_or (get "matched-at" r) (JStr "")).
Definition dedup_key (x : nat * record) : string :=
  py_str (template_id x.1 x.2) +:+ "|" +:+ or_text (matched_at x.2) (py_str (host x.2)).
Definition key_of (x : nat * record) : outcome (option string) :=
  Ret (if truthy_json (host x.2) then Some (dedup_key x) else None).

Definition draft (x : nat * record) : outcome Draft :=
  attributed ← map_tags TAG_MAP (tags x.2);
  cve ← extract_cve (reference x.2);
  let t := py_str (template_id x.1 x.2) in
  Ret (mkDraft ("nuclei:" +:+ t +:+ ":" +:+ py_str (host x.2)) (host x.2) t (title x.1 x.2) (severity SEVERITY_MAP x.2)
         attributed.1 (or_template x.1 x.2 cve) attributed.2 (raw x.1 x.2)).
Definition constants : ToolConstants := mkTool VERSION CoverageDomain.WEB (PyFloat.mkLit "0.9" eq_refl).

Definition parse (stdout : string) (source : AdapterSource) : outcome (list Scanned) :=
  collect constants source key_of draft (fun _ x => x.1) 0 [] (enumerate (safe_jsonl_load stdout)).

Lemma nuclei_behaves : well_behaved constants parse.
Proof. apply (enumerated_behaves constants safe_jsonl_load key_of draft); intros x; unfold key_of, draft; solve_tame. Qed.

(** The host is never hashed, so a list of hosts becomes the asset as it is;
    the TCP package refuses the same line. *)
Example list_of_hosts_is_the_asset :
  let out := Canonical.canonical_json (JObj [("template-id", JStr "t"); ("host", JArr [JStr "a"; JStr "b"])]) in
  match parse out (mkAdapterSource "nuclei" "1" "1") with
  | Ret l => (fun o => (raw_asset o, asset_identity o, external_id o)) <$> l
             = [(JArr [JStr "a"; JStr "b"], "['a', 'b']", "nuclei:t:['a', 'b']:0")]
  | Raise _ => False
  end.
Proof. vm_compute. reflexivity. Qed.

End Nuclei.

Module NucleiTcp.

Definition TAG_MAP : dict attribution :=
  [
   ("ssl", (["CWE-295"], ["A02:2021"])); ("tls", (["CWE-295"], ["A02:2021"]));
   ("heartbleed", (["CWE-319"], ["A02:2021"])); ("poodle", (["CWE-327"], ["A02:2021"]));
   ("cbc", (["CWE-327"], ["A02:2021"])); ("weak-cipher", (["CWE-327"], ["A02:2021"]));
   ("weak-crypto", (["CWE-327"], ["A02:2021"])); ("mitm", (["CWE-295"], ["A02:2021"]));
   ("dns", (["CWE-200"], ["A05:2021"])); ("zone-transfer", (["CWE-200"], ["A05:2021"]));
   ("dnssec", (["CWE-345"], ["A05:2021"])); ("subdomain-takeover", (["CWE-350"], ["A05:2021"]));
   ("takeover", (["CWE-350"], ["A05:2021"])); ("exposure", (["CWE-200"], ["A05:2021"]));
   ("exposed-service", (["CWE-200"], ["A05:2021"])); ("default-login", (["CWE-521"], ["A07:2021"]));
   ("weak-password", (["CWE-521"], ["A07:2021"])); ("rce", (["CWE-78"], ["A03:2021"])); ("fingerprint", ([], []));
   ("tech", ([], []))
  ].

Definition SEVERITY_MAP : dict Severity :=
  [
   ("critical", Severity.CRITICAL); ("high", Severity.HIGH); ("medium", Severity.MEDIUM);
   ("moderate", Severity.MEDIUM); ("low", Severity.LOW); ("info", Severity.INFO); ("informational", Severity.INFO)
  ].

Definition VERSION : string := "3.3.7".
Definition manifest : outcome AdapterManifest :=
  manifest_of "nuclei_tcp" "nuclei_tcp" "MIT"
    ("nuclei", "https://github.com/projectdiscovery/nuclei", VERSION) "sha256:nuclei-"
    RiskClass.ACTIVE [CoverageDomain.NETWORK]
    ("schema://nuclei_tcp/input.json", "schema://nuclei_tcp/output.jsonl") "secopent_adapters.nuclei_tcp:parse"
    ["fixtures/positive.jsonl"; "fixtures/negative.jsonl"; "fixtures/timeout.txt"; "fixtures/malformed.jsonl"]
    ["active"; "network.connect"].

Import NucleiText.

Definition host (r : record) : json := or_else [get "matched-at" r; get "matched-host" r; get "host" r; get "ip" r; JStr ""].
Definition key_of (x : nat * record) : outcome (option string) :=
  if truthy_json (host x.2) then k ← hashed (host x.2); Ret (Some k) else Ret None.

(** [_extract_cve] of this package: a value of another type holds none. *)
Definition cves_in (reference : json) : list string :=
  match reference with JStr s => cves_of [JStr s] | JArr l => cves_of l | _ => [] end.

Definition draft (x : nat * record) : outcome Draft :=
  attributed ← map_tags TAG_MAP (tags x.2);
  let t := py_str (template_id x.1 x.2) in
  Ret (mkDraft ("nuclei_tcp:" +:+ t +:+ ":" +:+ py_str (host x.2)) (host x.2) t (title x.1 x.2) (severity SEVERITY_MAP x.2)
         attributed.1 (or_template x.1 x.2 (cves_in (reference x.2))) attributed.2 (raw x.1 x.2)).
Definition constants : ToolConstants := mkTool VERSION CoverageDomain.NETWORK (PyFloat.mkLit "0.9" eq_refl).

Definition parse (stdout : string) (source : AdapterSource) : outcome (list Scanned) :=
  collect constants source key_of draft (fun _ x => x.1) 0 [] (enumerate (safe_jsonl_load stdout)).

Lemma nuclei_tcp_behaves : well_behaved constants parse.
Proof. apply (enumerated_behaves constants safe_jsonl_load key_of draft); intros x; unfold key_of, draft; solve_tame. Qed.

(** The key is the host alone: of two templates that match one host the
    second is lost (the web adapter keeps both). *)
Definition q (s : string) : string := Canonical.dq +:+ s +:+ Canonical.dq.
Definition demo_line (template : string) : string :=
  "{" +:+ q "template-id" +:+ ":" +:+ q template +:+ "," +:+ q "matched-at" +:+ ":" +:+ q "10.0.0.1:443" +:+ "}" +:+ JsonIndent.nl.
Example second_template_is_lost :
  let out := demo_line "ssl/heartbleed" +:+ demo_line "ssl/poodle" in
  match parse out (mkAdapterSource "t" "1" "1"), Nuclei.parse out (mkAdapterSource "t" "1" "1") with
  | Ret l, Ret l' =>
      (fun o : Scanned => rule_id o) <$> l = ["ssl/heartbleed"] /\ (fun o : Scanned => rule_id o) <$> l' = ["ssl/heartbleed"; "ssl/poodle"]
  | _, _ => False
  end.
Proof. vm_compute. done. Qed.

Example list_of_hosts_is_refused :
  let out := Canonical.canonical_json (JObj [("template-id", JStr "t"); ("host", JArr [JStr "a"; JStr "b"])]) in
  parse out (mkAdapterSource "t" "1" "1") = Raise (TypeError "unhashable type: 'list'").
Proof. vm_compute. reflexivity. Qed.

End NucleiTcp.

Module Dalfox.

Definition SEVERITY_MAP : dict Severity :=
  [
   ("critical", Severity.CRITICAL); ("high", Severity.HIGH); ("medium", Severity.MEDIUM);
   ("moderate", Severity.MEDIUM); ("low", Severity.LOW); ("info", Severity.INFO)
  ].

Definition VERSION : string := "2.9.2".
Definition manifest : outcome AdapterManifest :=
  manifest_of "dalfox" "dalfox" "MIT"
    ("dalfox", "https://github.com/hahwul/dalfox", VERSION) "sha256:dalfox-"
    RiskClass.ACTIVE [CoverageDomain.WEB]
    ("schema://dalfox/input.json", "schema://dalfox/output.json") "secopent_adapters.dalfox:parse"
    ["fixtures/positive.json"; "fixtures/negative.json"; "fixtures/timeout.txt"; "fixtures/malformed.json"]
    ["active"].

(** [_load_json_records] *)
Definition load_json_records (stdout : string) : list record :=
  if blank stdout then []
  else
    let text := PyStr.strip stdout in
    match jsonl_lenient (splitlines text) with [] => whole text | l => l end.

Definition url (r : record) : json := first_of ["url"; "target"; "host"] r.
(** The URL and the parameter, if there is one. *)
Definition asset (r : record) : json :=
  match get "param" r with
  | JStr p => if PyStr.truthy p then JStr (if truthy_json (url r) then py_str (url r) +:+ "?" +:+ p else p)
              else json_or (url r) (JStr "")
  | _ => json_or (url r) (JStr "")
  end.
Definition key_of (x : nat * record) : outcome (option string) :=
  if truthy_json (asset x.2) then k ← hashed (asset x.2); Ret (Some k) else Ret None.
Definition draft (x : nat * record) : outcome Draft :=
  let sev := PyStr.lower (py_str (or_else [get "severity" x.2; get "Severity" x.2; JStr "medium"])) in
  let msg := or_else [get "message" x.2; get "type" x.2; JStr "xss"] in
  Ret (mkDraft ("dalfox:" +:+ py_str (asset x.2)) (asset x.2) "dalfox.xss" ("xss: " +:+ py_str msg) (severity_of SEVERITY_MAP Severity.MEDIUM sev)
         ["CWE-79"] [] ["A03:2021"] (setdefault "owasp" (JStr "A03:2021") (setdefault "cwe" (JStr "CWE-79") x.2))).
Definition constants : ToolConstants := mkTool VERSION CoverageDomain.WEB (PyFloat.mkLit "0.85" eq_refl).
Definition parse (stdout : string) (source : AdapterSource) : outcome (list Scanned) :=
  collect constants source key_of draft (fun _ x => x.1) 0 [] (enumerate (load_json_records stdout)).

Lemma dalfox_behaves : well_behaved constants parse.
Proof. apply (enumerated_behaves constants load_json_records key_of draft); intros x; unfold key_of, draft; solve_tame. Qed.

End Dalfox.

Module Zap.

Definition PLUGIN_OWASP : dict string :=
  [
   ("40018", "A03:2021"); ("40014", "A03:2021"); ("40019", "A03:2021"); ("40020", "A03:2021"); ("40024", "A01:2021");
   ("40025", "A01:2021"); ("10202", "A02:2021"); ("10027", "A05:2021"); ("10010", "A05:2021"); ("10017", "A05:2021");
   ("10021", "A05:2021"); ("10038", "A05:2021"); ("10028", "A07:2021"); ("10098", "A05:2021")
  ].

Definition RISK_SEVERITY : dict Severity :=
  [
   ("high", Severity.HIGH); ("medium", Severity.MEDIUM); ("moderate", Severity.MEDIUM); ("low", Severity.LOW);
   ("info", Severity.INFO); ("informational", Severity.INFO)
  ].

Definition VERSION : string := "2.15.0".
Definition manifest : outcome AdapterManifest :=
  manifest_of "zap" "zap" "Apache-2.0"
    ("zap", "https://github.com/zaproxy/zaproxy", VERSION) "sha256:zap-"
    RiskClass.ACTIVE [CoverageDomain.WEB]
    ("schema://zap/input.json", "schema://zap/output.json") "secopent_adapters.zap:parse"
    ["fixtures/positive.json"; "fixtures/negative.json"; "fixtures/timeout.txt"; "fixtures/malformed.json"]
    ["active"; "standalone-only"].

Definition alerts_of (v : json) : option (list record) := match v with JArr l => Some (objects l) | _ => None end.

(** [_load_alerts] *)
Definition load_alerts (stdout : string) : list record :=
  if blank stdout then []
  else
    match JsonText.loads (PyStr.strip stdout) with
    | Some (JArr l) => objects l
    | Some (JObj d) =>
        match alerts_of (get "alerts" d) with
        | Some l => l
        | None => match get "site" d with
                  | JArr sites => site ← objects sites; default [] (alerts_of (get "alerts" site))
                  | _ => []
                  end
        end
    | _ => []
    end.

Definition pluginid (r : record) : string := py_str (or_else [get "pluginid" r; get "id" r; JStr ""]).
(** [int(str(v))], 0 if it is no number. *)
Definition cwe_number (r : record) : Z :=
  match PyStr.int_of_str (py_str (or_else [get "cweid" r; get "cwe" r; JStr "0"])) with Ret z => z | Raise _ => 0 end.
Definition url (r : record) : json := or_else [get "url" r; get "instance" r; get "host" r; JStr ""].
(** A numeric code stands for a risk. *)
Definition risk (r : record) : string :=
  let s := PyStr.lower (py_str (or_else [get "risk" r; get "riskcode" r; JStr "info"])) in
  if PyText.digits s then default "info" (PyDict.get s [("3", "high"); ("2", "medium"); ("1", "low"); ("0", "info")]) else s.

Definition key_of (x : nat * record) : outcome (option (string * string)) :=
  Ret (if truthy_json (url x.2) then Some (pluginid x.2, py_str (url x.2)) else None).
Definition draft (x : nat * record) : outcome Draft :=
  let p := pluginid x.2 in
  let u := py_str (url x.2) in
  Ret (mkDraft ("zap:" +:+ p +:+ ":" +:+ u) (JStr u) (if PyStr.truthy p then "zap." +:+ p else "zap.alert")
         (py_str (or_else [get "alert" x.2; get "name" x.2; JStr "zap alert"])) (severity_of RISK_SEVERITY Severity.INFO (risk x.2))
         (if 0 <? cwe_number x.2 then ["CWE-" +:+ pretty (cwe_number x.2)] else []) []
         (match PyDict.get p PLUGIN_OWASP with Some o => [o] | None => [] end) (setdefault "pluginid" (JStr p) x.2)).
Definition constants : ToolConstants := mkTool VERSION CoverageDomain.WEB (PyFloat.mkLit "0.8" eq_refl).
Definition parse (stdout : string) (source : AdapterSource) : outcome (list Scanned) :=
  collect constants source key_of draft (fun _ x => x.1) 0 [] (enumerate (load_alerts stdout)).

Lemma zap_behaves : well_behaved constants parse.
Proof. apply (enumerated_behaves constants load_alerts key_of draft); intros x; unfold key_of, draft; solve_tame. Qed.

End Zap.

Module Restler.

Definition BUG_SEVERITY : dict Severity :=
  [
   ("skip_step", Severity.HIGH); ("out_of_order", Severity.HIGH); ("replay", Severity.MEDIUM)
  ].

Definition VERSION : string := "9.2.0".
Definition manifest : outcome AdapterManifest :=
  manifest_of "restler" "restler" "MIT"
    ("restler", "https://github.com/microsoft/restler-fuzzer", VERSION) "sha256:restler-"
    RiskClass.ACTIVE [CoverageDomain.WEB]
    ("schema://restler/input.json", "schema://restler/output.json") "secopent_adapters.restler:parse"
    ["fixtures/positive.json"; "fixtures/negative.json"; "fixtures/timeout.txt"; "fixtures/malformed.json"]
    ["active"].

Definition flatten_bugs (l : list record) : list record :=
  r ← l; match get "bugs" r with JArr inner => objects inner | _ => [r] end.

(** [_load_bugs] *)
Definition load_bugs (stdout : string) : list record :=
  if blank stdout then []
  else
    let text := PyStr.strip stdout in
    match jsonl (splitlines text) with
    | None => []
    | Some [] => flatten_bugs (whole text)
    | Some l => flatten_bugs l
    end.

Definition bug_class (r : record) : string :=
  PyStr.replace "-" "_" (PyStr.lower (py_str (or_else [get "bug_class" r; get "test_class" r; get "type" r; JStr "unknown"]))).
Definition endpoint (r : record) : json := or_else [get "endpoint" r; get "request" r; get "url" r; get "method" r; JStr ""].
Definition key_of (x : nat * record) : outcome (option (string * string)) :=
  Ret (if truthy_json (endpoint x.2) then Some (bug_class x.2, py_str (endpoint x.2)) else None).
Definition draft (x : nat * record) : outcome Draft :=
  let b := bug_class x.2 in
  let e := py_str (endpoint x.2) in
  Ret (mkDraft ("restler:" +:+ b +:+ ":" +:+ e) (JStr e) ("restler." +:+ b) ("restler sequence bug: " +:+ b +:+ " at " +:+ e)
         (severity_of BUG_SEVERITY Severity.MEDIUM b) [] [] ["A04:2021"] (set_field "test_class" (JStr b) x.2)).
Definition constants : ToolConstants := mkTool VERSION CoverageDomain.WEB (PyFloat.mkLit "0.8" eq_refl).
Definition parse (stdout : string) (source : AdapterSource) : outcome (list Scanned) :=
  collect constants source key_of draft (fun _ x => x.1) 0 [] (enumerate (load_bugs stdout)).

Lemma restler_behaves : well_behaved constants parse.
Proof. apply (enumerated_behaves constants load_bugs key_of draft); intros x; unfold key_of, draft; solve_tame. Qed.

End Restler.

Module Schemathesis.

Definition CHECK_SEVERITY : dict Severity :=
  [
   ("not_a_server_error", Severity.HIGH); ("status_code_conformance", Severity.MEDIUM);
   ("content_type_conformance", Severity.MEDIUM); ("response_schema_conformance", Severity.MEDIUM);
   ("negative_data_rejection", Severity.HIGH); ("ensure_check_ast_removal", Severity.LOW)
  ].

Definition VERSION : string := "3.36.4".
Definition manifest : outcome AdapterManifest :=
  manifest_of "schemathesis" "schemathesis" "MIT"
    ("schemathesis", "https://github.com/schemathesis/schemathesis", VERSION) "sha256:schemathesis-"
    RiskClass.ACTIVE [CoverageDomain.WEB]
    ("schema://schemathesis/input.json", "schema://schemathesis/output.json") "secopent_adapters.schemathesis:parse"
    ["fixtures/positive.json"; "fixtures/negative.json"; "fixtures/timeout.txt"; "fixtures/malformed.json"]
    ["active"].

(** [_extract_ndjson_events] *)
Definition extract_ndjson_events (text : string) : list record :=
  omap (fun l => let line := PyStr.strip l in
                 if PyStr.startswith line "{" then match JsonText.loads line with Some (JObj d) => Some d | _ => None end else None)
    (splitlines text).

Definition is_failure (r : record) : bool :=
  match field "status" r with Some (JStr s) => bool_decide (s = "failure") | _ => false end.

(** [label.split(" ", 1)], with the defaults for a label without a space. *)
Definition method_and_path (label : string) : string * string :=
  let '(method, found, path) := PyStr.partition " " label in
  if found then (method, path) else ("GET", or_text label "/").

Definition failure_message (check : record) : string :=
  match json_or (get "failure_info" check) (JObj []) with
  | JObj i => match get "failure" i with JObj f => py_str (json_or (get "message" f) (JStr "")) | _ => "" end
  | _ => ""
  end.

(** The failed checks of one finished scenario: name, method, path and the
    message. *)
Definition failed_checks (event : record) : list (string * string * string * string) :=
  match get "ScenarioFinished" event with
  | JObj sf =>
      if is_failure sf then
        match get "recorder" sf with
        | JObj recorder =>
            let label := py_str (json_or (get "label" recorder) (JStr "")) in
            match get "checks" recorder with
            | JObj checks =>
                c ← checks;
                check ← (match c.2 with JArr l => objects l | _ => [] end);
                if is_failure check
                then [(py_str (json_or (get "name" check) (JStr "unknown")), (method_and_path label).1, (method_and_path label).2, failure_message check)]
                else []
            | _ => []
            end
        | _ => []
        end
      else []
  | _ => []
  end.

Fixpoint first_by_key (seen : list (string * string * string)) (l : list (string * string * string * string))
    : list (string * string * string * string) :=
  match l with
  | [] => []
  | c :: r => if bool_decide (c.1 ∈ seen) then first_by_key seen r else c :: first_by_key (seen ++ [c.1]) r
  end.

(** [_failed_checks_from_events] *)
Definition failed_checks_from_events (events : list record) : list record :=
  (fun c => [("check", JStr c.1.1.1); ("method", JStr c.1.1.2); ("path", JStr c.1.2); ("message", JStr c.2); ("status", JStr "failure")])
  <$> first_by_key [] (e ← events; failed_checks e).

Definition has_key (k : string) (r : record) : bool := match field k r with Some _ => true | None => false end.
Definition is_result (r : record) : bool := has_key "check" r || has_key "name" r || has_key "method" r || has_key "path" r.

Definition from_events (text : string) : list record :=
  match extract_ndjson_events text with
  | [] => []
  | events => match List.filter is_result events with [] => failed_checks_from_events events | flat => flat end
  end.

(** [_load_results] *)
Definition load_results (stdout : string) : list record :=
  if blank stdout then []
  else
    let text := PyStr.strip stdout in
    match JsonText.loads text with
    | Some (JObj d) =>
        match get "results" d with
        | JArr l => objects l
        | _ => if is_result d then [d] else from_events text
        end
    | Some (JArr l) => objects l
    | _ => from_events text
    end.

Definition check (r : record) : string := py_str (or_else [get "check" r; get "name" r; JStr "unknown"]).
Definition method (r : record) : json := or_else [get "method" r; get "verb" r; JStr "GET"].
Definition path (r : record) : json := or_else [get "path" r; get "endpoint" r; get "url" r; JStr "/"].
Definition key_of (x : nat * record) : outcome (option (string * string * string)) :=
  m ← hashed (method x.2); p ← hashed (path x.2); Ret (Some (check x.2, m, p)).
Definition draft (x : nat * record) : outcome Draft :=
  let m := py_str (method x.2) in
  let p := py_str (path x.2) in
  let c := check x.2 in
  let endpoint := m +:+ " " +:+ p in
  Ret (mkDraft ("schemathesis:" +:+ c +:+ ":" +:+ m +:+ ":" +:+ p) (JStr endpoint) ("schemathesis." +:+ c)
         ("schemathesis boundary: " +:+ c +:+ " failed on " +:+ endpoint) (severity_of CHECK_SEVERITY Severity.MEDIUM c)
         [] [] ["A04:2021"] (set_field "test_class" (JStr "boundary") x.2)).
Definition constants : ToolConstants := mkTool VERSION CoverageDomain.WEB (PyFloat.mkLit "0.85" eq_refl).
Definition parse (stdout : string) (source : AdapterSource) : outcome (list Scanned) :=
  collect constants source key_of draft (fun _ x => x.1) 0 [] (enumerate (load_results stdout)).

Lemma schemathesis_behaves : well_behaved constants parse.
Proof. apply (enumerated_behaves constants load_results key_of draft); intros x; unfold key_of, draft; solve_tame. Qed.

End Schemathesis.
