(* ===== verification/CloudTools.v ===== *)
(** * Parsers of the cloud and configuration scanners

    Models the packages [trivy], [checkov], [kube_bench], [prowler] and
    [scoutsuite] of [src/secopent/integrations/adapters]: the manifest and the
    parser of each, over the shared loop of [ToolText]. *)
From S2P Require Import Prelude PyStr PyTime PyFloat Sha256 Canonical PyJson PyText PyDict JsonText JsonIndent Policy Contracts Adapters StepRunner ToolText.

#[local] Open Scope Z_scope.
Import ToolText.

(** The JSON of the whole output ([_load_.._json]). *)
Module WholeText.

Definition value (stdout : string) : option json := if blank stdout then None else JsonText.loads stdout.

(** The records of an object or of a list of objects. *)
Definition records (stdout : string) : list record := default [] (records_of <$> value stdout).

(** The object, if it is one. *)
Definition object (stdout : string) : option record :=
  match value stdout with Some (JObj d) => Some d | _ => None end.

End WholeText.

Module Trivy.

Definition SEVERITY_MAP : dict Severity :=
  [
   ("critical", Severity.CRITICAL); ("high", Severity.HIGH); ("medium", Severity.MEDIUM);
   ("moderate", Severity.MEDIUM); ("low", Severity.LOW); ("info", Severity.INFO); ("informational", Severity.INFO);
   ("unknown", Severity.INFO); ("none", Severity.INFO)
  ].

Definition VERSION : string := "0.55.0".
Definition manifest : outcome AdapterManifest :=
  manifest_of "trivy" "trivy" "Apache-2.0"
    ("trivy", "https://github.com/aquasecurity/trivy", VERSION) "sha256:trivy-"
    RiskClass.PASSIVE [CoverageDomain.CLOUD]
    ("schema://trivy/input.json", "schema://trivy/output.json") "secopent_adapters.trivy:parse"
    ["fixtures/positive.json"; "fixtures/negative.json"; "fixtures/timeout.txt"; "fixtures/malformed.json"]
    ["passive"].

(** A vulnerability with the artifact and the target it was found in. *)
Record Vuln : Type := mkVuln { v_artifact : string; v_target : string; v_record : record }.

Definition results_of (artifact : string) (r : record) : list Vuln :=
  let target := safe_str (or_else [get "Target" r; get "target" r; JStr artifact]) in
  match first_of ["Vulnerabilities"; "vulnerabilities"] r with
  | JArr l => mkVuln artifact target <$> objects l
  | _ => []
  end.

Definition load (stdout : string) : list Vuln :=
  match WholeText.object stdout with
  | None => []
  | Some d =>
      match get "Results" d with
      | JArr l => r ← objects l; results_of (safe_str (first_of ["ArtifactName"; "artifact_name"] d)) r
      | _ => []
      end
  end.

Definition vid (v : Vuln) : string := safe_str (first_of ["VulnerabilityID"; "vulnerability_id"] (v_record v)).
Definition pkg (v : Vuln) : string := safe_str (first_of ["PkgName"; "pkg_name"] (v_record v)).
Definition asset (v : Vuln) : string := or_text (v_artifact v) (v_target v) +:+ ":" +:+ pkg v +:+ ":" +:+ vid v.
Definition key_of (v : Vuln) : outcome (option string) :=
  Ret (if PyStr.is_empty (vid v) || PyStr.is_empty (pkg v) then None else Some (asset v)).

Definition map_severity (s : string) : Severity := severity_of SEVERITY_MAP Severity.INFO (PyStr.lower s).
Definition cwes_of (items : list json) : list string :=
  v ← items; if PyStr.startswith (safe_str v) "CWE-" then [PyStr.upper (safe_str v)] else [].

Definition draft (v : Vuln) : outcome Draft :=
  let r := v_record v in
  cwe_ids ← iterate (or_else [get "CweIDs" r; get "cwe_ids" r; JArr []]);
  let raw := set_field "target" (JStr (v_target v)) (set_field "artifact" (JStr (v_artifact v))
               (setdefault "VulnerabilityID" (JStr (vid v)) (setdefault "PkgName" (JStr (pkg v)) r))) in
  Ret (mkDraft ("trivy:" +:+ vid v +:+ ":" +:+ pkg v) (JStr (asset v)) (vid v) (safe_str (or_else [get "Title" r; get "title" r; JStr (vid v)]))
         (map_severity (safe_str (first_of ["Severity"; "severity"] r))) (sorted_set (cwes_of cwe_ids)) (cves (vid v)) [] raw).
Definition constants : ToolConstants := mkTool VERSION CoverageDomain.CLOUD (PyFloat.mkLit "0.9" eq_refl).
Definition parse (stdout : string) (source : AdapterSource) : outcome (list Scanned) :=
  collect constants source key_of draft (fun n _ => n) 0 [] (load stdout).

Lemma trivy_behaves : well_behaved constants parse.
Proof. apply (emitted_behaves constants load key_of draft); intros x; unfold key_of, draft; solve_tame. Qed.

End Trivy.

Module Checkov.

Definition CKV_CWE_MAP : dict attribution :=
  [
   ("CKV_AWS_S3", (["CWE-732"], ["A01:2021"])); ("CKV_AWS_18", (["CWE-778"], ["A09:2021"]));
   ("CKV_AWS_19", (["CWE-311"], ["A02:2021"])); ("CKV_AWS_20", (["CWE-732"], ["A01:2021"]));
   ("CKV_AWS_21", (["CWE-732"], ["A01:2021"])); ("CKV_AWS_52", (["CWE-693"], ["A05:2021"]));
   ("CKV_AWS_40", (["CWE-287"], ["A07:2021"])); ("CKV_AWS_41", (["CWE-798"], ["A07:2021"]));
   ("CKV_AWS_107", (["CWE-732"], ["A01:2021"])); ("CKV_AWS_KMS", (["CWE-311"], ["A02:2021"]));
   ("CKV_AWS_7", (["CWE-311"], ["A02:2021"])); ("CKV_AWS_23", (["CWE-284"], ["A05:2021"]));
   ("CKV_AWS_24", (["CWE-284"], ["A05:2021"])); ("CKV_AWS_260", (["CWE-284"], ["A05:2021"]));
   ("CKV_AWS_CLOUDTRAIL", (["CWE-778"], ["A09:2021"])); ("CKV_AWS_99", (["CWE-778"], ["A09:2021"]));
   ("CKV_AWS", (["CWE-693"], ["A05:2021"])); ("CKV_GCP", (["CWE-693"], ["A05:2021"]));
   ("CKV_AZURE", (["CWE-693"], ["A05:2021"])); ("CKV_K8S", (["CWE-693"], ["A05:2021"]))
  ].

Definition VERSION : string := "3.2.0".
Definition manifest : outcome AdapterManifest :=
  manifest_of "checkov" "checkov" "MIT"
    ("checkov", "https://github.com/bridgecrewio/checkov", VERSION) "sha256:checkov-"
    RiskClass.PASSIVE [CoverageDomain.CLOUD]
    ("schema://checkov/input.json", "schema://checkov/output.json") "secopent_adapters.checkov:parse"
    ["fixtures/positive.json"; "fixtures/negative.json"; "fixtures/timeout.txt"; "fixtures/malformed.json"]
    ["passive"].

(** [_map_check_id] *)
Definition map_check_id (check_id : string) : attribution :=
  let cid := PyStr.upper check_id in
  match PyDict.get cid CKV_CWE_MAP with
  | Some a => a
  | None => by_prefix CKV_CWE_MAP (fun prefix c => PyStr.startswith c (prefix +:+ "_") || bool_decide (c = prefix)) cid
  end.

Definition block_failures (v : json) : list json :=
  match v with
  | JObj block =>
      match get "results" block with
      | JObj results => match get "failed_checks" results with JArr l => l | _ => [] end
      | _ => []
      end
  | _ => []
  end.

(** The failed checks of one object or of a list of them. *)
Definition load (stdout : string) : list record :=
  match WholeText.value stdout with
  | Some (JArr l) => objects (v ← l; block_failures v)
  | Some v => objects (block_failures v)
  | None => []
  end.

Definition check_id (r : record) : string := safe_str (first_of ["check_id"; "CheckId"] r).
Definition file_path (r : record) : string := safe_str (or_else [get "file_path" r; get "file_path_" r; JStr "<unknown>"]).
Definition asset (r : record) : string :=
  file_path r +:+ ":" +:+ or_text (safe_str (first_of ["resource"; "resource_address"] r)) (check_id r).
Definition key_of (r : record) : outcome (option string) :=
  Ret (if PyStr.is_empty (check_id r) then None else Some (asset r)).
Definition draft (r : record) : outcome Draft :=
  let cid := check_id r in
  cve ← extract_cve (first_of ["guideline"; "references"] r);
  Ret (mkDraft ("checkov:" +:+ cid +:+ ":" +:+ file_path r) (JStr (asset r)) cid
         (safe_str (or_else [get "check_name" r; get "check_title" r; JStr cid])) Severity.MEDIUM
         (map_check_id cid).1 cve (map_check_id cid).2 (setdefault "check_id" (JStr cid) r)).
Definition constants : ToolConstants := mkTool VERSION CoverageDomain.CLOUD (PyFloat.mkLit "0.9" eq_refl).
Definition parse (stdout : string) (source : AdapterSource) : outcome (list Scanned) :=
  collect constants source key_of draft (fun n _ => n) 0 [] (load stdout).

Lemma checkov_behaves : well_behaved constants parse.
Proof. apply (emitted_behaves constants load key_of draft); intros x; unfold key_of, draft; solve_tame. Qed.

(** A resource counts once: of two checks it fails the second is lost. *)
Definition demo_check (cid : string) : json :=
  JObj [("check_id", JStr cid); ("file_path", JStr "/main.tf"); ("resource", JStr "aws_s3_bucket.public")].
Example second_check_is_lost :
  let out := JsonIndent.dumps (JObj [("results", JObj [("failed_checks", JArr [demo_check "CKV_AWS_18"; demo_check "CKV_AWS_20"])])]) in
  match parse out (mkAdapterSource "checkov" "1" "1") with Ret l => (fun o : Scanned => rule_id o) <$> l = ["CKV_AWS_18"] | Raise _ => False end.
Proof. vm_compute. reflexivity. Qed.

End Checkov.

Module KubeBench.

Definition STATUS_SEVERITY : dict Severity :=
  [
   ("FAIL", Severity.HIGH); ("WARN", Severity.INFO); ("PASS", Severity.INFO); ("INFO", Severity.INFO);
   ("MANUAL", Severity.INFO)
  ].

Definition VERSION : string := "0.8.0".
Definition manifest : outcome AdapterManifest :=
  manifest_of "kube_bench" "kube_bench" "Apache-2.0"
    ("kube-bench", "https://github.com/aquasecurity/kube-bench", VERSION) "sha256:kube-bench-"
    RiskClass.PASSIVE [CoverageDomain.CLOUD]
    ("schema://kube_bench/input.json", "schema://kube_bench/output.json") "secopent_adapters.kube_bench:parse"
    ["fixtures/positive.json"; "fixtures/negative.json"; "fixtures/timeout.txt"; "fixtures/malformed.json"]
    ["passive"].

(** A result with its control section and node type. *)
Record Result : Type := mkResult { r_control : string; r_node : string; r_record : record }.

Definition number_of (r : record) : string := safe_str (first_of ["test_number"; "testNumber"] r).

(** A group without a list of results is a result itself if it has a number. *)
Definition group_results (group : record) : list record :=
  match get "results" group with
  | JArr l => objects l
  | _ => if PyStr.truthy (number_of group) then [group] else []
  end.

Definition control_results (c : record) : list Result :=
  match get "tests" c with
  | JArr l =>
      group ← objects l;
      mkResult (safe_str (first_of ["id"; "control_id"] c)) (safe_str (first_of ["node_type"; "nodeType"] c)) <$> group_results group
  | _ => []
  end.

Definition load (stdout : string) : list Result := c ← WholeText.records stdout; control_results c.

Definition asset (r : Result) : string := or_text (r_node r) "node" +:+ ":" +:+ number_of (r_record r).
Definition key_of (r : Result) : outcome (option string) :=
  Ret (if PyStr.is_empty (number_of (r_record r)) then None else Some (asset r)).
Definition draft (x : Result) : outcome Draft :=
  let r := r_record x in
  let num := number_of r in
  let raw := set_field "node_type" (JStr (r_node x)) (setdefault "test_id" (JStr num)
               (setdefault "control_id" (JStr (r_control x)) (setdefault "id" (JStr (r_control x)) r))) in
  Ret (mkDraft ("kube_bench:" +:+ r_node x +:+ ":" +:+ num) (JStr (asset x)) num (safe_str (or_else [get "test_desc" r; get "text" r; JStr num]))
         (severity_of STATUS_SEVERITY Severity.INFO (PyStr.upper (safe_str (get "status" r)))) [] [] [] raw).
Definition constants : ToolConstants := mkTool VERSION CoverageDomain.CLOUD (PyFloat.mkLit "0.9" eq_refl).
Definition parse (stdout : string) (source : AdapterSource) : outcome (list Scanned) :=
  collect constants source key_of draft (fun n _ => n) 0 [] (load stdout).

Lemma kube_bench_behaves : well_behaved constants parse.
Proof. apply (emitted_behaves constants load key_of draft); intros x; unfold key_of, draft; solve_tame. Qed.

End KubeBench.

Module Prowler.

Definition CIS_CWE_MAP : dict attribution :=
  [
   ("iam_user_mfa", (["CWE-287"], ["A07:2021"])); ("iam_mfa", (["CWE-287"], ["A07:2021"]));
   ("iam_root", (["CWE-287"], ["A07:2021"])); ("iam_password", (["CWE-521"], ["A07:2021"]));
   ("iam_access_key", (["CWE-798"], ["A07:2021"])); ("iam_policy", (["CWE-732"], ["A01:2021"]));
   ("cloudtrail", (["CWE-778"], ["A09:2021"])); ("cloudwatch", (["CWE-778"], ["A09:2021"]));
   ("config", (["CWE-778"], ["A09:2021"])); ("kms", (["CWE-311"], ["A02:2021"]));
   ("tls", (["CWE-295"], ["A02:2021"])); ("ssl", (["CWE-295"], ["A02:2021"]));
   ("security_group", (["CWE-284"], ["A05:2021"])); ("nacl", (["CWE-284"], ["A05:2021"]));
   ("vpc", (["CWE-284"], ["A05:2021"])); ("s3_bucket", (["CWE-732"], ["A01:2021"]));
   ("s3", (["CWE-732"], ["A01:2021"])); ("rds", (["CWE-284"], ["A05:2021"]));
   ("check_2", (["CWE-778"], ["A09:2021"])); ("check_4", (["CWE-311"], ["A02:2021"]));
   ("check_5", (["CWE-284"], ["A05:2021"]))
  ].

Definition SEVERITY_MAP : dict Severity :=
  [
   ("critical", Severity.CRITICAL); ("high", Severity.HIGH); ("medium", Severity.MEDIUM);
   ("moderate", Severity.MEDIUM); ("low", Severity.LOW); ("info", Severity.INFO); ("informational", Severity.INFO)
  ].

Definition VERSION : string := "4.6.0".
Definition manifest : outcome AdapterManifest :=
  manifest_of "prowler" "prowler" "Apache-2.0"
    ("prowler", "https://github.com/prowler-cloud/prowler", VERSION) "sha256:prowler-"
    RiskClass.PASSIVE [CoverageDomain.CLOUD]
    ("schema://prowler/input.json", "schema://prowler/output.json") "secopent_adapters.prowler:parse"
    ["fixtures/positive.json"; "fixtures/negative.json"; "fixtures/timeout.txt"; "fixtures/malformed.json"]
    ["passive"].

(** [_map_check_id] *)
Definition map_check_id (check_id : string) : attribution :=
  if PyStr.is_empty check_id then no_attribution
  else by_prefix CIS_CWE_MAP (fun prefix c => PyStr.startswith c prefix) (PyStr.lower check_id).

Definition check_id (r : record) : string := safe_str (first_of ["CheckId"; "check_id"; "checkid"] r).
Definition account (r : record) : string := safe_str (first_of ["AccountId"; "account_id"; "account"] r).
Definition region (r : record) : string := safe_str (or_else [get "Region" r; get "region" r; JStr "global"]).
Definition asset (r : record) : string := or_text (account r) "unknown" +:+ ":" +:+ region r +:+ ":" +:+ check_id r.
Definition status (r : record) : string := PyStr.upper (safe_str (or_else [get "Status" r; get "status" r; JStr ""])).
(** A check that passed is no risk. *)
Definition severity (r : record) : Severity :=
  if bool_decide (status r = "PASS") then Severity.INFO
  else severity_of SEVERITY_MAP Severity.INFO (PyStr.lower (safe_str (or_else [get "Severity" r; get "severity" r; JStr "info"]))).

Definition key_of (x : nat * record) : outcome (option string) :=
  Ret (if PyStr.is_empty (check_id x.2) then None else Some (asset x.2)).
Definition draft (x : nat * record) : outcome Draft :=
  let r := x.2 in
  let cid := check_id r in
  Ret (mkDraft ("prowler:" +:+ cid +:+ ":" +:+ account r +:+ ":" +:+ region r) (JStr (asset r)) cid
         (safe_str (or_else [get "CheckTitle" r; get "check_title" r; JStr cid])) (severity r)
         (map_check_id cid).1 [] (map_check_id cid).2 (setdefault "check_id" (JStr cid) r)).
Definition constants : ToolConstants := mkTool VERSION CoverageDomain.CLOUD (PyFloat.mkLit "0.9" eq_refl).
Definition parse (stdout : string) (source : AdapterSource) : outcome (list Scanned) :=
  collect constants source key_of draft (fun _ x => x.1) 0 [] (enumerate (WholeText.records stdout)).

Lemma prowler_behaves : well_behaved constants parse.
Proof. apply (enumerated_behaves constants WholeText.records key_of draft); intros x; unfold key_of, draft; solve_tame. Qed.

(** The resource is not part of the key: a bucket that passes hides one that
    fails the same check. *)
Definition demo_finding (st arn : string) : json :=
  JObj [("CheckId", JStr "s3_bucket_public_read"); ("Severity", JStr "critical"); ("Status", JStr st); ("Region", JStr "us-east-1");
        ("AccountId", JStr "123456789012"); ("ResourceArn", JStr arn)].
Example failure_is_hidden :
  let out := JsonIndent.dumps (JArr [demo_finding "PASS" "arn:aws:s3:::private"; demo_finding "FAIL" "arn:aws:s3:::public"]) in
  match parse out (mkAdapterSource "prowler" "1" "1") with Ret l => (fun o : Scanned => obs_severity o) <$> l = [Severity.INFO] | Raise _ => False end.
Proof. vm_compute. reflexivity. Qed.

End Prowler.

Module ScoutSuite.

Definition FINDING_CWE_MAP : dict attribution :=
  [
   ("iam", (["CWE-287"], ["A07:2021"])); ("cloudtrail", (["CWE-778"], ["A09:2021"]));
   ("logging", (["CWE-778"], ["A09:2021"])); ("kms", (["CWE-311"], ["A02:2021"]));
   ("elb", (["CWE-295"], ["A02:2021"])); ("ec2", (["CWE-284"], ["A05:2021"])); ("vpc", (["CWE-284"], ["A05:2021"]));
   ("security-group", (["CWE-284"], ["A05:2021"])); ("s3", (["CWE-732"], ["A01:2021"]));
   ("rds", (["CWE-284"], ["A05:2021"])); ("redshift", (["CWE-284"], ["A05:2021"]))
  ].

Definition SEVERITY_MAP : dict Severity :=
  [
   ("danger", Severity.HIGH); ("warning", Severity.MEDIUM); ("info", Severity.INFO)
  ].

Definition VERSION : string := "5.13.0".
Definition manifest : outcome AdapterManifest :=
  manifest_of "scoutsuite" "scoutsuite" "GPL-2.0-or-later"
    ("ScoutSuite", "https://github.com/nccgroup/ScoutSuite", VERSION) "sha256:scoutsuite-"
    RiskClass.PASSIVE [CoverageDomain.CLOUD]
    ("schema://scoutsuite/input.json", "schema://scoutsuite/output.json") "secopent_adapters.scoutsuite:parse"
    ["fixtures/positive.json"; "fixtures/negative.json"; "fixtures/timeout.txt"; "fixtures/malformed.json"]
    ["passive"; "independent_process"].

(** [_map_finding_key]: the key, and then the service. *)
Definition map_finding_key (finding_key service : string) : attribution :=
  match omap (fun c => e ← List.find (fun e => PyStr.startswith c e.1) FINDING_CWE_MAP; Some e.2) [PyStr.lower finding_key; PyStr.lower service] with
  | a :: _ => a
  | [] => no_attribution
  end.

(** A finding with its account, its service and its key. *)
Record Finding : Type := mkFinding { f_account : string; f_service : string; f_key : string; f_record : record }.

Definition service_findings (account service : string) (v : json) : list Finding :=
  match v with
  | JObj d =>
      match get "findings" d with
      | JObj l => omap (fun e => match e.2 with JObj r => Some (mkFinding account service e.1 r) | _ => None end) l
      | _ => []
      end
  | _ => []
  end.

Definition load (stdout : string) : list Finding :=
  match WholeText.object stdout with
  | None => []
  | Some d =>
      match get "services" d with
      | JObj l => s ← l; service_findings (safe_str (or_else [get "account_id" d; get "accountId" d; JStr "unknown"])) s.1 s.2
      | _ => []
      end
  end.

(** [int(flagged)]; 0 for what is caught, a [TypeError] or a [ValueError]. *)
Definition flagged (r : record) : outcome Z :=
  match PyNumbers.to_int (default (JInt 0) (field "flagged_items" r)) with
  | Ret z => Ret z
  | Raise (OverflowError msg) => Raise (OverflowError msg)
  | Raise _ => Ret 0
  end.

Definition asset (f : Finding) : string := f_account f +:+ ":" +:+ f_service f +:+ ":" +:+ f_key f.
Definition key_of (f : Finding) : outcome (option string) :=
  n ← flagged (f_record f); Ret (if n <=? 0 then None else Some (asset f)).
Definition draft (f : Finding) : outcome Draft :=
  let r := f_record f in
  let a := map_finding_key (f_key f) (f_service f) in
  Ret (mkDraft ("scoutsuite:" +:+ f_service f +:+ ":" +:+ f_key f +:+ ":" +:+ f_account f) (JStr (asset f)) (f_key f)
         (safe_str (json_or (get "description" r) (JStr (f_key f))))
         (severity_of SEVERITY_MAP Severity.MEDIUM (PyStr.lower (safe_str (json_or (get "level" r) (JStr "warning")))))
         a.1 [] a.2 (setdefault "finding_key" (JStr (f_key f)) (setdefault "service" (JStr (f_service f)) r))).
Definition constants : ToolConstants := mkTool VERSION CoverageDomain.CLOUD (PyFloat.mkLit "0.9" eq_refl).
Definition parse (stdout : string) (source : AdapterSource) : outcome (list Scanned) :=
  collect constants source key_of draft (fun n _ => n) 0 [] (load stdout).

Lemma tamely_flagged r : tamely (flagged r).
Proof. unfold flagged. destruct (PyNumbers.to_int _) as [z|[]]; (apply tamely_Ret || apply tamely_overflow). Qed.
#[local] Hint Resolve tamely_flagged : tame.

Lemma scoutsuite_behaves : well_behaved constants parse.
Proof. apply (emitted_behaves constants load key_of draft); intros x; unfold key_of, draft; solve_tame. Qed.

Example zero_flagged_is_skipped :
  let f (n : json) := JObj [("flagged_items", n); ("level", JStr "danger")] in
  let out := JsonIndent.dumps (JObj [("account_id", JStr "1"); ("services", JObj [("iam", JObj [("findings",
               JObj [("iam-a", f (JInt 2)); ("iam-b", f (JInt 0)); ("iam-c", f (JStr "many"))])])])]) in
  match parse out (mkAdapterSource "scoutsuite" "1" "1") with
  | Ret l => (fun o : Scanned => (rule_id o, obs_severity o, obs_cwe o)) <$> l = [("iam-a", Severity.HIGH, ["CWE-287"])]
  | Raise _ => False
  end.
Proof. vm_compute. reflexivity. Qed.

(** A number of flagged items beyond the doubles is read as an infinity, whose
    [int()] nothing catches. *)
Example infinite_flagged_items_escape :
  let out := JsonIndent.dumps (JObj [("services", JObj [("iam", JObj [("findings",
               JObj [("iam-a", JObj [("flagged_items", JFloat (PyFloat.mkLit "1e400" eq_refl))])])])])]) in
  parse out (mkAdapterSource "scoutsuite" "1" "1") = Raise (OverflowError "cannot convert float infinity to integer").
Proof. vm_compute. reflexivity. Qed.

End ScoutSuite.
