(* ===== verification/Tools.v ===== *)
(** * The registered tool parsers and the step runner

    The parsers of [ReconTools], [WebTools] and [CloudTools] under the keys of
    [_ADAPTER_PARSERS] ([src/secopent/infrastructure/adapters/real_scan.py]):
    what all of them promise to [StepRunner], which of their failures escape a
    step, and the manifests of all adapters. *)
From S2P Require Import Prelude PyStr PyTime PyFloat Sha256 Canonical PyJson PyText PyDict JsonText JsonIndent Policy Assessments Contracts Orchestrator StepRunner ToolText ReconTools WebTools CloudTools.

#[local] Open Scope Z_scope.

Module Tools.
Import ToolText.

(** The manifests of the packages of [integrations/adapters]. *)
Definition MANIFESTS : dict (outcome AdapterManifest) :=
  [("checkov", Checkov.manifest); ("dalfox", Dalfox.manifest); ("fingerprinthub", FingerprintHub.manifest); ("httpx", Httpx.manifest);
   ("katana", Katana.manifest); ("kube_bench", KubeBench.manifest); ("naabu", Naabu.manifest); ("nmap", Nmap.manifest);
   ("nuclei", Nuclei.manifest); ("nuclei_tcp", NucleiTcp.manifest); ("prowler", Prowler.manifest); ("restler", Restler.manifest);
   ("schemathesis", Schemathesis.manifest); ("scoutsuite", ScoutSuite.manifest); ("subfinder", Subfinder.manifest);
   ("trivy", Trivy.manifest); ("zap", Zap.manifest)].

Section registry.
(** The XML reader of nmap's output. *)
Context (fromstring : string -> option element).

(** [_ADAPTER_PARSERS], each with what its observations have in common. *)
Definition PARSERS : dict (ToolConstants * (string -> AdapterSource -> outcome (list Scanned))) :=
  [("nuclei", (Nuclei.constants, Nuclei.parse)); ("subfinder", (Subfinder.constants, Subfinder.parse));
   ("httpx", (Httpx.constants, Httpx.parse)); ("naabu", (Naabu.constants, Naabu.parse));
   ("nmap", (Nmap.constants, Nmap.parse fromstring)); ("dalfox", (Dalfox.constants, Dalfox.parse));
   ("katana", (Katana.constants, Katana.parse)); ("schemathesis", (Schemathesis.constants, Schemathesis.parse));
   ("restler", (Restler.constants, Restler.parse)); ("trivy", (Trivy.constants, Trivy.parse));
   ("prowler", (Prowler.constants, Prowler.parse)); ("kube_bench", (KubeBench.constants, KubeBench.parse));
   ("checkov", (Checkov.constants, Checkov.parse)); ("scoutsuite", (ScoutSuite.constants, ScoutSuite.parse))].

(** Parsers of packages nothing registers. *)
Definition UNREGISTERED : dict (ToolConstants * (string -> AdapterSource -> outcome (list Scanned))) :=
  [("nuclei_tcp", (NucleiTcp.constants, NucleiTcp.parse)); ("zap", (Zap.constants, Zap.parse))].

(** The lookup in [RealScanRunner.scan] and the call. *)
Definition parse_tool (key stdout : string) (source : AdapterSource) : outcome (list Scanned) :=
  match PyDict.get key PARSERS with
  | Some p => p.2 stdout source
  | None => Raise (ValueError ("no parser registered for adapter " +:+ PyStr.repr key))
  end.

Lemma registered_keys : PARSERS.*1 = RealScan.ADAPTER_PARSERS.
Proof. reflexivity. Qed.

Lemma parsers_behave : Forall (fun e => well_behaved e.2.1 e.2.2) (PARSERS ++ UNREGISTERED).
Proof.
  repeat apply Forall_cons_2; [..|apply Forall_nil_2]; cbn [fst snd].
  - apply Nuclei.nuclei_behaves.
  - apply Subfinder.subfinder_behaves.
  - apply Httpx.httpx_behaves.
  - apply Naabu.naabu_behaves.
  - apply Nmap.nmap_behaves.
  - apply Dalfox.dalfox_behaves.
  - apply Katana.katana_behaves.
  - apply Schemathesis.schemathesis_behaves.
  - apply Restler.restler_behaves.
  - apply Trivy.trivy_behaves.
  - apply Prowler.prowler_behaves.
  - apply KubeBench.kube_bench_behaves.
  - apply Checkov.checkov_behaves.
  - apply ScoutSuite.scoutsuite_behaves.
  - apply NucleiTcp.nuclei_tcp_behaves.
  - apply Zap.zap_behaves.
Qed.

Lemma get_behaved key p : PyDict.get key PARSERS = Some p -> well_behaved p.1 p.2.
Proof.
  intros H%PyDict.get_mem. pose proof parsers_behave as HF. rewrite Forall_forall in HF.
  apply (HF (key, p)). apply elem_of_app. by left.
Qed.

Lemma parse_tool_tame key stdout source e : parse_tool key stdout source = Raise e -> tame e.
Proof.
  unfold parse_tool. destruct (PyDict.get key PARSERS) as [p|] eqn:E; [|intros [= <-]; by left].
  pose proof (get_behaved _ _ E stdout source) as H. intros Hp. by rewrite Hp in H.
Qed.

(** C35: every registered parser keeps its contract. Whatever text a tool
    prints, its parser either returns observations that satisfy the adapter
    contract, carry the source it was given and the version, the coverage
    domain and the confidence of that tool, name an asset that is not empty,
    and have distinct external ids; or it fails by a ValueError, a TypeError
    or an OverflowError. A key without a parser is refused by a ValueError. *)
Theorem parsers_keep_their_contract key stdout source :
  match parse_tool key stdout source with
  | Ret l =>
      key ∈ RealScan.ADAPTER_PARSERS
      /\ exists t, fst <$> PyDict.get key PARSERS = Some t
         /\ Forall (fun o : Scanned => Contracts.check_observation o = Ret (o : Observation)
                     /\ (truthy_json (raw_asset o) = true /\ asset_identity o = py_str (raw_asset o))
                     /\ obs_source o = source /\ rule_version o = tool_version t
                     /\ coverage_domain o = tool_domain t /\ confidence o = PyFloat.Fin (tool_confidence t)) l
         /\ NoDup ((fun o : Scanned => external_id o) <$> l)
  | Raise e =>
      is_value_error e = true
      \/ (key ∈ RealScan.ADAPTER_PARSERS /\ exists msg, e = TypeError msg \/ e = OverflowError msg)
  end.
Proof.
  unfold parse_tool. destruct (PyDict.get key PARSERS) as [p|] eqn:E; [|by left].
  assert (key ∈ RealScan.ADAPTER_PARSERS) as Hk.
  { rewrite <- registered_keys. apply list_elem_of_fmap. exists (key, p). split; [done|]. by apply PyDict.get_mem. }
  pose proof (get_behaved _ _ E stdout source) as H. destruct (p.2 stdout source) as [l|e].
  - split; [done|]. exists p.1. destruct H as [H1 H2]. by split_and!.
  - destruct H as [H|H]; [by left|by right].
Qed.

Section steps.
Context (execute : nat -> ScanCall -> outcome (string * string * Z)) (is_file : string -> bool) (c : ScanContext).

(** A step over the registered parsers ends by its digest, by a step failure
    or, when the executor fails by exceptions only, by the TypeError or the
    OverflowError of a parser or by the ValueError of the digest of an
    observation that holds an infinite number. *)
Theorem what_escapes_a_step s w :
  (forall n k e, execute n k = Raise e -> is_exception e = true) ->
  match (StepRunner.run execute parse_tool is_file c s w).1 with
  | Raised e => (exists msg, e = TypeError msg \/ e = OverflowError msg) \/ e = StepRunner.out_of_range
  | _ => True
  end.
Proof.
  intros Hx. destruct (StepRunner.run execute parse_tool is_file c s w) as [a w'] eqn:Er. cbn.
  destruct a as [d|fc msg|e]; [done..|].
  apply (StepRunnerFacts.run_fails _ _ _ _ tame) in Er as [[[H|H] Hv]|H]; [congruence|by left|by right|..].
  - exact Hx.
  - intros key out src e'. apply parse_tool_tame.
Qed.
End steps.
End registry.

(** *** Manifests *)

Definition starts_gpl (license : string) : bool := PyStr.startswith license "GPL".

Definition manifest_ok (e : string * outcome AdapterManifest) : bool :=
  match e.2 with
  | Ret m => bool_decide (am_id m = e.1)
             && (negb (starts_gpl (am_license m)) || bool_decide ("independent_process" ∈ permissions m))
             && bool_decide (parser m = "secopent_adapters." +:+ e.1 +:+ ":parse")
  | Raise _ => false
  end.

(** The manifest of every adapter is valid and names its own parser, and a
    GPL tool asks for a process of its own. *)
Theorem manifests_are_valid key : key ∈ MANIFESTS.*1 ->
  exists m, PyDict.get key MANIFESTS = Some (Ret m) /\ am_id m = key
    /\ parser m = "secopent_adapters." +:+ key +:+ ":parse"
    /\ (starts_gpl (am_license m) = true -> "independent_process" ∈ permissions m).
Proof.
  assert (Hall : forallb manifest_ok MANIFESTS = true) by (vm_compute; reflexivity).
  intros (e & -> & He)%list_elem_of_fmap.
  assert (Hget : PyDict.get e.1 MANIFESTS = Some e.2).
  { apply PyDict.get_In; [|by destruct e]. apply (bool_decide_unpack _). vm_compute. exact I. }
  rewrite forallb_forall in Hall. specialize (Hall e ltac:(by apply list_elem_of_In)). unfold manifest_ok in Hall.
  destruct e as [k [m|x]]; cbn [fst snd] in *; [|done]. apply andb_true_iff in Hall as [[H1 H2]%andb_true_iff H3].
  apply bool_decide_eq_true in H1, H3. exists m. split_and!; [done..|]. intros Hg. rewrite Hg in H2. by apply bool_decide_eq_true in H2.
Qed.

(** *** A malformed record *)

Definition demo_context : ScanContext := mkContext ["http://app"] None "/templates" [] [].
Definition demo_step : PlanStep := mkPlanStep "probe" "httpx" RiskClass.PASSIVE [] [].
Definition printing (out : string) (n : nat) (c : ScanCall) : outcome (string * string * Z) := Ret (out, "", 0).

(** A record whose URL is a list is no member of a set: the failure leaves the
    parser and the step. *)
Example list_url_escapes_the_step :
  let out := Canonical.canonical_json (JObj [("url", JArr [JStr "http://app"])]) in
  (StepRunner.run (printing out) (parse_tool (fun _ => None)) (fun _ => false) demo_context demo_step StepRunner.initial).1
  = Raised (TypeError "unhashable type: 'list'").
Proof. vm_compute. reflexivity. Qed.

(** A number beyond the doubles anywhere in a record: the observations are
    stored, and the digest fails. *)
Example infinite_number_escapes_the_step :
  let out := Canonical.canonical_json (JObj [("url", JStr "http://app"); ("time", JFloat (PyFloat.mkLit "1e400" eq_refl))]) in
  let '(a, w) := StepRunner.run (printing out) (parse_tool (fun _ => None)) (fun _ => false) demo_context demo_step StepRunner.initial in
  a = Raised (ValueError "Out of range float values are not JSON compliant")
  /\ (fun o : Scanned => asset_identity o) <$> StepRunner.all_observations w = ["http://app"].
Proof. vm_compute. done. Qed.

Lemma what_escapes_a_step_witness :
  let out := Canonical.canonical_json (JObj [("url", JStr "http://app")]) in
  exists d, (StepRunner.run (printing out) (parse_tool (fun _ => None)) (fun _ => false) demo_context demo_step StepRunner.initial).1 = Done d
  /\ match (StepRunner.run (printing out) (parse_tool (fun _ => None)) (fun _ => false) demo_context demo_step StepRunner.initial).1 with
     | Raised e => (exists msg, e = TypeError msg \/ e = OverflowError msg) \/ e = StepRunner.out_of_range
     | _ => True
     end.
Proof.
  intros out. eexists. split; [vm_compute; reflexivity|]. apply what_escapes_a_step. by intros n k e [=].
Defined.

Lemma manifests_are_valid_witness : exists m, PyDict.get "nmap" MANIFESTS = Some (Ret m) /\ "independent_process" ∈ permissions m.
Proof.
  destruct (manifests_are_valid "nmap" ltac:(apply (bool_decide_unpack _); vm_compute; exact I)) as (m & Hm & _ & _ & Hg).
  exists m. split; [exact Hm|]. apply Hg. vm_compute in Hm. injection Hm as <-. reflexivity.
Defined.

End Tools.
