(* ===== verification/Intel.v ===== *)
(** * Vulnerability intelligence: records and sources

    Models [src/secopent/domain/intel/provenance.py] and [models.py] (Module
    [Intel]) and [src/secopent/infrastructure/intel_sources/__init__.py]
    (Modules [IntelTime], [Csv], [OsvClient], [KevClient], [EpssClient],
    [NvdProxyClient], [SourceSync]).  The HTTP client is a parameter: what it
    answered to the request.  A field whose JSON value has not the documented
    type is refused with a TypeError (Python goes on with it); the basic and
    week forms of ISO dates are not read. *)
From S2P Require Import Prelude PyStr PyTime PyFloat Sha256 Canonical PyJson PyText PyIso PyDict JsonText Policy Net Scope Enforcer Contracts Adapters StepRunner ToolText.

#[local] Open Scope Z_scope.

(** ** Records *)
Record Provenance : Type := mkProvenance { pv_source : string; fetched_at : datetime; source_version : string }.

Record AffectedProduct : Type := mkProduct {
  vendor : string;
  product : string;
  cpe : option string;
  package : option string;
  version_range : string;
  fixed_versions : list string
}.

Record ExploitationSignal : Type := mkSignal {
  kev : bool;
  epss_score : pyfloat;
  public_exploit : bool;
  ransomware : bool;
  active_exploitation : bool
}.

Record DetectionMapping : Type := mkMapping {
  dm_vulnerability_id : string;
  case_version : string;
  detection_type : string;
  dm_risk : RiskClass;
  dm_confidence : pyfloat
}.

(** An aware [datetime]: its instant and its UTC offset in microseconds. *)
Record aware : Type := mkAware { instant : datetime; utcoffset : Z }.

Record Vulnerability : Type := mkVulnerability {
  canonical_id : string;
  aliases : list string;
  v_description : string;
  cvss : list (string * (pyfloat * Provenance));
  v_cwe : list string;
  references : list string;
  published_at : aware;
  affected_products : list AffectedProduct;
  exploitation_signal : ExploitationSignal;
  detection_mappings : list DetectionMapping;
  v_provenance : Provenance;
  v_digest : string
}.

Module Intel.

Definition in_range (lo hi x : pyfloat) : bool := PyFloat.leb lo x && PyFloat.leb x hi.
Definition probability (x : pyfloat) : bool := in_range (flt "0.0") (flt "1.0") x.
Definition cvss_score (x : pyfloat) : bool := in_range (flt "0.0") (flt "10.0") x.

Definition invalid (b : bool) (msg : string) : outcome unit := raise_if b (DomainValidationError msg).

Definition check_provenance (p : Provenance) : outcome Provenance :=
  invalid (PyStr.is_empty (pv_source p)) "Provenance.source must be non-empty";;
  invalid (PyStr.is_empty (source_version p)) "Provenance.source_version must be non-empty";;
  Ret p.

Definition check_product (p : AffectedProduct) : outcome AffectedProduct :=
  invalid (PyStr.is_empty (vendor p)) "AffectedProduct.vendor must be non-empty";;
  invalid (PyStr.is_empty (product p)) "AffectedProduct.product must be non-empty";;
  Ret p.

Definition check_signal (s : ExploitationSignal) : outcome ExploitationSignal :=
  invalid (negb (probability (epss_score s))) "ExploitationSignal.epss_score must be in [0.0, 1.0]";;
  Ret s.

Definition check_mapping (m : DetectionMapping) : outcome DetectionMapping :=
  invalid (PyStr.is_empty (dm_vulnerability_id m)) "DetectionMapping.vulnerability_id must be non-empty";;
  invalid (PyStr.is_empty (case_version m)) "DetectionMapping.case_version must be non-empty";;
  invalid (PyStr.is_empty (detection_type m)) "DetectionMapping.detection_type must be non-empty";;
  invalid (negb (probability (dm_confidence m))) "DetectionMapping.confidence must be in [0.0, 1.0]";;
  Ret m.

(** [_dedup_preserve_order] *)
Definition dedup_preserve_order (values : list string) : list string :=
  foldl (fun out v => if bool_decide (v ∈ out) then out else out ++ [v]) [] values.

Definition check_score (e : string * (pyfloat * Provenance)) : outcome unit :=
  invalid (PyStr.is_empty e.1) "Vulnerability.cvss source key must be non-empty";;
  invalid (negb (cvss_score e.2.1)) ("Vulnerability.cvss[" +:+ PyStr.repr e.1 +:+ "] score must be in [0.0, 10.0]").

Fixpoint check_scores (l : list (string * (pyfloat * Provenance))) : outcome unit :=
  match l with [] => Ret tt | e :: r => check_score e;; check_scores r end.

(** *** The canonical JSON *)
Definition provenance_json (p : Provenance) : json :=
  JObj [("source", JStr (pv_source p)); ("fetched_at", Canonical.jtime (fetched_at p)); ("source_version", JStr (source_version p))].
Definition product_json (p : AffectedProduct) : json :=
  JObj [("vendor", JStr (vendor p)); ("product", JStr (product p)); ("cpe", Canonical.jopt JStr (cpe p)); ("package", Canonical.jopt JStr (package p));
        ("version_range", JStr (version_range p)); ("fixed_versions", Canonical.jstrs (fixed_versions p))].
Definition signal_json (s : ExploitationSignal) : outcome json :=
  e ← Canonical.json_of_float (epss_score s);
  Ret (JObj [("kev", JBool (kev s)); ("epss_score", e); ("public_exploit", JBool (public_exploit s));
             ("ransomware", JBool (ransomware s)); ("active_exploitation", JBool (active_exploitation s))]).
Definition mapping_json (m : DetectionMapping) : outcome json :=
  c ← Canonical.json_of_float (dm_confidence m);
  Ret (JObj [("vulnerability_id", JStr (dm_vulnerability_id m)); ("case_version", JStr (case_version m));
             ("detection_type", JStr (detection_type m)); ("risk", Canonical.jenum (dm_risk m)); ("confidence", c)]).
Definition score_json (e : string * (pyfloat * Provenance)) : outcome (string * json) :=
  s ← Canonical.json_of_float e.2.1; Ret (e.1, JArr [s; provenance_json e.2.2]).

Definition body (v : Vulnerability) : outcome json :=
  scores ← mapM_outcome score_json (cvss v);
  signal ← signal_json (exploitation_signal v);
  mappings ← mapM_outcome mapping_json (detection_mappings v);
  Ret (JObj [("canonical_id", JStr (canonical_id v)); ("aliases", Canonical.jstrs (aliases v)); ("description", JStr (v_description v));
             ("cvss", JObj scores); ("cwe", Canonical.jstrs (v_cwe v)); ("references", Canonical.jstrs (references v));
             ("published_at", Canonical.jtime (instant (published_at v)));
             ("affected_products", JArr (product_json <$> affected_products v)); ("exploitation_signal", signal);
             ("detection_mappings", JArr mappings); ("provenance", provenance_json (v_provenance v))]).

Definition with_aliases (v : Vulnerability) (l : list string) : Vulnerability :=
  mkVulnerability (canonical_id v) l (v_description v) (cvss v) (v_cwe v) (references v) (published_at v)
    (affected_products v) (exploitation_signal v) (detection_mappings v) (v_provenance v) (v_digest v).
Definition with_digest (v : Vulnerability) (d : string) : Vulnerability :=
  mkVulnerability (canonical_id v) (aliases v) (v_description v) (cvss v) (v_cwe v) (references v) (published_at v)
    (affected_products v) (exploitation_signal v) (detection_mappings v) (v_provenance v) d.

(** [Vulnerability(...)]: a digest that is given is kept. *)
Definition make_vulnerability (v : Vulnerability) : outcome Vulnerability :=
  invalid (PyStr.is_empty (canonical_id v)) "Vulnerability.canonical_id must be non-empty";;
  check_scores (cvss v);;
  let v := with_aliases v (dedup_preserve_order (aliases v)) in
  if PyStr.is_empty (v_digest v) then j ← body v; Ret (with_digest v (Canonical.canonical_digest j)) else Ret v.

(** *** Lemmas *)

Lemma dedup_spec (acc l : list string) : NoDup acc ->
  let out := foldl (fun out v => if bool_decide (v ∈ out) then out else out ++ [v]) acc l in
  NoDup out /\ (forall x, x ∈ out <-> x ∈ acc \/ x ∈ l).
Proof.
  revert acc. induction l as [|v l IH]; intros acc Ha; cbn.
  { split; [done|]. intros x. set_solver. }
  case_bool_decide as Hv.
  - destruct (IH acc Ha) as [H1 H2]. split; [done|]. intros x. rewrite H2, elem_of_cons. naive_solver.
  - destruct (IH (acc ++ [v])) as [H1 H2].
    { apply NoDup_app. split_and!; [done| |apply NoDup_singleton]. intros x Hx ->%list_elem_of_singleton. done. }
    split; [done|]. intros x. rewrite H2, elem_of_cons, elem_of_app, list_elem_of_singleton. tauto.
Qed.

Lemma dedup_id (l : list string) : NoDup l -> dedup_preserve_order l = l.
Proof.
  unfold dedup_preserve_order. enough (H : forall acc, NoDup (acc ++ l) ->
    foldl (fun out v => if bool_decide (v ∈ out) then out else out ++ [v]) acc l = acc ++ l) by (intros Hl; exact (H [] Hl)).
  induction l as [|v l IH]; intros acc Hnd; cbn; [by rewrite app_nil_r|].
  rewrite bool_decide_false.
  - change (v :: l) with ([v] ++ l). rewrite app_assoc. apply IH. by rewrite <- app_assoc.
  - apply NoDup_app in Hnd as (_ & H & _). intros Hv. apply (H v Hv). left.
Qed.

Lemma dedup_NoDup l : NoDup (dedup_preserve_order l).
Proof. apply (dedup_spec [] l). constructor. Qed.

(** What the constructor has checked of a vulnerability. *)
Record built (v : Vulnerability) : Prop := {
  built_id : PyStr.is_empty (canonical_id v) = false;
  built_scores : check_scores (cvss v) = Ret tt;
  built_aliases : NoDup (aliases v);
  built_digest : PyStr.is_empty (v_digest v) = false
}.

Lemma digest_nonempty j : PyStr.is_empty (Canonical.canonical_digest j) = false.
Proof. reflexivity. Qed.

Lemma make_built v v' : make_vulnerability v = Ret v' -> built v'.
Proof.
  unfold make_vulnerability. intros (u & Hid & H)%bind_Ret. apply bind_Ret in H as ([] & Hs & H).
  apply raise_if_Ret in Hid. cbn zeta in H. destruct (PyStr.is_empty _) eqn:Ed in H.
  - apply bind_Ret in H as (j & _ & [= <-]). split; cbn; [done|done|apply dedup_NoDup|apply digest_nonempty].
  - injection H as <-. split; cbn; [done|done|apply dedup_NoDup|done].
Qed.

(** Building again what is built changes nothing. *)
Lemma make_again v : built v -> make_vulnerability v = Ret v.
Proof.
  intros [Hi Hs Ha Hd]. unfold make_vulnerability. rewrite Hi. cbn [invalid raise_if mbind outcome_bind]. rewrite Hs.
  cbn [mbind outcome_bind]. rewrite dedup_id by done. cbn. rewrite Hd. by destruct v.
Qed.

End Intel.

(** ** Times of the sources *)
Module IntelTime.

(** Hours and, if any, minutes, seconds and their fraction, of which six
    digits count. *)
Definition micros (s : string) : option (Z * string) :=
  match PyIso.sep "." s with
  | None => Some (0, s)
  | Some r =>
      let n := ToolText.digits_at_most (String.length r) r in
      if Nat.eqb n 0 then None
      else
        let k := Nat.min n 6 in
        Some (PyStr.digits_val 0 (PyStr.take k r) * 10 ^ (6 - Z.of_nat k), PyStr.drop n r)
  end.

Definition time_of_day (s : string) : option (Z * string) :=
  '(h, r) ← PyIso.num 2 s;
  '(mi, r) ← match PyIso.sep ":" r with Some r => PyIso.num 2 r | None => Some (0, r) end;
  '(sec, r) ← match PyIso.sep ":" r with Some r => PyIso.num 2 r | None => Some (0, r) end;
  '(us, r) ← micros r;
  if (h <? 24) && (mi <? 60) && (sec <? 60) then Some ((h * 3600 + mi * 60 + sec) * PyTime.second + us, r) else None.

(** [datetime.fromisoformat]: the local time and, if any, the UTC offset. *)
Definition fromisoformat (s : string) : option (Z * option Z) :=
  '(y, r) ← PyIso.num 4 s; r ← PyIso.sep "-" r; '(m, r) ← PyIso.num 2 r; r ← PyIso.sep "-" r; '(d, r) ← PyIso.num 2 r;
  if negb (PyIso.date_ok y m d) then None
  else
    let date := (PyTime.ymd2ord (y, m, d) - 1) * PyTime.day in
    match r with
    | EmptyString => Some (date, None)
    | String _ r =>
        '(t, r) ← time_of_day r;
        if PyStr.is_empty r then Some (date + t, None) else off ← PyIso.offset r; Some (date + t, Some off)
    end.

Definition epoch : datetime := (PyTime.ymd2ord (1970, 1, 1) - 1) * PyTime.day.

(** [_parse_dt] *)
Definition parse_dt (raw : string) : aware :=
  match fromisoformat (PyStr.replace "Z" "+00:00" raw) with
  | None => mkAware epoch 0
  | Some (local, off) => let o := default 0 off in mkAware (local - o) o
  end.

Example forms :
  parse_dt "2021-08-04T01:23:30.123" = mkAware 63763637010123000 0
  /\ parse_dt "2021-08-04T01:23:30Z" = mkAware 63763637010000000 0
  /\ parse_dt "2021-08-04T03:23:30+02:00" = mkAware 63763637010000000 7200000000
  /\ parse_dt "yesterday" = mkAware epoch 0.
Proof. vm_compute. done. Qed.

End IntelTime.

(** ** [csv.DictReader] with the default dialect *)
Module Csv.

Inductive mode : Type := StartRecord | StartField | InField | InQuoted | QuoteInQuoted | AfterReturn.

(** The rows read, the fields of the row and the field being read. *)
Record state : Type := mkCsv { rows : list (list string); fields : list string; current : string; reading : mode }.

Definition quote_mark : ascii := "034".

Definition push (c : ascii) (m : mode) (s : state) : state := mkCsv (rows s) (fields s) (current s +:+ String c "") m.
Definition end_field (s : state) : state := mkCsv (rows s) (fields s ++ [current s]) "" StartField.
Definition end_row (m : mode) (s : state) : state := mkCsv (rows s ++ [fields s]) [] "" m.

(** The end of a line by a newline or a carriage return. *)
Definition eol (c : ascii) : option mode :=
  if Ascii.eqb c "010" then Some StartRecord else if Ascii.eqb c "013" then Some AfterReturn else None.

(** A character outside of quotes, [first] at the start of a field. *)
Definition unquoted (first : bool) (c : ascii) (s : state) : state :=
  match eol c with
  | Some m => end_row m (end_field s)
  | None =>
      if first && Ascii.eqb c quote_mark then mkCsv (rows s) (fields s) (current s) InQuoted
      else if Ascii.eqb c "," then end_field s
      else push c InField s
  end.

Definition stray : exn := CsvError "new-line character seen in unquoted field - do you need to open the file with newline=''?".

Definition step (s : state) (c : ascii) : outcome state :=
  match reading s with
  | StartRecord => match eol c with Some m => Ret (end_row m s) | None => Ret (unquoted true c s) end
  | StartField => Ret (unquoted true c s)
  | InField => Ret (unquoted false c s)
  | InQuoted => Ret (if Ascii.eqb c quote_mark then mkCsv (rows s) (fields s) (current s) QuoteInQuoted else push c InQuoted s)
  | QuoteInQuoted => Ret (if Ascii.eqb c quote_mark then push c InQuoted s else unquoted false c s)
  | AfterReturn =>
      match eol c with
      | Some m => Ret (mkCsv (rows s) (fields s) (current s) m)
      | None => Raise stray
      end
  end.

Fixpoint run (s : state) (text : string) : outcome state :=
  match text with EmptyString => Ret s | String c r => s ← step s c; run s r end.

(** [list(csv.reader(io.StringIO(text)))]: the last row needs no newline. *)
Definition reader (text : string) : outcome (list (list string)) :=
  s ← run (mkCsv [] [] "" StartRecord) text;
  Ret (match reading s with StartRecord | AfterReturn => rows s | _ => rows (end_row StartRecord (end_field s)) end).

(** [dict(zip(names, row))]; what is missing has no value, what is left over
    has no name. *)
Definition dict_row (names row : list string) : dict string :=
  foldl (fun d e => PyDict.set e.1 e.2 d) [] (zip names row).

(** [csv.DictReader]: the first row names the fields, empty rows are skipped. *)
Definition dict_reader (text : string) : outcome (list (dict string)) :=
  rs ← reader text;
  Ret (match rs with
       | [] => []
       | names :: rs => dict_row names <$> List.filter (fun r => negb (bool_decide (r = []))) rs
       end).

Definition q (s : string) : string := String quote_mark s +:+ String quote_mark "".
Example rows_and_quotes :
  let nl := String "010" "" in
  let cr := String "013" "" in
  reader ("a,b" +:+ cr +:+ nl +:+ q "x,y" +:+ ",z" +:+ nl +:+ nl +:+ "1," +:+ q ("he said " +:+ q (q "no")))
  = Ret [["a"; "b"]; ["x,y"; "z"]; []; ["1"; "he said " +:+ q "no"]]
  /\ reader ("a" +:+ cr +:+ "b") = Raise stray.
Proof. vm_compute. done. Qed.

End Csv.

(** ** The sources *)

(** What the HTTP client did with a request. *)
Inductive reply : Type :=
| HttpError (msg : string)
| Response (status_code : Z) (text : string).

(** [resp.json()] *)
Definition reply_json (text : string) : outcome json :=
  unwrap (JsonText.loads text) (ValueError "Expecting value").

(** A field documented as a text. *)
Definition as_text (v : json) : outcome string :=
  match v with JStr s => Ret s | _ => Raise (TypeError ("'" +:+ type_name v +:+ "' where a text is expected")) end.

Definition dict_of (v : json) : outcome record :=
  match v with JObj r => Ret r | _ => Raise (AttributeError (no_attribute v "get")) end.

(** The dicts of [v or \[\]]. *)
Definition dicts_of (v : json) : outcome (list record) :=
  if truthy_json v then l ← ToolText.iterate v; mapM_outcome dict_of l else Ret [].

(** [v or {}] *)
Definition dict_or_empty (v : json) : outcome record := if truthy_json v then dict_of v else Ret [].

(** [v or default], a text. *)
Definition text_or (v : json) (dflt : string) : outcome string :=
  if truthy_json v then as_text v else Ret dflt.

Definition texts_of (v : json) : outcome (list string) :=
  if truthy_json v then
    match v with JArr l => mapM_outcome as_text l | _ => Raise (TypeError "list expected") end
  else Ret [].

Definition no_signal : ExploitationSignal := mkSignal false (flt "0.0") false false false.

(** The record of one source, built by the constructor. *)
Definition sourced (source id description : string) (al refs : list string) (score : pyfloat) (published : string)
    (products : list AffectedProduct) (p : Provenance) : outcome Vulnerability :=
  signal ← Intel.check_signal no_signal;
  Intel.make_vulnerability
    (mkVulnerability id al description [(source, (score, p))] [] refs (IntelTime.parse_dt published) products signal [] p "").

Module OsvClient.
Import ToolText.

Definition epoch_seconds (t : datetime) : Z := Z.quot (t - IntelTime.epoch) PyTime.second.

(** The body of the request. *)
Definition request (last_modified : option datetime) : json :=
  JObj (("collection", JStr "all")
        :: match last_modified with Some t => [("watermark", JInt (epoch_seconds t))] | None => [] end).

(** [_cvss_base_score] *)
Definition cvss_base_score (vector : json) : pyfloat := flt "0.0".

(** The score of the first CVSS_V3 entry. *)
Fixpoint severity_score (l : list json) : outcome pyfloat :=
  match l with
  | [] => Ret (flt "0.0")
  | v :: r =>
      sev ← dict_of v;
      match get "type" sev with
      | JStr t => if bool_decide (t = "CVSS_V3") then Ret (cvss_base_score (get "score" sev)) else severity_score r
      | _ => severity_score r
      end
  end.

Definition range_events (ranges : list record) : outcome (list record) :=
  l ← mapM_outcome (fun r => dicts_of (get "events" r)) ranges; Ret (concat l).

(** [_extract_version_range] *)
Definition extract_version_range (events : list record) : string :=
  let bounds := e ← events;
    (match field "introduced" e with Some v => [">=" +:+ py_str v] | None => [] end)
    ++ (match field "fixed" e with Some v => ["<" +:+ py_str v] | None => [] end) in
  match bounds with [] => "*" | _ => PyStr.join "," bounds end.

Definition affected_product (aff : record) : outcome AffectedProduct :=
  pkg ← dict_or_empty (get "package" aff);
  ranges ← dicts_of (get "ranges" aff);
  events ← range_events ranges;
  fixed ← mapM_outcome as_text (omap (field "fixed") events);
  vendor ← text_or (get "ecosystem" pkg) "unknown";
  product ← text_or (get "name" pkg) "unknown";
  package ← match get "name" pkg with JNull => Ret None | v => s ← as_text v; Ret (Some s) end;
  Intel.check_product (mkProduct vendor product None package (extract_version_range events) fixed).

Definition parse (rec : record) (p : Provenance) : outcome Vulnerability :=
  id ← text_or (get "id" rec) "";
  al ← texts_of (get "aliases" rec);
  description ← text_or (json_or (get "summary" rec) (get "details" rec)) "";
  refs ← dicts_of (get "references" rec);
  urls ← mapM_outcome as_text (List.filter truthy_json ((fun r => get "url" r) <$> refs));
  severity ← (if truthy_json (get "severity" rec) then iterate (get "severity" rec) else Ret []);
  score ← severity_score severity;
  affected ← dicts_of (get "affected" rec);
  products ← mapM_outcome affected_product affected;
  published ← text_or (get "published" rec) "1970-01-01T00:00:00Z";
  sourced "osv" id description al urls score published products p.

(** [fetch_incremental] over the answer to [request]. *)
Definition fetch_incremental (now : datetime) (answer : reply) : outcome (list Vulnerability) :=
  match answer with
  | HttpError _ => Ret []
  | Response code text =>
      if negb (code =? 200) then Ret []
      else
        v ← reply_json text;
        data ← dict_of v;
        token ← text_or (get "next_page_token" data) "v1";
        p ← Intel.check_provenance (mkProvenance "OSV" now token);
        recs ← dicts_of (get "vulns" data);
        mapM_outcome (fun rec => parse rec p) recs
  end.

End OsvClient.

Record SyncResult : Type := mkSyncResult { sync_signal : ExploitationSignal; sync_provenance : Provenance }.

Module KevClient.
Import ToolText.

Definition is_ransomware (rec : record) : bool :=
  bool_decide (PyStr.lower (py_str (default (JStr "") (field "knownRansomwareCampaignUse" rec))) ∈ ["known"; "true"; "yes"]).

Definition result (p : Provenance) (rec : record) : outcome SyncResult :=
  s ← Intel.check_signal (mkSignal true (flt "0.0") false (is_ransomware rec) true);
  Ret (mkSyncResult s p).

Definition fetch (now : datetime) (answer : reply) : outcome (list SyncResult) :=
  match answer with
  | HttpError _ => Ret []
  | Response code text =>
      if negb (code =? 200) then Ret []
      else
        v ← reply_json text;
        data ← dict_of v;
        p ← Intel.check_provenance (mkProvenance "KEV" now (py_str (default (JStr "v1") (field "catalogVersion" data))));
        recs ← dicts_of (get "vulnerabilities" data);
        mapM_outcome (result p) recs
  end.

(** The results do not say which vulnerability they are about. *)
Lemma results_are_anonymous p rec rec' : is_ransomware rec = is_ransomware rec' -> result p rec = result p rec'.
Proof. unfold result. by intros ->. Qed.

End KevClient.

Module EpssClient.
Section fetch.
(** [float()] of a text. *)
Context (float_of_text : string -> outcome pyfloat).

Definition cell (k : string) (row : dict string) : string := PyStr.strip (default "" (PyDict.get k row)).

Definition score_row (scores : dict pyfloat) (row : dict string) : dict pyfloat :=
  let cve := cell "cve" row in
  if PyStr.is_empty cve || bool_decide (cve = "cve") then scores
  else match float_of_text (cell "epss" row) with Ret f => PyDict.set cve f scores | Raise _ => scores end.

Definition fetch (answer : reply) : outcome (dict pyfloat) :=
  match answer with
  | HttpError _ => Ret []
  | Response code text =>
      if negb (code =? 200) then Ret [] else rows ← Csv.dict_reader text; Ret (foldl score_row [] rows)
  end.
End fetch.
End EpssClient.

Module NvdProxyClient.
Import ToolText.
Section fetch.
(** [float()] as in [PyNumbers.to_float]. *)
Context (float_conv : json -> outcome pyfloat).

(** The first description in English. *)
Fixpoint english (l : list json) : outcome string :=
  match l with
  | [] => Ret ""
  | v :: r =>
      d ← dict_of v;
      match get "lang" d with
      | JStr t => if bool_decide (t = "en") then as_text (default (JStr "") (field "value" d)) else english r
      | _ => english r
      end
  end.

Definition base_score (v31 : json) : outcome pyfloat :=
  if truthy_json v31 then
    match v31 with
    | JArr (first :: _) =>
        m ← dict_of first;
        data ← dict_or_empty (get "cvssData" m);
        PyNumbers.to_float float_conv (default (JFloat (PyFloat.mkLit "0.0" eq_refl)) (field "baseScore" data))
    | _ => Raise (TypeError "list expected")
    end
  else Ret (flt "0.0").

Definition parse (p : Provenance) (item : record) : outcome Vulnerability :=
  cve ← dict_or_empty (get "cve" item);
  id ← text_or (get "id" cve) "";
  descriptions ← (if truthy_json (get "descriptions" cve) then iterate (get "descriptions" cve) else Ret []);
  description ← english descriptions;
  published ← text_or (get "published" cve) "1970-01-01T00:00:00Z";
  metrics ← dict_or_empty (get "metrics" cve);
  score ← base_score (get "cvssMetricV31" metrics);
  sourced "nvd" id description [] [] score published [] p.

Definition fetch (now : datetime) (answer : reply) : outcome (list Vulnerability) :=
  match answer with
  | HttpError _ => Ret []
  | Response code text =>
      if negb (code =? 200) then Ret []
      else
        v ← reply_json text;
        data ← dict_of v;
        p ← Intel.check_provenance (mkProvenance "NVD" now "2.0");
        items ← dicts_of (get "vulnerabilities" data);
        mapM_outcome (parse p) items
  end.

(** Every answer but a 200 degrades to nothing; a 200 that is no JSON (the
    page of a proxy, say) does not. *)
Lemma no_answer_degrades now answer :
  (forall text, answer <> Response 200 text) -> fetch now answer = Ret [].
Proof.
  intros H. destruct answer as [msg|code text]; [done|]. cbn. destruct (code =? 200) eqn:E; [|done].
  apply Z.eqb_eq in E as ->. by destruct (H text).
Qed.
Lemma proxy_page_escapes now : fetch now (Response 200 "<html>") = Raise (ValueError "Expecting value").
Proof. reflexivity. Qed.
End fetch.
End NvdProxyClient.

(** ** The coordinator *)
Module SourceSync.

Definition hours (n : Z) : Z := n * 3600 * PyTime.second.
Definition OSV_FREQUENCY : Z := hours 6.
Definition KEV_FREQUENCY : Z := hours 6.
Definition EPSS_FREQUENCY : Z := hours 24.
Definition NVD_FREQUENCY : Z := hours 6.

Definition frequencies : dict Z :=
  [("OSV", OSV_FREQUENCY); ("KEV", KEV_FREQUENCY); ("EPSS", EPSS_FREQUENCY); ("NVD", NVD_FREQUENCY)].

Inductive synced : Type := Vulnerabilities (l : list Vulnerability) | Signals (l : list SyncResult) | Scores (d : dict pyfloat).

Section sync.
Context (float_conv : json -> outcome pyfloat) (osv kev epss nvd : reply).

Definition sync_one (now : datetime) (source : string) : outcome synced :=
  if bool_decide (source = "OSV") then l ← OsvClient.fetch_incremental now osv; Ret (Vulnerabilities l)
  else if bool_decide (source = "KEV") then l ← KevClient.fetch now kev; Ret (Signals l)
  else if bool_decide (source = "EPSS") then d ← EpssClient.fetch (fun s => float_conv (JStr s)) epss; Ret (Scores d)
  else if bool_decide (source = "NVD") then l ← NvdProxyClient.fetch float_conv now nvd; Ret (Vulnerabilities l)
  else Raise (ValueError ("unknown source: " +:+ PyStr.repr source)).

(** *** What a source delivers *)

(** A record of source [key] (named [name] in its provenance): built, with
    its one score attributed to the same reading as the record. *)
Definition attributed (key name : string) (now : datetime) (v : Vulnerability) : Prop :=
  Intel.built v /\ pv_source (v_provenance v) = name /\ fetched_at (v_provenance v) = now
  /\ exists score, cvss v = [(key, (score, v_provenance v))] /\ Intel.cvss_score score = true.

Lemma sourced_attributed source id d al refs score pub ps p v :
  sourced source id d al refs score pub ps p = Ret v ->
  attributed source (pv_source p) (fetched_at p) v.
Proof.
  unfold sourced. intros (s & _ & H)%bind_Ret. pose proof (Intel.make_built _ _ H) as Hb. split; [done|].
  unfold Intel.make_vulnerability in H. apply bind_Ret in H as (u & _ & H). apply bind_Ret in H as ([] & Hs & H). cbn zeta in H.
  apply bind_Ret in Hs as ([] & Hs & _). unfold Intel.check_score, Intel.invalid in Hs.
  apply bind_Ret in Hs as (u' & _ & Hsc). apply raise_if_Ret, negb_false_iff in Hsc.
  assert (cvss v = [(source, (score, p))] /\ v_provenance v = p) as [Hc Hp].
  { cbn in H. by apply bind_Ret in H as (j & _ & [= <-]). }
  rewrite Hp. split_and!; [done..|]. by exists score.
Qed.

Lemma provenance_checked source now version p :
  Intel.check_provenance (mkProvenance source now version) = Ret p -> pv_source p = source /\ fetched_at p = now.
Proof. unfold Intel.check_provenance. intros (a & _ & (b & _ & [= <-])%bind_Ret)%bind_Ret. done. Qed.

Lemma osv_attributed now v l : OsvClient.fetch_incremental now osv = Ret l -> v ∈ l -> attributed "osv" "OSV" now v.
Proof.
  unfold OsvClient.fetch_incremental. destruct osv as [msg|code text]; [by intros [= <-] ?%elem_of_nil|].
  destruct (negb _); [by intros [= <-] ?%elem_of_nil|]. intros (j & _ & (d & _ & (tok & _ & (p & Hp & (recs & _ & H)%bind_Ret)%bind_Ret)%bind_Ret)%bind_Ret)%bind_Ret Hv.
  apply provenance_checked in Hp as [<- <-]. apply mapM_outcome_Ret in H.
  apply list_elem_of_lookup in Hv as [i Hi]. destruct (Forall2_lookup_r _ _ _ _ _ H Hi) as (rec & _ & Hr).
  unfold OsvClient.parse in Hr. do 10 (apply bind_Ret in Hr as (? & _ & Hr)). by apply sourced_attributed in Hr.
Qed.

Lemma nvd_attributed now v l : NvdProxyClient.fetch float_conv now nvd = Ret l -> v ∈ l -> attributed "nvd" "NVD" now v.
Proof.
  unfold NvdProxyClient.fetch. destruct nvd as [msg|code text]; [by intros [= <-] ?%elem_of_nil|].
  destruct (negb _); [by intros [= <-] ?%elem_of_nil|]. intros (j & _ & (d & _ & (p & Hp & (recs & _ & H)%bind_Ret)%bind_Ret)%bind_Ret)%bind_Ret Hv.
  apply provenance_checked in Hp as [<- <-]. apply mapM_outcome_Ret in H.
  apply list_elem_of_lookup in Hv as [i Hi]. destruct (Forall2_lookup_r _ _ _ _ _ H Hi) as (rec & _ & Hr).
  unfold NvdProxyClient.parse in Hr. do 7 (apply bind_Ret in Hr as (? & _ & Hr)). by apply sourced_attributed in Hr.
Qed.

(** every fetched vulnerability is attributed. A sync that delivers
    vulnerabilities comes from OSV or NVD, and each record is valid, carries
    the source and the time of the fetch, and has one score, in range, with
    the provenance of the record. *)
Theorem fetched_records_are_attributed now source l v :
  sync_one now source = Ret (Vulnerabilities l) -> v ∈ l ->
  (source = "OSV" /\ attributed "osv" "OSV" now v) \/ (source = "NVD" /\ attributed "nvd" "NVD" now v).
Proof.
  unfold sync_one. case_bool_decide as H1; [|case_bool_decide as H2; [|case_bool_decide as H3; [|case_bool_decide as H4; [|done]]]].
  - intros (l' & H & [= <-])%bind_Ret Hv. left. split; [done|]. by eapply osv_attributed.
  - by intros (l' & _ & E)%bind_Ret.
  - by intros (l' & _ & E)%bind_Ret.
  - intros (l' & H & [= <-])%bind_Ret Hv. right. split; [done|]. by eapply nvd_attributed.
Qed.

End sync.

Definition demo_conv (v : json) : outcome pyfloat := Ret (flt "1.0").
Definition demo_osv : reply :=
  Response 200 (Canonical.canonical_json (JObj [("vulns", JArr [JObj
    [("id", JStr "CVE-2024-1"); ("published", JStr "2024-05-01T00:00:00Z"); ("summary", JStr "overflow");
     ("affected", JArr [JObj [("package", JObj [("ecosystem", JStr "PyPI"); ("name", JStr "widget")]);
        ("ranges", JArr [JObj [("events", JArr [JObj [("introduced", JStr "0")]; JObj [("fixed", JStr "1.2")]])]])]])]])])).

Lemma fetched_records_are_attributed_witness :
  exists v, sync_one demo_conv demo_osv demo_osv demo_osv demo_osv 0 "OSV" = Ret (Vulnerabilities [v])
    /\ version_range <$> affected_products v = [">=0,<1.2"]
    /\ (("OSV" = "OSV" /\ attributed "osv" "OSV" 0 v) \/ ("OSV" = "NVD" /\ attributed "nvd" "NVD" 0 v)).
Proof.
  eexists. split; [vm_compute; reflexivity|]. split; [reflexivity|].
  eapply (fetched_records_are_attributed demo_conv demo_osv demo_osv demo_osv demo_osv); [vm_compute; reflexivity|left].
Defined.

End SourceSync.
