(* ===== verification/IntelStore.v ===== *)
(** * Vulnerability intelligence in the database

    Models [src/secopent/infrastructure/repositories/sqlalchemy_intel.py]
    ([SqlAlchemyIntelRepository]) with the rows of
    [infrastructure/db/intel_models.py], the sync of
    [src/secopent/scripts/sync_intel.py] and the router
    [interfaces/api/routers/intel.py].  Parameters: the order in which a query
    without ORDER BY returns rows ([scan]) and in which a set of texts is
    joined ([set_order]), both only permutations; the meaning of an FTS5 query
    ([fts_match]); and whether the database keeps the zone of a DateTime
    column (SQLite stores the local fields, and they are read back as UTC).
    Foreign keys, column widths and commits are not modelled. *)
From S2P Require Import Prelude PyStr PyTime PyFloat Sha256 Canonical PyJson PyText PyIso PyDict Policy Intel.

#[local] Open Scope Z_scope.

(** ** Rows *)
Record CoreVulnerability : Type := mkVulnRow {
  vr_canonical_id : string;
  vr_aliases : list string;
  vr_description : string;
  vr_cvss : list (string * json);
  vr_cwe : list string;
  vr_references : list string;
  vr_published_at : datetime;
  vr_provenance : list (string * json);
  vr_digest : string
}.

(** Rows of the other tables, with the vulnerability they belong to. *)
Record CoreAffectedProduct : Type := mkProductRow { pr_vulnerability_id : string; pr_product : AffectedProduct }.
Record CoreDetectionMapping : Type := mkMappingRow {
  mr_vulnerability_id : string;
  mr_case_version : string;
  mr_detection_type : string;
  mr_risk : string;
  mr_confidence : pyfloat
}.
Record FtsRow : Type := mkFts { fts_canonical_id : string; fts_cve : string; fts_description : string; fts_cwe : string }.

Record Tables : Type := mkTables {
  vulnerabilities : dict CoreVulnerability;
  product_rows : list CoreAffectedProduct;
  signal_rows : dict ExploitationSignal;
  mapping_rows : list CoreDetectionMapping;
  fts_rows : list FtsRow
}.

Inductive column : Type := ColCve | ColCwe | ColDescription.

Definition text_of (c : column) (r : FtsRow) : string :=
  match c with ColCve => fts_cve r | ColCwe => fts_cwe r | ColDescription => fts_description r end.

Module IntelStore.

(** *** JSON columns *)
Definition provenance_to_dict (p : Provenance) : list (string * json) :=
  [("source", JStr (pv_source p)); ("fetched_at", JStr (PyTime.isoformat (fetched_at p))); ("source_version", JStr (source_version p))].

Definition text_item (k : string) (d : list (string * json)) : outcome string :=
  v ← unwrap (field k d) (KeyError k);
  match v with JStr s => Ret s | v => Raise (TypeError (k +:+ ": " +:+ type_name v)) end.

Definition provenance_from_dict (d : list (string * json)) : outcome Provenance :=
  raw ← text_item "fetched_at" d;
  t ← unwrap (PyIso.fromisoformat (PyStr.replace "Z" "+00:00" raw)) (ValueError ("Invalid isoformat string: " +:+ PyStr.repr raw));
  s ← text_item "source" d;
  v ← text_item "source_version" d;
  Intel.check_provenance (mkProvenance s t v).

Definition score_to_dict (e : string * (pyfloat * Provenance)) : outcome (string * json) :=
  s ← Canonical.json_of_float e.2.1;
  Ret (e.1, JObj [("score", s); ("provenance", JObj (provenance_to_dict e.2.2))]).
Definition cvss_to_dict (l : list (string * (pyfloat * Provenance))) : outcome (list (string * json)) := mapM_outcome score_to_dict l.

Definition score_from_dict (e : string * json) : outcome (string * (pyfloat * Provenance)) :=
  match e.2 with
  | JObj d =>
      s ← unwrap (field "score" d) (KeyError "score");
      p ← unwrap (field "provenance" d) (KeyError "provenance");
      match s, p with
      | JFloat f, JObj p => p ← provenance_from_dict p; Ret (e.1, (PyFloat.Fin f, p))
      | _, _ => Raise (TypeError (type_name s))
      end
  | v => Raise (TypeError (type_name v))
  end.
Definition cvss_from_dict (l : list (string * json)) : outcome (list (string * (pyfloat * Provenance))) := mapM_outcome score_from_dict l.

(** *** The text index *)
Section store.
Context (zone_kept : bool) (scan : forall A, list A -> list A) (set_order : list string -> list string).

(** [_fts_index_vuln] *)
Definition fts_index_vuln (v : Vulnerability) : FtsRow :=
  mkFts (canonical_id v) (PyStr.join " " (set_order (Intel.dedup_preserve_order (canonical_id v :: aliases v))))
    (v_description v) (PyStr.join " " (v_cwe v)).

(** *** Reading a vulnerability *)

(** A column of type DateTime, read as UTC if it comes without a zone. *)
Definition stored_time (t : aware) : datetime := if zone_kept then instant t else instant t + utcoffset t.

Definition mapping_of (r : CoreDetectionMapping) : outcome DetectionMapping :=
  k ← unwrap (of_value (mr_risk r)) (ValueError (PyStr.repr (mr_risk r) +:+ " is not a valid RiskClass"));
  Intel.check_mapping (mkMapping (mr_vulnerability_id r) (mr_case_version r) (mr_detection_type r) k (mr_confidence r)).

(** [_to_vulnerability] *)
Definition to_vulnerability (r : CoreVulnerability) (t : Tables) : outcome Vulnerability :=
  let i := vr_canonical_id r in
  products ← mapM_outcome (fun p => Intel.check_product (pr_product p))
               (scan _ (List.filter (fun p => bool_decide (pr_vulnerability_id p = i)) (product_rows t)));
  signal ← Intel.check_signal (default no_signal (PyDict.get i (signal_rows t)));
  mappings ← mapM_outcome mapping_of (scan _ (List.filter (fun m => bool_decide (mr_vulnerability_id m = i)) (mapping_rows t)));
  scores ← cvss_from_dict (vr_cvss r);
  p ← provenance_from_dict (vr_provenance r);
  Intel.make_vulnerability
    (mkVulnerability i (vr_aliases r) (vr_description r) scores (vr_cwe r) (vr_references r) (mkAware (vr_published_at r) 0)
       products signal mappings p (vr_digest r)).

(** *** The repository *)
Definition not_of {A} (id_of : A -> string) (i : string) (l : list A) : list A :=
  List.filter (fun x => negb (bool_decide (id_of x = i))) l.

Definition mapping_row (v : Vulnerability) (m : DetectionMapping) : CoreDetectionMapping :=
  mkMappingRow (canonical_id v) (case_version m) (detection_type m) (value (dm_risk m)) (dm_confidence m).

(** Merge of the row, then the rows of the other tables deleted and inserted. *)
Definition add_vulnerability (v : Vulnerability) : M Tables unit :=
  scores ← lift (cvss_to_dict (cvss v));
  let i := canonical_id v in
  let row := mkVulnRow i (aliases v) (v_description v) scores (v_cwe v) (references v) (stored_time (published_at v))
               (provenance_to_dict (v_provenance v)) (v_digest v) in
  modify (fun t => mkTables (PyDict.set i row (vulnerabilities t))
    (not_of pr_vulnerability_id i (product_rows t) ++ (mkProductRow i <$> affected_products v))
    (PyDict.set i (exploitation_signal v) (signal_rows t))
    (not_of mr_vulnerability_id i (mapping_rows t) ++ (mapping_row v <$> detection_mappings v))
    (not_of fts_canonical_id i (fts_rows t) ++ [fts_index_vuln v])).

Definition get_vulnerability (i : string) (t : Tables) : outcome (option Vulnerability) :=
  match PyDict.get i (vulnerabilities t) with
  | None => Ret None
  | Some r => v ← to_vulnerability r t; Ret (Some v)
  end.

Definition count_vulnerabilities (t : Tables) : Z := Z.of_nat (length (vulnerabilities t)).

Section search.
(** The rows an FTS5 query matches by their text, or the error of a
    malformed query. *)
Context (fts_match : string -> outcome (string -> bool)).

(** [cve or cwe or keyword], and the column it is searched in. *)
Definition query_of (keyword cve cwe : option string) : option (column * string) :=
  let given o := match o with Some s => PyStr.truthy s | None => false end in
  if given cve then pair ColCve <$> cve else if given cwe then pair ColCwe <$> cwe
  else if given keyword then pair ColDescription <$> keyword else None.

Definition quoted (query : string) : string := Canonical.dq +:+ query +:+ Canonical.dq.

Definition search_fts (keyword cve cwe : option string) (t : Tables) : outcome (list Vulnerability) :=
  match query_of keyword cve cwe with
  | None => Ret []
  | Some (c, query) =>
      hit ← fts_match (quoted query);
      l ← mapM_outcome (fun r => get_vulnerability (fts_canonical_id r) t)
            (scan _ (List.filter (fun r => hit (text_of c r)) (fts_rows t)));
      Ret (omap (fun o => o) (l : list (option Vulnerability)))
  end.
End search.

(** *** [sync_from_osv] *)
Fixpoint add_all (l : list Vulnerability) : M Tables unit :=
  match l with [] => mret tt | v :: r => add_vulnerability v;; add_all r end.

Definition sync_from_osv (now : datetime) (answer : reply) (limit : Z) : M Tables Z :=
  lift (raise_if (limit <? 0) (ValueError ("limit must be >= 0, got " +:+ pretty limit)));;
  vulns ← lift (OsvClient.fetch_incremental now answer);
  let l := take (Z.to_nat limit) vulns in
  add_all l;;
  mret (Z.of_nat (length l)).

(** ** Reading back what was written *)

Lemma startswith_char c d r : PyStr.startswith (String d r) (String c "") = Ascii.eqb c d.
Proof. destruct r; cbn -[Ascii.eqb]; by rewrite andb_true_r. Qed.

Lemma replace_last (c : ascii) new s : PyText.no_char c s -> PyStr.replace (String c "") new (s +:+ String c "") = s +:+ new.
Proof.
  unfold PyStr.replace. induction s as [|d s IH]; intros H.
  - rewrite !PyStr.app_nil_l. cbn [PyStr.replace_from]. rewrite startswith_char, Ascii.eqb_refl. by rewrite PyStr.app_nil_r.
  - apply PyText.no_char_cons in H as [Hd Hs]. rewrite !PyStr.app_cons. cbn [PyStr.replace_from].
    rewrite startswith_char. destruct (Ascii.eqb_spec c d) as [->|]; [done|]. by rewrite IH.
Qed.

Lemma zpad_no_char c w n : PyStr.is_digit c = false -> PyText.no_char c (PyTime.zpad w n).
Proof.
  intros Hc. revert n. induction w as [|w IH]; intros n; [done|]. cbn [PyTime.zpad]. apply PyText.no_char_app; [apply IH|].
  apply PyText.no_char_cons. split; [|done]. intros ->.
  destruct (PyIso.digit_char (n mod 10)) as [H _]; [apply Z.mod_pos_bound; lia|congruence].
Qed.

Lemma z_to_offset t : PyStr.replace "Z" "+00:00" (PyTime.isoformat t) = PyIso.isoformat t.
Proof.
  assert (E : PyTime.isoformat t = PyIso.naive t +:+ "Z").
  { unfold PyTime.isoformat, PyIso.naive. destruct (PyTime.ord2ymd _) as [[y m] d]. by rewrite !PyStr.app_assoc. }
  rewrite E. unfold PyIso.isoformat. apply replace_last. unfold PyIso.naive.
  destruct (PyTime.ord2ymd _) as [[y m] d].
  repeat (apply PyText.no_char_app; [first [by apply zpad_no_char|done]|]).
  destruct (_ =? 0); [done|]. apply PyText.no_char_app; [done|by apply zpad_no_char].
Qed.

(** A provenance as it can be written and read. *)
Definition readable (p : Provenance) : Prop := Intel.check_provenance p = Ret p /\ PyTime.valid (fetched_at p).

Lemma provenance_items p :
  text_item "fetched_at" (provenance_to_dict p) = Ret (PyTime.isoformat (fetched_at p))
  /\ text_item "source" (provenance_to_dict p) = Ret (pv_source p)
  /\ text_item "source_version" (provenance_to_dict p) = Ret (source_version p).
Proof. done. Qed.

Lemma provenance_reads_back p : readable p -> provenance_from_dict (provenance_to_dict p) = Ret p.
Proof.
  intros [Hc Hv]. unfold provenance_from_dict. destruct (provenance_items p) as (-> & -> & ->).
  cbn -[PyStr.replace PyTime.isoformat PyIso.fromisoformat Intel.check_provenance].
  rewrite z_to_offset, PyIso.fromisoformat_isoformat by done. cbn -[Intel.check_provenance]. by destruct p.
Qed.

Definition scored (e : string * (pyfloat * Provenance)) : Prop := Intel.cvss_score e.2.1 = true /\ readable e.2.2.

Lemma score_reads_back e : scored e -> exists j, score_to_dict e = Ret j /\ score_from_dict j = Ret e.
Proof.
  destruct e as [k [f p]]. intros [Hs Hp]. cbn in Hs, Hp. destruct f as [l|n|]; [|by destruct n|done].
  eexists. split; [reflexivity|]. unfold score_from_dict. cbn [fst snd].
  change (field "score" _) with (Some (JFloat l)). change (field "provenance" _) with (Some (JObj (provenance_to_dict p))).
  cbn -[provenance_from_dict provenance_to_dict]. by rewrite provenance_reads_back.
Qed.

Lemma cvss_reads_back l : Forall scored l -> exists d, cvss_to_dict l = Ret d /\ cvss_from_dict d = Ret l.
Proof.
  induction 1 as [|e l He _ (d & Hd & Hd')]; [by exists []|]. destruct (score_reads_back e He) as (j & Hj & Hj').
  unfold cvss_to_dict, cvss_from_dict in *. exists (j :: d). cbn [mapM_outcome]. by rewrite Hj, Hd, Hj', Hd'.
Qed.

(** A vulnerability whose parts were built, whose mappings are about itself
    and whose publication date survives the column. *)
Record storable (v : Vulnerability) : Prop := {
  st_built : Intel.built v;
  st_products : Forall (fun p => Intel.check_product p = Ret p) (affected_products v);
  st_signal : Intel.check_signal (exploitation_signal v) = Ret (exploitation_signal v);
  st_mappings : Forall (fun m => Intel.check_mapping m = Ret m /\ dm_vulnerability_id m = canonical_id v) (detection_mappings v);
  st_scores : Forall scored (cvss v);
  st_provenance : readable (v_provenance v);
  st_zone : zone_kept = true \/ utcoffset (published_at v) = 0
}.

(** What is read of what was written: everything, up to the order of the
    products and of the mappings and to the zone the date is given in. *)
Definition reads_back (v v' : Vulnerability) : Prop :=
  (canonical_id v', aliases v', v_description v', cvss v', v_cwe v', references v', exploitation_signal v', v_provenance v', v_digest v')
  = (canonical_id v, aliases v, v_description v, cvss v, v_cwe v, references v, exploitation_signal v, v_provenance v, v_digest v)
  /\ instant (published_at v') = instant (published_at v)
  /\ affected_products v' ≡ₚ affected_products v /\ detection_mappings v' ≡ₚ detection_mappings v.

(** ** The tables hold the latest record of each vulnerability *)

Definition of_id {A} (id_of : A -> string) (i : string) (l : list A) : list A := List.filter (fun x => bool_decide (id_of x = i)) l.

Lemma of_id_app {A} (f : A -> string) i l l' : of_id f i (l ++ l') = of_id f i l ++ of_id f i l'.
Proof. apply List.filter_app. Qed.

Lemma of_id_not_of {A} (f : A -> string) i j l : of_id f j (not_of f i l) = if bool_decide (i = j) then [] else of_id f j l.
Proof.
  unfold of_id, not_of. induction l as [|x l IH]; cbn; [by case_bool_decide|].
  destruct (decide (f x = i)) as [<-|Hx].
  - rewrite (bool_decide_true (f x = f x)) by done. cbn [negb]. rewrite IH.
    destruct (decide (f x = j)) as [->|]; [by rewrite !bool_decide_true|]. by rewrite !bool_decide_false.
  - rewrite (bool_decide_false (f x = i)) by done. cbn [negb List.filter]. rewrite IH.
    destruct (decide (f x = j)) as [<-|]; [|by rewrite (bool_decide_false (f x = j))].
    rewrite (bool_decide_true (f x = f x)) by done. rewrite bool_decide_false by congruence. done.
Qed.

Lemma of_id_map {A B} (f : B -> string) (g : A -> B) i j l : (forall x, f (g x) = i) ->
  of_id f j (g <$> l) = if bool_decide (i = j) then g <$> l else [].
Proof.
  intros H. unfold of_id. induction l as [|x l IH]; cbn; [by case_bool_decide|]. rewrite H, IH. by case_bool_decide.
Qed.

(** What replacing the rows of a vulnerability does to those of another. *)
Lemma replaced {A B} (f : B -> string) (g : A -> B) i j l new : (forall x, f (g x) = i) ->
  of_id f j (not_of f i l ++ (g <$> new)) = if bool_decide (i = j) then g <$> new else of_id f j l.
Proof. intros H. rewrite of_id_app, of_id_not_of, (of_id_map f g i) by done. case_bool_decide; [done|by rewrite app_nil_r]. Qed.

Definition row_of (v : Vulnerability) (scores : list (string * json)) : CoreVulnerability :=
  mkVulnRow (canonical_id v) (aliases v) (v_description v) scores (v_cwe v) (references v) (stored_time (published_at v))
    (provenance_to_dict (v_provenance v)) (v_digest v).

(** The rows of one vulnerability. *)
Record rows_of (t : Tables) (v : Vulnerability) : Prop := {
  ro_scores : exists scores, cvss_to_dict (cvss v) = Ret scores /\ PyDict.get (canonical_id v) (vulnerabilities t) = Some (row_of v scores);
  ro_products : of_id pr_vulnerability_id (canonical_id v) (product_rows t) = mkProductRow (canonical_id v) <$> affected_products v;
  ro_signal : PyDict.get (canonical_id v) (signal_rows t) = Some (exploitation_signal v);
  ro_mappings : of_id mr_vulnerability_id (canonical_id v) (mapping_rows t) = mapping_row v <$> detection_mappings v
}.

Context (scan_complete : forall A (l : list A), scan A l ≡ₚ l).

Lemma mapM_permuted {A B} (f : A -> outcome B) (g : B -> A) (l : list B) l' :
  l' ≡ₚ (g <$> l) -> (forall x, x ∈ l -> f (g x) = Ret x) -> exists r, mapM_outcome f l' = Ret r /\ r ≡ₚ l.
Proof.
  intros Hp Hf. apply Permutation_map_inv in Hp as (l2 & -> & Hl). exists l2. split; [|by symmetry].
  apply mapM_outcome_Ret. change (map g l2) with (g <$> l2). rewrite Forall2_fmap_l. apply Forall_Forall2_diag, Forall_forall.
  intros x Hx. apply Hf. by rewrite Hl.
Qed.

Lemma stored_time_back t : zone_kept = true \/ utcoffset t = 0 -> stored_time t = instant t.
Proof. unfold stored_time. intros [->|H]; [done|]. rewrite H, Z.add_0_r. by destruct zone_kept. Qed.

Lemma reads t v : storable v -> rows_of t v -> exists v', get_vulnerability (canonical_id v) t = Ret (Some v') /\ reads_back v v'.
Proof.
  intros Hst [(scores & Hsc & Hrow) Hp Hs Hm]. unfold get_vulnerability. rewrite Hrow. unfold to_vulnerability.
  cbn [row_of vr_canonical_id vr_aliases vr_description vr_cvss vr_cwe vr_references vr_published_at vr_provenance vr_digest].
  destruct (mapM_permuted (fun p => Intel.check_product (pr_product p)) (mkProductRow (canonical_id v)) (affected_products v)
              (scan _ (of_id pr_vulnerability_id (canonical_id v) (product_rows t)))) as (ps & Hps & Hpp).
  { rewrite scan_complete. by rewrite Hp. }
  { intros p Hin. pose proof (st_products v Hst) as HF. rewrite Forall_forall in HF. by apply HF. }
  unfold of_id in Hps. rewrite Hps. cbn [mbind outcome_bind]. rewrite Hs. change (default no_signal (Some (exploitation_signal v))) with (exploitation_signal v). rewrite (st_signal v Hst). cbn [mbind outcome_bind].
  destruct (mapM_permuted mapping_of (mapping_row v) (detection_mappings v)
              (scan _ (of_id mr_vulnerability_id (canonical_id v) (mapping_rows t)))) as (ms & Hms & Hmp).
  { rewrite scan_complete. by rewrite Hm. }
  { intros m Hin. pose proof (st_mappings v Hst) as HF. rewrite Forall_forall in HF. destruct (HF m Hin) as [Hc Hid].
    unfold mapping_of, mapping_row. cbn [mr_risk]. rewrite of_value_value. cbn [unwrap mbind outcome_bind mr_vulnerability_id mr_case_version mr_detection_type mr_confidence].
    rewrite <- Hid. by destruct m. }
  unfold of_id in Hms. rewrite Hms. cbn [mbind outcome_bind].
  destruct (cvss_reads_back (cvss v) (st_scores v Hst)) as (d & Hd & Hd'). assert (scores = d) as -> by congruence. rewrite Hd'. cbn [mbind outcome_bind].
  rewrite provenance_reads_back by apply (st_provenance v Hst). cbn [mbind outcome_bind].
  rewrite Intel.make_again.
  - eexists. split; [reflexivity|]. split_and!; [done| |done|done]. cbn. apply stored_time_back, (st_zone v Hst).
  - destruct (st_built v Hst). by split.
Qed.

Definition with_key (k : string) (ks : list string) : list string := if bool_decide (k ∈ ks) then ks else ks ++ [k].

Lemma keys_set {A} k (v : A) d : PyDict.keys (PyDict.set k v d) = with_key k (PyDict.keys d).
Proof.
  unfold with_key. case_bool_decide as H; [by apply PyDict.keys_set_in|]. rewrite PyDict.keys_set_notin by done.
  unfold PyDict.keys. by rewrite fmap_app.
Qed.

Lemma added v t : storable v -> exists t', add_vulnerability v t = (Ret tt, t') /\ rows_of t' v
  /\ (forall w, canonical_id w <> canonical_id v -> rows_of t w -> rows_of t' w)
  /\ (forall i, i <> canonical_id v -> PyDict.get i (vulnerabilities t') = PyDict.get i (vulnerabilities t))
  /\ PyDict.keys (vulnerabilities t') = with_key (canonical_id v) (PyDict.keys (vulnerabilities t))
  /\ fts_rows t' = not_of fts_canonical_id (canonical_id v) (fts_rows t) ++ [fts_index_vuln v].
Proof.
  intros Hst. destruct (cvss_reads_back (cvss v) (st_scores v Hst)) as (d & Hd & _).
  unfold add_vulnerability, lift, mbind, M_bind. rewrite Hd. eexists. split; [reflexivity|]. split_and!.
  - split; cbn [vulnerabilities product_rows signal_rows mapping_rows].
    + exists d. split; [done|]. by rewrite PyDict.get_set_eq.
    + rewrite (replaced pr_vulnerability_id (mkProductRow (canonical_id v)) (canonical_id v)) by done. by rewrite bool_decide_true.
    + by rewrite PyDict.get_set_eq.
    + rewrite (replaced mr_vulnerability_id (mapping_row v) (canonical_id v)) by done. by rewrite bool_decide_true.
  - intros w Hw [(sc & Hsc & Hr) Hp Hs Hm]. split; cbn [vulnerabilities product_rows signal_rows mapping_rows].
    + exists sc. split; [done|]. by rewrite PyDict.get_set_ne.
    + rewrite (replaced pr_vulnerability_id (mkProductRow (canonical_id v)) (canonical_id v)) by done. by rewrite bool_decide_false.
    + by rewrite PyDict.get_set_ne.
    + rewrite (replaced mr_vulnerability_id (mapping_row v) (canonical_id v)) by done. by rewrite bool_decide_false.
  - intros i Hi. cbn [vulnerabilities]. by rewrite PyDict.get_set_ne.
  - apply keys_set.
  - done.
Qed.

(** The last record of each identifier. *)
Definition latest (vs : list Vulnerability) : dict Vulnerability := foldl (fun d v => PyDict.set (canonical_id v) v d) [] vs.

Record in_sync (t : Tables) (m : dict Vulnerability) : Prop := {
  sync_wf : PyDict.wf m;
  sync_rows : forall k v, PyDict.get k m = Some v -> canonical_id v = k /\ storable v /\ rows_of t v;
  sync_keys : PyDict.keys (vulnerabilities t) = PyDict.keys m;
  sync_fts : fts_rows t ≡ₚ fts_index_vuln <$> PyDict.values m
}.

Lemma set_values {A} k (v : A) d : PyDict.wf d -> PyDict.values (PyDict.set k v d) ≡ₚ PyDict.values (PyDict.remove k d) ++ [v].
Proof.
  unfold PyDict.wf, PyDict.values, PyDict.remove, PyDict.keys. induction d as [|[k' v'] d IH]; intros Hwf; [done|].
  rewrite fmap_cons in Hwf. apply NoDup_cons in Hwf as [Hk Hwf]. cbn [fst] in Hk. cbn [PyDict.set List.filter fst].
  destruct (decide (k' = k)) as [->|Hne].
  - rewrite !bool_decide_true by done. cbn [negb]. rewrite fmap_cons. cbn [snd].
    assert (E : List.filter (fun kv : string * A => negb (bool_decide (kv.1 = k))) d = d).
    { clear -Hk. induction d as [|[k' v'] d IH]; [done|]. rewrite fmap_cons in Hk. cbn in *. rewrite bool_decide_false; [|set_solver].
      cbn. rewrite IH; [done|set_solver]. }
    rewrite E. by rewrite Permutation_app_comm.
  - rewrite !bool_decide_false by done. cbn [negb]. rewrite !fmap_cons. cbn [snd app]. by rewrite IH.
Qed.

Lemma not_of_values i (m : dict Vulnerability) : (forall k v, (k, v) ∈ m -> canonical_id v = k) ->
  not_of fts_canonical_id i (fts_index_vuln <$> PyDict.values m) = fts_index_vuln <$> PyDict.values (PyDict.remove i m).
Proof.
  unfold not_of, PyDict.values, PyDict.remove. induction m as [|[k v] m IH]; intros H; [done|]. cbn.
  rewrite (H k v ltac:(left)). rewrite IH by (intros k' v' Hin; apply H; by right). by destruct (bool_decide (k = i)).
Qed.

Lemma filter_perm {A} (P : A -> bool) l l' : l ≡ₚ l' -> List.filter P l ≡ₚ List.filter P l'.
Proof.
  induction 1 as [|x l l' _ IH|x y l|l l2 l3 _ IH1 _ IH2]; cbn; [done| | |by etrans].
  - destruct (P x); by rewrite IH.
  - destruct (P x), (P y); (done || apply Permutation_swap).
Qed.

Lemma add_in_sync v t m : storable v -> in_sync t m ->
  exists t', add_vulnerability v t = (Ret tt, t') /\ in_sync t' (PyDict.set (canonical_id v) v m).
Proof.
  intros Hst [Hwf Hrows Hkeys Hfts]. destruct (added v t Hst) as (t' & Ha & Hv & Hw & _ & Hk & Hf).
  exists t'. split; [done|]. split.
  - by apply PyDict.set_wf.
  - intros k w. rewrite PyDict.get_set. case_decide as E; [intros [= <-]; by subst|]. intros Hg.
    destruct (Hrows k w Hg) as (<- & Hs & Hr). split_and!; [done..|]. apply Hw; [congruence|done].
  - by rewrite Hk, keys_set, Hkeys.
  - rewrite Hf, set_values by done. rewrite fmap_app. apply Permutation_app_tail.
    unfold not_of at 1. rewrite (filter_perm _ _ _ Hfts). fold (not_of fts_canonical_id (canonical_id v) (fts_index_vuln <$> PyDict.values m)).
    rewrite not_of_values; [done|]. intros k w Hin. apply (PyDict.get_In _ _ _ Hwf) in Hin. by destruct (Hrows k w Hin).
Qed.

Lemma add_all_in_sync vs : forall t m, Forall storable vs -> in_sync t m ->
  exists t', add_all vs t = (Ret tt, t') /\ in_sync t' (foldl (fun d v => PyDict.set (canonical_id v) v d) m vs).
Proof.
  induction vs as [|v vs IH]; intros t m Hst Hs; [by exists t|]. apply Forall_cons in Hst as [Hv Hst].
  destruct (add_in_sync v t m Hv Hs) as (t1 & H1 & Hs1). destruct (IH t1 _ Hst Hs1) as (t2 & H2 & Hs2).
  exists t2. split; [|done]. cbn [add_all]. unfold mbind, M_bind. by rewrite H1.
Qed.

Definition empty : Tables := mkTables [] [] [] [] [].
Lemma empty_in_sync : in_sync empty [].
Proof. split; [constructor|done..]. Qed.

Lemma sync_get t m i : in_sync t m ->
  match PyDict.get i m with
  | Some v => exists v', get_vulnerability i t = Ret (Some v') /\ reads_back v v'
  | None => get_vulnerability i t = Ret None
  end.
Proof.
  intros Hs. destruct (PyDict.get i m) as [v|] eqn:E.
  - destruct (sync_rows t m Hs i v E) as (<- & Hst & Hr). by apply reads.
  - unfold get_vulnerability. apply PyDict.get_None_keys in E. rewrite <- (sync_keys t m Hs) in E. apply PyDict.get_None_keys in E. by rewrite E.
Qed.

Lemma sync_search t m c (hit : string -> bool) : in_sync t m ->
  exists l0 l, mapM_outcome (fun r => get_vulnerability (fts_canonical_id r) t)
                 (scan _ (List.filter (fun r => hit (text_of c r)) (fts_rows t))) = Ret (Some <$> l)
    /\ Forall2 reads_back l0 l /\ l0 ≡ₚ List.filter (fun v => hit (text_of c (fts_index_vuln v))) (PyDict.values m).
Proof.
  intros Hs. pose proof (scan_complete _ (List.filter (fun r => hit (text_of c r)) (fts_rows t))) as Hp.
  pose proof (filter_perm (fun r => hit (text_of c r)) _ _ (sync_fts t m Hs)) as Hq. rewrite Hq in Hp at 2.
  assert (E : List.filter (fun r => hit (text_of c r)) (fts_index_vuln <$> PyDict.values m)
              = fts_index_vuln <$> List.filter (fun v => hit (text_of c (fts_index_vuln v))) (PyDict.values m)).
  { generalize (PyDict.values m). intros l. induction l as [|v l IH]; [done|]. cbn. rewrite IH. by destruct (hit _). }
  rewrite E in Hp. apply Permutation_map_inv in Hp as (l0 & -> & Hl0). exists l0.
  assert (Hin : forall v, v ∈ l0 -> exists v', get_vulnerability (canonical_id v) t = Ret (Some v') /\ reads_back v v').
  { intros v Hv. rewrite <- Hl0 in Hv. apply list_elem_of_In, List.filter_In in Hv as [Hv _].
    apply list_elem_of_In, (PyDict.values_In _ _ (sync_wf t m Hs)) in Hv as [k Hk]. pose proof (sync_get t m k Hs) as Hg. rewrite Hk in Hg.
    destruct (sync_rows t m Hs k v Hk) as (-> & _). done. }
  clear -Hin Hl0. symmetry in Hl0. enough (exists l, mapM_outcome (fun r => get_vulnerability (fts_canonical_id r) t) (map fts_index_vuln l0) = Ret (Some <$> l)
    /\ Forall2 reads_back l0 l) as (l & ? & ?) by by exists l.
  clear Hl0. induction l0 as [|v l0 IH]; [by exists []|]. destruct (Hin v ltac:(left)) as (v' & Hg & Hr).
  destruct IH as (l & Hl & HF); [intros w Hw; apply Hin; by right|]. exists (v' :: l). cbn. rewrite Hg. cbn. rewrite Hl. split; [done|by constructor].
Qed.

(** C36: the store and its search index agree with the latest records. Whatever
    storable records are added (accepted by their constructors, with scores and
    provenance that can be read back, and dated in UTC unless the database
    keeps the zone of a date), in whatever order and however often, and in
    whatever order the database scans its tables: reading an identifier gives
    the last record added under it, with every field, score and provenance (the
    products and mappings as a set), and nothing for an identifier never
    added; the count is the number of identifiers; and a search gives each
    vulnerability whose latest indexed text matches the query, once, and no
    other. *)
Theorem intel_store_is_exact fts_match vs : Forall storable vs ->
  exists t, add_all vs empty = (Ret tt, t)
  /\ (forall i, match PyDict.get i (latest vs) with
                | Some v => exists v', get_vulnerability i t = Ret (Some v') /\ reads_back v v'
                | None => get_vulnerability i t = Ret None
                end)
  /\ count_vulnerabilities t = Z.of_nat (length (latest vs))
  /\ forall keyword cve cwe,
       match query_of keyword cve cwe with
       | None => search_fts fts_match keyword cve cwe t = Ret []
       | Some (c, query) =>
           match fts_match (quoted query) with
           | Raise e => search_fts fts_match keyword cve cwe t = Raise e
           | Ret hit =>
               exists l0 l, search_fts fts_match keyword cve cwe t = Ret l /\ Forall2 reads_back l0 l
                 /\ l0 ≡ₚ List.filter (fun v => hit (text_of c (fts_index_vuln v))) (PyDict.values (latest vs))
           end
       end.
Proof.
  intros Hst. destruct (add_all_in_sync vs empty [] Hst empty_in_sync) as (t & Ha & Hs). fold (latest vs) in Hs.
  exists t. split_and!; [done|intros i; by apply sync_get| |].
  - unfold count_vulnerabilities. f_equal. pose proof (f_equal length (sync_keys _ _ Hs)) as H. unfold PyDict.keys in H. by rewrite !length_fmap in H.
  - intros keyword cve cwe. unfold search_fts. destruct (query_of keyword cve cwe) as [[c query]|]; [|done].
    destruct (fts_match (quoted query)) as [hit|e]; [|done]. destruct (sync_search t _ c hit Hs) as (l0 & l & Hl & HF & Hp).
    exists l0, l. cbn [mbind outcome_bind]. rewrite Hl. cbn [mbind outcome_bind]. split_and!; [|done..]. f_equal.
    clear. induction l as [|v l IH]; [done|]. cbn. by f_equal.
Qed.

(** *** The sync of a feed *)

Lemma check_product_again p q : Intel.check_product p = Ret q -> Intel.check_product q = Ret q.
Proof. intros H. pose proof H as H'. unfold Intel.check_product in H. apply bind_Ret in H as (a & _ & (b & _ & [= <-])%bind_Ret). exact H'. Qed.

Lemma sourced_parts source i d al refs score pub ps p v : sourced source i d al refs score pub ps p = Ret v ->
  affected_products v = ps /\ exploitation_signal v = no_signal /\ detection_mappings v = [] /\ v_provenance v = p.
Proof.
  unfold sourced. intros (s & Hs & H)%bind_Ret. assert (s = no_signal) as -> by (vm_compute in Hs; vm_compute; congruence).
  unfold Intel.make_vulnerability in H. apply bind_Ret in H as (u & _ & H). apply bind_Ret in H as ([] & _ & H). cbn zeta in H.
  cbn in H. by apply bind_Ret in H as (j & _ & [= <-]).
Qed.

Lemma osv_storable now answer l v : PyTime.valid now -> OsvClient.fetch_incremental now answer = Ret l -> v ∈ l ->
  zone_kept = true \/ utcoffset (published_at v) = 0 -> storable v.
Proof.
  intros Hnow Hf Hv Hz. destruct (SourceSync.osv_attributed answer now v l Hf Hv) as (Hb & Hsrc & Hat & score & Hc & Hrange).
  unfold OsvClient.fetch_incremental in Hf. destruct answer as [msg|code text]; [by injection Hf as <-; apply elem_of_nil in Hv|].
  destruct (negb _); [by injection Hf as <-; apply elem_of_nil in Hv|].
  apply bind_Ret in Hf as (j & _ & (d & _ & (tok & _ & (p & Hp & (recs & _ & H)%bind_Ret)%bind_Ret)%bind_Ret)%bind_Ret).
  apply mapM_outcome_Ret in H. apply list_elem_of_lookup in Hv as [i Hi]. destruct (Forall2_lookup_r _ _ _ _ _ H Hi) as (rec & _ & Hr).
  unfold OsvClient.parse in Hr. do 8 (apply bind_Ret in Hr as (? & _ & Hr)). apply bind_Ret in Hr as (products & Hps & Hr).
  apply bind_Ret in Hr as (pub & _ & Hr). apply sourced_parts in Hr as (Hpr & Hsi & Hma & Hpv).
  assert (Hread : readable (v_provenance v)).
  { rewrite Hpv. pose proof Hp as Hp'. apply SourceSync.provenance_checked in Hp' as [_ E]. split; [|by rewrite E].
    unfold Intel.check_provenance in Hp |- *. apply bind_Ret in Hp as (a & Ha & (b & Hb' & [= <-])%bind_Ret). rewrite Ha. cbn [mbind outcome_bind]. by rewrite Hb'. }
  split; [done| | | | |done|done].
  - rewrite Hpr. apply mapM_outcome_Ret in Hps. apply Forall_forall. intros q Hq. apply list_elem_of_lookup in Hq as [k Hk].
    destruct (Forall2_lookup_r _ _ _ _ _ Hps Hk) as (aff & _ & Ha). unfold OsvClient.affected_product in Ha.
    do 7 (apply bind_Ret in Ha as (? & _ & Ha)). by apply check_product_again in Ha.
  - by rewrite Hsi.
  - by rewrite Hma.
  - rewrite Hc. constructor; [done|constructor].
Qed.

(** After a sync the store holds the first [limit] records of the feed over
    what it held, and the answer counts them (also those that share an
    identifier). *)
Lemma sync_keeps_in_sync now answer limit vulns t m :
  PyTime.valid now -> 0 <= limit -> OsvClient.fetch_incremental now answer = Ret vulns ->
  Forall (fun v => zone_kept = true \/ utcoffset (published_at v) = 0) vulns -> in_sync t m ->
  let l := take (Z.to_nat limit) vulns in
  exists t', sync_from_osv now answer limit t = (Ret (Z.of_nat (length l)), t')
    /\ in_sync t' (foldl (fun d v => PyDict.set (canonical_id v) v d) m l).
Proof.
  intros Hnow Hl Hf Hz Hs l. destruct (add_all_in_sync l t m) as (t' & Ha & Hs'); [|done|].
  - apply Forall_forall. intros v Hv. assert (Hin : v ∈ vulns).
    { rewrite <- (take_drop (Z.to_nat limit) vulns). apply elem_of_app. by left. }
    apply (osv_storable now answer vulns); [done..|]. rewrite Forall_forall in Hz. by apply Hz.
  - exists t'. split; [|done]. unfold sync_from_osv, lift, mbind, M_bind. replace (limit <? 0) with false by lia. cbn [raise_if].
    rewrite Hf. cbv zeta. change (take (Z.to_nat limit) vulns) with l. by rewrite Ha.
Qed.

End store.

(** ** The router *)
Module IntelRouter.
Section router.
Context (scan : forall A, list A -> list A).

Record VulnerabilityOut : Type := mkOut {
  out_canonical_id : string;
  out_aliases : list string;
  out_description : string;
  out_cvss : list (string * pyfloat);
  out_cwe : list string;
  out_references : list string;
  out_published_at : aware;
  out_affected_products : list AffectedProduct;
  out_exploitation_signal : ExploitationSignal;
  out_digest : string
}.

(** [_to_out]: every source's score, without its provenance. *)
Definition to_out (v : Vulnerability) : VulnerabilityOut :=
  mkOut (canonical_id v) (aliases v) (v_description v) (prod_map id fst <$> cvss v) (v_cwe v) (references v) (published_at v)
    (affected_products v) (exploitation_signal v) (v_digest v).

Definition get_vulnerability (i : string) (t : Tables) : outcome VulnerabilityOut :=
  o ← IntelStore.get_vulnerability scan i t;
  match o with Some v => Ret (to_out v) | None => Raise (HTTPException 404 "vulnerability not found") end.

Definition search_intel (fts_match : string -> outcome (string -> bool)) (keyword cve cwe : option string) (t : Tables)
    : outcome (list VulnerabilityOut) :=
  l ← IntelStore.search_fts scan fts_match keyword cve cwe t; Ret (to_out <$> (l : list Vulnerability)).
End router.
End IntelRouter.

(** ** Examples *)
Definition in_order (A : Type) (l : list A) : list A := l.
Definition as_is (l : list string) : list string := l.
Definition demo_time : datetime := 63850000000000000.
Definition record_of (source : string) (score : pyfloat) (offset : Z) : Vulnerability :=
  let p := mkProvenance source demo_time "v1" in
  let v := mkVulnerability "CVE-2024-1" ["GHSA-1"] "overflow in widget" [(PyStr.lower source, (score, p))] ["CWE-787"] []
             (mkAware demo_time offset) [mkProduct "acme" "widget" None None "<1.2" ["1.2"]] no_signal [] p "" in
  match Intel.make_vulnerability v with Ret v => v | Raise _ => v end.

Ltac computes := vm_compute; first [reflexivity | done | lia].

Lemma osv_storable_demo : storable false (record_of "OSV" (flt "0.0") 0).
Proof.
  split; [split; [computes|computes|apply (bool_decide_unpack _); vm_compute; exact I|computes]| |computes|constructor| |split; [computes|split; computes]|by right].
  - constructor; [computes|constructor].
  - constructor; [split; [computes|split; [computes|split; computes]]|constructor].
Qed.
Lemma nvd_storable_demo : storable false (record_of "NVD" (flt "7.5") 0).
Proof.
  split; [split; [computes|computes|apply (bool_decide_unpack _); vm_compute; exact I|computes]| |computes|constructor| |split; [computes|split; computes]|by right].
  - constructor; [computes|constructor].
  - constructor; [split; [computes|split; [computes|split; computes]]|constructor].
Qed.

Definition substring_match (query : string) : outcome (string -> bool) :=
  Ret (fun text => PyStr.startswith text (PyStr.drop 1 (PyStr.take (String.length query - 1) query))).

Lemma intel_store_is_exact_witness :
  let vs := [record_of "OSV" (flt "0.0") 0; record_of "NVD" (flt "7.5") 0] in
  exists t, add_all false as_is vs empty = (Ret tt, t)
  /\ (exists v', get_vulnerability in_order "CVE-2024-1" t = Ret (Some v') /\ reads_back (record_of "NVD" (flt "7.5") 0) v')
  /\ count_vulnerabilities t = 1.
Proof.
  intros vs. destruct (intel_store_is_exact false in_order as_is (fun A l => reflexivity l) substring_match vs) as (t & Ha & Hg & Hc & _).
  { constructor; [exact osv_storable_demo|]. constructor; [exact nvd_storable_demo|constructor]. }
  exists t. split; [exact Ha|]. split; [exact (Hg "CVE-2024-1")|exact Hc].
Defined.

(** The record of a second source replaces the one of the first: of the two
    scores one is left. *)
Example second_source_erases_the_first :
  match (add_all false as_is [record_of "OSV" (flt "0.0") 0; record_of "NVD" (flt "7.5") 0] empty) with
  | (Ret _, t) => match get_vulnerability in_order "CVE-2024-1" t with
                  | Ret (Some v) => (prod_map id fst <$> cvss v) = [("nvd", flt "7.5")]
                  | _ => False
                  end
  | _ => False
  end.
Proof. vm_compute. reflexivity. Qed.

(** A date two hours east of UTC comes back from SQLite two hours later. *)
Example zone_is_lost :
  match (add_all false as_is [record_of "OSV" (flt "0.0") 7200000000] empty) with
  | (Ret _, t) => match get_vulnerability in_order "CVE-2024-1" t with
                  | Ret (Some v) => instant (published_at v) = demo_time + 7200000000
                  | _ => False
                  end
  | _ => False
  end.
Proof. vm_compute. reflexivity. Qed.

(** A quotation mark in the search text ends the phrase: what follows is read
    as FTS5 operators. *)
Example query_text_is_not_escaped :
  quoted ("a" +:+ Canonical.dq +:+ " OR " +:+ Canonical.dq +:+ "b")
  = Canonical.dq +:+ "a" +:+ Canonical.dq +:+ " OR " +:+ Canonical.dq +:+ "b" +:+ Canonical.dq.
Proof. reflexivity. Qed.

(** One record without an identifier and the feed gives none. *)
Example one_bad_record_loses_the_feed :
  let feed := JObj [("vulns", JArr [JObj [("id", JStr "CVE-2024-1")]; JObj [("id", JStr "")]])] in
  (sync_from_osv false as_is demo_time (Response 200 (Canonical.canonical_json feed)) 100 empty)
  = (Raise (DomainValidationError "Vulnerability.canonical_id must be non-empty"), empty).
Proof. vm_compute. reflexivity. Qed.

End IntelStore.
