(* ===== verification/Verification.v ===== *)
(** * Verification methods and verdicts

    Models [src/secopent/domain/verification/]: the curated methods and their
    registry, candidates and confirmed findings, the N/N decision rule, the
    CWE mapping and the differential-semantics verdict. *)
From S2P Require Import Prelude PyStr PyTime PyFloat Sha256 Canonical Contracts.

#[local] Open Scope Z_scope.

Module VulnType.
Inductive t : Type :=
| SQLI | RCE | SSRF | XXE | XSS | DESERIALIZATION | FILE_READ | AUTH_BYPASS
| PATH_TRAVERSAL | IDOR | PARAM_TAMPERING | MFA_BYPASS | WEAK_CREDENTIALS
| PRIVILEGE_ESCALATION.
#[export] Instance eq_dec : EqDecision t.
Proof. solve_decision. Defined.
Definition to_string (s : t) : string :=
  match s with
  | SQLI => "sqli" | RCE => "rce" | SSRF => "ssrf" | XXE => "xxe" | XSS => "xss"
  | DESERIALIZATION => "deserialization" | FILE_READ => "file_read"
  | AUTH_BYPASS => "auth_bypass" | PATH_TRAVERSAL => "path_traversal" | IDOR => "idor"
  | PARAM_TAMPERING => "param_tampering" | MFA_BYPASS => "mfa_bypass"
  | WEAK_CREDENTIALS => "weak_credentials" | PRIVILEGE_ESCALATION => "privilege_escalation"
  end.
#[export] Program Instance strenum : StrEnum t :=
  { value := to_string;
    members := [SQLI; RCE; SSRF; XXE; XSS; DESERIALIZATION; FILE_READ; AUTH_BYPASS;
                  PATH_TRAVERSAL; IDOR; PARAM_TAMPERING; MFA_BYPASS; WEAK_CREDENTIALS;
                  PRIVILEGE_ESCALATION] }.
Next Obligation. solve_members. Qed.
Next Obligation. solve_value_inj. Qed.
End VulnType.
Notation VulnType := VulnType.t.

Module RetryStrategy.
Inductive t : Type :=
| CROSS_WORKER | SAME_WORKER.
#[export] Instance eq_dec : EqDecision t.
Proof. solve_decision. Defined.
Definition to_string (s : t) : string :=
  match s with
  | CROSS_WORKER => "cross_worker" | SAME_WORKER => "same_worker"
  end.
#[export] Program Instance strenum : StrEnum t :=
  { value := to_string;
    members := [CROSS_WORKER; SAME_WORKER] }.
Next Obligation. solve_members. Qed.
Next Obligation. solve_value_inj. Qed.
End RetryStrategy.
Notation RetryStrategy := RetryStrategy.t.

Module VerificationStatus.
Inductive t : Type :=
| PENDING | CONFIRMED | REFUTED | INCONCLUSIVE.
#[export] Instance eq_dec : EqDecision t.
Proof. solve_decision. Defined.
Definition to_string (s : t) : string :=
  match s with
  | PENDING => "pending" | CONFIRMED => "confirmed" | REFUTED => "refuted"
  | INCONCLUSIVE => "inconclusive"
  end.
#[export] Program Instance strenum : StrEnum t :=
  { value := to_string;
    members := [PENDING; CONFIRMED; REFUTED; INCONCLUSIVE] }.
Next Obligation. solve_members. Qed.
Next Obligation. solve_value_inj. Qed.
End VerificationStatus.
Notation VerificationStatus := VerificationStatus.t.

Module ReproductionStatus.
Inductive t : Type :=
| SUCCESS | FAILURE | SERVER_ERROR.
#[export] Instance eq_dec : EqDecision t.
Proof. solve_decision. Defined.
Definition to_string (s : t) : string :=
  match s with
  | SUCCESS => "success" | FAILURE => "failure" | SERVER_ERROR => "server_error"
  end.
#[export] Program Instance strenum : StrEnum t :=
  { value := to_string;
    members := [SUCCESS; FAILURE; SERVER_ERROR] }.
Next Obligation. solve_members. Qed.
Next Obligation. solve_value_inj. Qed.
End ReproductionStatus.
Notation ReproductionStatus := ReproductionStatus.t.

Module Expectation.
Inductive t : Type :=
| DENY | SINGLE_SPEND | STATE_REJECT | STATE_CHANGE.
#[export] Instance eq_dec : EqDecision t.
Proof. solve_decision. Defined.
Definition to_string (s : t) : string :=
  match s with
  | DENY => "deny" | SINGLE_SPEND => "single_spend" | STATE_REJECT => "state_reject"
  | STATE_CHANGE => "state_change"
  end.
#[export] Program Instance strenum : StrEnum t :=
  { value := to_string;
    members := [DENY; SINGLE_SPEND; STATE_REJECT; STATE_CHANGE] }.
Next Obligation. solve_members. Qed.
Next Obligation. solve_value_inj. Qed.
End Expectation.
Notation Expectation := Expectation.t.
Export (hints) VulnType RetryStrategy VerificationStatus ReproductionStatus Expectation.

Record VerificationMethod : Type := mkMethod {
  vuln_type : VulnType;
  default_n : Z;
  retry_strategy : RetryStrategy;
  cross_worker : bool;
  server_error_threshold : Z;
  oob_window_seconds : Z;
  echo_enabled : bool;
  diff_semantic : bool
}.

Record DiffSemanticPayload : Type := mkDiffPayload {
  dp_candidate_id : string;
  baseline_request : list (string * json);
  assertion_request : list (string * json);
  dp_expectation : Expectation;
  state_readback : option string
}.

(** The opaque [diff] attribute of a candidate: a payload, or something else. *)
Inductive diff_object : Type :=
| DiffPayload (p : DiffSemanticPayload)
| DiffOther.

Record CandidateFinding : Type := mkCandidate {
  cf_id : string;
  observation_id : string;
  cf_vuln_type : VulnType;
  cf_target : string;
  cf_status : VerificationStatus;
  cf_diff : option diff_object
}.

Record ConfirmedFinding : Type := mkConfirmed {
  candidate_id : string;
  conf_vuln_type : VulnType;
  conf_evidence_ids : list string;
  verified_at : datetime;
  conf_successes : Z;
  conf_attempts : Z
}.

Record VerificationResult : Type := mkResult {
  vr_status : VerificationStatus;
  vr_successes : Z;
  vr_attempts : Z;
  vr_reason : string
}.

Record DiffResponse : Type := mkDiffResponse {
  resp_status : Z;
  resp_body : option (list (string * json))
}.

Record AssertionResult : Type := mkAssertionResult {
  expectation : Expectation;
  base : DiffResponse;
  assertion : DiffResponse;
  refused : bool;
  structure_same : bool;
  state_ok : option bool
}.

Module Verification.

Definition check_method (m : VerificationMethod) : outcome VerificationMethod :=
  raise_if (default_n m <? 1)
    (DomainValidationError "VerificationMethod.default_n must be >= 1");;
  raise_if (server_error_threshold m <? 1)
    (DomainValidationError "VerificationMethod.server_error_threshold must be >= 1");;
  raise_if (oob_window_seconds m <? 0)
    (DomainValidationError "VerificationMethod.oob_window_seconds must be >= 0");;
  raise_if (echo_enabled m && diff_semantic m)
    (DomainValidationError "VerificationMethod cannot be both echo_enabled and diff_semantic");;
  Ret m.

Definition check_candidate (c : CandidateFinding) : outcome CandidateFinding :=
  require_text (cf_id c) "CandidateFinding.id must be non-empty";;
  require_text (observation_id c) "CandidateFinding.observation_id must be non-empty";;
  require_text (cf_target c) "CandidateFinding.target must be non-empty";;
  Ret c.

Definition check_confirmed (c : ConfirmedFinding) : outcome ConfirmedFinding :=
  require_text (candidate_id c) "ConfirmedFinding.candidate_id must be non-empty";;
  raise_if (conf_successes c <? 1)
    (DomainValidationError "ConfirmedFinding.successes must be >= 1");;
  raise_if (conf_attempts c <? conf_successes c)
    (DomainValidationError "ConfirmedFinding.attempts must be >= successes");;
  Ret c.

Definition check_result (r : VerificationResult) : outcome VerificationResult :=
  raise_if ((vr_successes r <? 0) || (vr_attempts r <? 0))
    (DomainValidationError "VerificationResult counts must be >= 0");;
  raise_if (vr_attempts r <? vr_successes r)
    (DomainValidationError "VerificationResult.successes cannot exceed attempts");;
  Ret r.

Definition decide_outcome (m : VerificationMethod) (successes attempts inconclusive : Z)
  : VerificationStatus :=
  if default_n m <=? successes then VerificationStatus.CONFIRMED
  else if default_n m <=? attempts then
    if server_error_threshold m <=? inconclusive then VerificationStatus.INCONCLUSIVE
    else VerificationStatus.REFUTED
  else VerificationStatus.PENDING.

(** ** Registry *)
Notation Registry := (gmap VulnType VerificationMethod).

Fixpoint registry_loop (by_type : Registry) (l : list VerificationMethod) : outcome Registry :=
  match l with
  | [] => Ret by_type
  | m :: ms =>
      raise_if (bool_decide (is_Some (by_type !! vuln_type m)))
        (DomainValidationError
           ("duplicate verification method for vuln_type=" +:+ value (vuln_type m)));;
      registry_loop (<[vuln_type m := m]> by_type) ms
  end.

Definition make_registry (l : list VerificationMethod) : outcome Registry := registry_loop ∅ l.

Definition method_for (r : Registry) (v : VulnType) : option VerificationMethod := r !! v.

Definition require_method (r : Registry) (v : VulnType) : outcome VerificationMethod :=
  unwrap (r !! v) (DomainValidationError ("no verification method curated for vuln_type=" +:+ value v)).

Definition vuln_types (r : Registry) : list string := PyStr.sorted (value <$> (map_to_list r).*1).

Definition plain (v : VulnType) (n : Z) : VerificationMethod :=
  mkMethod v n RetryStrategy.CROSS_WORKER true 2 0 false false.
Definition oob (v : VulnType) (n : Z) : VerificationMethod :=
  mkMethod v n RetryStrategy.CROSS_WORKER true 2 30 false false.
Definition echo (v : VulnType) (n : Z) : VerificationMethod :=
  mkMethod v n RetryStrategy.CROSS_WORKER true 2 0 true false.
Definition diff (v : VulnType) (n : Z) : VerificationMethod :=
  mkMethod v n RetryStrategy.CROSS_WORKER true 2 0 false true.

Definition default_methods : list VerificationMethod :=
  [plain VulnType.SQLI 5; plain VulnType.RCE 3; oob VulnType.SSRF 3; oob VulnType.XXE 3;
   echo VulnType.XSS 3; oob VulnType.DESERIALIZATION 3; plain VulnType.FILE_READ 3;
   diff VulnType.AUTH_BYPASS 3; plain VulnType.PATH_TRAVERSAL 3; diff VulnType.IDOR 3;
   plain VulnType.PARAM_TAMPERING 3; diff VulnType.MFA_BYPASS 3; plain VulnType.WEAK_CREDENTIALS 3;
   diff VulnType.PRIVILEGE_ESCALATION 3].

Definition default_registry : outcome Registry :=
  ms ← mapM_outcome check_method default_methods; make_registry ms.

(** ** CWE mapping *)
Definition CWE_TO_VULN : list (string * VulnType) :=
  [("CWE-89", VulnType.SQLI); ("CWE-77", VulnType.RCE); ("CWE-78", VulnType.RCE);
   ("CWE-918", VulnType.SSRF); ("CWE-611", VulnType.XXE); ("CWE-79", VulnType.XSS);
   ("CWE-502", VulnType.DESERIALIZATION); ("CWE-22", VulnType.PATH_TRAVERSAL);
   ("CWE-23", VulnType.PATH_TRAVERSAL); ("CWE-35", VulnType.PATH_TRAVERSAL);
   ("CWE-639", VulnType.IDOR); ("CWE-287", VulnType.AUTH_BYPASS); ("CWE-306", VulnType.AUTH_BYPASS);
   ("CWE-269", VulnType.PRIVILEGE_ESCALATION); ("CWE-521", VulnType.WEAK_CREDENTIALS)].

Definition vuln_type_for_cwe (cwe : string) : option VulnType :=
  snd <$> List.find (fun kv => bool_decide (kv.1 = cwe)) CWE_TO_VULN.

Fixpoint vuln_type_for_cwes (cwes : list string) : option VulnType :=
  match cwes with
  | [] => None
  | c :: cs => match vuln_type_for_cwe c with Some v => Some v | None => vuln_type_for_cwes cs end
  end.

(** ** Differential semantics *)
Definition check_diff_payload (p : DiffSemanticPayload) : outcome DiffSemanticPayload :=
  require_text (dp_candidate_id p) "DiffSemanticPayload.candidate_id required";;
  require_items (baseline_request p) "baseline_request must be a non-empty dict";;
  require_items (assertion_request p) "assertion_request must be a non-empty dict";;
  Ret p.

Definition decide_diff_outcome (r : AssertionResult) : ReproductionStatus :=
  match expectation r with
  | Expectation.DENY =>
      if negb (refused r) && structure_same r then ReproductionStatus.SUCCESS
      else if refused r then ReproductionStatus.FAILURE
      else ReproductionStatus.SERVER_ERROR
  | Expectation.SINGLE_SPEND =>
      if bool_decide (state_ok r = Some false) then ReproductionStatus.FAILURE
      else if negb (refused r) && structure_same r then ReproductionStatus.SUCCESS
      else if refused r then ReproductionStatus.FAILURE
      else ReproductionStatus.SERVER_ERROR
  | Expectation.STATE_REJECT | Expectation.STATE_CHANGE =>
      if negb (refused r) then ReproductionStatus.SUCCESS else ReproductionStatus.FAILURE
  end.

(** ** Properties *)

Lemma registry_loop_spec l by_type r :
  registry_loop by_type l = Ret r ->
  (forall v m, r !! v = Some m <-> by_type !! v = Some m \/ (m ∈ l /\ vuln_type m = v)).
Proof.
  revert by_type; induction l as [|m0 l IH]; intros bt; cbn.
  - intros [= <-] v m. split; [by left|]. intros [?|[?%elem_of_nil _]]; done.
  - intros (? & Hd & H)%bind_Ret. apply raise_if_Ret in Hd. breflect. intros v m. rewrite (IH _ H).
    assert (Hn : bt !! vuln_type m0 = None) by by apply eq_None_not_Some.
    rewrite lookup_insert_Some, elem_of_cons. naive_solver.
Qed.

(** the curated registry is total and consistent. [default_registry]
    builds; it holds a method for each of the 14 vulnerability types, filed
    under its own type; every method needs at least three reproductions,
    tolerates fewer server errors than reproductions, and none confirms both
    by echo and by differential semantics. *)
Theorem default_registry_total :
  exists r, default_registry = Ret r /\
  forall v, exists m, require_method r v = Ret m /\ vuln_type m = v /\ 3 <= default_n m
    /\ 1 <= server_error_threshold m < default_n m /\ 0 <= oob_window_seconds m
    /\ (echo_enabled m && diff_semantic m) = false.
Proof.
  assert (Hm : mapM_outcome check_method default_methods = Ret default_methods) by reflexivity.
  destruct (make_registry default_methods) as [r|e] eqn:E.
  2: { apply (f_equal is_Ret) in E. vm_compute in E. discriminate E. }
  exists r. unfold default_registry. rewrite Hm. split; [exact E|]. intros v.
  assert (Hin : Exists (fun m => vuln_type m = v) default_methods).
  { destruct v; apply (bool_decide_unpack _); vm_compute; exact I. }
  apply Exists_exists in Hin as (m & Hin & Hv).
  assert (Hr : r !! v = Some m) by (apply (registry_loop_spec _ _ _ E); right; done).
  exists m. unfold require_method. rewrite Hr. split; [done|]. split; [done|].
  assert (Hall : forallb (fun m => (3 <=? default_n m) && (1 <=? server_error_threshold m)
    && (server_error_threshold m <? default_n m) && (0 <=? oob_window_seconds m)
    && negb (echo_enabled m && diff_semantic m)) default_methods = true) by reflexivity.
  rewrite List.forallb_forall in Hall. apply list_elem_of_In, Hall in Hin.
  repeat (apply andb_true_iff in Hin as [Hin ?]). apply negb_true_iff in H. rewrite H. lia.
Qed.

(** The decision rule. With at most as many successes as attempts,
    [decide_outcome] confirms exactly when the required number of
    reproductions succeeded, stays pending exactly while attempts are
    missing, and otherwise refutes unless enough server errors make the
    target flaky, in which case it is inconclusive and never refuted. *)
Theorem decide_outcome_spec m s a i :
  let d := decide_outcome m s a i in
  (d = VerificationStatus.CONFIRMED <-> default_n m <= s)
  /\ (s <= a -> (d = VerificationStatus.PENDING <-> a < default_n m))
  /\ (d = VerificationStatus.REFUTED <->
       s < default_n m <= a /\ i < server_error_threshold m)
  /\ (d = VerificationStatus.INCONCLUSIVE <->
       s < default_n m <= a /\ server_error_threshold m <= i).
Proof.
  cbn zeta. unfold decide_outcome.
  destruct (Z.leb_spec (default_n m) s), (Z.leb_spec (default_n m) a),
    (Z.leb_spec (server_error_threshold m) i); split_and!; try (split; intros; try done; lia);
    intros; split; intros; try done; lia.
Qed.

(** the differential verdict. A deny expectation is confirmed only by an
    override that was let through with the baseline's structure; a refused
    override is never a success, under any expectation; a bad state readback
    always refutes a single-spend; and only the two structural expectations
    can be inconclusive, when the override was let through with another
    structure. *)
Theorem diff_outcome_spec r :
  (decide_diff_outcome r = ReproductionStatus.SUCCESS ->
     refused r = false
     /\ (expectation r = Expectation.DENY \/ expectation r = Expectation.SINGLE_SPEND ->
          structure_same r = true)
     /\ (expectation r = Expectation.SINGLE_SPEND -> state_ok r <> Some false))
  /\ (refused r = true -> decide_diff_outcome r = ReproductionStatus.FAILURE)
  /\ (decide_diff_outcome r = ReproductionStatus.SERVER_ERROR <->
       refused r = false /\ structure_same r = false
       /\ (expectation r = Expectation.DENY
           \/ (expectation r = Expectation.SINGLE_SPEND /\ state_ok r <> Some false))).
Proof.
  unfold decide_diff_outcome.
  destruct (expectation r), (refused r), (structure_same r); cbn;
    try case_bool_decide; split_and!; intros; try done; try naive_solver;
    split; intros; try done; naive_solver.
Qed.

Lemma diff_outcome_spec_witness :
  decide_diff_outcome (mkAssertionResult Expectation.DENY (mkDiffResponse 200 None)
    (mkDiffResponse 403 None) true true None) = ReproductionStatus.FAILURE.
Proof.
  exact (proj1 (proj2 (diff_outcome_spec (mkAssertionResult Expectation.DENY (mkDiffResponse 200 None)
    (mkDiffResponse 403 None) true true None))) eq_refl).
Defined.

Lemma decide_outcome_spec_witness :
  decide_outcome (plain VulnType.RCE 3) 2 3 0 = VerificationStatus.REFUTED.
Proof.
  apply (proj1 (proj2 (proj2 (decide_outcome_spec (plain VulnType.RCE 3) 2 3 0)))). cbn. lia.
Defined.

End Verification.
