(* ===== verification/Findings.v ===== *)
(** * Findings, their correlation and attack chains

    Models [src/secopent/domain/findings/] (the finding, the attack chain and
    its templates, the de-duplication fingerprint),
    [application/finding_correlation.py] and [application/chain_engine.py].
    [uuid4().hex] is the [uuid] parameter: the text of the n-th draw. *)
From S2P Require Import Prelude PyStr PyFloat PyDict Sha256 Canonical Contracts Verification.

#[local] Open Scope Z_scope.

Module FindingStatus.
Inductive t : Type := DRAFT | CANDIDATE | VALIDATED | REPORTED | CLOSED | FALSE_POSITIVE.
#[export] Instance eq_dec : EqDecision t.
Proof. solve_decision. Defined.
Definition to_string (s : t) : string :=
  match s with
  | DRAFT => "draft" | CANDIDATE => "candidate" | VALIDATED => "validated"
  | REPORTED => "reported" | CLOSED => "closed" | FALSE_POSITIVE => "false_positive"
  end.
#[export] Program Instance strenum : StrEnum t :=
  { value := to_string;
    members := [DRAFT; CANDIDATE; VALIDATED; REPORTED; CLOSED; FALSE_POSITIVE] }.
Next Obligation. solve_members. Qed.
Next Obligation. solve_value_inj. Qed.
End FindingStatus.
Notation FindingStatus := FindingStatus.t.

Module ChainStatus.
Inductive t : Type := HYPOTHESIS | PARTIALLY_VERIFIED | CONFIRMED | REFUTED.
#[export] Instance eq_dec : EqDecision t.
Proof. solve_decision. Defined.
Definition to_string (s : t) : string :=
  match s with
  | HYPOTHESIS => "hypothesis" | PARTIALLY_VERIFIED => "partially_verified"
  | CONFIRMED => "confirmed_chain" | REFUTED => "refuted"
  end.
#[export] Program Instance strenum : StrEnum t :=
  { value := to_string; members := [HYPOTHESIS; PARTIALLY_VERIFIED; CONFIRMED; REFUTED] }.
Next Obligation. solve_members. Qed.
Next Obligation. solve_value_inj. Qed.
End ChainStatus.
Notation ChainStatus := ChainStatus.t.

Module ChainHypothesisSource.
Inductive t : Type := TEMPLATE | LLM | PEER.
#[export] Instance eq_dec : EqDecision t.
Proof. solve_decision. Defined.
Definition to_string (s : t) : string :=
  match s with
  | TEMPLATE => "template" | LLM => "llm_proposal" | PEER => "peer_claim"
  end.
#[export] Program Instance strenum : StrEnum t :=
  { value := to_string; members := [TEMPLATE; LLM; PEER] }.
Next Obligation. solve_members. Qed.
Next Obligation. solve_value_inj. Qed.
End ChainHypothesisSource.
Notation ChainHypothesisSource := ChainHypothesisSource.t.
Export (hints) FindingStatus ChainStatus ChainHypothesisSource.

Record Finding : Type := mkFinding {
  fd_id : string;
  fingerprint : string;
  fd_title : string;
  fd_asset : string;
  fd_severity : Severity;
  fd_cwe : list string;
  fd_cve : list string;
  fd_owasp : list string;
  fd_observation_ids : list string;
  fd_evidence_ids : list string;
  fd_status : FindingStatus;
  fd_assessment_id : string;
  oracle_verdict : VerificationStatus
}.

Record ChainLink : Type := mkLink {
  confirmed_finding_id : string;
  pending_verification_key : string;
  link_note : string
}.

Record AttackChain : Type := mkChainRecord {
  ch_id : string;
  template_id : string;
  hypothesis_source : string;
  ch_links : list ChainLink;
  ch_status : ChainStatus;
  ch_severity : Severity
}.

Record ChainLinkSpec : Type := mkLinkSpec {
  cwe_any : list string;
  asset_pattern : string
}.

Record AttackChainTemplate : Type := mkTemplate {
  tpl_id : string;
  tpl_name : string;
  tpl_links : list ChainLinkSpec;
  tactic : string
}.

Record ChainProposal : Type := mkProposal {
  proposer : string;
  template_hint : string;
  finding_ids : list string
}.

Record PendingVerificationTask : Type := mkTask {
  task_key : string;
  task_chain_id : string;
  required_cwe : list string;
  asset_hint : string
}.

Module Findings.

Definition check_finding (f : Finding) : outcome Finding :=
  require_text (fd_id f) "Finding.id must be non-empty";;
  require_text (fingerprint f) "Finding.fingerprint must be non-empty";;
  require_text (fd_title f) "Finding.title must be non-empty";;
  require_text (fd_asset f) "Finding.asset must be non-empty";;
  Ret f.

Definition check_link (l : ChainLink) : outcome ChainLink :=
  raise_if (negb (PyStr.truthy (confirmed_finding_id l))
            && negb (PyStr.truthy (pending_verification_key l)))
    (DomainValidationError "ChainLink needs confirmed_finding_id or pending_verification_key");;
  Ret l.

Definition is_confirmed (l : ChainLink) : bool := PyStr.truthy (confirmed_finding_id l).

Definition check_chain (c : AttackChain) : outcome AttackChain :=
  require_text (ch_id c) "AttackChain.id must be non-empty";;
  raise_if (length (ch_links c) <? 2)%nat (DomainValidationError "AttackChain needs at least 2 links");;
  Ret c.

Definition all_links_confirmed (c : AttackChain) : bool := forallb is_confirmed (ch_links c).

Definition check_template (t : AttackChainTemplate) : outcome AttackChainTemplate :=
  require_text (tpl_id t) "AttackChainTemplate.id must be non-empty";;
  raise_if (length (tpl_links t) <? 2)%nat
    (DomainValidationError "AttackChainTemplate needs at least 2 links");;
  Ret t.

(** ** Severity *)
Definition SEVERITY_ORDER : list Severity :=
  [Severity.INFO; Severity.LOW; Severity.MEDIUM; Severity.HIGH; Severity.CRITICAL].

(** The position of a severity in [_SEVERITY_ORDER], and its rank in
    [_SEVERITY_RANK]. *)
Definition severity_rank (s : Severity) : nat :=
  match s with
  | Severity.INFO => 0 | Severity.LOW => 1 | Severity.MEDIUM => 2
  | Severity.HIGH => 3 | Severity.CRITICAL => 4
  end.

(** [max(x :: l, key=rank)]: the first element of greatest rank. *)
Fixpoint max_by {A} (rank : A -> nat) (best : A) (l : list A) : A :=
  match l with
  | [] => best
  | x :: xs => max_by rank (if (rank best <? rank x)%nat then x else best) xs
  end.

Definition composite_severity (link_severities : list Severity) (asset_critical : bool) : Severity :=
  match link_severities with
  | [] => Severity.INFO
  | s :: ss =>
      let top := max_by severity_rank s ss in
      if asset_critical
      then default top (SEVERITY_ORDER !! Nat.min (severity_rank top + 1) (length SEVERITY_ORDER - 1))
      else top
  end.

(** ** Templates *)
Definition spec_matches (s : ChainLinkSpec) (p : list string * string) : bool :=
  existsb (fun c => bool_decide (c ∈ p.1)) (cwe_any s)
  && (negb (PyStr.truthy (asset_pattern s)) || PyStr.contains p.2 (asset_pattern s)).

(** The first index from [position] on that the link accepts. *)
Definition scan {A} (ok : A -> bool) (l : list A) (position : nat) : option (nat * A) :=
  (fun r => ((position + r.1)%nat, r.2)) <$> list_find (fun x => ok x = true) (drop position l).

Fixpoint match_links (links : list ChainLinkSpec) (findings : list (list string * string))
    (position : nat) : bool :=
  match links with
  | [] => true
  | s :: r => match scan (spec_matches s) findings position with
              | Some (i, _) => match_links r findings (S i)
              | None => false
              end
  end.

Definition match_template (t : AttackChainTemplate) (findings : list (list string * string)) : bool :=
  match_links (tpl_links t) findings 0.

Definition default_chain_templates : list AttackChainTemplate :=
  [mkTemplate "ssrf-to-cloud-creds" "SSRF -> cloud metadata -> credential leak"
     [mkLinkSpec ["CWE-918"] ""; mkLinkSpec ["CWE-918"; "CWE-200"] "169.254.169.254";
      mkLinkSpec ["CWE-522"; "CWE-312"; "CWE-200"] ""] "credential-access";
   mkTemplate "auth-bypass-plus-idor" "Authentication bypass -> IDOR horizontal escalation"
     [mkLinkSpec ["CWE-287"; "CWE-288"] ""; mkLinkSpec ["CWE-639"; "CWE-284"] ""]
     "privilege-escalation";
   mkTemplate "sqli-to-credential-theft" "SQL injection -> credential dump -> credential stuffing"
     [mkLinkSpec ["CWE-89"] ""; mkLinkSpec ["CWE-256"; "CWE-312"; "CWE-200"] "";
      mkLinkSpec ["CWE-798"; "CWE-640"] ""] "credential-access";
   mkTemplate "xss-to-session-theft" "Stored XSS -> session token theft -> account takeover"
     [mkLinkSpec ["CWE-79"] ""; mkLinkSpec ["CWE-384"; "CWE-614"] "";
      mkLinkSpec ["CWE-287"] ""] "collection";
   mkTemplate "weak-creds-to-admin-takeover" "Weak credentials -> admin panel -> privilege abuse"
     [mkLinkSpec ["CWE-521"; "CWE-798"] ""; mkLinkSpec ["CWE-269"; "CWE-285"] ""]
     "privilege-escalation"].

(** ** Fingerprint *)
Definition fingerprint_payload (o : Observation) : json :=
  JObj [("asset", JStr (asset_identity o)); ("cwe", Canonical.jstrs (PyStr.sorted (obs_cwe o)));
        ("cve", Canonical.jstrs (PyStr.sorted (obs_cve o)))].

Definition observation_fingerprint (o : Observation) : string :=
  Canonical.canonical_digest (fingerprint_payload o).

(** ** Lemmas *)
Lemma scan_Some {A} (ok : A -> bool) l p i y :
  scan ok l p = Some (i, y) <->
  (p <= i)%nat /\ l !! i = Some y /\ ok y = true
  /\ forall j x, (p <= j < i)%nat -> l !! j = Some x -> ok x = false.
Proof.
  unfold scan. rewrite fmap_Some. split.
  - intros ([k z] & (Hk & Hok & Hlt)%list_find_Some & [= -> ->]). rewrite lookup_drop in Hk.
    split; [cbn; lia|]. split; [done|]. split; [done|]. intros j x Hj Hx.
    apply not_true_is_false. apply (Hlt (j - p)%nat x); [|cbn in Hj; lia].
    rewrite lookup_drop. by replace (p + (j - p))%nat with j by lia.
  - intros (Hp & Hx & Hok & Hlt). exists ((i - p)%nat, y). split; [|cbn; f_equal; f_equal; lia].
    apply list_find_Some. rewrite lookup_drop. replace (p + (i - p))%nat with i by lia.
    split; [done|]. split; [done|]. intros j x Hj Hlj. rewrite lookup_drop in Hj.
    rewrite (Hlt (p + j)%nat x); [done|lia|done].
Qed.

Lemma scan_None {A} (ok : A -> bool) l p :
  scan ok l p = None <-> forall j x, (p <= j)%nat -> l !! j = Some x -> ok x = false.
Proof.
  unfold scan. rewrite fmap_None, list_find_None, Forall_forall. split.
  - intros H j x Hj Hx. apply not_true_is_false, H. apply list_elem_of_lookup.
    exists (j - p)%nat. rewrite lookup_drop. by replace (p + (j - p))%nat with j by lia.
  - intros H x (j & Hj)%list_elem_of_lookup. rewrite lookup_drop in Hj.
    by rewrite (H _ _ (Nat.le_add_r p j) Hj).
Qed.

Lemma max_by_spec {A} (rank : A -> nat) best l :
  max_by rank best l ∈ best :: l /\ Forall (fun x => rank x <= rank (max_by rank best l))%nat (best :: l).
Proof.
  revert best; induction l as [|x l IH]; intros best; cbn [max_by].
  - split; [left|]. by repeat constructor.
  - destruct (Nat.ltb_spec (rank best) (rank x)) as [E|E].
    + destruct (IH x) as [H1 H2]. split; [apply elem_of_cons; right; exact H1|].
      inversion H2; subst. constructor; [lia|done].
    + destruct (IH best) as [H1 H2]. split.
      * apply elem_of_cons in H1 as [H1|H1]; apply elem_of_cons; [left; exact H1|right; apply elem_of_cons; right; exact H1].
      * inversion H2; subst. constructor; [done|]. constructor; [lia|done].
Qed.

(** [ks] picks, in order, a finding for every link. *)
Definition embeds (links : list ChainLinkSpec) (findings : list (list string * string))
    (p : nat) (ks : list nat) : Prop :=
  StronglySorted lt ks /\ Forall (fun i => p <= i)%nat ks
  /\ Forall2 (fun s i => exists f, findings !! i = Some f /\ spec_matches s f = true) links ks.

Lemma match_links_sound links fs p :
  match_links links fs p = true -> exists ks, embeds links fs p ks.
Proof.
  revert p; induction links as [|s r IH]; intros p; cbn.
  - intros _. exists []. repeat constructor.
  - destruct (scan _ fs p) as [[i f]|] eqn:E; [|done]. intros (ks & Hs & Hle & Hf)%IH.
    apply scan_Some in E as (Hp & Hx & Hm & _). exists (i :: ks). split; [|split].
    + constructor; [done|]. eapply Forall_impl; [exact Hle|]. intros j Hj; cbn in Hj; lia.
    + constructor; [lia|]. eapply Forall_impl; [exact Hle|]. intros j Hj; cbn in Hj; lia.
    + constructor; [by exists f|done].
Qed.

Lemma match_links_complete links fs p ks :
  embeds links fs p ks -> match_links links fs p = true.
Proof.
  revert p ks; induction links as [|s r IH]; intros p ks (Hs & Hle & Hf); cbn; [done|].
  inversion Hf as [|? i ? ks' (f & Hi & Hm) Hf']; subst. inversion Hs as [|? ? Hs' Hlt]; subst.
  inversion Hle; subst.
  destruct (scan _ fs p) as [[k g]|] eqn:E.
  - apply scan_Some in E as (Hp & _ & _ & Hmin).
    assert (k <= i)%nat.
    { destruct (decide (i < k)%nat); [|lia]. rewrite (Hmin i f) in Hm; [done|lia|done]. }
    apply (IH (S k) ks'). split; [done|]. split; [|done].
    eapply Forall_impl; [exact Hlt|]. intros j Hj; cbn in Hj; lia.
  - rewrite scan_None in E. rewrite (E i f) in Hm; done.
Qed.

(** [match_template] finds an attack pattern exactly when the findings hold
    one finding per link, at strictly increasing positions, each sharing a CWE
    with its link and carrying the link's asset pattern: taking the first
    acceptable finding for each link loses no match. *)
Lemma embeds_iff t fs :
  match_template t fs = true <-> exists ks, embeds (tpl_links t) fs 0 ks.
Proof.
  split; [apply match_links_sound|]. intros [ks H]. by apply (match_links_complete _ _ _ ks).
Qed.

End Findings.

(** ** Correlation: [application/finding_correlation.py] *)
Module FindingCorrelation.
Import Findings.

Definition max_severity (group : list Observation) : outcome Severity :=
  match group with
  | [] => Raise (ValueError "max() iterable argument is empty")
  | o :: os => Ret (obs_severity (max_by (fun o => severity_rank (obs_severity o)) o os))
  end.

(** [groups.setdefault(fingerprint, []).append(observation)] *)
Definition add_to_group (groups : dict (list Observation)) (o : Observation) : dict (list Observation) :=
  let k := observation_fingerprint o in
  PyDict.set k (default [] (PyDict.get k groups) ++ [o]) groups.

Definition group_observations (observations : list Observation) : dict (list Observation) :=
  foldl add_to_group [] observations.

(** [sorted({x for o in group for x in f(o)})] *)
Definition merged (f : Observation -> list string) (group : list Observation) : list string :=
  PyStr.sorted (remove_dups (group ≫= f)).

Definition merge (kv : string * list Observation) : outcome Finding :=
  let '(fp, group) := kv in
  first ← unwrap (head group) (LookupError "list index out of range");
  sev ← max_severity group;
  check_finding
    (mkFinding ("finding:" +:+ PyStr.take 16 (PyStr.removeprefix fp "sha256:")) fp
       (obs_title first) (asset_identity first) sev
       (merged obs_cwe group) (merged obs_cve group) (merged obs_owasp group)
       (external_id <$> group) [] FindingStatus.CANDIDATE "" VerificationStatus.PENDING).

Definition correlate (observations : list Observation) : outcome (list Finding) :=
  mapM_outcome merge (group_observations observations).

Definition same_group (fp : string) (o : Observation) : bool := bool_decide (observation_fingerprint o = fp).

(** The observations with a fingerprint, in the order they came. *)
Definition group_of (fp : string) (observations : list Observation) : list Observation :=
  List.filter (same_group fp) observations.

Lemma group_of_snoc fp os o :
  group_of fp (os ++ [o]) = group_of fp os ++ (if same_group fp o then [o] else []).
Proof. unfold group_of. rewrite List.filter_app. cbn. by destruct (same_group fp o). Qed.

Lemma elem_of_group_of fp os o : o ∈ group_of fp os <-> o ∈ os /\ observation_fingerprint o = fp.
Proof.
  unfold group_of, same_group. rewrite !list_elem_of_In, filter_In, bool_decide_eq_true. done.
Qed.

Lemma groups_spec os :
  PyDict.wf (group_observations os)
  /\ forall fp, PyDict.get fp (group_observations os)
       = match group_of fp os with [] => None | g => Some g end.
Proof.
  induction os as [|o os IH] using rev_ind; [by split; [apply NoDup_nil|]|].
  unfold group_observations in *. rewrite foldl_app. cbn [foldl]. unfold add_to_group at 1 3.
  destruct IH as [Hwf Hget]. split; [by apply PyDict.set_wf|]. intros fp.
  rewrite PyDict.get_set, group_of_snoc. unfold same_group. case_decide as E.
  - subst fp. rewrite bool_decide_true by done. rewrite Hget. by destruct (group_of _ os).
  - rewrite bool_decide_false by done. rewrite app_nil_r. apply Hget.
Qed.

(** An object of class [Observation]: its constructor accepted it. *)
Definition constructed (o : Observation) : Prop := Contracts.check_observation o = Ret o.

Lemma constructed_texts o : constructed o -> obs_title o <> "" /\ asset_identity o <> "".
Proof.
  unfold constructed, Contracts.check_observation. intros H. inv_ret.
  repeat match goal with H : require_text _ _ = Ret _ |- _ => apply require_text_Ret in H end. done.
Qed.

Lemma merge_ok os fp g :
  Forall constructed os ->
  (fp, g) ∈ group_observations os ->
  exists f, merge (fp, g) = Ret f /\ fingerprint f = fp /\ g = group_of fp os /\ g <> []
    /\ fd_observation_ids f = external_id <$> g
    /\ fd_status f = FindingStatus.CANDIDATE /\ oracle_verdict f = VerificationStatus.PENDING
    /\ (exists o, o ∈ g /\ obs_severity o = fd_severity f)
    /\ Forall (fun o => severity_rank (obs_severity o) <= severity_rank (fd_severity f))%nat g
    /\ (exists o, o ∈ g /\ asset_identity o = fd_asset f /\ obs_title o = fd_title f)
    /\ fd_cwe f = merged obs_cwe g /\ fd_cve f = merged obs_cve g /\ fd_owasp f = merged obs_owasp g.
Proof.
  intros Hok Hin. destruct (groups_spec os) as [Hwf Hget].
  apply PyDict.get_In in Hin; [|done]. rewrite Hget in Hin.
  destruct (group_of fp os) as [|o g'] eqn:Eg; [done|]. injection Hin as <-.
  assert (Ho : o ∈ os /\ observation_fingerprint o = fp) by (apply elem_of_group_of; rewrite Eg; left).
  destruct Ho as [Ho <-]. rewrite Forall_forall in Hok. destruct (constructed_texts o (Hok o Ho)) as [Ht Ha].
  eexists. split; [|split_and!; try reflexivity; try done].
  - unfold merge. cbn [head mbind outcome_bind unwrap max_severity].
    unfold check_finding, require_text. cbn [fd_id fingerprint fd_title fd_asset].
    apply PyStr.truthy_true in Ht, Ha. rewrite Ht, Ha. reflexivity.
  - reflexivity.
  - reflexivity.
  - reflexivity.
  - reflexivity.
  - cbn [fd_severity]. eexists. split; [|reflexivity]. apply max_by_spec.
  - apply (max_by_spec (fun o => severity_rank (obs_severity o))).
  - cbn [fd_asset fd_title]. exists o. split; [left|done].
  - reflexivity.
  - reflexivity.
  - reflexivity.
Qed.

(** What the report says of one group of observations. *)
Record reports (os : list Observation) (f : Finding) : Prop := {
  reports_ids : fd_observation_ids f = external_id <$> group_of (fingerprint f) os;
  reports_candidate : fd_status f = FindingStatus.CANDIDATE /\ oracle_verdict f = VerificationStatus.PENDING;
  reports_severity :
    (exists o, o ∈ group_of (fingerprint f) os /\ obs_severity o = fd_severity f)
    /\ Forall (fun o => severity_rank (obs_severity o) <= severity_rank (fd_severity f))%nat
         (group_of (fingerprint f) os);
  reports_asset :
    exists o, o ∈ group_of (fingerprint f) os /\ asset_identity o = fd_asset f /\ obs_title o = fd_title f;
  reports_cwe : fd_cwe f = merged obs_cwe (group_of (fingerprint f) os);
  reports_cve : fd_cve f = merged obs_cve (group_of (fingerprint f) os);
  reports_owasp : fd_owasp f = merged obs_owasp (group_of (fingerprint f) os)
}.

Lemma correlate_Forall2 os :
  Forall constructed os ->
  exists fs, correlate os = Ret fs
    /\ Forall2 (fun kv f => kv.1 = fingerprint f /\ reports os f) (group_observations os) fs.
Proof.
  intros Hok.
  assert (H : Forall (fun kv => exists f, merge kv = Ret f /\ kv.1 = fingerprint f /\ reports os f)
                (group_observations os)).
  { apply Forall_forall. intros [fp g] Hin.
    destruct (merge_ok os fp g Hok Hin) as (f & Hm & Hfp & Hg & _ & Hids & Hst & Hv & Hs1 & Hs2 & Ha & H1 & H2 & H3).
    exists f. split; [done|]. split; [done|]. rewrite <- Hfp in Hg. subst g. by split. }
  unfold correlate. induction H as [|kv l (f & Hm & Hr) _ (fs & Hfs & HF)]; [by exists []|].
  exists (f :: fs). split; [|by constructor]. cbn [mapM_outcome]. by rewrite Hm; cbn; rewrite Hfs.
Qed.

Lemma fingerprint_eq o1 o2 :
  asset_identity o1 = asset_identity o2 -> obs_cwe o1 ≡ₚ obs_cwe o2 -> obs_cve o1 ≡ₚ obs_cve o2 ->
  observation_fingerprint o1 = observation_fingerprint o2.
Proof.
  intros Ha Hw Hv. unfold observation_fingerprint, fingerprint_payload.
  by rewrite Ha, (PyStr.sorted_unique _ _ Hw), (PyStr.sorted_unique _ _ Hv).
Qed.

Lemma fingerprint_inj o1 o2 :
  observation_fingerprint o1 = observation_fingerprint o2 ->
  (asset_identity o1 = asset_identity o2 /\ obs_cwe o1 ≡ₚ obs_cwe o2 /\ obs_cve o1 ≡ₚ obs_cve o2)
  \/ Sha256.collision (Canonical.canonical_json (fingerprint_payload o1))
                      (Canonical.canonical_json (fingerprint_payload o2)).
Proof.
  intros [H|Hc]%Canonical.canonical_digest_inj; [left|by right].
  apply Canonical.normalize_fields in H; [|done|by vm_compute].
  cbn -[Canonical.normalize Canonical.jstrs] in H. injection H as H1 H2 H3.
  apply (f_equal JArr) in H2, H3. apply Canonical.normalize_jstrs_inj in H2, H3.
  split; [done|]. split; rewrite <- PyStr.sorted_Permutation;
    [rewrite H2|rewrite H3]; apply PyStr.sorted_Permutation.
Qed.

(** correlation. From observations the constructor accepted,
    [correlate] always returns: one finding per fingerprint, in which every
    observation is counted exactly once and in order, with the largest
    severity of its group, the sorted union of its attributions and an
    unconfirmed status. Two observations share a finding when they agree on
    the asset and, up to order, on the CWE and CVE lists, whatever tool and
    rule reported them, and only then, unless SHA-256 collides. *)
Theorem correlate_partitions os :
  Forall constructed os ->
  exists fs, correlate os = Ret fs
  /\ NoDup (fingerprint <$> fs)
  /\ Forall (reports os) fs
  /\ (forall o, o ∈ os -> exists f, f ∈ fs /\ fingerprint f = observation_fingerprint o)
  /\ (forall o1 o2, asset_identity o1 = asset_identity o2 -> obs_cwe o1 ≡ₚ obs_cwe o2 ->
        obs_cve o1 ≡ₚ obs_cve o2 -> observation_fingerprint o1 = observation_fingerprint o2)
  /\ (forall o1 o2, observation_fingerprint o1 = observation_fingerprint o2 ->
        (asset_identity o1 = asset_identity o2 /\ obs_cwe o1 ≡ₚ obs_cwe o2 /\ obs_cve o1 ≡ₚ obs_cve o2)
        \/ Sha256.collision (Canonical.canonical_json (fingerprint_payload o1))
                            (Canonical.canonical_json (fingerprint_payload o2))).
Proof.
  intros Hok. destruct (groups_spec os) as [Hwf Hget].
  destruct (correlate_Forall2 os Hok) as (fs & Hfs & HF).
  exists fs. split; [done|]. split; [|split; [|split; [|split]]].
  - replace (fingerprint <$> fs) with (PyDict.keys (group_observations os)); [exact Hwf|].
    unfold PyDict.keys. clear -HF. induction HF as [|kv f l fs [Hk _] _ IH]; [done|].
    rewrite !fmap_cons. by f_equal.
  - clear -HF. induction HF as [|kv f l fs [_ Hr] _ IH]; by constructor.
  - intros o Ho.
    assert (Hin : (observation_fingerprint o, group_of (observation_fingerprint o) os)
                  ∈ group_observations os).
    { apply PyDict.get_In; [done|]. rewrite Hget.
      assert (Hg : o ∈ group_of (observation_fingerprint o) os) by by apply elem_of_group_of.
      destruct (group_of _ os); [by apply elem_of_nil in Hg|done]. }
    apply list_elem_of_lookup in Hin as [i Hi].
    destruct (Forall2_lookup_l _ _ _ _ _ HF Hi) as (f & Hf & [Hk _]).
    exists f. split; [by eapply list_elem_of_lookup_2|]. by symmetry.
  - exact fingerprint_eq.
  - exact fingerprint_inj.
Qed.

Definition demo_observation (i tool : string) (sev : Severity) (cwe : list string) : Observation :=
  mkObservation i "https://shop.example/login" (mkAdapterSource tool "1" "") "r1" "1" CoverageDomain.WEB
    "SQL injection" sev (flt "0.9") cwe [] [] [] [].
Definition demo_observations : list Observation :=
  [demo_observation "o1" "zap" Severity.LOW ["CWE-89"; "CWE-20"];
   demo_observation "o2" "sqlmap" Severity.HIGH ["CWE-20"; "CWE-89"];
   demo_observation "o3" "zap" Severity.INFO ["CWE-79"]].

Lemma correlate_partitions_witness :
  exists fs, correlate demo_observations = Ret fs /\ NoDup (fingerprint <$> fs)
    /\ fd_observation_ids <$> fs = [["o1"; "o2"]; ["o3"]].
Proof.
  destruct (correlate_partitions demo_observations) as (fs & H & Hnd & _); [by repeat constructor|].
  exists fs. split; [exact H|]. split; [exact Hnd|].
  assert (E : (fun r => match r with Ret l => fd_observation_ids <$> l | Raise _ => [] end)
                (correlate demo_observations) = [["o1"; "o2"]; ["o3"]]) by (vm_compute; reflexivity).
  rewrite H in E. exact E.
Defined.

End FindingCorrelation.

(** ** Attack chains: [application/chain_engine.py] *)
Module ChainEngine.
Import Findings.

Section engine.
Context (uuid : nat -> string).

(** [uuid.uuid4().hex]: the state counts the draws. *)
Definition uuid4_hex : M nat string := fun n => (Ret (uuid n), S n).

Definition validated (findings : list Finding) : list Finding :=
  List.filter (fun f => bool_decide (fd_status f = FindingStatus.VALIDATED)) findings.

Definition by_id (findings : list Finding) : gmap string Finding :=
  foldl (fun m f => <[fd_id f := f]> m) ∅ findings.

Definition finding_matches (s : ChainLinkSpec) (f : Finding) : bool := spec_matches s (fd_cwe f, fd_asset f).

(** [str] of a tuple of strings. *)
Definition tuple_repr (l : list string) : string :=
  match l with
  | [x] => "(" +:+ PyStr.repr x +:+ ",)"
  | _ => "(" +:+ PyStr.join ", " (PyStr.repr <$> l) +:+ ")"
  end.

Definition confirmed_link (finding_id : string) : M nat ChainLink :=
  lift (check_link (mkLink finding_id "" "")).

Definition pending_link (note : string) : M nat ChainLink :=
  k ← uuid4_hex; lift (check_link (mkLink "" ("pv-" +:+ PyStr.take 10 k) note)).

(** The loop of [_match_template]: the links, and [matched_any]. *)
Fixpoint bind_links (specs : list ChainLinkSpec) (findings : list Finding) (position : nat)
  : M nat (list ChainLink * bool) :=
  match specs with
  | [] => mret ([], false)
  | s :: r =>
      match scan (finding_matches s) findings position with
      | Some (i, bound) =>
          l ← confirmed_link (fd_id bound);
          rest ← bind_links r findings (S i);
          mret (l :: rest.1, true)
      | None =>
          l ← pending_link ("requires CWE any of " +:+ tuple_repr (cwe_any s));
          rest ← bind_links r findings position;
          mret (l :: rest.1, rest.2)
      end
  end.

Definition chain_status (links : list ChainLink) : ChainStatus :=
  if forallb is_confirmed links then ChainStatus.CONFIRMED
  else if match links with l :: _ => is_confirmed l | [] => false end
       then ChainStatus.PARTIALLY_VERIFIED else ChainStatus.HYPOTHESIS.

Definition confirmed_severities (links : list ChainLink) (findings : list Finding) : list Severity :=
  omap (fun l => if is_confirmed l then fd_severity <$> by_id findings !! confirmed_finding_id l else None)
    links.

Definition match_template (t : AttackChainTemplate) (findings : list Finding)
  : M nat (option AttackChain) :=
  r ← bind_links (tpl_links t) findings 0;
  let links := r.1 in
  if negb (r.2) then mret None
  else
    k ← uuid4_hex;
    c ← lift (check_chain
                (mkChainRecord ("chain-" +:+ tpl_id t +:+ "-" +:+ PyStr.take 8 k) (tpl_id t) "template"
                   links (chain_status links)
                   (composite_severity (confirmed_severities links findings) false)));
    mret (Some c).

Definition hypothesize_from_findings (templates : list AttackChainTemplate) (findings : list Finding)
  : M nat (list AttackChain) :=
  cs ← mapM_state (fun t => match_template t (validated findings)) templates;
  mret (omap id cs).

Definition proposed_link (validated_by_id : gmap string Finding) (p : ChainProposal) (finding_id : string)
  : M nat ChainLink :=
  if bool_decide (is_Some (validated_by_id !! finding_id)) then confirmed_link finding_id
  else pending_link ("proposed by " +:+ proposer p).

(** [validated_by_id[link.confirmed_finding_id].severity] for the confirmed links. *)
Definition link_severities (validated_by_id : gmap string Finding) (links : list ChainLink)
  : outcome (list Severity) :=
  mapM_outcome (fun l => f ← unwrap (validated_by_id !! confirmed_finding_id l)
                               (KeyError (PyStr.repr (confirmed_finding_id l)));
                         Ret (fd_severity f))
    (List.filter is_confirmed links).

Definition chain_of_proposal (validated_by_id : gmap string Finding) (p : ChainProposal)
  : M nat (option AttackChain) :=
  links ← mapM_state (proposed_link validated_by_id p) (finding_ids p);
  if (length links <? 2)%nat then mret None
  else
    sevs ← lift (link_severities validated_by_id links);
    k ← uuid4_hex;
    c ← lift (check_chain
                (mkChainRecord ("chain-" +:+ PyStr.take 12 k) (template_hint p)
                   (if PyStr.startswith (proposer p) "peer:" then "peer_claim" else "llm_proposal")
                   links (chain_status links) (composite_severity sevs false)));
    mret (Some c).

Definition hypothesize_from_proposals (proposals : list ChainProposal) (findings : list Finding)
  : M nat (list AttackChain) :=
  cs ← mapM_state (chain_of_proposal (by_id (validated findings))) proposals;
  mret (omap id cs).

End engine.

(** [zip(chain.links, template.links, strict=True)] *)
Fixpoint zip_strict {A B} (l : list A) (m : list B) : outcome (list (A * B)) :=
  match l, m with
  | [], [] => Ret []
  | x :: xs, y :: ys => r ← zip_strict xs ys; Ret ((x, y) :: r)
  | [], _ => Raise (ValueError "zip() argument 2 is longer than argument 1")
  | _, [] => Raise (ValueError "zip() argument 2 is shorter than argument 1")
  end.

Definition open_tasks (c : AttackChain) (pairs : list (ChainLink * ChainLinkSpec))
  : list PendingVerificationTask :=
  omap (fun p => if is_confirmed p.1 then None
                 else Some (mkTask (pending_verification_key p.1) (ch_id c)
                              (cwe_any p.2) (asset_pattern p.2))) pairs.

Definition tasks_for (templates : list AttackChainTemplate) (c : AttackChain)
  : outcome (list PendingVerificationTask) :=
  match List.find (fun t => bool_decide (tpl_id t = template_id c)) templates with
  | None => Ret []
  | Some t =>
      pairs ← zip_strict (ch_links c) (tpl_links t);
      Ret (open_tasks c pairs)
  end.

Definition pending_verification_tasks (templates : list AttackChainTemplate) (chains : list AttackChain)
  : outcome (list PendingVerificationTask) :=
  ts ← mapM_outcome (tasks_for templates) chains; Ret (concat ts).

(** ** What a chain may claim *)

(** [f] is a validated finding of [fs] the link names. *)
Definition backs (fs : list Finding) (l : ChainLink) (f : Finding) : Prop :=
  f ∈ fs /\ fd_status f = FindingStatus.VALIDATED /\ fd_id f = confirmed_finding_id l.

Record grounded (fs : list Finding) (c : AttackChain) : Prop := {
  grounded_size : (2 <= length (ch_links c))%nat;
  grounded_links : forall l, l ∈ ch_links c -> is_confirmed l = true -> exists f, backs fs l f;
  grounded_open : forall l, l ∈ ch_links c -> is_confirmed l = false -> pending_verification_key l <> "";
  grounded_confirmed : ch_status c = ChainStatus.CONFIRMED <-> all_links_confirmed c = true;
  grounded_status : ch_status c = chain_status (ch_links c);
  grounded_severity :
    forall l, l ∈ ch_links c -> is_confirmed l = true ->
    exists f, backs fs l f /\ (severity_rank (fd_severity f) <= severity_rank (ch_severity c))%nat
}.

Lemma elem_of_validated f fs : f ∈ validated fs <-> f ∈ fs /\ fd_status f = FindingStatus.VALIDATED.
Proof. unfold validated. rewrite !list_elem_of_In, filter_In, bool_decide_eq_true. done. Qed.

Lemma by_id_Some fs k f : by_id fs !! k = Some f -> f ∈ fs /\ fd_id f = k.
Proof.
  revert k f. induction fs as [|g fs IH] using rev_ind; intros k f;
    [unfold by_id; cbn [foldl]; by rewrite lookup_empty|].
  unfold by_id in *. rewrite foldl_app. cbn [foldl]. intros [[<- <-]|[Hne H]]%lookup_insert_Some.
  - split; [|done]. apply elem_of_app. right. left.
  - destruct (IH k f H). split; [|done]. apply elem_of_app. by left.
Qed.

Lemma by_id_is_Some fs f : f ∈ fs -> is_Some (by_id fs !! fd_id f).
Proof.
  induction fs as [|g fs IH] using rev_ind; [by intros ?%elem_of_nil|].
  unfold by_id in *. rewrite foldl_app. cbn [foldl]. intros [H|H%list_elem_of_singleton]%elem_of_app.
  - apply lookup_insert_is_Some'. auto.
  - subst. apply lookup_insert_is_Some'. by left.
Qed.

Lemma composite_upper ss s : s ∈ ss -> (severity_rank s <= severity_rank (composite_severity ss false))%nat.
Proof.
  destruct ss as [|x ss]; [by intros ?%elem_of_nil|]. intros Hs. cbn [composite_severity].
  destruct (max_by_spec severity_rank x ss) as [_ H]. rewrite Forall_forall in H. by apply H.
Qed.

Lemma chain_status_confirmed ls : chain_status ls = ChainStatus.CONFIRMED <-> forallb is_confirmed ls = true.
Proof.
  unfold chain_status. destruct (forallb is_confirmed ls); [done|]. by destruct ls as [|[[] ? ?] ?].
Qed.

Lemma scan_findings s fs p :
  scan (spec_matches s) ((fun f => (fd_cwe f, fd_asset f)) <$> fs) p
  = prod_map id (fun f => (fd_cwe f, fd_asset f)) <$> scan (finding_matches s) fs p.
Proof.
  unfold scan. rewrite <- fmap_drop, list_find_fmap, <- !option_fmap_compose.
  apply option_fmap_ext. by intros [i f].
Qed.

Lemma confirmed_link_Ret i n : i <> "" -> confirmed_link i n = (Ret (mkLink i "" ""), n).
Proof. intros H%PyStr.truthy_true. unfold confirmed_link, check_link. cbn. by rewrite H. Qed.

Section engine_facts.
Context (uuid : nat -> string).

Lemma pending_link_Ret note n :
  pending_link uuid note n = (Ret (mkLink "" ("pv-" +:+ PyStr.take 10 (uuid n)) note), S n).
Proof. reflexivity. Qed.

(** Links of which the confirmed ones name a finding of [fs]. *)
Definition sound_links (fs : list Finding) (ls : list ChainLink) : Prop :=
  Forall (fun l => if is_confirmed l then exists f, f ∈ fs /\ fd_id f = confirmed_finding_id l
                   else pending_verification_key l <> "") ls.

Lemma bind_links_spec specs fs p n :
  Forall (fun f => fd_id f <> "") fs ->
  exists ls b n', bind_links uuid specs fs p n = (Ret (ls, b), n')
    /\ length ls = length specs /\ sound_links fs ls /\ b = existsb is_confirmed ls
    /\ forallb is_confirmed ls = match_links specs ((fun f => (fd_cwe f, fd_asset f)) <$> fs) p.
Proof.
  intros Hids. revert p n; induction specs as [|s r IH]; intros p n.
  { exists [], false, n. by repeat split; [constructor|..]. }
  cbn [bind_links match_links]. rewrite scan_findings.
  destruct (scan (finding_matches s) fs p) as [[i f]|] eqn:E; unfold mbind at 1, M_bind.
  - apply scan_Some in E as (_ & Hf%list_elem_of_lookup_2 & _ & _).
    rewrite Forall_forall in Hids. pose proof (Hids f Hf) as Hid.
    rewrite confirmed_link_Ret by done.
    destruct (IH (S i) n) as (ls & b & n' & Hb & Hl & Hs & -> & Hm).
    exists (mkLink (fd_id f) "" "" :: ls), true, n'. unfold mbind, M_bind. rewrite Hb.
    apply PyStr.truthy_true in Hid.
    split; [done|]. split; [by cbn; f_equal|]. unfold sound_links, is_confirmed in *.
    split; [constructor; [cbn; rewrite Hid; by exists f|done]|].
    cbn [existsb forallb confirmed_finding_id option_map prod_map fst id fmap option_fmap].
    rewrite Hid. split; [done|]. cbn. exact Hm.
  - rewrite pending_link_Ret.
    destruct (IH p (S n)) as (ls & b & n' & Hb & Hl & Hs & -> & Hm).
    eexists (_ :: ls), _, n'. unfold mbind, M_bind. rewrite Hb.
    split; [reflexivity|]. split; [by cbn; f_equal|]. split; [by constructor|]. done.
Qed.


Lemma grounded_intro fs id tid src ls sevs :
  (2 <= length ls)%nat -> sound_links (validated fs) ls ->
  (forall l, l ∈ ls -> is_confirmed l = true ->
     exists f, backs fs l f /\ fd_severity f ∈ sevs) ->
  grounded fs (mkChainRecord id tid src ls (chain_status ls) (composite_severity sevs false)).
Proof.
  intros Hl Hs Hsev. unfold sound_links in Hs. rewrite Forall_forall in Hs.
  split; cbn [ch_links ch_status ch_severity]; [done| | |apply chain_status_confirmed|done|].
  - intros l Hin Hc. specialize (Hs l Hin). rewrite Hc in Hs.
    destruct Hs as (f & [Hf Hst]%elem_of_validated & Hid). by exists f.
  - intros l Hin Hc. specialize (Hs l Hin). by rewrite Hc in Hs.
  - intros l Hin Hc. destruct (Hsev l Hin Hc) as (f & Hb & Hf). exists f. split; [done|].
    by apply composite_upper.
Qed.

(** The severity a validated finding lends to a confirmed link. *)
Lemma by_id_backs fs l :
  (exists f, f ∈ validated fs /\ fd_id f = confirmed_finding_id l) ->
  exists f, by_id (validated fs) !! confirmed_finding_id l = Some f /\ backs fs l f.
Proof.
  intros (f & Hf & Hid). destruct (by_id_is_Some _ _ Hf) as [g Hg]. rewrite Hid in Hg.
  exists g. split; [done|].
  by apply by_id_Some in Hg as ([Hg Hst]%elem_of_validated & Hg').
Qed.

Lemma validated_ids fs :
  Forall (fun f => fd_id f <> "") fs -> Forall (fun f => fd_id f <> "") (validated fs).
Proof.
  rewrite !Forall_forall. intros H f [Hf _]%elem_of_validated. by apply H.
Qed.

Definition projections (fs : list Finding) : list (list string * string) :=
  (fun f => (fd_cwe f, fd_asset f)) <$> validated fs.

Lemma match_template_spec t fs n :
  Forall (fun f => fd_id f <> "") fs -> (2 <= length (tpl_links t))%nat ->
  exists o n', match_template uuid t (validated fs) n = (Ret o, n')
    /\ (forall c, o = Some c ->
         grounded fs c /\ template_id c = tpl_id t /\ length (ch_links c) = length (tpl_links t))
    /\ (Findings.match_template t (projections fs) = true
        <-> exists c, o = Some c /\ ch_status c = ChainStatus.CONFIRMED).
Proof.
  intros Hids Hlen. unfold match_template, mbind at 1, M_bind.
  destruct (bind_links_spec (tpl_links t) (validated fs) 0 n (validated_ids fs Hids))
    as (ls & b & n' & -> & Hl & Hs & -> & Hm).
  cbn [fst snd]. unfold Findings.match_template, projections. rewrite <- Hm.
  destruct (existsb is_confirmed ls) eqn:Eb; cbn [negb].
  - unfold mbind, M_bind, uuid4_hex, lift, check_chain. cbn [ch_id ch_links].
    replace (length ls <? 2)%nat with false by (symmetry; apply Nat.ltb_ge; lia).
    eexists (Some _), (S n'). split; [reflexivity|]. split.
    + intros c [= <-]. split; [|done]. apply grounded_intro; [lia|done|].
      intros l Hin Hc. unfold sound_links in Hs. rewrite Forall_forall in Hs.
      pose proof (Hs l Hin) as Hf. rewrite Hc in Hf.
      destruct (by_id_backs fs l Hf) as (f & Hg & Hb). exists f. split; [done|].
      apply list_elem_of_omap. exists l. rewrite Hc, Hg. done.
    + rewrite <- chain_status_confirmed. split; [intros H; by eexists|]. by intros (c & [= <-] & Hc).
  - exists None, n'. split; [done|]. split; [done|]. split; [|by intros (c & [=] & _)].
    destruct ls as [|l ls]; [cbn in Hl; lia|]. cbn in Eb |- *. by destruct (is_confirmed l).
Qed.

Lemma proposed_link_total m p fid n :
  (forall f, m !! fid = Some f -> fid <> "") ->
  exists l n', proposed_link uuid m p fid n = (Ret l, n')
    /\ (if is_confirmed l then is_Some (m !! confirmed_finding_id l) else pending_verification_key l <> "").
Proof.
  intros Hid. unfold proposed_link. case_bool_decide as E.
  - destruct E as [f Hf]. pose proof (Hid f Hf) as Hne. rewrite confirmed_link_Ret by done.
    eexists _, _. split; [reflexivity|]. apply PyStr.truthy_true in Hne.
    unfold is_confirmed. cbn. rewrite Hne. by exists f.
  - rewrite pending_link_Ret. eexists _, _. by split.
Qed.

Lemma link_severities_total m ls :
  Forall (fun l => is_confirmed l = true -> is_Some (m !! confirmed_finding_id l)) ls ->
  exists sevs, link_severities m ls = Ret sevs
    /\ forall l f, l ∈ ls -> is_confirmed l = true -> m !! confirmed_finding_id l = Some f ->
       fd_severity f ∈ sevs.
Proof.
  unfold link_severities. induction 1 as [|l ls Hl _ (sevs & IH & Hin)].
  { exists []. split; [done|]. by intros ? ? ?%elem_of_nil. }
  cbn [List.filter]. destruct (is_confirmed l) eqn:Ec.
  - destruct (Hl eq_refl) as [f Hf]. exists (fd_severity f :: sevs). cbn [mapM_outcome].
    rewrite Hf, IH. split; [done|]. intros l' f' [->|H]%elem_of_cons Hc Hf'.
    + rewrite Hf in Hf'. injection Hf' as <-. left.
    + right. by apply (Hin l').
  - exists sevs. split; [done|]. intros l' f' [->|H]%elem_of_cons Hc Hf'; [congruence|]. by apply (Hin l').
Qed.

Lemma chain_of_proposal_spec fs p n :
  Forall (fun f => fd_id f <> "") fs ->
  exists o n', chain_of_proposal uuid (by_id (validated fs)) p n = (Ret o, n')
    /\ forall c, o = Some c -> grounded fs c.
Proof.
  intros Hids%validated_ids. unfold chain_of_proposal, mbind at 1, M_bind.
  set (m := by_id (validated fs)).
  destruct (mapM_state_total (proposed_link uuid m p)
    (fun _ l => if is_confirmed l then is_Some (m !! confirmed_finding_id l)
                else pending_verification_key l <> "") (finding_ids p)) with (s := n)
    as (ls & n' & -> & HF).
  { intros fid s _. apply proposed_link_total. intros f (Hf & Hid)%by_id_Some ->.
    rewrite Forall_forall in Hids. by apply (Hids f Hf). }
  apply Forall2_Forall_r with (Q := fun l => if is_confirmed l then is_Some (m !! confirmed_finding_id l)
                else pending_verification_key l <> "") in HF; [|by apply Forall_true].
  destruct (Nat.ltb_spec (length ls) 2) as [E|E]; [by exists None, n'|].
  destruct (link_severities_total m ls) as (sevs & Hsev & Hin).
  { eapply Forall_impl; [exact HF|]. intros l Hl Hc. cbn in Hl. by rewrite Hc in Hl. }
  unfold mbind, M_bind, lift, uuid4_hex. rewrite Hsev. unfold check_chain. cbn [ch_id ch_links].
  replace (length ls <? 2)%nat with false by (symmetry; apply Nat.ltb_ge; lia).
  eexists (Some _), _. split; [reflexivity|]. intros c [= <-].
  assert (Hback : forall l, l ∈ ls -> is_confirmed l = true ->
            exists f, m !! confirmed_finding_id l = Some f /\ f ∈ validated fs /\ fd_id f = confirmed_finding_id l).
  { intros l Hl Hc. rewrite Forall_forall in HF. specialize (HF l Hl). rewrite Hc in HF.
    destruct HF as [f Hf]. exists f. by split; [|apply by_id_Some]. }
  apply grounded_intro; [lia| |].
  - apply Forall_forall. intros l Hl. rewrite Forall_forall in HF. pose proof (HF l Hl) as Hcase.
    destruct (is_confirmed l) eqn:Ec; [|done]. destruct (Hback l Hl Ec) as (f & _ & Hf). by exists f.
  - intros l Hl Hc. destruct (Hback l Hl Hc) as (f & Hf & [Hv Hst]%elem_of_validated & Hid).
    exists f. split; [done|]. by apply (Hin l).
Qed.

Definition pending_keys (c : AttackChain) : list string :=
  pending_verification_key <$> List.filter (fun l => negb (is_confirmed l)) (ch_links c).

Lemma zip_strict_spec {A B} (l : list A) (m : list B) :
  match zip_strict l m with
  | Ret r => length l = length m /\ r = zip l m
  | Raise e => length l <> length m /\ is_value_error e = true
  end.
Proof.
  revert m; induction l as [|x l IH]; intros [|y m]; cbn [zip_strict]; [done..|].
  specialize (IH m). destruct (zip_strict l m) as [r|e]; cbn.
  - destruct IH as [-> ->]. done.
  - destruct IH as [Hne He]. split; [by intros [=]|done].
Qed.

Lemma open_tasks_keys c specs :
  length (ch_links c) = length specs ->
  task_key <$> open_tasks c (zip (ch_links c) specs) = pending_keys c.
Proof.
  unfold pending_keys, open_tasks. generalize (ch_links c). intros ls. revert specs.
  induction ls as [|l ls IH]; intros [|s specs] Hlen; cbn; try done.
  destruct (is_confirmed l); cbn; [apply IH; by injection Hlen|].
  f_equal. apply IH. by injection Hlen.
Qed.

Lemma find_unique ts t :
  NoDup (tpl_id <$> ts) -> t ∈ ts -> List.find (fun u => bool_decide (tpl_id u = tpl_id t)) ts = Some t.
Proof.
  induction ts as [|u ts IH]; intros Hnd Hin; [by apply elem_of_nil in Hin|].
  apply NoDup_cons in Hnd as [Hni Hnd]. cbn. case_bool_decide as E.
  - apply elem_of_cons in Hin as [->|Hin]; [done|]. exfalso. apply Hni. rewrite E.
    by apply list_elem_of_fmap_2.
  - apply elem_of_cons in Hin as [->|Hin]; [done|]. by apply IH.
Qed.

Lemma tasks_for_spec ts t c :
  NoDup (tpl_id <$> ts) -> t ∈ ts -> template_id c = tpl_id t ->
  if decide (length (ch_links c) = length (tpl_links t))
  then exists tasks, tasks_for ts c = Ret tasks /\ task_key <$> tasks = pending_keys c
  else exists e, tasks_for ts c = Raise e /\ is_value_error e = true.
Proof.
  intros Hnd Hin Hid. unfold tasks_for. rewrite Hid, find_unique by done.
  pose proof (zip_strict_spec (ch_links c) (tpl_links t)) as Hz.
  destruct (zip_strict _ _) as [r|e]; cbn.
  - destruct Hz as [Hl ->]. case_decide; [|done]. eexists. split; [done|]. by apply open_tasks_keys.
  - destruct Hz as [Hl He]. case_decide; [done|]. by eexists.
Qed.

(** The template and outcome behind every chain of [hypothesize_from_findings]. *)
Definition from_template (fs : list Finding) (t : AttackChainTemplate) (o : option AttackChain) : Prop :=
  (forall c, o = Some c ->
     grounded fs c /\ template_id c = tpl_id t /\ length (ch_links c) = length (tpl_links t))
  /\ (Findings.match_template t (projections fs) = true
      <-> exists c, o = Some c /\ ch_status c = ChainStatus.CONFIRMED).

Lemma hypothesize_Ret ts fs n :
  Forall (fun f => fd_id f <> "") fs -> Forall (fun t => (2 <= length (tpl_links t))%nat) ts ->
  exists os n', hypothesize_from_findings uuid ts fs n = (Ret (omap id os), n')
    /\ Forall2 (from_template fs) ts os.
Proof.
  intros Hids Hts. unfold hypothesize_from_findings, mbind at 1, M_bind.
  destruct (mapM_state_total (fun t => match_template uuid t (validated fs)) (from_template fs) ts)
    with (s := n) as (os & n' & -> & HF); [|by exists os, n'].
  intros t s Ht. rewrite Forall_forall in Hts. by apply match_template_spec, Hts.
Qed.

Lemma in_omap_id (os : list (option AttackChain)) c : c ∈ omap id os <-> Some c ∈ os.
Proof. rewrite list_elem_of_omap. split; [by intros (o & Ho & Hid); cbn in Hid; subst o|by exists (Some c)]. Qed.

Lemma from_template_in fs ts os c :
  Forall2 (from_template fs) ts os -> c ∈ omap id os ->
  exists t, t ∈ ts /\ from_template fs t (Some c).
Proof.
  intros HF (i & Hi)%in_omap_id%list_elem_of_lookup.
  destruct (Forall2_lookup_r _ _ _ _ _ HF Hi) as (t & Ht & HP). exists t. split; [|done].
  by eapply list_elem_of_lookup_2.
Qed.

(** only the oracle confirms a chain. For any findings and any
    proposals, a chain is built without an error and a link is confirmed only
    by the id of a validated finding; every other link waits for a
    verification; the chain is CONFIRMED exactly when all its links are, and
    its severity is at least that of a validated finding behind every
    confirmed link. An LLM or a peer can name findings, never confirm one. *)
Theorem chains_claim_only_validated_findings ts ps fs n :
  Forall (fun f => fd_id f <> "") fs -> Forall (fun t => (2 <= length (tpl_links t))%nat) ts ->
  (exists cs n', hypothesize_from_findings uuid ts fs n = (Ret cs, n') /\ Forall (grounded fs) cs)
  /\ (exists cs n', hypothesize_from_proposals uuid ps fs n = (Ret cs, n') /\ Forall (grounded fs) cs).
Proof.
  intros Hids Hts. split.
  - destruct (hypothesize_Ret ts fs n Hids Hts) as (os & n' & -> & HF).
    eexists _, _. split; [reflexivity|]. apply Forall_forall. intros c Hc.
    destruct (from_template_in _ _ _ _ HF Hc) as (t & _ & Ht & _). by apply Ht.
  - unfold hypothesize_from_proposals, mbind at 1, M_bind.
    destruct (mapM_state_total (chain_of_proposal uuid (by_id (validated fs)))
      (fun _ o => forall c, o = Some c -> grounded fs c) ps) with (s := n) as (os & n' & -> & HF).
    { intros p s _. by apply chain_of_proposal_spec. }
    eexists _, _. split; [reflexivity|]. apply Forall_forall. intros c Hc.
    apply in_omap_id, list_elem_of_lookup in Hc as [i Hi].
    destruct (Forall2_lookup_r _ _ _ _ _ HF Hi) as (p & _ & HP). by apply HP.
Qed.

(** template chains are complete. A template yields a CONFIRMED chain
    exactly when [match_template] accepts the validated findings, that is
    when they hold one finding per link in order; and the open links of the
    chains are, in order, the verification tasks the engine asks for. *)
Theorem confirmed_chain_iff_template_matches ts fs n :
  Forall (fun f => fd_id f <> "") fs -> Forall (fun t => (2 <= length (tpl_links t))%nat) ts ->
  NoDup (tpl_id <$> ts) ->
  exists cs n', hypothesize_from_findings uuid ts fs n = (Ret cs, n')
    /\ (forall t, t ∈ ts ->
         (exists ks, embeds (tpl_links t) (projections fs) 0 ks)
         <-> exists c, c ∈ cs /\ template_id c = tpl_id t /\ ch_status c = ChainStatus.CONFIRMED)
    /\ exists tasks, pending_verification_tasks ts cs = Ret tasks
         /\ task_key <$> tasks = cs ≫= pending_keys.
Proof.
  intros Hids Hts Hnd. destruct (hypothesize_Ret ts fs n Hids Hts) as (os & n' & -> & HF).
  exists (omap id os), n'. split; [done|]. split.
  - intros t Ht. rewrite <- embeds_iff. split.
    + intros Hm. apply list_elem_of_lookup in Ht as [i Hi].
      destruct (Forall2_lookup_l _ _ _ _ _ HF Hi) as (o & Ho & Hc & Hiff).
      apply Hiff in Hm. destruct Hm as (c & Eo & Hst). rewrite Eo in Ho. exists c.
      split; [by apply in_omap_id, list_elem_of_lookup_2 with i|]. split; [|done]. by apply Hc.
    + intros (c & Hc & Hid & Hst). destruct (from_template_in _ _ _ _ HF Hc) as (u & Hu & Hc' & Hiff).
      destruct (Hc' c eq_refl) as (_ & Hid' & _). rewrite Hid in Hid'.
      assert (u = t) as ->.
      { pose proof (find_unique ts t Hnd Ht) as H1. pose proof (find_unique ts u Hnd Hu) as H2.
        rewrite <- Hid' in H2. congruence. }
      apply Hiff. by exists c.
  - assert (H : Forall (fun c => exists tasks, tasks_for ts c = Ret tasks /\ task_key <$> tasks = pending_keys c)
                  (omap id os)).
    { apply Forall_forall. intros c Hc. destruct (from_template_in _ _ _ _ HF Hc) as (t & Ht & Hc' & _).
      destruct (Hc' c eq_refl) as (_ & Hid & Hlen). pose proof (tasks_for_spec ts t c Hnd Ht Hid) as Hs.
      by rewrite decide_True in Hs. }
    unfold pending_verification_tasks. clear -H.
    induction H as [|c cs (tasks & Ht & Hk) _ (rest & IH & Hr)]; [by exists []|].
    cbn [mapM_outcome]. rewrite Ht. cbn [mbind outcome_bind] in IH |- *.
    destruct (mapM_outcome (tasks_for ts) cs) as [tss|]; [|done]. injection IH as <-.
    exists (tasks ++ concat tss). split; [done|]. rewrite fmap_app, bind_cons. by f_equal.
Qed.

(** A proposal may take the id of a template as its hint without having its
    number of links: listing the open links then raises, for every chain of
    the batch. *)
Lemma mismatched_hint_breaks_task_listing ts t c cs cs' :
  NoDup (tpl_id <$> ts) -> t ∈ ts -> template_id c = tpl_id t ->
  length (ch_links c) <> length (tpl_links t) ->
  exists e, pending_verification_tasks ts (cs ++ c :: cs') = Raise e.
Proof.
  intros Hnd Ht Hid Hne. pose proof (tasks_for_spec ts t c Hnd Ht Hid) as Hs.
  rewrite decide_False in Hs by done. destruct Hs as (e & He & _).
  unfold pending_verification_tasks. induction cs as [|d cs (e' & IH)]; cbn [app mapM_outcome].
  - rewrite He. by exists e.
  - destruct (tasks_for ts d) as [x|e1]; cbn in *; [|by exists e1].
    destruct (mapM_outcome (tasks_for ts) (cs ++ c :: cs')); [done|by eexists].
Qed.

End engine_facts.

Definition demo_finding (i : string) (cwe : list string) (st : FindingStatus) : Finding :=
  mkFinding i ("sha256:" +:+ i) "SQL injection" "https://shop.example/login" Severity.HIGH cwe [] [] [] []
    st "a1" VerificationStatus.PENDING.
Definition demo_findings : list Finding :=
  [demo_finding "f1" ["CWE-89"] FindingStatus.VALIDATED; demo_finding "f2" ["CWE-200"] FindingStatus.CANDIDATE;
   demo_finding "f3" ["CWE-312"] FindingStatus.VALIDATED; demo_finding "f4" ["CWE-798"] FindingStatus.VALIDATED].
Definition demo_uuid (n : nat) : string := pretty n.

Lemma chains_claim_only_validated_findings_witness :
  (exists cs n', hypothesize_from_findings demo_uuid default_chain_templates demo_findings 0%nat = (Ret cs, n')
     /\ Forall (grounded demo_findings) cs)
  /\ (exists cs n', hypothesize_from_proposals demo_uuid [mkProposal "peer:strix" "free" ["f1"; "f2"]]
        demo_findings 0%nat = (Ret cs, n') /\ Forall (grounded demo_findings) cs).
Proof.
  apply (chains_claim_only_validated_findings demo_uuid); repeat constructor; cbn; try lia; discriminate.
Defined.

Lemma confirmed_chain_iff_template_matches_witness :
  exists cs n', hypothesize_from_findings demo_uuid default_chain_templates demo_findings 0%nat = (Ret cs, n')
    /\ (forall t, t ∈ default_chain_templates ->
         (exists ks, embeds (tpl_links t) (projections demo_findings) 0 ks)
         <-> exists c, c ∈ cs /\ template_id c = tpl_id t /\ ch_status c = ChainStatus.CONFIRMED)
    /\ exists tasks, pending_verification_tasks default_chain_templates cs = Ret tasks
         /\ task_key <$> tasks = cs ≫= pending_keys.
Proof.
  apply (confirmed_chain_iff_template_matches demo_uuid).
  - repeat constructor; cbn; discriminate.
  - repeat constructor; cbn; lia.
  - apply (bool_decide_unpack _). vm_compute. exact I.
Defined.

(** The demonstration has a chain of every kind. *)
Example demo_chains :
  (fun r => match r with Ret cs => (fun c => (template_id c, ch_status c)) <$> cs | Raise _ => [] end)
    (hypothesize_from_findings demo_uuid default_chain_templates demo_findings 0%nat).1
  = [("ssrf-to-cloud-creds", ChainStatus.HYPOTHESIS); ("sqli-to-credential-theft", ChainStatus.CONFIRMED);
     ("weak-creds-to-admin-takeover", ChainStatus.PARTIALLY_VERIFIED)].
Proof. vm_compute. reflexivity. Qed.

End ChainEngine.
