(* ===== verification/Oracle.v ===== *)
(** * The oracle: canary tokens and N/N verification

    Models [src/secopent/application/canary.py] (Module [Canary]),
    [application/oracle.py] (Module [OracleEngine]) and
    [application/oracle_service.py] (Module [OracleService]).

    [secrets.token_urlsafe] is the [token_urlsafe] parameter, the text of the
    n-th draw; the audit recorder is the [audit_ok] parameter, which decides
    which calls it refuses; the reproduction backend is the [verifier]
    parameter, which may answer anything and may use the canary manager, but
    only through its operations. *)
From S2P Require Import Prelude PyStr PyTime PyFloat Sha256 Canonical AuditTrail Contracts Verification Findings.

#[local] Open Scope Z_scope.

(** The manager's sets, with the number of draws made and the audit calls that
    were accepted. *)
Record CanaryState : Type := mkCanary {
  issued : gset string;
  consumed : gset string;
  draws : nat;
  canary_log : list AuditCall
}.

Module Canary.

Definition CANARY_PLACEHOLDER : string := "{{canary_token}}".
Definition AUDIT_PREFIX_LEN : nat := 8.

Definition audit_id (token : string) : string :=
  "canary:" +:+ PyStr.take AUDIT_PREFIX_LEN token +:+ ":" +:+ PyStr.take 12 (Sha256.hexdigest token).

Definition initial : CanaryState := mkCanary ∅ ∅ 0 [].

Section canary.
Context (token_urlsafe : nat -> string) (audit_ok : AuditCall -> outcome unit).

Definition record (call : AuditCall) : M CanaryState unit :=
  lift (audit_ok call);;
  modify (fun c => mkCanary (issued c) (consumed c) (draws c) (canary_log c ++ [call])).

(** [token = token_urlsafe(16)] until it is not in [self._issued]: the token
    and the number of draws made so far. *)
Fixpoint draw (fuel : nat) (known : gset string) (n : nat) : option (string * nat) :=
  match fuel with
  | O => None
  | S f =>
      if bool_decide (token_urlsafe n ∈ known) then draw f known (S n)
      else Some (token_urlsafe n, S n)
  end.

Definition generate (actor cid : string) : M CanaryState string :=
  c ← get;
  t ← lift (unwrap (draw (S (size (issued c))) (issued c) (draws c)) OutOfFuel);
  modify (fun c => mkCanary ({[t.1]} ∪ issued c) (consumed c) (t.2) (canary_log c));;
  record (mkCall actor "canary.generated" "canary_token" (audit_id (t.1)) [("candidate_id", JStr cid)]);;
  mret (t.1).

Definition require_issued (token : string) (c : CanaryState) : outcome unit :=
  raise_if (negb (bool_decide (token ∈ issued c))) (TokenNotIssuedError "canary token was never issued").

Definition require_not_consumed (token : string) (c : CanaryState) : outcome unit :=
  raise_if (bool_decide (token ∈ consumed c))
    (TokenReuseError "canary token is single-use and already consumed").

Definition embed (template token : string) (c : CanaryState) : outcome string :=
  require_issued token c;; Ret (PyStr.replace CANARY_PLACEHOLDER token template).

Definition oob_subdomain (oob_domain token : string) (c : CanaryState) : outcome string :=
  require_issued token c;; Ret (token +:+ "." +:+ oob_domain).

Definition verify_echo (response token actor : string) : M CanaryState bool :=
  c ← get;
  lift (require_issued token c);;
  lift (require_not_consumed token c);;
  let hit := PyStr.contains response token in
  modify (fun c => mkCanary (issued c) ({[token]} ∪ consumed c) (draws c) (canary_log c));;
  record (mkCall actor "canary.verified" "canary_token" (audit_id token) [("hit", JBool hit)]);;
  mret hit.

(** Everything that changes a manager. *)
Inductive step (c : CanaryState) : CanaryState -> Prop :=
| step_generate actor cid : step c (generate actor cid c).2
| step_verify response token actor : step c (verify_echo response token actor c).2.

(** Consumed tokens were issued, and every issued token was drawn. *)
Record wf (c : CanaryState) : Prop := {
  wf_consumed : consumed c ⊆ issued c;
  wf_drawn : forall t, t ∈ issued c -> exists k, (k < draws c)%nat /\ t = token_urlsafe k
}.

(** What later states keep of an earlier one. *)
Record later (c c' : CanaryState) : Prop := {
  later_issued : issued c ⊆ issued c';
  later_consumed : consumed c ⊆ consumed c';
  later_draws : (draws c <= draws c')%nat
}.

#[export] Instance later_preorder : PreOrder later.
Proof.
  split; [by split|]. intros a b c [H1 H2 H3] [H4 H5 H6]. split; [set_solver|set_solver|lia].
Qed.

Lemma initial_wf : wf initial.
Proof. split; cbn; set_solver. Qed.

Lemma record_spec call c :
  exists l, (record call c).2 = mkCanary (issued c) (consumed c) (draws c) l
    /\ ((record call c).1 = Ret tt \/ exists e, (record call c).1 = Raise e /\ audit_ok call = Raise e).
Proof.
  unfold record, lift, modify, mbind, M_bind. destruct (audit_ok call) as [[]|e]; cbn.
  - eexists. split; [reflexivity|]. by left.
  - exists (canary_log c). destruct c; cbn. split; [done|]. right. by exists e.
Qed.

Lemma draw_spec fuel known n t n' :
  draw fuel known n = Some (t, n') ->
  t ∉ known /\ exists k, (n <= k)%nat /\ n' = S k /\ t = token_urlsafe k.
Proof.
  revert n; induction fuel as [|f IH]; intros n; cbn [draw]; [done|].
  case_bool_decide as E.
  - intros (Hni & k & Hk & -> & ->)%IH. split; [done|]. exists k. split; [lia|done].
  - intros [= <- <-]. split; [done|]. by exists n.
Qed.

(** [fuel] draws that all fall into [known] are [fuel] distinct elements. *)
Lemma draw_None `{!Inj (=) (=) token_urlsafe} fuel known n :
  draw fuel known n = None -> (fuel <= size known)%nat.
Proof.
  intros H.
  assert (Hin : forall f m, draw f known m = None -> forall k, (m <= k < m + f)%nat -> token_urlsafe k ∈ known).
  { induction f as [|f IH]; intros m; cbn [draw]; [lia|]. case_bool_decide as E; [|done].
    intros Hd k Hk. destruct (decide (k = m)) as [->|Hne]; [done|]. apply (IH (S m) Hd). lia. }
  specialize (Hin _ _ H).
  assert (Hsub : list_to_set (token_urlsafe <$> seq n fuel) ⊆ known).
  { intros x. rewrite elem_of_list_to_set, list_elem_of_fmap. intros (k & -> & Hk%elem_of_seq).
    apply Hin. lia. }
  apply subseteq_size in Hsub. rewrite size_list_to_set in Hsub.
  - by rewrite length_fmap, length_seq in Hsub.
  - apply NoDup_fmap_2; [done|]. apply NoDup_seq.
Qed.

Lemma generate_spec `{!Inj (=) (=) token_urlsafe} actor cid c :
  wf c ->
  exists t k l, t ∉ issued c /\ (draws c <= k)%nat /\ t = token_urlsafe k
  /\ (generate actor cid c).2 = mkCanary ({[t]} ∪ issued c) (consumed c) (S k) l
  /\ ((generate actor cid c).1 = Ret t
      \/ exists e, (generate actor cid c).1 = Raise e
           /\ exists call, call_action call = "canary.generated" /\ audit_ok call = Raise e).
Proof.
  intros Hwf. unfold generate, get, lift, modify, mbind, M_bind.
  destruct (draw _ _ _) as [[t n']|] eqn:E; [|apply draw_None in E; lia].
  apply draw_spec in E as (Hni & k & Hk & -> & Ht). cbn [unwrap fst snd].
  match goal with |- context [record ?call ?c0] => destruct (record_spec call c0) as (l & Hs & Hr); set (kont := record call c0) in * end.
  exists t, k, l. cbn [issued consumed draws] in Hs. 
  destruct kont as [o s]; cbn [fst snd] in *. subst s.
  destruct Hr as [->|(e & -> & Hcall)].
  - split_and!; try done. by left.
  - split_and!; try done. right. exists e. split; [done|]. eexists; split; [|exact Hcall]. done.
Qed.

Lemma verify_echo_spec response token actor c :
  let '(o, c') := verify_echo response token actor c in
  if decide (token ∈ issued c) then
    if decide (token ∈ consumed c)
    then o = Raise (TokenReuseError "canary token is single-use and already consumed") /\ c' = c
    else issued c' = issued c /\ consumed c' = {[token]} ∪ consumed c /\ draws c' = draws c
         /\ (o = Ret (PyStr.contains response token)
             \/ exists e call, o = Raise e /\ call_action call = "canary.verified" /\ audit_ok call = Raise e)
  else o = Raise (TokenNotIssuedError "canary token was never issued") /\ c' = c.
Proof.
  unfold verify_echo, get, lift, modify, mbind, M_bind, require_issued, require_not_consumed.
  rewrite (bool_decide_decide (token ∈ issued c)).
  destruct (decide (token ∈ issued c)); cbn [negb raise_if]; [|done].
  rewrite (bool_decide_decide (token ∈ consumed c)).
  destruct (decide (token ∈ consumed c)); cbn [raise_if]; [done|].
  match goal with |- context [record ?call ?c0] => destruct (record_spec call c0) as (l & Hs & Hr); set (kont := record call c0) in * end.
  destruct kont as [o s]; cbn [fst snd] in *. subst s.
  destruct Hr as [->|(x & -> & Hcall)]; cbn; split_and!; try done; [by left|].
  right. eexists _, _. split; [done|]. split; [|exact Hcall]. done.
Qed.

Lemma step_later `{!Inj (=) (=) token_urlsafe} c c' : wf c -> step c c' -> wf c' /\ later c c'.
Proof.
  intros Hwf [actor cid|response token actor].
  - destruct (generate_spec actor cid c Hwf) as (t & k & l & Hni & Hk & Ht & -> & _).
    destruct Hwf as [H1 H2]. split; split; cbn; [set_solver| |set_solver..|lia].
    intros x [->%elem_of_singleton|Hx]%elem_of_union; [exists k; split; [lia|done]|].
    destruct (H2 x Hx) as (j & Hj & ->). exists j. split; [lia|done].
  - pose proof (verify_echo_spec response token actor c) as Hs.
    destruct (verify_echo _ _ _ c) as [o s]; cbn [snd]. destruct Hwf as [H1 H2].
    repeat case_decide; [destruct Hs as [_ ->]|destruct Hs as (Hi & Hc & Hd & _)|destruct Hs as [_ ->]];
      try (by split).
    split; split; rewrite ?Hi, ?Hc, ?Hd; try set_solver; try done.
Qed.

Lemma steps_later `{!Inj (=) (=) token_urlsafe} c c' : wf c -> rtc step c c' -> wf c' /\ later c c'.
Proof.
  intros Hwf H. induction H as [c|c d c' Hs _ IH]; [by split|].
  destruct (step_later c d Hwf Hs) as [Hd Hl]. destruct (IH Hd) as [Hc Hl']. split; [done|].
  by etrans.
Qed.

(** canary tokens are fresh and single-use. From an empty manager and a
    generator that does not repeat a draw, after any sequence of operations:
    [generate] ends and mints a token no earlier call issued (it fails only
    if the audit refuses the call); a token nobody issued and a token already
    presented are refused, with nothing changed; presenting any other token
    answers whether it occurs in the response and consumes it, whatever the
    answer and even if the audit then fails; and a consumed token is refused
    for ever after. *)
Theorem canary_tokens_are_single_use `{!Inj (=) (=) token_urlsafe} c :
  rtc step initial c ->
  (forall actor cid, exists t, t ∉ issued c /\ issued (generate actor cid c).2 = {[t]} ∪ issued c
     /\ ((generate actor cid c).1 = Ret t
         \/ exists e call, (generate actor cid c).1 = Raise e /\ audit_ok call = Raise e))
  /\ (forall response token actor, token ∉ issued c ->
       verify_echo response token actor c
       = (Raise (TokenNotIssuedError "canary token was never issued"), c))
  /\ (forall response token actor, token ∈ issued c -> token ∉ consumed c ->
       let '(o, c') := verify_echo response token actor c in
       token ∈ consumed c'
       /\ (o = Ret (PyStr.contains response token)
           \/ exists e call, o = Raise e /\ audit_ok call = Raise e))
  /\ (forall c' response token actor, rtc step c c' -> token ∈ consumed c ->
       verify_echo response token actor c'
       = (Raise (TokenReuseError "canary token is single-use and already consumed"), c')).
Proof.
  intros Hr. destruct (steps_later _ _ initial_wf Hr) as [Hwf _]. split_and!.
  - intros actor cid. destruct (generate_spec actor cid c Hwf) as (t & k & l & Hni & _ & _ & -> & Ho).
    exists t. split; [done|]. split; [done|]. destruct Ho as [?|(e & ? & call & _ & ?)]; [by left|].
    right. by exists e, call.
  - intros r t a Hni. pose proof (verify_echo_spec r t a c) as Hs. destruct (verify_echo r t a c).
    rewrite decide_False in Hs by done. destruct Hs; by subst.
  - intros r t a Hi Hc. pose proof (verify_echo_spec r t a c) as Hs. destruct (verify_echo r t a c).
    rewrite decide_True, decide_False in Hs by done. destruct Hs as (_ & -> & _ & Ho).
    split; [set_solver|]. destruct Ho as [?|(e & call & ? & _ & ?)]; [by left|]. right. by exists e, call.
  - intros c' r t a Hs' Ht. destruct (steps_later _ _ Hwf Hs') as [Hwf' [_ Hl _]].
    pose proof (verify_echo_spec r t a c') as Hs. destruct (verify_echo r t a c').
    pose proof (wf_consumed _ Hwf') as Hsub.
    rewrite !decide_True in Hs by set_solver. destruct Hs; by subst.
Qed.

End canary.

Definition demo_token (n : nat) : string := "tok" +:+ pretty n.
#[export] Instance demo_token_inj : Inj (=) (=) demo_token.
Proof. intros x y H. unfold demo_token in H. apply PyStr.app_inv_head in H. by apply (inj pretty). Qed.
Definition demo_audit (c : AuditCall) : outcome unit := Ret tt.

Lemma canary_tokens_are_single_use_witness :
  let c := (generate demo_token demo_audit "oracle" "f1" initial).2 in
  let c' := (verify_echo demo_audit "echo: tok0!" "tok0" "oracle" c).2 in
  verify_echo demo_audit "echo: tok0!" "tok0" "oracle" c'
  = (Raise (TokenReuseError "canary token is single-use and already consumed"), c').
Proof.
  cbn zeta. set (c' := (verify_echo _ _ _ _ _).2).
  assert (H : rtc (step demo_token demo_audit) initial c')
    by (eapply rtc_l; [eapply step_generate|eapply rtc_l; [eapply step_verify|apply rtc_refl]]).
  apply (canary_tokens_are_single_use demo_token demo_audit c' H); [apply rtc_refl|].
  apply (bool_decide_unpack _). vm_compute. exact I.
Defined.

End Canary.
Export (hints) Canary.

(** An [OracleVerifier]: one reproduction, which may consult the canary. *)
Definition Verifier : Type :=
  CandidateFinding -> VerificationMethod -> string -> M CanaryState ReproductionStatus.

Module OracleEngine.
Section engine.
Context (token_urlsafe : nat -> string) (audit_ok : AuditCall -> outcome unit).
Context (registry : Verification.Registry).

Record tally : Type := mkTally { successes : Z; inconclusive : Z; attempts : Z }.

Definition count (t : tally) (s : ReproductionStatus) : tally :=
  mkTally (if bool_decide (s = ReproductionStatus.SUCCESS) then successes t + 1 else successes t)
    (if bool_decide (s = ReproductionStatus.SERVER_ERROR) then inconclusive t + 1 else inconclusive t)
    (attempts t + 1).

(** One iteration: a fresh token, then one reproduction with it. *)
Definition attempt (verifier : Verifier) (candidate : CandidateFinding) (method : VerificationMethod)
    (actor : string) : M CanaryState (string * ReproductionStatus) :=
  token ← Canary.generate token_urlsafe audit_ok actor (cf_id candidate);
  status ← verifier candidate method token;
  mret (token, status).

Fixpoint reproduce_loop (verifier : Verifier) (candidate : CandidateFinding)
    (method : VerificationMethod) (actor : string) (k : nat) (t : tally) : M CanaryState tally :=
  match k with
  | O => mret t
  | S k' =>
      r ← attempt verifier candidate method actor;
      reproduce_loop verifier candidate method actor k' (count t r.2)
  end.

Definition reason (outcome : VerificationStatus) (t : tally) : string :=
  value outcome +:+ ": " +:+ pretty (successes t) +:+ "/" +:+ pretty (attempts t)
  +:+ " reproductions (" +:+ pretty (inconclusive t) +:+ " server errors)".

Definition verify (verifier : Verifier) (candidate : CandidateFinding) (actor : string)
  : M CanaryState VerificationResult :=
  method ← lift (Verification.require_method registry (cf_vuln_type candidate));
  t ← reproduce_loop verifier candidate method actor (Z.to_nat (default_n method)) (mkTally 0 0 0);
  let result := Verification.decide_outcome method (successes t) (attempts t) (inconclusive t) in
  lift (Verification.check_result (mkResult result (successes t) (attempts t) (reason result t))).

Definition confirm (candidate : CandidateFinding) (r : VerificationResult) (evidence_ids : list string)
    (verified_at : datetime) : outcome ConfirmedFinding :=
  raise_if (negb (bool_decide (vr_status r = VerificationStatus.CONFIRMED)))
    (DomainValidationError ("only a CONFIRMED oracle result can become a ConfirmedFinding (got "
                            +:+ value (vr_status r) +:+ ")"));;
  Verification.check_confirmed
    (mkConfirmed (cf_id candidate) (cf_vuln_type candidate) evidence_ids verified_at
       (vr_successes r) (vr_attempts r)).

(** The reproductions of a call, in order, with the tokens they used. *)
Inductive attempts_run (verifier : Verifier) (candidate : CandidateFinding) (method : VerificationMethod)
    (actor : string) : CanaryState -> list (string * ReproductionStatus) -> CanaryState -> Prop :=
| run_nil c : attempts_run verifier candidate method actor c [] c
| run_cons c r c1 l c' :
    attempt verifier candidate method actor c = (Ret r, c1) ->
    attempts_run verifier candidate method actor c1 l c' ->
    attempts_run verifier candidate method actor c (r :: l) c'.

(** A verifier works on the canary only through its operations. *)
Class LawfulVerifier (verifier : Verifier) : Prop :=
  verifier_steps candidate method token c :
    rtc (Canary.step token_urlsafe audit_ok) c (verifier candidate method token c).2.

Definition tallies (l : list (string * ReproductionStatus)) (t : tally) : tally :=
  foldl (fun t r => count t r.2) t l.

Definition occurrences (s : ReproductionStatus) (l : list (string * ReproductionStatus)) : Z :=
  Z.of_nat (length (List.filter (fun r => bool_decide (r.2 = s)) l)).

Lemma occurrences_cons s tok s' l :
  occurrences s ((tok, s') :: l) = (if bool_decide (s' = s) then 1 else 0) + occurrences s l.
Proof. unfold occurrences. cbn [List.filter snd]. case_bool_decide; cbn [length]; lia. Qed.

Lemma tallies_spec l t :
  tallies l t = mkTally (successes t + occurrences ReproductionStatus.SUCCESS l)
    (inconclusive t + occurrences ReproductionStatus.SERVER_ERROR l) (attempts t + Z.of_nat (length l)).
Proof.
  revert t; induction l as [|[tok s] l IH]; intros t.
  { unfold occurrences. cbn. destruct t; cbn. by rewrite !Z.add_0_r. }
  change (tallies ((tok, s) :: l) t) with (tallies l (count t s)). rewrite IH.
  rewrite !occurrences_cons. unfold count. cbn [successes inconclusive attempts fst snd length].
  rewrite Nat2Z.inj_succ. repeat case_bool_decide; try congruence; f_equal; lia.
Qed.

Lemma occurrences_all s l : occurrences s l = Z.of_nat (length l) <-> Forall (fun r => r.2 = s) l.
Proof.
  unfold occurrences. split.
  - intros H. induction l as [|r l IH]; [done|]. cbn in H |- *.
    pose proof (List.filter_length_le (fun r => bool_decide (r.2 = s)) l).
    case_bool_decide as E; cbn in H.
    + constructor; [done|]. apply IH. lia.
    + lia.
  - induction 1 as [|r l Hr _ IH]; [done|]. cbn [List.filter]. rewrite bool_decide_true by done. cbn. lia.
Qed.

Lemma occurrences_bounds s l : 0 <= occurrences s l <= Z.of_nat (length l).
Proof.
  unfold occurrences. pose proof (List.filter_length_le (fun r => bool_decide (r.2 = s)) l). lia.
Qed.

Lemma reproduce_loop_Ret verifier candidate method actor k t c t' c' :
  reproduce_loop verifier candidate method actor k t c = (Ret t', c') ->
  exists l, attempts_run verifier candidate method actor c l c' /\ length l = k /\ t' = tallies l t.
Proof.
  revert t c; induction k as [|k IH]; intros t c; cbn [reproduce_loop].
  - intros [= <- <-]. exists []. split; [constructor|done].
  - unfold mbind, M_bind. destruct (attempt _ _ _ _ c) as [[r|e] c1] eqn:E; [|done].
    intros (l & Hl & Hk & ->)%IH. exists (r :: l). split; [by econstructor|].
    split; [by cbn; f_equal|]. reflexivity.
Qed.

Lemma attempt_issues `{!Inj (=) (=) token_urlsafe} verifier `{!LawfulVerifier verifier}
    candidate method actor c :
  Canary.wf token_urlsafe c ->
  let '(o, c') := attempt verifier candidate method actor c in
  Canary.wf token_urlsafe c' /\ Canary.later c c'
  /\ forall r, o = Ret r -> r.1 ∉ issued c /\ r.1 ∈ issued c'.
Proof.
  intros Hwf. unfold attempt, mbind, M_bind.
  destruct (Canary.generate_spec token_urlsafe audit_ok actor (cf_id candidate) c Hwf)
    as (t & k & l & Hni & Hk & Ht & Hs & Ho).
  pose proof (Canary.step_later token_urlsafe audit_ok c _ Hwf
    (Canary.step_generate _ _ c actor (cf_id candidate))) as [Hwf1 Hl1].
  destruct (Canary.generate _ _ _ _ c) as [o c1]; cbn [fst snd] in *.
  destruct Ho as [->|(e & -> & _)]; [|by split; [|split]].
  pose proof (verifier_steps candidate method t c1) as Hsteps.
  destruct (Canary.steps_later token_urlsafe audit_ok _ _ Hwf1 Hsteps) as [Hwf2 Hl2].
  destruct (verifier candidate method t c1) as [[s|e] c2]; cbn [snd] in *;
    (split; [done|]; split; [by etrans|]); [|done].
  intros r [= <-]. split; [done|]. cbn [fst]. apply (Canary.later_issued _ _ Hl2). rewrite Hs. cbn. set_solver.
Qed.

Lemma attempts_run_fresh `{!Inj (=) (=) token_urlsafe} verifier `{!LawfulVerifier verifier}
    candidate method actor c l c' :
  Canary.wf token_urlsafe c -> attempts_run verifier candidate method actor c l c' ->
  Canary.wf token_urlsafe c' /\ Canary.later c c'
  /\ NoDup l.*1 /\ Forall (fun t => t ∉ issued c /\ t ∈ issued c') l.*1.
Proof.
  intros Hwf H. induction H as [c|c r c1 l c' Ha _ IH];
    [split; [done|]; split; [reflexivity|]; split; constructor|].
  pose proof (attempt_issues verifier candidate method actor c Hwf) as Hi. rewrite Ha in Hi.
  destruct Hi as (Hwf1 & Hl1 & Hr). destruct (Hr r eq_refl) as [Hni Hin].
  destruct (IH Hwf1) as (Hwf' & Hl' & Hnd & Hall). rewrite Forall_forall in Hall.
  split; [done|]. split; [by etrans|]. rewrite fmap_cons. split.
  - constructor; [|done]. intros Hdup. by destruct (Hall _ Hdup).
  - constructor; [split; [done|by apply (Canary.later_issued _ _ Hl')]|].
    apply Forall_forall. intros x Hx. destruct (Hall x Hx) as [Hx1 Hx2]. split; [|done].
    intros Hc. apply Hx1. by apply (Canary.later_issued _ _ Hl1).
Qed.

Lemma verify_Ret verifier candidate actor c r c' :
  (forall v m, registry !! v = Some m -> 1 <= default_n m) ->
  verify verifier candidate actor c = (Ret r, c') ->
  exists method l, registry !! cf_vuln_type candidate = Some method
  /\ attempts_run verifier candidate method actor c l c'
  /\ Z.of_nat (length l) = default_n method
  /\ vr_attempts r = default_n method
  /\ vr_successes r = occurrences ReproductionStatus.SUCCESS l
  /\ vr_status r = Verification.decide_outcome method (occurrences ReproductionStatus.SUCCESS l)
       (default_n method) (occurrences ReproductionStatus.SERVER_ERROR l).
Proof.
  intros Hreg. unfold verify, lift, mbind, M_bind, Verification.require_method.
  destruct (registry !! _) as [m|] eqn:Em; [|done]. cbn [unwrap].
  destruct (reproduce_loop _ _ _ _ _ _ c) as [[t|e] c1] eqn:E; [|done].
  apply reproduce_loop_Ret in E as (l & Hl & Hlen & ->). rewrite tallies_spec. cbn [successes inconclusive attempts].
  pose proof (Hreg _ _ Em). intros [= Hr <-]. unfold Verification.check_result in Hr. inv_ret.
  exists m, l. cbn [vr_attempts vr_successes vr_status]. rewrite !Z.add_0_l.
  replace (Z.of_nat (length l)) with (default_n m) by lia. done.
Qed.

(** C17: the oracle confirms only a unanimous reproduction. Whatever the
    backend answers, a verification that ends ran exactly the N
    reproductions of the curated method, each with its own token that no
    earlier call had issued; it answers CONFIRMED exactly when all N
    succeeded, INCONCLUSIVE exactly when one did not and the server errors
    among the N, consecutive or not, reach the threshold, REFUTED otherwise,
    and never PENDING; and only a CONFIRMED answer can be promoted. (The
    docstrings of the method and of the registry ask for consecutive server
    errors: [separate_server_errors_escalate].) *)
Theorem oracle_confirms_only_unanimous `{!Inj (=) (=) token_urlsafe} verifier `{!LawfulVerifier verifier}
    candidate actor c r c' :
  Canary.wf token_urlsafe c ->
  (forall v m, registry !! v = Some m -> 1 <= default_n m) ->
  verify verifier candidate actor c = (Ret r, c') ->
  exists method l, registry !! cf_vuln_type candidate = Some method
  /\ attempts_run verifier candidate method actor c l c'
  /\ Z.of_nat (length l) = default_n method
  /\ NoDup l.*1 /\ Forall (fun t => t ∉ issued c) l.*1
  /\ vr_attempts r = default_n method
  /\ vr_successes r = occurrences ReproductionStatus.SUCCESS l
  /\ (vr_status r = VerificationStatus.CONFIRMED <-> Forall (fun a => a.2 = ReproductionStatus.SUCCESS) l)
  /\ (vr_status r = VerificationStatus.INCONCLUSIVE <->
       ~ Forall (fun a => a.2 = ReproductionStatus.SUCCESS) l
       /\ server_error_threshold method <= occurrences ReproductionStatus.SERVER_ERROR l)
  /\ vr_status r <> VerificationStatus.PENDING
  /\ (forall evs now, is_Ret (confirm candidate r evs now) = true -> vr_status r = VerificationStatus.CONFIRMED).
Proof.
  intros Hwf Hreg Hv. destruct (verify_Ret verifier candidate actor c r c' Hreg Hv)
    as (method & l & Hm & Hrun & Hlen & Ha & Hs & Hst).
  destruct (attempts_run_fresh verifier candidate method actor c l c' Hwf Hrun) as (_ & _ & Hnd & Hall).
  exists method, l. pose proof (occurrences_all ReproductionStatus.SUCCESS l) as Hocc.
  pose proof (occurrences_bounds ReproductionStatus.SUCCESS l) as Hb. rewrite Hlen in Hocc, Hb.
  rewrite <- Hocc, Hst. unfold Verification.decide_outcome. split_and!; try done.
  - eapply Forall_impl; [exact Hall|]. by intros x [? _].
  - destruct (Z.leb_spec (default_n method) (occurrences ReproductionStatus.SUCCESS l));
      [split; [lia|done]|]. rewrite Z.leb_refl.
    destruct (_ <=? _); split; try done; lia.
  - destruct (Z.leb_spec (default_n method) (occurrences ReproductionStatus.SUCCESS l));
      [split; [done|lia]|]. rewrite Z.leb_refl.
    destruct (Z.leb_spec (server_error_threshold method) (occurrences ReproductionStatus.SERVER_ERROR l));
      split; try done; lia.
  - rewrite Z.leb_refl. by repeat destruct (_ <=? _).
  - intros evs now (f & Hf)%is_Ret_true. unfold confirm in Hf. inv_ret. breflect. by rewrite Hst in H.
Qed.

End engine.
End OracleEngine.

(** The state of a batch: the canary manager, the audit service and the signed
    chain when there is one, and the rows the two repositories were given. *)
Record OracleState : Type := mkOracleState {
  canary : CanaryState;
  audit_log : list AuditCall;
  chain_log : option (list AuditCall);
  finding_rows : list Finding;
  confirmed_rows : list ConfirmedFinding
}.

Record OracleSummary : Type := mkSummary {
  s_confirmed : Z;
  s_refuted : Z;
  s_inconclusive : Z;
  s_skipped : Z;
  s_failed : Z
}.

Module OracleService.
Section service.
Context (token_urlsafe : nat -> string) (audit_ok : AuditCall -> outcome unit).
Context (registry : Verification.Registry).
(** The factory: the reproduction backend of a finding, or an error. *)
Context (for_finding : Finding -> VulnType -> outcome Verifier).
(** [str(exc)]. *)
Context (exn_text : exn -> string).

Definition with_canary {A} (m : M CanaryState A) : M OracleState A :=
  fun s => let '(o, c) := m (canary s) in
           (o, mkOracleState c (audit_log s) (chain_log s) (finding_rows s) (confirmed_rows s)).

Definition audit (call : AuditCall) : M OracleState unit :=
  lift (audit_ok call);;
  modify (fun s => mkOracleState (canary s) (audit_log s ++ [call])
                     ((fun l => l ++ [call]) <$> chain_log s) (finding_rows s) (confirmed_rows s)).

Definition add_confirmed (c : ConfirmedFinding) : M OracleState unit :=
  modify (fun s => mkOracleState (canary s) (audit_log s) (chain_log s) (finding_rows s)
                     (confirmed_rows s ++ [c])).

Definition add_finding (f : Finding) : M OracleState unit :=
  modify (fun s => mkOracleState (canary s) (audit_log s) (chain_log s) (finding_rows s ++ [f])
                     (confirmed_rows s)).

Definition with_verdict (f : Finding) (v : VerificationStatus) : Finding :=
  mkFinding (fd_id f) (fingerprint f) (fd_title f) (fd_asset f) (fd_severity f) (fd_cwe f) (fd_cve f)
    (fd_owasp f) (fd_observation_ids f) (fd_evidence_ids f) (fd_status f) (fd_assessment_id f) v.

Definition candidate_of (f : Finding) (v : VulnType) : outcome CandidateFinding :=
  Verification.check_candidate
    (mkCandidate (fd_id f) (match fd_observation_ids f with o :: _ => o | [] => fd_id f end) v (fd_asset f)
       VerificationStatus.PENDING None).

Definition verified_call (actor : string) (f : Finding) (v : VulnType) (r : VerificationResult) : AuditCall :=
  mkCall actor "oracle.verified" "finding" (fd_id f)
    [("vuln_type", Canonical.jenum v); ("status", Canonical.jenum (vr_status r));
     ("successes", JInt (vr_successes r)); ("attempts", JInt (vr_attempts r)); ("reason", JStr (vr_reason r))].

(** The end of [_verify_one]: the verdict row and the audit. *)
Definition record_verdict (f : Finding) (v : VulnType) (actor : string) (r : VerificationResult)
  : M OracleState VerificationStatus :=
  add_finding (with_verdict f (vr_status r));;
  audit (verified_call actor f v r);;
  mret (vr_status r).

Definition verify_one (f : Finding) (v : VulnType) (actor : string) (verified_at : datetime)
  : M OracleState VerificationStatus :=
  candidate ← lift (candidate_of f v);
  verifier ← lift (for_finding f v);
  r ← with_canary (OracleEngine.verify token_urlsafe audit_ok registry verifier candidate actor);
  (if bool_decide (vr_status r = VerificationStatus.CONFIRMED)
   then c ← lift (OracleEngine.confirm candidate r (fd_evidence_ids f) verified_at); add_confirmed c
   else mret tt);;
  record_verdict f v actor r.

Definition failed_call (actor : string) (f : Finding) (e : exn) : AuditCall :=
  mkCall actor "oracle.verification_failed" "finding" (fd_id f) [("reason", JStr (exn_text e))].

(** The outcome of one iteration of the batch. *)
Inductive verdict : Type := Skipped | Failed | Verified (s : VerificationStatus).
#[local] Instance verdict_eq_dec : EqDecision verdict.
Proof. solve_decision. Defined.

Definition verify_item (actor : string) (verified_at : datetime) (f : Finding) : M OracleState verdict :=
  match Verification.vuln_type_for_cwes (fd_cwe f) with
  | None => mret Skipped
  | Some v =>
      try_exceptM (s ← verify_one f v actor verified_at; mret (Verified s)) is_exception
        (fun e => audit (failed_call actor f e);; mret Failed)
  end.

Definition tick (r : verdict) (s : OracleSummary) : OracleSummary :=
  let 'mkSummary c f i k x := s in
  match r with
  | Skipped => mkSummary c f i (k + 1) x
  | Failed => mkSummary c f i k (x + 1)
  | Verified VerificationStatus.CONFIRMED => mkSummary (c + 1) f i k x
  | Verified VerificationStatus.REFUTED => mkSummary c (f + 1) i k x
  | Verified VerificationStatus.INCONCLUSIVE => mkSummary c f (i + 1) k x
  | Verified VerificationStatus.PENDING => s
  end.

Fixpoint verify_loop (actor : string) (verified_at : datetime) (fs : list Finding) (sum : OracleSummary)
  : M OracleState OracleSummary :=
  match fs with
  | [] => mret sum
  | f :: r => v ← verify_item actor verified_at f; verify_loop actor verified_at r (tick v sum)
  end.

Definition verify_findings (actor : string) (verified_at : datetime) (fs : list Finding)
  : M OracleState OracleSummary :=
  verify_loop actor verified_at fs (mkSummary 0 0 0 0 0).

(** ** Properties *)
Definition total (s : OracleSummary) : Z :=
  s_confirmed s + s_refuted s + s_inconclusive s + s_skipped s + s_failed s.

(** A confirmed row: the promotion of one of the findings, at N/N. *)
Definition unanimous (fs : list Finding) (c : ConfirmedFinding) : Prop :=
  exists f method, f ∈ fs /\ fd_id f = candidate_id c
  /\ Verification.vuln_type_for_cwes (fd_cwe f) = Some (conf_vuln_type c)
  /\ registry !! conf_vuln_type c = Some method
  /\ conf_successes c = default_n method /\ conf_attempts c = default_n method.

Class LawfulFactory : Prop :=
  factory_lawful f v ver : for_finding f v = Ret ver -> OracleEngine.LawfulVerifier token_urlsafe audit_ok ver.

(** A backend never reports the model's own marker. *)
Class NoMarker : Prop :=
  { marker_factory f v : for_finding f v <> Raise OutOfFuel;
    marker_verifier f v ver cand m tok c :
      for_finding f v = Ret ver -> (ver cand m tok c).1 <> Raise OutOfFuel;
    marker_audit call : audit_ok call <> Raise OutOfFuel }.

Context `{!Inj (=) (=) token_urlsafe} `{!LawfulFactory} `{!NoMarker}.
Hypothesis registry_ok : forall v m, registry !! v = Some m -> 1 <= default_n m.
(** The audit log accepts the report of a failure. *)
Hypothesis failures_audited : forall actor f e, audit_ok (failed_call actor f e) = Ret tt.

Lemma reproduce_loop_later ver cand m actor k t c :
  OracleEngine.LawfulVerifier token_urlsafe audit_ok ver ->
  (forall cand m tok c, (ver cand m tok c).1 <> Raise OutOfFuel) ->
  Canary.wf token_urlsafe c ->
  let '(o, c') := OracleEngine.reproduce_loop token_urlsafe audit_ok ver cand m actor k t c in
  Canary.wf token_urlsafe c' /\ o <> Raise OutOfFuel.
Proof.
  intros Hlaw Hmark. revert t c; induction k as [|k IH]; intros t c Hwf; cbn [OracleEngine.reproduce_loop]; [done|].
  unfold mbind at 1, M_bind.
  pose proof (OracleEngine.attempt_issues token_urlsafe audit_ok ver cand m actor c Hwf) as Ha.
  assert (Hne : (OracleEngine.attempt token_urlsafe audit_ok ver cand m actor c).1 <> Raise OutOfFuel).
  { unfold OracleEngine.attempt, mbind, M_bind.
    destruct (Canary.generate_spec token_urlsafe audit_ok actor (cf_id cand) c Hwf) as (tk & _ & _ & _ & _ & _ & _ & Ho).
    destruct (Canary.generate _ _ _ _ c) as [o c1]; cbn [fst] in Ho.
    destruct Ho as [->|(e & -> & call & _ & Hc)].
    - specialize (Hmark cand m tk c1). destruct (ver cand m tk c1) as [[s|e] c2]; [discriminate|].
      cbn in Hmark |- *. intros [= ->]. by apply Hmark.
    - cbn. intros [= ->]. by apply (marker_audit call). }
  destruct (OracleEngine.attempt _ _ _ _ _ _ c) as [[r|e] c1]; cbn [fst] in Hne; destruct Ha as (Hwf1 & _);
    [by apply IH|]. split; [done|]. intros [= ->]. by apply Hne.
Qed.

Lemma verify_later ver cand actor c :
  OracleEngine.LawfulVerifier token_urlsafe audit_ok ver ->
  (forall cand m tok c, (ver cand m tok c).1 <> Raise OutOfFuel) ->
  Canary.wf token_urlsafe c ->
  let '(o, c') := OracleEngine.verify token_urlsafe audit_ok registry ver cand actor c in
  Canary.wf token_urlsafe c' /\ o <> Raise OutOfFuel.
Proof.
  intros Hlaw Hmark Hwf. unfold OracleEngine.verify, lift, mbind, M_bind, Verification.require_method.
  destruct (registry !! _) as [m|]; cbn [unwrap]; [|by split; [exact Hwf|discriminate]].
  pose proof (reproduce_loop_later ver cand m actor (Z.to_nat (default_n m))
    (OracleEngine.mkTally 0 0 0) c Hlaw Hmark Hwf) as Hl.
  destruct (OracleEngine.reproduce_loop _ _ _ _ _ _ _ _ c) as [[t|e] c1]; destruct Hl as [Hw Ho];
    [|split; [exact Hw|intros [= ->]; by apply Ho]].
  split; [done|]. unfold Verification.check_result, raise_if, mbind, outcome_bind.
  repeat case_match; congruence.
Qed.

(** What one step of the batch leaves behind. *)
Record grows (fs : list Finding) (s s' : OracleState) (cs : list ConfirmedFinding) : Prop := {
  grows_wf : Canary.wf token_urlsafe (canary s');
  grows_rows : confirmed_rows s' = confirmed_rows s ++ cs;
  grows_unanimous : Forall (unanimous fs) cs
}.

Lemma candidate_of_Ret f v c :
  candidate_of f v = Ret c -> cf_id c = fd_id f /\ cf_vuln_type c = v /\ fd_id f <> "".
Proof.
  unfold candidate_of, Verification.check_candidate. intros Hc. inv_ret.
  repeat match goal with Hr : require_text _ _ = Ret _ |- _ => apply require_text_Ret in Hr end. done.
Qed.

Lemma audit_spec call s :
  let '(o, s') := audit call s in
  canary s' = canary s /\ confirmed_rows s' = confirmed_rows s /\ o = audit_ok call.
Proof. unfold audit, lift, modify, mbind, M_bind. by destruct (audit_ok call) as [[]|e]. Qed.

Lemma confirm_total cand r evs now method :
  cf_id cand <> "" -> vr_status r = VerificationStatus.CONFIRMED ->
  1 <= default_n method -> default_n method <= vr_successes r ->
  vr_attempts r = default_n method -> vr_successes r <= vr_attempts r ->
  OracleEngine.confirm cand r evs now
  = Ret (mkConfirmed (cf_id cand) (cf_vuln_type cand) evs now (default_n method) (default_n method)).
Proof.
  intros Hid Hst Hn Hs Ha Hle. unfold OracleEngine.confirm. rewrite Hst, bool_decide_true by done.
  unfold Verification.check_confirmed, require_text. cbn -[Z.ltb].
  apply PyStr.truthy_true in Hid. rewrite Hid. cbn -[Z.ltb].
  replace (vr_successes r) with (default_n method) by lia. rewrite Ha.
  replace (default_n method <? 1) with false by (symmetry; apply Z.ltb_ge; lia).
  by rewrite Z.ltb_irrefl.
Qed.

(** Recording the verdict: the row of the finding, then the audit. *)
Lemma record_verdict_spec f v actor r s :
  let '(o, s') := record_verdict f v actor r s in
  canary s' = canary s /\ confirmed_rows s' = confirmed_rows s
  /\ (o = Ret (vr_status r) \/ exists e, o = Raise e /\ audit_ok (verified_call actor f v r) = Raise e).
Proof.
  unfold record_verdict, add_finding, modify, mbind, M_bind.
  match goal with |- context [audit ?c ?s0] => pose proof (audit_spec c s0) as Ha; destruct (audit c s0) as [o s'] end.
  destruct Ha as (H1 & H2 & ->). destruct (audit_ok _) as [[]|e]; cbn; split_and!; try done; [by left|right; by exists e].
Qed.

Lemma verify_one_spec f v actor now s :
  Verification.vuln_type_for_cwes (fd_cwe f) = Some v -> Canary.wf token_urlsafe (canary s) ->
  let '(o, s') := verify_one f v actor now s in
  o <> Raise OutOfFuel
  /\ exists cs, grows [f] s s' cs
     /\ forall st, o = Ret st -> st <> VerificationStatus.PENDING
          /\ (st = VerificationStatus.CONFIRMED <-> length cs = 1%nat).
Proof.
  intros Hv Hwf. assert (Hnil : grows [f] s s []) by (split; [done|by rewrite app_nil_r|constructor]).
  unfold verify_one, lift, mbind at 1 2, M_bind.
  destruct (candidate_of f v) as [cand|e] eqn:Ec.
  2: { split; [intros [= ->]|by exists []]. revert Ec. unfold candidate_of, Verification.check_candidate,
         require_text, raise_if, mbind, outcome_bind. repeat case_match; congruence. }
  apply candidate_of_Ret in Ec as (Hid & Hvt & Hne).
  destruct (for_finding f v) as [ver|e] eqn:Ef.
  2: { split; [intros [= ->]; by apply (marker_factory f v)|by exists []]. }
  assert (Hlaw : OracleEngine.LawfulVerifier token_urlsafe audit_ok ver) by by apply (factory_lawful f v).
  pose proof (verify_later ver cand actor (canary s) Hlaw
    (fun cand m tok c => marker_verifier f v ver cand m tok c Ef) Hwf) as Hl.
  pose proof (OracleEngine.verify_Ret token_urlsafe audit_ok registry ver cand actor (canary s)) as Hret.
  unfold with_canary, mbind at 1, M_bind.
  destruct (OracleEngine.verify _ _ _ ver cand actor (canary s)) as [[r|e] c1].
  2: { destruct Hl as [Hw Ho]. split; [intros [= ->]; by apply Ho|]. exists []. split; [|done].
       split; [done|by rewrite app_nil_r|constructor]. }
  destruct Hl as [Hw _]. destruct (Hret r c1 registry_ok eq_refl) as (method & l & Hm & _ & Hlen & Ha & Hs & Hst).
  pose proof (registry_ok _ _ Hm) as Hn. pose proof (OracleEngine.occurrences_bounds ReproductionStatus.SUCCESS l) as Hb.
  assert (Hpend : vr_status r <> VerificationStatus.PENDING).
  { rewrite Hst. unfold Verification.decide_outcome. rewrite Z.leb_refl. by repeat destruct (_ <=? _). }
  cbn beta iota. set (s1 := mkOracleState c1 (audit_log s) (chain_log s) (finding_rows s) (confirmed_rows s)).
  unfold mbind, M_bind.
  case_bool_decide as Hc.
  - assert (default_n method <= vr_successes r).
    { rewrite Hst in Hc. unfold Verification.decide_outcome in Hc. rewrite Z.leb_refl in Hc.
      destruct (Z.leb_spec (default_n method) (OracleEngine.occurrences ReproductionStatus.SUCCESS l)); [lia|].
      by destruct (_ <=? _). }
    rewrite (confirm_total cand r (fd_evidence_ids f) now method) by (try done; try lia; congruence).
    unfold add_confirmed, modify. cbn beta iota.
    set (s2 := mkOracleState (canary s1) (audit_log s1) (chain_log s1) (finding_rows s1) _).
    pose proof (record_verdict_spec f v actor r s2) as Hf.
    destruct (record_verdict f v actor r s2) as [o s3]. destruct Hf as (Hcan & Hrow & Ho).
    split; [destruct Ho as [->|(e & -> & Hau)]; [done|intros [= ->]; by apply (marker_audit _ Hau)]|].
    eexists [_]. split.
    + split; [by rewrite Hcan|by rewrite Hrow|constructor; [|constructor]].
      exists f, method. cbn. rewrite Hvt, Hid in *. split; [left|]. done.
    + intros st ->. destruct Ho as [[= ->]|(e & [=] & _)]. split; [done|]. by rewrite Hc.
  - cbn [mret M_ret]. pose proof (record_verdict_spec f v actor r s1) as Hf.
    unfold mret, M_ret. destruct (record_verdict f v actor r s1) as [o s3]. destruct Hf as (Hcan & Hrow & Ho).
    split; [destruct Ho as [->|(e & -> & Hau)]; [done|intros [= ->]; by apply (marker_audit _ Hau)]|].
    exists []. split.
    + split; [by rewrite Hcan|by rewrite Hrow, app_nil_r|constructor].
    + intros st ->. destruct Ho as [[= ->]|(e & [=] & _)]. split; [done|]. split; [done|by intros [=]].
Qed.

Lemma verify_item_spec f actor now s :
  Canary.wf token_urlsafe (canary s) ->
  exists v s' cs, verify_item actor now f s = (Ret v, s') /\ grows [f] s s' cs
  /\ (v = Skipped <-> Verification.vuln_type_for_cwes (fd_cwe f) = None)
  /\ v <> Verified VerificationStatus.PENDING
  /\ (v = Verified VerificationStatus.CONFIRMED -> length cs = 1%nat).
Proof.
  intros Hwf. unfold verify_item. destruct (Verification.vuln_type_for_cwes (fd_cwe f)) as [v|] eqn:Ev.
  2: { exists Skipped, s, []. split_and!; try done. split; [done|by rewrite app_nil_r|constructor]. }
  pose proof (verify_one_spec f v actor now s Ev Hwf) as Hone.
  unfold try_exceptM, mbind, M_bind. destruct (verify_one f v actor now s) as [[st|e] s1].
  - destruct Hone as (_ & cs & Hg & Hst). destruct (Hst st eq_refl) as [Hp Hc].
    exists (Verified st), s1, cs. split_and!; try done; [congruence|]. intros [= ->]. by apply Hc.
  - destruct Hone as (Ho & cs & [Hg1 Hg2 Hg3] & _).
    replace (is_exception e) with true by (destruct e; try done; congruence).
    pose proof (audit_spec (failed_call actor f e) s1) as Ha.
    destruct (audit (failed_call actor f e) s1) as [o s2]. destruct Ha as (Hcan & Hrow & ->).
    rewrite failures_audited. exists Failed, s2, cs. split_and!; try done.
    split; [by rewrite Hcan|by rewrite Hrow|done].
Qed.

Definition skips (fs : list Finding) : Z :=
  Z.of_nat (length (List.filter (fun f => bool_decide (Verification.vuln_type_for_cwes (fd_cwe f) = None)) fs)).

Lemma tick_spec v sum :
  v <> Verified VerificationStatus.PENDING ->
  total (tick v sum) = total sum + 1
  /\ s_skipped (tick v sum) = s_skipped sum + (if decide (v = Skipped) then 1 else 0)
  /\ (v <> Verified VerificationStatus.CONFIRMED -> s_confirmed (tick v sum) = s_confirmed sum)
  /\ s_confirmed (tick v sum) <= s_confirmed sum + 1.
Proof.
  intros Hv. unfold total. destruct sum as [c f i k x], v as [| |[]]; cbn; case_decide; try done;
    split_and!; intros; try done; lia.
Qed.

Lemma unanimous_mono fs fs' c : (forall f, f ∈ fs -> f ∈ fs') -> unanimous fs c -> unanimous fs' c.
Proof. intros Hsub (f & m & Hf & Hrest). exists f, m. split; [by apply Hsub|done]. Qed.

Lemma verify_loop_spec actor now fs : forall sum s,
  Canary.wf token_urlsafe (canary s) ->
  exists sum' s' cs, verify_loop actor now fs sum s = (Ret sum', s') /\ grows fs s s' cs
  /\ total sum' = total sum + Z.of_nat (length fs)
  /\ s_skipped sum' = s_skipped sum + skips fs
  /\ s_confirmed sum' <= s_confirmed sum + Z.of_nat (length cs).
Proof.
  induction fs as [|f fs IH]; intros sum s Hwf; cbn [verify_loop].
  { exists sum, s, []. unfold skips. cbn. split_and!; try lia; [done|]. split; [done|by rewrite app_nil_r|constructor]. }
  destruct (verify_item_spec f actor now s Hwf) as (v & s1 & cs1 & Hi & [Hw1 Hr1 Hu1] & Hskip & Hp & Hc).
  destruct (IH (tick v sum) s1 Hw1) as (sum' & s' & cs2 & Hl & [Hw2 Hr2 Hu2] & Ht & Hs & Hcc).
  unfold mbind, M_bind. rewrite Hi. exists sum', s', (cs1 ++ cs2). split; [done|]. split.
  { split; [done|by rewrite Hr2, Hr1, app_assoc|]. apply Forall_app. split.
    - eapply Forall_impl; [exact Hu1|]. intros c. apply unanimous_mono.
      intros g Hg%list_elem_of_singleton. subst. left.
    - eapply Forall_impl; [exact Hu2|]. intros c. apply unanimous_mono. intros g Hg. by right. }
  destruct (tick_spec v sum Hp) as (T1 & T2 & T3 & T4). rewrite length_app.
  unfold skips in *. cbn [List.filter length].
  assert (Hk : bool_decide (Verification.vuln_type_for_cwes (fd_cwe f) = None) = bool_decide (v = Skipped))
    by (apply bool_decide_ext; by symmetry).
  rewrite Hk. rewrite bool_decide_decide. split_and!; [lia| |].
  - destruct (decide (v = Skipped)); cbn [length]; lia.
  - destruct (decide (v = Verified VerificationStatus.CONFIRMED)) as [E|E]; [rewrite (Hc E); lia|].
    rewrite (T3 E) in Hcc. lia.
Qed.

(** a batch of verifications is never aborted and never promotes without
    the oracle. Whatever errors the factory, the backends or the repositories'
    audits raise, every finding is counted exactly once, as confirmed,
    refuted, inconclusive, skipped (exactly the findings without a mappable
    CWE) or failed; and every row added to the confirmed findings is the
    promotion of a finding of the batch, under the type its CWE maps to, with
    all N of N reproductions of the curated method successful. *)
Theorem batch_never_aborts actor now fs s :
  Canary.wf token_urlsafe (canary s) ->
  exists sum s' cs, verify_findings actor now fs s = (Ret sum, s')
  /\ confirmed_rows s' = confirmed_rows s ++ cs /\ Forall (unanimous fs) cs
  /\ s_confirmed sum <= Z.of_nat (length cs)
  /\ total sum = Z.of_nat (length fs) /\ s_skipped sum = skips fs.
Proof.
  intros Hwf. destruct (verify_loop_spec actor now fs (mkSummary 0 0 0 0 0) s Hwf)
    as (sum & s' & cs & H1 & [_ Hr Hu] & H2 & H3 & H4).
  by exists sum, s', cs.
Qed.

End service.

(** A backend that asks for the token back, through the canary manager. *)
Definition demo_verifier : Verifier := fun cand m tok =>
  hit ← Canary.verify_echo Canary.demo_audit ("probe " +:+ tok) tok "oracle";
  mret (if hit : bool then ReproductionStatus.SUCCESS else ReproductionStatus.FAILURE).
Definition demo_factory (f : Finding) (v : VulnType) : outcome Verifier :=
  if PyStr.startswith (fd_asset f) "https" then Ret demo_verifier else Raise (ValueError "no scanner").
Definition demo_registry : Verification.Registry :=
  match Verification.default_registry with Ret r => r | Raise _ => ∅ end.

#[export] Instance demo_verifier_lawful :
  OracleEngine.LawfulVerifier Canary.demo_token Canary.demo_audit demo_verifier.
Proof.
  intros cand m tok c. unfold demo_verifier.
  eapply rtc_l; [|apply rtc_refl].
  assert (E : (mbind (fun hit : bool => mret (if hit then ReproductionStatus.SUCCESS else ReproductionStatus.FAILURE))
                 (Canary.verify_echo Canary.demo_audit ("probe " +:+ tok) tok "oracle") c).2
              = (Canary.verify_echo Canary.demo_audit ("probe " +:+ tok) tok "oracle" c).2).
  { unfold mbind, M_bind. by destruct (Canary.verify_echo _ _ _ _ c) as [[]?]. }
  rewrite E. apply Canary.step_verify.
Qed.

#[export] Instance demo_factory_lawful : LawfulFactory Canary.demo_token Canary.demo_audit demo_factory.
Proof.
  intros f v ver. unfold demo_factory. destruct (PyStr.startswith _ _); [|done]. intros [= <-]. apply _.
Qed.

#[export] Instance demo_no_marker : NoMarker Canary.demo_audit demo_factory.
Proof.
  split; [| |done].
  - intros f v. unfold demo_factory. by destruct (PyStr.startswith _ _).
  - intros f v ver cand m tok c. unfold demo_factory. destruct (PyStr.startswith _ _); [|done]. intros [= <-].
    unfold demo_verifier, mbind, M_bind.
    pose proof (Canary.verify_echo_spec Canary.demo_audit ("probe " +:+ tok) tok "oracle" c) as H.
    destruct (Canary.verify_echo _ _ _ _ c) as [[b|e] c']; [done|]. cbn.
    repeat case_decide; [|destruct H as (_ & _ & _ & [H|(x & call & _ & _ & H)])|]; try done;
      destruct H as [H _]; congruence.
Qed.

Lemma demo_registry_ok v m : demo_registry !! v = Some m -> 1 <= default_n m.
Proof.
  assert (H : forallb (fun v => match demo_registry !! v with Some m => 1 <=? default_n m | None => true end)
                members = true) by (vm_compute; reflexivity).
  rewrite List.forallb_forall in H. intros Hm.
  specialize (H v (proj1 (list_elem_of_In _ _) (members_complete v))). rewrite Hm in H. lia.
Qed.

Definition demo_state : OracleState := mkOracleState Canary.initial [] None [] [].

Lemma batch_never_aborts_witness :
  exists sum s' cs,
    verify_findings Canary.demo_token Canary.demo_audit demo_registry demo_factory (fun _ => "error")
      "oracle" 0 ChainEngine.demo_findings demo_state = (Ret sum, s')
    /\ confirmed_rows s' = [] ++ cs /\ total sum = 4.
Proof.
  destruct (batch_never_aborts Canary.demo_token Canary.demo_audit demo_registry demo_factory
              (fun _ => "error") demo_registry_ok (fun _ _ _ => eq_refl) "oracle" 0
              ChainEngine.demo_findings demo_state (Canary.initial_wf _))
    as (sum & s' & cs & H1 & H2 & _ & _ & H3 & _).
  exists sum, s', cs. split; [exact H1|]. split; [exact H2|exact H3].
Defined.

Definition demo_candidate : CandidateFinding :=
  mkCandidate "f1" "o1" VulnType.RCE "https://shop.example" VerificationStatus.PENDING None.

(** Two server errors with a refutation between them reach the threshold of
    two. *)
Definition hiccup_verifier : Verifier := fun cand m tok =>
  mret (if String.eqb tok "tok1" then ReproductionStatus.FAILURE else ReproductionStatus.SERVER_ERROR).
Example separate_server_errors_escalate :
  server_error_threshold <$> demo_registry !! cf_vuln_type demo_candidate = Some 2
  /\ match (OracleEngine.verify Canary.demo_token Canary.demo_audit demo_registry hiccup_verifier demo_candidate "oracle"
             Canary.initial).1 with
     | Ret r => vr_status r = VerificationStatus.INCONCLUSIVE
     | Raise _ => False
     end.
Proof. vm_compute. done. Qed.

Lemma oracle_confirms_only_unanimous_witness :
  exists r c', OracleEngine.verify Canary.demo_token Canary.demo_audit demo_registry demo_verifier
                 demo_candidate "oracle" Canary.initial = (Ret r, c')
    /\ vr_status r = VerificationStatus.CONFIRMED /\ vr_attempts r = 3
    /\ vr_status r <> VerificationStatus.PENDING.
Proof.
  destruct (OracleEngine.verify Canary.demo_token Canary.demo_audit demo_registry demo_verifier
                 demo_candidate "oracle" Canary.initial) as [[r|e] c'] eqn:E.
  2: { exfalso. apply (f_equal (fun p => is_Ret p.1)) in E. vm_compute in E. discriminate E. }
  exists r, c'. split; [reflexivity|].
  assert (Hs : match (OracleEngine.verify Canary.demo_token Canary.demo_audit demo_registry demo_verifier
                 demo_candidate "oracle" Canary.initial).1 with
               | Ret r => vr_status r = VerificationStatus.CONFIRMED /\ vr_attempts r = 3
               | Raise _ => False
               end) by (vm_compute; split; reflexivity).
  rewrite E in Hs. cbn [fst] in Hs. destruct Hs as [Hs1 Hs2]. split; [exact Hs1|]. split; [exact Hs2|].
  destruct (OracleEngine.oracle_confirms_only_unanimous Canary.demo_token Canary.demo_audit demo_registry
              demo_verifier demo_candidate "oracle" Canary.initial r c' (Canary.initial_wf _)
              demo_registry_ok E) as (_ & _ & _ & _ & _ & _ & _ & _ & _ & _ & _ & Hp & _).
  exact Hp.
Defined.

End OracleService.
