(* ===== verification/OracleVerifiers.v ===== *)
(** * The reproduction backends of the oracle

    Models [src/secopent/infrastructure/oracle/diff_semantic_runner.py],
    [diff_semantic_verifier.py], [rescan_verifier.py], [interactsh.py] and
    [verifier_factory.py], as implementations of the verifier and factory
    interfaces of Oracle.  The HTTP session, the scanner and the interactsh
    server are parameters; they are told how many tokens were drawn, so they
    may answer differently at every attempt. *)
From S2P Require Import Prelude PyStr PyFloat Canonical PyJson AuditTrail Contracts Verification Findings Oracle.

#[local] Open Scope Z_scope.

(** ** The transport of differential requests *)

(** [DiffSemanticResponse] *)
Record DiffSemanticResponse : Type := mkSemantic {
  ds_status : Z;
  ds_body : option (list (string * json));
  ds_error : string
}.

(** What the session is asked for, and what of its response is read. *)
Record Sent : Type := mkSent {
  sent_method : string;
  sent_url : string;
  sent_headers : option (list (string * string));
  sent_json : option (list (string * json));
  sent_content : option string
}.

Record RawResponse : Type := mkRaw {
  status_code : json;
  status_attr : json;
  raw_headers : list (string * string);
  raw_json : outcome json
}.

Module DiffSemanticRunner.
Section runner.
Context (session : Sent -> outcome RawResponse).

Definition prepare (request : list (string * json)) : outcome Sent :=
  let method := PyStr.upper (py_str (default (JStr "GET") (field "method" request))) in
  match field "url" request with
  | Some (JStr url) =>
      raise_if (PyStr.is_empty url) (ValueError "request 'url' must be a non-empty string");;
      Ret (mkSent method url
             (match field "headers" request with
              | Some (JObj h) => Some (prod_map id py_str <$> h)
              | _ => None
              end)
             (match field "body" request with Some (JObj b) => Some b | _ => None end)
             (match field "body" request with Some (JStr b) => Some b | _ => None end))
  | _ => Raise (ValueError "request 'url' must be a non-empty string")
  end.

Definition status_of (r : RawResponse) : Z :=
  match (match status_code r with JNull => status_attr r | v => v end) with
  | JInt z => z
  | JBool b => Z.b2z b
  | _ => 0
  end.

(** The last header of that name decides. *)
Definition content_type (r : RawResponse) : string :=
  foldl (fun ct kv => if bool_decide (PyStr.lower kv.1 = "content-type") then kv.2 else ct) "" (raw_headers r).

Definition body_of (r : RawResponse) : option (list (string * json)) :=
  if PyStr.contains (PyStr.lower (content_type r)) "json" then
    match raw_json r with Ret (JObj d) => Some d | _ => None end
  else None.

Definition execute (request : list (string * json)) : DiffSemanticResponse :=
  match (sent ← prepare request; session sent) with
  | Ret r => mkSemantic (status_of r) (body_of r) ""
  | Raise e => mkSemantic 0 None (message e)
  end.
End runner.
End DiffSemanticRunner.

Module DiffSemanticVerifier.

(** [set(a.keys()) == set(b.keys())] *)
Definition same_keys (d e : list (string * json)) : bool :=
  forallb (fun kv => bool_decide (is_Some (field kv.1 e))) d && forallb (fun kv => bool_decide (is_Some (field kv.1 d))) e.

Fixpoint structure_compatible (a b : json) : bool :=
  match a, b with
  | JNull, JNull => true
  | JObj d, JObj e =>
      same_keys d e
      && (fix each l := match l with
                        | [] => true
                        | kv :: r => match field kv.1 e with
                                     | Some w => structure_compatible kv.2 w
                                     | None => false
                                     end && each r
                        end) d
  | JArr l, JArr m =>
      bool_decide (length l = length m)
      && (fix both l m := match l, m with
                          | x :: xs, y :: ys => structure_compatible x y && both xs ys
                          | _, _ => true
                          end) l m
  | JBool _, JBool _ | JInt _, JInt _ | JFloat _, JFloat _ | JStr _, JStr _ => true
  | _, _ => false
  end.

Definition as_json (body : option (list (string * json))) : json :=
  match body with Some d => JObj d | None => JNull end.

Definition readback_ok (state : DiffSemanticResponse) : bool :=
  match ds_body state with Some (_ :: _) => false | _ => true end.

Section verifier.
Context (execute : nat -> list (string * json) -> DiffSemanticResponse).

(** The response to the readback, when the payload asks for one. *)
Definition readback (n : nat) (d : DiffSemanticPayload) : option DiffSemanticResponse :=
  match state_readback d with
  | Some url => if PyStr.is_empty url then None else Some (execute n [("method", JStr "GET"); ("url", JStr url)])
  | None => None
  end.

(** The verdict on a payload, after the two requests and the readback. *)
Definition judge (n : nat) (d : DiffSemanticPayload) : ReproductionStatus :=
  let base := execute n (baseline_request d) in
  let assertion := execute n (assertion_request d) in
  if (ds_status base =? 0) || (ds_status assertion =? 0) then ReproductionStatus.SERVER_ERROR
  else
    let refused := bool_decide (ds_status assertion ∈ [400; 401; 403]) in
    let same := structure_compatible (as_json (ds_body base)) (as_json (ds_body assertion)) in
    let conclude state_ok :=
      Verification.decide_diff_outcome
        (mkAssertionResult (dp_expectation d) (mkDiffResponse (ds_status base) (ds_body base))
           (mkDiffResponse (ds_status assertion) (ds_body assertion)) refused same state_ok) in
    match readback n d with
    | Some state =>
        if ds_status state =? 0 then ReproductionStatus.SERVER_ERROR
        else conclude (Some (readback_ok state))
    | None => conclude None
    end.

Definition reproduce : Verifier := fun candidate method token =>
  c ← get;
  mret (match cf_diff candidate with
        | Some (DiffPayload d) => judge (draws c) d
        | _ => ReproductionStatus.FAILURE
        end).
End verifier.
End DiffSemanticVerifier.

(** ** Reproduction by scanning again *)

Record ScanResult : Type := mkScan { observations : list Observation; stdout : string }.

(** [InteractshTransport], with the polled records as JSON objects. *)
Record Transport : Type := mkTransport {
  register : nat -> outcome string;
  poll : nat -> string -> outcome (list (list (string * json)))
}.

Record OobInteraction : Type := mkInteraction { protocol : string; unique_id : string; oob_raw : string }.

Module InteractshClient.
Definition allocate_correlated (t : Transport) (n : nat) (token : string) : outcome (string * string) :=
  domain ← register t n;
  Ret (token +:+ "." +:+ domain, domain).

Definition text (k : string) (record : list (string * json)) : string := py_str (default (JStr "") (field k record)).

Definition collect (t : Transport) (n : nat) (token domain : string) : outcome (list OobInteraction) :=
  records ← poll t n domain;
  Ret ((fun r => mkInteraction (text "protocol" r) (text "unique_id" r) (text "raw" r))
         <$> List.filter (fun r => bool_decide (text "unique_id" r = token)) records).

Definition has_callback (t : Transport) (n : nat) (token domain : string) : outcome bool :=
  l ← collect t n token domain;
  Ret (bool_decide (l <> [])).
End InteractshClient.

Module RescanVerifier.

Definition OOB_PLACEHOLDER : string := "{{canary_oob_subdomain}}".

Fixpoint contains (v : json) (marker : string) : bool :=
  match v with
  | JStr s => PyStr.contains s marker
  | JArr l => (fix any l := match l with [] => false | x :: xs => contains x marker || any xs end) l
  | JObj d => (fix any l := match l with [] => false | kv :: r => contains kv.2 marker || any r end) d
  | _ => false
  end.

Fixpoint replace (v : json) (marker new : string) : json :=
  match v with
  | JStr s => JStr (if PyStr.contains s marker then PyStr.replace marker new s else s)
  | JArr l => JArr ((fix all l := match l with [] => [] | x :: xs => replace x marker new :: all xs end) l)
  | JObj d => JObj ((fix all l := match l with [] => [] | kv :: r => (kv.1, replace kv.2 marker new) :: all r end) d)
  | _ => v
  end.

Section verifier.
Context (audit_ok : AuditCall -> outcome unit).
Context (scan : nat -> json -> outcome ScanResult).

Definition verdict (b : bool) : ReproductionStatus := if b then ReproductionStatus.SUCCESS else ReproductionStatus.FAILURE.

(** The candidate's target against an observation, as texts. *)
Definition on_target (target : string) (o : Observation) : bool :=
  bool_decide (target = asset_identity o) || PyStr.contains (asset_identity o) target
  || PyStr.contains target (asset_identity o).

Definition by_callback (t : Transport) (n : nat) (kwargs : json) (token : string) : outcome ReproductionStatus :=
  a ← InteractshClient.allocate_correlated t n token;
  scan n (replace kwargs OOB_PLACEHOLDER a.1);;
  hit ← InteractshClient.has_callback t n token a.2;
  Ret (verdict hit).

Definition by_echo (kwargs : json) (token : string) : M CanaryState ReproductionStatus :=
  c ← get;
  result ← lift (scan (draws c) (replace kwargs Canary.CANARY_PLACEHOLDER token));
  echoed ← Canary.verify_echo audit_ok (stdout result) token "oracle";
  mret (verdict echoed).

Definition by_target (n : nat) (kwargs : json) (target : string) : outcome ReproductionStatus :=
  result ← scan n kwargs;
  Ret (verdict (existsb (on_target target) (observations result))).

Definition reproduce (scan_kwargs : json) (has_canary : bool) (interactsh : option Transport) : Verifier :=
  fun candidate method token =>
    let legacy :=
      if has_canary && PyStr.truthy token && contains scan_kwargs Canary.CANARY_PLACEHOLDER
      then by_echo scan_kwargs token
      else c ← get; lift (by_target (draws c) scan_kwargs (cf_target candidate)) in
    match interactsh with
    | Some t =>
        if (0 <? oob_window_seconds method) && PyStr.truthy token && contains scan_kwargs OOB_PLACEHOLDER
        then c ← get; lift (by_callback t (draws c) scan_kwargs token)
        else legacy
    | None => legacy
    end.
End verifier.
End RescanVerifier.

Module RescanVerifierFactory.
Section factory.
Context (audit_ok : AuditCall -> outcome unit).
Context (scan : nat -> json -> outcome ScanResult).
Context (execute : nat -> list (string * json) -> DiffSemanticResponse).
Context (template_host_dir : option string) (has_canary : bool) (interactsh : option Transport).
Context (method_registry : option Verification.Registry).

Definition probe_url (asset : string) : string :=
  asset +:+ (if PyStr.contains asset "?" then "&" else "?") +:+ "cb=" +:+ RescanVerifier.OOB_PLACEHOLDER.

Definition curated (v : VulnType) : option VerificationMethod :=
  r ← method_registry; Verification.method_for r v.

Definition scan_kwargs (url : string) : json :=
  JObj ([("adapter_key", JStr "nuclei");
         ("args", JArr (JStr <$> ["-t"; "/templates/"; "-u"; url; "-jsonl"; "-silent"; "-duc"]))]
        ++ match template_host_dir with
           | Some dir => if PyStr.truthy dir then [("mounts", JObj [("/templates", JStr dir)])] else []
           | None => []
           end).

(** The URL that is scanned for a finding of that kind. *)
Definition url_for (asset : string) (v : VulnType) : string :=
  if match curated v with Some m => echo_enabled m | None => false end
  then probe_url asset +:+ "&echo=" +:+ Canary.CANARY_PLACEHOLDER
  else probe_url asset.

Definition for_finding (f : Finding) (v : VulnType) : outcome Verifier :=
  Ret (if match curated v with Some m => diff_semantic m | None => false end
       then DiffSemanticVerifier.reproduce execute
       else RescanVerifier.reproduce audit_ok scan (scan_kwargs (url_for (fd_asset f) v)) has_canary interactsh).
End factory.
End RescanVerifierFactory.

(** ** Texts *)
Lemma contains_prefix p r : PyStr.contains (p +:+ r) p = true.
Proof. pose proof (PyStr.startswith_app p r) as H. destruct (p +:+ r); cbn [PyStr.contains]; by rewrite H. Qed.

Lemma contains_app a s sub : PyStr.contains s sub = true -> PyStr.contains (a +:+ s) sub = true.
Proof.
  intros H. induction a as [|c a IH]; [exact H|]. rewrite PyStr.app_cons. cbn [PyStr.contains].
  by rewrite IH, orb_true_r.
Qed.

Lemma replace_contains old new s :
  old <> "" -> PyStr.contains s old = true -> PyStr.contains (PyStr.replace old new s) new = true.
Proof.
  intros Hne. unfold PyStr.replace. induction s as [|c s IH].
  - by destruct old.
  - cbn [PyStr.replace_from]. destruct (PyStr.startswith (String c s) old) eqn:E.
    + intros _. apply contains_prefix.
    + cbn [PyStr.contains]. rewrite E. cbn [orb]. intros H. by rewrite (IH H), orb_true_r.
Qed.

(** ** What the backends promise the oracle *)
Module VerifierFacts.
Import RescanVerifier RescanVerifierFactory.

Section facts.
Context (token_urlsafe : nat -> string) (audit_ok : AuditCall -> outcome unit).
Context (scan : nat -> json -> outcome ScanResult).
Context (execute : nat -> list (string * json) -> DiffSemanticResponse).
Context (template_host_dir : option string) (has_canary : bool) (interactsh : option Transport).
Context (registry : Verification.Registry).

#[local] Notation factory :=
  (for_finding audit_ok scan execute template_host_dir has_canary interactsh (Some registry)).
#[local] Notation kwargs_of f v :=
  (scan_kwargs template_host_dir (url_for (Some registry) (fd_asset f) v)).

Lemma by_echo_steps kwargs token c :
  rtc (Canary.step token_urlsafe audit_ok) c (by_echo audit_ok scan kwargs token c).2.
Proof.
  unfold by_echo, get, lift, mbind, M_bind. destruct (scan _ _) as [r|e]; [|reflexivity].
  pose proof (Canary.step_verify token_urlsafe audit_ok c (stdout r) token "oracle") as H.
  destruct (Canary.verify_echo _ _ _ _ c) as [[b|e] c']; by apply rtc_once.
Qed.

(** The factory keeps the contract the batch service relies on. *)
#[export] Instance factory_is_lawful : OracleService.LawfulFactory token_urlsafe audit_ok factory.
Proof.
  intros f v ver [= <-] candidate method token c. case_match; [reflexivity|]. unfold reproduce.
  destruct interactsh as [t|]; repeat case_match; try reflexivity; apply by_echo_steps.
Qed.

(** A token was seen: it came back in the output of the scan that carried it,
    or as a callback under its own label. *)
Definition echoed (kwargs : json) (token : string) : Prop :=
  exists n r, scan n (replace kwargs Canary.CANARY_PLACEHOLDER token) = Ret r
    /\ PyStr.contains (stdout r) token = true.

Definition called_back (t : Transport) (kwargs : json) (token : string) : Prop :=
  exists n domain r records record, register t n = Ret domain
    /\ scan n (replace kwargs OOB_PLACEHOLDER (token +:+ "." +:+ domain)) = Ret r
    /\ poll t n domain = Ret records /\ record ∈ records
    /\ InteractshClient.text "unique_id" record = token.

Lemma verdict_success b : verdict b = ReproductionStatus.SUCCESS <-> b = true.
Proof. by destruct b. Qed.

(** A scan of what was built for the finding, without any token, that
    observed something on the target. *)
Definition seen_on_target (kwargs : json) (target : string) : Prop :=
  exists n r o, scan n kwargs = Ret r /\ o ∈ observations r /\ on_target target o = true.

Lemma by_target_success n kwargs target :
  by_target scan n kwargs target = Ret ReproductionStatus.SUCCESS -> seen_on_target kwargs target.
Proof.
  unfold by_target. intros (r & Hr & [= H])%bind_Ret. apply verdict_success in H.
  apply existsb_exists in H as (o & Ho & Hon). exists n, r, o. split_and!; [done|by apply list_elem_of_In|done].
Qed.


Lemma by_echo_success kwargs token c c' :
  by_echo audit_ok scan kwargs token c = (Ret ReproductionStatus.SUCCESS, c') -> echoed kwargs token.
Proof.
  unfold by_echo, get, lift, mbind, M_bind. destruct (scan _ _) as [r|e] eqn:Es; [|done].
  pose proof (Canary.verify_echo_spec audit_ok (stdout r) token "oracle" c) as H.
  destruct (Canary.verify_echo _ _ _ _ c) as [[b|e] c1]; [|done]. cbn. intros [= Hb%verdict_success _]. subst b.
  exists (draws c), r. split; [done|]. repeat case_decide; destruct_and?; try done.
  match goal with H : _ \/ _ |- _ => destruct H as [[= ->]|(? & ? & [=] & _)] end. done.
Qed.

Lemma by_callback_success t n kwargs token :
  by_callback scan t n kwargs token = Ret ReproductionStatus.SUCCESS -> called_back t kwargs token.
Proof.
  unfold by_callback, InteractshClient.allocate_correlated, InteractshClient.has_callback, InteractshClient.collect.
  intros H. inv_ret. rewrite verdict_success, bool_decide_eq_true in H2. cbn [fst snd] in *.
  destruct (List.filter _ x3) as [|r l] eqn:Ef; [by destruct H2|].
  assert (Hin : r ∈ List.filter (fun r => bool_decide (InteractshClient.text "unique_id" r = token)) x3)
    by (rewrite Ef; left).
  apply elem_filter in Hin as [Hin Hid%bool_decide_eq_true].
  eexists n, _, _, _, r. split_and!; eauto.
Qed.

(** ** The probe *)

Lemma url_in_args url marker :
  PyStr.contains url marker = true -> contains (scan_kwargs template_host_dir url) marker = true.
Proof.
  intros H. unfold scan_kwargs. cbn -[PyStr.contains]. rewrite H. cbn. rewrite !orb_true_r. done.
Qed.

Lemma probe_has_oob asset v : PyStr.contains (url_for (Some registry) asset v) OOB_PLACEHOLDER = true.
Proof.
  assert (H : PyStr.contains (probe_url asset) OOB_PLACEHOLDER = true).
  { unfold probe_url. do 2 apply contains_app. reflexivity. }
  unfold url_for. destruct (match curated _ _ with Some _ => _ | None => _ end); [|exact H].
  unfold probe_url. rewrite !PyStr.app_assoc. do 2 apply contains_app. reflexivity.
Qed.

Lemma probe_has_echo asset v m :
  registry !! v = Some m -> echo_enabled m = true ->
  PyStr.contains (url_for (Some registry) asset v) Canary.CANARY_PLACEHOLDER = true.
Proof.
  intros Hm He. unfold url_for, curated, Verification.method_for. cbn. rewrite Hm, He.
  apply contains_app. reflexivity.
Qed.

Lemma attempts_each verifier cand m actor c l c' :
  OracleEngine.attempts_run token_urlsafe audit_ok verifier cand m actor c l c' ->
  Forall (fun a => exists c1 c2, a.1 ∈ issued c1 /\ verifier cand m a.1 c1 = (Ret a.2, c2)) l.
Proof.
  induction 1 as [|c r c1 l c' Ha _ IH]; constructor; [|done]. clear IH. unfold OracleEngine.attempt in Ha.
  unfold mbind, M_bind in Ha.
  destruct (Canary.generate _ _ _ _ c) as [[t|e] d] eqn:Eg; [|done].
  destruct (verifier cand m t d) as [[s|e] d'] eqn:Ev; [|done]. injection Ha as <- <-. cbn. exists d, d'.
  split; [|done]. clear Ev. unfold Canary.generate, get, lift, modify, mbind, M_bind in Eg.
  destruct (Canary.draw _ _ _ _) as [[t' n']|]; cbn in Eg; [|done].
  match type of Eg with context [Canary.record ?a ?b ?c] =>
    destruct (Canary.record_spec a b c) as (k & Hs & _); destruct (Canary.record a b c) as [[u|e] d0] end; [|done].
  cbn [mret M_ret snd] in *. injection Eg as <- <-. subst d0. cbn. set_solver.
Qed.

(** What one successful reproduction shows, by the kind of the method. *)
(** No callback is waited for. *)
Definition no_callback (m : VerificationMethod) : Prop := interactsh = None \/ oob_window_seconds m <= 0.

(** What one successful reproduction has seen: its callback, its token, or
    anything on the target. *)
Record earned (f : Finding) (v : VulnType) (m : VerificationMethod) (target token : string) : Prop := {
  earned_callback : forall t, interactsh = Some t -> 0 < oob_window_seconds m -> called_back t (kwargs_of f v) token;
  earned_echo : no_callback m -> has_canary = true -> contains (kwargs_of f v) Canary.CANARY_PLACEHOLDER = true ->
    echoed (kwargs_of f v) token;
  earned_sight : no_callback m -> has_canary = false \/ contains (kwargs_of f v) Canary.CANARY_PLACEHOLDER = false ->
    seen_on_target (kwargs_of f v) target
}.

Lemma echo_in_args f v m : registry !! v = Some m -> echo_enabled m = true ->
  contains (kwargs_of f v) Canary.CANARY_PLACEHOLDER = true.
Proof. intros Hm He. by eapply url_in_args, probe_has_echo. Qed.

Lemma rescan_success f v m cand token c1 c2 :
  PyStr.truthy token = true ->
  reproduce audit_ok scan (kwargs_of f v) has_canary interactsh cand m token c1 = (Ret ReproductionStatus.SUCCESS, c2) ->
  earned f v m (cf_target cand) token.
Proof.
  intros Ht. unfold reproduce. rewrite Ht, (url_in_args _ _ (probe_has_oob _ _)), andb_true_r.
  set (legacy := if has_canary && true && contains (kwargs_of f v) Canary.CANARY_PLACEHOLDER
      then by_echo audit_ok scan (kwargs_of f v) token
      else c ← get; lift (by_target scan (draws c) (kwargs_of f v) (cf_target cand))).
  assert (Hleg : legacy c1 = (Ret ReproductionStatus.SUCCESS, c2) ->
    (has_canary = true -> contains (kwargs_of f v) Canary.CANARY_PLACEHOLDER = true -> echoed (kwargs_of f v) token)
    /\ (has_canary = false \/ contains (kwargs_of f v) Canary.CANARY_PLACEHOLDER = false ->
        seen_on_target (kwargs_of f v) (cf_target cand))).
  { unfold legacy. intros H. split.
    - intros -> Hc. rewrite Hc in H. by eapply by_echo_success.
    - intros Hn. assert (has_canary && true && contains (kwargs_of f v) Canary.CANARY_PLACEHOLDER = false) as E.
      { destruct Hn as [->| ->]; [done|]. by rewrite andb_false_r. }
      rewrite E in H. unfold get, lift, mbind, M_bind in H. injection H as H _. by eapply by_target_success. }
  destruct interactsh as [t|] eqn:Ei.
  - destruct (Z.ltb_spec 0 (oob_window_seconds m)); cbn [andb]; intros E0.
    + split; [|by intros [?|?]; [congruence|lia]..]. intros t' Et' _. assert (t' = t) as -> by congruence. unfold get, lift, mbind, M_bind in E0.
      destruct (by_callback _ _ _ _ _) as [s|e] eqn:E; [|done]. injection E0 as -> _.
      by eapply by_callback_success.
    + destruct (Hleg E0) as [H1 H2]. split; [lia|auto..].
  - intros H. destruct (Hleg H) as [H1 H2]. split; [congruence|auto..].
Qed.

Context `{!Inj (=) (=) token_urlsafe}.

(** C18: A confirmation is earned N times. When the oracle confirms a finding by
    scanning again, it ran the N reproductions of the curated method with N
    distinct tokens none of which was issued before, and every one of them
    succeeded: for a kind with a callback window, when an interactsh client is
    wired, it got a callback labelled with its token from a scan that carried
    that label; otherwise, for a kind verified by echo when a canary is wired,
    its scan carried the token in the URL and printed it; and otherwise its
    scan observed something on the target of the candidate. *)
Theorem confirmations_carry_their_tokens f v m ver candidate actor c r c' :
  Canary.wf token_urlsafe c -> (forall n, token_urlsafe n <> "") ->
  (forall v m, registry !! v = Some m -> 1 <= default_n m) ->
  registry !! v = Some m -> diff_semantic m = false -> factory f v = Ret ver -> cf_vuln_type candidate = v ->
  OracleEngine.verify token_urlsafe audit_ok registry ver candidate actor c = (Ret r, c') ->
  vr_status r = VerificationStatus.CONFIRMED ->
  exists tokens, Z.of_nat (length tokens) = default_n m /\ NoDup tokens /\ Forall (fun t => t ∉ issued c) tokens
    /\ Forall (earned f v m (cf_target candidate)) tokens
    /\ (echo_enabled m = true ->
        contains (kwargs_of f v) Canary.CANARY_PLACEHOLDER = true
        /\ Forall (fun tok => PyStr.contains (PyStr.replace Canary.CANARY_PLACEHOLDER tok
                                 (url_for (Some registry) (fd_asset f) v)) tok = true) tokens).
Proof.
  intros Hwf Htok Hreg Hm Hd Hf Hv Hver Hst.
  assert (Hlaw : OracleEngine.LawfulVerifier token_urlsafe audit_ok ver) by by apply (factory_is_lawful f v).
  destruct (OracleEngine.verify_Ret token_urlsafe audit_ok registry ver candidate actor c r c' Hreg Hver)
    as (m' & l & Hm' & Hrun & Hlen & _ & _ & Hdec). rewrite Hv, Hm in Hm'. injection Hm' as <-.
  destruct (OracleEngine.attempts_run_fresh token_urlsafe audit_ok ver candidate m actor c l c' Hwf Hrun)
    as (Hwf' & _ & Hnd & Hfresh).
  assert (Hall : Forall (fun a => a.2 = ReproductionStatus.SUCCESS) l).
  { apply OracleEngine.occurrences_all. rewrite Hst in Hdec. unfold Verification.decide_outcome in Hdec.
    pose proof (OracleEngine.occurrences_bounds ReproductionStatus.SUCCESS l).
    rewrite Z.leb_refl in Hdec. destruct (Z.leb_spec (default_n m) (OracleEngine.occurrences ReproductionStatus.SUCCESS l)); [lia|].
    by destruct (_ <=? _). }
  assert (Hever : ver = reproduce audit_ok scan (kwargs_of f v) has_canary interactsh).
  { injection Hf as <-. unfold curated, Verification.method_for. cbn. by rewrite Hm, Hd. }
  apply attempts_each in Hrun. exists l.*1. rewrite length_fmap.
  assert (Hkey : Forall (fun tok => exists c1 c2, PyStr.truthy tok = true
    /\ reproduce audit_ok scan (kwargs_of f v) has_canary interactsh candidate m tok c1 = (Ret ReproductionStatus.SUCCESS, c2)) l.*1).
  { apply Forall_fmap, Forall_forall. intros a Ha. rewrite Forall_forall in Hrun, Hall. rewrite Forall_forall in Hfresh.
    destruct (Hrun a Ha) as (c1 & c2 & _ & E). rewrite (Hall a Ha), Hever in E. exists c1, c2. split; [|exact E]. cbn.
    destruct (Hfresh a.1 (list_elem_of_fmap_2 fst l a Ha)) as [_ Hin].
    destruct (Canary.wf_drawn _ _ Hwf' _ Hin) as (k & _ & ->). by apply PyStr.truthy_true. }
  split_and!; [done|done|eapply Forall_impl; [exact Hfresh|by intros x [? _]]| |].
  - eapply Forall_impl; [exact Hkey|]. intros tok (c1 & c2 & Ht & E). by eapply rescan_success.
  - intros He. split; [by eapply echo_in_args|]. apply Forall_forall. intros tok _.
    apply replace_contains; [done|]. by eapply probe_has_echo.
Qed.

(** The batch never confirms a differential finding. The candidate it builds
    has no requests to compare, so every reproduction fails: a finding whose
    kind is verified by differential semantics is always refuted. *)
Lemma batch_refutes_differential_findings f v m ver actor cand c r c' :
  (forall v m, registry !! v = Some m -> 1 <= default_n m /\ 1 <= server_error_threshold m) ->
  registry !! v = Some m -> diff_semantic m = true -> factory f v = Ret ver ->
  OracleService.candidate_of f v = Ret cand ->
  OracleEngine.verify token_urlsafe audit_ok registry ver cand actor c = (Ret r, c') ->
  vr_status r = VerificationStatus.REFUTED.
Proof.
  intros Hreg Hm Hd Hf Hcand Hver. pose proof Hcand as (_ & Hvt & _)%OracleService.candidate_of_Ret.
  assert (Hcd : cf_diff cand = None).
  { unfold OracleService.candidate_of, Verification.check_candidate in Hcand. by inv_ret. }
  destruct (OracleEngine.verify_Ret token_urlsafe audit_ok registry ver cand actor c r c'
    (fun v m H => proj1 (Hreg v m H)) Hver) as (m' & l & Hm' & Hrun & Hlen & _ & _ & Hdec).
  rewrite Hvt, Hm in Hm'. injection Hm' as <-. destruct (Hreg v m Hm) as [Hn Hthr].
  assert (Hever : ver = DiffSemanticVerifier.reproduce execute).
  { injection Hf as <-. unfold curated, Verification.method_for. cbn. by rewrite Hm, Hd. }
  assert (Hall : Forall (fun a => a.2 = ReproductionStatus.FAILURE) l).
  { apply attempts_each in Hrun. eapply Forall_impl; [exact Hrun|]. intros a (c1 & c2 & _ & E).
    rewrite Hever in E. unfold DiffSemanticVerifier.reproduce, get, mbind, M_bind, mret, M_ret in E.
    rewrite Hcd in E. by injection E as <- _. }
  assert (Hz : forall s, s <> ReproductionStatus.FAILURE -> OracleEngine.occurrences s l = 0).
  { intros s Hs. unfold OracleEngine.occurrences. clear -Hall Hs.
    induction Hall as [|a l Ha _ IH]; [done|]. cbn [List.filter]. by rewrite Ha, bool_decide_false. }
  rewrite Hdec, !Hz by done. unfold Verification.decide_outcome. rewrite Z.leb_refl.
  destruct (Z.leb_spec (default_n m) 0); [lia|]. destruct (Z.leb_spec (server_error_threshold m) 0); [lia|done].
Qed.
End facts.

(** ** The differential verdict *)
Section differential.
Context (execute : nat -> list (string * json) -> DiffSemanticResponse).

Definition reached (r : DiffSemanticResponse) : Prop := ds_status r <> 0.

Lemma some_exists {A} (a : A) P : (exists r, Some a = Some r /\ P r) <-> P a.
Proof. naive_solver. Qed.
Lemma some_forall {A} (a : A) (P : A -> Prop) : (forall r, Some a = Some r -> P r) <-> P a.
Proof. naive_solver. Qed.

(** The verdict on a differential candidate is exact. It is inconclusive when
    a request or the readback does not get through; otherwise the candidate
    fails exactly when the suspect request was refused (400, 401, 403) or, for
    a single spend, the readback shows a residue; and it succeeds exactly when
    the request was accepted and, for a denial or a single spend, answered
    with the structure of the allowed one. *)
Theorem differential_verdict_is_exact n d :
  let base := execute n (baseline_request d) in
  let suspect := execute n (assertion_request d) in
  let through := reached base /\ reached suspect /\ (forall r, DiffSemanticVerifier.readback execute n d = Some r -> reached r) in
  let refused := ds_status suspect ∈ [400; 401; 403] in
  let same := DiffSemanticVerifier.structure_compatible (DiffSemanticVerifier.as_json (ds_body base))
                (DiffSemanticVerifier.as_json (ds_body suspect)) = true in
  let residue := exists r, DiffSemanticVerifier.readback execute n d = Some r /\ DiffSemanticVerifier.readback_ok r = false in
  let state_machine := dp_expectation d ∈ [Expectation.STATE_REJECT; Expectation.STATE_CHANGE] in
  let v := DiffSemanticVerifier.judge execute n d in
  (v = ReproductionStatus.SUCCESS <->
     through /\ ~ refused /\ (state_machine \/ same)
     /\ ~ (dp_expectation d = Expectation.SINGLE_SPEND /\ residue))
  /\ (v = ReproductionStatus.FAILURE <->
     through /\ (refused \/ (dp_expectation d = Expectation.SINGLE_SPEND /\ residue))).
Proof.
  cbv zeta. assert (Hsm : dp_expectation d ∈ [Expectation.STATE_REJECT; Expectation.STATE_CHANGE]
    <-> dp_expectation d = Expectation.STATE_REJECT \/ dp_expectation d = Expectation.STATE_CHANGE) by set_solver.
  rewrite Hsm. clear Hsm. unfold DiffSemanticVerifier.judge, reached, Verification.decide_diff_outcome.
  cbn [expectation refused structure_same state_ok].
  destruct (Z.eqb_spec (ds_status (execute n (baseline_request d))) 0); cbn [orb]; [naive_solver|].
  destruct (Z.eqb_spec (ds_status (execute n (assertion_request d))) 0); cbn [orb]; [naive_solver|].
  rewrite (bool_decide_decide (_ ∈ [400; 401; 403])).
  set (same := DiffSemanticVerifier.structure_compatible _ _). clearbody same.
  destruct (decide (ds_status (execute n (assertion_request d)) ∈ [400; 401; 403])) as [Hr|Hr];
  (destruct (DiffSemanticVerifier.readback execute n d) as [state|];
    [rewrite some_exists, some_forall;
     destruct (Z.eqb_spec (ds_status state) 0); [naive_solver|destruct (DiffSemanticVerifier.readback_ok state)]|]);
  destruct (dp_expectation d), same; cbn;
  try change (bool_decide (Some true = Some false)) with false; cbn; naive_solver.
Qed.
End differential.
End VerifierFacts.

(** ** Concrete runs *)
Module VerifierDemo.
Import RescanVerifierFactory.

(** A scanner that prints its arguments, a server that reports nothing. *)
Definition demo_scan (n : nat) (kwargs : json) : outcome ScanResult := Ret (mkScan [] (py_str kwargs)).
Definition demo_execute (n : nat) (request : list (string * json)) : DiffSemanticResponse := mkSemantic 200 None "".
Definition demo_transport : Transport :=
  mkTransport (fun _ => Ret "oast.example") (fun _ _ => Ret []).
Definition demo_finding : Finding :=
  mkFinding "f1" "fp" "t" "https://shop.example/a?x=1" Severity.HIGH ["CWE-79"] [] [] ["o1"] []
    FindingStatus.CANDIDATE "as1" VerificationStatus.PENDING.
Definition demo_candidate (v : VulnType) : CandidateFinding :=
  mkCandidate "f1" "o1" v "https://shop.example/a" VerificationStatus.PENDING None.
Definition demo_factory (scan : nat -> json -> outcome ScanResult) (interactsh : option Transport) (v : VulnType)
  : outcome Verifier :=
  for_finding Canary.demo_audit scan demo_execute None true interactsh (Some OracleService.demo_registry) demo_finding v.
Definition demo_verify (scan : nat -> json -> outcome ScanResult) (interactsh : option Transport) (v : VulnType)
  : outcome VerificationStatus :=
  ver ← demo_factory scan interactsh v;
  r ← (OracleEngine.verify Canary.demo_token Canary.demo_audit OracleService.demo_registry ver (demo_candidate v)
         "oracle" Canary.initial).1;
  Ret (vr_status r).

Lemma demo_token_nonempty n : Canary.demo_token n <> "".
Proof. done. Qed.

Lemma confirmations_carry_their_tokens_witness :
  demo_verify demo_scan None VulnType.XSS = Ret VerificationStatus.CONFIRMED
  /\ exists tokens, Z.of_nat (length tokens) = 3 /\ NoDup tokens
     /\ Forall (fun t => VerifierFacts.echoed demo_scan
          (scan_kwargs None (url_for (Some OracleService.demo_registry) (fd_asset demo_finding) VulnType.XSS)) t) tokens.
Proof.
  assert (H : demo_verify demo_scan None VulnType.XSS = Ret VerificationStatus.CONFIRMED) by (vm_compute; reflexivity).
  split; [exact H|]. unfold demo_verify in H.
  destruct (demo_factory demo_scan None VulnType.XSS) as [ver|e] eqn:Ef; [|discriminate H]. cbn [mbind outcome_bind] in H.
  destruct (OracleEngine.verify Canary.demo_token Canary.demo_audit OracleService.demo_registry ver (demo_candidate VulnType.XSS)
         "oracle" Canary.initial) as [[r|e] c'] eqn:Ev; [|discriminate H]. cbn in H. injection H as H.
  destruct (VerifierFacts.confirmations_carry_their_tokens Canary.demo_token Canary.demo_audit demo_scan demo_execute None true None
    OracleService.demo_registry demo_finding VulnType.XSS (Verification.echo VulnType.XSS 3) ver (demo_candidate VulnType.XSS)
    "oracle" Canary.initial r c' (Canary.initial_wf _) demo_token_nonempty OracleService.demo_registry_ok)
    as (tokens & H1 & H2 & _ & H3 & H4); [vm_compute; reflexivity|reflexivity|exact Ef|reflexivity|exact Ev|exact H|].
  exists tokens. split; [exact H1|]. split; [exact H2|].
  eapply Forall_impl; [exact H3|]. intros t Ht.
  exact (VerifierFacts.earned_echo _ _ _ _ _ _ _ _ _ _ Ht (or_introl eq_refl) eq_refl (proj1 (H4 eq_refl))).
Defined.

(** Any observation on the target confirms a kind that carries no token: the
    rescan asks whether something was seen there, not whether this was. *)
Definition banner : Observation :=
  mkObservation "o9" "https://shop.example/a" (mkAdapterSource "nuclei" "1" "1") "tech-detect" "1" CoverageDomain.WEB
    "nginx banner" Severity.INFO (flt "1.0") [] [] [] [] [].
Example any_observation_confirms :
  demo_verify (fun _ _ => Ret (mkScan [banner] "")) None VulnType.SQLI = Ret VerificationStatus.CONFIRMED.
Proof. vm_compute. reflexivity. Qed.

(** Without an interactsh client an out-of-band kind falls back to that. *)
Example no_client_needs_no_callback :
  demo_verify (fun _ _ => Ret (mkScan [banner] "")) None VulnType.SSRF = Ret VerificationStatus.CONFIRMED
  /\ demo_verify (fun _ _ => Ret (mkScan [banner] "")) (Some demo_transport) VulnType.SSRF = Ret VerificationStatus.REFUTED.
Proof. split; vm_compute; reflexivity. Qed.

(** A differential kind is refuted by the batch, whatever the target does. *)
Example differential_kind_is_refuted :
  demo_verify (fun _ _ => Ret (mkScan [banner] "")) None VulnType.IDOR = Ret VerificationStatus.REFUTED.
Proof. vm_compute. reflexivity. Qed.

Example structures :
  DiffSemanticVerifier.structure_compatible (JObj [("a", JInt 1); ("b", JArr [JStr "x"])])
    (JObj [("b", JArr [JStr "y"]); ("a", JInt 2)]) = true
  /\ DiffSemanticVerifier.structure_compatible (JObj [("a", JInt 1)]) (JObj [("a", JBool true)]) = false
  /\ DiffSemanticVerifier.structure_compatible JNull (JObj []) = false.
Proof. split_and!; reflexivity. Qed.
End VerifierDemo.
