(* ===== verification/LoopModels.v ===== *)
(** * The reasoning loop: data

    Models [src/secopent/domain/reasoning_loop/models.py] and
    [domain/reasoning_loop/policies.py]: the loop's phases, budget, proposals,
    context, verdicts, steps and state, and the termination rule. *)
From S2P Require Import Prelude PyStr PyTime PyFloat Sha256 Canonical.

#[local] Open Scope Z_scope.

Module LoopPhase.
Inductive t : Type :=
| INITIALIZING | RUNNING | CONVERGED | CATALOG_FLOOR_DONE | PAUSED | RESUMED
| BUDGET_EXHAUSTED | POLICY_BLOCKED | EMERGENCY_STOPPED | COMPLETED.
#[export] Instance eq_dec : EqDecision t.
Proof. solve_decision. Defined.
Definition to_string (s : t) : string :=
  match s with
  | INITIALIZING => "initializing" | RUNNING => "running" | CONVERGED => "converged"
  | CATALOG_FLOOR_DONE => "catalog_floor_done" | PAUSED => "paused" | RESUMED => "resumed"
  | BUDGET_EXHAUSTED => "budget_exhausted" | POLICY_BLOCKED => "policy_blocked"
  | EMERGENCY_STOPPED => "emergency_stopped" | COMPLETED => "completed"
  end.
#[export] Program Instance strenum : StrEnum t :=
  { value := to_string;
    members := [INITIALIZING; RUNNING; CONVERGED; CATALOG_FLOOR_DONE; PAUSED; RESUMED;
                  BUDGET_EXHAUSTED; POLICY_BLOCKED; EMERGENCY_STOPPED; COMPLETED] }.
Next Obligation. solve_members. Qed.
Next Obligation. solve_value_inj. Qed.
End LoopPhase.
Notation LoopPhase := LoopPhase.t.

Module LoopActionType.
Inductive t : Type :=
| RUN_TOOL | RUN_CASE | REQUEST_PEER | REQUEST_ORACLE | REQUEST_CHAIN | ABORT_STEP.
#[export] Instance eq_dec : EqDecision t.
Proof. solve_decision. Defined.
Definition to_string (s : t) : string :=
  match s with
  | RUN_TOOL => "run_tool" | RUN_CASE => "run_case" | REQUEST_PEER => "request_peer"
  | REQUEST_ORACLE => "request_oracle" | REQUEST_CHAIN => "request_chain"
  | ABORT_STEP => "abort_step"
  end.
#[export] Program Instance strenum : StrEnum t :=
  { value := to_string;
    members := [RUN_TOOL; RUN_CASE; REQUEST_PEER; REQUEST_ORACLE; REQUEST_CHAIN; ABORT_STEP] }.
Next Obligation. solve_members. Qed.
Next Obligation. solve_value_inj. Qed.
End LoopActionType.
Notation LoopActionType := LoopActionType.t.
Export (hints) LoopPhase LoopActionType.

(** [LoopId]: the value; [loop_id_ok] is the check of its constructor. *)
Definition LoopId : Type := string.

Record LoopBudget : Type := mkBudget {
  max_steps : Z;
  max_total_tokens : Z;
  max_wall_seconds : Z;
  steps_used : Z;
  tokens_used : Z;
  wall_seconds_used : Z
}.

Record LoopBudgetSnapshot : Type := mkSnapshot {
  steps_remaining : Z;
  tokens_remaining : Z;
  wall_seconds_remaining : Z
}.

Record ProposeAction : Type := mkAction {
  action_type : LoopActionType;
  action_payload : list (string * json);
  rationale : string;
  action_confidence : pyfloat;
  action_hypothesis_id : option string;
  catalog_class_targeted : option string
}.

Record ObservationSummary : Type := mkObservationSummary {
  os_observation_id : string;
  os_tool_or_case_id : string;
  os_target_digest : string;
  os_key_signals : list string;
  os_confidence : pyfloat;
  os_has_full_text : bool;
  os_full_text_ref : option string;
  os_token_estimate : Z
}.

Record AvailableCapability : Type := mkCapability {
  capability_id : string;
  cap_kind : string;
  cap_summary : string;
  cap_risk_class : string;
  cap_cwe : list string
}.

Record PendingHypothesis : Type := mkHypothesis {
  hypothesis_id : string;
  hyp_description : string;
  needed_cwe : list string
}.

Record HandbookSummary : Type := mkHandbook {
  hb_id : string;
  hb_title : string;
  attack_surface : list string;
  recon_endpoints : list string;
  payload_classes : list string;
  verification_hint : string
}.

(** The two [frozenset] fields are sets; the tuples are lists. *)
Record LoopContext : Type := mkContext {
  asset_subgraph : list string;
  recent_observations : list ObservationSummary;
  observation_token_count : Z;
  catalog_already_executed : gset string;
  catalog_still_required : gset string;
  catalog_floor_progress : pyfloat;
  unconfirmed_candidates : list string;
  confirmed_findings_recent : list string;
  chain_hypotheses_pending : list PendingHypothesis;
  available_tools : list AvailableCapability;
  available_cases : list AvailableCapability;
  available_peers : list string;
  budget_remaining : LoopBudgetSnapshot;
  loop_step : Z;
  ctx_max_steps : Z;
  elapsed_seconds : Z;
  handbook_hints : list HandbookSummary
}.

(** The [PolicyDecision] recorded in a step (not the policy engine's). *)
Record StepDecision : Type := mkDecision {
  verdict_allow : bool;
  decision_reason : string;
  decision_deny_code : option string
}.

Record GateVerdict : Type := mkVerdict {
  passed : bool;
  verdict_reason : string;
  deny_code : option string;
  permit_id : option string;
  permit_ttl_seconds : option Z
}.

Record LoopState : Type := mkLoopState {
  ls_loop_id : LoopId;
  ls_assessment_id : string;
  phase : LoopPhase;
  policy_snapshot : string;
  budget : LoopBudget;
  ls_context_hash : string;
  catalog_required_remaining : gset string;
  catalog_required_executed : gset string;
  consecutive_no_signal : Z;
  consecutive_policy_rejected : Z;
  started_at : datetime;
  last_step_at : option datetime;
  pause_attempts : Z;
  paused_at : option datetime;
  resumed_at : option datetime
}.

Record LoopStep : Type := mkStep {
  step_id : string;
  st_loop_id : LoopId;
  step_number : Z;
  timestamp : datetime;
  context_hash_before : string;
  proposed_action : ProposeAction;
  propose_tokens_used : Z;
  propose_latency_ms : Z;
  propose_rationale : string;
  schema_check_passed : bool;
  policy_decision : StepDecision;
  st_permit_id : option string;
  tool_or_case_id : json;
  execution_result_digest : string;
  st_evidence_refs : list string;
  observation_signals : list string;
  catalog_class_matched : gset string;
  oracle_progressed : bool;
  correlation_id : string
}.

Record LoopTerminationPolicy : Type := mkPolicy {
  pol_max_steps : Z;
  max_wall_clock_seconds : Z;
  pol_max_total_tokens : Z;
  no_signal_streak_to_converge : Z;
  policy_rejected_streak_to_stop : Z;
  require_min_confirmed : Z;
  max_pauses : Z
}.

Record LoopPlan : Type := mkPlan {
  lp_plan_id : string;
  lp_loop_id : LoopId;
  lp_assessment_id : string;
  termination_policy : LoopTerminationPolicy;
  lp_policy_snapshot : string;
  lp_created_at : datetime
}.

Module LoopModels.

Definition is_hex_lower (c : ascii) : bool :=
  let n := N_of_ascii c in ((48 <=? n) && (n <=? 57) || (97 <=? n) && (n <=? 102))%N.

(** [^\[0-9a-f\]{8}$] with [fullmatch]. *)
Definition loop_id_ok (s : string) : bool := (PyStr.len s =? 8) && PyStr.forallb is_hex_lower s.

Definition make_loop_id (s : string) : outcome LoopId :=
  raise_if (negb (loop_id_ok s))
    (ValueError ("LoopId must be 8 lowercase hex chars, got: " +:+ PyStr.repr s));; Ret s.

Definition default_budget : LoopBudget := mkBudget 50 200000 1800 0 0 0.

Definition consume (steps tokens wall_seconds : Z) (b : LoopBudget) : LoopBudget :=
  mkBudget (max_steps b) (max_total_tokens b) (max_wall_seconds b) (steps_used b + steps)
    (tokens_used b + tokens) (wall_seconds_used b + wall_seconds).

Definition snapshot (b : LoopBudget) : LoopBudgetSnapshot :=
  mkSnapshot (Z.max 0 (max_steps b - steps_used b)) (Z.max 0 (max_total_tokens b - tokens_used b))
    (Z.max 0 (max_wall_seconds b - wall_seconds_used b)).

Definition exhausted (b : LoopBudget) : bool :=
  (max_steps b <=? steps_used b) || (max_total_tokens b <=? tokens_used b)
  || (max_wall_seconds b <=? wall_seconds_used b).

(** ** The context's content address *)
Definition jset_of (s : gset string) : json := Canonical.jset (elements s).

Definition observation_json (o : ObservationSummary) : outcome json :=
  conf ← Canonical.json_of_float (os_confidence o);
  Ret (JObj [("observation_id", JStr (os_observation_id o)); ("tool_or_case_id", JStr (os_tool_or_case_id o));
             ("target_digest", JStr (os_target_digest o)); ("key_signals", Canonical.jstrs (os_key_signals o));
             ("confidence", conf); ("has_full_text", JBool (os_has_full_text o));
             ("full_text_ref", Canonical.jopt JStr (os_full_text_ref o));
             ("token_estimate", JInt (os_token_estimate o))]).

Definition capability_json (c : AvailableCapability) : json :=
  JObj [("capability_id", JStr (capability_id c)); ("kind", JStr (cap_kind c)); ("summary", JStr (cap_summary c));
        ("risk_class", JStr (cap_risk_class c)); ("cwe", Canonical.jstrs (cap_cwe c))].

Definition hypothesis_json (h : PendingHypothesis) : json :=
  JObj [("hypothesis_id", JStr (hypothesis_id h)); ("description", JStr (hyp_description h));
        ("needed_cwe", Canonical.jstrs (needed_cwe h))].

Definition handbook_json (h : HandbookSummary) : json :=
  JObj [("id", JStr (hb_id h)); ("title", JStr (hb_title h)); ("attack_surface", Canonical.jstrs (attack_surface h));
        ("recon_endpoints", Canonical.jstrs (recon_endpoints h));
        ("payload_classes", Canonical.jstrs (payload_classes h)); ("verification_hint", JStr (verification_hint h))].

Definition snapshot_json (s : LoopBudgetSnapshot) : json :=
  JObj [("steps_remaining", JInt (steps_remaining s)); ("tokens_remaining", JInt (tokens_remaining s));
        ("wall_seconds_remaining", JInt (wall_seconds_remaining s))].

Definition context_body (c : LoopContext) : outcome json :=
  obs ← mapM_outcome observation_json (recent_observations c);
  progress ← Canonical.json_of_float (catalog_floor_progress c);
  Ret (JObj
    [("asset_subgraph", Canonical.jstrs (asset_subgraph c)); ("recent_observations", JArr obs);
     ("observation_token_count", JInt (observation_token_count c));
     ("catalog_already_executed", jset_of (catalog_already_executed c));
     ("catalog_still_required", jset_of (catalog_still_required c));
     ("catalog_floor_progress", progress);
     ("unconfirmed_candidates", Canonical.jstrs (unconfirmed_candidates c));
     ("confirmed_findings_recent", Canonical.jstrs (confirmed_findings_recent c));
     ("chain_hypotheses_pending", JArr (hypothesis_json <$> chain_hypotheses_pending c));
     ("available_tools", JArr (capability_json <$> available_tools c));
     ("available_cases", JArr (capability_json <$> available_cases c));
     ("available_peers", Canonical.jstrs (available_peers c));
     ("handbook_hints", JArr (handbook_json <$> handbook_hints c));
     ("budget_remaining", snapshot_json (budget_remaining c));
     ("loop_step", JInt (loop_step c)); ("max_steps", JInt (ctx_max_steps c));
     ("elapsed_seconds", JInt (elapsed_seconds c))]).

(** [canonical_json] refuses a NaN or infinite float. *)
Definition context_hash (c : LoopContext) : outcome string :=
  body ← context_body c; Ret (Sha256.hexdigest (Canonical.canonical_json body)).

(** ** Termination *)
Definition default_policy : LoopTerminationPolicy := mkPolicy 50 1800 200000 5 3 0 3.

Definition pause_budget_exceeded (p : LoopTerminationPolicy) (attempts : Z) : bool := max_pauses p <=? attempts.

Definition evaluate_termination (s : LoopState) (p : LoopTerminationPolicy) : LoopPhase :=
  match phase s with
  | LoopPhase.EMERGENCY_STOPPED => LoopPhase.EMERGENCY_STOPPED
  | LoopPhase.PAUSED => LoopPhase.PAUSED
  | _ =>
      if exhausted (budget s) then LoopPhase.BUDGET_EXHAUSTED
      else if policy_rejected_streak_to_stop p <=? consecutive_policy_rejected s then LoopPhase.POLICY_BLOCKED
      else if no_signal_streak_to_converge p <=? consecutive_no_signal s then LoopPhase.CONVERGED
      else LoopPhase.RUNNING
  end.

(** The payload keys each action type requires ([required] of the payload
    validator and [_REQUIRED_PAYLOAD_KEYS] of the schema gate). *)
Definition required_keys (a : LoopActionType) : list string :=
  match a with
  | LoopActionType.RUN_TOOL => ["tool_id"; "parameters"]
  | LoopActionType.RUN_CASE => ["case_id"; "parameters"]
  | LoopActionType.REQUEST_PEER => ["peer_name"; "instruction"]
  | LoopActionType.REQUEST_ORACLE => ["candidate_id"]
  | LoopActionType.REQUEST_CHAIN => ["hypothesis_id"]
  | LoopActionType.ABORT_STEP => []
  end.

Definition with_phase (s : LoopState) (p : LoopPhase) : LoopState :=
  let 'mkLoopState a b _ d e f g h i j k l m n o := s in mkLoopState a b p d e f g h i j k l m n o.

Lemma default_budget_snapshot : snapshot default_budget = mkSnapshot 50 200000 1800.
Proof. reflexivity. Qed.

Lemma exhausted_snapshot b :
  exhausted b = true <->
  steps_remaining (snapshot b) = 0 \/ tokens_remaining (snapshot b) = 0
  \/ wall_seconds_remaining (snapshot b) = 0.
Proof.
  unfold exhausted. rewrite !orb_true_iff, !Z.leb_le. cbn. lia.
Qed.

End LoopModels.
