(* ===== verification/Loop.v ===== *)
(** * The reasoning loop: one step, pause and resume, emergency stop

    Models [src/secopent/application/reasoning_loop/]: [feedback.py] and
    [budget_gate.py] (pure), [in_memory_state.py] (the repositories, as the
    fields [states] and [steps] of the world), [pause_control.py] (Module
    [PauseControl]) and [orchestrator.py] (Module [LoopOrchestrator]).

    What the composition root injects is a parameter: the context builder, the
    proposer, the three gates, the loop oracle, the approval port, the clock
    and the random identifiers.  Each may keep state of its own, of the
    parameter type [W], and each may raise. *)
From S2P Require Import Prelude PyStr PyTime PyFloat Sha256 Canonical PyJson AuditTrail Verification LoopModels.

#[local] Open Scope Z_scope.

(** The loop repositories, the audit recorder's log and the injected parts. *)
Record LoopWorld {W : Type} : Type := mkWorld {
  states : gmap LoopId LoopState;
  steps : list LoopStep;
  loop_log : list AuditCall;
  env : W
}.
Arguments LoopWorld W : clear implicits.
Arguments mkWorld {W}.

Record OracleOutcome : Type := mkOracleOutcome {
  oo_status : VerificationStatus;
  oo_successes : Z;
  oo_attempts : Z;
  oo_reason : string
}.
(** [resolved] *)
Definition oo_resolved (o : OracleOutcome) : bool :=
  bool_decide (oo_status o ∈ [VerificationStatus.CONFIRMED; VerificationStatus.REFUTED]).

Record StepResult : Type := mkStepResult {
  sr_loop_id : LoopId;
  sr_phase : LoopPhase;
  step_recorded : option LoopStep;
  signals_count : Z
}.

(** The arguments of a resume call. *)
Record ResumeRequest : Type := mkResume {
  rq_actor : string;
  rq_role : string;
  rq_approved_by : option string;
  rq_signature : option string;
  rq_nonce : option string;
  rq_expires_at : option datetime;
  rq_modified_context : option json
}.

Module LoopPure.

(** [LoopFeedback.apply] *)
Definition feedback (current : LoopState) (step : LoopStep) (policy_decision_passed : bool)
    (signal_count : Z) (now : datetime) : LoopState :=
  mkLoopState (ls_loop_id current) (ls_assessment_id current) (phase current) (policy_snapshot current)
    (LoopModels.consume 1 (propose_tokens_used step) 0 (budget current)) (ls_context_hash current)
    (catalog_required_remaining current ∖ catalog_class_matched step)
    (catalog_required_executed current ∪ catalog_class_matched step)
    (if 0 <? signal_count then 0 else consecutive_no_signal current + 1)
    (if policy_decision_passed then 0 else consecutive_policy_rejected current + 1)
    (started_at current) (Some now) (pause_attempts current) (paused_at current) (resumed_at current).

Definition STEP_TOKEN_LIMIT : Z := 8000.

Definition fail_verdict (reason code : string) : GateVerdict := mkVerdict false reason (Some code) None None.

(** [BudgetGateImpl.check] *)
Definition budget_check (b : LoopBudget) (proposed_tokens : Z) : GateVerdict :=
  if STEP_TOKEN_LIMIT <? proposed_tokens then
    fail_verdict ("proposed step allocates " +:+ pretty proposed_tokens +:+ " tokens, over the "
                  +:+ pretty STEP_TOKEN_LIMIT +:+ " per-step limit") "BUDGET_STEP_TOKEN_LIMIT"
  else
    let post := LoopModels.consume 0 proposed_tokens 0 b in
    if LoopModels.exhausted post then
      fail_verdict ("budget exhausted: steps=" +:+ pretty (steps_used post) +:+ "/" +:+ pretty (max_steps post)
                    +:+ ", tokens=" +:+ pretty (tokens_used post) +:+ "/" +:+ pretty (max_total_tokens post)
                    +:+ ", wall=" +:+ pretty (wall_seconds_used post) +:+ "s/"
                    +:+ pretty (max_wall_seconds post) +:+ "s") "BUDGET_EXHAUSTED"
    else mkVerdict true "budget_ok" None None None.

(** [credit_budget]: [credit] is the paused time, in microseconds. *)
Definition credit_budget (b : LoopBudget) (wall_credit : Z) : LoopBudget :=
  let credit := wall_credit / PyTime.second in
  mkBudget (max_steps b) (max_total_tokens b) (max_wall_seconds b) (steps_used b) (tokens_used b)
    (Z.max 0 (wall_seconds_used b - credit)).

(** [validate_loop_approval_params] *)
Definition validate_loop_approval_params (actor_role : string) (approved_by signature : option string)
  : outcome unit :=
  raise_if (bool_decide (actor_role = "agent"))
    (ApprovalRejected "pause/resume is human-only (403): agents are rejected");;
  raise_if (negb (PyStr.truthy (default "" approved_by)) || negb (PyStr.truthy (default "" signature)))
    (ApprovalRequired "a human approval requires approved_by and signature");;
  Ret tt.

Definition TERMINAL_PHASES : list LoopPhase :=
  [LoopPhase.COMPLETED; LoopPhase.BUDGET_EXHAUSTED; LoopPhase.POLICY_BLOCKED; LoopPhase.CONVERGED;
   LoopPhase.EMERGENCY_STOPPED].
Definition NON_AUTO_STEP_PHASES : list LoopPhase := [LoopPhase.PAUSED; LoopPhase.CATALOG_FLOOR_DONE].
(** [_TERMINAL_PHASES] and [_RESUME_BLOCKED_PHASES] of [pause_control.py]. *)
Definition PAUSE_TERMINAL_PHASES : list LoopPhase :=
  [LoopPhase.BUDGET_EXHAUSTED; LoopPhase.POLICY_BLOCKED; LoopPhase.EMERGENCY_STOPPED; LoopPhase.COMPLETED].

Definition MOCK_STEP_TOKENS : Z := 100.

Definition LOOP_RESOURCE_TYPE : string := "reasoning_loop".
Definition LOOP_CREATED : string := "loop.created".
Definition LOOP_STEP_PROPOSED : string := "loop.step_proposed".
Definition LOOP_GATE_REJECTED : string := "loop.gate_rejected".
Definition LOOP_STEP_EXECUTED : string := "loop.step_executed".
Definition LOOP_TERMINATED : string := "loop.terminated".
Definition LOOP_BACKEND_UNAVAILABLE : string := "loop.backend_unavailable".
Definition LOOP_PAUSED : string := "loop.paused".
Definition LOOP_RESUMED : string := "loop.resumed".

Definition spaces (n : nat) : string := String.concat "" (replicate n " ").
Definition ZERO : pyfloat := flt "0.0".

Definition budget_rejected_action : ProposeAction :=
  mkAction LoopActionType.ABORT_STEP [] ("(budget gate rejected before proposal)" +:+ spaces 50) ZERO None None.
Definition no_proposer_action : ProposeAction :=
  mkAction LoopActionType.ABORT_STEP [] ("(no proposer output)" +:+ spaces 60) ZERO None None.

(** [action.payload.get(key)] *)
Definition payload_get (k : string) (a : ProposeAction) : json := default JNull (field k (action_payload a)).

(** [verdict.deny_code or default] *)
Definition code_or (v : GateVerdict) (d : string) : string :=
  match deny_code v with Some c => if PyStr.truthy c then c else d | None => d end.

(** The [replace] calls of the human control plane. *)
Definition paused_state (s : LoopState) (now : datetime) : LoopState :=
  mkLoopState (ls_loop_id s) (ls_assessment_id s) LoopPhase.PAUSED (policy_snapshot s) (budget s)
    (ls_context_hash s) (catalog_required_remaining s) (catalog_required_executed s)
    (consecutive_no_signal s) (consecutive_policy_rejected s) (started_at s) (last_step_at s)
    (pause_attempts s) (Some now) (resumed_at s).

Definition wall_credit (s : LoopState) (now : datetime) : Z :=
  match paused_at s with Some p => now - p | None => 0 end.

Definition resumed_state (s : LoopState) (now : datetime) : LoopState :=
  mkLoopState (ls_loop_id s) (ls_assessment_id s) LoopPhase.RESUMED (policy_snapshot s)
    (credit_budget (budget s) (wall_credit s now))
    (ls_context_hash s) (catalog_required_remaining s) (catalog_required_executed s)
    (consecutive_no_signal s) (consecutive_policy_rejected s) (started_at s) (last_step_at s)
    (pause_attempts s + 1) None (Some now).

Definition ended_state (p : LoopPhase) (s : LoopState) (now : datetime) : LoopState :=
  mkLoopState (ls_loop_id s) (ls_assessment_id s) p (policy_snapshot s) (budget s) (ls_context_hash s)
    (catalog_required_remaining s) (catalog_required_executed s) (consecutive_no_signal s)
    (consecutive_policy_rejected s) (started_at s) (Some now) (pause_attempts s) (paused_at s) (resumed_at s).

End LoopPure.

Section loop.
Import LoopPure.
Context {W : Type}.
(** The audit recorder: which calls it refuses. *)
Context (audit_ok : AuditCall -> outcome unit).
(** [datetime.now(UTC)], [secrets.token_hex(4)], [uuid.uuid4().int]. *)
Context (clock : M W datetime) (token_hex4 : M W string) (uuid4_int : M W Z).

Definition lift_env {A} (m : M W A) : M (LoopWorld W) A :=
  fun w => let '(o, e) := m (env w) in (o, mkWorld (states w) (steps w) (loop_log w) e).

Definition record_audit (call : AuditCall) : M (LoopWorld W) unit :=
  lift (audit_ok call);;
  modify (fun w => mkWorld (states w) (steps w) (loop_log w ++ [call]) (env w)).

(** [state_repo.get], [state_repo.save] and [step_repo.add]. *)
Definition get_state (i : LoopId) : M (LoopWorld W) (option LoopState) := gets (fun w => states w !! i).
Definition save_state (s : LoopState) : M (LoopWorld W) unit :=
  modify (fun w => mkWorld (<[ls_loop_id s := s]> (states w)) (steps w) (loop_log w) (env w)).
Definition add_step (s : LoopStep) : M (LoopWorld W) unit :=
  modify (fun w => mkWorld (states w) (steps w ++ [s]) (loop_log w) (env w)).

Definition loop_call (actor action : string) (i : LoopId) (p : list (string * json)) : AuditCall :=
  mkCall actor action LOOP_RESOURCE_TYPE i p.

(** ** Pause control *)
Section pause.
Context (policy : LoopTerminationPolicy).
(** [LoopApproval.require_resume_approval], and the service's own clock. *)
Context (require_resume_approval : LoopId -> ResumeRequest -> M W unit) (pause_now : M W datetime).

Definition pause (i : LoopId) (actor reason actor_role : string) : M (LoopWorld W) LoopState :=
  lift (raise_if (bool_decide (actor_role = "agent"))
          (ApprovalRejected "pause is human-only (403): agents are rejected"));;
  o ← get_state i;
  s ← lift (unwrap o (LookupError ("no loop state for " +:+ i)));
  if bool_decide (phase s = LoopPhase.PAUSED) then mret s
  else
    lift (raise_if (bool_decide (phase s ∈ PAUSE_TERMINAL_PHASES))
            (DomainError ("cannot pause a dead loop: phase=" +:+ value (phase s) +:+ " (loop " +:+ i +:+ ")")));;
    now ← lift_env pause_now;
    let s' := paused_state s now in
    save_state s';;
    record_audit (loop_call actor LOOP_PAUSED i
      [("reason", JStr reason); ("phase", JStr "PAUSED"); ("context_hash", JStr (ls_context_hash s))]);;
    mret s'.

Definition budget_message (i : LoopId) (attempts : Z) : string :=
  "loop " +:+ i +:+ " exceeds max_pauses=" +:+ pretty (max_pauses policy)
  +:+ " (attempts=" +:+ pretty attempts +:+ ")".

Definition resume (i : LoopId) (rq : ResumeRequest) : M (LoopWorld W) LoopState :=
  lift (raise_if (bool_decide (rq_role rq = "agent"))
          (ApprovalRejected "resume is human-only (403): agents are rejected"));;
  o ← get_state i;
  s ← lift (unwrap o (LookupError ("no loop state for " +:+ i)));
  lift (raise_if (bool_decide (phase s ∈ PAUSE_TERMINAL_PHASES))
          (DomainError ("cannot resume a stopped loop: phase=" +:+ value (phase s) +:+ " (loop " +:+ i +:+ ")")));;
  lift (raise_if (LoopModels.pause_budget_exceeded policy (pause_attempts s + 1))
          (PauseBudgetExceeded (budget_message i (pause_attempts s + 1))));;
  lift_env (require_resume_approval i rq);;
  now ← lift_env pause_now;
  let s' := resumed_state s now in
  save_state s';;
  record_audit (loop_call (rq_actor rq) LOOP_RESUMED i
    ([("approved_by", Canonical.jopt JStr (rq_approved_by rq)); ("phase", JStr "RESUMED");
      ("pause_attempts", JInt (pause_attempts s + 1));
      ("wall_credit_seconds", JInt (Z.quot (wall_credit s now) PyTime.second))]
     ++ match rq_modified_context rq with Some c => [("modified_context", c)] | None => [] end));;
  mret s'.

End pause.

(** ** The orchestrator *)

(** [PauseControlService], as the orchestrator is composed with it. *)
Record PauseControl : Type := mkPauseControl {
  pc_policy : LoopTerminationPolicy;
  pc_approval : LoopId -> ResumeRequest -> M W unit;
  pc_now : M W datetime
}.

Context (build_context : gmap LoopId LoopState -> LoopId -> M W LoopContext).
Context (propose : LoopContext -> M W (option ProposeAction)).
Context (schema_gate policy_gate permit_gate : ProposeAction -> LoopContext -> M W GateVerdict).
(** Whether the optional parts are composed. *)
Context (budget_gate_wired : bool) (loop_oracle : option (string -> M W OracleOutcome)).
Context (pause_control : option PauseControl).

Definition initial_state (plan : LoopPlan) (required : gset string) (now : datetime) : LoopState :=
  mkLoopState (lp_loop_id plan) (lp_assessment_id plan) LoopPhase.INITIALIZING
    (lp_policy_snapshot plan) LoopModels.default_budget (String.concat "" (replicate 64 "0"))
    required ∅ 0 0 now None 0 None None.

Definition create_loop (plan : LoopPlan) (required : gset string) : M (LoopWorld W) LoopState :=
  now ← lift_env clock;
  let s := initial_state plan required now in
  save_state s;;
  record_audit (loop_call "reasoning_loop" LOOP_CREATED (lp_loop_id plan)
    [("assessment_id", JStr (lp_assessment_id plan)); ("policy_snapshot", JStr (lp_policy_snapshot plan));
     ("catalog_required_remaining", LoopModels.jset_of required)]);;
  mret s.

(** A new [LoopStep], its arguments evaluated in the order the code has them. *)
Definition fresh_step (context : LoopContext) (mk : string -> Z -> datetime -> string -> string -> LoopStep)
  : M W LoopStep :=
  sid ← token_hex4; n ← uuid4_int; now ← clock; h ← lift (LoopModels.context_hash context); cid ← token_hex4;
  mret (mk ("step-" +:+ sid) (Z.land n 0xFFFFFFFF) now h ("corr-" +:+ cid)).

Definition mock_digest (i : LoopId) : string :=
  "sha256:" +:+ Sha256.hexdigest (Canonical.canonical_json (JObj [("mock", JBool true); ("loop_id", JStr i)])).

Definition mock_execute (i : LoopId) (context : LoopContext) (a : ProposeAction) (permit : string) : M W LoopStep :=
  fresh_step context (fun sid n now h cid =>
    mkStep sid i n now h a MOCK_STEP_TOKENS 50 (rationale a) true (mkDecision true "ok" None) (Some permit)
      (json_or (payload_get "tool_id" a) (payload_get "case_id" a)) (mock_digest i) [] [] ∅ false cid).

Definition execute_oracle_step (verify : string -> M W OracleOutcome) (i : LoopId) (context : LoopContext)
    (a : ProposeAction) (permit : string) : M W LoopStep :=
  let cand := py_str (json_or (payload_get "candidate_id" a) (JStr "")) in
  r ← verify cand;
  fresh_step context (fun sid n now h cid =>
    mkStep sid i n now h a MOCK_STEP_TOKENS 50 (rationale a) true (mkDecision true "ok" None) (Some permit)
      (JStr cand) ("oracle:" +:+ value (oo_status r) +:+ "(" +:+ pretty (oo_successes r) +:+ "/"
                   +:+ pretty (oo_attempts r) +:+ ")") [] [] ∅ (oo_resolved r) cid).

Definition placeholder_step (i : LoopId) (context : LoopContext) (a : ProposeAction)
    (schema_passed policy_passed : bool) (tokens : Z) : M W LoopStep :=
  fresh_step context (fun sid n now h cid =>
    mkStep sid i n now h a tokens 0 (rationale a) schema_passed
      (mkDecision policy_passed "mock" (if policy_passed then None else Some "MOCK_DENIED"))
      None JNull "" [] [] ∅ false cid).

(** Feedback, the termination rule, the saved state, and the audit of a
    terminal phase with the caller's extra field. *)
Definition advance (i : LoopId) (s : LoopState) (step : LoopStep) (policy_passed : bool) (signals : Z)
    (extra : string * json) : M (LoopWorld W) LoopPhase :=
  now ← lift_env clock;
  let s1 := feedback s step policy_passed signals now in
  let p := LoopModels.evaluate_termination s1 LoopModels.default_policy in
  save_state (LoopModels.with_phase s1 p);;
  (if bool_decide (p ∈ TERMINAL_PHASES)
   then record_audit (loop_call "reasoning_loop" LOOP_TERMINATED i [("final_phase", Canonical.jenum p); extra])
   else mret tt);;
  mret p.

Definition record_backend_unavailable (i : LoopId) (s : LoopState) (context : LoopContext)
  : M (LoopWorld W) StepResult :=
  h ← lift (LoopModels.context_hash context);
  record_audit (loop_call "reasoning_loop" LOOP_BACKEND_UNAVAILABLE i [("context_hash", JStr h)]);;
  step ← lift_env (placeholder_step i context no_proposer_action false true 0);
  p ← advance i s step true 0 ("via", JStr "backend_unavailable");
  mret (mkStepResult i p None 0).

Definition record_gate_rejected (i : LoopId) (s : LoopState) (context : LoopContext) (a : ProposeAction)
    (gate_name code reason : string) : M (LoopWorld W) StepResult :=
  record_audit (loop_call "reasoning_loop" LOOP_GATE_REJECTED i
    [("gate", JStr gate_name); ("deny_code", JStr code); ("reason", JStr reason);
     ("action_type", Canonical.jenum (action_type a))]);;
  step ← lift_env (placeholder_step i context a (negb (bool_decide (gate_name = "schema")))
                     (bool_decide (gate_name = "permit")) 0);
  p ← advance i s step (negb (bool_decide (gate_name = "policy"))) 0 ("via", JStr "gate_rejected");
  mret (mkStepResult i p None 0).

Definition execute_step (i : LoopId) (context : LoopContext) (a : ProposeAction) (permit : string) : M W LoopStep :=
  match bool_decide (action_type a = LoopActionType.REQUEST_ORACLE), loop_oracle with
  | true, Some verify => execute_oracle_step verify i context a permit
  | _, _ => mock_execute i context a permit
  end.

(** Stages 7 and 8 of [run_step]: execute, record, feed back. *)
Definition execute (i : LoopId) (s : LoopState) (context : LoopContext) (a : ProposeAction) (permit : string)
  : M (LoopWorld W) StepResult :=
  step ← lift_env (execute_step i context a permit);
  add_step step;;
  record_audit (loop_call "reasoning_loop" LOOP_STEP_PROPOSED i
    [("step_id", JStr (step_id step)); ("action_type", Canonical.jenum (action_type (proposed_action step)));
     ("permit_id", Canonical.jopt JStr (st_permit_id step)); ("tokens_used", JInt (propose_tokens_used step))]);;
  record_audit (loop_call "reasoning_loop" LOOP_STEP_EXECUTED i
    ([("step_id", JStr (step_id step)); ("tool_or_case_id", tool_or_case_id step);
      ("result_digest", JStr (execution_result_digest step)); ("signals", Canonical.jstrs (observation_signals step))]
     ++ if bool_decide (action_type a = LoopActionType.REQUEST_ORACLE)
        then [("oracle_progressed", JBool (oracle_progressed step))] else []));;
  let signals := Z.of_nat (length (observation_signals step)) in
  p ← advance i s step true signals ("step_id", JStr (step_id step));
  mret (mkStepResult i p (Some step) signals).

(** Stages 4 to 6: a gate that does not pass ends the step. *)
Definition gate (check : ProposeAction -> LoopContext -> M W GateVerdict) (name denied : string)
    (i : LoopId) (s : LoopState) (context : LoopContext) (a : ProposeAction)
    (k : GateVerdict -> M (LoopWorld W) StepResult) : M (LoopWorld W) StepResult :=
  v ← lift_env (check a context);
  if passed v then k v else record_gate_rejected i s context a name (code_or v denied) (verdict_reason v).

Definition run_step (i : LoopId) : M (LoopWorld W) StepResult :=
  o ← get_state i;
  s ← lift (unwrap o (LoopNotFoundError ("loop_id " +:+ PyStr.repr i +:+ " not found")));
  lift (raise_if (bool_decide (phase s ∈ TERMINAL_PHASES))
          (LoopAlreadyTerminalError ("loop_id " +:+ PyStr.repr i +:+ " already terminal in phase "
                                     +:+ value (phase s))));;
  if bool_decide (phase s ∈ NON_AUTO_STEP_PHASES) then mret (mkStepResult i (phase s) None 0)
  else
    loops ← gets states;
    context ← lift_env (build_context loops i);
    let bvd := budget_check (budget s) MOCK_STEP_TOKENS in
    if budget_gate_wired && negb (passed bvd) then
      record_gate_rejected i s context budget_rejected_action "budget" (code_or bvd "BUDGET_DENIED")
        (verdict_reason bvd)
    else
      p ← lift_env (propose context);
      match p with
      | None => record_backend_unavailable i s context
      | Some a =>
          gate schema_gate "schema" "SCHEMA_DENIED" i s context a (fun _ =>
          gate policy_gate "policy" "POLICY_DENIED" i s context a (fun _ =>
          gate permit_gate "permit" "PERMIT_DENIED" i s context a (fun v =>
          execute i s context a (default "" (permit_id v)))))
      end.

Definition emergency_stop (i : LoopId) (actor reason : string) : M (LoopWorld W) LoopState :=
  o ← get_state i;
  s ← lift (unwrap o (LoopNotFoundError ("loop_id " +:+ PyStr.repr i +:+ " not found")));
  if bool_decide (phase s = LoopPhase.EMERGENCY_STOPPED) then mret s
  else
    now ← lift_env clock;
    let s' := ended_state LoopPhase.EMERGENCY_STOPPED s now in
    save_state s';;
    record_audit (loop_call actor LOOP_TERMINATED i
      [("final_phase", Canonical.jenum LoopPhase.EMERGENCY_STOPPED); ("reason", JStr "emergency_stop");
       ("human_reason", JStr reason); ("from_phase", Canonical.jenum (phase s))]);;
    mret s'.

Definition force_pause_budget_termination (i : LoopId) (detail actor : string) : M (LoopWorld W) LoopState :=
  o ← get_state i;
  s ← lift (unwrap o (LoopNotFoundError ("loop_id " +:+ PyStr.repr i +:+ " not found")));
  now ← lift_env clock;
  let s' := ended_state LoopPhase.POLICY_BLOCKED s now in
  save_state s';;
  record_audit (loop_call actor LOOP_TERMINATED i
    [("final_phase", Canonical.jenum LoopPhase.POLICY_BLOCKED); ("reason", JStr "pause_budget");
     ("detail", JStr detail)]);;
  mret s'.

Definition resume_loop (i : LoopId) (rq : ResumeRequest) : M (LoopWorld W) LoopState :=
  match pause_control with
  | None => raise (DomainError "resume_loop() requires the orchestrator to be composed with a PauseControlService (pause_control=...)")
  | Some pc => fun w =>
      match resume (pc_policy pc) (pc_approval pc) (pc_now pc) i rq w with
      | (Raise (PauseBudgetExceeded msg), w') => force_pause_budget_termination i msg (rq_actor rq) w'
      | r => r
      end
  end.

(** Everything that changes a loop. *)
Inductive loop_op : Type :=
| OpCreate (plan : LoopPlan) (required : gset string)
| OpStep (i : LoopId)
| OpPause (i : LoopId) (actor reason actor_role : string)
| OpResume (i : LoopId) (rq : ResumeRequest)
| OpStop (i : LoopId) (actor reason : string).

Definition run_op (o : loop_op) (w : LoopWorld W) : LoopWorld W :=
  match o with
  | OpCreate plan required => (create_loop plan required w).2
  | OpStep i => (run_step i w).2
  | OpPause i actor reason role =>
      match pause_control with Some pc => (pause (pc_now pc) i actor reason role w).2 | None => w end
  | OpResume i rq => (resume_loop i rq w).2
  | OpStop i actor reason => (emergency_stop i actor reason w).2
  end.

Definition run_ops (ops : list loop_op) (w : LoopWorld W) : LoopWorld W := foldl (fun w o => run_op o w) w ops.

(** ** What each part leaves alone *)

Lemma lift_env_keeps {A} (m : M W A) (w : LoopWorld W) :
  let '(o, w') := lift_env m w in
  (m (env w)).1 = o /\ states w' = states w /\ steps w' = steps w /\ loop_log w' = loop_log w.
Proof. unfold lift_env. by destruct (m (env w)) as [o e]. Qed.

Lemma record_audit_keeps call (w : LoopWorld W) :
  let '(o, w') := record_audit call w in
  o = audit_ok call /\ states w' = states w /\ steps w' = steps w /\ env w' = env w.
Proof. unfold record_audit, lift, modify, mbind, M_bind. by destruct (audit_ok call) as [[]|e]. Qed.

(** Invariants of the stored states. *)
Section invariant.
Context (I : LoopId -> LoopState -> Prop) (D : gset LoopId).

(** Every stored state satisfies [I], and the loops of [D] are stored. *)
Definition all_states (w : LoopWorld W) : Prop := map_Forall I (states w) /\ D ⊆ dom (states w).

Lemma all_states_lift_env {A} (m : M W A) : preserves all_states (lift_env m).
Proof.
  intros w Hw. pose proof (lift_env_keeps m w) as H. unfold all_states in *.
  destruct (lift_env m w) as [o w']. destruct H as (_ & H & _). cbn. by rewrite H.
Qed.

Lemma all_states_record_audit call : preserves all_states (record_audit call).
Proof.
  intros w Hw. pose proof (record_audit_keeps call w) as H. unfold all_states in *.
  destruct (record_audit call w) as [o w']. destruct H as (_ & H & _). cbn. by rewrite H.
Qed.

Lemma all_states_add_step s : preserves all_states (add_step s).
Proof. intros w Hw. exact Hw. Qed.

Lemma all_states_save s : I (ls_loop_id s) s -> preserves all_states (save_state s).
Proof.
  intros Hs w [Hw Hd]. split; [by apply map_Forall_insert_2|]. cbn. rewrite dom_insert. set_solver.
Qed.

Lemma all_states_get {A} (i : LoopId) (f : option LoopState -> M (LoopWorld W) A) :
  (forall s, I i s -> preserves all_states (f (Some s))) -> preserves all_states (f None) ->
  preserves all_states (get_state i ≫= f).
Proof.
  intros Hs Hn w Hw. unfold get_state, gets, mbind, M_bind.
  destruct (states w !! i) as [s|] eqn:E; [apply Hs; [by apply (proj1 Hw i)|done]|by apply Hn].
Qed.

Lemma all_states_get_at {A} (i : LoopId) (f : option LoopState -> M (LoopWorld W) A) w :
  all_states w ->
  (forall s, states w !! i = Some s -> I i s -> preserves all_states (f (Some s))) ->
  preserves all_states (f None) -> all_states ((get_state i ≫= f) w).2.
Proof.
  intros Hw Hs Hn. unfold get_state, gets, mbind, M_bind.
  destruct (states w !! i) as [s|] eqn:E; [apply Hs; [done|by apply (proj1 Hw i)|done]|by apply Hn].
Qed.

Lemma all_states_raise {A} e : preserves all_states (raise (A:=A) e).
Proof. apply preserves_raise. Qed.

Lemma all_states_bind_lift {A B} (m : outcome A) (f : A -> M (LoopWorld W) B) :
  (forall a, m = Ret a -> preserves all_states (f a)) -> preserves all_states (lift m ≫= f).
Proof.
  intros Hf w Hw. unfold lift, mbind, M_bind. destruct m as [a|e]; [by apply Hf|done].
Qed.

Context (step_case : forall i s st pp now,
  I i s -> phase s ∉ TERMINAL_PHASES -> phase s ∉ NON_AUTO_STEP_PHASES -> observation_signals st = [] ->
  propose_tokens_used st = 0 \/ propose_tokens_used st = MOCK_STEP_TOKENS ->
  let s1 := feedback s st pp 0 now in
  I i (LoopModels.with_phase s1 (LoopModels.evaluate_termination s1 LoopModels.default_policy))).
Context (ids : forall i s, I i s -> ls_loop_id s = i).

(** A state [run_step] may advance. *)
Definition steppable (i : LoopId) (s : LoopState) : Prop :=
  I i s /\ phase s ∉ TERMINAL_PHASES /\ phase s ∉ NON_AUTO_STEP_PHASES.

Lemma advance_preserves i s st pp extra :
  steppable i s -> observation_signals st = [] ->
  propose_tokens_used st = 0 \/ propose_tokens_used st = MOCK_STEP_TOKENS ->
  preserves all_states (advance i s st pp 0 extra).
Proof.
  intros (Hs & H1 & H2) Hsig Htok. unfold advance. apply preserves_bind; [apply all_states_lift_env|].
  intros now. pose proof (step_case i s st pp now Hs H1 H2 Hsig Htok) as Hn. cbn zeta in Hn.
  apply preserves_bind.
  - apply all_states_save. by rewrite (ids _ _ Hn).
  - intros _. apply preserves_bind; [|intros _; apply preserves_ret].
    case_bool_decide; [apply all_states_record_audit|apply preserves_ret].
Qed.

Lemma fresh_step_Ret context mk e st e' :
  fresh_step context mk e = (Ret st, e') ->
  exists sid n now h cid, LoopModels.context_hash context = Ret h /\ st = mk sid n now h cid.
Proof.
  unfold fresh_step, lift, mbind, M_bind.
  destruct (token_hex4 e) as [[sid|?] e1]; [|done]. destruct (uuid4_int e1) as [[n|?] e2]; [|done].
  destruct (clock e2) as [[now|?] e3]; [|done]. destruct (LoopModels.context_hash context) as [h|?]; [|done].
  destruct (token_hex4 e3) as [[cid|?] e4]; [|done]. intros [= <- <-]. by eexists _, _, _, h, _.
Qed.

Lemma placeholder_silent i context a sp pp e st e' :
  placeholder_step i context a sp pp 0 e = (Ret st, e') ->
  observation_signals st = [] /\ propose_tokens_used st = 0.
Proof. by intros (? & ? & ? & ? & ? & _ & ->)%fresh_step_Ret. Qed.

Lemma execute_step_Ret i context a pm e st e' :
  execute_step i context a pm e = (Ret st, e') ->
  observation_signals st = [] /\ propose_tokens_used st = MOCK_STEP_TOKENS
  /\ proposed_action st = a /\ st_permit_id st = Some pm
  /\ st_loop_id st = i /\ LoopModels.context_hash context = Ret (context_hash_before st).
Proof.
  unfold execute_step, mock_execute, execute_oracle_step.
  assert (Hf : forall mk e0, (forall sid n now h cid, let s := mk sid n now h cid in
      observation_signals s = [] /\ propose_tokens_used s = MOCK_STEP_TOKENS /\ proposed_action s = a
      /\ st_permit_id s = Some pm /\ st_loop_id s = i /\ context_hash_before s = h) ->
    fresh_step context mk e0 = (Ret st, e') ->
    observation_signals st = [] /\ propose_tokens_used st = MOCK_STEP_TOKENS /\ proposed_action st = a
    /\ st_permit_id st = Some pm /\ st_loop_id st = i /\ LoopModels.context_hash context = Ret (context_hash_before st)).
  { intros mk e0 Hmk (sid & n & now & h & cid & Hh & ->)%fresh_step_Ret.
    destruct (Hmk sid n now h cid) as (? & ? & ? & ? & ? & Hc). split_and!; try done. by rewrite Hc. }
  case_bool_decide; [destruct loop_oracle as [v|]|]; [|by apply Hf..].
  unfold mbind, M_bind. destruct (v _ e) as [[r|x] e1]; [by apply Hf|done].
Qed.

(** A bind whose first part runs in the environment. *)
Lemma preserves_bind_env {A B} (m : M W A) (f : A -> M (LoopWorld W) B) :
  (forall a e e', m e = (Ret a, e') -> preserves all_states (f a)) ->
  preserves all_states (lift_env m ≫= f).
Proof.
  intros Hf w Hw. pose proof (lift_env_keeps m w) as Hk. unfold mbind, M_bind.
  destruct (lift_env m w) as [[a|x] w1] eqn:E; destruct Hk as (_ & Hk & _ & _).
  - unfold lift_env in E. destruct (m (env w)) as [o e1] eqn:Em. injection E as -> <-.
    apply (Hf a _ _ Em). exact Hw.
  - unfold all_states. cbn. rewrite Hk. exact Hw.
Qed.

Lemma reject_preserves i s context a name code reason :
  steppable i s -> preserves all_states (record_gate_rejected i s context a name code reason).
Proof.
  intros Hs. unfold record_gate_rejected. apply preserves_bind; [apply all_states_record_audit|]. intros _.
  apply preserves_bind_env. intros st e e' (Hsig & Htok)%placeholder_silent.
  apply preserves_bind; [apply advance_preserves; auto|]. intros p. apply preserves_ret.
Qed.

Lemma gate_preserves check name denied i s context a k :
  steppable i s -> (forall v, preserves all_states (k v)) ->
  preserves all_states (gate check name denied i s context a k).
Proof.
  intros Hs Hk. unfold gate. apply preserves_bind; [apply all_states_lift_env|]. intros v.
  destruct (passed v); [apply Hk|by apply reject_preserves].
Qed.

Lemma execute_preserves i s context a pm :
  steppable i s -> preserves all_states (execute i s context a pm).
Proof.
  intros Hs. unfold execute. apply preserves_bind_env.
  intros st e e' (Hsig & Htok & _)%execute_step_Ret. rewrite Hsig.
  repeat (apply preserves_bind; [first [apply all_states_add_step|apply all_states_record_audit]|intros _]).
  apply preserves_bind; [apply advance_preserves; auto|]. intros p. apply preserves_ret.
Qed.

Lemma run_step_preserves i : preserves all_states (run_step i).
Proof.
  unfold run_step. apply all_states_get; [intros s Hs|]; cbn [unwrap]; [|apply all_states_bind_lift; done].
  apply all_states_bind_lift. intros ? [= <-]. apply all_states_bind_lift.
  intros ? Ht%raise_if_Ret. apply bool_decide_eq_false in Ht.
  case_bool_decide as Hn; [apply preserves_ret|].
  assert (Hst : steppable i s) by done.
  apply preserves_bind; [apply preserves_gets|]. intros loops.
  apply preserves_bind; [apply all_states_lift_env|]. intros context. cbn zeta.
  destruct (budget_gate_wired && negb (passed (budget_check (budget s) MOCK_STEP_TOKENS)));
    [by apply reject_preserves|].
  apply preserves_bind; [apply all_states_lift_env|]. intros [act|].
  - do 3 (apply gate_preserves; [done|]; let v := fresh "v" in intros v). by apply execute_preserves.
  - unfold record_backend_unavailable. apply preserves_bind; [apply preserves_lift|]. intros h.
    apply preserves_bind; [apply all_states_record_audit|]. intros _.
    apply preserves_bind_env. intros st e e' (Hsig & Htok)%placeholder_silent.
    apply preserves_bind; [apply advance_preserves; auto|]. intros p. apply preserves_ret.
Qed.

Lemma create_preserves plan required :
  (forall now, I (lp_loop_id plan) (initial_state plan required now)) ->
  preserves all_states (create_loop plan required).
Proof.
  intros Hi. unfold create_loop. apply preserves_bind; [apply all_states_lift_env|]. intros now. cbn zeta.
  apply preserves_bind; [by apply all_states_save, Hi|]. intros _.
  apply preserves_bind; [apply all_states_record_audit|]. intros _. apply preserves_ret.
Qed.

Lemma pause_preserves pc_now i actor reason role :
  (forall s now, I i s -> phase s ∉ PAUSE_TERMINAL_PHASES -> I i (paused_state s now)) ->
  preserves all_states (pause pc_now i actor reason role).
Proof.
  intros Hp. unfold pause. apply all_states_bind_lift. intros _ _.
  apply all_states_get; [intros s Hs|by apply all_states_bind_lift].
  apply all_states_bind_lift. intros ? [= <-]. case_bool_decide; [apply preserves_ret|].
  apply all_states_bind_lift. intros _ Hd%raise_if_Ret. apply bool_decide_eq_false in Hd.
  apply preserves_bind; [apply all_states_lift_env|]. intros now. cbn zeta.
  pose proof (Hp s now Hs Hd) as Hn.
  apply preserves_bind; [by apply all_states_save; rewrite (ids _ _ Hn)|]. intros _.
  apply preserves_bind; [apply all_states_record_audit|]. intros _. apply preserves_ret.
Qed.

Lemma resume_preserves pol approval pc_now i rq :
  (forall s now, I i s -> phase s ∉ PAUSE_TERMINAL_PHASES -> pause_attempts s + 1 < max_pauses pol ->
     I i (resumed_state s now)) ->
  preserves all_states (resume pol approval pc_now i rq).
Proof.
  intros Hp. unfold resume. apply all_states_bind_lift. intros _ _.
  apply all_states_get; [intros s Hs|by apply all_states_bind_lift].
  apply all_states_bind_lift. intros ? [= <-]. apply all_states_bind_lift. intros _ Hd%raise_if_Ret. apply bool_decide_eq_false in Hd.
  apply all_states_bind_lift. intros _ Hb%raise_if_Ret. unfold LoopModels.pause_budget_exceeded in Hb.
  apply Z.leb_gt in Hb. do 2 (apply preserves_bind; [apply all_states_lift_env|]; intros ?). cbn zeta.
  match goal with |- context [resumed_state s ?now] => pose proof (Hp s now Hs Hd Hb) as Hn end.
  apply preserves_bind; [by apply all_states_save; rewrite (ids _ _ Hn)|]. intros _.
  apply preserves_bind; [apply all_states_record_audit|]. intros _. apply preserves_ret.
Qed.

Lemma stop_preserves i actor reason :
  (forall s now, I i s -> phase s <> LoopPhase.EMERGENCY_STOPPED ->
     I i (ended_state LoopPhase.EMERGENCY_STOPPED s now)) ->
  preserves all_states (emergency_stop i actor reason).
Proof.
  intros Hp. unfold emergency_stop.
  apply all_states_get; [intros s Hs|by apply all_states_bind_lift].
  apply all_states_bind_lift. intros ? [= <-]. case_bool_decide as He; [apply preserves_ret|].
  apply preserves_bind; [apply all_states_lift_env|]. intros now. cbn zeta.
  pose proof (Hp s now Hs He) as Hn.
  apply preserves_bind; [by apply all_states_save; rewrite (ids _ _ Hn)|]. intros _.
  apply preserves_bind; [apply all_states_record_audit|]. intros _. apply preserves_ret.
Qed.

Lemma force_preserves i detail actor w :
  (forall s now, I i s -> states w !! i = Some s -> I i (ended_state LoopPhase.POLICY_BLOCKED s now)) ->
  all_states w -> all_states (force_pause_budget_termination i detail actor w).2.
Proof.
  intros Hp Hw. unfold force_pause_budget_termination.
  apply all_states_get_at; [done| |by apply all_states_bind_lift]. intros s E Hs.
  apply all_states_bind_lift. intros ? [= <-].
  apply preserves_bind; [apply all_states_lift_env|]. intros now. cbn zeta.
  pose proof (Hp s now Hs E) as Hn.
  apply preserves_bind; [by apply all_states_save; rewrite (ids _ _ Hn)|]. intros _.
  apply preserves_bind; [apply all_states_record_audit|]. intros _. apply preserves_ret.
Qed.

End invariant.

(** What a resume call may do. *)
Lemma resume_cases pol approval pc_now i rq (w : LoopWorld W) :
  let '(o, w') := resume pol approval pc_now i rq w in
  (states w' = states w
   /\ (exists e, o = Raise e
        /\ (forall m, e = PauseBudgetExceeded m ->
             exists s, states w !! i = Some s /\ phase s ∉ PAUSE_TERMINAL_PHASES)))
  \/ (exists s now, states w !! i = Some s /\ phase s ∉ PAUSE_TERMINAL_PHASES
       /\ pause_attempts s + 1 < max_pauses pol /\ rq_role rq <> "agent"
       /\ (exists e', approval i rq (env w) = (Ret tt, e'))
       /\ states w' = <[ls_loop_id s := resumed_state s now]> (states w)
       /\ (o = Ret (resumed_state s now) \/ exists e, o = Raise e)).
Proof.
  unfold resume, lift, get_state, gets, mbind, M_bind.
  destruct (decide (rq_role rq = "agent")) as [Er|Er].
  { rewrite bool_decide_true by done. left. split; [done|]. eexists. split; [done|]. discriminate. }
  rewrite bool_decide_false by done. cbn [raise_if].
  destruct (states w !! i) as [s|] eqn:Es; cbn [unwrap].
  2: { left. split; [done|]. eexists. split; [done|]. discriminate. }
  case_bool_decide as Hd; cbn [raise_if].
  { left. split; [done|]. eexists. split; [done|]. discriminate. }
  destruct (LoopModels.pause_budget_exceeded pol (pause_attempts s + 1)) eqn:Eb; cbn [raise_if].
  { left. split; [done|]. eexists. split; [done|]. intros m _. by exists s. }
  unfold LoopModels.pause_budget_exceeded in Eb. apply Z.leb_gt in Eb. unfold lift_env.
  destruct (approval i rq (env w)) as [[[]|e] e1] eqn:Ea.
  2: { left. split; [done|]. eexists. split; [done|]. intros m _. by exists s. }
  cbn [env]. destruct (pc_now e1) as [[now|e] e2].
  2: { left. split; [done|]. eexists. split; [done|]. intros m _. by exists s. }
  unfold save_state, modify. cbn beta iota.
  match goal with |- context [record_audit ?c ?w0] =>
    pose proof (record_audit_keeps c w0) as Hk; destruct (record_audit c w0) as [o w'] end.
  destruct Hk as (-> & Hst & _ & _).
  destruct (audit_ok _) as [[]|e]; right; exists s, now; rewrite Hst; cbn [states];
    split_and!; try done; try (by eexists); [by left|right; by eexists].
Qed.

Section preserved.
Context (I : LoopId -> LoopState -> Prop) (D : gset LoopId).
Context (ids : forall i s, I i s -> ls_loop_id s = i).
Context (step_case : forall i s st pp now,
  I i s -> phase s ∉ TERMINAL_PHASES -> phase s ∉ NON_AUTO_STEP_PHASES -> observation_signals st = [] ->
  propose_tokens_used st = 0 \/ propose_tokens_used st = MOCK_STEP_TOKENS ->
  let s1 := feedback s st pp 0 now in
  I i (LoopModels.with_phase s1 (LoopModels.evaluate_termination s1 LoopModels.default_policy))).
Context (pause_case : forall i s now,
  I i s -> phase s ∉ PAUSE_TERMINAL_PHASES -> I i (paused_state s now)).
Context (resume_case : forall i s now pc, pause_control = Some pc ->
  I i s -> phase s ∉ PAUSE_TERMINAL_PHASES -> pause_attempts s + 1 < max_pauses (pc_policy pc) ->
  I i (resumed_state s now)).
Context (block_case : forall i s now,
  I i s -> phase s ∉ PAUSE_TERMINAL_PHASES -> I i (ended_state LoopPhase.POLICY_BLOCKED s now)).
Context (stop_case : forall i s now,
  I i s -> phase s <> LoopPhase.EMERGENCY_STOPPED -> I i (ended_state LoopPhase.EMERGENCY_STOPPED s now)).

Lemma resume_loop_preserves i rq : preserves (all_states I D) (resume_loop i rq).
Proof.
  intros w Hw. unfold resume_loop. destruct pause_control as [pc|] eqn:Epc; [|exact Hw].
  pose proof (resume_preserves I D ids (pc_policy pc) (pc_approval pc) (pc_now pc) i rq
    (fun s now => resume_case i s now pc eq_refl) w Hw) as Hr.
  pose proof (resume_cases (pc_policy pc) (pc_approval pc) (pc_now pc) i rq w) as Hc.
  destruct (resume _ _ _ i rq w) as [[s|e] w']; [exact Hr|]. cbn [snd] in Hr.
  destruct e; try exact Hr. apply (force_preserves I D ids); [|exact Hr].
  intros s now Hs E. apply block_case; [done|].
  destruct Hc as [(Hst & e & [= <-] & He)|(s0 & n0 & Hs0 & Hd0 & _ & _ & _ & Hst & _)].
  - rewrite Hst in E. destruct (He _ eq_refl) as (s1 & E1 & Hd). congruence.
  - rewrite Hst in E. rewrite (ids _ _ (proj1 Hw i s0 Hs0)) in E. rewrite lookup_insert in E.
    rewrite decide_True in E by done. injection E as <-. cbn. apply (bool_decide_unpack _). vm_compute. exact Logic.I.
Qed.

Lemma run_op_preserves o w :
  match o with
  | OpCreate plan required => forall now, I (lp_loop_id plan) (initial_state plan required now)
  | _ => True
  end -> all_states I D w -> all_states I D (run_op o w).
Proof.
  destruct o as [plan req|i|i a r ro|i rq|i a r]; cbn [run_op]; intros Ho Hw.
  - by apply create_preserves.
  - by apply (run_step_preserves I D step_case ids).
  - destruct pause_control as [pc|]; [|exact Hw].
    apply (pause_preserves I D ids); [apply pause_case|exact Hw].
  - by apply resume_loop_preserves.
  - apply (stop_preserves I D ids); [apply stop_case|exact Hw].
Qed.

Lemma run_ops_preserves ops w :
  Forall (fun o => match o with
    | OpCreate plan required => forall now, I (lp_loop_id plan) (initial_state plan required now)
    | _ => True end) ops ->
  all_states I D w -> all_states I D (run_ops ops w).
Proof.
  intros Ho. revert w. induction Ho as [|o ops Ho _ IH]; intros w Hw; [exact Hw|].
  apply (IH (run_op o w)). by apply run_op_preserves.
Qed.

End preserved.

(** ** How long a loop can run *)

(** The resumes the pause policy allows. *)
Definition max_resumes : Z :=
  match pause_control with Some pc => Z.max 0 (max_pauses (pc_policy pc) - 1) | None => 0 end.

Definition stepping (p : LoopPhase) : bool :=
  bool_decide (p ∈ [LoopPhase.INITIALIZING; LoopPhase.RUNNING; LoopPhase.RESUMED]).

#[local] Arguments stepping : simpl never.
Lemma stepping_values :
  stepping LoopPhase.PAUSED = false /\ stepping LoopPhase.POLICY_BLOCKED = false
  /\ stepping LoopPhase.EMERGENCY_STOPPED = false /\ stepping LoopPhase.RESUMED = true
  /\ stepping LoopPhase.INITIALIZING = true /\ stepping LoopPhase.RUNNING = true.
Proof. by vm_compute. Qed.

Record bounded (i : LoopId) (s : LoopState) : Prop := {
  bounded_id : ls_loop_id s = i;
  bounded_limits : max_steps (budget s) = 50 /\ max_total_tokens (budget s) = 200000
                   /\ max_wall_seconds (budget s) = 1800;
  bounded_silent : consecutive_no_signal s = steps_used (budget s);
  bounded_steps : 0 <= steps_used (budget s)
                  /\ steps_used (budget s) + Z.b2z (stepping (phase s)) <= 5 + pause_attempts s;
  bounded_pauses : 0 <= pause_attempts s <= max_resumes;
  bounded_tokens : 0 <= tokens_used (budget s) <= 100 * steps_used (budget s);
  bounded_phase : phase s <> LoopPhase.COMPLETED /\ phase s <> LoopPhase.CATALOG_FLOOR_DONE
}.

(** The phases [run_step] gives an advancing loop. *)
Lemma evaluate_cases s :
  phase s ∉ TERMINAL_PHASES -> phase s ∉ NON_AUTO_STEP_PHASES ->
  let p := LoopModels.evaluate_termination s LoopModels.default_policy in
  (p = LoopPhase.RUNNING /\ consecutive_no_signal s < 5 /\ LoopModels.exhausted (budget s) = false)
  \/ p ∈ [LoopPhase.BUDGET_EXHAUSTED; LoopPhase.POLICY_BLOCKED; LoopPhase.CONVERGED].
Proof.
  intros H1 H2. unfold LoopModels.evaluate_termination.
  assert (He : phase s <> LoopPhase.EMERGENCY_STOPPED /\ phase s <> LoopPhase.PAUSED)
    by (split; intros E; rewrite E in *; [apply H1|apply H2]; apply (bool_decide_unpack _); vm_compute; exact I).
  destruct He as [He1 He2].
  assert (Hp : forall A (a b c : A), match phase s with LoopPhase.EMERGENCY_STOPPED => a | LoopPhase.PAUSED => b | _ => c end = c)
    by (intros A a b c; by destruct (phase s)).
  rewrite Hp. cbn [policy_rejected_streak_to_stop no_signal_streak_to_converge LoopModels.default_policy].
  destruct (LoopModels.exhausted (budget s)); [right; set_solver|].
  destruct (_ <=? _); [right; set_solver|].
  destruct (Z.leb_spec 5 (consecutive_no_signal s)); [right; set_solver|]. by left.
Qed.

Lemma steppable_phase s :
  phase s ∉ TERMINAL_PHASES -> phase s ∉ NON_AUTO_STEP_PHASES -> stepping (phase s) = true.
Proof.
  intros H1 H2. unfold stepping. apply bool_decide_eq_true.
  destruct (phase s); set_solver.
Qed.

Lemma bounded_step i s st pp now :
  bounded i s -> phase s ∉ TERMINAL_PHASES -> phase s ∉ NON_AUTO_STEP_PHASES -> observation_signals st = [] ->
  propose_tokens_used st = 0 \/ propose_tokens_used st = MOCK_STEP_TOKENS ->
  let s1 := feedback s st pp 0 now in
  bounded i (LoopModels.with_phase s1 (LoopModels.evaluate_termination s1 LoopModels.default_policy)).
Proof.
  intros [Hid Hlim Hsil Hst Hpa Htok Hph] H1 H2 Hsig Htk s1.
  pose proof (steppable_phase s H1 H2) as Hact. rewrite Hact in Hst. cbn in Hst.
  pose proof (evaluate_cases s1 H1 H2) as Hc. cbn zeta in Hc.
  set (p := LoopModels.evaluate_termination s1 LoopModels.default_policy) in *.
  split; cbn -[Z.mul]; try done.
  - lia.
  - destruct Hc as [(-> & Hns & _)|Hp].
    + cbn in Hns. change (stepping LoopPhase.RUNNING) with true. cbn. lia.
    + assert (stepping p = false) as ->.
      { apply bool_decide_eq_false. intros Hin. destruct p; set_solver. }
      cbn. lia.
  - unfold MOCK_STEP_TOKENS in Htk. destruct Htk as [-> | ->]; lia.
  - destruct Hc as [(-> & _)|Hp]; [done|]. destruct p; split; intros [=]; set_solver.
Qed.

Lemma bounded_ops ops w :
  map_Forall bounded (states w) -> map_Forall bounded (states (run_ops ops w)).
Proof.
  intros Hw. destruct stepping_values as (V1 & V2 & V3 & V4 & V5 & _).
  apply (run_ops_preserves bounded ∅).
  - by intros i s [].
  - intros i s st pp now. apply bounded_step.
  - intros i s now [Hid Hlim Hsil Hst Hpa Htok Hph] _. split; cbn -[Z.mul]; try done.
    rewrite ?V1, ?V2, ?V3. destruct (stepping (phase s)); cbn in Hst |- *; lia.
  - intros i s now pc Epc [Hid Hlim Hsil Hst Hpa Htok Hph] Hd Hm.
    split; cbn -[Z.mul]; try done.
    + rewrite V4. destruct (stepping (phase s)); cbn in Hst |- *; lia.
    + unfold max_resumes in *. rewrite Epc in *. lia.
  - intros i s now [Hid Hlim Hsil Hst Hpa Htok Hph] _. split; cbn -[Z.mul]; try done.
    rewrite ?V1, ?V2, ?V3. destruct (stepping (phase s)); cbn in Hst |- *; lia.
  - intros i s now [Hid Hlim Hsil Hst Hpa Htok Hph] _. split; cbn -[Z.mul]; try done.
    rewrite ?V1, ?V2, ?V3. destruct (stepping (phase s)); cbn in Hst |- *; lia.
  - apply Forall_forall. intros [plan req| | | |] _; try done. intros now. split; cbn -[Z.mul]; try done; try lia.
    unfold max_resumes. destruct pause_control; lia.
  - split; [exact Hw|set_solver].
Qed.

(** A computation that, when it returns, has advanced [s] by one step. *)
Definition advances (i : LoopId) (s : LoopState) (m : M (LoopWorld W) StepResult) : Prop :=
  forall w r w', m w = (Ret r, w') ->
  exists s', states w' !! i = Some s' /\ steps_used (budget s') = steps_used (budget s) + 1
    /\ pause_attempts s' = pause_attempts s /\ sr_phase r = phase s'
    /\ (phase s' ∈ TERMINAL_PHASES \/ phase s' = LoopPhase.RUNNING).

Lemma advances_bind {A} i s (m : M (LoopWorld W) A) f :
  (forall a, advances i s (f a)) -> advances i s (m ≫= f).
Proof.
  intros Hf w r w'. unfold mbind, M_bind. destruct (m w) as [[a|e] w1]; [apply Hf|done].
Qed.

Lemma advances_finish i s st pp n extra o k :
  ls_loop_id s = i -> phase s ∉ TERMINAL_PHASES -> phase s ∉ NON_AUTO_STEP_PHASES ->
  advances i s (advance i s st pp n extra ≫= fun p => mret (mkStepResult i p o k)).
Proof.
  intros Hid H1 H2 w r w'. unfold advance, mbind, M_bind.
  pose proof (lift_env_keeps clock w) as Hk. destruct (lift_env clock w) as [[now|e] w1]; [|done].
  set (s1 := feedback s st pp n now).
  pose proof (evaluate_cases s1 H1 H2) as Hc. cbn zeta in Hc.
  set (p := LoopModels.evaluate_termination s1 LoopModels.default_policy) in *.
  unfold save_state, modify.
  set (w2 := mkWorld _ _ _ _).
  assert (Hw2 : states w2 !! i = Some (LoopModels.with_phase s1 p))
    by (subst w2; cbn; rewrite Hid; apply lookup_insert_eq).
  assert (Hend : forall u : LoopWorld W, states u !! i = Some (LoopModels.with_phase s1 p) ->
    exists s', states u !! i = Some s' /\ steps_used (budget s') = steps_used (budget s) + 1
    /\ pause_attempts s' = pause_attempts s /\ p = phase s'
    /\ (phase s' ∈ TERMINAL_PHASES \/ phase s' = LoopPhase.RUNNING)).
  { intros u Hu. eexists. split; [exact Hu|]. cbn. split; [done|]. split; [done|]. split; [done|].
    destruct Hc as [(-> & _)|Hp]; [by right|left]. revert Hp. generalize p. clear. intros p Hp.
    destruct p; set_solver. }
  case_bool_decide.
  - match goal with |- context [record_audit ?c w2] =>
      pose proof (record_audit_keeps c w2) as Hr; destruct (record_audit c w2) as [[u|e] w3]; [|done] end.
    destruct Hr as (_ & Hr & _). intros [= <- <-]. apply Hend. by rewrite Hr.
  - intros [= <- <-]. by apply Hend.
Qed.

Lemma reject_advances i s context a name code reason :
  ls_loop_id s = i -> phase s ∉ TERMINAL_PHASES -> phase s ∉ NON_AUTO_STEP_PHASES ->
  advances i s (record_gate_rejected i s context a name code reason).
Proof.
  intros. unfold record_gate_rejected. do 2 (apply advances_bind; intros ?). by apply advances_finish.
Qed.

Lemma gate_advances check name denied i s context a k :
  ls_loop_id s = i -> phase s ∉ TERMINAL_PHASES -> phase s ∉ NON_AUTO_STEP_PHASES ->
  (forall v, advances i s (k v)) -> advances i s (gate check name denied i s context a k).
Proof.
  intros Hid H1 H2 Hk. unfold gate. apply advances_bind. intros v.
  destruct (passed v); [apply Hk|by apply reject_advances].
Qed.

(** A [run_step] that returns has either found the loop waiting for a human
    or advanced it by one step. *)
Lemma run_step_progress i s (w : LoopWorld W) r w' :
  states w !! i = Some s -> ls_loop_id s = i -> run_step i w = (Ret r, w') ->
  phase s ∉ TERMINAL_PHASES
  /\ (phase s ∈ NON_AUTO_STEP_PHASES
      \/ exists s', states w' !! i = Some s' /\ steps_used (budget s') = steps_used (budget s) + 1
          /\ pause_attempts s' = pause_attempts s /\ sr_phase r = phase s'
          /\ (phase s' ∈ TERMINAL_PHASES \/ phase s' = LoopPhase.RUNNING)).
Proof.
  intros Hs Hid. unfold run_step, get_state, gets, lift, mbind at 1 2 3, M_bind. rewrite Hs. cbn [unwrap].
  case_bool_decide as H1; cbn [raise_if]; [done|]. case_bool_decide as H2; [intros _; by split; [|left]|].
  intros Hr. split; [done|]. right. revert w r w' Hs Hr.
  match goal with |- forall w r w', _ -> ?m w = _ -> _ => cut (advances i s m) end.
  { intros Ha w r w' _. apply Ha. }
  apply advances_bind. intros loops. apply advances_bind. intros context. cbn zeta.
  destruct (budget_gate_wired && _); [by apply reject_advances|].
  apply advances_bind. intros [act|].
  - do 3 (apply gate_advances; [done..|]; let v := fresh "v" in intros v).
    unfold execute. do 4 (apply advances_bind; intros ?). by apply advances_finish.
  - unfold record_backend_unavailable. do 3 (apply advances_bind; intros ?). by apply advances_finish.
Qed.

Definition returning_step (i : LoopId) (u v : LoopWorld W) : Prop := exists r, run_step i u = (Ret r, v).

Lemma stepping_terminal s : phase s ∈ TERMINAL_PHASES -> forall k i w w',
  states w !! i = Some s -> ls_loop_id s = i -> nsteps (returning_step i) k w w' -> k = O.
Proof.
  intros Ht k i w w' Hs Hid Hn. inversion Hn as [|n x y z [r Hr] _]; subst; [done|].
  by destruct (run_step_progress _ s w r y Hs eq_refl Hr) as [Hc _].
Qed.

Lemma stepping_bound k : forall i s w w',
  map_Forall bounded (states w) -> states w !! i = Some s -> stepping (phase s) = true ->
  nsteps (returning_step i) k w w' ->
  Z.of_nat k <= 5 + pause_attempts s - steps_used (budget s).
Proof.
  induction k as [|k IH]; intros i s w w' Hw Hs Hact Hn.
  - destruct (Hw i s Hs) as [_ _ _ Hb _ _ _]. rewrite Hact in Hb. cbn in Hb. lia.
  - inversion Hn as [|n x y z [r Hr] Hn']; subst.
    pose proof (Hw i s Hs) as [Hid _ _ Hb _ _ _]. rewrite Hact in Hb. cbn in Hb.
    destruct (run_step_progress i s w r y Hs Hid Hr) as [H1 [H2|(s' & Hs' & Hk & Hp & _ & Hph)]].
    { unfold stepping in Hact. apply bool_decide_eq_true in Hact. destruct (phase s); set_solver. }
    assert (Hy : map_Forall bounded (states y)).
    { pose proof (bounded_ops [OpStep i] w Hw) as Hb'. cbn in Hb'. by rewrite Hr in Hb'. }
    destruct Hph as [Hph|Hph].
    + assert (k = O) as ->; [|lia]. eapply (stepping_terminal s' Hph); [exact Hs'| |exact Hn'].
      by apply (Hy i s' Hs').
    + assert (Hact' : stepping (phase s') = true) by (rewrite Hph; by vm_compute).
      pose proof (IH i s' y w' Hy Hs' Hact' Hn') as Hle. lia.
Qed.

(** C10: every loop ends, whatever the proposer, the gates and the oracle
    answer. However the operations on a set of loops are ordered, a loop
    never uses more than five steps plus one per human resume, at most 100
    tokens each, and is resumed fewer times than the pause policy's limit: the
    50 steps and 200000 tokens of the budget are never what ends it. And
    [run_step] can return at most the remaining number of times before the
    loop is in a terminal phase, where it refuses. *)
Theorem every_loop_ends ops (w0 : LoopWorld W) :
  states w0 = ∅ ->
  let w := run_ops ops w0 in
  (forall i s, states w !! i = Some s ->
     steps_used (budget s) <= 5 + max_resumes /\ tokens_used (budget s) <= 100 * (5 + max_resumes)
     /\ pause_attempts s <= max_resumes
     /\ max_steps (budget s) = 50 /\ max_total_tokens (budget s) = 200000)
  /\ (forall i s k w', states w !! i = Some s -> stepping (phase s) = true ->
       nsteps (returning_step i) k w w' ->
       Z.of_nat k <= 5 + pause_attempts s - steps_used (budget s)).
Proof.
  intros H0 w.
  assert (Hw : map_Forall bounded (states w))
    by (apply bounded_ops; rewrite H0; apply map_Forall_empty).
  split.
  - intros i s Hs. destruct (Hw i s Hs) as [_ (L1 & L2 & _) _ Hb Hp Ht _].
    destruct (stepping (phase s)); cbn in Hb; lia.
  - intros i s k w' Hs Hact. by apply stepping_bound.
Qed.

(** ** Gates before execution *)

(** [check] let the action through, in some state of the environment. *)
Definition accepted (check : ProposeAction -> LoopContext -> M W GateVerdict) (a : ProposeAction)
    (context : LoopContext) (v : GateVerdict) : Prop :=
  exists e e', check a context e = (Ret v, e') /\ passed v = true.

(** What a recorded step has behind it. *)
Definition gated (i : LoopId) (s : LoopState) (st : LoopStep) : Prop :=
  exists context loops e e', build_context loops i e = (Ret context, e')
  /\ (budget_gate_wired = true -> passed (budget_check (budget s) MOCK_STEP_TOKENS) = true)
  /\ (exists e1 e2, propose context e1 = (Ret (Some (proposed_action st)), e2))
  /\ (exists v, accepted schema_gate (proposed_action st) context v)
  /\ (exists v, accepted policy_gate (proposed_action st) context v)
  /\ (exists v, accepted permit_gate (proposed_action st) context v
       /\ st_permit_id st = Some (default "" (permit_id v))).

(** A computation that records no step. *)
Definition adds_none {A} (m : M (LoopWorld W) A) : Prop := forall w, steps (m w).2 = steps w.

Lemma adds_none_bind {A B} (m : M (LoopWorld W) A) (f : A -> M (LoopWorld W) B) :
  adds_none m -> (forall a, adds_none (f a)) -> adds_none (m ≫= f).
Proof.
  intros Hm Hf w. unfold mbind, M_bind. specialize (Hm w). destruct (m w) as [[a|e] w1]; [|exact Hm].
  rewrite Hf. exact Hm.
Qed.

Lemma adds_none_env {A} (m : M W A) : adds_none (lift_env m).
Proof. intros w. pose proof (lift_env_keeps m w) as H. destruct (lift_env m w). by destruct H as (_ & _ & ? & _). Qed.

Lemma adds_none_audit call : adds_none (record_audit call).
Proof. intros w. pose proof (record_audit_keeps call w) as H. destruct (record_audit call w). by destruct H as (_ & _ & ? & _). Qed.

Lemma adds_none_ret {A} (a : A) : adds_none (mret a : M (LoopWorld W) A).
Proof. by intros w. Qed.

Lemma adds_none_lift {A} (m : outcome A) : adds_none (lift m).
Proof. by intros w. Qed.

Lemma adds_none_gets {A} (f : LoopWorld W -> A) : adds_none (gets f).
Proof. by intros w. Qed.

Lemma adds_none_save s : adds_none (save_state s).
Proof. by intros w. Qed.

Lemma adds_none_get_state i : adds_none (get_state i).
Proof. by intros w. Qed.

Lemma adds_none_advance i s st pp n extra : adds_none (advance i s st pp n extra).
Proof.
  unfold advance. apply adds_none_bind; [apply adds_none_env|]. intros now. cbn zeta.
  apply adds_none_bind; [apply adds_none_save|]. intros _. apply adds_none_bind; [|intros _; apply adds_none_ret].
  case_bool_decide; [apply adds_none_audit|apply adds_none_ret].
Qed.

Lemma adds_none_reject i s context a name code reason :
  adds_none (record_gate_rejected i s context a name code reason).
Proof.
  unfold record_gate_rejected. apply adds_none_bind; [apply adds_none_audit|]. intros _.
  apply adds_none_bind; [apply adds_none_env|]. intros st.
  apply adds_none_bind; [apply adds_none_advance|]. intros p. apply adds_none_ret.
Qed.

(** A computation that, from the environment [e], records no step, or one that
    satisfies [Q] with the environment it leaves. *)
Definition records {A} (e : W) (Q : LoopStep -> W -> Prop) (m : M (LoopWorld W) A) : Prop :=
  forall w, env w = e -> steps (m w).2 = steps w
    \/ exists st, Q st (env (m w).2) /\ steps (m w).2 = steps w ++ [st].

Lemma adds_none_records {A} e Q (m : M (LoopWorld W) A) : adds_none m -> records e Q m.
Proof. intros H w _. left. apply H. Qed.

Lemma records_env {A B} e Q (m : M W A) (f : A -> M (LoopWorld W) B) :
  (forall a e', m e = (Ret a, e') -> records e' Q (f a)) -> records e Q (lift_env m ≫= f).
Proof.
  intros Hf w <-. unfold mbind, M_bind, lift_env. destruct (m (env w)) as [[a|x] e'] eqn:E; [|by left].
  destruct (Hf a e' eq_refl (mkWorld (states w) (steps w) (loop_log w) e') eq_refl) as [H|H]; [by left|by right].
Qed.

Lemma records_gate e Q check name denied i s context a k :
  (forall v e', check a context e = (Ret v, e') -> passed v = true -> records e' Q (k v)) ->
  records e Q (gate check name denied i s context a k).
Proof.
  intros Hk. unfold gate. apply records_env. intros v e' He.
  destruct (passed v) eqn:Ev; [by apply Hk|]. apply adds_none_records, adds_none_reject.
Qed.

(** A computation that uses the environment for reading the clock, at most. *)
Definition clock_only {A} (m : M (LoopWorld W) A) : Prop :=
  forall w, env (m w).2 = env w \/ env (m w).2 = (clock (env w)).2.

Lemma clock_only_audit {A} call (m : M (LoopWorld W) A) : clock_only m -> clock_only (record_audit call;; m).
Proof.
  intros Hm w. pose proof (record_audit_keeps call w) as H. unfold mbind, M_bind.
  destruct (record_audit call w) as [[[]|x] w1]; destruct H as (_ & _ & _ & <-); [apply Hm|by left].
Qed.

Lemma clock_only_advance {B} i s st pp n extra (f : LoopPhase -> B) :
  clock_only (p ← advance i s st pp n extra; mret (f p)).
Proof.
  intros w. unfold advance, lift_env, mbind, M_bind, save_state, modify. right.
  destruct (clock (env w)) as [[now|x] e1] eqn:Ec; [|done]. cbn zeta beta iota. case_bool_decide; [|done].
  match goal with |- context [record_audit ?c ?w0] => pose proof (record_audit_keeps c w0) as Hk; destruct (record_audit c w0) as [[[]|x] w1] end;
  by destruct Hk as (_ & _ & _ & Hk).
Qed.

Lemma records_execute e Q i s context a pm :
  (forall st e1 e2, execute_step i context a pm e = (Ret st, e1) -> e2 = e1 \/ e2 = (clock e1).2 -> Q st e2) ->
  records e Q (execute i s context a pm).
Proof.
  intros HQ. unfold execute. apply records_env. intros st e1 He w <-. right. exists st.
  unfold mbind at 1, M_bind at 1, add_step, modify. cbn beta iota. set (w1 := mkWorld _ _ _ _). split.
  - apply (HQ st (env w) _ He). cbn zeta.
    match goal with |- context [env (?m w1).2] => assert (Hc : clock_only m) end; [|exact (Hc w1)].
    do 2 apply clock_only_audit. apply clock_only_advance.
  - unfold mbind at 1, M_bind at 1. cbn beta iota. fold w1.
    match goal with |- steps (?m w1).2 = _ => assert (Hm : adds_none m); [|by rewrite Hm] end.
    apply adds_none_bind; [apply adds_none_audit|]. intros _.
    apply adds_none_bind; [apply adds_none_audit|]. intros _. cbn zeta.
    apply adds_none_bind; [apply adds_none_advance|]. intros p. apply adds_none_ret.
Qed.

Lemma get_state_eq i (w : LoopWorld W) : get_state i w = (Ret (states w !! i), w).
Proof. reflexivity. Qed.

(** The calls behind a recorded step, in their order: each part is called in
    the environment the previous one left. *)
Definition chain (i : LoopId) (s : LoopState) (w : LoopWorld W) (st : LoopStep) (after : W) : Prop :=
  exists context v1 v2 v3 e1 e2 e3 e4 e5 e6, let a := proposed_action st in
    build_context (states w) i (env w) = (Ret context, e1)
    /\ (budget_gate_wired = true -> passed (budget_check (budget s) MOCK_STEP_TOKENS) = true)
    /\ propose context e1 = (Ret (Some a), e2)
    /\ (schema_gate a context e2 = (Ret v1, e3) /\ passed v1 = true)
    /\ (policy_gate a context e3 = (Ret v2, e4) /\ passed v2 = true)
    /\ (permit_gate a context e4 = (Ret v3, e5) /\ passed v3 = true)
    /\ execute_step i context a (default "" (permit_id v3)) e5 = (Ret st, e6)
    /\ (after = e6 \/ after = (clock e6).2).

Lemma run_step_chain i (w : LoopWorld W) :
  let after := (run_step i w).2 in
  steps after = steps w
  \/ exists s st, states w !! i = Some s /\ phase s ∉ TERMINAL_PHASES /\ phase s ∉ NON_AUTO_STEP_PHASES
     /\ chain i s w st (env after) /\ steps after = steps w ++ [st].
Proof.
  cbn zeta. destruct (run_step i w) as [o w'] eqn:E. cbn [snd]. revert E.
  unfold run_step, lift, mbind at 1 2 3, M_bind. rewrite get_state_eq.
  destruct (states w !! i) as [s|] eqn:Es; cbn [unwrap]; [|intros [= _ <-]; by left].
  case_bool_decide as H1; cbn [raise_if]; [intros [= _ <-]; by left|].
  case_bool_decide as H2; [intros [= _ <-]; by left|].
  unfold gets, mbind at 1. cbn beta iota.
  match goal with |- ?m w = _ -> _ => cut (records (env w) (fun st e => chain i s w st e) m) end.
  { intros Ha E. pose proof (Ha w eq_refl) as Hw. rewrite E in Hw. cbn [snd] in Hw.
    destruct Hw as [Hs|(st & Hg & Hs)]; [left; exact Hs|right].
    exists s, st. exact (conj eq_refl (conj H1 (conj H2 (conj Hg Hs)))). }
  apply records_env. intros context e1 Hctx. cbn zeta.
  destruct (budget_gate_wired && negb (passed (budget_check (budget s) MOCK_STEP_TOKENS))) eqn:Eb;
    [apply adds_none_records, adds_none_reject|].
  apply records_env. intros [a|] e2 Hp.
  - apply records_gate. intros v1 e3 A1 P1. apply records_gate. intros v2 e4 A2 P2.
    apply records_gate. intros v3 e5 A3 P3. apply records_execute. intros st e6 e7 Hx He.
    destruct (execute_step_Ret _ _ _ _ _ _ _ Hx) as (_ & _ & <- & _).
    exists context, v1, v2, v3, e1, e2, e3, e4, e5, e6. split_and!; try done.
    intros Hb. rewrite Hb in Eb. by destruct (passed _).
  - apply adds_none_records. unfold record_backend_unavailable.
    apply adds_none_bind; [apply adds_none_lift|]. intros h. apply adds_none_bind; [apply adds_none_audit|].
    intros _. apply adds_none_bind; [apply adds_none_env|]. intros st.
    apply adds_none_bind; [apply adds_none_advance|]. intros q. apply adds_none_ret.
Qed.

Lemma run_step_adds i (w : LoopWorld W) :
  steps (run_step i w).2 = steps w
  \/ exists s st, states w !! i = Some s /\ phase s ∉ TERMINAL_PHASES /\ phase s ∉ NON_AUTO_STEP_PHASES
     /\ gated i s st /\ steps (run_step i w).2 = steps w ++ [st].
Proof.
  destruct (run_step_chain i w) as [H|(s & st & H1 & H2 & H3 & Hc & Hs)]; [by left|right].
  exists s, st. split_and!; try done.
  destruct Hc as (c & v1 & v2 & v3 & e1 & e2 & e3 & e4 & e5 & e6 & Hb & Hbud & Hp & [A1 P1] & [A2 P2] & [A3 P3] & Hx & _).
  destruct (execute_step_Ret _ _ _ _ _ _ _ Hx) as (_ & _ & _ & Hpid & _).
  exists c, (states w), (env w), e1. split_and!; try done; [by exists e1, e2|exists v1|exists v2|exists v3];
    by first [split; [by eexists _, _|]|eexists _, _].
Qed.

Ltac no_step :=
  repeat first
    [ apply adds_none_env | apply adds_none_audit | apply adds_none_save | apply adds_none_ret
    | apply adds_none_lift | apply adds_none_get_state
    | apply adds_none_bind; [|intros ?] | progress cbn zeta | case_bool_decide ].

Lemma adds_none_force i detail actor : adds_none (force_pause_budget_termination i detail actor).
Proof. unfold force_pause_budget_termination. no_step. Qed.

Lemma adds_none_resume pol approval pc_now i rq : adds_none (resume pol approval pc_now i rq).
Proof. unfold resume. no_step. Qed.

Lemma adds_none_resume_loop i rq : adds_none (resume_loop i rq).
Proof.
  unfold resume_loop. destruct pause_control as [pc|]; [|by intros w]. intros w.
  pose proof (adds_none_resume (pc_policy pc) (pc_approval pc) (pc_now pc) i rq w) as Hr.
  destruct (resume _ _ _ i rq w) as [[s|e] w']; [exact Hr|]. destruct e; try exact Hr.
  rewrite adds_none_force. exact Hr.
Qed.

(** nothing runs before the gates. Whatever operation is performed on
    the loops, and whether it returns or raises, it records either no step or
    one, and only [run_step] records one: on a loop that is neither terminal
    nor waiting for a human, for the very action the proposer gave, after the
    budget guard (when there is one) and the schema, policy and permit gates
    each passed that action in the same context, and under the permit the
    permit gate issued for it. *)
Theorem no_step_without_all_gates o (w : LoopWorld W) :
  steps (run_op o w) = steps w
  \/ exists i s st, o = OpStep i /\ states w !! i = Some s
     /\ phase s ∉ TERMINAL_PHASES /\ phase s ∉ NON_AUTO_STEP_PHASES
     /\ gated i s st /\ steps (run_op o w) = steps w ++ [st].
Proof.
  destruct o as [plan req|i|i a r ro|i rq|i a r]; cbn [run_op].
  - left. revert w. change (adds_none (create_loop plan req)). unfold create_loop. no_step.
  - destruct (run_step_adds i w) as [Hs|(s & st & H1 & H2 & H3 & H4 & H5)]; [by left|right].
    by exists i, s, st.
  - left. destruct pause_control as [pc|]; [|done]. revert w. change (adds_none (pause (pc_now pc) i a r ro)).
    unfold pause. no_step.
  - left. apply adds_none_resume_loop.
  - left. revert w. change (adds_none (emergency_stop i a r)). unfold emergency_stop. no_step.
Qed.

(** ** The human control plane *)

Lemma force_Ret i detail actor s (w w' : LoopWorld W) s' :
  states w !! i = Some s -> ls_loop_id s = i ->
  force_pause_budget_termination i detail actor w = (Ret s', w') ->
  phase s' = LoopPhase.POLICY_BLOCKED /\ states w' !! i = Some s'.
Proof.
  intros Hs Hid. unfold force_pause_budget_termination, lift, mbind, M_bind. rewrite get_state_eq, Hs.
  cbn [unwrap]. pose proof (lift_env_keeps clock w) as Hk. destruct (lift_env clock w) as [[now|e] w1]; [|done].
  unfold save_state, modify. cbn beta iota.
  match goal with |- context [record_audit ?c ?w2] =>
    pose proof (record_audit_keeps c w2) as Hr; destruct (record_audit c w2) as [[u|e] w3]; [|done] end.
  destruct Hr as (_ & Hr & _). intros [= <- <-]. split; [done|]. rewrite Hr. cbn. rewrite Hid. apply lookup_insert_eq.
Qed.

Lemma emergency_stop_stores i actor reason s (w : LoopWorld W) :
  map_Forall (fun i s => ls_loop_id s = i) (states w) -> states w !! i = Some s ->
  (exists e, (clock (env w)).1 = Raise e)
  \/ exists s', states (emergency_stop i actor reason w).2 !! i = Some s'
       /\ phase s' = LoopPhase.EMERGENCY_STOPPED.
Proof.
  intros Hids Hs. unfold emergency_stop, lift, mbind, M_bind. rewrite get_state_eq, Hs. cbn [unwrap].
  case_bool_decide as Hp; [right; exists s; split; [exact Hs|exact Hp]|].
  pose proof (lift_env_keeps clock w) as Hk. destruct (lift_env clock w) as [[now|e] w1]; [right|left; exists e; apply Hk].
  unfold save_state, modify. cbn beta iota.
  match goal with |- context [record_audit ?c ?w2] =>
    pose proof (record_audit_keeps c w2) as Hr; destruct (record_audit c w2) as [[u|e] w3] end;
  destruct Hr as (_ & Hr & _); cbn [snd mret M_ret]; unfold mret, M_ret; cbn [snd];
    eexists; (split; [rewrite Hr; cbn; rewrite (Hids i s Hs); apply lookup_insert_eq|done]).
Qed.

(** only a human resumes a loop, and only a live one. When [resume_loop]
    of a composed orchestrator returns a resumed state, the caller was not an
    agent, the approval port accepted the request, the loop was in none of
    the four phases the service blocks, and one more pause fits the policy;
    the paused time is credited without ever making the wall clock used
    negative. A call by an agent changes no loop; and when the pauses are
    used up, a call that returns has ended the loop as POLICY_BLOCKED. *)
Theorem only_a_human_resumes pc i rq (w : LoopWorld W) :
  pause_control = Some pc -> map_Forall (fun i s => ls_loop_id s = i) (states w) ->
  (rq_role rq = "agent" -> exists m, resume_loop i rq w = (Raise (ApprovalRejected m), w))
  /\ (forall s s' w', states w !! i = Some s -> rq_role rq <> "agent" -> phase s ∉ PAUSE_TERMINAL_PHASES ->
       max_pauses (pc_policy pc) <= pause_attempts s + 1 ->
       resume_loop i rq w = (Ret s', w') ->
       phase s' = LoopPhase.POLICY_BLOCKED /\ states w' !! i = Some s')
  /\ (forall s' w', resume_loop i rq w = (Ret s', w') -> phase s' = LoopPhase.RESUMED ->
       exists s now, states w !! i = Some s /\ rq_role rq <> "agent"
       /\ (exists e', pc_approval pc i rq (env w) = (Ret tt, e'))
       /\ phase s ∉ PAUSE_TERMINAL_PHASES /\ pause_attempts s + 1 < max_pauses (pc_policy pc)
       /\ s' = resumed_state s now /\ states w' !! i = Some s'
       /\ 0 <= wall_seconds_used (budget s')
       /\ (0 <= wall_credit s now -> 0 <= wall_seconds_used (budget s) ->
            wall_seconds_used (budget s') <= wall_seconds_used (budget s))).
Proof.
  intros Epc Hids. unfold resume_loop. rewrite Epc.
  pose proof (resume_cases (pc_policy pc) (pc_approval pc) (pc_now pc) i rq w) as Hc. split_and!.
  - intros Hr. unfold resume at 1, lift, mbind at 1, M_bind. rewrite bool_decide_true by done. by eexists.
  - intros s s' w' Hs Hr Hd Hm.
    assert (E : resume (pc_policy pc) (pc_approval pc) (pc_now pc) i rq w
      = (Raise (PauseBudgetExceeded (budget_message (pc_policy pc) i (pause_attempts s + 1))), w)).
    { unfold resume, lift, mbind, M_bind. rewrite bool_decide_false by done. cbn [raise_if].
      rewrite get_state_eq, Hs. cbn [unwrap]. rewrite bool_decide_false by done. cbn [raise_if].
      unfold LoopModels.pause_budget_exceeded. by rewrite (proj2 (Z.leb_le _ _) Hm). }
    rewrite E. apply force_Ret with (s := s); [done|]. by apply Hids.
  - intros s' w' Hret Hph. destruct (resume _ _ _ i rq w) as [[s1|e] w1].
    + injection Hret as <- <-.
      destruct Hc as [(_ & e & [=] & _)|(s & now & Hs & Hd & Hm & Hr & Ha & Hst & Ho)].
      destruct Ho as [[= ->]|(e & [=])]. exists s, now. split_and!; try done.
      * rewrite Hst, (Hids i s Hs). apply lookup_insert_eq.
      * cbn. lia.
      * cbn. intros H1 H2. pose proof (Z.div_pos (wall_credit s now) PyTime.second H1 ltac:(done)). lia.
    + exfalso. destruct e; try discriminate Hret.
      assert (Hl : exists s, states w1 !! i = Some s /\ ls_loop_id s = i).
      { destruct Hc as [(Hst & e & [= <-] & He)|(s & now & Hs & _ & _ & _ & _ & Hst & _)].
        - destruct (He _ eq_refl) as (s & Hs & _). exists s. rewrite Hst. split; [done|]. by apply Hids.
        - exists (resumed_state s now). rewrite Hst, (Hids i s Hs), lookup_insert_eq. split; [done|].
          cbn. by apply Hids. }
      destruct Hl as (s & Hs & Hid). apply (force_Ret i _ _ s _ _ _ Hs Hid) in Hret as [Hret _]. congruence.
Qed.

(** C28: an emergency stop is final. Stopping a stored loop, in any phase,
    stores it as EMERGENCY_STOPPED unless the clock fails, even when the
    audit then refuses the event; and a loop in that phase is left exactly as
    it is by every sequence of steps, pauses, resumes and stops, of any
    loops, and by the creation of others. *)
Theorem emergency_stop_is_final i actor reason s (w : LoopWorld W) :
  map_Forall (fun i s => ls_loop_id s = i) (states w) -> states w !! i = Some s ->
  ((exists e, (clock (env w)).1 = Raise e)
   \/ exists s', states (emergency_stop i actor reason w).2 !! i = Some s'
        /\ phase s' = LoopPhase.EMERGENCY_STOPPED)
  /\ (forall ops, phase s = LoopPhase.EMERGENCY_STOPPED ->
       Forall (fun o => match o with OpCreate plan _ => lp_loop_id plan <> i | _ => True end) ops ->
       states (run_ops ops w) !! i = Some s).
Proof.
  intros Hids Hs. split; [by apply (emergency_stop_stores i actor reason s w)|]. intros ops Hph Hops.
  pose (J := fun j t => ls_loop_id t = j /\ (j = i -> t = s)).
  assert (Hkeep : forall j t t', J j t -> phase t <> LoopPhase.EMERGENCY_STOPPED ->
            ls_loop_id t' = ls_loop_id t -> J j t').
  { intros j t t' [Hid Ht] Hp Hid'. split; [congruence|]. intros ->. exfalso. apply Hp. by rewrite Ht. }
  assert (Hstop : LoopPhase.EMERGENCY_STOPPED ∈ TERMINAL_PHASES
                  /\ LoopPhase.EMERGENCY_STOPPED ∈ PAUSE_TERMINAL_PHASES)
    by (split; apply (bool_decide_unpack _); vm_compute; exact I).
  assert (Hall : all_states J {[i]} (run_ops ops w)).
  { apply run_ops_preserves.
    - by intros j t [].
    - intros j t st pp now HJ H1 _ _ _. apply (Hkeep j t); [done|intuition congruence|done].
    - intros j t now HJ H1. apply (Hkeep j t); [done|intuition congruence|done].
    - intros j t now pc _ HJ H1 _. apply (Hkeep j t); [done|intuition congruence|done].
    - intros j t now HJ H1. apply (Hkeep j t); [done|intuition congruence|done].
    - intros j t now HJ H1. by apply (Hkeep j t).
    - eapply Forall_impl; [exact Hops|]. intros [plan req| | | |] Ho; done.
    - split.
      + intros j t Ht. split; [by apply Hids|]. intros ->. congruence.
      + intros j ->%elem_of_singleton. apply elem_of_dom. by exists s. }
  destruct Hall as [HJ Hdom].
  assert (Hin : i ∈ dom (states (run_ops ops w))) by set_solver.
  apply elem_of_dom in Hin as [t Ht]. rewrite Ht. f_equal. by apply (HJ i t Ht).
Qed.

End loop.

(** ** A composition to run *)
Module LoopDemo.
Import LoopPure.

Definition ok (c : AuditCall) : outcome unit := Ret tt.
Definition clock : M nat datetime := fun n => (Ret (Z.of_nat n * PyTime.second), S n).
Definition hex : M nat string := fun n => (Ret (pretty n), S n).
Definition uuid : M nat Z := fun n => (Ret (Z.of_nat n), S n).

Definition context : LoopContext :=
  mkContext ["shop.example"] [] 0 ∅ {["WSTG-ATHN-01"]} (flt "0.5") [] [] []
    [mkCapability "nmap" "tool" "port scan" "low" []] [] [] (LoopModels.snapshot LoopModels.default_budget)
    0 50 0 [].
Definition build (loops : gmap LoopId LoopState) (i : LoopId) : M nat LoopContext := mret context.
Definition action : ProposeAction :=
  mkAction LoopActionType.RUN_TOOL [("tool_id", JStr "nmap"); ("parameters", JObj [])]
    "scan the open ports of the host before anything else" (flt "0.9") None None.
Definition propose (c : LoopContext) : M nat (option ProposeAction) := mret (Some action).
Definition pass (a : ProposeAction) (c : LoopContext) : M nat GateVerdict :=
  mret (mkVerdict true "ok" None (Some "permit-1") None).
Definition approve (i : LoopId) (rq : ResumeRequest) : M nat unit :=
  lift (validate_loop_approval_params (rq_role rq) (rq_approved_by rq) (rq_signature rq)).
Definition control : PauseControl := mkPauseControl LoopModels.default_policy approve clock.

Definition i0 : LoopId := "0a1b2c3d".
Definition plan : LoopPlan := mkPlan "p1" i0 "a1" LoopModels.default_policy "snap" 0.
Definition empty : LoopWorld nat := mkWorld ∅ [] [] 0%nat.
Definition run : list loop_op -> LoopWorld nat -> LoopWorld nat :=
  run_ops ok clock hex uuid build propose pass pass pass true None (Some control).
Definition human : ResumeRequest := mkResume "ana" "human" (Some "ana") (Some "sig") None None None.
Definition agent : ResumeRequest := mkResume "bot" "agent" (Some "bot") (Some "sig") None None None.

Definition phase_after (ops : list loop_op) : option LoopPhase :=
  phase <$> states (run ops empty) !! i0.

(** Five silent steps converge; an emergency stop kills a paused loop. *)
Example demo_phases :
  phase_after (OpCreate plan ∅ :: replicate 4 (OpStep i0)) = Some LoopPhase.RUNNING
  /\ phase_after (OpCreate plan ∅ :: replicate 5 (OpStep i0)) = Some LoopPhase.CONVERGED
  /\ phase_after [OpCreate plan ∅; OpPause i0 "ana" "lunch" "human"; OpStop i0 "ana" "stop"]
     = Some LoopPhase.EMERGENCY_STOPPED.
Proof. vm_compute. done. Qed.

(** The phases the pause service blocks leave out CONVERGED: a loop that has
    ended is brought back by a resume, and by a pause and a resume. *)
Lemma converged_loop_is_revived :
  phase_after (OpCreate plan ∅ :: replicate 5 (OpStep i0) ++ [OpResume i0 human]) = Some LoopPhase.RESUMED
  /\ phase_after (OpCreate plan ∅ :: replicate 5 (OpStep i0) ++ [OpPause i0 "ana" "x" "human"])
     = Some LoopPhase.PAUSED.
Proof. vm_compute. done. Qed.

(** With [max_pauses = 3], the third resume already ends the loop. *)
Lemma third_pause_is_refused :
  phase_after [OpCreate plan ∅; OpResume i0 human; OpResume i0 human] = Some LoopPhase.RESUMED
  /\ phase_after [OpCreate plan ∅; OpResume i0 human; OpResume i0 human; OpResume i0 human]
     = Some LoopPhase.POLICY_BLOCKED.
Proof. vm_compute. done. Qed.

Lemma every_loop_ends_witness :
  exists s, states (run (OpCreate plan ∅ :: replicate 5 (OpStep i0)) empty) !! i0 = Some s
    /\ steps_used (budget s) <= 7.
Proof.
  destruct (states (run (OpCreate plan ∅ :: replicate 5 (OpStep i0)) empty) !! i0) as [s|] eqn:E.
  2: { exfalso. apply (f_equal (fun o => match o with Some _ => true | None => false end)) in E.
       vm_compute in E. discriminate E. }
  exists s. split; [reflexivity|].
  destruct (every_loop_ends ok clock hex uuid build propose pass pass pass true None (Some control)
              (OpCreate plan ∅ :: replicate 5 (OpStep i0)) empty eq_refl) as [H _].
  exact (proj1 (H i0 s E)).
Defined.

Lemma demo_ids : map_Forall (fun i s => ls_loop_id s = i) (states (run [OpCreate plan ∅] empty)).
Proof.
  assert (E : states (run [OpCreate plan ∅] empty) = {[i0 := initial_state plan ∅ 0]}) by reflexivity.
  rewrite E. apply map_Forall_singleton. reflexivity.
Qed.

Lemma only_a_human_resumes_witness :
  let w := run [OpCreate plan ∅] empty in
  (exists m, resume_loop ok clock (Some control) i0 agent w = (Raise (ApprovalRejected m), w))
  /\ exists s' w', resume_loop ok clock (Some control) i0 human w = (Ret s', w')
       /\ phase s' = LoopPhase.RESUMED /\ states w' !! i0 = Some s'.
Proof.
  cbn zeta. set (w := run [OpCreate plan ∅] empty).
  pose proof (only_a_human_resumes ok clock (Some control) control i0 agent w eq_refl demo_ids) as [Ha _].
  pose proof (only_a_human_resumes ok clock (Some control) control i0 human w eq_refl demo_ids) as (_ & _ & Hh).
  split; [exact (Ha eq_refl)|].
  destruct (resume_loop ok clock (Some control) i0 human w) as [[s'|e] w'] eqn:E.
  2: { exfalso. apply (f_equal (fun p => is_Ret p.1)) in E. vm_compute in E. discriminate E. }
  exists s', w'. split; [reflexivity|].
  assert (Hp : match (resume_loop ok clock (Some control) i0 human w).1 with
               | Ret s => phase s = LoopPhase.RESUMED | Raise _ => False end) by (vm_compute; reflexivity).
  rewrite E in Hp. split; [exact Hp|].
  destruct (Hh s' w' eq_refl Hp) as (s & now & _ & _ & _ & _ & _ & _ & Hst & _). exact Hst.
Defined.

Lemma emergency_stop_is_final_witness :
  exists s, states (run [OpCreate plan ∅; OpStop i0 "ana" "stop"] empty) !! i0 = Some s
    /\ states (run [OpStep i0; OpResume i0 human; OpPause i0 "ana" "x" "human"; OpStop i0 "ana" "again"]
                (run [OpCreate plan ∅; OpStop i0 "ana" "stop"] empty)) !! i0 = Some s.
Proof.
  set (w := run [OpCreate plan ∅; OpStop i0 "ana" "stop"] empty).
  destruct (states w !! i0) as [s|] eqn:E.
  2: { exfalso. apply (f_equal (fun o => match o with Some _ => true | None => false end)) in E.
       vm_compute in E. discriminate E. }
  assert (Hph : match states w !! i0 with Some s => phase s = LoopPhase.EMERGENCY_STOPPED | None => False end)
    by (vm_compute; reflexivity).
  rewrite E in Hph. exists s. split; [reflexivity|].
  assert (Hids : map_Forall (fun i s => ls_loop_id s = i) (states w)).
  { assert (Ew : states w = {[i0 := ended_state LoopPhase.EMERGENCY_STOPPED (initial_state plan ∅ 0) 1000000]})
      by reflexivity.
    rewrite Ew. apply map_Forall_singleton. reflexivity. }
  apply (emergency_stop_is_final ok clock hex uuid build propose pass pass pass true None (Some control)
           i0 "ana" "stop" s w Hids E); [exact Hph|]. repeat constructor.
Defined.

End LoopDemo.
