(* ===== verification/Permits.v ===== *)
(** * Execution permits and the jobs of the loop

    Models [src/secopent/domain/permits/models.py], the signer and verifier of
    [infrastructure/permits/permit_signer.py] (Module [Permits]),
    [application/reasoning_loop/permit_gate.py] (Module [PermitGate]), and
    [job_builder.py] and [loop_scheduler.py] (Module [LoopScheduler]).

    Ed25519 is a parameter: [sign] gives the hexadecimal signature of a
    message, [sig_ok] tells whether a hexadecimal text is a valid signature of
    a message under the public key. *)
From S2P Require Import Prelude PyStr PyTime PyFloat PyDict Sha256 Canonical PyJson AuditTrail Jobs LoopModels Loop.

#[local] Open Scope Z_scope.

Record ExecutionPermit : Type := mkPermit {
  p_job_id : string;
  worker_id : string;
  p_scope_digest : string;
  p_plan_digest : string;
  capabilities : list string;
  p_budget : pyfloat;
  issued_at : datetime;
  expires_at : datetime;
  nonce : string;
  p_signature : string
}.

Module Permits.

Definition DEFAULT_PERMIT_TTL_SECONDS : Z := 15 * 60.

Definition check_permit (p : ExecutionPermit) : outcome ExecutionPermit :=
  raise_if (PyStr.is_empty (p_job_id p)) (DomainValidationError "ExecutionPermit.job_id must be non-empty");;
  raise_if (PyStr.is_empty (worker_id p)) (DomainValidationError "ExecutionPermit.worker_id must be non-empty");;
  raise_if (PyStr.is_empty (nonce p)) (DomainValidationError "ExecutionPermit.nonce must be non-empty");;
  raise_if (PyFloat.ltb (p_budget p) (flt "0.0")) (DomainValidationError "ExecutionPermit.budget must be >= 0");;
  raise_if (expires_at p <=? issued_at p)
    (DomainValidationError "ExecutionPermit.expires_at must be after issued_at");;
  Ret p.

Definition is_expired (p : ExecutionPermit) (now : datetime) : bool := expires_at p <=? now.

Definition content (p : ExecutionPermit) (b : json) : json :=
  JObj [("job_id", JStr (p_job_id p)); ("worker_id", JStr (worker_id p));
        ("scope_digest", JStr (p_scope_digest p)); ("plan_digest", JStr (p_plan_digest p));
        ("capabilities", Canonical.jstrs (capabilities p)); ("budget", b);
        ("issued_at", Canonical.jtime (issued_at p)); ("expires_at", Canonical.jtime (expires_at p));
        ("nonce", JStr (nonce p))].

(** [canonical_json] refuses a NaN or infinite budget. *)
Definition signing_payload (p : ExecutionPermit) : outcome string :=
  b ← Canonical.json_of_float (p_budget p); Ret (Canonical.canonical_json (content p b)).

Definition with_signature (p : ExecutionPermit) (s : string) : ExecutionPermit :=
  mkPermit (p_job_id p) (worker_id p) (p_scope_digest p) (p_plan_digest p) (capabilities p) (p_budget p)
    (issued_at p) (expires_at p) (nonce p) s.

Section keys.
Context (sign : string -> string) (sig_ok : string -> string -> bool).

(** [PermitSigner.issue] *)
Definition issue (p : ExecutionPermit) : outcome ExecutionPermit :=
  m ← signing_payload p; check_permit (with_signature p (sign m)).

(** [PermitVerifier.verify] *)
Definition verify (p : ExecutionPermit) (now : datetime) (used_nonces : gset string)
    (expected_worker : option string) : outcome unit :=
  raise_if (match signing_payload p with Ret m => negb (sig_ok m (p_signature p)) | Raise _ => true end)
    (PermitSignatureInvalid "permit signature does not verify");;
  raise_if (is_expired p now) (PermitExpired "permit has expired");;
  raise_if (bool_decide (nonce p ∈ used_nonces)) (PermitReplayed "permit nonce already used");;
  match expected_worker with
  | None => Ret tt
  | Some w => raise_if (negb (bool_decide (worker_id p = w)))
                (PermitWorkerMismatch ("permit bound to " +:+ worker_id p +:+ ", not " +:+ w))
  end.

(** Everything a signature covers. *)
Definition same_content (p q : ExecutionPermit) : Prop := with_signature p "" = with_signature q "".

Definition datable (p : ExecutionPermit) : Prop := PyTime.valid (issued_at p) /\ PyTime.valid (expires_at p).

Lemma payload_inj p q m :
  datable p -> datable q -> signing_payload p = Ret m -> signing_payload q = Ret m -> same_content p q.
Proof.
  unfold signing_payload. intros [Hp1 Hp2] [Hq1 Hq2] Hp Hq.
  apply bind_Ret in Hp as (b & Hb & [= Hm]). apply bind_Ret in Hq as (b' & Hb' & [= Hm']).
  rewrite <- Hm' in Hm. apply Canonical.canonical_json_inj in Hm.
  apply Canonical.normalize_fields in Hm; [|done|by vm_compute].
  cbn -[Canonical.normalize Canonical.jstrs PyTime.isoformat] in Hm.
  injection Hm as H1 H2 H3 H4 Hc Hbud Hi He H5.
  apply (f_equal JArr), Canonical.normalize_jstrs_inj in Hc.
  apply PyTime.isoformat_inj in Hi; [|done..]. apply PyTime.isoformat_inj in He; [|done..].
  assert (Hbb : p_budget p = p_budget q).
  { destruct (p_budget p) as [x| |], (p_budget q) as [y| |]; try discriminate.
    cbn in Hb, Hb'. injection Hb as <-. injection Hb' as <-. cbn in Hbud. by injection Hbud as ->. }
  unfold same_content, with_signature. congruence.
Qed.

(** The keys work together: what the signer signed verifies, and (the scheme
    is unforgeable) nothing else does. [given] are the permits the signer has
    been given so far. *)
Context (given : list ExecutionPermit).
Context (sign_verifies : forall q m, q ∈ given -> signing_payload q = Ret m -> sig_ok m (sign m) = true).
Context (unforgeable : forall m s, sig_ok m s = true -> exists q, q ∈ given /\ signing_payload q = Ret m).

(** C11: What a permit proves. A permit verifies only if its content, every
    field of it, is that of a permit the signer was given, it has not expired,
    its nonce is not among the used ones and it is bound to the expected
    worker; and a permit the signer issued does verify whenever the last
    three hold. Tampering with any field, or widening the lifetime, therefore
    makes it invalid. *)
Theorem permit_proves_issue :
  Forall datable given ->
  (forall p now used worker, datable p -> verify p now used worker = Ret tt ->
     (exists q, q ∈ given /\ same_content p q)
     /\ now < expires_at p /\ nonce p ∉ used /\ (forall w, worker = Some w -> worker_id p = w))
  /\ (forall q p now used worker, q ∈ given -> issue q = Ret p -> now < expires_at q -> nonce q ∉ used ->
      (forall w, worker = Some w -> worker_id q = w) ->
      verify p now used worker = Ret tt /\ same_content p q).
Proof.
  intros Hdat. rewrite Forall_forall in Hdat. split.
  - intros p now used worker Hp. unfold verify. intros Hv. inv_ret.
    destruct (signing_payload p) as [m|e] eqn:Em; [|done]. breflect.
    repeat match goal with H : is_expired _ _ = _ |- _ => unfold is_expired in H; apply Z.leb_gt in H end.
    destruct (unforgeable m (p_signature p)) as (q & Hq & Eq); [done|].
    split; [exists q; split; [done|]; by apply (payload_inj p q m); auto|]. split; [done|]. split; [done|].
    intros w ->. inv_ret. by breflect.
  - intros q p now used worker Hg Hi Hnow Hnonce Hw. unfold issue in Hi.
    apply bind_Ret in Hi as (m & Em & Hc).
    assert (p = with_signature q (sign m)) as -> by (unfold check_permit in Hc; by inv_ret). clear Hc.
    split; [|done]. unfold verify.
    replace (signing_payload (with_signature q (sign m))) with (signing_payload q) by done.
    rewrite Em. cbn [p_signature with_signature]. rewrite (sign_verifies q m Hg Em). cbn [negb raise_if mbind outcome_bind].
    unfold is_expired. cbn [expires_at with_signature]. rewrite (proj2 (Z.leb_gt _ _) Hnow). cbn [raise_if].
    cbn [nonce with_signature]. rewrite bool_decide_false by done. cbn [raise_if].
    destruct worker as [w|]; [|done]. cbn [worker_id with_signature]. by rewrite bool_decide_true by auto.
Qed.

End keys.

Definition demo_sign (m : string) : string := "sig:" +:+ m.
Definition demo_permit : ExecutionPermit :=
  mkPermit "job:recon" "w1" "sha256:s" "sha256:p" ["nmap"] (flt "1.5") 0 (15 * 60 * PyTime.second) "n1" "".
Definition demo_sig_ok (m s : string) : bool :=
  match signing_payload demo_permit with
  | Ret m0 => bool_decide (m = m0 /\ s = demo_sign m)
  | Raise _ => false
  end.

Lemma demo_datable : Forall datable [demo_permit].
Proof. apply Forall_singleton. split; cbn; split; vm_compute; congruence. Qed.

Lemma permit_proves_issue_witness :
  exists p, issue demo_sign demo_permit = Ret p
    /\ verify demo_sig_ok p (60 * PyTime.second) ∅ (Some "w1") = Ret tt
    /\ exists q, q ∈ [demo_permit] /\ same_content p q.
Proof.
  destruct (permit_proves_issue demo_sign demo_sig_ok [demo_permit]
    ltac:(intros q m ->%list_elem_of_singleton Em; unfold demo_sig_ok; rewrite Em; by apply bool_decide_eq_true)
    ltac:(intros m s; unfold demo_sig_ok; destruct (signing_payload demo_permit) as [m0|] eqn:Em;
          [intros [-> _]%bool_decide_eq_true; exists demo_permit; split; [left|exact Em]|discriminate])
    demo_datable) as [Hproves Hverifies].
  destruct (issue demo_sign demo_permit) as [p|e] eqn:E;
    [|exfalso; apply (f_equal is_Ret) in E; vm_compute in E; discriminate E].
  destruct (Hverifies demo_permit p (60 * PyTime.second) ∅ (Some "w1") (list_elem_of_here _ _) E) as [Hv Hs].
  { reflexivity. }
  { set_solver. }
  { intros w [= <-]. reflexivity. }
  assert (Hd : datable p).
  { pose proof (Forall_inv demo_datable) as Hd0. unfold same_content in Hs.
    unfold datable. destruct p; injection Hs as _ _ _ _ _ _ -> -> _. exact Hd0. }
  exists p. split; [reflexivity|]. split; [exact Hv|].
  exact (proj1 (Hproves p _ _ _ Hd Hv)).
Defined.

End Permits.

(** ** The permit gate *)
Module PermitGate.
Import Permits.

(** [action.model_dump()]; an enumeration member is a string to [json]. *)
Definition action_json (a : ProposeAction) : outcome json :=
  c ← Canonical.json_of_float (action_confidence a);
  Ret (JObj [("action_type", Canonical.jenum (action_type a)); ("payload", JObj (action_payload a));
             ("rationale", JStr (rationale a)); ("confidence", c);
             ("hypothesis_id", Canonical.jopt JStr (action_hypothesis_id a));
             ("catalog_class_targeted", Canonical.jopt JStr (catalog_class_targeted a))]).

Definition request_body (a : ProposeAction) (c : LoopContext) : outcome json :=
  h ← LoopModels.context_hash c;
  j ← action_json a;
  Ret (JObj [("action", j); ("context_hash", JStr h)]).

Definition request_digest (a : ProposeAction) (c : LoopContext) : outcome string :=
  b ← request_body a c; Ret (Canonical.canonical_digest b).

Definition loop_job_id (c : LoopContext) : outcome string :=
  h ← LoopModels.context_hash c; Ret ("loop-" +:+ PyStr.take 12 h).

Definition capability_of (a : ProposeAction) : string :=
  py_str (json_or (json_or (LoopPure.payload_get "tool_id" a) (LoopPure.payload_get "case_id" a))
            (JStr "<unknown>")).

Definition LOOP_WORKER_ID : string := "reasoning-loop".

Section gate.
Context (sign : string -> string) (sig_ok : string -> string -> bool) (ttl_seconds : Z).

(** [self._issued], with the clock and the random nonce of the call. *)
Notation Issued := (gmap string ExecutionPermit).

Definition check (now : datetime) (fresh : string) (a : ProposeAction) (c : LoopContext) : M Issued GateVerdict :=
  j ← lift (loop_job_id c);
  d ← lift (request_digest a c);
  h ← lift (LoopModels.context_hash c);
  p ← lift (check_permit (mkPermit j LOOP_WORKER_ID d ("sha256:" +:+ h) [capability_of a] (flt "0.0") now
                            (now + PyTime.seconds ttl_seconds) fresh ""));
  signed ← lift (issue sign p);
  let permit_id := "permit-" +:+ PyStr.take 8 fresh in
  modify (fun m => <[permit_id := signed]> m);;
  mret (mkVerdict true "permit_signed" None (Some permit_id) (Some ttl_seconds)).

Definition verify (now : datetime) (pid : string) (a : ProposeAction) (c : LoopContext) (m : Issued)
  : outcome bool :=
  match m !! pid with
  | None => Ret false
  | Some p =>
      d ← request_digest a c;
      if negb (bool_decide (d = p_scope_digest p)) then Ret false
      else Ret (is_Ret (Permits.verify sig_ok p now ∅ None))
  end.

(** The accepted calls of [check], last first, with the permit each gave. *)
Inductive issued_by : Issued -> list (string * ProposeAction * LoopContext) -> Prop :=
| issued_none : issued_by ∅ []
| issued_check m l now fresh a c v m' :
    issued_by m l -> check now fresh a c m = (Ret v, m') ->
    issued_by m' ((default "" (permit_id v), a, c) :: l)
| issued_fail m l now fresh a c e m' :
    issued_by m l -> check now fresh a c m = (Raise e, m') -> issued_by m' l.

Lemma check_cases now fresh a c m :
  let '(o, m') := check now fresh a c m in
  match o with
  | Raise _ => m' = m
  | Ret v => exists d p, permit_id v = Some ("permit-" +:+ PyStr.take 8 fresh)
      /\ passed v = true /\ request_digest a c = Ret d /\ p_scope_digest p = d
      /\ expires_at p = now + PyTime.seconds ttl_seconds
      /\ m' = <["permit-" +:+ PyStr.take 8 fresh := p]> m
  end.
Proof.
  unfold check, lift, modify, mbind at 1 2 3 4 5 6, M_bind.
  destruct (loop_job_id c) as [j|]; [|done]. destruct (request_digest a c) as [d|]; [|done].
  destruct (LoopModels.context_hash c) as [h|]; [|done].
  destruct (check_permit _) as [p|] eqn:Ep; [|done]. destruct (issue sign p) as [q|] eqn:Eq; [|done].
  exists d, q. unfold check_permit in Ep. inv_ret. unfold issue in Eq. apply bind_Ret in Eq as (mm & _ & Eq).
  unfold check_permit in Eq. inv_ret. done.
Qed.

Lemma issued_in m l pid p :
  issued_by m l -> m !! pid = Some p ->
  exists a c, (pid, a, c) ∈ l /\ request_digest a c = Ret (p_scope_digest p).
Proof.
  intros H. revert pid p. induction H as [|m l now fresh a c v m' _ IH Hc|m l now fresh a c e m' _ IH Hc]; intros pid p Hp.
  - by rewrite lookup_empty in Hp.
  - pose proof (check_cases now fresh a c m) as Hk. rewrite Hc in Hk.
    destruct Hk as (d & q & Hv & _ & Hd & Hq & _ & ->).
    apply lookup_insert_Some in Hp as [[<- <-]|[_ Hp]].
    + exists a, c. split; [rewrite Hv; left|]. by rewrite Hq.
    + destruct (IH _ _ Hp) as (a' & c' & Hin & Hd'). exists a', c'. split; [by right|done].
  - pose proof (check_cases now fresh a c m) as Hk. rewrite Hc in Hk. subst m'. by apply IH.
Qed.

(** Two actions equal up to the order of the payload's keys. *)
Definition action_equiv (a b : ProposeAction) : Prop :=
  action_type a = action_type b
  /\ Canonical.normalize (JObj (action_payload a)) = Canonical.normalize (JObj (action_payload b))
  /\ rationale a = rationale b /\ action_confidence a = action_confidence b
  /\ action_hypothesis_id a = action_hypothesis_id b
  /\ catalog_class_targeted a = catalog_class_targeted b.

Lemma jopt_str_inj (a b : option string) :
  Canonical.normalize (Canonical.jopt JStr a) = Canonical.normalize (Canonical.jopt JStr b) -> a = b.
Proof. destruct a, b; cbn; congruence. Qed.

Lemma action_json_inj a b j k :
  action_json a = Ret j -> action_json b = Ret k -> Canonical.normalize j = Canonical.normalize k ->
  action_equiv a b.
Proof.
  unfold action_json. intros (x & Hx & [= <-])%bind_Ret (y & Hy & [= <-])%bind_Ret H.
  apply Canonical.normalize_fields in H; [|done|by vm_compute].
  cbn [fmap list_fmap snd] in H. 
  assert (Hf : forall u v (l m : list json), u :: l = v :: m -> u = v /\ l = m) by by intros ? ? ? ? [= -> ->].
  apply Hf in H as [H1 H]. apply Hf in H as [H2 H]. apply Hf in H as [H3 H]. apply Hf in H as [H4 H].
  apply Hf in H as [H5 H]. apply Hf in H as [H6 _].
  split_and!; [by apply Canonical.normalize_jenum_inj|done|cbn in H3; congruence| |by apply jopt_str_inj|by apply jopt_str_inj].
  destruct (action_confidence a) as [u| |], (action_confidence b) as [v| |]; try discriminate.
  cbn in Hx, Hy. injection Hx as <-. injection Hy as <-. cbn in H4. by injection H4 as ->.
Qed.

Lemma request_digest_inj a b c d x :
  request_digest a c = Ret x -> request_digest b d = Ret x ->
  (action_equiv a b /\ LoopModels.context_hash c = LoopModels.context_hash d)
  \/ (exists u v, Sha256.collision u v).
Proof.
  unfold request_digest, request_body.
  intros (ja & Ha & [= Hxa])%bind_Ret (jb & Hb & [= Hxb])%bind_Ret.
  apply bind_Ret in Ha as (ha & Hha & Ha). apply bind_Ret in Ha as (aa & Haa & [= <-]).
  apply bind_Ret in Hb as (hb & Hhb & Hb). apply bind_Ret in Hb as (ab & Hab & [= <-]).
  rewrite <- Hxb in Hxa. apply Canonical.canonical_digest_inj in Hxa as [H|H]; [left|right; eauto].
  apply Canonical.normalize_fields in H; [|done|by vm_compute]. cbn [fmap list_fmap snd] in H.
  injection H as H1 H2. split; [by apply (action_json_inj a b aa ab)|congruence].
Qed.

(** C12: A permit binds one action in one context. If the gate accepts a permit
    identifier for an action and a context, then some earlier call of [check]
    gave that identifier out for the same action, up to the order of the
    payload's keys, in a context with the same hash (or SHA-256 has a
    collision), and the stored permit has not expired and verifies under the
    public key. *)
Theorem accepted_permit_binds_action m l now pid a c :
  issued_by m l -> verify now pid a c m = Ret true ->
  (exists p, m !! pid = Some p /\ now < expires_at p /\ Permits.verify sig_ok p now ∅ None = Ret tt)
  /\ ((exists a' c', (pid, a', c') ∈ l /\ action_equiv a a'
          /\ LoopModels.context_hash c = LoopModels.context_hash c')
      \/ (exists u v, Sha256.collision u v)).
Proof.
  intros Hm. unfold verify. destruct (m !! pid) as [p|] eqn:Ep; [|discriminate].
  intros (d & Hd & Hv)%bind_Ret. case_bool_decide as Hdp; cbn [negb] in Hv; [|discriminate].
  injection Hv as Hv. split.
  - exists p. apply is_Ret_true in Hv as [[] Hv]. split; [done|]. split; [|done].
    unfold Permits.verify in Hv. inv_ret.
    match goal with H : is_expired _ _ = _ |- _ => unfold is_expired in H; by apply Z.leb_gt in H end.
  - destruct (issued_in m l pid p Hm Ep) as (a' & c' & Hin & Hd'). subst d.
    destruct (request_digest_inj a a' c c' _ Hd Hd') as [[? ?]|?]; [left; eauto|by right].
Qed.

End gate.

Definition demo_action : ProposeAction :=
  mkAction LoopActionType.RUN_TOOL [("tool_id", JStr "nmap")] "scan the host" (flt "0.5") None None.
Definition demo_context : LoopContext := LoopDemo.context.
Definition demo_sign (m : string) : string := "sig:" +:+ m.
Definition demo_sig_ok (m s : string) : bool := bool_decide (s = demo_sign m).
Definition demo_issued : gmap string ExecutionPermit :=
  (check demo_sign 900 0 "abcdefghij" demo_action demo_context ∅).2.

Lemma accepted_permit_binds_action_witness :
  exists p, demo_issued !! "permit-abcdefgh" = Some p /\ PyTime.second < expires_at p.
Proof.
  pose proof (accepted_permit_binds_action demo_sign demo_sig_ok 900 demo_issued
    [("permit-abcdefgh", demo_action, demo_context)] PyTime.second "permit-abcdefgh" demo_action demo_context) as H.
  destruct H as [(p & Hp & Hx & _) _].
  - unfold demo_issued.
    destruct (check demo_sign 900 0 "abcdefghij" demo_action demo_context ∅) as [[v|e] m'] eqn:E.
    + cbn [snd]. pose proof (check_cases demo_sign 900 0 "abcdefghij" demo_action demo_context ∅) as Hk.
      rewrite E in Hk. destruct Hk as (d & q & Hv & _).
      change "permit-abcdefgh" with (default "" (Some ("permit-" +:+ PyStr.take 8 "abcdefghij"))). rewrite <- Hv.
      exact (issued_check demo_sign 900 ∅ [] 0 "abcdefghij" demo_action demo_context v m' (issued_none _ _) E).
    + exfalso. apply (f_equal (fun r => is_Ret r.1)) in E. vm_compute in E. discriminate E.
  - vm_compute. reflexivity.
  - exists p. exact (conj Hp Hx).
Defined.

End PermitGate.

(** ** From a permitted step to a job *)
Module LoopScheduler.
Import Permits.

(** [job_builder.build_job] *)
Definition build_job (loop_id : LoopId) (step_number : Z) (permit : ExecutionPermit) (tool_or_case_id : string)
    (parameters : list (string * json)) : Job :=
  let step_id := pretty step_number in
  mkJob ("job:loop:" +:+ loop_id +:+ ":" +:+ step_id) ("loop:" +:+ loop_id +:+ ":" +:+ step_id)
    (loop_id +:+ ":" +:+ step_id) JobStatus.READY 0 3 None None "" "" []
    [("loop_id", JStr loop_id); ("step_id", JStr step_id); ("step_number", JInt step_number);
     ("proposed_action_digest", JStr (p_scope_digest permit)); ("permit_id", JStr (p_job_id permit));
     ("tool_or_case_id", JStr tool_or_case_id); ("parameters", JObj parameters)].

Section scheduler.
Context (sig_ok : string -> string -> bool).

Definition permit_valid (permit : ExecutionPermit) (now : datetime) (worker : string) : bool :=
  is_Ret (Permits.verify sig_ok permit now ∅ (Some worker)).

Definition step_key (loop_id : LoopId) (step_id : string) : string := loop_id +:+ ":" +:+ step_id.

Definition already_scheduled (loop_id : LoopId) (step_id : string) (s : Jobs.Store) : bool :=
  List.existsb (fun j => bool_decide (idempotency_key j = step_key loop_id step_id)) (PyDict.values s).

Definition schedule (loop_id : LoopId) (step_id tool_or_case_id : string) (parameters : list (string * json))
    (permit : ExecutionPermit) (worker : string) (now : datetime) : M Jobs.Store bool :=
  if negb (permit_valid permit now worker) then mret false
  else
    b ← gets (already_scheduled loop_id step_id);
    if b : bool then mret false
    else
      n ← lift (PyStr.int_of_str step_id);
      Jobs.add (build_job loop_id n permit tool_or_case_id parameters);;
      mret true.

Lemma schedule_spec loop_id step_id tool params permit worker now s :
  schedule loop_id step_id tool params permit worker now s =
  if negb (permit_valid permit now worker) || already_scheduled loop_id step_id s then (Ret false, s)
  else match PyStr.int_of_str step_id with
       | Raise e => (Raise e, s)
       | Ret n => (Ret true, (Jobs.add (build_job loop_id n permit tool params) s).2)
       end.
Proof.
  unfold schedule. destruct (permit_valid permit now worker); [|reflexivity]. cbn [negb orb].
  unfold gets, lift, mbind, M_bind. destruct (already_scheduled loop_id step_id s); [reflexivity|].
  destruct (PyStr.int_of_str step_id) as [n|e]; [|reflexivity].
  unfold Jobs.add, mret, M_ret. by destruct (List.find _ _).
Qed.

Lemma already_scheduled_true loop_id step_id s :
  already_scheduled loop_id step_id s = true <->
  exists j, j ∈ PyDict.values s /\ idempotency_key j = step_key loop_id step_id.
Proof.
  unfold already_scheduled. rewrite existsb_exists. split.
  - intros (j & Hj & E). exists j. split; [by apply list_elem_of_In|by apply bool_decide_eq_true in E].
  - intros (j & Hj & E). exists j. split; [by apply list_elem_of_In|by apply bool_decide_eq_true].
Qed.

Lemma add_has_key j s :
  exists j', j' ∈ PyDict.values (Jobs.add j s).2 /\ idempotency_key j' = idempotency_key j.
Proof.
  unfold Jobs.add. destruct (List.find _ _) as [e|] eqn:E.
  - apply find_some in E as [Hin E]. exists e. split; [by apply list_elem_of_In|by apply bool_decide_eq_true in E].
  - exists j. split; [|done]. cbn [snd]. unfold PyDict.values.
    assert (H : PyDict.get (job_id j) (PyDict.set (job_id j) j s) = Some j) by apply PyDict.get_set_eq.
    revert H. generalize (PyDict.set (job_id j) j s). intros d. induction d as [|[k v] d IH]; cbn; [done|].
    case_bool_decide; [intros [= ->]; by left|intros H'; right; by apply IH].
Qed.

(** What [schedule] does to the job store. It changes the store only when it
    answers true; then the permit verifies for that worker at that time, no
    job had the step's key, and the store is the result of adding one READY
    job without dependencies that carries the permit's digest. It raises only
    for a step identifier that is not an integer. Answering false leaves the
    store as it was. Whenever the step identifier is the decimal text of its
    number, a second call for the same step, with whatever permit, worker,
    time and parameters, answers false and changes nothing. *)
Theorem schedule_enqueues_once loop_id step_id tool params permit worker now s :
  let '(o, s') := schedule loop_id step_id tool params permit worker now s in
  (o = Ret true <-> permit_valid permit now worker = true /\ already_scheduled loop_id step_id s = false
     /\ is_Ret (PyStr.int_of_str step_id) = true)
  /\ (o <> Ret true -> s' = s)
  /\ (forall e, o = Raise e -> PyStr.int_of_str step_id = Raise e)
  /\ (o = Ret true -> exists n, PyStr.int_of_str step_id = Ret n
        /\ s' = (Jobs.add (build_job loop_id n permit tool params) s).2
        /\ (pretty n = step_id ->
              s' = PyDict.set (job_id (build_job loop_id n permit tool params))
                     (build_job loop_id n permit tool params) s
              /\ forall tool' params' permit' worker' now',
                   schedule loop_id step_id tool' params' permit' worker' now' s' = (Ret false, s'))).
Proof.
  rewrite schedule_spec.
  destruct (permit_valid permit now worker); cbn [negb orb];
    [|split_and!; [split; [discriminate|by intros []]|done|discriminate|discriminate]].
  destruct (already_scheduled loop_id step_id s) eqn:Ea;
    [split_and!; [split; [discriminate|by intros (_ & ? & _)]|done|discriminate|discriminate]|].
  destruct (PyStr.int_of_str step_id) as [n|e] eqn:En;
    [|split_and!; [split; [discriminate|by intros (_ & _ & ?)]|done|congruence|discriminate]].
  split_and!; [done|done|discriminate|]. intros _. exists n. split_and!; [done|done|]. intros Hn. split.
  - unfold Jobs.add. destruct (List.find _ _) as [e'|] eqn:E; [|done]. apply find_some in E as [Hin E].
    exfalso. apply Bool.not_true_iff_false in Ea. apply Ea. apply already_scheduled_true.
    exists e'. split; [by apply list_elem_of_In|]. apply bool_decide_eq_true in E. rewrite E. cbn. by rewrite Hn.
  - intros. rewrite schedule_spec.
    replace (already_scheduled _ _ _) with true; [by rewrite orb_true_r|]. symmetry.
    apply already_scheduled_true. destruct (add_has_key (build_job loop_id n permit tool params) s) as (j & Hj & Hk).
    exists j. split; [done|]. rewrite Hk. cbn. by rewrite Hn.
Qed.

End scheduler.

(** "007" is another text for step 7: the guard looks for the key of the
    text, the job has the key of the number. A second call with it answers
    true, and nothing is enqueued. *)
Lemma noncanonical_step_reports_new_work :
  let call step := schedule (fun _ _ => true) "0123abcd" step "nmap" [] demo_permit "w1" 0 in
  let '(o1, s1) := call "7" [] in
  let '(o2, s2) := call "007" s1 in
  o1 = Ret true /\ o2 = Ret true /\ length s1 = 1%nat /\ s2 = s1.
Proof. vm_compute. done. Qed.

End LoopScheduler.
