(* ===== verification/Gates.v ===== *)
(** * The schema and policy gates of the reasoning loop

    Models [src/secopent/application/reasoning_loop/schema_gate.py] (Module
    [SchemaGate]), [policy_gate.py] (Module [PolicyGate]) and the payload
    validator of [domain/reasoning_loop/models.py], and composes them with the
    permit gate of [Permits] in the orchestrator of [Loop] (Module
    [WiredLoop]). Pydantic is a parameter: what [model_validate] answers. *)
From S2P Require Import Prelude PyStr PyTime PyFloat Sha256 Canonical PyJson Policy Net.
From S2P Require Import AuditTrail Scope Enforcer LoopModels Loop Permits.

#[local] Open Scope Z_scope.

(** [ProposeAction._validate_payload], with the fields of
    [_ProposeActionPayload]: a field is [None], or of its declared type. *)
Definition missing_keys (t : LoopActionType) (p : list (string * json)) : list string :=
  filter (fun k => k ∉ dict_keys p) (LoopModels.required_keys t).
Definition payload_field_ok (kv : string * json) : bool :=
  match kv.2 with
  | JNull => true
  | JStr _ => bool_decide (kv.1 ∈ ["tool_id"; "case_id"; "peer_name"; "instruction"; "candidate_id"; "hypothesis_id"])
  | JObj _ => bool_decide (kv.1 = "parameters")
  | _ => false
  end.
Definition validate_payload (t : LoopActionType) (p : list (string * json)) : bool :=
  bool_decide (missing_keys t p = []) && forallb payload_field_ok p.

Module SchemaGate.

(** What [check] is handed: an action, an object whose [model_dump()] is some
    other [dict], or neither. *)
Inductive shaped : Type :=
| Proposed (a : ProposeAction)
| Dumped (d : list (string * json))
| Shapeless.

(** The first error of a [ValidationError]: type, [str(loc)], message. *)
Record FirstError : Type := mkFirstError {
  err_type : string;
  err_loc : string;
  err_msg : string
}.

Section gate.
Context (model_validate : shaped -> ProposeAction + FirstError).

(** [repr] of an enumeration member. *)
Definition action_type_repr (t : LoopActionType) : string :=
  "<LoopActionType." +:+ PyStr.upper (value t) +:+ ": " +:+ PyStr.repr (value t) +:+ ">".

Definition crashed (cls msg : string) : GateVerdict :=
  LoopPure.fail_verdict ("schema gate crashed: " +:+ cls +:+ "(" +:+ PyStr.repr msg +:+ ")") "SCHEMA_INTERNAL_ERROR".

Definition keys_verdict (t : LoopActionType) (shown : string) (p : list (string * json)) : option GateVerdict :=
  match PyStr.sorted (missing_keys t p) with
  | [] => None
  | missing => Some (LoopPure.fail_verdict
      ("action_type=" +:+ shown +:+ " missing payload keys " +:+ py_repr (Canonical.jstrs missing))
      "SCHEMA_MISSING_PAYLOAD_KEYS")
  end.

(** The key check on the raw [dict], which comes first. *)
Definition check_keys (x : shaped) : option GateVerdict :=
  match x with
  | Proposed a => keys_verdict (action_type a) (action_type_repr (action_type a)) (action_payload a)
  | Dumped d =>
      match default JNull (field "action_type" d) with
      | JStr s =>
          match of_value (A := LoopActionType) s with
          | Some t =>
              match default (JObj []) (field "payload" d) with
              | JObj p => keys_verdict t (PyStr.repr s) p
              | v => Some (crashed "AttributeError" (no_attribute v "keys"))
              end
          | None => None
          end
      | (JArr _ | JObj _) as v => Some (crashed "TypeError" ("unhashable type: '" +:+ type_name v +:+ "'"))
      | _ => None
      end
  | Shapeless => Some (LoopPure.fail_verdict "not a pydantic-shaped action" "SCHEMA_NOT_PYDANTIC")
  end.

Definition shown_action_type (x : shaped) : string :=
  match x with
  | Proposed a => action_type_repr (action_type a)
  | Dumped d => py_repr (default JNull (field "action_type" d))
  | Shapeless => ""
  end.

Definition validation_verdict (x : shaped) (e : FirstError) : GateVerdict :=
  if bool_decide (err_type e ∈ ["literal_error"; "enum"]) && PyStr.contains (err_loc e) "action_type" then
    LoopPure.fail_verdict ("action_type " +:+ shown_action_type x +:+ " not allowed") "SCHEMA_INVALID_ACTION_TYPE"
  else if bool_decide (err_type e = "extra_forbidden") then
    LoopPure.fail_verdict ("extra field not permitted at " +:+ err_loc e) "SCHEMA_EXTRA_FIELDS"
  else if PyStr.contains (err_loc e) "rationale" then
    LoopPure.fail_verdict "rationale length out of range" "SCHEMA_RATIONALE_TOO_SHORT"
  else LoopPure.fail_verdict (err_msg e) "SCHEMA_VALIDATION_FAILED".

(** [v not in known] for a set of strings; a list or a [dict] has no hash. *)
Definition reference_verdict (v : json) (known : list string) (deny : GateVerdict) : option GateVerdict :=
  match v with
  | JStr s => if bool_decide (s ∈ known) then None else Some deny
  | JArr _ | JObj _ => Some (crashed "TypeError" ("unhashable type: '" +:+ type_name v +:+ "'"))
  | _ => Some deny
  end.

Definition check_references (a : ProposeAction) (c : LoopContext) : option GateVerdict :=
  match action_type a with
  | LoopActionType.RUN_TOOL =>
      let tool_id := LoopPure.payload_get "tool_id" a in
      reference_verdict tool_id (capability_id <$> available_tools c)
        (LoopPure.fail_verdict ("tool_id " +:+ py_repr tool_id +:+ " not in available_tools") "SCHEMA_UNKNOWN_TOOL")
  | LoopActionType.REQUEST_CHAIN =>
      let hypothesis_id := LoopPure.payload_get "hypothesis_id" a in
      reference_verdict hypothesis_id (LoopModels.hypothesis_id <$> chain_hypotheses_pending c)
        (LoopPure.fail_verdict ("hypothesis_id " +:+ py_repr hypothesis_id +:+ " not pending") "SCHEMA_UNKNOWN_HYPOTHESIS")
  | _ => None
  end.

Definition check (x : shaped) (c : LoopContext) : GateVerdict :=
  match check_keys x with
  | Some v => v
  | None =>
      match model_validate x with
      | inr e => validation_verdict x e
      | inl validated => default (mkVerdict true "schema_ok" None None None) (check_references validated c)
      end
  end.

(** ** What passing means *)

(** The payload keys the action type requires are there. *)
Definition keys_present (x : shaped) : Prop :=
  match x with
  | Proposed a => LoopModels.required_keys (action_type a) ⊆ dict_keys (action_payload a)
  | Dumped d =>
      match field "action_type" d with
      | Some (JStr s) => forall t, s = value t -> exists p, default (JObj []) (field "payload" d) = JObj p
          /\ LoopModels.required_keys t ⊆ dict_keys p
      | Some (JArr _) | Some (JObj _) => False
      | _ => True
      end
  | Shapeless => False
  end.

(** A tool to run is an available tool, a chain to request a pending one. *)
Definition references_known (a : ProposeAction) (c : LoopContext) : Prop :=
  (action_type a = LoopActionType.RUN_TOOL -> exists t, t ∈ available_tools c
     /\ LoopPure.payload_get "tool_id" a = JStr (capability_id t))
  /\ (action_type a = LoopActionType.REQUEST_CHAIN -> exists h, h ∈ chain_hypotheses_pending c
     /\ LoopPure.payload_get "hypothesis_id" a = JStr (LoopModels.hypothesis_id h)).

(** A denial says so and carries a code. *)
Definition denies (v : GateVerdict) : Prop := passed v = false /\ is_Some (deny_code v).

Lemma missing_keys_nil t p : missing_keys t p = [] <-> LoopModels.required_keys t ⊆ dict_keys p.
Proof.
  unfold missing_keys. generalize (LoopModels.required_keys t) as l. intros l. split.
  - intros H k Hk. destruct (decide (k ∈ dict_keys p)) as [|Hn]; [done|].
    assert (k ∈ filter (fun k => k ∉ dict_keys p) l) as Hf by by apply list_elem_of_filter. rewrite H in Hf. set_solver.
  - intros H. destruct (filter _ l) as [|k r] eqn:E; [done|exfalso].
    assert (k ∈ filter (fun k => k ∉ dict_keys p) l) as [Hn Hk]%list_elem_of_filter by (rewrite E; left). by apply Hn, H.
Qed.

Lemma keys_verdict_spec t shown p :
  match keys_verdict t shown p with
  | None => LoopModels.required_keys t ⊆ dict_keys p
  | Some v => denies v /\ ~ LoopModels.required_keys t ⊆ dict_keys p
  end.
Proof.
  pose proof (missing_keys_nil t p) as Hn. unfold keys_verdict.
  pose proof (fun k => PyStr.elem_of_sorted k (missing_keys t p)) as Hs.
  destruct (PyStr.sorted (missing_keys t p)) as [|k r].
  - apply Hn. destruct (missing_keys t p) as [|k r]; [done|]. exfalso. specialize (Hs k). set_solver.
  - split; [split; [done|by eexists]|]. intros H%Hn. rewrite H in Hs. specialize (Hs k). set_solver.
Qed.

Lemma check_keys_spec x :
  match check_keys x with
  | None => keys_present x
  | Some v => denies v /\ ~ keys_present x
  end.
Proof.
  assert (forall r c, denies (LoopPure.fail_verdict r c)) as Hd by (intros; split; [done|by eexists]).
  destruct x as [a|d|]; cbn [check_keys keys_present]; [apply keys_verdict_spec| |split; [apply Hd|tauto]].
  destruct (field "action_type" d) as [[| | | |s| |]|]; cbn [default id]; try done; try (split; [apply Hd|tauto]).
  destruct (of_value s) as [t|] eqn:E; cycle 1.
  { intros t ->. by rewrite of_value_value in E. }
  apply of_value_Some in E as ->.
  destruct (default (JObj []) (field "payload" d)) as [| | | | | |p];
    try (split; [apply Hd|]; intros H; by destruct (H t eq_refl) as (? & ? & _)).
  pose proof (keys_verdict_spec t (PyStr.repr (value t)) p) as H. destruct keys_verdict.
  - destruct H as [H1 H2]. split; [done|]. intros H. by destruct (H t eq_refl) as (? & [= <-] & ?).
  - intros t' Ht%(value_inj). subst t'. by exists p.
Qed.

Lemma reference_verdict_spec {A} v (f : A -> string) l r c :
  match reference_verdict v (f <$> l) (LoopPure.fail_verdict r c) with
  | None => exists t, t ∈ l /\ v = JStr (f t)
  | Some d => denies d /\ ~ exists t, t ∈ l /\ v = JStr (f t)
  end.
Proof.
  assert (forall r c, denies (LoopPure.fail_verdict r c)) as Hd by (intros; split; [done|by eexists]).
  destruct v; cbn; try (split; [apply Hd|by intros (? & ? & ?)]).
  case_bool_decide as H.
  - apply list_elem_of_fmap in H as (t & -> & Ht). by exists t.
  - split; [apply Hd|]. intros (t & Ht & [= ->]). apply H. by apply list_elem_of_fmap_2.
Qed.

Lemma check_references_spec a c :
  match check_references a c with
  | None => references_known a c
  | Some v => denies v /\ ~ references_known a c
  end.
Proof.
  unfold check_references, references_known.
  destruct (action_type a); try (split; by intros).
  - pose proof (reference_verdict_spec (LoopPure.payload_get "tool_id" a) capability_id (available_tools c)
      ("tool_id " +:+ py_repr (LoopPure.payload_get "tool_id" a) +:+ " not in available_tools") "SCHEMA_UNKNOWN_TOOL") as H.
    destruct reference_verdict; [|by split]. destruct H as [H1 H2]. split; [done|]. intros [H _]. by apply H2, H.
  - pose proof (reference_verdict_spec (LoopPure.payload_get "hypothesis_id" a) LoopModels.hypothesis_id
      (chain_hypotheses_pending c)
      ("hypothesis_id " +:+ py_repr (LoopPure.payload_get "hypothesis_id" a) +:+ " not pending") "SCHEMA_UNKNOWN_HYPOTHESIS") as H.
    destruct reference_verdict; [|by split]. destruct H as [H1 H2]. split; [done|]. intros [_ H]. by apply H2, H.
Qed.

Lemma validation_denies x e : denies (validation_verdict x e).
Proof. unfold validation_verdict. repeat case_match; (split; [done|by eexists]). Qed.

Lemma schema_check_cases x c :
  (passed (check x c) = true /\ deny_code (check x c) = None
     /\ keys_present x /\ exists a, model_validate x = inl a /\ references_known a c)
  \/ (denies (check x c) /\ ~ (keys_present x /\ exists a, model_validate x = inl a /\ references_known a c)).
Proof.
  unfold check. pose proof (check_keys_spec x) as Hk. destruct (check_keys x) as [v|]; [right; tauto|].
  destruct (model_validate x) as [a|e].
  - pose proof (check_references_spec a c) as Hr. destruct (check_references a c) as [v|]; cbn [default].
    + right. destruct Hr as [H1 H2]. split; [done|]. by intros (_ & ? & [= <-] & ?).
    + left. eauto 10.
  - right. split; [apply validation_denies|]. by intros (_ & ? & ? & _).
Qed.

(** C27: The schema gate passes exactly what the loop may route: an object whose
    payload has the keys its action type requires, that Pydantic validates,
    and whose tool or hypothesis exists in the context. It answers on every
    input, whatever its shape, and every denial carries a code. *)
Theorem schema_gate_passes_exactly x c :
  (passed (check x c) = true <-> keys_present x /\ exists a, model_validate x = inl a /\ references_known a c)
  /\ (passed (check x c) = false <-> is_Some (deny_code (check x c))).
Proof.
  destruct (schema_check_cases x c) as [(H1 & H2 & H3)|[[H1 H2] H3]].
  - rewrite H1, H2. split; [tauto|]. split; [done|by intros [? ?]].
  - rewrite H1. split; [split; [done|tauto]|tauto].
Qed.

End gate.
End SchemaGate.

(** ** The policy gate *)
Module PolicyGate.

(** [isinstance(raw_port, int)] lets a [bool] through, which [normalize_port]
    refuses with the message of a port out of range; 0 stands for it. *)
Definition port_of (v : json) : Z := match v with JInt z => z | JBool _ => 0 | _ => 443 end.

Definition risk_of (v : json) : RiskClass :=
  match v with JStr s => default RiskClass.ACTIVE (of_value s) | _ => RiskClass.ACTIVE end.

(** [_action_to_request]; the capability is the permit gate's. *)
Definition action_to_request (a : ProposeAction) : outcome ActionRequest :=
  match json_or (LoopPure.payload_get "parameters" a) (JObj []) with
  | JObj params =>
      let get k := default JNull (field k params) in
      Ret (mkActionRequest (py_str (json_or (json_or (get "host") (get "url")) (JStr "<unknown>")))
             (port_of (get "port")) (risk_of (get "risk")) (PermitGate.capability_of a))
  | v => Raise (AttributeError (no_attribute v "get"))
  end.

Section gate.
Context (uni : Unicode) (scope : ScopeSnapshot) (mode : ExecutionMode).
Context (approved_risks : gset RiskClass) (approved_capabilities : gset string).

Definition check (a : ProposeAction) (c : LoopContext) : outcome GateVerdict :=
  request ← action_to_request a;
  decision ← PolicyEngine.evaluate uni request scope mode approved_risks approved_capabilities;
  Ret (if allowed decision then mkVerdict true (reason decision) None None None
       else LoopPure.fail_verdict (reason decision) (reason decision)).

Definition cleared (a : ProposeAction) (request : ActionRequest) : Prop :=
  action_to_request a = Ret request /\ PolicyEngine.permitted uni request scope approved_risks approved_capabilities.

Lemma check_passes a c :
  (exists v, check a c = Ret v /\ passed v = true) <-> exists r, cleared a r.
Proof.
  unfold check, cleared. destruct (action_to_request a) as [r|e]; cbn [mbind outcome_bind];
    [|split; [by intros (? & ? & _)|by intros (? & ? & _)]].
  transitivity (PolicyEngine.permitted uni r scope approved_risks approved_capabilities);
    [|split; [by exists r|by intros (? & [= <-] & ?)]].
  rewrite <- (PolicyEngine.evaluate_allowed uni r scope mode).
  destruct (PolicyEngine.evaluate uni r scope mode approved_risks approved_capabilities) as [d|e]; cbn [mbind outcome_bind];
    [|split; [by intros (? & ? & _)|by intros (? & ? & _)]].
  destruct (allowed d) eqn:Ed; split.
  - intros _. by exists d.
  - intros _. by eexists.
  - by intros (? & [= <-] & ?).
  - intros (? & [= <-] & ?). congruence.
Qed.

Lemma validated_request a : validate_payload (action_type a) (action_payload a) = true ->
  is_Ret (action_to_request a) = true.
Proof.
  unfold validate_payload, action_to_request, LoopPure.payload_get. intros [_ H]%andb_true_iff.
  destruct (field "parameters" (action_payload a)) as [v|] eqn:E; [|done]. cbn [default id].
  apply field_in in E. apply List.forallb_forall with (x := ("parameters", v)) in H; [|by apply list_elem_of_In].
  unfold payload_field_ok in H. cbn [fst snd] in H. destruct v as [| | | | | |l]; try discriminate; [done|].
  unfold json_or. by destruct (truthy_json (JObj l)).
Qed.

(** The policy gate passes an action exactly when the request it stands for
    is permitted: the engine's verdict is neither weakened nor overridden, and
    a denial's code is the engine's reason. The adapter itself never raises on
    an action whose payload the model's validator accepts. *)
Theorem policy_gate_is_the_engine a c :
  ((exists v, check a c = Ret v /\ passed v = true) <-> exists r, cleared a r)
  /\ (forall v, check a c = Ret v -> passed v = false -> deny_code v = Some (verdict_reason v))
  /\ (validate_payload (action_type a) (action_payload a) = true -> is_Ret (action_to_request a) = true).
Proof.
  split_and!; [apply check_passes| |apply validated_request].
  unfold check. intros v (r & _ & (d & _ & [= <-])%bind_Ret)%bind_Ret. by destruct (allowed d).
Qed.

End gate.

(** The proposer names the risk of its own action: the same action, with the
    same capability not approved, passes once its parameters say [passive]. *)
Lemma proposer_declares_its_risk :
  let scope := mkScope "s" "acme" ["shop.example"] [] [443] Scope.default_limits "ana" 0 "d" [] in
  let action risk := mkAction LoopActionType.RUN_TOOL
    [("tool_id", JStr "sqlmap"); ("parameters", JObj (("url", JStr "https://shop.example/") :: risk))] "" (flt "0.5") None None in
  let verdict risk := match check FrozenScope.ascii_only scope ExecutionMode.SCOPE_AUTOPILOT
      {[RiskClass.PASSIVE; RiskClass.ACTIVE]} ∅ (action risk) LoopDemo.context with Ret v => verdict_reason v | Raise _ => "" end in
  verdict [] = "CAPABILITY_NOT_APPROVED" /\ verdict [("risk", JStr "passive")] = "ALLOWED".
Proof. vm_compute. done. Qed.

End PolicyGate.

(** ** The orchestrator, wired with the three gates *)
Module WiredLoop.
Section wired.
Context (uni : Unicode) (model_validate : SchemaGate.shaped -> ProposeAction + SchemaGate.FirstError).
Context (scope : ScopeSnapshot) (mode : ExecutionMode).
Context (approved_risks : gset RiskClass) (approved_capabilities : gset string).
Context (sign : string -> string) (ttl_seconds : Z).

(** The environment: the permit gate's own [_issued], which nothing but the
    gate holds a reference to, and the rest. *)
Context {E : Type}.
Notation W := (gmap string ExecutionPermit * E)%type.
Context (utc_now : M E datetime) (token_urlsafe : M E string).

(** A call of another part: it cannot reach the permits. *)
Definition outside {A} (m : M E A) : M W A := fun '(issued, e) => let '(o, e') := m e in (o, (issued, e')).

Definition schema_gate (a : ProposeAction) (c : LoopContext) : M W GateVerdict :=
  mret (SchemaGate.check model_validate (SchemaGate.Proposed a) c).
Definition policy_gate (a : ProposeAction) (c : LoopContext) : M W GateVerdict :=
  lift (PolicyGate.check uni scope mode approved_risks approved_capabilities a c).
Definition permit_gate (a : ProposeAction) (c : LoopContext) : M W GateVerdict :=
  fun '(m, e) =>
    match (now ← utc_now; fresh ← token_urlsafe; mret (now, fresh)) e with
    | (Ret (now, fresh), e1) => let '(v, m1) := PermitGate.check sign ttl_seconds now fresh a c m in (v, (m1, e1))
    | (Raise x, e1) => (Raise x, (m, e1))
    end.

(** What a permit for an action in a context says, all of it signed. *)
Record permit_for (a : ProposeAction) (c : LoopContext) (p : ExecutionPermit) : Prop := {
  permit_binds : PermitGate.request_digest a c = Ret (p_scope_digest p);
  permit_context : exists h, LoopModels.context_hash c = Ret h /\ p_plan_digest p = "sha256:" +:+ h
    /\ p_job_id p = "loop-" +:+ PyStr.take 12 h;
  permit_worker : worker_id p = PermitGate.LOOP_WORKER_ID;
  permit_capability : capabilities p = [PermitGate.capability_of a];
  permit_lifetime : expires_at p = issued_at p + PyTime.seconds ttl_seconds;
  permit_signed : exists m, Permits.signing_payload p = Ret m /\ p_signature p = sign m
}.

Lemma permit_check_issues now fresh a c m v m' :
  PermitGate.check sign ttl_seconds now fresh a c m = (Ret v, m') ->
  exists pid p, permit_id v = Some pid /\ m' = <[pid := p]> m /\ permit_for a c p.
Proof.
  unfold PermitGate.check, PermitGate.loop_job_id, lift, modify, mbind at 1 2 3 4 5 6, M_bind.
  destruct (LoopModels.context_hash c) as [h|] eqn:Eh; [|done]. cbn [mbind outcome_bind].
  destruct (PermitGate.request_digest a c) as [d|] eqn:Ed; [|done].
  destruct (Permits.check_permit _) as [p|] eqn:Ep; [|done].
  destruct (Permits.issue sign p) as [q|] eqn:Eq; [|done].
  cbn zeta. unfold mret, M_ret. intros [= <- <-]. eexists _, q. split; [done|]. split; [done|].
  unfold Permits.check_permit in Ep. inv_ret. unfold Permits.issue in Eq. apply bind_Ret in Eq as (mm & Hm & Eq).
  unfold Permits.check_permit in Eq. inv_ret. split; cbn; try done; [by exists h|by exists mm].
Qed.

Context (audit_ok : AuditCall -> outcome unit).
Context (clock : M E datetime) (token_hex4 : M E string) (uuid4_int : M E Z).
Context (build_context : gmap LoopId LoopState -> LoopId -> M E LoopContext).
Context (propose : LoopContext -> M E (option ProposeAction)).
Context (budget_gate_wired : bool) (loop_oracle : option (string -> M E OracleOutcome)).

Definition oracle : option (string -> M W OracleOutcome) :=
  (fun verify candidate => outside (verify candidate)) <$> loop_oracle.

Definition run_step (i : LoopId) : M (LoopWorld W) StepResult :=
  Loop.run_step audit_ok (outside clock) (outside token_hex4) (outside uuid4_int)
    (fun loops i => outside (build_context loops i)) (fun c => outside (propose c))
    schema_gate policy_gate permit_gate budget_gate_wired oracle i.

Lemma outside_keeps {A} (m : M E A) issued e : ((outside m) (issued, e)).2.1 = issued.
Proof. unfold outside. by destruct (m e). Qed.

Lemma outside_Ret {A} (m : M E A) x a y :
  outside m x = (Ret a, y) -> y.1 = x.1 /\ m x.2 = (Ret a, y.2).
Proof. destruct x as [issued e]. unfold outside. cbn [fst snd]. destruct (m e) as [o e']. intros [= -> <-]. done. Qed.

(** [execute_step] cannot reach the permits either. *)
Lemma execute_keeps_permits i c a pid x st y :
  execute_step (outside clock) (outside token_hex4) (outside uuid4_int) oracle i c a pid x = (Ret st, y) -> y.1 = x.1.
Proof.
  assert (Hf : forall mk x, fresh_step (outside clock) (outside token_hex4) (outside uuid4_int) c mk x = (Ret st, y) -> y.1 = x.1).
  { intros mk z. unfold fresh_step, lift, mbind, M_bind, mret, M_ret.
    destruct (outside token_hex4 z) as [[?|?] z1] eqn:E1; [|done]. apply outside_Ret in E1 as [<- _].
    destruct (outside uuid4_int z1) as [[?|?] z2] eqn:E2; [|done]. apply outside_Ret in E2 as [<- _].
    destruct (outside clock z2) as [[?|?] z3] eqn:E3; [|done]. apply outside_Ret in E3 as [<- _].
    destruct (LoopModels.context_hash c); [|done].
    destruct (outside token_hex4 z3) as [[?|?] z4] eqn:E4; [|done]. apply outside_Ret in E4 as [<- _]. by intros [= _ <-]. }
  unfold execute_step, oracle. case_bool_decide; [destruct loop_oracle as [verify|]|]; [|by apply Hf..].
  cbn [fmap option_fmap option_map]. unfold execute_oracle_step, mbind, M_bind.
  destruct (outside (verify _) x) as [[r|?] x1] eqn:E1; [|done]. apply outside_Ret in E1 as [<- _]. apply Hf.
Qed.

(** C3: A step is recorded only for a cleared action. Running a step of a loop
    wired with the program's own gates records nothing, or one step: its
    action is the one the proposer answered for the context built in this run,
    whose hash the step carries; it has the payload keys its type requires,
    was validated, names a tool or hypothesis of that context, and stands for
    a request that the frozen scope and the approvals permit, never a
    destructive one. And the permit gate's store holds, under the step's
    permit identifier, exactly one permit more than before: a signed one for
    that very action and context, which carries one capability, the one the
    policy engine judged. *)
Theorem recorded_step_was_cleared i (w : LoopWorld W) :
  let after := (run_step i w).2 in
  steps after = steps w
  \/ exists st c e1 e2 validated r pid p, let a := proposed_action st in
     steps after = steps w ++ [st]
     /\ build_context (states w) i (env w).2 = (Ret c, e1)
     /\ propose c e1 = (Ret (Some a), e2)
     /\ LoopModels.context_hash c = Ret (context_hash_before st) /\ st_loop_id st = i
     /\ LoopModels.required_keys (action_type a) ⊆ dict_keys (action_payload a)
     /\ model_validate (SchemaGate.Proposed a) = inl validated /\ SchemaGate.references_known validated c
     /\ PolicyGate.cleared uni scope approved_risks approved_capabilities a r
     /\ st_permit_id st = Some pid /\ (env after).1 = <[pid := p]> (env w).1
     /\ permit_for a c p /\ capabilities p = [ar_capability r].
Proof.
  destruct (run_step_chain audit_ok (outside clock) (outside token_hex4) (outside uuid4_int)
    (fun loops i => outside (build_context loops i)) (fun c => outside (propose c))
    schema_gate policy_gate permit_gate budget_gate_wired oracle i w)
    as [H|(s & st & _ & _ & _ & Hch & Hs)]; [by left|right].
  destruct Hch as (c & v1 & v2 & v3 & e1 & e2 & e3 & e4 & e5 & e6 & Hb & _ & Hp & [A1 P1] & [A2 P2] & [A3 P3] & Hx & Haft).
  apply outside_Ret in Hb as [Hi1 Hb]. apply outside_Ret in Hp as [Hi2 Hp]. injection A1 as <- <-. injection A2 as A2 <-.
  destruct (SchemaGate.schema_check_cases model_validate (SchemaGate.Proposed (proposed_action st)) c)
    as [(_ & _ & Hk & a' & Ha & Hr)|[[Hd _] _]]; [|congruence].
  destruct (proj1 (PolicyGate.check_passes uni scope mode approved_risks approved_capabilities (proposed_action st) c))
    as (r & Hc). { by exists v2. }
  destruct e2 as [m3 x3]. unfold permit_gate in A3. destruct ((now ← utc_now; _) x3) as [[[now fresh]|x] x4]; [|discriminate].
  destruct (PermitGate.check sign ttl_seconds now fresh (proposed_action st) c m3) as [o m4] eqn:E3. injection A3 as -> <-.
  apply permit_check_issues in E3 as (pid & p & Hpid & -> & Hp3). rewrite Hpid in Hx. cbn [default id] in Hx.
  pose proof (execute_keeps_permits _ _ _ _ _ _ _ Hx) as Hi6.
  apply execute_step_Ret in Hx as (_ & _ & _ & Hsp & Hid & Hh). cbn in Hi1, Hi2, Hi6.
  exists st, c, e1.2, x3, a', r, pid, p. split_and!; try done.
  - destruct e6 as [m6 x6]. cbn in Hi6. subst m6 m3. rewrite <- Hi1. unfold run_step. destruct Haft as [->| ->]; [done|apply outside_keeps].
  - rewrite (permit_capability _ _ _ Hp3). destruct Hc as [Hq _]. unfold PolicyGate.action_to_request in Hq.
    repeat case_match; try discriminate. by injection Hq as <-.
Qed.

End wired.

(** *** A concrete run: the scan of an in-scope host is recorded under its
    permit, the same scan of another host, or with an unknown tool, is not. *)
Definition demo_validate (x : SchemaGate.shaped) : ProposeAction + SchemaGate.FirstError :=
  match x with
  | SchemaGate.Proposed a =>
      if validate_payload (action_type a) (action_payload a) then inl a
      else inr (SchemaGate.mkFirstError "value_error" "('payload',)" "Value error")
  | _ => inr (SchemaGate.mkFirstError "missing" "('rationale',)" "Field required")
  end.
Definition demo_action (tool url : string) : ProposeAction :=
  mkAction LoopActionType.RUN_TOOL [("tool_id", JStr tool); ("parameters", JObj [("url", JStr url)])] "" (flt "0.5") None None.
Definition demo_scope : ScopeSnapshot :=
  mkScope "s" "acme" ["shop.example"] [] [443] Scope.default_limits "ana" 0 "d" [].
Definition demo_step (tool url : string) : list (option string * json) :=
  let init : LoopWorld (gmap string ExecutionPermit * nat) := mkWorld ∅ [] [] (∅, 0%nat) in
  let w := (Loop.create_loop LoopDemo.ok (outside LoopDemo.clock) LoopDemo.plan ∅ init).2 in
  let w' := (run_step FrozenScope.ascii_only demo_validate demo_scope ExecutionMode.APPROVAL
    {[RiskClass.ACTIVE]} {["nmap"]} PermitGate.demo_sign 900 LoopDemo.clock (mret "abcdefghij") LoopDemo.ok
    LoopDemo.clock LoopDemo.hex LoopDemo.uuid (fun _ _ => mret LoopDemo.context)
    (fun _ => mret (Some (demo_action tool url))) true None LoopDemo.i0 w).2 in
  (fun st => (st_permit_id st, tool_or_case_id st)) <$> steps w'.

Example demo_steps :
  demo_step "nmap" "https://shop.example/login" = [(Some "permit-abcdefgh", JStr "nmap")]
  /\ demo_step "nmap" "https://evil.example/" = [] /\ demo_step "zap" "https://shop.example/" = [].
Proof. vm_compute. done. Qed.

End WiredLoop.
