(* ===== verification/LoopBridge.v ===== *)
(** * The loop's oracle, chain bridge and degradation policy

    Models [src/secopent/application/reasoning_loop/loop_oracle.py] (Module
    [LoopOracle], the oracle the orchestrator of [Loop] is composed with),
    [chain_bridge.py] (Module [ChainBridge], which hands the open links of
    the attack chains of [Findings] to the loop's context) and
    [degradation.py] (Module [Degradation]).  The provider of candidates and
    of findings, the verifier factory and [uuid4] are parameters. *)
From S2P Require Import Prelude PyStr PyTime PyFloat Sha256 Canonical PyJson AuditTrail.
From S2P Require Import Contracts Verification Findings Oracle LoopModels Loop.

#[local] Open Scope Z_scope.

(** ** [LoopOracleVerifier] *)
Module LoopOracle.
Section verifier.
Context (token_urlsafe : nat -> string) (audit_ok : AuditCall -> outcome unit) (registry : Verification.Registry).
(** The factory sees the asset and the type of the candidate. *)
Context (verifier_factory : string -> VulnType -> outcome Verifier) (candidate_provider : string -> option CandidateFinding).

Definition inconclusive (why : string) : OracleOutcome := mkOracleOutcome VerificationStatus.INCONCLUSIVE 0 0 why.

Definition verify (candidate_id actor : string) : M CanaryState OracleOutcome :=
  if PyStr.is_empty candidate_id then mret (inconclusive "no candidate_id in request_oracle payload")
  else
    match candidate_provider candidate_id with
    | None => mret (inconclusive ("candidate " +:+ PyStr.repr candidate_id +:+ " not found"))
    | Some candidate =>
        method ← lift (Verification.require_method registry (cf_vuln_type candidate));
        if diff_semantic method && bool_decide (cf_diff candidate = None)
        then mret (inconclusive ("logic candidate " +:+ PyStr.repr candidate_id +:+ " has no diff spec (refusing to REFUTE)"))
        else
          verifier ← lift (verifier_factory (cf_target candidate) (cf_vuln_type candidate));
          r ← OracleEngine.verify token_urlsafe audit_ok registry verifier candidate actor;
          mret (mkOracleOutcome (vr_status r) (vr_successes r) (vr_attempts r) (vr_reason r))
    end.

(** What stands behind a deterministic verdict. *)
Definition evidenced (candidate_id actor : string) (o : OracleOutcome) (c c' : CanaryState) : Prop :=
  exists candidate method verifier l,
    candidate_provider candidate_id = Some candidate /\ registry !! cf_vuln_type candidate = Some method
    /\ (diff_semantic method = true -> cf_diff candidate <> None)
    /\ verifier_factory (cf_target candidate) (cf_vuln_type candidate) = Ret verifier
    /\ OracleEngine.attempts_run token_urlsafe audit_ok verifier candidate method actor c l c'
    /\ Z.of_nat (length l) = default_n method /\ oo_attempts o = default_n method
    /\ oo_successes o = OracleEngine.occurrences ReproductionStatus.SUCCESS l
    /\ oo_status o = Verification.decide_outcome method (OracleEngine.occurrences ReproductionStatus.SUCCESS l)
         (default_n method) (OracleEngine.occurrences ReproductionStatus.SERVER_ERROR l).

(** a missing specification is no disproof. The loop's oracle resolves a
    candidate, either way, only by the N reproductions of its curated method,
    and a logic candidate only if it has a specification to compare; without
    evidence the verdict is INCONCLUSIVE and no token is used. *)
Theorem verdicts_need_evidence candidate_id actor o c c' :
  (forall v m, registry !! v = Some m -> 1 <= default_n m) ->
  verify candidate_id actor c = (Ret o, c') ->
  (oo_resolved o = true -> evidenced candidate_id actor o c c')
  /\ (candidate_id = "" \/ candidate_provider candidate_id = None
      \/ (exists cand m, candidate_provider candidate_id = Some cand /\ registry !! cf_vuln_type cand = Some m
            /\ diff_semantic m = true /\ cf_diff cand = None) ->
      oo_status o = VerificationStatus.INCONCLUSIVE /\ oo_attempts o = 0 /\ c' = c).
Proof.
  intros Hreg. unfold verify. destruct (PyStr.is_empty candidate_id) eqn:Ee; [by intros [= <- <-]|].
  apply PyStr.is_empty_false in Ee. destruct (candidate_provider candidate_id) as [cand|] eqn:Ec; [|by intros [= <- <-]].
  unfold Verification.require_method, lift, mbind at 1, M_bind at 1. destruct (registry !! cf_vuln_type cand) as [m|] eqn:Em; [|done].
  cbn [unwrap]. destruct (diff_semantic m && bool_decide (cf_diff cand = None)) eqn:Ed; [by intros [= <- <-]|].
  apply andb_false_iff in Ed. unfold mbind, M_bind.
  destruct (verifier_factory _ _) as [v|] eqn:Ev; [|done].
  destruct (OracleEngine.verify _ _ _ v cand actor c) as [[r|e] c1] eqn:Er; [|done].
  intros [= <- <-]. apply OracleEngine.verify_Ret in Er as (m' & l & Hm & Hl & Hlen & Ha & Hs & Hst); [|done].
  rewrite Em in Hm. injection Hm as <-. split.
  - intros _. exists cand, m, v, l. split_and!; try done. intros Hd. destruct Ed as [Ed|Ed]; [congruence|].
    by apply bool_decide_eq_false in Ed.
  - intros [?|[?|(cand' & m' & [= <-] & Hm' & Hd & Hn)]]; [done..|]. assert (m' = m) as -> by congruence.
    destruct Ed as [Ed|Ed]; [congruence|]. by apply bool_decide_eq_false in Ed.
Qed.

End verifier.

Lemma verdicts_need_evidence_witness :
  let provider i := if bool_decide (i = "f1") then Some OracleService.demo_candidate else None in
  let factory (asset : string) (v : VulnType) := Ret OracleService.demo_verifier in
  (exists o c', verify Canary.demo_token Canary.demo_audit OracleService.demo_registry factory provider "f1" "loop" Canary.initial
                = (Ret o, c')
     /\ oo_status o = VerificationStatus.CONFIRMED
     /\ evidenced Canary.demo_token Canary.demo_audit OracleService.demo_registry factory provider "f1" "loop" o Canary.initial c').
Proof.
  cbn zeta. set (provider := fun i => if bool_decide (i = "f1") then _ else _). set (factory := fun _ _ => _).
  pose (run := verify Canary.demo_token Canary.demo_audit OracleService.demo_registry factory provider "f1" "loop" Canary.initial).
  assert (Hs : match run.1 with Ret o => oo_status o = VerificationStatus.CONFIRMED | Raise _ => False end) by (vm_compute; reflexivity).
  destruct run as [[o|e] c'] eqn:E; [|destruct Hs]. exists o, c'. cbn [fst] in Hs. split; [exact E|]. split; [exact Hs|].
  apply (verdicts_need_evidence _ _ _ _ _ _ _ _ _ _ OracleService.demo_registry_ok E). unfold oo_resolved. rewrite Hs. reflexivity.
Defined.

End LoopOracle.

(** ** [DegradationPolicy] *)
Module BackendState.
Inductive t : Type := AVAILABLE | UNAVAILABLE | CATALOG_ONLY.
End BackendState.
Notation BackendState := BackendState.t.

Module DegradeAction.
Inductive t : Type := PROPOSE_AGAIN | USE_MOCK | POLICY_BLOCKED | CATALOG_ONLY.
Definition value (a : t) : string :=
  match a with
  | PROPOSE_AGAIN => "propose_again" | USE_MOCK => "use_mock" | POLICY_BLOCKED => "policy_blocked" | CATALOG_ONLY => "catalog_only"
  end.
Definition is_terminal (a : t) : bool :=
  match a with POLICY_BLOCKED | CATALOG_ONLY => true | _ => false end.
End DegradeAction.
Notation DegradeAction := DegradeAction.t.

Module Degradation.
Import DegradeAction.

Definition FALLBACK_STREAK_THRESHOLD : Z := 3.

Definition evaluate (streak_threshold failure_streak : Z) (b : BackendState) : DegradeAction :=
  match b with
  | BackendState.UNAVAILABLE => USE_MOCK
  | BackendState.CATALOG_ONLY => CATALOG_ONLY
  | BackendState.AVAILABLE => if streak_threshold <=? failure_streak then POLICY_BLOCKED else PROPOSE_AGAIN
  end.

Definition fallback_call (why : string) (degraded_to : DegradeAction) (resource_id actor : string) : AuditCall :=
  mkCall actor "loop.fallback_used" LoopPure.LOOP_RESOURCE_TYPE resource_id
    [("reason", JStr why); ("degraded_to", JStr (DegradeAction.value degraded_to))].

(** A longer streak never makes the policy more permissive, and the loop goes
    on proposing for real only with a backend and a short streak. *)
Lemma degradation_is_monotone t n n' b :
  n <= n' -> is_terminal (evaluate t n b) = true -> is_terminal (evaluate t n' b) = true.
Proof. intros Hn. destruct b; cbn; [|done..]. destruct (Z.leb_spec t n), (Z.leb_spec t n'); (done || lia). Qed.

End Degradation.

(** ** [ChainBridge] *)
Record HypothesisRecord : Type := mkHypRecord {
  hr_id : string;
  hr_chain_id : string;
  hr_link_index : nat;
  hr_required_cwe : list string;
  progressed : bool
}.

Record PendingPriority : Type := mkPriority {
  pp_hypothesis_id : string;
  priority_score : Z;
  pp_chain_id : option string
}.

(** The store, the last chains, and how many identifiers [uuid4] has given. *)
Record BridgeState : Type := mkBridge {
  hypotheses : gmap string HypothesisRecord;
  last_chains : list AttackChain;
  uuids : nat
}.

Module ChainBridge.
Import Findings.Findings ChainEngine.

Definition with_progress (r : HypothesisRecord) : HypothesisRecord :=
  mkHypRecord (hr_id r) (hr_chain_id r) (hr_link_index r) (hr_required_cwe r) true.

(** *** [InMemoryHypothesesStore] *)
Definition record (hid chain_id : string) (link_index : nat) (required_cwe : list string)
    (m : gmap string HypothesisRecord) : gmap string HypothesisRecord :=
  match m !! hid with
  | None => <[hid := mkHypRecord hid chain_id link_index required_cwe false]> m
  | Some _ => m
  end.

Definition mark_progress (hid : string) (m : gmap string HypothesisRecord) : gmap string HypothesisRecord :=
  match m !! hid with
  | Some r => if progressed r then m else <[hid := with_progress r]> m
  | None => m
  end.

Definition canonical_id (template : string) (link_index : nat) (required_cwe : list string) : string :=
  "hyp-" +:+ PyStr.take 12 (Sha256.hexdigest
    (template +:+ ":" +:+ pretty (Z.of_nat link_index) +:+ ":" +:+ PyStr.join "," (PyStr.sorted required_cwe))).

Definition to_hypothesis (hid : string) (t : PendingVerificationTask) : PendingHypothesis :=
  let cwe_label := match required_cwe t with [] => "evidence" | l => PyStr.join "/" l end in
  let hint := if PyStr.truthy (asset_hint t) then asset_hint t else "the target asset" in
  mkHypothesis hid ("confirm '" +:+ cwe_label +:+ "' evidence on " +:+ hint) (required_cwe t).

Definition is_progressed (hid : string) (m : gmap string HypothesisRecord) : bool :=
  match m !! hid with Some r => progressed r | None => false end.

(** The inner loop: the links of a chain, with the tasks not yet taken. *)
Fixpoint sync_links (c : AttackChain) (link_index : nat) (links : list ChainLink) (tasks : list PendingVerificationTask)
    (m : gmap string HypothesisRecord)
  : list PendingHypothesis * list PendingVerificationTask * gmap string HypothesisRecord :=
  match links with
  | [] => ([], tasks, m)
  | l :: r =>
      if is_confirmed l then sync_links c (S link_index) r tasks m
      else
        match tasks with
        | [] => ([], [], m)
        | t :: ts =>
            let hid := canonical_id (template_id c) link_index (required_cwe t) in
            if is_progressed hid m then sync_links c (S link_index) r ts m
            else
              let '(hs, rest, m') := sync_links c (S link_index) r ts
                                       (record hid (ch_id c) link_index (required_cwe t) m) in
              (to_hypothesis hid t :: hs, rest, m')
        end
  end.

Fixpoint sync_chains (cs : list AttackChain) (tasks : list PendingVerificationTask) (m : gmap string HypothesisRecord)
  : list PendingHypothesis * gmap string HypothesisRecord :=
  match cs with
  | [] => ([], m)
  | c :: r =>
      let '(hs, rest, m1) := sync_links c 0 (ch_links c) tasks m in
      let '(hs', m2) := sync_chains r rest m1 in (hs ++ hs', m2)
  end.

Section bridge.
Context (uuid : nat -> string) (templates : list AttackChainTemplate).

(** [findings] is what the provider gives at this call. *)
Definition sync (findings : list Finding) : M BridgeState (list PendingHypothesis) := fun s =>
  match hypothesize_from_findings uuid templates findings (uuids s) with
  | (Raise e, n) => (Raise e, mkBridge (hypotheses s) (last_chains s) n)
  | (Ret chains, n) =>
      match pending_verification_tasks templates chains with
      | Raise e => (Raise e, mkBridge (hypotheses s) chains n)
      | Ret tasks => let '(hs, m) := sync_chains chains tasks (hypotheses s) in (Ret hs, mkBridge m chains n)
      end
  end.

End bridge.

Definition concluded_chains (s : BridgeState) : list string :=
  PyStr.sorted (template_id <$> List.filter (fun c => bool_decide (ch_status c = ChainStatus.CONFIRMED)) (last_chains s)).

Definition valid_hypothesis (hid : string) (pending : list PendingHypothesis) : bool :=
  existsb (fun h => bool_decide (hypothesis_id h = hid)) pending.

Definition mark_pending_progress (hid : string) (s : BridgeState) : BridgeState :=
  mkBridge (mark_progress hid (hypotheses s)) (last_chains s) (uuids s).

Definition priority (s : BridgeState) (h : PendingHypothesis) : PendingPriority :=
  let r := hypotheses s !! hypothesis_id h in
  mkPriority (hypothesis_id h)
    (- Z.of_nat (match r with Some r => hr_link_index r | None => 0%nat end) * 10 - Z.of_nat (length (needed_cwe h)))
    (hr_chain_id <$> r).

(** Most urgent first: [sort(key=lambda p: (-p.priority_score, p.hypothesis_id))]. *)
Definition before (p q : PendingPriority) : Prop :=
  priority_score q < priority_score p
  \/ (priority_score p = priority_score q /\ String.le (pp_hypothesis_id p) (pp_hypothesis_id q)).
#[export] Instance before_dec : RelDecision before.
Proof. intros p q. unfold before. apply _. Defined.
Definition next_priorities (s : BridgeState) (pending : list PendingHypothesis) : list PendingPriority :=
  merge_sort before (priority s <$> pending).

(** *** What is pending *)

(** The engine's binding of links, without its identifiers: for each link of
    a template whether it is confirmed. *)
Fixpoint shape (specs : list ChainLinkSpec) (findings : list Finding) (position : nat) : list bool :=
  match specs with
  | [] => []
  | s :: r =>
      match Findings.scan (finding_matches s) findings position with
      | Some (i, _) => true :: shape r findings (S i)
      | None => false :: shape r findings position
      end
  end.

Lemma bind_links_shape uuid specs fs p n :
  Forall (fun f => fd_id f <> "") fs ->
  exists ls b n', bind_links uuid specs fs p n = (Ret (ls, b), n')
    /\ is_confirmed <$> ls = shape specs fs p /\ b = existsb id (shape specs fs p).
Proof.
  intros Hids. revert p n; induction specs as [|s r IH]; intros p n; [by exists [], false, n|].
  cbn [bind_links shape]. destruct (Findings.scan (finding_matches s) fs p) as [[i f]|] eqn:E; unfold mbind at 1, M_bind.
  - apply Findings.scan_Some in E as (_ & Hf%list_elem_of_lookup_2 & _ & _).
    rewrite Forall_forall in Hids. pose proof (Hids f Hf) as Hid. rewrite confirmed_link_Ret by done.
    destruct (IH (S i) n) as (ls & b & n' & Hb & Hs & ->).
    exists (mkLink (fd_id f) "" "" :: ls), true, n'. unfold mbind, M_bind. rewrite Hb.
    split; [done|]. rewrite fmap_cons, Hs. unfold is_confirmed at 1. cbn. apply PyStr.truthy_true in Hid. by rewrite Hid.
  - rewrite pending_link_Ret. destruct (IH p (S n)) as (ls & b & n' & Hb & Hs & ->).
    eexists (_ :: ls), _, n'. unfold mbind, M_bind. rewrite Hb. split; [reflexivity|]. by rewrite fmap_cons, Hs.
Qed.

Lemma length_shape specs fs p : length (shape specs fs p) = length specs.
Proof.
  revert p; induction specs as [|s r IH]; intros p; [done|]. cbn [shape].
  destruct (Findings.scan _ fs p) as [[i f]|]; cbn; by rewrite IH.
Qed.

(** The open links of a template, with their positions. *)
Fixpoint open_links (template : string) (i : nat) (bound : list bool) (specs : list ChainLinkSpec)
  : list (string * nat * ChainLinkSpec) :=
  match bound, specs with
  | b :: bs, s :: ss => (if b : bool then [] else [(template, i, s)]) ++ open_links template (S i) bs ss
  | _, _ => []
  end.

Definition pending_of (fs : list Finding) (t : AttackChainTemplate) : list (string * nat * ChainLinkSpec) :=
  let bound := shape (tpl_links t) (validated fs) 0 in
  if existsb id bound then open_links (tpl_id t) 0 bound (tpl_links t) else [].

Definition id_of (x : string * nat * ChainLinkSpec) : string := canonical_id x.1.1 x.1.2 (cwe_any x.2).
Definition hypothesis_of (x : string * nat * ChainLinkSpec) : PendingHypothesis :=
  to_hypothesis (id_of x) (mkTask "" "" (cwe_any x.2) (asset_pattern x.2)).

(** What [sync] reports for the open links [l]. *)
Definition expected (m : gmap string HypothesisRecord) (l : list (string * nat * ChainLinkSpec)) : list PendingHypothesis :=
  hypothesis_of <$> List.filter (fun x => negb (is_progressed (id_of x) m)) l.

Definition same_progress (m m' : gmap string HypothesisRecord) : Prop :=
  forall h, is_progressed h m' = is_progressed h m.

Lemma expected_ext m m' l : same_progress m m' -> expected m' l = expected m l.
Proof. intros H. unfold expected. f_equal. apply List.filter_ext. intros x. by rewrite H. Qed.

Lemma expected_app m l l' : expected m (l ++ l') = expected m l ++ expected m l'.
Proof. unfold expected. by rewrite List.filter_app, fmap_app. Qed.

(** [m'] knows what [m] knew and the hypotheses of [hs], with the same
    progress. *)
Record extends (m m' : gmap string HypothesisRecord) (hs : list PendingHypothesis) : Prop := {
  ext_progress : same_progress m m';
  ext_keeps : m ⊆ m';
  ext_knows : forall h, h ∈ hs -> is_Some (m' !! hypothesis_id h)
}.

Lemma record_extends h c i cwe m : same_progress m (record h c i cwe m) /\ m ⊆ record h c i cwe m /\ is_Some (record h c i cwe m !! h).
Proof.
  unfold record. destruct (m !! h) as [r|] eqn:E; [by split_and!|]. split_and!.
  - intros h'. unfold is_progressed. destruct (decide (h = h')) as [<-|Hne];
      [by rewrite lookup_insert_eq, E|by rewrite lookup_insert_ne].
  - by apply insert_subseteq.
  - by rewrite lookup_insert_eq.
Qed.

Lemma sync_links_spec c links specs i rest m :
  length links = length specs ->
  exists m', sync_links c i links (open_tasks c (zip links specs) ++ rest) m
      = (expected m (open_links (template_id c) i (is_confirmed <$> links) specs), rest, m')
    /\ extends m m' (expected m (open_links (template_id c) i (is_confirmed <$> links) specs)).
Proof.
  revert specs i m; induction links as [|l links IH]; intros [|s specs] i m Hl; try discriminate Hl.
  { exists m. split; [done|]. split; [done..|]. by intros h ?%elem_of_nil. }
  injection Hl as Hl. cbn [sync_links zip zip_with]. unfold open_tasks. cbn [omap list_omap fst snd].
  rewrite fmap_cons. cbn [open_links]. destruct (is_confirmed l) eqn:El; [apply (IH specs (S i) m Hl)|].
  rewrite expected_app. cbn [app required_cwe]. unfold expected at 1 3. cbn [List.filter app].
  change (id_of (template_id c, i, s)) with (canonical_id (template_id c) i (cwe_any s)).
  set (h := canonical_id (template_id c) i (cwe_any s)). destruct (is_progressed h m) eqn:Ep; cbn [negb fmap list_fmap app].
  - apply (IH specs (S i) m Hl).
  - destruct (record_extends h (ch_id c) i (cwe_any s) m) as (Hp & Hk & Hs).
    destruct (IH specs (S i) (record h (ch_id c) i (cwe_any s) m) Hl) as (m' & E & [Hp' Hk' Hs']).
    change (omap (fun p => if is_confirmed p.1 then None else
        Some (mkTask (pending_verification_key p.1) (ch_id c) (cwe_any p.2) (asset_pattern p.2))) (zip links specs))
      with (open_tasks c (zip links specs)).
    rewrite E. exists m'. rewrite (expected_ext _ _ _ Hp) in *. split; [done|]. split.
    + intros x. by rewrite Hp', Hp.
    + by etrans.
    + intros x [->|Hx]%elem_of_cons; [|by apply Hs']. destruct Hs as [r Hr]. exists r. by eapply lookup_weaken.
Qed.

(** A chain of template [t] whose links are bound as [t]'s are. *)
Definition chain_of (fs : list Finding) (t : AttackChainTemplate) (c : AttackChain) : Prop :=
  template_id c = tpl_id t /\ is_confirmed <$> ch_links c = shape (tpl_links t) (validated fs) 0
  /\ existsb id (shape (tpl_links t) (validated fs) 0) = true.
Definition outcome_of (fs : list Finding) (t : AttackChainTemplate) (o : option AttackChain) : Prop :=
  match o with
  | Some c => chain_of fs t c
  | None => existsb id (shape (tpl_links t) (validated fs) 0) = false
  end.

Section stable.
Context (templates : list AttackChainTemplate) (fs : list Finding).
Context (ids_ok : Forall (fun f => fd_id f <> "") fs) (templates_ok : Forall (fun t => (2 <= length (tpl_links t))%nat) templates)
        (names_ok : NoDup (tpl_id <$> templates)).

Lemma hypothesize_shapes uuid n :
  exists os n', hypothesize_from_findings uuid templates fs n = (Ret (omap id os), n') /\ Forall2 (outcome_of fs) templates os.
Proof.
  unfold hypothesize_from_findings, mbind at 1, M_bind at 1.
  destruct (mapM_state_total (fun t => match_template uuid t (validated fs)) (outcome_of fs) templates) with (s := n)
    as (os & n' & -> & HF); [|by exists os, n'].
  intros t s Ht. rewrite Forall_forall in templates_ok. pose proof (templates_ok t Ht) as Hlen.
  unfold match_template. destruct (bind_links_shape uuid (tpl_links t) (validated fs) 0 s) as (ls & b & n1 & E & Hsh & ->);
    [by apply validated_ids|].
  unfold mbind at 1, M_bind at 1. rewrite E. cbn [snd fst].
  destruct (existsb id (shape (tpl_links t) (validated fs) 0)) eqn:Ee; cbn [negb]; [|by exists None, n1].
  unfold mbind, M_bind, uuid4_hex, lift, check_chain. cbn [ch_id ch_links].
  assert (Hl : length ls = length (tpl_links t)) by (rewrite <- (length_shape _ (validated fs) 0), <- Hsh; by rewrite length_fmap).
  replace (length ls <? 2)%nat with false by (symmetry; apply Nat.ltb_ge; lia).
  eexists (Some _), _. split; [reflexivity|]. by split_and!.
Qed.

Lemma tasks_of_chain t c : t ∈ templates -> chain_of fs t c ->
  tasks_for templates c = Ret (open_tasks c (zip (ch_links c) (tpl_links t))) /\ length (ch_links c) = length (tpl_links t).
Proof.
  intros Ht (Hid & Hsh & _).
  assert (Hl : length (ch_links c) = length (tpl_links t))
    by (rewrite <- (length_shape _ (validated fs) 0), <- Hsh; by rewrite length_fmap).
  split; [|done]. unfold tasks_for. rewrite Hid, find_unique by done.
  pose proof (zip_strict_spec (ch_links c) (tpl_links t)) as Hz. destruct (zip_strict _ _); [by destruct Hz as [_ ->]|].
  by destruct Hz.
Qed.

Lemma sync_chains_spec ts os m :
  (forall t, t ∈ ts -> t ∈ templates) -> Forall2 (outcome_of fs) ts os ->
  exists tasks m', pending_verification_tasks templates (omap id os) = Ret tasks
    /\ sync_chains (omap id os) tasks m = (expected m (concat (pending_of fs <$> ts)), m')
    /\ extends m m' (expected m (concat (pending_of fs <$> ts))).
Proof.
  intros Hin HF. revert m Hin; induction HF as [|t o ts os Ho _ IH]; intros m Hin.
  { exists [], m. split_and!; [done..|]. split; [done..|]. by intros h ?%elem_of_nil. }
  destruct o as [c|].
  - destruct (tasks_of_chain t c (Hin t (list_elem_of_here _ _)) Ho) as [Ht Hl]. destruct Ho as (Hid & Hsh & He).
    pose proof (sync_links_spec c (ch_links c) (tpl_links t) 0) as Hs.
    set (el := expected m (pending_of fs t)).
    assert (Hel : forall rest, exists m1, sync_links c 0 (ch_links c) (open_tasks c (zip (ch_links c) (tpl_links t)) ++ rest) m
                    = (el, rest, m1) /\ extends m m1 el).
    { intros rest. destruct (Hs rest m Hl) as (m1 & E1 & H1). exists m1. unfold el, pending_of. rewrite He, <- Hid, <- Hsh. done. }
    cbn [omap list_omap fmap list_fmap concat id]. rewrite expected_app. fold el.
    destruct (Hel []) as (m0 & _ & _).
    destruct (Hel (match pending_verification_tasks templates (omap id os) with Ret r => r | Raise _ => [] end))
      as (m1 & E1 & [P1 K1 N1]).
    destruct (IH m1) as (tasks & m2 & Et & E2 & [P2 K2 N2]); [intros u Hu; apply Hin; by right|].
    rewrite Et in E1. exists (open_tasks c (zip (ch_links c) (tpl_links t)) ++ tasks), m2. split_and!.
    + revert Et. unfold pending_verification_tasks. cbn [mapM_outcome]. rewrite Ht.
      change (list_omap _ _ id os) with (omap id os).
      cbn [mbind outcome_bind]. destruct (mapM_outcome _ _) as [tss|]; [|done]. by intros [= <-].
    + cbn [sync_chains]. rewrite E1. change (list_omap _ _ id os) with (omap id os). rewrite E2.
      by rewrite (expected_ext _ _ _ P1).
    + rewrite (expected_ext _ _ _ P1) in N2. split; [intros h; by rewrite P2, P1|by etrans|].
      intros h [Hh|Hh]%elem_of_app; [|by apply N2]. destruct (N1 h Hh) as [r Hr]. exists r. by eapply lookup_weaken.
  - assert (Hp : pending_of fs t = []) by (unfold pending_of; unfold outcome_of in Ho; by rewrite Ho).
    cbn [omap list_omap fmap list_fmap concat id]. rewrite Hp. apply IH. intros u Hu. apply Hin. by right.
Qed.

Definition open_of : list (string * nat * ChainLinkSpec) := concat (pending_of fs <$> templates).

(** [sync] reports exactly the open links that have not progressed. *)
Lemma sync_spec uuid s :
  exists s', sync uuid templates fs s = (Ret (expected (hypotheses s) open_of), s')
    /\ extends (hypotheses s) (hypotheses s') (expected (hypotheses s) open_of).
Proof.
  unfold sync. destruct (hypothesize_shapes uuid (uuids s)) as (os & n & -> & HF).
  destruct (sync_chains_spec templates os (hypotheses s) (fun _ H => H) HF) as (tasks & m & -> & E & H).
  rewrite E. by eexists.
Qed.

Lemma mark_progress_spec h m x :
  is_Some (m !! h) -> is_progressed x (mark_progress h m) = bool_decide (x = h) || is_progressed x m.
Proof.
  intros [r Hr]. unfold mark_progress. rewrite Hr. unfold is_progressed. destruct (progressed r) eqn:Ep.
  - case_bool_decide as E; [subst; by rewrite Hr|done].
  - destruct (decide (x = h)) as [->|Hne].
    + rewrite lookup_insert_eq, bool_decide_true by done. done.
    + by rewrite lookup_insert_ne, bool_decide_false by done.
Qed.

Lemma expected_marked m m' h l :
  (forall x, is_progressed x m' = bool_decide (x = h) || is_progressed x m) ->
  expected m' l = List.filter (fun x => negb (bool_decide (hypothesis_id x = h))) (expected m l).
Proof.
  intros H. unfold expected. induction l as [|x l IH]; [done|]. cbn [List.filter]. rewrite H.
  destruct (is_progressed (id_of x) m); [rewrite orb_true_r; exact IH|]. rewrite orb_false_r.
  cbn [negb]. rewrite fmap_cons. cbn [List.filter]. change (hypothesis_id (hypothesis_of x)) with (id_of x).
  case_bool_decide; cbn [negb]; [exact IH|]. rewrite fmap_cons. by f_equal.
Qed.

(** hypotheses keep their identity. The engine draws fresh identifiers at
    every call, but the hypotheses [sync] reports depend only on the findings
    and on what was marked as progressed: asking again, in any state with the
    same progress and with any source of identifiers, gives the same list; and
    after marking one of them, exactly those with its identifier are gone. *)
Theorem hypotheses_are_stable uuid uuid' s :
  exists hs s1, sync uuid templates fs s = (Ret hs, s1)
  /\ (forall s2, same_progress (hypotheses s) (hypotheses s2) -> exists s3, sync uuid' templates fs s2 = (Ret hs, s3))
  /\ same_progress (hypotheses s) (hypotheses s1)
  /\ forall h, valid_hypothesis h hs = true ->
       exists s3, sync uuid' templates fs (mark_pending_progress h s1)
                  = (Ret (List.filter (fun x => negb (bool_decide (hypothesis_id x = h))) hs), s3).
Proof.
  destruct (sync_spec uuid s) as (s1 & E & [Hp Hk Hn]). eexists _, s1. split; [exact E|]. split_and!.
  - intros s2 H2. destruct (sync_spec uuid' s2) as (s3 & E3 & _). exists s3. by rewrite E3, (expected_ext _ _ _ H2).
  - exact Hp.
  - intros h Hv. unfold valid_hypothesis in Hv. apply existsb_exists in Hv as (x & Hx%list_elem_of_In & Hid). breflect. subst h.
    destruct (sync_spec uuid' (mark_pending_progress (hypothesis_id x) s1)) as (s3 & E3 & _). exists s3. rewrite E3.
    f_equal. f_equal. apply expected_marked. intros y. cbn. rewrite mark_progress_spec by by apply Hn. by rewrite Hp.
Qed.

End stable.

(** The demonstration has two open links in its first chain and one in its last. *)
Lemma hypotheses_are_stable_witness :
  exists hs s1, sync demo_uuid default_chain_templates demo_findings (mkBridge ∅ [] 0) = (Ret hs, s1)
  /\ (length hs = 3)%nat
  /\ exists s3, sync (fun n => "x" +:+ demo_uuid n) default_chain_templates demo_findings
       (mark_pending_progress (canonical_id "ssrf-to-cloud-creds" 0 ["CWE-918"]) s1)
     = (Ret (List.filter (fun x => negb (bool_decide (hypothesis_id x = canonical_id "ssrf-to-cloud-creds" 0 ["CWE-918"]))) hs), s3).
Proof.
  destruct (hypotheses_are_stable default_chain_templates demo_findings) with
    (uuid := demo_uuid) (uuid' := fun n => "x" +:+ demo_uuid n) (s := mkBridge ∅ [] 0%nat) as (hs & s1 & E & _ & _ & H).
  - repeat constructor; cbn; discriminate.
  - repeat constructor; cbn; lia.
  - apply (bool_decide_unpack _). vm_compute. exact I.
  - exists hs, s1. pose proof (f_equal fst E) as Eh. split; [exact E|]. vm_compute in Eh. injection Eh as <-. split; [reflexivity|].
    apply H. vm_compute. reflexivity.
Defined.

End ChainBridge.
