(* ===== verification/Cases.v ===== *)
(** * Cases: lifecycle, risk, schema and fixtures

    Models [src/secopent/domain/cases/models.py] (the records and their
    checks), [domain/cases/risk.py] and [application/risk_analyzer.py] (Module
    [Risk]), [domain/cases/yaml_schema.py] (Module [CaseYaml]),
    [application/cases.py] (Module [CaseService]) and
    [application/fixture_runner.py] (Module [FixtureRunner]).

    A parsed YAML document is a JSON-like value. [lower] and [upper] act on
    ASCII letters; the only other characters whose lower or upper case could
    complete one of the words compared here are the long s and its ligatures
    ([POST]), which [method_of] folds. *)
From S2P Require Import Prelude PyStr PyFloat Canonical PyJson Policy.
From Stdlib Require String.

#[local] Open Scope Z_scope.

Module CaseStatus.
Inductive t : Type := DRAFT | VALIDATED | REVIEWED | SIGNED | PUBLISHED | DISABLED | DEPRECATED.
#[export] Instance eq_dec : EqDecision t.
Proof. solve_decision. Defined.
Definition to_string (s : t) : string :=
  match s with
  | DRAFT => "draft" | VALIDATED => "validated" | REVIEWED => "reviewed" | SIGNED => "signed"
  | PUBLISHED => "published" | DISABLED => "disabled" | DEPRECATED => "deprecated"
  end.
#[export] Program Instance strenum : StrEnum t :=
  { value := to_string; members := [DRAFT; VALIDATED; REVIEWED; SIGNED; PUBLISHED; DISABLED; DEPRECATED] }.
Next Obligation. solve_members. Qed.
Next Obligation. solve_value_inj. Qed.
End CaseStatus.
Notation CaseStatus := CaseStatus.t.

Module CaseOrigin.
Inductive t : Type := MANUAL | MODEL_GENERATED | COMMUNITY.
#[export] Instance eq_dec : EqDecision t.
Proof. solve_decision. Defined.
Definition to_string (s : t) : string :=
  match s with MANUAL => "manual" | MODEL_GENERATED => "model_generated" | COMMUNITY => "community" end.
#[export] Program Instance strenum : StrEnum t :=
  { value := to_string; members := [MANUAL; MODEL_GENERATED; COMMUNITY] }.
Next Obligation. solve_members. Qed.
Next Obligation. solve_value_inj. Qed.
End CaseOrigin.
Notation CaseOrigin := CaseOrigin.t.
Export (hints) CaseStatus CaseOrigin.

Record CaseStep : Type := mkCaseStep {
  cs_id : string;
  cs_action : string;
  spec : list (string * json)
}.

Record CaseAssertion : Type := mkAssertion {
  as_id : string;
  expression : string
}.

Record CaseVerification : Type := mkCaseVerification {
  cv_method : string;
  reproduce : Z
}.

Record CaseDefinition : Type := mkCase {
  case_id : string;
  version : string;
  author : string;
  case_risk : RiskClass;
  target_type : string;
  schema : string;
  case_steps : list CaseStep;
  preconditions : list string;
  assertions : list CaseAssertion;
  evidence_req : list string;
  case_cwe : list string;
  case_cve : list string;
  case_owasp : list string;
  case_verification : option CaseVerification;
  case_signature : string;
  min_engine_version : string;
  origin : CaseOrigin;
  case_status : CaseStatus;
  yaml : string
}.

(** [replace(case, status=..)] and [replace(case, status=.., signature=..)]. *)
Definition with_status (s : CaseStatus) (c : CaseDefinition) : CaseDefinition :=
  let 'mkCase a b d e f g h i j k l m n o p q r _ y := c in mkCase a b d e f g h i j k l m n o p q r s y.
Definition with_signature (sig : string) (c : CaseDefinition) : CaseDefinition :=
  let 'mkCase a b d e f g h i j k l m n o _ q r s y := c in mkCase a b d e f g h i j k l m n o sig q r s y.

Module Case.

Definition nonempty (s name : string) : outcome unit :=
  raise_if (PyStr.is_empty s) (DomainValidationError (name +:+ " must be non-empty")).

Definition check_step (s : CaseStep) : outcome CaseStep :=
  nonempty (cs_id s) "CaseStep.id";; nonempty (cs_action s) "CaseStep.action";; Ret s.

Definition check_assertion (a : CaseAssertion) : outcome CaseAssertion :=
  nonempty (as_id a) "CaseAssertion.id";; nonempty (expression a) "CaseAssertion.expression";; Ret a.

Definition check_verification (v : CaseVerification) : outcome CaseVerification :=
  nonempty (cv_method v) "CaseVerification.method";;
  raise_if (reproduce v <? 1) (DomainValidationError "CaseVerification.reproduce must be >= 1");; Ret v.

Definition check_case (c : CaseDefinition) : outcome CaseDefinition :=
  nonempty (case_id c) "CaseDefinition.id";;
  nonempty (version c) "CaseDefinition.version";;
  nonempty (author c) "CaseDefinition.author";;
  nonempty (target_type c) "CaseDefinition.target_type";;
  nonempty (schema c) "CaseDefinition.schema";;
  raise_if (bool_decide (case_steps c = [])) (DomainValidationError "CaseDefinition.steps must be non-empty");;
  Ret c.

Lemma nonempty_Ret s name u : nonempty s name = Ret u <-> s <> "".
Proof.
  unfold nonempty, raise_if. destruct u, (PyStr.is_empty s) eqn:E.
  - apply PyStr.is_empty_true in E. naive_solver.
  - apply PyStr.is_empty_false in E. naive_solver.
Qed.

End Case.

(** ** Static risk *)
Module Risk.

Definition risk_rank (r : RiskClass) : Z :=
  match r with
  | RiskClass.PASSIVE => 0 | RiskClass.LOW => 1 | RiskClass.ACTIVE => 2 | RiskClass.INTRUSIVE => 3
  | RiskClass.DESTRUCTIVE => 4
  end.

Definition BOUNDED_VERBS : list string := ["foreach"; "retry"; "wait"].
Definition BOUND_KEYS : list string := ["limit"; "max"; "cap"; "count"; "window"].
Definition WRITING_METHODS : list string := ["POST"; "PUT"; "DELETE"; "PATCH"].
Definition INTRUSIVE_MARKERS : list string := ["credential"; "upload"; "time_based"; "timing"].

(** [action.rsplit(".", 1)[-1].lower()] *)
Definition verb (action : string) : string :=
  let '(_, _, r) := PyStr.rpartition "." action in PyStr.lower r.

Definition get (k : string) (p : list (string * json)) : json := default JNull (field k p).
Definition truthy_at (p : list (string * json)) (k : string) : bool := truthy_json (get k p).
(** [v is True] *)
Definition is_true (v : json) : bool := match v with JBool b => b | _ => false end.
Definition has_bound (p : list (string * json)) : bool := existsb (truthy_at p) BOUND_KEYS.

(** [str(spec.get("method", "")).upper()] *)
Definition method_of (p : list (string * json)) : string :=
  PyStr.upper (PyStr.replace "ſ" "s" (PyStr.replace "ﬅ" "st" (PyStr.replace "ﬆ" "st"
    (py_str (default (JStr "") (field "method" p)))))).

Definition denied (s : CaseStep) : bool :=
  let action := PyStr.lower (cs_action s) in
  let v := verb (cs_action s) in
  PyStr.contains action "shell" || is_true (get "shell" (spec s))
  || bool_decide (v ∈ ["exec"; "eval"; "import"]) || truthy_at (spec s) "dynamic_import"
  || bool_decide (v ∈ BOUNDED_VERBS) && negb (has_bound (spec s))
  || is_true (get "target_out_of_scope" (spec s)).

Definition step_risk (s : CaseStep) : option RiskClass :=
  let v := verb (cs_action s) in
  if denied s then None
  else if PyStr.startswith (PyStr.lower (cs_action s)) "oast" || truthy_at (spec s) "oast" then Some RiskClass.INTRUSIVE
  else if existsb (truthy_at (spec s)) INTRUSIVE_MARKERS then Some RiskClass.INTRUSIVE
  else if bool_decide (v ∈ ["crawl"; "scan"; "foreach"]) || truthy_at (spec s) "crawl" then Some RiskClass.ACTIVE
  else if bool_decide (method_of (spec s) ∈ WRITING_METHODS) then Some RiskClass.ACTIVE
  else Some RiskClass.LOW.

(** [max(risks, key=risk_rank)]: the first of the greatest. *)
Fixpoint max_risk (best : RiskClass) (l : list RiskClass) : RiskClass :=
  match l with
  | [] => best
  | r :: l => max_risk (if risk_rank best <? risk_rank r then r else best) l
  end.

Fixpoint step_risks (l : list CaseStep) : option (list RiskClass) :=
  match l with
  | [] => Some []
  | s :: l => r ← step_risk s; rs ← step_risks l; Some (r :: rs)
  end.

Definition compute_risk (c : CaseDefinition) : option RiskClass :=
  rs ← step_risks (case_steps c);
  match rs with [] => Some RiskClass.LOW | r :: rs => Some (max_risk r rs) end.

Definition validate_declared_risk (c : CaseDefinition) : outcome unit :=
  match compute_risk c with
  | None => Raise (RiskPublishDenied ("case " +:+ case_id c +:+ " uses a deny-listed pattern (Shell / unbounded loop / out-of-scope target) and cannot be published"))
  | Some computed =>
      raise_if (risk_rank (case_risk c) <? risk_rank computed)
        (RiskUndeclared ("case " +:+ case_id c +:+ " declared risk " +:+ value (case_risk c)
           +:+ " is below the computed risk " +:+ value computed))
  end.

(** What the gate requires. *)
Definition risk_ok (c : CaseDefinition) : Prop :=
  Forall (fun s => exists r, step_risk s = Some r /\ risk_rank r <= risk_rank (case_risk c)) (case_steps c)
  /\ (case_steps c = [] -> 1 <= risk_rank (case_risk c)).

Lemma max_risk_spec best l :
  (max_risk best l = best \/ max_risk best l ∈ l) /\ risk_rank best <= risk_rank (max_risk best l)
  /\ Forall (fun r => risk_rank r <= risk_rank (max_risk best l)) l.
Proof.
  revert best. induction l as [|r l IH]; intros best; cbn [max_risk]; [auto with lia|].
  destruct (IH (if risk_rank best <? risk_rank r then r else best)) as (H1 & H2 & H3).
  destruct (Z.ltb_spec (risk_rank best) (risk_rank r)); split_and!; try (constructor; [lia|done]); try lia; set_solver.
Qed.

Lemma step_risks_Some l rs : step_risks l = Some rs <-> Forall2 (fun s r => step_risk s = Some r) l rs.
Proof.
  revert rs. induction l as [|s l IH]; intros rs; cbn [step_risks].
  - split; [intros [= <-]; constructor|]. by inversion 1.
  - split.
    + intros (r & Hr & (rs' & Hrs & [= <-])%bind_Some)%bind_Some. constructor; [done|by apply IH].
    + inversion 1 as [|? r ? rs' Hr Hrs]; subst. apply IH in Hrs. by rewrite Hr, Hrs.
Qed.

Lemma step_risks_None l : step_risks l = None <-> Exists (fun s => step_risk s = None) l.
Proof.
  induction l as [|s l IH]; cbn [step_risks]; [split; [done|by inversion 1]|]. rewrite Exists_cons, <- IH.
  destruct (step_risk s), (step_risks l); naive_solver.
Qed.

(** The computed risk is the greatest of the steps' risks, and there is none
    exactly when some step is deny-listed. *)
Lemma compute_risk_cases c :
  match compute_risk c with
  | None => Exists (fun s => step_risk s = None) (case_steps c)
  | Some r => Forall (fun s => exists q, step_risk s = Some q /\ risk_rank q <= risk_rank r) (case_steps c)
      /\ (case_steps c = [] -> r = RiskClass.LOW)
      /\ (case_steps c <> [] -> exists s, s ∈ case_steps c /\ step_risk s = Some r)
  end.
Proof.
  unfold compute_risk. destruct (step_risks (case_steps c)) as [rs|] eqn:E; cbn [mbind option_bind];
    [|by apply step_risks_None].
  apply step_risks_Some in E. destruct E as [|s q l rs Hs E].
  - split_and!; [constructor|done|done].
  - destruct (max_risk_spec q rs) as (H1 & H2 & H3). split_and!.
    + constructor; [by exists q|]. apply Forall_forall. intros x Hx.
      apply list_elem_of_lookup in Hx as (i & Hi). destruct (Forall2_lookup_l _ _ _ _ _ E Hi) as (y & Hy & Hq).
      exists y. split; [done|]. rewrite Forall_forall in H3. apply H3. by eapply list_elem_of_lookup_2.
    + done.
    + intros _. destruct H1 as [->|H1]; [exists s; by split; [left|]|].
      apply list_elem_of_lookup in H1 as (i & Hi). destruct (Forall2_lookup_r _ _ _ _ _ E Hi) as (y & Hy & Hq).
      exists y. split; [right; by eapply list_elem_of_lookup_2|done].
Qed.

Lemma validate_iff c : validate_declared_risk c = Ret tt <-> risk_ok c.
Proof.
  unfold validate_declared_risk, risk_ok. pose proof (compute_risk_cases c) as H.
  destruct (compute_risk c) as [r|].
  - destruct H as (H1 & H2 & H3). unfold raise_if. destruct (Z.ltb_spec (risk_rank (case_risk c)) (risk_rank r)) as [Hr|Hr].
    + split; [done|]. intros [Ha Hb]. destruct (decide (case_steps c = [])) as [En|En].
      * specialize (H2 En). subst r. specialize (Hb En). cbn in Hr. lia.
      * destruct (H3 En) as (s & Hs & Hq). rewrite Forall_forall in Ha. destruct (Ha s Hs) as (q & Hq' & Hle).
        rewrite Hq in Hq'. injection Hq' as <-. lia.
    + split; [intros _|done]. split.
      * eapply Forall_impl; [exact H1|]. cbn. intros s (q & Hq & Hle). exists q. split; [done|lia].
      * intros En. specialize (H2 En). subst r. exact Hr.
  - split; [done|]. intros [Ha _]. apply Exists_exists in H as (s & Hs & Hn). rewrite Forall_forall in Ha.
    destruct (Ha s Hs) as (q & Hq & _). congruence.
Qed.

End Risk.

(** ** From a parsed YAML mapping to a case *)
Module CaseYaml.

Definition CANARY_PLACEHOLDER : string := "{{canary_token}}".

Definition bad (field what : string) : exn := DomainValidationError ("case field " +:+ field +:+ " must be " +:+ what).

Definition require_mapping (v : json) (field : string) : outcome (list (string * json)) :=
  match v with JObj p => Ret p | _ => Raise (bad field "a mapping") end.

Definition str (v : json) (field : string) : outcome string :=
  match v with
  | JStr s => raise_if (PyStr.is_empty (PyStr.strip s)) (bad field "a non-empty string");; Ret s
  | _ => Raise (bad field "a non-empty string")
  end.

Definition opt_str (v : json) (dflt : string) : string :=
  match v with JStr s => if PyStr.is_empty (PyStr.strip s) then dflt else s | _ => dflt end.

Definition str_tuple (v : json) (field : string) : outcome (list string) :=
  match v with
  | JNull => Ret []
  | JStr s => Ret [s]
  | JArr l => Ret (py_str <$> l)
  | _ => Raise (bad field "a string list")
  end.

(** The error of [_str] is a [ValueError] too, so it is replaced. *)
Definition parse_risk (v : json) : outcome RiskClass :=
  let unknown := DomainValidationError ("unknown case risk: " +:+ py_repr v) in
  match str v "risk" with
  | Ret s => unwrap (of_value s) unknown
  | Raise _ => Raise unknown
  end.

Definition parse_origin (v : json) : outcome CaseOrigin :=
  match v with
  | JNull => Ret CaseOrigin.MANUAL
  | _ => unwrap (of_value (opt_str v (value CaseOrigin.MANUAL)))
           (DomainValidationError ("unknown case origin: " +:+ py_repr v))
  end.

(** The elements of a [Sequence]; a string is one, of its characters. *)
Definition elements_of (v : json) (field : string) : outcome (list json) :=
  match v with
  | JNull => Ret []
  | JArr l => Ret l
  | JStr s => Ret ((fun c => JStr (String c "")) <$> Stdlib.Strings.String.list_ascii_of_string s)
  | _ => Raise (bad field "a list")
  end.

(** [for idx, raw in enumerate(value)] *)
Fixpoint enumerate {A} (f : Z -> json -> outcome A) (i : Z) (l : list json) : outcome (list A) :=
  match l with
  | [] => Ret []
  | v :: l => a ← f i v; r ← enumerate f (i + 1) l; Ret (a :: r)
  end.

Definition at_ (name : string) (i : Z) : string := name +:+ "[" +:+ pretty i +:+ "]".

Definition parse_step (i : Z) (v : json) : outcome CaseStep :=
  m ← require_mapping v (at_ "steps" i);
  let sp := match default (JObj []) (field "spec" m) with JObj p => p | _ => [] end in
  id ← str (Risk.get "id" m) (at_ "steps" i +:+ ".id");
  action ← str (Risk.get "action" m) (at_ "steps" i +:+ ".action");
  Case.check_step (mkCaseStep id action sp).

Definition parse_assertion (i : Z) (v : json) : outcome CaseAssertion :=
  m ← require_mapping v (at_ "assertions" i);
  id ← str (Risk.get "id" m) (at_ "assertions" i +:+ ".id");
  e ← str (Risk.get "expression" m) (at_ "assertions" i +:+ ".expression");
  Case.check_assertion (mkAssertion id e).

Definition parse_steps (v : json) : outcome (list CaseStep) :=
  l ← elements_of v "steps"; enumerate parse_step 0 l.
Definition parse_assertions (v : json) : outcome (list CaseAssertion) :=
  l ← elements_of v "assertions"; enumerate parse_assertion 0 l.

Definition parse_verification (v : json) : outcome (option CaseVerification) :=
  match v with
  | JNull => Ret None
  | _ =>
      m ← require_mapping v "verification";
      n ← match default (JInt 1) (field "reproduce" m) with
          | JInt n => Ret n
          | _ => Raise (DomainValidationError "verification.reproduce must be an integer")
          end;
      method ← str (Risk.get "method" m) "verification.method";
      r ← Case.check_verification (mkCaseVerification method n);
      Ret (Some r)
  end.

Definition case_from_mapping (doc : json) : outcome CaseDefinition :=
  data ← require_mapping doc "case";
  let get k := Risk.get k data in
  let classification := match get "classification" with JObj p => p | _ => [] end in
  let classified k := str_tuple (json_or (Risk.get k classification) (get k)) k in
  id ← str (get "id") "id";
  ver ← str (get "version") "version";
  auth ← str (get "author") "author";
  risk ← parse_risk (get "risk");
  target ← str (get "target_type") "target_type";
  steps ← parse_steps (get "steps");
  pre ← str_tuple (get "preconditions") "preconditions";
  asserts ← parse_assertions (get "assertions");
  evidence ← str_tuple (get "evidence_req") "evidence_req";
  cwe ← classified "cwe";
  cve ← classified "cve";
  owasp ← classified "owasp";
  verif ← parse_verification (get "verification");
  orig ← parse_origin (get "origin");
  Case.check_case (mkCase id ver auth risk target (opt_str (get "schema") "nuclei+secopent/1") steps pre asserts evidence
    cwe cve owasp verif (opt_str (get "signature") "") (opt_str (get "min_engine_version") "1.0.0") orig
    CaseStatus.DRAFT "").

Fixpoint contains_canary (v : json) : bool :=
  match v with
  | JStr s => PyStr.contains s CANARY_PLACEHOLDER
  | JObj p => existsb (fun kv => contains_canary kv.2) p
  | JArr l => existsb contains_canary l
  | _ => false
  end.

Definition uses_canary_token (c : CaseDefinition) : bool :=
  existsb (fun s => contains_canary (JObj (spec s))) (case_steps c).

(** ** What comes out *)

(** Only [DomainValidationError] is raised. *)
Definition validates {A} (P : A -> Prop) (m : outcome A) : Prop :=
  match m with Ret a => P a | Raise e => exists msg, e = DomainValidationError msg end.

Lemma validates_bind {A B} (P : A -> Prop) (Q : B -> Prop) (m : outcome A) (f : A -> outcome B) :
  validates P m -> (forall a, m = Ret a -> P a -> validates Q (f a)) -> validates Q (m ≫= f).
Proof. destruct m as [a|e]; cbn; auto. Qed.

Lemma validates_raise_if b msg : validates (fun _ => b = false) (raise_if b (DomainValidationError msg)).
Proof. destruct b; cbn; eauto. Qed.

Lemma validates_weaken {A} (P Q : A -> Prop) m : validates P m -> (forall a, P a -> Q a) -> validates Q m.
Proof. destruct m; cbn; auto. Qed.

Definition step_ok (s : CaseStep) : Prop := cs_id s <> "" /\ cs_action s <> "".
Definition assertion_ok (a : CaseAssertion) : Prop := as_id a <> "" /\ expression a <> "".
Definition verification_ok (v : CaseVerification) : Prop := cv_method v <> "" /\ 1 <= reproduce v.

(** What the constructors of the records accept. *)
Record case_ok (c : CaseDefinition) : Prop := {
  ok_texts : Forall (fun s => s <> "") [case_id c; version c; author c; target_type c; schema c];
  ok_steps : case_steps c <> [] /\ Forall step_ok (case_steps c);
  ok_assertions : Forall assertion_ok (assertions c);
  ok_verification : forall v, case_verification c = Some v -> verification_ok v
}.

Lemma nonempty_validates s n : validates (fun _ => s <> "") (Case.nonempty s n).
Proof. unfold Case.nonempty, raise_if. destruct (PyStr.is_empty s) eqn:E; cbn; [eauto|]. by apply PyStr.is_empty_false. Qed.

Lemma check_step_validates s : validates (fun s' => s' = s /\ step_ok s) (Case.check_step s).
Proof.
  unfold Case.check_step. eapply validates_bind; [apply nonempty_validates|]. intros [] _ H1.
  eapply validates_bind; [apply nonempty_validates|]. intros [] _ H2. done.
Qed.

Lemma check_assertion_validates a : validates (fun a' => a' = a /\ assertion_ok a) (Case.check_assertion a).
Proof.
  unfold Case.check_assertion. eapply validates_bind; [apply nonempty_validates|]. intros [] _ H1.
  eapply validates_bind; [apply nonempty_validates|]. intros [] _ H2. done.
Qed.

Lemma check_verification_validates v : validates (fun v' => v' = v /\ verification_ok v) (Case.check_verification v).
Proof.
  unfold Case.check_verification. eapply validates_bind; [apply nonempty_validates|]. intros [] _ H1.
  eapply validates_bind; [apply validates_raise_if|]. intros [] _ H2%Z.ltb_ge. done.
Qed.

Lemma require_mapping_validates v f : validates (fun p => v = JObj p) (require_mapping v f).
Proof. destruct v; cbn; unfold bad; eauto. Qed.

Lemma str_validates v f : validates (fun s => v = JStr s /\ s <> "") (str v f).
Proof.
  destruct v; cbn; unfold bad; eauto. unfold raise_if. destruct (PyStr.is_empty (PyStr.strip s)) eqn:E; cbn; [eauto|].
  split; [done|]. intros ->. discriminate.
Qed.

Lemma str_tuple_validates v f : validates (fun _ => True) (str_tuple v f).
Proof. destruct v; cbn; unfold bad; eauto. Qed.

Lemma enumerate_validates {A} (P : A -> Prop) f i l :
  (forall i v, validates P (f i v)) -> validates (Forall P) (enumerate f i l).
Proof.
  intros Hf. revert i. induction l as [|v l IH]; intros i; cbn [enumerate]; [constructor|].
  eapply validates_bind; [apply Hf|]. intros a _ Ha. eapply validates_bind; [apply IH|]. intros r _ Hr. by constructor.
Qed.

Lemma elements_of_validates v f : validates (fun _ => True) (elements_of v f).
Proof. destruct v; cbn; unfold bad; eauto. Qed.

Lemma parse_step_validates i v : validates step_ok (parse_step i v).
Proof.
  unfold parse_step. eapply validates_bind; [apply require_mapping_validates|]. intros m _ _. cbn zeta.
  eapply validates_bind; [apply str_validates|]. intros id _ _.
  eapply validates_bind; [apply str_validates|]. intros ac _ _.
  eapply validates_weaken; [apply check_step_validates|]. by intros ? [-> ?].
Qed.

Lemma parse_assertion_validates i v : validates assertion_ok (parse_assertion i v).
Proof.
  unfold parse_assertion. eapply validates_bind; [apply require_mapping_validates|]. intros m _ _.
  eapply validates_bind; [apply str_validates|]. intros id _ _.
  eapply validates_bind; [apply str_validates|]. intros ac _ _.
  eapply validates_weaken; [apply check_assertion_validates|]. by intros ? [-> ?].
Qed.

Lemma parse_verification_validates v :
  validates (fun o => forall x, o = Some x -> verification_ok x) (parse_verification v).
Proof.
  unfold parse_verification. destruct v; try (eapply validates_bind; [apply require_mapping_validates|]; intros ? _ _);
    try done;
    (eapply (validates_bind (fun _ => True)); [repeat case_match; cbn; eauto|]; intros n _ _;
     eapply validates_bind; [apply str_validates|]; intros me _ _;
     eapply validates_bind; [apply check_verification_validates|]; intros r _ [Hr ?]; intros x [= <-]; by rewrite Hr).
Qed.

Lemma parse_risk_validates v : validates (fun _ => True) (parse_risk v).
Proof. unfold parse_risk. destruct (str v "risk") as [s|e]; [destruct (of_value s)|]; cbn; first [done|by eexists]. Qed.

Lemma parse_origin_validates v : validates (fun _ => True) (parse_origin v).
Proof.
  unfold parse_origin. generalize (opt_str v (value CaseOrigin.MANUAL)) as s. intros s.
  destruct v; try done; destruct (of_value s); cbn; first [done|by eexists].
Qed.

Lemma parse_steps_validates v : validates (Forall step_ok) (parse_steps v).
Proof.
  unfold parse_steps. eapply validates_bind; [apply elements_of_validates|]. intros l _ _.
  apply enumerate_validates, parse_step_validates.
Qed.

Lemma parse_assertions_validates v : validates (Forall assertion_ok) (parse_assertions v).
Proof.
  unfold parse_assertions. eapply validates_bind; [apply elements_of_validates|]. intros l _ _.
  apply enumerate_validates, parse_assertion_validates.
Qed.

Lemma check_case_validates c :
  validates (fun c' => c' = c /\ Forall (fun s => s <> "") [case_id c; version c; author c; target_type c; schema c]
                       /\ case_steps c <> []) (Case.check_case c).
Proof.
  unfold Case.check_case. do 5 (eapply validates_bind; [apply nonempty_validates|]; intros [] _ ?).
  eapply validates_bind; [apply validates_raise_if|]. intros [] _ Hs%bool_decide_eq_false. cbn. split; [done|].
  split; [|done]. by repeat constructor.
Qed.

Ltac validate_fields :=
  repeat (eapply validates_bind;
          [first [ apply str_validates | apply parse_risk_validates | apply parse_steps_validates | apply str_tuple_validates
                 | apply parse_assertions_validates | apply parse_verification_validates | apply parse_origin_validates ]
          | intros ? _ ? ]).

(** Parsing a case document answers a draft or a [DomainValidationError], and
    nothing else. Whatever the document says, the case is a DRAFT without YAML
    text, so no import can arrive reviewed, signed or published; and it meets
    every check of the case records. *)
Theorem parsed_case_is_a_draft doc :
  match case_from_mapping doc with
  | Ret c => case_status c = CaseStatus.DRAFT /\ yaml c = "" /\ case_ok c
  | Raise e => exists msg, e = DomainValidationError msg
  end.
Proof.
  change (validates (fun c => case_status c = CaseStatus.DRAFT /\ yaml c = "" /\ case_ok c) (case_from_mapping doc)).
  unfold case_from_mapping. eapply validates_bind; [apply require_mapping_validates|]. intros data _ _. cbn zeta.
  validate_fields. eapply validates_weaken; [apply check_case_validates|].
  intros c (-> & Htexts & Hne). cbn in *. by split_and!.
Qed.

(** *** Nothing is lost: a reference printer *)

(** The document of a case, in the shape the parser reads. *)
Definition step_doc (s : CaseStep) : json :=
  JObj [("id", JStr (cs_id s)); ("action", JStr (cs_action s)); ("spec", JObj (spec s))].
Definition assertion_doc (a : CaseAssertion) : json :=
  JObj [("id", JStr (as_id a)); ("expression", JStr (expression a))].
Definition verification_doc (v : CaseVerification) : json :=
  JObj [("method", JStr (cv_method v)); ("reproduce", JInt (reproduce v))].
Definition fields_of (c : CaseDefinition) : list (string * json) :=
  [("id", JStr (case_id c)); ("version", JStr (version c)); ("author", JStr (author c));
   ("risk", Canonical.jenum (case_risk c)); ("target_type", JStr (target_type c)); ("schema", JStr (schema c));
   ("steps", JArr (step_doc <$> case_steps c)); ("preconditions", Canonical.jstrs (preconditions c));
   ("assertions", JArr (assertion_doc <$> assertions c)); ("evidence_req", Canonical.jstrs (evidence_req c));
   ("classification", JObj [("cwe", Canonical.jstrs (case_cwe c)); ("cve", Canonical.jstrs (case_cve c));
                            ("owasp", Canonical.jstrs (case_owasp c))]);
   ("verification", Canonical.jopt verification_doc (case_verification c));
   ("signature", JStr (case_signature c)); ("min_engine_version", JStr (min_engine_version c));
   ("origin", Canonical.jenum (origin c))].

(** Text that is not blank. *)
Definition inked (s : string) : bool := negb (PyStr.is_empty (PyStr.strip s)).

(** The drafts a document can say: no blank text where the parser refuses or
    replaces one. *)
Record expressible (c : CaseDefinition) : Prop := {
  ex_texts : forallb inked [case_id c; version c; author c; target_type c; schema c; min_engine_version c] = true;
  ex_signature : case_signature c = "" \/ inked (case_signature c) = true;
  ex_steps : case_steps c <> [] /\ Forall (fun s => inked (cs_id s) = true /\ inked (cs_action s) = true) (case_steps c);
  ex_assertions : Forall (fun a => inked (as_id a) = true /\ inked (expression a) = true) (assertions c);
  ex_verification : forall v, case_verification c = Some v -> inked (cv_method v) = true /\ 1 <= reproduce v;
  ex_draft : case_status c = CaseStatus.DRAFT /\ yaml c = ""
}.

Lemma inked_nonempty s : inked s = true -> s <> "".
Proof. by intros H ->. Qed.

Lemma str_inked s f : inked s = true -> str (JStr s) f = Ret s.
Proof. unfold inked, str. intros H%negb_true_iff. by rewrite H. Qed.

Lemma opt_str_inked s d : inked s = true -> opt_str (JStr s) d = s.
Proof. unfold inked, opt_str. intros H%negb_true_iff. by rewrite H. Qed.

Lemma nonempty_inked s n : inked s = true -> Case.nonempty s n = Ret tt.
Proof. intros H. apply Case.nonempty_Ret. by apply inked_nonempty. Qed.

Lemma str_tuple_jstrs l f : str_tuple (Canonical.jstrs l) f = Ret l.
Proof.
  unfold str_tuple, Canonical.jstrs. f_equal. rewrite <- list_fmap_compose.
  induction l as [|s l IH]; [done|]. cbn. by rewrite IH.
Qed.

Lemma str_tuple_classified l f : str_tuple (json_or (Canonical.jstrs l) JNull) f = Ret l.
Proof. destruct l as [|s l]; [done|]. apply (str_tuple_jstrs (s :: l)). Qed.

Lemma enumerate_docs {A} (f : Z -> json -> outcome A) (doc : A -> json) (P : A -> Prop) l :
  (forall i a, P a -> f i (doc a) = Ret a) -> Forall P l -> forall i, enumerate f i (doc <$> l) = Ret l.
Proof.
  intros Hf. induction 1 as [|a l Ha _ IH]; intros i; [done|]. cbn [fmap list_fmap enumerate]. rewrite Hf by done.
  cbn [mbind outcome_bind]. by rewrite IH.
Qed.

Lemma parse_step_doc i s : inked (cs_id s) = true /\ inked (cs_action s) = true -> parse_step i (step_doc s) = Ret s.
Proof.
  intros [H1 H2]. destruct s as [id ac sp]. cbn in H1, H2.
  unfold parse_step, step_doc. cbn [require_mapping mbind outcome_bind]. cbn zeta.
  change (Risk.get "id" _) with (JStr id). change (Risk.get "action" _) with (JStr ac).
  rewrite !str_inked by done. cbn [mbind outcome_bind]. unfold Case.check_step. cbn [cs_id cs_action].
  by rewrite !nonempty_inked.
Qed.

Lemma parse_assertion_doc i a : inked (as_id a) = true /\ inked (expression a) = true ->
  parse_assertion i (assertion_doc a) = Ret a.
Proof.
  intros [H1 H2]. destruct a as [id ex]. cbn in H1, H2.
  unfold parse_assertion, assertion_doc. cbn [require_mapping mbind outcome_bind].
  change (Risk.get "id" _) with (JStr id). change (Risk.get "expression" _) with (JStr ex).
  rewrite !str_inked by done. cbn [mbind outcome_bind]. unfold Case.check_assertion. cbn [as_id expression].
  by rewrite !nonempty_inked.
Qed.

Lemma parse_verification_doc o :
  (forall v, o = Some v -> inked (cv_method v) = true /\ 1 <= reproduce v) ->
  parse_verification (Canonical.jopt verification_doc o) = Ret o.
Proof.
  destruct o as [[me n]|]; [|done]. intros H. destruct (H _ eq_refl) as [H1 H2]. cbn in H1, H2.
  cbn [Canonical.jopt]. unfold parse_verification, verification_doc. cbn [require_mapping mbind outcome_bind].
  change (field "reproduce" _) with (Some (JInt n)). change (Risk.get "method" _) with (JStr me).
  cbn [default id mbind outcome_bind]. rewrite str_inked by done. cbn [mbind outcome_bind].
  unfold Case.check_verification. cbn [cv_method reproduce]. rewrite nonempty_inked by done.
  cbn [mbind outcome_bind]. by destruct (Z.ltb_spec n 1); [lia|].
Qed.

Lemma parse_risk_jenum r : parse_risk (Canonical.jenum r) = Ret r.
Proof. by destruct r. Qed.
Lemma parse_origin_jenum o : parse_origin (Canonical.jenum o) = Ret o.
Proof. by destruct o. Qed.

Lemma check_case_Ret c :
  Forall (fun s => inked s = true) [case_id c; version c; author c; target_type c; schema c] -> case_steps c <> [] ->
  Case.check_case c = Ret c.
Proof.
  intros H Hs. unfold Case.check_case. rewrite !Forall_cons in H. destruct H as (? & ? & ? & ? & ? & _).
  rewrite !nonempty_inked by done. cbn [mbind outcome_bind]. by rewrite bool_decide_false.
Qed.

(** C26: A case that a document can express comes back from its document unchanged:
    the parser loses no step, no spec, no assertion and no classification, and
    keeps their order. *)
Theorem document_round_trip c : expressible c -> case_from_mapping (JObj (fields_of c)) = Ret c.
Proof.
  intros [Ht Hsig [Hne Hs] Ha Hv [Hst Hy]]. cbn [forallb] in Ht. breflect.
  unfold case_from_mapping. cbn [require_mapping mbind outcome_bind]. cbn zeta.
  destruct c as [id ver au risk tt sc st pre ass ev cwe cve ow vf sig eng org stat y].
  cbn [case_id version author target_type schema min_engine_version case_signature case_steps assertions
    case_verification case_status yaml] in *. subst stat y.
  unfold fields_of. cbn [case_id version author target_type schema min_engine_version case_signature case_steps assertions
    case_verification case_status yaml case_risk preconditions evidence_req case_cwe case_cve case_owasp origin].
  match goal with |- context [Risk.get "id" ?d] => set (data := d) end.
  change (Risk.get "id" data) with (JStr id). change (Risk.get "version" data) with (JStr ver).
  change (Risk.get "author" data) with (JStr au). change (Risk.get "risk" data) with (Canonical.jenum risk).
  change (Risk.get "target_type" data) with (JStr tt). change (Risk.get "schema" data) with (JStr sc).
  change (Risk.get "steps" data) with (JArr (step_doc <$> st)).
  change (Risk.get "preconditions" data) with (Canonical.jstrs pre).
  change (Risk.get "assertions" data) with (JArr (assertion_doc <$> ass)).
  change (Risk.get "evidence_req" data) with (Canonical.jstrs ev).
  change (Risk.get "verification" data) with (Canonical.jopt verification_doc vf).
  change (Risk.get "signature" data) with (JStr sig). change (Risk.get "min_engine_version" data) with (JStr eng).
  change (Risk.get "origin" data) with (Canonical.jenum org).
  change (Risk.get "cwe" data) with JNull. change (Risk.get "cve" data) with JNull. change (Risk.get "owasp" data) with JNull.
  change (Risk.get "classification" data) with
    (JObj [("cwe", Canonical.jstrs cwe); ("cve", Canonical.jstrs cve); ("owasp", Canonical.jstrs ow)]). cbn match.
  change (Risk.get "cwe" _) with (Canonical.jstrs cwe). change (Risk.get "cve" _) with (Canonical.jstrs cve).
  change (Risk.get "owasp" _) with (Canonical.jstrs ow).
  rewrite !str_inked, parse_risk_jenum by done. cbn [mbind outcome_bind].
  unfold parse_steps, parse_assertions. cbn [elements_of mbind outcome_bind].
  rewrite (enumerate_docs _ _ _ _ parse_step_doc Hs), (enumerate_docs _ _ _ _ parse_assertion_doc Ha).
  rewrite !str_tuple_jstrs, !str_tuple_classified. cbn [mbind outcome_bind].
  rewrite parse_verification_doc by done. cbn [mbind outcome_bind]. rewrite parse_origin_jenum. cbn [mbind outcome_bind].
  rewrite (opt_str_inked sc), (opt_str_inked eng) by done.
  replace (opt_str (JStr sig) "") with sig by (destruct Hsig as [->|?]; [done|by rewrite opt_str_inked]).
  apply check_case_Ret; [by repeat constructor|done].
Qed.

Definition demo_case : CaseDefinition :=
  mkCase "xss-1" "1" "ana" RiskClass.ACTIVE "web" "nuclei+secopent/1"
    [mkCaseStep "s1" "http.request" [("method", JStr "POST"); ("body", JStr "q={{canary_token}}")]] ["logged in"]
    [mkAssertion "a1" "status == 200"] [] ["CWE-79"] [] ["A03"] (Some (mkCaseVerification "xss" 3)) "" "1.0.0"
    CaseOrigin.MANUAL CaseStatus.DRAFT "".

Lemma document_round_trip_witness :
  case_from_mapping (JObj (fields_of demo_case)) = Ret demo_case /\ uses_canary_token demo_case = true.
Proof.
  split; [|vm_compute; reflexivity]. apply document_round_trip. split.
  - vm_compute. reflexivity.
  - left. reflexivity.
  - split; [discriminate|]. repeat constructor; vm_compute; reflexivity.
  - repeat constructor; vm_compute; reflexivity.
  - intros v [= <-]. split; [vm_compute; reflexivity|]. cbn. lia.
  - split; reflexivity.
Defined.

End CaseYaml.

(** ** Lifecycle *)
Module CaseService.

(** [InMemoryCaseRegistry]; the database registry has the same interface. *)
Notation Registry := (gmap string CaseDefinition).

Definition TRANSITIONS (s : CaseStatus) : list CaseStatus :=
  match s with
  | CaseStatus.DRAFT => [CaseStatus.VALIDATED]
  | CaseStatus.VALIDATED => [CaseStatus.REVIEWED]
  | CaseStatus.REVIEWED => [CaseStatus.SIGNED]
  | CaseStatus.SIGNED => [CaseStatus.PUBLISHED]
  | _ => []
  end.

Definition signing_payload (c : CaseDefinition) : string :=
  PyStr.join "|" [case_id c; version c; value (case_risk c); target_type c; schema c].

Definition put (c : CaseDefinition) : M Registry unit := modify (<[case_id c := c]>).

Definition get (id : string) : M Registry CaseDefinition :=
  o ← gets (lookup id); lift (unwrap o (CaseNotFoundError ("case not found: " +:+ id))).

Definition list_all (r : Registry) : list CaseDefinition :=
  omap (fun k => r !! k) (PyStr.sorted (elements (dom r))).

Definition require_human (actor_role : string) : outcome unit :=
  raise_if (bool_decide (actor_role = "agent"))
    (CasePermissionError "agents cannot review, sign, or publish cases (human-only action)");;
  raise_if (negb (bool_decide (actor_role = "human")))
    (CasePermissionError ("unknown actor role: " +:+ PyStr.repr actor_role)).

Definition check_transition (c : CaseDefinition) (to : CaseStatus) : outcome unit :=
  raise_if (negb (bool_decide (to ∈ TRANSITIONS (case_status c))))
    (CaseTransitionError ("case " +:+ case_id c +:+ ": cannot transition " +:+ value (case_status c) +:+ " -> " +:+ value to)).

(** [replace] runs the checks of the record again. *)
Definition transition (c : CaseDefinition) (to : CaseStatus) : M Registry CaseDefinition :=
  lift (check_transition c to);;
  updated ← lift (Case.check_case (with_status to c));
  put updated;;
  mret updated.

Definition create_draft (c : CaseDefinition) : M Registry CaseDefinition :=
  draft ← lift (Case.check_case (with_status CaseStatus.DRAFT c));
  put draft;;
  mret draft.

Definition validate (id : string) : M Registry CaseDefinition :=
  c ← get id;
  lift (Risk.validate_declared_risk c);;
  transition c CaseStatus.VALIDATED.

Definition review (id actor_role : string) : M Registry CaseDefinition :=
  lift (require_human actor_role);;
  c ← get id;
  transition c CaseStatus.REVIEWED.

Definition sign (id : string) (signer : string -> string) (actor_role : string) : M Registry CaseDefinition :=
  lift (require_human actor_role);;
  c ← get id;
  lift (check_transition c CaseStatus.SIGNED);;
  signed ← lift (Case.check_case (with_signature (signer (signing_payload c)) (with_status CaseStatus.SIGNED c)));
  put signed;;
  mret signed.

Definition publish (id actor_role : string) : M Registry CaseDefinition :=
  lift (require_human actor_role);;
  c ← get id;
  transition c CaseStatus.PUBLISHED.

Definition fast_track_model_generated (id : string) : M Registry CaseDefinition :=
  c ← get id;
  lift (raise_if (negb (bool_decide (origin c = CaseOrigin.MODEL_GENERATED)))
    (CaseNotModelGeneratedError ("case " +:+ id +:+ " is not model-generated (origin=" +:+ value (origin c) +:+ ")")));;
  lift (Risk.validate_declared_risk c);;
  validated ← transition c CaseStatus.VALIDATED;
  if bool_decide (case_risk c ∈ [RiskClass.PASSIVE; RiskClass.LOW])
  then transition validated CaseStatus.REVIEWED else mret validated.

(** ** Calls, by anyone in any order *)
Inductive op : Type :=
| Draft (c : CaseDefinition)
| Validate (id : string)
| Review (id role : string)
| Sign (id : string) (signer : string -> string) (role : string)
| Publish (id role : string)
| FastTrack (id : string).

Definition call (o : op) : M Registry CaseDefinition :=
  match o with
  | Draft c => create_draft c
  | Validate id => validate id
  | Review id role => review id role
  | Sign id signer role => sign id signer role
  | Publish id role => publish id role
  | FastTrack id => fast_track_model_generated id
  end.

Definition run_all (ops : list op) (r : Registry) : Registry := foldl (fun r o => (call o r).2) r ops.

(** The content of a case: all but its status and signature. *)
Definition content (c : CaseDefinition) : CaseDefinition := with_signature "" (with_status CaseStatus.DRAFT c).

(** *** The accessors through [replace] *)
Lemma with_status_fields s c :
  case_id (with_status s c) = case_id c /\ case_status (with_status s c) = s
  /\ case_signature (with_status s c) = case_signature c /\ case_risk (with_status s c) = case_risk c
  /\ origin (with_status s c) = origin c /\ case_steps (with_status s c) = case_steps c
  /\ signing_payload (with_status s c) = signing_payload c /\ content (with_status s c) = content c.
Proof. by destruct c. Qed.

Lemma with_signature_fields g c :
  case_id (with_signature g c) = case_id c /\ case_status (with_signature g c) = case_status c
  /\ case_signature (with_signature g c) = g /\ case_risk (with_signature g c) = case_risk c
  /\ origin (with_signature g c) = origin c /\ case_steps (with_signature g c) = case_steps c
  /\ signing_payload (with_signature g c) = signing_payload c /\ content (with_signature g c) = content c.
Proof. by destruct c. Qed.

Lemma check_case_id c c' : Case.check_case c = Ret c' -> c' = c.
Proof. unfold Case.check_case. intros H. by inv_ret. Qed.

Lemma human_only_Ret role u : require_human role = Ret u -> role = "human".
Proof. unfold require_human. intros H. inv_ret. breflect. congruence. Qed.

Lemma risk_ok_ext c c' : case_steps c = case_steps c' -> case_risk c = case_risk c' -> Risk.risk_ok c -> Risk.risk_ok c'.
Proof. unfold Risk.risk_ok. by intros -> ->. Qed.

Lemma get_cases id r :
  (exists e, get id r = (Raise e, r)) \/ (exists c, get id r = (Ret c, r) /\ r !! id = Some c).
Proof. unfold get, lift, gets, mbind, M_bind. destruct (r !! id) as [c|]; cbn; [right|left]; eauto. Qed.

Lemma check_case_status c s : Case.check_case (with_status s c) = with_status s <$> Case.check_case c.
Proof.
  destruct c. unfold Case.check_case. cbn [with_status case_id version author target_type schema case_steps].
  repeat match goal with |- context [Case.nonempty ?a ?b] => destruct (Case.nonempty a b) end; by destruct (raise_if _ _).
Qed.

Lemma transition_cases c to r :
  (exists e, transition c to r = (Raise e, r) /\ (to ∉ TRANSITIONS (case_status c) \/ is_Ret (Case.check_case c) = false))
  \/ (to ∈ TRANSITIONS (case_status c) /\ Case.check_case c = Ret c
      /\ transition c to r = (Ret (with_status to c), <[case_id c := with_status to c]> r)).
Proof.
  unfold transition, lift, put, modify, mbind, M_bind, check_transition, raise_if. case_bool_decide as H; cbn; [|left; eauto].
  rewrite check_case_status. destruct (Case.check_case c) as [c'|e] eqn:E; cbn; [|left; eauto].
  pose proof (check_case_id _ _ E) as ->. right. split; [done|]. by rewrite (proj1 (with_status_fields to c)).
Qed.

(** The move of case [c] to status [s] with signature [g] by the call [o]. *)
Definition move (o : op) (c : CaseDefinition) (s : CaseStatus) (g : string) : Prop :=
  match o with
  | Draft _ => False
  | Validate _ => case_status c = CaseStatus.DRAFT /\ s = CaseStatus.VALIDATED /\ Risk.risk_ok c /\ g = case_signature c
  | Review _ role => role = "human" /\ case_status c = CaseStatus.VALIDATED /\ s = CaseStatus.REVIEWED /\ g = case_signature c
  | Sign _ signer role => role = "human" /\ case_status c = CaseStatus.REVIEWED /\ s = CaseStatus.SIGNED
      /\ g = signer (signing_payload c)
  | Publish _ role => role = "human" /\ case_status c = CaseStatus.SIGNED /\ s = CaseStatus.PUBLISHED /\ g = case_signature c
  | FastTrack _ => case_status c = CaseStatus.DRAFT /\ Risk.risk_ok c /\ origin c = CaseOrigin.MODEL_GENERATED
      /\ g = case_signature c
      /\ (s = CaseStatus.VALIDATED \/ s = CaseStatus.REVIEWED /\ case_risk c ∈ [RiskClass.PASSIVE; RiskClass.LOW])
  end.

Definition subject (o : op) : string :=
  match o with
  | Draft c => case_id c
  | Validate id | Review id _ | Sign id _ _ | Publish id _ | FastTrack id => id
  end.

Lemma from_status to s from : to ∈ TRANSITIONS s -> TRANSITIONS from = [to] -> s = from.
Proof. destruct s, from; cbn; intros H E; try discriminate E; injection E as <-; set_solver. Qed.

Lemma same_signature c s : with_signature (case_signature c) (with_status s c) = with_status s c.
Proof. by destruct c. Qed.

Lemma lift_cases {A B} (m : outcome A) (k : A -> M Registry B) r :
  (exists e, (lift m ≫= k) r = (Raise e, r)) \/ (exists a, m = Ret a /\ (lift m ≫= k) r = k a r).
Proof. unfold lift, mbind, M_bind. destruct m; eauto. Qed.

Lemma bind_get {B} id (k : CaseDefinition -> M Registry B) r :
  (exists e, (get id ≫= k) r = (Raise e, r)) \/ (exists c, r !! id = Some c /\ (get id ≫= k) r = k c r).
Proof. unfold mbind, M_bind. destruct (get_cases id r) as [(e & ->)|(c & -> & ?)]; eauto. Qed.

Ltac unlift x H :=
  match goal with |- context [(lift ?m ≫= ?k) ?r] => destruct (lift_cases m k r) as [?|(x & H & ->)]; [by left|] end.
Ltac unget c H :=
  match goal with |- context [(get ?id ≫= ?k) ?r] => destruct (bind_get id k r) as [?|(c & H & ->)]; [by left|] end.

(** The call [o] moves one stored case. *)
Definition moves (o : op) (r : Registry) : Prop :=
  exists c s g d, r !! subject o = Some c /\ move o c s g
    /\ call o r = (Ret d, <[case_id c := with_signature g (with_status s c)]> r).

Lemma transition_moves o c to from r :
  r !! subject o = Some c -> call o r = transition c to r -> TRANSITIONS from = [to] ->
  (case_status c = from -> move o c to (case_signature c)) ->
  (exists e, transition c to r = (Raise e, r)) \/ moves o r.
Proof.
  intros Hc Hcall Hf Hm. destruct (transition_cases c to r) as [(e & ? & _)|(Ht & _ & He)]; [left; by exists e|right].
  exists c, to, (case_signature c), (with_status to c). rewrite same_signature, Hcall, He.
  split_and!; [done| |done]. apply Hm. by apply (from_status _ _ from Ht).
Qed.

Lemma fast_track_cases id r :
  (exists e, fast_track_model_generated id r = (Raise e, r)) \/ moves (FastTrack id) r.
Proof.
  unfold moves. cbn [call subject]. unfold fast_track_model_generated. unget c Hc. unlift u Ho. unlift u' Hv.
  destruct u, u'. apply Risk.validate_iff in Hv. apply raise_if_Ret in Ho. breflect. unfold mbind, M_bind.
  destruct (transition_cases c CaseStatus.VALIDATED r) as [(e & -> & _)|(Ht & Hck & ->)]; [left; by exists e|right].
  pose proof (from_status _ _ CaseStatus.DRAFT Ht eq_refl) as Hs.
  destruct (with_status_fields CaseStatus.VALIDATED c) as (Hid & Hst & _). case_bool_decide as Hk.
  - destruct (transition_cases (with_status CaseStatus.VALIDATED c) CaseStatus.REVIEWED
      (<[case_id c:=with_status CaseStatus.VALIDATED c]> r)) as [(e & _ & [H|H])|(_ & _ & ->)].
    + rewrite Hst in H. set_solver.
    + by rewrite check_case_status, Hck in H.
    + exists c, CaseStatus.REVIEWED, (case_signature c), (with_status CaseStatus.REVIEWED c).
      rewrite Hid, insert_insert_eq. split; [done|]. cbn [move]. split; [by split_and!; eauto|]. by destruct c.
  - exists c, CaseStatus.VALIDATED, (case_signature c), (with_status CaseStatus.VALIDATED c). rewrite same_signature.
    split; [done|]. cbn [move]. split; [by split_and!; eauto|done].
Qed.

Lemma sign_cases id signer role r :
  (exists e, sign id signer role r = (Raise e, r)) \/ moves (Sign id signer role) r.
Proof.
  unfold moves. cbn [call subject]. unfold sign. unlift u Hr. unget c Hc. unlift u' Ht. unlift d Hd. right.
  apply human_only_Ret in Hr. apply check_case_id in Hd. apply raise_if_Ret in Ht. breflect.
  exists c, CaseStatus.SIGNED, (signer (signing_payload c)), d. cbn [move]. split_and!; try done.
  - by apply (from_status _ _ CaseStatus.REVIEWED Ht).
  - subst d. by destruct c.
Qed.

(** A call either raises and leaves the registry as it was, or stores one
    case: a new draft, or one case moved. *)
Lemma call_cases o r :
  (exists e, call o r = (Raise e, r))
  \/ (exists c d, o = Draft c /\ call o r = (Ret d, <[case_id c := with_status CaseStatus.DRAFT c]> r))
  \/ moves o r.
Proof.
  assert (forall P Q R : Prop, P \/ R -> P \/ Q \/ R) as Hor by tauto.
  destruct o as [c|id|id role|id signer role|id role|id]; [|apply Hor..]; cbn [call].
  - unfold create_draft. unlift d Hd. apply check_case_id in Hd. right; left. exists c, d. split; [done|].
    subst d. by destruct c.
  - unfold validate. destruct (bind_get id (fun c => lift (Risk.validate_declared_risk c);; transition c CaseStatus.VALIDATED) r)
      as [?|(c & Hc & E)]; [by left|]. rewrite E. unlift u Hv. destruct u. apply Risk.validate_iff in Hv.
    apply (transition_moves _ c _ CaseStatus.DRAFT); [done| |done|done].
    cbn [call]. unfold validate. rewrite E. unfold lift, mbind, M_bind. by rewrite (proj2 (Risk.validate_iff c) Hv).
  - unfold review. unlift u Hr. apply human_only_Ret in Hr as ->. unget c Hc.
    apply (transition_moves _ c _ CaseStatus.VALIDATED); [done| |done|done].
    cbn [call]. unfold review, mbind, M_bind, lift. cbn. unfold get, lift, gets, mbind, M_bind. by rewrite Hc.
  - apply sign_cases.
  - unfold publish. unlift u Hr. apply human_only_Ret in Hr as ->. unget c Hc.
    apply (transition_moves _ c _ CaseStatus.SIGNED); [done| |done|done].
    cbn [call]. unfold publish, mbind, M_bind, lift. cbn. unfold get, lift, gets, mbind, M_bind. by rewrite Hc.
  - apply fast_track_cases.
Qed.

Lemma draft_accepted d r e : call (Draft d) r = (Raise e, r) -> is_Ret (Case.check_case d) = true -> False.
Proof.
  cbn [call]. unfold create_draft, lift, mbind, M_bind. rewrite check_case_status.
  by destruct (Case.check_case d).
Qed.

(** ** What stands behind a case's status *)
Definition reviewed (post : list op) (id : string) (c : CaseDefinition) : Prop :=
  Review id "human" ∈ post
  \/ (origin c = CaseOrigin.MODEL_GENERATED /\ case_risk c ∈ [RiskClass.PASSIVE; RiskClass.LOW]).
Definition signed (post : list op) (id : string) (c : CaseDefinition) : Prop :=
  exists signer, Sign id signer "human" ∈ post /\ case_signature c = signer (signing_payload c).
Definition milestones (post : list op) (id : string) (c : CaseDefinition) : Prop :=
  match case_status c with
  | CaseStatus.DRAFT => True
  | CaseStatus.VALIDATED => Risk.risk_ok c
  | CaseStatus.REVIEWED => Risk.risk_ok c /\ reviewed post id c
  | CaseStatus.SIGNED => Risk.risk_ok c /\ reviewed post id c /\ signed post id c
  | CaseStatus.PUBLISHED =>
      Risk.risk_ok c /\ reviewed post id c /\ signed post id c /\ Publish id "human" ∈ post
  | _ => False
  end.

(** [o] stores a new draft under [id]; a record that fails its own checks is
    not one. *)
Definition redrafts (id : string) (o : op) : Prop :=
  exists d, o = Draft d /\ is_Ret (Case.check_case d) = true /\ case_id d = id.

(** The calls after the case was last drafted. *)
Definition vetted (ops : list op) (id : string) (c : CaseDefinition) : Prop :=
  exists pre c0 post, ops = pre ++ Draft c0 :: post /\ case_id c0 = id /\ case_id c = id /\ content c = content c0
    /\ Forall (fun o => ~ redrafts id o) post /\ milestones post id c.

Lemma milestones_snoc post o id c : milestones post id c -> milestones (post ++ [o]) id c.
Proof. unfold milestones, reviewed, signed. destruct (case_status c); set_solver. Qed.

Lemma vetted_snoc ops o id c :
  vetted ops id c -> ~ redrafts id o -> vetted (ops ++ [o]) id c.
Proof.
  intros (pre & c0 & post & -> & H1 & H2 & H3 & H4 & H5) Ho. exists pre, c0, (post ++ [o]).
  rewrite <- app_assoc. split_and!; try done; [|by apply milestones_snoc]. apply Forall_app. split; [done|by constructor].
Qed.

Lemma milestones_move post o c s g :
  move o c s g -> milestones post (subject o) c ->
  milestones (post ++ [o]) (subject o) (with_signature g (with_status s c)).
Proof.
  intros Hm H. set (c' := with_signature g (with_status s c)).
  assert (case_status c' = s /\ case_signature c' = g /\ case_risk c' = case_risk c /\ origin c' = origin c
          /\ case_steps c' = case_steps c /\ signing_payload c' = signing_payload c) as (E1 & E2 & E3 & E4 & E5 & E6)
    by (subst c'; by destruct c).
  assert (Risk.risk_ok c -> Risk.risk_ok c') as Hr by (apply risk_ok_ext; congruence).
  unfold milestones, reviewed, signed in *. rewrite E1, E2, E3, E4, E6. clearbody c'.
  destruct o as [d|id|id role|id signer role|id role|id]; cbn [move subject] in *; [done|..].
  - destruct Hm as (_ & -> & ? & _). auto.
  - destruct Hm as (-> & Hs & -> & _). rewrite Hs in H. split; [auto|]. left. set_solver.
  - destruct Hm as (-> & Hs & -> & ->). rewrite Hs in H. destruct H as [H1 H2]. split_and!; [auto| |].
    + destruct H2; [left; set_solver|by right].
    + exists signer. set_solver.
  - destruct Hm as (-> & Hs & -> & ->). rewrite Hs in H. destruct H as (H1 & H2 & (sg & H3 & H4)). split_and!; [auto| | |set_solver].
    + destruct H2; [left; set_solver|by right].
    + exists sg. set_solver.
  - destruct Hm as (_ & Hk & Ho & _ & [->|[-> Hl]]); [auto|]. split; [auto|by right].
Qed.

Lemma vetted_move ops o c s g :
  move o c s g -> vetted ops (subject o) c ->
  vetted (ops ++ [o]) (subject o) (with_signature g (with_status s c)).
Proof.
  intros Hm (pre & c0 & post & -> & H1 & H2 & H3 & H4 & H5). exists pre, c0, (post ++ [o]).
  rewrite <- app_assoc. split_and!; try done.
  - by destruct c.
  - rewrite <- H3. by destruct c.
  - apply Forall_app. split; [done|]. constructor; [|constructor]. by intros (d & -> & _).
  - by apply milestones_move.
Qed.

Lemma vetted_run ops : map_Forall (vetted ops) (run_all ops ∅).
Proof.
  induction ops as [|o ops IH] using rev_ind; [apply map_Forall_empty|].
  unfold run_all. rewrite foldl_snoc. fold (run_all ops ∅). set (r := run_all ops ∅) in *.
  assert (forall id c, r !! id = Some c -> subject o <> id -> vetted (ops ++ [o]) id c) as Hkeep.
  { intros id c Hc Hn. apply vetted_snoc; [by apply IH|]. intros (d & -> & _ & <-). by apply Hn. }
  destruct (call_cases o r) as [(e & E)|[(c & d & -> & ->)|(c & s & g & d & Hc & Hm & ->)]]; [rewrite E|..]; cbn [snd].
  - intros id c Hc. apply vetted_snoc; [by apply IH|]. intros (d & -> & Hk & _). by apply (draft_accepted d r e).
  - intros id c' Hc. apply lookup_insert_Some in Hc as [[<- <-]|[Hn Hc]]; [|by apply Hkeep].
    exists ops, c, []. split_and!; try done; by destruct c.
  - assert (case_id c = subject o) as Hid by (destruct (IH _ _ Hc) as (? & ? & ? & ? & ? & ? & ?); congruence).
    intros id c' Hc'. rewrite Hid in Hc'. apply lookup_insert_Some in Hc' as [[<- <-]|[Hn Hc']]; [|by apply Hkeep].
    apply vetted_move; [done|by apply IH].
Qed.

(** C22: Published cases were vetted. Whatever calls were made, by whomever and in
    whatever order, starting from an empty registry: each stored case has the
    content of the last draft stored under its identifier, and it got past
    DRAFT only with a declared risk no lower than that of any of its steps and
    no deny-listed step; past VALIDATED only by a human review since that
    draft, or being model-generated of passive or low risk; past REVIEWED only
    signed by a human, with the signature of that signer; and is PUBLISHED only
    by a human's call. *)
Theorem published_cases_were_vetted ops : map_Forall (vetted ops) (run_all ops ∅).
Proof. apply vetted_run. Qed.

(** Nobody but a human reviews, signs or publishes, and a refused call leaves
    the registry as it was. *)
Lemma only_humans_advance id signer role r :
  role <> "human" ->
  Forall (fun o => exists msg, call o r = (Raise (CasePermissionError msg), r)) [Review id role; Sign id signer role; Publish id role].
Proof.
  intros Hr. assert (exists msg, require_human role = Raise (CasePermissionError msg)) as (msg & E).
  { unfold require_human, raise_if. rewrite (bool_decide_false (role = "human")) by done. cbn [negb].
    destruct (bool_decide (role = "agent")); by eexists. }
  repeat constructor; exists msg; cbn [call]; unfold review, sign, publish, lift, mbind, M_bind; by rewrite E.
Qed.

Lemma refused_call_changes_nothing o r e r' : call o r = (Raise e, r') -> r' = r.
Proof. destruct (call_cases o r) as [(e' & ->)|[(c & d & -> & ->)|(c & s & g & d & Hc & Hm & ->)]]; congruence. Qed.

(** *** Concrete runs *)
Definition demo_signer (m : string) : string := "sig:" +:+ m.
Definition demo_calls : list op :=
  [Draft CaseYaml.demo_case; Validate "xss-1"; Review "xss-1" "human"; Sign "xss-1" demo_signer "human"; Publish "xss-1" "human"].
Definition demo_model : CaseDefinition :=
  mkCase "model-1" "1" "gen" RiskClass.LOW "web" "s" [mkCaseStep "s1" "http.request" []] [] [] [] [] [] [] None "" "1.0.0"
    CaseOrigin.MODEL_GENERATED CaseStatus.PUBLISHED "".
Definition status_after (ops : list op) (id : string) : option CaseStatus := case_status <$> run_all ops ∅ !! id.

Example demo_lifecycle :
  status_after demo_calls "xss-1" = Some CaseStatus.PUBLISHED
  /\ status_after [Draft CaseYaml.demo_case; Validate "xss-1"; Review "xss-1" "agent"] "xss-1" = Some CaseStatus.VALIDATED
  /\ status_after [Draft demo_model; FastTrack "model-1"] "model-1" = Some CaseStatus.REVIEWED
  /\ status_after (demo_calls ++ [Draft CaseYaml.demo_case]) "xss-1" = Some CaseStatus.DRAFT.
Proof. vm_compute. done. Qed.

(** The signature says nothing of what the case does: the payload that is
    signed holds the identifier, version, risk, target type and schema, so two
    cases with different steps have one signature. *)
Lemma signature_ignores_steps c steps :
  let 'mkCase a b d e f g _ i j k l m n o p q r s y := c in
  signing_payload (mkCase a b d e f g steps i j k l m n o p q r s y) = signing_payload c.
Proof. by destruct c. Qed.

End CaseService.

(** ** Fixtures *)
Record CaseFixture : Type := mkFixture { fx_kind : string; fx_detected : bool }.
Record FixtureResult : Type := mkFixtureResult {
  fx_passed : bool;
  missing_kinds : list string;
  fx_failures : list string
}.

Module FixtureRunner.

Definition REQUIRED_FIXTURE_KINDS : list string := ["positive"; "negative"; "timeout"; "scope_deny"; "malformed"].
Definition INTRUSIVE_EXTRA_KINDS : list string := ["range"; "before_after"; "cleanup"; "max_impact"].
Definition expected_detected (kind : string) : option bool :=
  if bool_decide (kind = "positive") then Some true
  else if bool_decide (kind ∈ ["negative"; "timeout"; "scope_deny"; "malformed"]) then Some false else None.

Definition required_kinds (c : CaseDefinition) : list string :=
  REQUIRED_FIXTURE_KINDS ++ (if bool_decide (case_risk c = RiskClass.INTRUSIVE) then INTRUSIVE_EXTRA_KINDS else []).

Definition show_bool (b : bool) : string := if b then "True" else "False".

Definition failure (f : CaseFixture) : option string :=
  expected ← expected_detected (fx_kind f);
  if Bool.eqb (fx_detected f) expected then None
  else Some (fx_kind f +:+ ": expected detected=" +:+ show_bool expected +:+ ", got detected=" +:+ show_bool (fx_detected f)).

Definition run (c : CaseDefinition) (fixtures : list CaseFixture) : FixtureResult :=
  let missing := PyStr.sorted (filter (fun k => k ∉ fx_kind <$> fixtures) (required_kinds c)) in
  let failures := omap failure fixtures in
  mkFixtureResult (bool_decide (missing = []) && bool_decide (failures = [])) missing failures.

Lemma required_kinds_NoDup c : NoDup (required_kinds c).
Proof. unfold required_kinds. case_bool_decide; apply (bool_decide_unpack _); vm_compute; exact I. Qed.

(** A case passes exactly when every class it requires has a fixture and every
    fixture of the five common classes detected what it should; the classes
    reported missing are exactly the required ones without a fixture, once
    each, and only an intrusive case is asked for the extra four. *)
Theorem fixtures_pass_exactly c fixtures :
  (fx_passed (run c fixtures) = true <->
     (forall k, k ∈ required_kinds c -> exists f, f ∈ fixtures /\ fx_kind f = k)
     /\ forall f b, f ∈ fixtures -> expected_detected (fx_kind f) = Some b -> fx_detected f = b)
  /\ NoDup (missing_kinds (run c fixtures))
  /\ (forall k, k ∈ missing_kinds (run c fixtures) <-> k ∈ required_kinds c /\ k ∉ fx_kind <$> fixtures).
Proof.
  assert (forall k, k ∈ missing_kinds (run c fixtures) <-> k ∈ required_kinds c /\ k ∉ fx_kind <$> fixtures) as Hm.
  { intros k. unfold run. cbn [missing_kinds]. rewrite PyStr.elem_of_sorted, list_elem_of_filter. tauto. }
  split_and!; [|unfold run; cbn [missing_kinds]; rewrite PyStr.sorted_Permutation; apply NoDup_filter, required_kinds_NoDup|exact Hm].
  unfold run at 1. cbn [fx_passed]. rewrite andb_true_iff, !bool_decide_eq_true.
  change (PyStr.sorted _) with (missing_kinds (run c fixtures)). split.
  - intros [H1 H2]. rewrite H1 in Hm. split.
    + intros k Hk. destruct (decide (k ∈ fx_kind <$> fixtures)) as [Hi|Hi].
      * apply list_elem_of_fmap in Hi as (f & -> & Hf). by exists f.
      * exfalso. assert (k ∈ []) by (apply Hm; done). set_solver.
    + intros f b Hf Hb. destruct (Bool.eqb (fx_detected f) b) eqn:E; [by apply Bool.eqb_prop|exfalso].
      assert (is_Some (failure f)) as (s & Hs) by (unfold failure; rewrite Hb; cbn; rewrite E; by eexists).
      assert (s ∈ omap failure fixtures) as Hi by (apply list_elem_of_omap; eauto). rewrite H2 in Hi. set_solver.
  - intros [H1 H2]. split.
    + destruct (missing_kinds (run c fixtures)) as [|k l]; [done|exfalso].
      destruct (proj1 (Hm k)) as [Hk Hn]; [left|]. destruct (H1 k Hk) as (f & Hf & <-). apply Hn. by apply list_elem_of_fmap_2.
    + destruct (omap failure fixtures) as [|s l] eqn:E; [done|exfalso].
      assert (s ∈ omap failure fixtures) as (f & Hf & Hs)%list_elem_of_omap by (rewrite E; left).
      unfold failure in Hs. destruct (expected_detected (fx_kind f)) as [b|] eqn:Eb; [|done].
      rewrite (H2 f b Hf Eb) in Hs. cbn in Hs. by rewrite Bool.eqb_reflx in Hs.
Qed.

End FixtureRunner.
