(* ===== verification/Catalog.v ===== *)
(** * Test catalog, coverage and planner

    Models [src/secopent/domain/catalog/models.py], [coverage.py] and
    [report.py] and [application/coverage.py] (Module [Coverage]), the logic
    test cases of [domain/appmodel/logic.py], and [application/planner.py]
    (Module [Planner]).

    A coverage rate is kept as the pair of its numerator and denominator; the
    code stores the double nearest to the quotient, which is in [0, 1] exactly
    when the quotient is. *)
From S2P Require Import Prelude PyStr PyFloat Sha256 Canonical PyJson Policy Assessments Contracts.

#[local] Open Scope Z_scope.

Module AssetType.
Inductive t : Type := WEB_APP | API | IP_PORT | CLOUD_ACCOUNT | CONTAINER_K8S.
#[export] Instance eq_dec : EqDecision t.
Proof. solve_decision. Defined.
Definition to_string (s : t) : string :=
  match s with
  | WEB_APP => "web_app" | API => "api" | IP_PORT => "ip_port" | CLOUD_ACCOUNT => "cloud_account"
  | CONTAINER_K8S => "container_k8s"
  end.
#[export] Program Instance strenum : StrEnum t :=
  { value := to_string; members := [WEB_APP; API; IP_PORT; CLOUD_ACCOUNT; CONTAINER_K8S] }.
Next Obligation. solve_members. Qed.
Next Obligation. solve_value_inj. Qed.
End AssetType.
Notation AssetType := AssetType.t.

Module LogicTestClass.
Inductive t : Type := SKIP_STEP | OUT_OF_ORDER | REPLAY | BOUNDARY | INVARIANT_VIOLATION.
#[export] Instance eq_dec : EqDecision t.
Proof. solve_decision. Defined.
Definition to_string (s : t) : string :=
  match s with
  | SKIP_STEP => "skip_step" | OUT_OF_ORDER => "out_of_order" | REPLAY => "replay" | BOUNDARY => "boundary"
  | INVARIANT_VIOLATION => "invariant_violation"
  end.
#[export] Program Instance strenum : StrEnum t :=
  { value := to_string; members := [SKIP_STEP; OUT_OF_ORDER; REPLAY; BOUNDARY; INVARIANT_VIOLATION] }.
Next Obligation. solve_members. Qed.
Next Obligation. solve_value_inj. Qed.
End LogicTestClass.
Notation LogicTestClass := LogicTestClass.t.
Export (hints) AssetType LogicTestClass.

Record RequiredTestClass : Type := mkClass {
  rc_id : string;
  rc_cwe : list string;
  rc_owasp : list string;
  rc_risk : RiskClass
}.

(** [mappings] is a [dict]: one entry per asset type. *)
Record TestCatalog : Type := mkCatalog {
  cat_version : string;
  mappings : list (AssetType * list RequiredTestClass);
  cat_digest : string
}.

Record CoverageMatrix : Type := mkMatrix {
  cm_version : string;
  framework : string;
  cm_mappings : list (string * list string);
  total_items : Z;
  cm_digest : string
}.

Record CoverageReport : Type := mkReport {
  rep_asset_type : AssetType;
  required_classes : list string;
  covered_classes : list string;
  uncovered_classes : list string;
  coverage_rate : Z * Z
}.

Record LogicTestCase : Type := mkLogic {
  lt_class : LogicTestClass;
  app_model_digest : string;
  lt_target : string;
  lt_description : string;
  lt_inputs : list (string * json);
  lt_signature : string
}.

Module Catalog.

Definition invalid (msg : string) : exn := DomainValidationError msg.

Definition check_class (c : RequiredTestClass) : outcome RequiredTestClass :=
  raise_if (PyStr.is_empty (rc_id c)) (invalid "RequiredTestClass.id must be non-empty");; Ret c.

Definition class_json (c : RequiredTestClass) : json :=
  JObj [("id", JStr (rc_id c)); ("cwe", Canonical.jstrs (rc_cwe c)); ("owasp", Canonical.jstrs (rc_owasp c));
        ("risk", Canonical.jenum (rc_risk c))].

(** The digest is computed unless one is given. *)
Definition make_catalog (c : TestCatalog) : outcome TestCatalog :=
  raise_if (PyStr.is_empty (cat_version c)) (invalid "TestCatalog.version must be non-empty");;
  Ret (if PyStr.is_empty (cat_digest c)
       then mkCatalog (cat_version c) (mappings c) (Canonical.canonical_digest
              (JObj [("version", JStr (cat_version c));
                     ("mappings", JObj ((fun e => (value e.1, JArr (class_json <$> e.2))) <$> mappings c))]))
       else c).

Definition required_for (c : TestCatalog) (t : AssetType) : list RequiredTestClass :=
  match list_find (fun e => e.1 = t) (mappings c) with Some (_, e) => e.2 | None => [] end.

(** [sum(1 for v in self.mappings.values() if v)] *)
Definition covered_items (m : CoverageMatrix) : Z :=
  Z.of_nat (length (filter (fun e => e.2 <> []) (cm_mappings m))).
Definition matrix_rate (m : CoverageMatrix) : Z * Z := (covered_items m, total_items m).

Definition make_matrix (m : CoverageMatrix) : outcome CoverageMatrix :=
  raise_if (PyStr.is_empty (cm_version m)) (invalid "CoverageMatrix.version must be non-empty");;
  raise_if (PyStr.is_empty (framework m)) (invalid "CoverageMatrix.framework must be non-empty");;
  raise_if (total_items m <? 1) (invalid "CoverageMatrix.total_items must be >= 1");;
  raise_if (total_items m <? covered_items m) (invalid "CoverageMatrix covered items cannot exceed total_items");;
  raise_if (fst (matrix_rate m) <? 0) (invalid "CoverageMatrix coverage_rate cannot be negative");;
  Ret (if PyStr.is_empty (cm_digest m)
       then mkMatrix (cm_version m) (framework m) (cm_mappings m) (total_items m) (Canonical.canonical_digest
              (JObj [("version", JStr (cm_version m)); ("framework", JStr (framework m));
                     ("mappings", JObj ((fun e => (e.1, Canonical.jstrs e.2)) <$> cm_mappings m));
                     ("total_items", JInt (total_items m))]))
       else m).

(** Every matrix has a rate in [0, 1]. *)
Lemma matrix_rate_bounds m m' :
  make_matrix m = Ret m' -> 0 <= (matrix_rate m').1 <= (matrix_rate m').2 /\ 0 < (matrix_rate m').2.
Proof.
  unfold make_matrix. intros H. inv_ret. repeat match goal with H : (_ <? _) = false |- _ => apply Z.ltb_ge in H end.
  unfold matrix_rate, covered_items in *. destruct (PyStr.is_empty (cm_digest m)); cbn in *; lia.
Qed.

End Catalog.

(** ** Coverage *)
Module Coverage.

(** [bool(set(a).intersection(b))] *)
Definition meets (a b : list string) : bool := existsb (fun x => bool_decide (x ∈ b)) a.

Fixpoint class_covered (c : RequiredTestClass) (observations : list Observation) : bool :=
  match observations with
  | [] => false
  | o :: r => if meets (rc_cwe c) (obs_cwe o) || meets (rc_owasp c) (obs_owasp o) then true else class_covered c r
  end.

Definition check_report (r : CoverageReport) : outcome CoverageReport :=
  let '(n, d) := coverage_rate r in
  raise_if (negb ((0 <=? n) && (n <=? d))) (Catalog.invalid "CoverageReport.coverage_rate must be in [0.0, 1.0]");; Ret r.

Definition compute_coverage (t : AssetType) (required : list RequiredTestClass) (observations : list Observation)
  : outcome CoverageReport :=
  let covered := rc_id <$> filter (fun c => class_covered c observations = true) required in
  let uncovered := rc_id <$> filter (fun c => class_covered c observations = false) required in
  check_report (mkReport t (rc_id <$> required) covered uncovered
    (match required with [] => (1, 1) | _ => (Z.of_nat (length covered), Z.of_nat (length required)) end)).

(** [CoverageService] *)
Definition compute (t : AssetType) (observations : list Observation) (catalog : TestCatalog) : outcome CoverageReport :=
  compute_coverage t (Catalog.required_for catalog t) observations.

Definition enforce_gate (r : CoverageReport) : outcome unit :=
  raise_if (negb (bool_decide (uncovered_classes r = [])))
    (CoverageGapError ("coverage gate failed for " +:+ value (rep_asset_type r) +:+ ": uncovered required classes: "
       +:+ PyStr.join ", " (uncovered_classes r))).

(** [o] is attributed to a weakness of class [c]. *)
Definition evidence_for (c : RequiredTestClass) (o : Observation) : Prop :=
  (exists x, x ∈ rc_cwe c /\ x ∈ obs_cwe o) \/ (exists x, x ∈ rc_owasp c /\ x ∈ obs_owasp o).

Lemma meets_true a b : meets a b = true <-> exists x, x ∈ a /\ x ∈ b.
Proof.
  unfold meets. rewrite existsb_exists. split.
  - intros (x & Hx%list_elem_of_In & Hb). breflect. eauto.
  - intros (x & Hx & Hb). exists x. split; [by apply list_elem_of_In|]. by apply bool_decide_eq_true.
Qed.

Lemma class_covered_true c obs : class_covered c obs = true <-> exists o, o ∈ obs /\ evidence_for c o.
Proof.
  unfold evidence_for. setoid_rewrite <- meets_true. induction obs as [|o r IH]; cbn [class_covered]; [set_solver|].
  destruct (meets (rc_cwe c) (obs_cwe o) || meets (rc_owasp c) (obs_owasp o)) eqn:E.
  - apply orb_true_iff in E. split; [|done]. intros _. exists o. split; [left|done].
  - apply orb_false_iff in E as [E1 E2]. rewrite IH. split.
    + intros (x & Hx & H). exists x. split; [by right|done].
    + intros (x & [->|Hx]%elem_of_cons & H); [destruct H; congruence|eauto].
Qed.

Lemma filter_length_le {A} (P : A -> Prop) `{!forall x, Decision (P x)} l : (length (filter P l) <= length l)%nat.
Proof. induction l as [|x l IH]; [done|]. rewrite filter_cons. case_decide; cbn; lia. Qed.

Lemma filter_split {A} (f : A -> bool) l : filter (fun x => f x = true) l ++ filter (fun x => f x = false) l ≡ₚ l.
Proof.
  induction l as [|x l IH]; [done|]. rewrite !filter_cons. destruct (f x) eqn:E.
  - rewrite decide_True, decide_False by done. cbn [app]. by f_equiv.
  - rewrite decide_False, decide_True by done. rewrite <- Permutation_middle. by f_equiv.
Qed.

Lemma compute_coverage_Ret t required obs :
  compute_coverage t required obs = Ret (mkReport t (rc_id <$> required)
    (rc_id <$> filter (fun c => class_covered c obs = true) required)
    (rc_id <$> filter (fun c => class_covered c obs = false) required)
    (match required with [] => (1, 1) | _ =>
       (Z.of_nat (length (rc_id <$> filter (fun c => class_covered c obs = true) required)), Z.of_nat (length required)) end)).
Proof.
  unfold compute_coverage, check_report. cbn [coverage_rate]. destruct required as [|c l]; [done|].
  set (n := length (rc_id <$> _)). assert (n <= length (c :: l))%nat as Hn.
  { subst n. rewrite length_fmap. apply filter_length_le. }
  cbv beta iota. destruct (Z.leb_spec 0 (Z.of_nat n)), (Z.leb_spec (Z.of_nat n) (Z.of_nat (length (c :: l)))); (done || lia).
Qed.

Lemma gate_Ret t obs catalog r :
  compute t obs catalog = Ret r ->
  enforce_gate r = Ret tt <-> forall c, c ∈ Catalog.required_for catalog t -> exists o, o ∈ obs /\ evidence_for c o.
Proof.
  unfold compute. rewrite compute_coverage_Ret. intros [= <-]. unfold enforce_gate. cbn [uncovered_classes].
  setoid_rewrite <- class_covered_true. generalize (Catalog.required_for catalog t) as l. intros l.
  unfold raise_if. case_bool_decide as H; cbn [negb]; split; try done.
  - intros _ c Hc. apply fmap_nil_inv in H. destruct (class_covered c obs) eqn:E; [done|exfalso].
    assert (c ∈ filter (fun c => class_covered c obs = false) l) as Hi by by apply list_elem_of_filter.
    rewrite H in Hi. set_solver.
  - intros Hall. destruct H. destruct (filter (fun c => class_covered c obs = false) l) as [|c l'] eqn:E; [done|exfalso].
    assert (c ∈ filter (fun c => class_covered c obs = false) l) as [Hc Hi]%list_elem_of_filter by (rewrite E; left).
    rewrite Hall in Hc by done. done.
Qed.

(** The coverage gate opens exactly when every class the pinned catalog
    requires for the asset type has evidence: an observation that shares a CWE
    or an OWASP category with it. Computing the report never fails, its covered
    and uncovered classes are the required ones split in catalog order, and
    more observations never lose coverage. *)
Theorem gate_opens_exactly t obs catalog :
  exists r, compute t obs catalog = Ret r
  /\ (enforce_gate r = Ret tt <-> forall c, c ∈ Catalog.required_for catalog t -> exists o, o ∈ obs /\ evidence_for c o)
  /\ covered_classes r ++ uncovered_classes r ≡ₚ required_classes r
  /\ required_classes r = rc_id <$> Catalog.required_for catalog t
  /\ (forall more r', compute t (obs ++ more) catalog = Ret r' -> covered_classes r ⊆ covered_classes r').
Proof.
  pose proof (compute_coverage_Ret t (Catalog.required_for catalog t) obs) as E. eexists. split; [exact E|].
  split_and!.
  - by apply (gate_Ret t obs catalog).
  - cbn. rewrite <- fmap_app. apply fmap_Permutation, filter_split.
  - done.
  - intros more r'. unfold compute. rewrite compute_coverage_Ret. intros [= <-]. cbn. intros k.
    rewrite !list_elem_of_fmap. intros (c & -> & [Hc Hi]%list_elem_of_filter). exists c. split; [done|].
    apply list_elem_of_filter. split; [|done]. apply class_covered_true. apply class_covered_true in Hc as (o & Ho & ?).
    exists o. split; [set_solver|done].
Qed.

End Coverage.

(** ** Logic test cases *)
Module Logic.

Definition check_logic (c : LogicTestCase) : outcome LogicTestCase :=
  raise_if (PyStr.is_empty (app_model_digest c)) (Catalog.invalid "LogicTestCase.app_model_digest must be non-empty");;
  raise_if (PyStr.is_empty (lt_target c)) (Catalog.invalid "LogicTestCase.target must be non-empty");;
  Ret c.

Definition compute_signature (model_digest : string) (c : LogicTestClass) (strategy_version target : string) : string :=
  "sha256:" +:+ Sha256.hexdigest (PyStr.join "|" [model_digest; value c; strategy_version; target]).

End Logic.

(** ** The planner *)
Module Planner.

(** Key, runner, risk and parameters of a planned step. *)
Record item : Type := mkItem {
  it_key : string;
  it_runner : string;
  it_risk : RiskClass;
  it_parameters : list (string * json)
}.

Definition DEFAULT_RUNNERS (t : AssetType) : string :=
  match t with
  | AssetType.WEB_APP | AssetType.API => "nuclei"
  | AssetType.IP_PORT => "nmap"
  | AssetType.CLOUD_ACCOUNT => "prowler"
  | AssetType.CONTAINER_K8S => "trivy"
  end.

Section planner.
Context (catalog : TestCatalog) (runner_map : gmap AssetType string).

(** Every asset type has a default runner, so ["adapter"] is never used. *)
Definition runner_of (t : AssetType) : string := default (DEFAULT_RUNNERS t) (runner_map !! t).

Definition class_item (t : AssetType) (c : RequiredTestClass) : item :=
  mkItem (value t +:+ ":" +:+ rc_id c) (runner_of t) (rc_risk c)
    [("asset_type", Canonical.jenum t); ("test_class", JStr (rc_id c)); ("cwe", Canonical.jstrs (rc_cwe c));
     ("owasp", Canonical.jstrs (rc_owasp c))].

Definition logic_item (c : LogicTestCase) : item :=
  mkItem ("logic:" +:+ value (lt_class c) +:+ ":" +:+ PyStr.take 12 (PyStr.removeprefix (lt_signature c) "sha256:"))
    "case-engine" RiskClass.ACTIVE
    [("test_class", Canonical.jenum (lt_class c)); ("case_signature", JStr (lt_signature c));
     ("app_model_digest", JStr (app_model_digest c))].

Definition collect_items (asset_types : list AssetType) (logic_cases : list LogicTestCase) : list item :=
  (t ← asset_types; class_item t <$> Catalog.required_for catalog t) ++ (logic_item <$> logic_cases).

Definition is_recon (r : RiskClass) : bool := bool_decide (r ∈ [RiskClass.PASSIVE; RiskClass.LOW]).

Definition recon_keys (items : list item) : list string := it_key <$> filter (fun i => is_recon (it_risk i) = true) items.
Definition active_keys (items : list item) : list string := it_key <$> filter (fun i => it_risk i = RiskClass.ACTIVE) items.

Definition step_of (items : list item) (i : item) : PlanStep :=
  mkPlanStep (it_key i) (it_runner i) (it_risk i) (it_parameters i)
    (if is_recon (it_risk i) then []
     else if bool_decide (it_risk i = RiskClass.ACTIVE) then recon_keys items
     else recon_keys items ++ active_keys items).

Definition generate (plan_id assessment_id : string) (asset_types : list AssetType) (logic_cases : list LogicTestCase)
    (version : Z) : outcome ExecutionPlan :=
  let items := collect_items asset_types logic_cases in
  Plan.create plan_id assessment_id version (step_of items <$> items).

(** ** Tiers *)

(** Reconnaissance, then active, then the rest. *)
Definition tier (r : RiskClass) : Z := if is_recon r then 0 else if bool_decide (r = RiskClass.ACTIVE) then 1 else 2.

Lemma recon_keys_spec items k : k ∈ recon_keys items <-> exists i, i ∈ items /\ it_key i = k /\ tier (it_risk i) = 0.
Proof.
  unfold recon_keys. rewrite list_elem_of_fmap. unfold tier. split.
  - intros (i & -> & [Hr Hi]%list_elem_of_filter). exists i. by rewrite Hr.
  - intros (i & Hi & <- & Ht). exists i. split; [done|]. apply list_elem_of_filter. split; [|done].
    destruct (is_recon (it_risk i)); [done|]. by case_bool_decide.
Qed.

Lemma active_keys_spec items k : k ∈ active_keys items <-> exists i, i ∈ items /\ it_key i = k /\ tier (it_risk i) = 1.
Proof.
  unfold active_keys. rewrite list_elem_of_fmap. unfold tier. split.
  - intros (i & -> & [Hr Hi]%list_elem_of_filter). exists i. by rewrite Hr.
  - intros (i & Hi & <- & Ht). exists i. split; [done|]. apply list_elem_of_filter. split; [|done].
    destruct (is_recon (it_risk i)); [done|]. by case_bool_decide.
Qed.

(** A step waits for exactly the steps of the lower tiers. *)
Lemma step_of_deps items i k :
  k ∈ dependencies (step_of items i) <->
  exists j, j ∈ items /\ it_key j = k /\ tier (it_risk j) < tier (it_risk i).
Proof.
  assert (forall r, 0 <= tier r <= 2) as Hb by (intros r; unfold tier; destruct (is_recon r); [lia|]; case_bool_decide; lia).
  unfold step_of. cbn [dependencies]. unfold tier at 2. destruct (is_recon (it_risk i)).
  - split; [set_solver|]. intros (j & _ & _ & Hj). specialize (Hb (it_risk j)). lia.
  - case_bool_decide.
    + rewrite recon_keys_spec. split; intros (j & ? & ? & ?); exists j; specialize (Hb (it_risk j)); split_and!; (done || lia).
    + rewrite elem_of_app, recon_keys_spec, active_keys_spec. split.
      * intros [(j & ? & ? & ?)|(j & ? & ? & ?)]; exists j; split_and!; (done || lia).
      * intros (j & ? & ? & ?). specialize (Hb (it_risk j)).
        destruct (decide (tier (it_risk j) = 0)); [left|right]; exists j; split_and!; (done || lia).
Qed.

Lemma same_key_same_item items i j :
  NoDup (it_key <$> items) -> i ∈ items -> j ∈ items -> it_key i = it_key j -> i = j.
Proof.
  intros Hn (m & Hm)%list_elem_of_lookup (n & Hk)%list_elem_of_lookup He.
  assert (m = n) as ->.
  { eapply NoDup_lookup; [exact Hn| |]; rewrite list_lookup_fmap; [by rewrite Hm|by rewrite Hk, He]. }
  congruence.
Qed.

Lemma keys_of_steps items : Plan.keys (step_of items <$> items) = it_key <$> items.
Proof. unfold Plan.keys. by rewrite <- list_fmap_compose. Qed.

Lemma depends_tier items a b :
  NoDup (it_key <$> items) -> tc (Plan.depends (step_of items <$> items)) a b ->
  exists i j, i ∈ items /\ it_key i = a /\ j ∈ items /\ it_key j = b /\ tier (it_risk j) < tier (it_risk i).
Proof.
  intros Hn. assert (forall a b, Plan.depends (step_of items <$> items) a b ->
    exists i j, i ∈ items /\ it_key i = a /\ j ∈ items /\ it_key j = b /\ tier (it_risk j) < tier (it_risk i)) as H1.
  { intros x y (s & (i & -> & Hi)%list_elem_of_fmap & <- & (j & Hj & <- & Ht)%step_of_deps). by exists i, j. }
  induction 1 as [a b H|a c b H _ IH]; [by apply H1|].
  destruct (H1 _ _ H) as (i & j & Hi & <- & Hj & Ec & Ht), IH as (j' & k & Hj' & Ec' & Hk & <- & Ht').
  assert (j = j') as <- by (apply (same_key_same_item items); congruence).
  exists i, k. split_and!; (done || lia).
Qed.

Lemma tiered_plan_wf items : NoDup (it_key <$> items) -> Plan.plan_wf (step_of items <$> items).
Proof.
  intros Hn. split.
  - by rewrite keys_of_steps.
  - intros a b H. rewrite keys_of_steps. destruct (depends_tier items a b Hn (tc_once _ _ _ H)) as (_ & j & _ & _ & Hj & <- & _).
    by apply list_elem_of_fmap_2.
  - intros a H. destruct (depends_tier items a a Hn H) as (i & j & Hi & Ei & Hj & Ej & Ht).
    assert (i = j) as -> by (apply (same_key_same_item items); congruence). lia.
Qed.

Lemma generate_Ret pid aid types logic v p :
  generate pid aid types logic v = Ret p <->
  1 <= v /\ NoDup (it_key <$> collect_items types logic)
  /\ p = mkExecutionPlan pid aid v (step_of (collect_items types logic) <$> collect_items types logic)
           (Canonical.canonical_digest (Plan.payload aid v (step_of (collect_items types logic) <$> collect_items types logic))).
Proof.
  unfold generate. rewrite Plan.create_spec. split.
  - intros (H1 & [H2 _ _] & H3). rewrite keys_of_steps in H2. done.
  - intros (H1 & H2 & H3). split_and!; [done|by apply tiered_plan_wf|done].
Qed.

Lemma class_step_in t c types logic :
  t ∈ types -> c ∈ Catalog.required_for catalog t ->
  step_of (collect_items types logic) (class_item t c) ∈ step_of (collect_items types logic) <$> collect_items types logic.
Proof.
  intros Ht Hc. apply list_elem_of_fmap_2, elem_of_app. left. apply list_elem_of_bind. exists t. split; [|done].
  by apply list_elem_of_fmap_2.
Qed.

(** C25: The planner plans everything the catalog requires, reconnaissance first.
    It answers a plan exactly when the version is positive and no step key
    repeats: its tiers can never make a dependency cycle nor a dangling
    dependency. Every class the catalog requires for an asset type of the
    assessment has a step with the class's risk, whatever is added; and a step
    waits for exactly the steps of the lower risk tiers. *)
Theorem plan_covers_catalog_in_tiers pid aid types logic v :
  (forall p, generate pid aid types logic v = Ret p <->
     1 <= v /\ NoDup (it_key <$> collect_items types logic)
     /\ p = mkExecutionPlan pid aid v (step_of (collect_items types logic) <$> collect_items types logic)
              (Canonical.canonical_digest (Plan.payload aid v (step_of (collect_items types logic) <$> collect_items types logic))))
  /\ forall p, generate pid aid types logic v = Ret p ->
     (forall t c, t ∈ types -> c ∈ Catalog.required_for catalog t ->
        exists s, s ∈ steps p /\ step_key s = value t +:+ ":" +:+ rc_id c /\ risk s = rc_risk c)
     /\ (forall s k, s ∈ steps p -> k ∈ dependencies s <->
          exists s', s' ∈ steps p /\ step_key s' = k /\ tier (risk s') < tier (risk s)).
Proof.
  split; [intros p; apply generate_Ret|]. intros p (_ & _ & ->)%generate_Ret. cbn [steps]. split.
  - intros t c Ht Hc. eexists. split; [by apply class_step_in|]. done.
  - intros s k (i & -> & Hi)%list_elem_of_fmap. rewrite step_of_deps. split.
    + intros (j & Hj & <- & Ht). eexists. split; [by apply list_elem_of_fmap_2|]. done.
    + intros (s' & (j & -> & Hj)%list_elem_of_fmap & <- & Ht). by exists j.
Qed.

(** *** Planning and coverage together *)

(** [o] answers step [s]: it is attributed to a weakness the step's
    parameters name. *)
Definition answers (s : PlanStep) (o : Observation) : Prop :=
  exists name l x, field name (parameters s) = Some (Canonical.jstrs l) /\ x ∈ l
    /\ (name = "cwe" /\ x ∈ obs_cwe o \/ name = "owasp" /\ x ∈ obs_owasp o).

Lemma jstrs_inj l l' : Canonical.jstrs l = Canonical.jstrs l' -> l = l'.
Proof. unfold Canonical.jstrs. intros [= H]. revert l' H. induction l as [|x l IH]; intros [|y l']; cbn; try done. intros [= -> H]. f_equal. by apply IH. Qed.

(** Executing the plan closes the coverage gate: when the assessment's
    observations answer every step that was planned for a required class, the
    gate opens for each of its asset types. *)
Theorem executed_plan_opens_gate pid aid types logic v p obs t :
  generate pid aid types logic v = Ret p -> t ∈ types ->
  (forall s, s ∈ steps p -> is_Some (field "cwe" (parameters s)) -> exists o, o ∈ obs /\ answers s o) ->
  exists r, Coverage.compute t obs catalog = Ret r /\ Coverage.enforce_gate r = Ret tt.
Proof.
  intros (_ & _ & ->)%generate_Ret Ht Hall. cbn [steps] in Hall.
  pose proof (Coverage.compute_coverage_Ret t (Catalog.required_for catalog t) obs) as E. eexists. split; [exact E|].
  apply (Coverage.gate_Ret t obs catalog _ E). intros c Hc.
  destruct (Hall _ (class_step_in t c types logic Ht Hc)) as (o & Ho & name & l & x & Hf & Hx & Hn).
  { by eexists. }
  exists o. split; [done|]. cbn [step_of parameters class_item it_parameters] in Hf.
  destruct Hn as [[-> Hi]|[-> Hi]]; [left|right]; exists x; split; try done.
  - change (field "cwe" _) with (Some (Canonical.jstrs (rc_cwe c))) in Hf. injection Hf as Hf. by rewrite (jstrs_inj (rc_cwe c) l) by (unfold Canonical.jstrs; congruence).
  - change (field "owasp" _) with (Some (Canonical.jstrs (rc_owasp c))) in Hf. injection Hf as Hf. by rewrite (jstrs_inj (rc_owasp c) l) by (unfold Canonical.jstrs; congruence).
Qed.

End planner.

(** *** A concrete catalog *)
Definition demo_catalog : TestCatalog :=
  mkCatalog "1" [(AssetType.WEB_APP, [mkClass "WSTG-INPV-01" ["CWE-79"] [] RiskClass.ACTIVE; mkClass "WSTG-INFO-02" [] ["A05"] RiskClass.LOW])] "".
Definition demo_logic : LogicTestCase :=
  mkLogic LogicTestClass.REPLAY "sha256:m" "checkout" "" [] "sha256:0123456789abcdef".
Definition demo_plan : outcome ExecutionPlan := generate demo_catalog ∅ "p1" "a1" [AssetType.WEB_APP] [demo_logic] 1.
Definition demo_observation (cwe owasp : list string) : Observation :=
  mkObservation "x" "shop.example" (mkAdapterSource "nuclei" "3" "na") "r" "1" CoverageDomain.WEB "t" Severity.LOW (flt "0.5")
    cwe [] owasp [] [].

Example demo_plan_steps :
  match demo_plan with
  | Ret p => (fun s => (step_key s, runner s, dependencies s)) <$> steps p =
      [("web_app:WSTG-INPV-01", "nuclei", ["web_app:WSTG-INFO-02"]); ("web_app:WSTG-INFO-02", "nuclei", []);
       ("logic:replay:0123456789ab", "case-engine", ["web_app:WSTG-INFO-02"])]
  | Raise _ => False
  end.
Proof. vm_compute. done. Qed.

(** The same asset type named twice is refused: its keys repeat. *)
Example demo_duplicate :
  generate demo_catalog ∅ "p1" "a1" [AssetType.WEB_APP; AssetType.WEB_APP] [] 1
  = Raise (DomainValidationError "plan step keys must be unique").
Proof. vm_compute. done. Qed.

Lemma executed_plan_opens_gate_witness :
  exists r, Coverage.compute AssetType.WEB_APP [demo_observation ["CWE-79"] []; demo_observation [] ["A05"]] demo_catalog = Ret r
    /\ Coverage.enforce_gate r = Ret tt.
Proof.
  destruct demo_plan as [p|e] eqn:E; [|exfalso; apply (f_equal is_Ret) in E; vm_compute in E; discriminate E].
  refine (executed_plan_opens_gate demo_catalog ∅ "p1" "a1" [AssetType.WEB_APP] [demo_logic] 1 p _ AssetType.WEB_APP E _ _);
    [left|].
  apply generate_Ret in E as (_ & _ & ->). cbn [steps]. intros s Hs Hc.
  apply list_elem_of_fmap in Hs as (i & -> & Hi). cbn in Hi.
  repeat (apply elem_of_cons in Hi as [->|Hi]); [| |exfalso|by apply not_elem_of_nil in Hi].
  - exists (demo_observation ["CWE-79"] []). split; [left|]. exists "cwe", ["CWE-79"], "CWE-79".
    split; [reflexivity|]. split; [left|]. left. split; [reflexivity|left].
  - exists (demo_observation [] ["A05"]). split; [right; left|]. exists "owasp", ["A05"], "A05".
    split; [reflexivity|]. split; [left|]. right. split; [reflexivity|left].
  - destruct Hc as [v Hv]. vm_compute in Hv. discriminate Hv.
Defined.

End Planner.
