(* ===== verification/LlmPlanner.v ===== *)
(** * The intent-driven planner

    Models [src/secopent/application/llm_planner.py]: the plan is the classes
    the catalog requires, capped by the mission's risk, with the classes a
    language model adds.  The model is a function from the prompt to its
    answer, which may raise.  A Python set of classes is a list without
    repetition; its iteration order shows only where two classes of one asset
    type share an identifier. *)
From S2P Require Import Prelude PyStr PyFloat Sha256 Canonical PyJson JsonText Policy Assessments Catalog.

#[local] Open Scope Z_scope.

#[export] Instance required_test_class_eq_dec : EqDecision RequiredTestClass.
Proof. solve_decision. Defined.

Module LLMPlanner.
Import RiskClass.

(** [_RISK_RANK] *)
Definition rank (r : RiskClass) : Z :=
  match r with PASSIVE => 0 | LOW => 1 | ACTIVE => 2 | INTRUSIVE => 3 | DESTRUCTIVE => 4 end.

Definition under (cap : option RiskClass) (c : RequiredTestClass) : bool :=
  match cap with None => true | Some r => rank (rc_risk c) <=? rank r end.

(** [_capped] *)
Definition capped (classes : list RequiredTestClass) (cap : option RiskClass) : list RequiredTestClass :=
  List.filter (under cap) classes.

Definition by_id (a b : RequiredTestClass) : Prop := String.le (rc_id a) (rc_id b).
#[export] Instance by_id_dec : RelDecision by_id := fun a b => decide (String.le (rc_id a) (rc_id b)).

(** [sorted(classes, key=lambda c: c.id)] *)
Definition sorted_by_id (l : list RequiredTestClass) : list RequiredTestClass := merge_sort by_id l.

Section planner.
Context (catalog : TestCatalog) (runner_map : gmap AssetType string).

(** The classes of every mapping, in order. *)
Definition all_classes : list RequiredTestClass := m ← mappings catalog; m.2.

Definition floor_classes (asset_types : list AssetType) : list RequiredTestClass :=
  remove_dups (t ← asset_types; Catalog.required_for catalog t).

(** ** The model's choice *)

Definition nl : string := String "010" "".

Definition candidate_line (c : RequiredTestClass) : string :=
  let cwe := PyStr.join "," (rc_cwe c) in
  "- " +:+ Canonical.dq +:+ rc_id c +:+ Canonical.dq +:+ " (risk=" +:+ value (rc_risk c)
  +:+ ", cwe=" +:+ (if PyStr.truthy cwe then cwe else "-") +:+ ")".

Definition build_prompt (intent : string) (cap : option RiskClass) : string :=
  let q s := Canonical.dq +:+ s +:+ Canonical.dq in
  "You select security test classes for an authorized pentest mission." +:+ nl
  +:+ "Mission intent: " +:+ intent +:+ nl +:+ "Mission intent: " +:+ intent +:+ nl
  +:+ "Risk cap: " +:+ match cap with Some r => value r | None => "no cap" end
  +:+ ". A class AT or BELOW the cap may be selected; classes above it must NOT be selected." +:+ nl
  +:+ "Choose the most relevant class ids from this exact list. Reply with ONLY a JSON array of strings, e.g. ["
  +:+ q "a" +:+ "," +:+ q "b" +:+ "]." +:+ nl
  +:+ "Candidates:" +:+ nl +:+ PyStr.join nl (candidate_line <$> all_classes).

(** The characters of a text, which is what iterating over it gives. *)
Fixpoint characters (s : string) : list string :=
  match s with EmptyString => [] | String c r => String c "" :: characters r end.

(** [{str(item) for item in value if isinstance(item, str)}], or [None] where
    the value cannot be iterated. *)
Definition chosen_ids (v : json) : option (list string) :=
  match v with
  | JArr l => Some (omap (fun x => match x with JStr s => Some s | _ => None end) l)
  | JObj l => Some (dict_keys l)
  | JStr s => Some (characters s)
  | _ => None
  end.

(** [known]: the last class of an identifier. *)
Definition known (i : string) : option RequiredTestClass :=
  last (List.filter (fun c => bool_decide (rc_id c = i)) all_classes).

Definition select (cap : option RiskClass) (ids : list string) : list RequiredTestClass :=
  remove_dups (List.filter (under cap) (omap known ids)).

(** [_llm_classes]: any failure of the model is no choice at all. *)
Definition llm_classes (backend : string -> outcome string) (intent : string) (cap : option RiskClass)
  : list RequiredTestClass :=
  match backend (build_prompt intent cap) with
  | Raise _ => []
  | Ret raw =>
      match JsonText.loads raw with
      | None => []
      | Some v => match chosen_ids v with None => [] | Some ids => select cap ids end
      end
  end.

(** ** The plan *)

(** [_asset_type_of]: the asset type whose value precedes the first colon. *)
Definition asset_type_of (class_id : string) : option AssetType :=
  of_value (fst (fst (PyStr.partition ":" class_id))).

Definition to_step (t : AssetType) (c : RequiredTestClass) (intent : string) : PlanStep :=
  mkPlanStep (value t +:+ ":" +:+ PyStr.removeprefix (rc_id c) (value t +:+ ":"))
    (Planner.runner_of runner_map t) (rc_risk c)
    [("asset_type", Canonical.jenum t); ("test_class", JStr (rc_id c)); ("cwe", Canonical.jstrs (rc_cwe c));
     ("owasp", Canonical.jstrs (rc_owasp c)); ("intent", JStr intent)] [].

Definition floor_steps (floor : list RequiredTestClass) (asset_types : list AssetType) (intent : string)
  : list PlanStep :=
  t ← asset_types;
  (fun c => to_step t c intent) <$>
    sorted_by_id (List.filter (fun c => bool_decide (c ∈ Catalog.required_for catalog t)) floor).

(** The loop over the model's classes: a step whose key is new is appended. *)
Fixpoint add_steps (intent : string) (l : list RequiredTestClass) (steps : list PlanStep) : list PlanStep :=
  match l with
  | [] => steps
  | c :: r =>
      match asset_type_of (rc_id c) with
      | None => add_steps intent r steps
      | Some owner =>
          let s := to_step owner c intent in
          if bool_decide (step_key s ∈ Plan.keys steps) then add_steps intent r steps
          else add_steps intent r (steps ++ [s])
      end
  end.

Definition plan_steps (backend : option (string -> outcome string)) (asset_types : list AssetType)
    (intent : string) (cap : option RiskClass) : list PlanStep :=
  let floor := capped (floor_classes asset_types) cap in
  let llm_added := match backend with
                   | Some b => capped (llm_classes b intent cap) cap
                   | None => []
                   end in
  add_steps intent (sorted_by_id llm_added) (floor_steps floor asset_types intent).

Definition generate (backend : option (string -> outcome string)) (plan_id assessment_id : string)
    (asset_types : list AssetType) (intent : string) (cap : option RiskClass) : outcome ExecutionPlan :=
  Plan.create plan_id assessment_id 1 (plan_steps backend asset_types intent cap).

(** ** What the model can do *)

Lemma sorted_by_id_elem c l : c ∈ sorted_by_id l <-> c ∈ l.
Proof. unfold sorted_by_id. by rewrite (merge_sort_Permutation by_id l). Qed.

(** A plan without dependencies is well formed when its keys differ. *)
Lemma independent_plan_wf steps :
  Forall (fun s => dependencies s = []) steps -> Plan.plan_wf steps <-> NoDup (Plan.keys steps).
Proof.
  intros Hd. split; [by intros [? _ _]|]. intros Hn.
  assert (Hno : forall a b, ~ Plan.depends steps a b).
  { intros a b (s & Hs & _ & Hb). rewrite Forall_forall in Hd. rewrite (Hd s Hs) in Hb. by apply elem_of_nil in Hb. }
  split; [done|by intros a b ?%Hno|]. intros a Ht.
  inversion Ht; subst; by edestruct Hno.
Qed.

Lemma to_step_deps t c i : dependencies (to_step t c i) = [].
Proof. done. Qed.

Lemma floor_steps_deps floor types intent :
  Forall (fun s => dependencies s = []) (floor_steps floor types intent).
Proof.
  apply Forall_forall. intros s (t & (c & -> & _)%list_elem_of_fmap & _)%list_elem_of_bind. done.
Qed.

(** The additions: at the end, with new keys, for classes of the list. *)
Lemma add_steps_spec intent l steps :
  exists extra, add_steps intent l steps = steps ++ extra
    /\ (NoDup (Plan.keys steps) -> NoDup (Plan.keys (steps ++ extra)))
    /\ Forall (fun s => s.(dependencies) = [] /\ step_key s ∉ Plan.keys steps
         /\ exists c t, c ∈ l /\ asset_type_of (rc_id c) = Some t /\ s = to_step t c intent) extra.
Proof.
  revert steps. induction l as [|c l IH]; intros steps; cbn [add_steps].
  { exists []. rewrite app_nil_r. by split_and!. }
  assert (Hskip : exists extra, add_steps intent l steps = steps ++ extra
    /\ (NoDup (Plan.keys steps) -> NoDup (Plan.keys (steps ++ extra)))
    /\ Forall (fun s => s.(dependencies) = [] /\ step_key s ∉ Plan.keys steps
         /\ exists c' t, c' ∈ c :: l /\ asset_type_of (rc_id c') = Some t /\ s = to_step t c' intent) extra).
  { destruct (IH steps) as (extra & He & Hn & Hx). exists extra. split_and!; [done..|].
    eapply Forall_impl; [exact Hx|]. intros s (? & ? & c' & t & ? & ? & ?). split_and!; [done..|].
    exists c', t. split_and!; [by constructor|done..]. }
  destruct (asset_type_of (rc_id c)) as [t|] eqn:Et; [|exact Hskip].
  case_bool_decide as Hk; [exact Hskip|]. clear Hskip.
  destruct (IH (steps ++ [to_step t c intent])) as (extra & He & Hn & Hx).
  exists (to_step t c intent :: extra). rewrite He, <- (assoc_L (++)). split; [done|]. split.
  - intros Hd. change (to_step t c intent :: extra) with ([to_step t c intent] ++ extra).
    rewrite (assoc_L (++)). apply Hn. unfold Plan.keys in *. rewrite fmap_app.
    apply NoDup_app. split_and!; [done| |apply NoDup_singleton]. intros k Hin ->%list_elem_of_singleton. done.
  - constructor.
    + split_and!; [done..|]. exists c, t. split_and!; [by constructor|done..].
    + eapply Forall_impl; [exact Hx|]. intros s (? & Hnk & c' & t' & ? & ? & ?). split_and!; [done| |].
      * intros Hin. apply Hnk. unfold Plan.keys in *. rewrite fmap_app. apply elem_of_app. by left.
      * exists c', t'. split_and!; [by constructor|done..].
Qed.

Lemma known_in i c : known i = Some c -> c ∈ all_classes /\ rc_id c = i.
Proof.
  unfold known. intros H.
  assert (Hin : c ∈ List.filter (fun c => bool_decide (rc_id c = i)) all_classes) by by apply last_Some_elem_of.
  apply elem_filter in Hin as [? ?%bool_decide_eq_true]. done.
Qed.

(** What the model names is a class of the catalog under the cap. *)
Lemma llm_classes_in b intent cap c :
  c ∈ llm_classes b intent cap -> c ∈ all_classes /\ under cap c = true.
Proof.
  unfold llm_classes. destruct (b _) as [raw|]; [|by intros ?%elem_of_nil].
  destruct (JsonText.loads raw) as [v|]; [|by intros ?%elem_of_nil].
  destruct (chosen_ids v) as [ids|]; [|by intros ?%elem_of_nil].
  unfold select. rewrite elem_of_remove_dups, elem_filter, list_elem_of_omap.
  intros [(i & _ & Hk) Hu]. split; [|done]. by apply known_in in Hk as [? _].
Qed.

Lemma floor_steps_in t c types intent cap :
  t ∈ types -> c ∈ Catalog.required_for catalog t -> under cap c = true ->
  to_step t c intent ∈ floor_steps (capped (floor_classes types) cap) types intent.
Proof.
  intros Ht Hc Hu. apply list_elem_of_bind. exists t. split; [|done].
  apply (list_elem_of_fmap_2 (fun c => to_step t c intent)).
  apply sorted_by_id_elem, elem_filter. split; [|by apply bool_decide_eq_true].
  unfold capped. apply elem_filter. split; [|done]. unfold floor_classes.
  apply elem_of_remove_dups, list_elem_of_bind. by exists t.
Qed.

Lemma floor_steps_under types intent cap s :
  s ∈ floor_steps (capped (floor_classes types) cap) types intent ->
  match cap with None => True | Some r => rank (risk s) <= rank r end.
Proof.
  intros (t & (c & -> & Hc)%list_elem_of_fmap & _)%list_elem_of_bind.
  apply sorted_by_id_elem, elem_filter in Hc as [[_ Hu]%elem_filter _].
  destruct cap as [r|]; [|done]. by apply Z.leb_le in Hu.
Qed.

(** The model can only add classes of the catalog under the cap. Whatever the
    model answers, or if it fails, the plan starts with exactly the steps the
    planner makes without a model, so a plan exists with the model if and only
    if one exists without it; every other step has a key of its own, is for a
    class of the catalog, and nothing in the plan is above the risk cap; and
    every class the catalog requires for an asset type of the mission and the
    cap allows has its step. *)
Theorem model_can_only_add_classes backend pid aid types intent cap :
  let floor := plan_steps None types intent cap in
  (is_Ret (generate backend pid aid types intent cap) = is_Ret (generate None pid aid types intent cap))
  /\ exists extra, plan_steps backend types intent cap = floor ++ extra
    /\ Forall (fun s => step_key s ∉ Plan.keys floor
         /\ exists c t, c ∈ all_classes /\ asset_type_of (rc_id c) = Some t /\ s = to_step t c intent) extra
    /\ (forall s r, s ∈ floor ++ extra -> cap = Some r -> rank (risk s) <= rank r)
    /\ (forall t c, t ∈ types -> c ∈ Catalog.required_for catalog t -> under cap c = true ->
          to_step t c intent ∈ floor).
Proof.
  set (base := floor_steps (capped (floor_classes types) cap) types intent).
  assert (Hnone : plan_steps None types intent cap = base) by done.
  cbv zeta. rewrite Hnone.
  set (added := match backend with Some b => capped (llm_classes b intent cap) cap | None => [] end).
  assert (Hadd : forall c, c ∈ sorted_by_id added -> c ∈ all_classes /\ under cap c = true).
  { intros c. rewrite sorted_by_id_elem. unfold added. destruct backend as [b|]; [|by intros ?%elem_of_nil].
    unfold capped. rewrite elem_filter. intros [? _]. by eapply llm_classes_in. }
  destruct (add_steps_spec intent (sorted_by_id added) base) as (extra & He & Hn & Hx).
  assert (Hps : plan_steps backend types intent cap = base ++ extra) by done.
  split.
  - unfold generate. rewrite Hps, Hnone.
    assert (Hdb : Forall (fun s => dependencies s = []) base) by apply floor_steps_deps.
    assert (Hde : Forall (fun s => dependencies s = []) (base ++ extra)).
    { apply Forall_app. split; [done|]. eapply Forall_impl; [exact Hx|]. by intros s [? _]. }
    assert (Hc : forall l, Forall (fun s => dependencies s = []) l ->
      is_Ret (Plan.create pid aid 1 l) = true <-> NoDup (Plan.keys l)).
    { intros l Hl. rewrite is_Ret_true, <- (independent_plan_wf l Hl). setoid_rewrite Plan.create_spec.
      split; [by intros (p & _ & ? & _)|]. intros ?. eexists. split_and!; [lia|done|reflexivity]. }
    apply eq_true_iff_eq. rewrite !Hc by done. split; [|exact Hn].
    unfold Plan.keys. rewrite fmap_app. intros H. by apply NoDup_app in H as [? _].
  - exists extra. split; [done|]. split_and!.
    + eapply Forall_impl; [exact Hx|]. intros s (_ & ? & c & t & Hc & ? & ?). split; [done|].
      exists c, t. split_and!; [by apply Hadd|done..].
    + intros s r [Hs|Hs]%elem_of_app ->; [by apply (floor_steps_under types intent (Some r))|].
      rewrite Forall_forall in Hx. destruct (Hx s Hs) as (_ & _ & c & t & Hc & _ & ->).
      apply Hadd in Hc as [_ Hu]. by apply Z.leb_le in Hu.
    + intros t c Ht Hc Hu. by apply floor_steps_in.
Qed.
End planner.

(** ** Concrete runs *)
Definition cls (i : string) (r : RiskClass) : RequiredTestClass := mkClass i ["CWE-1"] [] r.
Definition demo_catalog : TestCatalog :=
  mkCatalog "1" [(AssetType.WEB_APP, [cls "web_app:xss" ACTIVE; cls "web_app:headers" PASSIVE]);
                 (AssetType.API, [cls "api:auth" LOW; cls "api:wipe" DESTRUCTIVE])] "d".
Definition demo_answer (ids : list string) (_ : string) : outcome string :=
  Ret (JsonText.dumps (JArr (JStr <$> ids))).

(** An obedient, a failing and a rambling model. *)
Example demo_plans :
  let plan b cap := step_key <$> plan_steps demo_catalog ∅ b [AssetType.WEB_APP] "admin panels" cap in
  plan (Some (demo_answer ["api:auth"; "api:wipe"; "made:up"])) (Some ACTIVE)
    = ["web_app:headers"; "web_app:xss"; "api:auth"]
  /\ plan (Some (fun _ => Raise (RuntimeError "down"))) None = ["web_app:headers"; "web_app:xss"]
  /\ plan (Some (fun _ => Ret "I would suggest")) (Some LOW) = ["web_app:headers"].
Proof. split_and!; vm_compute; reflexivity. Qed.

(** The same asset type twice makes two steps of one key, which no plan may
    have. *)
Example repeated_asset_type_has_no_plan :
  generate demo_catalog ∅ None "p" "a" [AssetType.WEB_APP; AssetType.WEB_APP] "x" None
  = Raise (DomainValidationError "plan step keys must be unique").
Proof. vm_compute. reflexivity. Qed.

(** The steps of this planner wait for nothing: an active step may run before
    reconnaissance, unlike in the deterministic plan. *)
Example no_tiers :
  Forall (fun s => dependencies s = [])
    (plan_steps demo_catalog ∅ (Some (demo_answer ["api:auth"])) [AssetType.WEB_APP] "x" None).
Proof. vm_compute. repeat constructor. Qed.

End LLMPlanner.
