(* ===== verification/Proposer.v ===== *)
(** * The proposer of the loop

    Models [src/secopent/application/reasoning_loop/proposer.py] and
    [llm_backend.py] (Module [Proposer]), [mock_proposer.py] (Module
    [MockProposer]) and [infrastructure/reasoning_loop/composition.py] with
    [infrastructure/llm/config.py] (Module [ProposerChoice]).  The backend is
    a computation in the environment of the loop, pydantic's validation and
    the messages of JSON errors are parameters.  [steps_come_from_answers]
    composes the proposer with the orchestrator of [Loop]. *)
From S2P Require Import Prelude PyStr PyTime PyFloat Sha256 Canonical PyJson PyText JsonText JsonIndent AuditTrail Catalog LoopModels Loop Prompt.

#[local] Open Scope Z_scope.

Module ProposalOutcome.
Inductive t : Type := OK | RETRYABLE | POLICY_BLOCKED | BACKEND_UNAVAILABLE.
#[export] Instance eq_dec : EqDecision t.
Proof. solve_decision. Defined.
End ProposalOutcome.
Notation ProposalOutcome := ProposalOutcome.t.
Export (hints) ProposalOutcome.

Record LLMProposalResult : Type := mkProposal {
  outcome_of : ProposalOutcome;
  proposed : option ProposeAction;
  proposal_error : string;
  attempts : Z
}.

Module Proposer.
Import JsonIndent.

(** ** Markdown fences *)
Definition is_blank (c : ascii) : bool := Ascii.eqb c " " || Ascii.eqb c "009".
Definition is_tag_char (c : ascii) : bool := PyStr.is_alnum c || Ascii.eqb c "_" || Ascii.eqb c "-".
Definition FENCE : string := "```".

(** [c?] at the start, and at the end. *)
Definition skip_char (c : ascii) (s : string) : string :=
  match s with String d r => if Ascii.eqb d c then r else s | EmptyString => s end.
Definition chop_char (c : ascii) (s : string) : string :=
  if PyStr.endswith s (String c "") then PyStr.take (String.length s - 1) s else s.

(** [_FENCE_OPEN.sub]: [^```\[ \t\]*\[a-zA-Z0-9_-\]*\[ \t\]*\r?\n?]. *)
Definition open_fence (s : string) : string :=
  if PyStr.startswith s FENCE then
    skip_char "010" (skip_char "013" (PyStr.lstrip_by is_blank (PyStr.lstrip_by is_tag_char
      (PyStr.lstrip_by is_blank (PyStr.drop 3 s)))))
  else s.

(** [_FENCE_CLOSE.sub]: [\r?\n?\[ \t\]*```$]. *)
Definition close_fence (s : string) : string :=
  if PyStr.endswith s FENCE then
    chop_char "013" (chop_char "010" (PyStr.rstrip_by is_blank (PyStr.take (String.length s - 3) s)))
  else s.

Definition strip_markdown_fence (raw : string) : string :=
  let cleaned := PyStr.strip raw in
  if PyStr.startswith cleaned FENCE then PyStr.strip (close_fence (open_fence cleaned)) else cleaned.

Lemma rstrip_snoc p s c : p c = false -> PyStr.rstrip_by p (s +:+ String c "") = s +:+ String c "".
Proof.
  intros Hc. induction s as [|d s IH]; [rewrite PyStr.app_nil_l; cbn; by rewrite Hc|]. rewrite PyStr.app_cons. cbn [PyStr.rstrip_by]. rewrite IH.
  by destruct s.
Qed.

Lemma take_app_length s r : PyStr.take (String.length (s +:+ r) - String.length r) (s +:+ r) = s.
Proof.
  rewrite PyStr.length_app, Nat.add_sub. induction s as [|c s IH]; [by destruct r|]. rewrite PyStr.app_cons. cbn. by rewrite IH.
Qed.

Lemma endswith_app s p : PyStr.endswith (s +:+ p) p = true.
Proof. apply PyStr.endswith_true. by exists s. Qed.

Lemma chop_char_snoc c s : chop_char c (s +:+ String c "") = s.
Proof. unfold chop_char. rewrite endswith_app. apply (take_app_length s (String c "")). Qed.

Lemma lstrip_length p s : (String.length (PyStr.lstrip_by p s) <= String.length s)%nat.
Proof. induction s as [|c s IH]; [done|]. cbn. destruct (p c); cbn; lia. Qed.

Lemma rstrip_length p s : (String.length (PyStr.rstrip_by p s) <= String.length s)%nat.
Proof. induction s as [|c s IH]; [done|]. cbn. destruct (PyStr.rstrip_by p s); [destruct (p c)|]; cbn in *; lia. Qed.

Lemma lstrip_same_length p s : String.length (PyStr.lstrip_by p s) = String.length s -> PyStr.lstrip_by p s = s.
Proof. destruct s as [|c s]; [done|]. cbn. destruct (p c); [|done]. pose proof (lstrip_length p s). lia. Qed.

Lemma rstrip_snoc_length p s c : p c = true -> (String.length (PyStr.rstrip_by p (s +:+ String c "")) <= String.length s)%nat.
Proof.
  intros Hc. induction s as [|d s IH]; [rewrite PyStr.app_nil_l; cbn; by rewrite Hc|]. rewrite PyStr.app_cons. cbn [PyStr.rstrip_by].
  destruct (PyStr.rstrip_by p (s +:+ String c "")); [destruct (p d)|]; cbn in *; lia.
Qed.

(** A stripped text does not end with a space. *)
Lemma chop_char_strip c s : PyStr.is_space c = true -> PyStr.strip s = s -> chop_char c s = s.
Proof.
  intros Hc Hs. unfold chop_char. destruct (PyStr.endswith s (String c "")) eqn:E; [|done].
  apply PyStr.endswith_true in E as [r ->]. exfalso. unfold PyStr.strip in Hs. set (s := r +:+ String c "") in *.
  pose proof (rstrip_length PyStr.is_space (PyStr.lstrip_by PyStr.is_space s)) as H1.
  pose proof (lstrip_length PyStr.is_space s) as H2. rewrite Hs in H1.
  rewrite (lstrip_same_length PyStr.is_space s) in Hs by lia.
  pose proof (rstrip_snoc_length PyStr.is_space r c Hc) as H3. fold s in H3. rewrite Hs in H3. unfold s in H3.
  rewrite PyStr.length_app in H3. cbn in H3. lia.
Qed.

(** A JSON answer in a fence is read as the answer itself. *)
Lemma fence_is_transparent t :
  PyStr.strip t = t -> PyStr.startswith t FENCE = false ->
  (match t with String c _ => negb (is_tag_char c || is_blank c) | EmptyString => true end) = true ->
  strip_markdown_fence (FENCE +:+ "json" +:+ nl +:+ t +:+ nl +:+ FENCE) = strip_markdown_fence t.
Proof.
  intros Hs Hb Hc. unfold strip_markdown_fence. rewrite Hs, Hb.
  assert (PyStr.strip (FENCE +:+ "json" +:+ nl +:+ t +:+ nl +:+ FENCE) = FENCE +:+ "json" +:+ nl +:+ t +:+ nl +:+ FENCE) as ->.
  { unfold PyStr.strip. change (PyStr.lstrip_by _ (FENCE +:+ ?r)) with (FENCE +:+ r).
    replace (FENCE +:+ "json" +:+ nl +:+ t +:+ nl +:+ FENCE) with ((FENCE +:+ "json" +:+ nl +:+ t +:+ nl +:+ "``") +:+ String "`" "")
      by (rewrite !PyStr.app_assoc; reflexivity). by apply rstrip_snoc. }
  rewrite PyStr.startswith_app. unfold open_fence. rewrite PyStr.startswith_app.
  change (PyStr.drop 3 (FENCE +:+ ?r)) with r. set (rest := t +:+ nl +:+ FENCE).
  assert (skip_char "010" (skip_char "013" (PyStr.lstrip_by is_blank (PyStr.lstrip_by is_tag_char
      (PyStr.lstrip_by is_blank ("json" +:+ nl +:+ rest))))) = rest) as -> by reflexivity.
  unfold rest, close_fence. rewrite <- PyStr.app_assoc, endswith_app.
  change 3%nat with (String.length FENCE). rewrite take_app_length. change nl with (String "010" ""). rewrite rstrip_snoc by done.
  by rewrite chop_char_snoc, chop_char_strip.
Qed.

Section proposer.
Context {W : Type}.
(** [backend.complete], [ProposeAction.model_validate] (with the text of its
    refusal), the text of a [JSONDecodeError], and pydantic's schema. *)
Context (complete : string -> M W string) (validate : list (string * json) -> ProposeAction + string).
Context (decode_error : string -> string) (schema : list (string * json)) (max_retries : Z).

Definition parse_action (raw : string) : ProposeAction + string :=
  match JsonText.loads (strip_markdown_fence raw) with
  | None => inr ("invalid JSON: " +:+ decode_error (strip_markdown_fence raw))
  | Some (JObj data) =>
      match validate data with inl a => inl a | inr why => inr ("schema violation: " +:+ why) end
  | Some _ => inr "JSON payload is not an object"
  end.

Definition max_attempts : Z := 1 + max_retries.

(** The loop of [propose], with [n] attempts left after [attempt - 1]. *)
Fixpoint try_attempts (prompt : string) (n : nat) (attempt : Z) (last_error : string) : M W LLMProposalResult :=
  match n with
  | O => mret (mkProposal ProposalOutcome.RETRYABLE None last_error max_attempts)
  | S m => fun w =>
      match complete prompt w with
      | (Raise (LLMBackendUnavailable msg), w1) =>
          (Ret (mkProposal ProposalOutcome.BACKEND_UNAVAILABLE None msg attempt), w1)
      | (Raise e, w1) => (Raise e, w1)
      | (Ret raw, w1) =>
          match parse_action raw with
          | inl a => (Ret (mkProposal ProposalOutcome.OK (Some a) "" attempt), w1)
          | inr err => try_attempts prompt m (attempt + 1) err w1
          end
      end
  end.

Definition propose (c : LoopContext) : M W LLMProposalResult :=
  prompt ← lift (Serializer.full_prompt schema c);
  try_attempts prompt (Z.to_nat max_attempts) 1 "".

(** [_RealProposerPort.propose] *)
Definition port (c : LoopContext) : M W (option ProposeAction) :=
  r ← propose c;
  mret (if bool_decide (outcome_of r = ProposalOutcome.OK) then proposed r else None).

(** [k] answers in a row that are no action. *)
Inductive rejected (prompt : string) : nat -> W -> W -> Prop :=
| Rejected_none w : rejected prompt 0 w w
| Rejected_more k w w1 w2 raw err :
    complete prompt w = (Ret raw, w1) -> parse_action raw = inr err ->
    rejected prompt k w1 w2 -> rejected prompt (S k) w w2.

Definition concludes (prompt : string) (n : nat) (r : LLMProposalResult) (w w' : W) (k : nat) (w1 : W) : Prop :=
  match outcome_of r with
  | ProposalOutcome.OK =>
      exists raw a, (k < n)%nat /\ complete prompt w1 = (Ret raw, w') /\ parse_action raw = inl a /\ proposed r = Some a
  | ProposalOutcome.RETRYABLE => k = n /\ w' = w1 /\ proposed r = None
  | ProposalOutcome.BACKEND_UNAVAILABLE =>
      (k < n)%nat /\ complete prompt w1 = (Raise (LLMBackendUnavailable (proposal_error r)), w') /\ proposed r = None
  | ProposalOutcome.POLICY_BLOCKED => False
  end.

Lemma try_attempts_spec prompt n attempt err w :
  match try_attempts prompt n attempt err w with
  | (Ret r, w') =>
      exists k w1, rejected prompt k w w1 /\ concludes prompt n r w w' k w1
        /\ attempts r = if bool_decide (outcome_of r = ProposalOutcome.RETRYABLE) then max_attempts else attempt + Z.of_nat k
  | (Raise e, w') =>
      exists k w1, (k < n)%nat /\ rejected prompt k w w1 /\ complete prompt w1 = (Raise e, w')
        /\ forall msg, e <> LLMBackendUnavailable msg
  end.
Proof.
  revert attempt err w; induction n as [|n IH]; intros attempt err w; cbn [try_attempts].
  { exists 0%nat, w. split_and!; [apply Rejected_none|done|done]. }
  destruct (complete prompt w) as [[raw|e] w1] eqn:Ec.
  - destruct (parse_action raw) as [a|why] eqn:Ep.
    + exists 0%nat, w. split_and!; [apply Rejected_none| |case_bool_decide; [done|cbn; lia]]. exists raw, a. split_and!; [lia|done..].
    + specialize (IH (attempt + 1) why w1). destruct (try_attempts prompt n (attempt + 1) why w1) as [[r|e] w'].
      * destruct IH as (k & w2 & Hr & Hc & Ha). exists (S k), w2. split; [by econstructor|]. split.
        -- unfold concludes in *. destruct (outcome_of r); [|naive_solver lia|done|naive_solver lia].
           destruct Hc as (raw' & a & ? & Hc). exists raw', a. split; [lia|exact Hc].
        -- rewrite Ha. case_bool_decide; lia.
      * destruct IH as (k & w2 & Hk & Hr & Hc). exists (S k), w2. split; [lia|]. split; [by econstructor|exact Hc].
  - destruct e; try (exists 0%nat, w; split_and!; [lia|apply Rejected_none|done|by intros ?]).
    exists 0%nat, w. split_and!; [apply Rejected_none| |case_bool_decide; [done|cbn; lia]]. split_and!; [lia|done..].
Qed.

(** a proposal is an answer. The backend is asked at most once more than
    the retries allow, always with the same prompt; the result is OK exactly
    with the first answer that parses, RETRYABLE only after every answer was
    refused, BACKEND_UNAVAILABLE only when the backend said so, never
    POLICY_BLOCKED; and nothing but the context's own failure or another
    exception of the backend escapes. *)
Theorem a_proposal_is_an_answer c w :
  let n := Z.to_nat max_attempts in
  match propose c w with
  | (Ret r, w') =>
      exists prompt k w1, Serializer.full_prompt schema c = Ret prompt /\ (k <= n)%nat
        /\ rejected prompt k w w1 /\ concludes prompt n r w w' k w1
  | (Raise e, w') =>
      (Serializer.full_prompt schema c = Raise e /\ w' = w)
      \/ exists prompt k w1, Serializer.full_prompt schema c = Ret prompt /\ (k < n)%nat /\ rejected prompt k w w1
           /\ complete prompt w1 = (Raise e, w') /\ forall msg, e <> LLMBackendUnavailable msg
  end.
Proof.
  cbn zeta. unfold propose, lift, mbind, M_bind. destruct (Serializer.full_prompt schema c) as [prompt|e]; [|by left].
  pose proof (try_attempts_spec prompt (Z.to_nat max_attempts) 1 "" w) as H.
  destruct (try_attempts _ _ _ _ w) as [[r|e] w'].
  - destruct H as (k & w1 & Hr & Hc & _). exists prompt, k, w1. split_and!; [done| |done|done].
    unfold concludes in Hc. destruct (outcome_of r); [destruct Hc as (? & ? & ? & _); lia|lia|done|lia].
  - right. destruct H as (k & w1 & Hk & Hr & Hc). by exists prompt, k, w1.
Qed.

(** What the port hands to the loop is the parsed answer to the prompt. *)
Lemma port_action c a w w' :
  port c w = (Ret (Some a), w') ->
  exists prompt raw w1, Serializer.full_prompt schema c = Ret prompt /\ complete prompt w1 = (Ret raw, w') /\ parse_action raw = inl a.
Proof.
  unfold port, propose, lift, mbind, M_bind. destruct (Serializer.full_prompt schema c) as [prompt|e]; [|done].
  pose proof (try_attempts_spec prompt (Z.to_nat max_attempts) 1 "" w) as H.
  destruct (try_attempts _ _ _ _ w) as [[r|e] w2]; [|done]. unfold mret, M_ret. intros [= Hp ->].
  destruct H as (k & w1 & _ & Hc & _). case_bool_decide as Ho; [|done]. unfold concludes in Hc. rewrite Ho in Hc.
  destruct Hc as (raw & a' & _ & Hc & Hpa & Ha). exists prompt, raw, w1. by rewrite Hp in Ha; injection Ha as ->.
Qed.

(** ** Composed with the orchestrator *)
Context (audit_ok : AuditCall -> outcome unit) (clock : M W datetime) (token_hex4 : M W string) (uuid4_int : M W Z).
Context (build_context : gmap LoopId LoopState -> LoopId -> M W LoopContext).
Context (schema_gate policy_gate permit_gate : ProposeAction -> LoopContext -> M W GateVerdict).
Context (budget_gate_wired : bool) (loop_oracle : option (string -> M W OracleOutcome)).

(** C40: the model proposes, the gates decide. A step of the loop records
    nothing, or one step whose action the backend gave as a JSON object in
    answer to the prompt of that context, whose sections are the eight
    headers, and which the schema, policy and permit gates each passed. *)
Theorem steps_come_from_answers i (w : LoopWorld W) :
  let after := (run_step audit_ok clock token_hex4 uuid4_int build_context port schema_gate policy_gate permit_gate
                  budget_gate_wired loop_oracle i w).2 in
  steps after = steps w
  \/ exists st context prompt raw w1 w2,
       steps after = steps w ++ [st]
       /\ Serializer.full_prompt schema context = Ret prompt /\ bracket_lines prompt = Serializer.HEADERS
       /\ complete prompt w1 = (Ret raw, w2)
       /\ (exists data, JsonText.loads (strip_markdown_fence raw) = Some (JObj data) /\ validate data = inl (proposed_action st))
       /\ (exists v, accepted schema_gate (proposed_action st) context v)
       /\ (exists v, accepted policy_gate (proposed_action st) context v)
       /\ (exists v, accepted permit_gate (proposed_action st) context v /\ st_permit_id st = Some (default "" (permit_id v))).
Proof.
  cbn zeta.
  destruct (run_step_adds audit_ok clock token_hex4 uuid4_int build_context port schema_gate policy_gate permit_gate
              budget_gate_wired loop_oracle i w) as [Hs|(s & st & _ & _ & _ & Hg & Hs)]; [by left|right].
  destruct Hg as (context & loops & e & e' & _ & _ & (e1 & e2 & Hp) & H1 & H2 & H3).
  destruct (port_action _ _ _ _ Hp) as (prompt & raw & w1 & Hf & Hc & Hpa).
  exists st, context, prompt, raw, w1, e2. split; [exact Hs|]. split; [exact Hf|]. split.
  { pose proof (Serializer.prompt_lines schema context) as H. by rewrite Hf in H. }
  split; [exact Hc|]. split; [|by split_and!]. unfold parse_action in Hpa.
  destruct (JsonText.loads (strip_markdown_fence raw)) as [[]|]; try done. eexists. split; [done|]. by destruct (validate l); simplify_eq.
Qed.

End proposer.

(** A fenced answer after a refused one. *)
Example second_answer_counts :
  let answer := FENCE +:+ "json" +:+ nl +:+ "{" +:+ Serializer.q "rationale" +:+ ": " +:+ Serializer.q "look" +:+ "}" +:+ nl +:+ FENCE in
  let complete (p : string) : M nat string := fun n => (Ret (if (n =? 0)%nat then "I would look." else answer), S n) in
  let validate (d : list (string * json)) : ProposeAction + string :=
    match field "rationale" d with
    | Some (JStr r) => inl (mkAction LoopActionType.ABORT_STEP [] r LoopPure.ZERO None None)
    | _ => inr "rationale"
    end in
  let r := try_attempts complete validate (fun _ => "") 1 "prompt" 2 1 "" 0%nat in
  match r with
  | (Ret p, n) => (outcome_of p, rationale <$> proposed p, attempts p, n) = (ProposalOutcome.OK, Some "look", 2, 2%nat)
  | _ => False
  end.
Proof. vm_compute. reflexivity. Qed.

(** The real backends fail with [LLMError], which is not the class [propose]
    turns into BACKEND_UNAVAILABLE: the failure escapes into the loop. *)
Example llm_error_escapes :
  let complete (p : string) : M nat string := fun n => (Raise (LLMError "LLM API network error"), S n) in
  try_attempts complete (fun _ => inr "") (fun _ => "") 1 "prompt" 2 1 "" 0%nat = (Raise (LLMError "LLM API network error"), 1%nat).
Proof. reflexivity. Qed.

End Proposer.

(** ** [MockLoopActionProposer] *)
Record ProposerCall : Type := mkProposerCall {
  call_index : nat;
  pc_context_hash : string;
  call_answer : option ProposeAction
}.

Record MockState : Type := mkMock { mock_index : nat; mock_history : list ProposerCall }.

Module MockProposer.
Section mock.
Context (script : list ProposeAction).

Definition propose (c : LoopContext) : M MockState (option ProposeAction) :=
  s ← get;
  hash ← lift (LoopModels.context_hash c);
  put (mkMock (S (mock_index s)) (mock_history s ++ [mkProposerCall (mock_index s) hash (script !! mock_index s)]));;
  mret (script !! mock_index s).

Definition reset : M MockState unit := put (mkMock 0 []).

(** The script is played once, in order, and every call is on record. *)
Lemma mock_plays_its_script cs :
  Forall Serializer.finite_context cs ->
  exists h, mapM_state propose cs (mkMock 0 []) = (Ret ((fun k => script !! k) <$> seq 0 (length cs)), mkMock (length cs) h)
    /\ call_index <$> h = seq 0 (length cs) /\ call_answer <$> h = (fun k => script !! k) <$> seq 0 (length cs).
Proof.
  assert (Hgen : forall cs k h, Forall Serializer.finite_context cs -> exists h',
    mapM_state propose cs (mkMock k h) = (Ret ((fun k => script !! k) <$> seq k (length cs)), mkMock (k + length cs) (h ++ h'))
    /\ call_index <$> h' = seq k (length cs) /\ call_answer <$> h' = (fun k => script !! k) <$> seq k (length cs)).
  { clear cs. induction cs as [|c cs IH]; intros k h Hf.
    - exists []. cbn. by rewrite Nat.add_0_r, app_nil_r.
    - apply Forall_cons in Hf as [Hc Hf]. pose proof (Serializer.document_spec c) as Hd.
      assert (exists hash, LoopModels.context_hash c = Ret hash) as [hash Hh].
      { destruct (Serializer.document c) as [doc|] eqn:Ed; [|by destruct Hd]. revert Ed. unfold Serializer.document.
        destruct (mapM_outcome _ _); [|done]. cbn. destruct (Canonical.json_of_float _); [|done]. cbn.
        destruct (LoopModels.context_hash c) as [hash|]; [by exists hash|done]. }
      destruct (IH (S k) (h ++ [mkProposerCall k hash (script !! k)]) Hf) as (h' & E & Hi & Ha).
      assert (Hp : propose c (mkMock k h) = (Ret (script !! k), mkMock (S k) (h ++ [mkProposerCall k hash (script !! k)])))
        by (unfold propose, get, lift, mbind, M_bind; by rewrite Hh).
      exists (mkProposerCall k hash (script !! k) :: h'). cbn [mapM_state]. unfold mbind at 1 2, M_bind. rewrite Hp, E, <- app_assoc.
      cbn [app length seq fmap list_fmap call_index call_answer].
      rewrite Hi, Ha. split_and!; [|done..]. by rewrite Nat.add_succ_r. }
  intros Hf. destruct (Hgen cs 0%nat [] Hf) as (h & E & Hi & Ha). by exists h.
Qed.

End mock.
End MockProposer.

(** ** [create_loop_proposer] *)

(** A backend as the factory sees it: its class, and its [is_available] if it
    has one. *)
Inductive BackendKind : Type :=
| Null
| Ollama (endpoint model : string)
| Remote (endpoint api_key_env model : string)
| Injected.

Record LoopBackend : Type := mkBackend {
  backend_kind : BackendKind;
  is_available : option (outcome bool)
}.

Module ProposerChoice.

Definition DEFAULT_ENDPOINT : string := "http://localhost:11434".
Definition DEFAULT_MODEL : string := "llama3.1:8b".

(** [str(data.get(k, "") or "")] *)
Definition text_or_empty (k : string) (d : list (string * json)) : string :=
  let v := default (JStr "") (field k d) in py_str (json_or v (JStr "")).
(** [str(data.get(k, dflt))] *)
Definition text_or (dflt k : string) (d : list (string * json)) : string := py_str (default (JStr dflt) (field k d)).
Definition or_default (s dflt : string) : string := if PyStr.truthy s then s else dflt.

(** [load_backend_from_config] of the YAML value [data]; [env] gives the
    environment variables. *)
Definition load_backend (env : string -> option string) (data : json) : outcome BackendKind :=
  match data with
  | JObj d =>
      let backend := text_or "remote" "backend" d in
      if bool_decide (backend = "ollama") then
        Ret (Ollama (or_default (text_or_empty "endpoint" d) DEFAULT_ENDPOINT) (or_default (text_or_empty "model" d) DEFAULT_MODEL))
      else if bool_decide (backend = "null") then Ret Null
      else
        raise_if (negb (bool_decide (backend = "remote")))
          (LLMError ("unsupported LLM backend " +:+ PyStr.repr backend +:+ " (expected remote, ollama or null)"));;
        let api_key_env := text_or "" "api_key_env" d in
        raise_if (PyStr.is_empty api_key_env || PyStr.is_empty (default "" (env api_key_env)))
          (LLMError ("LLM API key not set: environment variable " +:+ PyStr.repr api_key_env +:+ " is empty"));;
        let endpoint := text_or "" "endpoint" d in
        let model := text_or "" "model" d in
        raise_if (PyStr.is_empty endpoint || PyStr.is_empty model) (LLMError "LLM config requires 'endpoint' and 'model'");;
        Ret (Remote endpoint api_key_env model)
  | v => Raise (AttributeError (no_attribute v "get"))
  end.

(** [_configured_backend]: [config] is the YAML value of the file, if the
    file is there, or the failure to read it; [probe] the [is_available] of a
    backend that was built. *)
Definition configured_backend (env : string -> option string) (probe : BackendKind -> outcome bool)
    (config : option (outcome json)) : option LoopBackend :=
  match config with
  | None => None
  | Some data =>
      match (d ← data; load_backend env d) with
      | Raise _ => None
      | Ret Null => None
      | Ret k => Some (mkBackend k (Some (probe k)))
      end
  end.

Definition backend_usable (b : option LoopBackend) : bool :=
  match b with
  | None => false
  | Some b =>
      match backend_kind b with
      | Null => false
      | _ => match is_available b with Some (Ret v) => v | Some (Raise _) => false | None => true end
      end
  end.

Definition build_real_backend (env : string -> option string) (probe : BackendKind -> outcome bool)
    (backend : option LoopBackend) (config : option (outcome json)) : option LoopBackend :=
  match backend with Some b => Some b | None => configured_backend env probe config end.

Inductive Choice : Type := UseMock | UseReal (b : LoopBackend).

Definition fallback_call (mode reason : string) : AuditCall :=
  mkCall "reasoning_loop" "loop.fallback_used" LoopPure.LOOP_RESOURCE_TYPE "proposer"
    [("requested_mode", JStr mode); ("reason", JStr reason)].

Section choice.
Context {A : Type} (record : AuditCall -> M A unit).
Context (env : string -> option string) (probe : BackendKind -> outcome bool).

(** [str(env.get(LOOP_PROPOSER_ENV, DEFAULT_PROPOSER_MODE)).strip().lower()] *)
Definition mode : string := PyStr.lower (PyStr.strip (default "mock" (env "SECOPENT_LOOP_PROPOSER"))).

Definition create_loop_proposer (backend : option LoopBackend) (config : option (outcome json)) : M A Choice :=
  if negb (bool_decide (mode = "real")) then mret UseMock
  else
    let real_backend := build_real_backend env probe backend config in
    if backend_usable real_backend then
      match real_backend with Some b => mret (UseReal b) | None => raise (AssertionError "") end
    else
      record (fallback_call mode (match real_backend with
                                  | Some _ => "configured LLM backend unavailable"
                                  | None => "no LLM backend configured"
                                  end));;
      mret UseMock.

(** The real proposer is chosen exactly on request and with a usable backend,
    which is then not the null one; a request that cannot be met is recorded,
    and nothing else is; the choice fails only if the recorder does. *)
Lemma fallback_is_recorded backend config a :
  let real_backend := build_real_backend env probe backend config in
  create_loop_proposer backend config a =
    if bool_decide (mode = "real") then
      match real_backend with
      | Some b =>
          if backend_usable (Some b) then (Ret (UseReal b), a)
          else (record (fallback_call mode "configured LLM backend unavailable");; mret UseMock) a
      | None => (record (fallback_call mode "no LLM backend configured");; mret UseMock) a
      end
    else (Ret UseMock, a).
Proof.
  cbn zeta. unfold create_loop_proposer. case_bool_decide; [|done]. cbn [negb].
  destruct (build_real_backend env probe backend config) as [b|]; [|done]. by destruct (backend_usable (Some b)).
Qed.

Lemma real_backend_is_real backend config a b a' :
  create_loop_proposer backend config a = (Ret (UseReal b), a') ->
  mode = "real" /\ backend_kind b <> Null /\ is_available b <> Some (Ret false) /\ a' = a.
Proof.
  rewrite fallback_is_recorded. case_bool_decide as Hm; [|done].
  destruct (build_real_backend env probe backend config) as [b'|]; unfold mbind, M_bind;
    [|by destruct (record _ a) as [[]]].
  destruct (backend_usable (Some b')) eqn:Eu; [|by destruct (record _ a) as [[]]]. intros [= -> <-].
  cbn in Eu. split_and!; [done| | |done]; intros E; rewrite E in Eu; [done|]. by destruct (backend_kind b).
Qed.

End choice.
End ProposerChoice.
