(* ===== verification/LoopStore.v ===== *)
(** * The loops in the database

    Models [src/secopent/infrastructure/reasoning_loop/sqlalchemy_state.py]
    with the rows of [infrastructure/db/loop_models.py] and the choice of
    [repo_factory.py]: what a loop and its steps become as rows and how they
    are read back.  A table is a dictionary by primary key; the order of an
    unordered query ([scan]) is a parameter of which only the completeness is
    assumed; pydantic's [model_dump] and [model_validate] are parameters.
    Times are kept in UTC, which is the same count of microseconds.  Foreign
    keys, column widths and the moment of the commit are not modelled.

    The theorems relate both repositories to the in-memory ones of [Loop]. *)
From S2P Require Import Prelude PyStr PyTime PyFloat Sha256 Canonical PyJson PyDict LoopModels Loop.

#[local] Open Scope Z_scope.

(** A JSON column. *)
Record CoreReasoningLoop : Type := mkLoopRow {
  lr_loop_id : string;
  lr_assessment_id : string;
  lr_phase : string;
  lr_policy_snapshot : string;
  lr_budget_state : list (string * json);
  lr_context_hash : string;
  lr_catalog_required_remaining : list string;
  lr_catalog_required_executed : list string;
  lr_consecutive_no_signal : Z;
  lr_consecutive_policy_rejected : Z;
  lr_started_at : datetime;
  lr_last_step_at : option datetime;
  lr_ended_at : option datetime;
  lr_pause_attempts : Z;
  lr_paused_at : option datetime;
  lr_resumed_at : option datetime;
  lr_correlation_id : string
}.

Record CoreLoopStep : Type := mkStepRow {
  sr_step_id : string;
  sr_loop_id : string;
  sr_step_number : Z;
  sr_timestamp : datetime;
  sr_context_hash_before : string;
  sr_proposed_action : list (string * json);
  sr_propose_tokens_used : Z;
  sr_propose_latency_ms : Z;
  sr_propose_rationale : option string;
  sr_schema_check_passed : bool;
  sr_policy_decision : list (string * json);
  sr_permit_id : option string;
  sr_tool_or_case_id : json;
  sr_execution_result : option string;
  sr_evidence_refs : option (list string);
  sr_observation_signals : option (list string);
  sr_catalog_class_matched : option (list string);
  sr_oracle_progressed : bool;
  sr_correlation_id : string
}.

Module LoopStore.

(** ** Rows *)

Definition budget_to_json (b : LoopBudget) : list (string * json) :=
  [("max_steps", JInt (max_steps b)); ("max_total_tokens", JInt (max_total_tokens b));
   ("max_wall_seconds", JInt (max_wall_seconds b)); ("steps_used", JInt (steps_used b));
   ("tokens_used", JInt (tokens_used b)); ("wall_seconds_used", JInt (wall_seconds_used b))].

(** [data\[k\]], an integer column of the JSON value. *)
Definition int_item (k : string) (d : list (string * json)) : outcome Z :=
  v ← unwrap (field k d) (KeyError k);
  match v with JInt z => Ret z | v => Raise (TypeError (k +:+ ": " +:+ type_name v)) end.

Definition budget_from_json (d : list (string * json)) : outcome LoopBudget :=
  a ← int_item "max_steps" d; b ← int_item "max_total_tokens" d; c ← int_item "max_wall_seconds" d;
  e ← int_item "steps_used" d; f ← int_item "tokens_used" d; g ← int_item "wall_seconds_used" d;
  Ret (mkBudget a b c e f g).

(** [_derive_ended_at] *)
Definition ENDED_PHASES : list LoopPhase :=
  [LoopPhase.CONVERGED; LoopPhase.BUDGET_EXHAUSTED; LoopPhase.POLICY_BLOCKED; LoopPhase.EMERGENCY_STOPPED;
   LoopPhase.COMPLETED; LoopPhase.CATALOG_FLOOR_DONE].
Definition derive_ended_at (s : LoopState) : option datetime :=
  if bool_decide (phase s ∈ ENDED_PHASES) then last_step_at s else None.
Definition derive_correlation_id (s : LoopState) : string := "".

Definition sorted_set (s : gset string) : list string := PyStr.sorted (elements s).

Definition from_state (s : LoopState) : CoreReasoningLoop :=
  mkLoopRow (ls_loop_id s) (ls_assessment_id s) (value (phase s)) (policy_snapshot s) (budget_to_json (budget s))
    (ls_context_hash s) (sorted_set (catalog_required_remaining s)) (sorted_set (catalog_required_executed s))
    (consecutive_no_signal s) (consecutive_policy_rejected s) (started_at s) (last_step_at s) (derive_ended_at s)
    (pause_attempts s) (paused_at s) (resumed_at s) (derive_correlation_id s).

Definition to_state (r : CoreReasoningLoop) : outcome LoopState :=
  i ← LoopModels.make_loop_id (lr_loop_id r);
  p ← unwrap (of_value (lr_phase r)) (ValueError (PyStr.repr (lr_phase r) +:+ " is not a valid LoopPhase"));
  b ← budget_from_json (lr_budget_state r);
  Ret (mkLoopState i (lr_assessment_id r) p (lr_policy_snapshot r) b (lr_context_hash r)
         (list_to_set (lr_catalog_required_remaining r)) (list_to_set (lr_catalog_required_executed r))
         (lr_consecutive_no_signal r) (lr_consecutive_policy_rejected r) (lr_started_at r) (lr_last_step_at r)
         (lr_pause_attempts r) (lr_paused_at r) (lr_resumed_at r)).

(** [asdict(decision)] and [PolicyDecision( **row)]. *)
Definition decision_to_json (d : StepDecision) : list (string * json) :=
  [("verdict", JStr (if verdict_allow d then "allow" else "deny")); ("reason", JStr (decision_reason d));
   ("deny_code", Canonical.jopt JStr (decision_deny_code d))].
Definition decision_from_json (d : list (string * json)) : outcome StepDecision :=
  match field "verdict" d, field "reason" d, default JNull (field "deny_code" d) with
  | Some (JStr v), Some (JStr r), JNull => Ret (mkDecision (bool_decide (v = "allow")) r None)
  | Some (JStr v), Some (JStr r), JStr c => Ret (mkDecision (bool_decide (v = "allow")) r (Some c))
  | _, _, _ => Raise (TypeError "PolicyDecision")
  end.

Section store.
(** [model_dump] and [model_validate] of [ProposeAction]. *)
Context (model_dump : ProposeAction -> list (string * json)) (model_validate : list (string * json) -> outcome ProposeAction).

Definition from_step (s : LoopStep) : CoreLoopStep :=
  mkStepRow (step_id s) (st_loop_id s) (step_number s) (timestamp s) (context_hash_before s) (model_dump (proposed_action s))
    (propose_tokens_used s) (propose_latency_ms s) (Some (propose_rationale s)) (schema_check_passed s)
    (decision_to_json (policy_decision s)) (st_permit_id s) (tool_or_case_id s) (Some (execution_result_digest s))
    (Some (st_evidence_refs s)) (Some (observation_signals s)) (Some (sorted_set (catalog_class_matched s)))
    (oracle_progressed s) (correlation_id s).

Definition to_step (r : CoreLoopStep) : outcome LoopStep :=
  i ← LoopModels.make_loop_id (sr_loop_id r);
  a ← model_validate (sr_proposed_action r);
  d ← decision_from_json (sr_policy_decision r);
  Ret (mkStep (sr_step_id r) i (sr_step_number r) (sr_timestamp r) (sr_context_hash_before r) a
         (sr_propose_tokens_used r) (sr_propose_latency_ms r) (default "" (sr_propose_rationale r))
         (sr_schema_check_passed r) d (sr_permit_id r) (sr_tool_or_case_id r) (default "" (sr_execution_result r))
         (default [] (sr_evidence_refs r)) (default [] (sr_observation_signals r))
         (list_to_set (default [] (sr_catalog_class_matched r))) (sr_oracle_progressed r) (sr_correlation_id r)).

(** ** The repositories *)
Record Tables : Type := mkTables { loops_table : dict CoreReasoningLoop; steps_table : dict CoreLoopStep }.

Context (scan : dict CoreLoopStep -> list CoreLoopStep).

Definition get (i : LoopId) : M Tables (option LoopState) :=
  o ← gets (fun t => PyDict.get i (loops_table t));
  match o with
  | Some r => s ← lift (to_state r); mret (Some s)
  | None => mret None
  end.

(** [session.merge]: an existing row of the same key is replaced. *)
Definition save (s : LoopState) : M Tables unit :=
  modify (fun t => mkTables (PyDict.set (ls_loop_id s) (from_state s) (loops_table t)) (steps_table t)).
Definition add (s : LoopStep) : M Tables unit :=
  modify (fun t => mkTables (loops_table t) (PyDict.set (step_id s) (from_step s) (steps_table t))).

Definition by_number (a b : CoreLoopStep) : Prop := sr_step_number a <= sr_step_number b.
#[export] Instance by_number_dec : RelDecision by_number := fun a b => decide (sr_step_number a <= sr_step_number b).

Definition list_for_loop (i : LoopId) : M Tables (list LoopStep) :=
  rows ← gets (fun t => merge_sort by_number (List.filter (fun r => bool_decide (sr_loop_id r = i)) (scan (steps_table t))));
  lift (mapM_outcome to_step rows).

(** *** The in-memory repositories *)
Record Memory : Type := mkMemory { mem_states : gmap LoopId LoopState; mem_steps : list LoopStep }.

Definition mem_lookup (i : LoopId) (m : Memory) : option LoopState := mem_states m !! i.
Definition mem_get (i : LoopId) : M Memory (option LoopState) := gets (mem_lookup i).
Definition mem_save (s : LoopState) : M Memory unit :=
  modify (fun m => mkMemory (<[ls_loop_id s := s]> (mem_states m)) (mem_steps m)).
Definition mem_add (s : LoopStep) : M Memory unit := modify (fun m => mkMemory (mem_states m) (mem_steps m ++ [s])).
Definition mem_list (i : LoopId) : M Memory (list LoopStep) :=
  gets (fun m => List.filter (fun s => bool_decide (st_loop_id s = i)) (mem_steps m)).

(** ** Reading back what was written *)

Lemma list_to_set_sorted (s : gset string) : list_to_set (sorted_set s) = s.
Proof. apply set_eq. intros x. unfold sorted_set. by rewrite elem_of_list_to_set, PyStr.elem_of_sorted, elem_of_elements. Qed.

Lemma make_loop_id_ok i : LoopModels.loop_id_ok i = true -> LoopModels.make_loop_id i = Ret i.
Proof. intros H. unfold LoopModels.make_loop_id. by rewrite H. Qed.

Lemma state_reads_back s : LoopModels.loop_id_ok (ls_loop_id s) = true -> to_state (from_state s) = Ret s.
Proof.
  intros Hi. unfold to_state, from_state. cbn [lr_loop_id]. rewrite make_loop_id_ok by done. cbn -[of_value value].
  rewrite of_value_value. cbn -[sorted_set]. rewrite !list_to_set_sorted. by destruct s as [? ? ? ? [] ? ? ? ? ? ? ? ? ? ?].
Qed.

Definition readable (s : LoopStep) : Prop :=
  LoopModels.loop_id_ok (st_loop_id s) = true /\ model_validate (model_dump (proposed_action s)) = Ret (proposed_action s).

Lemma step_reads_back s : readable s -> to_step (from_step s) = Ret s.
Proof.
  intros [Hi Ha]. unfold to_step, from_step. cbn [sr_loop_id sr_proposed_action]. rewrite make_loop_id_ok by done. cbn.
  rewrite Ha. cbn -[sorted_set]. destruct s as [? ? ? ? ? ? ? ? ? ? [v r o] ? ? ? ? ? ? ? ?]. cbn -[sorted_set]. rewrite list_to_set_sorted.
  unfold decision_from_json, decision_to_json. cbn. by destruct o, v.
Qed.

(** ** The tables behave as the memory *)
Inductive Op : Type := Save (s : LoopState) | Add (s : LoopStep) | Get (i : LoopId) | ListFor (i : LoopId).
Inductive Answer : Type := Done | Found (o : option LoopState) | Listed (l : list LoopStep).

Definition run_sql (o : Op) : M Tables Answer :=
  match o with
  | Save s => save s;; mret Done
  | Add s => add s;; mret Done
  | Get i => r ← get i; mret (Found r)
  | ListFor i => r ← list_for_loop i; mret (Listed r)
  end.
Definition run_mem (o : Op) : M Memory Answer :=
  match o with
  | Save s => mem_save s;; mret Done
  | Add s => mem_add s;; mret Done
  | Get i => r ← mem_get i; mret (Found r)
  | ListFor i => r ← mem_list i; mret (Listed r)
  end.

(** Identifiers are well formed, a step's identifier is new and its number is
    past those of its loop. *)
Definition admissible (o : Op) (m : Memory) : Prop :=
  match o with
  | Save s => LoopModels.loop_id_ok (ls_loop_id s) = true
  | Add s =>
      readable s /\ step_id s ∉ step_id <$> mem_steps m
      /\ Forall (fun x => st_loop_id x = st_loop_id s -> step_number x < step_number s) (mem_steps m)
  | _ => True
  end.
Fixpoint admissible_run (ops : list Op) (m : Memory) : Prop :=
  match ops with [] => True | o :: r => admissible o m /\ admissible_run r (run_mem o m).2 end.

Definition earlier (a b : LoopStep) : Prop := st_loop_id a = st_loop_id b -> step_number a < step_number b.

Record sim (t : Tables) (m : Memory) : Prop := {
  sim_loops : forall i, PyDict.get i (loops_table t) = from_state <$> mem_lookup i m;
  sim_ids : map_Forall (fun i s => ls_loop_id s = i /\ LoopModels.loop_id_ok i = true) (mem_states m);
  sim_steps : steps_table t = (fun s => (step_id s, from_step s)) <$> mem_steps m;
  sim_readable : Forall readable (mem_steps m);
  sim_order : StronglySorted earlier (mem_steps m)
}.

Lemma StronglySorted_snoc {A} (R : relation A) l x : StronglySorted R l -> Forall (fun y => R y x) l -> StronglySorted R (l ++ [x]).
Proof.
  intros Hs. induction Hs as [|y l Hs IH Hy]; intros H; [repeat constructor|]. apply Forall_cons in H as [Hyx H].
  cbn. constructor; [by apply IH|]. apply Forall_app. by split; [|constructor].
Qed.

Lemma Permutation_filter_bool {A} (P : A -> bool) l l' : l ≡ₚ l' -> List.filter P l ≡ₚ List.filter P l'.
Proof.
  induction 1 as [|x l l' _ IH|x y l|l l2 l3 _ IH1 _ IH2]; cbn; [done| | |by etrans].
  - destruct (P x); by rewrite IH.
  - destruct (P x), (P y); (done || apply Permutation_swap).
Qed.

Lemma StronglySorted_filter {A} (R : relation A) (P : A -> bool) l : StronglySorted R l -> StronglySorted R (List.filter P l).
Proof.
  induction 1 as [|y l Hs IH Hy]; [constructor|]. cbn. destruct (P y); [|done]. constructor; [done|].
  rewrite Forall_forall in *. intros z Hz%elem_filter. apply Hy, Hz.
Qed.

Lemma earlier_distinct l a b :
  StronglySorted earlier l -> a ∈ l -> b ∈ l -> st_loop_id a = st_loop_id b -> step_number a = step_number b -> a = b.
Proof.
  intros Hs. induction Hs as [|y l Hs IH Hy]; intros Ha Hb Hi Hn; [by apply elem_of_nil in Ha|]. pose proof (proj1 (Forall_forall _ _) Hy) as Hy'.
  apply elem_of_cons in Ha. apply elem_of_cons in Hb. destruct Ha as [->|Ha], Hb as [->|Hb]; [done| | |by apply IH].
  - pose proof (Hy' b Hb Hi). lia.
  - pose proof (Hy' a Ha (eq_sym Hi)). lia.
Qed.

#[local] Instance by_number_total : Total by_number.
Proof. intros a b. unfold by_number. lia. Qed.

Lemma numbers_sorted i l :
  StronglySorted earlier l -> Forall (fun s => st_loop_id s = i) l -> StronglySorted by_number (from_step <$> l).
Proof.
  induction 1 as [|y l Hs IH Hy]; intros Hi; [constructor|]. apply Forall_cons in Hi as [Hyi Hi].
  cbn. constructor; [by apply IH|]. apply Forall_fmap. rewrite Forall_forall in *. intros z Hz. unfold by_number. cbn.
  assert (step_number y < step_number z) by (apply (Hy z Hz); by rewrite Hyi, (Hi z Hz)). lia.
Qed.

Context (scan_complete : forall d, scan d ≡ₚ PyDict.values d).

Lemma listing t m i : sim t m -> list_for_loop i t = (Ret (List.filter (fun s => bool_decide (st_loop_id s = i)) (mem_steps m)), t).
Proof.
  intros [_ _ Ht Hr Ho]. unfold list_for_loop, gets, lift, mbind, M_bind.
  set (L := List.filter (fun s => bool_decide (st_loop_id s = i)) (mem_steps m)).
  assert (HL : Forall (fun s => st_loop_id s = i) L).
  { apply Forall_forall. intros s [_ Hs]%elem_filter. by apply bool_decide_eq_true in Hs. }
  assert (HoL : StronglySorted earlier L) by (by apply StronglySorted_filter).
  assert (Hp : List.filter (fun r => bool_decide (sr_loop_id r = i)) (scan (steps_table t)) ≡ₚ from_step <$> L).
  { etrans; [apply Permutation_filter_bool, scan_complete|]. rewrite Ht. unfold PyDict.values. rewrite <- list_fmap_compose. unfold L.
    clear. induction (mem_steps m) as [|s l IH]; [done|]. cbn in *. destruct (decide (st_loop_id s = i)); [rewrite !bool_decide_true by done; cbn; by rewrite IH|by rewrite !bool_decide_false]. }
  assert (Hsort : merge_sort by_number (List.filter (fun r => bool_decide (sr_loop_id r = i)) (scan (steps_table t))) = from_step <$> L).
  { apply (StronglySorted_unique_strong by_number).
    - intros x y Hx Hy Hxy Hyx. rewrite merge_sort_Permutation, Hp in Hx.
      apply list_elem_of_fmap in Hx as (a & -> & Ha). apply list_elem_of_fmap in Hy as (b & -> & Hb). unfold by_number in *. cbn in *. f_equal.
      rewrite Forall_forall in HL. apply (earlier_distinct L); [done..| |lia]. by rewrite (HL a Ha), (HL b Hb).
    - apply Sorted_StronglySorted; [intros a b c; unfold by_number; lia|]. apply (Sorted_merge_sort _).
    - by apply (numbers_sorted i).
    - by rewrite merge_sort_Permutation. }
  rewrite Hsort. f_equal. apply mapM_outcome_Ret. rewrite Forall2_fmap_l. apply Forall_Forall2_diag.
  apply Forall_forall. intros s Hs. apply step_reads_back. rewrite Forall_forall in Hr. apply Hr. by apply elem_filter in Hs as [? _].
Qed.

Lemma run_sim o t m : sim t m -> admissible o m ->
  (run_sql o t).1 = (run_mem o m).1 /\ sim (run_sql o t).2 (run_mem o m).2.
Proof.
  intros Hsim Ha. destruct o as [s|s|i|i].
  - destruct Hsim as [Hl Hid Ht Hr Ho]. split; [done|]. cbn. split; try done.
    + intros i. change (PyDict.get i (PyDict.set (ls_loop_id s) (from_state s) (loops_table t)) = from_state <$> <[ls_loop_id s := s]> (mem_states m) !! i).
      rewrite PyDict.get_set. case_decide as E; [subst; by rewrite lookup_insert_eq|]. rewrite lookup_insert_ne by done. apply Hl.
    + by apply map_Forall_insert_2.
  - destruct Hsim as [Hl Hid Ht Hr Ho]. destruct Ha as (Hrd & Hnew & Hlt). split; [done|]. split; try done.
    + change (PyDict.set (step_id s) (from_step s) (steps_table t) = (fun s => (step_id s, from_step s)) <$> mem_steps m ++ [s]).
      rewrite Ht, PyDict.keys_set_notin, fmap_app; [done|]. unfold PyDict.keys. by rewrite <- list_fmap_compose.
    + apply Forall_app. by split; [|constructor].
    + by apply StronglySorted_snoc.
  - pose proof (sim_loops t m Hsim i) as Hg. pose proof (sim_ids t m Hsim i) as Hi.
    unfold run_sql, run_mem, get, mem_get, gets, lift, mbind, M_bind. rewrite Hg.
    unfold map_Forall in Hi. change (mem_states m !! i) with (mem_lookup i m) in Hi.
    destruct (mem_lookup i m) as [s|] eqn:E; cbn [fmap option_fmap option_map]; [|exact (conj eq_refl Hsim)].
    destruct (Hi s eq_refl) as [Hid Hok]. rewrite <- Hid in Hok. by rewrite state_reads_back.
  - unfold run_sql, run_mem, mem_list, gets, mbind, M_bind. rewrite (listing t m i Hsim). exact (conj eq_refl Hsim).
Qed.

Fixpoint run_all {S} (run : Op -> M S Answer) (ops : list Op) (s : S) : list (outcome Answer) :=
  match ops with [] => [] | o :: r => (run o s).1 :: run_all run r (run o s).2 end.

(** C34: the database is the memory. Over any sequence of saves, additions,
    reads and listings of well-formed loops and of steps with new identifiers
    and increasing numbers, whatever order the database scans in, the SQL
    repositories give the answers of the in-memory ones: every loop and step
    comes back field by field, and the steps in the order they were taken. *)
Theorem loop_store_refines_memory ops :
  admissible_run ops (mkMemory ∅ []) ->
  run_all run_sql ops (mkTables [] []) = run_all run_mem ops (mkMemory ∅ []).
Proof.
  assert (Hgen : forall ops t m, sim t m -> admissible_run ops m -> run_all run_sql ops t = run_all run_mem ops m).
  { clear ops. induction ops as [|o ops IH]; intros t m Hs Ha; [done|]. destruct Ha as [Ho Ha]. cbn [run_all].
    destruct (run_sim o t m Hs Ho) as [E Hs']. rewrite E. f_equal. by apply IH. }
  apply Hgen. split; [done|apply map_Forall_empty|done|constructor|constructor].
Qed.

End store.

(** ** A run *)
Definition demo_state : LoopState :=
  mkLoopState LoopDemo.i0 "a1" LoopPhase.CONVERGED "snap" LoopModels.default_budget "" {["WSTG-ATHN-01"]} ∅ 5 0 0 (Some 7) 0 None None.
Definition demo_step (id : string) (n : Z) : LoopStep :=
  mkStep id LoopDemo.i0 n 0 "" LoopDemo.action 100 0 "why" true (mkDecision true "ok" None) (Some "p") (JStr "nmap") "" [] [] ∅ false "".
Definition demo_dump (a : ProposeAction) : list (string * json) := [].
Definition demo_validate (d : list (string * json)) : outcome ProposeAction := Ret LoopDemo.action.

Lemma loop_store_refines_memory_witness :
  let ops := [Save demo_state; Add (demo_step "b" 1); Add (demo_step "a" 2); Get LoopDemo.i0; ListFor LoopDemo.i0] in
  run_all (run_sql demo_dump demo_validate (fun d => rev (PyDict.values d))) ops (mkTables [] [])
  = [Ret Done; Ret Done; Ret Done; Ret (Found (Some demo_state)); Ret (Listed [demo_step "b" 1; demo_step "a" 2])].
Proof.
  cbn zeta. rewrite (loop_store_refines_memory demo_dump demo_validate (fun d => rev (PyDict.values d))).
  - vm_compute. reflexivity.
  - intros d. symmetry. apply Permutation_rev.
  - cbn. split_and!; try done; try (by apply not_elem_of_nil).
    + by intros [?|?%elem_of_nil]%elem_of_cons.
    + constructor; [|done]. done.
Defined.

(** A loop keeps no identifier of its requests: the column is always empty. *)
Lemma correlation_is_empty s : lr_correlation_id (from_state s) = "".
Proof. done. Qed.

(** A step whose identifier is taken replaces the stored one: the step of
    another loop disappears, while the memory keeps both. *)
Example taken_step_id_overwrites :
  let scan := fun d => PyDict.values d in
  let other := mkStep "b" "ffffffff" 1 0 "" LoopDemo.action 100 0 "why" true (mkDecision true "ok" None) None JNull "" [] [] ∅ false "" in
  let ops := [Add (demo_step "b" 1); Add other; ListFor LoopDemo.i0] in
  nth_error (run_all (run_sql demo_dump demo_validate scan) ops (mkTables [] [])) 2 = Some (Ret (Listed []))
  /\ nth_error (run_all run_mem ops (mkMemory ∅ [])) 2 = Some (Ret (Listed [demo_step "b" 1])).
Proof. vm_compute. done. Qed.

End LoopStore.
