(* ===== verification/Health.v ===== *)
(** * Knowledge health

    Models [src/secopent/application/health.py]: the detectors of the
    knowledge layer and the coverage regression gate.  The probes are
    parameters, which may raise.  A rate is the exact fraction
    covered/total; the program compares the rounded quotients, which order
    the same way as long as the totals are below 2^26.  The texts of a rate
    (in a message and in the audit payload) are parameters. *)
From S2P Require Import Prelude PyStr PyTime PyFloat Sha256 Canonical PyJson PyDict AuditTrail Updates Catalog.

#[local] Open Scope Z_scope.

Module HealthAlertKind.
Inductive t : Type :=
| SOURCE_STALE | CURATION_LAG | COVERAGE_REGRESSION | SOURCE_UNREACHABLE | SIGNATURE_INVALID.
#[export] Instance eq_dec : EqDecision t.
Proof. solve_decision. Defined.
Definition to_string (k : t) : string :=
  match k with
  | SOURCE_STALE => "source_stale" | CURATION_LAG => "curation_lag"
  | COVERAGE_REGRESSION => "coverage_regression" | SOURCE_UNREACHABLE => "source_unreachable"
  | SIGNATURE_INVALID => "signature_invalid"
  end.
#[export] Program Instance strenum : StrEnum t :=
  { value := to_string;
    members := [SOURCE_STALE; CURATION_LAG; COVERAGE_REGRESSION; SOURCE_UNREACHABLE; SIGNATURE_INVALID] }.
Next Obligation. solve_members. Qed.
Next Obligation. solve_value_inj. Qed.
End HealthAlertKind.
Notation HealthAlertKind := HealthAlertKind.t.

Record HealthAlert : Type := mkAlert {
  alert_kind : HealthAlertKind;
  alert_source : string;
  alert_details : list (string * json)
}.

(** The monitor's configuration and its probes. *)
Record Monitor : Type := mkMonitor {
  days_since_last_commit_for : string -> outcome Z;
  unmapped_upstream_tags : string -> outcome Z;
  is_reachable : string -> outcome bool;
  last_signature_valid : outcome bool;
  stale_threshold_days : Z;
  curation_lag_threshold : Z;
  sources : list string;
  intel_sources : list string
}.

Module Health.
Import HealthAlertKind.

(** The constructor's checks. *)
Definition make_monitor (m : Monitor) : outcome Monitor :=
  raise_if (stale_threshold_days m <? 1)
    (DomainValidationError ("stale_threshold_days must be >= 1, got " +:+ pretty (stale_threshold_days m)));;
  raise_if (curation_lag_threshold m <? 1)
    (DomainValidationError ("curation_lag_threshold must be >= 1, got " +:+ pretty (curation_lag_threshold m)));;
  Ret m.

(** One detector: probe every source in order, and keep the alerts. *)
Fixpoint detect (probe : string -> outcome (option HealthAlert)) (l : list string) : outcome (list HealthAlert) :=
  match l with
  | [] => Ret []
  | s :: r =>
      a ← probe s;
      rest ← detect probe r;
      Ret (match a with Some a => a :: rest | None => rest end)
  end.

Section monitor.
Context (m : Monitor).

Definition check_source_stale : outcome (list HealthAlert) :=
  detect (fun s =>
    days ← days_since_last_commit_for m s;
    Ret (if stale_threshold_days m <? days
         then Some (mkAlert SOURCE_STALE s [("days_since_last_commit", JInt days);
                                             ("threshold_days", JInt (stale_threshold_days m))])
         else None)) (sources m).

Definition check_curation_lag : outcome (list HealthAlert) :=
  detect (fun s =>
    unmapped ← unmapped_upstream_tags m s;
    Ret (if curation_lag_threshold m <=? unmapped
         then Some (mkAlert CURATION_LAG s [("unmapped_upstream_count", JInt unmapped);
                                             ("threshold", JInt (curation_lag_threshold m))])
         else None)) (sources m).

Definition check_source_unreachable : outcome (list HealthAlert) :=
  detect (fun s =>
    up ← is_reachable m s;
    Ret (if (up : bool) then None else Some (mkAlert SOURCE_UNREACHABLE s [("degraded_to", JStr "cache")])))
    (intel_sources m).

Definition check_signature_invalid : outcome (list HealthAlert) :=
  valid ← last_signature_valid m;
  Ret (if (valid : bool) then [] else [mkAlert SIGNATURE_INVALID "update_bundle" [("last_verify_ok", JBool false)]]).

Definition check_all : outcome (list HealthAlert) :=
  stale ← check_source_stale;
  lag ← check_curation_lag;
  down ← check_source_unreachable;
  sig ← check_signature_invalid;
  Ret (stale ++ lag ++ down ++ sig).
End monitor.

(** ** The coverage regression gate *)
Section gate.
Context (audit_ok : AuditCall -> outcome unit).
Context (rate_text : Z * Z -> string) (rate_json : Z * Z -> json).

(** [new_rate >= old_rate] *)
Definition not_lower (new old : Z * Z) : bool := old.1 * new.2 <=? new.1 * old.2.

(** [bool(text and text.strip())] *)
Definition provided (text : option string) : bool :=
  match text with Some t => PyStr.truthy t && PyStr.truthy (PyStr.strip t) | None => false end.

Definition enforce_coverage_gate (new_matrix old_matrix : CoverageMatrix) (override_reason roadmap : option string)
  : M (list AuditCall) unit :=
  let old_rate := Catalog.matrix_rate old_matrix in
  let new_rate := Catalog.matrix_rate new_matrix in
  if not_lower new_rate old_rate then mret tt
  else
    let reason_provided := provided override_reason in
    let roadmap_provided := provided roadmap in
    lift (raise_if (negb reason_provided && negb roadmap_provided)
      (DomainValidationError ("coverage regression blocked publish: old_rate=" +:+ rate_text old_rate
         +:+ " new_rate=" +:+ rate_text new_rate)));;
    lift (raise_if (reason_provided && negb roadmap_provided)
      (DomainValidationError "coverage regression override requires both; roadmap is missing"));;
    lift (raise_if (negb reason_provided && roadmap_provided)
      (DomainValidationError "coverage regression override requires both; override_reason is missing"));;
    let call := mkCall "health-monitor" "coverage.override" "coverage_matrix" (cm_version new_matrix)
      [("old_version", JStr (cm_version old_matrix)); ("new_version", JStr (cm_version new_matrix));
       ("old_rate", rate_json old_rate); ("new_rate", rate_json new_rate);
       ("override_reason", Canonical.jopt JStr override_reason); ("roadmap", Canonical.jopt JStr roadmap)] in
    lift (audit_ok call);;
    modify (fun log => log ++ [call]).
End gate.

(** ** What the monitor reports *)

Lemma detect_Ret probe l r :
  detect probe l = Ret r ->
  (forall a, a ∈ r <-> exists s, s ∈ l /\ probe s = Ret (Some a))
  /\ Forall (fun s => is_Ret (probe s) = true) l.
Proof.
  revert r. induction l as [|s l IH]; intros r; cbn.
  - intros [= <-]. split; [|by constructor]. intros a. split; [by intros ?%elem_of_nil|].
    by intros (s & ?%elem_of_nil & _).
  - intros H. inv_ret. destruct (IH _ H0) as [Ha Hall]. split.
    + intros a. destruct x as [b|]; rewrite ?elem_of_cons, Ha; split.
      * intros [->|(s' & Hs & Hp)]; [exists s|exists s']; (split; [set_solver|done]).
      * intros (s' & [->|Hs]%elem_of_cons & Hp); [left; congruence|right; by exists s'].
      * intros (s' & Hs & Hp). exists s'. split; [set_solver|done].
      * intros (s' & [->|Hs]%elem_of_cons & Hp); [congruence|by exists s'].
    + constructor; [by rewrite H|done].
Qed.

(** The report is exact. When no probe fails, [check_all] alerts on exactly
    the sources whose last commit is older than the threshold, those with at
    least the threshold of unmapped tags, the intelligence sources that do not
    answer, and the last signature when it was invalid; it never reports a
    coverage regression. *)
Theorem health_report_is_exact m r :
  check_all m = Ret r ->
  (forall a, a ∈ r <->
     (exists s d, s ∈ sources m /\ days_since_last_commit_for m s = Ret d /\ stale_threshold_days m < d
        /\ a = mkAlert SOURCE_STALE s [("days_since_last_commit", JInt d); ("threshold_days", JInt (stale_threshold_days m))])
     \/ (exists s n, s ∈ sources m /\ unmapped_upstream_tags m s = Ret n /\ curation_lag_threshold m <= n
        /\ a = mkAlert CURATION_LAG s [("unmapped_upstream_count", JInt n); ("threshold", JInt (curation_lag_threshold m))])
     \/ (exists s, s ∈ intel_sources m /\ is_reachable m s = Ret false
        /\ a = mkAlert SOURCE_UNREACHABLE s [("degraded_to", JStr "cache")])
     \/ (last_signature_valid m = Ret false
        /\ a = mkAlert SIGNATURE_INVALID "update_bundle" [("last_verify_ok", JBool false)]))
  /\ forall a, a ∈ r -> alert_kind a <> COVERAGE_REGRESSION.
Proof.
  intros Hr.
  match goal with |- ?A /\ _ => assert (Hex : A); [|split; [exact Hex|]] end.
  - unfold check_all in Hr. inv_ret. intros a.
    apply detect_Ret in H as [Hs _]. apply detect_Ret in H0 as [Hl _]. apply detect_Ret in H1 as [Hd _].
    rename x2 into sig, H2 into Hsig. unfold check_signature_invalid in Hsig.
    destruct (last_signature_valid m) as [valid|] eqn:Ev; [|done]. cbn in Hsig. injection Hsig as <-.
    rewrite !elem_of_app, Hs, Hl, Hd. apply Morphisms_Prop.or_iff_morphism; [|apply Morphisms_Prop.or_iff_morphism; [|apply Morphisms_Prop.or_iff_morphism]].
    + split.
      * intros (s & Hin & Hp). destruct (days_since_last_commit_for m s) as [d|] eqn:Ed; cbn in Hp; [|done].
        destruct (Z.ltb_spec (stale_threshold_days m) d); [|done]. injection Hp as <-. by exists s, d.
      * intros (s & d & Hin & Hp & Hlt & ->). exists s. split; [done|]. rewrite Hp. cbn.
        by rewrite (proj2 (Z.ltb_lt _ _) Hlt).
    + split.
      * intros (s & Hin & Hp). destruct (unmapped_upstream_tags m s) as [n|] eqn:En; cbn in Hp; [|done].
        destruct (Z.leb_spec (curation_lag_threshold m) n); [|done]. injection Hp as <-. by exists s, n.
      * intros (s & n & Hin & Hp & Hle & ->). exists s. split; [done|]. rewrite Hp. cbn.
        by rewrite (proj2 (Z.leb_le _ _) Hle).
    + split.
      * intros (s & Hin & Hp). destruct (is_reachable m s) as [[]|] eqn:Eu; cbn in Hp; [done| |done].
        injection Hp as <-. by exists s.
      * intros (s & Hin & Hp & ->). exists s. split; [done|]. by rewrite Hp.
    + destruct valid; split; try by intros ?%elem_of_nil.
      * by intros [[=] _].
      * intros [->|?%elem_of_nil]%elem_of_cons; done.
      * intros [_ ->]. by constructor.
  - intros a. rewrite Hex. intros [(s & d & _ & _ & _ & ->)|[(s & n & _ & _ & _ & ->)|[(s & _ & _ & ->)|[_ ->]]]]; done.
Qed.

Lemma not_lower_spec new old :
  0 < (Catalog.matrix_rate new).2 -> 0 < (Catalog.matrix_rate old).2 ->
  not_lower (Catalog.matrix_rate new) (Catalog.matrix_rate old) = true
  <-> Catalog.covered_items old * total_items new <= Catalog.covered_items new * total_items old.
Proof. intros _ _. unfold not_lower, Catalog.matrix_rate. cbn. apply Z.leb_le. Qed.

(** No silent regression. The gate lets a matrix through exactly when its
    covered fraction is not lower, and then records nothing, or when both a
    reason and a roadmap that are not blank are given and the audit takes the
    override, and then it records exactly that one event; in every other case
    it raises and the log is as before. *)
Theorem coverage_never_regresses_silently audit_ok rate_text rate_json new old reason roadmap log m m' :
  Catalog.make_matrix m = Ret new -> Catalog.make_matrix m' = Ret old ->
  let not_lower := Catalog.covered_items old * total_items new <= Catalog.covered_items new * total_items old in
  let r := enforce_coverage_gate audit_ok rate_text rate_json new old reason roadmap log in
  (r.1 = Ret tt <->
     not_lower \/ (exists c, provided reason = true /\ provided roadmap = true /\ audit_ok c = Ret tt
                    /\ r.2 = log ++ [c] /\ call_action c = "coverage.override"
                    /\ call_rid c = cm_version new))
  /\ (not_lower -> r.2 = log)
  /\ (is_Ret r.1 = false -> r.2 = log).
Proof.
  intros Hn Ho nl r. apply Catalog.matrix_rate_bounds in Hn as [_ Hn], Ho as [_ Ho].
  pose proof (not_lower_spec new old Hn Ho) as Hs. fold nl in Hs.
  unfold r, enforce_coverage_gate. destruct (Health.not_lower _ _) eqn:E.
  { cbn. split_and!; [|done|done]. split; [|done]. intros _. left. by apply Hs. }
  assert (Hnl : ~ nl) by (rewrite <- Hs; done). clear Hs.
  destruct (provided reason) eqn:Er, (provided roadmap) eqn:Em;
    unfold lift, modify, mbind, M_bind; cbn; (split_and!; [split|done|]); try done;
    try (by intros [?|(c & ? & ? & _)]; [done|congruence]).
  - destruct (audit_ok _) as [[]|] eqn:Ea; cbn; [|done]. intros _. right. eexists. by split_and!.
  - intros [?|(c & _ & _ & _ & Hlog & _)]; [done|]. destruct (audit_ok _) as [[]|] eqn:Ea; cbn in *; [done|].
    exfalso. apply (f_equal length) in Hlog. rewrite length_app in Hlog. cbn in Hlog. lia.
  - by destruct (audit_ok _) as [[]|].
Qed.

(** ** Concrete runs *)
Definition demo_monitor : Monitor :=
  mkMonitor (fun _ => Ret 9) (fun _ => Ret 3) (fun _ => Ret false) (Ret true) 7 100 ["nuclei-templates"] ["osv"].

Lemma health_report_is_exact_witness :
  exists r a, check_all demo_monitor = Ret r /\ a ∈ r /\ alert_kind a = SOURCE_UNREACHABLE.
Proof.
  destruct (health_report_is_exact demo_monitor _ eq_refl) as [H _].
  eexists _, _. split; [reflexivity|]. split.
  - apply H. right. right. left. exists "osv". split; [constructor|]. split; reflexivity.
  - reflexivity.
Defined.

Definition demo_matrix (n : nat) : CoverageMatrix :=
  mkMatrix ("v" +:+ pretty n) "owasp" ((fun i => ("item" +:+ pretty i, ["c"])) <$> seq 0 n) 10 "d".

Lemma coverage_never_regresses_silently_witness :
  let gate reason := enforce_coverage_gate (fun _ => Ret tt) (fun _ => "") (fun _ => JNull)
    (demo_matrix 3) (demo_matrix 5) reason (Some "plan") in
  ((gate (Some " ")) []).2 = [] /\ length ((gate (Some "moved items")) []).2 = 1%nat.
Proof.
  intros gate. split; [|vm_compute; reflexivity].
  refine (proj2 (proj2 (coverage_never_regresses_silently (fun _ => Ret tt) (fun _ => "") (fun _ => JNull)
    (demo_matrix 3) (demo_matrix 5) (Some " ") (Some "plan") [] (demo_matrix 3) (demo_matrix 5) _ _)) _);
    vm_compute; reflexivity.
Defined.
End Health.
