(* ===== verification/AppModels.v ===== *)
(** * Application models: lifecycle, registry and the tests derived from them

    Models [src/secopent/domain/appmodel/models.py] and [lifecycle.py],
    [application/appmodels.py] (Module [AppModelService]),
    [application/model_builder.py] (Module [ModelBuilder]),
    [application/model_registry.py] (Module [ModelRegistry]),
    [application/drift_detector.py] (Module [Drift]).  A field's range holds
    JSON-like values; a value [canonical_json] refuses is outside the model.
    Signers are arguments. *)
From S2P Require Import Prelude PyStr Canonical PyJson PyText.
From Stdlib Require String.

#[local] Open Scope Z_scope.

Module AppModelStatus.
Inductive t : Type := DRAFT | LLM_PROPOSED | HUMAN_VALIDATED | SIGNED | PUBLISHED | SUPERSEDED.
#[export] Instance eq_dec : EqDecision t.
Proof. solve_decision. Defined.
Definition to_string (s : t) : string :=
  match s with
  | DRAFT => "draft" | LLM_PROPOSED => "llm_proposed" | HUMAN_VALIDATED => "human_validated" | SIGNED => "signed"
  | PUBLISHED => "published" | SUPERSEDED => "superseded"
  end.
#[export] Program Instance strenum : StrEnum t :=
  { value := to_string; members := [DRAFT; LLM_PROPOSED; HUMAN_VALIDATED; SIGNED; PUBLISHED; SUPERSEDED] }.
Next Obligation. solve_members. Qed.
Next Obligation. solve_value_inj. Qed.

Definition VALID_TRANSITIONS (s : t) : list t :=
  match s with
  | DRAFT => [LLM_PROPOSED; HUMAN_VALIDATED]
  | LLM_PROPOSED => [HUMAN_VALIDATED; DRAFT]
  | HUMAN_VALIDATED => [SIGNED]
  | SIGNED => [PUBLISHED]
  | PUBLISHED => [SUPERSEDED]
  | SUPERSEDED => []
  end.
Definition can_transition (source target : t) : bool := bool_decide (target ∈ VALID_TRANSITIONS source).
End AppModelStatus.
Notation AppModelStatus := AppModelStatus.t.
Export (hints) AppModelStatus.

Record Transition : Type := mkTransition {
  tr_id : string;
  from_state : string;
  to_state : string;
  endpoint : string;
  tr_params : list string;
  idempotent : bool
}.

Record Invariant : Type := mkInvariant { inv_id : string; inv_expr : string }.

Record Field : Type := mkField {
  fl_name : string;
  fl_type : string;
  fl_range : option (list json);
  trusted_source : string
}.

Record Role : Type := mkRole { rl_id : string; rl_capabilities : list string }.

Record AppModel : Type := mkModel {
  app_id : string;
  am_version : string;
  states : list string;
  transitions : list Transition;
  invariants : list Invariant;
  fields : list Field;
  roles : list Role;
  idempotency : list (string * bool);
  out_of_scope_rules : list string;
  am_status : AppModelStatus;
  am_digest : string;
  am_signature : option string
}.

(** [replace(model, ..)] *)
Definition with_am_status (s : AppModelStatus) (m : AppModel) : AppModel :=
  mkModel (app_id m) (am_version m) (states m) (transitions m) (invariants m) (fields m) (roles m) (idempotency m)
    (out_of_scope_rules m) s (am_digest m) (am_signature m).
Definition with_am_signature (g : option string) (m : AppModel) : AppModel :=
  mkModel (app_id m) (am_version m) (states m) (transitions m) (invariants m) (fields m) (roles m) (idempotency m)
    (out_of_scope_rules m) (am_status m) (am_digest m) g.
Definition with_am_digest (d : string) (m : AppModel) : AppModel :=
  mkModel (app_id m) (am_version m) (states m) (transitions m) (invariants m) (fields m) (roles m) (idempotency m)
    (out_of_scope_rules m) (am_status m) d (am_signature m).
Definition with_app_id (i : string) (m : AppModel) : AppModel :=
  mkModel i (am_version m) (states m) (transitions m) (invariants m) (fields m) (roles m) (idempotency m)
    (out_of_scope_rules m) (am_status m) (am_digest m) (am_signature m).

Module AppModels.

Definition nonempty (s name : string) : outcome unit :=
  raise_if (PyStr.is_empty s) (DomainValidationError (name +:+ " must be non-empty")).

Definition check_transition (t : Transition) : outcome Transition :=
  nonempty (tr_id t) "Transition.id";; nonempty (from_state t) "Transition.from_state";;
  nonempty (to_state t) "Transition.to_state";; nonempty (endpoint t) "Transition.endpoint";; Ret t.
Definition check_invariant (i : Invariant) : outcome Invariant :=
  nonempty (inv_id i) "Invariant.id";; nonempty (inv_expr i) "Invariant.expr";; Ret i.
Definition check_field (f : Field) : outcome Field :=
  nonempty (fl_name f) "Field.name";; nonempty (fl_type f) "Field.type";;
  raise_if (negb (bool_decide (trusted_source f ∈ ["server"; "client"])))
    (DomainValidationError "Field.trusted_source must be 'server' or 'client'");; Ret f.
Definition check_role (r : Role) : outcome Role := nonempty (rl_id r) "Role.id";; Ret r.

(** [dataclasses.asdict], which [canonical_json] applies to the parts. *)
Definition transition_json (t : Transition) : json :=
  JObj [("id", JStr (tr_id t)); ("from_state", JStr (from_state t)); ("to_state", JStr (to_state t));
        ("endpoint", JStr (endpoint t)); ("params", Canonical.jstrs (tr_params t)); ("idempotent", JBool (idempotent t))].
Definition invariant_json (i : Invariant) : json := JObj [("id", JStr (inv_id i)); ("expr", JStr (inv_expr i))].
Definition field_json (f : Field) : json :=
  JObj [("name", JStr (fl_name f)); ("type", JStr (fl_type f)); ("range", Canonical.jopt JArr (fl_range f));
        ("trusted_source", JStr (trusted_source f))].
Definition role_json (r : Role) : json :=
  JObj [("id", JStr (rl_id r)); ("capabilities", Canonical.jstrs (rl_capabilities r))].

Definition content_payload (m : AppModel) : json :=
  JObj [("app_id", JStr (app_id m)); ("version", JStr (am_version m)); ("states", Canonical.jstrs (states m));
        ("transitions", JArr (transition_json <$> transitions m)); ("invariants", JArr (invariant_json <$> invariants m));
        ("fields", JArr (field_json <$> fields m)); ("roles", JArr (role_json <$> roles m));
        ("idempotency", JArr ((fun p => JArr [JStr p.1; JBool p.2]) <$> idempotency m));
        ("out_of_scope_rules", Canonical.jstrs (out_of_scope_rules m))].
Definition content_digest (m : AppModel) : string := Canonical.canonical_digest (content_payload m).

(** [AppModel(..)] and [replace]: a digest that is given is kept. *)
Definition make_model (m : AppModel) : outcome AppModel :=
  nonempty (app_id m) "AppModel.app_id";;
  nonempty (am_version m) "AppModel.version";;
  raise_if (bool_decide (states m = [])) (DomainValidationError "AppModel.states must be non-empty");;
  Ret (if PyStr.is_empty (am_digest m) then with_am_digest (content_digest m) m else m).

(** [AppModel(app_id=.., .., status=s)]: the content of [m] alone. *)
Definition fresh (version : string) (s : AppModelStatus) (m : AppModel) : AppModel :=
  mkModel (app_id m) version (states m) (transitions m) (invariants m) (fields m) (roles m) (idempotency m)
    (out_of_scope_rules m) s "" None.

Lemma model_nonempty_Ret s name u : nonempty s name = Ret u <-> s <> "".
Proof.
  unfold nonempty, raise_if. destruct u, (PyStr.is_empty s) eqn:E.
  - apply PyStr.is_empty_true in E. naive_solver.
  - apply PyStr.is_empty_false in E. naive_solver.
Qed.

(** A model the constructor returns. *)
Record wf (m : AppModel) : Prop := {
  wf_id : app_id m <> "";
  wf_version : am_version m <> "";
  wf_states : states m <> [];
  wf_digest : am_digest m <> ""
}.

Lemma digest_not_empty j : Canonical.canonical_digest j <> "".
Proof. done. Qed.

Lemma make_model_Ret m m' :
  make_model m = Ret m' <->
  app_id m <> "" /\ am_version m <> "" /\ states m <> []
  /\ m' = (if PyStr.is_empty (am_digest m) then with_am_digest (content_digest m) m else m).
Proof.
  unfold make_model. split.
  - intros H. inv_ret. apply model_nonempty_Ret in H, H0. breflect. done.
  - intros (H1 & H2 & H3 & ->). apply (model_nonempty_Ret _ "AppModel.app_id" tt) in H1 as ->.
    apply (model_nonempty_Ret _ "AppModel.version" tt) in H2 as ->. cbn [mbind outcome_bind].
    by rewrite bool_decide_false.
Qed.

Lemma make_model_wf m : wf m -> make_model m = Ret m.
Proof. intros []. apply make_model_Ret. rewrite (proj2 (PyStr.is_empty_false _)) by done. done. Qed.

Lemma make_model_is_wf m m' : make_model m = Ret m' -> wf m'.
Proof.
  intros (H1 & H2 & H3 & ->)%make_model_Ret. destruct (PyStr.is_empty (am_digest m)) eqn:E; [done|].
  apply PyStr.is_empty_false in E. done.
Qed.

Lemma wf_with_status s m : wf m -> wf (with_am_status s m).
Proof. by intros []. Qed.
Lemma wf_with_signature g m : wf m -> wf (with_am_signature g m).
Proof. by intros []. Qed.

End AppModels.
#[export] Hint Resolve AppModels.wf_with_status AppModels.wf_with_signature : py.

(** ** [AppModelService] *)
Module AppModelService.
Import AppModels.

Notation Registry := (gmap (string * string) AppModel).

Definition key (m : AppModel) : string * string := (app_id m, am_version m).
Definition put (m : AppModel) : M Registry unit := modify (<[key m := m]>).

Definition key_le (a b : string * string) : Prop := a.1 <> b.1 /\ String.le a.1 b.1 \/ a.1 = b.1 /\ String.le a.2 b.2.
#[export] Instance key_le_dec : RelDecision key_le.
Proof. intros a b. unfold key_le. apply _. Defined.

Definition list_all (r : Registry) : list AppModel := omap (fun k => r !! k) (merge_sort key_le (elements (dom r))).

Definition get (k : string * string) : M Registry AppModel :=
  o ← gets (lookup k); lift (unwrap o (AppModelNotFoundError ("app model not found: " +:+ k.1 +:+ "@" +:+ k.2))).

Definition create (m : AppModel) (proposed : bool) : M Registry AppModel :=
  draft ← lift (make_model (with_am_status (if proposed then AppModelStatus.LLM_PROPOSED else AppModelStatus.DRAFT) m));
  put draft;; mret draft.

Definition create_proposed (m : AppModel) : M Registry AppModel :=
  proposed ← lift (make_model (with_am_status AppModelStatus.LLM_PROPOSED m)); put proposed;; mret proposed.

Definition update (m : AppModel) : M Registry AppModel :=
  existing ← get (key m);
  lift (raise_if (negb (bool_decide (am_status existing ∈ [AppModelStatus.DRAFT; AppModelStatus.HUMAN_VALIDATED])))
    (AppModelTransitionError ("cannot edit a " +:+ value (am_status existing) +:+ " model in place; create a new version via revise")));;
  updated ← lift (make_model (fresh (am_version m) (am_status existing) m));
  put updated;; mret updated.

(** [parts[-1] = str(int(parts[-1]) + 1); ".".join(parts)] *)
Definition bump (parts : list string) : outcome string :=
  n ← PyStr.int_of_str (List.last parts "");
  s ← PyText.str_of_int (n + 1);
  Ret (PyStr.join "." (List.removelast parts ++ [s])).

Fixpoint bump_until (fuel : nat) (existing : gset string) (candidate : string) : outcome string :=
  if bool_decide (candidate ∈ existing) then
    match fuel with
    | O => Raise OutOfFuel
    | S f => c ← bump (PyStr.split "." candidate); bump_until f existing c
    end
  else Ret candidate.

Definition next_version (existing : gset string) (current : string) : outcome string :=
  let parts := PyStr.split "." current in
  candidate ← (if PyText.digits (List.last parts "") then bump parts else Ret (current +:+ ".1"));
  bump_until (size existing) existing candidate.

Definition versions_of (app : string) (r : Registry) : gset string :=
  list_to_set (am_version <$> List.filter (fun m => bool_decide (app_id m = app)) (list_all r)).

Definition revise (m : AppModel) (new_version : option string) : M Registry AppModel :=
  get (key m);;
  existing ← gets (versions_of (app_id m));
  target ← match new_version with
           | Some v => if PyStr.truthy v then mret v else lift (next_version existing (am_version m))
           | None => lift (next_version existing (am_version m))
           end;
  lift (raise_if (bool_decide (target ∈ existing))
    (AppModelTransitionError ("version " +:+ target +:+ " already exists for " +:+ app_id m)));;
  revised ← lift (make_model (fresh target AppModelStatus.DRAFT m));
  put revised;; mret revised.

Definition require_human (actor_role : string) : outcome unit :=
  raise_if (bool_decide (actor_role = "agent"))
    (AppModelPermissionError "agents cannot validate or sign app models (human-only action)");;
  raise_if (negb (bool_decide (actor_role = "human"))) (AppModelPermissionError ("unknown actor role: " +:+ PyStr.repr actor_role)).

Definition check_transition (m : AppModel) (to : AppModelStatus) : outcome unit :=
  raise_if (negb (AppModelStatus.can_transition (am_status m) to))
    (AppModelTransitionError ("app model " +:+ app_id m +:+ "@" +:+ am_version m +:+ ": cannot transition "
       +:+ value (am_status m) +:+ " -> " +:+ value to)).

Definition transition (k : string * string) (to : AppModelStatus) : M Registry AppModel :=
  m ← get k; lift (check_transition m to);;
  updated ← lift (make_model (with_am_status to m)); put updated;; mret updated.

Definition validate (k : string * string) (actor_role : string) : M Registry AppModel :=
  lift (require_human actor_role);; transition k AppModelStatus.HUMAN_VALIDATED.

Definition sign (k : string * string) (signer : string -> string) (actor_role : string) : M Registry AppModel :=
  lift (require_human actor_role);;
  m ← get k;
  lift (check_transition m AppModelStatus.SIGNED);;
  signed ← lift (make_model (with_am_signature (Some (signer (am_digest m))) (with_am_status AppModelStatus.SIGNED m)));
  put signed;; mret signed.

(** *** Versions *)
Lemma split_snoc c s : exists init d, PyStr.split c s = init ++ [d] /\ Forall (PyText.no_char c) (init ++ [d]).
Proof.
  pose proof (PyText.split_not_nil c s) as H. pose proof (PyText.split_parts c s) as HF.
  destruct (exists_last H) as (init & d & E). exists init, d. by rewrite E in *.
Qed.

Definition numbered (init : list string) (n : Z) : string := PyStr.join "." (init ++ [pretty n]).

Lemma pretty_no_dot n : 0 <= n -> PyText.no_char "." (pretty n).
Proof. intros Hn. destruct (PyText.pretty_nonneg n Hn) as [_ H]. apply PyText.digits_no_char; [done|]. unfold PyText.digits in H. by breflect. Qed.

Lemma split_numbered init n : Forall (PyText.no_char ".") init -> 0 <= n -> PyStr.split "." (numbered init n) = init ++ [pretty n].
Proof.
  intros H Hn. apply PyText.split_join; [by destruct init|]. apply Forall_app. split; [done|].
  repeat constructor. by apply pretty_no_dot.
Qed.

Lemma numbered_inj init n m : Forall (PyText.no_char ".") init -> 0 <= n -> 0 <= m -> numbered init n = numbered init m -> n = m.
Proof.
  intros H Hn Hm E. apply (f_equal (PyStr.split ".")) in E. rewrite !split_numbered in E by done.
  apply (inj (app init)) in E. injection E as E. by apply (inj pretty) in E.
Qed.

Definition printable (n : Z) : Prop := PyStr.len (pretty n) <= 4300.

Lemma bump_numbered init n s : PyStr.int_of_str s = Ret n -> 0 <= n ->
  bump (init ++ [s]) = (raise_if (4300 <? PyStr.len (pretty (n + 1)))
       (ValueError "Exceeds the limit (4300 digits) for integer string conversion");; Ret (numbered init (n + 1))).
Proof.
  intros E Hn. unfold bump. rewrite List.last_last, E. cbn [mbind outcome_bind]. rewrite List.removelast_last.
  unfold PyText.str_of_int. rewrite Z.abs_eq by lia. by destruct (4300 <? _).
Qed.

(** What the search answers: a new version at or after [n], or the error of a
    number beyond [n] that is too long to print. *)
Definition searched (init : list string) (existing : gset string) (n hi : Z) (o : outcome string) : Prop :=
  match o with
  | Ret v => v ∉ existing /\ exists m, n <= m /\ v = numbered init m
  | Raise e => is_value_error e = true /\ exists m, n < m <= hi /\ ~ printable m
  end.

Lemma searched_mono init existing n n' hi o : n <= n' -> searched init existing n' hi o -> searched init existing n hi o.
Proof. intros Hn. destruct o; cbn; intros (H & m & Hm & E); (split; [done|]; exists m; split; [lia|done]). Qed.

(** The search makes at most one step per existing version: [used] are those
    already passed. *)
Lemma bump_until_numbered init existing hi (fuel : nat) n (used : gset string) :
  Forall (PyText.no_char ".") init -> 0 <= n -> printable n -> n + Z.of_nat fuel <= hi ->
  used ⊆ existing -> (size existing - size used <= fuel)%nat -> (forall m, n <= m -> numbered init m ∉ used) ->
  searched init existing n hi (bump_until fuel existing (numbered init n)).
Proof.
  intros Hi. revert n used. induction fuel as [|f IH]; intros n used Hn Hp Hhi Hsub Hsz Hnew; cbn [bump_until]; case_bool_decide as Hin;
    try (split; [done|]; exists n; split; [lia|done]).
  all: pose proof (Hnew n ltac:(lia)) as Hfresh;
    assert (size (used ∪ {[numbered init n]}) = size used + 1)%nat as Hu by (rewrite size_union, size_singleton by set_solver; done);
    assert (used ∪ {[numbered init n]} ⊆ existing) as Hsub' by set_solver; pose proof (subseteq_size _ _ Hsub') as Hle.
  - lia.
  - rewrite split_numbered by done. rewrite (bump_numbered _ n) by (lia || (apply PyText.int_of_pretty; done)).
    destruct (Z.ltb_spec 4300 (PyStr.len (pretty (n + 1)))) as [Hl|Hl]; cbn [raise_if mbind outcome_bind].
    + split; [done|]. exists (n + 1). unfold printable. lia.
    + apply (searched_mono _ _ _ (n + 1)); [lia|]. apply (IH _ (used ∪ {[numbered init n]})); try done; try lia.
      intros m Hm [?|E%elem_of_singleton]%elem_of_union; [by apply (Hnew m); [lia|]|].
      apply numbered_inj in E; [lia|done|lia|lia].
Qed.

(** The number the search starts after. *)
Definition last_number (current : string) : Z :=
  let d := List.last (PyStr.split "." current) "" in if PyText.digits d then PyStr.digits_val 0 d else 0.

(** [_next_version] always ends with a version that is new, provided no
    number it meets is too long to print. *)
Lemma next_version_ok existing current :
  (forall k, 0 <= k <= last_number current + Z.of_nat (size existing) + 1 -> printable k) ->
  PyStr.len current <= 4300 ->
  exists v, next_version existing current = Ret v /\ v ∉ existing.
Proof.
  intros Hp Hlen. unfold next_version, last_number in *. destruct (split_snoc "." current) as (init & d & E & HF). rewrite E in *.
  rewrite List.last_last in *. apply Forall_app in HF as [Hi Hd].
  assert (forall n, 0 <= n <= (if PyText.digits d then PyStr.digits_val 0 d + 1 else 1) ->
    forall init', Forall (PyText.no_char ".") init' ->
    exists v, bump_until (size existing) existing (numbered init' n) = Ret v /\ v ∉ existing) as Hs.
  { intros n Hn init' Hi'.
    pose proof (bump_until_numbered init' existing (n + Z.of_nat (size existing)) (size existing) n ∅ Hi' ltac:(lia)) as H.
    destruct (bump_until _ _ _) as [v|e]; [exists v; split; [done|]|exfalso]; destruct H as (H & m & Hm & Hx);
      try (apply Hp; destruct (PyText.digits d); lia); try lia; try set_solver.
    apply Hx, Hp. destruct (PyText.digits d); lia. }
  destruct (PyText.digits d) eqn:Ed.
  - assert (PyStr.int_of_str d = Ret (PyStr.digits_val 0 d)) as Eint.
    { apply PyText.int_of_digits; [done|]. pose proof (PyText.length_last_part "." current) as Hl.
      rewrite E, List.last_last in Hl. unfold PyStr.len in *. lia. }
    assert (0 <= PyStr.digits_val 0 d) as H0.
    { apply PyText.digits_nonneg; [|done]. unfold PyText.digits in Ed. by breflect. }
    rewrite (bump_numbered _ _ _ Eint) by done.
    replace (4300 <? _) with false by (symmetry; apply Z.ltb_ge; apply Hp; lia). cbn [raise_if mbind outcome_bind].
    apply Hs; [lia|done].
  - cbn [mbind outcome_bind]. replace (current +:+ ".1") with (numbered (init ++ [d]) 1).
    + apply Hs; [lia|]. by apply Forall_app.
    + rewrite <- (PyText.join_split "." current), E. unfold numbered. rewrite (PyText.join_snoc _ (init ++ [d])) by by destruct init.
      done.
Qed.

Lemma length_go x s : (String.length (pretty_N_go x s) <= N.to_nat x + String.length s)%nat.
Proof.
  revert s. induction (N.lt_wf_0 x) as [x _ IH]; intros s. destruct (decide (x = 0)%N) as [->|Hx]; [by rewrite pretty_N_go_0|].
  rewrite pretty_N_go_step by lia. pose proof (N.div_lt x 10 ltac:(lia) ltac:(lia)) as Hd.
  specialize (IH _ Hd (String (pretty_N_char (x `mod` 10)) s)). cbn [String.length] in IH. lia.
Qed.

Lemma printable_small k : 0 <= k <= 4299 -> printable k.
Proof.
  intros Hk. unfold printable. rewrite (proj1 (PyText.pretty_nonneg k ltac:(lia))). unfold pretty, pretty_N.
  case_decide; [done|]. pose proof (length_go (Z.to_N k) ""). unfold PyStr.len. cbn [String.length] in H0. lia.
Qed.

(** *** Calls, by anyone in any order *)
Inductive op : Type :=
| Create (m : AppModel) (proposed : bool)
| CreateProposed (m : AppModel)
| Update (m : AppModel)
| Revise (m : AppModel) (new_version : option string)
| Validate (k : string * string) (role : string)
| Sign (k : string * string) (signer : string -> string) (role : string).

Definition call (o : op) : M Registry AppModel :=
  match o with
  | Create m p => create m p
  | CreateProposed m => create_proposed m
  | Update m => update m
  | Revise m v => revise m v
  | Validate k role => validate k role
  | Sign k signer role => sign k signer role
  end.

Definition run_all (ops : list op) (r : Registry) : Registry := foldl (fun r o => (call o r).2) r ops.

(** The registry stores each model under its own key, as constructed. *)
Definition stored_ok (r : Registry) : Prop := map_Forall (fun k m => key m = k /\ wf m) r.

(** What the call [o] stores when it succeeds. *)
Definition stores (o : op) (r : Registry) (m' : AppModel) : Prop :=
  match o with
  | Create m p => make_model (with_am_status (if p then AppModelStatus.LLM_PROPOSED else AppModelStatus.DRAFT) m) = Ret m'
  | CreateProposed m => make_model (with_am_status AppModelStatus.LLM_PROPOSED m) = Ret m'
  | Update m => exists e, r !! key m = Some e /\ am_status e ∈ [AppModelStatus.DRAFT; AppModelStatus.HUMAN_VALIDATED]
      /\ make_model (fresh (am_version m) (am_status e) m) = Ret m'
  | Revise m _ => is_Some (r !! key m) /\ (stored_ok r -> r !! (app_id m, am_version m') = None)
      /\ make_model (fresh (am_version m') AppModelStatus.DRAFT m) = Ret m'
  | Validate k role => role = "human" /\ exists e, r !! k = Some e
      /\ AppModelStatus.can_transition (am_status e) AppModelStatus.HUMAN_VALIDATED = true
      /\ make_model (with_am_status AppModelStatus.HUMAN_VALIDATED e) = Ret m'
  | Sign k signer role => role = "human" /\ exists e, r !! k = Some e /\ am_status e = AppModelStatus.HUMAN_VALIDATED
      /\ make_model (with_am_signature (Some (signer (am_digest e))) (with_am_status AppModelStatus.SIGNED e)) = Ret m'
  end.

Lemma registry_get_spec k r : get k r = match r !! k with
  | Some m => (Ret m, r)
  | None => (Raise (AppModelNotFoundError ("app model not found: " +:+ k.1 +:+ "@" +:+ k.2)), r)
  end.
Proof. unfold get, gets, lift, mbind, M_bind. by destruct (r !! k). Qed.

Lemma service_human_Ret role u : require_human role = Ret u -> role = "human".
Proof. unfold require_human. intros H. inv_ret. breflect. done. Qed.

Lemma elem_of_list_all r m k : r !! k = Some m -> m ∈ list_all r.
Proof.
  intros H. unfold list_all. apply list_elem_of_omap. exists k. split; [|done].
  rewrite merge_sort_Permutation. apply elem_of_elements, elem_of_dom. by exists m.
Qed.

Lemma versions_of_spec r a v : stored_ok r -> v ∉ versions_of a r -> r !! (a, v) = None.
Proof.
  intros Hr Hv. destruct (r !! (a, v)) as [m|] eqn:E; [|done]. destruct Hv.
  destruct (Hr _ _ E) as [[= Ha Hver] _]. unfold versions_of. apply elem_of_list_to_set, list_elem_of_fmap.
  exists m. split; [done|]. apply list_elem_of_In, filter_In. rewrite bool_decide_true by done. split; [|done].
  by apply list_elem_of_In, (elem_of_list_all _ _ (a, v)).
Qed.

Lemma fresh_version v s m m' : make_model (fresh v s m) = Ret m' -> am_version m' = v /\ key m' = (app_id m, v).
Proof. intros (_ & _ & _ & ->)%make_model_Ret. done. Qed.

(** A call either raises and changes nothing, or stores the model it answers
    under its key. *)
Lemma service_call_cases o r :
  match call o r with
  | (Ret m', r') => r' = <[key m' := m']> r /\ stores o r m'
  | (Raise _, r') => r' = r
  end.
Proof.
  destruct o as [m p|m|m|m v|k role|k signer role]; cbn [call stores].
  - unfold create, lift, put, modify, mbind, M_bind. by destruct (make_model _) as [m'|e].
  - unfold create_proposed, lift, put, modify, mbind, M_bind. by destruct (make_model _) as [m'|e].
  - unfold update, mbind, M_bind. rewrite registry_get_spec. destruct (r !! key m) as [e|] eqn:E; [|done].
    unfold lift, put, modify, raise_if. case_bool_decide as Hs; cbn [negb]; [|done].
    destruct (make_model _) as [m'|x] eqn:Em; [|done]. split; [done|]. by exists e.
  - unfold revise, mbind, M_bind. rewrite registry_get_spec. destruct (r !! key m) as [e|] eqn:E; [|done].
    unfold gets. set (ex := versions_of (app_id m) r).
    assert (exists t, (match v with Some v => if PyStr.truthy v then mret v else lift (next_version ex (am_version m))
                       | None => lift (next_version ex (am_version m)) end : M Registry string) = lift t) as [t ->]
      by (destruct v as [v|]; [destruct (PyStr.truthy v); [by exists (Ret v)|]|]; by eexists).
    unfold lift, put, modify, raise_if. destruct t as [t|x]; [|done]. case_bool_decide as Ht; [done|].
    destruct (make_model _) as [m'|x] eqn:Em; [|done]. destruct (fresh_version _ _ _ _ Em) as [Hv _].
    split; [done|]. rewrite Hv. split_and!; [done| |done]. intros Hok. by apply versions_of_spec.
  - unfold validate, transition, mbind, M_bind. unfold lift at 1. destruct (require_human role) as [u|e] eqn:Er; [|done].
    apply service_human_Ret in Er. rewrite registry_get_spec. destruct (r !! k) as [m|] eqn:E; [|done].
    unfold lift, put, modify, check_transition, raise_if. destruct (AppModelStatus.can_transition _ _) eqn:Ec; cbn [negb]; [|done].
    destruct (make_model _) as [m'|x] eqn:Em; [|done]. split; [done|]. split; [done|]. by exists m.
  - unfold sign, mbind, M_bind. unfold lift at 1. destruct (require_human role) as [u|e] eqn:Er; [|done].
    apply service_human_Ret in Er. rewrite registry_get_spec. destruct (r !! k) as [m|] eqn:E; [|done].
    unfold lift, put, modify, check_transition, raise_if. destruct (AppModelStatus.can_transition _ _) eqn:Ec; cbn [negb]; [|done].
    destruct (make_model _) as [m'|x] eqn:Em; [|done]. split; [done|]. split; [done|].
    exists m. split_and!; [done| |done]. unfold AppModelStatus.can_transition in Ec. breflect.
    by destruct (am_status m); cbn in Ec; try set_solver.
Qed.

Lemma stores_wf o r m' : stores o r m' -> wf m'.
Proof. destruct o; cbn [stores]; naive_solver eauto using make_model_is_wf. Qed.

Lemma call_stored_ok o r : stored_ok r -> stored_ok (call o r).2.
Proof.
  intros Hr. pose proof (service_call_cases o r) as H. destruct (call o r) as [[m'|e] r']; cbn [snd]; [|by subst].
  destruct H as [-> H]. apply map_Forall_insert_2; [|done]. split; [done|by apply (stores_wf o r)].
Qed.

Lemma run_all_snoc ops o r : run_all (ops ++ [o]) r = (call o (run_all ops r)).2.
Proof. unfold run_all. by rewrite foldl_snoc. Qed.

Lemma run_all_stored_ok ops r : stored_ok r -> stored_ok (run_all ops r).
Proof.
  intros Hr. induction ops as [|o ops IH] using rev_ind; [done|]. rewrite run_all_snoc. by apply call_stored_ok.
Qed.

(** *** What stands behind a stored model *)

(** The digest names the content. *)
Definition honest (m : AppModel) : Prop := am_digest m = content_digest m.
Definition honest_op (o : op) : Prop :=
  match o with Create m _ | CreateProposed m => am_digest m = "" \/ honest m | _ => True end.

(** The call [o], made after [pre], succeeded and stored [m]. *)
Definition stored_by (pre : list op) (o : op) (m : AppModel) : Prop := (call o (run_all pre ∅)).1 = Ret m.

(** [P] holds of every call of [l], made after [pre]. *)
Fixpoint along (P : list op -> op -> Prop) (pre l : list op) : Prop :=
  match l with [] => True | o :: l => P pre o /\ along P (pre ++ [o]) l end.
Definition only_edits (k : string * string) : list op -> list op -> Prop :=
  along (fun pre o => forall m, stored_by pre o m -> key m = k -> exists n, o = Update n).
Definition untouched (k : string * string) : list op -> list op -> Prop :=
  along (fun pre o => forall m, stored_by pre o m -> key m <> k).

Definition creates (o : op) : Prop :=
  match o with Create _ _ | CreateProposed _ | Revise _ _ => True | _ => False end.

(** The version was made with status [s], and only edited since. *)
Definition drafted (ops : list op) (k : string * string) (s : AppModelStatus) : Prop :=
  exists o1 o o2 m, ops = o1 ++ o :: o2 /\ creates o /\ stored_by o1 o m /\ key m = k /\ am_status m = s
    /\ only_edits k (o1 ++ [o]) o2.

(** A human validated what was stored, a draft or a proposal, and it was only
    edited since. *)
Definition validated (ops : list op) (k : string * string) : Prop :=
  exists o1 o2 m, ops = o1 ++ Validate k "human" :: o2 /\ run_all o1 ∅ !! k = Some m
    /\ am_status m ∈ [AppModelStatus.DRAFT; AppModelStatus.LLM_PROPOSED] /\ drafted o1 k (am_status m)
    /\ stored_by o1 (Validate k "human") (with_am_status AppModelStatus.HUMAN_VALIDATED m)
    /\ only_edits k (o1 ++ [Validate k "human"]) o2.

Definition vetted (ops : list op) (k : string * string) (m : AppModel) : Prop :=
  match am_status m with
  | AppModelStatus.DRAFT | AppModelStatus.LLM_PROPOSED => drafted ops k (am_status m)
  | AppModelStatus.HUMAN_VALIDATED => validated ops k
  | AppModelStatus.SIGNED => exists o1 o2 signer m0,
      ops = o1 ++ Sign k signer "human" :: o2 /\ run_all o1 ∅ !! k = Some m0
      /\ am_status m0 = AppModelStatus.HUMAN_VALIDATED /\ validated o1 k
      /\ m = with_am_signature (Some (signer (am_digest m0))) (with_am_status AppModelStatus.SIGNED m0)
      /\ stored_by o1 (Sign k signer "human") m /\ untouched k (o1 ++ [Sign k signer "human"]) o2
  | _ => False
  end.

Lemma along_snoc P pre l o : along P pre l -> P (pre ++ l) o -> along P pre (l ++ [o]).
Proof.
  revert pre. induction l as [|x l IH]; intros pre; cbn; [by rewrite app_nil_r|].
  intros [Hx Hl] Ho. split; [done|]. apply IH; [done|]. by rewrite <- app_assoc.
Qed.

Lemma drafted_snoc ops k s o :
  (forall m, stored_by ops o m -> key m = k -> exists n, o = Update n) -> drafted ops k s -> drafted (ops ++ [o]) k s.
Proof.
  intros Ho (o1 & x & o2 & m & -> & Hx & Hm & Hk & Hs & He). exists o1, x, (o2 ++ [o]), m. split; [by rewrite <- app_assoc|].
  split_and!; try done. apply along_snoc; [done|]. by rewrite <- app_assoc.
Qed.

Lemma validated_snoc ops k o :
  (forall m, stored_by ops o m -> key m = k -> exists n, o = Update n) -> validated ops k -> validated (ops ++ [o]) k.
Proof.
  intros Ho (o1 & o2 & m & -> & Hr & Hst & Hd & Hm & He). exists o1, (o2 ++ [o]), m. split; [by rewrite <- app_assoc|].
  split_and!; try done. apply along_snoc; [done|]. by rewrite <- app_assoc.
Qed.

Lemma model_vetted_snoc ops k m o :
  (forall m', stored_by ops o m' -> key m' <> k) -> vetted ops k m -> vetted (ops ++ [o]) k m.
Proof.
  intros Ho. assert (He : forall m', stored_by ops o m' -> key m' = k -> exists n, o = Update n) by (intros m' H1 H2; by destruct (Ho m' H1)).
  unfold vetted. destruct (am_status m); try done; try by apply drafted_snoc. 1: by apply validated_snoc.
  intros (o1 & o2 & signer & m0 & -> & H1 & H2 & H3 & H4 & H5 & H6). exists o1, (o2 ++ [o]), signer, m0.
  split; [by rewrite <- app_assoc|]. split_and!; try done. apply along_snoc; [done|]. by rewrite <- app_assoc.
Qed.

Lemma make_model_status m m' : make_model m = Ret m' -> am_status m' = am_status m.
Proof. intros (_ & _ & _ & ->)%make_model_Ret. by destruct (PyStr.is_empty _). Qed.

Lemma make_model_honest m m' : make_model m = Ret m' -> am_digest m = "" \/ honest m -> honest m'.
Proof.
  intros (_ & _ & _ & ->)%make_model_Ret [H|H].
  - by rewrite H.
  - destruct (PyStr.is_empty (am_digest m)); done.
Qed.

(** What a call stores is vetted if what was there is. *)
Lemma stores_vetted ops o m' :
  stored_by ops o m' -> stores o (run_all ops ∅) m' -> stored_ok (run_all ops ∅) ->
  (forall k e, run_all ops ∅ !! k = Some e -> vetted ops k e) -> vetted (ops ++ [o]) (key m') m'.
Proof.
  intros Hc Hs Hok Hv.
  assert (Hnew : creates o -> am_status m' ∈ [AppModelStatus.DRAFT; AppModelStatus.LLM_PROPOSED] -> vetted (ops ++ [o]) (key m') m').
  { intros Ho Hst. assert (Hd : drafted (ops ++ [o]) (key m') (am_status m')) by by exists ops, o, [], m'.
    unfold vetted. destruct (am_status m'); try done; set_solver. }
  destruct o as [m p|m|m|m v|k role|k signer role]; cbn [stores] in Hs.
  - apply Hnew; [done|]. rewrite (make_model_status _ _ Hs). destruct p; set_solver.
  - apply Hnew; [done|]. rewrite (make_model_status _ _ Hs). set_solver.
  - destruct Hs as (e & He & Hst & Hm). specialize (Hv _ _ He). rewrite (proj2 (fresh_version _ _ _ _ Hm)).
    assert (Hu : forall m0 : AppModel, stored_by ops (Update m) m0 -> key m0 = key m -> exists n, Update m = Update n) by (intros; by exists m).
    unfold vetted in *. rewrite (make_model_status _ _ Hm). change (app_id m, am_version m) with (key m). cbn [fresh am_status].
    destruct (am_status e); try done; [by apply drafted_snoc|by apply drafted_snoc|by apply validated_snoc|set_solver].
  - destruct Hs as (_ & _ & Hm). apply Hnew; [done|]. rewrite (make_model_status _ _ Hm). set_solver.
  - destruct Hs as (-> & e & He & Ht & Hm). destruct (Hok _ _ He) as [Hk Hwf].
    rewrite (make_model_wf _ (wf_with_status _ _ Hwf)) in Hm. injection Hm as <-. change (key (with_am_status _ e)) with (key e). rewrite Hk.
    unfold vetted. cbn [with_am_status am_status].
    assert (Hst : am_status e ∈ [AppModelStatus.DRAFT; AppModelStatus.LLM_PROPOSED]).
    { unfold AppModelStatus.can_transition in Ht. apply bool_decide_eq_true in Ht. destruct (am_status e); cbn in Ht; set_solver. }
    exists ops, [], e. split_and!; try done. specialize (Hv _ _ He). unfold vetted in Hv. destruct (am_status e); try done; set_solver.
  - destruct Hs as (-> & e & He & Hst & Hm). destruct (Hok _ _ He) as [Hk Hwf].
    rewrite make_model_wf in Hm by auto with py. injection Hm as <-. change (key _) with (key e). rewrite Hk.
    unfold vetted. cbn [with_am_signature with_am_status am_status]. exists ops, [], signer, e. split_and!; try done.
    specialize (Hv _ _ He). unfold vetted in Hv. by rewrite Hst in Hv.
Qed.

Lemma stores_honest o r m' : honest_op o -> map_Forall (fun _ => honest) r -> stores o r m' -> honest m'.
Proof.
  intros Ho Hr. destruct o as [m p|m|m|m v|k role|k signer role]; cbn [stores honest_op] in *.
  - intros H. apply (make_model_honest _ _ H). done.
  - intros H. apply (make_model_honest _ _ H). done.
  - intros (e & _ & _ & H). apply (make_model_honest _ _ H). by left.
  - intros (_ & _ & H). apply (make_model_honest _ _ H). by left.
  - intros (_ & e & He & _ & H). apply (make_model_honest _ _ H). right. exact (Hr _ _ He).
  - intros (_ & e & He & _ & H). apply (make_model_honest _ _ H). right. exact (Hr _ _ He).
Qed.

(** C37: A signed model was made, reviewed and signed by a human, in this
    order, and its signature covers what is stored. Whatever calls are made,
    in any order, a model is only ever DRAFT, LLM_PROPOSED, HUMAN_VALIDATED or
    SIGNED. A draft or proposal was stored so by the last [create],
    [create_proposed] or [revise] that succeeded on its version, and only
    edited since; it is HUMAN_VALIDATED only if a validation by a human then
    succeeded on it, and only edits touched it since (an edit keeps the
    validation); and SIGNED only if a signature by a human then succeeded, and
    nothing touched it since: it is the model that was stored when it was
    signed. And if the models handed to [create] bring no digest of their
    own, or the right one, every stored digest, hence every signature, is that
    of the stored content. *)
Theorem signed_models_were_vetted ops :
  let r := run_all ops ∅ in
  stored_ok r /\ map_Forall (vetted ops) r /\ (Forall honest_op ops -> map_Forall (fun _ => honest) r).
Proof.
  induction ops as [|o ops IH] using rev_ind; [split_and!; try apply map_Forall_empty; intros _; apply map_Forall_empty|].
  destruct IH as (Hok & Hv & Hh). cbv zeta. rewrite run_all_snoc. split; [by apply call_stored_ok|].
  pose proof (service_call_cases o (run_all ops ∅)) as H.
  assert (Hc : forall m, stored_by ops o m -> (call o (run_all ops ∅)).1 = Ret m) by done.
  destruct (call o (run_all ops ∅)) as [[m'|e] r'] eqn:Ec; cbn [fst snd] in *.
  - destruct H as [-> H]. split.
    + intros k m [[<- <-]|[Hk Hm]]%lookup_insert_Some.
      * apply stores_vetted; try done. unfold stored_by. by rewrite Ec.
      * apply model_vetted_snoc; [|by apply Hv]. intros m2 Hs Hk2. apply Hc in Hs as [= <-]. done.
    + intros [Ho Hl]%Forall_app. specialize (Hh Ho). apply map_Forall_insert_2; [|done].
      apply (stores_honest o (run_all ops ∅)); [by inversion Hl|done..].
  - subst r'. split; [|intros [Ho _]%Forall_app; by apply Hh].
    intros k m Hm. apply model_vetted_snoc; [|by apply Hv]. intros m2 Hs. by apply Hc in Hs.
Qed.

(** A signed model changes only if the same version is created anew. *)
Lemma signed_models_are_sealed o r k m :
  stored_ok r -> r !! k = Some m -> am_status m = AppModelStatus.SIGNED ->
  (call o r).2 !! k = Some m
  \/ match o with Create m' _ | CreateProposed m' => key m' = k | _ => False end.
Proof.
  intros Hok Hm Hst. pose proof (service_call_cases o r) as H. destruct (call o r) as [[m'|e] r']; cbn [snd]; [|subst; by left].
  destruct H as [-> H]. destruct (decide (key m' = k)) as [Hk|Hk]; [|left; by rewrite lookup_insert_ne].
  assert (forall P e, r !! P = Some e -> key e = P) as Hkey by (intros P e He; by destruct (Hok _ _ He)).
  destruct o as [n p|n|n|n v|k' role|k' signer role]; cbn [stores] in H.
  - right. rewrite <- Hk. apply make_model_Ret in H as (_ & _ & _ & ->). cbn. by destruct (PyStr.is_empty _).
  - right. rewrite <- Hk. apply make_model_Ret in H as (_ & _ & _ & ->). cbn. by destruct (PyStr.is_empty _).
  - destruct H as (e & He & Hs & Hmk). rewrite (proj2 (fresh_version _ _ _ _ Hmk)) in Hk.
    change (app_id n, am_version n) with (key n) in Hk. rewrite Hk, Hm in He. injection He as <-. rewrite Hst in Hs. set_solver.
  - destruct H as (_ & Hnone & Hmk). rewrite (proj2 (fresh_version _ _ _ _ Hmk)) in Hk.
    by rewrite <- Hk, Hnone in Hm.
  - destruct H as (_ & e & He & Hc & Hmk). rewrite make_model_wf in Hmk by (apply wf_with_status; by destruct (Hok _ _ He)).
    injection Hmk as <-. change (key (with_am_status _ e)) with (key e) in Hk. rewrite (Hkey _ _ He) in Hk. subst k'.
    rewrite Hm in He. injection He as <-. rewrite Hst in Hc. done.
  - destruct H as (_ & e & He & Hc & Hmk). rewrite make_model_wf in Hmk by (destruct (Hok _ _ He); auto with py).
    injection Hmk as <-. change (key _) with (key e) in Hk. rewrite (Hkey _ _ He) in Hk. subst k'.
    rewrite Hm in He. injection He as <-. congruence.
Qed.

(** *** Demonstrations *)
Definition demo_transition (i a b e : string) (idem : bool) : Transition := mkTransition i a b e [] idem.
Definition demo_model : AppModel :=
  mkModel "shop" "1.9" ["cart"; "paid"; "shipped"]
    [demo_transition "pay" "cart" "paid" "POST /pay" false; demo_transition "ship" "paid" "shipped" "POST /ship" true]
    [mkInvariant "i1" "cart.total >= 0"] [mkField "total" "int" (Some [JInt 0; JInt 100]) "client"] [] [] []
    AppModelStatus.DRAFT "" None.
Definition demo_signer (d : string) : string := "ed25519:" +:+ d.
Definition demo_key : string * string := ("shop", "1.9").

(** The edit of a validated model keeps its status: what is then signed is
    not what the human validated. *)
Definition edited_model : AppModel :=
  mkModel "shop" "1.9" ["cart"] [] [] [] [] [] [] AppModelStatus.DRAFT "" None.
Example edit_survives_validation :
  (fun m => (am_status m, states m)) <$>
    run_all [Create demo_model false; Validate demo_key "human"; Update edited_model; Sign demo_key demo_signer "human"] ∅ !! demo_key
  = Some (AppModelStatus.SIGNED, ["cart"]).
Proof. vm_compute. reflexivity. Qed.

(** A registered proposal made by [replace] of a constructed draft keeps the
    digest of the draft: the signature does not cover what was added. *)
Definition enriched_model : AppModel :=
  mkModel "shop" "1.9" ["cart"; "paid"; "shipped"; "refunded"] (transitions demo_model) (invariants demo_model) (fields demo_model) [] [] []
    AppModelStatus.DRAFT (content_digest demo_model) None.
Example enrichment_is_not_signed :
  (fun m => (am_status m, am_signature m, bool_decide (content_digest m = am_digest m))) <$>
    run_all [CreateProposed enriched_model; Validate demo_key "human"; Sign demo_key demo_signer "human"] ∅ !! demo_key
  = Some (AppModelStatus.SIGNED, Some (demo_signer (content_digest demo_model)), false).
Proof. vm_compute. reflexivity. Qed.

(** [create] overwrites a signed version. *)
Example signed_version_is_overwritten :
  am_status <$> run_all [Create demo_model false; Validate demo_key "human"; Sign demo_key demo_signer "human"; Create edited_model true] ∅ !! demo_key
  = Some AppModelStatus.LLM_PROPOSED.
Proof. vm_compute. reflexivity. Qed.

Example next_versions :
  (next_version {["1.9"; "1.10"]} "1.9", next_version {["beta"; "beta.1"]} "beta") = (Ret "1.11", Ret "beta.2").
Proof. vm_compute. reflexivity. Qed.

Lemma next_version_ok_witness :
  exists v, next_version {["1.9"; "1.10"]} "1.9" = Ret v /\ v ∉ ({["1.9"; "1.10"]} : gset string).
Proof.
  apply next_version_ok; [|vm_compute; discriminate]. intros k Hk. apply printable_small.
  assert (last_number "1.9" + Z.of_nat (size ({["1.9"; "1.10"]} : gset string)) + 1 = 12) as E by (vm_compute; reflexivity).
  rewrite E in Hk. lia.
Defined.

End AppModelService.

(** ** [ModelBuilder] *)
Module ModelBuilder.
Import AppModels.

Notation Models := (gmap string AppModel).

Section builder.
(** The registered importers, and the signer if there is one. *)
Context (importers : string -> option (json -> outcome AppModel)) (signer : option (string -> string)).

Definition put (k : string) (m : AppModel) : M Models unit := modify (<[k := m]>).

Definition import_model (source_type : string) (data : json) : M Models AppModel :=
  match importers source_type with
  | None => raise (DomainError ("no importer registered for source_type=" +:+ PyStr.repr source_type))
  | Some to_draft => draft ← lift (to_draft data); put (app_id draft) draft;; mret draft
  end.

Definition register_proposed (m : AppModel) : M Models AppModel :=
  proposed ← lift (make_model (with_am_status AppModelStatus.LLM_PROPOSED m));
  put (app_id proposed) proposed;; mret proposed.

Definition get (k : string) : M Models AppModel :=
  o ← gets (lookup k); lift (unwrap o (ModelNotFoundError ("app model not found: " +:+ k))).

Definition require_human (actor_role : string) : outcome unit :=
  raise_if (bool_decide (actor_role = "agent")) (ModelPermissionError "agents cannot validate or sign app models (human-only action)");;
  raise_if (negb (bool_decide (actor_role = "human"))) (ModelPermissionError ("unknown actor role: " +:+ PyStr.repr actor_role)).

Definition check_transition (source target : AppModelStatus) : outcome unit :=
  raise_if (negb (AppModelStatus.can_transition source target))
    (ModelTransitionError ("cannot transition model " +:+ value source +:+ " -> " +:+ value target)).

Definition validate (k actor_role : string) (corrections : option AppModel) : M Models AppModel :=
  lift (require_human actor_role);;
  current ← get k;
  lift (check_transition (am_status current) AppModelStatus.HUMAN_VALIDATED);;
  validated ← lift (make_model (with_am_status AppModelStatus.HUMAN_VALIDATED (with_app_id k (default current corrections))));
  put k validated;; mret validated.

Definition sign (k actor_role : string) : M Models AppModel :=
  lift (require_human actor_role);;
  current ← get k;
  lift (check_transition (am_status current) AppModelStatus.SIGNED);;
  signer ← lift (unwrap signer (DomainError "no signer configured for ModelBuilder"));
  signed ← lift (make_model (with_am_signature (Some (signer (am_digest current))) (with_am_status AppModelStatus.SIGNED current)));
  put k signed;; mret signed.

(** *** Only a human validates or signs *)
Lemma builder_get_spec k (w : Models) : get k w = match w !! k with
  | Some m => (Ret m, w)
  | None => (Raise (ModelNotFoundError ("app model not found: " +:+ k)), w)
  end.
Proof. unfold get, gets, lift, mbind, M_bind. by destruct (w !! k). Qed.

Lemma builder_human_Ret role u : require_human role = Ret u -> role = "human".
Proof. unfold require_human. intros H. inv_ret. breflect. done. Qed.

(** The two human-only calls either raise and leave the models as they are,
    or are made by a human and move one model by one edge of the table; a
    call by anyone else is a permission error. *)
Theorem only_humans_validate_and_sign k role corrections (w : Models) :
  (role <> "human" ->
     exists e e', validate k role corrections w = (Raise (ModelPermissionError e), w) /\ sign k role w = (Raise (ModelPermissionError e'), w))
  /\ (forall o w', validate k role corrections w = (o, w') ->
        match o with
        | Raise _ => w' = w
        | Ret m => role = "human" /\ am_status m = AppModelStatus.HUMAN_VALIDATED /\ w' = <[k := m]> w
                   /\ exists c, w !! k = Some c /\ am_status c ∈ [AppModelStatus.DRAFT; AppModelStatus.LLM_PROPOSED]
        end)
  /\ (forall o w', sign k role w = (o, w') ->
        match o with
        | Raise _ => w' = w
        | Ret m => role = "human" /\ am_status m = AppModelStatus.SIGNED /\ w' = <[k := m]> w
                   /\ exists c s, w !! k = Some c /\ am_status c = AppModelStatus.HUMAN_VALIDATED /\ signer = Some s
                        /\ am_signature m = Some (s (am_digest c)) /\ content_payload m = content_payload c
        end).
Proof.
  split_and!.
  - intros Hr. unfold validate, sign, lift, mbind, M_bind, require_human, raise_if.
    destruct (bool_decide (role = "agent")); [by eexists _, _|]. rewrite bool_decide_false by done. cbn. by eexists _, _.
  - intros o w'. unfold validate, mbind, M_bind. unfold lift at 1. destruct (require_human role) as [u|e] eqn:Er; [|by intros [= <- <-]].
    apply builder_human_Ret in Er. rewrite builder_get_spec. destruct (w !! k) as [c|] eqn:Ec; [|by intros [= <- <-]].
    unfold lift, check_transition, raise_if. destruct (AppModelStatus.can_transition _ _) eqn:Et; cbn [negb]; [|by intros [= <- <-]].
    destruct (make_model _) as [m|e] eqn:Em; [|by intros [= <- <-]]. intros [= <- <-].
    apply AppModelService.make_model_status in Em. split_and!; [done|done|done|]. exists c. split; [done|].
    unfold AppModelStatus.can_transition in Et. breflect. by destruct (am_status c); cbn in Et; set_solver.
  - intros o w'. unfold sign, mbind, M_bind. unfold lift at 1. destruct (require_human role) as [u|e] eqn:Er; [|by intros [= <- <-]].
    apply builder_human_Ret in Er. rewrite builder_get_spec. destruct (w !! k) as [c|] eqn:Ec; [|by intros [= <- <-]].
    unfold lift, check_transition, raise_if. destruct (AppModelStatus.can_transition _ _) eqn:Et; cbn [negb]; [|by intros [= <- <-]].
    destruct signer as [s|]; cbn [unwrap]; [|by intros [= <- <-]].
    destruct (make_model _) as [m|e] eqn:Em; [|by intros [= <- <-]]. intros [= <- <-].
    apply make_model_Ret in Em as (_ & _ & _ & ->).
    split_and!; [done|by destruct (PyStr.is_empty _)|done|]. exists c, s. split_and!; [done| |done|by destruct (PyStr.is_empty _)..].
    unfold AppModelStatus.can_transition in Et. breflect. by destruct (am_status c); cbn in Et; set_solver.
Qed.

End builder.

(** Corrections keep the digest they were constructed with, under the app
    they were written for. *)
Example corrected_digest_is_stale :
  let other := with_am_digest (content_digest (with_app_id "other" AppModelService.demo_model)) (with_app_id "other" AppModelService.demo_model) in
  let w := <["shop" := AppModelService.demo_model]> (∅ : Models) in
  (fun m => (app_id m, bool_decide (am_digest m = content_digest m))) <$> (validate "shop" "human" (Some other) w).2 !! "shop"
  = Some ("shop", false).
Proof. vm_compute. reflexivity. Qed.

End ModelBuilder.

(** ** [ModelRegistry] *)
Record RegistryState : Type := mkRegistryState {
  history : gmap string (list AppModel);
  snapshots : gmap string AppModel
}.

Module ModelRegistry.
Import AppModels.

Definition supersede (m : AppModel) : outcome AppModel :=
  if bool_decide (am_status m = AppModelStatus.PUBLISHED) then make_model (with_am_status AppModelStatus.SUPERSEDED m) else Ret m.

Definition publish (m : AppModel) : M RegistryState AppModel := fun s =>
  (lift (raise_if (negb (bool_decide (am_status m = AppModelStatus.SIGNED)))
     (ModelNotSignedError ("model " +:+ app_id m +:+ " must be SIGNED to publish (is " +:+ value (am_status m) +:+ ")")));;
   superseded_history ← lift (mapM_outcome supersede (default [] (history s !! app_id m)));
   published ← lift (make_model (with_am_status AppModelStatus.PUBLISHED m));
   modify (fun s => mkRegistryState (<[app_id m := superseded_history ++ [published]]> (history s)) (snapshots s));;
   mret published) s.

Definition unknown_app (app : string) : exn := ModelNotFoundError ("no published model for app_id=" +:+ app).

Definition versions (app : string) (s : RegistryState) : outcome (list AppModel) :=
  match history s !! app with Some (m :: l) => Ret (m :: l) | _ => Raise (unknown_app app) end.

Definition current (app : string) (s : RegistryState) : outcome AppModel :=
  unwrap (List.find (fun m => bool_decide (am_status m = AppModelStatus.PUBLISHED)) (rev (default [] (history s !! app)))) (unknown_app app).

Definition snapshot_id (assessment_id app version : string) : string :=
  "appmodel-snap:" +:+ assessment_id +:+ ":" +:+ app +:+ ":" +:+ version.

Definition snapshot_for_assessment (assessment_id app : string) : M RegistryState string := fun s =>
  match current app s with
  | Raise e => (Raise e, s)
  | Ret m => let sid := snapshot_id assessment_id app (am_version m) in
             (Ret sid, mkRegistryState (history s) (<[sid := m]> (snapshots s)))
  end.

Definition get_snapshot (sid : string) (s : RegistryState) : outcome AppModel :=
  unwrap (snapshots s !! sid) (ModelNotFoundError ("unknown snapshot: " +:+ sid)).

(** *** The history is the log of what was published *)
Inductive op : Type :=
| Publish (m : AppModel)
| Snapshot (assessment_id app : string).

Definition call (o : op) (s : RegistryState) : RegistryState :=
  match o with Publish m => (publish m s).2 | Snapshot a app => (snapshot_for_assessment a app s).2 end.
Definition run_all (ops : list op) : RegistryState := foldl (fun s o => call o s) (mkRegistryState ∅ ∅) ops.

(** The models published for [app], in order. *)
Definition published (app : string) (ops : list op) : list AppModel :=
  omap (fun o => match o with
                 | Publish m => if bool_decide (app_id m = app /\ am_status m = AppModelStatus.SIGNED) then Some m else None
                 | Snapshot _ _ => None
                 end) ops.

(** The newest is current, the others are superseded. *)
Fixpoint retired (l : list AppModel) : list AppModel :=
  match l with
  | [] => []
  | [m] => [with_am_status AppModelStatus.PUBLISHED m]
  | m :: l => with_am_status AppModelStatus.SUPERSEDED m :: retired l
  end.

Lemma retired_snoc l m : retired (l ++ [m]) = (with_am_status AppModelStatus.SUPERSEDED <$> l) ++ [with_am_status AppModelStatus.PUBLISHED m].
Proof. induction l as [|x l IH]; [done|]. cbn. rewrite <- IH. by destruct (l ++ [m]) eqn:E; [destruct l|]. Qed.

Lemma retired_nil l : retired l = [] <-> l = [].
Proof. destruct l as [|m [|n l]]; done. Qed.

Lemma supersede_published m : wf m ->
  supersede (with_am_status AppModelStatus.PUBLISHED m) = Ret (with_am_status AppModelStatus.SUPERSEDED m).
Proof. intros H. exact (make_model_wf _ (wf_with_status AppModelStatus.SUPERSEDED m H)). Qed.

Lemma supersede_retired l : Forall wf l -> mapM_outcome supersede (retired l) = Ret (with_am_status AppModelStatus.SUPERSEDED <$> l).
Proof.
  induction 1 as [|m l Hm Hl IH]; [done|]. destruct l as [|n l].
  - cbn [retired mapM_outcome]. by rewrite supersede_published.
  - change (retired (m :: n :: l)) with (with_am_status AppModelStatus.SUPERSEDED m :: retired (n :: l)).
    cbn [mapM_outcome]. rewrite IH. done.
Qed.

Definition wf_op (o : op) : Prop := match o with Publish m => wf m | Snapshot _ _ => True end.

Lemma published_wf app ops : Forall wf_op ops -> Forall wf (published app ops).
Proof.
  induction 1 as [|o ops Ho _ IH]; [constructor|]. unfold published. cbn [omap list_omap].
  destruct o as [m|a b]; [|exact IH]. case_bool_decide; [constructor; [done|]|]; exact IH.
Qed.

Lemma published_snoc app ops o : published app (ops ++ [o]) = published app ops ++ published app [o].
Proof. unfold published. by rewrite omap_app. Qed.

Lemma published_one app m :
  published app [Publish m] = if bool_decide (app_id m = app /\ am_status m = AppModelStatus.SIGNED) then [m] else [].
Proof. unfold published, omap, list_omap. by destruct (bool_decide _). Qed.

Lemma current_retired app s l m :
  history s !! app = Some (retired (l ++ [m])) -> current app s = Ret (with_am_status AppModelStatus.PUBLISHED m).
Proof. unfold current. intros ->. change (default [] (Some ?l)) with l. rewrite retired_snoc, rev_app_distr. done. Qed.

(** The registry loses nothing: after any calls, the history of an app is
    exactly the list of the signed models published for it, in order, all
    superseded but the last; [current] answers that last one, and raises if
    none was published; and a snapshot never changes, unless the same
    assessment takes one of the same app and version again. *)
Theorem registry_keeps_every_version ops :
  Forall wf_op ops ->
  let s := run_all ops in
  (forall app, default [] (history s !! app) = retired (published app ops))
  /\ (forall app, current app s = match rev (published app ops) with
                                  | [] => Raise (unknown_app app)
                                  | m :: _ => Ret (with_am_status AppModelStatus.PUBLISHED m)
                                  end)
  /\ (forall o sid m, get_snapshot sid s = Ret m ->
        get_snapshot sid (call o s) = Ret m
        \/ exists a app n, o = Snapshot a app /\ current app s = Ret n /\ sid = snapshot_id a app (am_version n)).
Proof.
  intros Hwf. cbv zeta.
  assert (forall app, default [] (history (run_all ops) !! app) = retired (published app ops)) as Hh.
  { induction ops as [|o ops IH] using rev_ind; intros app; [done|]. apply Forall_app in Hwf as [Hwf Ho].
    specialize (IH Hwf). rewrite published_snoc. unfold run_all. rewrite foldl_snoc. fold (run_all ops).
    set (s := run_all ops) in *. pose proof (Forall_inv Ho) as Ho1. clear Ho. destruct o as [m|a app']; cbn [call].
    - rewrite published_one. unfold publish, lift, modify, mbind, M_bind, raise_if.
      destruct (decide (am_status m = AppModelStatus.SIGNED)) as [Hs|Hs].
      + rewrite bool_decide_true by done. cbn [negb]. rewrite IH, supersede_retired by by apply published_wf.
        rewrite make_model_wf by exact (wf_with_status _ _ Ho1). unfold mret, M_ret. cbn [snd history].
        destruct (decide (app_id m = app)) as [<-|Hn].
        * rewrite lookup_insert_eq, bool_decide_true by done. change (default [] (Some ?l)) with l. by rewrite retired_snoc.
        * rewrite lookup_insert_ne, bool_decide_false by tauto. by rewrite app_nil_r, IH.
      + rewrite bool_decide_false by done. cbn [negb snd]. rewrite bool_decide_false by tauto. by rewrite app_nil_r, IH.
    - unfold snapshot_for_assessment, published at 2. cbn [omap list_omap]. rewrite app_nil_r.
      by destruct (current app' s) as [n|e]. }
  split; [done|]. split.
  - intros app. specialize (Hh app). destruct (rev (published app ops)) as [|m l] eqn:E.
    + apply (f_equal (@rev _)) in E. rewrite rev_involutive in E. rewrite E in Hh. unfold current. rewrite Hh. done.
    + apply (f_equal (@rev _)) in E. rewrite rev_involutive in E. cbn [rev] in E. rewrite E in Hh.
      apply (current_retired _ _ (rev l)). destruct (history (run_all ops) !! app) as [h|]; cbn in Hh; [by rewrite Hh|].
      symmetry in Hh. apply (proj1 (retired_nil _)) in Hh. by destruct (rev l).
  - intros o sid m Hm. unfold get_snapshot in *. apply unwrap_Ret in Hm. destruct o as [n|a app]; cbn [call].
    + left. apply unwrap_Ret. unfold publish, lift, modify, mbind, M_bind, raise_if. destruct (negb _); [done|].
      destruct (mapM_outcome _ _); [|done]. by destruct (make_model _).
    + unfold snapshot_for_assessment. destruct (current app (run_all ops)) as [n|e] eqn:Ec; [|left; by apply unwrap_Ret].
      destruct (decide (snapshot_id a app (am_version n) = sid)) as [<-|Hn]; [right; by exists a, app, n|].
      left. apply unwrap_Ret. cbn [snd snapshots]. by rewrite lookup_insert_ne.
Qed.

Definition demo_signed (app version : string) (st : list string) : AppModel :=
  mkModel app version st [] [] [] [] [] [] AppModelStatus.SIGNED (Canonical.canonical_digest (Canonical.jstrs st)) None.

Lemma registry_keeps_every_version_witness :
  let ops := [Publish (demo_signed "shop" "1.0" ["a"]); Snapshot "a1" "shop"; Publish (demo_signed "shop" "1.1" ["b"])] in
  Forall wf_op ops
  /\ ((fun m => (am_version m, am_status m)) <$> default [] (history (run_all ops) !! "shop"))
     = [("1.0", AppModelStatus.SUPERSEDED); ("1.1", AppModelStatus.PUBLISHED)].
Proof.
  cbv zeta. set (ops := [_; _; _]). assert (Forall wf_op ops) as H by (repeat constructor; discriminate). split; [exact H|].
  rewrite (proj1 (registry_keeps_every_version ops H) "shop"). vm_compute. reflexivity.
Defined.

(** A version published again under the same number replaces what a snapshot
    taken again pins; and the text of a snapshot id is ambiguous. *)
Example republished_version_moves_the_snapshot :
  let ops := [Publish (demo_signed "shop" "1.0" ["a"]); Snapshot "a1" "shop"; Publish (demo_signed "shop" "1.0" ["b"]); Snapshot "a1" "shop"] in
  (states <$> get_snapshot (snapshot_id "a1" "shop" "1.0") (run_all ops)) = Ret ["b"]
  /\ snapshot_id "a1" "x:shop" "1.0" = snapshot_id "a1:x" "shop" "1.0".
Proof. split; vm_compute; reflexivity. Qed.

End ModelRegistry.

(** ** [DriftDetector] *)
Record DriftReport : Type := mkDrift {
  dr_app_id : string;
  added : list string;
  removed : list string;
  changed : list string
}.

Module Drift.

Definition has_drift (r : DriftReport) : bool :=
  negb (bool_decide (added r = []) && bool_decide (removed r = []) && bool_decide (changed r = [])).

(** [{t.endpoint: t for t in ..}]: the last transition of an endpoint. *)
Definition by_endpoint (l : list Transition) : gmap string Transition := foldl (fun m t => <[endpoint t := t]> m) ∅ l.

Definition differs (t u : Transition) : bool :=
  negb (bool_decide (tr_params t = tr_params u)) || negb (Bool.eqb (idempotent t) (idempotent u)).

Definition changed_in (cur new : gmap string Transition) (e : string) : bool :=
  match cur !! e, new !! e with Some t, Some u => differs t u | _, _ => false end.

Definition check (current reimported : AppModel) : DriftReport :=
  let cur := by_endpoint (transitions current) in
  let new := by_endpoint (transitions reimported) in
  mkDrift (app_id current)
    (PyStr.sorted (elements (dom new ∖ dom cur)))
    (PyStr.sorted (elements (dom cur ∖ dom new)))
    (PyStr.sorted (List.filter (changed_in cur new) (elements (dom cur ∩ dom new)))).

(** What the detector looks at. *)
Definition signature_of (t : Transition) : list string * bool := (tr_params t, idempotent t).
Definition view (m : AppModel) : gmap string (list string * bool) := signature_of <$> by_endpoint (transitions m).

Lemma differs_false t u : differs t u = false <-> signature_of t = signature_of u.
Proof.
  unfold differs, signature_of. rewrite orb_false_iff, !negb_false_iff, bool_decide_eq_true, eqb_true_iff. split; [by intros [-> ->]|by intros [=]].
Qed.

Lemma sorted_nil l : PyStr.sorted l = [] <-> l = [].
Proof. split; [|by intros ->]. intros H. pose proof (PyStr.sorted_Permutation l) as HP. rewrite H in HP. by apply Permutation_nil in HP. Qed.

(** The report says exactly which endpoints appeared, disappeared or changed
    their parameters or idempotency, each once and in order; it is empty
    exactly when the two models agree on all of that. *)
Theorem drift_is_exact cur new :
  let r := check cur new in
  (forall e, e ∈ added r <-> view cur !! e = None /\ is_Some (view new !! e))
  /\ (forall e, e ∈ removed r <-> is_Some (view cur !! e) /\ view new !! e = None)
  /\ (forall e, e ∈ changed r <-> exists x y, view cur !! e = Some x /\ view new !! e = Some y /\ x <> y)
  /\ (has_drift r = false <-> view cur = view new).
Proof.
  cbv zeta. unfold view, check. cbn [added removed changed].
  set (a := by_endpoint (transitions cur)). set (b := by_endpoint (transitions new)).
  assert (forall e, e ∈ PyStr.sorted (elements (dom b ∖ dom a)) <-> (signature_of <$> a) !! e = None /\ is_Some ((signature_of <$> b) !! e)) as H1.
  { intros e. rewrite PyStr.elem_of_sorted, elem_of_elements, elem_of_difference, !elem_of_dom, !lookup_fmap.
    destruct (a !! e), (b !! e); cbn; naive_solver. }
  assert (forall e, e ∈ PyStr.sorted (elements (dom a ∖ dom b)) <-> is_Some ((signature_of <$> a) !! e) /\ (signature_of <$> b) !! e = None) as H2.
  { intros e. rewrite PyStr.elem_of_sorted, elem_of_elements, elem_of_difference, !elem_of_dom, !lookup_fmap.
    destruct (a !! e), (b !! e); cbn; naive_solver. }
  assert (forall e, e ∈ PyStr.sorted (List.filter (changed_in a b) (elements (dom a ∩ dom b))) <->
    exists x y, (signature_of <$> a) !! e = Some x /\ (signature_of <$> b) !! e = Some y /\ x <> y) as H3.
  { intros e. rewrite PyStr.elem_of_sorted, list_elem_of_In, filter_In, <- list_elem_of_In, elem_of_elements, elem_of_intersection, !elem_of_dom, !lookup_fmap.
    unfold changed_in. destruct (a !! e) as [t|], (b !! e) as [u|]; cbn;
      try (split; [intros [_ ?]; done|intros (x & y & ? & ? & _); done]).
    split.
    - intros [_ Hd]. exists (signature_of t), (signature_of u). split_and!; [done..|]. intros H%differs_false. congruence.
    - intros (x & y & [= <-] & [= <-] & Hne). split; [by split|]. destruct (differs t u) eqn:E; [done|].
      by apply differs_false in E. }
  split_and!; [done..|]. unfold has_drift. cbn [added removed changed]. rewrite negb_false_iff, !andb_true_iff, !bool_decide_eq_true. split.
  - intros [[E1 E2] E3]. rewrite E1 in H1. rewrite E2 in H2. rewrite E3 in H3. apply map_eq. intros e.
    specialize (H1 e). specialize (H2 e). specialize (H3 e). rewrite elem_of_nil in H1, H2, H3.
    destruct ((signature_of <$> a) !! e) as [x|], ((signature_of <$> b) !! e) as [y|]; [| | |done].
    + destruct (decide (x = y)); [congruence|]. exfalso. apply H3. by exists x, y.
    + exfalso. apply H2. by split.
    + exfalso. apply H1. by split.
  - intros E. rewrite E in H1, H2, H3. split_and!; apply elem_of_nil_inv; intros e.
    + intros [Hn [x Hx]]%H1. congruence.
    + intros [[x Hx] Hn]%H2. congruence.
    + intros (x & y & Hx & Hy & Hne)%H3. congruence.
Qed.

End Drift.
