(* ===== verification/LogicTests.v ===== *)
(** * Logic tests generated from application models

    Models [src/secopent/application/logic_generator.py] (the generator and
    the interface of its strategies), [infrastructure/logic_strategies/
    restler_strategy.py] (Module [Restler], one strategy), and the endpoint
    [generate_tests] of [interfaces/api/routers/appmodels.py], which stores
    what is generated through the case service of [Cases].  The other two
    strategies are in [LogicStrategies]; theorems about the generator hold for
    any lawful strategy. *)
From S2P Require Import Prelude PyStr Sha256 Canonical PyJson PyText Policy Cases Catalog AppModels.

#[local] Open Scope Z_scope.

(** A [LogicGenerationStrategy]. *)
Record Strategy : Type := mkStrategy {
  strategy_version : string;
  strategy_generate : AppModel -> outcome (list LogicTestCase)
}.

(** What a strategy promises: each case carries the digest of the model and
    the signature computed for it. *)
Definition signed_for (s : Strategy) (m : AppModel) (c : LogicTestCase) : Prop :=
  app_model_digest c = am_digest m
  /\ lt_signature c = Logic.compute_signature (am_digest m) (lt_class c) (strategy_version s) (lt_target c).
Class LawfulStrategy (s : Strategy) : Prop :=
  strategy_signs : forall m cs, strategy_generate s m = Ret cs -> Forall (signed_for s m) cs.

(** ** [RestlerStrategy] *)
Module Restler.

Definition STRATEGY_VERSION : string := "1.0.0".

Definition case (m : AppModel) (cls : LogicTestClass) (target description : string) (inputs : list (string * json))
  : outcome LogicTestCase :=
  Logic.check_logic (mkLogic cls (am_digest m) target description inputs
    (Logic.compute_signature (am_digest m) cls STRATEGY_VERSION target)).

Definition replay_case (m : AppModel) (t : Transition) : outcome LogicTestCase :=
  case m LogicTestClass.REPLAY (tr_id t) ("replay non-idempotent transition " +:+ endpoint t +:+ " twice")
    [("repeat_endpoint", JStr (endpoint t)); ("times", JInt 2)].
Definition replay (m : AppModel) : outcome (list LogicTestCase) :=
  mapM_outcome (replay_case m) (List.filter (fun t => negb (idempotent t)) (transitions m)).

Definition feeds (t1 t2 : Transition) : bool :=
  negb (bool_decide (tr_id t1 = tr_id t2)) && bool_decide (to_state t1 = from_state t2).
Definition adjacent_pairs (m : AppModel) : list (Transition * Transition) :=
  t1 ← transitions m; pair t1 <$> List.filter (feeds t1) (transitions m).

Definition skip_case (m : AppModel) (p : Transition * Transition) : outcome LogicTestCase :=
  case m LogicTestClass.SKIP_STEP (tr_id p.1 +:+ "->" +:+ tr_id p.2)
    ("skip " +:+ endpoint p.1 +:+ ": call " +:+ endpoint p.2 +:+ " directly")
    [("call", JStr (endpoint p.2)); ("skip", JStr (endpoint p.1))].
Definition order_case (m : AppModel) (p : Transition * Transition) : outcome LogicTestCase :=
  case m LogicTestClass.OUT_OF_ORDER (tr_id p.2 +:+ "->" +:+ tr_id p.1)
    ("call " +:+ endpoint p.2 +:+ " before prerequisite " +:+ endpoint p.1)
    [("order", JArr [JStr (endpoint p.2); JStr (endpoint p.1)])].

Definition generate (m : AppModel) : outcome (list LogicTestCase) :=
  r ← replay m;
  s ← mapM_outcome (skip_case m) (adjacent_pairs m);
  o ← mapM_outcome (order_case m) (adjacent_pairs m);
  Ret (r ++ s ++ o).

Definition strategy : Strategy := mkStrategy STRATEGY_VERSION generate.

Lemma case_Ret m cls tgt d i c :
  case m cls tgt d i = Ret c <-> am_digest m <> "" /\ tgt <> ""
    /\ c = mkLogic cls (am_digest m) tgt d i (Logic.compute_signature (am_digest m) cls STRATEGY_VERSION tgt).
Proof.
  unfold case, Logic.check_logic. cbn [app_model_digest lt_target]. split.
  - intros H. inv_ret. by rewrite !PyStr.is_empty_false in *.
  - intros (H1 & H2 & ->). apply PyStr.is_empty_false in H1 as ->. by apply PyStr.is_empty_false in H2 as ->.
Qed.

Lemma cases_signed {A} (f : A -> outcome LogicTestCase) m l cs :
  (forall a c, f a = Ret c -> exists cls tgt d i, case m cls tgt d i = Ret c) ->
  mapM_outcome f l = Ret cs -> Forall (signed_for strategy m) cs.
Proof.
  intros Hf H%mapM_outcome_Ret. induction H as [|a c l cs Ha _ IH]; constructor; [|done].
  destruct (Hf _ _ Ha) as (cls & tgt & d & i & (_ & _ & ->)%case_Ret). done.
Qed.

#[export] Instance restler_lawful : LawfulStrategy strategy.
Proof.
  intros m cs H. cbn [strategy_generate strategy] in H. unfold generate, replay in H. inv_ret.
  rewrite !Forall_app. split_and!; (eapply cases_signed; [|eassumption]); intros a c Hc; by repeat eexists.
Qed.

(** On a model with a digest whose transitions have identifiers, generation
    never fails. *)
Lemma cases_total {A} (f : A -> outcome LogicTestCase) l :
  (forall a, a ∈ l -> is_Ret (f a) = true) -> exists cs, mapM_outcome f l = Ret cs /\ Forall2 (fun a c => f a = Ret c) l cs.
Proof.
  induction l as [|a l IH]; intros H; [by exists []|]. pose proof (H a (list_elem_of_here _ _)) as Ha. apply is_Ret_true in Ha as [c Hc].
  destruct IH as (cs & E & HF); [intros b Hb; apply H; by right|]. exists (c :: cs). cbn [mapM_outcome]. rewrite Hc, E. by split; [|constructor].
Qed.

Lemma adjacent_pairs_spec m p :
  p ∈ adjacent_pairs m <-> p.1 ∈ transitions m /\ p.2 ∈ transitions m /\ tr_id p.1 <> tr_id p.2 /\ to_state p.1 = from_state p.2.
Proof.
  unfold adjacent_pairs. rewrite list_elem_of_bind. destruct p as [a b]. cbn [fst snd]. split.
  - intros (t & (u & [= -> ->] & [Hu Hf]%list_elem_of_In%filter_In)%list_elem_of_fmap & Ht). apply list_elem_of_In in Hu.
    unfold feeds in Hf. by breflect.
  - intros (Ha & Hb & Hid & Hst). exists a. split; [|done]. apply list_elem_of_fmap. exists b. split; [done|].
    apply list_elem_of_In, filter_In. split; [by apply list_elem_of_In|]. unfold feeds.
    by rewrite (bool_decide_false _ Hid), (bool_decide_true _ Hst).
Qed.

Lemma generate_total m :
  am_digest m <> "" -> Forall (fun t => tr_id t <> "") (transitions m) ->
  exists r s o, generate m = Ret (r ++ s ++ o)
    /\ Forall2 (fun t c => lt_class c = LogicTestClass.REPLAY /\ lt_target c = tr_id t) (List.filter (fun t => negb (idempotent t)) (transitions m)) r
    /\ Forall2 (fun p c => lt_class c = LogicTestClass.SKIP_STEP /\ lt_target c = tr_id p.1 +:+ "->" +:+ tr_id p.2) (adjacent_pairs m) s
    /\ Forall2 (fun p c => lt_class c = LogicTestClass.OUT_OF_ORDER /\ lt_target c = tr_id p.2 +:+ "->" +:+ tr_id p.1) (adjacent_pairs m) o.
Proof.
  intros Hd Hids. rewrite Forall_forall in Hids.
  assert (forall a b, a <> "" -> a +:+ b <> "") as Hne by (by intros [|c a] b).
  destruct (cases_total (replay_case m) (List.filter (fun t => negb (idempotent t)) (transitions m))) as (r & Er & Hr).
  { intros t [Ht _]%list_elem_of_In%filter_In. apply is_Ret_true. eexists. apply case_Ret. split_and!; [done| |done].
    apply Hids. by apply list_elem_of_In. }
  destruct (cases_total (skip_case m) (adjacent_pairs m)) as (s & Es & Hs).
  { intros p (H1 & _)%adjacent_pairs_spec. apply is_Ret_true. eexists. apply case_Ret. split_and!; [done|by apply Hne, Hids|done]. }
  destruct (cases_total (order_case m) (adjacent_pairs m)) as (o & Eo & Ho).
  { intros p (_ & H2 & _)%adjacent_pairs_spec. apply is_Ret_true. eexists. apply case_Ret. split_and!; [done|by apply Hne, Hids|done]. }
  exists r, s, o. unfold generate, replay. rewrite Er, Es, Eo. split; [done|].
  split_and!; (eapply Forall2_impl; [eassumption|]); by intros a c (_ & _ & ->)%case_Ret.
Qed.

End Restler.

(** ** [LogicTestGenerator] *)
Module LogicTestGenerator.
Section generator.
Context (strategies : list Strategy).

Definition generate (m : AppModel) : outcome (list LogicTestCase) :=
  css ← mapM_outcome (fun s => strategy_generate s m) strategies; Ret (concat css).

Definition generate_incremental (m : AppModel) (known_signatures : list string) : outcome (list LogicTestCase) :=
  let known : gset string := list_to_set known_signatures in
  cs ← generate m; Ret (List.filter (fun c => negb (bool_decide (lt_signature c ∈ known))) cs).

Context (lawful : forall s, s ∈ strategies -> LawfulStrategy s).

Lemma generate_signed m cs c : generate m = Ret cs -> c ∈ cs -> exists s, s ∈ strategies /\ signed_for s m c.
Proof using lawful.
  unfold generate. intros H Hc. inv_ret. apply mapM_outcome_Ret in H.
  apply list_elem_of_In, in_concat in Hc as (l & Hl%list_elem_of_In & Hc%list_elem_of_In).
  apply list_elem_of_lookup in Hl as [i Hi]. destruct (Forall2_lookup_r _ _ _ _ _ H Hi) as (s & Hs & E).
  apply list_elem_of_lookup_2 in Hs. exists s. split; [done|]. pose proof (lawful s Hs m l E) as HF.
  rewrite Forall_forall in HF. by apply HF.
Qed.

Lemma no_bar j : PyText.no_char "|" (Canonical.canonical_digest j).
Proof.
  unfold Canonical.canonical_digest. assert (PyText.no_char "|" (Sha256.hexdigest (Canonical.canonical_json j))) as H.
  { pose proof (Sha256.hexdigest_hex (Canonical.canonical_json j)) as H. revert H. induction (Sha256.hexdigest _) as [|c s IH]; [done|].
    cbn [PyStr.forallb]. intros [Hc Hs]%andb_true_iff. apply PyText.no_char_cons. split; [by intros <-|by apply IH]. }
  repeat (apply PyText.no_char_cons; split; [discriminate|]). exact H.
Qed.

(** Equal signatures name the same model, or SHA-256 collides. *)
Lemma signature_fixes_digest j j' c c' v v' t t' :
  Logic.compute_signature (Canonical.canonical_digest j) c v t = Logic.compute_signature (Canonical.canonical_digest j') c' v' t' ->
  Canonical.normalize j = Canonical.normalize j' \/ exists x y, Sha256.collision x y.
Proof.
  unfold Logic.compute_signature. intros H%PyStr.app_inv_head.
  set (x := PyStr.join "|" _) in H at 1. set (y := PyStr.join "|" _) in H. destruct (decide (x = y)) as [E|Hne]; [|right; by exists x, y].
  unfold x, y in E. cbn [PyStr.join] in E. apply (f_equal (PyStr.split "|")) in E.
  change ("|" +:+ ?r) with (String "|" r) in E. rewrite !PyText.split_sep in E by apply no_bar.
  apply (f_equal (hd "")) in E. cbn [hd] in E.
  apply Canonical.canonical_digest_inj in E as [?|?]; [by left|right; by eexists _, _].
Qed.

(** Generating again from the same model adds nothing; and after any change
    of the content of the model, however small, everything is generated
    again, since every signature covers the digest of the whole model. *)
Theorem any_change_regenerates_everything m cs :
  generate m = Ret cs ->
  generate_incremental m (lt_signature <$> cs) = Ret []
  /\ forall m' cs', AppModelService.honest m -> AppModelService.honest m' -> generate m' = Ret cs' ->
       Canonical.normalize (AppModels.content_payload m) <> Canonical.normalize (AppModels.content_payload m') ->
       generate_incremental m' (lt_signature <$> cs) = Ret cs' \/ exists x y, Sha256.collision x y.
Proof using lawful.
  intros Hg. split.
  - unfold generate_incremental. rewrite Hg. cbn [mbind outcome_bind]. f_equal. apply elem_of_nil_inv.
    intros c [Hc Hn]%list_elem_of_In%filter_In. breflect. apply Hn, elem_of_list_to_set, list_elem_of_fmap. exists c.
    split; [done|by apply list_elem_of_In].
  - intros m' cs' Hm Hm' Hg' Hne. destruct (decide (Exists (fun c => lt_signature c ∈ lt_signature <$> cs) cs')) as [HE|HE].
    + right. apply Exists_exists in HE as (c' & Hc' & (c & Es & Hc)%list_elem_of_fmap).
      destruct (generate_signed _ _ _ Hg Hc) as (s & _ & _ & E1). destruct (generate_signed _ _ _ Hg' Hc') as (s' & _ & _ & E2).
      rewrite E1, E2, Hm, Hm' in Es. apply signature_fixes_digest in Es as [Es|?]; [by destruct Hne|done].
    + left. unfold generate_incremental. rewrite Hg'. cbn [mbind outcome_bind]. f_equal.
      apply not_Exists_Forall in HE; [|intros c; solve_decision]. clear Hg' Hm' Hne. induction HE as [|c l Hc _ IH]; [done|]. cbn [List.filter].
      rewrite bool_decide_false by by rewrite elem_of_list_to_set. cbn [negb]. by rewrite IH.
Qed.

End generator.

Definition demo : AppModel := with_am_digest (AppModels.content_digest AppModelService.demo_model) AppModelService.demo_model.
Definition demo' : AppModel :=
  let m := mkModel "shop" "1.9" (states demo) (transitions demo) [] (fields demo) [] [] ["coupons"] AppModelStatus.DRAFT "" None in
  with_am_digest (AppModels.content_digest m) m.
Definition demo_cases : list LogicTestCase := match generate [Restler.strategy] demo with Ret cs => cs | Raise _ => [] end.

Lemma any_change_regenerates_everything_witness :
  generate [Restler.strategy] demo = Ret demo_cases /\ (length demo_cases = 3)%nat
  /\ generate_incremental [Restler.strategy] demo (lt_signature <$> demo_cases) = Ret [].
Proof.
  assert (generate [Restler.strategy] demo = Ret demo_cases) as H by (vm_compute; reflexivity).
  split; [exact H|]. split; [vm_compute; reflexivity|].
  apply (any_change_regenerates_everything [Restler.strategy]) in H as [H _]; [exact H|].
  intros s Hs. apply list_elem_of_singleton in Hs as ->. exact Restler.restler_lawful.
Defined.

End LogicTestGenerator.

(** ** The endpoint [generate_tests] *)
Module GenerateTests.

Definition case_id_of (c : LogicTestCase) : string :=
  "logic:" +:+ value (lt_class c) +:+ ":" +:+ PyStr.take 12 (PyStr.removeprefix (lt_signature c) "sha256:").

Definition logic_to_case (m : AppModel) (c : LogicTestCase) : CaseDefinition :=
  mkCase (case_id_of c) (am_version m) "logic-generator" RiskClass.ACTIVE "logic" "secopent-logic/v1"
    [mkCaseStep "t1" "logic.test"
       [("test_class", Canonical.jenum (lt_class c)); ("target", JStr (lt_target c)); ("inputs", JObj (lt_inputs c));
        ("signature", JStr (lt_signature c)); ("app_model_digest", JStr (app_model_digest c))]]
    [] [] [] [] [] [] None "" "" CaseOrigin.MODEL_GENERATED CaseStatus.DRAFT "".

Section endpoint.
Context (strategies : list Strategy).

Definition unprocessable (e : exn) : exn := HTTPException 422 (message e).

(** One generated case: registered as a draft and sent down the fast path. *)
Definition advance (m : AppModel) (c : LogicTestCase) : M CaseService.Registry CaseDefinition :=
  case ← lift (Case.check_case (logic_to_case m c));
  try_exceptM (CaseService.create_draft case;; CaseService.fast_track_model_generated (case_id case))
    is_domain_error (fun e => raise (unprocessable e)).

Definition generate_tests (k : string * string) (models : AppModelService.Registry) : M CaseService.Registry (list CaseDefinition) :=
  match models !! k with
  | None => raise (HTTPException 404 ("app model not found: " +:+ k.1 +:+ "@" +:+ k.2))
  | Some m =>
      if negb (bool_decide (am_status m = AppModelStatus.SIGNED))
      then raise (HTTPException 409 ("model must be SIGNED to generate tests (is " +:+ value (am_status m) +:+ ")"))
      else cs ← lift (LogicTestGenerator.generate strategies m); mapM_state (advance m) cs
  end.

Lemma check_logic_case m c : am_version m <> "" -> Case.check_case (logic_to_case m c) = Ret (logic_to_case m c).
Proof.
  intros H. unfold Case.check_case, logic_to_case. cbn [case_id version author target_type schema case_steps].
  rewrite (proj2 (Case.nonempty_Ret (am_version m) "CaseDefinition.version" tt) H). done.
Qed.

(** The step of a generated case is of low risk, below the declared one. *)
Lemma logic_case_risk m c s : Risk.validate_declared_risk (with_status s (logic_to_case m c)) = Ret tt.
Proof. unfold Risk.validate_declared_risk, Risk.compute_risk, logic_to_case. cbn. reflexivity. Qed.

Definition stored_case (m : AppModel) (c : LogicTestCase) : CaseDefinition := with_status CaseStatus.VALIDATED (logic_to_case m c).

Lemma advance_spec m c (r : CaseService.Registry) :
  am_version m <> "" ->
  advance m c r = (Ret (stored_case m c), <[case_id_of c := stored_case m c]> r).
Proof.
  intros Hv. unfold advance, lift, mbind, M_bind. rewrite check_logic_case by done.
  unfold try_exceptM, CaseService.create_draft, lift, CaseService.put, modify, mbind, M_bind.
  change (with_status CaseStatus.DRAFT (logic_to_case m c)) with (logic_to_case m c). rewrite check_logic_case by done.
  unfold mret, M_ret. unfold CaseService.fast_track_model_generated, mbind, M_bind.
  unfold CaseService.get at 1, gets, lift, mbind, M_bind. change (case_id (logic_to_case m c)) with (case_id_of c).
  rewrite lookup_insert_eq. cbn [unwrap]. unfold raise_if. cbn [origin logic_to_case]. rewrite bool_decide_true by done. cbn [negb].
  change (logic_to_case m c) with (with_status CaseStatus.DRAFT (logic_to_case m c)) at 1. rewrite logic_case_risk.
  destruct (CaseService.transition_cases (logic_to_case m c) CaseStatus.VALIDATED (<[case_id_of c := logic_to_case m c]> r))
    as [(e & _ & [H|H])|(_ & _ & E)].
  - cbn in H. set_solver.
  - by rewrite check_logic_case in H.
  - rewrite E. cbn [case_risk logic_to_case]. rewrite bool_decide_false by set_solver.
    change (case_id (logic_to_case m c)) with (case_id_of c). by rewrite insert_insert_eq.
Qed.

Lemma advance_all m cs (r : CaseService.Registry) :
  am_version m <> "" ->
  mapM_state (advance m) cs r = (Ret (stored_case m <$> cs), foldl (fun r c => <[case_id_of c := stored_case m c]> r) r cs).
Proof.
  intros Hv. revert r. induction cs as [|c cs IH]; intros r; [done|]. cbn [mapM_state foldl]. unfold mbind, M_bind.
  by rewrite advance_spec, IH.
Qed.

Lemma foldl_insert_lookup {A} (key : A -> string) (f : A -> CaseDefinition) l (r : CaseService.Registry) i c :
  foldl (fun r x => <[key x := f x]> r) r l !! i = Some c -> (exists x, x ∈ l /\ key x = i /\ c = f x) \/ (r !! i = Some c /\ forall x, x ∈ l -> key x <> i).
Proof.
  revert r. induction l as [|x l IH]; intros r; cbn [foldl].
  - intros H. right. split; [done|]. by intros x ?%elem_of_nil.
  - intros H. destruct (IH _ H) as [(y & Hy & Hk & ->)|[Hi Hn]]; [left; exists y; set_solver|].
    apply lookup_insert_Some in Hi as [[Hk <-]|[Hk Hi]]; [left; exists x; set_solver|]. right. split; [done|].
    intros y [->|Hy]%elem_of_cons; [done|by apply Hn].
Qed.

(** Tests come only from a model a human signed, and wait for a human: if
    [generate_tests] answers, the model is SIGNED, the cases it stores are
    those of the generator, each VALIDATED and no further, and no other case
    of the registry is touched; and for a well-formed signed model whose
    strategies succeed it does answer. *)
Theorem generated_tests_await_review (k : string * string) (models : AppModelService.Registry) (r : CaseService.Registry) :
  AppModelService.stored_ok models ->
  match generate_tests k models r with
  | (Ret out, r') => exists m cs, models !! k = Some m /\ am_status m = AppModelStatus.SIGNED
      /\ LogicTestGenerator.generate strategies m = Ret cs /\ out = stored_case m <$> cs
      /\ Forall (fun c => case_status c = CaseStatus.VALIDATED /\ origin c = CaseOrigin.MODEL_GENERATED) out
      /\ (forall i c, r' !! i = Some c -> c ∈ out \/ r !! i = Some c)
  | (Raise e, r') => r' = r /\ (models !! k = None
      \/ exists m, models !! k = Some m /\ (am_status m <> AppModelStatus.SIGNED \/ LogicTestGenerator.generate strategies m = Raise e))
  end.
Proof.
  intros Hok. unfold generate_tests. destruct (models !! k) as [m|] eqn:Em; [|split; [done|by left]].
  destruct (Hok _ _ Em) as [_ Hwf]. case_bool_decide as Hs; cbn [negb]; [|split; [done|right; exists m; auto]].
  unfold lift, mbind, M_bind. destruct (LogicTestGenerator.generate strategies m) as [cs|e] eqn:Eg; [|split; [done|right; exists m; auto]].
  rewrite advance_all by apply Hwf. exists m, cs. split_and!; try done.
  - apply Forall_fmap, Forall_forall. by intros c _.
  - intros i c [(x & Hx & _ & ->)|[Hi _]]%foldl_insert_lookup; [left; by apply list_elem_of_fmap_2|by right].
Qed.

End endpoint.

Definition signed_demo : AppModel := with_am_status AppModelStatus.SIGNED LogicTestGenerator.demo.
Definition signed_models : AppModelService.Registry := {[AppModelService.demo_key := signed_demo]}.

Lemma generated_tests_await_review_witness :
  exists out r', generate_tests [Restler.strategy] AppModelService.demo_key signed_models ∅ = (Ret out, r')
  /\ (length out = 3)%nat /\ Forall (fun c => case_status c = CaseStatus.VALIDATED /\ origin c = CaseOrigin.MODEL_GENERATED) out.
Proof.
  assert (AppModelService.stored_ok signed_models) as Hok.
  { apply map_Forall_singleton. split; [reflexivity|]. split; discriminate. }
  pose proof (generated_tests_await_review [Restler.strategy] AppModelService.demo_key signed_models ∅ Hok) as H.
  destruct (generate_tests _ _ _ _) as [[out|e] r'] eqn:E.
  2: { exfalso. apply (f_equal (fun p => is_Ret p.1)) in E. vm_compute in E. discriminate E. }
  exists out, r'. split; [reflexivity|]. destruct H as (m & cs & _ & _ & _ & _ & HF & _). split; [|exact HF].
  apply (f_equal (fun p => match p.1 with Ret l => length l | Raise _ => 0%nat end)) in E. vm_compute in E. symmetry. exact E.
Defined.

(** Generating again puts cases a human had reviewed and signed back to
    VALIDATED. *)
Example regeneration_undoes_review :
  let gen := generate_tests [Restler.strategy] AppModelService.demo_key signed_models in
  let r1 := (gen ∅).2 in
  let id := match (gen ∅).1 with Ret (c :: _) => case_id c | _ => "" end in
  let r2 := (CaseService.sign id AppModelService.demo_signer "human" (CaseService.review id "human" r1).2).2 in
  case_status <$> r2 !! id = Some CaseStatus.SIGNED /\ case_status <$> (gen r2).2 !! id = Some CaseStatus.VALIDATED.
Proof. vm_compute. split; reflexivity. Qed.

End GenerateTests.
