(* ===== verification/CaseEngine.v ===== *)
(** * The case engine: assertions and the step interpreter

    Models [src/secopent/infrastructure/case_engine/ast_evaluator.py] (Module
    [Evaluator]) and [interpreter.py] (Module [Interpreter]).  Python's parser
    and regular expressions are parameters: [ast.parse] answers an [expr] (the
    node types of the grammar the evaluator looks at, any other node by its
    type name) or a syntax error, [re.search] the groups of the first match or
    an error.  Constants are None, booleans, integers, floats and texts.
    [lower] and [upper] act on ASCII letters, and the texts Python gives its
    own [TypeError]s are left out of the messages. *)
From S2P Require Import Prelude PyStr PyFloat PyText PyDict Canonical PyJson Policy Cases.

#[local] Open Scope Z_scope.

Record HttpResponse : Type := mkResponse {
  status_code : Z;
  body : string;
  headers : list (string * string)
}.

(** The values an assertion computes with. *)
#[local] Unset Elimination Schemes.
Inductive val : Type :=
| VNone
| VBool (b : bool)
| VInt (z : Z)
| VFloat (f : pyfloat)
| VStr (s : string)
| VList (l : list val)
| VDict (d : list (string * string))
| VResp (r : HttpResponse).
#[local] Set Elimination Schemes.

(** ** Python's operators on the values *)
Module Value.

(** Numbers, as decimals. *)
Inductive num : Type := Dec (m e : Z) | PInf | NInf | NotANumber.

Definition to_num (v : val) : option num :=
  match v with
  | VBool b => Some (Dec (if b then 1 else 0) 0)
  | VInt z => Some (Dec z 0)
  | VFloat (PyFloat.Fin l) => let '(m, e) := PyFloat.decimal l in Some (Dec m e)
  | VFloat (PyFloat.Inf neg) => Some (if neg then NInf else PInf)
  | VFloat PyFloat.NaN => Some NotANumber
  | _ => None
  end.

(** [None] when a NaN takes part. *)
Definition num_compare (a b : num) : option comparison :=
  match a, b with
  | NotANumber, _ | _, NotANumber => None
  | PInf, PInf | NInf, NInf => Some Eq
  | NInf, _ | _, PInf => Some Lt
  | PInf, _ | _, NInf => Some Gt
  | Dec m e, Dec m' e' => let k := Z.min e e' in Some (m * 10 ^ (e - k) ?= m' * 10 ^ (e' - k))
  end.

Definition num_eq (v w : val) : bool :=
  match to_num v, to_num w with
  | Some a, Some b => match num_compare a b with Some Eq => true | _ => false end
  | _, _ => false
  end.

Definition dict_eq (d e : list (string * string)) : bool :=
  bool_decide (length d = length e) && forallb (fun kv => bool_decide (PyDict.get kv.1 e = Some kv.2)) d.

(** [v == w] *)
Fixpoint py_eq (v w : val) : bool :=
  match v, w with
  | VNone, VNone => true
  | VStr s, VStr t => String.eqb s t
  | VList l, VList m =>
      (fix go l m := match l, m with
                     | [], [] => true
                     | x :: l, y :: m => py_eq x y && go l m
                     | _, _ => false
                     end) l m
  | VDict d, VDict e => dict_eq d e
  | VResp r, VResp s => (status_code r =? status_code s) && String.eqb (body r) (body s) && dict_eq (headers r) (headers s)
  | _, _ => num_eq v w
  end.

(** An ordering operator, as the set of comparisons it accepts; [None] is a
    [TypeError]. *)
Fixpoint py_order (accepts : comparison -> bool) (v w : val) : option bool :=
  match v, w with
  | VStr s, VStr t => Some (accepts (String.compare s t))
  | VList l, VList m =>
      (fix go l m := match l, m with
                     | [], [] => Some (accepts Eq)
                     | [], _ :: _ => Some (accepts Lt)
                     | _ :: _, [] => Some (accepts Gt)
                     | x :: l, y :: m => if py_eq x y then go l m else py_order accepts x y
                     end) l m
  | _, _ => match to_num v, to_num w with
            | Some a, Some b => Some (match num_compare a b with Some c => accepts c | None => false end)
            | _, _ => None
            end
  end.

(** [v in w] *)
Definition py_in (v w : val) : option bool :=
  match w with
  | VStr t => match v with VStr s => Some (PyStr.contains t s) | _ => None end
  | VList l => Some (existsb (py_eq v) l)
  | VDict d => match v with
               | VStr k => Some (existsb (fun kv => String.eqb kv.1 k) d)
               | VList _ | VDict _ | VResp _ => None
               | _ => Some false
               end
  | _ => None
  end.

Definition truthy (v : val) : bool :=
  match v with
  | VNone => false
  | VStr s => PyStr.truthy s
  | VList l => match l with [] => false | _ => true end
  | VDict d => match d with [] => false | _ => true end
  | VResp _ => true
  | _ => negb (num_eq v (VInt 0))
  end.

Definition dict_repr (d : list (string * string)) : string :=
  "{" +:+ PyStr.join ", " ((fun kv => PyStr.repr kv.1 +:+ ": " +:+ PyStr.repr kv.2) <$> d) +:+ "}".

Fixpoint py_repr (v : val) : string :=
  match v with
  | VNone => "None"
  | VBool b => if b then "True" else "False"
  | VInt z => pretty z
  | VFloat (PyFloat.Fin l) => PyFloat.text l
  | VFloat (PyFloat.Inf neg) => if neg then "-inf" else "inf"
  | VFloat PyFloat.NaN => "nan"
  | VStr s => PyStr.repr s
  | VList l => "[" +:+ PyStr.join ", " (py_repr <$> l) +:+ "]"
  | VDict d => dict_repr d
  | VResp r => "HttpResponse(status_code=" +:+ pretty (status_code r) +:+ ", body=" +:+ PyStr.repr (body r)
               +:+ ", headers=" +:+ dict_repr (headers r) +:+ ")"
  end.
Definition py_str (v : val) : string := match v with VStr s => s | _ => py_repr v end.

(** The text of [-x]. *)
Definition negated (s : string) : string :=
  match s with
  | String c r => if Ascii.eqb c "-" then r else String "-" s
  | EmptyString => s
  end.
Definition float_neg (f : pyfloat) : pyfloat :=
  match f with
  | PyFloat.Fin l => match decide (PyFloat.lit_wf (negated (PyFloat.text l)) = true) with
                     | left H => PyFloat.Fin (PyFloat.mkLit _ H)
                     | right _ => f
                     end
  | PyFloat.Inf b => PyFloat.Inf (negb b)
  | PyFloat.NaN => f
  end.

Definition py_neg (v : val) : outcome val :=
  match v with
  | VBool b => Ret (VInt (if b then -1 else 0))
  | VInt z => Ret (VInt (- z))
  | VFloat f => Ret (VFloat (float_neg f))
  | _ => Raise (TypeError "bad operand type for unary -")
  end.

End Value.

(** ** [ast_evaluator.py] *)
Inductive cmpop : Type := CEq | CNotEq | CLt | CLtE | CGt | CGtE | CIn | CNotIn | CIs | CIsNot.

#[local] Unset Elimination Schemes.
Inductive expr : Type :=
| EConstant (v : val)
| EList (elts : list expr)
| EName (name : string)
| EAnd (values : list expr)
| EOr (values : list expr)
| ENot (operand : expr)
| EUSub (operand : expr)
| EUnaryOther (operand : expr)
| ECompare (first : expr) (rest : list (cmpop * expr))
| ECall (func : string + expr) (args : list expr) (has_keywords : bool)
| EOther (type_name : string).
#[local] Set Elimination Schemes.

Section expr_ind.
Variable P : expr -> Prop.
Hypothesis HConstant : forall v, P (EConstant v).
Hypothesis HList : forall l, Forall P l -> P (EList l).
Hypothesis HName : forall n, P (EName n).
Hypothesis HAnd : forall l, Forall P l -> P (EAnd l).
Hypothesis HOr : forall l, Forall P l -> P (EOr l).
Hypothesis HNot : forall e, P e -> P (ENot e).
Hypothesis HUSub : forall e, P e -> P (EUSub e).
Hypothesis HUnaryOther : forall e, P (EUnaryOther e).
Hypothesis HCompare : forall e l, P e -> Forall (fun p => P p.2) l -> P (ECompare e l).
Hypothesis HCall : forall f l k, Forall P l -> P (ECall f l k).
Hypothesis HOther : forall t, P (EOther t).

Fixpoint expr_ind (e : expr) : P e :=
  let all := fix go l : Forall P l :=
    match l with [] => List.Forall_nil _ | x :: xs => List.Forall_cons _ _ _ (expr_ind x) (go xs) end in
  match e with
  | EConstant v => HConstant v
  | EList l => HList l (all l)
  | EName n => HName n
  | EAnd l => HAnd l (all l)
  | EOr l => HOr l (all l)
  | ENot e => HNot e (expr_ind e)
  | EUSub e => HUSub e (expr_ind e)
  | EUnaryOther e => HUnaryOther e
  | ECompare e l =>
      HCompare e l (expr_ind e)
        ((fix go l : Forall (fun p => P p.2) l :=
            match l with [] => List.Forall_nil _ | x :: xs => List.Forall_cons _ _ _ (expr_ind x.2) (go xs) end) l)
  | ECall f l k => HCall f l k (all l)
  | EOther t => HOther t
  end.
End expr_ind.

(** A match of [re.search]: the text matched and its groups. *)
Record Match : Type := mkMatch { group0 : string; groups : list (option string) }.

Module Evaluator.
Import Value.

Section evaluator.
(** [re.search(pattern, text)]; an error is [re.error]. *)
Context (re_search : string -> string -> sum string (option Match)).

Definition error {A} (msg : string) : outcome A := Raise (ExpressionError msg).

Definition matches (pattern text : val) : outcome val :=
  match pattern with
  | VStr p => match re_search p (py_str text) with
              | inl e => error ("matches() invalid regex: " +:+ e)
              | inr m => Ret (VBool (match m with Some _ => true | None => false end))
              end
  | _ => error "matches() pattern must be a string"
  end.

(** The whitelisted functions; a wrong number of arguments is a failed call. *)
Definition FUNCTIONS (name : string) : option (list val -> outcome val) :=
  let failed : outcome val := error "assertion function failed" in
  let unary (f : val -> outcome val) l := match l with [a] => f a | _ => failed end in
  let binary (f : val -> val -> outcome val) l := match l with [a; b] => f a b | _ => failed end in
  if String.eqb name "contains" then
    Some (binary (fun h n => match py_in n h with Some b => Ret (VBool b) | None => error "contains() unsupported operand" end))
  else if String.eqb name "len" then
    Some (unary (fun v => match v with
                          | VStr s => Ret (VInt (PyText.characters s))
                          | VList l => Ret (VInt (Z.of_nat (length l)))
                          | VDict d => Ret (VInt (Z.of_nat (length d)))
                          | _ => failed
                          end))
  else if String.eqb name "matches" then Some (binary matches)
  else if String.eqb name "starts_with" then Some (binary (fun t p => Ret (VBool (PyStr.startswith (py_str t) (py_str p)))))
  else if String.eqb name "ends_with" then Some (binary (fun t p => Ret (VBool (PyStr.endswith (py_str t) (py_str p)))))
  else if String.eqb name "equals" then Some (binary (fun a b => Ret (VBool (py_eq a b))))
  else if String.eqb name "lower" then Some (unary (fun t => Ret (VStr (PyStr.lower (py_str t)))))
  else if String.eqb name "upper" then Some (unary (fun t => Ret (VStr (PyStr.upper (py_str t)))))
  else None.

Definition COMPARE_OPS (o : cmpop) : option (val -> val -> option bool) :=
  match o with
  | CEq => Some (fun a b => Some (py_eq a b))
  | CNotEq => Some (fun a b => Some (negb (py_eq a b)))
  | CLt => Some (py_order (fun c => match c with Lt => true | _ => false end))
  | CLtE => Some (py_order (fun c => match c with Gt => false | _ => true end))
  | CGt => Some (py_order (fun c => match c with Gt => true | _ => false end))
  | CGtE => Some (py_order (fun c => match c with Lt => false | _ => true end))
  | CIn => Some py_in
  | CNotIn => Some (fun a b => negb <$> py_in a b)
  | CIs | CIsNot => None
  end.
Definition op_name (o : cmpop) : string :=
  match o with
  | CEq => "Eq" | CNotEq => "NotEq" | CLt => "Lt" | CLtE => "LtE" | CGt => "Gt" | CGtE => "GtE" | CIn => "In"
  | CNotIn => "NotIn" | CIs => "Is" | CIsNot => "IsNot"
  end.

Section eval.
Context (ctx : gmap string val).

Fixpoint eval (node : expr) : outcome val :=
  match node with
  | EConstant v => Ret v
  | EList elts =>
      VList <$> (fix go l := match l with [] => Ret [] | e :: l => v ← eval e; vs ← go l; Ret (v :: vs) end) elts
  | EName name => unwrap (ctx !! name) (ExpressionError ("unknown name in expression: " +:+ PyStr.repr name))
  | EAnd values =>
      (fix go result l {struct l} := match l with
                          | [] => Ret result
                          | e :: l => v ← eval e; if truthy v then go v l else Ret v
                          end) (VBool true) values
  | EOr values =>
      (fix go result l {struct l} := match l with
                          | [] => Ret result
                          | e :: l => v ← eval e; if truthy v then Ret v else go v l
                          end) (VBool false) values
  | ENot e => v ← eval e; Ret (VBool (negb (truthy v)))
  | EUSub e => v ← eval e; py_neg v
  | EUnaryOther _ => error "disallowed unary operator"
  | ECompare first rest =>
      v ← eval first;
      (fix go v l {struct l} := match l with
                     | [] => Ret (VBool true)
                     | (op, e) :: l =>
                         match COMPARE_OPS op with
                         | None => error ("disallowed comparison: " +:+ op_name op)
                         | Some f =>
                             right ← eval e;
                             match f v right with
                             | None => error "invalid comparison"
                             | Some false => Ret (VBool false)
                             | Some true => go right l
                             end
                         end
                     end) v rest
  | ECall func args has_keywords =>
      if has_keywords : bool then error "keyword arguments are not allowed in assertions"
      else match func with
           | inr _ => error "only direct whitelisted function calls are allowed"
           | inl name =>
               match FUNCTIONS name with
               | None => error ("function not allowed in assertions: " +:+ PyStr.repr name)
               | Some f =>
                   vs ← (fix go l := match l with [] => Ret [] | e :: l => v ← eval e; vs ← go l; Ret (v :: vs) end) args;
                   f vs
               end
           end
  | EOther t => error ("disallowed expression construct: " +:+ t)
  end.

End eval.

(** [ast.parse]; [None] is a syntax error. *)
Context (parse : string -> option expr).

Definition evaluate_expression (expression : string) (ctx : gmap string val) : outcome val :=
  match parse expression with
  | None => error "invalid expression syntax"
  | Some tree => eval ctx tree
  end.

(** *** Errors *)
Fixpoint has_minus (e : expr) : bool :=
  match e with
  | EUSub _ => true
  | EList l | EAnd l | EOr l | ECall _ l _ => existsb has_minus l
  | ENot e => has_minus e
  | ECompare e l => has_minus e || existsb (fun p => has_minus p.2) l
  | _ => false
  end.

Definition is_minus_error (x : exn) : Prop := x = TypeError "bad operand type for unary -".
Definition contained (minus : bool) (x : exn) : Prop := (exists m, x = ExpressionError m) \/ (minus = true /\ is_minus_error x).

Lemma contained_error minus m : contained minus (ExpressionError m).
Proof. left. by exists m. Qed.
Lemma contained_mono a b x : (a = true -> b = true) -> contained a x -> contained b x.
Proof. intros H [?|[? ?]]; [by left|right; auto]. Qed.

Lemma FUNCTIONS_errors name f vs x : FUNCTIONS name = Some f -> f vs = Raise x -> exists m, x = ExpressionError m.
Proof.
  unfold FUNCTIONS, matches, error. intros H Hx.
  repeat match type of H with (if ?b then _ else _) = _ => destruct b end; try discriminate H; injection H as <-;
    repeat (break_match; try discriminate Hx); injection Hx as <-; by eexists.
Qed.

(** What a loop over sub-expressions raises, one of them raised. *)
Lemma mapped_errors (P : expr -> Prop) ctx l x :
  Forall (fun e => forall x, eval ctx e = Raise x -> contained (has_minus e) x) l ->
  (fix go l := match l with [] => Ret [] | e :: l => v ← eval ctx e; vs ← go l; Ret (v :: vs) end) l = Raise x ->
  contained (existsb has_minus l) x.
Proof.
  induction 1 as [|e l He _ IH]; [done|]. intros H. apply bind_Raise in H as [H|(v & _ & H)].
  - eapply contained_mono; [|by apply He]. cbn. by intros ->.
  - apply bind_Raise in H as [H|(vs & _ & H)]; [|discriminate]. eapply contained_mono; [|by apply IH]. cbn. intros ->. by rewrite orb_true_r.
Qed.

(** Evaluation of an assertion raises nothing but [ExpressionError], except
    where it negates a value that is not a number. *)
Theorem evaluation_is_contained expression ctx x :
  evaluate_expression expression ctx = Raise x ->
  contained (match parse expression with Some e => has_minus e | None => false end) x.
Proof.
  unfold evaluate_expression. destruct (parse expression) as [e|]; [|intros [= <-]; apply contained_error].
  revert x. induction e as [v|l IH|n|l IH|l IH|e IH|e IH|e|e l IHe IHl|f l k IH|t] using expr_ind; intros x; cbn [eval has_minus].
  - discriminate.
  - destruct (_ l) as [vs|y] eqn:E; [discriminate|]. intros [= <-]. by apply (mapped_errors (fun _ => True) ctx).
  - destruct (ctx !! n); [discriminate|]. intros [= <-]. apply contained_error.
  - generalize (VBool true). induction IH as [|e l He _ IHl]; intros r H; [discriminate|].
    apply bind_Raise in H as [H|(v & _ & H)]; [eapply contained_mono; [|by apply He]; cbn; by intros ->|].
    destruct (Value.truthy v); [|discriminate]. eapply contained_mono; [|by eapply IHl]. cbn. intros ->. by rewrite orb_true_r.
  - generalize (VBool false). induction IH as [|e l He _ IHl]; intros r H; [discriminate|].
    apply bind_Raise in H as [H|(v & _ & H)]; [eapply contained_mono; [|by apply He]; cbn; by intros ->|].
    destruct (Value.truthy v); [discriminate|]. eapply contained_mono; [|by eapply IHl]. cbn. intros ->. by rewrite orb_true_r.
  - intros [H|(v & _ & H)]%bind_Raise; [by apply IH|discriminate].
  - intros [H|(v & _ & H)]%bind_Raise; [eapply contained_mono; [|by apply IH]; done|].
    right. split; [done|]. destruct v; try discriminate H; by injection H as <-.
  - intros [= <-]. apply contained_error.
  - intros [H|(v & _ & H)]%bind_Raise; [eapply contained_mono; [|by apply IHe]; by intros ->|].
    apply (contained_mono (existsb (fun p => has_minus p.2) l)); [intros ->; apply orb_true_r|].
    revert v H. induction IHl as [|[op e'] l He _ IHl]; intros v H; [discriminate|].
    destruct (COMPARE_OPS op) as [f|]; [|injection H as <-; apply contained_error].
    apply bind_Raise in H as [H|(w & _ & H)]; [eapply contained_mono; [|by apply He]; cbn; by intros ->|].
    destruct (f v w) as [[]|]; [|discriminate|injection H as <-; apply contained_error].
    eapply contained_mono; [|by apply (IHl w)]. cbn. intros ->. by rewrite orb_true_r.
  - destruct k; [intros [= <-]; apply contained_error|]. destruct f as [name|e]; [|intros [= <-]; apply contained_error].
    destruct (FUNCTIONS name) as [f|] eqn:Ef; [|intros [= <-]; apply contained_error].
    intros [H|(vs & _ & H)]%bind_Raise; [by apply (mapped_errors (fun _ => True) ctx)|].
    left. by apply (FUNCTIONS_errors name f vs).
  - intros [= <-]. apply contained_error.
Qed.

End evaluator.
End Evaluator.

(** ** [interpreter.py] *)
Record InterpreterResult : Type := mkInterpreterResult {
  passed : bool;
  assertion_results : dict bool;
  context : gmap string val
}.

Module Interpreter.

Definition FOREACH_LIMIT_CAP : Z := 100.
Definition RETRY_LIMIT_CAP : Z := 10.
Definition WAIT_SECONDS_CAP : Z := 300.
Definition CONTROL_VERBS : list string := ["foreach"; "retry"; "wait"; "condition"].

(** A request: method and URL. *)
Definition Request : Type := string * string.

Section interpreter.
Context (re_search : string -> string -> sum string (option Match)) (parse : string -> option expr).
(** The scoped HTTP surface answers, or raises, as a function of all the
    requests made so far, the new one first. *)
Context (respond : list Request -> outcome HttpResponse).

(** The requests made, the newest first. *)
Notation Log := (list Request).

Definition http_request (method url : string) : M Log HttpResponse :=
  fun log => (respond ((method, url) :: log), (method, url) :: log).

(** [isinstance(v, int) and v > cap] *)
Definition exceeds (v : json) (cap : Z) : bool :=
  match v with JInt z => cap <? z | JBool b => cap <? (if b then 1 else 0) | _ => false end.
Definition get (k : string) (p : list (string * json)) : json := default JNull (field k p).

Definition check_caps (s : CaseStep) : outcome unit :=
  let verb := Risk.verb (cs_action s) in
  if bool_decide (verb = "foreach") then
    let limit := get "limit" (spec s) in
    raise_if (exceeds limit FOREACH_LIMIT_CAP)
      (InterpreterError ("foreach limit " +:+ py_str limit +:+ " exceeds cap " +:+ pretty FOREACH_LIMIT_CAP))
  else if bool_decide (verb = "retry") then
    let retries := json_or (get "limit" (spec s)) (get "max" (spec s)) in
    raise_if (exceeds retries RETRY_LIMIT_CAP)
      (InterpreterError ("retry count " +:+ py_str retries +:+ " exceeds cap " +:+ pretty RETRY_LIMIT_CAP))
  else if bool_decide (verb = "wait") then
    let seconds := get "seconds" (spec s) in
    raise_if (exceeds seconds WAIT_SECONDS_CAP)
      (InterpreterError ("wait " +:+ py_str seconds +:+ "s exceeds cap " +:+ pretty WAIT_SECONDS_CAP +:+ "s"))
  else Ret tt.

(** The request of an [http.request] step. *)
Definition request_of (s : CaseStep) : Request :=
  let url := py_str (json_or (get "url" (spec s)) (JStr "")) in
  (PyStr.upper (py_str (default (JStr "GET") (field "method" (spec s)))),
   if PyStr.is_empty url
   then py_str (default (JStr "") (field "base_url" (spec s))) +:+ py_str (default (JStr "") (field "path" (spec s)))
   else url).

Definition execute_http (s : CaseStep) (store : gmap string val) : M Log (gmap string val) :=
  let '(method, url) := request_of s in
  r ← http_request method url;
  mret (<[cs_id s := VResp r]> (<["headers" := VDict (headers r)]> (<["body" := VStr (body r)]> (<["status_code" := VInt (status_code r)]> store)))).

Definition execute_extract_regex (s : CaseStep) (store : gmap string val) : outcome (gmap string val) :=
  let source := default (VStr "") (store !! py_str (default (JStr "") (field "source" (spec s)))) in
  let pattern := py_str (default (JStr "") (field "pattern" (spec s))) in
  let var := py_str (default (JStr "") (field "var" (spec s))) in
  if PyStr.is_empty var then Raise (InterpreterError "extract.regex requires a 'var' to store the capture")
  else match re_search pattern (Value.py_str source) with
       | inl e => Raise (InterpreterError ("extract.regex invalid pattern: " +:+ e))
       | inr None => Ret (<[var := VStr ""]> store)
       | inr (Some m) =>
           Ret (<[var := match groups m with
                         | [] => VStr (group0 m)
                         | g :: _ => match g with Some t => VStr t | None => VNone end
                         end]> store)
       end.

Definition is_request (s : CaseStep) : bool :=
  bool_decide (Risk.verb (cs_action s) = "request") && PyStr.startswith (PyStr.lower (cs_action s)) "http".

Definition execute_step (s : CaseStep) (store : gmap string val) : M Log (gmap string val) :=
  let verb := Risk.verb (cs_action s) in
  if is_request s then execute_http s store
  else if bool_decide (verb = "regex") && PyStr.startswith (PyStr.lower (cs_action s)) "extract"
  then lift (execute_extract_regex s store)
  else if bool_decide (verb ∈ CONTROL_VERBS) then mret store
  else raise (InterpreterError ("unsupported action in this interpreter: " +:+ cs_action s)).

Fixpoint run_steps (steps : list CaseStep) (store : gmap string val) : M Log (gmap string val) :=
  match steps with
  | [] => mret store
  | s :: r => lift (check_caps s);; store ← execute_step s store; run_steps r store
  end.

(** [bool(evaluate_expression(..))], [False] on an [ExpressionError]. *)
Definition holds (a : CaseAssertion) (store : gmap string val) : outcome bool :=
  match Evaluator.evaluate_expression re_search parse (expression a) store with
  | Ret v => Ret (Value.truthy v)
  | Raise (ExpressionError _) => Ret false
  | Raise e => Raise e
  end.

Fixpoint check_assertions (l : list CaseAssertion) (store : gmap string val) (results : dict bool) : outcome (dict bool) :=
  match l with
  | [] => Ret results
  | a :: l => b ← holds a store; check_assertions l store (PyDict.set (as_id a) b results)
  end.

Definition run (c : CaseDefinition) : M Log InterpreterResult :=
  match Risk.compute_risk c with
  | None => raise (InterpreterError ("case " +:+ case_id c +:+ " uses a deny-listed action (Shell / dynamic import / out-of-scope target / unbounded loop) and cannot run"))
  | Some _ =>
      store ← run_steps (case_steps c) ∅;
      results ← lift (check_assertions (assertions c) store []);
      mret (mkInterpreterResult (forallb id (PyDict.values results)) results store)
  end.

(** *** Requests *)
Definition requests (steps : list CaseStep) : list Request := request_of <$> List.filter is_request steps.

Definition caps_ok (s : CaseStep) : Prop := check_caps s = Ret tt.
Definition supported (s : CaseStep) : Prop :=
  is_request s = true \/ (Risk.verb (cs_action s) = "regex" /\ PyStr.startswith (PyStr.lower (cs_action s)) "extract" = true)
  \/ Risk.verb (cs_action s) ∈ CONTROL_VERBS.

(** What a step does to the log. *)
Lemma execute_step_log s store log :
  match execute_step s store log with
  | (Ret _, log') => supported s /\ log' = rev (requests [s]) ++ log
  | (Raise _, log') => log' = log \/ log' = rev (requests [s]) ++ log
  end.
Proof.
  unfold execute_step, supported, requests. destruct (is_request s) eqn:Er.
  - unfold execute_http. cbn [List.filter]. rewrite Er. destruct (request_of s) as [m u] eqn:Eq. cbn [fmap list_fmap rev app]. rewrite Eq.
    unfold http_request, mbind, M_bind. destruct (respond _); [|by right]. split; [by left|done].
  - cbn [List.filter]. rewrite Er. cbn [fmap list_fmap rev app]. destruct (bool_decide _ && _) eqn:Ex.
    + breflect. unfold lift. destruct (execute_extract_regex _ _); [|by left]. split; [right; by left|done].
    + unfold mret, M_ret, raise. destruct (decide (Risk.verb (cs_action s) ∈ CONTROL_VERBS)) as [Hv|Hv].
      * rewrite (bool_decide_true _ Hv). split; [by (right; right)|done].
      * rewrite (bool_decide_false _ Hv). by left.
Qed.

Lemma requests_app a b : requests (a ++ b) = requests a ++ requests b.
Proof. unfold requests. by rewrite List.filter_app, fmap_app. Qed.

Lemma run_steps_log steps store log :
  match run_steps steps store log with
  | (Ret _, log') => Forall caps_ok steps /\ Forall supported steps /\ log' = rev (requests steps) ++ log
  | (Raise _, log') => exists done rest, requests steps = done ++ rest /\ log' = rev done ++ log
  end.
Proof.
  revert store log. induction steps as [|s r IH]; intros store log; [done|]. cbn [run_steps]. unfold mbind, M_bind, lift.
  destruct (check_caps s) as [[]|e] eqn:Ec; [|by exists [], (requests (s :: r))].
  pose proof (execute_step_log s store log) as Hs. destruct (execute_step s store log) as [[store'|e] log'].
  - destruct Hs as [Hsup ->]. specialize (IH store' (rev (requests [s]) ++ log)).
    change (s :: r) with ([s] ++ r). rewrite requests_app, rev_app_distr.
    destruct (run_steps r store' _) as [[st|e] log''].
    + destruct IH as (H1 & H2 & ->). split_and!; [by constructor..|]. by rewrite app_assoc.
    + destruct IH as (d & rest & E & ->). exists (requests [s] ++ d), rest. rewrite E, rev_app_distr. by rewrite !app_assoc.
  - change (s :: r) with ([s] ++ r). rewrite requests_app. destruct Hs as [-> | ->].
    + by exists [], (requests [s] ++ requests r).
    + by exists (requests [s]), (requests r).
Qed.

Lemma all_values_true (d : dict bool) : PyDict.wf d -> forallb id (PyDict.values d) = true <-> (forall k b, PyDict.get k d = Some b -> b = true).
Proof.
  intros Hw. rewrite List.forallb_forall. setoid_rewrite <- list_elem_of_In. setoid_rewrite PyDict.values_In; [|done]. naive_solver.
Qed.

(** The verdict of the last assertion of each name. *)
Lemma check_assertions_spec l store d res :
  check_assertions l store d = Ret res -> PyDict.wf d ->
  PyDict.wf res
  /\ (forall k, k ∉ as_id <$> l -> PyDict.get k res = PyDict.get k d)
  /\ (NoDup (as_id <$> l) -> Forall (fun a => exists b, holds a store = Ret b /\ PyDict.get (as_id a) res = Some b) l).
Proof.
  revert d. induction l as [|a l IH]; intros d; cbn [check_assertions].
  - intros [= <-] Hw. split_and!; [done..|constructor].
  - intros H Hw. apply bind_Ret in H as (b & Hb & H). destruct (IH _ H (PyDict.set_wf _ _ _ Hw)) as (H1 & H2 & H3). split_and!; [done| |].
    + intros k Hk. rewrite fmap_cons, not_elem_of_cons in Hk. destruct Hk as [Hn Hk]. rewrite H2 by done. by apply PyDict.get_set_ne.
    + rewrite fmap_cons. intros [Hn Hnd]%NoDup_cons. constructor; [|by apply H3]. exists b. split; [done|].
      rewrite H2 by done. apply PyDict.get_set_eq.
Qed.

(** A run makes the requests the case spells out and no others. A case with
    a deny-listed step makes none; otherwise the requests made are a prefix
    of those of its steps, in order, whatever the answers are; a run that
    answers made them all, each step being supported and within its caps;
    and, the names of the assertions being distinct, it passed exactly when
    every assertion evaluated to a true value. *)
Theorem run_makes_the_declared_requests c :
  match run c [] with
  | (Ret res, log) =>
      Risk.compute_risk c <> None /\ rev log = requests (case_steps c)
      /\ Forall caps_ok (case_steps c) /\ Forall supported (case_steps c)
      /\ (NoDup (as_id <$> assertions c) ->
          passed res = true <-> Forall (fun a => holds a (context res) = Ret true) (assertions c))
  | (Raise _, log) =>
      (Risk.compute_risk c = None -> log = []) /\ exists rest, requests (case_steps c) = rev log ++ rest
  end.
Proof.
  unfold run. destruct (Risk.compute_risk c) as [risk|] eqn:Er; [|split; [done|by eexists]].
  unfold mbind, M_bind. pose proof (run_steps_log (case_steps c) ∅ []) as Hs.
  destruct (run_steps (case_steps c) ∅ []) as [[store|e] log].
  - destruct Hs as (H1 & H2 & ->). rewrite app_nil_r. unfold lift. destruct (check_assertions _ _ _) as [res|e] eqn:Ea.
    + unfold mret, M_ret. rewrite rev_involutive. split_and!; [done..|]. intros Hnd. cbn [passed context].
      destruct (check_assertions_spec _ _ _ _ Ea ltac:(constructor)) as (Hw & Hout & Hin). specialize (Hin Hnd).
      rewrite all_values_true by done. rewrite Forall_forall in Hin. rewrite Forall_forall. split.
      * intros H a Ha. destruct (Hin a Ha) as (b & Hb & Hg). by rewrite (H _ _ Hg) in Hb.
      * intros H k b Hk. destruct (decide (k ∈ as_id <$> assertions c)) as [Hk'|Hk'].
        -- apply list_elem_of_fmap in Hk' as (a & -> & Ha). destruct (Hin a Ha) as (b' & Hb & Hg). rewrite (H a Ha) in Hb. congruence.
        -- by rewrite Hout in Hk.
    + split; [done|]. exists []. by rewrite rev_involutive, app_nil_r.
  - destruct Hs as (d & rest & E & ->). split; [done|]. exists rest. by rewrite app_nil_r, rev_involutive.
Qed.

End interpreter.

(** *** Demonstrations *)
Definition demo_search (pattern text : string) : sum string (option Match) :=
  inr (if PyStr.contains text pattern then Some (mkMatch pattern []) else None).
(** A parser of three fixed texts. *)
Definition demo_parse (s : string) : option expr :=
  if String.eqb s "status_code == 200" then Some (ECompare (EName "status_code") [(CEq, EConstant (VInt 200))])
  else if String.eqb s "-body == 1" then Some (ECompare (EUSub (EName "body")) [(CEq, EConstant (VInt 1))])
  else if String.eqb s "status_code == 500 and body.x" then
    Some (EAnd [ECompare (EName "status_code") [(CEq, EConstant (VInt 500))]; EOther "Attribute"])
  else None.
Definition demo_respond (_ : list Request) : outcome HttpResponse := Ret (mkResponse 200 "ok" []).
Definition demo_step (i action : string) (p : list (string * json)) : CaseStep := mkCaseStep i action p.
Definition demo_case (steps : list CaseStep) (l : list CaseAssertion) : CaseDefinition :=
  mkCase "c1" "1" "me" RiskClass.LOW "url" "v1" steps [] l [] [] [] [] None "" "" CaseOrigin.MANUAL CaseStatus.DRAFT "".
Definition get_root : CaseStep := demo_step "r1" "http.request" [("url", JStr "https://shop.example/")].
Definition demo_run (steps : list CaseStep) (l : list CaseAssertion) : outcome InterpreterResult * list Request :=
  run demo_search demo_parse demo_respond (demo_case steps l) [].

Definition summary (r : outcome InterpreterResult * list Request) : outcome (bool * dict bool) * list Request :=
  ((fun x => (passed x, assertion_results x)) <$> r.1, r.2).

(** A minus before a text escapes the interpreter as a [TypeError]. *)
Example minus_on_text_escapes :
  (demo_run [get_root] [mkAssertion "a1" "-body == 1"]).1 = Raise (TypeError "bad operand type for unary -").
Proof. vm_compute. reflexivity. Qed.

(** Two assertions of one name: the later verdict replaces a failed one. *)
Example duplicate_name_hides_failure :
  summary (demo_run [get_root] [mkAssertion "a1" "syntax error"; mkAssertion "a1" "status_code == 200"])
  = (Ret (true, [("a1", true)]), [("GET", "https://shop.example/")]).
Proof. vm_compute. reflexivity. Qed.

(** The caps are looked at step by step: a request has been made when a later
    step is refused. *)
Example caps_are_checked_late :
  demo_run [get_root; demo_step "w" "wait" [("count", JInt 1); ("seconds", JInt 999)]] []
  = (Raise (InterpreterError "wait 999s exceeds cap 300s"), [("GET", "https://shop.example/")]).
Proof. vm_compute. reflexivity. Qed.

(** Bounds under another accepted key, or written as a text, have no cap. *)
Example some_bounds_have_no_cap :
  passed <$> (demo_run [demo_step "f" "foreach" [("max", JInt 1000000)]; demo_step "r" "retry" [("limit", JStr "1000000")]] []).1 = Ret true.
Proof. vm_compute. reflexivity. Qed.

(** A disallowed construct that is not reached is not rejected. *)
Example unreached_construct_is_accepted :
  (summary (demo_run [get_root] [mkAssertion "a1" "status_code == 500 and body.x"])).1 = Ret (false, [("a1", false)])
  /\ Evaluator.evaluate_expression demo_search demo_parse "status_code == 500 and body.x" {["status_code" := VInt 200]} = Ret (VBool false).
Proof. split; vm_compute; reflexivity. Qed.

Lemma evaluation_is_contained_witness :
  let ctx : gmap string val := {["body" := VStr "ok"]} in
  Evaluator.evaluate_expression demo_search demo_parse "-body == 1" ctx = Raise (TypeError "bad operand type for unary -")
  /\ Evaluator.contained true (TypeError "bad operand type for unary -").
Proof.
  cbv zeta. set (ctx := {["body" := VStr "ok"]}).
  assert (Evaluator.evaluate_expression demo_search demo_parse "-body == 1" ctx = Raise (TypeError "bad operand type for unary -")) as H
    by (vm_compute; reflexivity).
  split; [exact H|]. exact (Evaluator.evaluation_is_contained demo_search demo_parse "-body == 1" ctx _ H).
Defined.

End Interpreter.
