(* ===== verification/Peers.v ===== *)
(** * Peer agents

    Models [src/secopent/domain/peer_agents/models.py], [registry.py] and
    [normalize.py] (Module [Peer]), [application/peer_agents.py] (Module
    [PeerService]) and [application/peer_replan.py] (Module [Replan]).

    The harness that runs an external agent is a parameter: a computation on
    the whole world, so other calls (an emergency stop, another launch) may
    change the stored runs while it is running. *)
From S2P Require Import Prelude PyStr PyTime PyFloat PyDict Sha256 Canonical PyJson Policy.
From S2P Require Import Net AuditTrail Scope Enforcer Assessments Contracts Catalog.

#[local] Open Scope Z_scope.

Module PeerAgentTrustLevel.
Inductive t : Type := ADOPTED_EXTERNAL | UNTRUSTED.
#[export] Instance eq_dec : EqDecision t.
Proof. solve_decision. Defined.
Definition to_string (s : t) : string :=
  match s with ADOPTED_EXTERNAL => "adopted_external_agent" | UNTRUSTED => "untrusted" end.
#[export] Program Instance strenum : StrEnum t :=
  { value := to_string; members := [ADOPTED_EXTERNAL; UNTRUSTED] }.
Next Obligation. solve_members. Qed.
Next Obligation. solve_value_inj. Qed.
End PeerAgentTrustLevel.
Notation PeerAgentTrustLevel := PeerAgentTrustLevel.t.

Module PeerRunStatus.
Inductive t : Type := PENDING | RUNNING | COMPLETED | BUDGET_EXCEEDED | STOPPED | FAILED.
#[export] Instance eq_dec : EqDecision t.
Proof. solve_decision. Defined.
Definition to_string (s : t) : string :=
  match s with
  | PENDING => "pending" | RUNNING => "running" | COMPLETED => "completed" | BUDGET_EXCEEDED => "budget_exceeded"
  | STOPPED => "stopped" | FAILED => "failed"
  end.
#[export] Program Instance strenum : StrEnum t :=
  { value := to_string; members := [PENDING; RUNNING; COMPLETED; BUDGET_EXCEEDED; STOPPED; FAILED] }.
Next Obligation. solve_members. Qed.
Next Obligation. solve_value_inj. Qed.
End PeerRunStatus.
Notation PeerRunStatus := PeerRunStatus.t.

Module RejectionReason.
Inductive t : Type := OUT_OF_SCOPE | OUT_OF_CATALOG | PARSE_ERROR.
#[export] Instance eq_dec : EqDecision t.
Proof. solve_decision. Defined.
Definition to_string (s : t) : string :=
  match s with OUT_OF_SCOPE => "out_of_scope" | OUT_OF_CATALOG => "out_of_catalog" | PARSE_ERROR => "parse_error" end.
#[export] Program Instance strenum : StrEnum t :=
  { value := to_string; members := [OUT_OF_SCOPE; OUT_OF_CATALOG; PARSE_ERROR] }.
Next Obligation. solve_members. Qed.
Next Obligation. solve_value_inj. Qed.
End RejectionReason.
Notation RejectionReason := RejectionReason.t.
Export (hints) PeerAgentTrustLevel PeerRunStatus RejectionReason.

Record PeerAgentBudget : Type := mkPeerBudget {
  max_wall_seconds : Z;
  max_cost_units : pyfloat
}.

Record PeerAgentDescriptor : Type := mkDescriptor {
  pd_name : string;
  pd_version : string;
  pd_license : string;
  trust_level : PeerAgentTrustLevel;
  pd_capabilities : list string;
  cost_class : string;
  default_budget : PeerAgentBudget;
  image_digest : string
}.

Record PeerAgentRun : Type := mkPeerRun {
  pr_id : string;
  pr_agent_name : string;
  pr_agent_version : string;
  pr_assessment_id : string;
  pr_targets : list string;
  pr_budget : PeerAgentBudget;
  pr_permit_id : string;
  pr_status : PeerRunStatus;
  pr_started_at : option datetime;
  pr_finished_at : option datetime
}.

Record PeerAgentFinding : Type := mkPeerFinding {
  pf_id : string;
  pf_run_id : string;
  pf_agent_name : string;
  pf_title : string;
  pf_asset : string;
  severity_hint : string;
  pf_cwe : list string;
  pf_cve : list string;
  pf_owasp : list string;
  payload_summary : string;
  raw_ref : string
}.

Record RejectedFinding : Type := mkRejected {
  rj_finding : PeerAgentFinding;
  rj_reason : RejectionReason;
  rj_detail : string
}.

Record PeerAgentReport : Type := mkPeerReport {
  pp_run_id : string;
  pp_findings : list PeerAgentFinding;
  wall_seconds : pyfloat;
  cost_units : pyfloat;
  exit_code : Z
}.

Record PeerRunOutcome : Type := mkOutcome {
  out_run : PeerAgentRun;
  out_observations : list Observation;
  out_rejected : list RejectedFinding
}.

Module Peer.

Definition invalid (msg : string) : exn := DomainValidationError msg.
Definition nonempty (s name : string) : outcome unit :=
  raise_if (PyStr.is_empty s) (invalid (name +:+ " must be non-empty")).

Definition check_budget (b : PeerAgentBudget) : outcome PeerAgentBudget :=
  raise_if (max_wall_seconds b <? 0) (invalid "PeerAgentBudget.max_wall_seconds must be >= 0");;
  raise_if (PyFloat.ltb (max_cost_units b) (flt "0.0")) (invalid "PeerAgentBudget.max_cost_units must be >= 0");;
  Ret b.

Definition check_descriptor (d : PeerAgentDescriptor) : outcome PeerAgentDescriptor :=
  nonempty (pd_name d) "PeerAgentDescriptor.name";; nonempty (pd_version d) "PeerAgentDescriptor.version";; Ret d.

Definition check_run (r : PeerAgentRun) : outcome PeerAgentRun :=
  nonempty (pr_id r) "PeerAgentRun.id";;
  raise_if (bool_decide (pr_targets r = [])) (invalid "PeerAgentRun.targets must be non-empty");; Ret r.

Definition check_finding (f : PeerAgentFinding) : outcome PeerAgentFinding :=
  nonempty (pf_id f) "PeerAgentFinding.id";; nonempty (pf_run_id f) "PeerAgentFinding.run_id";;
  nonempty (pf_title f) "PeerAgentFinding.title";; nonempty (pf_asset f) "PeerAgentFinding.asset";; Ret f.

(** The registry, by name in the order of registration. *)
Notation Registry := (dict PeerAgentDescriptor).

Definition register (d : PeerAgentDescriptor) : M Registry unit :=
  r ← get;
  lift (raise_if (bool_decide (is_Some (PyDict.get (pd_name d) r)))
    (PeerAgentAlreadyRegistered ("peer agent already registered: " +:+ pd_name d)));;
  put (PyDict.set (pd_name d) d r).

Section gates.
Context (uni : Unicode).

Definition finding_in_scope (f : PeerAgentFinding) (scope : ScopeSnapshot) : outcome bool :=
  let asset := PyStr.strip (pf_asset f) in
  if Normalize.is_http asset then Scope.includes_url uni scope asset else Scope.includes_domain uni scope asset.

Definition hits_required_catalog (f : PeerAgentFinding) (catalog : TestCatalog) (t : AssetType) : bool :=
  existsb (fun c => Coverage.meets (pf_cwe f) (rc_cwe c) || Coverage.meets (pf_owasp f) (rc_owasp c))
    (Catalog.required_for catalog t).

Definition map_severity (hint : string) : Severity * bool :=
  match of_value (PyStr.lower (PyStr.strip hint)) with
  | Some s => (s, true)
  | None => (Severity.INFO, false)
  end.

Definition PEER_CONFIDENCE : pyfloat := flt "0.5".

Definition normalize_finding (f : PeerAgentFinding) (run : PeerAgentRun) : outcome Observation :=
  let '(severity, mapped) := map_severity (severity_hint f) in
  let raw := [("peer_run_id", JStr (pr_id run)); ("severity_hint", JStr (severity_hint f));
              ("payload_summary", JStr (payload_summary f)); ("raw_ref", JStr (raw_ref f))]
             ++ (if mapped : bool then [] else [("severity_hint_unmapped", JStr (severity_hint f))]) in
  source ← Contracts.check_source (mkAdapterSource ("peer:" +:+ pr_agent_name run) (pr_agent_version run) "na");
  Contracts.check_observation
    (mkObservation (pf_id f) (pf_asset f) source (pf_id f) (pr_agent_version run) CoverageDomain.WEB (pf_title f) severity
       PEER_CONFIDENCE (pf_cwe f) (pf_cve f) (pf_owasp f) [] raw).

(** [_normalize]: the two lists, in the order of the report. *)
Fixpoint normalize (findings : list PeerAgentFinding) (run : PeerAgentRun) (scope : ScopeSnapshot) (catalog : TestCatalog)
    (t : AssetType) : outcome (list Observation * list RejectedFinding) :=
  match findings with
  | [] => Ret ([], [])
  | f :: rest =>
      in_scope ← finding_in_scope f scope;
      if negb in_scope then
        r ← normalize rest run scope catalog t;
        Ret (r.1, mkRejected f RejectionReason.OUT_OF_SCOPE ("asset outside scope: " +:+ pf_asset f) :: r.2)
      else if negb (hits_required_catalog f catalog t) then
        r ← normalize rest run scope catalog t;
        Ret (r.1, mkRejected f RejectionReason.OUT_OF_CATALOG "CWE/OWASP intersects no required test class" :: r.2)
      else
        o ← normalize_finding f run;
        r ← normalize rest run scope catalog t;
        Ret (o :: r.1, r.2)
  end.

(** *** What the gates let through *)
Definition admitted (f : PeerAgentFinding) (scope : ScopeSnapshot) (catalog : TestCatalog) (t : AssetType) : Prop :=
  finding_in_scope f scope = Ret true /\ hits_required_catalog f catalog t = true.

(** Why [f] was turned away. *)
Definition turned_away (f : PeerAgentFinding) (scope : ScopeSnapshot) (catalog : TestCatalog) (t : AssetType)
    (r : RejectedFinding) : Prop :=
  rj_finding r = f
  /\ (rj_reason r = RejectionReason.OUT_OF_SCOPE /\ finding_in_scope f scope = Ret false
      \/ rj_reason r = RejectionReason.OUT_OF_CATALOG /\ finding_in_scope f scope = Ret true
         /\ hits_required_catalog f catalog t = false).

(** Each finding goes to exactly one list; both keep the order. *)
Inductive sorted_out (run : PeerAgentRun) (scope : ScopeSnapshot) (catalog : TestCatalog) (t : AssetType)
  : list PeerAgentFinding -> list Observation -> list RejectedFinding -> Prop :=
| sorted_nil : sorted_out run scope catalog t [] [] []
| sorted_in f o fs os rs : admitted f scope catalog t -> normalize_finding f run = Ret o ->
    sorted_out run scope catalog t fs os rs -> sorted_out run scope catalog t (f :: fs) (o :: os) rs
| sorted_off f r fs os rs : turned_away f scope catalog t r ->
    sorted_out run scope catalog t fs os rs -> sorted_out run scope catalog t (f :: fs) os (r :: rs).

Lemma normalize_sorts fs run scope catalog t os rs :
  normalize fs run scope catalog t = Ret (os, rs) -> sorted_out run scope catalog t fs os rs.
Proof.
  revert os rs. induction fs as [|f fs IH]; intros os rs; cbn [normalize]; [intros [= <- <-]; constructor|].
  intros ([] & Hs & H)%bind_Ret; cbn [negb] in H.
  - destruct (hits_required_catalog f catalog t) eqn:Ec; cbn [negb] in H.
    + apply bind_Ret in H as (o & Ho & ([os' rs'] & Hr & [= <- <-])%bind_Ret). apply sorted_in; [done|done|by apply IH].
    + apply bind_Ret in H as ([os' rs'] & Hr & [= <- <-]). apply sorted_off; [split; [done|by right]|by apply IH].
  - apply bind_Ret in H as ([os' rs'] & Hr & [= <- <-]). apply sorted_off; [split; [done|by left]|by apply IH].
Qed.

Lemma normalize_finding_Ret f run o :
  normalize_finding f run = Ret o ->
  confidence o = PEER_CONFIDENCE /\ src_name (obs_source o) = "peer:" +:+ pr_agent_name run
  /\ asset_identity o = pf_asset f /\ obs_cwe o = pf_cwe f /\ obs_owasp o = pf_owasp f
  /\ obs_severity o = (map_severity (severity_hint f)).1.
Proof.
  unfold normalize_finding. destruct (map_severity (severity_hint f)) as [sv m].
  intros (s & Hs & Ho)%bind_Ret. unfold Contracts.check_source, Contracts.check_observation in *. by inv_ret.
Qed.

Lemma hits_evidence f catalog t o :
  hits_required_catalog f catalog t = true -> obs_cwe o = pf_cwe f -> obs_owasp o = pf_owasp f ->
  exists c, c ∈ Catalog.required_for catalog t /\ Coverage.evidence_for c o.
Proof.
  unfold hits_required_catalog. intros (c & Hc%list_elem_of_In & H)%existsb_exists Ecwe Eow. exists c. split; [done|].
  unfold Coverage.evidence_for. rewrite Ecwe, Eow.
  apply orb_true_iff in H as [(x & ? & ?)%Coverage.meets_true|(x & ? & ?)%Coverage.meets_true]; [left|right]; eauto.
Qed.

(** Every accepted observation is one the two gates let through. *)
Lemma sorted_out_in run scope catalog t fs os rs o :
  sorted_out run scope catalog t fs os rs -> o ∈ os ->
  exists f, f ∈ fs /\ admitted f scope catalog t /\ normalize_finding f run = Ret o.
Proof.
  induction 1 as [|f o' fs os rs Ha Hn _ IH|f r fs os rs _ _ IH]; intros Ho; [set_solver| |].
  - apply elem_of_cons in Ho as [->|Ho]; [exists f; set_solver|]. destruct (IH Ho) as (g & ? & ?). exists g. set_solver.
  - destruct (IH Ho) as (g & ? & ?). exists g. set_solver.
Qed.

End gates.
End Peer.

(** ** The service *)

(** The stored runs, the audit calls, and the environment of the harness. *)
Record PeerWorld {W : Type} : Type := mkPeerWorld {
  peer_runs : dict PeerAgentRun;
  peer_log : list AuditCall;
  peer_env : W
}.
Arguments PeerWorld W : clear implicits.
Arguments mkPeerWorld {W}.

Record LaunchRequest : Type := mkLaunch {
  lr_assessment_id : string;
  lr_agent_name : string;
  lr_targets : list string;
  lr_scope : ScopeSnapshot;
  lr_catalog : TestCatalog;
  lr_asset_type : AssetType;
  lr_actor : string;
  lr_permit_id : string
}.

Module PeerService.
Section service.
Context {W : Type} (uni : Unicode) (audit_ok : AuditCall -> outcome unit).
(** [uuid.uuid4().hex\[:12\]] and the clock. *)
Context (hex12 : M W string) (clock : M W datetime).
Context (registry : dict PeerAgentDescriptor).
(** [PeerAgentHarness] *)
Context (harness_execute : PeerAgentRun -> PeerAgentDescriptor -> M (PeerWorld W) PeerAgentReport).
Context (harness_terminate : string -> M (PeerWorld W) bool).

Notation world := (PeerWorld W).

Definition lift_env {A} (m : M W A) : M world A :=
  fun w => let '(r, e) := m (peer_env w) in (r, mkPeerWorld (peer_runs w) (peer_log w) e).

Definition save (r : PeerAgentRun) : M world unit :=
  modify (fun w => mkPeerWorld (PyDict.set (pr_id r) r (peer_runs w)) (peer_log w) (peer_env w)).

Definition record_audit (actor action rid : string) (payload : list (string * json)) : M world unit :=
  let c := mkCall actor action "peer_agent_run" rid payload in
  lift (audit_ok c);;
  modify (fun w => mkPeerWorld (peer_runs w) (peer_log w ++ [c]) (peer_env w)).

Definition get_run (id : string) (w : world) : option PeerAgentRun := PyDict.get id (peer_runs w).

(** [list_for_assessment] of the in-memory repository. *)
Definition list_runs (assessment_id : string) (w : world) : list PeerAgentRun :=
  filter (fun r => pr_assessment_id r = assessment_id) (PyDict.values (peer_runs w)).

Fixpoint check_targets (scope : ScopeSnapshot) (targets : list string) : outcome unit :=
  match targets with
  | [] => Ret tt
  | target :: rest =>
      ok ← PolicyEngine.or_else (Scope.includes_url uni scope target) (Scope.includes_domain uni scope target);
      raise_if (negb ok) (PeerRunScopeViolation ("peer launch target outside scope: " +:+ target));;
      check_targets scope rest
  end.

(** What [launch] checks before anything happens. *)
Definition admission (rq : LaunchRequest) : outcome PeerAgentDescriptor :=
  d ← unwrap (PyDict.get (lr_agent_name rq) registry)
        (PeerAgentNotRegistered ("peer agent not registered: " +:+ lr_agent_name rq));
  raise_if (negb (bool_decide (trust_level d = PeerAgentTrustLevel.ADOPTED_EXTERNAL)))
    (PeerAgentTrustDenied ("peer agent trust level denies execution: " +:+ lr_agent_name rq +:+ " ("
       +:+ value (trust_level d) +:+ ")"));;
  check_targets (lr_scope rq) (lr_targets rq);;
  Ret d.

Definition finish (run : PeerAgentRun) (status : PeerRunStatus) : M world PeerAgentRun :=
  now ← lift_env clock;
  finished ← lift (Peer.check_run (mkPeerRun (pr_id run) (pr_agent_name run) (pr_agent_version run) (pr_assessment_id run)
    (pr_targets run) (pr_budget run) (pr_permit_id run) status (pr_started_at run) (Some now)));
  save finished;;
  mret finished.

(** [wall_seconds > max_wall_seconds], a float against an integer. *)
Definition over_wall (x : pyfloat) (n : Z) : bool :=
  match x with
  | PyFloat.NaN => false
  | PyFloat.Inf neg => negb neg
  | PyFloat.Fin a => negb (PyFloat.dec_leb (PyFloat.decimal a) (n, 0))
  end.
Definition over_budget (report : PeerAgentReport) (b : PeerAgentBudget) : bool :=
  over_wall (wall_seconds report) (max_wall_seconds b) || PyFloat.gtb (cost_units report) (max_cost_units b).

(** What follows the execution: the budget post-check, the gates, the end of
    the run. *)
Definition collect (rq : LaunchRequest) (run : PeerAgentRun) (report : PeerAgentReport) : M world PeerRunOutcome :=
  let over := over_budget report (pr_budget run) in
  (if over then
     wall ← lift (Canonical.json_of_float (wall_seconds report));
     cost ← lift (Canonical.json_of_float (cost_units report));
     record_audit (lr_actor rq) "peer_run.budget_exceeded" (pr_id run) [("wall_seconds", wall); ("cost_units", cost)]
   else mret tt);;
  sorted ← lift (Peer.normalize uni (pp_findings report) run (lr_scope rq) (lr_catalog rq) (lr_asset_type rq));
  finished ← finish run (if over then PeerRunStatus.BUDGET_EXCEEDED else PeerRunStatus.COMPLETED);
  record_audit (lr_actor rq) "peer_run.collect" (pr_id run)
    [("findings_total", JInt (Z.of_nat (length (pp_findings report))));
     ("observations_accepted", JInt (Z.of_nat (length sorted.1)));
     ("findings_rejected", JInt (Z.of_nat (length sorted.2)));
     ("rejection_reasons", JArr ((fun r => Canonical.jenum (rj_reason r)) <$> sorted.2));
     ("exit_code", JInt (exit_code report))];;
  mret (mkOutcome finished sorted.1 sorted.2).

Definition launch (rq : LaunchRequest) : M world PeerRunOutcome :=
  d ← lift (admission rq);
  h ← lift_env hex12;
  now ← lift_env clock;
  run ← lift (Peer.check_run (mkPeerRun ("peer-run-" +:+ h) (pd_name d) (pd_version d) (lr_assessment_id rq) (lr_targets rq)
    (default_budget d) (lr_permit_id rq) PeerRunStatus.RUNNING (Some now) None));
  save run;;
  record_audit (lr_actor rq) "peer_run.launch" (pr_id run)
    [("agent", JStr (pd_name d)); ("targets", Canonical.jstrs (lr_targets rq)); ("permit_id", JStr (lr_permit_id rq))];;
  report ← try_exceptM (harness_execute run d) is_exception (fun e => finish run PeerRunStatus.FAILED;; raise e);
  collect rq run report.

Definition stop (run_id actor reason : string) : M world bool :=
  o ← gets (get_run run_id);
  match o with
  | None => mret false
  | Some run =>
      terminated ← harness_terminate run_id;
      finish run PeerRunStatus.STOPPED;;
      record_audit actor "peer_run.stop" run_id [("reason", JStr reason); ("terminated", JBool terminated)];;
      mret terminated
  end.

(** *** Admission *)
Lemma check_targets_Ret scope l :
  check_targets scope l = Ret tt <->
  Forall (fun t => PolicyEngine.or_else (Scope.includes_url uni scope t) (Scope.includes_domain uni scope t) = Ret true) l.
Proof.
  induction l as [|t l IH]; cbn [check_targets]; [by split|]. rewrite Forall_cons, <- IH.
  destruct (PolicyEngine.or_else _ _) as [[]|e]; cbn; split; try done; by intros [? ?].
Qed.

Lemma admission_Ret rq d :
  admission rq = Ret d <->
  PyDict.get (lr_agent_name rq) registry = Some d /\ trust_level d = PeerAgentTrustLevel.ADOPTED_EXTERNAL
  /\ Forall (fun t => PolicyEngine.or_else (Scope.includes_url uni (lr_scope rq) t)
       (Scope.includes_domain uni (lr_scope rq) t) = Ret true) (lr_targets rq).
Proof.
  rewrite <- check_targets_Ret. unfold admission. split.
  - intros H. inv_ret. breflect. destruct x0. split_and!; try done. by destruct x1.
  - intros (-> & Ht & Hc). cbn. rewrite bool_decide_true by done. cbn. by rewrite Hc.
Qed.

(** A launch is refused before anything happens. Unless the agent is
    registered, adopted, and every target is in the scope, [launch] raises with
    no run stored, nothing audited and the agent not run; the admission
    conditions are exactly these three. *)
Theorem launch_refused_before_it_starts rq (w : world) :
  (forall e, admission rq = Raise e -> launch rq w = (Raise e, w))
  /\ forall d, admission rq = Ret d <->
       PyDict.get (lr_agent_name rq) registry = Some d /\ trust_level d = PeerAgentTrustLevel.ADOPTED_EXTERNAL
       /\ Forall (fun t => PolicyEngine.or_else (Scope.includes_url uni (lr_scope rq) t)
            (Scope.includes_domain uni (lr_scope rq) t) = Ret true) (lr_targets rq).
Proof.
  split; [|intros d; apply admission_Ret]. intros e E. unfold launch, lift, mbind at 1, M_bind. by rewrite E.
Qed.

(** *** Collection *)
Lemma bind_M_Ret {A B} (m : M world A) (f : A -> M world B) w b w' :
  (m ≫= f) w = (Ret b, w') -> exists a w1, m w = (Ret a, w1) /\ f a w1 = (Ret b, w').
Proof. unfold mbind, M_bind. destruct (m w) as [[a|e] w1]; [eauto|discriminate]. Qed.

Lemma lift_M_Ret {A} (m : outcome A) (w : world) a w' : lift m w = (Ret a, w') -> m = Ret a /\ w' = w.
Proof. unfold lift. by intros [= -> ->]. Qed.

Lemma finish_Ret run status w r w' :
  finish run status w = (Ret r, w') ->
  pr_id r = pr_id run /\ pr_agent_name r = pr_agent_name run /\ pr_status r = status
  /\ get_run (pr_id run) w' = Some r.
Proof.
  unfold finish. intros (now & w1 & _ & H)%bind_M_Ret. apply bind_M_Ret in H as (f & w2 & [Hf ->]%lift_M_Ret & H).
  apply bind_M_Ret in H as (u & w3 & Hs & [= <- <-]). unfold save, modify in Hs. injection Hs as _ <-.
  unfold Peer.check_run in Hf. inv_ret. split_and!; try done. unfold get_run. cbn. by rewrite PyDict.get_set_eq.
Qed.

Lemma collect_Ret rq run report w out w' :
  collect rq run report w = (Ret out, w') ->
  Peer.normalize uni (pp_findings report) run (lr_scope rq) (lr_catalog rq) (lr_asset_type rq)
    = Ret (out_observations out, out_rejected out)
  /\ pr_status (out_run out) = (if over_budget report (pr_budget run) then PeerRunStatus.BUDGET_EXCEEDED else PeerRunStatus.COMPLETED)
  /\ pr_agent_name (out_run out) = pr_agent_name run
  /\ get_run (pr_id run) w' = Some (out_run out).
Proof.
  unfold collect. cbn zeta. intros (u & w1 & _ & H)%bind_M_Ret.
  apply bind_M_Ret in H as ([os rs] & w2 & [Hn ->]%lift_M_Ret & H). apply bind_M_Ret in H as (f & w3 & Hf & H).
  apply bind_M_Ret in H as (u' & w4 & Ha & [= <- <-]). cbn [out_observations out_rejected out_run].
  apply finish_Ret in Hf as (_ & Hg & Hs & Hr). split_and!; try done.
  unfold record_audit in Ha. apply bind_M_Ret in Ha as (u'' & w5 & [_ ->]%lift_M_Ret & Hm). unfold modify in Hm.
  injection Hm as _ <-. exact Hr.
Qed.

(** Only gated findings enter the assessment. When a launch returns, the agent
    was admitted, its report was sorted finding by finding, in order and
    without loss, into observations and rejections; an observation comes from a
    finding whose asset is in the frozen scope and which hits a class the
    catalog requires, so it is evidence for such a class; it is attributed to
    the peer with the neutral confidence 0.5; a rejection carries the finding
    and the gate that refused it; and the run is marked COMPLETED exactly when
    it kept its wall-clock and cost budget. Exceeding the budget does not lose
    the findings. *)
Theorem only_gated_findings_enter rq (w w' : world) out :
  launch rq w = (Ret out, w') ->
  exists d run report, admission rq = Ret d
  /\ (exists w1 w2, harness_execute run d w1 = (Ret report, w2)) /\ pr_agent_name run = pd_name d
  /\ Peer.sorted_out uni run (lr_scope rq) (lr_catalog rq) (lr_asset_type rq) (pp_findings report)
       (out_observations out) (out_rejected out)
  /\ (forall o, o ∈ out_observations out -> confidence o = Peer.PEER_CONFIDENCE
        /\ src_name (obs_source o) = "peer:" +:+ pd_name d
        /\ exists c, c ∈ Catalog.required_for (lr_catalog rq) (lr_asset_type rq) /\ Coverage.evidence_for c o)
  /\ pr_status (out_run out) = (if over_budget report (default_budget d) then PeerRunStatus.BUDGET_EXCEEDED else PeerRunStatus.COMPLETED)
  /\ get_run (pr_id run) w' = Some (out_run out).
Proof.
  unfold launch. intros (d & w1 & [Hd ->]%lift_M_Ret & H)%bind_M_Ret.
  apply bind_M_Ret in H as (h & w2 & _ & H). apply bind_M_Ret in H as (now & w3 & _ & H).
  apply bind_M_Ret in H as (run & w4 & [Hrun ->]%lift_M_Ret & H). apply bind_M_Ret in H as (u & w5 & _ & H).
  apply bind_M_Ret in H as (u' & w6 & _ & H). apply bind_M_Ret in H as (report & w7 & Hexec & H).
  assert (exists wa wb, harness_execute run d wa = (Ret report, wb)) as Hex.
  { unfold try_exceptM in Hexec. destruct (harness_execute run d w6) as [[r|e] w8] eqn:E.
    - injection Hexec as -> _. by exists w6, w8.
    - destruct (is_exception e); [|discriminate]. apply bind_M_Ret in Hexec as (? & ? & _ & ?). discriminate. }
  assert (pr_agent_name run = pd_name d /\ pr_budget run = default_budget d) as [Hname Hb]
    by (unfold Peer.check_run in Hrun; by inv_ret).
  apply collect_Ret in H as (Hn & Hs & Hg & Hr). apply Peer.normalize_sorts in Hn.
  exists d, run, report. rewrite <- Hb. split_and!; try done.
  intros o Ho. destruct (Peer.sorted_out_in _ _ _ _ _ _ _ _ _ Hn Ho) as (f & _ & [_ Hc] & Hf).
  apply Peer.normalize_finding_Ret in Hf as (Hconf & Hsrc & _ & Hcwe & How & _). rewrite <- Hname.
  split_and!; [done|done|]. by apply (Peer.hits_evidence f).
Qed.

End service.

(** *** Concrete runs *)
Definition demo_agent : PeerAgentDescriptor :=
  mkDescriptor "strix" "1" "apache" PeerAgentTrustLevel.ADOPTED_EXTERNAL [] "low" (mkPeerBudget 60 (flt "10.0")) "".
Definition demo_registry : dict PeerAgentDescriptor := PyDict.set "strix" demo_agent [].
Definition demo_scope : ScopeSnapshot :=
  mkScope "s" "acme" ["shop.example"] [] [443] Scope.default_limits "ana" 0 "d" [].
Definition demo_finding (asset cwe : string) : PeerAgentFinding :=
  mkPeerFinding "f1" "r1" "strix" "xss" asset "HIGH" [cwe] [] [] "" "".
Definition demo_report (wall : pyfloat) (fs : list PeerAgentFinding) : PeerAgentReport := mkPeerReport "r1" fs wall (flt "1.0") 0.
Definition demo_request (targets : list string) : LaunchRequest :=
  mkLaunch "a1" "strix" targets demo_scope Planner.demo_catalog AssetType.WEB_APP "ana" "permit-1".
Definition demo_hex : M nat string := fun n => (Ret ("00000000000" +:+ pretty n), S n).
Definition demo_clock : M nat datetime := fun n => (Ret (Z.of_nat n * PyTime.second), S n).
Definition demo_world : PeerWorld nat := mkPeerWorld [] [] 0%nat.
Definition demo_launch (execute : PeerAgentRun -> PeerAgentDescriptor -> M (PeerWorld nat) PeerAgentReport)
    (targets : list string) : outcome PeerRunOutcome * PeerWorld nat :=
  launch FrozenScope.ascii_only (fun _ => Ret tt) demo_hex demo_clock demo_registry execute (demo_request targets) demo_world.
Definition answering (r : PeerAgentReport) (_ : PeerAgentRun) (_ : PeerAgentDescriptor) : M (PeerWorld nat) PeerAgentReport :=
  mret r.
Definition summary (r : outcome PeerRunOutcome * PeerWorld nat)
  : option (PeerRunStatus * list string * list RejectionReason) :=
  match r.1 with
  | Ret o => Some (pr_status (out_run o), asset_identity <$> out_observations o, rj_reason <$> out_rejected o)
  | Raise _ => None
  end.
Definition stored (r : outcome PeerRunOutcome * PeerWorld nat) : list PeerRunStatus :=
  pr_status <$> PyDict.values (peer_runs r.2).

Example demo_launches :
  summary (demo_launch (answering (demo_report (flt "5.0")
     [demo_finding "https://shop.example/q" "CWE-79"; demo_finding "evil.example" "CWE-79"; demo_finding "shop.example" "CWE-1"]))
     ["https://shop.example/"])
  = Some (PeerRunStatus.COMPLETED, ["https://shop.example/q"], [RejectionReason.OUT_OF_SCOPE; RejectionReason.OUT_OF_CATALOG])
  /\ summary (demo_launch (answering (demo_report (flt "60.5") [demo_finding "shop.example" "CWE-79"])) ["https://shop.example/"])
     = Some (PeerRunStatus.BUDGET_EXCEEDED, ["shop.example"], []).
Proof. vm_compute. done. Qed.

Lemma only_gated_findings_enter_witness :
  exists out w', demo_launch (answering (demo_report (flt "5.0") [demo_finding "shop.example" "CWE-79"])) ["https://shop.example/"]
      = (Ret out, w')
    /\ exists d run report, admission FrozenScope.ascii_only demo_registry (demo_request ["https://shop.example/"]) = Ret d
        /\ Peer.sorted_out FrozenScope.ascii_only run demo_scope Planner.demo_catalog AssetType.WEB_APP (pp_findings report)
             (out_observations out) (out_rejected out).
Proof.
  destruct (demo_launch _ _) as [[out|e] w'] eqn:E;
    [|exfalso; apply (f_equal (fun x => is_Ret x.1)) in E; vm_compute in E; discriminate E].
  exists out, w'. split; [reflexivity|].
  destruct (only_gated_findings_enter _ _ _ _ _ _ _ _ _ _ E) as (d & run & report & H1 & _ & _ & H2 & _).
  exists d, run, report. exact (conj H1 H2).
Defined.

(** A plain domain can never be a launch target: [includes_url] raises on it
    before [includes_domain], which accepts it, is asked. *)
Lemma bare_domain_cannot_be_launched :
  Scope.includes_domain FrozenScope.ascii_only demo_scope "shop.example" = Ret true
  /\ (demo_launch (answering (demo_report (flt "5.0") [])) ["shop.example"]).1
     = Raise (DomainValidationError "URL must use http or https").
Proof. vm_compute. done. Qed.

(** One asset that cannot be parsed loses the whole report: the gates run
    after the agent did, the error leaves [launch], the good finding is in no
    observation and no rejection, and the run stays RUNNING. *)
Lemma one_bad_asset_loses_the_report :
  let r := demo_launch (answering (demo_report (flt "5.0")
    [demo_finding "shop.example" "CWE-79"; demo_finding "http://" "CWE-79"])) ["https://shop.example/"] in
  is_Ret r.1 = false /\ stored r = [PeerRunStatus.RUNNING].
Proof. vm_compute. done. Qed.

(** A run that was stopped while the agent was running is stored COMPLETED
    when the agent returns. *)
Lemma stopped_run_ends_completed :
  let stopping run d := (stop (fun _ => Ret tt) demo_clock (fun _ => mret true) (pr_id run) "ana" "emergency";;
    answering (demo_report (flt "5.0") []) run d) in
  let r := demo_launch stopping ["https://shop.example/"] in
  call_action <$> peer_log r.2 = ["peer_run.launch"; "peer_run.stop"; "peer_run.collect"]
  /\ stored r = [PeerRunStatus.COMPLETED].
Proof. vm_compute. done. Qed.

End PeerService.

(** ** Re-planning *)
Record PlanVersionProposal : Type := mkProposal {
  pv_run_id : string;
  pv_reason : string;
  subjects : list string;
  approved : bool;
  proposed_at : datetime
}.

Module Replan.

Definition normalize_asset (asset : string) : string := PyStr.rstrip_char "/" asset.

Definition propose_replan_from_outcome (now : datetime) (outcome : PeerRunOutcome) (planned_assets : list string)
  : list PlanVersionProposal :=
  let planned := normalize_asset <$> planned_assets in
  let new_assets := filter (fun a => a ∉ planned)
    ((fun o => normalize_asset (asset_identity o)) <$> out_observations outcome) in
  match new_assets with
  | [] => []
  | _ => [mkProposal (pr_id (out_run outcome)) "peer_discovered_asset" (sorted_set new_assets) false now]
  end.

(** A discovery never changes the plan by itself: nothing is proposed when
    every observed asset was planned, and otherwise one proposal, waiting for
    approval, that lists each observed asset outside the plan once. *)
Theorem discoveries_wait_for_approval now outcome planned :
  let l := propose_replan_from_outcome now outcome planned in
  Forall (fun p => approved p = false /\ pv_run_id p = pr_id (out_run outcome) /\ NoDup (subjects p)) l
  /\ (length l <= 1)%nat
  /\ forall a, (exists p, p ∈ l /\ a ∈ subjects p) <->
       (exists o, o ∈ out_observations outcome /\ a = normalize_asset (asset_identity o))
       /\ a ∉ normalize_asset <$> planned.
Proof.
  unfold propose_replan_from_outcome. cbn zeta.
  set (new := filter _ _). assert (forall a, a ∈ new <->
    (exists o, o ∈ out_observations outcome /\ a = normalize_asset (asset_identity o)) /\ a ∉ normalize_asset <$> planned) as Hnew.
  { intros a. subst new. rewrite list_elem_of_filter. split.
    - intros (Hn & (o & -> & Ho)%list_elem_of_fmap). eauto.
    - intros ((o & Ho & ->) & Hn). split; [done|]. by apply (list_elem_of_fmap_2 (fun o => normalize_asset (asset_identity o))). }
  destruct new as [|x r] eqn:E.
  - split_and!; [constructor|cbn; lia|]. intros a. rewrite <- Hnew. set_solver.
  - split_and!; [|cbn; lia|].
    + constructor; [|constructor]. split_and!; [done|done|]. cbn [subjects]. unfold sorted_set.
      rewrite PyStr.sorted_Permutation. apply NoDup_remove_dups.
    + intros a. rewrite <- Hnew. split.
      * intros (p & ->%list_elem_of_singleton & Ha). cbn [subjects] in Ha. by rewrite FrozenScope.elem_of_sorted_set in Ha.
      * intros Ha. eexists. split; [left|]. cbn [subjects]. by rewrite FrozenScope.elem_of_sorted_set.
Qed.

End Replan.
