(* ===== verification/Safety.v ===== *)
(** * Egress guard, permit revocation and the emergency stop

    Models [src/secopent/infrastructure/egress/egress_guard.py] (Module
    [EgressGuard]), [infrastructure/safety/permit_revoker.py] (Module
    [PermitRevoker]) and [application/emergency_stop.py] (Module
    [EmergencyStop]).  The name resolver, the terminator of containers and
    what the audit accepts are parameters. *)
From S2P Require Import Prelude PyStr PyTime PyFloat PyDict Sha256 Canonical PyJson Policy.
From S2P Require Import Net NetFacts AuditTrail Scope Enforcer.

#[local] Open Scope Z_scope.

Module EgressGuard.
Section guard.
Context (uni : Unicode) (resolve : string -> outcome (list string)).

Definition DEFAULT_BLOCKED_CIDRS : list string := ["169.254.0.0/16"; "127.0.0.0/8"].

(** [self._blocked] of the constructor *)
Definition blocked_networks (cidrs : list string) : outcome (list Ip.network) :=
  mapM_outcome (fun c => unwrap (Ip.ip_network c)
                           (ValueError (PyStr.repr c +:+ " does not appear to be an IPv4 or IPv6 network"))) cidrs.

(** The module has its own copy of the enforcer's [_split_target]. *)
Definition split_target (target : string) : outcome (string * option Z) := ScopeEnforcer.split_target uni target.

Definition is_blocked_destination (blocked : list Ip.network) (ip : string) : bool :=
  match Ip.ip_address ip with
  | None => true
  | Some a => existsb (fun n => Ip.contains n a) blocked
  end.

Definition deny (reason : string) : outcome PolicyDecision := Ret (mkPolicyDecision false reason).

Fixpoint check_resolved (blocked : list Ip.network) (scope : ScopeSnapshot) (resolved : list string)
    (k : outcome PolicyDecision) : outcome PolicyDecision :=
  match resolved with
  | [] => k
  | ip :: ips =>
      if is_blocked_destination blocked ip then deny "BLOCKED_DESTINATION"
      else
        i ← Scope.includes_ip uni scope ip;
        if negb i then deny "OUT_OF_SCOPE" else check_resolved blocked scope ips k
  end.

Definition check (blocked : list Ip.network) (target : string) (scope : ScopeSnapshot) : outcome PolicyDecision :=
  '(host, port) ← split_target target;
  if PyStr.is_empty host then deny "INVALID_TARGET"
  else
    resolved ← ScopeEnforcer.resolve_host resolve host;
    if bool_decide (resolved = []) then deny "DNS_RESOLUTION_FAILED"
    else check_resolved blocked scope resolved
           (ScopeEnforcer.check_port scope port (Ret (mkPolicyDecision true "ALLOWED"))).

(** ** What it lets through *)
Definition reachable_ip (blocked : list Ip.network) (scope : ScopeSnapshot) (ip : string) : Prop :=
  exists a, Ip.ip_address ip = Some a /\ (forall n, n ∈ blocked -> Ip.contains n a = false)
    /\ Scope.includes_ip uni scope ip = Ret true.

Definition connectable (blocked : list Ip.network) (target : string) (scope : ScopeSnapshot) : Prop :=
  exists host port ips,
    split_target target = Ret (host, port) /\ host <> ""
    /\ ScopeEnforcer.resolve_host resolve host = Ret ips /\ ips <> [] /\ Forall (reachable_ip blocked scope) ips
    /\ forall p, port = Some p -> Scope.includes_port scope p = Ret true.

Lemma not_blocked_spec blocked ip :
  is_blocked_destination blocked ip = false <->
  exists a, Ip.ip_address ip = Some a /\ forall n, n ∈ blocked -> Ip.contains n a = false.
Proof.
  unfold is_blocked_destination. destruct (Ip.ip_address ip) as [a|]; [|naive_solver].
  rewrite <- not_true_iff_false, existsb_exists. setoid_rewrite <- list_elem_of_In. split.
  - intros H. exists a. split; [done|]. intros n Hn. apply not_true_iff_false. naive_solver.
  - intros (? & [= <-] & H) (n & Hn & Hc). rewrite H in Hc; done.
Qed.

Lemma check_resolved_allows blocked scope ips k :
  ScopeEnforcer.allows (check_resolved blocked scope ips k)
  <-> Forall (reachable_ip blocked scope) ips /\ ScopeEnforcer.allows k.
Proof.
  induction ips as [|ip ips IH]; cbn [check_resolved]; [naive_solver|]. rewrite Forall_cons.
  destruct (is_blocked_destination blocked ip) eqn:Eb.
  { split; [by intros ?%ScopeEnforcer.deny_not|]. intros [[(a & Ha & Hn & _) _] _].
    assert (is_blocked_destination blocked ip = false) by (apply not_blocked_spec; eauto). congruence. }
  apply not_blocked_spec in Eb as (a & Ha & Hn). unfold reachable_ip at 1.
  destruct (Scope.includes_ip uni scope ip) as [[]|e]; cbn [mbind outcome_bind negb].
  - rewrite IH. naive_solver.
  - split; [by intros ?%ScopeEnforcer.deny_not|by intros [[(? & _ & _ & ?) _] _]].
  - split; [by intros ?%ScopeEnforcer.raise_not|by intros [[(? & _ & _ & ?) _] _]].
Qed.

(** The guard lets a connection through exactly to the connectable targets:
    whatever the scope says, every address the target resolves to parses, is
    outside every blocked network and in scope, and the port is in scope. *)
Theorem egress_allows_exactly blocked target scope :
  ScopeEnforcer.allows (check blocked target scope) <-> connectable blocked target scope.
Proof.
  unfold check, connectable. destruct (split_target target) as [[host port]|e]; cbn [mbind outcome_bind];
    [|split; [by intros ?%ScopeEnforcer.raise_not|by intros (? & ? & ? & ? & _)]].
  destruct (PyStr.is_empty host) eqn:Eh.
  { apply PyStr.is_empty_true in Eh.
    split; [by intros ?%ScopeEnforcer.deny_not|]. intros (? & ? & ? & [= <- <-] & ? & _). done. }
  apply PyStr.is_empty_false in Eh.
  destruct (ScopeEnforcer.resolve_host resolve host) as [ips|e] eqn:Er; cbn [mbind outcome_bind].
  2: { split; [by intros ?%ScopeEnforcer.raise_not|]. intros (? & ? & ? & [= <- <-] & _ & Hr & _). congruence. }
  case_bool_decide as Hn.
  { split; [by intros ?%ScopeEnforcer.deny_not|]. intros (? & ? & ? & [= <- <-] & _ & Hr & ? & _). congruence. }
  rewrite check_resolved_allows, ScopeEnforcer.check_port_allows. split.
  - intros (H1 & H2 & _). exists host, port, ips. done.
  - intros (h & p & ips' & [= <- <-] & _ & Hr & _ & H1 & H2). assert (ips' = ips) as -> by congruence.
    split_and!; [done..|by eexists].
Qed.

End guard.
End EgressGuard.

(** ** [InMemoryPermitRevoker] *)
Record Revoker : Type := mkRevoker {
  issued : gmap string bool;
  revoked : gset string
}.

Module PermitRevoker.

Definition initial : Revoker := mkRevoker ∅ ∅.

Definition record_issued (nonce : string) (used : bool) (r : Revoker) : Revoker :=
  if bool_decide (nonce ∈ revoked r) then r else mkRevoker (<[nonce := used]> (issued r)) (revoked r).

Definition record_used (nonce : string) (r : Revoker) : Revoker :=
  match issued r !! nonce with
  | Some _ => mkRevoker (<[nonce := true]> (issued r)) (revoked r)
  | None => r
  end.

Definition is_revoked (nonce : string) (r : Revoker) : bool := bool_decide (nonce ∈ revoked r).

Definition pending (r : Revoker) : gmap string bool := filter (fun kv => kv.2 = false) (issued r).

Definition revoke_unused (r : Revoker) : Z * Revoker :=
  (Z.of_nat (size (pending r)),
   mkRevoker (filter (fun kv => kv.2 = true) (issued r)) (dom (pending r) ∪ revoked r)).

Inductive op : Type := Issued (nonce : string) (used : bool) | Used (nonce : string) | RevokeUnused.
Definition run (o : op) (r : Revoker) : Revoker :=
  match o with
  | Issued n u => record_issued n u r
  | Used n => record_used n r
  | RevokeUnused => (revoke_unused r).2
  end.
Definition run_all (ops : list op) (r : Revoker) : Revoker := foldl (fun r o => run o r) r ops.

(** What was revoked is not issued. *)
Definition separate (r : Revoker) : Prop := dom (issued r) ## revoked r.

Lemma pending_dom r n : n ∈ dom (pending r) <-> issued r !! n = Some false.
Proof.
  unfold pending. rewrite elem_of_dom. split.
  - intros [b H]. apply map_lookup_filter_Some in H as [H E]. cbn in E. by rewrite <- E.
  - intros H. exists false. by apply map_lookup_filter_Some.
Qed.

Lemma run_separate o r : separate r -> separate (run o r).
Proof.
  unfold separate. intros H. destruct o as [n u|n|]; cbn [run].
  - unfold record_issued. case_bool_decide; [done|]. cbn. rewrite dom_insert. set_solver.
  - unfold record_used. destruct (issued r !! n) as [b|] eqn:E; [|done]. cbn. apply elem_of_dom_2 in E.
    rewrite dom_insert. set_solver.
  - cbn. intros n (b & [H1 Hb]%map_lookup_filter_Some)%elem_of_dom [H2|H2]%elem_of_union.
    + apply pending_dom in H2. cbn in Hb. congruence.
    + apply (H n); [|done]. by apply elem_of_dom_2 in H1.
Qed.

Lemma run_revoked o r : revoked r ⊆ revoked (run o r).
Proof.
  destruct o as [n u|n|]; cbn [run]; [|unfold record_used; by case_match|cbn; set_solver].
  unfold record_issued. by case_bool_decide.
Qed.

(** After [revoke_unused] no permit is pending, the ones that were are
    revoked, and however the register is used afterwards they stay revoked
    and are never issued again. *)
Lemma revocation_sticks r ops n :
  separate r -> issued r !! n = Some false ->
  let r' := run_all ops (revoke_unused r).2 in
  is_revoked n r' = true /\ issued r' !! n = None
  /\ pending (revoke_unused r).2 = ∅ /\ forall m, issued r !! m = Some true -> issued (revoke_unused r).2 !! m = Some true.
Proof.
  intros Hs Hn r'.
  assert (H : separate r' /\ n ∈ revoked r').
  { subst r'. assert (H0 : separate (revoke_unused r).2 /\ n ∈ revoked (revoke_unused r).2).
    { split; [by apply (run_separate RevokeUnused)|]. cbn. apply elem_of_union_l. by apply pending_dom. }
    revert H0. generalize (revoke_unused r).2. induction ops as [|o ops IH]; intros q [H1 H2]; [done|].
    apply IH. split; [by apply run_separate|]. by apply run_revoked. }
  destruct H as [Hs' Hr']. split_and!.
  - by apply bool_decide_eq_true.
  - apply not_elem_of_dom. unfold separate in Hs'. set_solver.
  - apply map_empty. intros m. unfold pending. cbn. apply map_lookup_filter_None. right.
    intros b [_ Hb]%map_lookup_filter_Some Hb'. cbn in *. congruence.
  - intros m Hm. cbn. by apply map_lookup_filter_Some.
Qed.

End PermitRevoker.

(** ** [EmergencyStop] *)
Record EmergencyReport : Type := mkEmergencyReport {
  er_triggered : bool;
  er_revoked_permits : Z;
  er_terminated_containers : Z;
  er_evidence_preserved : bool;
  er_actor : string;
  er_reason : string
}.

Record StopState : Type := mkStop {
  is_triggered : bool;
  permit_revoker : Revoker;
  stop_audit : list AuditCall
}.

Module EmergencyStop.
Section stop.
Context (audit_ok : AuditCall -> outcome unit).

Definition permits_allowed (s : StopState) : bool := negb (is_triggered s).

Definition triggered_call (actor why : string) (revoked_permits terminated : Z) : AuditCall :=
  mkCall actor "emergency_stop.triggered" "emergency_stop" "global"
    [("priority", JStr "high"); ("reason", JStr why); ("revoked_permits", JInt revoked_permits);
     ("terminated_containers", JInt terminated); ("evidence_preserved", JBool true)].

(** [terminate] is what the container terminator answers; an exception of
    any class is caught and reported as -1. *)
Definition trigger (terminate : outcome Z) (actor why : string) : M StopState EmergencyReport :=
  modify (fun s => mkStop true (permit_revoker s) (stop_audit s));;
  n ← (fun s => let '(n, r) := PermitRevoker.revoke_unused (permit_revoker s) in
                (Ret n, mkStop (is_triggered s) r (stop_audit s)));
  let terminated := match terminate with Ret t => t | Raise _ => -1 end in
  let call := triggered_call actor why n terminated in
  lift (audit_ok call);;
  modify (fun s => mkStop (is_triggered s) (permit_revoker s) (stop_audit s ++ [call]));;
  mret (mkEmergencyReport true n terminated true actor why).

(** The switch flips and the pending permits are revoked in any case, even
    when no container can be reached or the audit refuses the event. *)
Lemma trigger_always_stops terminate actor why s :
  let s' := (trigger terminate actor why s).2 in
  is_triggered s' = true /\ permits_allowed s' = false
  /\ permit_revoker s' = (PermitRevoker.revoke_unused (permit_revoker s)).2
  /\ ((exists r, (trigger terminate actor why s).1 = Ret r /\ er_terminated_containers r = -1) <->
      (terminate = Ret (-1) \/ exists e, terminate = Raise e)
      /\ exists u, audit_ok (triggered_call actor why (PermitRevoker.revoke_unused (permit_revoker s)).1 (-1)) = Ret u).
Proof.
  unfold trigger, modify, lift, mbind, M_bind, mret, M_ret. cbn.
  destruct terminate as [t|e]; cbn.
  - destruct (audit_ok _) as [u|x] eqn:E; cbn; (split_and!; [done..|]).
    + split; [intros (r & [= <-] & Ht); cbn in Ht; subst t; split; [by left|by eexists]|].
      intros [[[= ->]|[? ?]] _]; [|done]. by eexists.
    + split; [by intros (r & ? & _)|]. intros [[[= ->]|[? ?]] [u Hu]]; [|done]. congruence.
  - destruct (audit_ok _) as [u|x] eqn:E; cbn; (split_and!; [done..|]).
    + split; [intros _; split; [right; by eexists|by eexists]|]. intros _. by eexists.
    + split; [by intros (r & ? & _)|]. intros [_ [u Hu]]. congruence.
Qed.

End stop.
End EmergencyStop.

(** ** Concrete runs *)

(** Only IPv4 ranges are blocked by default: with a scope that names the IPv6
    loopback address (or a link-local one), the guard allows what its
    documentation says is always blocked. *)
Lemma ipv6_loopback_is_not_blocked :
  let scope l := mkScope "s" "p" l [] [443] Scope.default_limits "ana" 0 "d" [] in
  let guard t l := match EgressGuard.blocked_networks EgressGuard.DEFAULT_BLOCKED_CIDRS with
                   | Ret b => EgressGuard.check FrozenScope.ascii_only (fun _ => Ret []) b t (scope l)
                   | Raise e => Raise e end in
  guard "https://[::1]/" ["::/0"] = Ret (mkPolicyDecision true "ALLOWED")
  /\ guard "https://[fe80::1]/" ["fe80::/10"] = Ret (mkPolicyDecision true "ALLOWED")
  /\ guard "https://127.0.0.1/" ["0.0.0.0/0"] = Ret (mkPolicyDecision false "BLOCKED_DESTINATION")
  /\ guard "https://169.254.169.254/" ["0.0.0.0/0"] = Ret (mkPolicyDecision false "BLOCKED_DESTINATION").
Proof. vm_compute. done. Qed.
