(* ===== verification/NftScope.v ===== *)
(** * Packet-level scope

    Models [src/secopent/infrastructure/egress/nft_scope.py]: the targets of a
    scope snapshot are resolved twice, sorted into allowed and blocked
    addresses, and pushed to nftables by one command per address.  The name
    resolver, the nft binary and the audit are parameters; the world counts
    the lookups and records the commands and the audit calls. *)
From S2P Require Import Prelude PyStr PyTime PyFloat Canonical Policy Net NetFacts AuditTrail Scope Enforcer Safety.

#[local] Open Scope Z_scope.

(** ** Overlapping networks *)
Module Overlap.
Import Ip IpFacts.

(** [network.broadcast_address] *)
Definition broadcast_address (n : network) : address :=
  let host := Z.shiftr (Z.ones (max_prefixlen (network_address n))) (net_prefixlen n) in
  match network_address n with
  | V4 a => V4 (Z.lor a host)
  | V6 a _ => V6 (Z.lor a host) None
  end.

(** [n.overlaps(m)] *)
Definition overlaps (n m : network) : bool :=
  contains n (network_address m)
  || (contains n (broadcast_address m)
      || (contains m (network_address n) || contains m (broadcast_address n))).

Lemma div_pow_mono x y k j : 0 <= k <= j -> x / 2 ^ k = y / 2 ^ k -> x / 2 ^ j = y / 2 ^ j.
Proof.
  intros Hk H. replace j with (k + (j - k)) by lia. rewrite Z.pow_add_r by lia.
  rewrite <- !Z.div_div by (try apply Z.pow_pos_nonneg; try apply Z.pow_nonzero; lia). by rewrite H.
Qed.

Lemma same_version_trans a b d : same_version a b = true -> same_version b d = true -> same_version a d = true.
Proof. by destruct a, b, d. Qed.
Lemma same_version_sym a b : same_version a b = same_version b a.
Proof. by destruct a, b. Qed.
Lemma same_version_max a b : same_version a b = true -> max_prefixlen a = max_prefixlen b.
Proof. by destruct a, b. Qed.

(** Of two networks with a common address, the wider one holds the network
    address of the other. *)
Lemma common_address n m a :
  net_valid n -> net_valid m -> valid a -> contains n a = true -> contains m a = true ->
  net_prefixlen n <= net_prefixlen m -> contains n (network_address m) = true.
Proof.
  intros Hn Hm Ha Hna Hma Hp. apply contains_spec in Hna as [Vn En]; [|done..]. apply contains_spec in Hma as [Vm Em]; [|done..].
  apply contains_spec; [done|by destruct Hm|]. rewrite <- (same_version_max _ _ Vm) in *.
  split; [rewrite same_version_sym in Vm; by eapply same_version_trans|].
  rewrite <- En. apply (div_pow_mono _ _ (max_prefixlen (network_address m) - net_prefixlen m)); [|by rewrite Em].
  destruct Hm as (_ & H & _). lia.
Qed.

(** Networks that do not overlap have no address in common. *)
Lemma disjoint n m a :
  net_valid n -> net_valid m -> valid a -> overlaps n m = false -> contains n a = true -> contains m a = false.
Proof.
  intros Hn Hm Ha Ho Hna. destruct (contains m a) eqn:Hma; [exfalso|done].
  unfold overlaps in Ho. rewrite !orb_false_iff in Ho. destruct Ho as (H1 & _ & H2 & _).
  destruct (Z.le_ge_cases (net_prefixlen n) (net_prefixlen m)) as [Hp|Hp].
  - rewrite (common_address n m a) in H1 by done. done.
  - rewrite (common_address m n a) in H2 by done. done.
Qed.

End Overlap.

(** ** The enforcer *)
Record World : Type := mkWorld {
  lookups : nat;
  commands : list (list string);
  audits : list AuditCall
}.

(** [ScopeEnforcementResult], and the three lists while they are filled. *)
Record Sets : Type := mkSets { allowed : list string; blocked : list string; rejected : list string }.

Module NftScope.

Definition DEFAULT_TABLE : string := "secopent_egress".

(** [host_or_network]: the host of a URL, or of host:port. *)
Definition count_colons (s : string) : nat := pred (length (PyStr.split ":" s)).

Section enforcer.
Context (uni : Unicode) (blocked_nets : list Ip.network) (netns : option string).
(** The answer of the n-th lookup, the result of the n-th nft command, and
    what the audit answers when there is one. *)
Context (resolve : nat -> string -> outcome (list string)) (run_nft : nat -> list string -> outcome unit)
        (audit : option (nat -> AuditCall -> outcome unit)).

Definition host_or_network (entry : string) : outcome string :=
  if PyStr.startswith entry "http://" || PyStr.startswith entry "https://" then
    r ← Url.urlsplit uni entry; Ret (default "" (Url.hostname r))
  else if negb (PyStr.has_char "/" entry) && Nat.eqb (count_colons entry) 1 then
    let '(host, _, port) := PyStr.rpartition ":" entry in
    Ret (if PyStr.truthy port && PyStr.forallb PyStr.is_digit port then host else entry)
  else Ret entry.

Definition record (action resource_id : string) : M World unit := fun w =>
  match audit with
  | None => (Ret tt, w)
  | Some f =>
      let c := mkCall "nft_scope" action "scope" resource_id [] in
      (f (length (audits w)) c, mkWorld (lookups w) (commands w) (audits w ++ [c]))
  end.

Definition lookup (host : string) : M World (list string) := fun w =>
  (resolve (lookups w) host, mkWorld (S (lookups w)) (commands w) (audits w)).

Definition list_repr (l : list string) : string := "[" +:+ PyStr.join ", " (PyStr.repr <$> l) +:+ "]".

Definition resolve_with_rebinding_check (host : string) : M World (list string) :=
  if bool_decide (is_Some (Ip.ip_address host)) then mret [host]
  else
    first ← lookup host;
    second ← lookup host;
    if bool_decide (first = []) then raise (DnsRebindingError (host +:+ ": unresolvable"))
    else if negb (bool_decide (list_to_set first =@{gset string} list_to_set second)) then
      raise (DnsRebindingError (host +:+ ": resolution changed " +:+ list_repr (sorted_set first)
                                +:+ " -> " +:+ list_repr (sorted_set second)))
    else mret (sorted_set first).

Definition reject (entry : string) (s : Sets) : Sets := mkSets (allowed s) (blocked s) (rejected s ++ [entry]).

Definition add_new (x : string) (l : list string) : list string := if bool_decide (x ∈ l) then l else l ++ [x].

Definition classify_ip (entry : string) (s : Sets) (ip : string) : M World Sets :=
  if EgressGuard.is_blocked_destination blocked_nets ip then
    record "egress.denied_blocked" ip;;
    mret (reject entry (mkSets (allowed s) (add_new ip (blocked s)) (rejected s)))
  else if bool_decide (ip ∈ allowed s) then mret s
  else
    record "egress.allowed" ip;;
    mret (mkSets (allowed s ++ [ip]) (blocked s) (rejected s)).

Definition classify_network (cidr : string) (s : Sets) (entry : string) : M World Sets :=
  match Ip.ip_network cidr with
  | None => mret (reject entry s)
  | Some n =>
      if existsb (Overlap.overlaps n) blocked_nets then
        record "egress.denied_blocked" cidr;; mret (reject entry s)
      else if bool_decide (cidr ∈ allowed s) then mret s
      else record "egress.allowed" cidr;; mret (mkSets (allowed s ++ [cidr]) (blocked s) (rejected s))
  end.

(** [for ip in ips: ...] *)
Fixpoint foldM {A} (f : Sets -> A -> M World Sets) (s : Sets) (l : list A) : M World Sets :=
  match l with
  | [] => mret s
  | x :: l => s ← f s x; foldM f s l
  end.

(** The body of the loop over [snapshot.include]. *)
Definition classify (s : Sets) (entry : string) : M World Sets :=
  host ← lift (host_or_network entry);
  if PyStr.is_empty host then mret (reject entry s)
  else if PyStr.has_char "/" host then classify_network host s entry
  else
    ips ← (fun w => match resolve_with_rebinding_check host w with
                    | (Ret ips, w) => (Ret (Some ips), w)
                    | (Raise (DnsRebindingError _), w) => (Ret None, w)
                    | (Raise e, w) => (Raise e, w)
                    end);
    match ips with
    | None => record "egress.rejected_rebinding" entry;; mret (reject entry s)
    | Some ips => foldM (classify_ip entry) s ips
    end.

(** [_run] *)
Definition run (args : list string) : M World unit := fun w =>
  let args := match netns with Some ns => ["ip"; "netns"; "exec"; ns] ++ args | None => args end in
  (run_nft (length (commands w)) args, mkWorld (lookups w) (commands w ++ [args]) (audits w)).

Definition add_command (set_name element : string) : list string :=
  ["nft"; "add"; "element"; "inet"; DEFAULT_TABLE; set_name; "{"; element; "}"].

Fixpoint add_elements (set_name : string) (l : list string) : M World unit :=
  match l with
  | [] => mret tt
  | x :: l => run (add_command set_name x);; add_elements set_name l
  end.

Definition apply_scope (snapshot : ScopeSnapshot) : M World Sets :=
  s ← foldM classify (mkSets [] [] []) (include snapshot);
  add_elements "blocked_targets" (blocked s);;
  add_elements "allowed_targets" (allowed s);;
  mret s.

Definition flush_command (set_name : string) : list string := ["nft"; "flush"; "set"; "inet"; DEFAULT_TABLE; set_name].

Definition revoke : M World unit :=
  run (flush_command "allowed_targets");; run (flush_command "blocked_targets").

(** ** What reaches the kernel *)

(** A text that names only addresses outside every blocked network. *)
Definition harmless (x : string) : Prop :=
  (exists a, Ip.ip_address x = Some a /\ forall n, n ∈ blocked_nets -> Ip.contains n a = false)
  \/ (exists net, Ip.ip_network x = Some net
      /\ forall n a, n ∈ blocked_nets -> IpFacts.valid a -> Ip.contains net a = true -> Ip.contains n a = false).

(** The address it names was asked for twice and answered the same. *)
Definition resolved_by (w w' : World) (host ip : string) : Prop :=
  ip = host \/ exists n l l', (lookups w <= n)%nat /\ (S n < lookups w')%nat
    /\ resolve n host = Ret l /\ resolve (S n) host = Ret l' /\ ip ∈ l /\ (forall x, x ∈ l <-> x ∈ l').

(** An element comes from an entry of the scope. *)
Definition from_scope (w w' : World) (inc : list string) (x : string) : Prop :=
  exists entry host, entry ∈ inc /\ host_or_network entry = Ret host /\ resolved_by w w' host x.

Definition announced (action : string) (cs : list AuditCall) : list string :=
  call_rid <$> List.filter (fun k => bool_decide (call_action k = action)) cs.

(** *** The invariant of the classification *)
Context (cidrs : list string).
Hypothesis blocked_nets_of : EgressGuard.blocked_networks cidrs = Ret blocked_nets.

Lemma blocked_nets_valid n : n ∈ blocked_nets -> IpFacts.net_valid n.
Proof.
  unfold EgressGuard.blocked_networks in blocked_nets_of. apply mapM_outcome_Ret in blocked_nets_of as H.
  intros [i Hi]%list_elem_of_lookup_1. apply Forall2_flip in H. eapply Forall2_lookup_l in H as (x & _ & Hx); [|exact Hi].
  apply unwrap_Ret in Hx. by eapply IpFacts.ip_network_valid.
Qed.

Lemma disjoint_network_harmless x net :
  Ip.ip_network x = Some net -> existsb (Overlap.overlaps net) blocked_nets = false -> harmless x.
Proof.
  intros Hx Ho. right. exists net. split; [done|]. intros n a Hn Ha. apply Overlap.disjoint; [|by apply blocked_nets_valid|done|].
  - by eapply IpFacts.ip_network_valid.
  - apply not_true_iff_false. intros E. apply not_true_iff_false in Ho. apply Ho, existsb_exists.
    exists n. split; [by apply list_elem_of_In|done].
Qed.

Record good (w0 : World) (inc : list string) (s : Sets) (w : World) : Prop := {
  good_commands : commands w = commands w0;
  good_lookups : (lookups w0 <= lookups w)%nat;
  good_allowed : forall x, x ∈ allowed s -> harmless x /\ from_scope w0 w inc x;
  good_audits : exists new, audits w = audits w0 ++ new /\ (audit <> None -> allowed s = announced "egress.allowed" new)
}.

Definition keeps (w0 : World) (inc : list string) (r : outcome Sets * World) : Prop :=
  match r with (Ret s, w) => good w0 inc s w | (Raise _, w) => commands w = commands w0 end.

Lemma from_scope_later w0 w w' inc x : (lookups w <= lookups w')%nat -> from_scope w0 w inc x -> from_scope w0 w' inc x.
Proof.
  intros Hl (e & h & He & Hh & Hr). exists e, h. split_and!; [done..|]. destruct Hr as [->|(n & l & l' & H1 & H2 & H3)]; [by left|].
  right. exists n, l, l'. destruct H3 as (? & ? & ? & ?). split_and!; (done || lia).
Qed.

Lemma foldM_inv {A} (I : Sets -> World -> Prop) (J : World -> Prop) (f : Sets -> A -> M World Sets) l :
  (forall s x w, x ∈ l -> I s w -> match f s x w with (Ret s', w') => I s' w' | (Raise _, w') => J w' end) ->
  forall s w, I s w -> match foldM f s l w with (Ret s', w') => I s' w' | (Raise _, w') => J w' end.
Proof.
  induction l as [|x l IH]; intros Hf s w Hg; cbn [foldM]; [done|]. unfold mbind, M_bind.
  specialize (Hf s x w ltac:(left) Hg) as Hx. destruct (f s x w) as [[s'|e] w']; cbn in Hx; [|done].
  apply IH; [|done]. intros s1 y w1 Hy. apply Hf. by right.
Qed.

Lemma record_lookups {A} action rid (a : A) w : lookups ((record action rid;; mret a) w).2 = lookups w.
Proof. unfold record, mbind, M_bind. destruct audit as [f|]; [|done]. by destruct (f _ _). Qed.

(** Auditing, then going on with the lists as [s']: what is allowed grows only
    with the audit of it. *)
Lemma record_keeps w0 inc action rid s s' w :
  good w0 inc s w ->
  (allowed s' = allowed s /\ action <> "egress.allowed"
   \/ allowed s' = allowed s ++ [rid] /\ action = "egress.allowed" /\ harmless rid /\ from_scope w0 w inc rid) ->
  keeps w0 inc ((record action rid;; mret s') w).
Proof.
  intros [Hc Hl Ha (new & Hn & Hd)] Hs. unfold record, mbind, M_bind, mret, M_ret.
  assert (Hall : forall x, x ∈ allowed s' -> harmless x /\ from_scope w0 w inc x).
  { destruct Hs as [[-> _]|(-> & _ & Hh & Hf)]; [done|].
    intros x [Hx| ->%list_elem_of_singleton]%elem_of_app; [by apply Ha|done]. }
  destruct audit as [f|] eqn:Eau; cbn.
  - set (k := mkCall "nft_scope" action "scope" rid []). destruct (f _ k) as [u|e]; cbn; [|done].
    split; [done..|]. exists (new ++ [k]). split; [by rewrite Hn, app_assoc|]. intros _. specialize (Hd ltac:(congruence)).
    unfold announced in *. rewrite List.filter_app, fmap_app, <- Hd. cbn.
    destruct Hs as [[-> Hne]|(-> & -> & _)]; [rewrite bool_decide_false by done; by rewrite app_nil_r|].
    by rewrite bool_decide_true.
  - split; [done..|]. exists new. split; [done|]. intros E; congruence.
Qed.

Lemma resolve_keeps w0 inc s w host :
  good w0 inc s w ->
  let '(o, w') := resolve_with_rebinding_check host w in
  good w0 inc s w' /\ forall ips ip, o = Ret ips -> ip ∈ ips -> resolved_by w0 w' host ip.
Proof.
  intros Hg. unfold resolve_with_rebinding_check. case_bool_decide as Hi.
  { split; [done|]. intros ips ip [= <-] ->%list_elem_of_singleton. by left. }
  unfold lookup, mbind, M_bind, raise, mret, M_ret.
  assert (forall k, good w0 inc s (mkWorld (k + lookups w) (commands w) (audits w))) as Hk.
  { intros k. destruct Hg as [H1 H2 H3 H4]. split; cbn; [done|lia| |done]. intros x [Hx Hf]%H3. split; [done|].
    eapply from_scope_later; [|exact Hf]. cbn. lia. }
  destruct (resolve (lookups w) host) as [l|e] eqn:E1; [|split; [apply (Hk 1%nat)|done]].
  cbn [lookups commands audits]. destruct (resolve (S (lookups w)) host) as [l'|e] eqn:E2; [|split; [apply (Hk 2%nat)|done]].
  case_bool_decide; [split; [apply (Hk 2%nat)|done]|]. case_bool_decide as Hs; cbn [negb]; [|split; [apply (Hk 2%nat)|done]].
  split; [apply (Hk 2%nat)|]. intros ips ip [= <-] Hip. apply (FrozenScope.elem_of_sorted_set ip l) in Hip. right.
  exists (lookups w), l, l'. split_and!; [by apply Hg|cbn; lia|exact E1|exact E2|exact Hip|].
  intros x. rewrite <- !(elem_of_list_to_set (C:=gset string)). by rewrite Hs.
Qed.

Lemma classify_keeps w0 inc s entry w : entry ∈ inc -> good w0 inc s w -> keeps w0 inc (classify s entry w).
Proof.
  intros He Hg. unfold classify. unfold mbind at 1, M_bind at 1, lift.
  destruct (host_or_network entry) as [host|e] eqn:Eh; [|by apply Hg].
  destruct (PyStr.is_empty host); [by destruct Hg|].
  destruct (PyStr.has_char "/" host).
  - unfold classify_network. destruct (Ip.ip_network host) as [net|] eqn:En; [|by destruct Hg].
    destruct (existsb _ _) eqn:Ex; [apply (record_keeps w0 inc _ _ s); [done|left; done]|].
    case_bool_decide; [done|]. apply (record_keeps w0 inc _ _ s); [done|right]. split_and!; [done..| |].
    + by eapply disjoint_network_harmless.
    + exists entry, host. split_and!; [done..|by left].
  - unfold mbind, M_bind. pose proof (resolve_keeps w0 inc s w host Hg) as H.
    destruct (resolve_with_rebinding_check host w) as [[ips|e] w1]; destruct H as [H1 H2].
    + enough (match foldM (classify_ip entry) s ips w1 with
              | (Ret s', w') => good w0 inc s' w' /\ (lookups w1 <= lookups w')%nat
              | (Raise _, w') => commands w' = commands w0 end) as Hf.
      { destruct (foldM _ _ _ _) as [[s'|e] w']; [apply Hf|exact Hf]. }
      apply (foldM_inv (fun s w => good w0 inc s w /\ (lookups w1 <= lookups w)%nat)); [|by split].
      intros s1 ip w2 Hip [Hg2 Hl2]. unfold classify_ip.
      assert (forall action s', keeps w0 inc ((record action ip;; mret s') w2) ->
        match (record action ip;; mret s') w2 with
        | (Ret s', w') => good w0 inc s' w' /\ (lookups w1 <= lookups w')%nat
        | (Raise _, w') => commands w' = commands w0 end) as Hk.
      { intros action s' Hk. pose proof (record_lookups action ip s' w2) as Hl.
        destruct ((record action ip;; mret s') w2) as [[s2|e] w']; [|done]. cbn in Hl. split; [done|lia]. }
      destruct (EgressGuard.is_blocked_destination blocked_nets ip) eqn:Eb;
        [apply Hk, (record_keeps w0 inc _ _ s1); [done|left; done]|].
      case_bool_decide; [done|]. apply Hk, (record_keeps w0 inc _ _ s1); [done|right]. split_and!; [done..| |].
      * left. exact (proj1 (EgressGuard.not_blocked_spec (resolve 0%nat) blocked_nets ip) Eb).
      * apply (from_scope_later w0 w1); [done|]. exists entry, host. split_and!; [done..|by eapply H2].
    + destruct e; cbn; try apply H1. apply (record_keeps w0 inc _ _ s); [done|left; done].
Qed.

(** *** Pushing *)
Definition wrap (args : list string) : list string :=
  match netns with Some ns => ["ip"; "netns"; "exec"; ns] ++ args | None => args end.

Lemma add_elements_spec set_name l : forall w,
  let '(o, w') := add_elements set_name l w in
  audits w' = audits w /\ lookups w' = lookups w
  /\ exists k, (k <= length l)%nat /\ commands w' = commands w ++ (wrap <$> (add_command set_name <$> take k l))
     /\ (o = Ret tt -> k = length l).
Proof.
  induction l as [|x l IH]; intros w; cbn [add_elements].
  { split_and!; [done..|]. exists 0%nat. by rewrite app_nil_r. }
  unfold mbind, M_bind. destruct (run (add_command set_name x) w) as [o1 w1] eqn:E. unfold run in E. injection E as <- <-.
  destruct (run_nft _ _) as [u|e].
  - match goal with |- context[add_elements set_name l ?w1] => specialize (IH w1); destruct (add_elements set_name l w1) as [o w'] end.
    cbn in IH. destruct IH as (H1 & H2 & k & Hk & Hc & Ho). split_and!; [done..|]. exists (S k). split_and!.
    + cbn; lia.
    + rewrite Hc, <- app_assoc. done.
    + intros ->%Ho. done.
  - split_and!; [done..|]. exists 1%nat. split_and!; [cbn; lia| |done]. done.
Qed.

(** C24: only harmless addresses of the scope reach the allow set. Whatever the
    resolver answers, whether nft or the audit fail, and however far the call
    gets: what is added to the allow set is an address outside every blocked
    network, or a network that shares no address with one; it is the text of
    an include entry or was answered by two consecutive lookups that agree;
    with an audit it was announced before. Blocked addresses are pushed
    first, and a call that returns has pushed everything it reports. *)
Theorem only_harmless_scope_is_allowed snapshot w :
  let '(o, w') := apply_scope snapshot w in
  exists cs, commands w' = commands w ++ (wrap <$> cs)
  /\ (forall x, add_command "allowed_targets" x ∈ cs ->
       harmless x /\ from_scope w w' (include snapshot) x
       /\ (audit <> None -> x ∈ announced "egress.allowed" (drop (length (audits w)) (audits w'))))
  /\ exists s, cs `prefix_of` (add_command "blocked_targets" <$> blocked s) ++ (add_command "allowed_targets" <$> allowed s)
     /\ (o = Ret s \/ exists e, o = Raise e)
     /\ (o = Ret s -> cs = (add_command "blocked_targets" <$> blocked s) ++ (add_command "allowed_targets" <$> allowed s)).
Proof.
  assert (Hg0 : good w (include snapshot) (mkSets [] [] []) w).
  { split; [done..| |]; [by intros x ?%elem_of_nil|]. exists []. by rewrite app_nil_r. }
  pose proof (foldM_inv (good w (include snapshot)) (fun w' => commands w' = commands w) classify (include snapshot)
    (fun s x w1 => classify_keeps w (include snapshot) s x w1) _ _ Hg0) as H.
  unfold apply_scope. unfold mbind at 1, M_bind at 1.
  destruct (foldM classify _ _ w) as [[s|e] w1].
  2: { exists []. rewrite app_nil_r. split_and!; [done|by intros x ?%elem_of_nil|].
       exists (mkSets [] [] []). split_and!; [by exists []|right; by eexists|done]. }
  destruct H as [Hc Hl Ha (new & Hn & Hd)].
  assert (Hadd : forall a b w', audits w' = audits w1 -> lookups w' = lookups w1 ->
    forall x, add_command "allowed_targets" x ∈ (add_command "blocked_targets" <$> a) ++ (add_command "allowed_targets" <$> take b (allowed s)) ->
    harmless x /\ from_scope w w' (include snapshot) x
    /\ (audit <> None -> x ∈ announced "egress.allowed" (drop (length (audits w)) (audits w')))).
  { intros a b w' Ew El x [(y & Hy & _)%list_elem_of_fmap|(y & Hy & Hx)%list_elem_of_fmap]%elem_of_app; [done|].
    injection Hy as <-. apply elem_of_take in Hx as (i & Hx%list_elem_of_lookup_2 & _). destruct (Ha _ Hx) as [H1 H2].
    split_and!; [done| |].
    - eapply from_scope_later; [|exact H2]. by rewrite El.
    - intros Hau. rewrite Ew, Hn, drop_app_length, <- Hd by done. done. }
  unfold mbind, M_bind. pose proof (add_elements_spec "blocked_targets" (blocked s) w1) as H1.
  destruct (add_elements "blocked_targets" (blocked s) w1) as [[[]|e] w2]; destruct H1 as (Ea & El & k & Hk & Ec & Ho).
  - specialize (Ho eq_refl) as ->. rewrite firstn_all in Ec.
    pose proof (add_elements_spec "allowed_targets" (allowed s) w2) as H2.
    destruct (add_elements "allowed_targets" (allowed s) w2) as [[[]|e] w3]; destruct H2 as (Ea2 & El2 & k2 & Hk2 & Ec2 & Ho2).
    + specialize (Ho2 eq_refl) as ->. rewrite firstn_all in Ec2.
      exists ((add_command "blocked_targets" <$> blocked s) ++ (add_command "allowed_targets" <$> allowed s)).
      split_and!; [by rewrite Ec2, Ec, Hc, fmap_app, app_assoc| |].
      * pose proof (Hadd (blocked s) (length (allowed s)) w3 ltac:(congruence) ltac:(congruence)) as HA.
        by rewrite firstn_all in HA.
      * exists s. split_and!; [done|by left|done].
    + exists ((add_command "blocked_targets" <$> blocked s) ++ (add_command "allowed_targets" <$> take k2 (allowed s))).
      split_and!; [by rewrite Ec2, Ec, Hc, fmap_app, app_assoc|apply Hadd; congruence|].
      exists s. split_and!; [|right; by eexists|done]. apply prefix_app. rewrite fmap_take. apply prefix_take.
  - exists (add_command "blocked_targets" <$> take k (blocked s)). split_and!; [by rewrite Ec, Hc| |].
    + intros x Hx. apply (Hadd (take k (blocked s)) 0%nat); [congruence..|]. apply elem_of_app. by left.
    + exists s. split_and!; [|right; by eexists|done]. rewrite fmap_take. apply prefix_app_r, prefix_take.
Qed.

End enforcer.

(** ** Concrete runs *)
Definition demo_nets : list Ip.network :=
  match EgressGuard.blocked_networks EgressGuard.DEFAULT_BLOCKED_CIDRS with Ret l => l | Raise _ => [] end.
Definition demo_resolve (n : nat) (host : string) : outcome (list string) :=
  Ret (if bool_decide (host = "app.example.com") then ["203.0.113.7"; "203.0.113.6"]
       else if bool_decide (host = "rebind.example.com") then (if Nat.even n then ["203.0.113.9"] else ["169.254.169.254"])
       else if bool_decide (host = "meta.example.com") then ["169.254.169.254"] else []).
Definition demo_scope (inc exc : list string) : ScopeSnapshot :=
  mkScope "scope-1" "p" inc exc [443] Scope.default_limits "ana" 0 "d" [].
Definition demo_apply (inc exc : list string) : outcome Sets * World :=
  apply_scope FrozenScope.ascii_only demo_nets None demo_resolve (fun _ _ => Ret tt) (Some (fun _ _ => Ret tt)) (demo_scope inc exc)
    (mkWorld 0 [] []).

Example demo_run :
  let '(o, w) := demo_apply ["https://app.example.com:8443/x"; "rebind.example.com"; "meta.example.com"; "10.0.0.0/8"; "127.0.0.0/30"; "nowhere.example.com:80"] [] in
  o = Ret (mkSets ["203.0.113.6"; "203.0.113.7"; "10.0.0.0/8"] ["169.254.169.254"]
             ["rebind.example.com"; "meta.example.com"; "127.0.0.0/30"; "nowhere.example.com:80"])
  /\ commands w = [add_command "blocked_targets" "169.254.169.254"; add_command "allowed_targets" "203.0.113.6";
                   add_command "allowed_targets" "203.0.113.7"; add_command "allowed_targets" "10.0.0.0/8"]
  /\ call_action <$> audits w
     = ["egress.allowed"; "egress.allowed"; "egress.rejected_rebinding"; "egress.denied_blocked"; "egress.allowed";
        "egress.denied_blocked"; "egress.rejected_rebinding"].
Proof. vm_compute. done. Qed.

(** What the scope excludes is not looked at: an excluded address stays
    reachable inside an included network. *)
Example exclusions_are_not_pushed :
  (demo_apply ["10.0.0.0/24"] ["10.0.0.5"]).1 = Ret (mkSets ["10.0.0.0/24"] [] [])
  /\ Scope.includes_ip FrozenScope.ascii_only (demo_scope ["10.0.0.0/24"] ["10.0.0.5"]) "10.0.0.5" = Ret false.
Proof. vm_compute. done. Qed.

(** A wildcard entry is looked up as a host name and never reaches the sets. *)
Example wildcard_is_rejected : (demo_apply ["*.example.com"] []).1 = Ret (mkSets [] [] ["*.example.com"]).
Proof. vm_compute. done. Qed.

Lemma only_harmless_scope_is_allowed_witness :
  let w' := (demo_apply ["app.example.com"] []).2 in
  (forall x, add_command "allowed_targets" x ∈ commands w' -> harmless demo_nets x)
  /\ add_command "allowed_targets" "203.0.113.6" ∈ commands w'.
Proof.
  pose proof (only_harmless_scope_is_allowed FrozenScope.ascii_only demo_nets None demo_resolve (fun _ _ => Ret tt)
    (Some (fun _ _ => Ret tt)) EgressGuard.DEFAULT_BLOCKED_CIDRS ltac:(vm_compute; reflexivity)
    (demo_scope ["app.example.com"] []) (mkWorld 0 [] [])) as H.
  intros w'. split.
  - intros x Hx. subst w'. unfold demo_apply in Hx.
    destruct (apply_scope _ _ _ _ _ _ _ _) as [o w']. destruct H as (cs & Hc & H & _). cbn in Hc, Hx. rewrite Hc in Hx.
    rewrite list_fmap_id in Hx. by apply H.
  - vm_compute. left.
Defined.

End NftScope.
