(* ===== verification/Execution.v ===== *)
(** * Execution of an assessment

    Models [src/secopent/application/execution.py]: the composition of the
    assessment service, the permits, the scope enforcer and the egress guard,
    the orchestrator over the job store, finding correlation, the oracle, the
    coverage report and the audit.

    The executor runs while other parties call the assessment service (pause,
    cancel, resume, other assessments).  Every access it makes to the
    assessment repository is therefore preceded by whatever they did since
    its previous access, [api n] before the n-th; the step gate of the
    orchestrator is such an access too.  Optional collaborators are a
    [Wiring], as they are optional arguments in the code; the step runner, the
    firewall, the terminator, the clock and the source of nonces are outside.
    Steps run sequentially ([max_workers = 1]; Pool relates the thread pool
    to this). *)
From S2P Require Import Prelude PyStr PyTime PyFloat PyDict Sha256 Canonical PyJson Policy.
From S2P Require Import Assessments AssessmentService Jobs Orchestrator Net AuditTrail Scope.
From S2P Require Import Enforcer Contracts Verification Findings Oracle Permits Catalog Safety.

#[local] Open Scope Z_scope.

(** What a [step_runner_factory] builds: [run], as a function of the steps
    this runner has run so far, and [all_observations]. *)
Record Runner : Type := mkRunner {
  run_step : list PlanStep -> PlanStep -> run_result;
  all_observations : list PlanStep -> outcome (list Observation)
}.

Record OracleWiring : Type := mkOracleWiring {
  canary_token : nat -> string;
  method_registry : Verification.Registry;
  verifier_for : Finding -> VulnType -> outcome Verifier
}.

(** The packet filter: the elements [apply_scope] has added to the sets of
    the kernel when it returns or raises, and what [revoke] leaves of the sets
    when it returns or raises. *)
Record Nft : Type := mkNft {
  apply_scope : ScopeSnapshot -> list string * outcome unit;
  nft_revoke : list string -> list string * outcome unit
}.

Record Wiring : Type := mkWiring {
  catalog : option TestCatalog;
  asset_types : list AssetType;
  emergency_stop : option bool;
  permit_signer : option (string -> string);
  permit_registry : bool;
  permit_verifier : option (string -> string -> bool);
  scope_enforcer : option (string -> outcome (list string));
  egress_guard : option (json -> ScopeSnapshot -> outcome PolicyDecision);
  nft_scope_enforcer : option Nft;
  audit_outbox : option (AuditCall -> outcome unit);
  oracle : option OracleWiring;
  jobs_store : bool;
  cancel_terminator : option (string -> outcome Z)
}.

(** The repositories and services an execution works on.  [repo_accesses]
    counts the accesses to the assessment repository, [ticks] the readings of
    clock and nonces; [ran] lists every call of a step runner, newest first;
    [firewall] holds the elements of the kernel's sets and [nft_applied] is the
    local variable of that name. *)
Record World : Type := mkWorld {
  repo : Repo;
  repo_accesses : nat;
  ticks : nat;
  job_table : Jobs.Store;
  ran : list PlanStep;
  register : Revoker;
  records : OracleState;
  outbox_rows : list AuditCall;
  firewall : list string;
  nft_applied : bool
}.

(** Everything an execution is given or reaches outside the repositories it
    writes: the calls of other parties, the clock, the source of nonces, IDNA,
    what audit and finding repository accept, the scope repository, the step
    runner factory, the lease time of the job store, float division, and the
    optional collaborators. *)
Class Environment : Type := {
  api : nat -> Repo -> Repo;
  time : nat -> datetime;
  token_urlsafe : nat -> string;
  uni : Unicode;
  audit_ok : AuditCall -> outcome unit;
  exn_text : exn -> string;
  snapshots : string -> option ScopeSnapshot;
  step_runner_factory : ScopeSnapshot -> outcome Runner;
  finding_ok : Finding -> outcome unit;
  lease_ttl : Z;
  fdiv : Z -> Z -> PyFloat.lit;
  wiring : Wiring
}.

Module Execution.

Definition set_repo (r : Repo) (w : World) : World :=
  mkWorld r (S (repo_accesses w)) (ticks w) (job_table w) (ran w) (register w) (records w) (outbox_rows w)
    (firewall w) (nft_applied w).
Definition set_jobs (s : Jobs.Store) (w : World) : World :=
  mkWorld (repo w) (repo_accesses w) (ticks w) s (ran w) (register w) (records w) (outbox_rows w) (firewall w)
    (nft_applied w).
Definition add_ran (l : list PlanStep) (w : World) : World :=
  mkWorld (repo w) (repo_accesses w) (ticks w) (job_table w) (l ++ ran w) (register w) (records w) (outbox_rows w)
    (firewall w) (nft_applied w).
Definition set_register (r : Revoker) (w : World) : World :=
  mkWorld (repo w) (repo_accesses w) (ticks w) (job_table w) (ran w) r (records w) (outbox_rows w) (firewall w)
    (nft_applied w).
Definition set_records (o : OracleState) (w : World) : World :=
  mkWorld (repo w) (repo_accesses w) (ticks w) (job_table w) (ran w) (register w) o (outbox_rows w) (firewall w)
    (nft_applied w).
Definition add_outbox (c : AuditCall) (w : World) : World :=
  mkWorld (repo w) (repo_accesses w) (ticks w) (job_table w) (ran w) (register w) (records w) (outbox_rows w ++ [c])
    (firewall w) (nft_applied w).
Definition set_firewall (f : list string) (applied : bool) (w : World) : World :=
  mkWorld (repo w) (repo_accesses w) (ticks w) (job_table w) (ran w) (register w) (records w) (outbox_rows w) f applied.
Definition tick (w : World) : World :=
  mkWorld (repo w) (repo_accesses w) (S (ticks w)) (job_table w) (ran w) (register w) (records w) (outbox_rows w)
    (firewall w) (nft_applied w).

(** [except Exception]: everything the code can raise. *)
Definition any_exception (e : exn) : bool := true.
(** [contextlib.suppress(Exception)] *)
Definition suppress {S A} (m : M S A) : M S unit := try_exceptM (m;; mret tt) any_exception (fun _ => mret tt).

Section execution.
Context {env : Environment}.

Definition utc_now : M World datetime := fun w => (Ret (time (ticks w)), tick w).
Definition new_nonce : M World string := fun w => (Ret (token_urlsafe (ticks w)), tick w).

(** An access to the assessment repository. *)
Definition access {A} (m : M Repo A) : M World A := fun w =>
  let '(o, r) := m (api (repo_accesses w) (repo w)) in (o, set_repo r w).

Definition on_records {A} (m : M OracleState A) : M World A := fun w =>
  let '(o, s) := m (records w) in (o, set_records s w).

Definition update_register (f : Revoker -> Revoker) : M World unit :=
  if permit_registry wiring then modify (fun w => set_register (f (register w)) w) else mret tt.

Definition zero : PyFloat.lit := PyFloat.mkLit "0.0" eq_refl.

Definition compute_coverage (observations : list Observation) : PyFloat.lit * list string :=
  match catalog wiring, asset_types wiring, observations with
  | Some c, t :: _, _ :: _ =>
      match Coverage.compute t observations c with
      | Ret r => (fdiv (coverage_rate r).1 (coverage_rate r).2, uncovered_classes r)
      | Raise _ => (zero, [])
      end
  | _, _, _ => (zero, [])
  end.

(** No caller passes a permit nonce. *)
Definition audit_record (assessment_id action : string) (payload : list (string * json)) : M World unit :=
  let call := mkCall "system" action "assessment" assessment_id payload in
  match audit_outbox wiring with
  | Some outbox => lift (outbox call);; modify (add_outbox call)
  | None => on_records (OracleService.audit audit_ok call)
  end.

Definition issue_permit (assessment_id scope_digest plan_digest : string) : M World (option ExecutionPermit) :=
  match permit_signer wiring with
  | None => mret None
  | Some sign =>
      now ← utc_now;
      nonce_ ← new_nonce;
      unsigned ← lift (Permits.check_permit
        (mkPermit assessment_id "adapter-executor" scope_digest plan_digest [] (flt "0.0") now
           (now + Permits.DEFAULT_PERMIT_TTL_SECONDS * PyTime.second) nonce_ ""));
      permit ← lift (Permits.issue sign unsigned);
      update_register (PermitRevoker.record_issued (nonce permit) false);;
      mret (Some permit)
  end.

(** [audit_chain.permit_nonces()], empty without a chain *)
Definition used_nonces (w : World) : gset string :=
  match chain_log (records w) with
  | Some l => list_to_set (omap (fun c => py_str <$> field "permit_nonce" (call_payload c)) l)
  | None => ∅
  end.

(** The assessment is marked FAILED and the refusal audited. *)
Definition block (assessment_id reason action : string) (payload : list (string * json)) : M World unit :=
  access (AssessmentService.fail assessment_id reason);;
  audit_record assessment_id action payload.

Definition verify_permit (permit : option ExecutionPermit) (assessment_id : string) : M World (option bool) :=
  match permit_verifier wiring, permit with
  | Some sig_ok, Some p =>
      used ← gets used_nonces;
      now ← utc_now;
      match Permits.verify sig_ok p now used (Some "adapter-executor") with
      | Ret _ => update_register (PermitRevoker.record_used (nonce p));; mret (Some true)
      | Raise e =>
          if is_domain_error e
          then block assessment_id ("PERMIT_INVALID:" +:+ exn_text e) "assessment.blocked.permit_invalid"
                 [("reason", JStr (exn_text e))];;
               mret None
          else raise e
      end
  | _, _ => mret (Some true)
  end.

Definition record_permit_nonce (assessment_id : string) (permit : option ExecutionPermit) : M World unit :=
  match permit with
  | Some p => fun w =>
      let call := mkCall "system" "permit.used" "permit" assessment_id
                    [("job_id", JStr assessment_id); ("permit_nonce", JStr (nonce p))] in
      match chain_log (records w) with
      | None => (Ret tt, w)
      | Some l =>
          (lift (audit_ok call);;
           modify (fun w => set_records
             (mkOracleState (canary (records w)) (audit_log (records w)) (Some (l ++ [call]))
                (finding_rows (records w)) (confirmed_rows (records w))) w)) w
      end
  | None => mret tt
  end.

(** *** The pre-check of the targets *)

(** A network in [scope.include] is a boundary, not a target. *)
Definition is_network (target : string) : bool := PyStr.has_char "/" target && negb (Normalize.is_http target).

Definition step_targets (steps : list PlanStep) : list json :=
  List.filter truthy_json (omap (fun s => field "target" (parameters s)) steps).

(** [target not in targets], for a text *)
Definition is_text (t : string) (v : json) : bool := match v with JStr s => String.eqb s t | _ => false end.

Fixpoint add_includes (targets : list json) (l : list string) : list json :=
  match l with
  | [] => targets
  | t :: r =>
      if is_network t then add_includes targets r
      else add_includes (if existsb (is_text t) targets then targets else targets ++ [JStr t]) r
  end.

Definition plan_targets (plan : ExecutionPlan) (scope : ScopeSnapshot) : list json :=
  add_includes (step_targets (steps plan)) (include scope).

(** The enforcer starts by calling a string method on the target. *)
Definition target_text (t : json) : outcome string :=
  match t with JStr s => Ret s | _ => Raise (AttributeError (no_attribute t "startswith")) end.

Definition approved_context (now : datetime) (permit_ok : bool) : EnforcementContext :=
  mkEnforcement RiskClass.PASSIVE {[RiskClass.PASSIVE]} true (flt "1.0") now None permit_ok.

Definition enforce (resolve : string -> outcome (list string)) (t : json) (scope : ScopeSnapshot) (now : datetime)
    (permit_ok : bool) : outcome PolicyDecision :=
  s ← target_text t; ScopeEnforcer.check uni resolve s scope (approved_context now permit_ok).

Definition check_egress (t : json) (scope : ScopeSnapshot) (assessment_id : string) : M World bool :=
  match egress_guard wiring with
  | None => mret true
  | Some guard =>
      d ← lift (guard t scope);
      if allowed d then mret true
      else block assessment_id ("EGRESS_DENIED:" +:+ reason d) "assessment.blocked.egress_denied"
             [("target", t); ("reason", JStr (reason d))];;
           mret false
  end.

Definition check_scope (t : json) (scope : ScopeSnapshot) (permit_ok : bool) (assessment_id : string) : M World bool :=
  match scope_enforcer wiring with
  | None => mret true
  | Some resolve =>
      now ← utc_now;
      d ← lift (enforce resolve t scope now permit_ok);
      if allowed d then mret true
      else block assessment_id ("SCOPE_VIOLATION:" +:+ reason d) "assessment.blocked.scope_violation"
             [("target", t); ("reason", JStr (reason d))];;
           mret false
  end.

Fixpoint check_targets (l : list json) (scope : ScopeSnapshot) (permit_ok : bool) (assessment_id : string)
  : M World bool :=
  match l with
  | [] => mret true
  | t :: r =>
      e ← check_egress t scope assessment_id;
      if negb e then mret false
      else
        s ← check_scope t scope permit_ok assessment_id;
        if negb s then mret false else check_targets r scope permit_ok assessment_id
  end.

Definition check_plan_scope (plan : ExecutionPlan) (scope : ScopeSnapshot) (permit_ok : bool) (assessment_id : string)
  : M World bool :=
  match scope_enforcer wiring, egress_guard wiring with
  | None, None => mret true
  | _, _ => check_targets (plan_targets plan scope) scope permit_ok assessment_id
  end.

(** *** The drain *)

Definition with_control (c : ControlState) (a : Assessment) : Assessment :=
  mkAssessment (id a) (project_id a) (scope_snapshot_id a) (mode a) (status a) (active_plan_id a) (approval_id a) c.

(** The closure of [_make_control_gate] *)
Definition control_gate (assessment_id : string) : M Repo (option string) :=
  r ← get;
  match assessments r !! assessment_id with
  | None => mret (Some "cancelled")
  | Some current =>
      match control current with
      | ControlState.NONE => mret None
      | signal =>
          modify (repo_add (with_control ControlState.NONE current));;
          mret (match signal with
                | ControlState.PAUSE_REQUESTED => Some "paused"
                | ControlState.CANCEL_REQUESTED => Some "cancelled"
                | _ => None
                end)
      end
  end.

(** The world after the gate was asked [n] times, and its next answer. *)
Fixpoint gated (assessment_id : string) (w : World) (n : nat) : World :=
  match n with
  | O => w
  | S n' => (access (control_gate assessment_id) (gated assessment_id w n')).2
  end.

Definition gate_answer (assessment_id : string) (w : World) (n : nat) : option string :=
  match (access (control_gate assessment_id) (gated assessment_id w n)).1 with
  | Ret d => d
  | Raise _ => None
  end.

(** Dispatch and drain; also answers the steps this runner ran. *)
Definition run_jobs (assessment_id : string) (plan : ExecutionPlan) (runner : Runner) (now : datetime)
  : M World (string * list PlanStep) := fun w =>
  let '(res, o) :=
    (Orchestrator.dispatch plan;;
     Orchestrator.run_to_completion lease_ttl (run_step runner) (Some (gate_answer assessment_id w)) "system" now 100)
      (mkOrch (job_table w) [] [] 0) in
  (match res with Ret s => Ret (s, calls o) | Raise e => Raise e end,
   add_ran (calls o) (set_jobs (store o) (gated assessment_id w (gate_calls o)))).

(** Without a shared store the run gets one of its own. *)
Definition drain (assessment_id : string) (plan : ExecutionPlan) (runner : Runner)
  : M World (string * list PlanStep) :=
  modify (fun w => if jobs_store wiring then w else set_jobs [] w);;
  now ← utc_now;
  run_jobs assessment_id plan runner now.

Definition unfinished : list JobStatus := [JobStatus.READY; JobStatus.BLOCKED; JobStatus.PENDING; JobStatus.LEASED].

Fixpoint skip_all (l : list Job) : M Jobs.Store unit :=
  match l with
  | [] => mret tt
  | j :: r =>
      (if bool_decide (job_status j ∈ unfinished) then JobService.skip (job_id j);; mret tt else mret tt);;
      skip_all r
  end.

Definition on_jobs {A} (m : M Jobs.Store A) : M World A := fun w =>
  let '(o, s) := m (job_table w) in (o, set_jobs s w).

Definition handle_cancelled (assessment_id : string) : M World unit :=
  on_jobs (l ← JobService.all; skip_all l);;
  terminated ← match cancel_terminator wiring with
               | None => mret 0
               | Some terminate =>
                   match terminate assessment_id with
                   | Ret n => mret n
                   | Raise e => audit_record assessment_id "assessment.cancel.termination_failed"
                                  [("reason", JStr (exn_text e))];; mret 0
                   end
               end;
  audit_record assessment_id "assessment.cancelled" [("actual", JBool true); ("terminated_containers", JInt terminated)].

Definition with_assessment (assessment_id : string) (f : Finding) : Finding :=
  mkFinding (fd_id f) (fingerprint f) (fd_title f) (fd_asset f) (fd_severity f) (fd_cwe f) (fd_cve f)
    (fd_owasp f) (fd_observation_ids f) (fd_evidence_ids f) (fd_status f) assessment_id (oracle_verdict f).

(** [finding_repo.add]; [replace] runs the checks of [Finding] again. *)
Definition store_finding (assessment_id : string) (f : Finding) : M World unit :=
  g ← lift (Findings.check_finding (with_assessment assessment_id f));
  lift (finding_ok g);;
  on_records (OracleService.add_finding g).

Definition oracle_pass (assessment_id : string) (findings : list Finding) : M World unit :=
  match oracle wiring, findings with
  | Some o, _ :: _ =>
      try_exceptM
        (now ← utc_now;
         sum ← on_records (OracleService.verify_findings (canary_token o) audit_ok (method_registry o) (verifier_for o)
                             exn_text "system" now findings);
         audit_record assessment_id "oracle.batch_verified"
           [("confirmed", JInt (s_confirmed sum)); ("refuted", JInt (s_refuted sum));
            ("inconclusive", JInt (s_inconclusive sum)); ("skipped", JInt (s_skipped sum));
            ("failed", JInt (s_failed sum))])
        any_exception
        (fun e => audit_record assessment_id "oracle.batch_failed" [("reason", JStr (exn_text e))])
  | _, _ => mret tt
  end.

Definition finalize_execution (assessment_id : string) (runner : Runner) (calls : list PlanStep) : M World unit :=
  observations ← lift (all_observations runner calls);
  findings ← lift (FindingCorrelation.correlate observations);
  l ← on_jobs JobService.all;
  let succeeded_steps := length (List.filter (fun j => bool_decide (job_status j = JobStatus.SUCCEEDED)) l) in
  if bool_decide (findings = []) && bool_decide (succeeded_steps = 0%nat) then
    block assessment_id "EMPTY_EXECUTION:no plan step succeeded, 0 findings" "assessment.completed.empty_execution"
      [("coverage_rate", JFloat zero); ("reason", JStr "zero successful plan steps, zero findings")]
  else
    mapM_state (store_finding assessment_id) findings;;
    oracle_pass assessment_id findings;;
    access (AssessmentService.complete assessment_id);;
    let '(rate, uncovered) := compute_coverage observations in
    audit_record assessment_id "assessment.completed"
      [("findings", JInt (Z.of_nat (length findings))); ("coverage_rate", JFloat rate);
       ("uncovered_classes", JArr (JStr <$> uncovered));
       ("no_observations", if bool_decide (length observations = 0%nat) then JBool true else JNull)].

(** Plan and scope of an assessment, as both entry points load them. *)
Definition load_plan (assessment_id : string) : M World (ExecutionPlan * ScopeSnapshot) :=
  a ← access (gets (fun r => assessments r !! assessment_id));
  '(a, pid) ← lift (unwrap (a0 ← a; pid ← active_plan_id a0; Some (a0, pid))
    (ExecutionStateError ("assessment missing or has no active plan: " +:+ assessment_id)));
  plan ← access (gets (fun r => plans r !! pid));
  plan ← lift (unwrap plan (ExecutionStateError ("plan not found: " +:+ pid)));
  scope ← lift (unwrap (snapshots (scope_snapshot_id a))
    (ExecutionStateError ("scope snapshot not found: " +:+ scope_snapshot_id a)));
  mret (plan, scope).

Definition apply_firewall (assessment_id : string) (scope : ScopeSnapshot) : M World unit :=
  match nft_scope_enforcer wiring with
  | None => mret tt
  | Some nft =>
      let '(added, res) := apply_scope nft scope in
      modify (fun w => set_firewall (firewall w ++ added) (nft_applied w) w);;
      match res with
      | Ret _ => modify (fun w => set_firewall (firewall w) true w)
      | Raise e => audit_record assessment_id "egress.hardening_unavailable" [("reason", JStr (exn_text e))]
      end
  end.

(** What follows the drain, for each of its answers. *)
Definition conclude (assessment_id : string) (runner : Runner) (answer : string * list PlanStep) (on_completed : M World unit)
  : M World unit :=
  if bool_decide (answer.1 = "cancelled") then handle_cancelled assessment_id
  else if bool_decide (answer.1 = "paused") then audit_record assessment_id "assessment.paused" [("actual", JBool true)]
  else on_completed;; finalize_execution assessment_id runner answer.2.

(** The [try] block of [execute_assessment] from the loaded plan on. *)
Definition run_plan (assessment_id : string) (plan : ExecutionPlan) (scope : ScopeSnapshot) : M World unit :=
  permit ← issue_permit assessment_id (sc_digest scope) (plan_digest plan);
  permit_valid ← verify_permit permit assessment_id;
  match permit_valid with
  | None => mret tt
  | Some permit_ok =>
      record_permit_nonce assessment_id permit;;
      audit_record assessment_id "assessment.started"
        (match permit with Some p => [("permit_nonce", JStr (nonce p))] | None => [] end);;
      ok ← check_plan_scope plan scope permit_ok assessment_id;
      if negb ok then mret tt
      else
        apply_firewall assessment_id scope;;
        runner ← lift (step_runner_factory scope);
        answer ← drain assessment_id plan runner;
        conclude assessment_id runner answer (mret tt)
  end.

Definition execute_body (assessment_id : string) : M World unit :=
  access (AssessmentService.mark_running assessment_id);;
  if bool_decide (emergency_stop wiring = Some true) then
    block assessment_id "EMERGENCY_STOP_TRIGGERED" "assessment.blocked.emergency_stop"
      [("reason", JStr "emergency_stop_triggered")]
  else
    '(plan, scope) ← load_plan assessment_id;
    run_plan assessment_id plan scope.

(** [nft_scope_enforcer.revoke()] *)
Definition revoke_rules (nft : Nft) : M World unit := fun w =>
  let '(kept, res) := nft_revoke nft (firewall w) in (res, set_firewall kept (nft_applied w) w).

(** The [finally] clause *)
Definition flush_firewall : M World unit := fun w =>
  match nft_scope_enforcer wiring with
  | Some nft => if nft_applied w then suppress (revoke_rules nft) w else (Ret tt, w)
  | None => (Ret tt, w)
  end.

Definition finally {A} (m : M World A) (last : M World unit) : M World A := fun w =>
  let '(o, w1) := m w in
  match last w1 with
  | (Ret _, w2) => (o, w2)
  | (Raise e, w2) => (Raise e, w2)
  end.

Definition execute_assessment (assessment_id : string) : M World unit :=
  modify (fun w => set_firewall (firewall w) false w);;
  finally
    (try_exceptM (execute_body assessment_id) any_exception
       (fun e => suppress (access (AssessmentService.fail assessment_id (exn_text e)));;
                 audit_record assessment_id "assessment.failed" [("reason", JStr (exn_text e))]))
    flush_firewall.

Definition resume_assessment (assessment_id : string) : M World unit :=
  '(plan, scope) ← load_plan assessment_id;
  runner ← lift (step_runner_factory scope);
  answer ← drain assessment_id plan runner;
  conclude assessment_id runner answer
    (audit_record assessment_id "assessment.resumed" [("actual", JBool true)]).

End execution.
End Execution.
