(* ===== verification/ExecutionFacts.v ===== *)
(** * What an execution may do

    The theorems about [Execution]: how the assessment repository evolves
    under service calls and executors together, what was authorised before
    any step runs, and how every execution ends. *)
From S2P Require Import Prelude PyStr PyTime PyFloat PyDict Sha256 Canonical PyJson Policy.
From S2P Require Import Assessments AssessmentService Jobs Orchestrator Net AuditTrail Scope.
From S2P Require Import Enforcer Contracts Verification Findings Oracle Permits Catalog Safety Execution.

#[local] Open Scope Z_scope.

Import Execution.

(** ** The repository under calls and executors *)
Module System.
Import AssessmentService.

(** Any call of the service, or any executor reading the control signal. *)
Inductive sys_step (r : Repo) : Repo -> Prop :=
| sys_call r' : step (Scope:=ScopeSnapshot) r r' -> sys_step r r'
| sys_gate k : sys_step r (control_gate k r).2.

Definition reachable : Repo -> Prop := rtc sys_step empty_repo.

Lemma gate_cases k r :
  (control_gate k r).2 = r
  \/ exists a, assessments r !! k = Some a /\ (control_gate k r).2 = repo_add (with_control ControlState.NONE a) r.
Proof.
  unfold control_gate, get, modify, mbind, M_bind, mret, M_ret.
  destruct (assessments r !! k) as [a|]; [|by left]. destruct (control a); cbn; eauto.
Qed.

(** [r'] comes after [r]: plans and approvals stay, an assessment past
    approval keeps them and its scope. *)
Record later (r r' : Repo) : Prop := {
  later_plans : plans r ⊆ plans r';
  later_approvals : approvals r ⊆ approvals r';
  later_past k a : assessments r !! k = Some a -> past_approval (status a) = true ->
    exists a', assessments r' !! k = Some a' /\ past_approval (status a') = true
      /\ active_plan_id a' = active_plan_id a /\ approval_id a' = approval_id a
      /\ scope_snapshot_id a' = scope_snapshot_id a
}.

#[export] Instance later_preorder : PreOrder later.
Proof.
  split; [intros r; split; [done..|eauto 8]|]. intros r1 r2 r3 [H1 H2 H3] [H4 H5 H6]. split; [by etrans..|].
  intros k a Ha Hp. destruct (H3 k a Ha Hp) as (b & Hb & Hpb & E1 & E2 & E3).
  destruct (H6 k b Hb Hpb) as (c & Hc & Hpc & E4 & E5 & E6). exists c. split_and!; congruence.
Qed.

Lemma effect_later r r' : wf r -> effect r r' -> later r r'.
Proof.
  intros Hw He. destruct (effect_mono _ _ He) as [H1 H2]. split; [done..|]. intros k a Ha Hp.
  destruct (effect_evolves _ _ k a Hw He Ha) as (a' & Ha' & Hcase). exists a'. split; [done|].
  destruct (effect_lookup _ _ _ _ Hw He Ha') as [E|[(E&_)|(b & Hb & _ & _ & Esc & _)]]; simplify_eq; [done|].
  destruct Hcase as [->|[Hall Hfix]]; [done|]. destruct (Hfix Hp) as [E1 E2]. split_and!; [|done..].
  revert Hall Hp. clear. destruct (status a), (status a'); cbn; try done; set_solver.
Qed.

Lemma gate_step r k : wf r -> wf (control_gate k r).2 /\ later r (control_gate k r).2.
Proof.
  intros Hw. destruct (gate_cases k r) as [->|(a & Ha & ->)]; [done|].
  pose proof (wf_id _ Hw _ _ Ha) as Hid.
  assert (Hl : forall k' b, <[id (with_control ControlState.NONE a) := with_control ControlState.NONE a]> (assessments r) !! k'
                = Some b -> exists c, assessments r !! k' = Some c /\ id b = id c /\ status b = status c /\ mode b = mode c
                  /\ active_plan_id b = active_plan_id c /\ approval_id b = approval_id c /\ scope_snapshot_id b = scope_snapshot_id c).
  { intros k' b [[<- <-]|[_ Hb]]%lookup_insert_Some; [|by exists b]. exists a. cbn. rewrite Hid. done. }
  split.
  - split; cbn.
    + intros k' b (c & Hc & -> & _)%Hl. by eapply wf_id.
    + intros pid p Hp. by eapply wf_plan.
    + intros k' b (c & Hc & _ & -> & _ & -> & -> & _)%Hl. by eapply wf_draft.
    + intros k' b (c & Hc & _ & -> & _ & -> & _)%Hl. by eapply wf_active.
    + intros k' b (c & Hc & _ & -> & Em & Ep & Eq & _)%Hl Hpa.
      pose proof (wf_bound _ Hw _ _ Hc Hpa) as Hb. unfold bound_approval in *. cbn. by rewrite Em, Ep, Eq.
  - split; [done..|]. cbn. intros k' b Hb Hp. rewrite Hid. destruct (decide (k = k')) as [<-|Hne].
    + rewrite lookup_insert_eq. eexists. split; [done|]. cbn. by simplify_eq.
    + rewrite lookup_insert_ne by done. by exists b.
Qed.

Lemma sys_step_later r r' : wf r -> sys_step r r' -> wf r' /\ later r r'.
Proof.
  intros Hw [r1 H|k]; [|by apply gate_step]. apply step_effect in H.
  split; [by eapply effect_wf|by apply effect_later].
Qed.

Lemma sys_steps_later r r' : wf r -> rtc sys_step r r' -> wf r' /\ later r r'.
Proof.
  intros Hw Hs. revert Hw. induction Hs as [r|r r1 r' H _ IH]; intros Hw; [done|].
  destruct (sys_step_later _ _ Hw H) as [Hw1 H1]. destruct (IH Hw1) as [Hw' H']. split; [done|]. by etrans.
Qed.

Lemma system_wf r : reachable r -> wf r.
Proof. intros H. by apply (sys_steps_later empty_repo); [apply wf_empty|]. Qed.

(** No signal waits for an assessment that has not started. *)
Definition not_started (s : AssessmentStatus) : Prop :=
  s ∈ [AssessmentStatus.DRAFT; AssessmentStatus.AWAITING_APPROVAL; AssessmentStatus.APPROVED; AssessmentStatus.QUEUED].
Definition unsignalled (r : Repo) : Prop :=
  forall k a, assessments r !! k = Some a -> not_started (status a) -> control a = ControlState.NONE.

Lemma effect_unsignalled r r' : wf r -> effect r r' -> unsignalled r -> unsignalled r'.
Proof.
  intros Hw He Hu k a' H' Hs.
  destruct (effect_lookup _ _ _ _ Hw He H') as [H|[(_&_&_&_&_&E)|(a&Ha&_&_&_&Ht&Hcase)]]; [by eapply Hu|done|].
  assert (Hs' : not_started (status a)) by (revert Ht Hs; unfold not_started; destruct (status a), (status a'); cbn; set_solver).
  specialize (Hu _ _ Ha Hs'). destruct Hcase as [(_&E&_)|[(_&E&_)|(Hc&_)]]; [congruence..|].
  destruct Hc as [[_ ->]|[[E _]|[[E _]|[E _]]]]; [done|..]; rewrite E in Hs; unfold not_started in Hs; set_solver.
Qed.

Lemma system_unsignalled r : reachable r -> unsignalled r.
Proof.
  intros H. assert (Hu : wf empty_repo /\ unsignalled empty_repo).
  { split; [apply wf_empty|]. intros k a Ha. cbn in Ha. by rewrite lookup_empty in Ha. }
  revert Hu. induction H as [r|r r1 r' Hst _ IH]; intros [Hw Hu]; [done|]. apply IH.
  split; [by apply (sys_step_later r)|]. destruct Hst as [r1 Hst|k].
  - apply step_effect in Hst. by eapply effect_unsignalled.
  - destruct (gate_cases k r) as [->|(a & Ha & ->)]; [done|]. intros k' b. cbn.
    intros [[<- <-]|[_ Hb]]%lookup_insert_Some; [done|]. by eapply Hu.
Qed.

(** What a plan needs to be executed for assessment [k], in repository [r]. *)
Definition loaded (snapshots : string -> option ScopeSnapshot) (r : Repo) (k : string) (p : ExecutionPlan)
    (scope : ScopeSnapshot) : Prop :=
  exists a pid, assessments r !! k = Some a /\ past_approval (status a) = true
    /\ active_plan_id a = Some pid /\ plans r !! pid = Some p /\ snapshots (scope_snapshot_id a) = Some scope.

Lemma loaded_later snapshots r r' k p scope :
  later r r' -> loaded snapshots r k p scope -> loaded snapshots r' k p scope.
Proof.
  intros Hl (a & pid & Ha & Hp & Hpid & Hpl & Hs).
  destruct (later_past _ _ Hl _ _ Ha Hp) as (a' & Ha' & Hp' & E1 & _ & E3). exists a', pid.
  split_and!; [done..|congruence|eapply lookup_weaken; [done|apply Hl]|congruence].
Qed.

(** Such a plan was approved: the stored approval signs its digest. *)
Lemma loaded_approved snapshots r k p scope :
  wf r -> loaded snapshots r k p scope ->
  exists a q ap, assessments r !! k = Some a /\ approval_id a = Some q /\ approvals r !! q = Some ap
    /\ approval_assessment_id ap = k /\ approval_mode ap = mode a
    /\ approval_plan_digest ap = Canonical.canonical_digest (Plan.payload k 1 (steps p)) /\ Plan.plan_wf (steps p).
Proof.
  intros Hw (a & pid & Ha & Hp & Hpid & Hpl & _).
  destruct (wf_bound _ Hw _ _ Ha Hp) as (pid' & p' & q & ap & Ep & Hpl' & Eq & Hap & Hk & Hd & Hm & _).
  destruct (wf_active _ Hw _ _ Ha) as (pid2 & p2 & Ea & Hpl2 & Hk2); [intros E; by rewrite E in Hp|].
  simplify_eq. destruct (wf_plan _ Hw _ _ Hpl) as (_ & _ & Hwf & Hdig).
  exists a, q, ap. split_and!; congruence.
Qed.

End System.

(** ** Which steps a drain runs *)
Section drained.
Context (ttl : Z) (runner : list PlanStep -> PlanStep -> run_result) (gate : option (nat -> option string))
        (owner : string) (now : datetime) (P : list PlanStep).

Definition within (o : Orch) : Prop :=
  (forall s, s ∈ calls o -> s ∈ P) /\ (forall k s, (k, s) ∈ step_map o -> s ∈ P).

Lemma on_store_within {A} (m : M Jobs.Store A) : preserves within (Orchestrator.on_store m).
Proof. intros o Ho. unfold Orchestrator.on_store. by destruct (m (store o)). Qed.

Lemma execute_within j s : s ∈ P -> preserves within (Orchestrator.execute ttl runner owner now j s).
Proof.
  intros Hs. unfold Orchestrator.execute.
  apply preserves_bind; [apply on_store_within|]. intros l. apply preserves_bind; [|intros r; apply on_store_within].
  intros o [H1 H2]. split; cbn; [|done]. intros t [->|Ht]%elem_of_cons; auto.
Qed.

Lemma check_gate_within : preserves within (Orchestrator.check_gate gate).
Proof. intros o Ho. unfold Orchestrator.check_gate. by destruct gate. Qed.

Lemma run_targets_within ts : (forall j s, (j, s) ∈ ts -> s ∈ P) -> preserves within (Orchestrator.run_targets ttl runner gate owner now ts).
Proof.
  induction ts as [|[j s] ts IH]; intros Hts; cbn [Orchestrator.run_targets]; [apply preserves_ret|].
  apply preserves_bind; [apply check_gate_within|]. intros _.
  apply preserves_bind; [apply execute_within, (Hts j); left|]. intros r.
  apply preserves_bind; [apply IH; intros ? ? ?; eapply Hts; by right|]. intros rs. apply preserves_ret.
Qed.

Lemma execute_ready_within : preserves within (Orchestrator.execute_ready ttl runner gate owner now).
Proof.
  unfold Orchestrator.execute_ready. apply preserves_bind; [apply on_store_within|]. intros l o Ho.
  unfold get, mbind at 1, M_bind at 1. cbv beta iota.
  refine (preserves_bind within _ _ (run_targets_within _ _) _ o Ho).
  - intros j s (j0 & _ & H)%list_elem_of_omap. apply fmap_Some in H as (s0 & Hg & [= -> ->]).
    apply PyDict.get_mem in Hg. by eapply Ho.
  - intros rs. apply preserves_bind; [apply on_store_within|]. intros _. apply preserves_ret.
Qed.

Lemma run_to_completion_within n : preserves within (Orchestrator.run_to_completion ttl runner gate owner now n).
Proof.
  induction n as [|n IH]; [apply preserves_ret|]. intros o Ho. cbn [Orchestrator.run_to_completion].
  pose proof (execute_ready_within o Ho) as H.
  destruct (Orchestrator.execute_ready ttl runner gate owner now o) as [[[|j l]|e] o']; cbn in H; [done|by apply IH|].
  by destruct e.
Qed.

Lemma dispatch_within plan : (forall s, s ∈ steps plan -> s ∈ P) -> preserves within (Orchestrator.dispatch plan).
Proof.
  unfold Orchestrator.dispatch. induction (steps plan) as [|s l IH]; intros Hl; [apply preserves_ret|].
  cbn [mapM_state]. apply preserves_bind.
  - apply preserves_bind; [apply on_store_within|]. intros j. apply preserves_bind; [|intros _; apply preserves_ret].
    intros o [H1 H2]. split; [done|]. cbn. intros k t [->|Ht]%PyDict.set_mem; [apply Hl; left|by eapply H2].
  - intros j. apply preserves_bind; [apply IH; intros t Ht; apply Hl; by right|]. intros js. apply preserves_ret.
Qed.
End drained.

Lemma drained_calls ttl runner gate owner now n plan st s :
  s ∈ calls ((Orchestrator.dispatch plan;; Orchestrator.run_to_completion ttl runner gate owner now n) (mkOrch st [] [] 0)).2 ->
  s ∈ steps plan.
Proof.
  revert s. refine (proj1 (preserves_bind (within (steps plan)) _ _ (dispatch_within _ plan _)
    (fun _ => run_to_completion_within ttl runner gate owner now (steps plan) n) (mkOrch st [] [] 0) _)); [done|].
  split; cbn; [intros s Hs|intros k s Hs]; by apply elem_of_nil in Hs.
Qed.

Section facts.
Context {env : Environment}.

(** ** Executors among other callers *)

(** What the others do between two accesses: calls of the service, and
    executors of their own reading signals. *)
Class LawfulCallers : Prop := callers_lawful n r : rtc System.sys_step r (api n r).

Section among_callers.
Context {Hcallers : LawfulCallers}.

(** The world moved on, and no step was run. *)
Definition quiet (w w' : World) : Prop := rtc System.sys_step (repo w) (repo w') /\ ran w' = ran w.
Definition runs_nothing {A} (m : M World A) : Prop := forall w, quiet w (m w).2.

#[local] Instance quiet_preorder : PreOrder quiet.
Proof.
  split; [done|]. intros w1 w2 w3 [H1 E1] [H2 E2]. split; [by etrans|congruence].
Qed.

Lemma runs_nothing_bind {A B} (m : M World A) (f : A -> M World B) :
  runs_nothing m -> (forall a, runs_nothing (f a)) -> runs_nothing (m ≫= f).
Proof.
  intros Hm Hf w. unfold mbind, M_bind. specialize (Hm w). destruct (m w) as [[a|e] w1]; cbn in *; [|done].
  etrans; [exact Hm|apply Hf].
Qed.

Lemma runs_nothing_same {A} (m : M World A) :
  (forall w, repo (m w).2 = repo w /\ ran (m w).2 = ran w) -> runs_nothing m.
Proof. intros H w. destruct (H w) as [E1 E2]. split; [by rewrite E1|done]. Qed.

Lemma runs_nothing_ret {A} (a : A) : runs_nothing (mret a).
Proof. by intros w. Qed.
Lemma runs_nothing_lift {A} (o : outcome A) : runs_nothing (lift o).
Proof. by intros w. Qed.
Lemma runs_nothing_raise {A} e : runs_nothing (A:=A) (raise e).
Proof. by intros w. Qed.
Lemma runs_nothing_gets {A} (f : World -> A) : runs_nothing (gets f).
Proof. by intros w. Qed.

Lemma runs_nothing_try {A} (m : M World A) c h :
  runs_nothing m -> (forall e, runs_nothing (h e)) -> runs_nothing (try_exceptM m c h).
Proof.
  intros Hm Hh w. unfold try_exceptM. specialize (Hm w). destruct (m w) as [[a|e] w1]; cbn in *; [done|].
  destruct (c e); [|done]. etrans; [exact Hm|apply Hh].
Qed.

Lemma runs_nothing_mapM {A B} (f : A -> M World B) l : (forall a, runs_nothing (f a)) -> runs_nothing (mapM_state f l).
Proof.
  intros Hf. induction l as [|x l IH]; [apply runs_nothing_ret|]. cbn [mapM_state].
  apply runs_nothing_bind; [done|]. intros y. apply runs_nothing_bind; [done|]. intros ys. apply runs_nothing_ret.
Qed.

(** An access that is a call of the service, a read, or the step gate. *)
Lemma runs_nothing_access {A} (m : M Repo A) :
  (forall r, rtc System.sys_step r (m r).2) -> runs_nothing (access m).
Proof.
  intros Hm w. unfold access. pose proof (callers_lawful (repo_accesses w) (repo w)) as H1.
  specialize (Hm (api (repo_accesses w) (repo w))). destruct (m _) as [o r]; cbn in *.
  split; [by etrans|done].
Qed.

Lemma move_step t k r : t ∈ [AssessmentStatus.RUNNING; AssessmentStatus.COMPLETED; AssessmentStatus.FAILED] ->
  rtc System.sys_step r (AssessmentService.move t k r).2.
Proof.
  intros Ht. apply rtc_once, System.sys_call.
  assert (E : exists o, AssessmentService.fresh (Scope:=ScopeSnapshot) o r
              /\ AssessmentService.run o r = AssessmentService.forget (AssessmentService.move t k) r).
  { repeat apply elem_of_cons in Ht as [->|Ht]; [| | |by apply elem_of_nil in Ht].
    - by exists (AssessmentService.MarkRunning k).
    - by exists (AssessmentService.Complete k).
    - by exists (AssessmentService.FailRun k ""). }
  destruct E as (o & Ho & E). pose proof (AssessmentService.step_op r o Ho) as H. rewrite E in H.
  revert H. unfold AssessmentService.forget, mbind, M_bind. by destruct (AssessmentService.move t k r) as [[a|e] r'].
Qed.

Lemma runs_nothing_move t k :
  t ∈ [AssessmentStatus.RUNNING; AssessmentStatus.COMPLETED; AssessmentStatus.FAILED] ->
  runs_nothing (access (AssessmentService.move t k)).
Proof. intros Ht. apply runs_nothing_access. intros r. by apply move_step. Qed.

Lemma runs_nothing_read {A} (f : Repo -> A) : runs_nothing (access (gets f)).
Proof. apply runs_nothing_access. by intros r. Qed.

Lemma runs_nothing_records {A} (m : M OracleState A) : runs_nothing (on_records m).
Proof. apply runs_nothing_same. intros w. unfold on_records. by destruct (m (records w)). Qed.

Lemma runs_nothing_jobs {A} (m : M Jobs.Store A) : runs_nothing (on_jobs m).
Proof. apply runs_nothing_same. intros w. unfold on_jobs. by destruct (m (job_table w)). Qed.

Lemma runs_nothing_register f : runs_nothing (update_register f).
Proof. apply runs_nothing_same. intros w. unfold update_register. by destruct (permit_registry wiring). Qed.

Lemma runs_nothing_clock : runs_nothing utc_now.
Proof. by intros w. Qed.
Lemma runs_nothing_nonce : runs_nothing new_nonce.
Proof. by intros w. Qed.

#[local] Hint Resolve runs_nothing_ret runs_nothing_lift runs_nothing_raise runs_nothing_gets runs_nothing_try
  runs_nothing_mapM runs_nothing_read runs_nothing_records runs_nothing_jobs runs_nothing_register runs_nothing_clock
  runs_nothing_nonce : runs.
#[local] Hint Extern 2 (runs_nothing (access (AssessmentService.fail _ _))) => (apply runs_nothing_move; set_solver) : runs.
#[local] Hint Extern 2 (runs_nothing (access (AssessmentService.complete _))) => (apply runs_nothing_move; set_solver) : runs.
#[local] Hint Extern 2 (runs_nothing (access (AssessmentService.mark_running _))) => (apply runs_nothing_move; set_solver) : runs.

Ltac runs :=
  repeat first
    [ progress intros
    | solve [eauto 3 with runs]
    | apply runs_nothing_bind
    | apply runs_nothing_try
    | match goal with |- runs_nothing (match ?x with _ => _ end) => destruct x end ].

Lemma audit_runs k action p : runs_nothing (audit_record k action p).
Proof.
  unfold audit_record. destruct (audit_outbox wiring); [|eauto with runs].
  apply runs_nothing_bind; [eauto with runs|]. intros _. by apply runs_nothing_same.
Qed.
#[local] Hint Resolve audit_runs : runs.

Lemma block_runs k why action p : runs_nothing (block k why action p).
Proof. unfold block. runs. Qed.
#[local] Hint Resolve block_runs : runs.

Lemma issue_runs k sd pd : runs_nothing (issue_permit k sd pd).
Proof. unfold issue_permit. runs. Qed.
Lemma verify_runs p k : runs_nothing (verify_permit p k).
Proof. unfold verify_permit. runs. Qed.
Lemma nonce_runs k p : runs_nothing (record_permit_nonce k p).
Proof.
  unfold record_permit_nonce. destruct p as [p|]; [|eauto with runs]. apply runs_nothing_same. intros w.
  destruct (chain_log (records w)); [|done]. unfold lift, modify, mbind, M_bind. by destruct (audit_ok _).
Qed.
Lemma egress_runs t scope k : runs_nothing (check_egress t scope k).
Proof. unfold check_egress. runs. Qed.
Lemma scope_runs t scope b k : runs_nothing (check_scope t scope b k).
Proof. unfold check_scope. runs. Qed.
#[local] Hint Resolve issue_runs verify_runs nonce_runs egress_runs scope_runs : runs.

Lemma targets_run_nothing l scope b k : runs_nothing (check_targets l scope b k).
Proof. induction l as [|t l IH]; cbn [check_targets]; runs. Qed.
#[local] Hint Resolve targets_run_nothing : runs.

Lemma plan_scope_runs p scope b k : runs_nothing (check_plan_scope p scope b k).
Proof. unfold check_plan_scope. runs. Qed.
Lemma firewall_runs k scope : runs_nothing (apply_firewall k scope).
Proof.
  unfold apply_firewall. destruct (nft_scope_enforcer wiring) as [nft|]; [|runs].
  destruct (apply_scope nft scope) as [added res]. apply runs_nothing_bind; [by apply runs_nothing_same|]. intros _.
  destruct res; [by apply runs_nothing_same|runs].
Qed.
Lemma cancelled_runs k : runs_nothing (handle_cancelled k).
Proof. unfold handle_cancelled. runs. Qed.
Lemma finding_runs k f : runs_nothing (store_finding k f).
Proof. unfold store_finding. runs. Qed.
Lemma oracle_runs k fs : runs_nothing (oracle_pass k fs).
Proof. unfold oracle_pass. runs. Qed.
#[local] Hint Resolve plan_scope_runs firewall_runs cancelled_runs finding_runs oracle_runs : runs.

Lemma finalize_runs k runner calls : runs_nothing (finalize_execution k runner calls).
Proof. unfold finalize_execution. runs. Qed.
Lemma load_runs k : runs_nothing (load_plan k).
Proof. unfold load_plan. runs. Qed.
#[local] Hint Resolve finalize_runs load_runs : runs.

Lemma conclude_runs k runner answer m : runs_nothing m -> runs_nothing (conclude k runner answer m).
Proof. intros Hm. unfold conclude. runs. Qed.
#[local] Hint Resolve conclude_runs : runs.

Lemma flush_runs : runs_nothing flush_firewall.
Proof.
  intros w. unfold flush_firewall. destruct (nft_scope_enforcer wiring) as [nft|]; [|done]. destruct (nft_applied w); [|done].
  revert w. change (runs_nothing (suppress (revoke_rules nft))). unfold suppress.
  apply runs_nothing_try; [|eauto with runs]. apply runs_nothing_bind; [|eauto with runs].
  apply runs_nothing_same. intros w. unfold revoke_rules. by destruct (nft_revoke nft _).
Qed.

(** *** What is established before the drain *)

(** A target passed the egress guard and the scope enforcer, where wired. *)
Definition cleared (scope : ScopeSnapshot) (t : json) : Prop :=
  (forall guard, egress_guard wiring = Some guard -> exists d, guard t scope = Ret d /\ allowed d = true)
  /\ (forall resolve, scope_enforcer wiring = Some resolve ->
      exists s now, t = JStr s /\ ScopeEnforcer.touchable uni resolve s scope (approved_context now true)).

(** A permit for this assessment, plan and scope verified, where permits are
    wired. *)
Definition permitted (k : string) (p : ExecutionPlan) (scope : ScopeSnapshot) : Prop :=
  forall sign sig_ok, permit_signer wiring = Some sign -> permit_verifier wiring = Some sig_ok ->
  exists q now used, Permits.verify sig_ok q now used (Some "adapter-executor") = Ret tt
    /\ p_job_id q = k /\ p_scope_digest q = sc_digest scope /\ p_plan_digest q = plan_digest p.

Lemma issue_permit_content k sd pd w permit w' :
  issue_permit k sd pd w = (Ret permit, w') ->
  match permit with
  | Some q => p_job_id q = k /\ p_scope_digest q = sd /\ p_plan_digest q = pd
  | None => permit_signer wiring = None
  end.
Proof.
  unfold issue_permit. destruct (permit_signer wiring) as [sign|]; [|by intros [= <- _]].
  unfold utc_now, new_nonce, lift, mbind, M_bind, mret, M_ret. cbv beta iota.
  destruct (Permits.check_permit _) as [u|] eqn:Eu; [|done].
  destruct (Permits.issue sign u) as [q|] eqn:Eq; [|done].
  intros H. assert (permit = Some q) as ->.
  { revert H. unfold update_register. by destruct (permit_registry wiring); intros [= <- _]. }
  unfold Permits.check_permit in Eu. inv_ret. unfold Permits.issue in Eq. inv_ret. unfold Permits.check_permit in *. inv_ret.
  done.
Qed.

Lemma verify_permit_verified permit k w b w' :
  verify_permit permit k w = (Ret (Some b), w') ->
  b = true /\ forall sig_ok q, permit_verifier wiring = Some sig_ok -> permit = Some q ->
    exists now used, Permits.verify sig_ok q now used (Some "adapter-executor") = Ret tt.
Proof.
  unfold verify_permit. destruct (permit_verifier wiring) as [v|]; [|by intros [= <- _]].
  destruct permit as [q|]; [|by intros [= <- _]].
  unfold gets, utc_now, mbind at 1 2, M_bind at 1 2. cbv beta iota.
  destruct (Permits.verify v q _ _ _) as [[]|e] eqn:E.
  - intros H. assert (b = true) as ->.
    { revert H. unfold update_register, mbind, M_bind. by destruct (permit_registry wiring); intros [= <- _]. }
    split; [done|]. intros ? ? [= <-] [= <-]. eauto.
  - destruct (is_domain_error e); [|done]. unfold mbind, M_bind. by destruct (block _ _ _ _ _) as [[]?].
Qed.

Lemma check_egress_true t scope k w w' :
  check_egress t scope k w = (Ret true, w') ->
  forall guard, egress_guard wiring = Some guard -> exists d, guard t scope = Ret d /\ allowed d = true.
Proof.
  unfold check_egress. intros H guard Hg. rewrite Hg in H. revert H. unfold lift, mbind, M_bind.
  destruct (guard t scope) as [d|]; [|done]. destruct (allowed d) eqn:E; [eauto|].
  by destruct (block _ _ _ _ _) as [[]?].
Qed.

Lemma check_scope_true t scope k w w' :
  check_scope t scope true k w = (Ret true, w') ->
  forall resolve, scope_enforcer wiring = Some resolve ->
  exists s now, t = JStr s /\ ScopeEnforcer.touchable uni resolve s scope (approved_context now true).
Proof.
  unfold check_scope. intros H resolve Hr. rewrite Hr in H. revert H. unfold utc_now, lift, mbind, M_bind.
  destruct (enforce resolve t scope _ true) as [d|] eqn:Ed; [|done]. destruct (allowed d) eqn:E.
  2: { by destruct (block _ _ _ _ _) as [[]?]. }
  intros _. unfold enforce, target_text in Ed. destruct t as [| | | |s| |]; try discriminate Ed.
  exists s, (time (ticks w)). split; [done|]. apply ScopeEnforcer.check_allows. by exists d.
Qed.

Lemma check_targets_true l scope k w w' :
  check_targets l scope true k w = (Ret true, w') -> Forall (cleared scope) l.
Proof.
  revert w; induction l as [|t l IH]; intros w; cbn [check_targets]; [by constructor|].
  unfold mbind at 1, M_bind at 1. destruct (check_egress t scope k w) as [[[]|e] w1] eqn:E1; [|done..].
  cbn [negb]. unfold mbind, M_bind. destruct (check_scope t scope true k w1) as [[[]|e] w2] eqn:E2; [|done..].
  cbn [negb]. intros H. constructor; [split; [by eapply check_egress_true|by eapply check_scope_true]|by eapply IH].
Qed.

Lemma check_plan_scope_true p scope k w w' :
  check_plan_scope p scope true k w = (Ret true, w') -> Forall (cleared scope) (plan_targets p scope).
Proof.
  unfold check_plan_scope. destruct (scope_enforcer wiring) eqn:E1; [apply check_targets_true|].
  destruct (egress_guard wiring) eqn:E2; [apply check_targets_true|]. intros _. apply Forall_forall. intros t _.
  split; congruence.
Qed.

(** *** From start to drain *)

Lemma gated_quiet k w n : quiet w (gated k w n).
Proof.
  induction n as [|n IH]; cbn [gated]; [done|]. etrans; [exact IH|].
  apply runs_nothing_access. intros r. apply rtc_once, System.sys_gate.
Qed.

(** [w'] continues [w] after running [l]. *)
Definition continues (l : list PlanStep) (w w' : World) : Prop :=
  rtc System.sys_step (repo w) (repo w') /\ ran w' = l ++ ran w.

Lemma continues_quiet l w1 w2 w3 : continues l w1 w2 -> quiet w2 w3 -> continues l w1 w3.
Proof. intros [H1 E1] [H2 E2]. split; [by etrans|congruence]. Qed.
Lemma quiet_continues l w1 w2 w3 : quiet w1 w2 -> continues l w2 w3 -> continues l w1 w3.
Proof. intros [H1 E1] [H2 E2]. split; [by etrans|congruence]. Qed.

Lemma drain_continues k p runner w :
  exists l, continues l w (drain k p runner w).2 /\ forall s, s ∈ l -> s ∈ steps p.
Proof.
  unfold drain, run_jobs, modify, utc_now, mbind at 1 2, M_bind at 1 2. cbv beta iota.
  set (w1 := if jobs_store wiring then w else set_jobs [] w).
  assert (H1 : quiet w (tick w1)) by (unfold w1; by destruct (jobs_store wiring)).
  pose proof (drained_calls lease_ttl (run_step runner) (Some (gate_answer k (tick w1))) "system" (time (ticks w1)) 100
                p (job_table (tick w1))) as Hc.
  destruct ((Orchestrator.dispatch p;; _) _) as [res o]. cbn [snd] in *. exists (calls o). split; [|done].
  eapply quiet_continues; [exact H1|]. destruct (gated_quiet k (tick w1) (gate_calls o)) as [Hg Er].
  split; cbn; [exact Hg|by rewrite Er].
Qed.

(** The authority the executed steps [l] of [k] have in repository [r]. *)
Definition authorised (k : string) (l : list PlanStep) (r : Repo) : Prop :=
  exists p scope, System.loaded snapshots r k p scope /\ (forall s, s ∈ l -> s ∈ steps p)
    /\ permitted k p scope /\ Forall (cleared scope) (plan_targets p scope).

Definition accounted (k : string) (w w' : World) : Prop :=
  exists l, continues l w w' /\ (l = [] \/ authorised k l (repo w')).

Lemma accounted_quiet k w w' : quiet w w' -> accounted k w w'.
Proof. intros H. exists []. split; [done|by left]. Qed.

(** A prefix that runs nothing. *)
Lemma ends_prefix {A B} k w0 w (m : M World A) (f : A -> M World B) :
  runs_nothing m -> quiet w0 w ->
  (forall a w1, m w = (Ret a, w1) -> quiet w0 w1 -> accounted k w0 (f a w1).2) ->
  accounted k w0 ((m ≫= f) w).2.
Proof.
  intros Hm Hw Hf. specialize (Hm w). unfold mbind, M_bind. destruct (m w) as [[a|e] w1]; cbn [snd] in *.
  - apply Hf; [done|by etrans].
  - apply accounted_quiet. by etrans.
Qed.

Lemma quiet_accounted k w0 w w' : quiet w0 w -> accounted k w w' -> accounted k w0 w'.
Proof. intros H (l & Hl & Ha). exists l. split; [by eapply quiet_continues|done]. Qed.

Lemma run_plan_accounted k p scope w :
  AssessmentService.wf (repo w) -> System.loaded snapshots (repo w) k p scope -> accounted k w (run_plan k p scope w).2.
Proof.
  intros Hwf Hl. unfold run_plan. apply ends_prefix; [apply issue_runs|done|]. intros permit w1 Hp Hw1.
  apply ends_prefix; [apply verify_runs|done|]. intros [b|] w2 Hv Hw2; [|by apply accounted_quiet].
  apply issue_permit_content in Hp. apply verify_permit_verified in Hv as [-> Hv].
  apply ends_prefix; [apply nonce_runs|done|]. intros _ w3 _ Hw3.
  apply ends_prefix; [apply audit_runs|done|]. intros _ w4 _ Hw4.
  apply ends_prefix; [apply plan_scope_runs|done|]. intros [] w5 Hc Hw5; [|by apply accounted_quiet].
  apply check_plan_scope_true in Hc. cbn [negb].
  apply ends_prefix; [apply firewall_runs|done|]. intros _ w6 _ Hw6.
  apply ends_prefix; [apply runs_nothing_lift|done|]. intros runner w7 _ Hw7.
  destruct (drain_continues k p runner w7) as (l & Hd & Hin).
  assert (Hfin : forall w8, continues l w7 w8 -> accounted k w w8).
  { intros w8 H8. pose proof (quiet_continues _ _ _ _ Hw7 H8) as H0. exists l. split; [exact H0|]. right.
    exists p, scope. split_and!; [|done| |done].
    - eapply System.loaded_later; [|exact Hl]. by apply (System.sys_steps_later (repo w)); [|apply H0].
    - intros sign v Hs Hver. destruct permit as [q|]; [|congruence]. destruct Hp as (E1 & E2 & E3).
      destruct (Hv v q Hver eq_refl) as (now & used & Hok). by exists q, now, used. }
  unfold mbind, M_bind. destruct (drain k p runner w7) as [[answer|e] w8]; cbn [snd] in *; [|by apply Hfin].
  apply Hfin. eapply continues_quiet; [exact Hd|]. apply conclude_runs, runs_nothing_ret.
Qed.

Lemma unwrap_active (o : option Assessment) e a pid :
  unwrap (a0 ← o; pid ← active_plan_id a0; Some (a0, pid)) e = Ret (a, pid) ->
  o = Some a /\ active_plan_id a = Some pid.
Proof.
  intros H%unwrap_Ret. destruct o as [a0|]; [|done]. cbn in H. destruct (active_plan_id a0) eqn:E; [|done].
  cbn in H. by injection H as -> ->.
Qed.

(** What the entry points load is what the repository says, for an assessment
    past approval. *)
Lemma load_plan_loaded k w p scope w' a :
  AssessmentService.wf (repo w) -> assessments (repo w) !! k = Some a -> AssessmentService.past_approval (status a) = true ->
  load_plan k w = (Ret (p, scope), w') -> System.loaded snapshots (repo w') k p scope.
Proof.
  intros Hwf Ha Hpa. unfold load_plan, access, gets, lift, mbind, M_bind, mret, M_ret. cbv beta iota. cbn [set_repo repo].
  set (r1 := api (repo_accesses w) (repo w)).
  set (r2 := api (repo_accesses (set_repo r1 w)) r1).
  pose proof (callers_lawful (repo_accesses w) (repo w)) as H1. fold r1 in H1.
  pose proof (callers_lawful (repo_accesses (set_repo r1 w)) r1) as H2. fold r2 in H2.
  destruct (unwrap (option_bind _ _ _ (assessments r1 !! k)) _) as [[a1 pid]|] eqn:E1; [|done].
  change (api (repo_accesses (set_repo r1 w)) (repo (set_repo r1 w))) with r2.
  apply unwrap_active in E1 as [Ha1 Hpid].
  destruct (unwrap (plans r2 !! pid) _) as [p'|] eqn:E2; [|done]. apply unwrap_Ret in E2.
  destruct (unwrap (snapshots _) _) as [s'|] eqn:E3; [|done]. apply unwrap_Ret in E3.
  intros [= -> -> <-]. cbn [set_repo repo].
  destruct (System.sys_steps_later _ _ Hwf H1) as [Hwf1 L1]. destruct (System.sys_steps_later _ _ Hwf1 H2) as [Hwf2 L2].
  destruct (System.later_past _ _ L1 _ _ Ha Hpa) as (b & Hb & Hpb & _). assert (b = a1) as -> by congruence.
  destruct (System.later_past _ _ L2 _ _ Ha1 Hpb) as (c & Hc & Hpc & Ec1 & _ & Ec2).
  exists c, pid. split_and!; try congruence.
Qed.

Lemma mark_running_Ret k w u w' :
  AssessmentService.wf (repo w) -> access (AssessmentService.mark_running k) w = (Ret u, w') ->
  exists a a', assessments (api (repo_accesses w) (repo w)) !! k = Some a
    /\ AssessmentStatus.RUNNING ∈ Transitions.ALLOWED_TRANSITIONS (status a)
    /\ assessments (repo w') !! k = Some a' /\ status a' = AssessmentStatus.RUNNING.
Proof.
  intros Hwf. pose proof (callers_lawful (repo_accesses w) (repo w)) as H1.
  destruct (System.sys_steps_later _ _ Hwf H1) as [Hwf1 _].
  unfold access, AssessmentService.mark_running, AssessmentService.move, AssessmentService.require, lift, modify, mbind, M_bind,
    mret, M_ret. cbv beta iota.
  destruct (assessments (api _ _) !! k) as [a|] eqn:Ea; [|done]. cbn [unwrap].
  destruct (Transitions.assert_transition _ _) eqn:Et; [|done]. intros [= _ <-].
  apply Transitions.assert_transition_Ret in Et. exists a, (Assessment.set_status a AssessmentStatus.RUNNING).
  split_and!; [done..| |done]. cbn. rewrite (AssessmentService.wf_id _ Hwf1 _ _ Ea). by rewrite lookup_insert_eq.
Qed.

Lemma execute_body_accounted k w :
  AssessmentService.wf (repo w) -> 
  accounted k w (execute_body k w).2 /\
  (ran (execute_body k w).2 <> ran w -> emergency_stop wiring <> Some true /\
     exists a, assessments (api (repo_accesses w) (repo w)) !! k = Some a
       /\ AssessmentStatus.RUNNING ∈ Transitions.ALLOWED_TRANSITIONS (status a)).
Proof.
  intros Hwf. unfold execute_body.
  assert (Hm : runs_nothing (access (AssessmentService.mark_running k))) by (apply runs_nothing_move; set_solver).
  specialize (Hm w). unfold mbind at 1 3, M_bind at 1 3.
  destruct (access (AssessmentService.mark_running k) w) as [[u|e] w1] eqn:E1; cbn [snd] in *.
  2: { split; [by apply accounted_quiet|]. intros Hr. by destruct Hr, Hm. }
  destruct (mark_running_Ret _ _ _ _ Hwf E1) as (a & a' & Ha & Ht & Ha' & Hs').
  destruct (System.sys_steps_later _ _ Hwf (proj1 Hm)) as [Hwf1 _].
  case_bool_decide as He.
  { pose proof (block_runs k "EMERGENCY_STOP_TRIGGERED" "assessment.blocked.emergency_stop"
      [("reason", JStr "emergency_stop_triggered")] w1) as Hb. pose proof (transitivity Hm Hb) as Hq.
    split; [by apply accounted_quiet|]. intros Hr. by destruct Hr, Hq. }
  split; [|intros _; split; [done|by exists a]].
  apply (ends_prefix k w w1); [apply load_runs|done|]. intros [p scope] w2 E2 Hw2.
  eapply quiet_accounted; [exact Hw2|].
  assert (H12 : quiet w1 w2) by (pose proof (load_runs k w1) as H; by rewrite E2 in H).
  destruct (System.sys_steps_later _ _ Hwf1 (proj1 H12)) as [Hwf2 _].
  apply run_plan_accounted; [done|]. eapply load_plan_loaded; [exact Hwf1|exact Ha'| |exact E2]. by rewrite Hs'.
Qed.

Lemma authorised_quiet k l w w' :
  AssessmentService.wf (repo w) -> quiet w w' -> authorised k l (repo w) -> authorised k l (repo w').
Proof.
  intros Hwf [Hs _] (p & scope & Hl & H). exists p, scope. split; [|exact H].
  eapply System.loaded_later; [|exact Hl]. by apply System.sys_steps_later.
Qed.

Lemma accounted_then k w0 w w' :
  AssessmentService.wf (repo w0) -> accounted k w0 w -> quiet w w' -> accounted k w0 w'.
Proof.
  intros Hwf (l & Hl & Ha) Hq. exists l. split; [by eapply continues_quiet|].
  destruct Ha as [?|Ha]; [by left|right]. eapply authorised_quiet; [|done..].
  by apply (System.sys_steps_later (repo w0)); [|apply Hl].
Qed.

(** The clauses after the [try] block run nothing. *)
Lemma execute_after_body k w :
  quiet (execute_body k (set_firewall (firewall w) false w)).2 (execute_assessment k w).2.
Proof.
  unfold execute_assessment, finally, modify, try_exceptM, mbind at 1, M_bind at 1. cbv beta iota.
  destruct (execute_body k _) as [[u|e] w1] eqn:E; cbn [snd any_exception].
  - pose proof (flush_runs w1) as H. by destruct (flush_firewall w1) as [[?|?] w2].
  - set (h := suppress _;; _). assert (Hh : runs_nothing h).
    { unfold h, suppress. apply runs_nothing_bind; [|intros _; apply audit_runs].
      apply runs_nothing_try; [|eauto with runs].
      apply runs_nothing_bind; [apply runs_nothing_move; set_solver|eauto with runs]. }
    specialize (Hh w1). destruct (h w1) as [o w2]. cbn [snd] in Hh. pose proof (flush_runs w2) as H.
    destruct (flush_firewall w2) as [[?|?] w3]; cbn [snd] in *; by etrans.
Qed.

(** C1: Nothing runs unauthorised. Whatever other callers and executors do to the
    repository in the meantime, and whatever the runner, the oracle, the
    firewall or the audit answer: if one execution of an assessment runs a
    step at all, the assessment was queued or paused when it was taken, no
    emergency stop was triggered, the steps are those of the plan the
    assessment points at, the stored approval of the assessment signs the
    digest of that very plan, a permit for this assessment, plan and scope
    verified (where permits are wired), and every explicit target of the plan
    and every concrete entry of its scope was let through by the egress guard
    and the scope enforcer (where wired). *)
Theorem executed_steps_were_authorised k w :
  System.reachable (repo w) ->
  let w' := (execute_assessment k w).2 in
  exists l, ran w' = l ++ ran w
  /\ (l = [] \/
      (exists a, assessments (api (repo_accesses w) (repo w)) !! k = Some a
         /\ (status a = AssessmentStatus.QUEUED \/ status a = AssessmentStatus.PAUSED))
      /\ emergency_stop wiring <> Some true
      /\ exists a pid p q ap scope,
           assessments (repo w') !! k = Some a
           /\ active_plan_id a = Some pid /\ plans (repo w') !! pid = Some p /\ (forall s, s ∈ l -> s ∈ steps p)
           /\ approval_id a = Some q /\ approvals (repo w') !! q = Some ap /\ approval_assessment_id ap = k
           /\ approval_plan_digest ap = Canonical.canonical_digest (Plan.payload k 1 (steps p))
           /\ snapshots (scope_snapshot_id a) = Some scope
           /\ permitted k p scope /\ Forall (cleared scope) (plan_targets p scope)).
Proof.
  intros Hr%System.system_wf w'. set (w0 := set_firewall (firewall w) false w).
  destruct (execute_body_accounted k w0 Hr) as [Hacc Hran].
  pose proof (execute_after_body k w) as Hq. fold w0 w' in Hq.
  destruct (accounted_then k w0 _ w' Hr Hacc Hq) as (l & [Hs El] & Ha). exists l. split; [exact El|].
  destruct Ha as [?|(p & scope & Hl & Hin & Hp & Hc)]; [by left|].
  destruct (decide (l = [])) as [?|Hne]; [by left|right].
  destruct Hran as (He & a0 & Ha0 & Ht).
  { intros E. apply Hne. rewrite <- (proj2 Hq) in E. rewrite El in E. apply (f_equal length) in E.
    rewrite length_app in E. destruct l; [done|cbn in E; lia]. }
  split; [exists a0; split; [exact Ha0|]; revert Ht; destruct (status a0); cbn; set_solver|]. split; [done|].
  assert (Hw' : AssessmentService.wf (repo w')) by (by apply (System.sys_steps_later (repo w0))).
  destruct (System.loaded_approved _ _ _ _ _ Hw' Hl) as (a & q & ap & Ha & Hq' & Hap & Hk & _ & Hd & _).
  destruct Hl as (a' & pid & Ha' & _ & Hpid & Hpl & Hsn). simplify_eq.
  by exists a, pid, p, q, ap, scope.
Qed.

End among_callers.

(** ** Every execution ends the assessment *)

(** *** Which answers a drain gives *)

(** [m] raises neither of the two control exceptions. *)
Definition uninterrupted {S A} (m : M S A) : Prop :=
  forall s, match (m s).1 with Raise (StepPaused _) | Raise (StepCancelled _) => False | _ => True end.

Lemma uninterrupted_bind {S A B} (m : M S A) (f : A -> M S B) :
  uninterrupted m -> (forall a, uninterrupted (f a)) -> uninterrupted (m ≫= f).
Proof.
  intros Hm Hf s. specialize (Hm s). unfold mbind, M_bind. destruct (m s) as [[a|e] s']; [apply Hf|exact Hm].
Qed.

Section drain_answers.
Context (ttl : Z) (runner : list PlanStep -> PlanStep -> run_result) (gate : nat -> option string)
        (owner : string) (now : datetime).
Hypothesis gate_open : forall n, gate n = None.
Hypothesis runner_uninterrupted : forall l s e, runner l s = RunError e ->
  match e with StepPaused _ | StepCancelled _ => False | _ => True end.

Lemma store_uninterrupted {A} (m : M Jobs.Store A) : uninterrupted m -> uninterrupted (Orchestrator.on_store m).
Proof. intros Hm o. specialize (Hm (store o)). unfold Orchestrator.on_store. by destruct (m (store o)). Qed.

Lemma set_uninterrupted k f : uninterrupted (Jobs.set_job k f).
Proof.
  intros s. unfold Jobs.set_job, Jobs.require, Jobs.get, gets, lift, modify, mbind, M_bind, mret, M_ret. cbv beta iota.
  by destruct (PyDict.get k s).
Qed.

Lemma lease_uninterrupted k : uninterrupted (JobService.lease ttl k owner now).
Proof.
  unfold JobService.lease, Jobs.lease. apply uninterrupted_bind.
  - intros s. unfold Jobs.require, Jobs.get, gets, lift, mbind, M_bind. cbv beta iota. by destruct (PyDict.get k s).
  - intros j. apply uninterrupted_bind; [|intros _; apply set_uninterrupted]. intros s. unfold lift, raise_if.
    by destruct (_ && _).
Qed.

Lemma execute_uninterrupted j s : uninterrupted (Orchestrator.execute ttl runner owner now j s).
Proof.
  unfold Orchestrator.execute. apply uninterrupted_bind; [apply store_uninterrupted, lease_uninterrupted|].
  intros leased o. unfold Orchestrator.call_runner, mbind, M_bind. cbv beta iota.
  pose proof (runner_uninterrupted (calls o) s) as He.
  unfold Orchestrator.finish. destruct (runner (calls o) s) as [d|fc|e].
  - apply store_uninterrupted, set_uninterrupted.
  - apply store_uninterrupted. unfold Orchestrator.handle_failure. repeat case_match; apply set_uninterrupted.
  - apply store_uninterrupted. intros ?. by apply He.
Qed.

Lemma run_targets_uninterrupted ts : uninterrupted (Orchestrator.run_targets ttl runner (Some gate) owner now ts).
Proof.
  induction ts as [|[j s] ts IH]; cbn [Orchestrator.run_targets]; [by intros o|].
  apply uninterrupted_bind.
  { intros o. unfold Orchestrator.check_gate. cbn [fst]. by rewrite gate_open. }
  intros _. apply uninterrupted_bind; [apply execute_uninterrupted|]. intros r.
  apply uninterrupted_bind; [done|]. by intros rs o.
Qed.

Lemma resolve_uninterrupted : uninterrupted Orchestrator.resolve_dependencies.
Proof.
  unfold Orchestrator.resolve_dependencies. apply uninterrupted_bind; [by intros s|]. intros l.
  apply uninterrupted_bind; [by intros s|]. intros l'. induction l' as [|j js IH]; cbn [Orchestrator.mark_all]; [by intros s|].
  apply uninterrupted_bind; [|done]. destruct (Orchestrator.deps_met _ j); [|by intros s].
  apply uninterrupted_bind; [apply set_uninterrupted|by intros ? s].
Qed.

Lemma execute_ready_uninterrupted : uninterrupted (Orchestrator.execute_ready ttl runner (Some gate) owner now).
Proof.
  unfold Orchestrator.execute_ready. apply uninterrupted_bind; [by intros o; apply store_uninterrupted|]. intros l.
  apply uninterrupted_bind; [by intros o|]. intros s. apply uninterrupted_bind; [apply run_targets_uninterrupted|].
  intros rs. apply uninterrupted_bind; [apply store_uninterrupted, resolve_uninterrupted|by intros ? o].
Qed.

(** With an open gate a drain that answers, answers completed. *)
Lemma run_to_completion_completed n o s o' :
  Orchestrator.run_to_completion ttl runner (Some gate) owner now n o = (Ret s, o') -> s = "completed".
Proof.
  revert o; induction n as [|n IH]; intros o; cbn [Orchestrator.run_to_completion]; [by intros [= <- _]|].
  pose proof (execute_ready_uninterrupted o) as H.
  destruct (Orchestrator.execute_ready _ _ _ _ _ o) as [[[|j l]|e] o1]; cbn [fst] in H; [by intros [= <- _]|apply IH|].
  by destruct e.
Qed.
End drain_answers.

(** *** The rules of the packet filter *)
Section rules.

(** Nothing but [apply_firewall] and [flush_firewall] touches the rules. *)
Definition rules (l : list string) (b : bool) (w : World) : Prop := firewall w = l /\ nft_applied w = b.
Definition keeps_rules {A} (m : M World A) : Prop := forall l b, preserves (rules l b) m.

Lemma keeps_same {A} (m : M World A) :
  (forall w, firewall (m w).2 = firewall w /\ nft_applied (m w).2 = nft_applied w) -> keeps_rules m.
Proof. intros H l b w [<- <-]. apply H. Qed.
Lemma leaves_ret {A} (a : A) : keeps_rules (mret a). Proof. intros l b. apply preserves_ret. Qed.
Lemma leaves_lift {A} (o : outcome A) : keeps_rules (lift o). Proof. intros l b. apply preserves_lift. Qed.
Lemma keeps_raise {A} e : keeps_rules (A:=A) (raise e). Proof. intros l b. apply preserves_raise. Qed.
Lemma keeps_gets {A} (f : World -> A) : keeps_rules (gets f). Proof. intros l b. apply preserves_gets. Qed.
Lemma leaves_bind {A B} (m : M World A) (f : A -> M World B) :
  keeps_rules m -> (forall a, keeps_rules (f a)) -> keeps_rules (m ≫= f).
Proof. intros Hm Hf l b. apply preserves_bind; [apply Hm|intros a; apply Hf]. Qed.
Lemma keeps_try {A} (m : M World A) c h : keeps_rules m -> (forall e, keeps_rules (h e)) -> keeps_rules (try_exceptM m c h).
Proof. intros Hm Hh l b. apply preserves_try; [apply Hm|intros e; apply Hh]. Qed.
Lemma keeps_mapM {A B} (f : A -> M World B) l : (forall a, keeps_rules (f a)) -> keeps_rules (mapM_state f l).
Proof. intros Hf l' b. apply preserves_mapM. intros a. apply Hf. Qed.
Lemma keeps_access {A} (m : M Repo A) : keeps_rules (access m).
Proof. apply keeps_same. intros w. unfold access. by destruct (m _). Qed.
Lemma keeps_records {A} (m : M OracleState A) : keeps_rules (on_records m).
Proof. apply keeps_same. intros w. unfold on_records. by destruct (m _). Qed.
Lemma keeps_jobs {A} (m : M Jobs.Store A) : keeps_rules (on_jobs m).
Proof. apply keeps_same. intros w. unfold on_jobs. by destruct (m _). Qed.
Lemma keeps_register f : keeps_rules (update_register f).
Proof. apply keeps_same. intros w. unfold update_register. by destruct (permit_registry wiring). Qed.
Lemma keeps_clock : keeps_rules utc_now. Proof. by apply keeps_same. Qed.
Lemma keeps_nonce : keeps_rules new_nonce. Proof. by apply keeps_same. Qed.
#[local] Hint Resolve leaves_ret leaves_lift keeps_raise keeps_gets keeps_access keeps_records keeps_jobs keeps_register
  keeps_clock keeps_nonce : rules.

Ltac keeps :=
  repeat first
    [ progress intros
    | solve [eauto 2 with rules]
    | apply leaves_bind
    | apply keeps_try
    | apply keeps_mapM
    | match goal with |- keeps_rules (match ?x with _ => _ end) => destruct x end ].

Lemma audit_keeps k action p : keeps_rules (audit_record k action p).
Proof. unfold audit_record. destruct (audit_outbox wiring); [apply leaves_bind; [keeps|]; intros _; by apply keeps_same|keeps]. Qed.
#[local] Hint Resolve audit_keeps : rules.
Lemma block_keeps k why action p : keeps_rules (block k why action p). Proof. unfold block. keeps. Qed.
#[local] Hint Resolve block_keeps : rules.
Lemma issue_keeps k sd pd : keeps_rules (issue_permit k sd pd). Proof. unfold issue_permit. keeps. Qed.
Lemma verify_keeps p k : keeps_rules (verify_permit p k). Proof. unfold verify_permit. keeps. Qed.
Lemma permit_nonce_keeps k p : keeps_rules (record_permit_nonce k p).
Proof.
  unfold record_permit_nonce. destruct p as [p|]; [|keeps]. apply keeps_same. intros w.
  destruct (chain_log (records w)); [|done]. unfold lift, modify, mbind, M_bind. by destruct (audit_ok _).
Qed.
Lemma targets_keep l scope b k : keeps_rules (check_targets l scope b k).
Proof. induction l as [|t l IH]; cbn [check_targets]; unfold check_egress, check_scope; keeps. Qed.
#[local] Hint Resolve targets_keep : rules.
Lemma plan_scope_keeps p scope b k : keeps_rules (check_plan_scope p scope b k). Proof. unfold check_plan_scope. keeps. Qed.
Lemma drain_keeps k p runner : keeps_rules (drain k p runner).
Proof.
  unfold drain. apply leaves_bind; [apply keeps_same; intros w; cbn; by destruct (jobs_store wiring)|]. intros _.
  apply leaves_bind; [keeps|]. intros now. apply keeps_same. intros w. unfold run_jobs. destruct ((Orchestrator.dispatch p;; _) _) as [res o].
  cbn. assert (H : keeps_rules (fun w => (Ret tt, gated k w (gate_calls o)) : outcome unit * World)).
  { intros l b v Hv. cbn. induction (gate_calls o) as [|n IH]; [done|]. cbn [gated]. by apply keeps_access. }
  exact (H (firewall w) (nft_applied w) w (conj eq_refl eq_refl)).
Qed.
Lemma conclude_keeps k runner answer m : keeps_rules m -> keeps_rules (conclude k runner answer m).
Proof.
  intros Hm. unfold conclude, handle_cancelled, finalize_execution, oracle_pass, store_finding. keeps.
Qed.
Lemma load_keeps k : keeps_rules (load_plan k). Proof. unfold load_plan. keeps. Qed.
#[local] Hint Resolve issue_keeps verify_keeps permit_nonce_keeps plan_scope_keeps drain_keeps conclude_keeps load_keeps : rules.

(** The elements an execution adds, and whether it will revoke them: they are
    those of one call of [apply_scope], which has returned or raised. *)
Definition pushed (w w' : World) : Prop :=
  rules (firewall w) (nft_applied w) w'
  \/ exists nft scope added res, nft_scope_enforcer wiring = Some nft /\ apply_scope nft scope = (added, res)
       /\ rules (firewall w ++ added) (is_Ret res || nft_applied w) w'.
Definition may_push {A} (m : M World A) : Prop := forall w, pushed w (m w).2.

Lemma keeps_may_push {A} (m : M World A) : keeps_rules m -> may_push m.
Proof. intros Hm w. left. by apply Hm. Qed.
Lemma push_later {A B} (m : M World A) (f : A -> M World B) : keeps_rules m -> (forall a, may_push (f a)) -> may_push (m ≫= f).
Proof.
  intros Hm Hf w. unfold mbind, M_bind. destruct (Hm _ _ w (conj eq_refl eq_refl)) as [E1 E2].
  destruct (m w) as [[a|e] w1]; cbn [snd] in *; [|by left]. specialize (Hf a w1). unfold pushed in *. by rewrite E1, E2 in Hf.
Qed.
Lemma push_first {A B} (m : M World A) (f : A -> M World B) : may_push m -> (forall a, keeps_rules (f a)) -> may_push (m ≫= f).
Proof.
  intros Hm Hf w. unfold mbind, M_bind. specialize (Hm w). destruct (m w) as [[a|e] w1]; cbn [snd] in *; [|done].
  destruct Hm as [H|(nft & scope & added & res & Hn & Ha & H)]; [left; by apply Hf|]. right.
  exists nft, scope, added, res. split_and!; [done..|]. by apply Hf.
Qed.

Lemma firewall_pushes k scope : may_push (apply_firewall k scope).
Proof.
  unfold apply_firewall. destruct (nft_scope_enforcer wiring) as [nft|] eqn:En; [|apply keeps_may_push; keeps].
  destruct (apply_scope nft scope) as [added res] eqn:Ea. intros w. right. exists nft, scope, added, res. split_and!; [done..|].
  unfold mbind, M_bind, modify. destruct res as [u|e]; [done|]. by apply audit_keeps.
Qed.

Lemma execute_body_pushes k : may_push (execute_body k).
Proof.
  unfold execute_body. apply push_later; [keeps|]. intros _. case_bool_decide; [apply keeps_may_push; keeps|].
  apply push_later; [keeps|]. intros [plan scope]. unfold run_plan. apply push_later; [keeps|]. intros permit.
  apply push_later; [keeps|]. intros [b|]; [|apply keeps_may_push; keeps].
  do 2 (apply push_later; [keeps|]; intros _). apply push_later; [keeps|]. intros []; [|apply keeps_may_push; keeps].
  apply push_first; [apply firewall_pushes|]. intros _. keeps.
Qed.

(** What an execution does to the rules: all its elements were added and then
    revoked, or none was added, or the call that added them raised and they
    stay. *)
Definition rules_after (w w' : World) : Prop :=
  (firewall w' = firewall w /\ nft_applied w' = false)
  \/ exists nft scope added res, nft_scope_enforcer wiring = Some nft /\ apply_scope nft scope = (added, res)
       /\ match res with
          | Ret _ => firewall w' = (nft_revoke nft (firewall w ++ added)).1
          | Raise _ => firewall w' = firewall w ++ added /\ nft_applied w' = false
          end.

Lemma flush_rules w0 w : pushed (set_firewall (firewall w0) false w0) w -> rules_after w0 (flush_firewall w).2.
Proof.
  unfold pushed, rules, rules_after, flush_firewall. cbn [firewall nft_applied set_firewall]. setoid_rewrite orb_false_r.
  intros [[E1 E2]|(nft & scope & added & res & Hn & Ha & E1 & E2)].
  - left. rewrite E2. by destruct (nft_scope_enforcer wiring).
  - right. exists nft, scope, added, res. split_and!; [done..|]. rewrite Hn, E2. destruct res as [u|e]; cbn [is_Ret]; [|done].
    unfold suppress, revoke_rules, try_exceptM, mbind, M_bind. rewrite <- E1. by destruct (nft_revoke nft _) as [l [x|x]].
Qed.

Lemma handler_keeps k e :
  keeps_rules (suppress (access (AssessmentService.fail k (exn_text e)));;
               audit_record k "assessment.failed" [("reason", JStr (exn_text e))]).
Proof. unfold suppress. keeps. Qed.

Lemma execution_rules k w : rules_after w (execute_assessment k w).2.
Proof.
  unfold execute_assessment, finally, modify. unfold mbind at 1, M_bind at 1. cbv beta iota.
  set (m := try_exceptM _ _ _). assert (Hm : may_push m).
  { intros v. unfold m, try_exceptM. pose proof (execute_body_pushes k v) as H. destruct (execute_body k v) as [[u|e] w1]; [done|].
    cbn [any_exception snd] in *. destruct H as [H|(nft & scope & added & res & Hn & Ha & H)]; [left; by apply handler_keeps|].
    right. exists nft, scope, added, res. split_and!; [done..|]. by apply handler_keeps. }
  specialize (Hm (set_firewall (firewall w) false w)). destruct (m _) as [o w1]. pose proof (flush_rules w w1 Hm) as H.
  by destruct (flush_firewall w1) as [[u|e] w2].
Qed.
End rules.

(** *** The assessment of an execution *)
Section settles.
Context (k : string).

(** The other callers leave this assessment alone. *)
Class Undisturbed : Prop := undisturbed n r : assessments (api n r) !! k = assessments r !! k.
(** A runner does not raise the orchestrator's own control exceptions. *)
Class PlainRunners : Prop := plain_runner scope rn l s e :
  step_runner_factory scope = Ret rn -> run_step rn l s = RunError e ->
  match e with StepPaused _ | StepCancelled _ => False | _ => True end.
Context {Hapi : Undisturbed} {Hrun : PlainRunners}.

Definition has_status (X : list AssessmentStatus) (w : World) : Prop :=
  exists a, assessments (repo w) !! k = Some a /\ id a = k /\ control a = ControlState.NONE /\ status a ∈ X.
Definition active : World -> Prop := has_status [AssessmentStatus.RUNNING; AssessmentStatus.COMPLETED; AssessmentStatus.FAILED].
Definition settled : World -> Prop := has_status [AssessmentStatus.COMPLETED; AssessmentStatus.FAILED].

Lemma settled_active w : settled w -> active w.
Proof. intros (a & ? & ? & ? & ?). exists a. split_and!; [done..|]. by right. Qed.

(** [m] does not touch the assessment. *)
Definition spares {A} (m : M World A) : Prop := forall w, assessments (repo (m w).2) !! k = assessments (repo w) !! k.

Lemma spares_bind {A B} (m : M World A) (f : A -> M World B) : spares m -> (forall a, spares (f a)) -> spares (m ≫= f).
Proof.
  intros Hm Hf w. unfold mbind, M_bind. specialize (Hm w). destruct (m w) as [[a|e] w1]; cbn [snd] in *; [|done].
  by rewrite Hf.
Qed.
Lemma spares_try {A} (m : M World A) c h : spares m -> (forall e, spares (h e)) -> spares (try_exceptM m c h).
Proof.
  intros Hm Hh w. unfold try_exceptM. specialize (Hm w). destruct (m w) as [[a|e] w1]; cbn [snd] in *; [done|].
  destruct (c e); [by rewrite Hh|done].
Qed.
Lemma spares_mapM {A B} (f : A -> M World B) l : (forall a, spares (f a)) -> spares (mapM_state f l).
Proof.
  intros Hf. induction l as [|x l IH]; [by intros w|]. cbn [mapM_state].
  apply spares_bind; [done|]. intros y. apply spares_bind; [done|]. by intros ys w.
Qed.
Lemma spares_ret {A} (a : A) : spares (mret a). Proof. by intros w. Qed.
Lemma spares_lift {A} (o : outcome A) : spares (lift o). Proof. by intros w. Qed.
Lemma spares_read {A} (f : Repo -> A) : spares (access (gets f)).
Proof. intros w. unfold access, gets. cbn. apply undisturbed. Qed.
Lemma spares_records {A} (m : M OracleState A) : spares (on_records m).
Proof. intros w. unfold on_records. by destruct (m (records w)). Qed.
Lemma spares_jobs {A} (m : M Jobs.Store A) : spares (on_jobs m).
Proof. intros w. unfold on_jobs. by destruct (m (job_table w)). Qed.
Lemma spares_register f : spares (update_register f).
Proof. intros w. unfold update_register. by destruct (permit_registry wiring). Qed.
Lemma spares_clock : spares utc_now. Proof. by intros w. Qed.
Lemma spares_nonce : spares new_nonce. Proof. by intros w. Qed.

#[local] Hint Resolve spares_ret spares_lift spares_read spares_records spares_jobs spares_register spares_clock
  spares_nonce : spares.

Ltac spares :=
  repeat first
    [ progress intros
    | solve [eauto 2 with spares]
    | apply spares_bind
    | apply spares_try
    | apply spares_mapM
    | match goal with |- spares (match ?x with _ => _ end) => destruct x end ].

Lemma audit_spares k' action p : spares (audit_record k' action p).
Proof.
  unfold audit_record. destruct (audit_outbox wiring); [|eauto with spares].
  apply spares_bind; [eauto with spares|]. by intros _ w.
Qed.
#[local] Hint Resolve audit_spares : spares.

Lemma permit_nonce_spares k' p : spares (record_permit_nonce k' p).
Proof.
  unfold record_permit_nonce. destruct p as [p|]; [|eauto with spares]. intros w.
  destruct (chain_log (records w)); [|done]. unfold lift, modify, mbind, M_bind. by destruct (audit_ok _).
Qed.
Lemma issue_spares k' sd pd : spares (issue_permit k' sd pd).
Proof. unfold issue_permit. spares. Qed.
Lemma firewall_spares k' scope : spares (apply_firewall k' scope).
Proof.
  unfold apply_firewall. destruct (nft_scope_enforcer wiring) as [nft|]; [|spares].
  destruct (apply_scope nft scope) as [added res]. apply spares_bind; [by intros w|]. intros _. destruct res; [by intros w|spares].
Qed.
Lemma load_spares k' : spares (load_plan k').
Proof. unfold load_plan. spares. Qed.
Lemma finding_spares k' f : spares (store_finding k' f).
Proof. unfold store_finding. spares. Qed.
Lemma oracle_spares k' fs : spares (oracle_pass k' fs).
Proof. unfold oracle_pass. spares. Qed.
Lemma flush_spares : spares flush_firewall.
Proof.
  intros w. unfold flush_firewall. destruct (nft_scope_enforcer wiring) as [nft|]; [|done]. destruct (nft_applied w); [|done].
  unfold suppress, revoke_rules, try_exceptM, mbind, M_bind. by destruct (nft_revoke nft _) as [l [u|e]].
Qed.
#[local] Hint Resolve permit_nonce_spares issue_spares firewall_spares load_spares finding_spares oracle_spares flush_spares : spares.

Lemma spares_status {A} X (m : M World A) w : spares m -> has_status X w -> ends m (fun _ => has_status X) (has_status X) w.
Proof.
  intros Hm (a & Ha & H). apply ends_state. exists a. by rewrite Hm.
Qed.

(** [fail] and [complete] settle the assessment: if the table refuses the
    change, it was settled before. *)
Lemma move_settles t w :
  t ∈ [AssessmentStatus.COMPLETED; AssessmentStatus.FAILED] -> active w ->
  ends (access (AssessmentService.move t k)) (fun _ => settled) settled w.
Proof.
  intros Ht (a & Ha & Hid & Hc & Hs). rewrite <- (undisturbed (repo_accesses w) (repo w)) in Ha.
  unfold ends, access, AssessmentService.move, AssessmentService.require, lift, modify, mbind, M_bind, mret, M_ret.
  cbv beta iota. rewrite Ha. cbn [unwrap].
  destruct (Transitions.assert_transition (status a) t) as [u|e] eqn:E.
  - exists (Assessment.set_status a t). cbn. rewrite Hid, lookup_insert_eq. done.
  - apply Transitions.assert_transition_Raise in E as [E _]. exists a. cbn. split_and!; [done..|].
    revert Ht Hs E. clear. destruct (status a), t; cbn; set_solver.
Qed.

Lemma block_settles why action p w : active w -> ends (block k why action p) (fun _ => settled) settled w.
Proof.
  intros Hw. unfold block. apply ends_bind. eapply ends_mono; [apply move_settles; [set_solver|done]| |done].
  intros a w1 H1. by apply spares_status; [apply audit_spares|].
Qed.

(** A step of a computation that leaves the assessment active. *)
Lemma ends_spared {A B} (m : M World A) (f : A -> M World B) Q w :
  spares m -> active w -> (forall a w1, m w = (Ret a, w1) -> active w1 -> ends (f a) Q active w1) ->
  ends (m ≫= f) Q active w.
Proof.
  intros Hm Hw Hf. apply ends_bind. pose proof (spares_status _ m w Hm Hw) as H. unfold ends in H |- *.
  destruct (m w) as [[a|e] w1] eqn:E; [|done]. by apply Hf.
Qed.

Lemma ends_settled {A} (m : M World A) Q w : ends m Q settled w -> ends m Q active w.
Proof. intros H. eapply ends_mono; [exact H|done|apply settled_active]. Qed.

Lemma verify_permit_ends permit w :
  active w ->
  ends (verify_permit permit k) (fun b w' => match b with Some _ => active w' | None => settled w' end) active w.
Proof.
  intros Hw. unfold verify_permit.
  destruct (permit_verifier wiring) as [v|]; [|done]. destruct permit as [p|]; [|done].
  unfold ends, gets, mbind at 1, M_bind at 1. cbv beta iota. fold (ends (A:=option bool) (S:=World)).
  change (ends (now ← utc_now;
    match Permits.verify v p now (used_nonces w) (Some "adapter-executor") with
    | Ret _ => update_register (PermitRevoker.record_used (nonce p));; mret (Some true)
    | Raise e => if is_domain_error e
        then block k ("PERMIT_INVALID:" +:+ exn_text e) "assessment.blocked.permit_invalid" [("reason", JStr (exn_text e))];; mret None
        else raise e end)
    (fun b w' => match b with Some _ => active w' | None => settled w' end) active w).
  apply ends_spared; [apply spares_clock|done|]. intros now w1 _ Hw1.
  destruct (Permits.verify v p now _ _) as [u|e].
  - apply ends_spared; [apply spares_register|done|]. by intros _ w2 _ Hw2.
  - destruct (is_domain_error e); [|done]. apply ends_bind, ends_settled.
    eapply ends_mono; [by apply block_settles|done|done].
Qed.

Lemma check_egress_ends t scope w :
  active w -> ends (check_egress t scope k) (fun b w' => if b : bool then active w' else settled w') active w.
Proof.
  intros Hw. unfold check_egress. destruct (egress_guard wiring) as [g|]; [|done].
  apply ends_spared; [apply spares_lift|done|]. intros d w1 _ Hw1. destruct (allowed d); [done|].
  apply ends_bind, ends_settled. by eapply ends_mono; [by apply block_settles|..].
Qed.

Lemma check_scope_ends t scope b0 w :
  active w -> ends (check_scope t scope b0 k) (fun b w' => if b : bool then active w' else settled w') active w.
Proof.
  intros Hw. unfold check_scope. destruct (scope_enforcer wiring) as [g|]; [|done].
  apply ends_spared; [apply spares_clock|done|]. intros now w0 _ Hw0.
  apply ends_spared; [apply spares_lift|done|]. intros d w1 _ Hw1. destruct (allowed d); [done|].
  apply ends_bind, ends_settled. by eapply ends_mono; [by apply block_settles|..].
Qed.

Lemma check_targets_ends l scope b0 w :
  active w -> ends (check_targets l scope b0 k) (fun b w' => if b : bool then active w' else settled w') active w.
Proof.
  revert w; induction l as [|t l IH]; intros w Hw; cbn [check_targets]; [done|].
  apply ends_bind. eapply ends_mono; [by apply check_egress_ends| |done]. intros [] w1 H1; [|done]. cbn [negb].
  apply ends_bind. eapply ends_mono; [by apply check_scope_ends| |done]. intros [] w2 H2; [by apply IH|done].
Qed.

Lemma gated_active w n : active w -> active (gated k w n) /\ gate_answer k w n = None.
Proof.
  intros Hw.
  assert (Hg : forall v, active v -> active (access (control_gate k) v).2 /\ (access (control_gate k) v).1 = Ret None).
  { intros v (a & Ha & Hid & Hc & Hs). rewrite <- (undisturbed (repo_accesses v) (repo v)) in Ha.
    unfold access, control_gate, get, mbind, M_bind. cbv beta iota. rewrite Ha, Hc. cbn. split; [|done]. by exists a. }
  assert (H : active (gated k w n)) by (induction n as [|n IH]; cbn [gated]; [done|by apply Hg]).
  split; [done|]. unfold gate_answer. by rewrite (proj2 (Hg _ H)).
Qed.

Lemma drain_ends plan scope rn w :
  step_runner_factory scope = Ret rn -> active w ->
  ends (drain k plan rn) (fun answer w' => active w' /\ answer.1 = "completed") active w.
Proof.
  intros Hf Hw. unfold drain.
  apply ends_spared; [intros v; cbn; by destruct (jobs_store wiring)|done|]. intros _ w1 _ Hw1.
  apply ends_spared; [apply spares_clock|done|]. intros now w2 _ Hw2. unfold run_jobs, ends.
  destruct ((Orchestrator.dispatch plan;; _) _) as [res o] eqn:E.
  assert (Ha : active (add_ran (calls o) (set_jobs (store o) (gated k w2 (gate_calls o))))) by (by apply gated_active).
  destruct res as [s|e]; [|done]. split; [done|]. cbn.
  revert E. unfold mbind, M_bind. destruct (Orchestrator.dispatch plan _) as [[js|e] o1]; [|done].
  apply run_to_completion_completed; [intros n; by apply gated_active|].
  intros l st e. by eapply plain_runner.
Qed.

Lemma finalize_settles rn calls w : active w -> ends (finalize_execution k rn calls) (fun _ => settled) active w.
Proof.
  intros Hw. unfold finalize_execution.
  apply ends_spared; [apply spares_lift|done|]. intros obs w1 _ Hw1.
  apply ends_spared; [apply spares_lift|done|]. intros fs w2 _ Hw2.
  apply ends_spared; [apply spares_jobs|done|]. intros l w3 _ Hw3.
  destruct (_ && _); [by apply ends_settled, block_settles|].
  apply ends_spared; [apply spares_mapM; intros f; apply finding_spares|done|]. intros ? w4 _ Hw4.
  apply ends_spared; [apply oracle_spares|done|]. intros ? w5 _ Hw5.
  apply ends_bind, ends_settled. eapply ends_mono; [apply move_settles; [set_solver|done]| |done].
  intros ? w6 H6. destruct (compute_coverage obs) as [rate unc].
  apply ends_settled. exact (spares_status _ _ _ (audit_spares _ _ _) H6).
Qed.

Lemma run_plan_settles p scope w : active w -> ends (run_plan k p scope) (fun _ => settled) active w.
Proof.
  intros Hw. unfold run_plan.
  apply ends_spared; [apply issue_spares|done|]. intros permit w1 _ Hw1.
  apply ends_bind. eapply ends_mono; [by apply verify_permit_ends| |done]. intros [b|] w2 Hw2; [|done].
  apply ends_spared; [apply permit_nonce_spares|done|]. intros ? w3 _ Hw3.
  apply ends_spared; [apply audit_spares|done|]. intros ? w4 _ Hw4.
  apply ends_bind. eapply (ends_mono _ (fun b w' => if b : bool then active w' else settled w') _ active).
  { unfold check_plan_scope. destruct (scope_enforcer wiring), (egress_guard wiring); by try apply check_targets_ends. }
  2: done.
  intros [] w5 Hw5; [|done]. cbn [negb].
  apply ends_spared; [apply firewall_spares|done|]. intros ? w6 _ Hw6.
  apply ends_spared; [apply spares_lift|done|]. intros rn w7 Hrn Hw7. injection Hrn as Hrn _.
  apply ends_bind. eapply ends_mono; [by eapply drain_ends| |done]. intros answer w8 [Hw8 Ha].
  unfold conclude. rewrite Ha. cbn. by apply finalize_settles.
Qed.

Lemma execute_body_settles w a :
  assessments (repo w) !! k = Some a -> id a = k -> control a = ControlState.NONE -> status a = AssessmentStatus.QUEUED ->
  ends (execute_body k) (fun _ => settled) active w.
Proof.
  intros Ha Hid Hc Hs. unfold execute_body. apply ends_bind.
  assert (Hm : ends (access (AssessmentService.mark_running k)) (fun _ => active) active w).
  { unfold ends, access, AssessmentService.mark_running, AssessmentService.move, AssessmentService.require, lift, modify,
      mbind, M_bind, mret, M_ret. cbv beta iota. rewrite undisturbed, Ha. cbn [unwrap].
    rewrite Hs. cbn. exists (Assessment.set_status a AssessmentStatus.RUNNING). cbn. rewrite Hid, lookup_insert_eq.
    split_and!; [done..|set_solver]. }
  eapply ends_mono; [exact Hm| |done]. intros ? w1 Hw1.
  case_bool_decide; [by apply ends_settled, block_settles|].
  apply ends_spared; [apply load_spares|done|]. intros [p scope] w2 _ Hw2. by apply run_plan_settles.
Qed.

(** *** What the last clauses leave *)

(** Neither the audit log nor the outbox refuses an event. *)
Definition audit_accepts : Prop :=
  (forall c, audit_ok c = Ret tt) /\ forall outbox c, audit_outbox wiring = Some outbox -> outbox c = Ret tt.

Lemma audit_record_Ret k' action p w : audit_accepts -> exists w', audit_record k' action p w = (Ret tt, w').
Proof.
  intros [H1 H2]. unfold audit_record. destruct (audit_outbox wiring) as [o|] eqn:E.
  - unfold lift, modify, mbind, M_bind. rewrite (H2 o _ eq_refl). by eexists.
  - unfold on_records, OracleService.audit, lift, modify, mbind, M_bind. rewrite H1. by eexists.
Qed.

Lemma suppress_Ret {S A} (m : M S A) s : exists s', suppress m s = (Ret tt, s').
Proof.
  unfold suppress, try_exceptM, mbind, M_bind, mret, M_ret. destruct (m s) as [[a|e] s']; cbn; by eexists.
Qed.

Lemma flush_Ret w : exists w', flush_firewall w = (Ret tt, w').
Proof.
  unfold flush_firewall. destruct (nft_scope_enforcer wiring) as [nft|]; [|by eexists].
  destruct (nft_applied w); [apply suppress_Ret|by eexists].
Qed.

(** The assessment and the answer. *)
Lemma execution_ends w a :
  System.reachable (repo w) -> assessments (repo w) !! k = Some a -> status a = AssessmentStatus.QUEUED ->
  let '(o, w') := execute_assessment k w in
  (exists a', assessments (repo w') !! k = Some a' /\ id a' = k
     /\ (status a' = AssessmentStatus.COMPLETED \/ status a' = AssessmentStatus.FAILED))
  /\ (audit_accepts -> o = Ret tt).
Proof.
  intros Hr Ha Hs. pose proof (AssessmentService.wf_id _ (System.system_wf _ Hr) _ _ Ha) as Hid.
  assert (Hc : control a = ControlState.NONE).
  { apply (System.system_unsignalled _ Hr _ _ Ha). rewrite Hs. unfold System.not_started. set_solver. }
  pose proof (execute_body_settles (set_firewall (firewall w) false w) a Ha Hid Hc Hs) as Hb.
  unfold execute_assessment, finally, modify, try_exceptM, ends in *. unfold mbind at 1, M_bind at 1. cbv beta iota.
  destruct (execute_body k _) as [[u|e] w1].
  2: cbn [any_exception]; set (h := suppress _;; _);
    assert (Hh : settled (h w1).2 /\ (audit_accepts -> (h w1).1 = Ret tt)).
  2: { unfold h, mbind, M_bind. pose proof (move_settles AssessmentStatus.FAILED w1 ltac:(set_solver) Hb) as Hm.
       destruct (suppress_Ret (access (AssessmentService.fail k (exn_text e))) w1) as [w2 E2].
       assert (H2 : settled w2).
       { revert E2. unfold suppress, try_exceptM, mbind, M_bind, mret, M_ret, AssessmentService.fail. unfold ends in Hm.
         destruct (access _ w1) as [[x|x] w3]; cbn; by intros [= <-]. }
       rewrite E2. split.
       - apply ends_state. by apply spares_status; [apply audit_spares|].
       - intros Hok. destruct (audit_record_Ret k "assessment.failed" [("reason", JStr (exn_text e))] w2 Hok) as [w3 ->]. done. }
  2: destruct (h w1) as [o w1']; cbn [fst snd] in Hh; destruct Hh as [Hb' Ho]; clear Hb; rename Hb' into Hb; clear w1 h;
     rename w1' into w1.
  all: pose proof (spares_status _ _ _ flush_spares Hb) as Hf; destruct (flush_Ret w1) as [w2 E]; unfold ends in Hf;
    rewrite E in Hf |- *.
  all: split; [|first [exact Ho|by destruct u]].
  all: destruct Hf as (a' & ? & ? & _ & Hst); exists a'; split_and!; [done..|set_solver].
Qed.

(** C14: An execution always ends its assessment. A queued assessment that nobody
    else touches is COMPLETED or FAILED when its execution returns, whatever
    goes wrong on the way: a missing plan or scope, a permit that does not
    verify, a refused target, a failing firewall, runner, correlation,
    finding repository, oracle or audit; of a runner it is only assumed that it
    does not raise the orchestrator's own control exceptions. It returns
    without an exception if the audit accepts its events. The packet filter is
    left as it was, or as [revoke] leaves it once [apply_scope] has returned;
    what a raising [apply_scope] had already added stays. *)
Theorem execution_always_settles w a :
  System.reachable (repo w) -> assessments (repo w) !! k = Some a -> status a = AssessmentStatus.QUEUED ->
  let '(o, w') := execute_assessment k w in
  (exists a', assessments (repo w') !! k = Some a' /\ id a' = k
     /\ (status a' = AssessmentStatus.COMPLETED \/ status a' = AssessmentStatus.FAILED))
  /\ (audit_accepts -> o = Ret tt)
  /\ rules_after w w'.
Proof.
  intros Hr Ha Hs. pose proof (execution_ends w a Hr Ha Hs) as H. pose proof (execution_rules k w) as Hrules.
  destruct (execute_assessment k w) as [o w']. destruct H as [H Ho]. by split_and!.
Qed.

End settles.
End facts.

(** ** Cancellation *)

(** What a cancelled run makes of a job. *)
Definition skipped (j : Job) : Job :=
  if bool_decide (job_status j ∈ unfinished) then Jobs.with_lease None None (Jobs.with_status JobStatus.SKIPPED j) else j.

Lemma skip_all_spec l s :
  Jobs.wf s -> NoDup (job_id <$> l) -> (forall j, j ∈ l -> PyDict.get (job_id j) s = Some j) ->
  exists s', skip_all l s = (Ret tt, s') /\ Jobs.wf s'
    /\ forall i, PyDict.get i s' = (if bool_decide (i ∈ job_id <$> l) then skipped else fun j => j) <$> PyDict.get i s.
Proof.
  revert s; induction l as [|j l IH]; intros s Hwf Hnd Hl.
  { exists s. cbn. split_and!; [done..|]. intros i. by destruct (PyDict.get i s). }
  rewrite fmap_cons in Hnd. apply NoDup_cons in Hnd as [Hni Hnd].
  assert (Hg : PyDict.get (job_id j) s = Some j) by (apply Hl; left).
  set (s1 := PyDict.set (job_id j) (skipped j) s).
  assert (Hstep : skip_all (j :: l) s = skip_all l s1).
  { cbn. unfold s1, skipped, JobService.skip, Jobs.skip. case_bool_decide.
    - unfold mbind, M_bind, mret, M_ret. by rewrite Jobs.set_job_spec, Hg.
    - by rewrite PyDict.set_same. }
  assert (Hwf1 : Jobs.wf s1).
  { unfold s1, skipped. case_bool_decide; [|by rewrite PyDict.set_same].
    pose proof (Jobs.run_wf 0 (Jobs.Skip (job_id j)) s Hwf) as H0. cbn in H0.
    unfold Jobs.skip in H0. by rewrite Jobs.set_job_spec, Hg in H0. }
  rewrite Hstep. destruct (IH s1 Hwf1 Hnd) as (s' & E & Hw & Hget).
  { intros j' Hj'. unfold s1. rewrite PyDict.get_set_ne; [apply Hl; by right|].
    intros E. apply Hni. rewrite E. apply list_elem_of_fmap. by exists j'. }
  exists s'. split_and!; [done..|]. intros i. rewrite Hget. unfold s1. rewrite PyDict.get_set. case_decide as E'.
  - subst. rewrite Hg, (bool_decide_true (job_id j ∈ job_id <$> j :: l)) by (cbn; left).
    by rewrite (bool_decide_false (job_id j ∈ job_id <$> l) Hni).
  - rewrite (bool_decide_ext (i ∈ job_id <$> j :: l) (i ∈ job_id <$> l)); [done|].
    cbn. rewrite elem_of_cons. naive_solver.
Qed.

(** A cancelled run leaves no job that could still be run; and it does so to
    every job of the table, whichever assessment the job belongs to. *)
Lemma cancelled_leaves_no_work {env : Environment} k w :
  Jobs.wf (job_table w) ->
  let t := job_table (handle_cancelled k w).2 in
  (forall i, PyDict.get i t = skipped <$> PyDict.get i (job_table w))
  /\ forall i j, PyDict.get i t = Some j -> job_status j ∉ unfinished.
Proof.
  intros Hwf.
  destruct (skip_all_spec (PyDict.values (job_table w)) (job_table w)) as (s' & E & _ & Hget); [done| | |].
  { apply Jobs.values_ids_nodup. done. }
  { intros j Hj. by apply Orchestrator.values_get. }
  assert (Ht : job_table (handle_cancelled k w).2 = s').
  { assert (Ha : forall action p v, job_table (audit_record k action p v).2 = job_table v).
    { intros action p v. unfold audit_record. destruct (audit_outbox wiring) as [o|].
      - unfold lift, modify, mbind, M_bind. by destruct (o _).
      - unfold on_records. by destruct (OracleService.audit _ _ _). }
    unfold handle_cancelled, on_jobs, JobService.all, Jobs.all, gets, mbind, M_bind, mret, M_ret. rewrite E.
    destruct (cancel_terminator wiring) as [c|]; [|by rewrite Ha].
    destruct (c k) as [n|e]; [by rewrite Ha|].
    pose proof (Ha "assessment.cancel.termination_failed" [("reason", JStr (exn_text e))] (set_jobs s' w)) as H0.
    destruct (audit_record _ _ _ (set_jobs s' w)) as [[u|x] v]; cbn in *; [by rewrite Ha|done]. }
  assert (Hall : forall i, PyDict.get i s' = skipped <$> PyDict.get i (job_table w)).
  { intros i. rewrite Hget. case_bool_decide as Hi; [done|]. destruct (PyDict.get i (job_table w)) as [j|] eqn:Ej; [|done].
    exfalso. apply Hi. apply list_elem_of_fmap. exists j. split; [symmetry; by eapply Jobs.wf_ids|].
    apply Orchestrator.values_get; [done|]. by rewrite (Jobs.wf_ids _ Hwf _ _ Ej). }
  rewrite Ht. split; [done|]. intros i j. rewrite Hall. intros (j0 & _ & ->)%fmap_Some. unfold skipped.
  case_bool_decide as Hu; [|done]. cbn. set_solver.
Qed.

(** ** Concrete executions *)
Module ExecutionDemo.

(** Assessment asm-1 with the two-step plan, approved with no risk and no
    capability, and started. *)
Definition demo_ops : list (AssessmentService.op ScopeSnapshot) :=
  AssessmentService.demo_prefix_of ScopeSnapshot ++
  [AssessmentService.Approve (mkAuthority None None) 0 "1" "asm-1" "ana" ∅ ∅ "sha256:scope" "human" None;
   AssessmentService.Start (mkAuthority None None) 0 "asm-1" "human" None].
Definition demo_repo : Repo := AssessmentService.run_all demo_ops empty_repo.

Lemma demo_repo_reachable : System.reachable demo_repo.
Proof.
  assert (H : rtc (AssessmentService.step (Scope:=ScopeSnapshot)) empty_repo demo_repo)
    by (apply AssessmentService.run_all_steps; vm_compute; tauto).
  eapply rtc_subrel; [|exact H]. intros r r'. apply System.sys_call.
Qed.

Definition demo_scope : ScopeSnapshot :=
  mkScope "scope-1" "proj" ["10.1.2.3"] [] [443] Scope.default_limits "ana" 0 "sha256:scope" [].

(** The runner finds something in every step. *)
Definition demo_runner : Runner :=
  mkRunner (fun _ s => RunOk (step_key s))
    (fun calls => Ret ((fun s => FindingCorrelation.demo_observation (step_key s) "zap" Severity.HIGH [step_key s]) <$> reverse calls)).

Definition demo_wiring (stop : option bool) (guard : option (json -> ScopeSnapshot -> outcome PolicyDecision)) : Wiring :=
  mkWiring None [] stop (Some (fun m => "sig:" +:+ m)) true (Some (fun m s => String.eqb s ("sig:" +:+ m)))
    (Some (fun _ => Ret [])) guard None None None true None.

(** [calls n] are the service calls that arrive before access [n]. *)
Definition demo_env (calls : nat -> list (AssessmentService.op ScopeSnapshot)) (w : Wiring) : Environment :=
  {| api n r := AssessmentService.run_all (calls n) r;
     time n := PyTime.seconds (Z.of_nat n);
     token_urlsafe n := "nonce-" +:+ pretty n;
     uni := FrozenScope.ascii_only;
     audit_ok _ := Ret tt;
     exn_text := message;
     snapshots i := if String.eqb i "scope-1" then Some demo_scope else None;
     step_runner_factory _ := Ret demo_runner;
     finding_ok _ := Ret tt;
     lease_ttl := 60;
     fdiv _ _ := zero;
     wiring := w |}.

Definition alone : nat -> list (AssessmentService.op ScopeSnapshot) := fun _ => [].
Definition at_access (n : nat) (o : AssessmentService.op ScopeSnapshot) : nat -> list (AssessmentService.op ScopeSnapshot) :=
  fun m => if Nat.eqb m n then [o] else [].

Definition world_of (r : Repo) : World :=
  mkWorld r 0 0 [] [] PermitRevoker.initial (mkOracleState Canary.initial [] (Some []) [] []) [] [] false.

Definition start_with calls w : World := (execute_assessment (env:=demo_env calls w) "asm-1" (world_of demo_repo)).2.

Record view : Type := mkView { v_status : option AssessmentStatus; v_ran : list string; v_findings : list (list string); v_audit : list string }.
Definition view_of (w : World) : view :=
  mkView (status <$> assessments (repo w) !! "asm-1") (step_key <$> ran w)
    (fd_observation_ids <$> finding_rows (records w)) (call_action <$> audit_log (records w)).

Example demo_executions :
  view_of (start_with alone (demo_wiring (Some false) None))
    = mkView (Some AssessmentStatus.COMPLETED) ["exploit"; "recon"] [["recon"]; ["exploit"]]
        ["assessment.started"; "assessment.completed"]
  /\ view_of (start_with alone (demo_wiring (Some true) None))
    = mkView (Some AssessmentStatus.FAILED) [] [] ["assessment.blocked.emergency_stop"]
  /\ view_of (start_with alone (demo_wiring None (Some (fun _ _ => Ret (mkPolicyDecision false "OUT_OF_SCOPE")))))
    = mkView (Some AssessmentStatus.FAILED) [] [] ["assessment.started"; "assessment.blocked.egress_denied"].
Proof. vm_compute. done. Qed.

(** A packet filter whose second element is refused: the first was added, and
    nobody revokes it. *)
Definition with_nft (nft : Nft) (w : Wiring) : Wiring :=
  mkWiring (catalog w) (asset_types w) (emergency_stop w) (permit_signer w) (permit_registry w) (permit_verifier w)
    (scope_enforcer w) (egress_guard w) (Some nft) (audit_outbox w) (oracle w) (jobs_store w) (cancel_terminator w).
Definition failing_nft (n : nat) : Nft :=
  let elements := ["10.0.0.1"; "10.0.0.2"] in
  mkNft (fun _ => (take n elements, if bool_decide (n = 2%nat) then Ret tt else Raise (RuntimeError "nft failed")))
    (fun _ => ([], Ret tt)).
Example pushed_rules_are_left :
  (fun n => let w := start_with alone (with_nft (failing_nft n) (demo_wiring None None)) in
            (firewall w, v_status (view_of w), v_audit (view_of w))) <$> [2; 1]%nat
  = [([], Some AssessmentStatus.COMPLETED, ["assessment.started"; "assessment.completed"]);
     (["10.0.0.1"], Some AssessmentStatus.COMPLETED,
      ["assessment.started"; "egress.hardening_unavailable"; "assessment.completed"])].
Proof. vm_compute. reflexivity. Qed.

(** A service call between two executions. *)
Definition then_call (o : AssessmentService.op ScopeSnapshot) (w : World) : World :=
  set_repo (AssessmentService.run o (repo w)).2 w.
Definition then_resume (w : Wiring) (v : World) : World :=
  (resume_assessment (env:=demo_env alone w) "asm-1" (then_call (AssessmentService.Resume "asm-1") v)).2.

(** What was observed before a pause is lost: the paused execution returns
    without correlating, and the resumed one asks a new runner, which only
    knows the steps it ran itself. *)
Lemma pause_loses_observations :
  let w := demo_wiring None None in
  let paused := start_with (at_access 4 (AssessmentService.Pause "asm-1")) w in
  view_of paused = mkView (Some AssessmentStatus.PAUSED) ["recon"] [] ["assessment.started"; "assessment.paused"]
  /\ view_of (then_resume w paused)
     = mkView (Some AssessmentStatus.COMPLETED) ["exploit"; "recon"] [["exploit"]]
         ["assessment.started"; "assessment.paused"; "assessment.resumed"; "assessment.completed"].
Proof. vm_compute. done. Qed.

(** A pause that arrives during the last step: every step succeeded and the
    findings are stored, but the audit says the assessment failed and its
    status stays PAUSED. *)
Lemma pause_in_last_step_is_audited_as_failure :
  view_of (start_with (at_access 5 (AssessmentService.Pause "asm-1")) (demo_wiring None None))
  = mkView (Some AssessmentStatus.PAUSED) ["exploit"; "recon"] [["recon"]; ["exploit"]]
      ["assessment.started"; "assessment.failed"].
Proof. vm_compute. done. Qed.

(** A second executor for a running assessment marks it FAILED. *)
Lemma second_executor_fails_the_first :
  let running := (AssessmentService.run (Scope:=ScopeSnapshot) (AssessmentService.MarkRunning "asm-1") demo_repo).2 in
  view_of (execute_assessment (env:=demo_env alone (demo_wiring None None)) "asm-1" (world_of running)).2
  = mkView (Some AssessmentStatus.FAILED) [] [] ["assessment.failed"].
Proof. vm_compute. done. Qed.

(** An emergency stop triggered during a pause does not keep the resumed
    execution from running the remaining steps. *)
Lemma resume_ignores_emergency_stop :
  let paused := start_with (at_access 4 (AssessmentService.Pause "asm-1")) (demo_wiring (Some false) None) in
  v_ran (view_of (then_resume (demo_wiring (Some true) None) paused)) = ["exploit"; "recon"].
Proof. vm_compute. done. Qed.

(** An approval that approves no risk class and no capability is enough to
    run a plan with an active step: nothing compares the two. *)
Lemma approved_risks_are_not_enforced :
  ((fun ia => (elements (approved_risks ia.2), elements (approved_capabilities ia.2))) <$> map_to_list (approvals demo_repo))
    = [([], [])]
  /\ v_ran (view_of (start_with alone (demo_wiring None None))) = ["exploit"; "recon"]
  /\ ((fun s => (step_key s, risk s)) <$> Plan.demo_steps) = [("recon", RiskClass.LOW); ("exploit", RiskClass.ACTIVE)].
Proof. vm_compute. done. Qed.

(** Job identifiers are made of the step key alone. *)
Definition job_at (key idem : string) (st : JobStatus) : Job :=
  mkJob ("job:" +:+ key) key idem st 0 3 None None "" "" [] [].

(** Cancelling one assessment skips the jobs of the others. *)
Lemma cancel_skips_other_assessments :
  let others := [("job:web", job_at "web" "other-plan:web" JobStatus.READY)] in
  let w := (execute_assessment (env:=demo_env (at_access 4 (AssessmentService.Cancel "asm-1")) (demo_wiring None None)) "asm-1"
              (set_jobs others (world_of demo_repo))).2 in
  v_status (view_of w) = Some AssessmentStatus.CANCELLED
  /\ (job_status <$> PyDict.get "job:web" (job_table w)) = Some JobStatus.SKIPPED.
Proof. vm_compute. done. Qed.

(** Dispatching a plan replaces the jobs of another plan that has a step with
    the same key, even one that is being run; the planner gives every
    assessment of the same asset type the same keys. *)
Lemma dispatch_replaces_other_plans_jobs :
  let other := job_at "recon" "other-plan:recon" JobStatus.LEASED in
  let plan := mkExecutionPlan "p" "asm-1" 1 Plan.demo_steps "sha256:this" in
  let o := (Orchestrator.dispatch plan (mkOrch [("job:recon", other)] [] [] 0)).2 in
  (idempotency_key <$> PyDict.get "job:recon" (store o)) = Some "sha256:this:recon"
  /\ length (store o) = 2%nat.
Proof. vm_compute. done. Qed.

(** Revoking a permit has no effect on its verification: after an emergency
    stop the permits it revoked still verify. *)
Lemma revoked_permit_still_verifies :
  let env := demo_env alone (demo_wiring None None) in
  match issue_permit (env:=env) "asm-1" "sha256:scope" "sha256:plan" (world_of demo_repo) with
  | (Ret (Some p), w) =>
      let stopped := (EmergencyStop.trigger (fun _ => Ret tt) (Ret 0) "ana" "incident" (mkStop false (register w) [])).2 in
      PermitRevoker.is_revoked (nonce p) (permit_revoker stopped) = true
      /\ (verify_permit (env:=env) (Some p) "asm-1" (set_register (permit_revoker stopped) w)).1 = Ret (Some true)
  | _ => False
  end.
Proof. vm_compute. done. Qed.

#[export] Instance alone_callers w : LawfulCallers (env:=demo_env alone w).
Proof. intros n r. apply rtc_refl. Qed.
#[export] Instance alone_undisturbed w : Undisturbed (env:=demo_env alone w) "asm-1".
Proof. done. Qed.
#[export] Instance demo_plain calls w : PlainRunners (env:=demo_env calls w).
Proof. intros scope rn l s e [= <-]. done. Qed.

Lemma executed_steps_were_authorised_witness :
  exists l, ran (start_with alone (demo_wiring None None)) = l ++ [] /\ length l = 2%nat
  /\ exists a pid p, assessments (repo (start_with alone (demo_wiring None None))) !! "asm-1" = Some a
       /\ active_plan_id a = Some pid /\ plans (repo (start_with alone (demo_wiring None None))) !! pid = Some p
       /\ forall s, s ∈ l -> s ∈ steps p.
Proof.
  destruct (executed_steps_were_authorised (env:=demo_env alone (demo_wiring None None)) "asm-1" (world_of demo_repo)
              demo_repo_reachable) as (l & El & Hl).
  exists l. split; [exact El|].
  assert (Hn : length (ran (start_with alone (demo_wiring None None))) = 2%nat) by (vm_compute; reflexivity).
  assert (Hlen : length l = 2%nat).
  { unfold start_with in Hn. rewrite El in Hn. rewrite app_nil_r in Hn. exact Hn. }
  split; [exact Hlen|]. destruct Hl as [->|(_ & _ & a & pid & p & _ & _ & _ & Ha & Hpid & Hp & Hin & _)]; [discriminate Hlen|].
  exists a, pid, p. split; [exact Ha|]. split; [exact Hpid|]. split; [exact Hp|exact Hin].
Defined.

Lemma execution_always_settles_witness :
  exists a', assessments (repo (start_with alone (demo_wiring None None))) !! "asm-1" = Some a'
    /\ (status a' = AssessmentStatus.COMPLETED \/ status a' = AssessmentStatus.FAILED).
Proof.
  destruct (assessments demo_repo !! "asm-1") as [a|] eqn:Ha; [|vm_compute in Ha; discriminate Ha].
  assert (Hs : status a = AssessmentStatus.QUEUED).
  { assert (E : (status <$> assessments demo_repo !! "asm-1") = Some AssessmentStatus.QUEUED) by (vm_compute; reflexivity).
    rewrite Ha in E. by injection E. }
  pose proof (execution_always_settles (env:=demo_env alone (demo_wiring None None)) "asm-1" (world_of demo_repo) a
                demo_repo_reachable Ha Hs) as H.
  unfold start_with. destruct (execute_assessment "asm-1" (world_of demo_repo)) as [o w'].
  destruct H as [(a' & H1 & _ & H2) _]. exists a'. split; [exact H1|exact H2].
Defined.

End ExecutionDemo.
