(* ===== verification/Workspace.v ===== *)
(** * Workspace snapshots and deliverables

    Models [src/secopent/infrastructure/safety/workspace_snapshot.py] (Module
    [Snapshots]), [application/checkpoint.py] (Module [Checkpoint]) and
    [application/deliverables.py] (Module [Deliverables]).  A directory is the
    list of its entries; links, permissions and times are left out.  The
    random part of a snapshot name and the action of a phase are parameters. *)
From S2P Require Import Prelude PyStr PyDict StepRunner.

#[local] Open Scope Z_scope.

Inductive node : Type :=
| File (content : string)
| Dir (entries : list (string * node)).

(** The snapshot directory, by file name, and the working directory, which
    may be missing. *)
Record World : Type := mkWorld {
  archives : gmap string (dict node);
  work : option (dict node)
}.

Record SnapshotRef : Type := mkRef { ref_id : string; ref_job : string; ref_phase : string; ref_path : string }.

Module Snapshots.

Definition EXCLUDED_DIRS : list string := [".git"; ".hg"; ".svn"; "__pycache__"; ".shannon"].

Definition archive_name (snap_id : string) : string := snap_id +:+ ".tar.gz".

Definition entry_le (a b : string * node) : Prop := String.le a.1 b.1.
#[export] Instance entry_le_dec : RelDecision entry_le := fun a b => decide (String.le a.1 b.1).

(** [sorted(workdir.iterdir())] without the excluded names *)
Definition archived (l : dict node) : dict node :=
  List.filter (fun e => negb (bool_decide (e.1 ∈ EXCLUDED_DIRS))) (merge_sort entry_le l).

(** The archive is opened before the directory is read. *)
Definition create (job_id phase hex : string) : M World string := fun w =>
  let snap_id := "snap-" +:+ job_id +:+ "-" +:+ phase +:+ "-" +:+ hex in
  let store l := mkWorld (<[archive_name snap_id := l]> (archives w)) (work w) in
  match work w with
  | None => (Raise (OSError "No such file or directory"), store [])
  | Some l => (Ret snap_id, store (archived l))
  end.

Definition restore (snap_id : string) : M World unit := fun w =>
  match archives w !! archive_name snap_id with
  | None => (Raise (SnapshotMissing ("snapshot not found: " +:+ snap_id)), w)
  | Some l => (Ret tt, mkWorld (archives w) (Some l))
  end.

(** [Path.stem] of an archive: only the last suffix goes. *)
Definition stem (file : string) : string :=
  let '(a, dot, b) := PyStr.rpartition "." file in
  if dot && PyStr.truthy a && PyStr.truthy b then a else file.

Definition phase_of (remainder : string) : string :=
  let '(phase, dash, _) := PyStr.rpartition "-" remainder in if dash : bool then phase else remainder.

Definition list_for_job (job_id : string) (w : World) : list SnapshotRef :=
  let prefix := "snap-" +:+ job_id +:+ "-" in
  let names := PyStr.sorted (List.filter (fun f => PyStr.startswith f "snap-" && PyStr.endswith f ".tar.gz")
                               (elements (dom (archives w)))) in
  omap (fun f => if PyStr.startswith (stem f) prefix
                 then Some (mkRef (stem f) job_id (phase_of (PyStr.removeprefix (stem f) prefix)) f) else None) names.

(** An entry of the working directory. *)
Definition entry (name : string) (w : World) : option node := work w ≫= PyDict.get name.

Lemma archived_wf l : PyDict.wf l -> PyDict.wf (archived l).
Proof.
  unfold PyDict.wf, PyDict.keys, archived. intros H.
  assert (Hs : NoDup (merge_sort entry_le l).*1) by (by rewrite merge_sort_Permutation).
  revert Hs. generalize (merge_sort entry_le l). clear. intros l. induction l as [|e l IH]; [done|].
  cbn. intros [Hn Hl]%NoDup_cons. destruct (negb _); [|by apply IH]. cbn. apply NoDup_cons. split; [|by apply IH].
  intros (x & Hx & [Hin _]%elem_filter)%list_elem_of_fmap. apply Hn, list_elem_of_fmap. by exists x.
Qed.

(** The archive holds every entry but the excluded ones. *)
Lemma get_archived l name :
  PyDict.wf l -> PyDict.get name (archived l) = if bool_decide (name ∈ EXCLUDED_DIRS) then None else PyDict.get name l.
Proof.
  intros Hl. apply option_eq. intros v. rewrite PyDict.get_In by (by apply archived_wf).
  unfold archived. rewrite elem_filter, merge_sort_Permutation, <- PyDict.get_In by done. cbn.
  case_bool_decide; cbn; naive_solver.
Qed.

End Snapshots.

Record PhaseResult : Type := mkPhase { pr_snapshot_id : string; rolled_back : bool }.

Module Checkpoint.
Section phase.
(** What a phase does to the working directory. *)
Context (action : M (option (dict node)) unit).

Definition in_work {A} (m : M (option (dict node)) A) : M World A := fun w =>
  let '(o, d) := m (work w) in (o, mkWorld (archives w) d).

(** [CheckpointService.run_phase] *)
Definition run_phase (job_id phase hex : string) : M World PhaseResult :=
  snapshot_id ← Snapshots.create job_id phase hex;
  try_exceptM (in_work action) is_exception
    (fun _ => Snapshots.restore snapshot_id;;
              raise (PhaseFailedError ("phase '" +:+ phase +:+ "' of job '" +:+ job_id +:+ "' failed; workspace "
                                       +:+ "rolled back to snapshot " +:+ snapshot_id)));;
  mret (mkPhase snapshot_id false).

(** C33: a phase is kept or undone. In a working directory that exists, a
    phase whose action returns keeps what the action did; one whose action
    raises leaves every entry as it was before the phase, whatever the action
    did to it, and raises a [PhaseFailedError] and nothing else. The excluded
    entries alone are lost. Snapshots of other names are untouched, and the
    one taken holds the state before the phase. *)
Theorem phase_is_kept_or_undone job_id phase hex w l :
  work w = Some l -> PyDict.wf l ->
  (forall d e d', action d = (Raise e, d') -> is_exception e = true) ->
  let '(o, w') := run_phase job_id phase hex w in
  let id := "snap-" +:+ job_id +:+ "-" +:+ phase +:+ "-" +:+ hex in
  archives w' = <[Snapshots.archive_name id := Snapshots.archived l]> (archives w)
  /\ match action (Some l) with
     | (Ret _, d) => o = Ret (mkPhase id false) /\ work w' = d
     | (Raise _, _) => (exists msg, o = Raise (PhaseFailedError msg))
         /\ forall name, Snapshots.entry name w'
                        = if bool_decide (name ∈ Snapshots.EXCLUDED_DIRS) then None else Snapshots.entry name w
     end.
Proof.
  intros Hw Hl Hx. unfold run_phase, try_exceptM, in_work, mbind, M_bind, Snapshots.create. rewrite Hw. cbn [work archives].
  destruct (action (Some l)) as [[[]|e] d] eqn:Ea; [done|]. rewrite (Hx _ _ _ Ea).
  unfold Snapshots.restore. cbn [archives]. rewrite lookup_insert_eq. cbn. split; [done|]. split; [by eexists|].
  intros name. unfold Snapshots.entry. rewrite Hw. cbn [work mbind option_bind]. by apply Snapshots.get_archived.
Qed.

End phase.

(** ** Concrete runs *)
Definition demo_dir : dict node := [("src", Dir [("a.py", File "x")]); (".git", Dir [("HEAD", File "ref")]); ("out", File "1")].
Definition demo_world : World := mkWorld ∅ (Some demo_dir).
Definition wipe_then_fail : M (option (dict node)) unit := fun _ => (Raise (RuntimeError "boom"), Some [("junk", File "")]).

(** The entries that are not archived do not survive a rollback. *)
Example rollback_destroys_version_control :
  work (run_phase wipe_then_fail "j1" "recon" "0a1b2c3d" demo_world).2 = Some [("out", File "1"); ("src", Dir [("a.py", File "x")])].
Proof. vm_compute. done. Qed.

(** The identifiers a listing gives keep one suffix of the file name, so they
    cannot be restored. *)
Example listed_snapshots_cannot_be_restored :
  let w := (run_phase (fun d => (Ret tt, d)) "j1" "recon" "0a1b2c3d" demo_world).2 in
  ref_id <$> Snapshots.list_for_job "j1" w = ["snap-j1-recon-0a1b2c3d.tar"]
  /\ (Snapshots.restore "snap-j1-recon-0a1b2c3d.tar" w).1 = Raise (SnapshotMissing "snapshot not found: snap-j1-recon-0a1b2c3d.tar")
  /\ is_Ret (Snapshots.restore "snap-j1-recon-0a1b2c3d" w).1 = true.
Proof. vm_compute. done. Qed.

(** A job is listed with the snapshots of every job whose name it begins. *)
Example listing_takes_other_jobs :
  let w := (run_phase (fun d => (Ret tt, d)) "j-2" "recon" "0a1b2c3d" demo_world).2 in
  (fun r => (ref_job r, ref_phase r)) <$> Snapshots.list_for_job "j" w = [("j", "2-recon")].
Proof. vm_compute. done. Qed.

Lemma phase_is_kept_or_undone_witness :
  let w' := (run_phase wipe_then_fail "j1" "recon" "0a1b2c3d" demo_world).2 in
  Snapshots.entry "src" w' = Snapshots.entry "src" demo_world.
Proof.
  pose proof (phase_is_kept_or_undone wipe_then_fail "j1" "recon" "0a1b2c3d" demo_world demo_dir eq_refl
    ltac:(by apply (bool_decide_unpack _); vm_compute) ltac:(by intros d e d' [= <- _])) as H.
  destruct (run_phase _ _ _ _ _) as [o w']. cbn. apply (proj2 (proj2 H) "src").
Defined.

End Checkpoint.

(** ** Deliverables *)
Module Deliverables.

(** [path / name]; an absolute name replaces the path. *)
Definition join (path name : string) : string :=
  if PyStr.startswith name "/" then PosixPath.path_str name else PosixPath.path_str (path +:+ "/" +:+ name).

Definition deliverable_path (root phase : string) : string :=
  join (join (PosixPath.path_str root) "deliverables") (phase +:+ "_deliverable.md").

Definition scratchpad_dir (root : string) : string := join (PosixPath.path_str root) "scratchpad".

(** The files by path; directories are made on the way. *)
Record Disk : Type := mkDisk { files : gmap string string; dirs : gset string }.

Definition write_deliverable (root phase content : string) (d : Disk) : Disk :=
  mkDisk (<[deliverable_path root phase := content]> (files d)) ({[scratchpad_dir root]} ∪ dirs d).

Definition read_deliverable (root phase : string) (d : Disk) : outcome string :=
  unwrap (files d !! deliverable_path root phase) (OSError "No such file or directory").

Definition check_phase (root : string) (d : Disk) (phase : string) : outcome unit :=
  let path := deliverable_path root phase in
  match files d !! path with
  | None => Raise (DeliverableValidationError ("missing deliverable for phase '" +:+ phase +:+ "': " +:+ path))
  | Some text =>
      raise_if (PyStr.is_empty (PyStr.strip text))
        (DeliverableValidationError ("empty deliverable for phase '" +:+ phase +:+ "': " +:+ path))
  end.

Fixpoint validate_layout (root : string) (d : Disk) (required_phases : list string) : outcome unit :=
  match required_phases with
  | [] => Ret tt
  | p :: ps => check_phase root d p;; validate_layout root d ps
  end.

(** A layout is valid exactly when every required phase has a deliverable
    that is not blank; a deliverable reads back as written. *)
Lemma validation_is_exact root d phases :
  validate_layout root d phases = Ret tt
  <-> forall p, p ∈ phases -> exists text, read_deliverable root p d = Ret text /\ PyStr.strip text <> "".
Proof.
  induction phases as [|p ps IH]; cbn [validate_layout]; [by split; [intros _ p ?%elem_of_nil|]|].
  assert (check_phase root d p = Ret tt <-> exists text, read_deliverable root p d = Ret text /\ PyStr.strip text <> "") as Hp.
  { unfold check_phase, read_deliverable. destruct (files d !! _) as [text|]; cbn; [|naive_solver].
    rewrite raise_if_Ret, PyStr.is_empty_false. naive_solver. }
  rewrite bind_Ret. setoid_rewrite IH. split.
  - intros ([] & H1%Hp & H2) q [->|Hq]%elem_of_cons; eauto.
  - intros H. exists tt. split; [apply Hp, H; by left|]. intros q Hq. apply H. by right.
Qed.

Lemma written_deliverable_reads_back root phase content d :
  read_deliverable root phase (write_deliverable root phase content d) = Ret content.
Proof. unfold read_deliverable, write_deliverable. cbn. by rewrite lookup_insert_eq. Qed.

Example demo_paths :
  deliverable_path "/work//run/" "recon" = "/work/run/deliverables/recon_deliverable.md" /\ scratchpad_dir "/work" = "/work/scratchpad".
Proof. vm_compute. done. Qed.

End Deliverables.
