(* ===== verification/Assets.v ===== *)
(** * The asset graph

    Models [src/secopent/domain/assets/models.py] and [graph.py] and the
    repository [src/secopent/infrastructure/repositories/sqlalchemy_assets.py]:
    the graph as a relation table, and its rows.  The order in which an
    unordered query returns rows is a parameter. *)
From S2P Require Import Prelude PyStr PyText PyDict.

#[local] Open Scope Z_scope.

Module AssetType.
Inductive t : Type := DOMAIN | IP | PORT | SERVICE | URL | ENDPOINT | TECHNOLOGY.
#[export] Instance eq_dec : EqDecision t.
Proof. solve_decision. Defined.
Definition to_string (a : t) : string :=
  match a with
  | DOMAIN => "domain" | IP => "ip" | PORT => "port" | SERVICE => "service" | URL => "url"
  | ENDPOINT => "endpoint" | TECHNOLOGY => "technology"
  end.
#[export] Program Instance strenum : StrEnum t :=
  { value := to_string; members := [DOMAIN; IP; PORT; SERVICE; URL; ENDPOINT; TECHNOLOGY] }.
Next Obligation. solve_members. Qed.
Next Obligation. solve_value_inj. Qed.
End AssetType.
Notation AssetType := AssetType.t.

Module AssetRelation.
Inductive t : Type := RESOLVES_TO | EXPOSES | RUNS | SERVES | CONTAINS | USES.
#[export] Instance eq_dec : EqDecision t.
Proof. solve_decision. Defined.
Definition to_string (a : t) : string :=
  match a with
  | RESOLVES_TO => "resolves_to" | EXPOSES => "exposes" | RUNS => "runs" | SERVES => "serves"
  | CONTAINS => "contains" | USES => "uses"
  end.
#[export] Program Instance strenum : StrEnum t :=
  { value := to_string; members := [RESOLVES_TO; EXPOSES; RUNS; SERVES; CONTAINS; USES] }.
Next Obligation. solve_members. Qed.
Next Obligation. solve_value_inj. Qed.
End AssetRelation.
Notation AssetRelation := AssetRelation.t.
Export (hints) AssetType AssetRelation.

Record AssetNode : Type := mkNode { node_type : AssetType; node_value : string }.
Record AssetEdge : Type := mkEdge { src : AssetNode; dst : AssetNode; rel : AssetRelation }.
#[export] Instance node_eq_dec : EqDecision AssetNode.
Proof. solve_decision. Defined.
#[export] Instance edge_eq_dec : EqDecision AssetEdge.
Proof. solve_decision. Defined.

Record AssetGraph : Type := mkGraph { nodes : list AssetNode; edges : list AssetEdge }.

Record Tables : Type := mkTables { node_rows : dict (string * string); edge_rows : dict (string * string * string) }.

Module Assets.

(** [AssetNode(...)] *)
Definition make_node (t : AssetType) (v : string) : outcome AssetNode :=
  raise_if (PyStr.is_empty v) (DomainValidationError "AssetNode.value must be non-empty");; Ret (mkNode t v).

Definition empty_graph : AssetGraph := mkGraph [] [].

Definition has_node (n : AssetNode) (g : AssetGraph) : bool := bool_decide (n ∈ nodes g).

Definition add_node (n : AssetNode) (g : AssetGraph) : AssetGraph :=
  if has_node n g then g else mkGraph (nodes g ++ [n]) (edges g).

Definition add_edge (e : AssetEdge) (g : AssetGraph) : AssetGraph :=
  let g := add_node (dst e) (add_node (src e) g) in
  if bool_decide (e ∈ edges g) then g else mkGraph (nodes g) (edges g ++ [e]).

Definition neighbors (n : AssetNode) (r : option AssetRelation) (g : AssetGraph) : list AssetNode :=
  dst <$> List.filter (fun e => bool_decide (src e = n) && match r with Some r => bool_decide (rel e = r) | None => true end) (edges g).

Definition find (t : option AssetType) (v : option string) (g : AssetGraph) : list AssetNode :=
  List.filter (fun n => match t with Some t => bool_decide (node_type n = t) | None => true end
                        && match v with Some v => bool_decide (node_value n = v) | None => true end) (nodes g).

(** ** The graph is a relation *)

(** Nodes and edges once each, and every edge between nodes of the graph. *)
Record wf (g : AssetGraph) : Prop := {
  wf_nodes : NoDup (nodes g);
  wf_edges : NoDup (edges g);
  wf_ends : forall e, e ∈ edges g -> src e ∈ nodes g /\ dst e ∈ nodes g
}.

Lemma empty_graph_wf : wf empty_graph.
Proof. split; [constructor..|]. by intros e ?%elem_of_nil. Qed.

Lemma NoDup_snoc {A} (x : A) l : NoDup l -> x ∉ l -> NoDup (l ++ [x]).
Proof. intros Hl Hx. apply NoDup_app. split_and!; [done| |apply NoDup_singleton]. by intros y Hy ->%list_elem_of_singleton. Qed.

Lemma add_node_wf n g : wf g -> wf (add_node n g).
Proof.
  intros [Hn He Hends]. unfold add_node, has_node. case_bool_decide as Hin; [done|]. split; cbn; [by apply NoDup_snoc|done|].
  intros e Hin'. destruct (Hends e Hin'). split; apply elem_of_app; by left.
Qed.

Lemma nodes_add_node n m g : m ∈ nodes (add_node n g) <-> m = n \/ m ∈ nodes g.
Proof.
  unfold add_node, has_node. case_bool_decide; cbn; [naive_solver|]. rewrite elem_of_app, list_elem_of_singleton. tauto.
Qed.
Lemma edges_add_node n g : edges (add_node n g) = edges g.
Proof. unfold add_node. by destruct (has_node n g). Qed.

Lemma nodes_add_edge e m g : m ∈ nodes (add_edge e g) <-> m = src e \/ m = dst e \/ m ∈ nodes g.
Proof. unfold add_edge. cbv zeta. case_bool_decide; cbn [nodes]; rewrite !nodes_add_node; tauto. Qed.
Lemma edges_add_edge e f g : f ∈ edges (add_edge e g) <-> f = e \/ f ∈ edges g.
Proof.
  unfold add_edge. cbv zeta. case_bool_decide as H; cbn [edges]; rewrite ?elem_of_app, ?list_elem_of_singleton, !edges_add_node in *; [naive_solver|tauto].
Qed.

Lemma add_edge_wf e g : wf g -> wf (add_edge e g).
Proof.
  intros Hg. assert (H : wf (add_node (dst e) (add_node (src e) g))) by by do 2 apply add_node_wf.
  pose proof (nodes_add_edge e) as Hm. unfold add_edge in *. cbv zeta in *. case_bool_decide as Hin; [done|].
  destruct H as [Hn He Hends]. split; cbn [nodes edges]; [done|by apply NoDup_snoc|].
  intros f [Hf| ->%list_elem_of_singleton]%elem_of_app; [by apply Hends|]. split; apply nodes_add_node; [right; apply nodes_add_node; by left|by left].
Qed.

(** What is related to a node, and nothing else. *)
Lemma neighbors_spec n r g m :
  m ∈ neighbors n r g <-> exists e, e ∈ edges g /\ src e = n /\ dst e = m /\ (forall k, r = Some k -> rel e = k).
Proof.
  unfold neighbors. rewrite list_elem_of_fmap. split.
  - intros (e & -> & He). apply list_elem_of_In, List.filter_In in He as [He [Hs Hr]%andb_true_iff]. apply list_elem_of_In in He.
    apply bool_decide_eq_true in Hs. exists e. split_and!; [done..|]. intros k ->. by apply bool_decide_eq_true in Hr.
  - intros (e & He & Hs & <- & Hr). exists e. split; [done|]. apply list_elem_of_In, List.filter_In. split; [by apply list_elem_of_In|].
    apply andb_true_iff. split; [by apply bool_decide_eq_true|]. destruct r as [k|]; [|done]. apply bool_decide_eq_true. by apply Hr.
Qed.

(** ** Rows *)
Definition node_id (n : AssetNode) : string := value (node_type n) +:+ ":" +:+ node_value n.
Definition edge_id (e : AssetEdge) : string := node_id (src e) +:+ "|" +:+ value (rel e) +:+ "|" +:+ node_id (dst e).

Definition save_node (t : Tables) (n : AssetNode) : Tables :=
  mkTables (PyDict.set (node_id n) (value (node_type n), node_value n) (node_rows t)) (edge_rows t).
Definition save_edge (t : Tables) (e : AssetEdge) : Tables :=
  mkTables (node_rows t) (PyDict.set (edge_id e) (node_id (src e), node_id (dst e), value (rel e)) (edge_rows t)).
Definition save_graph (t : Tables) (g : AssetGraph) : Tables :=
  foldl save_edge (foldl save_node t (nodes g)) (edges g).

Section load.
Context (scan : forall A, list A -> list A).

Definition node_of (row : string * (string * string)) : outcome (string * AssetNode) :=
  t ← unwrap (of_value row.2.1) (ValueError (PyStr.repr row.2.1 +:+ " is not a valid AssetType"));
  n ← make_node t row.2.2;
  Ret (row.1, n).

Definition edge_of (ns : dict AssetNode) (row : string * (string * string * string)) : outcome AssetEdge :=
  s ← unwrap (PyDict.get row.2.1.1 ns) (KeyError (PyStr.repr row.2.1.1));
  d ← unwrap (PyDict.get row.2.1.2 ns) (KeyError (PyStr.repr row.2.1.2));
  r ← unwrap (of_value row.2.2) (ValueError (PyStr.repr row.2.2 +:+ " is not a valid AssetRelation"));
  Ret (mkEdge s d r).

Definition load_graph (t : Tables) : outcome AssetGraph :=
  l ← mapM_outcome node_of (scan _ (node_rows t));
  let ns := foldl (fun d e => PyDict.set e.1 e.2 d) [] (l : list (string * AssetNode)) in
  let g := foldl (fun g n => add_node n g) empty_graph (PyDict.values ns) in
  es ← mapM_outcome (edge_of ns) (scan _ (edge_rows t));
  Ret (foldl (fun g e => add_edge e g) g (es : list AssetEdge)).

(** ** What is saved is loaded *)

(** Values that the identifiers of the edges tell apart. *)
Definition plain (n : AssetNode) : Prop := PyText.no_char "|" (node_value n) /\ node_value n <> "".
Definition storable (g : AssetGraph) : Prop := wf g /\ forall n, n ∈ nodes g -> plain n.

Lemma sep_inj (c : ascii) a a' x x' : PyText.no_char c a -> PyText.no_char c a' ->
  a +:+ String c x = a' +:+ String c x' -> a = a' /\ x = x'.
Proof.
  revert a'. induction a as [|d a IH]; intros [|d' a'] Ha Ha' H.
  - by injection H.
  - apply PyText.no_char_cons in Ha' as [Hd _]. rewrite PyStr.app_nil_l, PyStr.app_cons in H. by injection H as <- _.
  - apply PyText.no_char_cons in Ha as [Hd _]. rewrite PyStr.app_nil_l, PyStr.app_cons in H. by injection H as -> _.
  - apply PyText.no_char_cons in Ha as [_ Ha]. apply PyText.no_char_cons in Ha' as [_ Ha'].
    rewrite !PyStr.app_cons in H. injection H as -> H. by destruct (IH a' Ha Ha' H) as [-> ->].
Qed.

Lemma type_plain t : PyText.no_char ":" (value t : string) /\ PyText.no_char "|" (value (t : AssetType)).
Proof. by destruct t. Qed.
Lemma rel_plain (r : AssetRelation) : PyText.no_char "|" (value r).
Proof. by destruct r. Qed.

Lemma node_id_inj n m : node_id n = node_id m -> n = m.
Proof.
  unfold node_id. intros H. apply (sep_inj ":") in H as [Ht Hv]; [|apply type_plain..].
  apply value_inj in Ht. destruct n, m; cbn in *; by subst.
Qed.

Lemma node_id_plain n : plain n -> PyText.no_char "|" (node_id n).
Proof. intros [Hn _]. unfold node_id. apply PyText.no_char_app; [apply type_plain|]. by apply PyText.no_char_cons. Qed.

Lemma edge_id_inj e f : plain (src e) -> plain (src f) -> edge_id e = edge_id f -> e = f.
Proof.
  unfold edge_id. intros He Hf H. apply (sep_inj "|") in H as [Hs H]; [|by apply node_id_plain..].
  apply (sep_inj "|") in H as [Hr Hd]; [|apply rel_plain..]. apply node_id_inj in Hs, Hd. apply value_inj in Hr.
  destruct e, f; cbn in *; by subst.
Qed.

(** The tables hold exactly these nodes and edges. *)
Record holds (t : Tables) (N : AssetNode -> Prop) (E : AssetEdge -> Prop) : Prop := {
  holds_nodes_wf : PyDict.wf (node_rows t);
  holds_edges_wf : PyDict.wf (edge_rows t);
  holds_nodes : forall k r, (k, r) ∈ node_rows t <-> exists n, N n /\ k = node_id n /\ r = (value (node_type n), node_value n);
  holds_edges : forall k r, (k, r) ∈ edge_rows t <-> exists e, E e /\ k = edge_id e /\ r = (node_id (src e), node_id (dst e), value (rel e));
  holds_plain : forall n, N n -> plain n;
  holds_ends : forall e, E e -> N (src e) /\ N (dst e)
}.

Lemma set_keyed_rows {A} (d : dict A) k v k' v' : PyDict.wf d -> (k', v') ∈ PyDict.set k v d <-> (k' = k /\ v' = v) \/ (k' <> k /\ (k', v') ∈ d).
Proof.
  intros Hd. rewrite <- (PyDict.get_In _ _ _ (PyDict.set_wf k v d Hd)), PyDict.get_set.
  case_decide as E; [subst; split; [intros [= ->]; by left|intros [[_ ->]|[? _]]; done]|].
  rewrite (PyDict.get_In _ _ _ Hd). split; [intros H; right; done|intros [[-> _]|[_ H]]; done].
Qed.

Lemma save_node_holds t N E n : holds t N E -> plain n -> holds (save_node t n) (fun m => m = n \/ N m) E.
Proof.
  intros [H1 H2 H3 H4 H5 H6] Hp. split; cbn [save_node node_rows edge_rows]; [by apply PyDict.set_wf|done| |done| |].
  - intros k r. rewrite set_keyed_rows, H3 by done. split.
    + intros [[-> ->]|[_ (m & Hm & Hk & Hr)]]; [exists n; split; [by left|done]|exists m; split; [by right|done]].
    + intros (m & [->|Hm] & -> & ->); [by left|]. destruct (decide (m = n)) as [->|Hne]; [by left|].
      right. split; [intros H%node_id_inj; done|by exists m].
  - by intros m [->|Hm]; [|apply H5].
  - intros e He. destruct (H6 e He). split; by right.
Qed.

Lemma save_edge_holds t N E e : holds t N E -> N (src e) -> N (dst e) -> holds (save_edge t e) N (fun f => f = e \/ E f).
Proof.
  intros [H1 H2 H3 H4 H5 H6] Hs Hd. split; cbn [save_edge node_rows edge_rows]; [done|by apply PyDict.set_wf|done| |done|].
  - intros k r. rewrite set_keyed_rows, H4 by done. split.
    + intros [[-> ->]|[_ (f & Hf & Hk & Hr)]]; [exists e; split; [by left|done]|exists f; split; [by right|done]].
    + intros (f & [->|Hf] & -> & ->); [by left|]. destruct (decide (f = e)) as [->|Hne]; [by left|].
      right. split; [|by exists f]. intros H%edge_id_inj; [done|apply H5, (H6 f Hf)|by apply H5].
  - intros f [->|Hf]; [done|by apply H6].
Qed.

Lemma holds_iff t (N N' : AssetNode -> Prop) (E E' : AssetEdge -> Prop) :
  holds t N E -> (forall n, N n <-> N' n) -> (forall e, E e <-> E' e) -> holds t N' E'.
Proof.
  intros [H1 H2 H3 H4 H5 H6] HN HE. split; [done|done| | | |].
  - intros k r. rewrite H3. split; intros (n & Hn & ?); exists n; (split; [by apply HN|done]).
  - intros k r. rewrite H4. split; intros (n & Hn & ?); exists n; (split; [by apply HE|done]).
  - intros n Hn. by apply H5, HN.
  - intros e He%HE. destruct (H6 e He). by split; apply HN.
Qed.

Lemma save_nodes_hold l : forall t N E, holds t N E -> (forall n, n ∈ l -> plain n) ->
  holds (foldl save_node t l) (fun m => m ∈ l \/ N m) E.
Proof.
  induction l as [|n l IH]; intros t N E H Hp; cbn.
  { apply (holds_iff _ _ _ _ _ H); [|done]. intros n. rewrite elem_of_nil. tauto. }
  apply (holds_iff _ _ _ _ _ (IH _ _ _ (save_node_holds t N E n H (Hp n ltac:(left))) (fun m Hm => Hp m (list_elem_of_further _ _ _ Hm)))); [|done].
  intros m. rewrite elem_of_cons. tauto.
Qed.

Lemma save_edges_hold l : forall t N E, holds t N E -> (forall e, e ∈ l -> N (src e) /\ N (dst e)) ->
  holds (foldl save_edge t l) N (fun f => f ∈ l \/ E f).
Proof.
  induction l as [|e l IH]; intros t N E H Hends; cbn.
  { apply (holds_iff _ _ _ _ _ H); [done|]. intros n. rewrite elem_of_nil. tauto. }
  destruct (Hends e ltac:(left)) as [Hs Hd].
  apply (holds_iff _ _ _ _ _ (IH _ _ _ (save_edge_holds t N E e H Hs Hd) (fun m Hm => Hends m (list_elem_of_further _ _ _ Hm)))); [done|].
  intros m. rewrite elem_of_cons. tauto.
Qed.

Lemma save_graph_holds t N E g : holds t N E -> storable g ->
  holds (save_graph t g) (fun n => n ∈ nodes g \/ N n) (fun e => e ∈ edges g \/ E e).
Proof.
  intros H [Hw Hp]. unfold save_graph. apply save_edges_hold; [by apply save_nodes_hold|].
  intros e He. destruct (wf_ends g Hw e He). by split; left.
Qed.

Context (scan_complete : forall A (l : list A), scan A l ≡ₚ l).

Lemma make_node_ok t v : v <> "" -> make_node t v = Ret (mkNode t v).
Proof. intros H. unfold make_node. by destruct v. Qed.

Lemma node_row_reads n : plain n -> node_of (node_id n, (value (node_type n), node_value n)) = Ret (node_id n, n).
Proof.
  intros [_ Hv]. unfold node_of. cbn [fst snd]. rewrite of_value_value. cbn [unwrap mbind outcome_bind].
  rewrite make_node_ok by done. by destruct n.
Qed.

(** The rows of a complete scan, read back one by one. *)
Lemma scanned {A B} (f : A -> outcome B) (P : A -> B -> Prop) l :
  (forall x, x ∈ l -> exists y, f x = Ret y /\ P x y) -> exists ys, mapM_outcome f l = Ret ys /\ Forall2 P l ys.
Proof.
  induction l as [|x l IH]; intros H; [by exists []|]. destruct (H x ltac:(left)) as (y & Hy & HP).
  destruct IH as (ys & Hys & HF); [intros z Hz; apply H; by right|]. exists (y :: ys). cbn [mapM_outcome]. rewrite Hy. cbn [mbind outcome_bind]. rewrite Hys.
  split; [done|by constructor].
Qed.

Lemma nodes_fold l g n : n ∈ nodes (foldl (fun g n => add_node n g) g l) <-> n ∈ l \/ n ∈ nodes g.
Proof.
  revert g. induction l as [|m l IH]; intros g; cbn; [rewrite elem_of_nil; tauto|]. rewrite IH, nodes_add_node, elem_of_cons. tauto.
Qed.
Lemma fold_nodes_edges l g : edges (foldl (fun g n => add_node n g) g l) = edges g.
Proof. revert g. induction l as [|m l IH]; intros g; [done|]. cbn. by rewrite IH, edges_add_node. Qed.
Lemma fold_nodes_wf l g : wf g -> wf (foldl (fun g n => add_node n g) g l).
Proof. revert g. induction l as [|m l IH]; intros g Hg; [done|]. cbn. apply IH. by apply add_node_wf. Qed.
Lemma edges_fold l g e : e ∈ edges (foldl (fun g e => add_edge e g) g l) <-> e ∈ l \/ e ∈ edges g.
Proof.
  revert g. induction l as [|m l IH]; intros g; cbn; [rewrite elem_of_nil; tauto|]. rewrite IH, edges_add_edge, elem_of_cons. tauto.
Qed.
Lemma fold_edges_wf l g : wf g -> wf (foldl (fun g e => add_edge e g) g l).
Proof. revert g. induction l as [|m l IH]; intros g Hg; [done|]. cbn. apply IH. by apply add_edge_wf. Qed.
Lemma fold_edges_nodes l g n : (forall e, e ∈ l -> src e ∈ nodes g /\ dst e ∈ nodes g) ->
  n ∈ nodes (foldl (fun g e => add_edge e g) g l) <-> n ∈ nodes g.
Proof.
  revert g. induction l as [|e l IH]; intros g H; [done|]. cbn. destruct (H e ltac:(left)) as [Hs Hd].
  assert (Hg : forall m, m ∈ nodes (add_edge e g) <-> m ∈ nodes g).
  { intros m. rewrite nodes_add_edge. split; [by intros [->|[->|?]]|by do 2 right]. }
  rewrite IH, Hg; [done|]. intros f Hf. rewrite !Hg. apply H. by right.
Qed.

(** The dictionary of the nodes by their identifiers. *)
Lemma named_nodes (l : list (string * AssetNode)) (ns0 : dict AssetNode) k n :
  (forall k n, (k, n) ∈ l -> k = node_id n) -> (forall k n, PyDict.get k ns0 = Some n -> k = node_id n) ->
  PyDict.get k (foldl (fun d e => PyDict.set e.1 e.2 d) ns0 l) = Some n <-> k = node_id n /\ ((k, n) ∈ l \/ PyDict.get k ns0 = Some n).
Proof.
  revert ns0. induction l as [|[k1 n1] l IH]; intros ns0 Hl Hns; cbn [foldl].
  { rewrite elem_of_nil. split; [intros H; split; [by apply Hns|by right]|by intros [_ [[]|?]]]. }
  rewrite IH; [|intros k' n' H; apply Hl; by right|].
  - rewrite PyDict.get_set, elem_of_cons. cbn [fst snd]. pose proof (Hl k1 n1 ltac:(left)) as Hk1.
    split; intros [Hk H]; (split; [done|]); case_decide as E.
    + destruct H as [H|H]; [left; by right|]. injection H as ->. left. left. congruence.
    + destruct H as [H|H]; [left; by right|by right].
    + right. f_equal. apply node_id_inj. by rewrite <- Hk1, <- Hk.
    + destruct H as [[[= -> ->]|H]|H]; [done|by left|by right].
  - intros k' n'. rewrite PyDict.get_set. cbn [fst snd]. case_decide; [intros [= <-]; subst; apply Hl; left|apply Hns].
Qed.

Lemma load_holds t N E : holds t N E ->
  exists g, load_graph t = Ret g /\ wf g /\ (forall n, n ∈ nodes g <-> N n) /\ (forall e, e ∈ edges g <-> E e).
Proof.
  intros [H1 H2 H3 H4 H5 H6]. unfold load_graph.
  destruct (scanned node_of (fun x y => y.1 = x.1 /\ x = (node_id y.2, (value (node_type y.2), node_value y.2)) /\ N y.2) (scan _ (node_rows t)))
    as (l & Hl & HFl).
  { intros [k r]. rewrite scan_complete. intros (n & Hn & -> & ->)%H3. exists (node_id n, n).
    rewrite node_row_reads by auto. done. }
  rewrite Hl. cbn [mbind outcome_bind]. set (ns := foldl (fun (d : dict AssetNode) e => PyDict.set e.1 e.2 d) [] l).
  assert (Hln : forall k n, (k, n) ∈ l <-> k = node_id n /\ N n).
  { intros k n. split.
    - intros [i Hi]%list_elem_of_lookup_1. destruct (Forall2_lookup_r _ _ _ _ _ HFl Hi) as ([k' r] & _ & Hk & [= -> _] & Hn). by split.
    - intros [-> Hn]. assert (Hr : (node_id n, (value (node_type n), node_value n)) ∈ scan _ (node_rows t)).
      { rewrite scan_complete. apply H3. by exists n. }
      apply list_elem_of_lookup in Hr as [i Hi]. destruct (Forall2_lookup_l _ _ _ _ _ HFl Hi) as ([k' m] & Hm & Hk & [= Hid _] & _).
      cbn in Hk, Hid. apply node_id_inj in Hid as <-. subst k'. by eapply list_elem_of_lookup_2. }
  assert (Hns : forall k n, PyDict.get k ns = Some n <-> k = node_id n /\ N n).
  { intros k n. unfold ns. rewrite named_nodes; [|by intros k' n' [? _]%Hln|done]. rewrite Hln. split; [intros [? [[_ ?]|?]]; done|]. intros [-> Hn]. split; [done|]. by left. }
  assert (Hwf : PyDict.wf ns).
  { unfold ns. assert (Hw : PyDict.wf ([] : dict AssetNode)) by constructor. revert Hw. generalize ([] : dict AssetNode). clear. induction l as [|x l IH]; intros d Hd; [done|]. cbn. apply IH. by apply PyDict.set_wf. }
  set (g := foldl (fun g n => add_node n g) empty_graph (PyDict.values ns)).
  assert (Hg : wf g) by (apply fold_nodes_wf, empty_graph_wf).
  assert (Hgn : forall n, n ∈ nodes g <-> N n).
  { intros n. unfold g. rewrite nodes_fold, (PyDict.values_In _ _ Hwf), elem_of_nil. split.
    - intros [[k Hk]|[]]. by apply Hns in Hk as [_ ?].
    - intros Hn. left. exists (node_id n). by apply Hns. }
  destruct (scanned (edge_of ns) (fun x e => x.1 = edge_id e /\ E e) (scan _ (edge_rows t))) as (es & Hes & HFe).
  { intros [k r]. rewrite scan_complete. intros (e & He & -> & ->)%H4. exists e. destruct (H6 e He) as [Hs Hd]. unfold edge_of. cbn [fst snd].
    rewrite (proj2 (Hns _ (src e)) (conj eq_refl Hs)), (proj2 (Hns _ (dst e)) (conj eq_refl Hd)). cbn [unwrap mbind outcome_bind]. rewrite of_value_value. cbn [unwrap mbind outcome_bind]. by destruct e. }
  rewrite Hes. cbn [mbind outcome_bind].
  assert (Hee : forall e, e ∈ es <-> E e).
  { intros e. split.
    - intros [i Hi]%list_elem_of_lookup_1. by destruct (Forall2_lookup_r _ _ _ _ _ HFe Hi) as (r & _ & _ & He).
    - intros He. assert (Hr : (edge_id e, (node_id (src e), node_id (dst e), value (rel e))) ∈ scan _ (edge_rows t)).
      { rewrite scan_complete. apply H4. by exists e. }
      apply list_elem_of_lookup in Hr as [i Hi]. destruct (Forall2_lookup_l _ _ _ _ _ HFe Hi) as (f & Hf & Hid & HEf). cbn in Hid.
      apply edge_id_inj in Hid as <-; [by eapply list_elem_of_lookup_2|apply H5, (H6 e He)|apply H5, (H6 f HEf)]. }
  eexists. split; [reflexivity|]. split_and!.
  - by apply fold_edges_wf.
  - intros n. rewrite fold_edges_nodes; [apply Hgn|]. intros e He%Hee. rewrite !Hgn. by apply H6.
  - intros e. rewrite edges_fold, Hee. unfold g. rewrite fold_nodes_edges. cbn. rewrite elem_of_nil. tauto.
Qed.

(** a saved graph is loaded as it was. After any number of saves of
    well-formed graphs over one database, and whatever order it scans in,
    loading succeeds and gives a well-formed graph with exactly the nodes and
    the edges of the saved ones. *)
Theorem saved_graphs_are_loaded gs : Forall storable gs ->
  exists g, load_graph (foldl save_graph (mkTables [] []) gs) = Ret g /\ wf g
    /\ (forall n, n ∈ nodes g <-> exists h, h ∈ gs /\ n ∈ nodes h)
    /\ (forall e, e ∈ edges g <-> exists h, h ∈ gs /\ e ∈ edges h).
Proof.
  intros HF.
  assert (H : forall t N E, holds t N E ->
    holds (foldl save_graph t gs) (fun n => (exists h, h ∈ gs /\ n ∈ nodes h) \/ N n) (fun e => (exists h, h ∈ gs /\ e ∈ edges h) \/ E e)).
  { induction HF as [|g gs Hg HF IH]; intros t N E Ht; cbn [foldl].
    - apply (holds_iff _ _ _ _ _ Ht); intros x; (split; [by right|intros [(h & []%elem_of_nil & _)|?]; done]).
    - apply (holds_iff _ _ _ _ _ (IH _ _ _ (save_graph_holds t N E g Ht Hg))); intros x; split.
      all: try (intros [(h & Hh & Hx)|[Hx|Hx]]; [left; exists h; split; [by right|done]|left; exists g; split; [by left|done]|by right]).
      all: intros [(h & [->|Hh]%elem_of_cons & Hx)|Hx]; [right; by left|left; by exists h|right; by right]. }
  specialize (H (mkTables [] []) (fun _ => False) (fun _ => False)).
  assert (H0 : holds (mkTables [] []) (fun _ => False) (fun _ => False)).
  { split; [apply NoDup_nil_2|apply NoDup_nil_2| | |done|done]; intros k r; (split; [by intros ?%elem_of_nil|by intros (? & [] & _)]). }
  destruct (load_holds _ _ _ (H H0)) as (g & Hl & Hw & Hn & He).
  exists g. split_and!; [done|done|intros n; rewrite Hn; tauto|intros e; rewrite He; tauto].
Qed.

End load.

Definition demo_edge (a b : string) : AssetEdge := mkEdge (mkNode AssetType.DOMAIN a) (mkNode AssetType.IP b) AssetRelation.RESOLVES_TO.
Definition in_order (A : Type) (l : list A) : list A := l.

Lemma saved_graphs_are_loaded_witness :
  let gs := [add_edge (demo_edge "a.example" "10.0.0.1") empty_graph; add_edge (demo_edge "a.example" "10.0.0.2") empty_graph] in
  exists g, load_graph in_order (foldl save_graph (mkTables [] []) gs) = Ret g /\ wf g /\ (exists h, h ∈ gs /\ demo_edge "a.example" "10.0.0.2" ∈ edges h).
Proof.
  intros gs. destruct (saved_graphs_are_loaded in_order (fun A l => reflexivity l) gs) as (g & Hl & Hw & _ & _).
  { assert (Hp : forall a b, plain (mkNode AssetType.DOMAIN a) -> plain (mkNode AssetType.IP b) -> storable (add_edge (demo_edge a b) empty_graph)).
    { intros a b Ha Hb. split; [apply add_edge_wf, empty_graph_wf|]. intros n. rewrite nodes_add_edge. intros [->|[->|Hn]]; [done|done|].
      by apply elem_of_nil in Hn. }
    constructor; [apply Hp; by split|]. constructor; [apply Hp; by split|constructor]. }
  exists g. split; [exact Hl|]. split; [exact Hw|]. eexists. split; [right; left|]. apply edges_add_edge. by left.
Defined.

(** With a bar in a value two edges can share an identifier: the one saved
    first is lost. *)
Example bar_loses_an_edge :
  let e1 := mkEdge (mkNode AssetType.DOMAIN "x") (mkNode AssetType.IP "y|exposes|port:z") AssetRelation.RESOLVES_TO in
  let e2 := mkEdge (mkNode AssetType.DOMAIN "x|resolves_to|ip:y") (mkNode AssetType.PORT "z") AssetRelation.EXPOSES in
  edges <$> load_graph in_order (save_graph (mkTables [] []) (add_edge e2 (add_edge e1 empty_graph))) = Ret [e2].
Proof. vm_compute. reflexivity. Qed.

End Assets.
