(* ===== verification/Reports.v ===== *)
(** * Reports

    Models [src/secopent/domain/reports/models.py] (Module [Report]),
    [application/report_renderer.py] (Modules [ReportRenderer] and
    [ChainSection]), the repository
    [infrastructure/repositories/sqlalchemy_reports.py] (Module [ReportStore])
    and the router [interfaces/api/routers/reports.py] (Module [ReportApi]).
    The templates, the redactor and the model gateway are parameters; the
    entries of a recorded list of classes are texts. *)
From S2P Require Import Prelude PyStr PyTime PyFloat Sha256 Canonical PyJson PyText PyDict Policy Contracts Adapters Verification Findings Assessments Net Scope AuditTrail.

#[local] Open Scope Z_scope.

Module ReportStatus.
Inductive t : Type := DRAFT | RENDERED | APPROVED | RELEASED.
#[export] Instance eq_dec : EqDecision t.
Proof. solve_decision. Defined.
Definition to_string (s : t) : string :=
  match s with DRAFT => "draft" | RENDERED => "rendered" | APPROVED => "approved" | RELEASED => "released" end.
#[export] Program Instance strenum : StrEnum t :=
  { value := to_string; members := [DRAFT; RENDERED; APPROVED; RELEASED] }.
Next Obligation. solve_members. Qed.
Next Obligation. solve_value_inj. Qed.
End ReportStatus.
Notation ReportStatus := ReportStatus.t.
Export (hints) ReportStatus.

Record ReportSection : Type := mkSection { rs_name : string; rs_content : string }.

Record Report : Type := mkReport {
  rp_id : string;
  rp_assessment_id : string;
  rp_title : string;
  rp_sections : list ReportSection;
  rp_finding_count : Z;
  rp_coverage_rate : pyfloat;
  rp_completeness_ok : bool;
  rp_status : ReportStatus;
  rp_digest : string
}.

Module Report.

Definition section (name : string) (r : Report) : option ReportSection :=
  List.find (fun s => bool_decide (rs_name s = name)) (rp_sections r).

Definition section_json (s : ReportSection) : json := JObj [("name", JStr (rs_name s)); ("content", JStr (rs_content s))].

Definition compute_digest (r : Report) : outcome string :=
  rate ← Canonical.json_of_float (rp_coverage_rate r);
  Ret (Canonical.canonical_digest
         (JObj [("id", JStr (rp_id r)); ("assessment_id", JStr (rp_assessment_id r)); ("title", JStr (rp_title r));
                ("sections", JArr (section_json <$> rp_sections r)); ("finding_count", JInt (rp_finding_count r)); ("coverage_rate", rate)])).

Definition with_status (r : Report) (s : ReportStatus) : Report :=
  mkReport (rp_id r) (rp_assessment_id r) (rp_title r) (rp_sections r) (rp_finding_count r) (rp_coverage_rate r) (rp_completeness_ok r) s (rp_digest r).
Definition with_digest (r : Report) (d : string) : Report :=
  mkReport (rp_id r) (rp_assessment_id r) (rp_title r) (rp_sections r) (rp_finding_count r) (rp_coverage_rate r) (rp_completeness_ok r) (rp_status r) d.
Definition with_sections (r : Report) (l : list ReportSection) : Report :=
  mkReport (rp_id r) (rp_assessment_id r) (rp_title r) l (rp_finding_count r) (rp_coverage_rate r) (rp_completeness_ok r) (rp_status r) (rp_digest r).

Definition approve (r : Report) : outcome Report :=
  raise_if (negb (bool_decide (rp_status r = ReportStatus.RENDERED)))
    (DomainValidationError ("cannot approve a report in " +:+ value (rp_status r) +:+ " state"));;
  Ret (with_status r ReportStatus.APPROVED).

Definition release (r : Report) : outcome Report :=
  raise_if (negb (bool_decide (rp_status r = ReportStatus.APPROVED)))
    (DomainValidationError ("cannot release a report in " +:+ value (rp_status r) +:+ " state"));;
  raise_if (negb (rp_completeness_ok r)) (DomainValidationError "cannot release an incomplete report (completeness_ok is False)");;
  Ret (with_status r ReportStatus.RELEASED).

End Report.

(** ** Rendering *)
Record ReportData : Type := mkReportData {
  rd_assessment_id : string;
  rd_title : string;
  scope_summary : string;
  method : string;
  rd_findings : list Finding;
  rd_coverage_rate : pyfloat;
  uncovered_classes : list string;
  evidence_digests : list string;
  rd_assets : list string
}.

(** What the templates are given. *)
Record FindingContext : Type := mkContext {
  fc_title : string;
  fc_severity : string;
  fc_asset : string;
  fc_cwe : list string;
  fc_cve : list string;
  fc_remediation : string;
  fc_evidence : string;
  fc_status : string
}.
Inductive context : Type :=
| ExecutiveSummary (title assessment_id : string) (finding_count : Z) (coverage_rate : pyfloat) (completeness_ok : bool)
| FindingsList (l : list FindingContext)
| CoverageTable (coverage_rate : pyfloat) (uncovered : list string).

Definition nl : string := String "010" "".

Module ReportRenderer.

Definition REMEDIATION : dict string :=
  [("CWE-89", "Use parameterized queries / prepared statements; never concatenate input into SQL.");
   ("CWE-79", "Contextually encode output and apply a Content-Security-Policy.");
   ("CWE-918", "Allow-list request destinations; block internal and cloud-metadata ranges.");
   ("CWE-200", "Minimize disclosed information; set secure response headers.");
   ("CWE-287", "Enforce strong authentication and MFA; protect credential storage.");
   ("CWE-732", "Restrict permissions to least privilege; remove public access.");
   ("CWE-284", "Enforce access controls; segment network exposure.")].
Definition GENERIC_REMEDIATION : string := "Review and remediate per the referenced CWE guidance.".

Definition remediation_for (cwe : list string) : string :=
  default GENERIC_REMEDIATION (head (omap (fun c => PyDict.get c REMEDIATION) cwe)).

(** The release gate. *)
Definition completeness (d : ReportData) : bool :=
  (PyFloat.geb (rd_coverage_rate d) (flt "1.0") && bool_decide (uncovered_classes d = []))
  && forallb (fun f => bool_decide (fd_status f = FindingStatus.VALIDATED)) (rd_findings d)
  && (negb (bool_decide (evidence_digests d = [])) || bool_decide (rd_findings d = [])).

Definition bullet (items : list string) : string :=
  match items with [] => "_None._" | _ => PyStr.join nl ((fun i => "- " +:+ i) <$> items) end.

Section render.
Context (templates : string -> context -> outcome string) (redact : string -> string).

Definition finding_context (f : Finding) : FindingContext :=
  let evidence := PyStr.join ", " (fd_evidence_ids f) in
  mkContext (redact (fd_title f)) (value (fd_severity f)) (fd_asset f) (fd_cwe f) (fd_cve f) (remediation_for (fd_cwe f))
    (if PyStr.is_empty evidence then "n/a" else evidence) (value (fd_status f)).

Definition heading (title : string) : string := "## " +:+ title +:+ nl +:+ nl.

Definition render (d : ReportData) (report_id : string) : outcome Report :=
  let ok := completeness d in
  let count := Z.of_nat (length (rd_findings d)) in
  summary ← templates "executive_summary.md.j2" (ExecutiveSummary (rd_title d) (rd_assessment_id d) count (rd_coverage_rate d) ok);
  findings ← templates "findings.md.j2" (FindingsList (finding_context <$> rd_findings d));
  coverage ← templates "coverage_matrix.md.j2" (CoverageTable (rd_coverage_rate d) (uncovered_classes d));
  let sections :=
    [mkSection "executive_summary" summary;
     mkSection "scope" (heading "Scope" +:+ redact (scope_summary d));
     mkSection "method" (heading "Method" +:+ method d);
     mkSection "asset_inventory" (heading "Asset Inventory" +:+ bullet (rd_assets d));
     mkSection "findings" (heading "Findings" +:+ findings);
     mkSection "evidence" (heading "Evidence" +:+ bullet (evidence_digests d));
     mkSection "coverage_matrix" (heading "Coverage Matrix" +:+ coverage);
     mkSection "appendix" (heading "Appendix" +:+ "Report ID: " +:+ report_id +:+ nl +:+ "Assessment: " +:+ rd_assessment_id d +:+ nl)] in
  let r := mkReport report_id (rd_assessment_id d) (rd_title d) sections count (rd_coverage_rate d) ok ReportStatus.RENDERED "" in
  digest ← Report.compute_digest r;
  Ret (Report.with_digest r digest).

(** *** The life of a report *)
Inductive review : Type := Approve | Release.
Definition reviewed (o : review) : Report -> outcome Report := match o with Approve => Report.approve | Release => Report.release end.
Fixpoint after (ops : list review) (r : Report) : outcome Report :=
  match ops with [] => Ret r | o :: ops => r ← reviewed o r; after ops r end.

(** The data allow a release. *)
Record complete (d : ReportData) : Prop := {
  coverage_green : PyFloat.geb (rd_coverage_rate d) (flt "1.0") = true /\ uncovered_classes d = [];
  all_validated : Forall (fun f => fd_status f = FindingStatus.VALIDATED) (rd_findings d);
  evidence_present : rd_findings d = [] \/ evidence_digests d <> []
}.

Lemma completeness_spec d : completeness d = true <-> complete d.
Proof.
  unfold completeness. rewrite !andb_true_iff, orb_true_iff, negb_true_iff, !bool_decide_eq_true, bool_decide_eq_false, forallb_forall. split.
  - intros [[[H1 H2] H3] H4]. split; [done| |tauto]. apply Forall_forall. intros f Hf. apply list_elem_of_In, H3 in Hf. by apply bool_decide_eq_true in Hf.
  - intros [[H1 H2] H3 H4]. split_and!; [done|done| |tauto]. intros f Hf. apply bool_decide_eq_true. rewrite Forall_forall in H3. by apply H3, list_elem_of_In.
Qed.

Lemma render_Ret d i r : render d i = Ret r ->
  rp_completeness_ok r = completeness d /\ rp_status r = ReportStatus.RENDERED /\ rs_name <$> rp_sections r =
    ["executive_summary"; "scope"; "method"; "asset_inventory"; "findings"; "evidence"; "coverage_matrix"; "appendix"]
  /\ rp_finding_count r = Z.of_nat (length (rd_findings d)) /\ Report.compute_digest r = Ret (rp_digest r).
Proof.
  unfold render. intros (a & _ & (b & _ & (c & _ & (g & Hg & [= <-])%bind_Ret)%bind_Ret)%bind_Ret)%bind_Ret. by split_and!.
Qed.

Lemma after_Ret ops r r' : after ops r = Ret r' -> rp_status r = ReportStatus.RENDERED ->
  (ops = [] /\ r' = r) \/ (ops = [Approve] /\ r' = Report.with_status r ReportStatus.APPROVED)
  \/ (ops = [Approve; Release] /\ r' = Report.with_status r ReportStatus.RELEASED /\ rp_completeness_ok r = true).
Proof.
  intros H Hs. destruct ops as [|o ops]; [left; by injection H as <-|right]. cbn [after] in H. apply bind_Ret in H as (r1 & H1 & H).
  destruct o; cbn [reviewed] in H1.
  2: { unfold Report.release in H1. by rewrite Hs in H1. }
  unfold Report.approve in H1. rewrite Hs in H1. injection H1 as <-.
  destruct ops as [|o ops]; [left; by injection H as <-|right]. cbn [after] in H. apply bind_Ret in H as (r2 & H2 & H).
  destruct o; cbn [reviewed] in H2; [done|]. unfold Report.release in H2. cbn in H2. destruct (rp_completeness_ok r) eqn:Ec; [|done]. injection H2 as <-.
  destruct ops as [|o ops]; [by injection H as <-|]. cbn [after] in H. apply bind_Ret in H as (r3 & H3 & _). by destruct o.
Qed.

(** a released report was complete and reviewed. A report that was
    rendered from data and has status RELEASED after any reviews was approved
    and released once each, in this order; its content and digest are those of
    the rendering, and the data had full coverage without uncovered classes,
    only validated findings, and evidence if there are findings. *)
Theorem released_reports_were_complete d i r0 ops r :
  render d i = Ret r0 -> after ops r0 = Ret r -> rp_status r = ReportStatus.RELEASED ->
  ops = [Approve; Release] /\ complete d
  /\ rp_sections r = rp_sections r0 /\ Report.compute_digest r = Ret (rp_digest r).
Proof.
  intros (Hc & Hs & _ & _ & Hd)%render_Ret Ha Hr.
  apply after_Ret in Ha as [[_ ->]|[[_ ->]|(-> & -> & Hok)]]; [congruence|done| |done].
  split_and!; [done| |done|exact Hd]. apply completeness_spec. congruence.
Qed.

End render.
End ReportRenderer.

(** ** Attack chains *)
Module ChainSection.

Definition confirmed_link (l : ChainLink) : string := "  - finding: `" +:+ confirmed_finding_id l +:+ "`".
Definition suggested_link (l : ChainLink) : string :=
  if Findings.is_confirmed l then confirmed_link l else "  - ⚠ unconfirmed (pending: `" +:+ pending_verification_key l +:+ "`)".

Definition confirmed_chain (c : AttackChain) : list string :=
  ("- **" +:+ template_id c +:+ "** (severity: " +:+ value (ch_severity c) +:+ ")") :: (confirmed_link <$> ch_links c).
Definition suggested_chain (c : AttackChain) : list string :=
  let label := if bool_decide (ch_status c = ChainStatus.PARTIALLY_VERIFIED) then "partially verified" else "hypothesis" in
  ("- **" +:+ template_id c +:+ "** (" +:+ label +:+ ", severity: " +:+ value (ch_severity c) +:+ ")") :: (suggested_link <$> ch_links c).

(** A group of chains under its heading. *)
Definition group (title : string) (lines : AttackChain -> list string) (l : list AttackChain) : list string :=
  match l with [] => [] | _ => ("### " +:+ title +:+ nl) :: (l ≫= lines) ++ [""] end.

Definition render_chain_section (chains : list AttackChain) : string :=
  match chains with
  | [] => "## 攻击链分析" +:+ nl +:+ nl +:+ "本次评估未发现可验证攻击链。" +:+ nl
  | _ =>
      let confirmed := List.filter (fun c => bool_decide (ch_status c = ChainStatus.CONFIRMED)) chains in
      let suggested := List.filter (fun c => bool_decide (ch_status c ∈ [ChainStatus.PARTIALLY_VERIFIED; ChainStatus.HYPOTHESIS])) chains in
      PyStr.join nl (("## 攻击链分析" +:+ nl) :: group "已验证攻击链" confirmed_chain confirmed
                     ++ group "建议优先修复路径" suggested_chain suggested) +:+ nl
  end.

End ChainSection.

(** ** The repository *)
Record CoreReport : Type := mkReportRow {
  cr_id : string;
  cr_assessment_id : string;
  cr_title : string;
  cr_sections : list json;
  cr_finding_count : Z;
  cr_coverage_rate : pyfloat;
  cr_completeness_ok : bool;
  cr_status : string;
  cr_digest : string
}.

Module ReportStore.

(** [s\["name"\]] of a JSON column. *)
Definition item (k : string) (d : list (string * json)) : outcome string :=
  v ← unwrap (field k d) (KeyError k);
  match v with JStr s => Ret s | v => Raise (TypeError (type_name v)) end.
Definition section_of (v : json) : outcome ReportSection :=
  match v with
  | JObj d => n ← item "name" d; c ← item "content" d; Ret (mkSection n c)
  | v => Raise (TypeError (type_name v))
  end.

Definition from_report (r : Report) : CoreReport :=
  mkReportRow (rp_id r) (rp_assessment_id r) (rp_title r) (Report.section_json <$> rp_sections r) (rp_finding_count r)
    (rp_coverage_rate r) (rp_completeness_ok r) (value (rp_status r)) (rp_digest r).
Definition to_report (r : CoreReport) : outcome Report :=
  sections ← mapM_outcome section_of (cr_sections r);
  s ← unwrap (of_value (cr_status r)) (ValueError (PyStr.repr (cr_status r) +:+ " is not a valid ReportStatus"));
  Ret (mkReport (cr_id r) (cr_assessment_id r) (cr_title r) sections (cr_finding_count r) (cr_coverage_rate r) (cr_completeness_ok r) s (cr_digest r)).

Definition add (r : Report) : M (dict CoreReport) unit := modify (PyDict.set (rp_id r) (from_report r)).
Definition get (i : string) (t : dict CoreReport) : outcome (option Report) :=
  match PyDict.get i t with Some r => x ← to_report r; Ret (Some x) | None => Ret None end.
Definition list_by_assessment (scan : forall A, list A -> list A) (a : string) (t : dict CoreReport) : outcome (list Report) :=
  mapM_outcome to_report (scan _ (List.filter (fun r => bool_decide (cr_assessment_id r = a)) (PyDict.values t))).

Lemma report_reads_back r : to_report (from_report r) = Ret r.
Proof.
  unfold to_report, from_report. cbn [cr_sections cr_status].
  assert (H : mapM_outcome section_of (Report.section_json <$> rp_sections r) = Ret (rp_sections r)).
  { apply mapM_outcome_Ret. rewrite Forall2_fmap_l. apply Forall_Forall2_diag, Forall_forall. intros [n c] _. reflexivity. }
  rewrite H. cbn [mbind outcome_bind]. rewrite of_value_value. by destruct r.
Qed.

(** A stored report is read as it was, until another with its identifier is
    stored. *)
Lemma get_add r i t : get i (add r t).2 = if decide (rp_id r = i) then Ret (Some r) else get i t.
Proof.
  unfold get, add, modify. cbn [snd]. rewrite PyDict.get_set. case_decide; [|done]. by rewrite report_reads_back.
Qed.

End ReportStore.

(** ** The router *)
Module ReportApi.
Section api.
Context (float_conv : json -> outcome pyfloat).
Context (templates : string -> context -> outcome string) (redact : string -> string).
(** [gateway.call(prompt, classification=INTERNAL)] *)
Context (gateway_call : string -> outcome string).

Definition texts (l : list json) : outcome (list string) :=
  mapM_outcome (fun v => match v with JStr s => Ret s | v => Raise (TypeError (type_name v)) end) l.

(** [float(rate) if isinstance(rate, int | float) else 0.0] *)
Definition rate_of (v : json) : outcome pyfloat :=
  match v with JInt _ | JFloat _ | JBool _ => PyNumbers.to_float float_conv v | _ => Ret (flt "0.0") end.

(** [_coverage_from_audit]: the last completion event of the assessment that
    records a rate. *)
Definition coverage_from_audit (events : list AuditEvent) (assessment_id : string) : outcome (pyfloat * list string) :=
  match List.find (fun e => bool_decide (action e = "assessment.completed") && bool_decide (resource_id e = assessment_id)
                            && match field "coverage_rate" (payload e) with Some _ => true | None => false end) (rev events) with
  | None => Ret (flt "0.0", [])
  | Some e =>
      rate ← rate_of (default (JFloat (PyFloat.mkLit "0.0" eq_refl)) (field "coverage_rate" (payload e)));
      uncovered ← match field "uncovered_classes" (payload e) with Some (JArr l) => texts l | _ => Ret [] end;
      Ret (rate, uncovered)
  end.

Definition polish_prompt (content : string) : string :=
  "Polish this security report executive summary for clarity and tone. "
  +:+ "Keep ALL numbers exactly as written; do not add or change any figures." +:+ nl +:+ nl +:+ content.

(** [_polish_executive_summary]: the polished text is a section more; a
    refusal of the gateway or an empty answer leaves the report. *)
Definition polish_executive_summary (r : Report) : outcome Report :=
  match Report.section "executive_summary" r with
  | None => Ret r
  | Some s =>
      match gateway_call (polish_prompt (rs_content s)) with
      | Raise e => if is_domain_error e then Ret r else Raise e
      | Ret text =>
          let polished := PyStr.strip text in
          Ret (if PyStr.is_empty polished then r
               else Report.with_sections r (rp_sections r ++ [mkSection "executive_summary_polished" polished]))
      end
  end.

Definition once (l : list string) : list string := foldl (fun acc x => if bool_decide (x ∈ acc) then acc else acc ++ [x]) [] l.

Definition data_of (assessment_id title : string) (findings : list Finding) (snapshot : option ScopeSnapshot)
    (coverage : pyfloat * list string) : ReportData :=
  mkReportData assessment_id title
    (match snapshot with Some s => "In scope: " +:+ PyStr.join ", " (include s) | None => "n/a" end)
    "Catalog-driven authorized assessment with oracle N/N verification." findings coverage.1 coverage.2
    (findings ≫= fd_evidence_ids) (PyStr.sorted (once (fd_asset <$> findings))).

(** [generate_report] over what the repositories hold; [hex] is the drawn
    identifier. *)
Definition generate_report (assessments : dict Assessment) (findings_of : string -> list Finding) (snapshots : dict ScopeSnapshot)
    (events : list AuditEvent) (assessment_id title hex : string) (polish : bool) : M (dict CoreReport) Report :=
  a ← lift (unwrap (PyDict.get assessment_id assessments) (HTTPException 404 "assessment not found"));
  coverage ← lift (coverage_from_audit events assessment_id);
  let d := data_of assessment_id title (findings_of assessment_id) (PyDict.get (scope_snapshot_id a) snapshots) coverage in
  r ← lift (ReportRenderer.render templates redact d ("rep-" +:+ PyStr.take 12 hex));
  r ← lift (if polish then polish_executive_summary r else Ret r);
  ReportStore.add r;;
  mret r.

Definition get_report (i : string) (t : dict CoreReport) : outcome Report :=
  o ← ReportStore.get i t; unwrap o (HTTPException 404 "report not found").

(** Polishing keeps every section and every number of the report. *)
Lemma polish_keeps_the_report r r' : polish_executive_summary r = Ret r' ->
  rp_finding_count r' = rp_finding_count r /\ rp_coverage_rate r' = rp_coverage_rate r /\ rp_completeness_ok r' = rp_completeness_ok r
  /\ rp_status r' = rp_status r /\ rp_digest r' = rp_digest r
  /\ exists extra, rp_sections r' = rp_sections r ++ extra /\ (rs_name <$> extra = [] \/ rs_name <$> extra = ["executive_summary_polished"]).
Proof.
  assert (H0 : r' = r -> rp_finding_count r' = rp_finding_count r /\ rp_coverage_rate r' = rp_coverage_rate r /\ rp_completeness_ok r' = rp_completeness_ok r
    /\ rp_status r' = rp_status r /\ rp_digest r' = rp_digest r /\ exists extra, rp_sections r' = rp_sections r ++ extra
    /\ (rs_name <$> extra = [] \/ rs_name <$> extra = ["executive_summary_polished"])).
  { intros ->. split_and!; [done..|]. exists []. rewrite app_nil_r. split; [done|by left]. }
  unfold polish_executive_summary. destruct (Report.section _ r) as [s|]; [|by intros [= <-]; apply H0].
  destruct (gateway_call _) as [text|e]; [|destruct (is_domain_error e); [by intros [= <-]; apply H0|done]].
  destruct (PyStr.is_empty _); [by intros [= <-]; apply H0|]. intros [= <-]. split_and!; [done..|].
  eexists. split; [reflexivity|]. by right.
Qed.

(** What the route answers is what it stored: it renders the findings, the
    scope and the recorded coverage of the assessment, and nothing is stored
    when it fails. *)
Theorem generated_report_is_stored assessments findings_of snapshots events a title hex polish t :
  match generate_report assessments findings_of snapshots events a title hex polish t with
  | (Ret r, t') => ReportStore.get (rp_id r) t' = Ret (Some r) /\ rp_assessment_id r = a /\ rp_status r = ReportStatus.RENDERED
      /\ rp_finding_count r = Z.of_nat (length (findings_of a))
  | (Raise _, t') => t' = t
  end.
Proof.
  unfold generate_report, lift, mbind, M_bind.
  destruct (unwrap _ _) as [x|e]; [|done]. destruct (coverage_from_audit events a) as [cov|e]; [|done]. cbv zeta.
  destruct (ReportRenderer.render _ _ _ _) as [r|e] eqn:Er; [|done].
  assert (Ha : rp_assessment_id r = a).
  { unfold ReportRenderer.render in Er. do 3 (apply bind_Ret in Er as (? & _ & Er)). apply bind_Ret in Er as (g & _ & [= <-]). done. }
  apply ReportRenderer.render_Ret in Er as (_ & Hs & _ & Hn & _).
  destruct (if polish then polish_executive_summary r else Ret r) as [r'|e] eqn:Ep; [|done].
  assert (Hr : rp_assessment_id r' = a /\ rp_status r' = ReportStatus.RENDERED /\ rp_finding_count r' = Z.of_nat (length (findings_of a))).
  { destruct polish; [|by injection Ep as <-]. assert (rp_assessment_id r' = rp_assessment_id r) as ->; [|apply polish_keeps_the_report in Ep as (-> & _ & _ & -> & _); done].
    unfold polish_executive_summary in Ep. destruct (Report.section _ r); [|by injection Ep as <-].
    destruct (gateway_call _) as [s'|e]; [|destruct (is_domain_error e); [by injection Ep as <-|done]].
    destruct (PyStr.is_empty _); by injection Ep as <-. }
  destruct Hr as (H1 & H2 & H3). cbn [mret M_ret]. change (ReportStore.add r' t) with (Ret tt, (ReportStore.add r' t).2). cbv iota beta.
  split_and!; [|done..]. rewrite ReportStore.get_add. by rewrite decide_True.
Qed.

End api.
End ReportApi.

(** ** Examples *)
Module ReportDemo.

Definition plain_template (name : string) (c : context) : outcome string :=
  Ret (match c with ExecutiveSummary title _ _ _ _ => title | FindingsList l => PyStr.join nl (fc_title <$> l) | CoverageTable _ _ => "table" end).
Definition hide (s : string) : string := PyStr.replace "hunter2" "***" s.
Definition demo_data : ReportData := mkReportData "as-1" "Audit, password hunter2" "In scope: hunter2" "" [] (flt "1.0") [] [] [].

(** The gate looks at coverage, findings and evidence only: a report with an
    empty method passes; the title is shown as it is. *)
Example empty_section_passes_and_title_leaks :
  match ReportRenderer.render plain_template hide demo_data "rep-1" with
  | Ret r => rp_completeness_ok r = true /\ (rs_content <$> Report.section "method" r) = Some (ReportRenderer.heading "Method")
             /\ (rs_content <$> Report.section "scope" r) = Some (ReportRenderer.heading "Scope" +:+ "In scope: ***")
             /\ (rs_content <$> Report.section "executive_summary" r) = Some "Audit, password hunter2"
  | Raise _ => False
  end.
Proof. vm_compute. done. Qed.

(** Polishing adds a section and keeps the digest of the report without it. *)
Example polished_digest_is_stale :
  match ReportRenderer.render plain_template hide demo_data "rep-1" with
  | Ret r => match ReportApi.polish_executive_summary (fun _ => Ret "nicer") r with
             | Ret r' => Report.compute_digest r' <> Ret (rp_digest r')
             | Raise _ => False
             end
  | Raise _ => False
  end.
Proof. vm_compute. by intros [=]. Qed.

Lemma released_reports_were_complete_witness :
  exists r0 r, ReportRenderer.render plain_template hide demo_data "rep-1" = Ret r0
    /\ ReportRenderer.after [ReportRenderer.Approve; ReportRenderer.Release] r0 = Ret r /\ ReportRenderer.complete demo_data.
Proof.
  do 2 eexists. split; [vm_compute; reflexivity|]. split; [vm_compute; reflexivity|].
  eapply (ReportRenderer.released_reports_were_complete plain_template hide demo_data "rep-1" _ [ReportRenderer.Approve; ReportRenderer.Release]); vm_compute; reflexivity.
Defined.

(** Of the nine sections the model documents, remediation is missing: the
    advice is part of the findings. *)
Example no_remediation_section :
  match ReportRenderer.render plain_template hide demo_data "rep-1" with
  | Ret r => Report.section "remediation" r = None /\ length (rp_sections r) = 8%nat
  | Raise _ => False
  end.
Proof. vm_compute. done. Qed.

End ReportDemo.
