(* ===== verification/Preflight.v ===== *)
(** * Credential preflight

    Models [src/secopent/domain/cases/preflight.py] and
    [application/preflight.py]: one deterministic login with, if asked for, the
    time-based code of RFC 6238 over SHA-1 and base 32.  The driver that talks
    to the target is a parameter; its calls are recorded.  Texts of secrets are
    ASCII. *)
From S2P Require Import Prelude PyStr PyTime Sha256 PyDict.

#[local] Open Scope Z_scope.

(** ** SHA-1 *)
Module Sha1.
Import Sha256.

Definition rotl (n x : Z) : Z := rotr (32 - n) x.

Definition H0 : list Z := [1732584193; 4023233417; 2562383102; 271733878; 3285377520].

(** The message schedule, newest word first: [n] more words. *)
Fixpoint expand (n : nat) (w : list Z) : list Z :=
  match n with
  | O => w
  | S n =>
      let at_ i := default 0 (w !! i) in
      expand n (rotl 1 (Z.lxor (Z.lxor (at_ 2%nat) (at_ 7%nat)) (Z.lxor (at_ 13%nat) (at_ 15%nat))) :: w)
  end.

Definition function_at (t : nat) (b c d : Z) : Z * Z :=
  if (t <? 20)%nat then (Z.lor (Z.land b c) (Z.land (not32 b) d), 1518500249)
  else if (t <? 40)%nat then (Z.lxor (Z.lxor b c) d, 1859775393)
  else if (t <? 60)%nat then (Maj b c d, 2400959708)
  else (Z.lxor (Z.lxor b c) d, 3395469782).

Definition round (st : list Z) (tw : nat * Z) : list Z :=
  match st with
  | [a; b; c; d; e] =>
      let '(f, k) := function_at tw.1 b c d in
      [add32 (add32 (add32 (rotl 5 a) f) (add32 e k)) tw.2; a; rotl 30 b; c; d]
  | _ => st
  end.

Definition compress (st block : list Z) : list Z :=
  let w := reverse (expand 64 (reverse block)) in
  zip_with add32 st (foldl round st (imap pair w)).

Fixpoint blocks (fuel : nat) (st w : list Z) : list Z :=
  match fuel with
  | O => st
  | S fuel => match w with [] => st | _ => blocks fuel (compress st (take 16 w)) (drop 16 w) end
  end.

Definition bytes_of_word (x : Z) : list Z := [Z.land (Z.shiftr x 24) 255; Z.land (Z.shiftr x 16) 255; Z.land (Z.shiftr x 8) 255; Z.land x 255].

(** [hashlib.sha1(b).digest()] *)
Definition digest (b : list Z) : list Z :=
  let w := words_of (pad b) in blocks (length w) H0 w ≫= bytes_of_word.

(** [hmac.new(key, message, sha1).digest()] *)
Definition hmac (key message : list Z) : list Z :=
  let key := if (64 <? length key)%nat then digest key else key in
  let key := key ++ replicate (64 - length key) 0 in
  digest ((Z.lxor 92 <$> key) ++ digest ((Z.lxor 54 <$> key) ++ message)).

Example sha1_abc : digest (bytes_of "abc") = [169; 153; 62; 54; 71; 6; 129; 106; 186; 62; 37; 113; 120; 80; 194; 108; 156; 208; 216; 157].
Proof. vm_compute. reflexivity. Qed.

(** Whatever is hashed, the digest has twenty bytes. *)
Lemma compress_length st block : length st = 5%nat -> length (compress st block) = 5%nat.
Proof.
  intros Hs. unfold compress. rewrite length_zip_with, Hs. enough (H : forall l st, length st = 5%nat -> length (foldl round st l) = 5%nat) by by rewrite H.
  clear. induction l as [|[t w] l IH]; intros st Hs; [done|]. cbn [foldl]. apply IH.
  destruct st as [|a [|b [|c [|d [|e [|? ?]]]]]]; try done. unfold round. by destruct (function_at _ b c d).
Qed.

Lemma digest_length b : length (digest b) = 20%nat.
Proof.
  unfold digest. cbv zeta. assert (H : forall fuel st w, length st = 5%nat -> length (blocks fuel st w) = 5%nat).
  { induction fuel as [|fuel IH]; intros st w Hs; [done|]. cbn [blocks]. destruct w; [done|]. by apply IH, compress_length. }
  pose proof (H (length (words_of (pad b))) H0 (words_of (pad b)) eq_refl) as Hl. destruct (blocks _ _ _) as [|a [|b' [|c [|d [|e [|? ?]]]]]]; try done.
Qed.

End Sha1.

(** ** [base64.b32decode] with [casefold] *)
Module Base32.

Definition alphabet : string := "ABCDEFGHIJKLMNOPQRSTUVWXYZ234567".

Fixpoint index (c : ascii) (s : string) (i : Z) : option Z :=
  match s with EmptyString => None | String d r => if Ascii.eqb c d then Some i else index c r (i + 1) end.

Definition bad_padding : exn := ValueError "Incorrect padding".

Fixpoint value_of (acc : Z) (s : string) : outcome Z :=
  match s with
  | EmptyString => Ret acc
  | String c r => i ← unwrap (index c alphabet 0) (ValueError "Non-base32 digit found"); value_of (acc * 32 + i) r
  end.

(** [acc.to_bytes(5)] *)
Definition bytes5 (n : Z) : list Z := (fun i => Z.land (Z.shiftr n (8 * (4 - i))) 255) <$> [0; 1; 2; 3; 4].

(** The groups of eight digits, the last possibly shorter; also the value of
    the last. *)
Fixpoint groups (fuel : nat) (acc : Z) (s : string) : outcome (list (list Z) * Z) :=
  match fuel, s with
  | S fuel, String _ _ =>
      v ← value_of 0 (PyStr.take 8 s);
      '(rest, last) ← groups fuel v (PyStr.drop 8 s);
      Ret (bytes5 v :: rest, last)
  | _, _ => Ret ([], acc)
  end.

Definition leftover (padding : nat) : nat := match padding with 1 => 4 | 3 => 3 | 4 => 2 | 6 => 1 | _ => 5 end%nat.

Definition decode (text : string) : outcome (list Z) :=
  let n := String.length text in
  if negb (Nat.eqb (n mod 8) 0) then Raise bad_padding
  else
    let s := PyStr.rstrip_char "=" (PyStr.upper text) in
    let padding := (n - String.length s)%nat in
    '(gs, last) ← groups n 0 s;
    if negb (bool_decide (padding ∈ [0; 1; 3; 4; 6]%nat)) then Raise bad_padding
    else if Nat.eqb padding 0 then Ret (concat gs)
    else
      match gs with
      | [] => Ret []
      | _ => Ret (concat (removelast gs) ++ take (leftover padding) (bytes5 (Z.shiftl last (5 * Z.of_nat padding))))
      end.

Example decodes : decode "gezdgnbvgy3tqojqgezdgnbvgy3tqojq" = Ret (Sha256.bytes_of "12345678901234567890")
  /\ decode "MY======" = Ret (Sha256.bytes_of "f") /\ decode "MZXW6YQ=" = Ret (Sha256.bytes_of "foob")
  /\ decode "JBSWY3DPEHPK3PX" = Raise bad_padding /\ decode "JBSWY3D1" = Raise (ValueError "Non-base32 digit found").
Proof. vm_compute. done. Qed.

End Base32.

(** ** The preflight *)
Module CredentialKind.
Inductive t : Type := FORM | API_TOKEN | BEARER.
#[export] Instance eq_dec : EqDecision t.
Proof. solve_decision. Defined.
Definition to_string (k : t) : string := match k with FORM => "form" | API_TOKEN => "api_token" | BEARER => "bearer" end.
#[export] Program Instance strenum : StrEnum t := { value := to_string; members := [FORM; API_TOKEN; BEARER] }.
Next Obligation. solve_members. Qed.
Next Obligation. solve_value_inj. Qed.
End CredentialKind.
Notation CredentialKind := CredentialKind.t.
Export (hints) CredentialKind.

Record PreflightSpec : Type := mkSpec {
  login_url : string;
  credential_kind : CredentialKind;
  username_field : string;
  password_field : string;
  success_marker : string;
  requires_totp : bool;
  totp_secret_ref : string;
  session_state_ref : string
}.

Module PreflightOutcome.
Inductive t : Type := SUCCESS | FAILURE.
End PreflightOutcome.
Notation PreflightOutcome := PreflightOutcome.t.

Inductive driver_call : Type :=
| SubmitLogin (spec : PreflightSpec) (username password : string) (totp : option string)
| SaveSession (spec : PreflightSpec).

Module Preflight.

(** [PreflightSpec(...)] *)
Definition check_spec (s : PreflightSpec) : outcome PreflightSpec :=
  raise_if (PyStr.is_empty (login_url s)) (DomainValidationError "PreflightSpec.login_url must be non-empty");;
  raise_if (PyStr.is_empty (success_marker s)) (DomainValidationError "PreflightSpec.success_marker must be non-empty");;
  raise_if (requires_totp s && PyStr.is_empty (totp_secret_ref s))
    (DomainValidationError "PreflightSpec.totp_secret_ref required when requires_totp");;
  Ret s.

Definition truncate (digest : list Z) : Z :=
  let offset := Z.to_nat (Z.land (default 0 (last digest)) 15) in
  Z.land (default 0 (head (Sha256.words_of (take 4 (drop offset digest))))) 2147483647.

(** [_totp_now]; [seconds] is [int(time.time() // 30) * 30] and what is left. *)
Definition totp (secret_b32 : string) (seconds : Z) : outcome string :=
  key ← Base32.decode secret_b32;
  Ret (PyTime.zpad 6 (truncate (Sha1.hmac key (Sha256.be64 (seconds / 30))) mod 1000000)).

(** The vector of RFC 6238. *)
Example rfc_6238 : totp "GEZDGNBVGY3TQOJQGEZDGNBVGY3TQOJQ" 59 = Ret "287082"
  /\ totp "GEZDGNBVGY3TQOJQGEZDGNBVGY3TQOJQ" 1111111109 = Ret "081804".
Proof. vm_compute. done. Qed.

(** A code has six digits, and the four bytes it is made of are always there. *)
Lemma totp_is_six_digits secret seconds code : totp secret seconds = Ret code -> String.length code = 6%nat.
Proof.
  unfold totp. destruct (Base32.decode secret) as [k|e]; [|done]. cbn [mbind outcome_bind].
  generalize (truncate (Sha1.hmac k (Sha256.be64 (seconds / 30))) mod 1000000). intros n H.
  assert (Hz : code = PyTime.zpad 6 n) by congruence. rewrite Hz. apply PyTime.zpad_length.
Qed.

Lemma truncation_in_bounds key message :
  length (take 4 (drop (Z.to_nat (Z.land (default 0 (last (Sha1.hmac key message))) 15)) (Sha1.hmac key message))) = 4%nat.
Proof.
  set (d := Sha1.hmac key message). assert (Hd : length d = 20%nat) by apply Sha1.digest_length.
  rewrite length_take, length_drop, Hd. pose proof (Z.land_ones (default 0 (last d)) 4 ltac:(lia)) as H. change (Z.ones 4) with 15 in H. rewrite H.
  pose proof (Z.mod_pos_bound (default 0 (last d)) (2 ^ 4) ltac:(lia)). lia.
Qed.

Section verify.
(** What the driver does at its n-th call. *)
Context (submit_login : nat -> PreflightSpec -> string -> string -> option string -> outcome string)
        (save_session : nat -> PreflightSpec -> outcome unit).

Definition call {A} (c : driver_call) (answer : nat -> outcome A) : M (list driver_call) A :=
  fun calls => (answer (length calls), calls ++ [c]).

Definition totp_for (spec : PreflightSpec) (secret_lookup : dict string) (seconds : Z) : outcome (option string) :=
  if requires_totp spec then
    secret ← unwrap (PyDict.get (totp_secret_ref spec) secret_lookup) (KeyError (PyStr.repr (totp_secret_ref spec)));
    code ← totp secret seconds; Ret (Some code)
  else Ret None.

(** [PreflightService.verify] *)
Definition verify (spec : PreflightSpec) (username password : string) (secret_lookup : dict string) (seconds : Z)
    : M (list driver_call) PreflightOutcome :=
  code ← lift (totp_for spec secret_lookup seconds);
  page ← call (SubmitLogin spec username password code) (fun n => submit_login n spec username password code);
  if negb (PyStr.contains page (success_marker spec)) then mret PreflightOutcome.FAILURE
  else
    call (SaveSession spec) (fun n => save_session n spec);;
    mret PreflightOutcome.SUCCESS.

(** credentials are tried once. A preflight submits the credentials at most
    once, with a code exactly when the specification asks for one, and not at
    all when the secret is missing or unreadable; it saves the session exactly
    when the page that came back holds the success marker, and succeeds only
    then. *)
Theorem one_login_attempt spec username password secrets seconds calls :
  let '(o, calls') := verify spec username password secrets seconds calls in
  match totp_for spec secrets seconds with
  | Raise e => o = Raise e /\ calls' = calls
  | Ret code =>
      (code = None <-> requires_totp spec = false)
      /\ exists later, calls' = calls ++ SubmitLogin spec username password code :: later
      /\ match submit_login (length calls) spec username password code with
         | Raise e => o = Raise e /\ later = []
         | Ret page =>
             if PyStr.contains page (success_marker spec)
             then later = [SaveSession spec] /\ (o = Ret PreflightOutcome.SUCCESS \/ exists e, o = Raise e)
             else later = [] /\ o = Ret PreflightOutcome.FAILURE
         end
  end.
Proof.
  unfold verify, lift, call, mbind, M_bind. destruct (totp_for spec secrets seconds) as [code|e] eqn:Et; [|done].
  assert (Hc : code = None <-> requires_totp spec = false).
  { unfold totp_for in Et. destruct (requires_totp spec); [|by injection Et as <-].
    apply bind_Ret in Et as (s & _ & (c & _ & [= <-])%bind_Ret). done. }
  destruct (submit_login _ _ _ _ _) as [page|e]; [|split; [done|]; by exists []].
  destruct (PyStr.contains page _); cbn [negb].
  - destruct (save_session _ _) as [[]|e]; cbn; (split; [done|]; exists [SaveSession spec]; rewrite <- app_assoc; split; [done|]; split; [done|]); [by left|right; by eexists].
  - cbn. split; [done|]. by exists [].
Qed.

End verify.
End Preflight.
