(* ===== verification/Projects.v ===== *)
(** * Projects

    Models [src/secopent/domain/projects/models.py], the service
    [application/projects.py], its repository in
    [infrastructure/repositories/sqlalchemy_core.py] and the routes of
    [interfaces/api/routers/projects.py].  The order of projects created at
    one instant is a parameter. *)
From S2P Require Import Prelude PyStr PyTime PyDict.

#[local] Open Scope Z_scope.

Module ProjectStatus.
Inductive t : Type := ACTIVE | ARCHIVED.
#[export] Instance eq_dec : EqDecision t.
Proof. solve_decision. Defined.
Definition to_string (s : t) : string := match s with ACTIVE => "active" | ARCHIVED => "archived" end.
#[export] Program Instance strenum : StrEnum t := { value := to_string; members := [ACTIVE; ARCHIVED] }.
Next Obligation. solve_members. Qed.
Next Obligation. solve_value_inj. Qed.
End ProjectStatus.
Notation ProjectStatus := ProjectStatus.t.
Export (hints) ProjectStatus.

Record Project : Type := mkProject {
  pj_id : string;
  pj_name : string;
  pj_status : ProjectStatus;
  pj_created_at : datetime
}.

(** A row holds the value of the status. *)
Record CoreProject : Type := mkProjectRow { pr_id : string; pr_name : string; pr_status : string; pr_created_at : datetime }.

Module Projects.

(** [Project.create] *)
Definition make (project_id name : string) (now : datetime) : outcome Project :=
  let i := PyStr.strip project_id in
  let n := PyStr.strip name in
  raise_if (PyStr.is_empty i) (DomainValidationError "project id must not be empty");;
  raise_if (PyStr.is_empty n) (DomainValidationError "project name must not be empty");;
  Ret (mkProject i n ProjectStatus.ACTIVE now).

Definition with_status (p : Project) (s : ProjectStatus) : Project := mkProject (pj_id p) (pj_name p) s (pj_created_at p).

Definition archive (p : Project) : Project :=
  if bool_decide (pj_status p = ProjectStatus.ARCHIVED) then p else with_status p ProjectStatus.ARCHIVED.

Definition reactivate (p : Project) : outcome Project :=
  raise_if (bool_decide (pj_status p = ProjectStatus.ACTIVE)) (DomainValidationError "project is already active");;
  Ret (with_status p ProjectStatus.ACTIVE).

(** ** The repository *)
Definition row_of (p : Project) : CoreProject := mkProjectRow (pj_id p) (pj_name p) (value (pj_status p)) (pj_created_at p).
Definition project_of (r : CoreProject) : outcome Project :=
  s ← unwrap (of_value (pr_status r)) (ValueError (PyStr.repr (pr_status r) +:+ " is not a valid ProjectStatus"));
  Ret (mkProject (pr_id r) (pr_name r) s (pr_created_at r)).

(** [session.add] inserts; a taken key fails. *)
Definition add (p : Project) : M (dict CoreProject) unit :=
  t ← get;
  lift (raise_if (bool_decide (is_Some (PyDict.get (pj_id p) t))) (OperationalError "UNIQUE constraint failed: core_projects.id"));;
  modify (PyDict.set (pj_id p) (row_of p)).

Definition find (i : string) (t : dict CoreProject) : outcome (option Project) :=
  match PyDict.get i t with Some r => p ← project_of r; Ret (Some p) | None => Ret None end.

Definition earlier (a b : CoreProject) : Prop := pr_created_at a <= pr_created_at b.
#[export] Instance earlier_dec : RelDecision earlier.
Proof. unfold RelDecision, earlier. solve_decision. Defined.

Definition list_all (scan : forall A, list A -> list A) (t : dict CoreProject) : outcome (list Project) :=
  mapM_outcome project_of (merge_sort earlier (scan _ (PyDict.values t))).

(** [ProjectService.create]; [hex] is the [uuid4]. *)
Definition create (hex name : string) (now : datetime) : M (dict CoreProject) Project :=
  p ← lift (make ("proj-" +:+ PyStr.take 12 hex) name now);
  add p;;
  mret p.

Definition get_project (i : string) (t : dict CoreProject) : outcome Project :=
  o ← find i t; unwrap o (HTTPException 404 "project not found").

(** ** What they do *)

(** Archiving twice is archiving once; an archived project can be taken back
    and is what it was, an active one cannot. *)
Lemma archive_life p :
  archive (archive p) = archive p /\ pj_status (archive p) = ProjectStatus.ARCHIVED
  /\ (pj_status p = ProjectStatus.ACTIVE -> reactivate (archive p) = Ret p /\ is_Ret (reactivate p) = false).
Proof. destruct p as [i n [] t]; cbn; split_and!; done. Qed.

Lemma project_reads_back p : project_of (row_of p) = Ret p.
Proof. unfold project_of, row_of. cbn [pr_status]. rewrite of_value_value. by destruct p. Qed.

(** projects are created once. Creating a project under a fresh number
    stores an active project whose name is the given one without surrounding
    blanks, which is then found, beside every other as it was; a blank name or
    a taken number changes nothing. *)
Theorem created_project_is_found hex name now t :
  match create hex name now t with
  | (Ret p, t') =>
      find (pj_id p) t' = Ret (Some p) /\ pj_name p = PyStr.strip name /\ PyStr.strip name <> "" /\ pj_status p = ProjectStatus.ACTIVE
      /\ PyDict.get (pj_id p) t = None /\ forall i, i <> pj_id p -> find i t' = find i t
  | (Raise _, t') => t' = t
  end.
Proof.
  unfold create, lift, mbind, M_bind. destruct (make _ name now) as [p|e] eqn:Em; [|done].
  apply bind_Ret in Em as (_ & _ & ([] & Hn%raise_if_Ret & [= <-])%bind_Ret).
  unfold add, get, lift, modify, mbind, M_bind, raise_if. cbn [pj_id].
  case_bool_decide as Hin; [done|]. cbv beta iota. cbn [pj_id pj_name pj_status mret M_ret].
  split_and!; [|done|by intros E; rewrite E in Hn|done|by apply eq_None_not_Some|].
  - unfold find. rewrite PyDict.get_set, decide_True by done. by rewrite project_reads_back.
  - intros i Hi. unfold find. rewrite PyDict.get_set, decide_False by done. done.
Qed.

(** The identifier a project is found under is trimmed, too. *)
Example demo : exists t, create "0123456789abcdef" "  Acme  " 5 [] = (Ret (mkProject "proj-0123456789ab" "Acme" ProjectStatus.ACTIVE 5), t)
  /\ is_Ret (get_project "proj-0123456789ab" t) = true /\ is_Ret (create "0123456789ab" " " 5 t).1 = false.
Proof. eexists. split; [reflexivity|]. vm_compute. done. Qed.

End Projects.
