(* ===== verification/McpTools.v ===== *)
(** * The tool registry of the agent interface

    Models [src/secopent/interfaces/mcp/tool_registry.py] and
    [build_default_registry] of [interfaces/mcp/__init__.py].  A handler is a
    computation over its keyword arguments; both are type parameters, so the
    registry is the one the handlers of [Mcp] are registered in. *)
From S2P Require Import Prelude PyStr PyDict.

#[local] Open Scope Z_scope.

Module ToolTrustLevel.
Inductive t : Type := SELF_WRITTEN | ADOPTED | UNTRUSTED.
#[export] Instance eq_dec : EqDecision t.
Proof. solve_decision. Defined.
Definition to_string (l : t) : string :=
  match l with SELF_WRITTEN => "self_written" | ADOPTED => "adopted_external_mcp" | UNTRUSTED => "untrusted_external_mcp" end.
#[export] Program Instance strenum : StrEnum t := { value := to_string; members := [SELF_WRITTEN; ADOPTED; UNTRUSTED] }.
Next Obligation. solve_members. Qed.
Next Obligation. solve_value_inj. Qed.
End ToolTrustLevel.
Notation ToolTrustLevel := ToolTrustLevel.t.
Export (hints) ToolTrustLevel.

Record ToolSpec {H : Type} : Type := mkTool {
  tool_name : string;
  description : string;
  trust_level : ToolTrustLevel;
  handler : H
}.
Arguments ToolSpec H : clear implicits.
Arguments mkTool {H}.

Module McpToolRegistry.

Definition STANDARD_ORCHESTRATION_TOOLS : list string :=
  ["project_create"; "scope_draft"; "scope_validate"; "scope_freeze"; "assessment_create"; "plan_generate"; "plan_approve";
   "assessment_start"; "grant_list"; "mission_create"; "assessment_pause"; "assessment_resume"; "assessment_cancel";
   "assessment_status"; "loop_pause"; "loop_resume"; "loop_status"; "loop_history"; "loop_create"; "loop_stop"; "asset_list";
   "finding_list"; "finding_validate"; "intel_search"; "report_render"].

Definition FORBIDDEN_TOOL_NAMES : list string :=
  ["shell"; "docker_run"; "execute_python"; "exec"; "eval"; "run_command"; "subprocess"].

Definition SAFE_READ_ONLY_TOOLS : list string := ["list_findings"; "get_finding"; "list_required_classes"].

Section registry.
(** Keyword arguments, the state of the handlers, their answers. *)
Context {P W A : Type}.
Definition Handler : Type := P -> M W A.
Definition Registry : Type := dict (ToolSpec Handler).

Definition not_directly_callable : Handler := fun _ =>
  raise (ToolRegistrationError "adopted external MCP tools are proxied, not called directly here").

Definition register (spec : ToolSpec Handler) : M Registry unit :=
  lift (raise_if (bool_decide (tool_name spec ∈ FORBIDDEN_TOOL_NAMES))
    (ToolRegistrationError ("tool " +:+ PyStr.repr (tool_name spec) +:+ " is forbidden and cannot be exposed to the agent")));;
  r ← get;
  lift (raise_if (bool_decide (is_Some (PyDict.get (tool_name spec) r)))
    (ToolRegistrationError ("tool " +:+ PyStr.repr (tool_name spec) +:+ " already registered")));;
  modify (PyDict.set (tool_name spec) spec).

Definition register_self_written (name description : string) (h : Handler) : M Registry (ToolSpec Handler) :=
  let spec := mkTool name description ToolTrustLevel.SELF_WRITTEN h in register spec;; mret spec.

Definition register_adopted (name description : string) (verified : bool) : M Registry (ToolSpec Handler) :=
  let trust := if verified then ToolTrustLevel.ADOPTED else ToolTrustLevel.UNTRUSTED in
  let spec := mkTool name description trust not_directly_callable in register spec;; mret spec.

Fixpoint register_given (names : list string) (handlers : dict Handler) : M Registry (list (ToolSpec Handler)) :=
  match names with
  | [] => mret []
  | name :: rest =>
      match PyDict.get name handlers with
      | None => register_given rest handlers
      | Some h =>
          spec ← register_self_written name ("Orchestration tool: " +:+ name) h;
          specs ← register_given rest handlers;
          mret (spec :: specs)
      end
  end.

Definition register_standard_tools (handlers : dict Handler) : M Registry (list (ToolSpec Handler)) :=
  register_given STANDARD_ORCHESTRATION_TOOLS handlers.

Definition find (name : string) (r : Registry) : outcome (ToolSpec Handler) :=
  unwrap (PyDict.get name r) (ToolNotFoundError ("tool not registered: " +:+ name)).

Definition invoke (r : Registry) (name : string) (params : P) : M W A :=
  spec ← lift (find name r); handler spec params.

Definition names (trust : option ToolTrustLevel) (r : Registry) : list string :=
  PyStr.sorted (fst <$> List.filter (fun kv => match trust with Some t => bool_decide (trust_level kv.2 = t) | None => true end) r).

(** [build_default_registry]: the read-only handlers, and the standard ones of
    a runtime if there is one. *)
Definition build_default_registry (standard : option (dict Handler)) (list_findings get_finding list_required : Handler)
    : M Registry unit :=
  match standard with
  | None =>
      register_self_written "list_findings" "Read-only: list findings for an assessment (optionally filtered by status)." list_findings;;
      register_self_written "get_finding" "Read-only: fetch a single finding by id." get_finding;;
      register_self_written "list_required_classes"
        "Read-only: list required test classes for an asset type from the catalog." list_required;;
      mret tt
  | Some bound =>
      register_standard_tools bound;;
      register_self_written "list_findings" "Read-only: list findings for an assessment (optionally filtered)." list_findings;;
      register_self_written "get_finding" "Read-only: fetch a single finding by id." get_finding;;
      register_self_written "list_required_classes"
        "Read-only: list required test classes for an asset type from the catalog." list_required;;
      mret tt
  end.

(** ** What can be registered *)
Inductive op : Type :=
| SelfWritten (name description : string) (h : Handler)
| Adopted (name description : string) (verified : bool)
| Standard (handlers : dict Handler).

Definition run (o : op) (r : Registry) : Registry :=
  match o with
  | SelfWritten n d h => (register_self_written n d h r).2
  | Adopted n d v => (register_adopted n d v r).2
  | Standard hs => (register_standard_tools hs r).2
  end.

(** A tool is found under its own name, which no dangerous primitive has, and
    a tool of others cannot be called through the registry. *)
Definition exposed (kv : string * ToolSpec Handler) : Prop :=
  tool_name kv.2 = kv.1 /\ kv.1 ∉ FORBIDDEN_TOOL_NAMES
  /\ (trust_level kv.2 <> ToolTrustLevel.SELF_WRITTEN -> handler kv.2 = not_directly_callable).

Definition wf (r : Registry) : Prop := PyDict.wf r /\ Forall exposed r.

Lemma registration spec r :
  register spec r = (Ret tt, r ++ [(tool_name spec, spec)]) /\ tool_name spec ∉ FORBIDDEN_TOOL_NAMES /\ tool_name spec ∉ PyDict.keys r
  \/ (exists msg, register spec r = (Raise (ToolRegistrationError msg), r))
     /\ (tool_name spec ∈ FORBIDDEN_TOOL_NAMES \/ tool_name spec ∈ PyDict.keys r).
Proof.
  unfold register, lift, get, modify, mbind, M_bind, raise_if. case_bool_decide as Hf; [right; split; [by eexists|by left]|].
  case_bool_decide as Hk; [right; split; [by eexists|]; right; destruct Hk as [s Hs]; by apply PyDict.get_Some_keys in Hs|].
  left. assert (Hn : tool_name spec ∉ PyDict.keys r) by (apply PyDict.get_None_keys; by apply eq_None_not_Some).
  by rewrite PyDict.keys_set_notin.
Qed.

Lemma register_wf spec r : (trust_level spec <> ToolTrustLevel.SELF_WRITTEN -> handler spec = not_directly_callable) ->
  wf r -> wf (register spec r).2.
Proof.
  intros Ht [Hw He]. destruct (registration spec r) as [(-> & Hf & Hk)|[[msg ->] _]]; [|done].
  cbn [snd]. split.
  - rewrite <- PyDict.keys_set_notin by done. by apply PyDict.set_wf.
  - apply Forall_app. split; [done|]. constructor; [|constructor]. done.
Qed.

Lemma register_self_written_wf n d h r : wf r -> wf (register_self_written n d h r).2.
Proof.
  intros Hr. unfold register_self_written, mbind, M_bind. pose proof (register_wf (mkTool n d ToolTrustLevel.SELF_WRITTEN h) r) as H.
  destruct (register _ r) as [[]]; apply H; done.
Qed.

Lemma register_given_wf ns hs r : wf r -> wf (register_given ns hs r).2.
Proof.
  revert r. induction ns as [|n ns IH]; intros r Hr; [done|]. cbn [register_given]. destruct (PyDict.get n hs) as [h|]; [|by apply IH].
  unfold mbind, M_bind. pose proof (register_self_written_wf n ("Orchestration tool: " +:+ n) h r Hr) as H.
  destruct (register_self_written n _ h r) as [[s|e] r1]; [|exact H]. specialize (IH r1 H). by destruct (register_given ns hs r1) as [[]].
Qed.

Lemma registry_kept o r : wf r -> wf (run o r).
Proof.
  intros Hr. destruct o as [n d h|n d v|hs]; cbn [run]; [by apply register_self_written_wf| |by apply register_given_wf].
  unfold register_adopted, mbind, M_bind. cbv zeta.
  pose proof (register_wf (mkTool n d (if v then ToolTrustLevel.ADOPTED else ToolTrustLevel.UNTRUSTED) not_directly_callable) r) as H.
  destruct (register _ r) as [[]]; apply H; done.
Qed.

(** no dangerous tool is exposed. Whatever is registered, in whatever
    order and from whichever source, no tool has a forbidden name, no name
    has two tools, every tool is invoked under its own name, and a tool of an
    external server cannot be invoked: the call raises and changes nothing. *)
Theorem only_orchestration_is_exposed ops :
  let r := foldl (fun r o => run o r) [] ops in
  (forall name, name ∈ FORBIDDEN_TOOL_NAMES -> find name r = Raise (ToolNotFoundError ("tool not registered: " +:+ name)))
  /\ NoDup (PyDict.keys r)
  /\ forall name spec params w, find name r = Ret spec ->
       tool_name spec = name
       /\ (trust_level spec <> ToolTrustLevel.SELF_WRITTEN -> exists msg, invoke r name params w = (Raise (ToolRegistrationError msg), w)).
Proof.
  intros r. assert (Hr : wf r).
  { unfold r. assert (H : forall r0, wf r0 -> wf (foldl (fun r o => run o r) r0 ops)).
    { induction ops as [|o ops IH]; intros r0 H0; [done|]. apply IH, registry_kept, H0. }
    apply H. split; constructor. }
  clearbody r. destruct Hr as [Hw He]. rewrite Forall_forall in He. split_and!; [|exact Hw|].
  - intros name Hf. unfold find. destruct (PyDict.get name r) as [s|] eqn:E; [|done].
    apply PyDict.get_In, He in E as (_ & Hn & _); [done|exact Hw].
  - intros name spec params w Hf. pose proof Hf as Hg%unwrap_Ret. apply PyDict.get_In, He in Hg as (Ht & _ & Hh); [|exact Hw]. cbn in *.
    split; [done|]. intros Hs. eexists. unfold invoke, lift, mbind, M_bind. rewrite Hf.
    specialize (Hh Hs). destruct spec as [n d t h]. cbn in Hh |- *. rewrite Hh. reflexivity.
Qed.

End registry.

(** The tools of both wirings. *)
Definition demo_handler : @Handler unit unit unit := fun _ => mret tt.
Example default_surface :
  let bound := (fun n => (n, demo_handler)) <$> STANDARD_ORCHESTRATION_TOOLS in
  let build s := (build_default_registry s demo_handler demo_handler demo_handler []).2 in
  names None (build None) = PyStr.sorted SAFE_READ_ONLY_TOOLS
  /\ names None (build (Some bound)) = PyStr.sorted (SAFE_READ_ONLY_TOOLS ++ STANDARD_ORCHESTRATION_TOOLS)
  /\ is_Ret (register_self_written "shell" "" demo_handler []).1 = false.
Proof. vm_compute. done. Qed.

End McpToolRegistry.
