(* ===== verification/Mcp.v ===== *)
(** * The agent interface

    Models [src/secopent/interfaces/mcp/handlers.py]: every orchestration tool
    the agent can call, over the services of the other files, with the
    transaction each handler opens ([infrastructure/db/session.py],
    [UnitOfWork]) and the threads it starts.  [guard] turns an exception into
    an answer inside the transaction, so the transaction is committed.

    A call reads the clock and draws identifiers several times: [Env] gives
    the n-th reading and the n-th draw of a call.  Parameters: Unicode data,
    the language model backend, the report templates and the redactor, the
    conversions of floats, the FTS5 matcher, the order of unordered queries and
    the audit recorder's refusals.  The transport (FastMCP) is not modelled. *)
From S2P Require Import Prelude PyStr PyTime PyFloat PyIso PyJson PyDict Net Sha256 Canonical Policy Contracts Adapters Verification Findings AuditTrail Catalog LlmPlanner LoopModels Loop Assets Intel IntelStore Scope Grants Reports Projects Assessments AssessmentService.

#[local] Open Scope Z_scope.

(** ** The database, a session on it, and threads *)
Record Tables : Type := mkTables {
  core : Repo;
  scopes : ScopeWorld;
  grants : GrantRepo;
  projects : dict CoreProject;
  loops : gmap LoopId LoopState;
  loop_steps : list LoopStep;
  reports : dict CoreReport;
  findings : dict Finding;
  assets : Assets.Tables;
  intel : IntelStore.Tables;
  signed : list AuditCall
}.

Inductive thread : Type := StartRun (assessment_id : string) | ResumeRun (assessment_id : string).

(** What is committed, what the open session sees, and the threads that were
    started, each with what was committed at that moment. *)
Record Mcp : Type := mkMcp { db : Tables; view : Tables; threads : list (thread * Tables) }.

Record Env : Type := mkEnv { now_at : nat -> datetime; hex : nat -> string }.

(** How the loop repositories are wired. *)
Inductive LoopRepo : Type := NotWired | InMemory | Sql.

(** [McpRuntime]: what a handler finds configured. *)
Record McpRuntime : Type := mkRuntime {
  start_scheduler : bool;
  resume_scheduler : bool;
  llm_backend : option (string -> outcome string);
  backend_name : string;
  loop_control : bool;
  loop_repo : LoopRepo
}.

Module Session.
Definition with_core (x : Repo) (t : Tables) : Tables :=
  mkTables x (scopes t) (grants t) (projects t) (loops t) (loop_steps t) (reports t) (findings t) (assets t) (intel t) (signed t).
Definition with_scopes (x : ScopeWorld) (t : Tables) : Tables :=
  mkTables (core t) x (grants t) (projects t) (loops t) (loop_steps t) (reports t) (findings t) (assets t) (intel t) (signed t).
Definition with_projects (x : dict CoreProject) (t : Tables) : Tables :=
  mkTables (core t) (scopes t) (grants t) x (loops t) (loop_steps t) (reports t) (findings t) (assets t) (intel t) (signed t).
Definition with_loops (x : gmap LoopId LoopState) (t : Tables) : Tables :=
  mkTables (core t) (scopes t) (grants t) (projects t) x (loop_steps t) (reports t) (findings t) (assets t) (intel t) (signed t).
Definition with_reports (x : dict CoreReport) (t : Tables) : Tables :=
  mkTables (core t) (scopes t) (grants t) (projects t) (loops t) (loop_steps t) x (findings t) (assets t) (intel t) (signed t).
Definition with_signed (x : list AuditCall) (t : Tables) : Tables :=
  mkTables (core t) (scopes t) (grants t) (projects t) (loops t) (loop_steps t) (reports t) (findings t) (assets t) (intel t) x.

(** A service on its part of what the session sees. *)
Definition on {S A} (part : Tables -> S) (with_ : S -> Tables -> Tables) (m : M S A) : M Mcp A :=
  fun w => let '(o, s) := m (part (view w)) in (o, mkMcp (db w) (with_ s (view w)) (threads w)).
Definition on_core {A} : M Repo A -> M Mcp A := on core with_core.
Definition on_scopes {A} : M ScopeWorld A -> M Mcp A := on scopes with_scopes.
Definition on_projects {A} : M (dict CoreProject) A -> M Mcp A := on projects with_projects.
Definition on_reports {A} : M (dict CoreReport) A -> M Mcp A := on reports with_reports.

Definition see {A} (f : Tables -> A) : M Mcp A := gets (fun w => f (view w)).
Definition spawn (t : thread) : M Mcp unit := modify (fun w => mkMcp (db w) (view w) (threads w ++ [(t, db w)])).

(** [with runtime.db.unit_of_work() as uow]: commit on a clean exit, roll back
    on an exception. *)
Definition unit_of_work {A} (m : M Mcp A) : M Mcp A := fun w =>
  match m (mkMcp (db w) (db w) (threads w)) with
  | (Ret a, w') => (Ret a, mkMcp (view w') (view w') (threads w'))
  | (Raise e, w') => (Raise e, mkMcp (db w) (db w) (threads w'))
  end.

(** Writes to the in-memory repositories: there is nothing to roll back. *)
Definition at_once {A} (m : M Mcp A) : M Mcp A := fun w =>
  let '(o, w') := m (mkMcp (db w) (db w) (threads w)) in (o, mkMcp (view w') (view w') (threads w')).
End Session.

Module McpOut.
Definition human_required (action assessment_id msg : string) : json :=
  JObj [("status", JStr "HUMAN_REQUIRED"); ("action", JStr action); ("assessment_id", JStr assessment_id); ("message", JStr msg);
        ("next_step", JStr "a human must approve/start this assessment via the SecOpent UI")].
Definition error (code msg : string) (extra : list (string * json)) : json :=
  JObj ([("status", JStr "error"); ("code", JStr code); ("message", JStr msg)] ++ extra).

(** The [except] clauses of [_guard], in their order. *)
Definition translate (action : string) (e : exn) : json :=
  match e with
  | AssessmentPermissionError msg | ApprovalRejected msg => human_required action "" msg
  | LookupError msg | KeyError msg => error "NOT_FOUND" msg []
  | DomainValidationError msg | ValueError msg => error "INVALID_ARGUMENT" msg []
  | e => error "INTERNAL" (message e) []
  end.

Definition guard (action : string) (m : M Mcp json) : M Mcp json := fun w =>
  match m w with
  | (Raise e, w') => if is_exception e then (Ret (translate action e), w') else (Raise e, w')
  | r => r
  end.

(** [result.get("status") == s] *)
Definition has_status (v : json) (s : string) : bool :=
  match v with JObj d => match field "status" d with Some (JStr x) => bool_decide (x = s) | _ => false end | _ => false end.

Definition project_out (p : Project) : json :=
  JObj [("id", JStr (pj_id p)); ("name", JStr (pj_name p)); ("status", Canonical.jenum (pj_status p));
        ("created_at", JStr (PyIso.isoformat (pj_created_at p)))].
Definition scope_out (s : ScopeSnapshot) : outcome json :=
  limits ← Scope.limits_json (sc_limits s);
  Ret (JObj [("id", JStr (sc_id s)); ("project_id", JStr (sc_project_id s)); ("include", Canonical.jstrs (include s));
        ("exclude", Canonical.jstrs (exclude s)); ("ports", JArr (JInt <$> ports s)); ("cloud_accounts", Canonical.jstrs (cloud_accounts s));
        ("limits", limits); ("approved_by", JStr (sc_approved_by s)); ("approved_at", JStr (PyIso.isoformat (sc_approved_at s)));
        ("digest", JStr (sc_digest s))]).
Definition assessment_fields (a : Assessment) : list (string * json) :=
  [("id", JStr (id a)); ("project_id", JStr (project_id a)); ("scope_snapshot_id", JStr (scope_snapshot_id a));
   ("mode", Canonical.jenum (mode a)); ("status", Canonical.jenum (status a)); ("control", Canonical.jenum (control a));
   ("active_plan_id", Canonical.jopt JStr (active_plan_id a)); ("approval_id", Canonical.jopt JStr (approval_id a))].
Definition assessment_out (a : Assessment) : json := JObj (assessment_fields a).
Definition plan_out (p : ExecutionPlan) : json :=
  JObj [("id", JStr (plan_id p)); ("assessment_id", JStr (plan_assessment_id p)); ("version", JInt (Assessments.version p)); ("digest", JStr (plan_digest p));
        ("steps", JArr ((fun s => JObj [("key", JStr (step_key s)); ("runner", JStr (runner s)); ("risk", Canonical.jenum (risk s));
           ("parameters", JObj (parameters s)); ("dependencies", Canonical.jstrs (dependencies s))]) <$> Assessments.steps p))].
Definition finding_out (f : Finding) : json :=
  JObj [("id", JStr (fd_id f)); ("fingerprint", JStr (fingerprint f)); ("title", JStr (fd_title f)); ("asset", JStr (fd_asset f));
        ("severity", Canonical.jenum (fd_severity f)); ("cwe", Canonical.jstrs (fd_cwe f)); ("cve", Canonical.jstrs (fd_cve f));
        ("owasp", Canonical.jstrs (fd_owasp f)); ("status", Canonical.jenum (fd_status f)); ("assessment_id", JStr (fd_assessment_id f));
        ("oracle_verdict", Canonical.jenum (oracle_verdict f))].
Definition report_out (r : Report) : outcome json :=
  rate ← Canonical.json_of_float (rp_coverage_rate r);
  Ret (JObj [("id", JStr (rp_id r)); ("assessment_id", JStr (rp_assessment_id r)); ("title", JStr (rp_title r));
        ("sections", JArr (Report.section_json <$> rp_sections r)); ("finding_count", JInt (rp_finding_count r)); ("coverage_rate", rate);
        ("completeness_ok", JBool (rp_completeness_ok r)); ("status", Canonical.jenum (rp_status r)); ("digest", JStr (rp_digest r))]).
Definition node_out (n : AssetNode) : json := JObj [("type", Canonical.jenum (node_type n)); ("value", JStr (node_value n))].
Definition asset_graph_out (g : AssetGraph) : json :=
  JObj [("nodes", JArr (node_out <$> nodes g));
        ("edges", JArr ((fun e => JObj [("src", node_out (src e)); ("dst", node_out (dst e)); ("rel", Canonical.jenum (rel e))]) <$> edges g))].
Definition product_out (p : AffectedProduct) : json :=
  JObj [("vendor", JStr (vendor p)); ("product", JStr (product p)); ("cpe", Canonical.jopt JStr (cpe p));
        ("package", Canonical.jopt JStr (package p)); ("version_range", JStr (version_range p)); ("fixed_versions", Canonical.jstrs (fixed_versions p))].
(** Intelligence is stored, and read, in UTC. *)
Definition vuln_out (v : Vulnerability) : outcome json :=
  scores ← mapM_outcome (fun kv => x ← Canonical.json_of_float kv.2.1; Ret (kv.1, x)) (cvss v);
  epss ← Canonical.json_of_float (epss_score (exploitation_signal v));
  let s := exploitation_signal v in
  Ret (JObj [("canonical_id", JStr (canonical_id v)); ("aliases", Canonical.jstrs (aliases v)); ("description", JStr (v_description v));
        ("cvss", JObj scores); ("cwe", Canonical.jstrs (v_cwe v)); ("references", Canonical.jstrs (references v));
        ("published_at", JStr (PyIso.isoformat (instant (published_at v))));
        ("affected_products", JArr (product_out <$> affected_products v));
        ("exploitation_signal", JObj [("kev", JBool (kev s)); ("epss_score", epss); ("public_exploit", JBool (public_exploit s));
           ("ransomware", JBool (ransomware s)); ("active_exploitation", JBool (active_exploitation s))]);
        ("digest", JStr (v_digest v))]).
End McpOut.

(** ** The tools *)
Module McpHandlers.
Import Session McpOut.

(** [_RISK_RANK] *)
Definition risk_rank (r : RiskClass) : Z :=
  match r with RiskClass.PASSIVE => 0 | RiskClass.LOW => 1 | RiskClass.ACTIVE => 2 | RiskClass.INTRUSIVE => 3 | RiskClass.DESTRUCTIVE => 4 end.

(** [max(risk_caps, key=_risk_rank)] *)
Definition max_cap (caps : list RiskClass) : option RiskClass :=
  foldl (fun acc r => match acc with Some m => if risk_rank m <? risk_rank r then Some r else acc | None => Some r end) None caps.

Definition is_network (target : string) : bool := match Ip.ip_network target with Some _ => true | None => false end.

Definition asset_type_for_target (target : string) : Catalog.AssetType.t :=
  if Normalize.is_http target then Catalog.AssetType.WEB_APP
  else if PyStr.contains target ":" && negb (PyStr.contains target "/") then Catalog.AssetType.IP_PORT
  else if is_network target then Catalog.AssetType.IP_PORT else Catalog.AssetType.WEB_APP.

(** [_classify_asset_types] of the assessment router. *)
Definition add_type (t : Catalog.AssetType.t) (l : list Catalog.AssetType.t) : list Catalog.AssetType.t :=
  if bool_decide (t ∈ l) then l else l ++ [t].
Definition classify_asset_types (s : ScopeSnapshot) : list Catalog.AssetType.t :=
  let types := foldl (fun l t => add_type (if Normalize.is_http t then Catalog.AssetType.WEB_APP
                                           else if is_network t then Catalog.AssetType.IP_PORT else Catalog.AssetType.WEB_APP) l) [] (include s) in
  match cloud_accounts s with [] => types | _ => add_type Catalog.AssetType.CLOUD_ACCOUNT types end.

(** [x or default] *)
Definition some_or {A} (d : list A) (o : option (list A)) : list A := match o with Some (x :: l) => x :: l | _ => d end.
Definition given (o : option string) : bool := Assessment.truthy_opt o.

Section handlers.
Context (uni : Unicode) (latest : option TestCatalog) (by_version : string -> option TestCatalog).
Context (templates : string -> Reports.context -> outcome string) (redact : string -> string) (float_conv : json -> outcome pyfloat).
Context (fts_match : string -> outcome (string -> bool)) (scan : forall A, list A -> list A).
Context (audit_ok : AuditCall -> outcome unit) (rt : McpRuntime).

(** [_audit]: a signed event in the session. *)
Definition audit (call : AuditCall) : M Mcp unit :=
  lift (audit_ok call);;
  modify (fun w => mkMcp (db w) (with_signed (signed (view w) ++ [call]) (view w)) (threads w)).

Definition hex12 (e : Env) (n : nat) : string := PyStr.take 12 (hex e n).

Definition handler_project_create (e : Env) (name : string) : M Mcp json :=
  unit_of_work (guard "project_create"
    (p ← on_projects (Projects.create (hex e 0) name (now_at e 0)); mret (project_out p))).

Definition scope_validate_result (inc exc : list string) (prt : list Z) (acc : list string) : M Mcp json :=
  unit_of_work
    (let r := ScopeService.validate uni inc exc prt acc in
     mret (JObj [("status", JStr (if ScopeService.ok r then "ok" else "invalid")); ("include", Canonical.jstrs (v_include r));
       ("exclude", Canonical.jstrs (v_exclude r)); ("ports", JArr (JInt <$> v_ports r)); ("cloud_accounts", Canonical.jstrs (v_cloud_accounts r));
       ("errors", JArr ((fun '(f, i, raw, err) => JObj [("field", JStr f); ("index", JInt i); ("raw", JStr raw); ("error", JStr err)]) <$> v_errors r))])).

(** [scope_draft] and [scope_validate] share their body. *)
Definition handler_scope_draft (inc : list string) (exc : option (list string)) (prt : option (list Z)) (acc : option (list string)) : M Mcp json :=
  scope_validate_result inc (some_or [] exc) (some_or [443] prt) (some_or [] acc).
Definition handler_scope_validate := handler_scope_draft.

Definition handler_scope_freeze (e : Env) (project : string) (inc : list string) (exc : option (list string)) (prt : option (list Z))
    (by_ : string) (rps : pyfloat) (conc max_req : Z) (acc : option (list string)) : M Mcp json :=
  unit_of_work (guard "scope_freeze"
    (s ← on_scopes (ScopeService.freeze uni (hex12 e 0) (now_at e 0) (now_at e 1) project inc (some_or [] exc) (some_or [443] prt)
                      by_ rps conc max_req (some_or [] acc));
     audit (mkCall by_ "scope.frozen" "scope_snapshot" (sc_id s) [("project_id", JStr project); ("digest", JStr (sc_digest s))]);;
     lift (scope_out s))).

Definition handler_assessment_create (e : Env) (project scope_id mode_ : string) : M Mcp json :=
  unit_of_work (guard "assessment_create"
    (m ← lift (unwrap (of_value mode_) (ValueError (PyStr.repr mode_ +:+ " is not a valid ExecutionMode")));
     a ← on_core (AssessmentService.create (hex12 e 0) project scope_id m);
     mret (assessment_out a))).

Definition not_found (assessment_id : string) : exn := LookupError ("assessment " +:+ assessment_id +:+ " not found").

Definition handler_plan_generate (e : Env) (assessment_id : string) (catalog_version : option string) : M Mcp json :=
  unit_of_work (guard "plan_generate"
    (o ← see (fun t => assessments (core t) !! assessment_id);
     a ← lift (unwrap o (not_found assessment_id));
     o ← see (fun t => snapshots (scopes t) !! scope_snapshot_id a);
     s ← lift (unwrap o (LookupError "scope snapshot not found"));
     catalog ← lift (unwrap (if given catalog_version then catalog_version ≫= by_version else latest) (ValueError "no test catalog available"));
     plan ← lift (Planner.generate catalog ∅ ("plan-" +:+ hex12 e 0) assessment_id (classify_asset_types s) [] 1);
     lift (raise_if (bool_decide (Assessments.steps plan = [])) (ValueError "no required test classes for the scope's asset types"));;
     updated ← on_core (AssessmentService.attach_plan (hex12 e 1) assessment_id (Assessments.steps plan));
     o ← see (fun t => plans (core t) !! default "" (active_plan_id updated));
     created ← lift (unwrap o (RuntimeError "plan was not persisted"));
     mret (plan_out created))).

(** *** Under a grant *)
Definition GRANT_TO (what : string) : string := "agents need a grant to " +:+ what +:+ " (see grant_list)".

Definition authority (t : Tables) : Authority ScopeSnapshot := GrantAuthority.authority uni (scopes t) (grants t).

Definition scope_digest (assessment_id : string) (t : Tables) : outcome string :=
  match assessments (core t) !! assessment_id ≫= (fun a => snapshots (scopes t) !! scope_snapshot_id a) with
  | Some s => Ret (sc_digest s)
  | None => Raise (LookupError ("assessment " +:+ assessment_id +:+ " or its scope not found"))
  end.

Definition risks_of (l : list string) : outcome (list RiskClass) :=
  mapM_outcome (fun r => unwrap (of_value r) (ValueError (PyStr.repr r +:+ " is not a valid RiskClass"))) l.

Definition approve_via_grant (e : Env) (assessment_id : string) (risks caps : option (list string)) (grant_id : string) : M Mcp json :=
  rs ← lift (risks_of (default [] risks));
  sd ← (t ← see (fun t => t); lift (scope_digest assessment_id t));
  t ← see (fun t => t);
  on_core (AssessmentService.approve (authority t) (now_at e 0) (hex12 e 0) assessment_id "agent" (list_to_set rs)
             (list_to_set (default [] caps)) sd "agent" (Some grant_id));;
  o ← see (fun t => assessments (core t) !! assessment_id);
  refreshed ← lift (unwrap o (LookupError ("assessment " +:+ assessment_id +:+ " vanished after approval")));
  mret (assessment_out refreshed).

Definition handler_plan_approve (e : Env) (assessment_id : string) (risks caps : option (list string)) (grant_id : option string) : M Mcp json :=
  if negb (given grant_id) then mret (human_required "plan_approve" assessment_id (GRANT_TO "approve"))
  else unit_of_work (guard "plan_approve" (approve_via_grant e assessment_id risks caps (default "" grant_id))).

Definition handler_assessment_start (e : Env) (assessment_id : string) (grant_id : option string) : M Mcp json :=
  if negb (given grant_id) then mret (human_required "assessment_start" assessment_id (GRANT_TO "start"))
  else unit_of_work
    (result ← guard "assessment_start"
       (t ← see (fun t => t);
        a ← on_core (AssessmentService.start (authority t) (now_at e 0) assessment_id "agent" (Some (default "" grant_id)));
        mret (assessment_out a));
     (if has_status result "success" && start_scheduler rt then spawn (StartRun assessment_id) else mret tt);;
     mret result).

Definition handler_grant_list (e : Env) (project : string) : M Mcp json :=
  unit_of_work
    (l ← see (fun t => GrantService.list_active (grants t) project (now_at e 0));
     mret (JObj [("status", JStr "success"); ("project_id", JStr project);
       ("grants", JArr ((fun g => JObj [("id", JStr (g_id g)); ("name", JStr (g_name g)); ("scope_include", Canonical.jstrs (include (g_scope g)));
          ("risk_caps", Canonical.jset (value <$> elements (risk_caps g))); ("valid_to", JStr (PyIso.isoformat (valid_to g)))]) <$> l))])).

(** *** A mission *)

(** The part of [mission_create] inside the transaction: an answer that ends
    the call, or the identifier of the started assessment with the answer. *)
Definition refuse (code msg : string) : M Mcp (json + string * json) := mret (inl (error code msg [])).

Definition effective_cap (g : EngagementGrant) (requested : option RiskClass) : outcome (option RiskClass) :=
  cap ← unwrap (max_cap (elements (risk_caps g))) (ValueError "max() iterable argument is empty");
  Ret (match requested with
       | None => Some cap
       | Some r => if risk_rank cap <? risk_rank r then None else Some r
       end).

Definition mission_scope (e : Env) (project target grant_id : string) : outcome ScopeSnapshot :=
  limits ← Scope.check_limits Scope.default_limits;
  draft ← Scope.check_draft (mkDraft project [target] [] [80; 443] limits []);
  Scope.freeze uni (now_at e 1) ("mscope-" +:+ PyStr.take 8 (hex e 0)) ("grant:" +:+ grant_id) draft.

Definition dispatch (e : Env) (g : EngagementGrant) (s : ScopeSnapshot) (project target intent grant_id : string) (cap : RiskClass)
    : M Mcp (string * json) :=
  on_scopes (modify (fun w => mkScopeWorld (<[sc_id s := s]> (snapshots w)) (scope_audit w)));;
  a ← on_core (AssessmentService.create (hex12 e 1) project (sc_id s) ExecutionMode.APPROVAL);
  catalog ← lift (unwrap latest (AttributeError "'NoneType' object has no attribute 'required_for'"));
  plan ← lift (LLMPlanner.generate catalog ∅ (llm_backend rt) ("plan-" +:+ hex12 e 2) (id a) [asset_type_for_target target] intent (Some cap));
  on_core (AssessmentService.attach_plan (hex12 e 3) (id a) (Assessments.steps plan));;
  t ← see (fun t => t);
  on_core (AssessmentService.approve (authority t) (now_at e 2) (hex12 e 4) (id a) "agent" (risk_caps g) ∅ (sc_digest s) "agent" (Some grant_id));;
  t ← see (fun t => t);
  started ← on_core (AssessmentService.start (authority t) (now_at e 3) (id a) "agent" (Some grant_id));
  audit (mkCall "agent" "mission.created" "mission" (id a)
    [("grant_id", JStr grant_id); ("target", JStr target); ("intent", JStr intent);
     ("plan_steps", JInt (Z.of_nat (length (Assessments.steps plan))));
     ("llm_backend", JStr (match llm_backend rt with Some _ => backend_name rt | None => "none" end))]);;
  mret (id a, JObj (assessment_fields started ++ [("assessment_id", JStr (id a))])).

Definition mission_in_session (e : Env) (project target intent grant_id : string) (requested : option RiskClass)
    : M Mcp (json + string * json) :=
  o ← see (fun t => GrantService.get_active (grants t) grant_id (now_at e 0));
  match o with
  | None => refuse "GRANT_NOT_FOUND" ("grant " +:+ grant_id +:+ " is not active")
  | Some g =>
      if negb (bool_decide (g_project_id g = project)) then refuse "GRANT_NOT_FOUND" "grant does not belong to this project"
      else
        s ← lift (mission_scope e project target grant_id);
        covered ← lift (Grant.covers_scope uni g s);
        if negb covered then refuse "GRANT_SCOPE_MISMATCH" ("target " +:+ target +:+ " not covered by grant " +:+ grant_id)
        else
          cap ← lift (effective_cap g requested);
          match cap with
          | None => refuse "GRANT_RISK_NOT_APPROVED" ("risk_cap " +:+ PyStr.repr (default "" (value <$> requested)) +:+ " exceeds grant caps ("
                      +:+ PyStr.join "," (PyStr.sorted (value <$> elements (risk_caps g))) +:+ ")")
          | Some cap => r ← dispatch e g s project target intent grant_id cap; mret (inr r)
          end
  end.

(** No [_guard]: what a service raises leaves the handler, and rolls back. *)
Definition handler_mission_create (e : Env) (project target intent grant_id : string) (risk_cap : option string) : M Mcp json :=
  match risk_cap ≫= (fun r => Some (r, of_value r : option RiskClass)) with
  | Some (r, None) => mret (error "INVALID_ARGUMENT" ("invalid risk_cap: " +:+ PyStr.repr r) [])
  | o =>
      r ← unit_of_work (mission_in_session e project target intent grant_id (o ≫= snd));
      match r with
      | inl answer => mret answer
      | inr (i, answer) => (if start_scheduler rt then spawn (StartRun i) else mret tt);; mret answer
      end
  end.

(** *** The control plane *)
Definition control_call (action assessment_id : string) (a : Assessment) : AuditCall :=
  mkCall "agent" action "assessment" (id a) [("assessment_id", JStr assessment_id); ("status", Canonical.jenum (status a))].

Definition assessment_control (assessment_id action : string) (service_call : M Repo Assessment) : M Mcp json :=
  unit_of_work (guard ("assessment_" +:+ action)
    (a ← on_core service_call;
     audit (control_call ("assessment." +:+ action) assessment_id a);;
     mret (assessment_out a))).

Definition handler_assessment_pause (i : string) : M Mcp json := assessment_control i "pause" (AssessmentService.pause i).
Definition handler_assessment_cancel (i : string) : M Mcp json := assessment_control i "cancel" (AssessmentService.cancel i).

(** The thread is started inside the transaction. *)
Definition handler_assessment_resume (i : string) : M Mcp json :=
  unit_of_work (guard "assessment_resume"
    (a ← on_core (AssessmentService.resume i);
     audit (control_call "assessment.resumed" i a);;
     (if resume_scheduler rt then spawn (ResumeRun i) else mret tt);;
     mret (assessment_out a))).

Definition handler_assessment_status (i : string) : M Mcp json :=
  unit_of_work (guard "assessment_status" (a ← on_core (AssessmentService.status_of i); mret (assessment_out a))).

(** *** Queries *)
Definition handler_asset_list : M Mcp json :=
  unit_of_work (guard "asset_list" (o ← see (fun t => Assets.load_graph scan (assets t)); g ← lift o; mret (asset_graph_out g))).

Definition matches (o : option string) (v : string) : bool := match o with Some s => bool_decide (v = s) | None => true end.
Definition all_findings (assessment_id severity verdict : option string) (t : Tables) : list Finding :=
  List.filter (fun f => matches assessment_id (fd_assessment_id f) && matches severity (value (fd_severity f)) && matches verdict (value (oracle_verdict f)))
    (scan _ (PyDict.values (findings t))).

Definition handler_finding_list (assessment_id severity verdict : option string) : M Mcp json :=
  unit_of_work (guard "finding_list"
    (l ← see (all_findings assessment_id severity verdict); mret (JObj [("findings", JArr (finding_out <$> l))]))).

Definition confirmed (f : Finding) : bool :=
  bool_decide (oracle_verdict f = VerificationStatus.CONFIRMED) && negb (bool_decide (fd_evidence_ids f = [])).

Definition handler_finding_validate (finding_id : string) : M Mcp json :=
  unit_of_work
    (o ← see (fun t => PyDict.get finding_id (findings t));
     mret (match o with
           | None => error "NOT_FOUND" ("finding " +:+ finding_id +:+ " not found") [("finding_id", JStr finding_id)]
           | Some f =>
               JObj [("status", JStr (if confirmed f then "validated" else "not_validated")); ("finding", finding_out f);
                 ("evidence_ids", Canonical.jstrs (fd_evidence_ids f)); ("validated", JBool (confirmed f));
                 ("reason", JStr (if confirmed f then "oracle confirmed (N/N reproduction) with evidence attached"
                   else "not confirmed: needs oracle N/N reproduction or human evidence review (agent may not set verdicts)"))]
           end)).

Definition handler_intel_search (keyword cve_ cwe_ : option string) : M Mcp json :=
  unit_of_work (guard "intel_search"
    (o ← see (fun t => IntelStore.search_fts scan fts_match keyword cve_ cwe_ (intel t));
     l ← lift o;
     out ← lift (mapM_outcome vuln_out (l : list Vulnerability));
     mret (JObj [("results", JArr out)]))).

(** The body of the report route without the polish. *)
Definition handler_report_render (e : Env) (assessment_id title : string) : M Mcp json :=
  unit_of_work (guard "report_render"
    (o ← see (fun t => assessments (core t) !! assessment_id);
     a ← lift (unwrap o (not_found assessment_id));
     t ← see (fun t => t);
     coverage ← lift (ReportApi.coverage_from_audit float_conv (scope_audit (scopes t)) assessment_id);
     let d := ReportApi.data_of assessment_id title (all_findings (Some assessment_id) None None t)
                (snapshots (scopes t) !! scope_snapshot_id a) coverage in
     r ← lift (ReportRenderer.render templates redact d ("rep-" +:+ hex12 e 0));
     on_reports (ReportStore.add r);;
     lift (report_out r))).

(** The read-only tools [build_default_registry] adds ([__init__.py]). *)
Definition finding_brief (f : Finding) : json :=
  JObj [("id", JStr (fd_id f)); ("title", JStr (fd_title f)); ("asset", JStr (fd_asset f)); ("severity", Canonical.jenum (fd_severity f));
        ("status", Canonical.jenum (fd_status f)); ("assessment_id", JStr (fd_assessment_id f)); ("oracle_verdict", Canonical.jenum (oracle_verdict f))].
Definition list_findings_runtime (assessment_id status : string) : M Mcp json :=
  unit_of_work
    (l ← see (all_findings (if PyStr.is_empty assessment_id then None else Some assessment_id) None None);
     mret (JArr (finding_brief <$> List.filter (fun f => PyStr.is_empty status || bool_decide (value (fd_status f) = status)) l))).
Definition get_finding_runtime (finding_id : string) : M Mcp json :=
  if PyStr.is_empty finding_id then mret JNull
  else unit_of_work (o ← see (fun t => PyDict.get finding_id (findings t)); mret (Canonical.jopt finding_brief o)).
Definition list_required_classes_runtime (asset_type : string) : M Mcp json :=
  if PyStr.is_empty asset_type then mret (JArr [])
  else unit_of_work (mret (match latest, (of_value asset_type : option Catalog.AssetType.t) with
    | Some c, Some t => JArr ((fun k => JObj [("id", JStr (rc_id k)); ("cwe", Canonical.jstrs (rc_cwe k)); ("owasp", Canonical.jstrs (rc_owasp k));
                                             ("risk", Canonical.jenum (rc_risk k))]) <$> Catalog.required_for c t)
    | _, _ => JArr []
    end)).

(** *** The loops *)
Section loops.
(** How [PauseControlService] is composed. *)
Context (policy : LoopTerminationPolicy) (require_resume_approval : LoopId -> ResumeRequest -> M unit unit).

Definition loop_part (t : Tables) : LoopWorld unit := Loop.mkWorld (loops t) (loop_steps t) (signed t) tt.
Definition with_loop_part (x : LoopWorld unit) (t : Tables) : Tables := with_signed (loop_log x) (with_loops (Loop.states x) t).
Definition on_loops {A} : M (LoopWorld unit) A -> M Mcp A := on loop_part with_loop_part.

(** [_loop_write_ctx] *)
Definition loop_write_ctx {A} (m : M Mcp A) : M Mcp A :=
  match loop_repo rt with InMemory => at_once m | _ => unit_of_work m end.

Definition control_configured : outcome unit := raise_if (negb (loop_control rt)) (LookupError "loop control not configured").

Definition loop_fields (s : LoopState) : list (string * json) :=
  [("status", JStr "ok"); ("loop_id", JStr (ls_loop_id s)); ("phase", Canonical.jenum (phase s))].

Definition handler_loop_pause (e : Env) (loop_id reason : string) : M Mcp json :=
  guard "loop_pause"
    (lift control_configured;;
     loop_write_ctx
       (i ← lift (LoopModels.make_loop_id loop_id);
        s ← on_loops (Loop.pause audit_ok (lift (Ret (now_at e 0))) i "agent" reason "agent");
        mret (JObj (loop_fields s)))).

Definition handler_loop_resume (e : Env) (loop_id : string) (approved_by signature : option string) : M Mcp json :=
  guard "loop_resume"
    (lift control_configured;;
     loop_write_ctx
       (i ← lift (LoopModels.make_loop_id loop_id);
        s ← on_loops (Loop.resume audit_ok policy require_resume_approval (lift (Ret (now_at e 0))) i
                        (mkResume "agent" "agent" approved_by signature None None None));
        mret (JObj (loop_fields s ++ [("pause_attempts", JInt (pause_attempts s))])))).

(** [_loop_repos] without a session, and what is committed. *)
Definition loop_repos : outcome unit :=
  raise_if (match loop_repo rt with NotWired => true | _ => false end) (LookupError "loop repos not configured").
Definition find_loop (loop_id : string) : M Mcp LoopState :=
  lift loop_repos;;
  i ← lift (LoopModels.make_loop_id loop_id);
  o ← gets (fun w => loops (db w) !! i);
  lift (unwrap o (LookupError ("loop " +:+ PyStr.repr loop_id +:+ " not found"))).

Definition by_number (a b : LoopStep) : Prop := step_number a <= step_number b.
#[local] Instance by_number_dec : RelDecision by_number := fun a b => decide (step_number a <= step_number b).
Definition steps_of (i : LoopId) (t : Tables) : list LoopStep :=
  let l := List.filter (fun s => bool_decide (st_loop_id s = i)) (loop_steps t) in
  match loop_repo rt with Sql => merge_sort by_number l | _ => l end.

Definition handler_loop_status (loop_id : string) : M Mcp json :=
  guard "loop_status"
    (s ← find_loop loop_id;
     l ← gets (fun w => steps_of (ls_loop_id s) (db w));
     let b := LoopModels.snapshot (budget s) in
     mret (JObj [("status", JStr "success"); ("loop_id", JStr (ls_loop_id s)); ("assessment_id", JStr (ls_assessment_id s));
       ("phase", Canonical.jenum (phase s)); ("step_count", JInt (Z.of_nat (length l)));
       ("budget_remaining", JObj [("steps", JInt (steps_remaining b)); ("tokens", JInt (tokens_remaining b)); ("wall_seconds", JInt (wall_seconds_remaining b))]);
       ("context_hash", JStr (ls_context_hash s))])).

Definition handler_loop_history (loop_id : string) : M Mcp json :=
  guard "loop_history"
    (s ← find_loop loop_id;
     l ← gets (fun w => steps_of (ls_loop_id s) (db w));
     mret (JObj [("status", JStr "success"); ("loop_id", JStr loop_id);
       ("steps", JArr ((fun st => JObj [("step_id", JStr (step_id st)); ("step_number", JInt (step_number st));
          ("action_type", Canonical.jenum (action_type (proposed_action st))); ("tool_or_case_id", tool_or_case_id st);
          ("oracle_progressed", JBool (oracle_progressed st))]) <$> l))])).

Definition save_loop (s : LoopState) : M Mcp unit :=
  modify (fun w => mkMcp (db w) (with_loops (<[ls_loop_id s := s]> (loops (view w))) (view w)) (threads w)).

Definition new_loop (e : Env) (assessment_id : string) (steps wall tokens : option Z) : LoopState :=
  let base := LoopModels.default_budget in
  mkLoopState (PyStr.take 8 (hex e 0)) assessment_id LoopPhase.INITIALIZING "mcp:loop:default"
    (mkBudget (default (max_steps base) steps) (default (max_total_tokens base) tokens) (default (max_wall_seconds base) wall) 0 0 0)
    (String.concat "" (replicate 64 "0")) ∅ ∅ 0 0 (now_at e 0) None 0 None None.

Definition handler_loop_create (e : Env) (assessment_id : string) (grant_id : option string) (steps wall tokens : option Z) : M Mcp json :=
  if negb (given grant_id) then mret (human_required "loop_create" assessment_id "humans need a grant to create a loop (see grant_list)")
  else guard "loop_create" (loop_write_ctx
    (let s := new_loop e assessment_id steps wall tokens in
     save_loop s;;
     audit (mkCall "human" LoopPure.LOOP_CREATED LoopPure.LOOP_RESOURCE_TYPE (ls_loop_id s)
       [("assessment_id", JStr assessment_id); ("grant_id", Canonical.jopt JStr grant_id);
        ("budget", JObj [("max_steps", JInt (max_steps (budget s))); ("max_total_tokens", JInt (max_total_tokens (budget s)));
           ("max_wall_seconds", JInt (max_wall_seconds (budget s)))])]);;
     mret (JObj [("status", JStr "success"); ("loop_id", JStr (ls_loop_id s)); ("phase", Canonical.jenum (phase s))]))).

Definition handler_loop_stop (e : Env) (loop_id : string) (grant_id : option string) (actor : string) : M Mcp json :=
  if negb (given grant_id) then mret (human_required "loop_stop" loop_id "humans need a grant to stop a loop (see grant_list)")
  else guard "loop_stop" (loop_write_ctx
    (i ← lift (LoopModels.make_loop_id loop_id);
     o ← see (fun t => loops t !! i);
     s ← lift (unwrap o (LookupError ("loop " +:+ PyStr.repr loop_id +:+ " not found")));
     (if bool_decide (phase s = LoopPhase.EMERGENCY_STOPPED) then mret tt
      else
        save_loop (LoopPure.ended_state LoopPhase.EMERGENCY_STOPPED s (now_at e 0));;
        audit (mkCall (if PyStr.is_empty actor then "human" else actor) LoopPure.LOOP_TERMINATED LoopPure.LOOP_RESOURCE_TYPE loop_id
          [("final_phase", Canonical.jenum LoopPhase.EMERGENCY_STOPPED); ("reason", JStr "emergency_stop");
           ("human_reason", JStr "stopped via MCP loop_stop (grant)"); ("from_phase", Canonical.jenum (phase s))]));;
     mret (JObj [("status", JStr "success"); ("loop_id", JStr loop_id); ("phase", Canonical.jenum LoopPhase.EMERGENCY_STOPPED)]))).

(** ** Every tool *)
Inductive call : Type :=
| ProjectCreate (name : string)
| ScopeDraftTool (inc : list string) (exc : option (list string)) (prt : option (list Z)) (acc : option (list string))
| ScopeFreeze (project : string) (inc : list string) (exc : option (list string)) (prt : option (list Z)) (by_ : string) (rps : pyfloat)
    (conc max_req : Z) (acc : option (list string))
| AssessmentCreate (project scope_id mode_ : string)
| PlanGenerate (assessment_id : string) (catalog_version : option string)
| PlanApprove (assessment_id : string) (risks caps : option (list string)) (grant_id : option string)
| AssessmentStart (assessment_id : string) (grant_id : option string)
| GrantList (project : string)
| MissionCreate (project target intent grant_id : string) (risk_cap : option string)
| AssessmentPause (i : string) | AssessmentResume (i : string) | AssessmentCancel (i : string) | AssessmentStatusTool (i : string)
| LoopPauseTool (loop_id reason : string) | LoopResumeTool (loop_id : string) (approved_by signature : option string)
| LoopStatus (loop_id : string) | LoopHistory (loop_id : string)
| LoopCreate (assessment_id : string) (grant_id : option string) (steps wall tokens : option Z)
| LoopStop (loop_id : string) (grant_id : option string) (actor : string)
| AssetList | FindingList (assessment_id severity verdict : option string) | FindingValidate (finding_id : string)
| IntelSearch (keyword cve_ cwe_ : option string) | ReportRender (assessment_id title : string).

(** [TOOL_HANDLERS] *)
Definition invoke (e : Env) (c : call) : M Mcp json :=
  match c with
  | ProjectCreate n => handler_project_create e n
  | ScopeDraftTool inc exc prt acc => handler_scope_draft inc exc prt acc
  | ScopeFreeze p inc exc prt by_ rps conc m acc => handler_scope_freeze e p inc exc prt by_ rps conc m acc
  | AssessmentCreate p s m => handler_assessment_create e p s m
  | PlanGenerate a v => handler_plan_generate e a v
  | PlanApprove a r c g => handler_plan_approve e a r c g
  | AssessmentStart a g => handler_assessment_start e a g
  | GrantList p => handler_grant_list e p
  | MissionCreate p t i g r => handler_mission_create e p t i g r
  | AssessmentPause i => handler_assessment_pause i
  | AssessmentResume i => handler_assessment_resume i
  | AssessmentCancel i => handler_assessment_cancel i
  | AssessmentStatusTool i => handler_assessment_status i
  | LoopPauseTool i r => handler_loop_pause e i r
  | LoopResumeTool i a s => handler_loop_resume e i a s
  | LoopStatus i => handler_loop_status i
  | LoopHistory i => handler_loop_history i
  | LoopCreate a g s w t => handler_loop_create e a g s w t
  | LoopStop i g a => handler_loop_stop e i g a
  | AssetList => handler_asset_list
  | FindingList a s v => handler_finding_list a s v
  | FindingValidate f => handler_finding_validate f
  | IntelSearch k c w => handler_intel_search k c w
  | ReportRender a t => handler_report_render e a t
  end.
End loops.
End handlers.
End McpHandlers.
