(* ===== verification/McpFacts.v ===== *)
(** * What an agent can do

    Properties of the tools of [Mcp]: what any sequence of calls can change,
    and what it cannot. *)
From S2P Require Import Prelude PyStr PyTime PyFloat PyDict PyJson Net Canonical Policy Verification Findings AuditTrail Catalog LlmPlanner LoopModels Loop Scope Grants Assets Intel IntelStore Reports Projects Assessments AssessmentService Mcp.

#[local] Open Scope Z_scope.

Module McpFacts.
Import AssessmentStatus Session McpOut McpHandlers.

(** ** On the assessments *)

(** An assessment is stored under its identifier. *)
Definition keyed (r : Repo) : Prop := forall k a, assessments r !! k = Some a -> id a = k.

(** No new approval, no newly queued assessment. *)
Record quiet (r r' : Repo) : Prop := {
  quiet_keyed : keyed r -> keyed r';
  quiet_approvals : approvals r' = approvals r;
  quiet_queued : forall k a, assessments r' !! k = Some a -> status a = QUEUED -> assessments r !! k = Some a
}.

Lemma quiet_refl r : quiet r r.
Proof. by split. Qed.
Lemma quiet_trans r1 r2 r3 : quiet r1 r2 -> quiet r2 r3 -> quiet r1 r3.
Proof. intros [A1 A2 A3] [B1 B2 B3]. split; [by auto|congruence|]. intros k a H Hs. by apply A3, Hs; apply B3. Qed.

Lemma keyed_add a r : keyed r -> keyed (repo_add a r).
Proof. intros Hr k x. cbn. rewrite lookup_insert_Some. intros [[<- <-]|[_ H]]; [done|by apply Hr]. Qed.

Lemma quiet_add a r : status a <> QUEUED -> quiet r (repo_add a r).
Proof.
  intros Hs. split; [apply keyed_add|done|]. intros k x. cbn. rewrite lookup_insert_Some.
  intros [[_ <-]|[_ H]] Hq; [by apply Hs in Hq|done].
Qed.
Lemma quiet_plan p r : quiet r (save_plan p r).
Proof. by split. Qed.

Definition keeps {A} (m : M Repo A) : Prop := forall r, quiet r (m r).2.

Lemma keeps_bind {A B} (m : M Repo A) (f : A -> M Repo B) : keeps m -> (forall a, keeps (f a)) -> keeps (m ≫= f).
Proof.
  intros Hm Hf r. unfold mbind, M_bind. specialize (Hm r). destruct (m r) as [[a|e] r']; [|exact Hm].
  by eapply quiet_trans, Hf.
Qed.
Lemma keeps_lift {A} (o : outcome A) : keeps (lift o).
Proof. intros r. apply quiet_refl. Qed.
Lemma keeps_ret {A} (a : A) : keeps (mret a).
Proof. intros r. apply quiet_refl. Qed.
Lemma keeps_require i : keeps (AssessmentService.require i).
Proof. intros r. apply quiet_refl. Qed.
Lemma keeps_known {A B} (o : outcome A) (f : A -> M Repo B) : (forall a, o = Ret a -> keeps (f a)) -> keeps (lift o ≫= f).
Proof. intros H r. unfold lift, mbind, M_bind. destruct o as [a|e]; [by apply H|apply quiet_refl]. Qed.
Lemma keeps_add a : status a <> QUEUED -> keeps (modify (repo_add a)).
Proof. intros H r. by apply quiet_add. Qed.
Lemma keeps_plan p : keeps (modify (save_plan p)).
Proof. intros r. apply quiet_plan. Qed.

Lemma create_keeps h p s m : keeps (AssessmentService.create h p s m).
Proof.
  unfold AssessmentService.create. apply keeps_known. intros a (_ & _ & [= <-])%bind_Ret.
  apply keeps_bind; [by apply keeps_add|intros; apply keeps_ret].
Qed.
Lemma attach_plan_keeps h k steps : keeps (AssessmentService.attach_plan h k steps).
Proof.
  unfold AssessmentService.attach_plan.
  repeat first [apply keeps_bind; [first [apply keeps_require|apply keeps_lift|apply keeps_plan|by apply keeps_add]|intros ?]|apply keeps_ret].
Qed.
Lemma control_move_keeps target signal k : target <> QUEUED -> keeps (AssessmentService.control_move target signal k).
Proof.
  intros Ht. unfold AssessmentService.control_move. apply keeps_bind; [apply keeps_require|intros a].
  apply keeps_known. intros u (_ & _ & [= <-])%bind_Ret. apply keeps_bind; [by apply keeps_add|intros; apply keeps_ret].
Qed.

Section authority.
Context (uni : Unicode).

(** The grant [gid] covers the scope and the active plan of an assessment. *)
Definition authorized (t : Tables) (gid k : string) : Prop :=
  exists a s g now, assessments (core t) !! k = Some a /\ snapshots (scopes t) !! scope_snapshot_id a = Some s
    /\ grants t !! gid = Some g
    /\ GrantService.covered uni g s (match AssessmentService.active_plan (core t) a with Some p => Assessments.steps p | None => [] end) now.

Lemma allows_authorized t now gid k :
  AssessmentService.grant_allows (authority uni t) now gid k (core t) -> authorized t gid k.
Proof.
  intros (svc & snap & a & s & d & [= <-] & [= <-] & Ha & Hs & Hd & Hal).
  destruct (proj1 (GrantService.authorize_allowed uni _ _ _ _ _) (ex_intro _ d (conj Hd Hal))) as (g & Hg & Hc).
  by exists a, s, g, now.
Qed.

(** An assessment that keeps its scope and its plan stays authorized. *)
Lemma authorized_stays t r gid k a a' :
  authorized t gid k -> assessments (core t) !! k = Some a -> assessments r !! k = Some a' ->
  scope_snapshot_id a' = scope_snapshot_id a -> AssessmentService.active_plan r a' = AssessmentService.active_plan (core t) a ->
  authorized (with_core r t) gid k.
Proof.
  intros (x & s & g & now & Hx & Hs & Hg & Hc) Ha Ha' He Hp. rewrite Ha in Hx. injection Hx as <-.
  exists a', s, g, now. cbn. rewrite He, Hp. done.
Qed.

Lemma approve_grant (A : Authority ScopeSnapshot) now h k by_ risks caps sd role gid r :
  match AssessmentService.approve A now h k by_ risks caps sd role (Some gid) r with
  | (Raise _, r') => r' = r
  | (Ret ap, r') => AssessmentService.grant_allows A now gid k r /\ approved_by ap = "grant:" +:+ gid /\ approval_assessment_id ap = k
      /\ exists a a', assessments r !! k = Some a /\ status a' = APPROVED /\ id a' = id a /\ scope_snapshot_id a' = scope_snapshot_id a
         /\ active_plan_id a' = active_plan_id a /\ r' = repo_add a' (save_approval ap r)
  end.
Proof.
  unfold AssessmentService.approve.
  pose proof (AssessmentService.reads_authorize A now gid k r) as Hr.
  destruct (AssessmentService.authorize_via_grant A now gid k r) as [[u|e] r1] eqn:Eg; cbn in Hr; subst r1;
    unfold mbind, M_bind; rewrite Eg; [|done].
  cbn [mret M_ret]. pose proof (AssessmentService.authorize_inv _ _ _ _ _ _ _ Eg) as Hal.
  unfold AssessmentService.require, lift, modify, mbind, M_bind.
  destruct (assessments r !! k) as [a|] eqn:Ea; [cbn [unwrap]|done]. destruct (active_plan_id a) as [pid|] eqn:Ep; [cbn [unwrap]|done].
  destruct (Transitions.assert_transition _ _); [|done]. destruct (plans r !! pid) as [p|]; [cbn [unwrap]|done].
  destruct (Approval.create _ _ _ _ _ _ _ _) as [ap|e] eqn:Eap; [|done].
  apply Approval.approval_create_Ret in Eap as (_ & _ & Hk & _ & _ & _ & _ & _ & Hby & _). cbn [mret M_ret].
  split_and!; [done..|]. do 2 eexists. split_and!; [reflexivity| | | | |reflexivity]; done.
Qed.

Lemma start_grant (A : Authority ScopeSnapshot) now k role gid r :
  match AssessmentService.start A now k role (Some gid) r with
  | (Raise _, r') => r' = r
  | (Ret a', r') => AssessmentService.grant_allows A now gid k r
      /\ exists a, assessments r !! k = Some a /\ status a' = QUEUED /\ id a' = id a /\ scope_snapshot_id a' = scope_snapshot_id a
         /\ active_plan_id a' = active_plan_id a /\ r' = repo_add a' r
  end.
Proof.
  unfold AssessmentService.start.
  pose proof (AssessmentService.reads_authorize A now gid k r) as Hr.
  destruct (AssessmentService.authorize_via_grant A now gid k r) as [[u|e] r1] eqn:Eg; cbn in Hr; subst r1;
    unfold mbind, M_bind; rewrite Eg; [|done].
  pose proof (AssessmentService.authorize_inv _ _ _ _ _ _ _ Eg) as Hal.
  unfold AssessmentService.require, lift, modify, mbind, M_bind.
  destruct (assessments r !! k) as [a|] eqn:Ea; [cbn [unwrap]|done].
  destruct (Transitions.assert_transition _ _); [|done]. destruct (raise_if (negb (Assessment.truthy_opt (active_plan_id a))) _) eqn:Et; [|done].
  destruct (raise_if (negb (Assessment.truthy_opt (approval_id a))) _); [|done]. destruct (Assessment.start _ _ _) as [a'|e] eqn:Es; [|done]. cbn [mret M_ret].
  split; [done|]. exists a. unfold Assessment.start in Es.
  apply bind_Ret in Es as (_ & _ & (_ & _ & [= <-])%bind_Ret). split_and!; try done. cbn.
  apply raise_if_Ret in Et. by destruct (active_plan_id a).
Qed.
(** ** On the session *)

Record calm (w w' : Mcp) : Prop := {
  calm_db : db w' = db w;
  calm_core : quiet (core (view w)) (core (view w'));
  calm_grants : grants (view w') = grants (view w);
  calm_findings : findings (view w') = findings (view w);
  calm_threads : forall t, t ∈ threads w' -> t ∈ threads w
}.

Lemma calm_refl w : calm w w.
Proof. split; [done|apply quiet_refl|done..]. Qed.
Lemma calm_trans w1 w2 w3 : calm w1 w2 -> calm w2 w3 -> calm w1 w3.
Proof. intros [A1 A2 A3 A4 A5] [B1 B2 B3 B4 B5]. split; [congruence|by eapply quiet_trans|congruence..|by auto]. Qed.

Definition keepsM {A} (m : M Mcp A) : Prop := forall w, calm w (m w).2.

Lemma keepsM_bind {A B} (m : M Mcp A) (f : A -> M Mcp B) : keepsM m -> (forall a, keepsM (f a)) -> keepsM (m ≫= f).
Proof.
  intros Hm Hf w. unfold mbind, M_bind. specialize (Hm w). destruct (m w) as [[a|e] w']; [|exact Hm]. by eapply calm_trans, Hf.
Qed.
Lemma keepsM_lift {A} (o : outcome A) : keepsM (lift o).
Proof. intros w. apply calm_refl. Qed.
Lemma keepsM_ret {A} (a : A) : keepsM (mret a).
Proof. intros w. apply calm_refl. Qed.
Lemma keepsM_see {A} (f : Tables -> A) : keepsM (see f).
Proof. intros w. apply calm_refl. Qed.
Lemma keepsM_gets {A} (f : Mcp -> A) : keepsM (gets f).
Proof. intros w. apply calm_refl. Qed.
Lemma keepsM_core {A} (m : M Repo A) : keeps m -> keepsM (on_core m).
Proof. intros H w. unfold on_core, on. specialize (H (core (view w))). destruct (m _) as [o r]. by split. Qed.
Lemma keepsM_scopes {A} (m : M ScopeWorld A) : keepsM (on_scopes m).
Proof. intros w. unfold on_scopes, on. destruct (m _) as [o r]. split; [done|apply quiet_refl|done..]. Qed.
Lemma keepsM_projects {A} (m : M (dict CoreProject) A) : keepsM (on_projects m).
Proof. intros w. unfold on_projects, on. destruct (m _) as [o r]. split; [done|apply quiet_refl|done..]. Qed.
Lemma keepsM_reports {A} (m : M (dict CoreReport) A) : keepsM (on_reports m).
Proof. intros w. unfold on_reports, on. destruct (m _) as [o r]. split; [done|apply quiet_refl|done..]. Qed.
Lemma keepsM_loops {A} (m : M (LoopWorld unit) A) : keepsM (on_loops m).
Proof. intros w. unfold on_loops, on. destruct (m _) as [o r]. split; [done|apply quiet_refl|done..]. Qed.
Lemma keepsM_save_loop s : keepsM (save_loop s).
Proof. intros w. split; [done|apply quiet_refl|done..]. Qed.
Lemma keepsM_audit ok c : keepsM (audit ok c).
Proof.
  unfold audit. apply keepsM_bind; [apply keepsM_lift|intros _ w]. split; [done|apply quiet_refl|done..].
Qed.
Lemma keepsM_guard a (m : M Mcp json) : keepsM m -> keepsM (guard a m).
Proof. intros H w. unfold guard. specialize (H w). destruct (m w) as [[v|e] w']; [done|]. by destruct (is_exception e). Qed.
Lemma keepsM_if {A} (b : bool) (m m' : M Mcp A) : keepsM m -> keepsM m' -> keepsM (if b then m else m').
Proof. by destruct b. Qed.

(** ** Approvals and starts *)

(** Grants and findings are as they were; a new approval names a grant that
    covers its assessment, and so does a newly queued assessment. *)
Record lawful (t t' : Tables) : Prop := {
  law_grants : grants t' = grants t;
  law_findings : findings t' = findings t;
  law_keyed : keyed (core t) -> keyed (core t');
  law_approvals : keyed (core t) -> forall i ap, approvals (core t') !! i = Some ap ->
    approvals (core t) !! i = Some ap
    \/ exists gid, approved_by ap = "grant:" +:+ gid /\ authorized t' gid (approval_assessment_id ap);
  law_queued : keyed (core t) -> forall k a, assessments (core t') !! k = Some a -> status a = QUEUED ->
    assessments (core t) !! k = Some a \/ exists gid, authorized t' gid k
}.

Lemma lawful_calm t t' : quiet (core t) (core t') -> grants t' = grants t -> findings t' = findings t -> lawful t t'.
Proof.
  intros [Q1 Q2 Q3] Hg Hf. split; [done..| |].
  - intros _ i ap H. left. by rewrite <- Q2.
  - intros _ k a H Hq. left. by apply Q3.
Qed.

Lemma lawful_after t t1 t2 : quiet (core t) (core t1) -> grants t1 = grants t -> findings t1 = findings t -> lawful t1 t2 -> lawful t t2.
Proof.
  intros [Q1 Q2 Q3] Hg Hf [L1 L2 L3 L4 L5]. split; [congruence..|by auto| |].
  - intros Hk i ap H. rewrite <- Q2. by apply L4; auto.
  - intros Hk k a H Hq. destruct (L5 (Q1 Hk) k a H Hq) as [H1|H1]; [left; by apply Q3|by right].
Qed.

Lemma lawful_then t t1 t2 : lawful t t1 -> lawful t1 t2 ->
  (keyed (core t1) -> forall gid k, authorized t1 gid k -> authorized t2 gid k) -> lawful t t2.
Proof.
  intros [L1 L2 L3 L4 L5] [K1 K2 K3 K4 K5] Hp. split; [congruence..|by auto| |].
  - intros Hk i ap H. pose proof (L3 Hk) as Hk1. destruct (K4 Hk1 i ap H) as [H1|H1]; [|by right].
    destruct (L4 Hk i ap H1) as [H2|(gid & Hby & Ha)]; [by left|right]. exists gid. by auto.
  - intros Hk k a H Hq. pose proof (L3 Hk) as Hk1. destruct (K5 Hk1 k a H Hq) as [H1|H1]; [|by right].
    destruct (L5 Hk k a H1 Hq) as [H2|[gid Ha]]; [by left|right]. exists gid. by auto.
Qed.

Definition advances_at {A} (m : M Mcp A) (w : Mcp) : Prop :=
  db (m w).2 = db w /\ lawful (view w) (view (m w).2) /\ forall t, t ∈ threads (m w).2 -> t ∈ threads w.
Definition advances {A} (m : M Mcp A) : Prop := forall w, advances_at m w.

(** It also keeps what is authorized. *)
Definition stays_at {A} (m : M Mcp A) (w : Mcp) : Prop :=
  advances_at m w /\ (keyed (core (view w)) -> forall gid k, authorized (view w) gid k -> authorized (view (m w).2) gid k).
Definition stays {A} (m : M Mcp A) : Prop := forall w, stays_at m w.

Lemma advances_calm {A} (m : M Mcp A) : keepsM m -> advances m.
Proof. intros H w. destruct (H w) as [H1 H2 H3 H4 H5]. split_and!; [done|by apply lawful_calm|done]. Qed.

Lemma advances_after {A B} (m : M Mcp A) (f : A -> M Mcp B) : keepsM m -> (forall a, advances (f a)) -> advances (m ≫= f).
Proof.
  intros Hm Hf w. pose proof (Hm w) as H. unfold advances_at, mbind, M_bind. destruct (m w) as [[a|e] w1] eqn:E; cbn in H.
  - destruct H as [H1 H2 H3 H4 H5]. destruct (Hf a w1) as (F1 & F2 & F3). split_and!; [congruence|by eapply lawful_after|by auto].
  - pose proof (advances_calm m Hm w) as H'. unfold advances_at in H'. by rewrite E in H'.
Qed.

Lemma then_advances {A B} (m : M Mcp A) (f : A -> M Mcp B) w : advances_at m w -> (forall a, stays (f a)) -> advances_at (m ≫= f) w.
Proof.
  intros (H1 & H2 & H3) Hf. unfold advances_at, mbind, M_bind. destruct (m w) as [[a|e] w1]; [|done]. cbn in *.
  destruct (Hf a w1) as [(F1 & F2 & F3) Hp]. split_and!; [congruence| |by auto].
  eapply lawful_then; [exact H2|exact F2|exact Hp].
Qed.

Lemma stays_bind {A B} (m : M Mcp A) (f : A -> M Mcp B) w : stays_at m w -> (forall a, stays (f a)) -> stays_at (m ≫= f) w.
Proof.
  intros [Hm Hpm] Hf. split; [by apply then_advances|]. intros Hk gid k Ha. specialize (Hpm Hk gid k Ha).
  destruct Hm as (_ & HL & _). unfold mbind, M_bind. destruct (m w) as [[a|e] w1]; [|done]. cbn in *. apply Hf; [|done].
  by apply HL.
Qed.

Lemma advances_see {B} (f : Tables -> M Mcp B) w : advances_at (f (view w)) w -> advances_at (see (fun t => t) ≫= f) w.
Proof. done. Qed.

(** Computations that leave assessments, scopes, grants and findings alone. *)
Lemma stays_still {A} (m : M Mcp A) :
  (forall w, db (m w).2 = db w /\ threads (m w).2 = threads w /\ core (view (m w).2) = core (view w) /\ scopes (view (m w).2) = scopes (view w)
     /\ grants (view (m w).2) = grants (view w) /\ findings (view (m w).2) = findings (view w)) -> stays m.
Proof.
  intros H w. split.
  - destruct (H w) as (H1 & H2 & H3 & _ & H5 & H6). split_and!; [done| |by rewrite H2].
    apply lawful_calm; [rewrite H3; apply quiet_refl|done..].
  - intros _ gid k (a & s & g & now & Ha & Hs & Hg & Hc). destruct (H w) as (_ & _ & H3 & H4 & H5 & _).
    exists a, s, g, now. by rewrite H3, H4, H5.
Qed.
Lemma stays_lift {A} (o : outcome A) : stays (lift o).
Proof. by apply stays_still. Qed.
Lemma stays_ret {A} (a : A) : stays (mret a).
Proof. by apply stays_still. Qed.
Lemma stays_see {A} (f : Tables -> A) : stays (see f).
Proof. by apply stays_still. Qed.
Lemma stays_audit ok c : stays (audit ok c).
Proof. intros w. unfold audit. apply stays_bind; [apply stays_lift|intros _]. by apply stays_still. Qed.

Lemma advances_guard a (m : M Mcp json) : advances m -> advances (guard a m).
Proof.
  intros H w. specialize (H w). unfold advances_at, guard in *. destruct (m w) as [[v|e] w']; [done|]. by destruct (is_exception e).
Qed.

(** The view of a session once its assessments are [r]. *)
Lemma view_on_core {A} (m : M Repo A) w : view (on_core m w).2 = with_core (m (core (view w))).2 (view w)
  /\ db (on_core m w).2 = db w /\ threads (on_core m w).2 = threads w.
Proof. unfold on_core, on. by destruct (m _). Qed.

Lemma answer_on_core {A} (m : M Repo A) w : (on_core m w).1 = (m (core (view w))).1.
Proof. unfold on_core, on. by destruct (m _). Qed.

Lemma authorized_add t r gid k a a' :
  keyed (core t) -> assessments (core t) !! k = Some a -> id a' = id a -> scope_snapshot_id a' = scope_snapshot_id a ->
  active_plan_id a' = active_plan_id a -> plans r = plans (core t) -> assessments r = <[id a' := a']> (assessments (core t)) ->
  (forall i, authorized t gid i -> authorized (with_core r t) gid i).
Proof.
  intros Hk Ha Hi Hs Hp Hpl Has i Hau. pose proof Hau as (x & s & g & now & Hx & _). pose proof (Hk k a Ha) as Hka.
  assert (Hpa : forall x x', active_plan_id x' = active_plan_id x -> AssessmentService.active_plan r x' = AssessmentService.active_plan (core t) x).
  { intros y y' Hy. unfold AssessmentService.active_plan. by rewrite Hy, Hpl. }
  destruct (decide (i = k)) as [->|Hne].
  - rewrite Ha in Hx. injection Hx as <-. eapply (authorized_stays t r gid k a a'); [done|done| |done|by apply Hpa].
    rewrite Has, Hi, Hka. apply lookup_insert_eq.
  - eapply (authorized_stays t r gid i x x); [done|done| |done|by apply Hpa].
    rewrite Has, lookup_insert_ne by congruence. done.
Qed.

Section granted.
(** The tables the authority of the call was built from are the session's. *)
Context (t : Tables) (now : datetime).

Lemma approve_advances h k by_ risks caps sd role gid w : view w = t ->
  let w' := (on_core (AssessmentService.approve (authority uni t) now h k by_ risks caps sd role (Some gid)) w).2 in
  db w' = db w /\ threads w' = threads w /\ lawful (view w) (view w').
Proof.
  intros Hv. cbv zeta. destruct (view_on_core (AssessmentService.approve (authority uni t) now h k by_ risks caps sd role (Some gid)) w) as (Ev & Ed & Et).
  split_and!; [done..|]. rewrite Ev, Hv. pose proof (approve_grant (authority uni t) now h k by_ risks caps sd role gid (core t)) as H.
  clear Ev Ed Et. destruct (AssessmentService.approve _ _ _ _ _ _ _ _ _ _ _) as [[ap|e] r']; cbn [snd] in *;
    [|subst r'; destruct t; apply lawful_calm; [apply quiet_refl|done..]].
  destruct H as (Hal & Hby & Hk' & a & a' & Ha & Hst & Hi & Hs & Hp & ->).
  pose proof (allows_authorized t now gid k Hal) as Hau. split; [done|done|apply (keyed_add a' (save_approval ap (core t)))| |].
  - intros Hk i x. cbn. rewrite lookup_insert_Some. intros [[_ <-]|[_ H]]; [right|by left]. exists gid. split; [done|]. rewrite Hk'.
    by eapply (authorized_add t _ gid k a a').
  - intros Hk i x. cbn. rewrite lookup_insert_Some. intros [[_ <-]|[_ H]] Hq; [congruence|by left].
Qed.

Lemma start_advances k role gid w : view w = t ->
  let w' := (on_core (AssessmentService.start (authority uni t) now k role (Some gid)) w).2 in
  db w' = db w /\ threads w' = threads w /\ lawful (view w) (view w')
  /\ (keyed (core (view w)) -> forall g i, authorized (view w) g i -> authorized (view w') g i)
  /\ (keyed (core (view w)) -> forall a, (on_core (AssessmentService.start (authority uni t) now k role (Some gid)) w).1 = Ret a -> authorized (view w') gid k).
Proof.
  intros Hv. cbv zeta. destruct (view_on_core (AssessmentService.start (authority uni t) now k role (Some gid)) w) as (Ev & Ed & Et).
  assert (E1 : (on_core (AssessmentService.start (authority uni t) now k role (Some gid)) w).1 = (AssessmentService.start (authority uni t) now k role (Some gid) (core t)).1).
  { by rewrite answer_on_core, Hv. }
  rewrite E1, Ev, Ed, Et, Hv. pose proof (start_grant (authority uni t) now k role gid (core t)) as H.
  clear E1 Ev Ed Et. destruct (AssessmentService.start _ _ _ _ _ _) as [[a'|e] r']; cbn [fst snd] in *.
  2:{ subst r'. replace (with_core (core t) t) with t by by destruct t. split_and!; [done..| |done|done]. apply lawful_calm; [apply quiet_refl|done..]. }
  destruct H as (Hal & a & Ha & Hst & Hi & Hs & Hp & Er). pose proof (allows_authorized t now gid k Hal) as Hau.
  assert (Hau' : keyed (core t) -> forall g i, authorized t g i -> authorized (with_core r' t) g i).
  { intros Hk g i. rewrite Er. by apply (authorized_add t _ g k a a'). }
  split_and!; [done|done| |exact Hau'|by auto].
  split; [done|done|rewrite Er; apply keyed_add| |].
  - intros _ i x. rewrite Er. by left.
  - intros Hk i x. rewrite Er at 1. cbn. rewrite lookup_insert_Some. intros [[Hi' <-]|[_ H]] _; [right|by left].
    exists gid. rewrite <- Hi', Hi, (Hk k a Ha). by auto.
Qed.
End granted.

(** ** What a handler commits *)
Definition law (w w' : Mcp) : Prop :=
  lawful (db w) (db w')
  /\ (keyed (core (db w)) -> forall t, t ∈ threads w' -> t ∈ threads w \/ exists k gid, t.1 = StartRun k /\ authorized (db w') gid k).
Definition settled {A} (m : M Mcp A) : Prop := forall w, law w (m w).2.

Lemma lawful_refl t : lawful t t.
Proof. apply lawful_calm; [apply quiet_refl|done..]. Qed.
Lemma law_same w w' : db w' = db w -> (forall t, t ∈ threads w' -> t ∈ threads w) -> law w w'.
Proof. intros Hd Ht. split; [rewrite Hd; apply lawful_refl|]. intros _ t H. left. by auto. Qed.

Lemma settled_uow {A} (m : M Mcp A) : advances m -> settled (unit_of_work m).
Proof.
  intros H w. unfold unit_of_work. destruct (H (mkMcp (db w) (db w) (threads w))) as (_ & H2 & H3).
  destruct (m _) as [[a|e] w']; cbn in *; [|by apply law_same]. split; [done|]. intros _ t Hs. left. by apply H3.
Qed.
Lemma settled_at_once {A} (m : M Mcp A) : advances m -> settled (at_once m).
Proof.
  intros H w. unfold at_once. destruct (H (mkMcp (db w) (db w) (threads w))) as (_ & H2 & H3).
  destruct (m _) as [o w']; cbn in *. split; [done|]. intros _ t Hs. left. by apply H3.
Qed.
Lemma settled_calm {A} (m : M Mcp A) : keepsM m -> settled m.
Proof. intros H w. specialize (H w). apply law_same; [apply calm_db|apply calm_threads]; exact H. Qed.
Lemma settled_guard a (m : M Mcp json) : settled m -> settled (guard a m).
Proof. intros H w. unfold guard. specialize (H w). destruct (m w) as [[v|e] w']; [done|]. by destruct (is_exception e). Qed.
Lemma settled_bind_lift {A B} (o : outcome A) (f : A -> M Mcp B) : (forall a, settled (f a)) -> settled (lift o ≫= f).
Proof. intros H w. unfold lift, mbind, M_bind. destruct o as [a|e]; [by apply H|by apply law_same]. Qed.
Lemma settled_write_ctx rt {A} (m : M Mcp A) : keepsM m -> settled (loop_write_ctx rt m).
Proof.
  intros H%advances_calm. unfold loop_write_ctx. destruct (loop_repo rt); by (apply settled_uow || apply settled_at_once).
Qed.

(** ** The tools *)
Ltac calmly :=
  repeat first
    [ apply keepsM_audit | apply keepsM_save_loop | apply keepsM_bind; [|intros ?]
    | apply keepsM_lift | apply keepsM_ret | apply keepsM_see | apply keepsM_gets | apply keepsM_scopes | apply keepsM_projects
    | apply keepsM_reports | apply keepsM_loops
    | apply keepsM_if | apply keepsM_guard
    | apply keepsM_core; first [apply create_keeps | apply attach_plan_keeps | by apply control_move_keeps | apply keeps_require] ].

Section tools.
Context (latest : option TestCatalog) (by_version : string -> option TestCatalog).
Context (templates : string -> Reports.context -> outcome string) (redact : string -> string) (float_conv : json -> outcome pyfloat).
Context (fts_match : string -> outcome (string -> bool)) (scan : forall A, list A -> list A).
Context (audit_ok : AuditCall -> outcome unit) (rt : McpRuntime).
Context (policy : LoopTerminationPolicy) (require_resume_approval : LoopId -> ResumeRequest -> M unit unit).

Lemma plan_approve_settled e i rs cs g : settled (handler_plan_approve uni e i rs cs g).
Proof.
  unfold handler_plan_approve. destruct (negb (given g)); [apply settled_calm, keepsM_ret|].
  apply settled_uow, advances_guard. unfold approve_via_grant.
  apply advances_after; [apply keepsM_lift|intros risks]. apply advances_after; [calmly|intros sd].
  intros w. apply advances_see, then_advances.
  - destruct (approve_advances (view w) (now_at e 0) (hex12 e 0) i "agent" (list_to_set risks) (list_to_set (default [] cs)) sd "agent"
                (default "" g) w eq_refl) as (H1 & H2 & H3).
    split_and!; [done|done|]. intros th. by rewrite H2.
  - intros _ w1. apply stays_bind; [apply stays_see|intros o w2]. apply stays_bind; [apply stays_lift|intros a]. apply stays_ret.
Qed.

Lemma bind_split {A B} (m : M Mcp A) (f : A -> M Mcp B) w :
  (m ≫= f) w = match m w with (Ret a, w') => f a w' | (Raise e, w') => (Raise e, w') end.
Proof. done. Qed.

(** The answer of a start is never a success, so no thread is started. *)
Lemma status_is_no_success a : has_status (assessment_out a) "success" = false.
Proof. unfold has_status, assessment_out, assessment_fields, Canonical.jenum. cbn. by destruct (status a). Qed.
Lemma failure_is_no_success a e : has_status (translate a e) "success" = false.
Proof. by destruct e. Qed.

Lemma start_in_session e i g w :
  let m := guard "assessment_start" (t ← see (fun t => t);
             a ← on_core (AssessmentService.start (authority uni t) (now_at e 0) i "agent" (Some g)); mret (assessment_out a)) in
  db (m w).2 = db w /\ threads (m w).2 = threads w /\ lawful (view w) (view (m w).2)
  /\ forall v, (m w).1 = Ret v -> has_status v "success" = false.
Proof.
  cbv zeta. unfold guard, see, gets, mbind, M_bind. cbv beta iota.
  pose proof (start_advances (view w) (now_at e 0) i "agent" g w eq_refl) as (H1 & H2 & H3 & _).
  destruct (on_core _ w) as [[a|x] w']; cbn in *.
  - split_and!; [done..|]. intros v [= <-]. apply status_is_no_success.
  - destruct (is_exception x); cbn; (split_and!; [done..|]); [|done]. intros v [= <-]. apply failure_is_no_success.
Qed.

Lemma assessment_start_settled e i g : settled (handler_assessment_start uni rt e i g).
Proof.
  unfold handler_assessment_start. destruct (negb (given g)); [apply settled_calm, keepsM_ret|].
  apply settled_uow. intros w. pose proof (start_in_session e i (default "" g) w) as H. cbv zeta in H. unfold advances_at.
  rewrite bind_split. destruct (guard _ _ w) as [[v|x] w1]; cbn in H; destruct H as (H1 & H2 & H3 & H4).
  - rewrite (H4 v eq_refl). cbn. split_and!; [done|done|]. intros th Hs. change (th ∈ threads w1) in Hs. by rewrite H2 in Hs.
  - cbn. split_and!; [done|done|]. intros th. by rewrite H2.
Qed.

(** *** A mission *)
Lemma bindM_Ret {A B} (m : M Mcp A) (f : A -> M Mcp B) w b w' :
  (m ≫= f) w = (Ret b, w') -> exists a w1, m w = (Ret a, w1) /\ f a w1 = (Ret b, w').
Proof. rewrite bind_split. destruct (m w) as [[a|e] w1]; [by exists a, w1|done]. Qed.

Lemma keepsM_keyed {A} (m : M Mcp A) w o w1 : keepsM m -> m w = (o, w1) -> keyed (core (view w)) -> keyed (core (view w1)).
Proof. intros H E. specialize (H w). rewrite E in H. apply quiet_keyed, (calm_core _ _ H). Qed.

(** The end of a dispatch: the grant approves, then starts. *)
Definition mission_tail (e : Env) (g : EngagementGrant) (s : ScopeSnapshot) (grant_id : string) (a : Assessment) (rest : Assessment -> M Mcp (string * json))
    : M Mcp (string * json) :=
  t ← see (fun t => t);
  on_core (AssessmentService.approve (authority uni t) (now_at e 2) (hex12 e 4) (id a) "agent" (risk_caps g) ∅ (sc_digest s) "agent" (Some grant_id));;
  t ← see (fun t => t);
  started ← on_core (AssessmentService.start (authority uni t) (now_at e 3) (id a) "agent" (Some grant_id));
  rest started.

Lemma mission_tail_advances e g s grant_id a rest : (forall x, stays (rest x)) -> advances (mission_tail e g s grant_id a rest).
Proof.
  intros Hr w. apply advances_see, then_advances.
  - destruct (approve_advances (view w) (now_at e 2) (hex12 e 4) (id a) "agent" (risk_caps g) ∅ (sc_digest s) "agent" grant_id w eq_refl) as (H1 & H2 & H3).
    split_and!; [done|done|]. intros th. by rewrite H2.
  - intros _ w1. change (stays_at (started ← on_core (AssessmentService.start (authority uni (view w1)) (now_at e 3) (id a) "agent" (Some grant_id)); rest started) w1).
    apply stays_bind; [|exact Hr].
    destruct (start_advances (view w1) (now_at e 3) (id a) "agent" grant_id w1 eq_refl) as (H1 & H2 & H3 & H4 & _).
    split; [|exact H4]. split_and!; [done|done|]. intros th. by rewrite H2.
Qed.

Lemma mission_tail_authorized e g s grant_id a rest w r w' : (forall x, stays (rest x)) -> keyed (core (view w)) ->
  mission_tail e g s grant_id a rest w = (Ret r, w') -> authorized (view w') grant_id (id a).
Proof.
  intros Hr Hk H. unfold mission_tail in H. apply bindM_Ret in H as (t & w0 & [= <- <-] & H).
  apply bindM_Ret in H as (ap & w1 & Ea & H). apply bindM_Ret in H as (t & w2 & [= <- <-] & H). apply bindM_Ret in H as (st & w3 & Es & H).
  assert (Hk1 : keyed (core (view w1))).
  { destruct (approve_advances (view w) (now_at e 2) (hex12 e 4) (id a) "agent" (risk_caps g) ∅ (sc_digest s) "agent" grant_id w eq_refl) as (_ & _ & HL).
    rewrite Ea in HL. by apply HL. }
  pose proof (start_advances (view w1) (now_at e 3) (id a) "agent" grant_id w1 eq_refl) as (_ & _ & HL & _ & Hp). rewrite Es in HL, Hp. cbn in HL, Hp.
  destruct (Hr st w3) as [_ Hs]. rewrite H in Hs. apply Hs; [by apply HL|]. by apply (Hp Hk1 st).
Qed.

Section dispatch.
Context (e : Env) (g : EngagementGrant) (s : ScopeSnapshot) (project target intent grant_id : string) (cap : RiskClass).

Lemma dispatch_calmly (P : M Mcp (string * json) -> Prop) :
  (forall a rest, (forall x, stays (rest x)) -> (forall x w r w', rest x w = (Ret r, w') -> r.1 = id a) -> P (mission_tail e g s grant_id a rest)) ->
  (forall {A} (m : M Mcp A) f, keepsM m -> (forall a, P (f a)) -> P (m ≫= f)) ->
  P (dispatch uni latest audit_ok rt e g s project target intent grant_id cap).
Proof.
  intros Ht Hb. unfold dispatch.
  do 5 (apply Hb; [calmly|intros ?]).
  apply (Ht _ (fun started => audit audit_ok _;; mret _)).
  - intros x w. apply stays_bind; [apply stays_audit|intros _; apply stays_ret].
  - intros x w r w' (u & w1 & _ & [= <- _])%bindM_Ret. done.
Qed.

Lemma dispatch_advances : advances (dispatch uni latest audit_ok rt e g s project target intent grant_id cap).
Proof.
  apply (dispatch_calmly advances); [intros a rest Hr _; by apply mission_tail_advances|]. intros A m f Hm Hf. by apply advances_after.
Qed.

Lemma dispatch_authorized w r w' : keyed (core (view w)) ->
  dispatch uni latest audit_ok rt e g s project target intent grant_id cap w = (Ret r, w') -> authorized (view w') grant_id r.1.
Proof.
  revert w r w'. apply (dispatch_calmly (fun m => forall w r w', keyed (core (view w)) -> m w = (Ret r, w') -> authorized (view w') grant_id r.1)).
  - intros a rest Hs Hr w r w' Hk H. assert (E : r.1 = id a).
    { unfold mission_tail in H. do 4 (apply bindM_Ret in H as (? & ? & _ & H)). by eapply Hr. }
    rewrite E. by eapply mission_tail_authorized.
  - intros A m f Hm Hf w r w' Hk (a & w1 & E & H)%bindM_Ret. eapply Hf; [|exact H]. by eapply keepsM_keyed.
Qed.

End dispatch.

Lemma mission_in_session_advances e project target intent grant_id requested :
  advances (mission_in_session uni latest audit_ok rt e project target intent grant_id requested).
Proof.
  unfold mission_in_session. apply advances_after; [apply keepsM_see|intros [g|]]; [|apply advances_calm, keepsM_ret].
  destruct (negb (bool_decide _)); [apply advances_calm, keepsM_ret|].
  apply advances_after; [apply keepsM_lift|intros s]. apply advances_after; [apply keepsM_lift|intros []]; [|apply advances_calm, keepsM_ret].
  apply advances_after; [apply keepsM_lift|intros [cap|]]; [|apply advances_calm, keepsM_ret].
  intros w. apply then_advances; [apply dispatch_advances|intros r; apply stays_ret].
Qed.

Lemma mission_in_session_authorized e project target intent grant_id requested w i v w' : keyed (core (view w)) ->
  mission_in_session uni latest audit_ok rt e project target intent grant_id requested w = (Ret (inr (i, v)), w') -> authorized (view w') grant_id i.
Proof.
  intros Hk H. unfold mission_in_session in H. apply bindM_Ret in H as ([g|] & w0 & [= _ <-] & H); [|done].
  destruct (negb (bool_decide _)); [done|].
  apply bindM_Ret in H as (s & w0 & [= _ <-] & H). apply bindM_Ret in H as ([] & w0 & [= _ <-] & H); [|done].
  apply bindM_Ret in H as ([cap|] & w0 & [= _ <-] & H); [|done].
  apply bindM_Ret in H as (r & w1 & Ed & H). injection H as -> <-. exact (dispatch_authorized _ _ _ _ _ _ _ _ _ _ _ Hk Ed).
Qed.

Lemma mission_create_settled e project target intent grant_id risk_cap :
  settled (handler_mission_create uni latest audit_ok rt e project target intent grant_id risk_cap).
Proof.
  assert (H : forall requested, settled (r ← unit_of_work (mission_in_session uni latest audit_ok rt e project target intent grant_id requested);
    match r with
    | inl answer => mret answer
    | inr (i, answer) => (if start_scheduler rt then spawn (StartRun i) else mret tt);; mret answer
    end)).
  { intros requested w. pose proof (settled_uow _ (mission_in_session_advances e project target intent grant_id requested) w) as [HL Hs].
    rewrite bind_split. destruct (unit_of_work _ w) as [[[a|[i a]]|x] w1] eqn:Eu; cbn [snd] in *; [by split| |by split].
    assert (Ha : keyed (core (db w)) -> authorized (db w1) grant_id i).
    { intros Hk. unfold unit_of_work in Eu.
      destruct (mission_in_session uni latest audit_ok rt e project target intent grant_id requested (mkMcp (db w) (db w) (threads w))) as [[r|x] w2] eqn:Em; [|done].
      injection Eu as -> <-. cbn. by eapply mission_in_session_authorized in Em. }
    destruct (start_scheduler rt); cbn; [|by split]. split; [done|]. intros Hk t. cbn.
    intros [Hin| ->%list_elem_of_singleton]%elem_of_app; [by apply Hs|right; exists i, grant_id; split; [done|by apply Ha]]. }
  unfold handler_mission_create. destruct risk_cap as [r|]; cbn [mbind option_bind]; [|apply (H None)].
  destruct (of_value r) as [cap|]; [apply (H (Some cap))|apply settled_calm, keepsM_ret].
Qed.

(** *** Every tool *)
#[local] Notation invoke := (McpHandlers.invoke uni latest by_version templates redact float_conv fts_match scan audit_ok rt policy require_resume_approval).

(** The run of a resume: of an assessment that was waiting in a queue or
    paused when the call came, and that the call made RUNNING. It is started
    before the call commits, so it sees what was committed before. *)
Definition resumed (w w' : Mcp) (k : string) (t : thread * Tables) : Prop :=
  t = (ResumeRun k, db w)
  /\ (exists a, assessments (core (db w)) !! k = Some a /\ status a ∈ [QUEUED; PAUSED])
  /\ (exists a, assessments (core (db w')) !! k = Some a /\ status a = RUNNING).

Lemma control_resume_cases k r : keyed r ->
  match AssessmentService.resume k r with
  | (Raise _, r') => r' = r
  | (Ret u, r') => r' = repo_add u r /\ id u = k /\ status u = RUNNING /\ exists a, assessments r !! k = Some a /\ status a ∈ [QUEUED; PAUSED]
  end.
Proof.
  intros Hk. unfold AssessmentService.resume, AssessmentService.control_move, AssessmentService.require, AssessmentService.set_control, lift, modify, mbind, M_bind.
  destruct (assessments r !! k) as [a|] eqn:Ea; [cbn [unwrap]|done].
  destruct (Transitions.assert_transition (status a) RUNNING) as [u|e] eqn:Et; [|done]. cbn. split_and!; [done|by apply Hk|done|].
  exists a. split; [done|]. apply Transitions.assert_transition_Ret in Et. destruct (status a); cbn in Et |- *; set_solver.
Qed.

Lemma assessment_resume_settled k w :
  let w' := (handler_assessment_resume audit_ok rt k w).2 in
  lawful (db w) (db w') /\ (keyed (core (db w)) -> forall t, t ∈ threads w' -> t ∈ threads w \/ resumed w w' k t).
Proof.
  cbv zeta. unfold handler_assessment_resume. split.
  - assert (H : forall b, settled (unit_of_work (guard "assessment_resume"
        (a ← on_core (AssessmentService.resume k); audit audit_ok (control_call "assessment.resumed" k a);;
         (if b : bool then mret tt else mret tt);; mret (assessment_out a))))).
    { intros b. apply settled_uow, advances_calm. calmly. }
    destruct (H true w) as [HL _]. revert HL. unfold unit_of_work, guard, mbind, M_bind.
    destruct (on_core _ _) as [[a|e] w1]; [|done]. destruct (audit _ _ w1) as [[[]|e] w2]; [|done].
    destruct (resume_scheduler rt); done.
  - intros Hk t. pose proof (control_resume_cases k (core (db w)) Hk) as H. unfold unit_of_work, guard, on_core, on, mbind, M_bind. cbn [view].
    destruct (AssessmentService.resume k (core (db w))) as [[u|e] r']; [|cbn; destruct (is_exception e); by left].
    destruct H as (-> & <- & Hs & Ha). unfold audit, lift, modify, mbind, M_bind, spawn.
    destruct (audit_ok _) as [[]|e]; [|destruct (is_exception e); by left].
    destruct (resume_scheduler rt); cbn; [|by left]. intros [Hin| ->%list_elem_of_singleton]%elem_of_app; [by left|right].
    split_and!; [done|done|]. exists u. cbn. by rewrite lookup_insert_eq.
Qed.

Lemma invoke_settled e c : (forall k, c <> AssessmentResume k) -> settled (invoke e c).
Proof.
  intros Hc. destruct c; cbn [McpHandlers.invoke];
    try (by destruct (Hc i));
    try (apply settled_uow, advances_calm; calmly; fail);
    try (apply settled_guard, settled_calm; unfold find_loop; calmly; fail).
  - apply plan_approve_settled.
  - apply assessment_start_settled.
  - apply mission_create_settled.
  - apply settled_guard, settled_bind_lift. intros _. apply settled_write_ctx. calmly.
  - apply settled_guard, settled_bind_lift. intros _. apply settled_write_ctx. calmly.
  - unfold handler_loop_create. destruct (negb (given grant_id)); [apply settled_calm, keepsM_ret|].
    apply settled_guard, settled_write_ctx. calmly.
  - unfold handler_loop_stop. destruct (negb (given grant_id)); [apply settled_calm, keepsM_ret|].
    apply settled_guard, settled_write_ctx. calmly.
Qed.

Lemma invoke_cases e c w :
  let w' := (invoke e c w).2 in
  lawful (db w) (db w')
  /\ (keyed (core (db w)) -> forall t, t ∈ threads w' -> t ∈ threads w
      \/ (exists k gid, t.1 = StartRun k /\ authorized (db w') gid k)
      \/ exists k, c = AssessmentResume k /\ resumed w w' k t).
Proof.
  cbv zeta. assert (Hd : (exists k, c = AssessmentResume k) \/ forall k, c <> AssessmentResume k).
  { destruct c; try (right; intros k; discriminate). left. by eexists. }
  destruct Hd as [[k ->]|Hc].
  - destruct (assessment_resume_settled k w) as [H1 H2]. split; [exact H1|]. intros Hk t Ht.
    destruct (H2 Hk t Ht) as [H|H]; [by left|right; right]. by exists k.
  - destruct (invoke_settled e c Hc w) as [H1 H2]. split; [exact H1|]. intros Hk t Ht.
    destruct (H2 Hk t Ht) as [H|H]; [by left|by right; left].
Qed.

Definition run_calls (l : list (Env * call)) (w : Mcp) : Mcp := foldl (fun w ec => (invoke ec.1 ec.2 w).2) w l.

Lemma run_calls_kept l : forall w, keyed (core (db w)) ->
  keyed (core (db (run_calls l w))) /\ grants (db (run_calls l w)) = grants (db w) /\ findings (db (run_calls l w)) = findings (db w).
Proof.
  induction l as [|[e c] l IH]; intros w Hk; [done|]. change (run_calls ((e, c) :: l) w) with (run_calls l (invoke e c w).2).
  destruct (invoke_cases e c w) as [[L1 L2 L3 _ _] _]. destruct (IH _ (L3 Hk)) as (H1 & H2 & H3). split_and!; [done|congruence..].
Qed.

(** C4: an agent acts within the grants. Whatever tools an agent calls, in
    whatever order and with whatever arguments, the grants and the findings
    stay as they were; and at every call an approval that appears names a
    grant, and an assessment that becomes queued is one, where an existing
    grant covers, at some instant, the ports and targets of the assessment's
    scope and the risk of every step of its plan. A thread that appears is
    either the run of such an assessment, or the resumption of one, and then
    the call is its [assessment_resume], which needs no grant: the assessment
    was already QUEUED or PAUSED in the database, and the call made it
    RUNNING. *)
Theorem agent_acts_within_grants l e c w0 : keyed (core (db w0)) ->
  let w := run_calls l w0 in
  let w' := (invoke e c w).2 in
  grants (db w') = grants (db w0) /\ findings (db w') = findings (db w0)
  /\ (forall i ap, approvals (core (db w')) !! i = Some ap ->
        approvals (core (db w)) !! i = Some ap
        \/ exists gid, approved_by ap = "grant:" +:+ gid /\ authorized (db w') gid (approval_assessment_id ap))
  /\ (forall k a, assessments (core (db w')) !! k = Some a -> status a = QUEUED ->
        assessments (core (db w)) !! k = Some a \/ exists gid, authorized (db w') gid k)
  /\ (forall t, t ∈ threads w' -> t ∈ threads w
        \/ (exists k gid, t.1 = StartRun k /\ authorized (db w') gid k)
        \/ exists k, c = AssessmentResume k /\ resumed w w' k t).
Proof.
  intros Hk w w'. destruct (run_calls_kept l w0 Hk) as (Hk' & Hg & Hf). fold w in Hk', Hg, Hf.
  destruct (invoke_cases e c w) as [[L1 L2 L3 L4 L5] L6]. fold w' in L1, L2, L3, L4, L5, L6.
  split_and!; [congruence|congruence|by apply L4|by apply L5|by apply L6].
Qed.

(** an agent cannot pause or resume a loop. The call always answers, and
    changes nothing: a human is required, or the loop control is missing or the
    identifier is malformed. *)
Theorem loops_are_paused_by_humans e i why by_ sig w :
  let pause := handler_loop_pause audit_ok rt e i why w in
  let resume := handler_loop_resume audit_ok rt policy require_resume_approval e i by_ sig w in
  db pause.2 = db w /\ threads pause.2 = threads w /\ db resume.2 = db w /\ threads resume.2 = threads w
  /\ exists v v', pause.1 = Ret v /\ resume.1 = Ret v'
     /\ if loop_control rt && LoopModels.loop_id_ok i then has_status v "HUMAN_REQUIRED" = true /\ has_status v' "HUMAN_REQUIRED" = true
        else has_status v "error" = true /\ has_status v' "error" = true.
Proof.
  cbv zeta. destruct w as [[] v ts]. unfold handler_loop_pause, handler_loop_resume, control_configured, guard, loop_write_ctx, lift, mbind, M_bind.
  destruct (loop_control rt); cbn [negb raise_if andb]; [|cbn; split_and!; try done; by do 2 eexists].
  unfold LoopModels.make_loop_id. destruct (LoopModels.loop_id_ok i);
    destruct (loop_repo rt); cbn; (split_and!; try done); (do 2 eexists); done.
Qed.

(** a granted start is not carried out. Whatever the grant and the
    assessment, [assessment_start] starts no thread, though the assessment is
    queued. *)
Theorem granted_start_runs_nothing e i g w : threads (handler_assessment_start uni rt e i g w).2 = threads w.
Proof.
  unfold handler_assessment_start. destruct (negb (given g)); [done|].
  pose proof (start_in_session e i (default "" g) (mkMcp (db w) (db w) (threads w))) as H. cbv zeta in H.
  unfold unit_of_work. rewrite bind_split. destruct (guard _ _ _) as [[v|x] w1]; cbn in H; destruct H as (_ & H2 & _ & H4); [|done].
  rewrite (H4 v eq_refl). done.
Qed.
End tools.
End authority.
End McpFacts.

(** ** Examples *)
Module McpDemo.
Import McpOut McpHandlers McpFacts.

Definition demo_tables : Tables :=
  mkTables GrantAuthority.demo_assessments GrantAuthority.demo_scopes (GrantService.run_all GrantAuthority.demo_ops ∅) []
    {[ "0a1b2c3d" := mkLoopState "0a1b2c3d" "asm-1" LoopPhase.COMPLETED "p" LoopModels.default_budget "h" ∅ ∅ 0 0 0 None 0 None None ]} [] [] []
    (Assets.mkTables [] []) (IntelStore.mkTables [] [] [] [] []) [].
Definition demo : Mcp := mkMcp demo_tables demo_tables [].
Definition demo_env : Env := mkEnv (fun _ => 5) (fun n => "0000000" +:+ pretty n +:+ "ffff").
Definition demo_runtime : McpRuntime := mkRuntime true true None "none" true Sql.
Definition demo_templates (name : string) (c : Reports.context) : outcome string := Ret "".
Definition no_matches (q : string) : outcome (string -> bool) := Ret (fun _ => false).
Definition accept (c : AuditCall) : outcome unit := Ret tt.
Definition refuse_audit (c : AuditCall) : outcome unit := Raise (OSError "disk full").
Definition demo_policy : LoopTerminationPolicy := LoopModels.default_policy.
Definition never (i : LoopId) (rq : ResumeRequest) : M unit unit := raise (ApprovalRequired "signature").
Definition in_order (A : Type) (l : list A) : list A := l.
Definition no_float (v : json) : outcome pyfloat := Raise (TypeError "float").

Definition call_with (ok : AuditCall -> outcome unit) (c : call) (w : Mcp) : outcome json * Mcp :=
  McpHandlers.invoke FrozenScope.ascii_only None (fun _ => None) demo_templates (fun s => s) no_float no_matches in_order ok demo_runtime
    demo_policy never demo_env c w.
Definition after (cs : list call) : Mcp := foldl (fun w c => (call_with accept c w).2) demo cs.
Definition approve_call (risks : list string) : call := PlanApprove "asm-1" (Some risks) None (Some "grant-1").
Definition status_in (t : Tables) : option AssessmentStatus := status <$> assessments (core t) !! "asm-1".

Lemma demo_keyed : keyed (core (db demo)).
Proof.
  intros k a. change (core (db demo)) with GrantAuthority.demo_assessments. intros Ha.
  by apply (AssessmentService.wf_id _ (AssessmentService.reachable_wf _ GrantAuthority.demo_assessments_reachable)).
Qed.

Lemma agent_acts_within_grants_witness :
  let w := after [approve_call ["low"]] in
  let w' := (call_with accept (AssessmentStart "asm-1" (Some "grant-1")) w).2 in
  keyed (core (db demo)) /\ status_in (db w) = Some AssessmentStatus.APPROVED /\ status_in (db w') = Some AssessmentStatus.QUEUED
  /\ exists gid, authorized FrozenScope.ascii_only (db w') gid "asm-1".
Proof.
  cbv zeta. split; [exact demo_keyed|]. split; [vm_compute; reflexivity|]. split; [vm_compute; reflexivity|].
  destruct (agent_acts_within_grants FrozenScope.ascii_only None (fun _ => None) demo_templates (fun s => s) no_float no_matches in_order accept demo_runtime
              demo_policy never [(demo_env, approve_call ["low"])] demo_env (AssessmentStart "asm-1" (Some "grant-1")) demo demo_keyed)
    as (_ & _ & _ & Hq & _).
  specialize (Hq "asm-1").
  match type of Hq with forall a, ?l = Some a -> _ => destruct l as [a|] eqn:Ea; [|vm_compute in Ea; discriminate Ea] end.
  assert (Hs : status <$> Some a = Some AssessmentStatus.QUEUED) by (rewrite <- Ea; vm_compute; reflexivity).
  injection Hs as Hs. destruct (Hq a eq_refl Hs) as [H|H]; [|exact H].
  exfalso. assert (H' : status <$> Some a = Some AssessmentStatus.APPROVED) by (rewrite <- H; vm_compute; reflexivity).
  injection H' as H'. rewrite Hs in H'. discriminate H'.
Defined.

(** The grant allows low and active risks; the agent writes any risk into the
    approval. *)
Example approved_risks_exceed_the_grant :
  let w := after [approve_call ["destructive"]] in
  (fun kv => bool_decide (RiskClass.DESTRUCTIVE ∈ approved_risks kv.2)) <$> map_to_list (approvals (core (db w))) = [true].
Proof. vm_compute. done. Qed.

(** Nothing is signed when an agent approves and starts under a grant, and the
    queued assessment is not run. *)
Example granted_start_is_unsigned_and_waits :
  let w := after [approve_call ["low"]; AssessmentStart "asm-1" (Some "grant-1")] in
  status_in (db w) = Some AssessmentStatus.QUEUED /\ signed (db w) = [] /\ threads w = [].
Proof. vm_compute. done. Qed.

(** Any text is a grant for the loops: a completed loop becomes an
    emergency-stopped one, by a human as the record says. *)
Example any_text_stops_a_loop :
  let w := after [LoopStop "0a1b2c3d" (Some "no such grant") "ana"] in
  phase <$> loops (db w) !! "0a1b2c3d" = Some LoopPhase.EMERGENCY_STOPPED /\ call_actor <$> signed (db w) = ["ana"]
  /\ grants (db w) !! "no such grant" = None.
Proof. vm_compute. done. Qed.

(** The approver of a scope is whoever the agent says. *)
Example agent_freezes_as_a_human :
  let w := after [ScopeFreeze "acme" ["www.shop.example"] None None "ana" (flt "5.0") 3 50000 None] in
  (fun kv => (sc_approved_by kv.2, include kv.2)) <$> map_to_list (snapshots (scopes (db w)))
  = [("ana", ["www.shop.example"]); ("ana", ["www.shop.example"])]
  /\ call_actor <$> signed (db w) = ["ana"].
Proof. vm_compute. done. Qed.

(** A running and a paused assessment. *)
Definition at_status (target : AssessmentStatus) : Mcp :=
  let t := Session.with_core ((fun r => mkRepo ((fun a => Assessment.set_status a target) <$> assessments r) (plans r) (approvals r)) (core (db demo))) (db demo) in
  mkMcp t t [].

(** The recorder fails after the assessment is paused: the agent is told of an
    error, and the transaction with the unsigned pause is committed. *)
Example unsigned_pause_is_committed :
  let r := call_with refuse_audit (AssessmentPause "asm-1") (at_status AssessmentStatus.RUNNING) in
  (match r.1 with Ret v => has_status v "error" | Raise _ => false end) = true
  /\ status_in (db r.2) = Some AssessmentStatus.PAUSED /\ signed (db r.2) = [].
Proof. vm_compute. done. Qed.

(** A human queued the assessment, or an agent whose grant has since been
    revoked; the run that [assessment_resume] starts asks for no grant. *)
Example resume_runs_a_queued_assessment :
  let w := (call_with accept (AssessmentResume "asm-1") (at_status AssessmentStatus.QUEUED)).2 in
  fst <$> threads w = [ResumeRun "asm-1"] /\ status_in (db w) = Some AssessmentStatus.RUNNING.
Proof. vm_compute. done. Qed.

(** The thread of a resume is started before the transaction commits: what it
    can read at that moment is the paused assessment. *)
Example resume_thread_reads_the_pause :
  let w := (call_with accept (AssessmentResume "asm-1") (at_status AssessmentStatus.PAUSED)).2 in
  (fun x => (x.1, status_in x.2)) <$> threads w = [(ResumeRun "asm-1", Some AssessmentStatus.PAUSED)]
  /\ status_in (db w) = Some AssessmentStatus.RUNNING.
Proof. vm_compute. done. Qed.

(** A mission is not guarded: what its services raise leaves the tool. *)
Example mission_raises :
  is_Ret (call_with accept (MissionCreate "acme" "http://" "look" "grant-1" None) demo).1 = false
  /\ is_Ret (call_with accept (MissionCreate "acme" "www.shop.example" "look" "grant-1" None) demo).1 = true.
Proof. vm_compute. done. Qed.

(** An illegal transition is reported as a bad argument. *)
Example illegal_transition_is_invalid_argument :
  match (call_with accept (AssessmentPause "asm-1") demo).1 with
  | Ret (JObj d) => field "code" d = Some (JStr "INVALID_ARGUMENT")
  | _ => False
  end.
Proof. vm_compute. done. Qed.

End McpDemo.
