(* ===== verification/Api.v ===== *)
(** * The HTTP routes of the engagement

    Models the routers of [src/secopent/interfaces/api/routers/] that move an
    engagement: [assessments.py], [plans.py], [approvals.py], [findings.py],
    [scopes.py] and [loops.py], over the database and the session of [Mcp].
    A request has one session ([deps.py], [Database.session]): committed on
    success, rolled back on an exception; a route may commit early.  A
    background task runs on its own session after the response: it is recorded
    with what was committed when it was added.  The bodies are validated by
    pydantic before a route runs; the answers here are the domain values the
    response models project.  The audit chain is configured, as [create_app]
    does; the other parts of the application state may be missing ([McpRuntime]).
    The language of a request is an argument.

    A request that fails changes nothing, decisions are refused in any role but
    "human", an approval carries the digests of what is stored, and a run reads
    what its request committed. *)
From S2P Require Import Prelude PyStr PyTime PyFloat PyJson PyDict Net Canonical Policy Contracts Verification Findings AuditTrail Catalog LoopModels Loop Scope Grants Assessments AssessmentService Permits Safety Mcp McpFacts.

#[local] Open Scope Z_scope.

Record ApprovalRequestOut : Type := mkRequestOut {
  ro_assessment_id : string;
  ro_project_id : string;
  ro_mode : ExecutionMode;
  ro_plan_id : option string;
  ro_plan_digest : option string;
  ro_scope_digest : option string
}.

Record ApprovalDecisionOut : Type := mkDecisionOut {
  do_assessment_id : string;
  do_project_id : string;
  do_decision : string;
  do_decided_by : string;
  do_reason : string;
  do_risks : list string;
  do_capabilities : list string;
  do_plan_digest : string;
  do_scope_digest : string
}.

(** A step of a request body; its risk is any text. *)
Record PlanStepIn : Type := mkStepIn {
  si_key : string;
  si_runner : string;
  si_risk : string;
  si_parameters : list (string * json);
  si_dependencies : list string
}.

Module Api.
Import Session McpHandlers.

(** [DbSession]; [session.commit()]. *)
Definition request {A} (m : M Mcp A) : M Mcp A := fun w =>
  match m (mkMcp (db w) (db w) (threads w)) with
  | (Ret a, w') => (Ret a, mkMcp (view w') (view w') (threads w'))
  | (Raise e, w') => (Raise e, mkMcp (db w') (db w') (threads w'))
  end.
Definition commit : M Mcp unit := modify (fun w => mkMcp (view w) (view w) (threads w)).

(** [except C as exc: raise HTTPException(status, str(exc))] *)
Definition http {S A} (status : exn -> option Z) (m : M S A) : M S A := fun w =>
  match m w with
  | (Raise e, w') => (match status e with Some n => Raise (HTTPException n (message e)) | None => Raise e end, w')
  | r => r
  end.
Definition found {A} (o : option A) (msg : string) : outcome A := unwrap o (HTTPException 404 msg).

(** The [except] clauses: [DomainValidationError]; with [LookupError]; with the
    permission error. *)
Definition invalid (e : exn) : option Z := match e with DomainValidationError _ => Some 422 | _ => None end.
Definition missing_or_invalid (e : exn) : option Z :=
  match e with LookupError _ | KeyError _ => Some 404 | DomainValidationError _ => Some 422 | _ => None end.
Definition service_status (e : exn) : option Z :=
  match e with AssessmentPermissionError _ => Some 403 | e => missing_or_invalid e end.

Section routes.
Context (uni : Unicode) (latest : option TestCatalog) (by_version : string -> option TestCatalog).
Context (scan : forall A, list A -> list A) (audit_ok : AuditCall -> outcome unit) (rt : McpRuntime).

(** The service of a route has no scope repository and no grants. *)
Definition no_authority : Authority ScopeSnapshot := mkAuthority None None.

(** ** Assessments and plans *)
Definition create_assessment (e : Env) (project scope_id mode_ : string) : M Mcp Assessment :=
  request (m ← lift (unwrap (of_value mode_) (HTTPException 422 ("invalid mode: " +:+ mode_)));
           on_core (AssessmentService.create (hex12 e 0) project scope_id m)).

Definition list_all (project : option string) (t : Tables) : list Assessment :=
  List.filter (fun a => matches project (project_id a)) (scan _ (map_to_list (assessments (core t))).*2).
Definition list_assessments (project : option string) : M Mcp (list Assessment) := request (see (list_all project)).
Definition get_assessment (i : string) : M Mcp Assessment :=
  request (o ← see (fun t => assessments (core t) !! i); lift (found o "assessment not found")).

(** [attach_plan], then the stored plan. *)
Definition attach_and_read (status : exn -> option Z) (e : Env) (i : string) (steps : list PlanStep) : M Mcp ExecutionPlan :=
  updated ← http status (on_core (AssessmentService.attach_plan (hex12 e 1) i steps));
  o ← see (fun t => plans (core t) !! default "" (active_plan_id updated));
  lift (unwrap o (HTTPException 500 "plan was not persisted")).

Definition generate_plan (e : Env) (i : string) (catalog_version : option string) : M Mcp ExecutionPlan :=
  request
    (o ← see (fun t => assessments (core t) !! i);
     a ← lift (found o "assessment not found");
     o ← see (fun t => snapshots (scopes t) !! scope_snapshot_id a);
     s ← lift (found o "scope snapshot not found");
     catalog ← lift (unwrap (if given catalog_version then catalog_version ≫= by_version else latest) (HTTPException 409 "no test catalog available"));
     plan ← lift (Planner.generate catalog ∅ ("plan-" +:+ hex12 e 0) i (classify_asset_types s) [] 1);
     lift (raise_if (bool_decide (Assessments.steps plan = [])) (HTTPException 422 "no required test classes for the scope's asset types"));;
     attach_and_read invalid e i (Assessments.steps plan)).

Definition step_in (s : PlanStepIn) : outcome PlanStep :=
  r ← unwrap (of_value (si_risk s)) (HTTPException 422 ("invalid step: " +:+ PyStr.repr (si_risk s) +:+ " is not a valid RiskClass"));
  Ret (mkPlanStep (si_key s) (si_runner s) r (si_parameters s) (si_dependencies s)).

Definition create_plan (e : Env) (i : string) (steps : list PlanStepIn) : M Mcp ExecutionPlan :=
  request (l ← lift (mapM_outcome step_in steps); attach_and_read missing_or_invalid e i l).

Definition get_plan (i : string) : M Mcp ExecutionPlan :=
  request (o ← see (fun t => plans (core t) !! i); lift (found o "plan not found")).

(** ** Starting and resuming *)
Definition start_assessment (e : Env) (i actor_role : string) : M Mcp Assessment :=
  request
    (a ← http service_status (on_core (AssessmentService.start no_authority (now_at e 0) i actor_role None));
     commit;;
     spawn (StartRun i);;
     mret a).

Definition start_resume (i : string) : M Mcp Assessment :=
  request
    (a ← http missing_or_invalid (on_core (AssessmentService.resume i));
     commit;;
     spawn (ResumeRun i);;
     mret a).

(** ** Approvals *)
Definition not_found_in (locale : string) : string := if bool_decide (locale = "en") then "assessment not found" else "评估不存在".
Definition scope_not_found_in (locale : string) : string := if bool_decide (locale = "en") then "scope snapshot not found" else "范围快照不存在".

Definition risk_in (r : string) : outcome RiskClass :=
  unwrap (of_value r) (HTTPException 422 ("invalid risk: " +:+ PyStr.repr r +:+ " is not a valid RiskClass")).

Definition create_approval (e : Env) (locale i approved_by_ : string) (risks caps : list string) (actor_role : string) : M Mcp Approval :=
  request
    (o ← see (fun t => assessments (core t) !! i);
     a ← lift (found o (not_found_in locale));
     o ← see (fun t => snapshots (scopes t) !! scope_snapshot_id a);
     s ← lift (found o (scope_not_found_in locale));
     rs ← lift (mapM_outcome risk_in risks);
     http service_status (on_core (AssessmentService.approve no_authority (now_at e 0) (hex12 e 0) i approved_by_
       (list_to_set rs) (list_to_set caps) (sc_digest s) actor_role None))).

Definition decision (a : Assessment) (what by_ why : string) : ApprovalDecisionOut :=
  mkDecisionOut (id a) (project_id a) what by_ why [] [] "" "".

(** The rejection is recorded by the plain audit service. *)
Definition reject_approval (e : Env) (i rejected_by reason_ actor_role : string) : M Mcp ApprovalDecisionOut :=
  request
    (a ← http service_status (on_core (AssessmentService.reject i rejected_by reason_ actor_role));
     on_scopes (ScopeService.record_audit (mkCall rejected_by "approval.rejected" "assessment" i
       [("rejected_by", JStr rejected_by); ("reason", JStr reason_)]) (now_at e 0));;
     mret (decision a "rejected" rejected_by reason_)).

Definition pending (t : Tables) : list ApprovalRequestOut :=
  (fun a => mkRequestOut (id a) (project_id a) (mode a) (active_plan_id a) (plan_digest <$> AssessmentService.active_plan (core t) a)
              (sc_digest <$> snapshots (scopes t) !! scope_snapshot_id a))
    <$> List.filter (fun a => bool_decide (status a = AssessmentStatus.AWAITING_APPROVAL)) (list_all None t).
Definition pending_approvals : M Mcp (list ApprovalRequestOut) := request (see pending).

(** [{e.resource_id: e for e in events if ...}]: the last event of an assessment. *)
Definition rejections (events : list AuditEvent) : dict AuditEvent :=
  foldl (fun d ev => if bool_decide (action ev = "approval.rejected") then PyDict.set (resource_id ev) ev d else d) [] events.
Definition text_of_event (k : string) (o : option AuditEvent) : string :=
  match o with Some ev => match field k (payload ev) with Some v => py_str v | None => "" end | None => "" end.

Definition decided (t : Tables) (a : Assessment) : option ApprovalDecisionOut :=
  if bool_decide (status a = AssessmentStatus.APPROVED) && given (approval_id a) then
    match approvals (core t) !! default "" (approval_id a) with
    | Some ap => Some (mkDecisionOut (id a) (project_id a) "approved" (approved_by ap) "" (PyStr.sorted (value <$> elements (approved_risks ap)))
                         (PyStr.sorted (elements (approved_capabilities ap))) (approval_plan_digest ap) (approval_scope_digest ap))
    | None => None
    end
  else if bool_decide (status a = AssessmentStatus.REJECTED) then
    let ev := PyDict.get (id a) (rejections (scope_audit (scopes t))) in
    Some (decision a "rejected" (text_of_event "rejected_by" ev) (text_of_event "reason" ev))
  else None.
Definition history (t : Tables) : list ApprovalDecisionOut := omap (decided t) (list_all None t).
Definition approval_history : M Mcp (list ApprovalDecisionOut) := request (see history).

Definition get_approval (i : string) : M Mcp Approval :=
  request (o ← see (fun t => approvals (core t) !! i); lift (found o "approval not found")).

(** ** Scopes *)
Definition freeze_scope (e : Env) (project : string) (inc exc : list string) (prt : list Z) (by_ : string) (rps : pyfloat) (conc max_req : Z)
    : M Mcp ScopeSnapshot :=
  request (on_scopes (ScopeService.freeze uni (hex12 e 0) (now_at e 0) (now_at e 1) project inc exc prt by_ rps conc max_req [])).
Definition get_scope (i : string) : M Mcp ScopeSnapshot :=
  request (o ← see (fun t => snapshots (scopes t) !! i); lift (found o "scope snapshot not found")).

(** ** Findings *)
Definition save_finding (f : Finding) : M Mcp unit :=
  modify (fun w => let t := view w in
    mkMcp (db w) (mkTables (core t) (scopes t) (grants t) (projects t) (loops t) (loop_steps t) (reports t)
                    (PyDict.set (fd_id f) f (findings t)) (assets t) (intel t) (signed t)) (threads w)).

Definition finding_digest (title asset : string) (cwe : list string) : string :=
  Canonical.canonical_digest (JObj [("title", JStr title); ("asset", JStr asset); ("cwe", Canonical.jstrs cwe)]).

(** The replay cache is a dictionary of the application, not of the session. *)
Definition create_finding (title asset severity : string) (cwe : list string) (assessment_id : string) (key : option string)
    : M (Mcp * dict Finding) Finding := fun '(w, store) =>
  match key ≫= (fun k => PyDict.get k store) with
  | Some f => (Ret f, (w, store))
  | None =>
      let '(o, w') := request
        (sev ← lift (unwrap (of_value severity) (HTTPException 422 ("invalid severity: " +:+ severity)));
         let fp := finding_digest title asset cwe in
         f ← lift (Findings.check_finding (mkFinding ("finding:" +:+ PyStr.take 16 (PyStr.removeprefix fp "sha256:")) fp title asset sev cwe [] [] [] []
                     FindingStatus.DRAFT assessment_id VerificationStatus.PENDING));
         save_finding f;;
         mret f) w in
      (o, (w', match o, key with Ret f, Some k => PyDict.set k f store | _, _ => store end))
  end.

Definition get_finding (i : string) : M Mcp Finding :=
  request (o ← see (fun t => PyDict.get i (findings t)); lift (found o "finding not found")).
Definition list_findings (assessment_id severity verdict : option string) : M Mcp (list Finding) :=
  request (see (all_findings scan assessment_id severity verdict)).

Definition with_verdict (f : Finding) (v : VerificationStatus) : Finding :=
  mkFinding (fd_id f) (fingerprint f) (fd_title f) (fd_asset f) (fd_severity f) (fd_cwe f) (fd_cve f) (fd_owasp f) (fd_observation_ids f)
    (fd_evidence_ids f) (fd_status f) (fd_assessment_id f) v.

Definition set_verdict (i verdict actor_role : string) : M Mcp Finding :=
  request
    (lift (raise_if (bool_decide (actor_role = "agent")) (HTTPException 403 "agents cannot set finding verdicts (oracle/human only)"));;
     o ← see (fun t => PyDict.get i (findings t));
     f ← lift (found o "finding not found");
     v ← lift (unwrap (of_value verdict) (HTTPException 422 ("invalid verdict: " +:+ verdict)));
     save_finding (with_verdict f v);;
     mret (with_verdict f v)).

(** ** The emergency stop *)

(** The switch, its permits and its audit are the application's, not the
    session's; [configured] is [app.state.emergency_stop is not None]. *)
Definition emergency_stop (configured : bool) (terminate : outcome Z) (i actor why actor_role : string)
    : M (Mcp * StopState) EmergencyReport := fun '(w, s) =>
  let '(o, w') := request
    (lift (raise_if (negb (bool_decide (actor_role = "human"))) (HTTPException 403 "emergency stop is human-only (LLM boundary)"));;
     o ← see (fun t => assessments (core t) !! i);
     lift (found o "assessment not found");;
     lift (raise_if (negb configured) (HTTPException 503 "emergency stop not configured"))) w in
  match o with
  | Ret _ => let '(r, s') := EmergencyStop.trigger audit_ok terminate actor why s in (r, (w', s'))
  | Raise x => (Raise x, (w', s))
  end.

(** ** The loops *)
Section loops.
Context (policy : LoopTerminationPolicy) (require_resume_approval : LoopId -> ResumeRequest -> M unit unit).

(** [_loops] without a session. *)
Definition loops_configured : outcome unit :=
  raise_if (match loop_repo rt with NotWired => true | _ => false end) (HTTPException 503 "loop state not configured").
Definition no_loop (i : string) : exn := HTTPException 404 ("no loop state for " +:+ i).

Definition get_loop (i : string) : M Mcp (LoopState * Z) :=
  lift loops_configured;;
  lid ← lift (LoopModels.make_loop_id i);
  o ← gets (fun w => loops (db w) !! lid);
  s ← lift (unwrap o (no_loop i));
  l ← gets (fun w => steps_of rt (ls_loop_id s) (db w));
  mret (s, Z.of_nat (length l)).

Definition stop_loop (e : Env) (i actor why actor_role : string) : M Mcp LoopState :=
  lift (raise_if (negb (bool_decide (actor_role = "human"))) (HTTPException 403 "loop stop is human-only (agents cannot stop a loop)"));;
  lid ← http (fun x => if is_value_error x then Some 404 else None) (lift (LoopModels.make_loop_id i));
  loop_write_ctx rt
    (o ← see (fun t => loops t !! lid);
     s ← lift (unwrap o (no_loop i));
     if bool_decide (phase s = LoopPhase.EMERGENCY_STOPPED) then mret s
     else
       let stopped := LoopPure.ended_state LoopPhase.EMERGENCY_STOPPED s (now_at e 0) in
       save_loop stopped;;
       audit audit_ok (mkCall actor LoopPure.LOOP_TERMINATED LoopPure.LOOP_RESOURCE_TYPE i
         [("final_phase", Canonical.jenum LoopPhase.EMERGENCY_STOPPED); ("reason", JStr "emergency_stop");
          ("human_reason", JStr (if PyStr.is_empty why then "stopped via REST /loops/{id}/stop" else why));
          ("from_phase", Canonical.jenum (phase s))]);;
       mret stopped).

Definition rest_loop (e : Env) (assessment_id : string) (steps wall tokens : option Z) : LoopState :=
  let base := LoopModels.default_budget in
  mkLoopState (PyStr.take 8 (hex e 0)) assessment_id LoopPhase.INITIALIZING "rest:loop:default"
    (mkBudget (default (max_steps base) steps) (default (max_total_tokens base) tokens) (default (max_wall_seconds base) wall) 0 0 0)
    (String.concat "" (replicate 64 "0")) ∅ ∅ 0 0 (now_at e 0) None 0 None None.

Definition create_loop (e : Env) (assessment_id : string) (steps wall tokens : option Z) (actor actor_role : string) : M Mcp LoopState :=
  lift (raise_if (negb (bool_decide (actor_role = "human"))) (HTTPException 403 "loop creation is human-only (agents cannot create a loop)"));;
  loop_write_ctx rt
    (let s := rest_loop e assessment_id steps wall tokens in
     save_loop s;;
     audit audit_ok (mkCall actor LoopPure.LOOP_CREATED LoopPure.LOOP_RESOURCE_TYPE (ls_loop_id s)
       [("assessment_id", JStr assessment_id);
        ("budget", JObj [("max_steps", JInt (max_steps (budget s))); ("max_total_tokens", JInt (max_total_tokens (budget s)));
           ("max_wall_seconds", JInt (max_wall_seconds (budget s)))])]);;
     mret s).

Definition control_configured : outcome unit := raise_if (negb (loop_control rt)) (HTTPException 503 "loop control not configured").

(** The [except] clauses of both routes, in their order. *)
Definition pause_status (x : exn) : option Z :=
  match x with
  | ApprovalRejected _ => Some 403
  | LookupError _ | KeyError _ => Some 404
  | x => if is_domain_error x then Some 409 else None
  end.
Definition resume_status (x : exn) : option Z :=
  match x with ApprovalRequired _ => Some 401 | x => pause_status x end.

Definition pause_loop (e : Env) (i actor why actor_role : string) : M Mcp LoopState :=
  lift control_configured;;
  http pause_status (loop_write_ctx rt
    (lid ← lift (LoopModels.make_loop_id i);
     on_loops (Loop.pause audit_ok (lift (Ret (now_at e 0))) lid actor why actor_role))).

Definition resume_loop (e : Env) (i : string) (rq : ResumeRequest) : M Mcp LoopState :=
  lift control_configured;;
  http resume_status (loop_write_ctx rt
    (lid ← lift (LoopModels.make_loop_id i);
     on_loops (Loop.resume audit_ok policy require_resume_approval (lift (Ret (now_at e 0))) lid rq))).

(** ** The requests that write *)
Inductive write : Type :=
| CreateAssessmentReq (project scope_id mode_ : string)
| GeneratePlanReq (i : string) (catalog_version : option string)
| CreatePlanReq (i : string) (steps : list PlanStepIn)
| StartReq (i actor_role : string)
| ResumeReq (i : string)
| CreateApprovalReq (locale i approved_by_ : string) (risks caps : list string) (actor_role : string)
| RejectReq (i rejected_by reason_ actor_role : string)
| FreezeReq (project : string) (inc exc : list string) (prt : list Z) (by_ : string) (rps : pyfloat) (conc max_req : Z)
| VerdictReq (i verdict actor_role : string)
| StopLoopReq (i actor why actor_role : string)
| CreateLoopReq (assessment_id : string) (steps wall tokens : option Z) (actor actor_role : string)
| PauseLoopReq (i actor why actor_role : string)
| ResumeLoopReq (i : string) (rq : ResumeRequest).

(** A request without its answer. *)
Definition silent {A} (m : M Mcp A) : M Mcp unit := m;; mret tt.
Definition serve (e : Env) (c : write) : M Mcp unit :=
  match c with
  | CreateAssessmentReq p s m => silent (create_assessment e p s m)
  | GeneratePlanReq i v => silent (generate_plan e i v)
  | CreatePlanReq i l => silent (create_plan e i l)
  | StartReq i r => silent (start_assessment e i r)
  | ResumeReq i => silent (start_resume i)
  | CreateApprovalReq l i b rs cs r => silent (create_approval e l i b rs cs r)
  | RejectReq i b why r => silent (reject_approval e i b why r)
  | FreezeReq p inc exc prt b rps conc m => silent (freeze_scope e p inc exc prt b rps conc m)
  | VerdictReq i v r => silent (set_verdict i v r)
  | StopLoopReq i a why r => silent (stop_loop e i a why r)
  | CreateLoopReq a s wl t act r => silent (create_loop e a s wl t act r)
  | PauseLoopReq i a why r => silent (pause_loop e i a why r)
  | ResumeLoopReq i rq => silent (resume_loop e i rq)
  end.

(** The role a decision reserved to humans is made in. *)
Definition deciding_role (c : write) : option string :=
  match c with
  | StartReq _ r | CreateApprovalReq _ _ _ _ _ r | RejectReq _ _ _ r | StopLoopReq _ _ _ r | CreateLoopReq _ _ _ _ _ r => Some r
  | _ => None
  end.
End loops.
End routes.

(** ** Transactions *)

(** Nothing is committed and no thread is started. *)
Definition still {A} (m : M Mcp A) : Prop := forall w, db (m w).2 = db w /\ threads (m w).2 = threads w.
(** ... when it raises. *)
Definition clean {A} (m : M Mcp A) : Prop := forall w x, (m w).1 = Raise x -> db (m w).2 = db w /\ threads (m w).2 = threads w.

Lemma still_lift {A} (o : outcome A) : still (lift o).
Proof. by intros w. Qed.
Lemma still_ret {A} (a : A) : still (mret a).
Proof. by intros w. Qed.
Lemma still_see {A} (f : Tables -> A) : still (see f).
Proof. by intros w. Qed.
Lemma still_gets {A} (f : Mcp -> A) : still (gets f).
Proof. by intros w. Qed.
Lemma still_on {S A} (part : Tables -> S) with_ (m : M S A) : still (on part with_ m).
Proof. intros w. unfold on. by destruct (m _). Qed.
Lemma still_core {A} (m : M Repo A) : still (on_core m).
Proof. apply still_on. Qed.
Lemma still_scopes {A} (m : M ScopeWorld A) : still (on_scopes m).
Proof. apply still_on. Qed.
Lemma still_loops {A} (m : M (LoopWorld unit) A) : still (on_loops m).
Proof. apply still_on. Qed.
Lemma still_bind {A B} (m : M Mcp A) (f : A -> M Mcp B) : still m -> (forall a, still (f a)) -> still (m ≫= f).
Proof.
  intros Hm Hf w. unfold mbind, M_bind. destruct (Hm w) as [H1 H2]. destruct (m w) as [[a|x] w1]; [|done]. cbn in *.
  rewrite <- H1, <- H2. apply Hf.
Qed.
Lemma still_http {S} (status : exn -> option Z) (m : M Mcp S) : still m -> still (http status m).
Proof. intros H w. unfold http. specialize (H w). destruct (m w) as [[a|x] w1]; done. Qed.
Lemma still_save_finding f : still (save_finding f).
Proof. by intros w. Qed.
Lemma still_save_loop s : still (save_loop s).
Proof. by intros w. Qed.
Lemma still_audit ok c : still (audit ok c).
Proof. apply still_bind; [apply still_lift|by intros _ w]. Qed.
Lemma still_if {A} (b : bool) (m m' : M Mcp A) : still m -> still m' -> still (if b then m else m').
Proof. by destruct b. Qed.

Lemma clean_still {A} (m : M Mcp A) : still m -> clean m.
Proof. intros H w x _. apply H. Qed.
Lemma clean_after {A B} (m : M Mcp A) (f : A -> M Mcp B) : still m -> (forall a, clean (f a)) -> clean (m ≫= f).
Proof.
  intros Hm Hf w x. unfold mbind, M_bind. destruct (Hm w) as [H1 H2]. destruct (m w) as [[a|y] w1]; [|done]. cbn in *.
  rewrite <- H1, <- H2. apply Hf.
Qed.
Lemma clean_http {S} (status : exn -> option Z) (m : M Mcp S) : clean m -> clean (http status m).
Proof. intros H w x. unfold http. specialize (H w). destruct (m w) as [[a|y] w1]; [done|]. intros _. by apply (H y). Qed.
Lemma clean_silent {A} (m : M Mcp A) : clean m -> clean (silent m).
Proof. intros H w x. unfold silent, mbind, M_bind. specialize (H w). destruct (m w) as [[a|y] w1]; [done|]. intros _. by apply (H y). Qed.
Lemma clean_request {A} (m : M Mcp A) : clean m -> clean (request m).
Proof.
  intros H w x. unfold request. specialize (H (mkMcp (db w) (db w) (threads w))). destruct (m _) as [[a|y] w1]; [done|].
  intros _. by apply (H y).
Qed.
Lemma clean_uow {A} (m : M Mcp A) : still m -> clean (unit_of_work m).
Proof.
  intros H w x. unfold unit_of_work. specialize (H (mkMcp (db w) (db w) (threads w))). destruct (m _) as [[a|y] w1]; [done|].
  intros _. split; [done|apply H].
Qed.
Lemma clean_write_ctx {A} rt (m : M Mcp A) : loop_repo rt <> InMemory -> still m -> clean (loop_write_ctx rt m).
Proof. intros Hr H. unfold loop_write_ctx. destruct (loop_repo rt); [by apply clean_uow|done|by apply clean_uow]. Qed.

Section facts.
Context (uni : Unicode) (latest : option TestCatalog) (by_version : string -> option TestCatalog).
Context (scan : forall A, list A -> list A) (audit_ok : AuditCall -> outcome unit) (rt : McpRuntime).
Context (policy : LoopTerminationPolicy) (require_resume_approval : LoopId -> ResumeRequest -> M unit unit).

Notation serve := (Api.serve uni latest by_version audit_ok rt policy require_resume_approval).
Notation create_approval := Api.create_approval.

Ltac stilly :=
  repeat first
    [ apply still_lift | apply still_ret | apply still_see | apply still_gets | apply still_core | apply still_scopes | apply still_loops
    | apply still_save_finding | apply still_save_loop | apply still_audit | apply still_http | apply still_if
    | apply still_bind; [|intros ?] ].

(** The tail of [start] and of [resume] does not raise. *)
Lemma clean_committed t {A} (a : A) : clean (commit;; spawn t;; mret a).
Proof. by intros w x. Qed.

Definition on_a_loop (c : write) : bool :=
  match c with StopLoopReq _ _ _ _ | CreateLoopReq _ _ _ _ _ _ | PauseLoopReq _ _ _ _ | ResumeLoopReq _ _ => true | _ => false end.

Lemma clean_engagement e c : on_a_loop c = false -> clean (serve e c).
Proof.
  destruct c; try discriminate; intros _; cbn [Api.serve]; apply clean_silent, clean_request;
    try (apply clean_still; unfold attach_and_read; stilly; fail).
  - apply clean_after; [stilly|intros a]. apply clean_committed.
  - apply clean_after; [stilly|intros a]. apply clean_committed.
Qed.

(** a request that fails leaves no trace. Whatever the request, when it raises
    the database is as it was and no run has been started, provided the loops
    are not kept in memory. *)
Theorem failed_requests_change_nothing e c w x : loop_repo rt <> InMemory ->
  (serve e c w).1 = Raise x -> db (serve e c w).2 = db w /\ threads (serve e c w).2 = threads w.
Proof.
  intros Hr. revert w x. change (clean (serve e c)).
  destruct (on_a_loop c) eqn:Hc; [|by apply clean_engagement].
  destruct c; try discriminate; cbn [Api.serve]; apply clean_silent.
  - unfold stop_loop. apply clean_after; [stilly|intros _]. apply clean_after; [stilly|intros lid]. apply clean_write_ctx; [done|]. stilly.
  - unfold create_loop. apply clean_after; [stilly|intros _]. apply clean_write_ctx; [done|]. stilly.
  - unfold pause_loop. apply clean_after; [stilly|intros _]. apply clean_http, clean_write_ctx; [done|]. stilly.
  - unfold resume_loop. apply clean_after; [stilly|intros _]. apply clean_http, clean_write_ctx; [done|]. stilly.
Qed.

(** ** Decisions *)
Definition refuses {A} (m : M Mcp A) : Prop := forall w, exists x, (m w).1 = Raise x.
Lemma refuses_bind {A B} (m : M Mcp A) (f : A -> M Mcp B) : (forall a, refuses (f a)) -> refuses (m ≫= f).
Proof. intros H w. unfold mbind, M_bind. destruct (m w) as [[a|x] w1]; [apply H|by exists x]. Qed.
Lemma refuses_first {A B} (m : M Mcp A) (f : A -> M Mcp B) : refuses m -> refuses (m ≫= f).
Proof. intros H w. unfold mbind, M_bind. destruct (H w) as [x Hx]. destruct (m w) as [[a|y] w1]; [done|by exists y]. Qed.
Lemma refuses_request {A} (m : M Mcp A) : refuses m -> refuses (request m).
Proof. intros H w. unfold request. destruct (H (mkMcp (db w) (db w) (threads w))) as [x Hx]. destruct (m _) as [[a|y] w1]; [done|by exists y]. Qed.
Lemma refuses_http {A} status (m : M Mcp A) : refuses m -> refuses (http status m).
Proof. intros H w. unfold http. destruct (H w) as [x Hx]. destruct (m w) as [[a|y] w1]; [done|]. cbn. destruct (status y); by eexists. Qed.
Lemma refuses_core {A} (m : M Repo A) : (forall r, exists x, (m r).1 = Raise x) -> refuses (on_core m).
Proof. intros H w. unfold on_core, on. destruct (H (core (view w))) as [x Hx]. destruct (m _) as [o r]. by exists x. Qed.
Lemma refuses_raise_if {A} (b : bool) x (f : unit -> M Mcp A) : b = true -> refuses (lift (raise_if b x) ≫= f).
Proof. intros -> w. by exists x. Qed.

Lemma require_human_refuses {S A} role (f : unit -> M S A) (s : S) : role <> "human" ->
  exists x, ((lift (AssessmentService.require_human role) ≫= f) s).1 = Raise x.
Proof.
  intros H. unfold AssessmentService.require_human, lift, mbind, M_bind, outcome_bind. destruct (bool_decide (role = "agent")); [by eexists|].
  rewrite bool_decide_false by done. by eexists.
Qed.

(** decisions are made by humans. A request to approve, reject or start an
    assessment, or to create or stop a loop, in any role but "human" is refused,
    leaves the database as it was and starts nothing, however the loops are
    kept. *)
Theorem only_humans_decide e c role w : deciding_role c = Some role -> role <> "human" ->
  (exists x, (serve e c w).1 = Raise x) /\ db (serve e c w).2 = db w /\ threads (serve e c w).2 = threads w.
Proof.
  intros Hc Hrole.
  assert (Hraise : refuses (serve e c)).
  { destruct c; cbn in Hc; try discriminate; injection Hc as ->; cbn [Api.serve]; apply refuses_first.
    - apply refuses_request, refuses_first, refuses_http, refuses_core. intros r. by apply require_human_refuses.
    - apply refuses_request. do 5 (apply refuses_bind; intros ?). apply refuses_http, refuses_core. intros r.
      unfold AssessmentService.approve. unfold mbind at 1, M_bind.
      destruct (require_human_refuses role (fun _ => mret approved_by_) r Hrole) as [x Hx].
      destruct ((lift _ ≫= _) r) as [[who|y] r1]; [done|by exists y].
    - apply refuses_request, refuses_first, refuses_http, refuses_core. intros r. by apply require_human_refuses.
    - apply refuses_raise_if. by rewrite bool_decide_false.
    - apply refuses_raise_if. by rewrite bool_decide_false. }
  destruct (Hraise w) as [x Hx]. split; [by exists x|].
  destruct (on_a_loop c) eqn:Hl; [|by apply (clean_engagement e c Hl w x)].
  destruct c; try discriminate; injection Hc as ->; cbn; unfold silent, stop_loop, create_loop; rewrite (bool_decide_false _ Hrole); done.
Qed.

Lemma approve_human (A : Authority ScopeSnapshot) now h k by_ risks caps sd role r ap r' :
  AssessmentService.approve A now h k by_ risks caps sd role None r = (Ret ap, r') ->
  role = "human" /\ approved_by ap = by_ /\ approval_scope_digest ap = sd
  /\ exists a a' pid p, assessments r !! k = Some a /\ active_plan_id a = Some pid /\ plans r !! pid = Some p
     /\ approval_plan_digest ap = plan_digest p /\ r' = repo_add a' (save_approval ap r).
Proof.
  unfold AssessmentService.approve, AssessmentService.require, lift, modify, mbind, M_bind.
  destruct (AssessmentService.require_human role) as [u|e] eqn:Eh; [cbn [mret M_ret]|done].
  apply AssessmentService.require_human_Ret in Eh as ->.
  destruct (assessments r !! k) as [a|] eqn:Ea; [cbn [unwrap]|done]. destruct (active_plan_id a) as [pid|] eqn:Ep; [cbn [unwrap]|done].
  destruct (Transitions.assert_transition _ _); [|done]. destruct (plans r !! pid) as [p|] eqn:Epl; [cbn [unwrap]|done].
  destruct (Approval.create _ _ _ _ _ _ _ _) as [ap'|e] eqn:Eap; [|done]. intros [= <- <-].
  apply Approval.approval_create_Ret in Eap as (_ & _ & _ & Hp & Hs & _ & _ & _ & Hby & _).
  split_and!; [done..|]. do 4 eexists. split_and!; [done..|reflexivity].
Qed.

Lemma request_Ret {A} (m : M Mcp A) w a w' : request m w = (Ret a, w') ->
  exists w1, m (mkMcp (db w) (db w) (threads w)) = (Ret a, w1) /\ w' = mkMcp (view w1) (view w1) (threads w1).
Proof. unfold request. destruct (m _) as [[x|e] w1]; [|done]. intros [= -> <-]. by exists w1. Qed.
Lemma http_Ret {S A} status (m : M S A) w a w' : http status m w = (Ret a, w') -> m w = (Ret a, w').
Proof. unfold http. destruct (m w) as [[x|e] w1]; [done|]. by destruct (status e). Qed.
Lemma on_core_Ret {A} (m : M Repo A) w a w' : on_core m w = (Ret a, w') ->
  exists r, m (core (view w)) = (Ret a, r) /\ w' = mkMcp (db w) (with_core r (view w)) (threads w).
Proof. unfold on_core, on. destruct (m _) as [o r]. intros [= -> <-]. by exists r. Qed.
Lemma found_Ret {A} (o : option A) msg a : found o msg = Ret a -> o = Some a.
Proof. destruct o; [by intros [= ->]|done]. Qed.

(** an approval made over HTTP pins what is stored. It is made by a human, is
    stored with the digests of the assessment's stored active plan and scope,
    and names who the request says. *)
Theorem created_approval_is_pinned e locale i by_ risks caps role w ap w' :
  Api.create_approval e locale i by_ risks caps role w = (Ret ap, w') ->
  role = "human" /\ approved_by ap = by_ /\ approvals (core (db w')) !! approval_id_of ap = Some ap
  /\ exists a pid p s, assessments (core (db w)) !! i = Some a /\ active_plan_id a = Some pid /\ plans (core (db w)) !! pid = Some p
     /\ snapshots (scopes (db w)) !! scope_snapshot_id a = Some s
     /\ approval_plan_digest ap = plan_digest p /\ approval_scope_digest ap = sc_digest s.
Proof.
  intros (w1 & H & ->)%request_Ret. unfold mbind, M_bind, see, gets, lift in H. cbn [view] in H.
  destruct (found (assessments _ !! i) _) as [a|] eqn:Ea; [|done]. apply found_Ret in Ea.
  destruct (found (snapshots _ !! _) _) as [s|] eqn:Es; [|done]. apply found_Ret in Es.
  destruct (mapM_outcome risk_in risks) as [rs|]; [|done].
  apply http_Ret, on_core_Ret in H as (r & H & ->). apply approve_human in H as (-> & Hby & Hsd & a0 & a' & pid & p & H1 & H2 & H3 & H4 & ->).
  cbn in H1. rewrite Ea in H1. injection H1 as <-. split_and!; [done|done| |by exists a, pid, p, s].
  cbn. by rewrite lookup_insert_eq.
Qed.

Lemma start_human (A : Authority ScopeSnapshot) now k role r a r' :
  AssessmentService.start A now k role None r = (Ret a, r') -> role = "human" /\ status a = AssessmentStatus.QUEUED /\ r' = repo_add a r.
Proof.
  unfold AssessmentService.start, AssessmentService.require, lift, modify, mbind, M_bind.
  destruct (AssessmentService.require_human role) as [u|e] eqn:Eh; [|done]. apply AssessmentService.require_human_Ret in Eh as ->.
  destruct (assessments r !! k) as [a0|]; [cbn [unwrap]|done]. destruct (Transitions.assert_transition _ _); [|done].
  do 2 (destruct (raise_if _ _); [|done]). destruct (Assessment.start _ _ _) as [a'|e] eqn:Es; [|done]. intros [= <- <-].
  split_and!; [done| |done]. unfold Assessment.start in Es. by apply bind_Ret in Es as (_ & _ & (_ & _ & [= <-])%bind_Ret).
Qed.
Lemma resume_control k r a r' : AssessmentService.resume k r = (Ret a, r') -> status a = AssessmentStatus.RUNNING /\ r' = repo_add a r.
Proof.
  unfold AssessmentService.resume, AssessmentService.control_move, AssessmentService.require, lift, modify, mbind, M_bind.
  destruct (assessments r !! k) as [a0|]; [cbn [unwrap]|done].
  destruct (AssessmentService.set_control _ _ _) as [u|e] eqn:Eu; [|done]. intros [= <- <-]. split; [|done].
  unfold AssessmentService.set_control in Eu. by apply bind_Ret in Eu as (_ & _ & [= <-]).
Qed.

(** What the route does once the service has answered. *)
Lemma committed_run t {A} (m : M Repo A) status w a w' r :
  request (a ← http status (on_core m); commit;; spawn t;; mret a) w = (Ret a, w') ->
  (forall x, m (core (db w)) = (Ret a, x) -> x = r) ->
  m (core (db w)) = (Ret a, r) /\ core (db w') = r /\ threads w' = threads w ++ [(t, db w')].
Proof.
  intros (w1 & H & ->)%request_Ret Hr. unfold mbind, M_bind in H.
  destruct (http status (on_core m) _) as [[a0|e] w2] eqn:E; [|done]. apply http_Ret, on_core_Ret in E as (x & E & ->).
  cbn in H, E. injection H as -> <-. pose proof (Hr x E) as ->. done.
Qed.

(** a run reads what its request committed. Starting answers the queued
    assessment as it is stored, resuming the running one, and the one run that
    is added starts from the committed database. *)
Theorem run_reads_what_was_committed e i role w a w' :
  (start_assessment e i role w = (Ret a, w') ->
     role = "human" /\ status a = AssessmentStatus.QUEUED /\ assessments (core (db w')) !! id a = Some a
     /\ threads w' = threads w ++ [(StartRun i, db w')])
  /\ (start_resume i w = (Ret a, w') ->
     status a = AssessmentStatus.RUNNING /\ assessments (core (db w')) !! id a = Some a /\ threads w' = threads w ++ [(ResumeRun i, db w')]).
Proof.
  split; intros H; eapply (committed_run _ _ _ _ _ _ (repo_add a (core (db w)))) in H.
  - destruct H as (H & Hc & Ht). apply start_human in H as (-> & Hs & _). split_and!; [done..| |done]. rewrite Hc. cbn. by rewrite lookup_insert_eq.
  - by intros x (_ & _ & ->)%start_human.
  - destruct H as (H & Hc & Ht). apply resume_control in H as (Hs & _). split_and!; [done| |done]. rewrite Hc. cbn. by rewrite lookup_insert_eq.
  - by intros x (_ & ->)%resume_control.
Qed.

(** a replay writes nothing. Once a request with a key has been answered, the
    key answers the same finding, whatever the request, and changes nothing. *)
Theorem replay_writes_nothing title asset sev cwe a key w st f w' title' asset' sev' cwe' a' :
  create_finding title asset sev cwe a (Some key) (w, st) = (Ret f, w') ->
  create_finding title' asset' sev' cwe' a' (Some key) w' = (Ret f, w').
Proof.
  unfold create_finding. cbn [mbind option_bind]. destruct (PyDict.get key st) as [g|] eqn:E.
  - intros [= -> <-]. by rewrite E.
  - destruct (request _ _) as [[g|x] w1]; intros H; inversion H; subst. by rewrite PyDict.get_set_eq.
Qed.
End facts.
End Api.

(** ** Examples *)
Module ApiDemo.
Import Api McpDemo.

Definition demo_serve (ok : AuditCall -> outcome unit) (repo : LoopRepo) (c : write) (w : Mcp) : outcome unit * Mcp :=
  Api.serve FrozenScope.ascii_only None (fun _ => None) ok (mkRuntime true true None "none" true repo) demo_policy never demo_env c w.
Definition served (cs : list write) : Mcp := foldl (fun w c => (demo_serve accept Sql c w).2) demo cs.
Definition approve_req : write := CreateApprovalReq "zh" "asm-1" "ana" ["low"] [] "human".
Definition decisions (w : Mcp) : list (string * string) :=
  (fun d => (do_decision d, do_decided_by d)) <$> history in_order (db w).

(** An approval and its start: the run reads the queued assessment. *)
Example approve_and_start :
  let w := served [approve_req; StartReq "asm-1" "human"] in
  status_in (db w) = Some AssessmentStatus.QUEUED /\ (fun x => (x.1, status_in x.2)) <$> threads w = [(StartRun "asm-1", Some AssessmentStatus.QUEUED)].
Proof. vm_compute. done. Qed.

(** The history of decisions forgets an approval once its assessment starts. *)
Example history_forgets_started_assessments :
  decisions (served [approve_req]) = [("approved", "ana")] /\ decisions (served [approve_req; StartReq "asm-1" "human"]) = [].
Proof. vm_compute. done. Qed.

(** A rejection is recorded in the audit, an approval is not. *)
Example approvals_are_not_recorded :
  let actions w := action <$> scope_audit (scopes (db w)) in
  actions (served [approve_req]) = actions demo /\ signed (db (served [approve_req])) = signed (db demo)
  /\ actions (served [RejectReq "asm-1" "ana" "too risky" "human"]) = actions demo ++ ["approval.rejected"].
Proof. vm_compute. done. Qed.

Definition found_again : outcome Finding * (Mcp * dict Finding) :=
  let '(_, s) := create_finding "SQL injection" "www.shop.example" "high" ["CWE-89"] "asm-1" None (demo, []) in
  match PyDict.keys (findings (db s.1)) with
  | [k] => let w := (demo_serve accept Sql (VerdictReq k "confirmed" "human") s.1).2 in
           create_finding "SQL injection" "www.shop.example" "low" ["CWE-89"] "asm-2" None (w, s.2)
  | _ => (Raise OutOfFuel, s)
  end.
(** The same title, asset and weaknesses are the same row: a confirmed finding
    becomes a pending one, of another severity and another assessment. *)
Example second_report_erases_the_verdict :
  (fun f => (oracle_verdict f, fd_severity f, fd_assessment_id f)) <$> PyDict.values (findings (db found_again.2.1))
  = [(VerificationStatus.PENDING, Severity.LOW, "asm-2")].
Proof. vm_compute. done. Qed.

(** A verdict in a role that is neither the oracle's nor a human's. *)
Example robot_sets_a_verdict :
  let '(o, (w, _)) := create_finding "SQL injection" "www.shop.example" "high" ["CWE-89"] "asm-1" None (demo, []) in
  match o with
  | Ret f => let r := demo_serve accept Sql (VerdictReq (fd_id f) "confirmed" "robot") w in
             is_Ret r.1 && forallb (fun g => bool_decide (oracle_verdict g = VerificationStatus.CONFIRMED)) (PyDict.values (findings (db r.2)))
  | Raise _ => false
  end = true.
Proof. vm_compute. done. Qed.

(** Every role but "agent" pauses a loop, only "human" stops one. *)
Definition running : Mcp := (demo_serve accept Sql (CreateLoopReq "asm-1" None None None "ana" "human") demo).2.
Example roles_are_checked_differently :
  is_Ret (demo_serve accept Sql (PauseLoopReq "00000000" "bot" "why" "robot") running).1 = true
  /\ is_Ret (demo_serve accept Sql (StopLoopReq "00000000" "bot" "why" "robot") running).1 = false.
Proof. vm_compute. done. Qed.

(** With the loops in memory, a loop whose creation could not be signed exists. *)
Example unsigned_loop_in_memory :
  let loops_after repo := size (loops (db (demo_serve refuse_audit repo (CreateLoopReq "asm-1" None None None "ana" "human") demo).2)) in
  loops_after Sql = 1%nat /\ loops_after InMemory = 2%nat.
Proof. vm_compute. done. Qed.

(** A malformed target is not a bad request: the exception leaves the route. *)
Example malformed_scope_is_a_server_error :
  match (demo_serve accept Sql (FreezeReq "acme" ["http://"] [] [443] "ana" (flt "5.0") 3 50000) demo).1 with
  | Raise (DomainValidationError _) => True
  | _ => False
  end.
Proof. vm_compute. done. Qed.
End ApiDemo.
