(* ===== verification/CaseApi.v ===== *)
(** * The case library over HTTP

    Models the routes of [src/secopent/interfaces/api/routers/cases.py] and the
    rows behind them ([infrastructure/db/case_models.py],
    [infrastructure/repositories/sqlalchemy_cases.py]): the rows are a registry
    of [Cases.CaseService] (a case is read back from its row,
    [case_reads_back]), so the routes are
    written over that registry, with the transaction of a request.  A JSON
    column holds the value written to it.  What the key service answers to a
    signing request and the language model gateway are arguments. *)
From S2P Require Import Prelude PyStr PyDict PyJson Canonical Policy Cases.

#[local] Open Scope Z_scope.

(** ** Rows *)
Record CoreCase : Type := mkCaseRow {
  cc_id : string;
  cc_version : string;
  cc_author : string;
  cc_risk : string;
  cc_target_type : string;
  cc_schema : string;
  cc_status : string;
  cc_origin : string;
  cc_signature : string;
  cc_min_engine_version : string;
  cc_steps : list json;
  cc_preconditions : list string;
  cc_assertions : list json;
  cc_evidence_req : list string;
  cc_cwe : list string;
  cc_cve : list string;
  cc_owasp : list string;
  cc_verification : option json;
  cc_yaml : string
}.

Module CaseRows.

(** An element of a JSON column, and a field of it. *)
Definition object (v : json) : outcome (list (string * json)) :=
  match v with JObj d => Ret d | v => Raise (TypeError (type_name v)) end.
Definition at_key (k : string) (d : list (string * json)) : outcome json := unwrap (field k d) (KeyError k).
Definition text_at (k : string) (d : list (string * json)) : outcome string :=
  v ← at_key k d; match v with JStr s => Ret s | v => Raise (TypeError (type_name v)) end.
Definition int_at (k : string) (d : list (string * json)) : outcome Z :=
  v ← at_key k d; match v with JInt n => Ret n | v => Raise (TypeError (type_name v)) end.

Definition step_of (v : json) : outcome CaseStep :=
  d ← object v; i ← text_at "id" d; a ← text_at "action" d; s ← (x ← at_key "spec" d; object x);
  Case.check_step (mkCaseStep i a s).
Definition assertion_of (v : json) : outcome CaseAssertion :=
  d ← object v; i ← text_at "id" d; e ← text_at "expression" d; Case.check_assertion (mkAssertion i e).
Definition verification_of (o : option json) : outcome (option CaseVerification) :=
  match o with
  | None => Ret None
  | Some v => d ← object v; m ← text_at "method" d; r ← int_at "reproduce" d;
              x ← Case.check_verification (mkCaseVerification m r); Ret (Some x)
  end.

Definition enum_of {A} `{StrEnum A} (name s : string) : outcome A :=
  unwrap (of_value s) (ValueError (PyStr.repr s +:+ " is not a valid " +:+ name)).

Definition to_case (r : CoreCase) : outcome CaseDefinition :=
  v ← verification_of (cc_verification r);
  k ← enum_of "RiskClass" (cc_risk r);
  steps ← mapM_outcome step_of (cc_steps r);
  asserts ← mapM_outcome assertion_of (cc_assertions r);
  o ← enum_of "CaseOrigin" (cc_origin r);
  s ← enum_of "CaseStatus" (cc_status r);
  Case.check_case (mkCase (cc_id r) (cc_version r) (cc_author r) k (cc_target_type r) (cc_schema r) steps (cc_preconditions r) asserts
    (cc_evidence_req r) (cc_cwe r) (cc_cve r) (cc_owasp r) v (cc_signature r) (cc_min_engine_version r) o s (cc_yaml r)).

Definition step_json (s : CaseStep) : json := JObj [("id", JStr (cs_id s)); ("action", JStr (cs_action s)); ("spec", JObj (spec s))].
Definition assertion_json (a : CaseAssertion) : json := JObj [("id", JStr (as_id a)); ("expression", JStr (expression a))].
Definition verification_json (v : CaseVerification) : json := JObj [("method", JStr (cv_method v)); ("reproduce", JInt (reproduce v))].
Definition from_case (c : CaseDefinition) : CoreCase :=
  mkCaseRow (case_id c) (version c) (author c) (value (case_risk c)) (target_type c) (schema c) (value (case_status c)) (value (origin c))
    (case_signature c) (min_engine_version c) (step_json <$> case_steps c) (preconditions c) (assertion_json <$> assertions c)
    (evidence_req c) (case_cwe c) (case_cve c) (case_owasp c) (verification_json <$> case_verification c) (yaml c).

Definition put (c : CaseDefinition) : M (gmap string CoreCase) unit := modify (<[case_id c := from_case c]>).
Definition get (i : string) (t : gmap string CoreCase) : outcome (option CaseDefinition) :=
  match t !! i with Some r => c ← to_case r; Ret (Some c) | None => Ret None end.
(** [order_by(CoreCase.id)] *)
Definition list_all (t : gmap string CoreCase) : outcome (list CaseDefinition) :=
  mapM_outcome to_case (omap (fun k => t !! k) (PyStr.sorted (elements (dom t)))).

Lemma nonempty_of s n : s <> "" -> Case.nonempty s n = Ret tt.
Proof. apply Case.nonempty_Ret. Qed.

(** Reads the fields of an object that is written out. *)
Ltac read_fields :=
  cbn [object mbind outcome_bind];
  repeat match goal with
         | |- context [text_at ?k ?d] => let v := eval cbv in (text_at k d) in change (text_at k d) with v
         | |- context [int_at ?k ?d] => let v := eval cbv in (int_at k d) in change (int_at k d) with v
         | |- context [at_key ?k ?d] => let v := eval cbv in (at_key k d) in change (at_key k d) with v
         end;
  cbn [object mbind outcome_bind].

Lemma case_step_reads_back s : CaseYaml.step_ok s -> step_of (step_json s) = Ret s.
Proof.
  intros [H1 H2]. destruct s as [i a p]. cbn in *. unfold step_of, Case.check_step. read_fields. cbn [cs_id cs_action].
  by rewrite !nonempty_of.
Qed.
Lemma assertion_reads_back a : CaseYaml.assertion_ok a -> assertion_of (assertion_json a) = Ret a.
Proof.
  intros [H1 H2]. destruct a as [i e]. cbn in *. unfold assertion_of, Case.check_assertion. read_fields. cbn [as_id expression].
  by rewrite !nonempty_of.
Qed.
Lemma verification_reads_back o : (forall v, o = Some v -> CaseYaml.verification_ok v) -> verification_of (verification_json <$> o) = Ret o.
Proof.
  destruct o as [[m r]|]; [|done]. intros H. destruct (H _ eq_refl) as [H1 H2]. cbn in H1, H2.
  unfold verification_of, Case.check_verification. cbn [fmap option_fmap option_map]. unfold verification_json. read_fields.
  cbn [cv_method reproduce]. rewrite nonempty_of by done. cbn [mbind outcome_bind]. by rewrite (proj2 (Z.ltb_ge r 1) H2).
Qed.
Lemma enum_reads_back {A} `{StrEnum A} n (a : A) : enum_of n (value a) = Ret a.
Proof. unfold enum_of. by rewrite of_value_value. Qed.

Lemma all_read_back {A B} (f : A -> B) (g : B -> outcome A) (P : A -> Prop) l :
  (forall a, P a -> g (f a) = Ret a) -> Forall P l -> mapM_outcome g (f <$> l) = Ret l.
Proof. intros H Hl. apply mapM_outcome_Ret. rewrite Forall2_fmap_l. apply Forall_Forall2_diag. by eapply Forall_impl. Qed.

(** A case that its constructors accept is read from its row as it was. *)
Lemma case_reads_back c : CaseYaml.case_ok c -> to_case (from_case c) = Ret c.
Proof.
  intros [Ht [Hne Hs] Ha Hv]. unfold to_case, from_case. cbn [cc_verification cc_risk cc_steps cc_assertions cc_origin cc_status].
  rewrite verification_reads_back by done. rewrite enum_reads_back.
  cbn [mbind outcome_bind]. rewrite (all_read_back _ _ _ _ case_step_reads_back Hs). cbn [mbind outcome_bind].
  rewrite (all_read_back _ _ _ _ assertion_reads_back Ha). cbn [mbind outcome_bind]. rewrite !enum_reads_back. cbn [mbind outcome_bind].
  destruct c. cbn in *. decompose_Forall_hyps. unfold Case.check_case. cbn -[Case.nonempty]. rewrite !nonempty_of by done. cbn.
  by rewrite bool_decide_false.
Qed.
End CaseRows.

(** ** Requests *)
Record CaseCreate : Type := mkCaseCreate {
  in_id : string;
  in_version : string;
  in_author : string;
  in_risk : string;
  in_target_type : string;
  in_schema : string;
  in_steps : list (string * string * list (string * json));
  in_cwe : list string;
  in_cve : list string;
  in_owasp : list string;
  in_origin : string;
  in_yaml : string
}.

Record CaseAnalysisOut : Type := mkAnalysis {
  an_case_id : string;
  an_declared_risk : RiskClass;
  an_computed_risk : option RiskClass;
  an_denied : bool;
  an_risk_ok : bool;
  an_schema_ok : bool;
  an_errors : list string;
  an_llm_risk : option string
}.

(** [replace(case, yaml=..)] *)
Definition with_yaml (y : string) (c : CaseDefinition) : CaseDefinition :=
  let 'mkCase a b d e f g h i j k l m n o p q r s _ := c in mkCase a b d e f g h i j k l m n o p q r s y.

Module CaseApi.
Import CaseService.
Notation Registry := (gmap string CaseDefinition).

(** The transaction of a request. *)
Definition request {A} (m : M Registry A) : M Registry A := fun r =>
  match m r with (Ret a, r') => (Ret a, r') | (Raise e, _) => (Raise e, r) end.

(** [_execute] *)
Definition execute_status (e : exn) : option Z :=
  match e with
  | CaseNotFoundError _ => Some 404
  | CasePermissionError _ => Some 403
  | CaseTransitionError _ => Some 409
  | e => if is_domain_error e then Some 422 else None
  end.
Definition execute {A} (m : M Registry A) : M Registry A := fun r =>
  match m r with
  | (Raise e, r') => (match execute_status e with Some n => Raise (HTTPException n (message e)) | None => Raise e end, r')
  | ok => ok
  end.

Definition case_of (p : CaseCreate) : outcome CaseDefinition :=
  k ← CaseRows.enum_of "RiskClass" (in_risk p);
  steps ← mapM_outcome (fun s => Case.check_step (mkCaseStep s.1.1 s.1.2 s.2)) (in_steps p);
  o ← CaseRows.enum_of "CaseOrigin" (in_origin p);
  Case.check_case (mkCase (in_id p) (in_version p) (in_author p) k (in_target_type p) (in_schema p) steps [] [] [] (in_cwe p) (in_cve p)
    (in_owasp p) None "" "1.0.0" o CaseStatus.DRAFT (in_yaml p)).
Definition case_in (p : CaseCreate) : outcome CaseDefinition :=
  match case_of p with
  | Raise e => if is_value_error e then Raise (HTTPException 422 ("invalid field: " +:+ message e)) else Raise e
  | ok => ok
  end.

Definition create_case (p : CaseCreate) : M Registry CaseDefinition :=
  request (c ← lift (case_in p); execute (create_draft c)).
Definition get_case (i : string) : M Registry CaseDefinition := request (execute (get i)).

Definition editable (c : CaseDefinition) : bool := bool_decide (case_status c ∈ [CaseStatus.DRAFT; CaseStatus.VALIDATED]).
Definition update_case_yaml (i text : string) : M Registry CaseDefinition :=
  request
    (o ← gets (lookup i);
     c ← lift (unwrap o (HTTPException 404 "case not found"));
     lift (raise_if (negb (editable c))
       (HTTPException 409 ("cannot edit a " +:+ value (case_status c) +:+ " case (signed/published cases are immutable)")));;
     updated ← lift (Case.check_case (with_yaml text c));
     put updated;;
     mret updated).

Definition validate_case (i : string) : M Registry CaseDefinition := request (execute (validate i)).
Definition review_case (i role : string) : M Registry CaseDefinition := request (execute (review i role)).
(** [signer] is what [signing_keys.signer_for(key_id)] answers. *)
Definition sign_case (i role : string) (signer : outcome (string -> string)) : M Registry CaseDefinition :=
  request
    (sg ← lift (match signer with Raise (SigningKeyNotFound msg) => Raise (HTTPException 404 msg) | o => o end);
     execute (sign i sg role)).
Definition publish_case (i role : string) : M Registry CaseDefinition := request (execute (publish i role)).

(** *** The analysis *)
Section analysis.
(** [gateway.call(prompt, classification=INTERNAL)] *)
Context (gateway_call : string -> outcome string).

Definition RISK_KEYWORDS : list string := ["destructive"; "intrusive"; "active"; "low"; "passive"].
Definition risk_prompt (c : CaseDefinition) : string :=
  "You assist a security engineer. For this test case, suggest a risk tier "
  +:+ "from {passive, low, active, intrusive, destructive}. Reply with ONLY the "
  +:+ "tier word." +:+ String "010" "" +:+ "Case: " +:+ case_id c +:+ "; steps: " +:+ PyStr.join ", " (cs_action <$> case_steps c).
Definition llm_suggest_risk (c : CaseDefinition) : outcome (option string) :=
  match gateway_call (risk_prompt c) with
  | Raise e => if is_domain_error e then Ret None else Raise e
  | Ret text => Ret (List.find (fun k => PyStr.contains (PyStr.lower text) k) RISK_KEYWORDS)
  end.

Definition analyze_case (i : string) (use_llm : bool) (r : Registry) : outcome CaseAnalysisOut :=
  c ← unwrap (r !! i) (HTTPException 404 "case not found");
  let computed := Risk.compute_risk c in
  let denied := match computed with None => true | _ => false end in
  let risk_ok := match computed with Some k => Risk.risk_rank k <=? Risk.risk_rank (case_risk c) | None => false end in
  let errors := match computed with
                | None => ["deny-listed pattern present (shell / unbounded loop / out-of-scope)"]
                | Some k => if risk_ok then [] else ["declared risk " +:+ value (case_risk c) +:+ " is below computed risk " +:+ value k]
                end in
  llm ← (if use_llm then llm_suggest_risk c else Ret None);
  Ret (mkAnalysis (case_id c) (case_risk c) computed denied risk_ok (negb (bool_decide (case_steps c = [])) && negb denied) errors llm).
End analysis.

(** ** Any sequence of requests *)
Inductive req : Type :=
| CreateReq (p : CaseCreate)
| EditReq (i text : string)
| ValidateReq (i : string)
| ReviewReq (i role : string)
| SignReq (i role : string) (signer : outcome (string -> string))
| PublishReq (i role : string).

Definition serve (q : req) : M Registry CaseDefinition :=
  match q with
  | CreateReq p => create_case p
  | EditReq i text => update_case_yaml i text
  | ValidateReq i => validate_case i
  | ReviewReq i role => review_case i role
  | SignReq i role signer => sign_case i role signer
  | PublishReq i role => publish_case i role
  end.
Definition serve_all (qs : list req) (r : Registry) : Registry := foldl (fun r q => (serve q r).2) r qs.

(** The call of the service behind a request; the source text is left out. *)
Definition no_yaml : CaseDefinition -> CaseDefinition := with_yaml "".
Definition calls_of (q : req) : list op :=
  match q with
  | CreateReq p => match case_in p with Ret c => [Draft (no_yaml c)] | Raise _ => [] end
  | EditReq _ _ => []
  | ValidateReq i => [Validate i]
  | ReviewReq i role => [Review i role]
  | SignReq i role signer => match signer with Ret sg => [Sign i sg role] | Raise _ => [] end
  | PublishReq i role => [Publish i role]
  end.

(** *** Text and content *)
Definition blind (x : outcome CaseDefinition * Registry) : outcome CaseDefinition * Registry := (no_yaml <$> x.1, no_yaml <$> x.2).

Lemma check_case_yaml y c : Case.check_case (with_yaml y c) = with_yaml y <$> Case.check_case c.
Proof.
  destruct c. unfold Case.check_case. cbn [with_yaml Cases.case_id Cases.version Cases.author Cases.target_type Cases.schema Cases.case_steps].
  repeat match goal with |- context [Case.nonempty ?a ?b] => destruct (Case.nonempty a b) end; by destruct (raise_if _ _).
Qed.

Lemma transition_blind c to r : transition (no_yaml c) to (no_yaml <$> r) = blind (transition c to r).
Proof.
  unfold transition, lift, put, modify, mbind, M_bind.
  assert (check_transition (no_yaml c) to = check_transition c to) as -> by by destruct c.
  destruct (check_transition c to); [|done].
  assert (with_status to (no_yaml c) = no_yaml (with_status to c)) as -> by by destruct c.
  unfold no_yaml at 1. rewrite check_case_yaml. destruct (Case.check_case (with_status to c)) as [d|] eqn:E; [|done].
  unfold blind. cbn. f_equal. rewrite fmap_insert. f_equal. by destruct d.
Qed.

Lemma get_blind i r : get i (no_yaml <$> r) = blind (get i r).
Proof. unfold get, gets, lift, mbind, M_bind. rewrite lookup_fmap. by destruct (r !! i). Qed.

Lemma bind_blind (m m' : M Registry CaseDefinition) (f f' : CaseDefinition -> M Registry CaseDefinition) r :
  m' (no_yaml <$> r) = blind (m r) -> (forall c r, f' (no_yaml c) (no_yaml <$> r) = blind (f c r)) ->
  (m' ≫= f') (no_yaml <$> r) = blind ((m ≫= f) r).
Proof. intros Hm Hf. unfold mbind, M_bind. rewrite Hm. destruct (m r) as [[c|e] r']; [apply Hf|done]. Qed.
Lemma lift_blind {A} (o : outcome A) (f f' : A -> M Registry CaseDefinition) r :
  (forall a, f' a (no_yaml <$> r) = blind (f a r)) -> (lift o ≫= f') (no_yaml <$> r) = blind ((lift o ≫= f) r).
Proof. intros H. unfold lift, mbind, M_bind. by destruct o. Qed.

Lemma call_blind o r :
  call (match o with Draft c => Draft (no_yaml c) | o => o end) (no_yaml <$> r) = blind (call o r).
Proof.
  destruct o as [c|i|i role|i sg role|i role|i]; cbn [call].
  - unfold create_draft. assert (with_status CaseStatus.DRAFT (no_yaml c) = no_yaml (with_status CaseStatus.DRAFT c)) as -> by by destruct c.
    unfold no_yaml at 1. rewrite check_case_yaml. unfold lift, put, modify, mbind, M_bind.
    destruct (Case.check_case _) as [d|]; [|done]. unfold blind. cbn. f_equal. rewrite fmap_insert. f_equal. by destruct d.
  - apply bind_blind; [apply get_blind|]. intros c r'. assert (Risk.validate_declared_risk (no_yaml c) = Risk.validate_declared_risk c) as -> by by destruct c.
    apply lift_blind. intros _. apply transition_blind.
  - apply lift_blind. intros _. apply bind_blind; [apply get_blind|]. intros c r'. apply transition_blind.
  - apply lift_blind. intros _. apply bind_blind; [apply get_blind|]. intros c r'.
    assert (check_transition (no_yaml c) CaseStatus.SIGNED = check_transition c CaseStatus.SIGNED) as -> by by destruct c.
    apply lift_blind. intros _. assert (signing_payload (no_yaml c) = signing_payload c) as -> by by destruct c.
    set (g := sg _). assert (with_signature g (with_status CaseStatus.SIGNED (no_yaml c)) = no_yaml (with_signature g (with_status CaseStatus.SIGNED c))) as -> by by destruct c.
    unfold no_yaml at 1. rewrite check_case_yaml. unfold lift, put, modify, mbind, M_bind.
    destruct (Case.check_case _) as [d|]; [|done]. unfold blind. cbn. f_equal. rewrite fmap_insert. f_equal. by destruct d.
  - apply lift_blind. intros _. apply bind_blind; [apply get_blind|]. intros c r'. apply transition_blind.
  - apply bind_blind; [apply get_blind|]. intros c r'. assert (origin (no_yaml c) = origin c) as -> by by destruct c.
    apply lift_blind. intros _. assert (Risk.validate_declared_risk (no_yaml c) = Risk.validate_declared_risk c) as -> by by destruct c.
    apply lift_blind. intros _. apply bind_blind; [apply transition_blind|]. intros v r2.
    assert (case_risk (no_yaml c) = case_risk c) as -> by by destruct c. destruct (bool_decide _); [apply transition_blind|done].
Qed.

Lemma served_call o r : (request (execute (call o)) r).2 = (call o r).2.
Proof.
  unfold request, execute. destruct (call o r) as [[c|e] r'] eqn:E; [done|]. apply refused_call_changes_nothing in E as ->.
  by destruct (execute_status e).
Qed.

(** The registry holds each case under its identifier. *)
Definition keyed (r : Registry) : Prop := map_Forall (fun i c => case_id c = i) r.

Lemma edit_cases i text r :
  (exists e, update_case_yaml i text r = (Raise e, r))
  \/ exists c, r !! i = Some c /\ editable c = true /\ update_case_yaml i text r = (Ret (with_yaml text c), <[case_id c := with_yaml text c]> r).
Proof.
  unfold update_case_yaml, request, gets, lift, put, modify, mbind, M_bind. destruct (r !! i) as [c|] eqn:E; cbn; [|left; eauto].
  destruct (editable c) eqn:Ed; cbn; [|left; eauto].
  rewrite check_case_yaml. destruct (Case.check_case c) as [d|] eqn:Ec; cbn; [|left; eauto]. apply check_case_id in Ec as ->. right. exists c.
  split_and!; [done..|]. by destruct c.
Qed.

Lemma serve_blind q r : keyed r -> no_yaml <$> (serve q r).2 = run_all (calls_of q) (no_yaml <$> r).
Proof.
  intros Hk. assert (Hc : forall o, no_yaml <$> (request (execute (call o)) r).2
    = (call (match o with Draft c => Draft (no_yaml c) | o => o end) (no_yaml <$> r)).2).
  { intros o. by rewrite served_call, call_blind. }
  destruct q as [p|i text|i|i role|i role signer|i role]; cbn [serve calls_of].
  - unfold create_case. destruct (case_in p) as [c|e] eqn:E; [|done]. apply (Hc (Draft c)).
  - destruct (edit_cases i text r) as [[e ->]|(c & Hi & _ & ->)]; [done|]. cbn. rewrite fmap_insert, (Hk _ _ Hi).
    apply insert_id. rewrite lookup_fmap, Hi. cbn. by destruct c.
  - apply (Hc (Validate i)).
  - apply (Hc (Review i role)).
  - unfold sign_case. destruct signer as [sg|e]; [apply (Hc (Sign i sg role))|by destruct e].
  - apply (Hc (Publish i role)).
Qed.

(** published cases were vetted over HTTP too. Whatever requests were made, in
    whatever order, starting from an empty library: each stored case has, apart
    from its source text, the content of the last draft accepted under its
    identifier, and the milestones of its status, with the service calls behind
    the requests. *)
Theorem served_cases_were_vetted qs i c :
  serve_all qs ∅ !! i = Some c -> vetted (qs ≫= calls_of) i (no_yaml c).
Proof.
  assert (H : no_yaml <$> serve_all qs ∅ = run_all (qs ≫= calls_of) ∅ /\ keyed (serve_all qs ∅)).
  { assert (Hkey : forall r ops, no_yaml <$> r = run_all ops ∅ -> keyed r).
    { intros r ops E k d Hd. assert (H : (no_yaml <$> r) !! k = Some (no_yaml d)) by by rewrite lookup_fmap, Hd. rewrite E in H.
      destruct (vetted_run _ _ _ H) as (_ & _ & _ & _ & _ & Hid & _). by destruct d. }
    enough (E : no_yaml <$> serve_all qs ∅ = run_all (qs ≫= calls_of) ∅) by (split; [done|by eapply Hkey]).
    induction qs as [|q qs IH] using rev_ind; [apply fmap_empty|].
    unfold serve_all. rewrite foldl_snoc. fold (serve_all qs ∅). rewrite serve_blind by (by eapply Hkey). rewrite IH.
    rewrite bind_app. unfold run_all. rewrite foldl_app. cbn. by rewrite app_nil_r. }
  destruct H as [E _]. intros Hc. apply (vetted_run (qs ≫= calls_of) i). rewrite <- E, lookup_fmap, Hc. done.
Qed.

(** a reviewed case is immutable. A request changes neither the text nor the
    steps nor any other content of a case that is past validation, unless it
    creates a draft under the same identifier. *)
Theorem reviewed_case_is_frozen q r i c d :
  keyed r -> r !! i = Some c -> editable c = false -> (serve q r).2 !! i = Some d ->
  content d = content c \/ exists p c0, q = CreateReq p /\ case_in p = Ret c0 /\ case_id c0 = i.
Proof.
  intros Hk Hc He.
  assert (Hm : forall o, (forall x, o <> Draft x) -> (request (execute (call o)) r).2 !! i = Some d -> content d = content c).
  { intros o Hd. rewrite served_call. destruct (call_cases o r) as [[e ->]|[(x & y & -> & _)|(x & s & g & y & Hx & _ & ->)]]; cbn.
    - rewrite Hc. by intros [= <-].
    - by destruct (Hd x).
    - rewrite lookup_insert_Some. intros [[Hi <-]|[_ H]]; [|rewrite Hc in H; by injection H as <-].
      rewrite (Hk _ _ Hx) in Hi. subst i. rewrite Hc in Hx. injection Hx as <-. by destruct c. }
  destruct q as [p|j text|j|j role|j role signer|j role]; cbn [serve].
  - unfold create_case. destruct (case_in p) as [c0|e] eqn:E; [|change (request _ r).2 with r; rewrite Hc; by intros [= <-]; left].
    destruct (decide (case_id c0 = i)) as [Hi|Hi]; [intros _; right; by exists p, c0|].
    intros H. left. change (request _ r) with (request (execute (call (Draft c0))) r) in H. rewrite served_call in H.
    destruct (call_cases (Draft c0) r) as [[x Ex]|[(x & y & [= <-] & Ex)|(x & s & g & y & _ & [] & _)]]; rewrite Ex in H; cbn in H.
    + rewrite Hc in H. by injection H as <-.
    + rewrite lookup_insert_ne in H by done. rewrite Hc in H. by injection H as <-.
  - destruct (edit_cases j text r) as [[e ->]|(x & Hj & Hx & ->)]; cbn; [rewrite Hc; by intros [= <-]; left|].
    rewrite lookup_insert_Some. rewrite (Hk _ _ Hj). intros [[-> _]|[_ H]]; [congruence|]. rewrite Hc in H. injection H as <-. by left.
  - intros H. left. by apply (Hm (Validate j)).
  - intros H. left. by apply (Hm (Review j role)).
  - unfold sign_case. destruct signer as [sg|e]; [intros H; left; by apply (Hm (Sign j sg role))|].
    intros H. left. assert (Some c = Some d) as [= <-] by (rewrite <- Hc, <- H; by destruct e). done.
  - intros H. left. by apply (Hm (Publish j role)).
Qed.
End CaseApi.

(** ** Examples *)
Module CaseApiDemo.
Import CaseService CaseApi.

Definition demo_payload (text : string) : CaseCreate :=
  mkCaseCreate "c1" "1" "ana" "active" "web" "s1" [("a", "http.request", [("method", JStr "POST")])] [] [] [] "manual" text.
Definition demo_signer (m : string) : string := "sig:" +:+ m.
Definition demo_requests : list req :=
  [CreateReq (demo_payload "steps: [post]"); ValidateReq "c1"; EditReq "c1" "steps: [shell]"; ReviewReq "c1" "human";
   SignReq "c1" "human" (Ret demo_signer); PublishReq "c1" "human"].
Definition shown (qs : list req) : option (CaseStatus * string * list string) :=
  (fun c => (case_status c, yaml c, cs_action <$> case_steps c)) <$> serve_all qs ∅ !! "c1".

(** A text edited after validation is published unread: it is not parsed, the
    steps stay those of the first request, and the case keeps its status. *)
Example edited_text_is_not_the_case :
  shown demo_requests = Some (CaseStatus.PUBLISHED, "steps: [shell]", ["http.request"]).
Proof. vm_compute. done. Qed.

(** After the review a text is refused, and so is an agent's review. *)
Example edits_stop_at_the_review :
  is_Ret (serve (EditReq "c1" "x") (serve_all demo_requests ∅)).1 = false
  /\ shown (take 3 demo_requests ++ [ReviewReq "c1" "agent"]) = Some (CaseStatus.VALIDATED, "steps: [shell]", ["http.request"]).
Proof. vm_compute. done. Qed.

(** Creating a case again withdraws the published one. *)
Example creation_replaces_a_published_case :
  shown (demo_requests ++ [CreateReq (demo_payload "new")]) = Some (CaseStatus.DRAFT, "new", ["http.request"]).
Proof. vm_compute. done. Qed.

(** The suggestion is the first word of the list the answer mentions. *)
Example suggestion_ignores_a_denial :
  (an_llm_risk <$> analyze_case (fun _ => Ret "low, it is not destructive") "c1" true (serve_all demo_requests ∅)) = Ret (Some "destructive").
Proof. vm_compute. done. Qed.
End CaseApiDemo.
