(* ===== verification/LogicStrategies.v ===== *)
(** * The strategies that compute with numbers

    Models [src/secopent/infrastructure/logic_strategies/
    schemathesis_strategy.py] (Module [Boundary]) and [invariant_strategy.py]
    (Module [Violation]): two strategies of the generator of [LogicTests].
    Integers are exact; adding to a float, its truncation and the double nearest
    to a decimal text are parameters, and results are finite.  [\w], [\d] and
    [\s] are taken as ASCII. *)
From S2P Require Import Prelude PyStr PyFloat Sha256 Canonical PyJson PyText Policy Cases Catalog AppModels LogicTests.

#[local] Open Scope Z_scope.

(** A case with its signature. *)
Definition versioned_case (v : string) (m : AppModel) (cls : LogicTestClass) (target description : string) (inputs : list (string * json))
    : outcome LogicTestCase :=
  Logic.check_logic (mkLogic cls (am_digest m) target description inputs (Logic.compute_signature (am_digest m) cls v target)).

Lemma versioned_case_Ret v m cls tgt d i c : versioned_case v m cls tgt d i = Ret c ->
  c = mkLogic cls (am_digest m) tgt d i (Logic.compute_signature (am_digest m) cls v tgt).
Proof. unfold versioned_case, Logic.check_logic. intros H. by inv_ret. Qed.

Lemma versioned_cases_signed {A} (s : Strategy) (f : A -> outcome LogicTestCase) m l cs :
  (forall a c, f a = Ret c -> exists cls tgt d i, versioned_case (strategy_version s) m cls tgt d i = Ret c) ->
  mapM_outcome f l = Ret cs -> Forall (signed_for s m) cs.
Proof.
  intros Hf H%mapM_outcome_Ret. induction H as [|a c l cs Ha _ IH]; constructor; [|done].
  destruct (Hf _ _ Ha) as (cls & tgt & d & i & ->%versioned_case_Ret). done.
Qed.

Definition is_int (f : Field) : bool := bool_decide (PyStr.lower (fl_type f) = "int").

Section floats.
(** [x + n], [int(x)], [x.is_integer()], and [float(text)]. *)
Context (add : PyFloat.lit -> Z -> PyFloat.lit) (trunc : PyFloat.lit -> Z) (is_integer : PyFloat.lit -> bool).
Context (float_of : string -> PyFloat.lit).

(** ** [SchemathesisStrategy] *)
Definition moved (f : Field) (d : Z) (bound : json) : option json :=
  match bound with
  | JInt n => Some (JInt (n + d))
  | JFloat x => Some (if is_int f then JInt (trunc (add x d)) else JFloat (add x d))
  | _ => None
  end.

Definition probe (label : string) (o : option json) : list (string * json) := match o with Some v => [(label, v)] | None => [] end.
Definition boundary_values (f : Field) : list (string * json) :=
  match fl_range f with
  | Some [low; high] => probe "below_low" (moved f (-1) low) ++ probe "above_high" (moved f 1 high)
  | _ => []
  end.

(** [str] of a range, a tuple. *)
Definition range_str (f : Field) : string :=
  match fl_range f with
  | Some [x] => "(" +:+ py_repr x +:+ ",)"
  | Some l => "(" +:+ PyStr.join ", " (py_repr <$> l) +:+ ")"
  | None => "None"
  end.

Definition SCHEMATHESIS_VERSION : string := "1.0.0".
Definition probe_case (m : AppModel) (p : Field * (string * json)) : outcome LogicTestCase :=
  let '(f, (label, v)) := p in
  versioned_case SCHEMATHESIS_VERSION m LogicTestClass.BOUNDARY (fl_name f +:+ ":" +:+ label)
    ("boundary probe " +:+ fl_name f +:+ "=" +:+ py_str v +:+ " (" +:+ label +:+ ") " +:+ "outside range " +:+ range_str f) [(fl_name f, v)].
Definition probes (m : AppModel) : list (Field * (string * json)) := f ← fields m; pair f <$> boundary_values f.
Definition schemathesis : Strategy := mkStrategy SCHEMATHESIS_VERSION (fun m => mapM_outcome (probe_case m) (probes m)).

#[export] Instance schemathesis_lawful : LawfulStrategy schemathesis.
Proof. intros m cs. apply versioned_cases_signed. intros [f [l v]] c H. by repeat eexists. Qed.

(** ** [InvariantStrategy] *)
Definition is_word (c : ascii) : bool := PyStr.is_alnum c || Ascii.eqb c "_" || Ascii.eqb c ".".

(** The longest prefix of such characters, and the rest. *)
Fixpoint span (p : ascii -> bool) (s : string) : string * string :=
  match s with
  | String c r => if p c then let '(a, b) := span p r in (String c a, b) else ("", s)
  | EmptyString => ("", "")
  end.
Definition skip_space (s : string) : string := (span PyStr.is_space s).2.

(** [>=|<=|==|>|<] *)
Definition operator (s : string) : option (string * string) :=
  List.find (fun x => PyStr.startswith s x.1) ((fun o => (o, PyStr.removeprefix s o)) <$> [">="; "<="; "=="; ">"; "<"]).

(** [-?\d+(?:\.\d+)?], with what follows. *)
Definition number (s : string) : option (string * string) :=
  let '(sign, s1) := match s with String c r => if Ascii.eqb c "-" then ("-", r) else ("", s) | EmptyString => ("", s) end in
  let '(ip, s2) := span PyStr.is_digit s1 in
  if PyStr.is_empty ip then None
  else match s2 with
       | String c r =>
           let '(fp, s3) := span PyStr.is_digit r in
           if Ascii.eqb c "." && negb (PyStr.is_empty fp) then Some (sign +:+ ip +:+ "." +:+ fp, s3) else Some (sign +:+ ip, s2)
       | EmptyString => Some (sign +:+ ip, s2)
       end.

(** [_INVARIANT_RE]: the groups of a match. *)
Definition parse_invariant (expr : string) : option (string * string * string) :=
  let '(lhs, r) := span is_word (skip_space expr) in
  if PyStr.is_empty lhs then None
  else '(op, r) ← operator (skip_space r);
       '(num, r) ← number (skip_space r);
       if PyStr.is_empty (skip_space r) then Some (lhs, op, num) else None.

Definition num_value (f : option Field) (x : PyFloat.lit) : json :=
  if match f with Some f => is_int f | None => false end && is_integer x then JInt (trunc x) else JFloat x.
Definition violating_value (op : string) (bound : PyFloat.lit) (f : option Field) : json :=
  num_value f (if bool_decide (op = ">=") then add bound (-1) else if bool_decide (op = ">") then bound
               else if bool_decide (op = "<=") then add bound 1 else if bool_decide (op = "<") then bound
               else if bool_decide (op = "==") then add bound 1 else bound).

(** [{field.name: field for field in ..}.get(name)] *)
Definition field_named (m : AppModel) (name : string) : option Field :=
  foldl (fun o f => if bool_decide (fl_name f = name) then Some f else o) None (fields m).

Definition INVARIANT_VERSION : string := "1.0.0".
Definition last_part (lhs : string) : string := let '(_, _, r) := PyStr.rpartition "." lhs in r.
Definition violation_case (m : AppModel) (p : Invariant * (string * string * string)) : outcome LogicTestCase :=
  let '(i, (lhs, op, num)) := p in
  let name := last_part lhs in
  let v := violating_value op (float_of num) (field_named m name) in
  versioned_case INVARIANT_VERSION m LogicTestClass.INVARIANT_VIOLATION (inv_id i)
    ("violate invariant " +:+ inv_id i +:+ " (" +:+ inv_expr i +:+ "): " +:+ "set " +:+ name +:+ "=" +:+ py_str v) [(name, v)].
Definition violable (m : AppModel) : list (Invariant * (string * string * string)) :=
  omap (fun i => pair i <$> parse_invariant (inv_expr i)) (invariants m).
Definition invariant_strategy : Strategy := mkStrategy INVARIANT_VERSION (fun m => mapM_outcome (violation_case m) (violable m)).

#[export] Instance invariant_lawful : LawfulStrategy invariant_strategy.
Proof. intros m cs. apply versioned_cases_signed. intros [i [[lhs op] num]] c H. by repeat eexists. Qed.

(** ** What the cases try *)

(** an integer probe lies outside its range. Every boundary case sets one field
    of the model, and if the range of that field is one of integers, to an
    integer outside it. *)
Theorem probes_leave_the_range m cs c :
  strategy_generate schemathesis m = Ret cs -> c ∈ cs ->
  exists f v, f ∈ fields m /\ lt_class c = LogicTestClass.BOUNDARY /\ lt_inputs c = [(fl_name f, v)]
    /\ forall lo hi, fl_range f = Some [JInt lo; JInt hi] -> lo <= hi -> exists n, v = JInt n /\ ~ (lo <= n <= hi).
Proof.
  intros H%mapM_outcome_Ret (i & Hi)%list_elem_of_lookup. destruct (Forall2_lookup_r _ _ _ _ _ H Hi) as ([f [l v]] & Hp & Hc).
  apply versioned_case_Ret in Hc as ->. apply list_elem_of_lookup_2 in Hp. unfold probes in Hp.
  apply list_elem_of_bind in Hp as (f' & (lv & [= <- <-] & Hv)%list_elem_of_fmap & Hf). exists f, v. split_and!; [done..|].
  intros lo hi Hr Hle. unfold boundary_values in Hv. rewrite Hr in Hv. cbn in Hv.
  apply elem_of_cons in Hv as [[= -> ->]|Hv]; [eexists; split; [done|lia]|].
  apply list_elem_of_singleton in Hv as [= -> ->]. eexists. split; [done|lia].
Qed.

Lemma span_app p a b : PyStr.forallb p a = true -> match b with String c _ => p c = false | EmptyString => True end ->
  span p (a +:+ b) = (a, b).
Proof.
  induction a as [|c a IH]; cbn [PyStr.forallb]; [intros _ Hb; destruct b as [|c b]; [done|]; change ("" +:+ String c b) with (String c b); cbn [span]; by rewrite Hb|].
  intros [Hc Ha]%andb_true_iff Hb. change (String c a +:+ b) with (String c (a +:+ b)). cbn [span]. by rewrite Hc, IH.
Qed.

Lemma skip_nothing s : match s with String c _ => PyStr.is_space c = false | EmptyString => True end -> skip_space s = s.
Proof. unfold skip_space. destruct s as [|c s]; [done|]. cbn [span]. by intros ->. Qed.

Lemma skip_one s : skip_space (" " +:+ s) = skip_space s.
Proof.
  unfold skip_space. change (" " +:+ s) with (String " " s). cbn [span]. change (PyStr.is_space " ") with true. cbn iota.
  by destruct (span PyStr.is_space s).
Qed.

Lemma word_not_space c : is_word c = true -> PyStr.is_space c = false.
Proof. destruct c as [[] [] [] [] [] [] [] []]; by vm_compute. Qed.

Definition OPERATORS : list string := [">="; "<="; "=="; ">"; "<"].

(** The invariants of the documented form are read. *)
Lemma parse_written lhs op num : lhs <> "" -> PyStr.forallb is_word lhs = true -> op ∈ OPERATORS -> number num = Some (num, "") ->
  parse_invariant (lhs +:+ " " +:+ op +:+ " " +:+ num) = Some (lhs, op, num).
Proof.
  intros Hne Hw Ho Hn. unfold parse_invariant.
  assert (Hh : match num with String c _ => PyStr.is_space c = false | EmptyString => True end).
  { destruct num as [|c num]; [done|]. unfold number in Hn. destruct (Ascii.eqb_spec c "-") as [->|_]; [done|].
    cbn [span] in Hn. destruct (PyStr.is_digit c) eqn:Ed; [|done]. apply word_not_space. unfold is_word, PyStr.is_alnum. by rewrite Ed. }
  rewrite (skip_nothing (lhs +:+ _)).
  2:{ destruct lhs as [|c lhs]; [done|]. cbn [PyStr.forallb] in Hw. apply andb_true_iff in Hw as [Hc _]. by apply word_not_space. }
  rewrite span_app by done. rewrite (proj2 (PyStr.is_empty_false lhs) Hne).
  rewrite skip_one.
  assert (Hop : operator (op +:+ " " +:+ num) = Some (op, " " +:+ num) /\ skip_space (op +:+ " " +:+ num) = op +:+ " " +:+ num).
  { unfold OPERATORS in Ho. by repeat (apply elem_of_cons in Ho as [->|Ho]; [done|]); apply elem_of_nil in Ho. }
  destruct Hop as [Hop ->]. rewrite Hop. cbn [mbind option_bind].
  rewrite skip_one, skip_nothing by done. by rewrite Hn.
Qed.

(** [n op k] of a read invariant. *)
Definition satisfies (n : Z) (op : string) (k : Z) : bool :=
  if bool_decide (op = ">=") then k <=? n else if bool_decide (op = ">") then k <? n
  else if bool_decide (op = "<=") then n <=? k else if bool_decide (op = "<") then n <? k else n =? k.

(** Decides the comparisons of operators that are written out. *)
Ltac decide_operators :=
  repeat match goal with |- context [bool_decide (?a = ?b)] =>
    let v := eval vm_compute in (bool_decide (a = b)) in change (bool_decide (a = b)) with v; cbn iota end.

(** an integer invariant is broken. If a model states an invariant
    "field op number" of an integer field and the number and its neighbours are
    exact integers as floats, the strategy has a case for it that sets the field
    to an integer that does not satisfy it. *)
Theorem violation_breaks_the_invariant m cs i lhs op num f k :
  strategy_generate invariant_strategy m = Ret cs -> i ∈ invariants m ->
  inv_expr i = lhs +:+ " " +:+ op +:+ " " +:+ num -> lhs <> "" -> PyStr.forallb is_word lhs = true -> op ∈ OPERATORS ->
  number num = Some (num, "") -> field_named m (last_part lhs) = Some f -> is_int f = true ->
  (forall d, d ∈ [0; 1; -1] -> let x := if d =? 0 then float_of num else add (float_of num) d in is_integer x = true /\ trunc x = k + d) ->
  exists c n, c ∈ cs /\ lt_class c = LogicTestClass.INVARIANT_VIOLATION /\ lt_target c = inv_id i
    /\ lt_inputs c = [(last_part lhs, JInt n)] /\ satisfies n op k = false.
Proof.
  intros H%mapM_outcome_Ret Hi He Hne Hw Ho Hn Hf Hint Hx.
  assert (Hv : (i, (lhs, op, num)) ∈ violable m).
  { apply list_elem_of_omap. exists i. split; [done|]. rewrite He, parse_written by done. done. }
  apply list_elem_of_lookup in Hv as [j Hj]. destruct (Forall2_lookup_l _ _ _ _ _ H Hj) as (c & Hc & E).
  apply list_elem_of_lookup_2 in Hc. apply versioned_case_Ret in E as ->.
  assert (Hval : exists n, violating_value op (float_of num) (field_named m (last_part lhs)) = JInt n /\ satisfies n op k = false).
  { rewrite Hf. unfold violating_value, num_value. rewrite Hint.
    destruct (Hx 0) as [I0 T0]; [set_solver|]. destruct (Hx 1) as [I1 T1]; [set_solver|]. destruct (Hx (-1)) as [I2 T2]; [set_solver|].
    cbn in I0, T0, I1, T1, I2, T2. unfold OPERATORS in Ho.
    repeat (apply elem_of_cons in Ho as [->|Ho]; [unfold satisfies; decide_operators; rewrite ?I0, ?I1, ?I2; eexists; (split; [reflexivity|]); rewrite ?T0, ?T1, ?T2; lia|]).
    by apply elem_of_nil in Ho. }
  destruct Hval as (n & Ev & Hs). eexists _, n. split_and!; [exact Hc|done|done| |done]. cbn. by rewrite Ev.
Qed.
End floats.

(** ** The three strategies of the router *)
Module LogicStrategiesDemo.

(** A float that is an integer, and its value. *)
Definition whole (n : Z) : PyFloat.lit :=
  let t := pretty n +:+ ".0" in
  match decide (PyFloat.lit_wf t = true) with left H => PyFloat.mkLit t H | right _ => PyFloat.mkLit "0.0" eq_refl end.
Definition value_of (x : PyFloat.lit) : Z := let '(m, e) := PyFloat.decimal x in Z.quot (m * 10 ^ Z.max 0 e) (10 ^ Z.max 0 (- e)).
Definition add_whole (x : PyFloat.lit) (n : Z) : PyFloat.lit := whole (value_of x + n).
Definition integral (x : PyFloat.lit) : bool := let '(m, e) := PyFloat.decimal x in Z.rem (m * 10 ^ Z.max 0 e) (10 ^ Z.max 0 (- e)) =? 0.
Definition read_whole (s : string) : PyFloat.lit := if PyStr.startswith s "-" then whole (- PyStr.digits_val 0 (PyStr.removeprefix s "-")) else whole (PyStr.digits_val 0 s).

(** [_GENERATOR] *)
Definition strategies : list Strategy :=
  [Restler.strategy; schemathesis add_whole value_of; invariant_strategy add_whole value_of integral read_whole].

Lemma strategies_are_lawful : forall s, s ∈ strategies -> LawfulStrategy s.
Proof.
  intros s. unfold strategies. rewrite !elem_of_cons, elem_of_nil. intros [->|[->|[->|[]]]];
    [apply Restler.restler_lawful|apply schemathesis_lawful|apply invariant_lawful].
Qed.

Definition demo_cases : list LogicTestCase := match LogicTestGenerator.generate strategies LogicTestGenerator.demo with Ret cs => cs | Raise _ => [] end.
Example all_strategies_on_the_demo :
  (fun c => (lt_class c, lt_inputs c)) <$> drop 3 demo_cases
  = [(LogicTestClass.BOUNDARY, [("total", JInt (-1))]); (LogicTestClass.BOUNDARY, [("total", JInt 101)]);
     (LogicTestClass.INVARIANT_VIOLATION, [("total", JInt (-1))])].
Proof. vm_compute. reflexivity. Qed.

(** The type of the field is looked up by the last part of the name: the type
    of a field of another object decides how the value is written. *)
Example field_is_found_by_its_last_part :
  is_Some (field_named LogicTestGenerator.demo (last_part "order.total")) /\ parse_invariant "order.total > 5" = Some ("order.total", ">", "5")
  /\ parse_invariant "total in range" = None.
Proof. vm_compute. split_and!; try done. by eexists. Qed.

Lemma violation_breaks_the_invariant_witness :
  exists c n, c ∈ demo_cases /\ lt_inputs c = [("total", JInt n)] /\ satisfies n ">=" 0 = false.
Proof.
  destruct (violation_breaks_the_invariant add_whole value_of integral read_whole LogicTestGenerator.demo (drop 5 demo_cases)
    (mkInvariant "i1" "cart.total >= 0") "cart.total" ">=" "0" (mkField "total" "int" (Some [JInt 0; JInt 100]) "client") 0)
    as (c & n & Hc & _ & _ & Hn & Hs).
  - vm_compute; reflexivity.
  - vm_compute. left.
  - reflexivity.
  - discriminate.
  - vm_compute; reflexivity.
  - unfold OPERATORS. left.
  - vm_compute; reflexivity.
  - vm_compute; reflexivity.
  - vm_compute; reflexivity.
  - intros d Hd. apply elem_of_cons in Hd as [->|Hd]; [vm_compute; split; reflexivity|].
    apply elem_of_cons in Hd as [->|Hd]; [vm_compute; split; reflexivity|].
    apply list_elem_of_singleton in Hd as ->. vm_compute; split; reflexivity.
  - exists c, n. split; [|split; assumption]. rewrite <- (take_drop 5 demo_cases). apply elem_of_app. right. exact Hc.
Defined.
End LogicStrategiesDemo.
