(* ===== verification/ModelSources.v ===== *)
(** * Where application models come from, and their routes

    Models [src/secopent/infrastructure/model_sources/] ([openapi.py] in Module
    [OpenApi], [postman.py] in Module [Postman], [traffic_record.py] in Module
    [Traffic]): the importers that are arguments of [AppModels.ModelBuilder],
    and the routes of [interfaces/api/routers/appmodels.py] over
    [AppModels.AppModelService] (Module [AppModelApi]; [generate_tests] is in
    [LogicTests]).  Documents are JSON with texts as keys; letters are lowered
    as ASCII.  The language model gateway, the gateway that drafts states and
    the answer of the key service are arguments. *)
From S2P Require Import Prelude PyStr PyFloat PyDict PyJson Canonical PyText JsonText Policy Cases Catalog AppModels LogicTests.

#[local] Open Scope Z_scope.

(** ** What the importers share *)
Module Sources.

(** [x if isinstance(x, Mapping) else {}] and the same for lists. *)
Definition mapping (o : option json) : list (string * json) := match o with Some (JObj d) => d | _ => [] end.
Definition listing (o : option json) : list json := match o with Some (JArr l) => l | _ => [] end.
(** [str(d.get(k, default))] *)
Definition text_or (k dflt : string) (d : list (string * json)) : string := py_str (default (JStr dflt) (field k d)).
(** [str(d.get(k) or default)] *)
Definition text_unless_falsy (k dflt : string) (d : list (string * json)) : string :=
  match field k d with Some v => if truthy_json v then py_str v else dflt | None => dflt end.

Fixpoint foldM_outcome {A S} (f : S -> A -> outcome S) (l : list A) (s : S) : outcome S :=
  match l with [] => Ret s | x :: r => s' ← f s x; foldM_outcome f r s' end.

Definition slug_char (c : ascii) : bool := PyStr.is_digit c || PyStr.is_lower c.
(** [re.sub(r"[^a-z0-9]+", "-", s)]; [gap] is set inside a run. *)
Fixpoint dashes (gap : bool) (s : string) : string :=
  match s with
  | EmptyString => EmptyString
  | String c r => if slug_char c then String c (dashes false r) else if gap then dashes true r else String "-" (dashes true r)
  end.
(** [_slug] *)
Definition slug (s : string) : string :=
  let t := PyStr.rstrip_char "-" (PyStr.lstrip_char "-" (dashes false (PyStr.lower (PyStr.strip s)))) in
  if PyStr.is_empty t then "app" else t.

Definition transition (i ep : string) (params : list string) : outcome Transition :=
  AppModels.check_transition (mkTransition i "default" "default" ep params false).
Definition draft (name version : string) (sts : list string) (ts : list Transition) (fs : list Field) (s : AppModelStatus) : outcome AppModel :=
  AppModels.make_model (mkModel (slug name) version sts ts [] fs [] [] [] s "" None).

(** An invariant of the steps; they all succeed. *)
Lemma fold_total {A S} (f : S -> A -> outcome S) (P : S -> Prop) l s :
  P s -> (forall s x, P s -> exists s', f s x = Ret s' /\ P s') -> exists s', foldM_outcome f l s = Ret s' /\ P s'.
Proof.
  intros Hs H. revert s Hs. induction l as [|x l IH]; intros s Hs; [by exists s|]. destruct (H s x Hs) as (s' & E & Hs').
  destruct (IH s' Hs') as (s'' & E' & Hs''). exists s''. cbn. by rewrite E.
Qed.

Lemma truthy_text v : truthy_json v = true -> py_str v <> "".
Proof.
  destruct v as [|[]|n|f|t|l|d]; cbn; try done.
  - intros _ E. destruct n as [|n|n]; [discriminate E| |discriminate E].
    destruct (PyText.pretty_nonneg (Z.pos n) ltac:(lia)) as [_ H]. rewrite E in H. by vm_compute in H.
  - intros _ E. pose proof (PyFloat.text_ok f) as H. rewrite E in H. by vm_compute in H.
  - intros H E. rewrite E in H. by vm_compute in H.
Qed.
Lemma text_unless_falsy_not_empty k dflt d : dflt <> "" -> text_unless_falsy k dflt d <> "".
Proof.
  intros H. unfold text_unless_falsy. destruct (field k d) as [v|]; [|done]. destruct (truthy_json v) eqn:E; [by apply truthy_text|done].
Qed.

Lemma slug_not_empty s : slug s <> "".
Proof. unfold slug. destruct (PyStr.is_empty _) eqn:E; [done|]. by apply PyStr.is_empty_false in E. Qed.

Lemma transition_Ret i ep ps : i <> "" -> ep <> "" -> transition i ep ps = Ret (mkTransition i "default" "default" ep ps false).
Proof.
  intros Hi He. unfold transition, AppModels.check_transition. cbn [tr_id from_state to_state endpoint].
  by rewrite (proj2 (AppModels.model_nonempty_Ret i _ tt) Hi), (proj2 (AppModels.model_nonempty_Ret ep _ tt) He).
Qed.

Lemma draft_Ret name v sts ts fs s : v <> "" -> sts <> [] ->
  exists m, draft name v sts ts fs s = Ret m /\ AppModels.wf m /\ app_id m = slug name /\ am_version m = v /\ states m = sts /\ transitions m = ts
    /\ fields m = fs /\ am_status m = s /\ invariants m = [] /\ AppModelService.honest m.
Proof.
  intros Hv Hs. unfold draft. destruct (AppModels.make_model _) as [m|e] eqn:E.
  - exists m. pose proof (AppModels.make_model_is_wf _ _ E) as Hwf. apply AppModels.make_model_Ret in E as (_ & _ & _ & E). cbn in E. subst m.
    by split_and!.
  - exfalso. assert (H : AppModels.make_model (mkModel (slug name) v sts ts [] fs [] [] [] s "" None)
      = Ret (AppModels.with_am_digest (AppModels.content_digest (mkModel (slug name) v sts ts [] fs [] [] [] s "" None)) (mkModel (slug name) v sts ts [] fs [] [] [] s "" None))).
    { apply AppModels.make_model_Ret. split_and!; [apply slug_not_empty|done|done|done]. }
    congruence.
Qed.
End Sources.

(** ** [OpenApiImporter] *)
Module OpenApi.
Import Sources.

Definition HTTP_METHODS : list string := ["get"; "post"; "put"; "delete"; "patch"; "head"; "options"].
Definition TYPE_MAP : dict string :=
  [("integer", "int"); ("number", "float"); ("string", "str"); ("boolean", "bool"); ("array", "list"); ("object", "dict")].

Definition param_type (p : list (string * json)) : string :=
  let raw := match field "schema" p with Some (JObj d) => text_or "type" "" d | _ => "" end in
  let raw := if PyStr.is_empty raw then text_or "type" "" p else raw in
  default "str" (PyDict.get raw TYPE_MAP).

(** [seen_fields] holds the names of the fields. *)
Definition add_field (fs : list Field) (p : list (string * json)) (name : string) : outcome (list Field) :=
  if bool_decide (name ∈ fl_name <$> fs) then Ret fs
  else f ← AppModels.check_field (mkField name (param_type p) None "client"); Ret (fs ++ [f]).

(** The parameters of an operation, with their names. *)
Definition param_of (v : json) : option (string * list (string * json)) :=
  match v with
  | JObj p => match field "name" p with Some (JStr n) => if PyStr.is_empty n then None else Some (n, p) | _ => None end
  | _ => None
  end.
Definition params_of (op : list (string * json)) : list (string * list (string * json)) := omap param_of (listing (field "parameters" op)).

Definition add_operation (path : string) (st : list Transition * list Field) (mo : string * json) : outcome (list Transition * list Field) :=
  let '(ts, fs) := st in
  if negb (bool_decide (PyStr.lower mo.1 ∈ HTTP_METHODS)) then Ret st
  else match mo.2 with
       | JObj op =>
           let ps := params_of op in
           fs ← foldM_outcome (fun fs p => add_field fs p.2 p.1) ps fs;
           t ← transition (text_unless_falsy "operationId" (PyStr.lower mo.1 +:+ path) op) (PyStr.upper mo.1 +:+ " " +:+ path) ps.*1;
           Ret (ts ++ [t], fs)
       | _ => Ret st
       end.

Definition add_path (st : list Transition * list Field) (pm : string * json) : outcome (list Transition * list Field) :=
  match pm.2 with
  | JObj methods => foldM_outcome (add_operation pm.1) methods st
  | _ => Ret st
  end.

Definition to_draft (data : list (string * json)) : outcome AppModel :=
  let info := mapping (field "info" data) in
  r ← foldM_outcome add_path (mapping (field "paths" data)) ([], []);
  draft (text_or "title" "app" info) (text_or "version" "0.0.0" info) ["default"] r.1 r.2 AppModelStatus.DRAFT.

(** *** What an import is *)
Definition good_transition (names : list string) (t : Transition) : Prop :=
  from_state t = "default" /\ to_state t = "default" /\ idempotent t = false /\ Forall (fun p => p ∈ names) (tr_params t)
  /\ exists m path, PyStr.lower m ∈ HTTP_METHODS /\ endpoint t = PyStr.upper m +:+ " " +:+ path.
Definition good (st : list Transition * list Field) : Prop :=
  Forall (good_transition (fl_name <$> st.2)) st.1 /\ NoDup (fl_name <$> st.2)
  /\ Forall (fun f => trusted_source f = "client" /\ fl_range f = None /\ fl_name f <> "") st.2.

Lemma good_more names more t : good_transition names t -> good_transition (names ++ more) t.
Proof. intros (H1 & H2 & H3 & H4 & H5). split_and!; try done. eapply Forall_impl; [exact H4|]. intros p Hp. cbn. apply elem_of_app. by left. Qed.

Lemma param_type_not_empty p : param_type p <> "".
Proof.
  unfold param_type. set (raw := if PyStr.is_empty _ then _ else _). destruct (PyDict.get raw TYPE_MAP) as [t|] eqn:E; [|done]. cbn.
  unfold TYPE_MAP, PyDict.get in E. repeat case_bool_decide; cbn in E; try (injection E as <-; done); done.
Qed.

Lemma add_field_total ts (fs : list Field) p name : name <> "" -> good (ts, fs) ->
  exists fs' more, add_field fs p name = Ret fs' /\ fs' = fs ++ more /\ good (ts, fs') /\ name ∈ fl_name <$> fs'.
Proof.
  intros Hn (H1 & H2 & H3). unfold add_field. case_bool_decide as Hin; [exists fs, []; rewrite app_nil_r; by split_and!|].
  unfold AppModels.check_field. cbn [fl_name fl_type trusted_source].
  rewrite (proj2 (AppModels.model_nonempty_Ret name _ tt) Hn), (proj2 (AppModels.model_nonempty_Ret (param_type p) _ tt) (param_type_not_empty p)).
  cbn [mbind outcome_bind]. rewrite bool_decide_true by set_solver. cbn [negb raise_if mbind outcome_bind].
  set (f := mkField name _ _ _). exists (fs ++ [f]), [f]. cbn [snd fst] in *. split_and!; [done|done| |rewrite fmap_app; set_solver].
  split_and!; cbn [fst snd].
  - eapply Forall_impl; [exact H1|]. intros t Ht. rewrite fmap_app. by apply good_more.
  - rewrite fmap_app. apply NoDup_app. split_and!; [done| |by apply NoDup_singleton]. intros x Hx ->%list_elem_of_singleton. done.
  - apply Forall_app. split; [done|]. by constructor.
Qed.

Lemma add_fields_total ts ps : Forall (fun p => p.1 <> "") ps -> forall fs, good (ts, fs) ->
  exists fs' more, foldM_outcome (fun fs p => add_field fs p.2 p.1) ps fs = Ret fs' /\ fs' = fs ++ more /\ good (ts, fs')
    /\ Forall (fun p => p ∈ fl_name <$> fs') ps.*1.
Proof.
  induction 1 as [|[n p] ps Hn _ IH]; intros fs Hg; [exists fs, []; rewrite app_nil_r; by split_and!|].
  destruct (add_field_total ts fs p n Hn Hg) as (fs1 & m1 & E1 & -> & G1 & Hin).
  destruct (IH _ G1) as (fs2 & m2 & E2 & -> & G2 & Hps). exists ((fs ++ m1) ++ m2), (m1 ++ m2).
  cbn [foldM_outcome snd fst]. rewrite E1. cbn [mbind outcome_bind]. rewrite E2. rewrite <- app_assoc in *. split_and!; [done|done|done|].
  cbn. constructor; [|done]. rewrite !fmap_app in *. set_solver.
Qed.

Lemma add_operation_total path st mo : good st -> exists st', add_operation path st mo = Ret st' /\ good st'.
Proof.
  intros Hg. unfold add_operation. destruct st as [ts fs]. case_bool_decide as Hm; cbn [negb]; [|by eexists].
  destruct mo as [m v]. cbn [fst snd] in *. destruct v; try by eexists.
  assert (Hne : Forall (fun p => p.1 <> "") (params_of l)).
  { apply Forall_forall. intros [n p] (x & _ & Hx)%list_elem_of_omap. unfold param_of in Hx. destruct x; try done.
    destruct (field "name" l0) as [[]|]; try done. destruct (PyStr.is_empty s) eqn:E; [done|]. injection Hx as -> ->. by apply PyStr.is_empty_false in E. }
  destruct (add_fields_total ts _ Hne fs Hg) as (fs' & more & -> & -> & G & Hps). cbn [mbind outcome_bind].
  rewrite transition_Ret.
  - cbn [mbind outcome_bind]. eexists. split; [reflexivity|]. destruct G as (G1 & G2 & G3). split_and!; cbn [fst snd]; [|done|done].
    apply Forall_app. split; [done|]. constructor; [|constructor]. split_and!; try done. by exists m, path.
  - apply text_unless_falsy_not_empty. by destruct m; [set_solver|].
  - by destruct (PyStr.upper m).
Qed.

(** an imported specification is a draft a human can complete. Every document
    with a version is imported, whatever else it holds: a draft with one state,
    a digest of its content, operations of known methods whose parameters are
    fields, and fields named once, without a range and trusted to the client. *)
Theorem every_specification_is_imported data :
  text_or "version" "0.0.0" (mapping (field "info" data)) <> "" ->
  exists m, to_draft data = Ret m /\ AppModels.wf m /\ AppModelService.honest m /\ am_status m = AppModelStatus.DRAFT /\ states m = ["default"]
    /\ good (transitions m, fields m).
Proof.
  intros Hv. unfold to_draft.
  assert (H0 : good ([], [])) by (split_and!; constructor).
  destruct (fold_total add_path good (mapping (field "paths" data)) ([], []) H0) as ([ts fs] & E & Hg).
  { intros st [p v] Hst. unfold add_path. cbn [fst snd]. destruct v; try by eexists. apply fold_total; [done|]. intros s x Hs. by apply add_operation_total. }
  rewrite E. cbn [mbind outcome_bind fst snd].
  destruct (draft_Ret (text_or "title" "app" (mapping (field "info" data))) _ ["default"] ts fs AppModelStatus.DRAFT Hv) as (m & -> & H1 & _ & _ & H2 & H3 & H4 & H5 & _ & H6); [done|].
  exists m. rewrite H3, H4. by split_and!.
Qed.
End OpenApi.

(** ** [PostmanImporter] *)
Module Postman.
Import Sources.

(** [_path_from_url] *)
Definition path_from_url (o : option json) : string :=
  match o with
  | Some (JStr s) => s
  | Some (JObj d) =>
      match field "path" d, field "raw" d with
      | Some (JArr l), _ => "/" +:+ PyStr.join "/" (py_str <$> l)
      | _, Some (JStr raw) => raw
      | _, _ => "/"
      end
  | _ => "/"
  end.

(** [_iter_requests] on one item: a folder, a request or neither. *)
Fixpoint requests_of (v : json) : list (list (string * json) * list (string * json)) :=
  match v with
  | JObj d =>
      (fix folder (e : list (string * json)) :=
         match e with
         | [] => match field "request" d with Some (JObj r) => [(d, r)] | _ => [] end
         | (k, x) :: e => if bool_decide (k = "item")
                          then match x with JArr l => flat_map requests_of l | _ => match field "request" d with Some (JObj r) => [(d, r)] | _ => [] end end
                          else folder e
         end) d
  | _ => []
  end.
Definition iter_requests (o : option json) : list (list (string * json) * list (string * json)) := flat_map requests_of (listing o).

Definition transition_of (n : nat) (x : list (string * json) * list (string * json)) : outcome Transition :=
  transition (slug (text_unless_falsy "name" ("request_" +:+ pretty (Z.of_nat n)) x.1))
    (PyStr.upper (text_or "method" "GET" x.2) +:+ " " +:+ path_from_url (field "url" x.2)) [].

Definition to_draft (data : list (string * json)) : outcome AppModel :=
  let info := mapping (field "info" data) in
  ts ← mapM_outcome (fun nx => transition_of nx.1 nx.2) (imap pair (iter_requests (field "item" data)));
  draft (text_or "name" "app" info) (text_or "version" "0.0.0" info) ["default"] ts [] AppModelStatus.DRAFT.

(** every collection with a version is imported, one transition per request. *)
Lemma every_collection_is_imported data :
  text_or "version" "0.0.0" (mapping (field "info" data)) <> "" ->
  exists m, to_draft data = Ret m /\ AppModels.wf m /\ AppModelService.honest m /\ am_status m = AppModelStatus.DRAFT
    /\ length (transitions m) = length (iter_requests (field "item" data)).
Proof.
  intros Hv. unfold to_draft.
  assert (H : exists ts, mapM_outcome (fun nx : nat * _ => transition_of nx.1 nx.2) (imap pair (iter_requests (field "item" data))) = Ret ts).
  { generalize (imap pair (iter_requests (field "item" data))). intros l. induction l as [|[n x] l [ts IH]]; [by exists []|]. cbn [mapM_outcome fst snd].
    assert (Ht : exists t, transition_of n x = Ret t).
    { eexists. unfold transition_of. apply transition_Ret; [apply slug_not_empty|by destruct (PyStr.upper _)]. }
    destruct Ht as [t ->]. cbn [mbind outcome_bind]. rewrite IH. by eexists. }
  destruct H as [ts E]. rewrite E. cbn [mbind outcome_bind].
  destruct (draft_Ret (text_or "name" "app" (mapping (field "info" data))) _ ["default"] ts [] AppModelStatus.DRAFT Hv) as (m & -> & H1 & _ & _ & _ & H3 & _ & H5 & _ & H6); [done|].
  exists m. split_and!; try done. rewrite H3. apply mapM_outcome_Ret, Forall2_length in E. by rewrite <- E, length_imap.
Qed.
End Postman.

(** ** [TrafficRecorder] *)
Record RecordedRequest : Type := mkRecorded { rec_method : string; rec_path : string; response_fields : list string }.

Module Traffic.
Import Sources.

Definition key_of (r : RecordedRequest) : string * string := (PyStr.upper (rec_method r), rec_path r).
Definition add_request (st : list (string * string) * list Transition) (r : RecordedRequest)
    : outcome (list (string * string) * list Transition) :=
  let '(seen, ts) := st in
  let k := key_of r in
  if bool_decide (k ∈ seen) then Ret st
  else t ← transition (slug (k.1 +:+ "-" +:+ k.2)) (k.1 +:+ " " +:+ k.2) []; Ret (seen ++ [k], ts ++ [t]).
Definition cluster (l : list RecordedRequest) : outcome (list Transition) := snd <$> foldM_outcome add_request l ([], []).

Definition clustered (l : list RecordedRequest) (st : list (string * string) * list Transition) : Prop :=
  NoDup st.1 /\ (forall k, k ∈ st.1 <-> k ∈ key_of <$> l) /\ endpoint <$> st.2 = (fun k => k.1 +:+ " " +:+ k.2) <$> st.1.

(** Every kind of request is kept once, in the order of its first record. *)
Lemma cluster_total l : exists seen ts, cluster l = Ret ts /\ clustered l (seen, ts).
Proof.
  unfold cluster. assert (H : forall l0 st, clustered l0 st -> exists st', foldM_outcome add_request l st = Ret st' /\ clustered (l0 ++ l) st').
  { induction l as [|r l IH]; intros l0 st Hst; [exists st; by rewrite app_nil_r|]. cbn [foldM_outcome].
    assert (H : exists st', add_request st r = Ret st' /\ clustered (l0 ++ [r]) st').
    { destruct st as [seen ts]. destruct Hst as (H1 & H2 & H3). cbn [fst snd] in *. unfold add_request. case_bool_decide as Hin.
      - eexists. split; [done|]. split_and!; cbn [fst snd]; [done| |done]. intros k. rewrite H2, fmap_app, elem_of_app. set_solver.
      - rewrite transition_Ret; [|apply slug_not_empty|by destruct (key_of r).1]. cbn [mbind outcome_bind]. eexists. split; [done|].
        split_and!; cbn [fst snd].
        + apply NoDup_app. split_and!; [done| |by apply NoDup_singleton]. intros x Hx ->%list_elem_of_singleton. done.
        + intros k. rewrite fmap_app, !elem_of_app, H2. done.
        + rewrite !fmap_app, H3. done. }
    destruct H as (st' & -> & Hst'). cbn [mbind outcome_bind]. destruct (IH _ _ Hst') as (st'' & -> & H'). exists st''. by rewrite <- app_assoc in H'. }
  destruct (H [] ([], [])) as ([seen ts] & -> & Hc); [split_and!; [constructor|set_solver|done]|]. by exists seen, ts.
Qed.

(** [draft_states] is the gateway, if there is one. *)
Definition to_draft (draft_states : option (list string -> outcome (list string))) (app_name : string) (l : list RecordedRequest) : outcome AppModel :=
  ts ← cluster l;
  proposed ← match draft_states with
             | Some f => if bool_decide (ts = []) then Ret [] else f (endpoint <$> ts)
             | None => Ret []
             end;
  draft app_name "0.0.1" (match proposed with [] => ["default"] | l => l end) ts [] AppModelStatus.LLM_PROPOSED.

(** recorded traffic becomes a proposal. Without a gateway every recording is
    drafted; with one, a draft has its states, if it proposed any. In both cases
    the model awaits a human and has one transition for each kind of request. *)
Theorem traffic_is_only_proposed draft_states app_name l m :
  to_draft draft_states app_name l = Ret m ->
  am_status m = AppModelStatus.LLM_PROPOSED /\ AppModelService.honest m /\ exists seen, clustered l (seen, transitions m).
Proof.
  unfold to_draft. destruct (cluster_total l) as (seen & ts & -> & Hc). cbn [mbind outcome_bind].
  intros (proposed & _ & H)%bind_Ret. revert H. set (sts := match proposed with [] => ["default"] | l => l end). intros H.
  assert (Hs : sts <> []) by (unfold sts; by destruct proposed).
  destruct (draft_Ret app_name "0.0.1" sts ts [] AppModelStatus.LLM_PROPOSED) as (m' & E & _ & _ & _ & _ & H3 & _ & H5 & _ & H6); [done|done|].
  rewrite E in H. injection H as <-. split_and!; [done|done|]. exists seen. by rewrite H3.
Qed.
End Traffic.

(** ** The routes *)
Module AppModelApi.
Import AppModelService.

Definition request {A} (m : M Registry A) : M Registry A := fun r =>
  match m r with (Ret a, r') => (Ret a, r') | (Raise e, _) => (Raise e, r) end.

(** [_execute] *)
Definition execute_status (e : exn) : option Z :=
  match e with
  | AppModelNotFoundError _ => Some 404
  | AppModelPermissionError _ => Some 403
  | AppModelTransitionError _ => Some 409
  | e => if is_domain_error e then Some 422 else None
  end.
Definition execute {A} (m : M Registry A) : M Registry A := fun r =>
  match m r with
  | (Raise e, r') => (match execute_status e with Some n => Raise (HTTPException n (message e)) | None => Raise e end, r')
  | ok => ok
  end.

(** *** The enrichment of an import *)
Section import.
Context (gateway_call : string -> outcome string).

Definition q (s : string) : string := Canonical.dq +:+ s +:+ Canonical.dq.
Definition enrich_prompt (m : AppModel) : string :=
  "You assist a security engineer modeling an application. From these API "
  +:+ "endpoints, propose business states and invariants. Reply ONLY with JSON "
  +:+ "{" +:+ q "states" +:+ ": [" +:+ q "..." +:+ "], " +:+ q "invariants" +:+ ": [{" +:+ q "id" +:+ ": " +:+ q "..." +:+ ", "
  +:+ q "expr" +:+ ": " +:+ q "..." +:+ "}]}." +:+ String "010" "" +:+ "Endpoints: " +:+ PyStr.join ", " (endpoint <$> transitions m).

(** [for x in value], for the value of an absent key a default list. *)
Definition iterated (o : option json) : outcome (list json) :=
  match o with
  | None => Ret []
  | Some (JArr l) => Ret l
  | Some (JObj d) => Ret (JStr <$> d.*1)
  | Some (JStr s) => Ret ((fun c => JStr (String c "")) <$> String.list_ascii_of_string s)
  | Some v => Raise (TypeError (type_name v))
  end.

Definition add_state (l : list string) (v : json) : list string :=
  match v with JStr s => if PyStr.is_empty s || bool_decide (s ∈ l) then l else l ++ [s] | _ => l end.

(** [v in existing_ids], a set of texts. *)
Definition known_id (v : json) (ids : list string) : outcome bool :=
  match v with
  | JStr s => Ret (bool_decide (s ∈ ids))
  | JArr _ | JObj _ => Raise (TypeError "unhashable type")
  | _ => Ret false
  end.

Definition add_invariant (st : list Invariant * list string) (v : json) : outcome (list Invariant * list string) :=
  let '(l, ids) := st in
  match v with
  | JObj d =>
      match field "id" d, field "expr" d with
      | Some i, Some x =>
          if truthy_json i && truthy_json x then
            known ← known_id i ids;
            if (known : bool) then Ret st
            else n ← AppModels.check_invariant (mkInvariant (py_str i) (py_str x)); Ret (l ++ [n], ids ++ [py_str i])
          else Ret st
      | _, _ => Ret st
      end
  | _ => Ret st
  end.

(** [replace(draft, states=.., invariants=..)]: the digest is kept. *)
Definition with_proposals (sts : list string) (invs : list Invariant) (m : AppModel) : AppModel :=
  mkModel (app_id m) (am_version m) sts (transitions m) invs (fields m) (roles m) (idempotency m) (out_of_scope_rules m) (am_status m)
    (am_digest m) (am_signature m).

Definition merge_proposals (data : json) (m : AppModel) : outcome AppModel :=
  match data with
  | JObj d =>
      ss ← iterated (field "states" d);
      vs ← iterated (field "invariants" d);
      r ← Sources.foldM_outcome add_invariant vs (invariants m, inv_id <$> invariants m);
      AppModels.make_model (with_proposals (foldl add_state (states m) ss) r.1 m)
  | v => Raise (AttributeError (type_name v +:+ " has no attribute get"))
  end.

(** [_llm_propose_enrichment] *)
Definition propose_enrichment (m : AppModel) : outcome AppModel :=
  match gateway_call (enrich_prompt m) with
  | Raise e => if is_domain_error e || is_value_error e then Ret m else Raise e
  | Ret text => match JsonText.loads text with Some data => merge_proposals data m | None => Ret m end
  end.

Definition importer (source_type : string) : option (list (string * json) -> outcome AppModel) :=
  if bool_decide (source_type = "openapi") then Some OpenApi.to_draft
  else if bool_decide (source_type = "postman") then Some Postman.to_draft else None.

Definition import_app_model (source_type : string) (doc : list (string * json)) (use_llm : bool) : M Registry AppModel :=
  request
    (to_draft ← lift (unwrap (importer source_type) (HTTPException 422 ("unknown source_type: " +:+ source_type)));
     draft ← lift (to_draft doc);
     if use_llm then enriched ← lift (propose_enrichment draft); create_proposed enriched else create draft false).
End import.

(** *** The other routes; the body of a request is a model without a status. *)
Definition body (m : AppModel) : outcome AppModel :=
  ts ← mapM_outcome AppModels.check_transition (transitions m);
  invs ← mapM_outcome AppModels.check_invariant (invariants m);
  fs ← mapM_outcome AppModels.check_field (fields m);
  rs ← mapM_outcome AppModels.check_role (roles m);
  AppModels.make_model (mkModel (app_id m) (am_version m) (states m) ts invs fs rs [] (out_of_scope_rules m) AppModelStatus.DRAFT "" None).

Definition create_app_model (m : AppModel) (llm_proposed : bool) : M Registry AppModel :=
  request (m ← lift (body m); execute (create m llm_proposed)).
Definition update_app_model (k : string * string) (m : AppModel) : M Registry AppModel :=
  request (m ← lift (body (mkModel k.1 k.2 (states m) (transitions m) (invariants m) (fields m) (roles m) [] (out_of_scope_rules m) AppModelStatus.DRAFT "" None));
           execute (update m)).
Definition revise_app_model (k : string * string) (m : AppModel) (new_version : option string) : M Registry AppModel :=
  request (m ← lift (body (mkModel k.1 k.2 (states m) (transitions m) (invariants m) (fields m) (roles m) [] (out_of_scope_rules m) AppModelStatus.DRAFT "" None));
           execute (revise m new_version)).
Definition get_app_model (k : string * string) : M Registry AppModel := request (execute (get k)).
Definition validate_app_model (k : string * string) (role : string) : M Registry AppModel := request (execute (validate k role)).
Definition sign_app_model (k : string * string) (role : string) (signer : outcome (string -> string)) : M Registry AppModel :=
  request
    (sg ← lift (match signer with Raise (SigningKeyNotFound msg) => Raise (HTTPException 404 msg) | o => o end);
     execute (sign k sg role)).

Definition check_drift (k : string * string) (sts : list string) (ts : list Transition) (r : Registry) : outcome DriftReport :=
  current ← unwrap (r !! k) (HTTPException 404 "app model not found");
  ts ← mapM_outcome AppModels.check_transition ts;
  m ← AppModels.make_model (mkModel k.1 k.2 sts ts [] [] [] [] [] AppModelStatus.DRAFT "" None);
  Ret (Drift.check current m).
End AppModelApi.

(** ** Examples *)
Module ModelSourcesDemo.
Import AppModelApi AppModelService.

Definition no_model (prompt : string) : outcome string := Raise (LLMError "no model").
Definition answering (text prompt : string) : outcome string := Ret text.
Definition obj (l : list (string * json)) : json := JObj l.
Definition petstore (version : string) : list (string * json) :=
  [("info", obj [("title", JStr "Pet Store"); ("version", JStr version)]);
   ("paths", obj [("/pets/{id}", obj
      [("parameters", JArr [obj [("name", JStr "id"); ("schema", obj [("type", JStr "integer")])]]);
       ("get", obj [("parameters", JArr [obj [("name", JStr "limit"); ("schema", obj [("type", JStr "integer")])]])]);
       ("trace", obj [])])])].

(** The parameters of a path, which OpenAPI shares among its operations, are
    lost, and so are trace operations. *)
Example shared_parameters_are_lost :
  (fun m => (app_id m, (fun t => (tr_id t, endpoint t, tr_params t)) <$> transitions m, (fun f => (fl_name f, fl_type f)) <$> fields m))
    <$> OpenApi.to_draft (petstore "1.0")
  = Ret ("pet-store", [("get/pets/{id}", "GET /pets/{id}", ["limit"])], [("limit", "int")]).
Proof. vm_compute. reflexivity. Qed.

(** A document whose version is empty, or a model that answers a list, is an
    error no route catches. *)
Example uncaught_imports :
  (import_app_model no_model "openapi" (petstore "") false ∅).1 = Raise (DomainValidationError "AppModel.version must be non-empty")
  /\ match (import_app_model (answering "[]") "openapi" (petstore "1.0") true ∅).1 with Raise (AttributeError _) => True | _ => False end.
Proof. vm_compute. done. Qed.

(** Two requests of one name, in two folders. *)
Definition collection : list (string * json) :=
  let create path := obj [("name", JStr "Create"); ("request", obj [("method", JStr "POST"); ("url", obj [("path", JArr [JStr path])])])] in
  [("info", obj [("name", JStr "Shop")]);
   ("item", JArr [obj [("name", JStr "Orders"); ("item", JArr [create "orders"])]; obj [("name", JStr "Carts"); ("item", JArr [create "carts"])]])].
Definition shop : string * string := ("shop", "0.0.0").
Definition signed_models : gmap (string * string) AppModel :=
  let r := (import_app_model no_model "postman" collection false ∅).2 in
  let r := (validate_app_model shop "human" r).2 in
  (sign_app_model shop "human" (Ret demo_signer) r).2.

(** Both become transitions with one identifier, so their tests have one
    signature and are stored as one case: one endpoint stays untested. *)
Example one_test_for_two_endpoints :
  (fun m => (am_status m, (fun t => (tr_id t, endpoint t)) <$> transitions m)) <$> signed_models !! shop
  = Some (AppModelStatus.SIGNED, [("create", "POST /orders"); ("create", "POST /carts")])
  /\ let '(o, r) := GenerateTests.generate_tests [Restler.strategy] shop signed_models ∅ in
     (length <$> o) = Ret 2%nat /\ size r = 1%nat.
Proof. vm_compute. done. Qed.

(** Recorded paths that differ in their separators share an identifier too. *)
Example recorded_paths_collide :
  match Traffic.cluster [mkRecorded "post" "/a/b" []; mkRecorded "POST" "/a-b" []; mkRecorded "POST" "/a/b" []] with
  | Ret ts => (fun t => (tr_id t, endpoint t)) <$> ts = [("post-a-b", "POST /a/b"); ("post-a-b", "POST /a-b")]
  | Raise _ => False
  end.
Proof. vm_compute. reflexivity. Qed.
End ModelSourcesDemo.
